(* ===== verification/_CoqProject ===== *)
-Q . S2P
Prelude.v
StdMap.v
CppString.v
Externals.v
Types.v
Topics.v
Endpoint.v
AllowedTopicList.v
DiscoveryDatabase.v
PayloadPool.v
ServiceRegistry.v
Track.v
Auxiliar.v
Address.v
Configuration.v
Yaml.v
YamlProperties.v
YamlErrors.v
YamlMigration.v
Participants.v
Dummy.v
DDSBridge.v
RPCBridge.v
Router.v
Rtps.v
RtpsReader.v
RtpsWriter.v
MultiWriter.v
ParticipantAttributes.v
RtpsParticipant.v
RtpsWorld.v
RtpsBridge.v
RtpsSession.v
RtpsDestroy.v
RtpsRpc.v
RtpsRpcOpen.v
Texts.v
OptionParser.v
CommandLine.v
RouterExceptions.v
RtpsConstruct.v
Tool.v
