(* ===== verification/Prelude.v ===== *)
(** * DDS Router: a verification development

    DDS Router forwards DDS messages and RPC calls between participants: each
    participant of the configuration listens to a network, what one of them receives in
    an allowed topic is written by the others.  This library models the C++ of
    [ddsrouter_core], [ddsrouter_yaml] and the tool that runs them, and proves what makes it correct.

    ** The program and the files that model it

    The parts and how they call each other, from the outside in.  Paths are under
    [src/ddsrouter_core/src/cpp] unless they say otherwise.

    - [Tool.v], [CommandLine.v], [OptionParser.v]: [src/tools/ddsrouter_tool] and the parser of
      [src/thirdparty/optionparser]; [main], which reads the command line and the file, makes a
      router, starts it, reloads it when the file changes, and stops it.
      [RouterExceptions.v] says which exceptions leave the router.
    - [Yaml.v], [YamlProperties.v], [YamlErrors.v], [YamlMigration.v]: [src/ddsrouter_yaml]; how a configuration is
      read from the tree of a YAML document, in the three versions of the format.
    - [Configuration.v]: [configuration/]; which configurations are valid.  The
      participants they describe are made by [core/ParticipantFactory.cpp].
    - [Router.v]: [core/DDSRouterImpl.cpp]; construction, [start], [stop],
      [reload_configuration] and the callbacks of discovery.  It keeps the topics and
      services found with whether they are active, and makes one bridge for each.
    - [DDSBridge.v]: [communication/DDSBridge.cpp]; one reader and one writer per
      participant for a topic, and one track per reader.
    - [Track.v]: [communication/Track.cpp]; takes the data of one reader and writes them
      with the writers of the others, in a task of the thread pool.
    - [RPCBridge.v], [ServiceRegistry.v]: [communication/rpc/]; forwards requests to the
      participants that have servers and the replies back to who asked.
    - [DiscoveryDatabase.v]: [dynamic/DiscoveryDatabase.cpp]; the endpoints found, a queue
      of operations and the thread that processes it, with the condition variable on which
      it waits.
    - [AllowedTopicList.v]: [dynamic/AllowedTopicList.cpp]; the filters of topics.
    - [Participants.v], [Dummy.v]: [core/ParticipantsDatabase.cpp], [participant/implementations/auxiliar].
    - [Auxiliar.v]: [reader/] and [writer/implementations/auxiliar]; the base classes and the
      dummy, echo and blank endpoints.
    - [Rtps.v], [RtpsReader.v], [RtpsWriter.v], [MultiWriter.v]: [reader/] and
      [writer/implementations/rtps]; the endpoints over Fast DDS, with the filters of the
      writers and the attributes they ask for.
    - [ParticipantAttributes.v], [RtpsParticipant.v]: [participant/implementations/rtps]; the
      attributes of the participants, their discovery listeners and the endpoints they make.
    - [RtpsConstruct.v]: the construction of a router on the constructors and the [init] of
      those participants.
    - [RtpsWorld.v], [RtpsBridge.v]: the parts above put together; the readers and writers of
      several RTPS participants on one memory and one payload pool, under the interfaces that
      the tracks and the bridges use.
    - [RtpsSession.v], [RtpsDestroy.v]: the life of a bridge between RTPS participants: its
      specification, an abstract relay; any sequence of arrivals of changes and runs of
      tasks, which refines it; and its destruction with the destructors of its endpoints.
    - [RtpsRpc.v], [RtpsRpcOpen.v]: the bridges of services on the readers and writers of Fast
      DDS, from their first [enable] to a request and its reply.
    - [Texts.v]: the [operator <<] of the types and objects, and what the echo participant shows.
    - [PayloadPool.v]: [efficiency/payload]; the pools of messages with reference counters.
    - [Address.v], [Types.v], [Topics.v], [Endpoint.v]: [types/].
    - [StdMap.v], [CppString.v], [Externals.v], and this file: the C++ standard library, what
      is used of other libraries, and what every file shares.

    ** How the code is modelled

    A method is a [prog S A]: a function of the state of its object and of what it reaches,
    that returns a value or an exception and the state left.  A read or write of memory that
    the program may not make, and a call that ends it, is the exception
    [UndefinedBehaviour], which nothing catches.  Integers that can wrap around are [Z] with
    the modulus written.  [std::map] and [std::set] are sorted lists ordered by the
    [operator <] of the source ([StdMap.v]), since iteration order and keys that compare
    equal matter; the memory of the pools is a finite map of blocks.  Objects shared by
    pointer live in a store.  Code that runs in several threads (the track, the database, the
    release of payloads) is modelled twice: as functions and as a step relation whose steps
    are the atomic actions.

    Fast DDS, yaml-cpp and cpp_utils are not in the repository: what is used of them is a
    class of operations with a class of laws that their documentation gives
    ([Externals.v], [Yaml.v], [CommandLine.v], [Rtps.v], [RtpsReader.v], [RtpsWriter.v]); each has an instance, with which the
    witnesses of the theorems are computed.  Components see each other through such
    interfaces too: [CommWorld] in [Track.v] (readers and writers), [Participants] in
    [Participants.v] (each implemented by the auxiliary and by the RTPS endpoints), [RpcWorld] with [RpcProgress] in [RPCBridge.v] (implemented in [RtpsRpc.v]), [RouterWorld] in
    [Router.v], [DocumentedExceptions] in [RouterExceptions.v], [PoolMethods] and [PoolSpec] in [PayloadPool.v]; the
    implementations are instances.

    ** What the theorems show

    - Routing: an enabled router forwards exactly the topics found and allowed, across
      every sequence of callbacks and reloads; a bridge sends what a participant receives to
      every other one, and to itself only if it repeats; a track forwards every message
      once, in order, to every writer.
    - End to end: whatever changes Fast DDS brings to the readers of the RTPS participants of a
      bridge and whenever the tasks of its tracks run, every participant has sent the bytes
      of what was forwarded, once and in order, to all but itself and, if it repeats, who it
      comes from; what waits can always be forwarded, and is; and when the bridge is
      destroyed Fast DDS and the payload pool are as before it was made ([RtpsSession.v] and
      [RtpsDestroy.v], for the topics without partitions nor ownership).
    - Concurrency: a track never loses a wake-up, never runs two tasks, and what arrives is
      delivered; operations pushed to the database are processed once, in order, whatever
      the interleaving; whatever is pushed, the thread of the database is woken for it and
      processes it, without counting on spurious wake-ups; stopping the database wakes and
      ends its thread and calls nobody.
    - RPC: a request goes to the participants that have servers, its reply goes back to the
      client that asked with its own identity, once; on the wire, the server gets the bytes of
      the request and the address of the proxy client, and the client those of the reply; the
      loop that forwards them ends ([RtpsRpc.v]).
    - Memory: the pools never use a freed block, never free one twice, and free each when
      its last owner releases it; the readers and writers over Fast DDS keep that
      account, on every path of [take], [write], [init] and the destructor.
    - Discovery: the database knows of each remote endpoint what its announcements say; the
      QoS that go with the data are those announced.
    - The tool: the options of the help are understood, long or short, grouped or not; [main]
      ends with the code of each case and lets no exception out; through any sequence of
      reloads and discoveries its router forwards what the last good configuration read
      allows, and a bad file does not touch it.
    - YAML: a file is read or refused: the handlers of the reader let no exception of yaml-cpp
      out; a configuration written
      as a document is read back as it was; whatever the document, what is read has known kinds, the class of each kind and complete TLS
      options; a document of version 1.0 is read as its translation to version 2.0.
    - Configuration: [is_valid] is equivalent to a description that does not use the functions
      of the program; a valid configuration whose participants listen on one public address
      gives a router; the attributes of a participant are those configured.
    - Where the code does not do what it means to, a theorem says what it does instead.

    ** Fuel and bounds

    [process_queue_] and the transmissions have as fuel the items or messages there are: the
    theorems about them say how much is enough and that the run ends with it.  The steps that
    the thread of the database and the calls under way can take are bounded by [work].  The
    search of [find_same_wan] needs one turn when it returns; otherwise no fuel is enough,
    which is proved; the construction of a router has the same fuel.  Reference counters are 32 bits and the pool's totals 64: the theorems assume fewer
    references than that, and need it.  A session assumes it where a task runs, and fewer
    than 2^31 changes at a reader, which the 32 bits of the counter of a track need.

    ** What is not modelled

    - The modes of the parser of options that the tool does not use, and its messages.
    - What is logged and when, except the lines of the echo participant.
    - [onParticipantDiscovery], [onReaderMatched] and [onWriterMatched], which only log;
      [CacheChangePool.cpp], which only forwards to a class of cpp_utils; the file watcher of
      [thirdparty/]; getters, and constructors that only copy their arguments.
    - Sessions, destruction and RPC over RTPS of the topics with partitions or ownership, whose
      writers are made while writing ([MultiWriter.v] says what one of them does).
    - The constructors of the handlers of signals, files and timers of [main], code of
      cpp_utils: the events they bring are given.
    - [malloc] returns a block ([FastPayloadPool] does not look whether it did); the WAN address
      of a transport, four bytes in Fast DDS, is the text it is set from; the pointers that the
      constructors of the endpoints leave unset are null until [init], which always follows.
    - Locks: the methods of one object are atomic; what the sources do outside their locks is
      in the step relations. *)
From stdpp Require Export base tactics list strings numbers sets.

(** ** Notations *)

Declare Scope ddsrouter_scope.
Delimit Scope ddsrouter_scope with ddsrouter.

(** ** Machine integers

    [unsigned int] / [uint32_t] and [size_t] / [uint64_t] values are kept as
    [Z] with the wrap-around of C++ unsigned arithmetic written out. *)
Definition u32 (z : Z) : Z := z `mod` 2 ^ 32.
Definition u64 (z : Z) : Z := z `mod` 2 ^ 64.

Lemma u32_small z : (0 <= z < 2 ^ 32)%Z -> u32 z = z.
Proof. intros ?. unfold u32. by apply Z.mod_small. Qed.

Lemma u64_small z : (0 <= z < 2 ^ 64)%Z -> u64 z = z.
Proof. intros ?. unfold u64. by apply Z.mod_small. Qed.

Lemma u32_range z : (0 <= u32 z < 2 ^ 32)%Z.
Proof. unfold u32. by apply Z.mod_pos_bound. Qed.

Lemma u64_range z : (0 <= u64 z < 2 ^ 64)%Z.
Proof. unfold u64. by apply Z.mod_pos_bound. Qed.

(** ** Exceptions and stateful code

    The exceptions of [cpp_utils/exception] that the sources throw, and
    [StdException] for those of the functions of the standard library;
    [YamlException] stands for those of yaml-cpp.
    [UndefinedBehaviour] is not an exception of the program: it marks a run in
    which the program reads, writes or frees memory it may not, after which
    nothing can be said; no handler of the model catches it. *)
Inductive exn : Type :=
| InconsistencyException
| InitializationException
| ConfigurationException
| YamlException
| DNSException
| StdException
| UndefinedBehaviour.

#[export] Instance exn_eq_dec : EqDecision exn.
Proof. solve_decision. Defined.

Inductive outcome (A : Type) : Type :=
| Ok (a : A)
| Throw (e : exn).
Arguments Ok {A} a.
Arguments Throw {A} e.

#[export] Instance outcome_eq_dec `{EqDecision A} : EqDecision (outcome A).
Proof. solve_decision. Defined.

Definition is_ok {A} (r : outcome A) : bool := match r with Ok _ => true | Throw _ => false end.

Lemma is_ok_pair {A S} (r : outcome A * S) : is_ok r.1 = true -> exists a s, r = (Ok a, s).
Proof. destruct r as [[a|e] s]; [eauto|done]. Qed.

Lemma is_throw_pair {A S} (r : outcome A * S) : is_ok r.1 = false -> exists e s, r = (Throw e, s).
Proof. destruct r as [[a|e] s]; [done|eauto]. Qed.

(** A C++ member function: a transformer of the state of the object that keeps
    the changes made before an exception is thrown. *)
Definition prog (S A : Type) : Type := S -> outcome A * S.

#[export] Instance prog_ret {S} : MRet (prog S) := fun A a s => (Ok a, s).
#[export] Instance prog_bind {S} : MBind (prog S) := fun A B k m s =>
  match m s with
  | (Ok a, s') => k a s'
  | (Throw e, s') => (Throw e, s')
  end.

Definition throw {S A} (e : exn) : prog S A := fun s => (Throw e, s).
Definition get {S} : prog S S := fun s => (Ok s, s).
Definition gets {S A} (f : S -> A) : prog S A := fun s => (Ok (f s), s).
Definition modify {S} (f : S -> S) : prog S unit := fun s => (Ok tt, f s).

(** A [noexcept] method: a transformer that always returns. *)
Definition always {S A} (f : S -> A * S) : prog S A := fun s => let '(a, s') := f s in (Ok a, s').

(** [try { m } catch (const E&) { h }] *)
Definition try_catch {S A} (m : prog S A) (e : exn) (h : prog S A) : prog S A := fun s =>
  match m s with
  | (Throw e', s') => if decide (e' = e) then h s' else (Throw e', s')
  | r => r
  end.

(** [for (x : l) body(x);] *)
Fixpoint for_each {S A} (l : list A) (body : A -> prog S unit) : prog S unit :=
  match l with
  | [] => mret tt
  | x :: l' => body x ;; for_each l' body
  end.

(** Runs on an object [s] embedded in a larger state. *)
Definition zoom {S T A} (view : S -> T) (upd : T -> S -> S) (m : prog T A) : prog S A :=
  fun s => let '(r, t) := m (view s) in (r, upd t s).

Definition exec {S A} (m : prog S A) (s : S) : S := (m s).2.
Definition result {S A} (m : prog S A) (s : S) : outcome A := (m s).1.

(** A run that returns, with the state it leaves. *)
Lemma is_ok_state {S1 S2 A} (m : prog (S1 * S2) A) s :
  is_ok (m s).1 = true -> exists a, m s = (Ok a, ((exec m s).1, (exec m s).2)).
Proof. unfold exec. destruct (m s) as [[a|e] [s1 s2]]; [by exists a|done]. Qed.

Section ProgLemmas.
Context {S : Type}.

Lemma bind_ok {A B} (m : prog S A) (k : A -> prog S B) s a s' :
  m s = (Ok a, s') -> (m ≫= k) s = k a s'.
Proof. intros H. unfold mbind, prog_bind. by rewrite H. Qed.

Lemma bind_throw {A B} (m : prog S A) (k : A -> prog S B) s e s' :
  m s = (Throw e, s') -> (m ≫= k) s = (Throw e, s').
Proof. intros H. unfold mbind, prog_bind. by rewrite H. Qed.

Lemma bind_inv_ok {A B} (m : prog S A) (k : A -> prog S B) s b s'' :
  (m ≫= k) s = (Ok b, s'') -> exists a s', m s = (Ok a, s') /\ k a s' = (Ok b, s'').
Proof.
  unfold mbind, prog_bind. destruct (m s) as [[a|e] s'] eqn:E; intros; [eauto|congruence].
Qed.

Lemma bind_inv_throw {A B} (m : prog S A) (k : A -> prog S B) s e s'' :
  (m ≫= k) s = (Throw e, s'') -> m s = (Throw e, s'') \/ exists a s', m s = (Ok a, s') /\ k a s' = (Throw e, s'').
Proof.
  unfold mbind, prog_bind. destruct (m s) as [[a|e'] s'] eqn:E; intros H; [right; by exists a, s'|left; congruence].
Qed.

(** Loop invariant rule for range-based [for]: a state property kept by the
    body is kept by the loop, exception or not. *)
Lemma for_each_inv {A} (P : S -> Prop) (l : list A) (body : A -> prog S unit) :
  (forall x s, x ∈ l -> P s -> P (exec (body x) s)) ->
  forall s, P s -> P (exec (for_each l body) s).
Proof.
  induction l as [|x l IH]; intros Hb s Hs; [done|].
  assert (P (exec (body x) s)) as H1 by (apply Hb; set_solver).
  unfold exec in *. simpl. unfold mbind, prog_bind.
  destruct (body x s) as [[?|?] s'] eqn:E; simpl in *; [|done].
  apply IH; [set_solver|done].
Qed.

Lemma for_each_step {A} (x : A) l (body : A -> prog S unit) s s' :
  body x s = (Ok tt, s') -> for_each (x :: l) body s = for_each l body s'.
Proof. intros H. simpl. unfold mbind, prog_bind. by rewrite H. Qed.

(** A loop whose body never throws is a left fold of the body's effect. *)
Lemma for_each_total {A} (l : list A) (body : A -> prog S unit) (f : A -> S -> S) :
  (forall x s, body x s = (Ok tt, f x s)) ->
  forall s, for_each l body s = (Ok tt, fold_left (fun s x => f x s) l s).
Proof.
  intros Hb. induction l as [|x l IH]; intros s; [done|].
  simpl. unfold mbind, prog_bind. by rewrite Hb.
Qed.

Lemma for_each_fmap {A B} (g : A -> B) l (body : B -> prog S unit) s :
  for_each l (fun x => body (g x)) s = for_each (g <$> l) body s.
Proof.
  revert s. induction l as [|x l IH]; intros s; [done|]. cbn [for_each fmap list_fmap].
  unfold mbind, prog_bind. destruct (body (g x) s) as [[[]|e] s']; auto.
Qed.

(** *** Exceptions

    The exceptions that may leave a program. *)
Definition throws_only {A} (P : exn -> Prop) (m : prog S A) : Prop :=
  forall s e s', m s = (Throw e, s') -> P e.

Section Throws.
Context (P : exn -> Prop).

Lemma throws_ret {A} (a : A) : throws_only P (mret a).
Proof. by intros s e s'. Qed.

Lemma throws_throw {A} e : P e -> throws_only P (throw e : prog S A).
Proof. by intros H s e' s' [= <- <-]. Qed.

Lemma throws_get : throws_only P get.
Proof. by intros s e s'. Qed.

Lemma throws_gets {A} (f : S -> A) : throws_only P (gets f).
Proof. by intros s e s'. Qed.

Lemma throws_modify f : throws_only P (modify f).
Proof. by intros s e s'. Qed.

Lemma throws_always {A} (f : S -> A * S) : throws_only P (always f).
Proof. intros s e s'. unfold always. by destruct (f s). Qed.

Lemma throws_bind {A B} (m : prog S A) (k : A -> prog S B) :
  throws_only P m -> (forall a, throws_only P (k a)) -> throws_only P (m ≫= k).
Proof.
  intros Hm Hk s e s'. unfold mbind, prog_bind. destruct (m s) as [[a|e'] s1] eqn:E; [apply Hk|].
  intros [= <- <-]. by eapply Hm.
Qed.

Lemma throws_for_each {A} (l : list A) (body : A -> prog S unit) :
  (forall x, throws_only P (body x)) -> throws_only P (for_each l body).
Proof.
  intros Hb. induction l as [|x l IH]; [apply throws_ret|]. by apply throws_bind.
Qed.

Lemma throws_if {A} (b : bool) (m m' : prog S A) :
  throws_only P m -> throws_only P m' -> throws_only P (if b then m else m').
Proof. by destruct b. Qed.

End Throws.

Lemma throws_weaken {A} (P Q : exn -> Prop) (m : prog S A) :
  (forall e, P e -> Q e) -> throws_only P m -> throws_only Q m.
Proof. intros H Hm s e s' E. by eapply H, Hm. Qed.

(** What is caught does not leave. *)
Lemma throws_try {A} (P : exn -> Prop) (m : prog S A) e h :
  throws_only (fun x => x = e \/ P x) m -> throws_only P h -> throws_only P (try_catch m e h).
Proof.
  intros Hm Hh s x s'. unfold try_catch. destruct (m s) as [[a|e'] s1] eqn:E; [done|].
  destruct (decide (e' = e)); [apply Hh|]. intros [= <- <-]. by destruct (Hm _ _ _ E).
Qed.

End ProgLemmas.

Lemma throws_zoom {S T A} P (view : S -> T) upd (m : prog T A) :
  throws_only P m -> throws_only P (zoom view upd m).
Proof.
  intros Hm s e s'. unfold zoom. destruct (m (view s)) as [r t] eqn:E. intros [= -> <-]. by eapply Hm.
Qed.

Create HintDb throws.
#[export] Hint Resolve throws_ret throws_get throws_gets throws_modify throws_always throws_if throws_zoom : throws.

(** Goes through a program as its code does. *)
Ltac throws_step :=
  match goal with
  | |- throws_only _ (_ ≫= _) => apply throws_bind; [|intros]
  | |- throws_only _ (for_each _ _) => apply throws_for_each; intros
  | |- throws_only _ (zoom _ _ _) => apply throws_zoom
  | |- throws_only _ (if _ then _ else _) => apply throws_if
  | |- throws_only _ (match ?x with _ => _ end) => destruct x
  | |- throws_only _ (throw _) => by apply throws_throw; auto
  | |- throws_only _ _ => solve [eauto with throws]
  end.
Ltac throws := repeat throws_step.

(** ** Lists *)

Lemma existsb_False {A} (f : A -> bool) l :
  existsb f l = false <-> forall x, x ∈ l -> f x = false.
Proof.
  rewrite <- not_true_iff_false, existsb_exists. split.
  - intros H x Hx. apply not_true_iff_false. intros Hf. apply H.
    exists x. split; [by apply list_elem_of_In|done].
  - intros H (x & Hx & Hf). apply list_elem_of_In in Hx. rewrite H in Hf; done.
Qed.

Lemma existsb_True {A} (f : A -> bool) l :
  existsb f l = true <-> exists x, x ∈ l /\ f x = true.
Proof.
  rewrite existsb_exists. split; intros (x & Hx & Hf); exists x;
    (split; [by apply list_elem_of_In|done]).
Qed.

Lemma tail_drop {A} n (l : list A) : tail (drop n l) = drop (S n) l.
Proof. revert l. induction n as [|n IH]; intros [|x l]; try done. apply IH. Qed.

(** The last [n] elements of a list. *)
Definition last_n {A} (n : nat) (l : list A) : list A := drop (length l - n) l.

Lemma length_last_n {A} n (l : list A) : length (last_n n l) = Nat.min n (length l).
Proof. unfold last_n. rewrite length_drop. lia. Qed.

(** A window of the [n] newest elements: the oldest one goes out when it is full. *)
Lemma last_n_snoc {A} n (l : list A) x :
  last_n n (l ++ [x]) =
    if (length (last_n n l) =? n)%nat then tail (last_n n l ++ [x]) else last_n n l ++ [x].
Proof.
  rewrite length_last_n. unfold last_n. rewrite length_app. simpl.
  rewrite <- (drop_app_le l [x]) by lia. rewrite tail_drop.
  destruct (Nat.eqb_spec (Nat.min n (length l)) n); f_equal; lia.
Qed.

Lemma fold_left_inv {A S} (P : S -> Prop) (f : S -> A -> S) l s :
  P s -> (forall x s, x ∈ l -> P s -> P (f s x)) -> P (fold_left f l s).
Proof.
  revert s. induction l as [|x l IH]; intros s Hs Hf; [done|].
  simpl. apply IH; [apply Hf; set_solver|]. intros; apply Hf; set_solver.
Qed.

(** ** Tactics and hints *)

Create HintDb ddsrouter.

(** Case analysis on every [if]/[match] scrutinee of the goal. *)
Ltac case_match_eqn :=
  match goal with
  | |- context [match ?x with _ => _ end] => destruct x eqn:?
  end.

(** Runs the primitive steps of a method. *)
Ltac run_prog := unfold mbind, prog_bind, mret, prog_ret, get, modify, throw; cbn [fst snd].

(** Turns the boolean tests of the code into propositions. *)
Ltac reflect_bools :=
  repeat match goal with
  | H : (_ && _) = true |- _ => apply andb_true_iff in H as [? ?]
  | H : (_ || _) = false |- _ => apply orb_false_iff in H as [? ?]
  | H : negb _ = true |- _ => apply negb_true_iff in H
  | H : negb _ = false |- _ => apply negb_false_iff in H
  | H : (_ =? _)%Z = true |- _ => apply Z.eqb_eq in H
  | H : (_ =? _)%Z = false |- _ => apply Z.eqb_neq in H
  | H : (_ <? _)%Z = true |- _ => apply Z.ltb_lt in H
  | H : (_ <? _)%Z = false |- _ => apply Z.ltb_ge in H
  | H : (_ <=? _)%Z = true |- _ => apply Z.leb_le in H
  | H : (_ <=? _)%Z = false |- _ => apply Z.leb_gt in H
  | H : (_ =? _)%string = true |- _ => apply String.eqb_eq in H
  | H : (_ =? _)%string = false |- _ => apply String.eqb_neq in H
  end.
