(* ===== verification/StdMap.v ===== *)
(** * [std::map] and [std::set]

    The ordered containers of the C++ standard library, as the sources use
    them: a map is the list of its entries in increasing order of the keys,
    where the order is the key type's [operator<].  Two keys that are
    equivalent for that order ([!(a < b) && !(b < a)]) are the same key even
    when they are different objects; the entry keeps the key object it was
    created with. *)
From S2P Require Import Prelude.
From Stdlib Require Import Sorted.

(** ** Key order: [operator<] *)

Class Less (K : Type) := less : K -> K -> bool.

(** What [std::map] requires of [operator<] (a strict weak ordering). *)
Class StrictWeak (K : Type) `{Less K} : Prop := {
  less_irrefl : forall a : K, less a a = false;
  less_asym : forall a b : K, less a b = true -> less b a = false;
  less_ntrans : forall a b c : K, less a b = false -> less b c = false -> less a c = false
}.

(** Keys that [std::map] identifies. *)
Definition keqv `{Less K} (a b : K) : bool := negb (less a b) && negb (less b a).

Section Order.
Context `{StrictWeak K}.
Implicit Types a b c : K.

Lemma less_trans a b c : less a b = true -> less b c = true -> less a c = true.
Proof.
  intros Hab Hbc. apply not_false_is_true. intros Hac.
  pose proof (less_asym _ _ Hbc) as Hcb.
  by rewrite (less_ntrans _ _ _ Hac Hcb) in Hab.
Qed.

Lemma keqv_spec a b : keqv a b = true <-> less a b = false /\ less b a = false.
Proof. unfold keqv. by rewrite andb_true_iff, !negb_true_iff. Qed.

Lemma keqv_refl a : keqv a a = true.
Proof. apply keqv_spec. split; apply less_irrefl. Qed.

Lemma keqv_sym a b : keqv a b = keqv b a.
Proof. unfold keqv. by rewrite andb_comm. Qed.

Lemma keqv_trans a b c : keqv a b = true -> keqv b c = true -> keqv a c = true.
Proof. rewrite !keqv_spec. intros [] []. split; eauto using less_ntrans. Qed.

Lemma less_keqv_l a b c : keqv a b = true -> less a c = less b c.
Proof.
  rewrite keqv_spec. intros [H1 H2].
  destruct (less a c) eqn:Ea, (less b c) eqn:Eb; try done.
  - by rewrite (less_ntrans _ _ _ H1 Eb) in Ea.
  - by rewrite (less_ntrans _ _ _ H2 Ea) in Eb.
Qed.

Lemma less_keqv_r a b c : keqv a b = true -> less c a = less c b.
Proof.
  rewrite keqv_spec. intros [H1 H2].
  destruct (less c a) eqn:Ea, (less c b) eqn:Eb; try done.
  - by rewrite (less_ntrans _ _ _ Eb H2) in Ea.
  - by rewrite (less_ntrans _ _ _ Ea H1) in Eb.
Qed.

Lemma keqv_false a b : keqv a b = false -> less a b = true \/ less b a = true.
Proof. unfold keqv. rewrite andb_false_iff, !negb_false_iff. done. Qed.

End Order.

(** Decides a goal about the tests [less a b] of the context by closing them
    under the order laws. *)
Ltac less_close :=
  repeat match goal with
  | H : keqv ?a ?b = true |- _ => apply keqv_spec in H as [? ?]
  | |- keqv ?a ?b = true => apply keqv_spec; split
  | H : less ?a ?a = true |- _ => rewrite less_irrefl in H; discriminate H
  end;
  repeat match goal with
  | H : less ?a ?b = true |- _ =>
      lazymatch goal with
      | _ : less b a = false |- _ => fail
      | _ => pose proof (less_asym _ _ H)
      end
  | H1 : less ?a ?b = true, H2 : less ?b ?c = true |- _ =>
      lazymatch goal with
      | _ : less a c = true |- _ => fail
      | _ => pose proof (less_trans _ _ _ H1 H2)
      end
  | H1 : less ?a ?b = false, H2 : less ?b ?c = false |- _ =>
      lazymatch goal with
      | _ : less a c = false |- _ => fail
      | _ => tryif constr_eq a c then fail else pose proof (less_ntrans _ _ _ H1 H2)
      end
  end;
  try congruence;
  try (rewrite less_irrefl in *; congruence).

(** ** [std::map] *)

Definition std_map (K V : Type) : Type := list (K * V).

Section MapOps.
Context `{Less K} {V : Type}.
Implicit Types (k : K) (v : V) (m : std_map K V).

(** [m.find(k)], the entry or [m.end()] *)
Fixpoint find_entry k m : option (K * V) :=
  match m with
  | [] => None
  | (k', v) :: m' =>
      if less k k' then None
      else if less k' k then find_entry k m'
      else Some (k', v)
  end.

(** the value of the entry found *)
Definition find k m : option V := snd <$> find_entry k m.

(** [m.find(k) != m.end()], [m.count(k)] *)
Definition contains k m : bool :=
  match find k m with Some _ => true | None => false end.

(** [m.emplace(k, v)] / [m.insert({k, v})]: no effect if the key is present *)
Fixpoint emplace k v m : std_map K V :=
  match m with
  | [] => [(k, v)]
  | (k', v') :: m' =>
      if less k k' then (k, v) :: (k', v') :: m'
      else if less k' k then (k', v') :: emplace k v m'
      else (k', v') :: m'
  end.

(** [m[k] = v] *)
Fixpoint assign k v m : std_map K V :=
  match m with
  | [] => [(k, v)]
  | (k', v') :: m' =>
      if less k k' then (k, v) :: (k', v') :: m'
      else if less k' k then (k', v') :: assign k v m'
      else (k', v) :: m'
  end.

(** [m.erase(k)] *)
Fixpoint erase k m : std_map K V :=
  match m with
  | [] => []
  | (k', v') :: m' =>
      if less k k' then (k', v') :: m'
      else if less k' k then (k', v') :: erase k m'
      else m'
  end.

(** [m[k].f()]: [operator[]] default-constructs a missing value first *)
Definition subscript (dflt : V) (f : V -> V) k m : std_map K V :=
  match find k m with
  | Some v => assign k (f v) m
  | None => assign k (f dflt) m
  end.

(** [it->second.f()] for the iterator found at [k] *)
Definition update (f : V -> V) k m : std_map K V :=
  match find k m with
  | Some v => assign k (f v) m
  | None => m
  end.

(** [m.erase(m.begin())] *)
Definition erase_begin m : std_map K V := tail m.

(** [for (auto it : m)], the entries in iteration order *)
Definition keys m : list K := fst <$> m.
Definition values m : list V := snd <$> m.

(** The representation invariant: strictly increasing keys. *)
Definition map_wf m : Prop := StronglySorted (fun e e' => less e.1 e'.1 = true) m.

End MapOps.

Section MapLaws.
Context `{StrictWeak K} {V : Type}.
Implicit Types (k j : K) (v : V) (m : std_map K V).

Lemma find_entry_find k m v :
  find k m = Some v <-> exists k', find_entry k m = Some (k', v).
Proof.
  unfold find. destruct (find_entry k m) as [[k' w]|]; simpl.
  - split; [intros [= ->]; eauto|intros (? & [= ? ->]); done].
  - split; [done|intros (? & ?); done].
Qed.

Lemma find_cons k k' v m :
  find k ((k', v) :: m) =
    if less k k' then None else if less k' k then find k m else Some v.
Proof. unfold find. simpl. by repeat case_match. Qed.

Lemma find_keqv j k m : keqv j k = true -> find j m = find k m.
Proof.
  intros Hjk. induction m as [|[k' v] m IH]; [done|].
  rewrite !find_cons, (less_keqv_l _ _ k' Hjk), (less_keqv_r _ _ k' Hjk), IH. done.
Qed.

Lemma find_assign_eq k v m j : keqv j k = true -> find j (assign k v m) = Some v.
Proof.
  intros Hjk. rewrite (find_keqv _ _ _ Hjk). clear Hjk.
  induction m as [|[k' v'] m IH]; simpl; [rewrite find_cons, less_irrefl; done|].
  destruct (less k k') eqn:E1; [by rewrite find_cons, less_irrefl|].
  destruct (less k' k) eqn:E2; rewrite find_cons, E1, E2; done.
Qed.

Lemma find_assign_ne k v m j : keqv j k = false -> find j (assign k v m) = find j m.
Proof.
  intros Hjk. induction m as [|[k' v'] m IH]; simpl.
  - rewrite find_cons. destruct (keqv_false _ _ Hjk) as [E|E]; rewrite E; [done|].
    by rewrite (less_asym _ _ E).
  - destruct (less k k') eqn:E1.
    + rewrite find_cons. destruct (keqv_false _ _ Hjk) as [E|E].
      * rewrite E, find_cons. by rewrite (less_trans _ _ _ E E1).
      * by rewrite E, (less_asym _ _ E).
    + destruct (less k' k) eqn:E2; rewrite !find_cons; [by rewrite IH|].
      assert (keqv k k' = true) as Hk by (by apply keqv_spec).
      rewrite <- (less_keqv_l _ _ j Hk), <- (less_keqv_r _ _ j Hk).
      destruct (keqv_false _ _ Hjk) as [E|E]; rewrite E; [done|].
      by rewrite (less_asym _ _ E).
Qed.

Lemma find_assign k v m j :
  find j (assign k v m) = if keqv j k then Some v else find j m.
Proof.
  destruct (keqv j k) eqn:E; [by apply find_assign_eq|by apply find_assign_ne].
Qed.

Lemma emplace_present k v m w : find k m = Some w -> emplace k v m = m.
Proof.
  induction m as [|[k' v'] m IH]; [done|]. rewrite find_cons. simpl.
  destruct (less k k'), (less k' k); intros ?; try done. by rewrite IH.
Qed.

Lemma emplace_absent k v m : find k m = None -> emplace k v m = assign k v m.
Proof.
  induction m as [|[k' v'] m IH]; [done|]. rewrite find_cons. simpl.
  destruct (less k k'), (less k' k); intros ?; try done. by rewrite IH.
Qed.

Lemma find_emplace k v m j :
  find j (emplace k v m) =
    if keqv j k then Some (default v (find k m)) else find j m.
Proof.
  destruct (find k m) as [w|] eqn:E; simpl.
  - rewrite (emplace_present _ _ _ w) by done.
    destruct (keqv j k) eqn:Ej; [by rewrite (find_keqv _ _ _ Ej)|done].
  - by rewrite emplace_absent, find_assign.
Qed.

(** *** Well-formedness *)

Lemma map_wf_nil : map_wf ([] : std_map K V).
Proof. constructor. Qed.

Lemma map_wf_cons k v m :
  map_wf ((k, v) :: m) <-> Forall (fun e => less k e.1 = true) m /\ map_wf m.
Proof.
  split; [intros Hm; inversion Hm; subst; done|intros []; by constructor].
Qed.

Lemma Forall_assign (P : K * V -> Prop) k v m :
  (forall k', keqv k k' = true -> P (k', v)) ->
  Forall P m -> Forall P (assign k v m).
Proof.
  intros Hk. induction 1 as [|[k' v'] m Hh Ht IH]; simpl.
  - constructor; [apply Hk, keqv_refl|done].
  - destruct (less k k') eqn:E1; [repeat constructor; auto; apply Hk, keqv_refl|].
    destruct (less k' k) eqn:E2; constructor; auto.
    apply Hk. by apply keqv_spec.
Qed.

Lemma map_wf_assign k v m : map_wf m -> map_wf (assign k v m).
Proof.
  induction m as [|[k' v'] m IH]; simpl; [intros; repeat constructor|].
  rewrite map_wf_cons. intros [Hall Hm].
  destruct (less k k') eqn:E1; [|destruct (less k' k) eqn:E2].
  - rewrite !map_wf_cons. repeat split; try done. constructor; [done|].
    eapply Forall_impl; [done|]. simpl. intros. by eapply less_trans.
  - rewrite map_wf_cons. split; [|by auto].
    apply Forall_assign; [|done]. simpl. intros j Hj.
    by rewrite <- (less_keqv_r _ _ k' Hj).
  - by rewrite map_wf_cons.
Qed.

Lemma map_wf_emplace k v m : map_wf m -> map_wf (emplace k v m).
Proof.
  intros Hm. destruct (find k m) as [w|] eqn:E.
  - by rewrite (emplace_present _ _ _ w).
  - rewrite emplace_absent by done. by apply map_wf_assign.
Qed.

Lemma Forall_erase (P : K * V -> Prop) k m : Forall P m -> Forall P (erase k m).
Proof.
  induction 1 as [|[k' v'] m Hh Ht IH]; simpl; [done|].
  repeat case_match; auto.
Qed.

Lemma map_wf_erase k m : map_wf m -> map_wf (erase k m).
Proof.
  induction m as [|[k' v'] m IH]; [done|]. rewrite map_wf_cons. intros [Hall Hm].
  simpl. destruct (less k k'), (less k' k); try (by apply map_wf_cons); auto.
  rewrite map_wf_cons. auto using Forall_erase.
Qed.

Lemma map_wf_erase_begin m : map_wf m -> map_wf (erase_begin m).
Proof. destruct m as [|[k v] m]; [done|]. rewrite map_wf_cons. by intros []. Qed.

Lemma map_wf_update f k m : map_wf m -> map_wf (update f k m).
Proof. intros. unfold update. case_match; auto using map_wf_assign. Qed.

Lemma map_wf_subscript d f k m : map_wf m -> map_wf (subscript d f k m).
Proof. intros. unfold subscript. case_match; auto using map_wf_assign. Qed.

Lemma find_none_below k m :
  Forall (fun e => less k e.1 = true) m -> find k m = None.
Proof.
  destruct m as [|[k' v] m]; [done|]. intros [Hk _]%Forall_cons_1. simpl in Hk.
  by rewrite find_cons, Hk.
Qed.

Lemma find_erase_eq k m j : map_wf m -> keqv j k = true -> find j (erase k m) = None.
Proof.
  intros Hm Hjk. rewrite (find_keqv _ _ _ Hjk). clear Hjk. revert Hm.
  induction m as [|[k' v'] m IH]; [done|]. rewrite map_wf_cons. intros [Hall Hm].
  simpl. destruct (less k k') eqn:E1; [by rewrite find_cons, E1|].
  destruct (less k' k) eqn:E2; [rewrite find_cons, E1, E2; auto|].
  apply find_none_below. eapply Forall_impl; [done|]. simpl. intros e He.
  rewrite (less_keqv_l k k'); [done|by apply keqv_spec].
Qed.

Lemma find_erase_ne k m j : map_wf m -> keqv j k = false -> find j (erase k m) = find j m.
Proof.
  intros Hm Hjk. induction m as [|[k' v'] m IH]; [done|].
  apply map_wf_cons in Hm as [Hall Hm]. simpl.
  destruct (less k k') eqn:E1; [done|].
  destruct (less k' k) eqn:E2; rewrite !find_cons; [by rewrite IH|].
  assert (keqv k k' = true) as Hk by (by apply keqv_spec).
  rewrite <- (less_keqv_l _ _ j Hk), <- (less_keqv_r _ _ j Hk).
  destruct (keqv_false _ _ Hjk) as [E|E]; rewrite E.
  - apply find_none_below. eapply Forall_impl; [done|]. simpl. intros e He.
    eapply less_trans; [done|]. by rewrite (less_keqv_l k k').
  - by rewrite (less_asym _ _ E).
Qed.

Lemma find_erase k m j :
  map_wf m -> find j (erase k m) = if keqv j k then None else find j m.
Proof.
  intros Hm. destruct (keqv j k) eqn:E; [by apply find_erase_eq|by apply find_erase_ne].
Qed.

Lemma find_update f k m j :
  find j (update f k m) = if keqv j k then f <$> find k m else find j m.
Proof.
  unfold update. destruct (find k m) as [v|] eqn:E; [apply find_assign|].
  destruct (keqv j k) eqn:Ej; [|done]. by rewrite (find_keqv _ _ _ Ej).
Qed.

Lemma find_subscript d f k m j :
  find j (subscript d f k m) =
    if keqv j k then Some (f (default d (find k m))) else find j m.
Proof. unfold subscript. destruct (find k m) as [v|] eqn:E; apply find_assign. Qed.

(** *** Membership and iteration *)

Lemma elem_of_find k v m : map_wf m -> (k, v) ∈ m -> find k m = Some v.
Proof.
  induction m as [|[k' v'] m IH]; intros Hm Hin; [set_solver|].
  apply map_wf_cons in Hm as [Hall Hm]. rewrite find_cons.
  apply elem_of_cons in Hin as [[= -> ->]|Hin]; [by rewrite less_irrefl|].
  rewrite Forall_forall in Hall. pose proof (Hall _ Hin) as E. simpl in E.
  rewrite (less_asym _ _ E), E. auto.
Qed.

Lemma find_elem_of k v m : find k m = Some v -> exists k', keqv k k' = true /\ (k', v) ∈ m.
Proof.
  induction m as [|[k' v'] m IH]; [done|]. rewrite find_cons.
  destruct (less k k') eqn:E1; [done|]. destruct (less k' k) eqn:E2.
  - intros (j & ? & ?)%IH. exists j. split; [done|set_solver].
  - intros [= ->]. exists k'. split; [by apply keqv_spec|set_solver].
Qed.

Lemma elem_of_keys k m : k ∈ keys m <-> exists v, (k, v) ∈ m.
Proof.
  unfold keys. rewrite list_elem_of_fmap. split.
  - intros ([k' v] & -> & Hin). eauto.
  - intros (v & Hin). by exists (k, v).
Qed.

Lemma elem_of_keys_find k m : map_wf m -> k ∈ keys m -> is_Some (find k m).
Proof. intros Hm (v & Hin)%elem_of_keys. exists v. by apply elem_of_find. Qed.

Lemma keys_NoDup m : map_wf m -> NoDup (keys m).
Proof.
  induction m as [|[k u] m IH]; [by intros; apply NoDup_nil_2|].
  intros [Hall Hs]%map_wf_cons. unfold keys in *. simpl. apply NoDup_cons. split; [|auto].
  rewrite Forall_forall in Hall. intros ([k' u'] & -> & Hin)%list_elem_of_fmap.
  pose proof (Hall _ Hin) as Hl. simpl in Hl. by rewrite less_irrefl in Hl.
Qed.

(** Assigning to a present key keeps the key objects and their order. *)
Lemma keys_assign_present k v m w : find k m = Some w -> keys (assign k v m) = keys m.
Proof.
  induction m as [|[k' v'] m IH]; [done|]. rewrite find_cons. simpl.
  destruct (less k k'), (less k' k); intros ?; try done.
  change (k' :: keys (assign k v m) = k' :: keys m). by rewrite IH.
Qed.

Lemma elem_of_keys_assign k v m j :
  find k m = None -> j ∈ keys (assign k v m) <-> j = k \/ j ∈ keys m.
Proof.
  induction m as [|[k' v'] m IH]; [unfold keys; simpl; set_solver|]. rewrite find_cons. simpl.
  destruct (less k k'); [unfold keys; simpl; set_solver|]. destruct (less k' k); [|done].
  intros E. specialize (IH E). unfold keys in *. simpl. set_solver.
Qed.

Lemma assign_twice k v v' m : assign k v (assign k v' m) = assign k v m.
Proof.
  induction m as [|[k' u] m IH]; simpl; [by rewrite less_irrefl|].
  destruct (less k k') eqn:E1; simpl; [by rewrite less_irrefl|].
  destruct (less k' k) eqn:E2; simpl; rewrite E1, E2; [by rewrite IH|done].
Qed.

Lemma assign_same k v m : find k m = Some v -> assign k v m = m.
Proof.
  induction m as [|[k' u] m IH]; [done|]. rewrite find_cons. simpl.
  destruct (less k k'); [done|]. destruct (less k' k); [|by intros [= ->]]. intros E. by rewrite IH.
Qed.

(** [for (k : l) m[k] = f(k)] *)
Lemma fold_assign_find (f : K -> V) l m j :
  j ∈ l -> (forall k, k ∈ l -> keqv j k = true -> k = j) ->
  find j (fold_left (fun m k => assign k (f k) m) l m) = Some (f j).
Proof.
  revert m. induction l as [|k l IH] using rev_ind; intros m Hin Huniq; [by apply not_elem_of_nil in Hin|].
  rewrite fold_left_app. simpl. rewrite find_assign. destruct (keqv j k) eqn:E.
  - rewrite (Huniq k); [done|set_solver|done].
  - apply IH; [|intros; apply Huniq; set_solver]. apply elem_of_app in Hin as [?|?%list_elem_of_singleton]; [done|].
    subst. by rewrite keqv_refl in E.
Qed.

Lemma fold_assign_keys (f : K -> V) l m :
  map_wf m -> (forall k, k ∈ l -> is_Some (find k m)) ->
  keys (fold_left (fun m k => assign k (f k) m) l m) = keys m /\
  map_wf (fold_left (fun m k => assign k (f k) m) l m).
Proof.
  revert m. induction l as [|k l IH]; intros m Hm Hl; [done|]. simpl.
  destruct (Hl k) as [u Hu]; [set_solver|].
  destruct (IH (assign k (f k) m)) as [-> ?]; [by apply map_wf_assign| |by erewrite keys_assign_present].
  intros j Hj. rewrite find_assign. destruct (keqv j k); [by eexists|]. apply Hl. set_solver.
Qed.

Lemma keys_update f k m : keys (update f k m) = keys m.
Proof. unfold update. destruct (find k m) eqn:E; [by eapply keys_assign_present|done]. Qed.

Lemma length_assign_absent k v m : find k m = None -> length (assign k v m) = S (length m).
Proof.
  induction m as [|[k' v'] m IH]; [done|]. rewrite find_cons. simpl.
  destruct (less k k'), (less k' k); intros ?; try done. simpl. by rewrite IH.
Qed.

Lemma length_assign_present k v m w : find k m = Some w -> length (assign k v m) = length m.
Proof.
  intros E. rewrite <- (length_fmap fst), <- (length_fmap fst m).
  change (length (keys (assign k v m)) = length (keys m)).
  by erewrite keys_assign_present.
Qed.

Lemma length_erase_le k m : length (erase k m) <= length m.
Proof. induction m as [|[k' v'] m IH]; simpl; [done|]. repeat case_match; simpl; lia. Qed.

Lemma values_erase k m v : find k m = Some v -> values m ≡ₚ v :: values (erase k m).
Proof.
  unfold values. induction m as [|[k' v'] m IH]; [done|]. rewrite find_cons. simpl.
  destruct (less k k'); [done|]. destruct (less k' k); simpl.
  - intros Hf%IH. rewrite Hf. apply perm_swap.
  - by intros [= <-].
Qed.

Lemma keys_keqv_unique m k1 k2 :
  map_wf m -> k1 ∈ keys m -> k2 ∈ keys m -> keqv k1 k2 = true -> k1 = k2.
Proof.
  intros Hm. induction m as [|[k v] m IH]; [set_solver|].
  apply map_wf_cons in Hm as [Hall Hm]. rewrite Forall_forall in Hall.
  unfold keys. simpl. rewrite !elem_of_cons. intros H1 H2 [E1 E2]%keqv_spec.
  assert (forall j, j ∈ fst <$> m -> less k j = true) as Hless.
  { intros j ([j' w] & -> & Hj)%list_elem_of_fmap. by apply (Hall (j', w)). }
  destruct H1 as [->|H1], H2 as [->|H2]; try done.
  - by rewrite (Hless _ H2) in E1.
  - by rewrite (Hless _ H1) in E2.
  - apply IH; try done. by apply keqv_spec.
Qed.

End MapLaws.

#[export] Hint Resolve map_wf_nil map_wf_assign map_wf_emplace map_wf_erase
  map_wf_erase_begin map_wf_update map_wf_subscript : ddsrouter.

(** ** [std::set] *)

Definition std_set (K : Type) : Type := std_map K unit.

Definition set_insert `{Less K} (k : K) (s : std_set K) : std_set K := emplace k tt s.
Definition set_erase `{Less K} (k : K) (s : std_set K) : std_set K := erase k s.
Definition set_mem `{Less K} (k : K) (s : std_set K) : bool := contains k s.
Definition set_elems {K} (s : std_set K) : list K := keys s.

Section SetLaws.
Context `{StrictWeak K}.
Implicit Types (k j : K) (s : std_set K).

Lemma set_mem_insert k j s : set_mem j (set_insert k s) = keqv j k || set_mem j s.
Proof.
  unfold set_mem, set_insert, contains. rewrite find_emplace.
  destruct (keqv j k) eqn:E; [done|]. done.
Qed.

Lemma set_mem_erase k j s :
  map_wf s -> set_mem j (set_erase k s) = negb (keqv j k) && set_mem j s.
Proof.
  intros. unfold set_mem, set_erase, contains. rewrite find_erase by done.
  by destruct (keqv j k).
Qed.

Lemma set_elems_NoDup s : map_wf s -> NoDup (set_elems s).
Proof. apply keys_NoDup. Qed.

Lemma set_insert_length k s :
  length (set_insert k s) = if set_mem k s then length s else S (length s).
Proof.
  unfold set_mem, contains, set_insert. destruct (find k s) eqn:E.
  - by erewrite emplace_present.
  - rewrite emplace_absent by done. by apply length_assign_absent.
Qed.

Lemma elem_of_set_insert k s p :
  p ∈ set_elems (set_insert k s) <-> p ∈ set_elems s \/ (p = k /\ find k s = None).
Proof.
  unfold set_insert, set_elems. destruct (find k s) as [[]|] eqn:E.
  - rewrite (emplace_present _ _ _ tt) by done. naive_solver.
  - rewrite emplace_absent, elem_of_keys_assign by done. naive_solver.
Qed.

Lemma elem_of_set_erase k s p :
  map_wf s -> p ∈ set_elems (set_erase k s) <-> p ∈ set_elems s /\ keqv p k = false.
Proof.
  intros Hwf. unfold set_erase, set_elems. induction s as [|[k' []] s IH]; simpl; [set_solver|].
  apply map_wf_cons in Hwf as [Hall Hwf]. specialize (IH Hwf). rewrite Forall_forall in Hall.
  assert (forall j, j ∈ keys s -> less k' j = true) as Hbelow.
  { intros j (u & Hj)%elem_of_keys. by apply (Hall (j, u)). }
  change (keys ((k', tt) :: s)) with (k' :: keys s).
  destruct (less k k') eqn:E1; [|destruct (less k' k) eqn:E2].
  - change (keys ((k', tt) :: s)) with (k' :: keys s). split; [|naive_solver]. intros Hp. split; [done|].
    apply not_true_is_false. intros Hk. apply elem_of_cons in Hp as [->|Hp]; [less_close|].
    pose proof (Hbelow _ Hp). less_close.
  - change (keys ((k', tt) :: erase k s)) with (k' :: keys (erase k s)).
    rewrite !elem_of_cons, IH. split; [|naive_solver]. intros [->|[? ?]]; [|naive_solver].
    split; [by left|]. unfold keqv. by rewrite E2.
  - split.
    + intros Hp. split; [set_solver|]. pose proof (Hbelow _ Hp) as Hl.
      apply not_true_is_false. intros Hk. less_close.
    + intros [Hp Hk]. apply elem_of_cons in Hp as [->|Hp]; [|done].
      exfalso. revert Hk. unfold keqv. by rewrite E1, E2.
Qed.

End SetLaws.

(** ** Orders of the basic types *)

#[export] Instance string_less : Less string := String.ltb.
#[export] Instance Z_less : Less Z := Z.ltb.
#[export] Instance nat_less : Less nat := Nat.ltb.

#[export] Instance Z_strict_weak : StrictWeak Z.
Proof. split; unfold less, Z_less; lia. Qed.

(** [std::string] is ordered lexicographically by unsigned bytes. *)
Lemma string_compare_trans (c : comparison) (s1 s2 s3 : string) :
  String.compare s1 s2 = c -> String.compare s2 s3 = c -> String.compare s1 s3 = c.
Proof.
  revert s2 s3. induction s1 as [|a1 s1 IH]; intros [|a2 s2] [|a3 s3]; simpl; try congruence.
  unfold Ascii.compare.
  destruct (N.compare_spec (Ascii.N_of_ascii a1) (Ascii.N_of_ascii a2)),
    (N.compare_spec (Ascii.N_of_ascii a2) (Ascii.N_of_ascii a3)),
    (N.compare_spec (Ascii.N_of_ascii a1) (Ascii.N_of_ascii a3));
    try (intros; subst; congruence || (exfalso; lia) || (by eapply IH)).
Qed.

Lemma string_compare_refl (s : string) : String.compare s s = Eq.
Proof. pose proof (String.compare_antisym s s) as E. by destruct (String.compare s s). Qed.

#[export] Instance string_strict_weak : StrictWeak string.
Proof.
  split; unfold less, string_less, String.ltb.
  - intros a. by rewrite string_compare_refl.
  - intros a b. rewrite (String.compare_antisym b a).
    by destruct (String.compare a b).
  - intros a b c. destruct (String.compare a b) eqn:E1; [|done|];
      (destruct (String.compare b c) eqn:E2; [|done|]); intros _ _.
    + by rewrite (string_compare_trans Eq a b c).
    + apply String.compare_eq_iff in E1 as ->. by rewrite E2.
    + apply String.compare_eq_iff in E2 as ->. by rewrite E1.
    + by rewrite (string_compare_trans Gt a b c).
Qed.

Lemma string_keqv (a b : string) : keqv a b = true <-> a = b.
Proof.
  unfold keqv, less, string_less, String.ltb. rewrite (String.compare_antisym b a).
  split; [|intros ->; by rewrite string_compare_refl].
  destruct (String.compare a b) eqn:E; simpl; try done.
  by apply String.compare_eq_iff in E as ->.
Qed.

Lemma nat_keqv (a b : nat) : keqv a b = true <-> a = b.
Proof. unfold keqv, less, nat_less. rewrite andb_true_iff, !negb_true_iff, !Nat.ltb_ge. lia. Qed.

Lemma Z_keqv (a b : Z) : keqv a b = true <-> a = b.
Proof. unfold keqv, less, Z_less. lia. Qed.

#[export] Instance nat_strict_weak : StrictWeak nat.
Proof.
  split; unfold less, nat_less; intros *; rewrite ?Nat.ltb_ge, ?Nat.ltb_lt; lia.
Qed.

(** ** Lexicographic orders

    The combinations the sources write by hand: compare one component, and the
    next one when the first is equivalent in both directions. *)

Definition lex_less {K : Type} (lt1 lt2 : K -> K -> bool) : Less K := fun a b =>
  if lt1 a b then true else if lt1 b a then false else lt2 a b.

Definition pull_less {J K : Type} (f : J -> K) (lt : K -> K -> bool) : Less J := fun a b =>
  lt (f a) (f b).

Fixpoint list_less {A : Type} (lt : A -> A -> bool) (l1 l2 : list A) : bool :=
  match l1, l2 with
  | _, [] => false
  | [], _ :: _ => true
  | a :: l1', b :: l2' =>
      if lt a b then true else if lt b a then false else list_less lt l1' l2'
  end.

Lemma pull_strict_weak {J K} (f : J -> K) (lt : K -> K -> bool) :
  @StrictWeak K lt -> @StrictWeak J (pull_less f lt).
Proof.
  intros [Hi Ha Hn]. split; unfold less, pull_less in *.
  - intros a. apply Hi.
  - intros a b. apply Ha.
  - intros a b c. apply Hn.
Qed.

Lemma pull_keqv {J K} (f : J -> K) (lt : K -> K -> bool) a b :
  @keqv J (pull_less f lt) a b = @keqv K lt (f a) (f b).
Proof. done. Qed.

Lemma lex_strict_weak {K} (lt1 lt2 : K -> K -> bool) :
  @StrictWeak K lt1 -> @StrictWeak K lt2 -> @StrictWeak K (lex_less lt1 lt2).
Proof.
  intros H1 H2. pose proof (@less_irrefl K lt1 H1) as I1. pose proof (@less_irrefl K lt2 H2) as I2.
  pose proof (@less_asym K lt1 H1) as A1. pose proof (@less_asym K lt2 H2) as A2.
  pose proof (@less_ntrans K lt1 H1) as N1. pose proof (@less_ntrans K lt2 H2) as N2.
  split; unfold less, lex_less in *.
  - intros a. by rewrite I1.
  - intros a b. destruct (lt1 a b) eqn:E; [by rewrite (A1 _ _ E)|].
    destruct (lt1 b a) eqn:E'; [done|]. apply A2.
  - intros a b c. destruct (lt1 a b) eqn:E1; [done|]. destruct (lt1 b c) eqn:E2; [intros _ [=]|].
    rewrite (N1 _ _ _ E1 E2). destruct (lt1 c a) eqn:E3; [done|].
    rewrite (N1 _ _ _ E2 E3), (N1 _ _ _ E3 E1). apply N2.
Qed.

Lemma lex_keqv {K} (lt1 lt2 : K -> K -> bool) a b :
  @keqv K (lex_less lt1 lt2) a b = @keqv K lt1 a b && @keqv K lt2 a b.
Proof.
  unfold keqv, less, lex_less. destruct (lt1 a b) eqn:E1, (lt1 b a) eqn:E2; simpl; try done.
Qed.

Lemma list_strict_weak {A} (lt : A -> A -> bool) :
  @StrictWeak A lt -> @StrictWeak (list A) (list_less lt).
Proof.
  intros HA. pose proof (@less_irrefl A lt HA) as I1.
  pose proof (@less_asym A lt HA) as A1. pose proof (@less_ntrans A lt HA) as N1.
  split; unfold less in *.
  - intros a. induction a as [|x a IH]; [done|]. simpl. by rewrite I1.
  - intros a. induction a as [|x a IH]; intros [|y b]; simpl; try done.
    destruct (lt x y) eqn:E; [by rewrite (A1 _ _ E)|]. destruct (lt y x) eqn:E'; [done|]. apply IH.
  - intros a. induction a as [|x a IH]; intros [|y b] [|z c]; simpl; try done.
    destruct (lt x y) eqn:E1; [done|]. destruct (lt y z) eqn:E2; [intros _ [=]|].
    rewrite (N1 _ _ _ E1 E2). destruct (lt z x) eqn:E3; [done|].
    rewrite (N1 _ _ _ E2 E3), (N1 _ _ _ E3 E1). apply IH.
Qed.

Lemma list_keqv {A} (lt : A -> A -> bool) (l1 l2 : list A) :
  (forall a b, @keqv A lt a b = true <-> a = b) ->
  @keqv (list A) (list_less lt) l1 l2 = true <-> l1 = l2.
Proof.
  intros HA. assert (forall a, lt a a = false) as I1.
  { intros a. pose proof (proj2 (HA a a) eq_refl) as E. unfold keqv, less in E.
    by destruct (lt a a). }
  revert l2. induction l1 as [|x l1 IH]; intros [|y l2]; try done.
  unfold keqv, less in *. simpl. specialize (IH l2).
  pose proof (HA x y) as Hxy.
  destruct (lt x y) eqn:E1; simpl in *.
  { split; [done|]. intros [= -> ->]. congruence. }
  destruct (lt y x) eqn:E2; simpl in *.
  { split; [done|]. intros [= -> ->]. congruence. }
  rewrite IH. assert (x = y) as -> by by apply Hxy. split; [by intros ->|by intros [= ->]].
Qed.
