(* ===== verification/CppString.v ===== *)
(** * [std::string] operations

    The parts of [std::string] and [std::regex] that
    [ddsrouter_core/src/cpp/types/topic/rpc/RPCTopic.cpp] and the topic types
    use: [find], [rfind] with their [npos] result, and [std::regex_replace]
    for a regex that is a disjunction of literals. *)
From S2P Require Import Prelude.

(** [std::string::npos], the largest [size_t] *)
Definition npos : Z := 2 ^ 64 - 1.

Definition str_length (s : string) : Z := Z.of_nat (String.length s).

(** [s.find(pat)] *)
Definition str_find (pat s : string) : Z :=
  match String.index 0 pat s with
  | Some n => Z.of_nat n
  | None => npos
  end.

Fixpoint rindex (pat s : string) : option nat :=
  match s with
  | EmptyString => if String.prefix pat s then Some 0 else None
  | String _ s' =>
      match rindex pat s' with
      | Some n => Some (S n)
      | None => if String.prefix pat s then Some 0 else None
      end
  end.

(** [s.rfind(pat)] *)
Definition str_rfind (pat s : string) : Z :=
  match rindex pat s with
  | Some n => Z.of_nat n
  | None => npos
  end.

(** First alternative of a disjunction of literals that matches at the start. *)
Fixpoint match_alt (alts : list string) (s : string) : option string :=
  match alts with
  | [] => None
  | a :: alts' => if String.prefix a s then Some a else match_alt alts' s
  end.

(** [skip] characters of [s] still belong to the match already replaced. *)
Fixpoint regex_replace_from (skip : nat) (alts : list string) (rep s : string) : string :=
  match s with
  | EmptyString => EmptyString
  | String c s' =>
      match skip with
      | S k => regex_replace_from k alts rep s'
      | 0 =>
          match match_alt alts s with
          | Some a => rep +:+ regex_replace_from (String.length a - 1) alts rep s'
          | None => String c (regex_replace_from 0 alts rep s')
          end
      end
  end.

(** [std::regex_replace(s, std::regex("a|b|..."), rep)]: every leftmost,
    non-overlapping occurrence of a (non-empty) alternative is replaced. *)
Definition regex_replace (s : string) (alts : list string) (rep : string) : string :=
  regex_replace_from 0 alts rep s.

Definition str_empty (s : string) : bool := (s =? "")%string.

(** ** Lemmas *)

Lemma string_app_cons c s t : String c s +:+ t = String c (s +:+ t).
Proof. done. Qed.

Lemma string_app_nil_l s : "" +:+ s = s.
Proof. done. Qed.

Lemma string_app_nil_r s : s +:+ "" = s.
Proof. induction s as [|c s IH]; [done|]. by rewrite string_app_cons, IH. Qed.

Lemma string_app_assoc s t u : s +:+ (t +:+ u) = (s +:+ t) +:+ u.
Proof. induction s as [|c s IH]; [done|]. by rewrite !string_app_cons, IH. Qed.

Lemma string_length_app s t : String.length (s +:+ t) = String.length s + String.length t.
Proof. induction s as [|c s IH]; [done|]. rewrite string_app_cons. simpl. by rewrite IH. Qed.

Lemma str_length_app s t : str_length (s +:+ t) = (str_length s + str_length t)%Z.
Proof. unfold str_length. rewrite string_length_app. lia. Qed.

Lemma string_app_inj_l s t u : s +:+ t = s +:+ u -> t = u.
Proof. induction s as [|c s IH]; [done|]. rewrite !string_app_cons. intros [= ?]. auto. Qed.

Lemma prefix_spec pat s : String.prefix pat s = true <-> exists t, s = pat +:+ t.
Proof.
  revert s. induction pat as [|c pat IH]; intros s.
  - split; [intros; by exists s|destruct s; done].
  - destruct s as [|d s]; [split; [done|intros (? & ?); done]|]. cbn [String.prefix].
    destruct (Ascii.ascii_dec c d) as [->|Hne].
    + rewrite IH. split; intros (t & Ht); exists t; [by rewrite string_app_cons, <- Ht|].
      rewrite string_app_cons in Ht. congruence.
    + split; [done|]. intros (t & Ht). rewrite string_app_cons in Ht. congruence.
Qed.

Lemma prefix_app pat t : String.prefix pat (pat +:+ t) = true.
Proof. apply prefix_spec. by exists t. Qed.

(** An occurrence at the start of [s +:+ t] lies inside [s] or straddles. *)
Lemma prefix_app_inv pat s t :
  String.prefix pat (s +:+ t) = true ->
  String.prefix pat s = true \/ exists v, pat = s +:+ v /\ String.prefix v t = true.
Proof.
  revert pat. induction s as [|c s IH]; intros pat Hp.
  - right. exists pat. split; [done|exact Hp].
  - destruct pat as [|d pat]; [left; done|].
    rewrite string_app_cons in Hp. simpl in Hp |- *.
    destruct (Ascii.ascii_dec d c) as [->|]; [|done].
    destruct (IH _ Hp) as [?|(v & -> & ?)]; [by left|right].
    exists v. split; done.
Qed.

(** [pat] occurs in [s] at some position. *)
Fixpoint occurs (pat s : string) : bool :=
  String.prefix pat s ||
  match s with EmptyString => false | String _ s' => occurs pat s' end.

Lemma rindex_none pat s : rindex pat s = None <-> occurs pat s = false.
Proof.
  induction s as [|c s IH]; cbn [rindex occurs].
  - rewrite orb_false_r. destruct (String.prefix pat ""); done.
  - destruct (rindex pat s) as [n|].
    + split; [done|]. intros [_ Hocc]%orb_false_iff. by apply IH in Hocc.
    + rewrite (proj1 IH eq_refl), orb_false_r.
      destruct (String.prefix pat (String c s)); done.
Qed.

Lemma rindex_spec pat s n :
  rindex pat s = Some n -> exists u v, s = u +:+ pat +:+ v /\ String.length u = n.
Proof.
  revert n. induction s as [|c s IH]; intros n; cbn [rindex].
  - destruct (String.prefix pat "") eqn:E; [|done]. intros [= <-].
    apply prefix_spec in E as (t & E). exists "", t. split; [exact E|done].
  - destruct (rindex pat s) as [k|] eqn:E.
    + intros [= <-]. destruct (IH k eq_refl) as (u & v & -> & <-).
      exists (String c u), v. done.
    + destruct (String.prefix pat (String c s)) eqn:E'; [|done]. intros [= <-].
      apply prefix_spec in E' as (t & E'). exists "", t. split; [exact E'|done].
Qed.

Lemma occurs_app_l pat u s : occurs pat s = true -> occurs pat (u +:+ s) = true.
Proof.
  intros H. induction u as [|c u IH]; [done|]. rewrite string_app_cons.
  cbn [occurs]. rewrite IH. apply orb_true_r.
Qed.

(** [rindex] finds an occurrence at or after any given one. *)
Lemma rindex_ge pat u v :
  exists n, rindex pat (u +:+ pat +:+ v) = Some n /\ String.length u <= n.
Proof.
  induction u as [|c u IH].
  - change ("" +:+ pat +:+ v) with (pat +:+ v).
    destruct (rindex pat (pat +:+ v)) as [n|] eqn:E; [exists n; split; [done|simpl; lia]|].
    apply rindex_none in E. destruct (pat +:+ v) eqn:Epv; cbn [occurs] in E;
      apply orb_false_iff in E as [E _]; rewrite <- Epv, prefix_app in E; done.
  - destruct IH as (n & Hn & Hle). rewrite string_app_cons. cbn [rindex String.length]. rewrite Hn.
    exists (S n). split; [done|lia].
Qed.

Lemma rindex_bound pat s n :
  rindex pat s = Some n -> n + String.length pat <= String.length s.
Proof.
  intros (u & v & -> & <-)%rindex_spec. rewrite !string_length_app. lia.
Qed.

(** The last occurrence when [pat] ends the string. *)
Lemma rindex_at_end pat u : rindex pat (u +:+ pat) = Some (String.length u).
Proof.
  destruct (rindex_ge pat u "") as (n & Hn & Hle). rewrite string_app_nil_r in Hn.
  rewrite Hn. f_equal. apply rindex_bound in Hn. rewrite string_length_app in Hn. lia.
Qed.

(** *** [regex_replace] *)

Lemma regex_replace_skip alts rep u s :
  regex_replace_from (String.length u) alts rep (u +:+ s) = regex_replace_from 0 alts rep s.
Proof. induction u as [|c u IH]; [done|]. rewrite string_app_cons. simpl. exact IH. Qed.

(** A match at the front is replaced. *)
Lemma regex_replace_front alts rep a s :
  a <> "" -> match_alt alts (a +:+ s) = Some a ->
  regex_replace (a +:+ s) alts rep = rep +:+ regex_replace s alts rep.
Proof.
  intros Ha Hm. destruct a as [|c a]; [done|]. unfold regex_replace.
  rewrite string_app_cons in *. cbn [regex_replace_from]. rewrite Hm. f_equal.
  rewrite <- (regex_replace_skip alts rep a s). f_equal. simpl. lia.
Qed.

(** Text in which no alternative starts is copied. *)
Lemma regex_replace_copy alts rep u s :
  (forall v w, u = v +:+ w -> w <> "" -> match_alt alts (w +:+ s) = None) ->
  regex_replace (u +:+ s) alts rep = u +:+ regex_replace s alts rep.
Proof.
  intros H. induction u as [|c u IH]; [done|]. unfold regex_replace in *.
  rewrite string_app_cons. cbn [regex_replace_from].
  pose proof (H "" (String c u) eq_refl ltac:(done)) as E.
  rewrite string_app_cons in E. rewrite E, IH; [done|].
  intros v w -> Hw. by apply (H (String c v)).
Qed.

Lemma match_alt_none alts s :
  match_alt alts s = None <-> forall a, a ∈ alts -> String.prefix a s = false.
Proof.
  induction alts as [|a alts IH]; simpl; [set_solver|].
  destruct (String.prefix a s) eqn:E.
  - split; [done|]. intros H. rewrite H in E; [done|set_solver].
  - rewrite IH. set_solver.
Qed.
