(* ===== verification/Externals.v ===== *)
(** * Libraries the router calls

    Code that is not part of the repository is a parameter of the model: the
    operations of [cpp_utils] and of Fast DDS that the sources call are fields
    of the classes [CppUtils] and [FastDDS]; what the sources rely on of them
    is stated by [CppUtilsLaws] and [FastDDSLaws].  The module [Demo] gives
    concrete functions that satisfy the laws, used to evaluate the model. *)
From S2P Require Import Prelude StdMap CppString.
From Stdlib Require Import Ascii.

(** ** cpp_utils *)

(** The codes of [utils::ReturnCode] the sources use. *)
Inductive ReturnCode : Type :=
| RETCODE_OK
| RETCODE_NO_DATA
| RETCODE_ERROR
| RETCODE_NOT_ENABLED
| RETCODE_PRECONDITION_NOT_MET.

#[export] Instance ReturnCode_eq_dec : EqDecision ReturnCode.
Proof. solve_decision. Defined.

Class CppUtils := {
  (** [ReturnCode::operator !] *)
  ret_not : ReturnCode -> bool;
  (** [utils::Fuzzy<T>]: a value with a level that says whether it was set *)
  Fuzzy : Type -> Type;
  (** [Fuzzy<T>{}], given the default-constructed value *)
  fuzzy_init : forall {A}, A -> Fuzzy A;
  (** [Fuzzy::is_set] *)
  is_set : forall {A}, Fuzzy A -> bool;
  (** [Fuzzy::get_reference] *)
  get_reference : forall {A}, Fuzzy A -> A;
  (** assignment of a value, [Fuzzy::set_value] *)
  set_value : forall {A}, A -> Fuzzy A -> Fuzzy A;
  (** assignment through [get_reference()], the level is kept *)
  set_reference : forall {A}, A -> Fuzzy A -> Fuzzy A;
  (** [Fuzzy::set_level] to a level that means "set" *)
  set_level : forall {A}, Fuzzy A -> Fuzzy A;
  (** [operator <<] of a [Fuzzy<std::string>] *)
  fuzzy_to_string : Fuzzy string -> string;
  (** [utils::match_pattern(pattern, str)] *)
  match_pattern : string -> string -> bool;
  (** [utils::to_lowercase] *)
  to_lowercase : string -> string
}.

Class CppUtilsLaws `{CU : CppUtils} : Prop := {
  ret_not_spec : forall r, ret_not r = bool_decide (r <> RETCODE_OK);
  is_set_init : forall A (a : A), is_set (fuzzy_init a) = false;
  get_init : forall A (a : A), get_reference (fuzzy_init a) = a;
  is_set_value : forall A (a : A) f, is_set (set_value a f) = true;
  get_set_value : forall A (a : A) f, get_reference (set_value a f) = a;
  is_set_reference : forall A (a : A) f, is_set (set_reference a f) = is_set f;
  get_set_reference : forall A (a : A) f, get_reference (set_reference a f) = a;
  is_set_level : forall A (f : Fuzzy A), is_set (set_level f) = true;
  get_set_level : forall A (f : Fuzzy A), get_reference (set_level f) = get_reference f
}.

(** ** Fast DDS *)

(** [GuidPrefix_t] (12 octets) and [EntityId_t] (4 octets) *)
Definition GuidPrefix : Type := list Z.
Definition EntityId : Type := list Z.

(** [GUID_t] *)
Record Guid : Type := mkGuid { guidPrefix : GuidPrefix; entityId : EntityId }.

#[export] Instance Guid_eq_dec : EqDecision Guid.
Proof. solve_decision. Defined.

(** [SequenceNumber_t]: a 64-bit number *)
Definition SequenceNumber : Type := Z.

(** [SampleIdentity] *)
Record SampleIdentity : Type := mkSampleIdentity {
  writer_guid : Guid;
  sequence_number : SequenceNumber
}.

#[export] Instance SampleIdentity_eq_dec : EqDecision SampleIdentity.
Proof. solve_decision. Defined.

(** [WriteParams] *)
Record WriteParams : Type := mkWriteParams {
  sample_identity : SampleIdentity;
  related_sample_identity : SampleIdentity
}.

#[export] Instance WriteParams_eq_dec : EqDecision WriteParams.
Proof. solve_decision. Defined.

(** [ChangeKind_t] *)
Inductive ChangeKind : Type :=
| ALIVE
| NOT_ALIVE_DISPOSED
| NOT_ALIVE_UNREGISTERED
| NOT_ALIVE_DISPOSED_UNREGISTERED.

#[export] Instance ChangeKind_eq_dec : EqDecision ChangeKind.
Proof. solve_decision. Defined.

(** [InstanceHandle_t] (16 octets) *)
Definition InstanceHandle : Type := list Z.

Class FastDDS := {
  (** [operator <] of [GUID_t], [GuidPrefix_t] and [InstanceHandle_t] *)
  guid_lt : Guid -> Guid -> bool;
  guid_prefix_lt : GuidPrefix -> GuidPrefix -> bool;
  instance_handle_lt : InstanceHandle -> InstanceHandle -> bool;
  (** [GuidPrefix_t::unknown()], [EntityId_t::unknown()], [SampleIdentity::unknown()] *)
  guid_prefix_unknown : GuidPrefix;
  entity_id_unknown : EntityId;
  sample_identity_unknown : SampleIdentity
}.

#[export] Instance guid_less `{FastDDS} : Less Guid := guid_lt.
Definition guid_prefix_less `{FastDDS} : Less GuidPrefix := guid_prefix_lt.

Class FastDDSLaws `{FD : FastDDS} : Prop := {
  guid_strict_weak :: StrictWeak Guid;
  guid_keqv : forall a b : Guid, keqv a b = true <-> a = b;
  guid_prefix_strict_weak : @StrictWeak GuidPrefix guid_prefix_less;
  guid_prefix_keqv : forall a b : GuidPrefix, @keqv GuidPrefix guid_prefix_less a b = true <-> a = b
}.

(** [fastrtps::DBQueue]: a queue with two buffers; [Push] writes to the
    background one, [Front] and [Pop] read the foreground one, [Swap] clears the
    foreground and exchanges them. *)
Class DBQueueOps := {
  DBQueue : Type -> Type;
  dbq_new : forall {A}, DBQueue A;
  dbq_push : forall {A}, A -> DBQueue A -> DBQueue A;
  dbq_swap : forall {A}, DBQueue A -> DBQueue A;
  dbq_front : forall {A}, DBQueue A -> option A;
  dbq_pop : forall {A}, DBQueue A -> DBQueue A;
  dbq_empty : forall {A}, DBQueue A -> bool;
  dbq_both_empty : forall {A}, DBQueue A -> bool;
  (** the contents of the two buffers, oldest first *)
  foreground : forall {A}, DBQueue A -> list A;
  background : forall {A}, DBQueue A -> list A
}.

Class DBQueueLaws `{DQ : DBQueueOps} : Prop := {
  fg_new : forall A, foreground (dbq_new (A := A)) = [];
  bg_new : forall A, background (dbq_new (A := A)) = [];
  fg_push : forall A (x : A) q, foreground (dbq_push x q) = foreground q;
  bg_push : forall A (x : A) q, background (dbq_push x q) = background q ++ [x];
  fg_swap : forall A (q : DBQueue A), foreground (dbq_swap q) = background q;
  bg_swap : forall A (q : DBQueue A), background (dbq_swap q) = [];
  fg_front : forall A (q : DBQueue A), dbq_front q = head (foreground q);
  fg_pop : forall A (q : DBQueue A), foreground (dbq_pop q) = tail (foreground q);
  bg_pop : forall A (q : DBQueue A), background (dbq_pop q) = background q;
  empty_spec : forall A (q : DBQueue A), dbq_empty q = true <-> foreground q = [];
  both_empty_spec : forall A (q : DBQueue A),
    dbq_both_empty q = true <-> foreground q = [] /\ background q = []
}.

(** ** A concrete instance

    [Fuzzy] as a flag and a value, patterns with the wildcard [*], and
    lexicographic orders of octets. *)
Module Demo.

Fixpoint glob (fuel : nat) (pat s : string) : bool :=
  match fuel with
  | 0 => false
  | S fuel' =>
      match pat, s with
      | EmptyString, EmptyString => true
      | EmptyString, _ => false
      | String "*"%char pat', EmptyString => glob fuel' pat' s
      | String "*"%char pat', String _ s' => glob fuel' pat' s || glob fuel' pat s'
      | String _ _, EmptyString => false
      | String p pat', String c s' => Ascii.eqb p c && glob fuel' pat' s'
      end
  end.

Definition lowercase_ascii (c : Ascii.ascii) : Ascii.ascii :=
  let n := Ascii.nat_of_ascii c in
  if (65 <=? n)%nat && (n <=? 90)%nat then Ascii.ascii_of_nat (n + 32) else c.

Fixpoint lowercase (s : string) : string :=
  match s with
  | EmptyString => EmptyString
  | String c s' => String (lowercase_ascii c) (lowercase s')
  end.

Definition cpp_utils : CppUtils := {|
  ret_not r := bool_decide (r <> RETCODE_OK);
  Fuzzy A := (bool * A)%type;
  fuzzy_init A a := (false, a);
  is_set A f := f.1;
  get_reference A f := f.2;
  set_value A a f := (true, a);
  set_reference A a f := (f.1, a);
  set_level A f := (true, f.2);
  fuzzy_to_string f := f.2;
  match_pattern pat s := glob (String.length pat + String.length s + 1) pat s;
  to_lowercase := lowercase
|}.

Lemma cpp_utils_laws : @CppUtilsLaws cpp_utils.
Proof. by split. Qed.

Definition octets_lt : list Z -> list Z -> bool := list_less Z.ltb.

Definition fast_dds : FastDDS := {|
  guid_lt := lex_less (pull_less guidPrefix octets_lt) (pull_less entityId octets_lt);
  guid_prefix_lt := octets_lt;
  instance_handle_lt := octets_lt;
  guid_prefix_unknown := repeat 0%Z 12;
  entity_id_unknown := repeat 0%Z 4;
  sample_identity_unknown :=
    mkSampleIdentity (mkGuid (repeat 0%Z 12) (repeat 0%Z 4)) (- 2 ^ 32)%Z
|}.

Lemma octets_strict_weak : @StrictWeak (list Z) octets_lt.
Proof. apply list_strict_weak, Z_strict_weak. Qed.

Lemma octets_keqv (a b : list Z) : @keqv (list Z) octets_lt a b = true <-> a = b.
Proof. apply list_keqv, Z_keqv. Qed.

Lemma fast_dds_laws : @FastDDSLaws fast_dds.
Proof.
  split.
  - apply lex_strict_weak; apply pull_strict_weak, octets_strict_weak.
  - intros [p1 e1] [p2 e2]. unfold guid_less, guid_lt. simpl.
    rewrite lex_keqv, !pull_keqv, andb_true_iff, !octets_keqv. simpl. naive_solver.
  - apply octets_strict_weak.
  - apply octets_keqv.
Qed.

Definition dbqueue : DBQueueOps := {|
  DBQueue A := (list A * list A)%type;
  dbq_new A := ([], []);
  dbq_push A x q := (q.1, q.2 ++ [x]);
  dbq_swap A q := (q.2, []);
  dbq_front A q := head q.1;
  dbq_pop A q := (tail q.1, q.2);
  dbq_empty A q := match q.1 with [] => true | _ => false end;
  dbq_both_empty A q := match q.1, q.2 with [], [] => true | _, _ => false end;
  foreground A q := q.1;
  background A q := q.2
|}.

Lemma dbqueue_laws : @DBQueueLaws dbqueue.
Proof.
  split; try done.
  - by intros A [[|x f] b].
  - intros A [[|x f] [|y b]]; simpl; naive_solver.
Qed.

End Demo.
