(* ===== verification/Types.v ===== *)
(** * Basic types

    [ddsrouter_core/src/cpp/types/participant], [types/dds] and their headers:
    participant ids and kinds, domains, quality of service of topics and
    endpoints, the data that travels through the router. *)
From S2P Require Import Prelude StdMap CppString Externals.

(** ** ParticipantId *)

Definition INVALID_ID : string := "__invalid_ddsrouter_participant__".

Record ParticipantId : Type := mkParticipantId { id_ : string }.

#[export] Instance ParticipantId_eq_dec : EqDecision ParticipantId.
Proof. solve_decision. Defined.

Definition is_valid_id (tag : string) : bool :=
  negb (str_empty tag) && negb (tag =? INVALID_ID)%string.

(** [ParticipantId(const std::string& id)] *)
Definition ParticipantId_of (id : string) : ParticipantId :=
  if negb (is_valid_id id) then mkParticipantId INVALID_ID else mkParticipantId id.

(** [ParticipantId()], [ParticipantId::invalid()] *)
Definition ParticipantId_invalid : ParticipantId := mkParticipantId INVALID_ID.

Definition ParticipantId_is_valid (p : ParticipantId) : bool := is_valid_id (id_ p).

#[export] Instance ParticipantId_less : Less ParticipantId := fun a b => less (id_ a) (id_ b).

#[export] Instance ParticipantId_strict_weak : StrictWeak ParticipantId.
Proof. apply (pull_strict_weak id_ string_less), string_strict_weak. Qed.

Lemma ParticipantId_keqv (a b : ParticipantId) : keqv a b = true <-> a = b.
Proof.
  change (keqv (id_ a) (id_ b) = true <-> a = b). rewrite string_keqv.
  destruct a, b; simpl. naive_solver.
Qed.

Lemma ParticipantId_keqv_ne (a b : ParticipantId) : a <> b -> keqv a b = false.
Proof. intros Hne. apply not_true_is_false. by rewrite ParticipantId_keqv. Qed.

Lemma ParticipantId_invalid_not_valid : ParticipantId_is_valid ParticipantId_invalid = false.
Proof. done. Qed.

(** ** ParticipantKind *)

Inductive ParticipantKind : Type :=
| kind_invalid
| kind_blank
| kind_echo
| kind_dummy
| kind_simple_rtps
| kind_local_discovery_server
| kind_wan_discovery_server
| kind_wan_initial_peers.

#[export] Instance ParticipantKind_eq_dec : EqDecision ParticipantKind.
Proof. solve_decision. Defined.

Definition ALL_PARTICIPANT_KINDS : list ParticipantKind :=
  [kind_invalid; kind_blank; kind_echo; kind_dummy; kind_simple_rtps;
   kind_local_discovery_server; kind_wan_discovery_server; kind_wan_initial_peers].

Definition PARTICIPANT_KIND_ALIASES : list (list string) :=
  [["__invalid_participant_kind__"; ""; ""; ""];
   ["blank"; "void"; ""; ""];
   ["echo"; ""; ""; ""];
   ["dummy"; ""; ""; ""];
   ["local"; "simple"; ""; ""];
   ["discovery-server"; "ds"; "local-ds"; "local-discovery-server"];
   ["wan-ds"; "wan-discovery-server"; ""; ""];
   ["wan"; "router"; "initial-peers"; ""]].

Section KindFromName.
Context {CU : CppUtils}.

(** The loop over the rows of aliases, [kind_idx] counting the row. *)
Fixpoint kind_from_aliases (kind_str : string) (kind_idx : nat) (rows : list (list string)) :
    ParticipantKind :=
  match rows with
  | [] => kind_invalid
  | aliases :: rows' =>
      if existsb (fun str => (kind_str =? to_lowercase str)%string) aliases
      then default kind_invalid (ALL_PARTICIPANT_KINDS !! kind_idx)
      else kind_from_aliases kind_str (S kind_idx) rows'
  end.

Definition participant_kind_from_name (kind_str : string) : ParticipantKind :=
  if (String.length kind_str =? 0)%nat then kind_invalid
  else kind_from_aliases (to_lowercase kind_str) 0 PARTICIPANT_KIND_ALIASES.

End KindFromName.

(** ** DomainId *)

(** [DomainId_t] is a 32-bit unsigned integer. *)
Record DomainId : Type := mkDomainId { domain_id_ : Z }.

Definition DEFAULT_DOMAIN_ID : Z := 0.
Definition DEFAULT_DISCOVERY_SERVER_DOMAIN_ID : Z := 66.
Definition MAX_DOMAIN_ID : Z := 230.

(** [DomainId(bool discovery_server)] *)
Definition DomainId_default (discovery_server : bool) : DomainId :=
  if discovery_server then mkDomainId DEFAULT_DISCOVERY_SERVER_DOMAIN_ID
  else mkDomainId DEFAULT_DOMAIN_ID.

Definition DomainId_is_valid (d : DomainId) : bool := (domain_id_ d <=? MAX_DOMAIN_ID)%Z.

Definition DomainId_eqb (a b : DomainId) : bool := (domain_id_ a =? domain_id_ b)%Z.

(** ** Guid *)

Section GuidValid.
Context {FD : FastDDS}.

Definition GuidPrefix_is_valid (p : GuidPrefix) : bool := bool_decide (p <> guid_prefix_unknown).

Definition Guid_is_valid (g : Guid) : bool :=
  GuidPrefix_is_valid (guidPrefix g) && bool_decide (entityId g <> entity_id_unknown).

End GuidValid.

(** ** TopicQoS *)

Inductive DurabilityKind : Type := VOLATILE | TRANSIENT_LOCAL | TRANSIENT | PERSISTENT.
Inductive ReliabilityKind : Type := RELIABLE | BEST_EFFORT.
Inductive OwnershipKind : Type := SHARED_OWNERSHIP | EXCLUSIVE_OWNERSHIP.

#[export] Instance DurabilityKind_eq_dec : EqDecision DurabilityKind.
Proof. solve_decision. Defined.
#[export] Instance ReliabilityKind_eq_dec : EqDecision ReliabilityKind.
Proof. solve_decision. Defined.
#[export] Instance OwnershipKind_eq_dec : EqDecision OwnershipKind.
Proof. solve_decision. Defined.

Record TopicQoS : Type := mkTopicQoS {
  durability_qos : DurabilityKind;
  reliability_qos : ReliabilityKind;
  ownership_qos : OwnershipKind;
  use_partitions : bool;
  history_depth : Z
}.

#[export] Instance TopicQoS_eq_dec : EqDecision TopicQoS.
Proof. solve_decision. Defined.

(** Initial value of the static [TopicQoS::default_history_depth]. *)
Definition default_history_depth : Z := 1000.

(** [TopicQoS()]: the depth is read from the static variable. *)
Definition TopicQoS_default (default_depth : Z) : TopicQoS := {|
  durability_qos := VOLATILE;
  reliability_qos := BEST_EFFORT;
  ownership_qos := SHARED_OWNERSHIP;
  use_partitions := false;
  history_depth := default_depth
|}.

Definition is_reliable (q : TopicQoS) : bool := bool_decide (reliability_qos q = RELIABLE).
Definition is_transient_local (q : TopicQoS) : bool :=
  bool_decide (durability_qos q = TRANSIENT_LOCAL).
Definition has_ownership (q : TopicQoS) : bool :=
  bool_decide (ownership_qos q = EXCLUSIVE_OWNERSHIP).
Definition has_partitions (q : TopicQoS) : bool := use_partitions q.

(** ** SpecificEndpointQoS *)

Record SpecificEndpointQoS : Type := mkSpecificQoS {
  partitions : list string;
  ownership_strength : Z
}.

#[export] Instance SpecificEndpointQoS_eq_dec : EqDecision SpecificEndpointQoS.
Proof. solve_decision. Defined.

Definition SpecificEndpointQoS_default : SpecificEndpointQoS := mkSpecificQoS [] 0.

(** The loop over [this_names[i]] and [other_names[i]]; the sizes are equal when
    it is reached. *)
Fixpoint names_lt (this_names other_names : list string) : bool :=
  match this_names, other_names with
  | n :: this', n' :: other' =>
      if less n n' then true else if less n' n then false else names_lt this' other'
  | _, _ => false
  end.

(** [SpecificEndpointQoS::operator <] *)
#[export] Instance SpecificEndpointQoS_less : Less SpecificEndpointQoS := fun a b =>
  if (ownership_strength a <? ownership_strength b)%Z then true
  else if (ownership_strength b <? ownership_strength a)%Z then false
  else if (length (partitions a) <? length (partitions b))%nat then true
  else if (length (partitions b) <? length (partitions a))%nat then false
  else names_lt (partitions a) (partitions b).

(** [SpecificEndpointQoS::operator ==] *)
Definition SpecificEndpointQoS_eqb (a b : SpecificEndpointQoS) : bool :=
  bool_decide (partitions a = partitions b) &&
  (ownership_strength a =? ownership_strength b)%Z.

Lemma names_lt_list_less l1 l2 :
  length l1 = length l2 -> names_lt l1 l2 = list_less string_less l1 l2.
Proof.
  revert l2. induction l1 as [|a l1 IH]; intros [|b l2]; simpl; try done.
  intros [= H]. unfold less. by rewrite (IH _ H).
Qed.

Lemma SpecificEndpointQoS_less_lex a b :
  less a b = lex_less (pull_less ownership_strength Z_less)
    (lex_less (pull_less (fun q => length (partitions q)) nat_less)
              (pull_less partitions (list_less string_less))) a b.
Proof.
  unfold less, SpecificEndpointQoS_less, lex_less, pull_less, Z_less, nat_less.
  repeat case_match; try done.
  apply names_lt_list_less. rewrite Nat.ltb_ge in *. lia.
Qed.

#[export] Instance SpecificEndpointQoS_strict_weak : StrictWeak SpecificEndpointQoS.
Proof.
  assert (@StrictWeak SpecificEndpointQoS (lex_less (pull_less ownership_strength Z_less)
    (lex_less (pull_less (fun q => length (partitions q)) nat_less)
              (pull_less partitions (list_less string_less))))) as [Hi Ha Hn].
  { repeat apply lex_strict_weak; apply pull_strict_weak; try apply _.
    apply list_strict_weak, _. }
  split; intros *; rewrite !SpecificEndpointQoS_less_lex; eauto.
Qed.

Lemma SpecificEndpointQoS_keqv (a b : SpecificEndpointQoS) : keqv a b = true <-> a = b.
Proof.
  unfold keqv at 1. rewrite !SpecificEndpointQoS_less_lex.
  match goal with |- context [lex_less ?p ?q a b] =>
    change (@keqv SpecificEndpointQoS (lex_less p q) a b = true <-> a = b) end.
  rewrite !lex_keqv, !pull_keqv, !andb_true_iff, Z_keqv, nat_keqv.
  rewrite (list_keqv _ _ _ string_keqv). destruct a, b; simpl. naive_solver.
Qed.

(** ** Data *)

(** [Payload] ([SerializedPayload_t]): a block of the heap and its bounds. *)
Record Payload : Type := mkPayload {
  payload_data : option nat;
  payload_length : Z;
  payload_max_size : Z;
  payload_pos : Z
}.

#[export] Instance Payload_eq_dec : EqDecision Payload.
Proof. solve_decision. Defined.

Definition Payload_empty : Payload := mkPayload None 0 0 0.

Section Data.
Context {CU : CppUtils}.

Record DataProperties : Type := mkDataProperties {
  writer_qos : SpecificEndpointQoS;
  instanceHandle : InstanceHandle;
  kind : ChangeKind;
  source_timestamp : Z;
  source_guid : Guid;
  participant_receiver : ParticipantId;
  write_params : Fuzzy WriteParams;
  origin_sequence_number : SequenceNumber
}.

Record DataReceived : Type := mkDataReceived {
  payload : Payload;
  properties : DataProperties;
  sent_sequence_number : SequenceNumber
}.

Definition set_properties (p : DataProperties) (d : DataReceived) : DataReceived :=
  mkDataReceived (payload d) p (sent_sequence_number d).
Definition set_payload (p : Payload) (d : DataReceived) : DataReceived :=
  mkDataReceived p (properties d) (sent_sequence_number d).
Definition set_sent_sequence_number (n : SequenceNumber) (d : DataReceived) : DataReceived :=
  mkDataReceived (payload d) (properties d) n.
Definition set_write_params (w : Fuzzy WriteParams) (p : DataProperties) : DataProperties :=
  mkDataProperties (writer_qos p) (instanceHandle p) (kind p) (source_timestamp p)
    (source_guid p) (participant_receiver p) w (origin_sequence_number p).

End Data.
