(* ===== verification/Topics.v ===== *)
(** * Topics

    [types/topic/Topic.cpp], [types/topic/dds/DdsTopic.cpp],
    [types/topic/filter/*.cpp], [types/topic/rpc/RPCTopic.cpp]. *)
From S2P Require Import Prelude StdMap CppString Externals Types.
From Stdlib Require Import Ascii.

(** ** DdsTopic *)

Section DdsTopicDef.
Context {CU : CppUtils}.

Record DdsTopic : Type := mkDdsTopic {
  topic_name : string;
  type_name : string;
  keyed : bool;
  topic_qos : Fuzzy TopicQoS
}.

(** [DdsTopic(topic_name, type_name)]; [depth] is the static
    [TopicQoS::default_history_depth]. *)
Definition DdsTopic_of (depth : Z) (name type : string) : DdsTopic :=
  mkDdsTopic name type false (fuzzy_init (TopicQoS_default depth)).

(** [Topic::is_valid] and [DdsTopic::is_valid] *)
Definition Topic_is_valid (name : string) : bool := negb (str_empty name).

Definition DdsTopic_is_valid (t : DdsTopic) : bool :=
  if negb (Topic_is_valid (topic_name t)) then false
  else if str_empty (type_name t) then false
  else
    let invalid_substrings := ["*"] in
    negb (existsb (fun invalid_substring =>
      negb (str_find invalid_substring (topic_name t) =? npos)%Z ||
      negb (str_find invalid_substring (type_name t) =? npos)%Z) invalid_substrings).

(** [Topic::operator ==], [Topic::operator <] *)
Definition Topic_eqb (a b : DdsTopic) : bool := (topic_name a =? topic_name b)%string.
Definition Topic_ltb (a b : DdsTopic) : bool := less (topic_name a) (topic_name b).

(** [DdsTopic::operator <] *)
#[export] Instance DdsTopic_less : Less DdsTopic := fun a b =>
  if Topic_eqb a b then less (type_name a) (type_name b) else Topic_ltb a b.

(** [DdsTopic::operator ==] *)
Definition DdsTopic_eqb (a b : DdsTopic) : bool :=
  Topic_eqb a b && (type_name a =? type_name b)%string.

(** ** Filters *)

(** The interface [DdsFilterTopic]. *)
Class DdsFilterTopic (F : Type) := {
  filter_contains : F -> F -> bool;
  filter_matches : F -> DdsTopic -> bool;
  filter_serialize : F -> string
}.

(** [DdsFilterTopic::operator ==]: the serializations are equal. *)
Definition filter_eqb `{DdsFilterTopic F} (a b : F) : bool :=
  (filter_serialize b =? filter_serialize a)%string.

(** What [contains] promises to [AllowedTopicList]: a filter that contains
    another matches whatever the other matches. *)
Class FilterLaws (F : Type) `{DdsFilterTopic F} : Prop := {
  contains_matches : forall (f g : F) t,
    filter_contains f g = true -> filter_matches g t = true -> filter_matches f t = true
}.

Record WildcardDdsFilterTopic : Type := mkWildcard {
  w_topic_name : string;
  w_type_name : Fuzzy string;
  w_keyed : Fuzzy bool
}.

Definition Wildcard_contains (f g : WildcardDdsFilterTopic) : bool := false.

Definition Wildcard_matches (f : WildcardDdsFilterTopic) (other : DdsTopic) : bool :=
  if is_set (w_keyed f) && negb (Bool.eqb (get_reference (w_keyed f)) (keyed other)) then false
  else if is_set (w_type_name f) &&
          negb (match_pattern (get_reference (w_type_name f)) (type_name other)) then false
  else match_pattern (w_topic_name f) (topic_name other).

(** [operator <<] *)
Definition Wildcard_serialize (f : WildcardDdsFilterTopic) : string :=
  let keyed_str := if is_set (w_keyed f) then ";keyed" else "" in
  let type_name_str :=
    if is_set (w_type_name f) then ";" +:+ fuzzy_to_string (w_type_name f) else "" in
  "WildcardDdsFilterTopic{" +:+ w_topic_name f +:+ type_name_str +:+ keyed_str +:+ "}".

#[export] Instance Wildcard_filter : DdsFilterTopic WildcardDdsFilterTopic := {|
  filter_contains := Wildcard_contains;
  filter_matches := Wildcard_matches;
  filter_serialize := Wildcard_serialize
|}.

#[export] Instance Wildcard_laws : FilterLaws WildcardDdsFilterTopic.
Proof. split. done. Qed.

(** ** RPCTopic *)

Definition REQUEST_PREFIX_STR : string := "rq/".
Definition REPLY_PREFIX_STR : string := "rr/".
Definition REQUEST_STR : string := "Request".
Definition REPLY_STR : string := "Reply".
Definition RESPONSE_STR : string := "Response".

Record RPCTopic : Type := mkRPCTopic {
  service_name : string;
  request_topic : DdsTopic;
  reply_topic : DdsTopic
}.

(** [a.rfind(s) + s.length() + extra == a.length()] in [size_t] arithmetic *)
Definition ends_with (s : string) (extra : Z) (a : string) : bool :=
  (u64 (u64 (str_rfind s a + str_length s) + extra) =? str_length a)%Z.

Definition is_request_topic (t : DdsTopic) : bool :=
  (str_find REQUEST_PREFIX_STR (topic_name t) =? 0)%Z &&
  ends_with REQUEST_STR 0 (topic_name t) &&
  ends_with REQUEST_STR 1 (type_name t).

Definition is_reply_topic (t : DdsTopic) : bool :=
  (str_find REPLY_PREFIX_STR (topic_name t) =? 0)%Z &&
  ends_with REPLY_STR 0 (topic_name t) &&
  ends_with RESPONSE_STR 1 (type_name t).

Definition is_service_topic (t : DdsTopic) : bool := is_request_topic t || is_reply_topic t.

(** [RPCTopic(const DdsTopic& topic)]; [None] is the call of [utils::tsnh]. *)
Definition RPCTopic_of (t : DdsTopic) : option RPCTopic :=
  if is_request_topic t then
    let name1 := regex_replace (topic_name t) [REQUEST_PREFIX_STR] REPLY_PREFIX_STR in
    let name2 := regex_replace name1 [REQUEST_STR] REPLY_STR in
    let type' := regex_replace (type_name t) [REQUEST_STR] RESPONSE_STR in
    Some (mkRPCTopic
      (regex_replace (topic_name t) [REQUEST_PREFIX_STR; REQUEST_STR] "")
      t
      (mkDdsTopic name2 type' (keyed t) (topic_qos t)))
  else if is_reply_topic t then
    let name1 := regex_replace (topic_name t) [REPLY_PREFIX_STR] REQUEST_PREFIX_STR in
    let name2 := regex_replace name1 [REPLY_STR] REQUEST_STR in
    let type' := regex_replace (type_name t) [RESPONSE_STR] REQUEST_STR in
    Some (mkRPCTopic
      (regex_replace (topic_name t) [REPLY_PREFIX_STR; REPLY_STR] "")
      (mkDdsTopic name2 type' (keyed t) (topic_qos t))
      t)
  else None.

(** [RPCTopic::operator <] *)
#[export] Instance RPCTopic_less : Less RPCTopic := fun a b =>
  less (service_name a) (service_name b).

End DdsTopicDef.

(** ** Orders *)

Section Orders.
Context {CU : CppUtils}.

Lemma DdsTopic_less_lex (a b : DdsTopic) :
  less a b = lex_less (pull_less topic_name string_less) (pull_less type_name string_less) a b.
Proof.
  unfold less at 1, DdsTopic_less, Topic_eqb, Topic_ltb, lex_less, pull_less.
  destruct (topic_name a =? topic_name b)%string eqn:E.
  - apply String.eqb_eq in E. rewrite E.
    change (string_less (topic_name b) (topic_name b)) with (less (topic_name b) (topic_name b)).
    by rewrite less_irrefl.
  - apply String.eqb_neq in E. unfold less.
    destruct (string_less (topic_name a) (topic_name b)) eqn:E1; [done|].
    destruct (string_less (topic_name b) (topic_name a)) eqn:E2; [done|].
    exfalso. apply E, string_keqv, keqv_spec. done.
Qed.

#[export] Instance DdsTopic_strict_weak : StrictWeak DdsTopic.
Proof.
  assert (@StrictWeak DdsTopic
    (lex_less (pull_less topic_name string_less) (pull_less type_name string_less)))
    as [Hi Ha Hn] by (apply lex_strict_weak; apply pull_strict_weak, _).
  split; intros *; rewrite !DdsTopic_less_lex; eauto.
Qed.

Lemma DdsTopic_keqv_names (a b : DdsTopic) :
  keqv a b = true <-> topic_name a = topic_name b /\ type_name a = type_name b.
Proof.
  unfold keqv at 1. rewrite !DdsTopic_less_lex.
  match goal with |- context [lex_less ?p ?q a b] =>
    change (@keqv DdsTopic (lex_less p q) a b = true <->
      topic_name a = topic_name b /\ type_name a = type_name b) end.
  by rewrite lex_keqv, !pull_keqv, andb_true_iff, !string_keqv.
Qed.

#[export] Instance RPCTopic_strict_weak : StrictWeak RPCTopic.
Proof. apply (pull_strict_weak service_name string_less), _. Qed.

Lemma RPCTopic_keqv (a b : RPCTopic) : keqv a b = true <-> service_name a = service_name b.
Proof. apply (string_keqv (service_name a) (service_name b)). Qed.

End Orders.

(** ** Service topic recognition *)

Section ServiceNames.
Context {CU : CppUtils}.

Lemma str_find_zero pat s : (str_find pat s =? 0)%Z = String.prefix pat s.
Proof.
  unfold str_find. destruct s as [|c s]; cbn [String.index].
  - destruct pat; done.
  - destruct (String.prefix pat (String c s)) eqn:E; [done|].
    destruct (String.index 0 pat s) as [n|]; [|done]. destruct pat; [done|]. apply Z.eqb_neq. lia.
Qed.

Lemma string_app_split u1 u2 x y :
  String.length u1 = String.length u2 -> u1 +:+ x = u2 +:+ y -> u1 = u2 /\ x = y.
Proof.
  revert u2. induction u1 as [|c u1 IH]; intros [|d u2]; simpl; try done.
  intros [= Hl]. rewrite !string_app_cons. intros [= -> H].
  by destruct (IH _ Hl H) as [-> ->].
Qed.

Lemma string_length_0 s : String.length s = 0 -> s = "".
Proof. by destruct s. Qed.

Lemma string_length_S s n : String.length s = S n -> exists u c, s = u +:+ String c "" /\ String.length u = n.
Proof.
  revert n. induction s as [|c s IH]; intros n [= Hn].
  destruct n as [|n]; [apply string_length_0 in Hn as ->; by exists "", c|].
  destruct (IH _ Hn) as (u & d & -> & Hu). exists (String c u), d. simpl. by rewrite Hu.
Qed.

(** The last occurrence of [s] in a text that has one more character after it:
    [s] starts with two different characters, so it cannot overlap itself
    shifted by one. *)
Lemma rindex_one_more a b s u c :
  a <> b -> rindex (String a (String b s)) (u +:+ String a (String b s) +:+ String c "")
            = Some (String.length u).
Proof.
  intros Hab. set (p := String a (String b s)).
  destruct (rindex_ge p u (String c "")) as (n & Hn & Hle). rewrite Hn. f_equal.
  pose proof (rindex_bound _ _ _ Hn) as Hb. rewrite !string_length_app in Hb. simpl in Hb.
  destruct (decide (n = String.length u)) as [->|Hne]; [done|exfalso].
  assert (n = S (String.length u)) as -> by lia.
  apply rindex_spec in Hn as (u' & v & E & Hu').
  destruct (string_length_S _ _ Hu') as (w & d & -> & Hw).
  rewrite <- string_app_assoc in E.
  destruct (string_app_split u w _ _ ltac:(done) E) as [-> E'].
  subst p. rewrite !string_app_cons, string_app_nil_l in E'. congruence.
Qed.

(** [a.rfind(s) + s.length() + extra == a.length()] also holds when [s] does
    not occur and the addition wraps around [npos]. *)
Lemma ends_with_spec a b s extra text :
  a <> b -> (extra = 0 \/ extra = 1)%Z ->
  (str_length text + str_length (String a (String b s)) + 2 < 2 ^ 64)%Z ->
  ends_with (String a (String b s)) extra text = true <->
  (exists u v, text = u +:+ String a (String b s) +:+ v /\ str_length v = extra) \/
  (occurs (String a (String b s)) text = false /\
   str_length text = str_length (String a (String b s)) - 1 + extra)%Z.
Proof.
  intros Hab Hex Hfit. set (p := String a (String b s)) in *.
  assert (0 <= str_length p)%Z by (unfold str_length; lia).
  unfold ends_with, str_rfind. rewrite Z.eqb_eq. destruct (rindex p text) as [n|] eqn:E.
  - pose proof (rindex_bound _ _ _ E) as Hb.
    assert (Z.of_nat n + str_length p <= str_length text)%Z by (unfold str_length; lia).
    rewrite !u64_small by (rewrite ?u64_small; lia).
    assert (occurs p text = true) as Hocc.
    { apply not_false_is_true. intros Ho. apply rindex_none in Ho. congruence. }
    rewrite Hocc. split.
    + intros Heq. left. apply rindex_spec in E as (u & v & -> & Hu). exists u, v. split; [done|].
      rewrite !str_length_app in Heq. unfold str_length in *. lia.
    + intros [(u & v & -> & Hv)|[? _]]; [|done].
      assert (rindex p (u +:+ p +:+ v) = Some (String.length u)) as E'.
      { destruct Hex as [-> | ->].
        - assert (v = "") as -> by (apply string_length_0; unfold str_length in Hv; lia).
          rewrite string_app_nil_r. apply rindex_at_end.
        - destruct (string_length_S v 0 ltac:(unfold str_length in Hv; lia)) as (w & c & -> & Hw).
          apply string_length_0 in Hw as ->. by apply rindex_one_more. }
      assert (n = String.length u) as -> by congruence.
      rewrite !str_length_app. unfold str_length in *. lia.
  - assert (u64 (npos + str_length p) = str_length p - 1)%Z as ->.
    { unfold u64, npos. replace (2 ^ 64 - 1 + str_length p)%Z with
        (str_length p - 1 + 1 * 2 ^ 64)%Z by lia.
      rewrite Z.mod_add by lia. apply Z.mod_small.
      assert (1 < str_length p)%Z by (unfold p, str_length; simpl; lia).
      assert (0 <= str_length text)%Z by (unfold str_length; lia). lia. }
    assert (1 < str_length p)%Z by (unfold p, str_length; simpl; lia).
    assert (0 <= str_length text)%Z by (unfold str_length; lia).
    rewrite u64_small by lia. apply rindex_none in E. rewrite E. split.
    + intros <-. right. split; [done|lia].
    + intros [(u & v & -> & _)|[_ ?]]; [|lia].
      exfalso. assert (occurs p (u +:+ p +:+ v) = true) as Ho; [|congruence].
      apply occurs_app_l. destruct (p +:+ v) eqn:Epv; cbn [occurs];
        by rewrite <- Epv, prefix_app.
Qed.

Definition fits_in_memory (s : string) : Prop := (str_length s < 2 ^ 63)%Z.

(** What a topic looks like that [is_request_topic] accepts. *)
Definition looks_like_request (t : DdsTopic) : Prop :=
  String.prefix "rq/" (topic_name t) = true /\
  (exists u, topic_name t = u +:+ "Request") /\
  (exists ty c, type_name t = ty +:+ "Request" +:+ String c "").

Lemma is_request_topic_iff (t : DdsTopic) :
  fits_in_memory (topic_name t) -> fits_in_memory (type_name t) ->
  is_request_topic t = true <->
  String.prefix "rq/" (topic_name t) = true /\
  ((exists u, topic_name t = u +:+ "Request") \/
   (occurs "Request" (topic_name t) = false /\ str_length (topic_name t) = 6%Z)) /\
  ((exists ty c, type_name t = ty +:+ "Request" +:+ String c "") \/
   (occurs "Request" (type_name t) = false /\ str_length (type_name t) = 7%Z)).
Proof.
  unfold fits_in_memory. intros Hn Ht. unfold is_request_topic.
  rewrite !andb_true_iff, str_find_zero. unfold REQUEST_STR, REQUEST_PREFIX_STR.
  assert (str_length "Request" = 7)%Z as HR by done.
  rewrite !ends_with_spec by (done || lia || (rewrite HR; lia)). rewrite HR.
  split.
  - intros [[Hp Hname] Htype]. split; [done|]. split.
    + destruct Hname as [(u & v & E & Hv)|[? ?]]; [left|right; split; [done|lia]].
      exists u. rewrite E. unfold str_length in Hv.
      rewrite (string_length_0 v), string_app_nil_r by lia. done.
    + destruct Htype as [(u & v & E & Hv)|[? ?]]; [left|right; split; [done|lia]].
      destruct (string_length_S v 0 ltac:(unfold str_length in Hv; lia)) as (w & c & -> & Hw).
      apply string_length_0 in Hw as ->. by exists u, c.
  - intros (Hp & Hname & Htype). repeat split; [done| |].
    + destruct Hname as [(u & E)|[? ?]]; [left|right; split; [done|lia]].
      exists u, "". by rewrite string_app_nil_r.
    + destruct Htype as [(ty & c & E)|[? ?]]; [left|right; split; [done|lia]].
      by exists ty, (String c "").
Qed.

(** ** Names of a service *)

Fixpoint char_in (c : Ascii.ascii) (s : string) : bool :=
  match s with
  | EmptyString => false
  | String d s' => Ascii.eqb c d || char_in c s'
  end.

Lemma char_in_app c s t : char_in c (s +:+ t) = char_in c s || char_in c t.
Proof. induction s as [|d s IH]; [done|]. rewrite string_app_cons. simpl. by rewrite IH, orb_assoc. Qed.

(** A literal with the letter [R] in first position only. *)
Definition R_only_first (p : string) : bool :=
  match p with
  | EmptyString => false
  | String _ p' => negb (char_in "R"%char p')
  end.

(** Text without an occurrence of the literals, followed by a text that starts
    with [R], is copied by [regex_replace]. *)
Lemma regex_replace_clean alts rep u s :
  Forall (fun a => occurs a u = false /\ R_only_first a = true) alts ->
  regex_replace (u +:+ String "R"%char s) alts rep = u +:+ regex_replace (String "R"%char s) alts rep.
Proof.
  rewrite Forall_forall. intros Halts. apply regex_replace_copy. intros v w -> Hw. apply match_alt_none.
  intros a Ha. destruct (Halts a Ha) as [Hocc HR]. apply not_true_is_false. intros Hp.
  assert (occurs a w = false) as Hw'.
  { apply not_true_is_false. intros E. by rewrite occurs_app_l in Hocc. }
  destruct (prefix_app_inv _ _ _ Hp) as [Hp'|(x & -> & Hx)].
  - destruct w; cbn [occurs] in Hw'; by rewrite Hp' in Hw'.
  - destruct x as [|c x].
    + rewrite string_app_nil_r in Hw'. destruct w as [|d w]; [done|]. cbn [occurs] in Hw'.
      assert (String.prefix (String d w) (String d w) = true) as E; [|by rewrite E in Hw'].
      apply prefix_spec. exists "". by rewrite string_app_nil_r.
    + apply prefix_spec in Hx as (y & [= <- _]). destruct w as [|d w]; [done|].
      rewrite string_app_cons in HR. simpl in HR. rewrite char_in_app in HR. simpl in HR.
      by rewrite orb_true_r in HR.
Qed.

(** Service and type names free of the literals the construction replaces. *)
Definition clean_service (svc : string) : bool :=
  forallb (fun p => negb (occurs p svc)) ["rq/"; "rr/"; "Request"; "Reply"].
Definition clean_type (ty : string) : bool :=
  forallb (fun p => negb (occurs p ty)) ["Request"; "Response"].

Definition request_topic_of (svc ty : string) (c : Ascii.ascii) (k : bool) (q : Fuzzy TopicQoS) : DdsTopic :=
  mkDdsTopic ("rq/" +:+ svc +:+ "Request") (ty +:+ "Request" +:+ String c "") k q.
Definition reply_topic_of (svc ty : string) (c : Ascii.ascii) (k : bool) (q : Fuzzy TopicQoS) : DdsTopic :=
  mkDdsTopic ("rr/" +:+ svc +:+ "Reply") (ty +:+ "Response" +:+ String c "") k q.

Lemma clean_service_spec svc :
  clean_service svc = true ->
  occurs "rq/" svc = false /\ occurs "rr/" svc = false /\
  occurs "Request" svc = false /\ occurs "Reply" svc = false.
Proof. unfold clean_service. simpl. intros ?. reflect_bools. done. Qed.

Lemma clean_type_spec ty :
  clean_type ty = true -> occurs "Request" ty = false /\ occurs "Response" ty = false.
Proof. unfold clean_type. simpl. intros ?. reflect_bools. done. Qed.

(** A leading literal is replaced, the clean text after it is copied. *)
Lemma replace_front_clean alts p q svc t :
  p <> "" -> match_alt alts (p +:+ svc +:+ String "R"%char t) = Some p ->
  Forall (fun a => occurs a svc = false /\ R_only_first a = true) alts ->
  regex_replace (p +:+ svc +:+ String "R"%char t) alts q =
    q +:+ svc +:+ regex_replace (String "R"%char t) alts q.
Proof. intros. by rewrite regex_replace_front, regex_replace_clean. Qed.

(** A single character is left alone by a longer literal. *)
Lemma regex_replace_char a b p q c :
  regex_replace (String c "") [String a (String b p)] q = String c "".
Proof.
  unfold regex_replace. simpl. destruct (ascii_dec a c); done.
Qed.

(** The type name: clean text, the literal, one more character. *)
Lemma replace_type_suffix a b p q ty c :
  occurs (String a (String b p)) ty = false -> R_only_first (String a (String b p)) = true -> a = "R"%char ->
  regex_replace (ty +:+ String a (String b p) +:+ String c "") [String a (String b p)] q =
    ty +:+ q +:+ String c "".
Proof.
  intros Hocc HR ->. rewrite string_app_cons.
  rewrite regex_replace_clean by (by repeat constructor). f_equal. rewrite <- string_app_cons.
  rewrite regex_replace_front by (done || (cbn [match_alt]; by rewrite prefix_app)).
  by rewrite regex_replace_char.
Qed.

Lemma request_topic_of_is_request svc ty c k q :
  fits_in_memory ("rq/" +:+ svc +:+ "Request") -> fits_in_memory (ty +:+ "Request" +:+ String c "") ->
  is_request_topic (request_topic_of svc ty c k q) = true.
Proof.
  intros H1 H2. apply is_request_topic_iff; [done..|]. unfold request_topic_of.
  cbn [topic_name type_name]. split; [apply prefix_app|]. split; left.
  - by exists ("rq/" +:+ svc).
  - by exists ty, c.
Qed.

Lemma reply_topic_of_is_reply svc ty c k q :
  fits_in_memory ("rr/" +:+ svc +:+ "Reply") -> fits_in_memory (ty +:+ "Response" +:+ String c "") ->
  is_reply_topic (reply_topic_of svc ty c k q) = true.
Proof.
  unfold fits_in_memory. intros H1 H2. unfold is_reply_topic, REPLY_STR, RESPONSE_STR, REPLY_PREFIX_STR.
  rewrite !andb_true_iff, str_find_zero. unfold reply_topic_of. cbn [topic_name type_name].
  assert (str_length "Reply" = 5)%Z as E5 by done. assert (str_length "Response" = 8)%Z as E8 by done.
  split; [split; [apply prefix_app|]|].
  - apply ends_with_spec; [done|lia|rewrite E5; lia|]. left. exists ("rr/" +:+ svc), "".
    split; [by rewrite string_app_nil_r|done].
  - apply ends_with_spec; [done|lia|rewrite E8; lia|]. left. by exists ty, (String c "").
Qed.

Ltac front_clean := first [done | cbn [match_alt]; by rewrite prefix_app | by repeat constructor].

Lemma replace_names_request svc :
  clean_service svc = true ->
  regex_replace (regex_replace ("rq/" +:+ svc +:+ "Request") ["rq/"] "rr/") ["Request"] "Reply"
    = "rr/" +:+ svc +:+ "Reply" /\
  regex_replace ("rq/" +:+ svc +:+ "Request") ["rq/"; "Request"] "" = svc.
Proof.
  intros (Hrq & Hrr & HReq & HRep)%clean_service_spec. split.
  - rewrite replace_front_clean by front_clean.
    change (regex_replace "Request" ["rq/"] "rr/") with "Request".
    rewrite string_app_assoc, regex_replace_clean by (by repeat constructor).
    by rewrite <- string_app_assoc.
  - rewrite replace_front_clean by front_clean.
    by rewrite string_app_nil_l, string_app_nil_r.
Qed.

Lemma replace_names_reply svc :
  clean_service svc = true ->
  regex_replace (regex_replace ("rr/" +:+ svc +:+ "Reply") ["rr/"] "rq/") ["Reply"] "Request"
    = "rq/" +:+ svc +:+ "Request" /\
  regex_replace ("rr/" +:+ svc +:+ "Reply") ["rr/"; "Reply"] "" = svc.
Proof.
  intros (Hrq & Hrr & HReq & HRep)%clean_service_spec. split.
  - rewrite replace_front_clean by front_clean.
    change (regex_replace "Reply" ["rr/"] "rq/") with "Reply".
    rewrite string_app_assoc, regex_replace_clean by (by repeat constructor).
    by rewrite <- string_app_assoc.
  - rewrite replace_front_clean by front_clean.
    by rewrite string_app_nil_l, string_app_nil_r.
Qed.

(** C39: For every service whose name and type do not themselves contain the
    literals [rq/], [rr/], [Request], [Reply], [Response], the request topic
    and the reply topic of the service determine the same [RPCTopic]: same
    service name, same request topic, same reply topic. *)
Theorem rpc_topic_roundtrip svc ty c k q :
  clean_service svc = true -> clean_type ty = true ->
  fits_in_memory ("rq/" +:+ svc +:+ "Request") ->
  fits_in_memory (ty +:+ "Response" +:+ String c "") ->
  let service := mkRPCTopic svc (request_topic_of svc ty c k q) (reply_topic_of svc ty c k q) in
  RPCTopic_of (request_topic_of svc ty c k q) = Some service /\
  RPCTopic_of (reply_topic_of svc ty c k q) = Some service.
Proof.
  intros Hsvc (HtReq & HtRes)%clean_type_spec F1 F2 service.
  assert (fits_in_memory (ty +:+ "Request" +:+ String c "")) as F3.
  { unfold fits_in_memory, str_length in *. rewrite !string_length_app in *. simpl in *. lia. }
  assert (fits_in_memory ("rr/" +:+ svc +:+ "Reply")) as F4.
  { unfold fits_in_memory, str_length in *. rewrite !string_length_app in *. simpl in *. lia. }
  unfold RPCTopic_of. rewrite request_topic_of_is_request, reply_topic_of_is_reply by done.
  replace (is_request_topic (reply_topic_of svc ty c k q)) with false
    by (unfold is_request_topic; by rewrite str_find_zero).
  unfold REQUEST_PREFIX_STR, REPLY_PREFIX_STR, REQUEST_STR, REPLY_STR, RESPONSE_STR.
  unfold service, request_topic_of, reply_topic_of. cbn [topic_name type_name keyed topic_qos].
  destruct (replace_names_request svc Hsvc) as [-> ->], (replace_names_reply svc Hsvc) as [-> ->].
  by rewrite !replace_type_suffix.
Qed.

(** [is_request_topic] recognises exactly the topics named [rq/...Request]
    with a type [...Request] plus one character, for every topic whose name is
    not 6 and whose type is not 7 characters long. *)
Theorem request_topic_recognition (t : DdsTopic) :
  fits_in_memory (topic_name t) -> fits_in_memory (type_name t) ->
  str_length (topic_name t) <> 6%Z -> str_length (type_name t) <> 7%Z ->
  is_request_topic t = true <-> looks_like_request t.
Proof. intros. rewrite is_request_topic_iff by done. unfold looks_like_request. naive_solver. Qed.

(** [rfind] returning [npos] wraps around in the suffix test: every topic
    named [rq/] plus three characters with a type of seven characters is taken
    for a request topic, although neither contains [Request]. *)
Theorem request_topic_wraparound name type k q :
  String.prefix "rq/" name = true -> str_length name = 6%Z -> occurs "Request" name = false ->
  str_length type = 7%Z -> occurs "Request" type = false ->
  is_request_topic (mkDdsTopic name type k q) = true /\
  ~ looks_like_request (mkDdsTopic name type k q).
Proof.
  intros Hp Hl Ho Htl Hto. split.
  - apply is_request_topic_iff; unfold fits_in_memory; simpl; [lia..|]. auto.
  - intros (_ & (u & Hu) & _). simpl in Hu. subst name.
    assert (occurs "Request" (u +:+ "Request") = true); [|congruence]. by apply occurs_app_l.
Qed.

(** The literals are replaced everywhere in the names, so a service whose
    own name contains one of them is confused with another one: the request
    topics of [RequestData] and of [Data] get the same service name, and the
    reply topic inferred for [RequestData] is not its reply topic. *)
Theorem rpc_service_names_collide ty c k q :
  fits_in_memory (ty +:+ "Request" +:+ String c "") ->
  exists s1 s2,
    RPCTopic_of (request_topic_of "RequestData" ty c k q) = Some s1 /\
    RPCTopic_of (request_topic_of "Data" ty c k q) = Some s2 /\
    keqv s1 s2 = true /\
    topic_name (reply_topic s1) = "rr/ReplyDataReply".
Proof.
  intros F. unfold RPCTopic_of. rewrite !request_topic_of_is_request by (done || by vm_compute).
  do 2 eexists. do 3 (split; [done|]). done.
Qed.

End ServiceNames.

(** ** Witnesses *)

#[local] Existing Instance Demo.cpp_utils.

Definition demo_qos : Fuzzy TopicQoS := (true, TopicQoS_default 5000).

Lemma rpc_topic_roundtrip_witness :
  exists s, RPCTopic_of (request_topic_of "add_two_ints" "AddTwoInts_" "_"%char false demo_qos) = Some s /\
            RPCTopic_of (reply_topic_of "add_two_ints" "AddTwoInts_" "_"%char false demo_qos) = Some s.
Proof.
  eexists. apply (rpc_topic_roundtrip "add_two_ints" "AddTwoInts_" "_"%char false demo_qos);
    vm_compute; reflexivity.
Defined.

Lemma request_topic_recognition_witness :
  is_request_topic (request_topic_of "add_two_ints" "AddTwoInts_" "_"%char false demo_qos) = true <->
  looks_like_request (request_topic_of "add_two_ints" "AddTwoInts_" "_"%char false demo_qos).
Proof. apply request_topic_recognition; vm_compute; (reflexivity || discriminate). Defined.

Lemma request_topic_wraparound_witness :
  is_request_topic (mkDdsTopic "rq/abc" "String_" false demo_qos) = true.
Proof. apply (request_topic_wraparound "rq/abc" "String_" false demo_qos); vm_compute; reflexivity. Defined.

Lemma rpc_service_names_collide_witness :
  exists s1 s2,
    RPCTopic_of (request_topic_of "RequestData" "T_" "_"%char false demo_qos) = Some s1 /\
    RPCTopic_of (request_topic_of "Data" "T_" "_"%char false demo_qos) = Some s2 /\
    keqv s1 s2 = true.
Proof.
  destruct (rpc_service_names_collide "T_" "_"%char false demo_qos) as (s1 & s2 & ? & ? & ? & _);
    [vm_compute; reflexivity|]. by exists s1, s2.
Defined.
