(* ===== verification/Endpoint.v ===== *)
(** * Endpoints

    [types/endpoint/Endpoint.cpp]: a remote reader or writer found by
    discovery. *)
From S2P Require Import Prelude StdMap CppString Externals Types Topics.

Inductive EndpointKind : Type := endpoint_invalid | endpoint_writer | endpoint_reader.

#[export] Instance EndpointKind_eq_dec : EqDecision EndpointKind.
Proof. solve_decision. Defined.

Section Endpoint.
Context {CU : CppUtils}.

Record Endpoint : Type := mkEndpoint {
  kind_ : EndpointKind;
  guid_ : Guid;
  topic_ : DdsTopic;
  active_ : bool;
  discoverer_participant_id_ : ParticipantId;
  specific_qos_ : SpecificEndpointQoS
}.

(** [Endpoint(kind, guid, topic, discoverer, specific_qos)] *)
Definition Endpoint_of (k : EndpointKind) (g : Guid) (t : DdsTopic) (p : ParticipantId)
    (q : SpecificEndpointQoS) : Endpoint :=
  mkEndpoint k g t true p q.

(** Setters: [kind(k)], [specific_qos(q)], [active(status)] *)
Definition set_kind (k : EndpointKind) (e : Endpoint) : Endpoint :=
  mkEndpoint k (guid_ e) (topic_ e) (active_ e) (discoverer_participant_id_ e) (specific_qos_ e).
Definition set_specific_qos (q : SpecificEndpointQoS) (e : Endpoint) : Endpoint :=
  mkEndpoint (kind_ e) (guid_ e) (topic_ e) (active_ e) (discoverer_participant_id_ e) q.
Definition set_active (status : bool) (e : Endpoint) : Endpoint :=
  mkEndpoint (kind_ e) (guid_ e) (topic_ e) status (discoverer_participant_id_ e) (specific_qos_ e).

Definition Endpoint_is_valid (e : Endpoint) : bool := bool_decide (kind_ e <> endpoint_invalid).
Definition is_writer (e : Endpoint) : bool := bool_decide (kind_ e = endpoint_writer).
Definition is_reader (e : Endpoint) : bool := bool_decide (kind_ e = endpoint_reader).

Definition is_server_endpoint (e : Endpoint) : bool :=
  (is_reader e && is_request_topic (topic_ e)) || (is_writer e && is_reply_topic (topic_ e)).

(** [Endpoint::operator =]: [*this = other], field by field as written *)
Definition Endpoint_assign (this other : Endpoint) : Endpoint := {|
  guid_ := guid_ other;
  active_ := active_ other;
  kind_ := kind_ other;
  topic_ := topic_ other;
  discoverer_participant_id_ := discoverer_participant_id_ other;
  specific_qos_ := specific_qos_ this
|}.

(** [Endpoint::operator ==] *)
Definition Endpoint_eqb (a b : Endpoint) : bool :=
  bool_decide (guid_ a = guid_ b) && bool_decide (kind_ a = kind_ b) &&
  DdsTopic_eqb (topic_ a) (topic_ b).

Lemma Endpoint_assign_guid this other : guid_ (Endpoint_assign this other) = guid_ other.
Proof. done. Qed.

(** Assignment copies the endpoint exactly when the specific QoS already agree. *)
Lemma Endpoint_assign_copy this other :
  Endpoint_assign this other = other <-> specific_qos_ this = specific_qos_ other.
Proof.
  destruct this, other; unfold Endpoint_assign; simpl. split; [by intros [=]|by intros ->].
Qed.

End Endpoint.
