(* ===== verification/AllowedTopicList.v ===== *)
(** * Allowed topics

    [ddsrouter_core/src/cpp/dynamic/AllowedTopicList.cpp]: the allowlist and
    blocklist that decide which topics are forwarded.  A list is a
    [std::set<std::shared_ptr<DdsFilterTopic>>], ordered by the pointers; a
    pointer is an address paired with the filter it points to. *)
From S2P Require Import Prelude StdMap CppString Externals Types Topics.

Section AllowedTopicList.
Context {CU : CppUtils} {F : Type} {FT : DdsFilterTopic F}.

Definition filter_ptr : Type := (Z * F)%type.

(** [operator <] of [std::shared_ptr] compares the addresses. *)
#[export] Instance filter_ptr_less : Less filter_ptr := fun a b => less a.1 b.1.

Definition filter_set : Type := std_set filter_ptr.

Record AllowedTopicList : Type := mkAllowed {
  allowlist_ : filter_set;
  blocklist_ : filter_set
}.

(** ** get_topic_list_without_repetition_ *)

(** The inner loop over the stored topics: whether the new topic is to be added,
    and the stored topics it makes redundant that were seen before the loop
    stops. *)
Fixpoint check_repeated (new_topic : filter_ptr) (stored : list filter_ptr)
    (repeated : filter_set) : bool * filter_set :=
  match stored with
  | [] => (true, repeated)
  | topic_stored :: stored' =>
      if filter_contains topic_stored.2 new_topic.2 then (false, repeated)
      else if filter_contains new_topic.2 topic_stored.2
      then check_repeated new_topic stored' (set_insert topic_stored repeated)
      else check_repeated new_topic stored' repeated
  end.

(** One iteration of the outer loop. *)
Definition add_without_repetition (non_repeated_list : filter_set) (new_topic : filter_ptr) :
    filter_set :=
  let '(add_it, repeated) := check_repeated new_topic (set_elems non_repeated_list) [] in
  let pruned := fold_left (fun l topic_repeated => set_erase topic_repeated l)
                  (set_elems repeated) non_repeated_list in
  if add_it then set_insert new_topic pruned else pruned.

Definition get_topic_list_without_repetition_ (l : filter_set) : filter_set :=
  fold_left add_without_repetition (set_elems l) [].

(** The constructor. *)
Definition AllowedTopicList_of (allowlist blocklist : filter_set) : AllowedTopicList :=
  mkAllowed (get_topic_list_without_repetition_ allowlist)
            (get_topic_list_without_repetition_ blocklist).

(** [clear] *)
Definition AllowedTopicList_clear (a : AllowedTopicList) : AllowedTopicList := mkAllowed [] [].

(** ** Queries *)

(** [for (filter : l) if (filter->matches(topic)) ...] *)
Definition some_matches (l : filter_set) (t : DdsTopic) : bool :=
  existsb (fun p => filter_matches p.2 t) (set_elems l).

Definition is_topic_allowed (a : AllowedTopicList) (t : DdsTopic) : bool :=
  let accepted :=
    if some_matches (allowlist_ a) t then true else (length (allowlist_ a) =? 0)%nat in
  if negb accepted then false
  else if some_matches (blocklist_ a) t then false
  else true.

Definition is_service_allowed (a : AllowedTopicList) (s : RPCTopic) : bool :=
  is_topic_allowed a (request_topic s) && is_topic_allowed a (reply_topic s).

(** ** Lemmas *)

#[export] Instance filter_ptr_strict_weak : StrictWeak filter_ptr.
Proof. apply (pull_strict_weak fst Z_less), _. Qed.

Definition covers (l : list filter_ptr) (t : DdsTopic) : Prop :=
  exists p, p ∈ l /\ filter_matches p.2 t = true.

Lemma covers_cons p l t :
  covers (p :: l) t <-> filter_matches p.2 t = true \/ covers l t.
Proof.
  unfold covers. split.
  - intros (q & [->|Hq]%elem_of_cons & Hm); eauto.
  - intros [Hm|(q & Hq & Hm)]; [exists p|exists q]; (split; [set_solver|done]).
Qed.

Lemma covers_nil t : ~ covers [] t.
Proof. intros (q & Hq & _). set_solver. Qed.

Lemma some_matches_covers l t : some_matches l t = true <-> covers (set_elems l) t.
Proof. apply existsb_True. Qed.

Lemma is_topic_allowed_iff a t :
  is_topic_allowed a t = true <->
  (allowlist_ a = [] \/ covers (set_elems (allowlist_ a)) t) /\
  ~ covers (set_elems (blocklist_ a)) t.
Proof.
  unfold is_topic_allowed. rewrite <- !some_matches_covers.
  destruct (allowlist_ a) as [|p l] eqn:E.
  - change (some_matches [] t) with false. simpl. destruct (some_matches (blocklist_ a) t); naive_solver.
  - destruct (some_matches (p :: l) t); simpl; [|naive_solver].
    destruct (some_matches (blocklist_ a) t); naive_solver.
Qed.

Lemma check_repeated_spec p stored rep0 b rep :
  check_repeated p stored rep0 = (b, rep) -> map_wf rep0 ->
  exists pre post, stored = pre ++ post /\ map_wf rep /\
    (forall r, r ∈ set_elems rep ->
       r ∈ set_elems rep0 \/ (r ∈ pre /\ filter_contains p.2 r.2 = true)) /\
    (if b then post = []
     else exists s post', post = s :: post' /\ filter_contains s.2 p.2 = true).
Proof.
  revert rep0. induction stored as [|s stored IH]; intros rep0; simpl.
  - intros [= <- <-] Hwf. exists [], []. naive_solver.
  - destruct (filter_contains s.2 p.2) eqn:E1.
    { intros [= <- <-] Hwf. exists [], (s :: stored). naive_solver. }
    destruct (filter_contains p.2 s.2) eqn:E2; intros Hc Hwf.
    + destruct (IH _ Hc ltac:(by apply map_wf_emplace)) as (pre & post & -> & Hwf' & Hrep & Hb).
      exists (s :: pre), post. split; [done|]. split; [done|]. split; [|done].
      intros r [Hr|[Hr ?]]%Hrep; [|right; set_solver].
      apply elem_of_set_insert in Hr as [?|[-> _]]; [by left|right; set_solver].
    + destruct (IH _ Hc Hwf) as (pre & post & -> & Hwf' & Hrep & Hb).
      exists (s :: pre), post. split; [done|]. split; [done|]. split; [|done].
      intros r [Hr|[Hr ?]]%Hrep; [by left|right; set_solver].
Qed.

Lemma prune_spec (rs : list filter_ptr) (acc : filter_set) :
  map_wf acc ->
  let acc' := fold_left (fun l r => set_erase r l) rs acc in
  map_wf acc' /\
  forall q, q ∈ set_elems acc' <-> q ∈ set_elems acc /\ forall r, r ∈ rs -> keqv q r = false.
Proof.
  revert acc. induction rs as [|r rs IH]; intros acc Hwf; simpl; [set_solver|].
  destruct (IH (set_erase r acc) ltac:(by apply map_wf_erase)) as [Hwf' Hq]. split; [done|].
  intros q. rewrite Hq, elem_of_set_erase by done. set_solver.
Qed.

(** Elements before another one in a set have a smaller pointer. *)
Lemma set_elems_before (s : filter_set) pre x post r :
  map_wf s -> set_elems s = pre ++ x :: post -> r ∈ pre -> less r x = true.
Proof.
  revert pre. induction s as [|[k []] s IH]; intros pre Hwf E Hr.
  - by destruct pre.
  - apply map_wf_cons in Hwf as [Hall Hwf]. unfold set_elems, keys in E.
    rewrite fmap_cons in E. simpl in E.
    destruct pre as [|k' pre]; [set_solver|]. injection E as <- E.
    apply elem_of_cons in Hr as [->|Hr]; [|by eapply IH].
    assert (x ∈ keys s) as (u & Hx)%elem_of_keys by (unfold keys; rewrite E; set_solver).
    rewrite Forall_forall in Hall. by apply (Hall (x, u)).
Qed.

Context `{!FilterLaws F}.

Lemma add_without_repetition_spec (acc : filter_set) (p : filter_ptr) :
  map_wf acc -> find p acc = None ->
  let acc' := add_without_repetition acc p in
  map_wf acc' /\
  (forall q, q ∈ set_elems acc' -> q ∈ set_elems acc \/ q = p) /\
  (exists q, q ∈ set_elems acc') /\
  (forall t, covers (set_elems acc') t <-> covers (set_elems acc) t \/ filter_matches p.2 t = true).
Proof.
  intros Hwf Hnew. unfold add_without_repetition.
  destruct (check_repeated p (set_elems acc) []) as [b rep] eqn:Hc.
  destruct (check_repeated_spec _ _ _ _ _ Hc map_wf_nil) as (pre & post & Epre & Hrwf & Hrep & Hb).
  destruct (prune_spec (set_elems rep) acc Hwf) as [Hpwf Hp].
  set (pruned := fold_left _ _ _) in *.
  assert (forall r, r ∈ set_elems rep -> r ∈ pre /\ filter_contains p.2 r.2 = true) as Hrep'.
  { intros r [Hr|?]%Hrep; [set_solver|done]. }
  assert (forall q t, q ∈ set_elems acc -> filter_matches q.2 t = true ->
            q ∈ set_elems pruned \/ filter_matches p.2 t = true) as Hkeep.
  { intros q t Hq Hm. destruct (existsb (keqv q) (set_elems rep)) eqn:Ex.
    - apply existsb_True in Ex as (r & Hr & Hqr). destruct (Hrep' r Hr) as [Hpre Hcont].
      right. eapply contains_matches; [done|].
      assert (q = r) as <-; [|done]. apply (keys_keqv_unique acc); try done.
      change (r ∈ set_elems acc). rewrite Epre. set_solver.
    - left. apply Hp. split; [done|]. by apply existsb_False. }
  destruct b.
  - split; [by apply map_wf_emplace|]. split.
    + intros q. rewrite elem_of_set_insert, Hp. naive_solver.
    + assert (find p pruned = None) as Hnone.
      { destruct (find p pruned) as [[]|] eqn:E; [|done].
        destruct (find_elem_of _ _ _ E) as (k & Hk & Hin).
        assert (k ∈ set_elems acc) as (u & Hu)%elem_of_keys
          by (apply Hp; apply elem_of_keys; eauto).
        apply (elem_of_find _ _ _ Hwf) in Hu. rewrite (find_keqv _ _ _ Hk) in Hnew. congruence. }
      split; [exists p; apply elem_of_set_insert; naive_solver|].
      intros t. unfold covers. split.
      * intros (q & Hq & Hm). apply elem_of_set_insert in Hq as [Hq|[-> _]]; [|by right].
        left. exists q. split; [by apply Hp|done].
      * intros [(q & Hq & Hm)|Hm].
        -- destruct (Hkeep q t Hq Hm) as [Hq'|Hm']; [exists q|exists p];
             (split; [apply elem_of_set_insert; naive_solver|done]).
        -- exists p. split; [apply elem_of_set_insert; naive_solver|done].
  - destruct Hb as (s & post' & -> & Hs). split; [done|]. split; [naive_solver|].
    assert (s ∈ set_elems pruned) as Hsp.
    { apply Hp. split; [rewrite Epre; set_solver|]. intros r [Hpre _]%Hrep'.
      pose proof (set_elems_before _ _ _ _ _ Hwf Epre Hpre) as Hl.
      apply not_true_is_false. intros Hk. less_close. }
    split; [by exists s|]. intros t. unfold covers. split.
    + intros (q & Hq & Hm). left. exists q. split; [by apply Hp|done].
    + assert (filter_matches p.2 t = true -> exists q, q ∈ set_elems pruned /\ filter_matches q.2 t = true)
        as Hpt by (intros Hm; exists s; split; [done|]; by eapply contains_matches).
      intros [(q & Hq & Hm)|Hm]; [|by auto].
      destruct (Hkeep q t Hq Hm); eauto.
Qed.

Lemma dedup_fold_spec (ps : filter_set) (acc : filter_set) :
  map_wf ps -> map_wf acc -> (forall p, p ∈ set_elems ps -> find p acc = None) ->
  let acc' := fold_left add_without_repetition (set_elems ps) acc in
  map_wf acc' /\ (acc' = [] <-> acc = [] /\ ps = []) /\
  forall t, covers (set_elems acc') t <-> covers (set_elems acc) t \/ covers (set_elems ps) t.
Proof.
  revert acc. induction ps as [|[p []] ps IH]; intros acc Hps Hacc Hfresh.
  - split; [done|]. split; [naive_solver|]. intros t. pose proof (covers_nil t). naive_solver.
  - apply map_wf_cons in Hps as [Hall Hps]. rewrite Forall_forall in Hall.
    destruct (add_without_repetition_spec acc p Hacc) as (Hwf1 & Hsub & Hne & Hcov).
    { apply Hfresh. unfold set_elems, keys. set_solver. }
    change (set_elems ((p, tt) :: ps)) with (p :: set_elems ps) in *. simpl.
    destruct (IH (add_without_repetition acc p)) as (Hwf2 & Hnil & Hcov2); [done|done| |].
    + intros q Hq. destruct (find q (add_without_repetition acc p)) as [[]|] eqn:E; [|done].
      destruct (find_elem_of _ _ _ E) as (k & Hk & Hin).
      destruct (Hsub k) as [Hka| ->]; [by apply elem_of_keys; eauto| |].
      * apply elem_of_keys in Hka as (u & Hu). apply (elem_of_find _ _ _ Hacc) in Hu.
        assert (find q acc = None) as Hn by (apply Hfresh; set_solver).
        rewrite (find_keqv _ _ _ Hk) in Hn. congruence.
      * apply elem_of_keys in Hq as (u & Hq). pose proof (Hall _ Hq) as Hl. simpl in Hl. less_close.
    + split; [done|]. split.
      { rewrite Hnil. split; [|naive_solver]. intros [E _]. rewrite E in Hne. destruct Hne as [q Hq]. set_solver. }
      intros t. rewrite Hcov2, Hcov. rewrite (covers_cons p). tauto.
Qed.

Lemma dedup_covers (l : filter_set) t :
  map_wf l -> covers (set_elems (get_topic_list_without_repetition_ l)) t <-> covers (set_elems l) t.
Proof.
  intros Hl. destruct (dedup_fold_spec l [] Hl map_wf_nil) as (_ & _ & Hcov); [done|].
  unfold get_topic_list_without_repetition_. rewrite (Hcov t). pose proof (covers_nil t). tauto.
Qed.

Lemma dedup_nil (l : filter_set) :
  map_wf l -> get_topic_list_without_repetition_ l = [] <-> l = [].
Proof.
  intros Hl. destruct (dedup_fold_spec l [] Hl map_wf_nil) as (_ & Hnil & _); [done|].
  unfold get_topic_list_without_repetition_. rewrite Hnil. naive_solver.
Qed.

(** C29: A topic is allowed by the list built from the configured allowlist and
    blocklist exactly when the allowlist is empty or one of its filters matches
    the topic, and no filter of the blocklist matches it; removing the filters
    contained in others does not change the answer, for any filter class whose
    [contains] is sound. *)
Theorem topic_allowed_spec (allowlist blocklist : filter_set) t :
  map_wf allowlist -> map_wf blocklist ->
  is_topic_allowed (AllowedTopicList_of allowlist blocklist) t = true <->
  (allowlist = [] \/ exists p, p ∈ set_elems allowlist /\ filter_matches p.2 t = true) /\
  ~ (exists p, p ∈ set_elems blocklist /\ filter_matches p.2 t = true).
Proof.
  intros Ha Hb. rewrite is_topic_allowed_iff. simpl.
  by rewrite dedup_nil, !dedup_covers.
Qed.

End AllowedTopicList.

Arguments filter_ptr F : clear implicits.
Arguments filter_set F : clear implicits.
Arguments AllowedTopicList F : clear implicits.

(** ** Wildcard filters *)

Section WildcardFilters.
Context {CU : CppUtils}.

(** [utils::are_set_of_ptr_equal]: [AllowedTopicList::operator ==] compares the
    pointed-to filters with [DdsFilterTopic::operator ==]; the comparison of the
    two sets of pointers, given the one of their elements, is the library's. *)
Definition AllowedTopicList_eqb `{!DdsFilterTopic F}
    (are_set_of_ptr_equal : (F -> F -> bool) -> filter_set F -> filter_set F -> bool)
    (a b : AllowedTopicList F) : bool :=
  are_set_of_ptr_equal filter_eqb (allowlist_ a) (allowlist_ b) &&
  are_set_of_ptr_equal filter_eqb (blocklist_ a) (blocklist_ b).

(** Two wildcard filters that require opposite values of [keyed] compare
    equal, because the serialization that [operator ==] compares does not print
    the value; yet no topic is matched by both. *)
Theorem wildcard_keyed_not_distinguished name type (k1 k2 : Fuzzy bool) :
  is_set k1 = true -> is_set k2 = true -> get_reference k1 <> get_reference k2 ->
  let f1 := mkWildcard name type k1 in
  let f2 := mkWildcard name type k2 in
  filter_eqb f1 f2 = true /\
  forall t, filter_matches f1 t = true -> filter_matches f2 t = false.
Proof.
  intros S1 S2 Hne f1 f2. split.
  - unfold filter_eqb. simpl. unfold Wildcard_serialize. simpl. rewrite S1, S2.
    apply String.eqb_refl.
  - intros t. simpl. unfold Wildcard_matches. simpl. rewrite S1, S2. simpl.
    destruct (get_reference k1), (get_reference k2), (keyed t); simpl; done.
Qed.

End WildcardFilters.

(** ** Witnesses *)

#[local] Existing Instance Demo.cpp_utils.

Definition demo_filter (name : string) : WildcardDdsFilterTopic :=
  mkWildcard name (false, "") (false, false).

Lemma topic_allowed_spec_witness :
  is_topic_allowed (AllowedTopicList_of [((1%Z, demo_filter "rt/*"), tt)] [((2%Z, demo_filter "rt/secret"), tt)])
    (DdsTopic_of 5000 "rt/chatter" "String") = true.
Proof.
  apply topic_allowed_spec; [repeat constructor..|]. split.
  - right. exists (1%Z, demo_filter "rt/*"). split; [apply list_elem_of_In; by left|by vm_compute].
  - intros (p & Hp & Hm). apply list_elem_of_singleton in Hp as ->. by vm_compute in Hm.
Defined.

Definition demo_keyed (k : bool) : WildcardDdsFilterTopic :=
  mkWildcard "*" (false, "") (true, k).

Lemma wildcard_keyed_witness : filter_eqb (demo_keyed true) (demo_keyed false) = true.
Proof.
  refine (proj1 (wildcard_keyed_not_distinguished "*" (fuzzy_init "")
    (set_value true (fuzzy_init true)) (set_value false (fuzzy_init true)) _ _ _)); done.
Defined.
