(* ===== verification/DiscoveryDatabase.v ===== *)
(** * Discovery database

    [ddsrouter_core/src/cpp/dynamic/DiscoveryDatabase.cpp]: the map of the
    endpoints found by every participant.  Participants push operations on a
    queue; one thread takes them and changes the map, calling the registered
    callbacks.  The callbacks act on the state [C] of the client (the router). *)
From stdpp Require Import relations.
From S2P Require Import Prelude StdMap CppString Externals Types Topics Endpoint.

Inductive DatabaseOperation : Type := op_add | op_update | op_erase.

#[export] Instance DatabaseOperation_eq_dec : EqDecision DatabaseOperation.
Proof. solve_decision. Defined.

Section DiscoveryDatabase.
Context {CU : CppUtils} {FD : FastDDS} {DQ : DBQueueOps} {C : Type}.

Definition callback : Type := Endpoint -> C -> C.
Definition queue_item : Type := (DatabaseOperation * Endpoint)%type.

Record DiscoveryDatabase : Type := mkDatabase {
  entities_ : std_map Guid Endpoint;
  added_endpoint_callbacks_ : list callback;
  updated_endpoint_callbacks_ : list callback;
  erased_endpoint_callbacks_ : list callback;
  entities_to_process_ : DBQueue queue_item;
  exit_ : bool;
  enabled_ : bool;
  (** the condition variable: whether the processing thread is blocked on it *)
  entities_to_process_cv_ : bool
}.

Definition set_entities (m : std_map Guid Endpoint) (d : DiscoveryDatabase) : DiscoveryDatabase :=
  mkDatabase m (added_endpoint_callbacks_ d) (updated_endpoint_callbacks_ d)
    (erased_endpoint_callbacks_ d) (entities_to_process_ d) (exit_ d) (enabled_ d) (entities_to_process_cv_ d).
Definition set_queue (q : DBQueue queue_item) (d : DiscoveryDatabase) : DiscoveryDatabase :=
  mkDatabase (entities_ d) (added_endpoint_callbacks_ d) (updated_endpoint_callbacks_ d)
    (erased_endpoint_callbacks_ d) q (exit_ d) (enabled_ d) (entities_to_process_cv_ d).
Definition set_exit (exit : bool) (d : DiscoveryDatabase) : DiscoveryDatabase :=
  mkDatabase (entities_ d) (added_endpoint_callbacks_ d) (updated_endpoint_callbacks_ d)
    (erased_endpoint_callbacks_ d) (entities_to_process_ d) exit (enabled_ d) (entities_to_process_cv_ d).
Definition set_enabled (enabled : bool) (d : DiscoveryDatabase) : DiscoveryDatabase :=
  mkDatabase (entities_ d) (added_endpoint_callbacks_ d) (updated_endpoint_callbacks_ d)
    (erased_endpoint_callbacks_ d) (entities_to_process_ d) (exit_ d) enabled (entities_to_process_cv_ d).
Definition set_blocked (blocked : bool) (d : DiscoveryDatabase) : DiscoveryDatabase :=
  mkDatabase (entities_ d) (added_endpoint_callbacks_ d) (updated_endpoint_callbacks_ d)
    (erased_endpoint_callbacks_ d) (entities_to_process_ d) (exit_ d) (enabled_ d) blocked.

(** [entities_to_process_cv_.notify_one()]: the thread blocked on the variable, if any,
    is woken; a notification that finds nobody blocked is lost. *)
Definition notify_one : DiscoveryDatabase -> DiscoveryDatabase := set_blocked false.

(** The state the methods work on: the database and its client. *)
Definition db_state : Type := (DiscoveryDatabase * C)%type.
Definition modify_db (f : DiscoveryDatabase -> DiscoveryDatabase) : prog db_state unit :=
  modify (fun s => (f s.1, s.2)).

(** [DiscoveryDatabase()] *)
Definition DiscoveryDatabase_new : DiscoveryDatabase :=
  mkDatabase [] [] [] [] dbq_new false false false.

(** [for (auto callback : callbacks) callback(endpoint);] *)
Definition run_callbacks (cbs : list callback) (e : Endpoint) : prog db_state unit :=
  for_each cbs (fun cb => modify (fun s => (s.1, cb e s.2))).

(** ** Queries *)

Definition topic_exists (d : DiscoveryDatabase) (t : DdsTopic) : bool :=
  existsb (fun entity => DdsTopic_eqb (topic_ entity.2) t) (entities_ d).

Definition endpoint_exists (d : DiscoveryDatabase) (g : Guid) : bool :=
  contains g (entities_ d).

Definition get_endpoint (d : DiscoveryDatabase) (g : Guid) : outcome Endpoint :=
  match find g (entities_ d) with
  | None => Throw InconsistencyException
  | Some e => Ok e
  end.

(** ** Operations of the processing thread *)

Definition add_endpoint_ (new_endpoint : Endpoint) : prog db_state bool :=
  s ← get;
  match find (guid_ new_endpoint) (entities_ s.1) with
  | Some e =>
      if active_ e then throw InconsistencyException
      else
        modify_db (fun d => set_entities
          (assign (guid_ new_endpoint) (Endpoint_assign e new_endpoint) (entities_ d)) d) ;;
        mret true
  | None =>
      modify_db (fun d => set_entities (emplace (guid_ new_endpoint) new_endpoint (entities_ d)) d) ;;
      run_callbacks (added_endpoint_callbacks_ s.1) new_endpoint ;;
      mret true
  end.

Definition update_endpoint_ (endpoint_to_update : Endpoint) : prog db_state bool :=
  s ← get;
  match find (guid_ endpoint_to_update) (entities_ s.1) with
  | None => throw InconsistencyException
  | Some e =>
      modify_db (fun d => set_entities
        (assign (guid_ endpoint_to_update) (Endpoint_assign e endpoint_to_update) (entities_ d)) d) ;;
      run_callbacks (updated_endpoint_callbacks_ s.1) endpoint_to_update ;;
      mret true
  end.

Definition erase_endpoint_ (endpoint_to_erase : Endpoint) : prog db_state ReturnCode :=
  s ← get;
  let erased := contains (guid_ endpoint_to_erase) (entities_ s.1) in
  modify_db (fun d => set_entities (erase (guid_ endpoint_to_erase) (entities_ d)) d) ;;
  if negb erased then throw InconsistencyException
  else
    run_callbacks (erased_endpoint_callbacks_ s.1) endpoint_to_erase ;;
    mret RETCODE_OK.

(** ** The queue *)

(** What [push_item_to_queue_] does, one entry per action that the other threads may come
    between: the push with the mutex held, and the notification after its release. *)
Definition push_actions (item : queue_item) : list (DiscoveryDatabase -> DiscoveryDatabase) :=
  [ fun d => set_queue (dbq_push item (entities_to_process_ d)) d; notify_one ].

Definition push_item_to_queue_ (item : queue_item) : prog db_state unit :=
  for_each (push_actions item) modify_db.

Definition add_endpoint (e : Endpoint) : prog db_state unit := push_item_to_queue_ (op_add, e).
Definition update_endpoint (e : Endpoint) : prog db_state unit := push_item_to_queue_ (op_update, e).
Definition erase_endpoint (e : Endpoint) : prog db_state unit := push_item_to_queue_ (op_erase, e).

(** The body of the loop of [process_queue_]: one item, an inconsistency is
    logged and the item is dropped. *)
Definition process_item (item : queue_item) : prog db_state unit :=
  let '(db_operation, entity) := item in
  try_catch
    (match db_operation with
     | op_add => add_endpoint_ entity ;; mret tt
     | op_update => update_endpoint_ entity ;; mret tt
     | op_erase => erase_endpoint_ entity ;; mret tt
     end)
    InconsistencyException
    (mret tt).

(** [while (!entities_to_process_.Empty()) { ... Front ... Pop }], [fuel]
    iterations at most *)
Fixpoint process_loop (fuel : nat) : prog db_state unit :=
  match fuel with
  | 0 => mret tt
  | S fuel' =>
      s ← get;
      if dbq_empty (entities_to_process_ s.1) then mret tt
      else
        match dbq_front (entities_to_process_ s.1) with
        | None => mret tt
        | Some item =>
            process_item item ;;
            modify_db (fun d => set_queue (dbq_pop (entities_to_process_ d)) d) ;;
            process_loop fuel'
        end
  end.

Definition process_queue_ (fuel : nat) : prog db_state unit :=
  modify_db (fun d => set_queue (dbq_swap (entities_to_process_ d)) d) ;;
  process_loop fuel.

(** ** Callbacks, start and stop *)

Definition add_endpoint_discovered_callback (cb : callback) (d : DiscoveryDatabase) :
    DiscoveryDatabase :=
  mkDatabase (entities_ d) (added_endpoint_callbacks_ d ++ [cb]) (updated_endpoint_callbacks_ d)
    (erased_endpoint_callbacks_ d) (entities_to_process_ d) (exit_ d) (enabled_ d) (entities_to_process_cv_ d).
Definition add_endpoint_updated_callback (cb : callback) (d : DiscoveryDatabase) :
    DiscoveryDatabase :=
  mkDatabase (entities_ d) (added_endpoint_callbacks_ d) (updated_endpoint_callbacks_ d ++ [cb])
    (erased_endpoint_callbacks_ d) (entities_to_process_ d) (exit_ d) (enabled_ d) (entities_to_process_cv_ d).
Definition add_endpoint_erased_callback (cb : callback) (d : DiscoveryDatabase) :
    DiscoveryDatabase :=
  mkDatabase (entities_ d) (added_endpoint_callbacks_ d) (updated_endpoint_callbacks_ d)
    (erased_endpoint_callbacks_ d ++ [cb]) (entities_to_process_ d) (exit_ d) (enabled_ d) (entities_to_process_cv_ d).

Definition clear_all_callbacks (d : DiscoveryDatabase) : DiscoveryDatabase :=
  mkDatabase (entities_ d) [] [] [] (entities_to_process_ d) (exit_ d) (enabled_ d) (entities_to_process_cv_ d).

(** What [stop] does before [join], action by action. *)
Definition stop_actions : list (DiscoveryDatabase -> DiscoveryDatabase) :=
  [ clear_all_callbacks; set_exit true; notify_one; set_enabled false ].

(** ** The thread *)

(** Where [queue_processing_thread_routine_] is: not running, inside [wait] (blocked, or
    holding the mutex and about to evaluate the predicate), or in [process_queue_]. *)
Inductive thread_state : Type :=
| NotRunning
| Waiting
| Processing.

#[export] Instance thread_state_eq_dec : EqDecision thread_state.
Proof. solve_decision. Defined.

(** The whole component: the objects, the thread, what is left of the call of [stop] of
    the owner and of the calls of [push_item_to_queue_] of the other threads, and the
    items pushed and processed so far (history variables). *)
Record system : Type := mkSystem {
  sys_db : DiscoveryDatabase;
  sys_client : C;
  sys_thread : thread_state;
  sys_stop : list (DiscoveryDatabase -> DiscoveryDatabase);
  sys_calls : list (list (DiscoveryDatabase -> DiscoveryDatabase));
  sys_pushed : list queue_item;
  sys_processed : list queue_item
}.

Definition sys_init (c : C) : system := mkSystem DiscoveryDatabase_new c NotRunning [] [] [] [].

(** The steps that need no new call: those of the processing thread, and the actions left
    of the calls that have begun.  A blocked thread takes none. *)
Inductive inner_step : system -> system -> Prop :=
| step_call l1 a rest l2 d c t st pu pr :
    (** a thread inside [push_item_to_queue_] goes on *)
    inner_step (mkSystem d c t st (l1 ++ (a :: rest) :: l2) pu pr)
               (mkSystem (a d) c t st (l1 ++ rest :: l2) pu pr)
| step_block d c st ca pu pr :
    (** the predicate of the wait is false: the mutex is released and the thread blocks *)
    entities_to_process_cv_ d = false ->
    exit_ d = false -> dbq_both_empty (entities_to_process_ d) = true ->
    inner_step (mkSystem d c Waiting st ca pu pr)
               (mkSystem (set_blocked true d) c Waiting st ca pu pr)
| step_wake d c st ca pu pr :
    (** the wait returns with work to do *)
    entities_to_process_cv_ d = false ->
    exit_ d = false -> dbq_both_empty (entities_to_process_ d) = false ->
    inner_step (mkSystem d c Waiting st ca pu pr)
               (mkSystem (set_queue (dbq_swap (entities_to_process_ d)) d) c Processing st ca pu pr)
| step_exit d c st ca pu pr :
    (** the wait returns with [exit_] set: the routine ends *)
    entities_to_process_cv_ d = false -> exit_ d = true ->
    inner_step (mkSystem d c Waiting st ca pu pr) (mkSystem d c NotRunning st ca pu pr)
| step_item item d c d' c' st ca pu pr :
    (** one iteration of [process_queue_] *)
    dbq_empty (entities_to_process_ d) = false ->
    dbq_front (entities_to_process_ d) = Some item ->
    exec (process_item item) (d, c) = (d', c') ->
    inner_step (mkSystem d c Processing st ca pu pr)
               (mkSystem (set_queue (dbq_pop (entities_to_process_ d')) d') c' Processing st ca pu (pr ++ [item]))
| step_processed d c st ca pu pr :
    dbq_empty (entities_to_process_ d) = true ->
    inner_step (mkSystem d c Processing st ca pu pr) (mkSystem d c Waiting st ca pu pr).

(** All steps: those, the calls of the clients and of the owner of the database, and the
    spurious wake-ups a condition variable may have. *)
Inductive step : system -> system -> Prop :=
| step_inner s s' : inner_step s s' -> step s s'
| step_push item push rest d c t st ca pu pr :
    (** [add_endpoint], [update_endpoint], [erase_endpoint], up to their first action *)
    push_actions item = push :: rest ->
    step (mkSystem d c t st ca pu pr) (mkSystem (push d) c t st (rest :: ca) (pu ++ [item]) pr)
| step_callback upd d c t st ca pu pr cb :
    upd = add_endpoint_discovered_callback \/ upd = add_endpoint_updated_callback \/
    upd = add_endpoint_erased_callback ->
    step (mkSystem d c t st ca pu pr) (mkSystem (upd cb d) c t st ca pu pr)
| step_start d c ca pu pr :
    (** [start] when not enabled: the thread is created *)
    enabled_ d = false ->
    step (mkSystem d c NotRunning [] ca pu pr)
         (mkSystem (set_enabled true d) c Waiting [] ca pu pr)
| step_stop d c t ca pu pr :
    (** the owner calls [stop] when enabled *)
    enabled_ d = true ->
    step (mkSystem d c t [] ca pu pr) (mkSystem d c t stop_actions ca pu pr)
| step_stopping a rest d c t ca pu pr :
    step (mkSystem d c t (a :: rest) ca pu pr) (mkSystem (a d) c t rest ca pu pr)
| step_spurious d c st ca pu pr :
    step (mkSystem d c Waiting st ca pu pr) (mkSystem (set_blocked false d) c Waiting st ca pu pr).

Definition reachable (c : C) (s : system) : Prop := rtc step (sys_init c) s.

Definition with_db (d : DiscoveryDatabase) (t : thread_state) (s : system) : system :=
  mkSystem d (sys_client s) t (sys_stop s) (sys_calls s) (sys_pushed s) (sys_processed s).

(** The calls of [start] and [stop], run to their end.  [start] replaces the thread that
    the last [stop] has joined; [None] is [std::terminate], for a thread that still runs. *)
Definition database_start (s : system) : option system :=
  let d := sys_db s in
  if negb (enabled_ d) then
    match sys_thread s with
    | NotRunning => Some (with_db (set_enabled true d) Waiting s)
    | _ => None
    end
  else Some s.

(** The items that the thread is processing, if it is in [process_queue_]. *)
Definition thread_processes (s : system) : system :=
  match sys_thread s with
  | Processing =>
      let items := foreground (entities_to_process_ (sys_db s)) in
      let r := exec (process_loop (length items)) (sys_db s, sys_client s) in
      mkSystem r.1 r.2 Waiting (sys_stop s) (sys_calls s) (sys_pushed s) (sys_processed s ++ items)
  | _ => s
  end.

(** [queue_processing_thread_.join()]: the thread finishes the items it was processing and
    leaves its routine when its wait finds [exit_] set; [None]: it stays blocked on the
    condition variable, or waits for more work, and [join] does not return. *)
Definition thread_join (s : system) : option system :=
  let s1 := thread_processes s in
  match sys_thread s1 with
  | NotRunning => Some s1
  | _ =>
      if entities_to_process_cv_ (sys_db s1) then None
      else if exit_ (sys_db s1) then Some (with_db (sys_db s1) NotRunning s1)
      else None
  end.

Definition database_stop (s : system) : option system :=
  let d := sys_db s in
  if enabled_ d then thread_join (with_db (fold_left (fun d a => a d) stop_actions d) (sys_thread s) s)
  else Some s.

(** [~DiscoveryDatabase()] *)
Definition database_destroy (s : system) : option system := database_stop s.

(** ** Specification

    What one operation does to the map of endpoints. *)
Definition apply_item (m : std_map Guid Endpoint) (item : queue_item) : std_map Guid Endpoint :=
  let '(db_operation, e) := item in
  match db_operation, find (guid_ e) m with
  | op_add, None => assign (guid_ e) e m
  | op_add, Some e' => if active_ e' then m else assign (guid_ e) (Endpoint_assign e' e) m
  | op_update, None => m
  | op_update, Some e' => assign (guid_ e) (Endpoint_assign e' e) m
  | op_erase, _ => erase (guid_ e) m
  end.

(** The effect on the client: callbacks run for an endpoint that was unknown,
    an endpoint that was known and is updated, an endpoint that was known and is
    erased. *)
Definition notify_item (d : DiscoveryDatabase) (c : C) (item : queue_item) : C :=
  let '(db_operation, e) := item in
  let run cbs := fold_left (fun c cb => cb e c) cbs c in
  match db_operation, find (guid_ e) (entities_ d) with
  | op_add, None => run (added_endpoint_callbacks_ d)
  | op_update, Some _ => run (updated_endpoint_callbacks_ d)
  | op_erase, Some _ => run (erased_endpoint_callbacks_ d)
  | _, _ => c
  end.

(** ** Lemmas *)

Context {FL : FastDDSLaws} {DL : DBQueueLaws}.
Implicit Types (d : DiscoveryDatabase) (c : C) (e : Endpoint) (m : std_map Guid Endpoint).

Lemma run_callbacks_total cbs e d c :
  run_callbacks cbs e (d, c) = (Ok tt, (d, fold_left (fun c cb => cb e c) cbs c)).
Proof.
  revert c. induction cbs as [|cb cbs IH]; intros c; [done|].
  unfold run_callbacks in *. simpl. unfold mbind, prog_bind, modify. simpl. by rewrite IH.
Qed.

Lemma map_wf_apply_item m item : map_wf m -> map_wf (apply_item m item).
Proof.
  destruct item as [[] e]; simpl; intros Hm; [destruct (find _ m) as [e'|]; [destruct (active_ e')|]
    |destruct (find _ m)|]; try done; (apply map_wf_assign || apply map_wf_erase); done.
Qed.

Lemma erase_absent `{StrictWeak K} {V} (k : K) (m : std_map K V) :
  find k m = None -> erase k m = m.
Proof.
  induction m as [|[k' v] m IH]; [done|]. rewrite find_cons. simpl.
  destruct (less k k'), (less k' k); intros ?; try done. by rewrite IH.
Qed.

(** One iteration of the loop never throws, changes the map as [apply_item]
    and the client as [notify_item], and nothing else of the object. *)
Lemma process_item_spec item d c :
  process_item item (d, c) =
    (Ok tt, (set_entities (apply_item (entities_ d) item) d, notify_item d c item)).
Proof.
  destruct item as [[] e]; destruct d as [m ac uc ec q ex en cv];
    unfold process_item, add_endpoint_, update_endpoint_, erase_endpoint_,
      try_catch, throw, modify_db, get, modify, mbind, prog_bind, set_entities;
    simpl; unfold contains; destruct (find (guid_ e) m) as [e'|] eqn:E; simpl;
    rewrite ?run_callbacks_total; try done.
  - destruct (active_ e'); done.
  - by rewrite emplace_absent.
Qed.

(** ** The processing loop *)

Definition fg d : list queue_item := foreground (entities_to_process_ d).
Definition bg d : list queue_item := background (entities_to_process_ d).

(** The state after the items of a list are processed one after the other. *)
Definition process_items (items : list queue_item) (s : db_state) : db_state :=
  fold_left (fun s item =>
    (set_entities (apply_item (entities_ s.1) item) s.1, notify_item s.1 s.2 item)) items s.

Lemma process_items_app l1 l2 s :
  process_items (l1 ++ l2) s = process_items l2 (process_items l1 s).
Proof. apply fold_left_app. Qed.

Lemma process_items_entities items s :
  entities_ (process_items items s).1 = fold_left apply_item items (entities_ s.1).
Proof. revert s. induction items as [|i l IH]; intros s; [done|]. simpl. by rewrite IH. Qed.

Lemma process_items_queue items s :
  entities_to_process_ (process_items items s).1 = entities_to_process_ s.1.
Proof. revert s. induction items as [|i l IH]; intros s; [done|]. simpl. by rewrite IH. Qed.

Lemma set_queue_process q items d c :
  process_items items (set_queue q d, c) =
    let s' := process_items items (d, c) in (set_queue q s'.1, s'.2).
Proof.
  revert d c. induction items as [|i l IH]; intros d c; [done|]. simpl.
  rewrite <- IH. destruct i as [[] e]; done.
Qed.

(** [n] times [Pop] *)
Definition pop_n (n : nat) (q : DBQueue queue_item) : DBQueue queue_item :=
  Nat.iter n dbq_pop q.

Lemma set_queue_same d : set_queue (entities_to_process_ d) d = d.
Proof. by destruct d. Qed.

(** With at least as much fuel as items the loop empties the foreground,
    processing its items in order, and does not touch the background. *)
Lemma process_loop_spec fuel d c :
  length (fg d) <= fuel ->
  process_loop fuel (d, c) =
    let s' := process_items (fg d) (d, c) in
    (Ok tt, (set_queue (pop_n (length (fg d)) (entities_to_process_ d)) s'.1, s'.2)).
Proof.
  revert d c. induction fuel as [|fuel IH]; intros d c Hlen.
  - destruct (fg d) eqn:E; simpl in *; [|lia]. by rewrite set_queue_same.
  - unfold process_loop; fold process_loop. unfold mbind, prog_bind, get.
    cbn [fst snd]. pose proof (empty_spec _ (entities_to_process_ d)) as He.
    destruct (dbq_empty _) eqn:Eq.
    + assert (fg d = []) as -> by (by apply He). simpl. by rewrite set_queue_same.
    + rewrite fg_front. change (foreground (entities_to_process_ d)) with (fg d) in *.
      destruct (fg d) as [|i l] eqn:Ef; [by discriminate (proj2 He eq_refl)|].
      cbn [head]. rewrite process_item_spec. unfold modify_db, modify. cbn [fst snd].
      set (d1 := set_entities _ d).
      assert (fg (set_queue (dbq_pop (entities_to_process_ d1)) d1) = l) as Hl.
      { unfold fg. simpl. rewrite fg_pop. change (tail (fg d) = l). by rewrite Ef. }
      rewrite IH; [|rewrite Hl; simpl in Hlen; lia].
      rewrite Hl, set_queue_process. cbn [length process_items fold_left fst snd]. fold process_items.
      unfold pop_n. rewrite Nat.iter_succ_r. done.
Qed.

Lemma bg_pop_n n q : background (pop_n n q) = background q.
Proof. induction n as [|n IH]; [done|]. simpl. by rewrite bg_pop. Qed.

Lemma fg_pop_n n q : foreground (pop_n n q) = drop n (foreground q).
Proof.
  revert q. induction n as [|n IH]; intros q; [by rewrite drop_0|].
  unfold pop_n. rewrite Nat.iter_succ_r. fold (pop_n n (dbq_pop q)). rewrite IH, fg_pop.
  destruct (foreground q); simpl; [apply drop_nil|done].
Qed.

(** ** Invariants of the whole component *)

(** Nothing is lost, duplicated or reordered between [Push] and the map; the
    map is the result of applying the processed operations in order; a thread
    that is blocked while there is work to do is about to be notified. *)
Record sys_inv (s : system) : Prop := {
  inv_fifo : sys_pushed s = sys_processed s ++ fg (sys_db s) ++ bg (sys_db s);
  inv_map : entities_ (sys_db s) = fold_left apply_item (sys_processed s) [];
  inv_thread : sys_thread s <> Processing -> fg (sys_db s) = [];
  inv_blocked : entities_to_process_cv_ (sys_db s) = true -> sys_thread s = Waiting;
  inv_calls : Forall (fun r => r = [notify_one] \/ r = []) (sys_calls s);
  inv_stop : sys_stop s `suffix_of` stop_actions;
  inv_wake : entities_to_process_cv_ (sys_db s) = true -> bg (sys_db s) <> [] ->
    [notify_one] ∈ sys_calls s
}.

Lemma sys_inv_init c : sys_inv (sys_init c).
Proof.
  split; unfold fg, bg; simpl; rewrite ?fg_new, ?bg_new; try done. apply suffix_nil.
Qed.

(** An action of [stop] leaves the map and the queue alone and wakes, never blocks. *)
Lemma stop_action_frame a rest d :
  a :: rest `suffix_of` stop_actions ->
  entities_ (a d) = entities_ d /\ entities_to_process_ (a d) = entities_to_process_ d /\
  (entities_to_process_cv_ (a d) = true -> entities_to_process_cv_ d = true) /\ (exit_ d = true -> exit_ (a d) = true).
Proof.
  intros [l Hl]. assert (a ∈ stop_actions) as Ha by (rewrite Hl; set_solver).
  unfold stop_actions in Ha. rewrite !elem_of_cons in Ha.
  destruct Ha as [-> | [-> | [-> | [-> | Ha]]]]; [done..|by apply elem_of_nil in Ha].
Qed.

Lemma suffix_cons_tail {A} (a : A) l k : a :: l `suffix_of` k -> l `suffix_of` k.
Proof. intros [k' ->]. exists (k' ++ [a]). by rewrite <- app_assoc. Qed.

Lemma calls_cons_inv {A} (P : A -> Prop) l1 x l2 : Forall P (l1 ++ x :: l2) -> Forall P l1 /\ P x /\ Forall P l2.
Proof. rewrite Forall_app, Forall_cons. tauto. Qed.

Lemma inner_preserves_inv s s' : inner_step s s' -> sys_inv s -> sys_inv s'.
Proof.
  intros Hs [Hf Hm Ht Hb Hc Hst Hw]. destruct Hs; simpl in *; unfold fg, bg in *; simpl in *.
  - apply calls_cons_inv in Hc as (Hc1 & [[= -> ->] | [=]] & Hc2). split; simpl; unfold fg, bg; simpl; try done.
    apply Forall_app; split; [done|]. constructor; [by right|done].
  - split; simpl; unfold fg, bg; simpl; try done. intros _ Hne. by apply both_empty_spec in H1 as [_ ?].
  - split; simpl; unfold fg, bg; simpl; rewrite ?fg_swap, ?bg_swap; try done.
    + rewrite Hf, Ht by done. by rewrite app_nil_r.
    + congruence.
  - split; simpl; try done; [|congruence]. intros _. by apply Ht.
  - unfold exec in *. rewrite process_item_spec in H1. simpl in H1. injection H1 as <- <-. simpl.
    rewrite fg_front in H0. destruct (foreground _) as [|i l] eqn:Ef; [done|].
    injection H0 as ->. split; unfold fg, bg; simpl; rewrite ?fg_pop, ?bg_pop, ?Ef; try done.
    + by rewrite Hf, <- app_assoc.
    + by rewrite fold_left_app, <- Hm.
  - split; simpl; try done. intros _. by apply empty_spec.
Qed.

Lemma step_preserves_inv s s' : step s s' -> sys_inv s -> sys_inv s'.
Proof.
  intros Hs Hi. destruct Hs; [by eapply inner_preserves_inv|..];
    destruct Hi as [Hf Hm Ht Hb Hc Hst Hw]; simpl in *; unfold fg, bg in *; simpl in *.
  - injection H as <- <-. split; simpl; unfold fg, bg; simpl; rewrite ?fg_push, ?bg_push; try done.
    + by rewrite Hf, <- !app_assoc.
    + by constructor; [left|].
    + intros _ _. apply elem_of_cons; by left.
  - destruct H as [-> | [-> | ->]]; by split.
  - split; simpl; try done. intros _. by apply Ht.
  - by split.
  - destruct (stop_action_frame _ _ d Hst) as (He & Hq & Hcv & _).
    split; simpl; unfold fg, bg; rewrite ?Hq, ?He; auto. by eapply suffix_cons_tail.
  - by split.
Qed.

Lemma reachable_inv c s : reachable c s -> sys_inv s.
Proof.
  unfold reachable. intros Hr. assert (sys_inv (sys_init c)) as Hi by apply sys_inv_init.
  revert Hr Hi. generalize (sys_init c). intros s0 Hr.
  induction Hr; eauto using step_preserves_inv.
Qed.

Lemma map_wf_fold_apply items m : map_wf m -> map_wf (fold_left apply_item items m).
Proof.
  intros Hm. apply (fold_left_inv map_wf); [done|]. auto using map_wf_apply_item.
Qed.

(** Every endpoint is stored under its own GUID. *)
Definition keyed_by_guid m : Prop := forall g e, find g m = Some e -> guid_ e = g.

Lemma keyed_apply_item m item : map_wf m -> keyed_by_guid m -> keyed_by_guid (apply_item m item).
Proof.
  intros Hm Hk. destruct item as [op e]. unfold keyed_by_guid in *.
  assert (forall e', guid_ e' = guid_ e -> forall g e0,
    find g (assign (guid_ e) e' m) = Some e0 -> guid_ e0 = g) as Hassign.
  { intros e' He' g e0. rewrite find_assign. destruct (keqv g _) eqn:E; [|auto].
    apply guid_keqv in E as ->. by intros [= <-]. }
  destruct op; simpl.
  - destruct (find (guid_ e) m) as [e'|]; [destruct (active_ e'); [done|]|]; by apply Hassign.
  - destruct (find (guid_ e) m) as [e'|]; [|done]. by apply Hassign.
  - intros g e0. rewrite find_erase by done. destruct (keqv g _); [done|]. auto.
Qed.

Lemma keyed_fold_apply items m :
  map_wf m -> keyed_by_guid m -> keyed_by_guid (fold_left apply_item items m).
Proof.
  intros Hm Hk. apply (fold_left_inv (fun m => map_wf m /\ keyed_by_guid m)); [done|].
  intros i m' _ []. auto using map_wf_apply_item, keyed_apply_item.
Qed.

Lemma exit_forever s s' :
  step s s' -> sys_inv s -> exit_ (sys_db s) = true -> sys_thread s <> Processing ->
  exit_ (sys_db s') = true /\ sys_thread s' <> Processing /\ sys_processed s' = sys_processed s.
Proof.
  intros Hs Hi He Ht. destruct Hs as [? ? Hs| | | | | |]; [destruct Hs|..]; simpl in *; try done; try congruence.
  - apply inv_calls in Hi. simpl in Hi. by apply calls_cons_inv in Hi as (_ & [[= -> ->] | [=]] & _).
  - by injection H as <- <-.
  - by destruct H as [-> | [-> | ->]].
  - apply inv_stop, (stop_action_frame _ _ d) in Hi as (_ & _ & _ & Hx). auto.
Qed.

(** A thread in [process_queue_] processes the foreground. *)
Lemma processing_runs items : forall d c st ca pu pr,
  fg d = items ->
  let r := process_items items (d, c) in
  rtc inner_step (mkSystem d c Processing st ca pu pr)
    (mkSystem (set_queue (pop_n (length items) (entities_to_process_ d)) r.1) r.2 Waiting st ca pu (pr ++ items)).
Proof.
  induction items as [|i items IH]; intros d c st ca pu pr Hfg; cbv zeta.
  - simpl. rewrite set_queue_same, app_nil_r. apply rtc_once, step_processed. by apply empty_spec.
  - set (d1 := set_entities (apply_item (entities_ d) i) d).
    set (d2 := set_queue (dbq_pop (entities_to_process_ d1)) d1).
    eapply rtc_l; [apply (step_item i _ _ d1 (notify_item d c i))|].
    + apply not_true_is_false. rewrite empty_spec. change (fg d <> []). by rewrite Hfg.
    + rewrite fg_front. change (head (fg d) = Some i). by rewrite Hfg.
    + unfold exec. by rewrite process_item_spec.
    + pose proof (IH d2 (notify_item d c i) st ca pu (pr ++ [i])) as Hr. cbv zeta in Hr.
      unfold d2 in Hr. rewrite set_queue_process in Hr. rewrite <- app_assoc in Hr.
      cbn [length]. unfold pop_n. rewrite Nat.iter_succ_r. apply Hr.
      unfold fg. simpl. rewrite fg_pop. change (tail (fg d) = items). by rewrite Hfg.
Qed.

Lemma inner_rtc_step s s' : rtc inner_step s s' -> rtc step s s'.
Proof. apply rtc_subrel. intros ??. apply step_inner. Qed.

Lemma process_items_flags items s :
  exit_ (process_items items s).1 = exit_ s.1 /\ enabled_ (process_items items s).1 = enabled_ s.1 /\
  entities_to_process_cv_ (process_items items s).1 = entities_to_process_cv_ s.1.
Proof.
  revert s. induction items as [|i l IH]; intros s; [done|]. simpl.
  exact (IH (set_entities (apply_item (entities_ s.1) i) s.1, notify_item s.1 s.2 i)).
Qed.

(** ** Progress of the thread

    A bound on the steps that the thread and the calls that have begun can still take:
    each action left may wake the thread once, each item in the background is swapped,
    processed and popped. *)
Definition thread_work (t : thread_state) (blocked : bool) : nat :=
  match t with NotRunning => 0 | Waiting => if blocked then 0 else 1 | Processing => 2 end.

Definition work (s : system) : nat :=
  2 * length (concat (sys_calls s)) + 4 * length (bg (sys_db s)) + 2 * length (fg (sys_db s)) +
  thread_work (sys_thread s) (entities_to_process_cv_ (sys_db s)).

(** The thread runs and nobody has called [stop]. *)
Definition serving (s : system) : Prop :=
  sys_inv s /\ sys_thread s <> NotRunning /\ exit_ (sys_db s) = false.

Lemma inner_step_work s s' :
  inner_step s s' -> serving s -> serving s' /\ sys_pushed s' = sys_pushed s /\ work s' < work s.
Proof.
  intros Hs (Hi & Hrun & Hx). pose proof (inner_preserves_inv _ _ Hs Hi) as Hi'.
  unfold serving, work, fg, bg. destruct Hs; simpl in *; try congruence.
  - apply inv_calls in Hi. simpl in Hi. apply calls_cons_inv in Hi as (_ & [[= -> ->] | [=]] & _).
    split_and!; try done. simpl. rewrite !concat_app, !length_app. simpl.
    destruct t, (entities_to_process_cv_ d); simpl; lia.
  - split_and!; try done. rewrite H. simpl. lia.
  - split_and!; try done. rewrite H, fg_swap, bg_swap.
    assert (foreground (entities_to_process_ d) = []) as Hfg by (by apply (inv_thread _ Hi)).
    assert (background (entities_to_process_ d) <> []) as Hne.
    { intros Hbg. by rewrite (proj2 (both_empty_spec _ _)) in H1. }
    rewrite Hfg. destruct (background _); [done|]. simpl. lia.
  - unfold exec in *. rewrite process_item_spec in H1. simpl in H1. injection H1 as <- <-. simpl.
    split_and!; try done. rewrite fg_pop, bg_pop. rewrite fg_front in H0.
    destruct (foreground _); [done|]. simpl. lia.
  - split_and!; try done. destruct (entities_to_process_cv_ d); simpl; lia.
Qed.

(** A thread that serves takes a step, or some call that has begun does, unless the thread
    is blocked and nothing is left to do. *)
Lemma serving_progress s :
  serving s ->
  (exists s', inner_step s s') \/
  (sys_thread s = Waiting /\ entities_to_process_cv_ (sys_db s) = true /\ sys_processed s = sys_pushed s).
Proof.
  intros (Hi & Hrun & Hx). destruct s as [d c [] st ca pu pr]; simpl in *; [done| |].
  - destruct (entities_to_process_cv_ d) eqn:Ecv.
    + destruct (bg d) as [|i l] eqn:Eb.
      * right. split_and!; try done. pose proof (inv_fifo _ Hi) as Hf. pose proof (inv_thread _ Hi) as Hfg.
        simpl in Hf, Hfg. by rewrite Hf, Hfg, Eb, app_nil_r by done.
      * left. assert ([notify_one] ∈ ca) as Hin by (apply (inv_wake _ Hi); simpl; congruence).
        apply list_elem_of_split in Hin as (l1 & l2 & ->). eexists. apply step_call.
    + left. destruct (dbq_both_empty (entities_to_process_ d)) eqn:E; eexists; [by apply step_block|by apply step_wake].
  - left. destruct (dbq_empty (entities_to_process_ d)) eqn:E; [eexists; by apply step_processed|].
    pose proof (fg_front _ (entities_to_process_ d)) as Hfr. pose proof (empty_spec _ (entities_to_process_ d)) as He.
    destruct (foreground _) as [|i l]; [by rewrite (proj2 He eq_refl) in E|].
    eexists. eapply step_item; [done|done|]. by apply surjective_pairing.
Qed.

Lemma inner_steps_work n s s' :
  nsteps inner_step n s s' -> serving s -> serving s' /\ sys_pushed s' = sys_pushed s /\ n + work s' <= work s.
Proof.
  induction 1 as [|n x y z Hs Hr IH]; intros Hsv; [split_and!; auto; lia|].
  destruct (inner_step_work _ _ Hs Hsv) as (Hy & Hp & Hw). destruct (IH Hy) as (Hz & Hp' & Hw').
  split_and!; [done|congruence|lia].
Qed.

(** Without callbacks nobody is called. *)
Lemma process_items_quiet items d c :
  added_endpoint_callbacks_ d = [] -> updated_endpoint_callbacks_ d = [] -> erased_endpoint_callbacks_ d = [] ->
  (process_items items (d, c)).2 = c.
Proof.
  revert d. induction items as [|[op e] l IH]; intros d Ha Hu He; [done|]. simpl.
  rewrite Ha, Hu, He. simpl. assert ((match op with
    | op_add => match find (guid_ e) (entities_ d) with Some _ => c | None => c end
    | op_update => match find (guid_ e) (entities_ d) with Some _ => c | None => c end
    | op_erase => match find (guid_ e) (entities_ d) with Some _ => c | None => c end
    end) = c) as -> by (by destruct op, (find _ _)). by apply IH.
Qed.

(** ** Properties *)

(** C8: in every reachable state of the component (clients pushing operations and
    registering callbacks, [start], [stop] and the processing thread interleaved
    in any order) the operations pushed are exactly those processed, then those in
    the foreground, then those in the background of the queue, in order; and the
    map of endpoints is the result of applying the processed operations to the
    empty map by the specification [apply_item], with sorted keys and every
    endpoint stored under its own GUID. *)
Theorem discovery_queue_refinement c s :
  reachable c s ->
  sys_pushed s = sys_processed s ++ fg (sys_db s) ++ bg (sys_db s) /\
  entities_ (sys_db s) = fold_left apply_item (sys_processed s) [] /\
  map_wf (entities_ (sys_db s)) /\ keyed_by_guid (entities_ (sys_db s)).
Proof.
  intros [Hf Hm _]%reachable_inv. rewrite Hm. split_and!; try done.
  - by apply map_wf_fold_apply, map_wf_nil.
  - by apply keyed_fold_apply; [apply map_wf_nil|].
Qed.

(** [process_queue_] always returns: given fuel for the items that are in the
    queue when it starts, it processes all of them in the order they were pushed,
    never lets an exception out, and leaves both buffers of the queue empty. *)
Theorem process_queue_drains fuel d c :
  length (bg d) <= fuel ->
  let d1 := set_queue (dbq_swap (entities_to_process_ d)) d in
  let s' := process_items (bg d) (d1, c) in
  exists d', process_queue_ fuel (d, c) = (Ok tt, (d', s'.2)) /\
    fg d' = [] /\ bg d' = [] /\
    entities_ d' = fold_left apply_item (bg d) (entities_ d).
Proof.
  intros Hlen d1 s'. unfold process_queue_, mbind, prog_bind, modify_db, modify. cbn [fst snd].
  assert (fg d1 = bg d) as Hfg by (unfold fg, bg; simpl; by rewrite fg_swap).
  fold d1. rewrite process_loop_spec by (by rewrite Hfg). rewrite Hfg.
  eexists. split; [reflexivity|]. unfold fg, bg in *. simpl in *.
  rewrite fg_pop_n, bg_pop_n, fg_swap, bg_swap, drop_all.
  split_and!; [done..|]. by rewrite process_items_entities.
Qed.

(** C32: liveness of the processing thread, with the condition variable written out (a
    thread whose predicate was false stays blocked until [notify_one] or a spurious
    wake-up; a notification that finds nobody blocked is lost).  From every reachable
    state in which the thread runs and [exit_] is not set, without spurious wake-ups and
    whatever the order in which the thread and the calls of [push_item_to_queue_] that
    have begun take their steps: they take at most [work s] of them, and as long as an
    operation pushed is not processed one of them can take a step; when none can, the
    thread is blocked and everything pushed has been processed. *)
Theorem pushed_operations_get_processed c s :
  reachable c s -> sys_thread s <> NotRunning -> exit_ (sys_db s) = false ->
  forall n s', nsteps inner_step n s s' ->
    n <= work s /\ sys_pushed s' = sys_pushed s /\
    ((exists s'', inner_step s' s'') \/
     (sys_thread s' = Waiting /\ entities_to_process_cv_ (sys_db s') = true /\ sys_processed s' = sys_pushed s)).
Proof.
  intros Hi%reachable_inv Hrun Hx n s' Hr.
  destruct (inner_steps_work _ _ _ Hr) as (Hs' & Hp & Hw); [done|].
  split_and!; [lia|done|]. rewrite <- Hp. by apply serving_progress.
Qed.

(** [stop] is final: in a reachable state where [stop] was called and the
    thread has left [process_queue_], no later execution processes anything, in
    particular none after [start] is called again: [exit_] is never reset, so the
    new thread leaves its loop at once and what is pushed stays in the queue. *)
Theorem restarted_database_never_processes c s s' :
  reachable c s -> exit_ (sys_db s) = true -> sys_thread s <> Processing -> rtc step s s' ->
  sys_processed s' = sys_processed s /\ entities_ (sys_db s') = entities_ (sys_db s).
Proof.
  intros Hreach He Ht Hr.
  assert (sys_processed s' = sys_processed s) as Hp.
  { pose proof (reachable_inv _ _ Hreach) as Hi. clear Hreach. induction Hr as [|x y z Hs Hr IH]; [done|].
    destruct (exit_forever _ _ Hs Hi He Ht) as (He' & Ht' & <-). apply IH; eauto using step_preserves_inv. }
  split; [done|]. rewrite (inv_map _ (reachable_inv _ _ Hreach)).
  rewrite (inv_map s'), Hp; [done|]. apply (reachable_inv c). unfold reachable. by etrans.
Qed.

Lemma stop_steps d c t ca pu pr :
  enabled_ d = true ->
  rtc step (mkSystem d c t [] ca pu pr) (mkSystem (fold_left (fun d a => a d) stop_actions d) c t [] ca pu pr).
Proof.
  intros Hen. eapply rtc_l; [by apply step_stop|]. unfold stop_actions.
  do 4 (eapply rtc_l; [apply step_stopping|]). apply rtc_refl.
Qed.

(** The thread after the items it was processing, with no callback left. *)
Lemma thread_processes_quiet s :
  sys_inv s -> added_endpoint_callbacks_ (sys_db s) = [] -> updated_endpoint_callbacks_ (sys_db s) = [] ->
  erased_endpoint_callbacks_ (sys_db s) = [] ->
  let s1 := thread_processes s in
  rtc inner_step s s1 /\ sys_thread s1 <> Processing /\ (sys_thread s1 = NotRunning -> sys_thread s = NotRunning) /\
  sys_client s1 = sys_client s /\
  sys_processed s1 = sys_processed s ++ fg (sys_db s) /\ bg (sys_db s1) = bg (sys_db s) /\ sys_stop s1 = sys_stop s /\
  enabled_ (sys_db s1) = enabled_ (sys_db s) /\ exit_ (sys_db s1) = exit_ (sys_db s) /\
  entities_to_process_cv_ (sys_db s1) = entities_to_process_cv_ (sys_db s).
Proof.
  intros Hi Ha Hu He. destruct s as [d c t st ca pu pr]. unfold thread_processes. cbn [sys_thread].
  pose proof (inv_thread _ Hi) as Hfg. simpl in *.
  destruct t; [rewrite Hfg, app_nil_r by done; by split_and!..|].
  change (foreground (entities_to_process_ d)) with (fg d). unfold exec. rewrite process_loop_spec by done.
  cbv zeta. cbn [fst snd sys_client sys_db sys_processed sys_stop sys_thread].
  destruct (process_items_flags (fg d) (d, c)) as (Fx & Fe & Fc).
  split_and!; try done; [by apply processing_runs|by apply process_items_quiet|].
  unfold bg. simpl. by rewrite bg_pop_n.
Qed.

(** C33: [stop] ends the thread and calls nobody: from every reachable state of an enabled
    component, with no other [stop] under way, the call returns ([join] does not block on
    a thread that nobody wakes), in a state the steps lead to, with the thread ended, the
    database disabled, the operations that were being processed applied, those still in
    the queue left there, and no callback run, whatever was being processed; a later
    [start] is never [std::terminate]. *)
Theorem database_stop_spec c s :
  reachable c s -> enabled_ (sys_db s) = true -> sys_stop s = [] ->
  exists s', database_stop s = Some s' /\
  rtc step s s' /\ sys_thread s' = NotRunning /\ enabled_ (sys_db s') = false /\ exit_ (sys_db s') = true /\
  sys_client s' = sys_client s /\ sys_processed s' = sys_processed s ++ fg (sys_db s) /\
  bg (sys_db s') = bg (sys_db s) /\ is_Some (database_start s').
Proof.
  intros Hreach Hen Hst. unfold database_stop. rewrite Hen. destruct s as [d cl th st ca pu pr]. simpl in *. subst st.
  pose proof (stop_steps d cl th ca pu pr Hen) as Hstop.
  set (d1 := fold_left (fun d a => a d) stop_actions d) in *. unfold with_db at 1. simpl.
  assert (reachable c (mkSystem d1 cl th [] ca pu pr)) as Hi%reachable_inv by (unfold reachable; by etrans).
  destruct (thread_processes_quiet _ Hi eq_refl eq_refl eq_refl)
    as (Hrun & Hnp & Hnot & Hcl & Hpr & Hbg & Hs1 & Hen1 & Hx1 & Hcv1).
  unfold thread_join. destruct (thread_processes _) as [d2 c2 t2 st2 ca2 pu2 pr2]. simpl in *.
  change (fg d1) with (fg d) in Hpr. change (bg d1) with (bg d) in Hbg.
  rewrite Hcv1, Hx1. simpl. subst st2.
  assert (rtc step (mkSystem d cl th [] ca pu pr) (mkSystem d2 c2 t2 [] ca2 pu2 pr2)) as Hsteps.
  { etrans; [exact Hstop|]. by apply inner_rtc_step. }
  destruct t2; [eexists; split; [done|]; split_and!; try done|eexists; split; [done|]; split_and!; try done|done].
  - unfold database_start. simpl. by rewrite Hen1.
  - eapply rtc_r; [exact Hsteps|]. by apply step_inner, step_exit.
  - unfold database_start. simpl. by rewrite Hen1.
Qed.

(** What [get_endpoint] returns after an operation is processed.  Adding an
    unknown endpoint makes it retrievable as it is; adding a known active one
    changes nothing; updating a known endpoint replaces it except for its specific
    QoS, which stay those of the first discovery (the assignment of endpoints does
    not copy them); erasing makes the lookup throw; other GUIDs are not affected. *)
Theorem endpoint_lookup_spec op e g d c :
  map_wf (entities_ d) ->
  let d' := (exec (process_item (op, e)) (d, c)).1 in
  get_endpoint d' g =
    if decide (g = guid_ e) then
      match op, get_endpoint d g with
      | op_add, Throw _ => Ok e
      | op_add, Ok e' =>
          if active_ e' then Ok e' else Ok (set_specific_qos (specific_qos_ e') e)
      | op_update, Throw _ => Throw InconsistencyException
      | op_update, Ok e' => Ok (set_specific_qos (specific_qos_ e') e)
      | op_erase, _ => Throw InconsistencyException
      end
    else get_endpoint d g.
Proof.
  intros Hm. unfold exec. rewrite process_item_spec. simpl. unfold get_endpoint. simpl.
  destruct (decide (g = guid_ e)) as [->|Hne].
  - assert (keqv (guid_ e) (guid_ e) = true) as Hk by (by apply guid_keqv).
    destruct op; simpl; destruct (find (guid_ e) (entities_ d)) as [e'|] eqn:E;
      try destruct (active_ e') eqn:Ea; simpl; rewrite ?find_assign, ?find_erase, ?Hk, ?E by done;
      try done; by rewrite ?Ea.
  - assert (keqv g (guid_ e) = false) as Hk.
    { apply not_true_is_false. by rewrite guid_keqv. }
    destruct op; simpl; destruct (find (guid_ e) (entities_ d)) as [e'|] eqn:E;
      try destruct (active_ e') eqn:Ea; simpl; rewrite ?find_assign, ?find_erase, ?Hk by done; done.
Qed.

End DiscoveryDatabase.

Arguments DiscoveryDatabase {CU DQ} C.
Arguments db_state {CU DQ} C.
Arguments system {CU DQ} C.
Arguments callback {CU} C.

(** ** Witnesses *)

#[local] Existing Instances Demo.cpp_utils Demo.fast_dds Demo.dbqueue
  Demo.fast_dds_laws Demo.dbqueue_laws.

Definition demo_endpoint (strength : Z) : Endpoint :=
  Endpoint_of endpoint_writer (mkGuid [1%Z] [1%Z]) (DdsTopic_of 5000 "rt/chatter" "String")
    (mkParticipantId "p") (mkSpecificQoS [] strength).

Definition demo_items : list queue_item := [(op_add, demo_endpoint 0); (op_update, demo_endpoint 7)].

Definition demo_pushed : DiscoveryDatabase nat :=
  (exec (push_item_to_queue_ (op_update, demo_endpoint 7))
    (exec (push_item_to_queue_ (op_add, demo_endpoint 0))
      (set_enabled true DiscoveryDatabase_new, 0))).1.

Definition demo_waiting : system nat := mkSystem demo_pushed 0 Waiting [] [[]; []] demo_items [].

Lemma demo_waiting_reachable : reachable 0 demo_waiting.
Proof.
  eapply rtc_l; [by apply step_start|].
  eapply rtc_l; [by apply (step_push (op_add, demo_endpoint 0))|].
  eapply rtc_l; [by apply step_inner, (step_call [])|].
  eapply rtc_l; [by apply (step_push (op_update, demo_endpoint 7))|].
  eapply rtc_l; [by apply step_inner, (step_call [])|]. apply rtc_refl.
Qed.

Lemma discovery_queue_refinement_witness :
  sys_pushed demo_waiting = sys_processed demo_waiting ++ fg (sys_db demo_waiting) ++ bg (sys_db demo_waiting).
Proof. apply (discovery_queue_refinement 0), demo_waiting_reachable. Defined.

(** The thread went to sleep before the first push, and the client has not notified yet. *)
Definition demo_blocked : system nat :=
  mkSystem (set_queue (dbq_push (op_add, demo_endpoint 0) dbq_new) (set_blocked true (set_enabled true DiscoveryDatabase_new)))
    0 Waiting [] [[notify_one]] [(op_add, demo_endpoint 0)] [].

Lemma demo_blocked_reachable : reachable 0 demo_blocked.
Proof.
  eapply rtc_l; [by apply step_start|]. eapply rtc_l; [by apply step_inner, step_block|].
  eapply rtc_l; [by apply (step_push (op_add, demo_endpoint 0))|]. apply rtc_refl.
Qed.

(** Stopped while the thread processes the two operations. *)
Definition demo_processing : system nat :=
  mkSystem (set_queue (dbq_swap (entities_to_process_ demo_pushed)) demo_pushed) 0 Processing [] [[]; []] demo_items [].

Lemma demo_processing_reachable : reachable 0 demo_processing.
Proof. eapply rtc_r; [apply demo_waiting_reachable|]. by apply step_inner, step_wake. Qed.

Lemma database_stop_spec_witness :
  exists s', database_stop demo_processing = Some s' /\ sys_client s' = 0 /\ sys_processed s' = demo_items.
Proof.
  destruct (database_stop_spec 0 demo_processing demo_processing_reachable eq_refl eq_refl)
    as (s' & Hs & _ & _ & _ & _ & Hc & Hp & _).
  exists s'. split; [exact Hs|]. split; [exact Hc|]. rewrite Hp. reflexivity.
Defined.

Lemma process_queue_drains_witness :
  exists d', process_queue_ 2 (demo_pushed, 0) = (Ok tt, (d', 0)) /\ fg d' = [].
Proof.
  destruct (process_queue_drains 2 demo_pushed 0) as (d' & H & Hfg & _);
    [vm_compute; repeat constructor|]. exists d'. split; [exact H|exact Hfg].
Defined.

(** The blocked thread, the notification, the swap, the item, the end of the batch, blocked
    again: five steps, then nothing is left to do. *)
Definition demo_done : DiscoveryDatabase nat :=
  set_blocked true (exec (process_queue_ 1) (notify_one (sys_db demo_blocked), 0)).1.

Lemma pushed_operations_get_processed_witness :
  exists s', nsteps inner_step 5 demo_blocked s' /\ 5 <= work demo_blocked /\
    sys_processed s' = [(op_add, demo_endpoint 0)] /\ ~ (exists s'', inner_step s' s'').
Proof.
  exists (mkSystem demo_done 0 Waiting [] [[]] [(op_add, demo_endpoint 0)] [(op_add, demo_endpoint 0)]).
  assert (nsteps inner_step 5 demo_blocked
    (mkSystem demo_done 0 Waiting [] [[]] [(op_add, demo_endpoint 0)] [(op_add, demo_endpoint 0)])) as Hr.
  { eapply nsteps_l; [apply (step_call [])|]. eapply nsteps_l; [by apply step_wake|].
    eapply nsteps_l; [by eapply step_item|]. eapply nsteps_l; [by apply step_processed|].
    eapply nsteps_l; [by apply step_block|]. apply nsteps_O. }
  destruct (pushed_operations_get_processed 0 demo_blocked demo_blocked_reachable ltac:(done) eq_refl 5 _ Hr)
    as (Hw & _ & Hdone).
  split; [exact Hr|]. split; [exact Hw|]. split; [reflexivity|].
  intros [s'' Hs]. inversion Hs; subst; try done. destruct l1 as [|? [|]]; done.
Defined.

(** [start], [stop], [start] again, then a push that nobody processes *)
Definition demo_stopped : DiscoveryDatabase nat :=
  fold_left (fun d a => a d) stop_actions (set_enabled true DiscoveryDatabase_new).

Lemma restarted_database_never_processes_witness :
  exists s s', reachable 0 s /\ rtc step s s' /\ enabled_ (sys_db s') = true /\
    sys_pushed s' = [(op_add, demo_endpoint 0)] /\ sys_processed s' = [] /\
    forall s'', rtc step s' s'' -> sys_processed s'' = [].
Proof.
  assert (reachable 0 (mkSystem demo_stopped 0 NotRunning [] [] [] [])) as Hreach.
  { eapply rtc_l; [by apply step_start|]. etrans; [by apply stop_steps|].
    eapply rtc_l; [by apply step_inner, step_exit|]. apply rtc_refl. }
  exists (mkSystem demo_stopped 0 NotRunning [] [] [] []).
  eexists. split; [exact Hreach|]. split.
  - eapply rtc_l; [by apply step_start|].
    eapply rtc_l; [by apply (step_push (op_add, demo_endpoint 0))|]. apply rtc_refl.
  - split_and!; try done. intros s'' Hr.
    refine (proj1 (restarted_database_never_processes 0 _ s'' Hreach eq_refl _ _)); [done|].
    eapply rtc_l; [by apply step_start|]. eapply rtc_l; [|exact Hr].
    exact (step_push (op_add, demo_endpoint 0) _ _ _ _ _ _ _ _ _ eq_refl).
Defined.

(** the update with ownership strength 7 leaves the strength 0 of the discovery *)
Lemma endpoint_lookup_spec_witness :
  get_endpoint (exec (process_item (op_update, demo_endpoint 7))
    (set_entities [(mkGuid [1%Z] [1%Z], demo_endpoint 0)] DiscoveryDatabase_new, 0)).1
    (mkGuid [1%Z] [1%Z]) = Ok (demo_endpoint 0).
Proof.
  rewrite (endpoint_lookup_spec op_update (demo_endpoint 7)); [reflexivity|repeat constructor].
Defined.
