(* ===== verification/PayloadPool.v ===== *)
(** * Payload pools

    [ddsrouter_core/src/cpp/efficiency/payload]: the memory of the messages.
    [PayloadPool] is the base class with the part that Fast DDS calls;
    [FastPayloadPool] keeps a reference counter in front of each block,
    [MapPayloadPool] keeps the counters in a map and [CopyPayloadPool] copies
    every time.  The router uses a [FastPayloadPool].

    The heap is explicit: an address that is not allocated, or a counter read in
    front of a block that has none, is undefined behaviour. *)
From stdpp Require Import gmap relations.
From S2P Require Import Prelude StdMap CppString Externals Types.

(** ** Memory *)

(** A block: the [MetaInfoType] (a 32-bit counter) in front of the data, when it
    was allocated with one, and the bytes, [None] when not initialized. *)
Record block : Type := mkBlock { meta : option Z; bytes : list (option Z) }.

Notation heap := (gmap nat block).

(** The address [malloc] gives for a block in a heap; it is assumed not to fail, which the
    pools do not look at either. *)
Class Malloc := malloc : heap -> Z -> nat.
Class MallocLaws `{Malloc} : Prop := malloc_fresh : forall h n, h !! malloc h n = None.

Definition uninitialized (size : Z) : list (option Z) := replicate (Z.to_nat size) None.

(** [SerializedPayload_t::reserve] and [SerializedPayload_t::empty] of Fast DDS. *)
Class SerializedPayload := {
  payload_reserve : Z -> heap -> Payload -> heap * Payload;
  payload_empty : heap -> Payload -> heap * Payload
}.

Class SerializedPayloadLaws `{SerializedPayload} : Prop := {
  (** a payload without data gets a new block of the size asked *)
  payload_reserve_spec : forall n h p,
    payload_data p = None -> payload_max_size p = 0%Z -> (0 < n)%Z ->
    exists a bs, h !! a = None /\ length bs = Z.to_nat n /\
      payload_reserve n h p =
        (<[a := mkBlock None bs]> h, mkPayload (Some a) (payload_length p) n (payload_pos p));
  (** the block is freed and the payload has no data *)
  payload_empty_some : forall h p a,
    payload_data p = Some a -> is_Some (h !! a) ->
    exists pos, payload_empty h p = (delete a h, mkPayload None 0 0 pos);
  payload_empty_none : forall h p,
    payload_data p = None -> exists pos, payload_empty h p = (h, mkPayload None 0 0 pos)
}.

(** ** The pool object *)

Record PayloadPool : Type := mkPool {
  reserve_count_ : Z;
  release_count_ : Z;
  (** member of [MapPayloadPool]; not used by the other pools *)
  reserved_payloads_ : std_map nat Z
}.

(** [PayloadPool()] *)
Definition PayloadPool_new : PayloadPool := mkPool 0 0 [].

(** What a method works on: the heap, the pool and the payload that it takes by
    reference. *)
Record pstate : Type := mkP { p_heap : heap; p_pool : PayloadPool; p_target : Payload }.

Definition set_heap (h : heap) : prog pstate unit :=
  modify (fun s => mkP h (p_pool s) (p_target s)).
Definition set_pool (p : PayloadPool) : prog pstate unit :=
  modify (fun s => mkP (p_heap s) p (p_target s)).
Definition set_target (p : Payload) : prog pstate unit :=
  modify (fun s => mkP (p_heap s) (p_pool s) p).

Definition with_reserved (m : std_map nat Z) (p : PayloadPool) : PayloadPool :=
  mkPool (reserve_count_ p) (release_count_ p) m.

Definition is_clean (p : PayloadPool) : bool := (reserve_count_ p =? release_count_ p)%Z.

Definition add_reserved_payload_ : prog pstate unit :=
  s ← get;
  set_pool (mkPool (u64 (reserve_count_ (p_pool s) + 1)) (release_count_ (p_pool s))
              (reserved_payloads_ (p_pool s))).

Definition add_release_payload_ : prog pstate unit :=
  s ← get;
  let release := u64 (release_count_ (p_pool s) + 1) in
  set_pool (mkPool (reserve_count_ (p_pool s)) release (reserved_payloads_ (p_pool s))) ;;
  if (release >? reserve_count_ (p_pool s))%Z then throw InconsistencyException else mret tt.

(** [std::memcpy(dst, src, n)] *)
Definition memcpy (dst src : option nat) (n : Z) : prog pstate unit :=
  s ← get;
  match dst, src with
  | Some d, Some c =>
      match p_heap s !! d, p_heap s !! c with
      | Some bd, Some bc =>
          if (n <=? Z.of_nat (length (bytes bd)))%Z && (n <=? Z.of_nat (length (bytes bc)))%Z
          then set_heap (<[d := mkBlock (meta bd)
                 (take (Z.to_nat n) (bytes bc) ++ drop (Z.to_nat n) (bytes bd))]> (p_heap s))
          else throw UndefinedBehaviour
      | _, _ => throw UndefinedBehaviour
      end
  | _, _ => throw UndefinedBehaviour
  end.

Definition with_length (n : Z) (p : Payload) : Payload :=
  mkPayload (payload_data p) n (payload_max_size p) (payload_pos p).
Definition with_max_size (n : Z) (p : Payload) : Payload :=
  mkPayload (payload_data p) (payload_length p) n (payload_pos p).

(** The assignments [length = 0; max_size = 0; data = nullptr; pos = 0]. *)
Definition reset_target : prog pstate unit := set_target Payload_empty.

(** The virtual methods. *)
Class PoolMethods := {
  get_payload : Z -> prog pstate bool;
  get_payload_from : Payload -> option nat -> prog pstate bool;
  release_payload : prog pstate bool
}.

(** ** FastPayloadPool *)
Module FastPayloadPool.
Section FastPayloadPool.
Context {MA : Malloc} (this : nat).

Definition reserve_ (size : Z) : prog pstate bool :=
  if (size =? 0)%Z then mret false
  else
    s ← get;
    let a := malloc (p_heap s) size in
    set_heap (<[a := mkBlock (Some 1%Z) (uninitialized size)]> (p_heap s)) ;;
    set_target (mkPayload (Some a) (payload_length (p_target s)) size (payload_pos (p_target s))) ;;
    add_reserved_payload_ ;;
    mret true.

(** [*reference_place] for [reference_place] in front of [data] *)
Definition read_refs (data : option nat) : prog pstate Z :=
  s ← get;
  match data with
  | Some a =>
      match p_heap s !! a with
      | Some (mkBlock (Some r) _) => mret r
      | _ => throw UndefinedBehaviour
      end
  | None => throw UndefinedBehaviour
  end.

Definition write_refs (data : option nat) (r : Z) : prog pstate unit :=
  s ← get;
  match data with
  | Some a =>
      match p_heap s !! a with
      | Some (mkBlock (Some _) bs) => set_heap (<[a := mkBlock (Some r) bs]> (p_heap s))
      | _ => throw UndefinedBehaviour
      end
  | None => throw UndefinedBehaviour
  end.

(** [free(reference_place)] *)
Definition free (data : option nat) : prog pstate unit :=
  s ← get;
  match data with
  | Some a =>
      match p_heap s !! a with
      | Some (mkBlock (Some _) _) => set_heap (delete a (p_heap s))
      | _ => throw UndefinedBehaviour
      end
  | None => throw UndefinedBehaviour
  end.

Definition release_ : prog pstate bool :=
  s ← get;
  free (payload_data (p_target s)) ;;
  reset_target ;;
  add_release_payload_ ;;
  mret true.

Definition fast_get_payload (size : Z) : prog pstate bool :=
  ok ← reserve_ size;
  if negb ok then mret false else mret true.

Definition fast_get_payload_from (src_payload : Payload) (data_owner : option nat) :
    prog pstate bool :=
  if bool_decide (data_owner <> Some this) then
    ok ← fast_get_payload (payload_max_size src_payload);
    if negb ok then mret false
    else
      s ← get;
      memcpy (payload_data (p_target s)) (payload_data src_payload) (payload_length src_payload) ;;
      set_target (with_length (payload_length src_payload) (p_target s)) ;;
      mret true
  else
    r ← read_refs (payload_data src_payload);
    write_refs (payload_data src_payload) (u32 (r + 1)) ;;
    s ← get;
    set_target (mkPayload (payload_data src_payload) (payload_length src_payload)
                  (payload_max_size src_payload) (payload_pos (p_target s))) ;;
    mret true.

(** The two atomic accesses of [release_payload], used one after the other here
    and interleaved with other threads below. *)
Definition decrement_refs (data : option nat) : prog pstate unit :=
  r ← read_refs data;
  write_refs data (u32 (r - 1)).

Definition release_if_last : prog pstate unit :=
  s ← get;
  r ← read_refs (payload_data (p_target s));
  if (r =? 0)%Z then release_ ;; mret tt else mret tt.

Definition fast_release_payload : prog pstate bool :=
  s ← get;
  decrement_refs (payload_data (p_target s)) ;;
  release_if_last ;;
  reset_target ;;
  mret true.

Definition methods : PoolMethods := {|
  get_payload := fast_get_payload;
  get_payload_from := fast_get_payload_from;
  release_payload := fast_release_payload
|}.

End FastPayloadPool.
End FastPayloadPool.

(** ** The base class: [reserve_] and [release_] *)
Section Base.
Context {SP : SerializedPayload}.

Definition reserve_ (size : Z) : prog pstate bool :=
  if (size =? 0)%Z then mret false
  else
    s ← get;
    let '(h, p) := payload_reserve size (p_heap s) (p_target s) in
    set_heap h ;; set_target p ;; add_reserved_payload_ ;; mret true.

Definition release_ : prog pstate bool :=
  s ← get;
  let '(h, p) := payload_empty (p_heap s) (p_target s) in
  set_heap h ;; set_target p ;;
  match payload_data p with
  | Some _ => mret false
  | None => add_release_payload_ ;; mret true
  end.

End Base.

(** ** MapPayloadPool *)
Module MapPayloadPool.
Section MapPayloadPool.
Context {SP : SerializedPayload} (this : nat).

(** [reserved_payloads_[data]] as a key: [nullptr] is below every address. *)
Definition key (data : option nat) : nat := match data with Some a => S a | None => 0 end.

Definition map_get_payload (size : Z) : prog pstate bool :=
  ok ← reserve_ size;
  if negb ok then mret false
  else
    s ← get;
    set_target (with_max_size size (p_target s)) ;;
    set_pool (with_reserved
      (assign (key (payload_data (p_target s))) 1%Z (reserved_payloads_ (p_pool s))) (p_pool s)) ;;
    mret true.

Definition map_get_payload_from (src_payload : Payload) (data_owner : option nat) :
    prog pstate bool :=
  if bool_decide (data_owner <> Some this) then
    ok ← map_get_payload (payload_max_size src_payload);
    if negb ok then mret false
    else
      s ← get;
      memcpy (payload_data (p_target s)) (payload_data src_payload) (payload_length src_payload) ;;
      set_target (with_length (payload_length src_payload) (p_target s)) ;;
      mret true
  else
    s ← get;
    match find (key (payload_data src_payload)) (reserved_payloads_ (p_pool s)) with
    | None => throw InconsistencyException
    | Some _ =>
        set_pool (with_reserved (update (fun r => u32 (r + 1)) (key (payload_data src_payload))
          (reserved_payloads_ (p_pool s))) (p_pool s)) ;;
        set_target (mkPayload (payload_data src_payload) (payload_length src_payload)
                      (payload_max_size src_payload) (payload_pos (p_target s))) ;;
        mret true
    end.

Definition map_release_payload : prog pstate bool :=
  s ← get;
  let k := key (payload_data (p_target s)) in
  match find k (reserved_payloads_ (p_pool s)) with
  | None => throw InconsistencyException
  | Some r =>
      let r' := u32 (r - 1) in
      set_pool (with_reserved (assign k r' (reserved_payloads_ (p_pool s))) (p_pool s)) ;;
      ok ← (if (r' =? 0)%Z then
              released ← release_;
              if negb released then mret false
              else
                s' ← get;
                set_pool (with_reserved (erase k (reserved_payloads_ (p_pool s'))) (p_pool s')) ;;
                mret true
            else mret true);
      if negb ok then mret false
      else reset_target ;; mret true
  end.

Definition methods : PoolMethods := {|
  get_payload := map_get_payload;
  get_payload_from := map_get_payload_from;
  release_payload := map_release_payload
|}.

End MapPayloadPool.
End MapPayloadPool.

(** ** CopyPayloadPool *)
Module CopyPayloadPool.
Section CopyPayloadPool.
Context {SP : SerializedPayload}.

(** The result of [reserve_] is not used. *)
Definition copy_get_payload (size : Z) : prog pstate bool :=
  _ ← reserve_ size;
  s ← get;
  set_target (with_max_size size (p_target s)) ;;
  mret true.

Definition copy_get_payload_from (src_payload : Payload) (data_owner : option nat) :
    prog pstate bool :=
  ok ← copy_get_payload (payload_max_size src_payload);
  if negb ok then mret false
  else
    s ← get;
    memcpy (payload_data (p_target s)) (payload_data src_payload) (payload_length src_payload) ;;
    set_target (mkPayload (payload_data (p_target s)) (payload_length src_payload)
                  (payload_max_size src_payload) (payload_pos (p_target s))) ;;
    mret true.

Definition copy_release_payload : prog pstate bool := release_.

Definition methods : PoolMethods := {|
  get_payload := copy_get_payload;
  get_payload_from := copy_get_payload_from;
  release_payload := copy_release_payload
|}.

End CopyPayloadPool.
End CopyPayloadPool.

(** ** The part Fast DDS calls *)

(** [CacheChange_t]: the payload and the pool that owns it *)
Record CacheChange : Type := mkCacheChange {
  serializedPayload : Payload;
  payload_owner : option nat
}.

Record cstate : Type := mkC { c_heap : heap; c_pool : PayloadPool; c_change : CacheChange }.

(** Runs a method on [cache_change.serializedPayload]. *)
Definition on_payload {A} (m : prog pstate A) : prog cstate A :=
  zoom (fun s => mkP (c_heap s) (c_pool s) (serializedPayload (c_change s)))
       (fun t s => mkC (p_heap t) (p_pool t)
                     (mkCacheChange (p_target t) (payload_owner (c_change s)))) m.

Definition set_owner (o : option nat) : prog cstate unit :=
  modify (fun s => mkC (c_heap s) (c_pool s) (mkCacheChange (serializedPayload (c_change s)) o)).

Section CacheChanges.
Context {PM : PoolMethods} (this : nat).

Definition get_payload_change (size : Z) : prog cstate bool :=
  ok ← on_payload (get_payload size);
  if (ok : bool) then set_owner (Some this) ;; mret true else mret false.

Definition get_payload_from_change (data : Payload) (data_owner : option nat) : prog cstate bool :=
  ok ← on_payload (get_payload_from data data_owner);
  if (ok : bool) then set_owner (Some this) ;; mret true else mret false.

Definition release_payload_change : prog cstate bool :=
  s ← get;
  if bool_decide (payload_owner (c_change s) = Some this) then
    ok ← on_payload release_payload;
    if (ok : bool) then set_owner None ;; mret true else mret false
  else throw InconsistencyException.

End CacheChanges.

(** ** What a pool promises

    [L] lists the addresses of the payloads obtained from the pool and not
    released yet, with repetitions; [H0] is the memory of the rest of the
    program. *)

Definition addrs (L : list nat) : gset nat := list_to_set L.

Record accounts (h : heap) (pool : PayloadPool) (L : list nat) (H0 : gset nat) : Prop := {
  acc_dom : dom h = H0 ∪ addrs L;
  acc_disj : H0 ## addrs L;
  acc_release : (0 <= release_count_ pool)%Z;
  acc_count : (release_count_ pool + Z.of_nat (size (addrs L)) = reserve_count_ pool)%Z;
  acc_bound : (reserve_count_ pool < 2 ^ 64)%Z
}.

(** A payload whose block has [max_size] bytes, [length] of them used. *)
Definition valid_payload (h : heap) (p : Payload) : Prop :=
  exists a b, payload_data p = Some a /\ h !! a = Some b /\
    Z.of_nat (length (bytes b)) = payload_max_size p /\
    (0 <= payload_length p <= payload_max_size p)%Z.

(** The message in a payload. *)
Definition contents (h : heap) (p : Payload) : option (list (option Z)) :=
  a ← payload_data p; b ← h !! a; Some (take (Z.to_nat (payload_length p)) (bytes b)).

(** The bytes of the blocks of [h] are those of [h']. *)
Definition bytes_kept (h h' : heap) : Prop :=
  forall a b, h !! a = Some b -> exists b', h' !! a = Some b' /\ bytes b' = bytes b.

Lemma bytes_kept_refl h : bytes_kept h h.
Proof. intros a b Hb. by exists b. Qed.

Lemma bytes_kept_trans h1 h2 h3 : bytes_kept h1 h2 -> bytes_kept h2 h3 -> bytes_kept h1 h3.
Proof.
  intros H12 H23 a b Hb. destruct (H12 a b Hb) as (b2 & Hb2 & E2). destruct (H23 a b2 Hb2) as (b3 & Hb3 & E3).
  exists b3. split; [done|congruence].
Qed.

(** The payload given to [get_payload] must not have been initialized. *)
Definition not_initialized (p : Payload) : Prop :=
  payload_data p = None /\ payload_max_size p = 0%Z.

Class PoolSpec {PM : PoolMethods} (this : nat) := {
  (** the reference counters the implementation keeps *)
  refs_inv : heap -> PayloadPool -> list nat -> Prop;
  refs_inv_perm : forall h pool L L', L ≡ₚ L' -> refs_inv h pool L -> refs_inv h pool L';
  refs_inv_nil : forall h, refs_inv h PayloadPool_new [];
  spec_get : forall size s L H0,
    accounts (p_heap s) (p_pool s) L H0 -> refs_inv (p_heap s) (p_pool s) L ->
    not_initialized (p_target s) -> (0 < size)%Z -> (reserve_count_ (p_pool s) + 1 < 2 ^ 64)%Z ->
    exists a s', get_payload size s = (Ok true, s') /\
      accounts (p_heap s') (p_pool s') (a :: L) H0 /\ refs_inv (p_heap s') (p_pool s') (a :: L) /\
      p_heap s !! a = None /\ bytes_kept (p_heap s) (p_heap s') /\
      (exists b, p_heap s' !! a = Some b /\ Z.of_nat (length (bytes b)) = size) /\
      p_target s' = mkPayload (Some a) (payload_length (p_target s)) size (payload_pos (p_target s));
  spec_get_from : forall src owner s L H0,
    accounts (p_heap s) (p_pool s) L H0 -> refs_inv (p_heap s) (p_pool s) L ->
    not_initialized (p_target s) -> valid_payload (p_heap s) src ->
    (owner = Some this -> exists a, payload_data src = Some a /\ a ∈ L) ->
    (0 < payload_max_size src)%Z ->
    (reserve_count_ (p_pool s) + 1 < 2 ^ 64)%Z -> (Z.of_nat (length L) + 1 < 2 ^ 32)%Z ->
    exists a s', get_payload_from src owner s = (Ok true, s') /\
      accounts (p_heap s') (p_pool s') (a :: L) H0 /\ refs_inv (p_heap s') (p_pool s') (a :: L) /\
      payload_data (p_target s') = Some a /\ payload_max_size (p_target s') = payload_max_size src /\
      valid_payload (p_heap s') (p_target s') /\ bytes_kept (p_heap s) (p_heap s') /\
      contents (p_heap s') (p_target s') = contents (p_heap s) src;
  spec_release : forall a s L H0,
    accounts (p_heap s) (p_pool s) (a :: L) H0 -> refs_inv (p_heap s) (p_pool s) (a :: L) ->
    (Z.of_nat (length (a :: L)) < 2 ^ 32)%Z ->
    payload_data (p_target s) = Some a ->
    exists s', release_payload s = (Ok true, s') /\
      accounts (p_heap s') (p_pool s') L H0 /\ refs_inv (p_heap s') (p_pool s') L /\
      bytes_kept (p_heap s') (p_heap s) /\ payload_data (p_target s') = None;
  (** what the methods count *)
  spec_get_from_count : forall src owner s, (0 <= reserve_count_ (p_pool s))%Z ->
    (0 <= reserve_count_ (p_pool (exec (get_payload_from src owner) s)) <= reserve_count_ (p_pool s) + 1)%Z;
  spec_release_count : forall s,
    reserve_count_ (p_pool (exec release_payload s)) = reserve_count_ (p_pool s)
}.

Lemma u64_succ_le z : (0 <= z)%Z -> (0 <= u64 (z + 1) <= z + 1)%Z.
Proof. intros Hz. unfold u64. split; [by apply Z.mod_pos_bound|]. apply Z.mod_le; lia. Qed.

(** Every branch of a method, with the totals it leaves. *)
Ltac count_cases Hc :=
  run_prog;
  repeat (case_match; simplify_eq; simpl in * );
  try (pose proof (u64_succ_le _ Hc)); simpl in *; lia || done.

(** *** Accounting lemmas *)

Section Accounts.
Implicit Types (h : heap) (pool : PayloadPool) (L : list nat).

Lemma acc_owned h pool L H0 a : accounts h pool L H0 -> a ∈ L -> is_Some (h !! a).
Proof. intros [Hd _ _ _ _] Ha. apply (elem_of_dom (D := gset nat)). rewrite Hd. unfold addrs. set_solver. Qed.

Lemma acc_alloc h pool L H0 a b rp :
  accounts h pool L H0 -> h !! a = None -> (reserve_count_ pool + 1 < 2 ^ 64)%Z ->
  accounts (<[a := b]> h) (mkPool (u64 (reserve_count_ pool + 1)) (release_count_ pool) rp)
    (a :: L) H0.
Proof.
  intros [Hd Hj Hr Hc Hb] Ha Hmax.
  assert (a ∉ (dom h : gset nat)) as Hnd by (by apply (not_elem_of_dom (D := gset nat))).
  assert (a ∉ addrs L) as Hna by set_solver.
  split; simpl.
  - rewrite dom_insert_L, Hd. set_solver.
  - set_solver.
  - done.
  - rewrite u64_small by lia. unfold addrs in *. simpl.
    rewrite size_union by set_solver. rewrite size_singleton. lia.
  - rewrite u64_small by lia. lia.
Qed.

Lemma acc_share h h' pool L H0 a rp :
  accounts h pool L H0 -> a ∈ L -> dom h' = dom h ->
  accounts h' (with_reserved rp pool) (a :: L) H0.
Proof.
  intros [Hd Hj Hr Hc Hb] Ha Hdom.
  assert (addrs (a :: L) = addrs L) as E by (unfold addrs; simpl; set_solver).
  split; simpl; rewrite ?E; congruence || done.
Qed.

Lemma acc_unshare h h' pool L H0 a rp :
  accounts h pool (a :: L) H0 -> a ∈ L -> dom h' = dom h ->
  accounts h' (with_reserved rp pool) L H0.
Proof.
  intros [Hd Hj Hr Hc Hb] Ha Hdom.
  assert (addrs (a :: L) = addrs L) as E by (unfold addrs; simpl; set_solver).
  rewrite E in *. split; simpl; congruence || done.
Qed.

Lemma acc_free h pool L H0 a rp :
  accounts h pool (a :: L) H0 -> a ∉ L ->
  (release_count_ pool + 1 <= reserve_count_ pool)%Z /\
  accounts (delete a h) (mkPool (reserve_count_ pool) (u64 (release_count_ pool + 1)) rp) L H0.
Proof.
  intros [Hd Hj Hr Hc Hb] Ha. unfold addrs in Hd, Hj, Hc. simpl in Hd, Hj, Hc.
  rewrite size_union, size_singleton in Hc by set_solver. split; [lia|].
  split; simpl; unfold addrs; [| |rewrite ?u64_small by lia; lia..].
  - rewrite dom_delete_L, Hd. set_solver.
  - set_solver.
Qed.

Lemma acc_clean h pool L H0 : accounts h pool L H0 -> is_clean pool = true <-> L = [].
Proof.
  intros [Hd _ _ Hc _]. unfold is_clean. rewrite Z.eqb_eq. split.
  - intros E. destruct L as [|a L]; [done|]. unfold addrs in Hc. simpl in Hc.
    assert (size ({[a]} ∪ list_to_set L : gset nat) <> 0) as Hne; [|lia].
    intros Hs%size_empty_inv. set_solver.
  - intros ->. assert (size (addrs []) = 0) as E by apply size_empty. lia.
Qed.

Lemma accounts_perm h pool L L' H0 : L ≡ₚ L' -> accounts h pool L H0 -> accounts h pool L' H0.
Proof.
  intros HL [Hd Hj Hr Hc Hb].
  assert (addrs L' = addrs L) as E by (apply set_eq; intros x; unfold addrs;
    rewrite !elem_of_list_to_set; by rewrite HL).
  split; rewrite ?E; done.
Qed.

Lemma accounts_new h : accounts h PayloadPool_new [] (dom h).
Proof.
  assert (size (addrs []) = 0) as E by apply size_empty.
  split; cbn [PayloadPool_new reserve_count_ release_count_]; rewrite ?E; try done;
    unfold addrs; set_solver.
Qed.

(** With a bound on the references no counter wraps around. *)
Lemma count_bounds L a :
  a ∈ L -> (Z.of_nat (length L) < 2 ^ 32)%Z ->
  (0 < Z.of_nat (count_occ Nat.eq_dec L a) < 2 ^ 32)%Z.
Proof.
  intros Ha%list_elem_of_In Hl. apply (count_occ_In Nat.eq_dec) in Ha.
  pose proof (count_occ_bound Nat.eq_dec a L). lia.
Qed.

Lemma add_reserved_run s :
  add_reserved_payload_ s = (Ok tt, mkP (p_heap s)
    (mkPool (u64 (reserve_count_ (p_pool s) + 1)) (release_count_ (p_pool s))
       (reserved_payloads_ (p_pool s))) (p_target s)).
Proof. done. Qed.

Lemma add_release_run s :
  (0 <= release_count_ (p_pool s))%Z ->
  (release_count_ (p_pool s) + 1 <= reserve_count_ (p_pool s) < 2 ^ 64)%Z ->
  add_release_payload_ s = (Ok tt, mkP (p_heap s)
    (mkPool (reserve_count_ (p_pool s)) (u64 (release_count_ (p_pool s) + 1))
       (reserved_payloads_ (p_pool s))) (p_target s)).
Proof.
  intros H0 H. unfold add_release_payload_, mbind, prog_bind, get, set_pool, modify. simpl.
  rewrite u64_small by lia. destruct (_ >? _)%Z eqn:E; [|done]. apply Z.gtb_lt in E. lia.
Qed.

End Accounts.

(** The copy made when the data is not from the pool: [s1] is the state after a
    block [a] of the right size was reserved. *)
Lemma copy_in (h : heap) s1 a b src :
  h !! a = None -> bytes_kept h (p_heap s1) -> p_heap s1 !! a = Some b ->
  Z.of_nat (length (bytes b)) = payload_max_size src -> valid_payload h src ->
  exists bs, memcpy (Some a) (payload_data src) (payload_length src) s1 =
      (Ok tt, mkP (<[a := mkBlock (meta b) bs]> (p_heap s1)) (p_pool s1) (p_target s1)) /\
    length bs = length (bytes b) /\
    bytes_kept h (<[a := mkBlock (meta b) bs]> (p_heap s1)) /\
    Some (take (Z.to_nat (payload_length src)) bs) = contents h src.
Proof.
  intros Hfresh Hkept Hb Hlen (c & bc & Hc & Hhc & Hmax & Hlb).
  destruct (Hkept _ _ Hhc) as (bc' & Hc' & Ebytes).
  exists (take (Z.to_nat (payload_length src)) (bytes bc') ++
          drop (Z.to_nat (payload_length src)) (bytes b)).
  split_and!.
  - unfold memcpy, set_heap. run_prog. rewrite Hc, Hb, Hc', Ebytes.
    rewrite (proj2 (Z.leb_le _ _)) by lia. by rewrite (proj2 (Z.leb_le _ _)) by lia.
  - rewrite length_app, length_take, length_drop, Ebytes. lia.
  - intros a' b' Ha'. destruct (Hkept _ _ Ha') as (b'' & ? & ?). exists b''.
    rewrite lookup_insert_ne by congruence. done.
  - unfold contents. rewrite Hc. cbn [mbind option_bind]. rewrite Hhc. cbn [mbind option_bind].
    f_equal. rewrite take_app_le; rewrite ?length_take, ?Ebytes; [|lia].
    rewrite take_take. f_equal. lia.
Qed.

(** The result of [copy_in] is a valid payload with the message of the source. *)
Lemma copy_in_valid (h2 : heap) a m bs src pos :
  h2 !! a = Some (mkBlock m bs) -> Z.of_nat (length bs) = payload_max_size src ->
  (0 <= payload_length src <= payload_max_size src)%Z ->
  valid_payload h2 (mkPayload (Some a) (payload_length src) (payload_max_size src) pos) /\
  contents h2 (mkPayload (Some a) (payload_length src) (payload_max_size src) pos) =
    Some (take (Z.to_nat (payload_length src)) bs).
Proof.
  intros Ha Hl Hb. split; [by exists a, (mkBlock m bs)|].
  unfold contents. simpl. by rewrite Ha.
Qed.

(** ** FastPayloadPool keeps the promise *)
Module FastPayloadPoolSpec.
Import FastPayloadPool.
Section FastPayloadPoolSpec.
Context {MA : Malloc} {ML : MallocLaws} (this : nat).

(** The counter in front of a block is the number of payloads that refer to it. *)
Definition fast_refs (h : heap) (pool : PayloadPool) (L : list nat) : Prop :=
  forall a, a ∈ L ->
    exists bs, h !! a = Some (mkBlock (Some (Z.of_nat (count_occ Nat.eq_dec L a))) bs).

Lemma fast_refs_alloc h pool pool' L H0 a bs :
  accounts h pool L H0 -> fast_refs h pool L -> h !! a = None ->
  fast_refs (<[a := mkBlock (Some 1%Z) bs]> h) pool' (a :: L).
Proof.
  intros Hacc Hr Ha a' Ha'.
  assert (a ∉ L) as Hna.
  { intros Hin. destruct (acc_owned _ _ _ _ _ Hacc Hin). congruence. }
  destruct (decide (a = a')) as [<-|Hne].
  - rewrite lookup_insert_eq. rewrite count_occ_cons_eq by done.
    rewrite (proj1 (count_occ_not_In Nat.eq_dec L a)) by (by rewrite <- list_elem_of_In). by exists bs.
  - rewrite lookup_insert_ne, count_occ_cons_neq by done. apply Hr. set_solver.
Qed.

Lemma fast_refs_update h pool pool' L L' a bs n :
  fast_refs h pool L -> (forall a', a' ∈ L' -> a' = a \/ a' ∈ L) ->
  (forall a', a' <> a -> count_occ Nat.eq_dec L' a' = count_occ Nat.eq_dec L a') ->
  n = Z.of_nat (count_occ Nat.eq_dec L' a) ->
  fast_refs (<[a := mkBlock (Some n) bs]> h) pool' L'.
Proof.
  intros Hr Hsub Hcnt -> a' Ha'. destruct (decide (a = a')) as [<-|Hne].
  - rewrite lookup_insert_eq. eauto.
  - rewrite lookup_insert_ne, Hcnt by done. apply Hr. destruct (Hsub _ Ha'); congruence.
Qed.

Lemma fast_spec_get size s L H0 :
  accounts (p_heap s) (p_pool s) L H0 -> fast_refs (p_heap s) (p_pool s) L ->
  not_initialized (p_target s) -> (0 < size)%Z -> (reserve_count_ (p_pool s) + 1 < 2 ^ 64)%Z ->
  exists a s', fast_get_payload size s = (Ok true, s') /\
    accounts (p_heap s') (p_pool s') (a :: L) H0 /\ fast_refs (p_heap s') (p_pool s') (a :: L) /\
    p_heap s !! a = None /\ bytes_kept (p_heap s) (p_heap s') /\
    (exists b, p_heap s' !! a = Some b /\ Z.of_nat (length (bytes b)) = size) /\
    p_target s' = mkPayload (Some a) (payload_length (p_target s)) size (payload_pos (p_target s)).
Proof.
  intros Hacc Hr _ Hpos Hmax. set (a := malloc (p_heap s) size).
  assert (p_heap s !! a = None) as Ha by apply malloc_fresh.
  exists a. eexists. split; [|split_and!].
  - unfold fast_get_payload, reserve_, set_heap, set_target. run_prog.
    rewrite (proj2 (Z.eqb_neq size 0)) by lia. run_prog. rewrite add_reserved_run. reflexivity.
  - by apply acc_alloc.
  - by eapply fast_refs_alloc.
  - done.
  - intros a' b' Ha'. exists b'. simpl. rewrite lookup_insert_ne by congruence. done.
  - simpl. rewrite lookup_insert_eq. eexists. split; [done|]. simpl.
    unfold uninitialized. rewrite length_replicate. lia.
  - done.
Qed.

Lemma read_refs_run a r bs s :
  p_heap s !! a = Some (mkBlock (Some r) bs) -> read_refs (Some a) s = (Ok r, s).
Proof. intros E. unfold read_refs. run_prog. by rewrite E. Qed.

Lemma write_refs_run a r r' bs s :
  p_heap s !! a = Some (mkBlock (Some r) bs) ->
  write_refs (Some a) r' s =
    (Ok tt, mkP (<[a := mkBlock (Some r') bs]> (p_heap s)) (p_pool s) (p_target s)).
Proof. intros E. unfold write_refs, set_heap. run_prog. by rewrite E. Qed.

Lemma bytes_kept_meta (h : heap) a m m' bs :
  h !! a = Some (mkBlock m bs) -> bytes_kept h (<[a := mkBlock m' bs]> h).
Proof.
  intros Ha a' b' Ha'. destruct (decide (a = a')) as [<-|]; [rewrite lookup_insert_eq|].
  - eexists. split; [done|]. by simplify_eq.
  - rewrite lookup_insert_ne by done. eauto.
Qed.

Lemma with_reserved_same pool : with_reserved (reserved_payloads_ pool) pool = pool.
Proof. by destruct pool. Qed.

Lemma fast_get_own src s a n bs :
  payload_data src = Some a ->
  p_heap s !! a = Some (mkBlock (Some n) bs) ->
  fast_get_payload_from this src (Some this) s =
    (Ok true, mkP (<[a := mkBlock (Some (u32 (n + 1))) bs]> (p_heap s)) (p_pool s)
      (mkPayload (Some a) (payload_length src) (payload_max_size src) (payload_pos (p_target s)))).
Proof.
  intros Hsrc Ha. unfold fast_get_payload_from. rewrite bool_decide_false by congruence.
  rewrite Hsrc. run_prog. rewrite (read_refs_run a n bs) by done.
  rewrite (write_refs_run a n (u32 (n + 1)) bs) by done. done.
Qed.

Lemma fast_spec_get_from src owner s L H0 :
  accounts (p_heap s) (p_pool s) L H0 -> fast_refs (p_heap s) (p_pool s) L ->
  not_initialized (p_target s) -> valid_payload (p_heap s) src ->
  (owner = Some this -> exists a, payload_data src = Some a /\ a ∈ L) ->
  (0 < payload_max_size src)%Z ->
  (reserve_count_ (p_pool s) + 1 < 2 ^ 64)%Z -> (Z.of_nat (length L) + 1 < 2 ^ 32)%Z ->
  exists a s', fast_get_payload_from this src owner s = (Ok true, s') /\
    accounts (p_heap s') (p_pool s') (a :: L) H0 /\ fast_refs (p_heap s') (p_pool s') (a :: L) /\
    payload_data (p_target s') = Some a /\ payload_max_size (p_target s') = payload_max_size src /\
    valid_payload (p_heap s') (p_target s') /\ bytes_kept (p_heap s) (p_heap s') /\
    contents (p_heap s') (p_target s') = contents (p_heap s) src.
Proof.
  intros Hacc Hr Hni Hv Hown Hpos Hmax HL.
  destruct (decide (owner = Some this)) as [->|Howner].
  - destruct (Hown eq_refl) as (a & Hsrc & Ha). destruct (Hr a Ha) as (bs & Hbs).
    pose proof (count_bounds L a Ha ltac:(lia)) as Hcnt.
    destruct Hv as (a' & b & Ha' & Hb & Hlen & Hrange).
    assert (a' = a) as -> by congruence. rewrite Hbs in Hb. injection Hb as <-.
    exists a. eexists. split; [by apply fast_get_own|]. simpl. split_and!.
    + rewrite <- (with_reserved_same (p_pool s)). eapply acc_share; [done|done|].
      apply dom_insert_lookup_L. by rewrite Hbs.
    + eapply fast_refs_update; [done|set_solver|intros; by apply count_occ_cons_neq|].
      rewrite count_occ_cons_eq by done. rewrite u32_small; [lia|].
      pose proof (count_occ_bound Nat.eq_dec a L). lia.
    + done.
    + done.
    + eapply copy_in_valid; [apply lookup_insert_eq|done|done].
    + by eapply bytes_kept_meta.
    + unfold contents. simpl. rewrite lookup_insert_eq, Hsrc. simpl. by rewrite Hbs.
  - destruct (fast_spec_get (payload_max_size src) s L H0)
      as (a & s1 & Hrun & Hacc1 & Hr1 & Hfresh & Hkept & (b & Hb & Hlen) & Ht); try done.
    destruct (copy_in (p_heap s) s1 a b src) as (bs & Hcpy & Hlbs & Hk2 & Hcont); try done.
    assert (exists n, meta b = Some n /\ n = Z.of_nat (count_occ Nat.eq_dec (a :: L) a)) as (n & Hm & Hn).
    { destruct (Hr1 a) as (bs' & E); [set_solver|]. simplify_eq. eauto. }
    destruct Hv as (a' & b' & Ha' & Hb' & Hlen' & Hrange).
    exists a. eexists. split.
    { unfold fast_get_payload_from. rewrite bool_decide_true by done. run_prog. rewrite Hrun.
      simpl. rewrite Ht at 1. simpl. rewrite Hcpy. unfold set_target. run_prog. reflexivity. }
    simpl. rewrite Ht. unfold with_length. simpl. split_and!.
    + destruct Hacc1 as [Hd ? ? ? ?]. split; try done. rewrite <- Hd. apply dom_insert_lookup_L.
      by rewrite Hb.
    + rewrite Hm. eapply fast_refs_update; [exact Hr1|by right|done|done].
    + done.
    + done.
    + eapply copy_in_valid; [apply lookup_insert_eq|lia|done].
    + done.
    + rewrite <- Hcont. eapply copy_in_valid; [apply lookup_insert_eq|lia|done].
Qed.

(** What the two halves of [release_payload] do. *)
Lemma decrement_refs_run a r bs s :
  p_heap s !! a = Some (mkBlock (Some r) bs) ->
  decrement_refs (Some a) s =
    (Ok tt, mkP (<[a := mkBlock (Some (u32 (r - 1))) bs]> (p_heap s)) (p_pool s) (p_target s)).
Proof.
  intros Ha. unfold decrement_refs. run_prog. rewrite (read_refs_run a r bs) by done.
  by apply (write_refs_run a r (u32 (r - 1)) bs).
Qed.

Lemma release_if_last_shared a r bs s :
  payload_data (p_target s) = Some a -> p_heap s !! a = Some (mkBlock (Some r) bs) ->
  r <> 0%Z -> release_if_last s = (Ok tt, s).
Proof.
  intros Ht Ha Hr. unfold release_if_last. run_prog. rewrite Ht.
  rewrite (read_refs_run a r bs) by done. by rewrite (proj2 (Z.eqb_neq r 0)).
Qed.

Lemma release_if_last_free a bs s :
  payload_data (p_target s) = Some a -> p_heap s !! a = Some (mkBlock (Some 0%Z) bs) ->
  (0 <= release_count_ (p_pool s))%Z ->
  (release_count_ (p_pool s) + 1 <= reserve_count_ (p_pool s) < 2 ^ 64)%Z ->
  release_if_last s = (Ok tt, mkP (delete a (p_heap s))
    (mkPool (reserve_count_ (p_pool s)) (u64 (release_count_ (p_pool s) + 1))
      (reserved_payloads_ (p_pool s))) Payload_empty).
Proof.
  intros Ht Ha H0 Hc. unfold release_if_last. run_prog. rewrite Ht.
  rewrite (read_refs_run a 0 bs) by done. cbn [Z.eqb].
  unfold release_, free, reset_target, set_heap, set_target. run_prog. rewrite Ht, Ha. run_prog.
  rewrite add_release_run by done. done.
Qed.

Lemma fast_get_from_count src owner s :
  (0 <= reserve_count_ (p_pool s))%Z ->
  (0 <= reserve_count_ (p_pool (exec (fast_get_payload_from this src owner) s)) <= reserve_count_ (p_pool s) + 1)%Z.
Proof.
  intros Hc. unfold exec, fast_get_payload_from, fast_get_payload, reserve_, memcpy, read_refs, write_refs,
    add_reserved_payload_, set_heap, set_target, set_pool. count_cases Hc.
Qed.

(** No release changes the number of payloads reserved. *)
Lemma fast_release_reserved s r s' :
  fast_release_payload s = (r, s') -> reserve_count_ (p_pool s') = reserve_count_ (p_pool s).
Proof.
  unfold fast_release_payload, decrement_refs, release_if_last, release_, free, read_refs, write_refs,
    reset_target, add_release_payload_, set_heap, set_target, set_pool. run_prog.
  repeat (case_match; simplify_eq; simpl in *); intros; simplify_eq; done.
Qed.

Lemma fast_refs_release h pool pool' L a bs :
  fast_refs h pool (a :: L) -> a ∈ L ->
  fast_refs (<[a := mkBlock (Some (Z.of_nat (count_occ Nat.eq_dec L a))) bs]> h) pool' L.
Proof.
  intros Hr Ha. eapply fast_refs_update; [exact Hr|set_solver| |done].
  intros a' Hne. by rewrite count_occ_cons_neq.
Qed.

Lemma fast_spec_release a s L H0 :
  accounts (p_heap s) (p_pool s) (a :: L) H0 -> fast_refs (p_heap s) (p_pool s) (a :: L) ->
  (Z.of_nat (length (a :: L)) < 2 ^ 32)%Z -> payload_data (p_target s) = Some a ->
  exists s', fast_release_payload s = (Ok true, s') /\
    accounts (p_heap s') (p_pool s') L H0 /\ fast_refs (p_heap s') (p_pool s') L /\
    bytes_kept (p_heap s') (p_heap s) /\ payload_data (p_target s') = None.
Proof.
  intros Hacc Hr HL Ht. destruct (Hr a) as (bs & Ha); [set_solver|].
  rewrite count_occ_cons_eq in Ha by done.
  pose proof (count_occ_bound Nat.eq_dec a L) as Hbound. simpl in HL.
  unfold fast_release_payload. run_prog. rewrite Ht, (decrement_refs_run a _ bs) by done.
  rewrite u32_small by lia. replace (Z.of_nat (S _) - 1)%Z with (Z.of_nat (count_occ Nat.eq_dec L a)) by lia.
  set (h1 := <[a := _]> (p_heap s)).
  assert (h1 !! a = Some (mkBlock (Some (Z.of_nat (count_occ Nat.eq_dec L a))) bs)) as Ha1
    by apply lookup_insert_eq.
  assert (bytes_kept h1 (p_heap s)) as Hk.
  { replace (p_heap s) with (<[a := mkBlock (Some (Z.of_nat (S (count_occ Nat.eq_dec L a)))) bs]> h1);
      [by eapply bytes_kept_meta|]. unfold h1. rewrite insert_insert_eq. by apply insert_id. }
  destruct (decide (a ∈ L)) as [Hin|Hnin].
  - pose proof (count_bounds L a Hin ltac:(lia)).
    rewrite (release_if_last_shared a _ bs) by (simpl; done || lia).
    eexists. split; [reflexivity|]. simpl. split_and!; try done.
    + rewrite <- (with_reserved_same (p_pool s)). eapply acc_unshare; [done|done|].
      apply dom_insert_lookup_L. by rewrite Ha.
    + by eapply fast_refs_release.
  - assert (count_occ Nat.eq_dec L a = 0) as Hz
      by (apply count_occ_not_In; by rewrite <- list_elem_of_In).
    rewrite Hz in Ha1. destruct (acc_free _ _ _ _ _ (reserved_payloads_ (p_pool s)) Hacc Hnin) as [Hle Hacc'].
    destruct Hacc as [_ _ Hrel _ Hb].
    rewrite (release_if_last_free a bs) by (simpl; done || lia).
    eexists. split; [reflexivity|]. simpl.
    assert (delete a h1 = delete a (p_heap s)) as -> by (unfold h1; by rewrite delete_insert_eq).
    split_and!; try done.
    + intros a' Ha'. rewrite lookup_delete_ne by congruence.
      destruct (Hr a') as (bs' & Hbs'); [set_solver|]. exists bs'.
      rewrite Hbs', count_occ_cons_neq by congruence. done.
    + intros a' b' Hb'. exists b'. by apply lookup_delete_Some in Hb' as [_ ?].
Qed.

#[export] Instance fast_pool_spec : PoolSpec (PM := methods this) this.
Proof.
  refine {| refs_inv := fast_refs |}.
  - intros h pool L L' HL Hr a Ha. rewrite <- HL in Ha. destruct (Hr a Ha) as (bs & E).
    exists bs. by rewrite <- (proj1 (Permutation_count_occ Nat.eq_dec L L') HL a).
  - intros h a Ha. set_solver.
  - apply fast_spec_get.
  - apply fast_spec_get_from.
  - apply fast_spec_release.
  - apply fast_get_from_count.
  - intros s. unfold exec. by destruct (release_payload s) as [r s'] eqn:E; apply fast_release_reserved in E.
Defined.

End FastPayloadPoolSpec.
End FastPayloadPoolSpec.

(** ** The pools built on the base class *)

Section BaseRuns.
Context {SP : SerializedPayload} {SL : SerializedPayloadLaws}.

Lemma reserve_run size s :
  not_initialized (p_target s) -> (0 < size)%Z ->
  exists a bs, p_heap s !! a = None /\ Z.of_nat (length bs) = size /\
    reserve_ size s = (Ok true, mkP (<[a := mkBlock None bs]> (p_heap s))
      (mkPool (u64 (reserve_count_ (p_pool s) + 1)) (release_count_ (p_pool s))
        (reserved_payloads_ (p_pool s)))
      (mkPayload (Some a) (payload_length (p_target s)) size (payload_pos (p_target s)))).
Proof.
  intros [Hd Hm] Hpos.
  destruct (payload_reserve_spec size (p_heap s) (p_target s)) as (a & bs & Ha & Hl & Hrun); try done.
  exists a, bs. split_and!; [done|lia|]. unfold reserve_, set_heap, set_target. run_prog.
  rewrite (proj2 (Z.eqb_neq size 0)) by lia. rewrite Hrun. run_prog. by rewrite add_reserved_run.
Qed.

Lemma release_run a s :
  payload_data (p_target s) = Some a -> is_Some (p_heap s !! a) ->
  (0 <= release_count_ (p_pool s))%Z ->
  (release_count_ (p_pool s) + 1 <= reserve_count_ (p_pool s) < 2 ^ 64)%Z ->
  exists pos, release_ s = (Ok true, mkP (delete a (p_heap s))
    (mkPool (reserve_count_ (p_pool s)) (u64 (release_count_ (p_pool s) + 1))
      (reserved_payloads_ (p_pool s))) (mkPayload None 0 0 pos)).
Proof.
  intros Ht Ha H0 Hc. destruct (payload_empty_some _ _ _ Ht Ha) as (pos & Hrun).
  exists pos. unfold release_, set_heap, set_target. run_prog. rewrite Hrun. run_prog.
  cbn [payload_data]. by rewrite add_release_run.
Qed.

Lemma bytes_kept_alloc (h : heap) a b : h !! a = None -> bytes_kept h (<[a := b]> h).
Proof. intros Ha a' b' Ha'. exists b'. rewrite lookup_insert_ne by congruence. done. Qed.

Lemma bytes_kept_delete (h : heap) a : bytes_kept (delete a h) h.
Proof. intros a' b' Hb'. exists b'. by apply lookup_delete_Some in Hb' as [_ ?]. Qed.

Lemma accounts_bytes h pool L H0 a b b' :
  accounts h pool L H0 -> h !! a = Some b -> accounts (<[a := b']> h) pool L H0.
Proof.
  intros [Hd ? ? ? ?] Ha. split; try done. rewrite <- Hd. apply dom_insert_lookup_L. by rewrite Ha.
Qed.

End BaseRuns.

Module MapPayloadPoolSpec.
Import MapPayloadPool.
Section MapPayloadPoolSpec.
Context {SP : SerializedPayload} {SL : SerializedPayloadLaws} (this : nat).

(** The map has the number of payloads that refer to each address. *)
Definition map_refs (h : heap) (pool : PayloadPool) (L : list nat) : Prop :=
  map_wf (reserved_payloads_ pool) /\ find 0 (reserved_payloads_ pool) = None /\
  forall a, find (S a) (reserved_payloads_ pool) =
    if decide (a ∈ L) then Some (Z.of_nat (count_occ Nat.eq_dec L a)) else None.

Lemma key_keqv (a b : nat) : keqv (S a) (S b) = bool_decide (a = b).
Proof.
  destruct (keqv (S a) (S b)) eqn:E.
  - apply nat_keqv in E. rewrite bool_decide_true; [done|lia].
  - rewrite bool_decide_false; [done|]. intros ->. by rewrite keqv_refl in E.
Qed.

Lemma map_refs_assign h h' pool pool' L L' a n :
  map_refs h pool L -> reserved_payloads_ pool' = assign (S a) n (reserved_payloads_ pool) ->
  a ∈ L' -> n = Z.of_nat (count_occ Nat.eq_dec L' a) ->
  (forall a', a' <> a -> a' ∈ L' <-> a' ∈ L) ->
  (forall a', a' <> a -> count_occ Nat.eq_dec L' a' = count_occ Nat.eq_dec L a') ->
  map_refs h' pool' L'.
Proof.
  intros (Hwf & H0 & Hf) E' Ha -> Hin Hcnt. unfold map_refs. rewrite E'.
  split_and!; [by apply map_wf_assign| |].
  - rewrite find_assign. by destruct (keqv 0 (S a)) eqn:E; [apply nat_keqv in E|].
  - intros a'. rewrite find_assign, key_keqv. case_bool_decide as E.
    + subst a'. by rewrite decide_True.
    + rewrite Hf, Hcnt by done. destruct (decide (a' ∈ L)), (decide (a' ∈ L')); naive_solver.
Qed.

Lemma map_spec_get size s L H0 :
  accounts (p_heap s) (p_pool s) L H0 -> map_refs (p_heap s) (p_pool s) L ->
  not_initialized (p_target s) -> (0 < size)%Z -> (reserve_count_ (p_pool s) + 1 < 2 ^ 64)%Z ->
  exists a s', map_get_payload size s = (Ok true, s') /\
    accounts (p_heap s') (p_pool s') (a :: L) H0 /\ map_refs (p_heap s') (p_pool s') (a :: L) /\
    p_heap s !! a = None /\ bytes_kept (p_heap s) (p_heap s') /\
    (exists b, p_heap s' !! a = Some b /\ Z.of_nat (length (bytes b)) = size) /\
    p_target s' = mkPayload (Some a) (payload_length (p_target s)) size (payload_pos (p_target s)).
Proof.
  intros Hacc Hr Hni Hpos Hmax. destruct (reserve_run size s Hni Hpos) as (a & bs & Ha & Hl & Hrun).
  assert (a ∉ L) as Hna.
  { intros Hin. destruct (acc_owned _ _ _ _ _ Hacc Hin). congruence. }
  exists a. eexists. split.
  { unfold map_get_payload, set_target, set_pool. run_prog. rewrite Hrun. reflexivity. }
  unfold with_reserved. simpl. split_and!; try done.
  - by apply (acc_alloc _ _ _ _ _ _ (assign (S a) 1%Z (reserved_payloads_ (p_pool s)))).
  - eapply (map_refs_assign _ _ _ _ L (a :: L) a 1); [exact Hr|done|set_solver| | |].
    + rewrite count_occ_cons_eq by done.
      by rewrite (proj1 (count_occ_not_In Nat.eq_dec L a)) by (by rewrite <- list_elem_of_In).
    + set_solver.
    + intros; by apply count_occ_cons_neq.
  - by apply bytes_kept_alloc.
  - rewrite lookup_insert_eq. eauto.
Qed.

Lemma map_get_own src s a n :
  payload_data src = Some a -> find (S a) (reserved_payloads_ (p_pool s)) = Some n ->
  map_get_payload_from this src (Some this) s =
    (Ok true, mkP (p_heap s)
      (with_reserved (assign (S a) (u32 (n + 1)) (reserved_payloads_ (p_pool s))) (p_pool s))
      (mkPayload (Some a) (payload_length src) (payload_max_size src) (payload_pos (p_target s)))).
Proof.
  intros Hsrc Hf. unfold map_get_payload_from. rewrite bool_decide_false by congruence.
  unfold set_pool, set_target. run_prog. rewrite Hsrc. simpl. rewrite Hf. run_prog.
  unfold update. by rewrite Hf.
Qed.

Lemma map_spec_get_from src owner s L H0 :
  accounts (p_heap s) (p_pool s) L H0 -> map_refs (p_heap s) (p_pool s) L ->
  not_initialized (p_target s) -> valid_payload (p_heap s) src ->
  (owner = Some this -> exists a, payload_data src = Some a /\ a ∈ L) ->
  (0 < payload_max_size src)%Z ->
  (reserve_count_ (p_pool s) + 1 < 2 ^ 64)%Z -> (Z.of_nat (length L) + 1 < 2 ^ 32)%Z ->
  exists a s', map_get_payload_from this src owner s = (Ok true, s') /\
    accounts (p_heap s') (p_pool s') (a :: L) H0 /\ map_refs (p_heap s') (p_pool s') (a :: L) /\
    payload_data (p_target s') = Some a /\ payload_max_size (p_target s') = payload_max_size src /\
    valid_payload (p_heap s') (p_target s') /\ bytes_kept (p_heap s) (p_heap s') /\
    contents (p_heap s') (p_target s') = contents (p_heap s) src.
Proof.
  intros Hacc Hr Hni Hv Hown Hpos Hmax HL.
  destruct (decide (owner = Some this)) as [->|Howner].
  - destruct (Hown eq_refl) as (a & Hsrc & Ha).
    pose proof (count_bounds L a Ha ltac:(lia)) as Hcnt.
    destruct Hr as (Hwf & Hz & Hf). pose proof (Hf a) as Hfa. rewrite decide_True in Hfa by done.
    exists a. eexists. split; [by apply map_get_own|]. simpl. split_and!; try done.
    + by eapply acc_share.
    + eapply (map_refs_assign (p_heap s) _ _ _ L (a :: L) a); [by split_and!|done|set_solver| |set_solver|].
      * rewrite count_occ_cons_eq by done. rewrite u32_small; [lia|].
        pose proof (count_occ_bound Nat.eq_dec a L). lia.
      * intros; by apply count_occ_cons_neq.
    + destruct Hv as (a' & b & Ha' & Hb & Hlen & Hrange). exists a, b.
      assert (a' = a) as -> by congruence. done.
    + intros a' b' Hb'. eauto.
    + unfold contents. by rewrite Hsrc.
  - destruct (map_spec_get (payload_max_size src) s L H0)
      as (a & s1 & Hrun & Hacc1 & Hr1 & Hfresh & Hkept & (b & Hb & Hlen) & Ht); try done.
    destruct (copy_in (p_heap s) s1 a b src) as (bs & Hcpy & Hlbs & Hk2 & Hcont); try done.
    destruct Hv as (a' & b' & Ha' & Hb' & Hlen' & Hrange).
    exists a. eexists. split.
    { unfold map_get_payload_from. rewrite bool_decide_true by done. run_prog. rewrite Hrun.
      simpl. rewrite Ht at 1. simpl. rewrite Hcpy. unfold set_target. run_prog. reflexivity. }
    simpl. rewrite Ht. unfold with_length. simpl. split_and!; try done.
    + by eapply accounts_bytes.
    + eapply copy_in_valid; [apply lookup_insert_eq|lia|done].
    + rewrite <- Hcont. eapply copy_in_valid; [apply lookup_insert_eq|lia|done].
Qed.

Lemma map_spec_release a s L H0 :
  accounts (p_heap s) (p_pool s) (a :: L) H0 -> map_refs (p_heap s) (p_pool s) (a :: L) ->
  (Z.of_nat (length (a :: L)) < 2 ^ 32)%Z -> payload_data (p_target s) = Some a ->
  exists s', map_release_payload s = (Ok true, s') /\
    accounts (p_heap s') (p_pool s') L H0 /\ map_refs (p_heap s') (p_pool s') L /\
    bytes_kept (p_heap s') (p_heap s) /\ payload_data (p_target s') = None.
Proof.
  intros Hacc Hr HL Ht. destruct Hr as (Hwf & Hz & Hf). pose proof (Hf a) as Hfa.
  rewrite decide_True in Hfa by set_solver. rewrite count_occ_cons_eq in Hfa by done.
  pose proof (count_occ_bound Nat.eq_dec a L) as Hbound. simpl in HL.
  unfold map_release_payload, set_pool. run_prog. rewrite Ht. cbn [key]. rewrite Hfa. run_prog.
  rewrite u32_small by lia. replace (Z.of_nat (S _) - 1)%Z with (Z.of_nat (count_occ Nat.eq_dec L a)) by lia.
  destruct (decide (a ∈ L)) as [Hin|Hnin].
  - pose proof (count_bounds L a Hin ltac:(lia)). rewrite (proj2 (Z.eqb_neq _ 0)) by lia.
    eexists. split; [reflexivity|]. simpl. split_and!; try done.
    + by eapply acc_unshare.
    + eapply (map_refs_assign (p_heap s) _ _ _ (a :: L) L a); [by split_and!|done..|set_solver|].
      intros a' Hne. by rewrite count_occ_cons_neq.
    + intros a' b' Hb'. eauto.
  - assert (count_occ Nat.eq_dec L a = 0) as Hc0
      by (apply count_occ_not_In; by rewrite <- list_elem_of_In).
    rewrite Hc0. change (Z.of_nat 0) with 0%Z. cbn [Z.eqb].
    destruct (acc_free _ _ _ _ _ (erase (S a) (assign (S a) 0%Z (reserved_payloads_ (p_pool s)))) Hacc Hnin) as [Hle Hacc'].
    destruct (release_run a (mkP (p_heap s) (with_reserved (assign (S a) 0%Z (reserved_payloads_ (p_pool s)))
      (p_pool s)) (p_target s))) as (pos & Hrun); try done.
    { eapply acc_owned; [exact Hacc|set_solver]. }
    { apply (acc_release _ _ _ _ Hacc). }
    { simpl. destruct Hacc. lia. }
    rewrite Hrun. simpl. eexists. split; [reflexivity|]. simpl. split_and!; try done.
    + split_and!; simpl; [by apply map_wf_erase, map_wf_assign| |].
      * rewrite find_erase by (by apply map_wf_assign). rewrite find_assign.
        by destruct (keqv 0 (S a)) eqn:E; [apply nat_keqv in E|].
      * intros a'. rewrite find_erase by (by apply map_wf_assign). rewrite find_assign, key_keqv.
        case_bool_decide as E; [subst a'; by rewrite decide_False|].
        rewrite Hf, count_occ_cons_neq by congruence.
        destruct (decide (a' ∈ a :: L)), (decide (a' ∈ L)); set_solver.
    + apply bytes_kept_delete.
Qed.

Lemma map_get_from_count src owner s :
  (0 <= reserve_count_ (p_pool s))%Z ->
  (0 <= reserve_count_ (p_pool (exec (map_get_payload_from this src owner) s)) <= reserve_count_ (p_pool s) + 1)%Z.
Proof.
  intros Hc. unfold exec, map_get_payload_from, map_get_payload, PayloadPool.reserve_, memcpy,
    add_reserved_payload_, set_heap, set_target, set_pool. count_cases Hc.
Qed.

Lemma map_release_count s :
  reserve_count_ (p_pool (exec map_release_payload s)) = reserve_count_ (p_pool s).
Proof.
  unfold exec, map_release_payload, PayloadPool.release_, add_release_payload_, set_heap, set_target, set_pool.
  count_cases I.
Qed.

#[export] Instance map_pool_spec : PoolSpec (PM := methods this) this.
Proof.
  refine {| refs_inv := map_refs |}.
  - intros h pool L L' HL (Hwf & Hz & Hf). split_and!; [done..|]. intros a. rewrite Hf.
    rewrite <- (proj1 (Permutation_count_occ Nat.eq_dec L L') HL a).
    destruct (decide (a ∈ L)) as [H|H], (decide (a ∈ L')) as [H'|H']; try done;
      rewrite HL in H; done.
  - intros h. by split_and!; [apply map_wf_nil|..].
  - apply map_spec_get.
  - apply map_spec_get_from.
  - apply map_spec_release.
  - apply map_get_from_count.
  - apply map_release_count.
Defined.

End MapPayloadPoolSpec.
End MapPayloadPoolSpec.

Module CopyPayloadPoolSpec.
Import CopyPayloadPool.
Section CopyPayloadPoolSpec.
Context {SP : SerializedPayload} {SL : SerializedPayloadLaws} (this : nat).

(** No two payloads share a block. *)
Definition copy_refs (h : heap) (pool : PayloadPool) (L : list nat) : Prop := NoDup L.

Lemma copy_spec_get size s L H0 :
  accounts (p_heap s) (p_pool s) L H0 -> copy_refs (p_heap s) (p_pool s) L ->
  not_initialized (p_target s) -> (0 < size)%Z -> (reserve_count_ (p_pool s) + 1 < 2 ^ 64)%Z ->
  exists a s', copy_get_payload size s = (Ok true, s') /\
    accounts (p_heap s') (p_pool s') (a :: L) H0 /\ copy_refs (p_heap s') (p_pool s') (a :: L) /\
    p_heap s !! a = None /\ bytes_kept (p_heap s) (p_heap s') /\
    (exists b, p_heap s' !! a = Some b /\ Z.of_nat (length (bytes b)) = size) /\
    p_target s' = mkPayload (Some a) (payload_length (p_target s)) size (payload_pos (p_target s)).
Proof.
  intros Hacc Hr Hni Hpos Hmax. destruct (reserve_run size s Hni Hpos) as (a & bs & Ha & Hl & Hrun).
  exists a. eexists. split.
  { unfold copy_get_payload, set_target. run_prog. rewrite Hrun. reflexivity. }
  simpl. split_and!; try done.
  - by apply acc_alloc.
  - apply NoDup_cons. split; [|done]. intros Hin.
    destruct (acc_owned _ _ _ _ _ Hacc Hin). congruence.
  - by apply bytes_kept_alloc.
  - rewrite lookup_insert_eq. eauto.
Qed.

Lemma copy_spec_get_from src owner s L H0 :
  accounts (p_heap s) (p_pool s) L H0 -> copy_refs (p_heap s) (p_pool s) L ->
  not_initialized (p_target s) -> valid_payload (p_heap s) src ->
  (0 < payload_max_size src)%Z -> (reserve_count_ (p_pool s) + 1 < 2 ^ 64)%Z ->
  exists a s', copy_get_payload_from src owner s = (Ok true, s') /\
    accounts (p_heap s') (p_pool s') (a :: L) H0 /\ copy_refs (p_heap s') (p_pool s') (a :: L) /\
    payload_data (p_target s') = Some a /\ payload_max_size (p_target s') = payload_max_size src /\
    valid_payload (p_heap s') (p_target s') /\ bytes_kept (p_heap s) (p_heap s') /\
    contents (p_heap s') (p_target s') = contents (p_heap s) src.
Proof.
  intros Hacc Hr Hni Hv Hpos Hmax.
  destruct (copy_spec_get (payload_max_size src) s L H0)
    as (a & s1 & Hrun & Hacc1 & Hr1 & Hfresh & Hkept & (b & Hb & Hlen) & Ht); try done.
  destruct (copy_in (p_heap s) s1 a b src) as (bs & Hcpy & Hlbs & Hk2 & Hcont); try done.
  destruct Hv as (a' & b' & Ha' & Hb' & Hlen' & Hrange).
  exists a. eexists. split.
  { unfold copy_get_payload_from. run_prog. rewrite Hrun.
    simpl. rewrite Ht at 1. simpl. rewrite Hcpy. unfold set_target. run_prog. reflexivity. }
  simpl. rewrite Ht. simpl. split_and!; try done.
  - by eapply accounts_bytes.
  - eapply copy_in_valid; [apply lookup_insert_eq|lia|done].
  - rewrite <- Hcont. eapply copy_in_valid; [apply lookup_insert_eq|lia|done].
Qed.

Lemma copy_spec_release a s L H0 :
  accounts (p_heap s) (p_pool s) (a :: L) H0 -> copy_refs (p_heap s) (p_pool s) (a :: L) ->
  payload_data (p_target s) = Some a ->
  exists s', copy_release_payload s = (Ok true, s') /\
    accounts (p_heap s') (p_pool s') L H0 /\ copy_refs (p_heap s') (p_pool s') L /\
    bytes_kept (p_heap s') (p_heap s) /\ payload_data (p_target s') = None.
Proof.
  intros Hacc [Hnin Hnd]%NoDup_cons Ht.
  destruct (acc_free _ _ _ _ _ (reserved_payloads_ (p_pool s)) Hacc Hnin) as [Hle Hacc'].
  destruct (release_run a s) as (pos & Hrun); try done.
  { eapply acc_owned; [exact Hacc|set_solver]. }
  { apply (acc_release _ _ _ _ Hacc). }
  { destruct Hacc. lia. }
  eexists. split; [exact Hrun|]. simpl. split_and!; try done. apply bytes_kept_delete.
Qed.

Lemma copy_get_from_count src owner s :
  (0 <= reserve_count_ (p_pool s))%Z ->
  (0 <= reserve_count_ (p_pool (exec (copy_get_payload_from src owner) s)) <= reserve_count_ (p_pool s) + 1)%Z.
Proof.
  intros Hc. unfold exec, copy_get_payload_from, copy_get_payload, PayloadPool.reserve_, memcpy,
    add_reserved_payload_, set_heap, set_target, set_pool. count_cases Hc.
Qed.

Lemma copy_release_count s :
  reserve_count_ (p_pool (exec copy_release_payload s)) = reserve_count_ (p_pool s).
Proof.
  unfold exec, copy_release_payload, PayloadPool.release_, add_release_payload_, set_heap, set_target, set_pool.
  count_cases I.
Qed.

#[export] Instance copy_pool_spec : PoolSpec (PM := methods) this.
Proof.
  refine {| refs_inv := copy_refs |}.
  - intros h pool L L' HL Hr. unfold copy_refs in *. by rewrite <- HL.
  - intros h. apply NoDup_nil_2.
  - apply copy_spec_get.
  - intros. by apply copy_spec_get_from.
  - intros a **. by apply (copy_spec_release a).
  - apply copy_get_from_count.
  - apply copy_release_count.
Defined.

End CopyPayloadPoolSpec.
End CopyPayloadPoolSpec.

(** ** Clients of a pool

    The readers, tracks and writers of the router obtain payloads and release
    them through the interface; what follows holds for every pool that keeps the
    promise. *)
Section Clients.
Context {PM : PoolMethods} (this : nat) {PS : PoolSpec this}.

(** The heap, the pool and the payload objects obtained and not released. *)
Record world : Type := mkWorld { w_heap : heap; w_pool : PayloadPool; w_live : list Payload }.

Inductive call : Type :=
| call_get (size : Z)
| call_share (i : nat)
| call_import (src : Payload) (owner : option nat)
| call_release (i : nat).

Definition obtained (w : world) (r : outcome bool * pstate) : outcome bool * world :=
  (r.1, mkWorld (p_heap r.2) (p_pool r.2) (p_target r.2 :: w_live w)).

Definition run_call (c : call) (w : world) : outcome bool * world :=
  let on p := mkP (w_heap w) (w_pool w) p in
  match c with
  | call_get size => obtained w (get_payload size (on Payload_empty))
  | call_share i =>
      match w_live w !! i with
      | Some p => obtained w (get_payload_from p (Some this) (on Payload_empty))
      | None => (Ok false, w)
      end
  | call_import src owner => obtained w (get_payload_from src owner (on Payload_empty))
  | call_release i =>
      match w_live w !! i with
      | Some p =>
          let '(r, s) := release_payload (on p) in
          (r, mkWorld (p_heap s) (p_pool s) (delete i (w_live w)))
      | None => (Ok false, w)
      end
  end.

(** The preconditions of the interface, and room in the 64-bit and 32-bit
    counters. *)
Definition call_ok (w : world) (c : call) : Prop :=
  (reserve_count_ (w_pool w) + 1 < 2 ^ 64)%Z /\ (Z.of_nat (length (w_live w)) + 1 < 2 ^ 32)%Z /\
  match c with
  | call_get size => (0 < size)%Z
  | call_share i | call_release i => i < length (w_live w)
  | call_import src owner =>
      owner <> Some this /\ valid_payload (w_heap w) src /\ (0 < payload_max_size src)%Z
  end.

Definition pool_step (w w' : world) : Prop := exists c, call_ok w c /\ w' = (run_call c w).2.
Definition pool_reachable (h0 : heap) (w : world) : Prop :=
  rtc pool_step (mkWorld h0 PayloadPool_new []) w.

Definition live_addrs (w : world) : list nat := omap payload_data (w_live w).

Record world_inv (H0 : gset nat) (w : world) : Prop := {
  wi_acc : accounts (w_heap w) (w_pool w) (live_addrs w) H0;
  wi_refs : refs_inv (w_heap w) (w_pool w) (live_addrs w);
  wi_live : Forall (fun p => valid_payload (w_heap w) p /\ (0 < payload_max_size p)%Z) (w_live w)
}.

Lemma valid_kept h h' p : bytes_kept h h' -> valid_payload h p -> valid_payload h' p.
Proof.
  intros Hk (a & b & Ha & Hb & Hl & Hr). destruct (Hk _ _ Hb) as (b' & Hb' & E).
  exists a, b'. by rewrite E.
Qed.

Lemma contents_kept h h' p :
  bytes_kept h h' -> valid_payload h p -> contents h' p = contents h p.
Proof.
  intros Hk (a & b & Ha & Hb & _). destruct (Hk _ _ Hb) as (b' & Hb' & E).
  unfold contents. rewrite Ha. simpl. rewrite Hb, Hb'. simpl. by rewrite E.
Qed.

Lemma live_addr w i p :
  Forall (fun p => valid_payload (w_heap w) p /\ (0 < payload_max_size p)%Z) (w_live w) ->
  w_live w !! i = Some p ->
  exists a, payload_data p = Some a /\ a ∈ live_addrs w.
Proof.
  intros Hf Hi. apply list_elem_of_lookup_2 in Hi.
  rewrite Forall_forall in Hf. destruct (Hf _ Hi) as [(a & b & Ha & _) _].
  exists a. split; [done|]. apply list_elem_of_omap. eauto.
Qed.

Lemma live_addrs_length w : length (live_addrs w) <= length (w_live w).
Proof.
  unfold live_addrs. induction (w_live w) as [|p l IH]; csimpl; [done|].
  destruct (payload_data p); simpl; lia.
Qed.

Lemma world_inv_init h0 : world_inv (dom h0) (mkWorld h0 PayloadPool_new []).
Proof. split; [apply accounts_new|apply refs_inv_nil|constructor]. Qed.

Lemma live_kept h h' l :
  bytes_kept h h' ->
  Forall (fun p => valid_payload h p /\ (0 < payload_max_size p)%Z) l ->
  Forall (fun p => valid_payload h' p /\ (0 < payload_max_size p)%Z) l.
Proof. intros Hk Hl. eapply Forall_impl; [exact Hl|]. intros p [? ?]. eauto using valid_kept. Qed.

Lemma live_cons h pool p l a :
  payload_data p = Some a -> live_addrs (mkWorld h pool (p :: l)) = a :: omap payload_data l.
Proof. intros Ha. unfold live_addrs. simpl. by rewrite Ha. Qed.

(** [get_payload] of a payload that is in memory, the pool's or another's. *)
Lemma run_get_from H0 w src owner :
  world_inv H0 w -> valid_payload (w_heap w) src -> (0 < payload_max_size src)%Z ->
  (owner = Some this -> exists a, payload_data src = Some a /\ a ∈ live_addrs w) ->
  (reserve_count_ (w_pool w) + 1 < 2 ^ 64)%Z -> (Z.of_nat (length (w_live w)) + 1 < 2 ^ 32)%Z ->
  exists w', obtained w (get_payload_from src owner (mkP (w_heap w) (w_pool w) Payload_empty)) =
      (Ok true, w') /\ world_inv H0 w' /\ bytes_kept (w_heap w) (w_heap w') /\
    exists p, w_live w' = p :: w_live w /\ contents (w_heap w') p = contents (w_heap w) src.
Proof.
  intros [Ha Hr Hl] Hv Hpos Hown Hmax Hlen. pose proof (live_addrs_length w).
  destruct (spec_get_from src owner (mkP (w_heap w) (w_pool w) Payload_empty) (live_addrs w) H0)
    as (a & s' & Hrun & Hacc & Hrefs & Ht & Hm & Hval & Hk & Hc);
    [done|done|done|done|done|done|done|lia|].
  rewrite Hrun. unfold obtained. simpl. eexists. split; [reflexivity|]. split; [|split; [done|eauto]].
  split; simpl; rewrite ?(live_cons _ _ _ _ a) by done; try done.
  constructor; [|by eapply live_kept]. split; [done|]. by rewrite Hm.
Qed.

Lemma run_call_get H0 w size :
  world_inv H0 w -> (0 < size)%Z -> (reserve_count_ (w_pool w) + 1 < 2 ^ 64)%Z ->
  exists w', run_call (call_get size) w = (Ok true, w') /\ world_inv H0 w' /\
    bytes_kept (w_heap w) (w_heap w').
Proof.
  intros [Ha Hr Hl] Hpos Hmax.
  destruct (spec_get size (mkP (w_heap w) (w_pool w) Payload_empty) (live_addrs w) H0)
    as (a & s' & Hrun & Hacc & Hrefs & Hf & Hk & (b & Hb & Hlb) & Ht); try done.
  unfold run_call, obtained. rewrite Hrun. simpl. eexists. split; [reflexivity|]. split; [|done].
  simpl in Ht. split; simpl; rewrite ?(live_cons _ _ _ _ a) by (by rewrite Ht); try done.
  constructor; [|by eapply live_kept]. rewrite Ht. split; [|done]. exists a, b. simpl.
  split_and!; try done. lia.
Qed.

Lemma run_call_release H0 w i :
  world_inv H0 w -> i < length (w_live w) -> (Z.of_nat (length (w_live w)) + 1 < 2 ^ 32)%Z ->
  exists w', run_call (call_release i) w = (Ok true, w') /\ world_inv H0 w' /\
    w_live w' = delete i (w_live w) /\ bytes_kept (w_heap w') (w_heap w).
Proof.
  intros [Ha Hr Hl] [p Hi]%lookup_lt_is_Some Hlen. pose proof (live_addrs_length w) as Hll.
  destruct (live_addr _ _ _ Hl Hi) as (a & Hpa & _).
  assert (live_addrs w ≡ₚ a :: omap payload_data (delete i (w_live w))) as HL.
  { unfold live_addrs. rewrite (delete_Permutation _ _ _ Hi) at 1. simpl. by rewrite Hpa. }
  rewrite HL in Hll.
  destruct (spec_release a (mkP (w_heap w) (w_pool w) p) (omap payload_data (delete i (w_live w))) H0)
    as (s' & Hrun & Hacc & Hrefs & Hk & Ht); try done.
  { by eapply accounts_perm. }
  { by eapply refs_inv_perm. }
  { lia. }
  unfold run_call. rewrite Hi, Hrun. eexists. split; [reflexivity|]. split; [|done].
  split; [exact Hacc|exact Hrefs|].
  apply Forall_forall. intros q Hq. rewrite Forall_forall in Hl.
  assert (q ∈ w_live w) as Hqw by (rewrite (delete_Permutation _ _ _ Hi); set_solver).
  destruct (Hl q Hqw) as [(c & bc & Hc & Hbc & ? & ?) ?]. split; [|done].
  assert (c ∈ omap payload_data (delete i (w_live w))) as Hc' by (apply list_elem_of_omap; eauto).
  destruct (acc_owned _ _ _ _ _ Hacc Hc') as [bc' Hbc'].
  destruct (Hk _ _ Hbc') as (bc2 & Hbc2 & E). exists c, bc'. split_and!; try done.
  2-3: lia. rewrite <- E. simpl in Hbc2. rewrite Hbc2 in Hbc. by injection Hbc as ->.
Qed.

(** Every call made within the preconditions succeeds and keeps the invariant
    and the messages of the payloads that stay alive. *)
Lemma run_call_spec H0 w c :
  world_inv H0 w -> call_ok w c ->
  exists w', run_call c w = (Ok true, w') /\ world_inv H0 w' /\
    forall p, p ∈ w_live w -> p ∈ w_live w' -> contents (w_heap w') p = contents (w_heap w) p.
Proof.
  intros Hw (Hmax & Hlen & Hc). pose proof (wi_live _ _ Hw) as Hl.
  assert (forall w', bytes_kept (w_heap w) (w_heap w') -> forall p, p ∈ w_live w ->
    contents (w_heap w') p = contents (w_heap w) p) as Hkept.
  { intros w' Hk p Hp. rewrite Forall_forall in Hl. apply contents_kept; [done|]. by apply Hl. }
  destruct c as [size|i|src owner|i].
  - destruct (run_call_get H0 w size) as (w' & ? & ? & ?); try done. eauto 6.
  - pose proof Hc as [p Hi]%lookup_lt_is_Some. unfold run_call. rewrite Hi.
    pose proof Hl as Hl'. rewrite Forall_forall in Hl'.
    destruct (Hl' p) as [? ?]; [by eapply list_elem_of_lookup_2|].
    destruct (run_get_from H0 w p (Some this)) as (w' & ? & ? & ? & _); try done; [|eauto 6].
    intros _. by eapply live_addr.
  - destruct Hc as (Ho & Hv & Hp).
    destruct (run_get_from H0 w src owner) as (w' & ? & ? & ? & _); try done. eauto 6.
  - destruct (run_call_release H0 w i) as (w' & Hrun & Hw' & Hd & Hk); try done.
    exists w'. split_and!; try done. intros p _ Hp. symmetry. apply contents_kept; [done|].
    pose proof (wi_live _ _ Hw') as Hl'. rewrite Forall_forall in Hl'. by apply Hl'.
Qed.

Lemma pool_reachable_inv h0 w : pool_reachable h0 w -> world_inv (dom h0) w.
Proof.
  unfold pool_reachable. intros Hr. pose proof (world_inv_init h0) as Hi. revert Hr Hi.
  generalize (mkWorld h0 PayloadPool_new []). intros w0 Hr.
  induction Hr as [|x y z (c & Hok & ->) _ IH]; [done|]. intros Hx.
  destruct (run_call_spec _ _ _ Hx Hok) as (w' & E & Hw' & _). rewrite E in IH. by apply IH.
Qed.

(** The accounts of a pool that keeps its invariant. *)
Lemma world_no_leak (H0 : gset nat) w :
  world_inv H0 w ->
  (reserve_count_ (w_pool w) - release_count_ (w_pool w) =
     Z.of_nat (size (dom (w_heap w) ∖ H0 : gset nat)))%Z /\
  (is_clean (w_pool w) = true <-> w_live w = []) /\
  (w_live w = [] -> dom (w_heap w) = H0).
Proof.
  intros [Hacc _ Hl].
  assert (live_addrs w = [] <-> w_live w = []) as Hnil.
  { unfold live_addrs. split; [|by intros ->]. destruct (w_live w) as [|p l]; [done|].
    apply Forall_cons in Hl as [[(a & b & Ha & _) _] _]. csimpl. by rewrite Ha. }
  split_and!.
  - pose proof Hacc as [Hd Hj _ Hc _].
    assert (dom (w_heap w) ∖ H0 = addrs (live_addrs w)) as -> by set_solver. lia.
  - by rewrite (acc_clean _ _ _ _ Hacc).
  - intros Hnl%Hnil. pose proof Hacc as [Hd _ _ _ _]. rewrite Hd, Hnl. set_solver.
Qed.

End Clients.

(** ** Releases in several threads

    [FastPayloadPool::release_payload] takes no lock: the decrement of the counter
    and the test that follows are two atomic accesses, and other threads run in
    between. *)
Module ConcurrentRelease.

Inductive release_pc : Type := at_decrement | at_test | released.

Record state : Type := mkState {
  cr_heap : heap;
  cr_pool : PayloadPool;
  cr_threads : list (Payload * release_pc)
}.

(** The next atomic step of thread [i]. *)
Definition thread_step (i : nat) : prog state unit := fun st =>
  match cr_threads st !! i with
  | Some (p, at_decrement) =>
      let '(r, s) := FastPayloadPool.decrement_refs (payload_data p) (mkP (cr_heap st) (cr_pool st) p) in
      (r, mkState (p_heap s) (p_pool s) (<[i := (p, at_test)]> (cr_threads st)))
  | Some (p, at_test) =>
      let '(r, s) := FastPayloadPool.release_if_last (mkP (cr_heap st) (cr_pool st) p) in
      (r, mkState (p_heap s) (p_pool s) (<[i := (Payload_empty, released)]> (cr_threads st)))
  | _ => (Ok tt, st)
  end.

(** The steps in the order a scheduler chose. *)
Definition run_schedule (sched : list nat) : prog state unit := for_each sched thread_step.

Lemma step_decrement h pool ts i p a r bs :
  ts !! i = Some (p, at_decrement) -> payload_data p = Some a ->
  h !! a = Some (mkBlock (Some r) bs) ->
  thread_step i (mkState h pool ts) =
    (Ok tt, mkState (<[a := mkBlock (Some (u32 (r - 1))) bs]> h) pool (<[i := (p, at_test)]> ts)).
Proof.
  intros Hi Hp Ha. unfold thread_step. cbn [cr_threads cr_heap cr_pool]. rewrite Hi, Hp.
  by rewrite (FastPayloadPoolSpec.decrement_refs_run a r bs).
Qed.

Lemma step_test_shared h pool ts i p a r bs :
  ts !! i = Some (p, at_test) -> payload_data p = Some a ->
  h !! a = Some (mkBlock (Some r) bs) -> r <> 0%Z ->
  thread_step i (mkState h pool ts) =
    (Ok tt, mkState h pool (<[i := (Payload_empty, released)]> ts)).
Proof.
  intros Hi Hp Ha Hr. unfold thread_step. cbn [cr_threads cr_heap cr_pool]. rewrite Hi.
  by rewrite (FastPayloadPoolSpec.release_if_last_shared a r bs).
Qed.

Lemma step_test_last h pool ts i p a bs :
  ts !! i = Some (p, at_test) -> payload_data p = Some a ->
  h !! a = Some (mkBlock (Some 0%Z) bs) ->
  (0 <= release_count_ pool)%Z -> (release_count_ pool + 1 <= reserve_count_ pool < 2 ^ 64)%Z ->
  thread_step i (mkState h pool ts) =
    (Ok tt, mkState (delete a h)
      (mkPool (reserve_count_ pool) (u64 (release_count_ pool + 1)) (reserved_payloads_ pool))
      (<[i := (Payload_empty, released)]> ts)).
Proof.
  intros Hi Hp Ha Hr Hc. unfold thread_step. cbn [cr_threads cr_heap cr_pool]. rewrite Hi.
  by rewrite (FastPayloadPoolSpec.release_if_last_free a bs).
Qed.

Lemma step_test_freed (h : heap) pool ts i p a :
  ts !! i = Some (p, at_test) -> payload_data p = Some a -> h !! a = None ->
  (thread_step i (mkState h pool ts)).1 = Throw UndefinedBehaviour.
Proof.
  intros Hi Hp Ha. unfold thread_step. cbn [cr_threads cr_heap cr_pool]. rewrite Hi.
  unfold FastPayloadPool.release_if_last, FastPayloadPool.read_refs. run_prog.
  cbn [p_target p_heap]. by rewrite Hp, Ha.
Qed.

End ConcurrentRelease.

(** ** Properties *)

Section Properties.
Context {MA : Malloc} {ML : MallocLaws} {SP : SerializedPayload} {SL : SerializedPayloadLaws}.
Variable this : nat.

(** C6: safety of the pool the router uses.  However the clients have obtained,
    shared, imported and released payloads before, a call of [FastPayloadPool]
    within its preconditions succeeds: no exception, no access to memory that is
    not allocated, no counter misread; and the messages in the payloads that stay
    alive do not change. *)
Theorem fast_pool_safe h0 w c :
  let run := @run_call (FastPayloadPool.methods this) this in
  @pool_reachable (FastPayloadPool.methods this) this h0 w -> call_ok this w c ->
  exists w', run c w = (Ok true, w') /\
    forall p, p ∈ w_live w -> p ∈ w_live w' -> contents (w_heap w') p = contents (w_heap w) p.
Proof.
  intros run Hr Hc. apply (@pool_reachable_inv _ _ (FastPayloadPoolSpec.fast_pool_spec this)) in Hr.
  destruct (run_call_spec this _ _ _ Hr Hc) as (w' & ? & _ & ?). by exists w'.
Qed.

(** C7: no leak.  In every reachable state of the pool the router uses, the
    number of payloads reserved minus the number released is the number of blocks
    allocated by the pool, [is_clean] answers whether every payload obtained has
    been released, and when that is so the allocated memory is exactly the memory
    that was allocated before the pool was used. *)
Theorem fast_pool_no_leak h0 w :
  @pool_reachable (FastPayloadPool.methods this) this h0 w ->
  (reserve_count_ (w_pool w) - release_count_ (w_pool w) =
     Z.of_nat (size (dom (w_heap w) ∖ dom h0 : gset nat)))%Z /\
  (is_clean (w_pool w) = true <-> w_live w = []) /\
  (w_live w = [] -> dom (w_heap w) = (dom h0 : gset nat)).
Proof.
  intros Hr. apply (@pool_reachable_inv _ _ (FastPayloadPoolSpec.fast_pool_spec this)) in Hr.
  exact (world_no_leak this _ _ Hr).
Qed.

(** Zero copy.  Asking the pool the router uses for a payload whose data it
    owns gives a payload on the same block, with the same length and size; no
    memory is allocated and no byte of the heap changes, only the counter of that
    block, which goes up by one. *)
Theorem fast_pool_zero_copy h0 w i p :
  @pool_reachable (FastPayloadPool.methods this) this h0 w ->
  call_ok this w (call_share i) -> w_live w !! i = Some p ->
  exists w' q a n bs, @run_call (FastPayloadPool.methods this) this (call_share i) w = (Ok true, w') /\
    w_live w' = q :: w_live w /\ w_pool w' = w_pool w /\
    payload_data q = payload_data p /\ payload_data p = Some a /\
    payload_length q = payload_length p /\ payload_max_size q = payload_max_size p /\
    w_heap w !! a = Some (mkBlock (Some n) bs) /\
    w_heap w' = <[a := mkBlock (Some (n + 1)%Z) bs]> (w_heap w).
Proof.
  intros Hr (_ & Hlen & _) Hi. apply (@pool_reachable_inv _ _ (FastPayloadPoolSpec.fast_pool_spec this)) in Hr.
  destruct Hr as [Hacc Hrefs Hl]. destruct (live_addr _ _ _ Hl Hi) as (a & Ha & Hin).
  destruct (Hrefs a Hin) as (bs & Hbs). pose proof (live_addrs_length w) as Hll.
  pose proof (count_bounds _ a Hin ltac:(lia)) as Hc.
  pose proof (count_occ_bound Nat.eq_dec a (live_addrs w)).
  unfold run_call. rewrite Hi. cbn [get_payload_from FastPayloadPool.methods].
  rewrite (FastPayloadPoolSpec.fast_get_own this p _ a _ bs Ha) by done.
  unfold obtained. simpl. rewrite u32_small by lia.
  eexists _, _, a, _, bs. split_and!; try done.
Qed.

(** C37: [MapPayloadPool] keeps the same promise as the pool the router uses, however the
    clients have obtained, shared, imported and released payloads before: every call
    within the preconditions succeeds and keeps the messages of the payloads that stay
    alive; the number reserved minus the number released is the number of blocks the pool
    has allocated; [is_clean] holds exactly when no payload is alive; and the allocated
    memory is then exactly the memory allocated before the pool was used. *)
Theorem map_pool_safe_no_leak h0 w :
  let run := @run_call (MapPayloadPool.methods this) this in
  @pool_reachable (MapPayloadPool.methods this) this h0 w ->
  (forall c, call_ok this w c -> exists w', run c w = (Ok true, w') /\
    forall p, p ∈ w_live w -> p ∈ w_live w' -> contents (w_heap w') p = contents (w_heap w) p) /\
  (reserve_count_ (w_pool w) - release_count_ (w_pool w) =
     Z.of_nat (size (dom (w_heap w) ∖ dom h0 : gset nat)))%Z /\
  (is_clean (w_pool w) = true <-> w_live w = []) /\
  (w_live w = [] -> dom (w_heap w) = (dom h0 : gset nat)).
Proof.
  intros run Hr. apply (@pool_reachable_inv _ _ (MapPayloadPoolSpec.map_pool_spec this)) in Hr.
  split; [|exact (world_no_leak this _ _ Hr)].
  intros c Hc. destruct (run_call_spec this _ _ _ Hr Hc) as (w' & ? & _ & ?). by exists w'.
Qed.

(** Two threads that release the last two references of a block of the pool the
    router uses.  Run one after the other they leave the block freed and the
    release counted once.  Interleaved so that both decrements come before both
    tests, both threads see the counter at zero: the second one accesses, and would
    free, the block that the first one has freed. *)
Theorem fast_release_not_thread_safe (h : heap) pool a bs p1 p2 :
  h !! a = Some (mkBlock (Some 2%Z) bs) ->
  payload_data p1 = Some a -> payload_data p2 = Some a ->
  (0 <= release_count_ pool < reserve_count_ pool)%Z -> (reserve_count_ pool < 2 ^ 64)%Z ->
  let st := ConcurrentRelease.mkState h pool
    [(p1, ConcurrentRelease.at_decrement); (p2, ConcurrentRelease.at_decrement)] in
  (exists st', ConcurrentRelease.run_schedule [0; 0; 1; 1] st = (Ok tt, st') /\
     ConcurrentRelease.cr_heap st' = delete a h /\
     release_count_ (ConcurrentRelease.cr_pool st') = (release_count_ pool + 1)%Z) /\
  result (ConcurrentRelease.run_schedule [0; 1; 0; 1]) st = Throw UndefinedBehaviour.
Proof.
  intros Ha H1 H2 Hc Hb st. unfold st, ConcurrentRelease.run_schedule. split.
  - erewrite for_each_step by (by eapply ConcurrentRelease.step_decrement).
    erewrite for_each_step by
      (eapply ConcurrentRelease.step_test_shared; [done|done|apply lookup_insert_eq|done]).
    erewrite for_each_step by
      (eapply ConcurrentRelease.step_decrement; [done|done|apply lookup_insert_eq]).
    erewrite for_each_step by
      (eapply ConcurrentRelease.step_test_last; [done|done|apply lookup_insert_eq|lia|lia]).
    eexists. split; [reflexivity|]. simpl. rewrite insert_insert_eq, delete_insert_eq.
    by rewrite u64_small by lia.
  - unfold result. erewrite for_each_step by (by eapply ConcurrentRelease.step_decrement).
    erewrite for_each_step by
      (eapply ConcurrentRelease.step_decrement; [done|done|apply lookup_insert_eq]).
    erewrite for_each_step by
      (eapply ConcurrentRelease.step_test_last; [done|done|apply lookup_insert_eq|lia|lia]).
    cbn [for_each]. unfold mbind, prog_bind.
    match goal with |- context [ConcurrentRelease.thread_step 1 ?st] =>
      assert ((ConcurrentRelease.thread_step 1 st).1 = Throw UndefinedBehaviour) as E
        by (eapply ConcurrentRelease.step_test_freed; [done|done|apply lookup_delete_eq]);
      destruct (ConcurrentRelease.thread_step 1 st) as [[|] ?] end; simpl in *; congruence.
Qed.

(** [CopyPayloadPool::get_payload] ignores that nothing can be reserved for a
    size of zero: it answers that all went well, with no data and nothing counted;
    releasing that payload from a clean pool throws an [InconsistencyException]. *)
Theorem copy_pool_zero_size (h : heap) pool pos :
  is_clean pool = true -> (0 <= reserve_count_ pool < 2 ^ 64 - 1)%Z ->
  let s := mkP h pool (mkPayload None 0 0 pos) in
  CopyPayloadPool.copy_get_payload 0 s = (Ok true, s) /\
  result CopyPayloadPool.copy_release_payload s = Throw InconsistencyException.
Proof.
  intros Hcl Hb s. apply Z.eqb_eq in Hcl. split; [done|].
  unfold result, CopyPayloadPool.copy_release_payload, release_, set_heap, set_target. run_prog.
  destruct (payload_empty_none (p_heap s) (p_target s) eq_refl) as (pos' & ->). run_prog.
  cbn [payload_data]. unfold add_release_payload_, set_pool. run_prog. cbn [p_pool s].
  rewrite u64_small by lia. rewrite (proj2 (Z.gtb_lt _ _)) by lia. done.
Qed.

(** The round trip of a Fast DDS change through the pool the router uses: a
    change without payload that gets one is owned by the pool, and releasing it
    gives back the change without owner nor data and the memory as it was; a
    change that another pool owns is refused with an exception and nothing
    changes. *)
Theorem cache_change_roundtrip size s L H0 :
  let PM := FastPayloadPool.methods this in
  accounts (c_heap s) (c_pool s) L H0 -> FastPayloadPoolSpec.fast_refs (c_heap s) (c_pool s) L ->
  not_initialized (serializedPayload (c_change s)) ->
  (0 < size)%Z -> (reserve_count_ (c_pool s) + 1 < 2 ^ 64)%Z -> (Z.of_nat (length L) + 1 < 2 ^ 32)%Z ->
  exists s1 s2, @get_payload_change PM this size s = (Ok true, s1) /\
    payload_owner (c_change s1) = Some this /\
    @release_payload_change PM this s1 = (Ok true, s2) /\
    payload_owner (c_change s2) = None /\ payload_data (serializedPayload (c_change s2)) = None /\
    dom (c_heap s2) = (dom (c_heap s) : gset nat) /\
    (reserve_count_ (c_pool s2) - release_count_ (c_pool s2) =
       reserve_count_ (c_pool s) - release_count_ (c_pool s))%Z /\
    forall other, other <> this ->
      @release_payload_change PM other s1 = (Throw InconsistencyException, s1).
Proof.
  intros PM Hacc Hr Hni Hpos Hmax HL.
  destruct (FastPayloadPoolSpec.fast_spec_get size (mkP (c_heap s) (c_pool s) (serializedPayload (c_change s))) L H0)
    as (a & t1 & Hrun1 & Hacc1 & Hr1 & _ & _ & _ & Ht1); try done.
  destruct (FastPayloadPoolSpec.fast_spec_release a t1 L H0)
    as (t2 & Hrun2 & Hacc2 & _ & _ & Ht2); try done; [simpl; lia|by rewrite Ht1|].
  eexists _, _. split; [|split; [|split]].
  - unfold get_payload_change, on_payload, zoom. run_prog. cbn [get_payload PM FastPayloadPool.methods].
    rewrite Hrun1. unfold set_owner. run_prog. reflexivity.
  - done.
  - unfold release_payload_change, on_payload, zoom. run_prog.
    cbn [c_heap c_pool c_change payload_owner serializedPayload release_payload PM FastPayloadPool.methods].
    rewrite bool_decide_true by done. cbn [c_heap c_pool c_change serializedPayload].
    replace (mkP (p_heap t1) (p_pool t1) (p_target t1)) with t1 by (by destruct t1).
    rewrite Hrun2. unfold set_owner. run_prog. reflexivity.
  - simpl. split_and!; try done.
    + by rewrite (acc_dom _ _ _ _ Hacc2), (acc_dom _ _ _ _ Hacc).
    + pose proof (acc_count _ _ _ _ Hacc2). pose proof (acc_count _ _ _ _ Hacc). lia.
    + intros other Hne. unfold release_payload_change. run_prog. simpl.
      by rewrite bool_decide_false by congruence.
Qed.

End Properties.

(** ** Witnesses *)
Module PoolDemo.

(** The first address after all the allocated ones. *)
Definition alloc (h : heap) : nat := fresh (dom h : gset nat).

Definition malloc : Malloc := fun h _ => alloc h.

Lemma alloc_fresh h : h !! alloc h = None.
Proof.
  apply (not_elem_of_dom (D := gset nat)). unfold alloc. apply (is_fresh (C := gset nat) (dom h)).
Qed.

Lemma malloc_laws : @MallocLaws malloc.
Proof. intros h n. apply alloc_fresh. Qed.

Definition serialized_payload : SerializedPayload := {|
  payload_reserve n h p :=
    if (n <=? payload_max_size p)%Z then (h, p)
    else let a := alloc h in
      (<[a := mkBlock None (replicate (Z.to_nat n) (Some 0%Z))]> h,
       mkPayload (Some a) (payload_length p) n (payload_pos p));
  payload_empty h p :=
    (match payload_data p with Some a => delete a h | None => h end, mkPayload None 0 0 (payload_pos p))
|}.

Lemma serialized_payload_laws : @SerializedPayloadLaws serialized_payload.
Proof.
  split.
  - intros n h p Hd Hm Hn. eexists (alloc h), _. split_and!; [apply alloc_fresh| |].
    + apply length_replicate.
    + simpl. by rewrite Hm, (proj2 (Z.leb_gt n 0)) by lia.
  - intros h p a Hd Ha. simpl. rewrite Hd. eauto.
  - intros h p Hd. simpl. rewrite Hd. eauto.
Qed.

End PoolDemo.

#[local] Existing Instances PoolDemo.malloc PoolDemo.malloc_laws
  PoolDemo.serialized_payload PoolDemo.serialized_payload_laws.

(** A pool from which one payload of 8 bytes was obtained. *)
Definition demo_w0 : world := mkWorld ∅ PayloadPool_new [].
Definition demo_fast : world := (@run_call (FastPayloadPool.methods 7) 7 (call_get 8) demo_w0).2.
Definition demo_map : world := (@run_call (MapPayloadPool.methods 7) 7 (call_get 8) demo_w0).2.

Lemma demo_fast_reachable : @pool_reachable (FastPayloadPool.methods 7) 7 ∅ demo_fast.
Proof. apply rtc_once. exists (call_get 8). by split_and!. Defined.

Lemma demo_map_reachable : @pool_reachable (MapPayloadPool.methods 7) 7 ∅ demo_map.
Proof. apply rtc_once. exists (call_get 8). by split_and!. Defined.

Lemma fast_pool_safe_witness :
  exists w', @run_call (FastPayloadPool.methods 7) 7 (call_release 0) demo_fast = (Ok true, w').
Proof.
  destruct (fast_pool_safe 7 ∅ demo_fast (call_release 0) demo_fast_reachable) as (w' & H & _);
    [split_and!; [vm_compute; reflexivity|vm_compute; reflexivity|vm_compute; repeat constructor]|].
  exists w'. exact H.
Defined.

Lemma fast_pool_no_leak_witness : is_clean (w_pool demo_fast) = false /\ w_live demo_fast <> [].
Proof.
  destruct (fast_pool_no_leak 7 ∅ demo_fast demo_fast_reachable) as (_ & [H _] & _).
  split; [reflexivity|]. intros E. by apply H in E || (vm_compute in E; discriminate E).
Defined.

Lemma fast_pool_zero_copy_witness :
  exists w', @run_call (FastPayloadPool.methods 7) 7 (call_share 0) demo_fast = (Ok true, w') /\
    w_pool w' = w_pool demo_fast.
Proof.
  destruct (fast_pool_zero_copy 7 ∅ demo_fast 0 (mkPayload (Some 0) 0 8 0) demo_fast_reachable)
    as (w' & q & a & n & bs & H & _ & Hp & _);
    [split_and!; [vm_compute; reflexivity|vm_compute; reflexivity|vm_compute; repeat constructor]
    |vm_compute; reflexivity|].
  exists w'. split; [exact H|exact Hp].
Defined.

Lemma map_pool_safe_no_leak_witness :
  (exists w', @run_call (MapPayloadPool.methods 7) 7 (call_share 0) demo_map = (Ok true, w')) /\
  is_clean (w_pool demo_map) = false /\ w_live demo_map <> [].
Proof.
  destruct (map_pool_safe_no_leak 7 ∅ demo_map demo_map_reachable) as (H & _ & [_ Hc] & _).
  split.
  - destruct (H (call_share 0)) as (w' & Hw & _);
      [split_and!; [vm_compute; reflexivity|vm_compute; reflexivity|vm_compute; repeat constructor]|].
    exists w'. exact Hw.
  - split; [reflexivity|]. intros E. apply Hc in E. vm_compute in E. discriminate E.
Defined.

Lemma fast_release_not_thread_safe_witness :
  let p := mkPayload (Some 3) 1 1 0 in
  result (ConcurrentRelease.run_schedule [0; 1; 0; 1])
    (ConcurrentRelease.mkState {[ 3 := mkBlock (Some 2%Z) [None] ]} (mkPool 1 0 [])
      [(p, ConcurrentRelease.at_decrement); (p, ConcurrentRelease.at_decrement)]) =
  Throw UndefinedBehaviour.
Proof.
  apply (fast_release_not_thread_safe _ _ 3 [None]); simpl; try reflexivity; lia.
Defined.

Lemma copy_pool_zero_size_witness :
  result CopyPayloadPool.copy_release_payload (mkP ∅ PayloadPool_new (mkPayload None 0 0 0)) =
  Throw InconsistencyException.
Proof. apply copy_pool_zero_size; [reflexivity|simpl; lia]. Defined.

Lemma cache_change_roundtrip_witness :
  exists s1, @get_payload_change (FastPayloadPool.methods 7) 7 8
    (mkC ∅ PayloadPool_new (mkCacheChange Payload_empty None)) = (Ok true, s1).
Proof.
  destruct (cache_change_roundtrip 7 8 (mkC ∅ PayloadPool_new (mkCacheChange Payload_empty None)) [] (dom (∅ : heap)))
    as (s1 & s2 & H & _); [apply accounts_new|intros a Ha; set_solver|done..|].
  exists s1. exact H.
Defined.
