(* ===== verification/ServiceRegistry.v ===== *)
(** * Service registries

    [communication/rpc/ServiceRegistry.cpp]: for one service in one participant,
    who asked each request that was forwarded there, by the sequence number it was
    forwarded with.  Used by the RPC bridge to send the reply back. *)
From S2P Require Import Prelude StdMap CppString Externals Types Topics.
From Stdlib Require Import Sorted.

Section ServiceRegistry.
Context {CU : CppUtils} {FD : FastDDS}.

Definition registry_entry : Type := (ParticipantId * SampleIdentity)%type.

Definition DEFAULT_MAX_ENTRIES_ : nat := 5000.

Record ServiceRegistry : Type := mkRegistry {
  topic_ : RPCTopic;
  participant_id_ : ParticipantId;
  enabled_ : bool;
  registry_ : std_map SequenceNumber registry_entry
}.

(** [ServiceRegistry(topic, participant_id)] *)
Definition ServiceRegistry_of (topic : RPCTopic) (id : ParticipantId) : ServiceRegistry :=
  mkRegistry topic id false [].

Definition set_enabled (b : bool) (r : ServiceRegistry) : ServiceRegistry :=
  mkRegistry (topic_ r) (participant_id_ r) b (registry_ r).

Definition registry_enable : ServiceRegistry -> ServiceRegistry := set_enabled true.
Definition registry_disable : ServiceRegistry -> ServiceRegistry := set_enabled false.

Definition with_registry (m : std_map SequenceNumber registry_entry) (r : ServiceRegistry) :
    ServiceRegistry :=
  mkRegistry (topic_ r) (participant_id_ r) (enabled_ r) m.

Definition registry_add (idx : SequenceNumber) (new_entry : registry_entry) (r : ServiceRegistry) :
    ServiceRegistry :=
  if contains idx (registry_ r) then r
  else
    let m := assign idx new_entry (registry_ r) in
    with_registry (if (length m =? DEFAULT_MAX_ENTRIES_)%nat then erase_begin m else m) r.

(** [{ParticipantId(), SampleIdentity()}] when there is no entry *)
Definition registry_get (idx : SequenceNumber) (r : ServiceRegistry) : registry_entry :=
  match find idx (registry_ r) with
  | Some e => e
  | None => (ParticipantId_invalid, sample_identity_unknown)
  end.

Definition registry_erase (idx : SequenceNumber) (r : ServiceRegistry) : ServiceRegistry :=
  if contains idx (registry_ r) then with_registry (erase idx (registry_ r)) r else r.

(** ** Invariant *)

Record registry_wf (r : ServiceRegistry) : Prop := {
  reg_sorted : map_wf (registry_ r);
  reg_bound : length (registry_ r) < DEFAULT_MAX_ENTRIES_
}.

Lemma registry_wf_new topic id : registry_wf (ServiceRegistry_of topic id).
Proof. split; simpl; [apply map_wf_nil|]. unfold DEFAULT_MAX_ENTRIES_. lia. Qed.

Lemma registry_add_wf idx e r : registry_wf r -> registry_wf (registry_add idx e r).
Proof.
  intros [Hs Hb]. unfold registry_add, contains.
  destruct (find idx (registry_ r)) eqn:E; [done|].
  pose proof (length_assign_absent idx e _ E) as Hl.
  pose proof (map_wf_assign idx e _ Hs) as Hw.
  destruct (_ =? _)%nat eqn:En; split; cbn [registry_ with_registry].
  - by apply map_wf_erase_begin.
  - apply Nat.eqb_eq in En. unfold erase_begin. destruct (assign _ _ _); simpl in *; lia.
  - done.
  - apply Nat.eqb_neq in En. lia.
Qed.

Lemma registry_erase_wf idx r : registry_wf r -> registry_wf (registry_erase idx r).
Proof.
  intros [Hs Hb]. unfold registry_erase. destruct (contains _ _); [|done].
  split; cbn [registry_ with_registry]; [by apply map_wf_erase|].
  pose proof (length_erase_le idx (registry_ r)). lia.
Qed.

(** Operations of the clients. *)
Inductive registry_op : Type :=
| reg_add (idx : SequenceNumber) (e : registry_entry)
| reg_erase (idx : SequenceNumber)
| reg_enable
| reg_disable.

Definition run_registry_op (r : ServiceRegistry) (op : registry_op) : ServiceRegistry :=
  match op with
  | reg_add idx e => registry_add idx e r
  | reg_erase idx => registry_erase idx r
  | reg_enable => registry_enable r
  | reg_disable => registry_disable r
  end.

Lemma registry_ops_wf ops r : registry_wf r -> registry_wf (fold_left run_registry_op ops r).
Proof.
  intros Hr. apply (fold_left_inv registry_wf); [done|]. intros [idx e|idx| |] r' _ Hr'; simpl.
  - by apply registry_add_wf.
  - by apply registry_erase_wf.
  - by destruct Hr' as [? ?].
  - by destruct Hr' as [? ?].
Qed.

(** ** Lookups *)

Lemma find_erase_begin (m : std_map SequenceNumber registry_entry) j :
  map_wf m -> find j (erase_begin m) =
    match m with
    | (k, _) :: _ => if (j =? k)%Z then None else find j m
    | [] => None
    end.
Proof.
  destruct m as [|[k v] m]; [done|]. intros [Hall Hm]%map_wf_cons. simpl. rewrite find_cons.
  unfold less, Z_less in *. destruct (Z.eqb_spec j k) as [->|Hne].
  - apply find_none_below. done.
  - destruct (Z.ltb_spec j k).
    + apply find_none_below. eapply Forall_impl; [done|]. intros [k' v'] Hk. simpl in *.
      unfold less, Z_less in *. rewrite Z.ltb_lt in *. lia.
    + destruct (Z.ltb_spec k j); [done|lia].
Qed.

(** The smallest key after an insertion. *)
Lemma head_assign idx e (m : std_map SequenceNumber registry_entry) :
  find idx m = None ->
  fst <$> head (assign idx e m) =
    Some (match m with [] => idx | (k, _) :: _ => Z.min idx k end).
Proof.
  destruct m as [|[k v] m]; [done|]. rewrite find_cons. simpl. unfold less, Z_less.
  destruct (Z.ltb_spec idx k); simpl; [intros _; f_equal; lia|].
  destruct (Z.ltb_spec k idx); simpl; [intros _; f_equal; lia|done].
Qed.

(** ** Sorted runs of insertions *)

Lemma assign_above idx e (m : std_map SequenceNumber registry_entry) :
  Forall (fun p => (p.1 < idx)%Z) m -> assign idx e m = m ++ [(idx, e)].
Proof.
  induction m as [|[k v] m IH]; [done|]. intros [Hk Hm]%Forall_cons. simpl in *.
  change (less idx k) with (idx <? k)%Z. change (less k idx) with (k <? idx)%Z.
  rewrite (proj2 (Z.ltb_ge idx k)), (proj2 (Z.ltb_lt k idx)) by lia. by rewrite IH.
Qed.

Lemma find_above idx (m : std_map SequenceNumber registry_entry) :
  Forall (fun p => (p.1 < idx)%Z) m -> find idx m = None.
Proof.
  induction m as [|[k v] m IH]; [done|]. intros [Hk Hm]%Forall_cons. simpl in *.
  rewrite find_cons. change (less idx k) with (idx <? k)%Z. change (less k idx) with (k <? idx)%Z.
  rewrite (proj2 (Z.ltb_ge idx k)), (proj2 (Z.ltb_lt k idx)) by lia. auto.
Qed.

(** Requests forwarded one after the other, with increasing sequence numbers. *)
Definition add_all (l : list (SequenceNumber * registry_entry)) (r : ServiceRegistry) :
    ServiceRegistry :=
  fold_left (fun r p => registry_add p.1 p.2 r) l r.

Definition increasing (l : list (SequenceNumber * registry_entry)) : Prop :=
  StronglySorted (fun p q => (p.1 < q.1)%Z) l.

Lemma increasing_snoc l p :
  increasing (l ++ [p]) -> increasing l /\ Forall (fun q => (q.1 < p.1)%Z) l.
Proof.
  unfold increasing. induction l as [|q l IH]; simpl; intros Hs; [split; constructor|].
  apply StronglySorted_inv in Hs as [Hs Hq]. destruct (IH Hs) as [? ?].
  apply Forall_app in Hq as [? [Hp _]%Forall_cons].
  split; [by constructor|]. apply Forall_cons. done.
Qed.

Lemma add_newest idx e r :
  Forall (fun q => (q.1 < idx)%Z) (registry_ r) ->
  registry_ (registry_add idx e r) =
    if (length (registry_ r) =? DEFAULT_MAX_ENTRIES_ - 1)%nat
    then tail (registry_ r ++ [(idx, e)]) else registry_ r ++ [(idx, e)].
Proof.
  intros Hf. unfold registry_add, contains. rewrite find_above, assign_above by done.
  rewrite length_app. cbn [length with_registry registry_]. unfold erase_begin.
  destruct (Nat.eqb_spec (length (registry_ r) + 1) DEFAULT_MAX_ENTRIES_),
    (Nat.eqb_spec (length (registry_ r)) (DEFAULT_MAX_ENTRIES_ - 1)); try done;
    unfold DEFAULT_MAX_ENTRIES_ in *; lia.
Qed.

Lemma add_all_window l topic id :
  increasing l ->
  registry_ (add_all l (ServiceRegistry_of topic id)) = last_n (DEFAULT_MAX_ENTRIES_ - 1) l.
Proof.
  induction l as [|p l IH] using rev_ind; [done|].
  intros [Hl Hp]%increasing_snoc. unfold add_all. rewrite fold_left_app. cbn [fold_left].
  fold (add_all l (ServiceRegistry_of topic id)). specialize (IH Hl).
  rewrite add_newest by (rewrite IH; unfold last_n; by apply Forall_drop).
  rewrite IH, last_n_snoc. by destruct p.
Qed.

(** The lookups the RPC bridge needs. *)
Lemma registry_erase_lookup (idx j : SequenceNumber) r :
  registry_wf r ->
  registry_get j (registry_erase idx r) =
    if (j =? idx)%Z then (ParticipantId_invalid, sample_identity_unknown) else registry_get j r.
Proof.
  intros [Hs _]. unfold registry_get, registry_erase.
  assert (keqv j idx = (j =? idx)%Z) as Hk.
  { unfold keqv, less, Z_less. destruct (Z.eqb_spec j idx); lia. }
  destruct (contains idx (registry_ r)) eqn:Ec; cbn [registry_ with_registry].
  - rewrite find_erase, Hk by done. by destruct (j =? idx)%Z.
  - destruct (Z.eqb_spec j idx) as [->|]; [|done]. unfold contains in Ec.
    by destruct (find idx (registry_ r)).
Qed.

Lemma registry_add_lookup (idx : SequenceNumber) e (j : SequenceNumber) r :
  registry_wf r ->
  let oldest := match registry_ r with [] => idx | (k, _) :: _ => Z.min idx k end in
  registry_get j (registry_add idx e r) =
    if contains idx (registry_ r) then registry_get j r
    else if (S (length (registry_ r)) =? DEFAULT_MAX_ENTRIES_)%nat && (j =? oldest)%Z
         then (ParticipantId_invalid, sample_identity_unknown)
    else if (j =? idx)%Z then e else registry_get j r.
Proof.
  intros [Hs Hb] oldest. unfold registry_get, registry_add.
  destruct (contains idx (registry_ r)) eqn:Ec; [reflexivity|].
  assert (find idx (registry_ r) = None) as E.
  { unfold contains in Ec. by destruct (find idx (registry_ r)). }
  rewrite length_assign_absent by done. cbn [registry_ with_registry].
  assert (keqv j idx = (j =? idx)%Z) as Hk.
  { unfold keqv, less, Z_less. destruct (Z.eqb_spec j idx); lia. }
  pose proof (find_assign idx e (registry_ r) j) as Hf. rewrite Hk in Hf.
  destruct (_ =? _)%nat; simpl; [|rewrite Hf; by destruct (j =? idx)%Z].
  rewrite find_erase_begin by (by apply map_wf_assign).
  pose proof (head_assign idx e _ E) as Hh. fold oldest in Hh.
  destruct (assign idx e (registry_ r)) as [|[k v] m']; [done|]. simpl in Hh. injection Hh as ->.
  destruct (j =? oldest)%Z; [done|]. rewrite Hf. by destruct (j =? idx)%Z.
Qed.

Lemma registry_add_fresh (idx : SequenceNumber) e r :
  registry_wf r -> find idx (registry_ r) = None -> S (length (registry_ r)) < DEFAULT_MAX_ENTRIES_ ->
  registry_get idx (registry_add idx e r) = e.
Proof.
  intros Hr E Hroom. rewrite registry_add_lookup by done. unfold contains. rewrite E.
  by rewrite (proj2 (Nat.eqb_neq _ _)), Z.eqb_refl by lia.
Qed.

Lemma registry_add_cases (idx : SequenceNumber) e (j : SequenceNumber) r :
  registry_wf r ->
  registry_get j (registry_add idx e r) = e \/ registry_get j (registry_add idx e r) = registry_get j r \/
  registry_get j (registry_add idx e r) = (ParticipantId_invalid, sample_identity_unknown).
Proof.
  intros Hr. rewrite registry_add_lookup by done. repeat (case_match_eqn; [by auto|]); auto.
Qed.

(** ** Properties *)

(** The registry never holds 5000 entries or more and its keys stay sorted,
    whatever requests are registered, erased, enabled or disabled on it. *)
Theorem registry_bounded topic id ops :
  let r := fold_left run_registry_op ops (ServiceRegistry_of topic id) in
  map_wf (registry_ r) /\ length (registry_ r) < 5000.
Proof.
  pose proof (registry_ops_wf ops _ (registry_wf_new topic id)) as [Hs Hb]. exact (conj Hs Hb).
Qed.

(** What a lookup finds after a request is registered.  A sequence number that
    is present keeps its first entry.  A new one is found with its entry, and every
    other lookup is unchanged, except that when the registry had 4999 entries the
    one with the smallest number is dropped: that of the new request itself if its
    number is the smallest. *)
Theorem registry_add_get (idx : SequenceNumber) e (j : SequenceNumber) r :
  registry_wf r ->
  let oldest := match registry_ r with [] => idx | (k, _) :: _ => Z.min idx k end in
  registry_get j (registry_add idx e r) =
    if contains idx (registry_ r) then registry_get j r
    else if (S (length (registry_ r)) =? DEFAULT_MAX_ENTRIES_)%nat && (j =? oldest)%Z
         then (ParticipantId_invalid, sample_identity_unknown)
    else if (j =? idx)%Z then e else registry_get j r.
Proof. apply registry_add_lookup. Qed.

(** C38: requests forwarded with increasing sequence numbers, as a writer gives
    them: the registry holds exactly the 4999 newest ones, in order. *)
Theorem registry_keeps_newest l topic id :
  increasing l ->
  registry_ (add_all l (ServiceRegistry_of topic id)) = last_n 4999 l.
Proof. apply add_all_window. Qed.

(** An entry that is erased is not found any more and the others are. *)
Theorem registry_erase_get (idx j : SequenceNumber) r :
  registry_wf r ->
  registry_get j (registry_erase idx r) =
    if (j =? idx)%Z then (ParticipantId_invalid, sample_identity_unknown) else registry_get j r.
Proof. apply registry_erase_lookup. Qed.

End ServiceRegistry.

(** ** Witnesses *)

#[local] Existing Instances Demo.cpp_utils Demo.fast_dds.

Definition demo_topic (name : string) : DdsTopic := DdsTopic_of 5000 name "T_Request_".
Definition demo_rpc_topic : RPCTopic :=
  mkRPCTopic "service" (demo_topic "rq/serviceRequest") (demo_topic "rr/serviceReply").
Definition demo_entry (n : Z) : registry_entry :=
  (mkParticipantId "p", mkSampleIdentity (mkGuid [n] [n]) n).
Definition demo_registry : ServiceRegistry :=
  registry_add 3%Z (demo_entry 3) (ServiceRegistry_of demo_rpc_topic (mkParticipantId "q")).

Lemma demo_registry_wf : registry_wf demo_registry.
Proof. apply registry_add_wf, registry_wf_new. Defined.

Lemma registry_add_get_witness : registry_get 5%Z (registry_add 5%Z (demo_entry 5) demo_registry) = demo_entry 5.
Proof. rewrite (registry_add_get 5%Z (demo_entry 5) 5%Z demo_registry demo_registry_wf). reflexivity. Defined.

Lemma registry_keeps_newest_witness :
  registry_ (add_all [(1%Z, demo_entry 1); (2%Z, demo_entry 2)]
    (ServiceRegistry_of demo_rpc_topic (mkParticipantId "q"))) =
  last_n 4999 [(1%Z, demo_entry 1); (2%Z, demo_entry 2)].
Proof. apply registry_keeps_newest. repeat constructor. Defined.

Lemma registry_erase_get_witness :
  registry_get 3%Z (registry_erase 3%Z demo_registry) = (ParticipantId_invalid, sample_identity_unknown).
Proof. rewrite (registry_erase_get 3%Z 3%Z demo_registry demo_registry_wf). reflexivity. Defined.
