(* ===== verification/Track.v ===== *)
(** * Tracks

    [communication/Track.cpp]: a track takes the data of one reader and writes it
    with the writers of the other participants.  The reader's listener wakes it up
    through an atomic counter, [data_available_status_], and a task of the thread
    pool runs [transmit_].

    First the operations of the object, run one at a time; then the protocol of
    the counter, with every interleaving of listeners, tasks and controllers. *)
From stdpp Require Import relations.
From S2P Require Import Prelude StdMap CppString Externals Types Topics.

(** ** What a track uses

    Readers, writers, the payload pool and the thread pool live in a world [W];
    readers and writers are referred to by pointers ([std::shared_ptr]), so that
    the tracks of a bridge share their writers. *)
Section Interface.
Context {CU : CppUtils}.

Class CommWorld (W : Type) := {
  (** [IReader] *)
  reader_enable : nat -> W -> W;
  reader_disable : nat -> W -> W;
  reader_set_callback : nat -> nat -> W -> W;
  reader_unset_callback : nat -> W -> W;
  reader_take : nat -> DataReceived -> W -> (ReturnCode * DataReceived) * W;
  (** [IWriter] *)
  writer_enable : nat -> W -> W;
  writer_disable : nat -> W -> W;
  writer_write : nat -> DataReceived -> W -> (ReturnCode * DataReceived) * W;
  (** [PayloadPool::release_payload] *)
  pool_release : Payload -> W -> Payload * W;
  (** [SlotThreadPool::slot] and [SlotThreadPool::emit] *)
  thread_pool_slot : nat -> W -> W;
  thread_pool_emit : nat -> W -> W;
  (** [std::make_unique<DataReceived>()] *)
  new_data : DataReceived
}.

End Interface.

(** ** The object *)

(** [Track::DataAvailableStatus] *)
Definition no_more_data : Z := 0.
Definition transmitting_data : Z := 1.
Definition new_data_arrived : Z := 2.

Section Track.
Context {CU : CppUtils} {W : Type} {CW : CommWorld W}.

Record Track : Type := mkTrack {
  reader_participant_id_ : ParticipantId;
  topic_ : DdsTopic;
  reader_ : nat;
  writers_ : std_map ParticipantId nat;
  enabled_ : bool;
  exit_ : bool;
  data_available_status_ : Z;
  transmit_task_id_ : nat
}.

Definition set_enabled (b : bool) (t : Track) : Track :=
  mkTrack (reader_participant_id_ t) (topic_ t) (reader_ t) (writers_ t) b (exit_ t)
    (data_available_status_ t) (transmit_task_id_ t).
Definition set_exit (b : bool) (t : Track) : Track :=
  mkTrack (reader_participant_id_ t) (topic_ t) (reader_ t) (writers_ t) (enabled_ t) b
    (data_available_status_ t) (transmit_task_id_ t).
Definition set_status (st : Z) (t : Track) : Track :=
  mkTrack (reader_participant_id_ t) (topic_ t) (reader_ t) (writers_ t) (enabled_ t) (exit_ t)
    st (transmit_task_id_ t).

(** The operations on the counter: [fetch_add(new_data_arrived)] and whether the
    task has to be emitted; [fetch_sub(transmitting_data)] and whether the loop
    ends. *)
Definition notify_status (status : Z) : Z * bool :=
  (u32 (status + new_data_arrived), (status =? no_more_data)%Z).
Definition finish_status (status : Z) : Z * bool :=
  (u32 (status - transmitting_data), (status =? transmitting_data)%Z).

Definition track_enable (s : Track * W) : Track * W :=
  let '(t, w) := s in
  if negb (enabled_ t) then
    let w1 := fold_left (fun w wr => writer_enable wr w) (values (writers_ t)) w in
    (set_enabled true t, reader_enable (reader_ t) w1)
  else (t, w).

Definition track_disable (s : Track * W) : Track * W :=
  let '(t, w) := s in
  if enabled_ t then
    let w1 := reader_disable (reader_ t) w in
    (set_enabled false t, fold_left (fun w wr => writer_disable wr w) (values (writers_ t)) w1)
  else (t, w).

(** [Track(topic, id, reader, writers, payload_pool, thread_pool, enable)];
    [task] is the identifier [utils::new_unique_task_id()] returns. *)
Definition Track_new (topic : DdsTopic) (id : ParticipantId) (reader : nat)
    (writers : std_map ParticipantId nat) (task : nat) (enable : bool) (w : W) : Track * W :=
  let t := mkTrack id topic reader writers false false no_more_data task in
  let w1 := thread_pool_slot task (reader_set_callback reader task w) in
  if enable then track_enable (t, w1) else (t, w1).

(** [~Track()] *)
Definition track_destroy (s : Track * W) : Track * W :=
  let '(t, w) := track_disable s in
  (set_exit true t, reader_unset_callback (reader_ t) w).

Definition should_transmit_ (t : Track) : bool := negb (exit_ t) && enabled_ t.

Definition data_available_ (s : Track * W) : Track * W :=
  let '(t, w) := s in
  if enabled_ t then
    let '(status, emit) := notify_status (data_available_status_ t) in
    (set_status status t, if emit then thread_pool_emit (transmit_task_id_ t) w else w)
  else (t, w).

(** The loop over the writers; the error of one of them does not stop it. *)
Fixpoint write_all (writers : list nat) (data : DataReceived) (w : W) : DataReceived * W :=
  match writers with
  | [] => (data, w)
  | wr :: writers' =>
      let '((_, data'), w') := writer_write wr data w in
      write_all writers' data' w'
  end.

(** What is done with one data: written, and its payload released. *)
Definition forward (t : Track) (data : DataReceived) (w : W) : W :=
  let '(data', w1) := write_all (values (writers_ t)) data w in
  if (0 <? payload_length (payload data'))%Z then (pool_release (payload data') w1).2 else w1.

(** [transmit_], [fuel] iterations of the loop at most. *)
Fixpoint transmit_ (fuel : nat) (s : Track * W) : Track * W :=
  match fuel with
  | 0 => s
  | S fuel' =>
      let '(t, w) := s in
      if negb (should_transmit_ t) then (t, w)
      else
        let t1 := set_status transmitting_data t in
        let '((ret, data), w1) := reader_take (reader_ t) new_data w in
        if bool_decide (ret = RETCODE_NO_DATA) then
          let '(status, finished) := finish_status (data_available_status_ t1) in
          let t2 := set_status status t1 in
          if finished then (t2, w1) else transmit_ fuel' (t2, w1)
        else if ret_not ret then transmit_ fuel' (t1, w1)
        else transmit_ fuel' (t1, forward t data w1)
  end.

(** ** One run of [transmit_] *)

(** A data written with each writer of a list in turn, whatever each write
    returns; a writer may change the data the next one gets. *)
Inductive sends : list nat -> DataReceived -> W -> DataReceived -> W -> Prop :=
| sends_nil d w : sends [] d w d w
| sends_cons wr l d w ret d1 w1 d2 w2 :
    writer_write wr d w = ((ret, d1), w1) -> sends l d1 w1 d2 w2 -> sends (wr :: l) d w d2 w2.

(** The reader gives the data of a list, with failed attempts in between, and
    then says it has none; [w'] is the world after each data was written with every
    writer and its payload, if it has one, released. *)
Inductive gives (t : Track) : W -> list DataReceived -> W -> Prop :=
| gives_none w d w' :
    reader_take (reader_ t) new_data w = ((RETCODE_NO_DATA, d), w') -> gives t w [] w'
| gives_error w ret d w1 l w' :
    reader_take (reader_ t) new_data w = ((ret, d), w1) ->
    ret <> RETCODE_NO_DATA -> ret <> RETCODE_OK -> gives t w1 l w' -> gives t w l w'
| gives_data w d w1 d' w2 w3 l w' :
    reader_take (reader_ t) new_data w = ((RETCODE_OK, d), w1) ->
    sends (values (writers_ t)) d w1 d' w2 ->
    (if decide (0 < payload_length (payload d'))%Z
     then exists p, pool_release (payload d') w2 = (p, w3) else w3 = w2) ->
    gives t w3 l w' -> gives t w (d :: l) w'.

Lemma sends_write_all l d w d' w' : sends l d w d' w' <-> write_all l d w = (d', w').
Proof.
  split.
  - induction 1 as [|wr l d w ret d1 w1 d2 w2 Hw _ IH]; [done|]. simpl. by rewrite Hw.
  - revert d w. induction l as [|wr l IH]; intros d w H; simpl in H.
    + injection H as <- <-. apply sends_nil.
    + destruct (writer_write wr d w) as [[ret d1] w1] eqn:Hw. by eapply sends_cons, IH.
Qed.

Lemma forward_sends t d w d' w2 w3 :
  sends (values (writers_ t)) d w d' w2 ->
  (if decide (0 < payload_length (payload d'))%Z
   then exists p, pool_release (payload d') w2 = (p, w3) else w3 = w2) ->
  forward t d w = w3.
Proof.
  intros Hs Hr. apply sends_write_all in Hs. unfold forward. rewrite Hs.
  case_decide as Hp.
  - destruct Hr as [p Hr]. rewrite (proj2 (Z.ltb_lt _ _) Hp). by rewrite Hr.
  - by rewrite (proj2 (Z.ltb_ge _ _)) by lia.
Qed.

#[local] Arguments forward : simpl never.

Lemma gives_forward t w d w1 l w' :
  reader_take (reader_ t) new_data w = ((RETCODE_OK, d), w1) ->
  gives t (forward t d w1) l w' -> gives t w (d :: l) w'.
Proof.
  intros Ht. unfold forward. destruct (write_all (values (writers_ t)) d w1) as [d' w2] eqn:Hs.
  intros Hg. eapply gives_data; [exact Ht|by apply sends_write_all| |exact Hg].
  case_decide as Hp.
  - rewrite (proj2 (Z.ltb_lt _ _) Hp). destruct (pool_release _ w2) as [p w3]. by exists p.
  - by rewrite (proj2 (Z.ltb_ge _ _)) by lia.
Qed.

Context {CL : CppUtilsLaws}.

Lemma ret_not_ok : ret_not RETCODE_OK = false.
Proof. rewrite ret_not_spec. by rewrite bool_decide_false by (intros H; by apply H). Qed.

Lemma ret_not_error r : r <> RETCODE_OK -> ret_not r = true.
Proof. intros. rewrite ret_not_spec. by rewrite bool_decide_true. Qed.

Lemma gives_set_status t st w l w' : gives t w l w' -> gives (set_status st t) w l w'.
Proof.
  induction 1 as [w d w' H|w ret d w1 l w' H H1 H2 _ IH|w d w1 d' w2 w3 l w' H Hs Hr _ IH].
  - by eapply gives_none.
  - by eapply gives_error.
  - by eapply gives_data.
Qed.

Lemma set_status_twice st st' t : set_status st (set_status st' t) = set_status st t.
Proof. done. Qed.

(** ** The protocol

    The state shared by the threads: the flags and the counter, the data waiting
    in the reader, the listeners inside [data_available_] (before the test of
    [enabled_], before the addition, before the emission), the tasks emitted that do
    not hold [on_transmission_mutex_], where the task that holds it is, and the
    history of the data that arrived and that was sent. *)
Context {D : Type}.

Inductive transmit_pc : Type :=
| at_loop
| at_store
| at_take
| at_subtract
| at_send (d : D).

Record pstate : Type := mkP {
  p_enabled : bool;
  p_exit : bool;
  p_status : Z;
  p_queue : list D;
  cb_pending : nat;
  cb_checked : nat;
  cb_emitting : nat;
  tasks : nat;
  p_run : option transmit_pc;
  arrived : list D;
  sent : list D
}.


(** Steps of the listeners and the tasks.  Fewer than [2 ^ 31] notifications
    arrive between two stores of the counter (guard of [step_add]). *)
Inductive step : pstate -> pstate -> Prop :=
| step_arrive d e x st q c1 c2 c3 ts r ar se :
    (** the reader gets a data and will call the listener *)
    step (mkP e x st q c1 c2 c3 ts r ar se)
         (mkP e x st (q ++ [d]) (S c1) c2 c3 ts r (ar ++ [d]) se)
| step_check x st q c1 c2 c3 ts r ar se :
    step (mkP true x st q (S c1) c2 c3 ts r ar se) (mkP true x st q c1 (S c2) c3 ts r ar se)
| step_ignore x st q c1 c2 c3 ts r ar se :
    (** not enabled: the listener returns *)
    step (mkP false x st q (S c1) c2 c3 ts r ar se) (mkP false x st q c1 c2 c3 ts r ar se)
| step_add e x st q c1 c2 c3 ts r ar se :
    (st + new_data_arrived < 2 ^ 32)%Z ->
    step (mkP e x st q c1 (S c2) c3 ts r ar se)
         (mkP e x (notify_status st).1 q c1 c2 (if (notify_status st).2 then S c3 else c3) ts r ar se)
| step_emit e x st q c1 c2 c3 ts r ar se :
    step (mkP e x st q c1 c2 (S c3) ts r ar se) (mkP e x st q c1 c2 c3 (S ts) r ar se)
| step_lock e x st q c1 c2 c3 ts ar se :
    (** a task takes [on_transmission_mutex_] *)
    step (mkP e x st q c1 c2 c3 (S ts) None ar se) (mkP e x st q c1 c2 c3 ts (Some at_loop) ar se)
| step_loop e x st q c1 c2 c3 ts ar se :
    negb x && e = true ->
    step (mkP e x st q c1 c2 c3 ts (Some at_loop) ar se)
         (mkP e x st q c1 c2 c3 ts (Some at_store) ar se)
| step_leave e x st q c1 c2 c3 ts ar se :
    (** [should_transmit_] is false: the task ends *)
    negb x && e = false ->
    step (mkP e x st q c1 c2 c3 ts (Some at_loop) ar se) (mkP e x st q c1 c2 c3 ts None ar se)
| step_store e x st q c1 c2 c3 ts ar se :
    step (mkP e x st q c1 c2 c3 ts (Some at_store) ar se)
         (mkP e x transmitting_data q c1 c2 c3 ts (Some at_take) ar se)
| step_take e x st d q c1 c2 c3 ts ar se :
    step (mkP e x st (d :: q) c1 c2 c3 ts (Some at_take) ar se)
         (mkP e x st q c1 c2 c3 ts (Some (at_send d)) ar se)
| step_no_data e x st c1 c2 c3 ts ar se :
    step (mkP e x st [] c1 c2 c3 ts (Some at_take) ar se)
         (mkP e x st [] c1 c2 c3 ts (Some at_subtract) ar se)
| step_take_error e x st q c1 c2 c3 ts ar se :
    step (mkP e x st q c1 c2 c3 ts (Some at_take) ar se)
         (mkP e x st q c1 c2 c3 ts (Some at_loop) ar se)
| step_subtract e x st q c1 c2 c3 ts ar se :
    step (mkP e x st q c1 c2 c3 ts (Some at_subtract) ar se)
         (mkP e x (finish_status st).1 q c1 c2 c3 ts
            (if (finish_status st).2 then None else Some at_loop) ar se)
| step_send e x st d q c1 c2 c3 ts ar se :
    step (mkP e x st q c1 c2 c3 ts (Some (at_send d)) ar se)
         (mkP e x st q c1 c2 c3 ts (Some at_loop) ar (se ++ [d])).

(** Steps of whoever enables and disables the track. *)
Inductive control : pstate -> pstate -> Prop :=
| control_enable x st q c1 c2 c3 ts r ar se :
    control (mkP false x st q c1 c2 c3 ts r ar se) (mkP true x st q c1 c2 c3 ts r ar se)
| control_disable x st q c1 c2 c3 ts r ar se :
    control (mkP true x st q c1 c2 c3 ts r ar se) (mkP false x st q c1 c2 c3 ts r ar se).

Definition any_step (s s' : pstate) : Prop := step s s' \/ control s s'.

Definition alive (s : pstate) : nat :=
  cb_emitting s + tasks s + match p_run s with Some _ => 1 | None => 0 end.









(** A task wherever it is gets back to the head of the loop, or ends. *)
Lemma run_to_loop e x st q c1 c2 c3 ts pc ar se :
  (0 < st < 2 ^ 32)%Z -> pc <> at_subtract -> e = true -> x = false ->
  exists st' q' se', rtc step (mkP e x st q c1 c2 c3 ts (Some pc) ar se)
      (mkP e x st' q' c1 c2 c3 ts (Some at_loop) ar se') /\
    se' ++ q' = se ++ match pc with at_send d => [d] | _ => [] end ++ q.
Proof.
  intros Hst Hpc -> ->. destruct pc as [| | | |d]; [| | |done|].
  - eexists _, _, _. split; [apply rtc_refl|done].
  - eexists _, _, _. split; [|reflexivity].
    eapply rtc_l; [apply step_store|]. eapply rtc_l; [apply step_take_error|]. apply rtc_refl.
  - eexists _, _, _. split; [|reflexivity]. eapply rtc_l; [apply step_take_error|]. apply rtc_refl.
  - eexists _, _, _. split; [eapply rtc_l; [apply step_send|apply rtc_refl]|]. by rewrite <- app_assoc.
Qed.

(** A stopped track: no task and no listener that will emit one, and the counter
    not at zero. *)
Definition stalled (s : pstate) : Prop := alive s = 0 /\ (0 < p_status s < 2 ^ 32)%Z.

Lemma stalled_forever s s' : any_step s s' -> stalled s -> stalled s' /\ sent s' = sent s.
Proof.
  intros [Hs|Hs] [Ha Hst]; destruct Hs; unfold stalled, alive in *; simpl in *; try lia; try done.
  unfold new_data_arrived, no_more_data in *.
  rewrite u32_small, (proj2 (Z.eqb_neq st 0)) by lia. split; [|done]. lia.
Qed.

Lemma stalled_run s s' : rtc any_step s s' -> stalled s -> sent s' = sent s.
Proof.
  induction 1 as [|a b c Hab _ IH]; [done|]. intros Hs.
  destruct (stalled_forever _ _ Hab Hs) as [Hb <-]. by apply IH.
Qed.





(** The loop ends, with fuel for its iterations, when the reader has no more data. *)
Lemma transmit_gives (t : Track) (w : W) l w' :
  should_transmit_ t = true -> gives t w l w' ->
  exists n, forall fuel, n <= fuel -> transmit_ fuel (t, w) = (set_status no_more_data t, w').
Proof.
  intros Hst Hg. revert t w l w' Hst Hg.
  assert (forall t w l w', gives t w l w' -> forall st, should_transmit_ (set_status st t) = true ->
    exists n, forall fuel, n <= fuel ->
      transmit_ fuel (set_status st t, w) = (set_status no_more_data t, w')) as Hgen.
  { intros t w l w'. induction 1 as [w d w' H|w ret d w1 l w' H H1 H2 _ IH|w d w1 d' w2 w3 l w' H Hs Hr _ IH];
      intros st Hst.
    - exists 1. intros [|fuel] Hf; [lia|]. simpl. rewrite Hst. simpl. by rewrite H.
    - destruct (IH transmitting_data Hst) as (n & Hn). exists (S n). intros [|fuel] Hf; [lia|].
      simpl. rewrite Hst. simpl. rewrite H. simpl. rewrite bool_decide_false by done.
      rewrite ret_not_error by done. rewrite set_status_twice. apply Hn. lia.
    - destruct (IH transmitting_data Hst) as (n & Hn). exists (S n). intros [|fuel] Hf; [lia|].
      simpl. rewrite Hst. simpl. rewrite H. simpl. rewrite ret_not_ok.
      match goal with |- context [forward ?x _ _] => rewrite (forward_sends x _ _ _ _ _ Hs Hr) end.
      rewrite set_status_twice. apply Hn. lia. }
  intros t w l w' Hst Hg. specialize (Hgen t w l w' Hg (data_available_status_ t)).
  replace (set_status (data_available_status_ t) t) with t in Hgen by (by destruct t). auto.
Qed.

(** ** Properties *)



(** A track disabled while its task is running never transmits again.  If the
    task is at the head of its loop when [disable] is called, the task ends without
    setting the counter back to zero; from then on, whatever is enabled, disabled or
    received, no task is emitted and nothing is sent. *)
Theorem track_stalls_after_disable st q c1 c2 ar se s :
  (0 < st < 2 ^ 32)%Z ->
  let running := mkP true false st q c1 c2 0 0 (Some at_loop) ar se in
  let disabled := mkP false false st q c1 c2 0 0 (Some at_loop) ar se in
  let ended := mkP false false st q c1 c2 0 0 None ar se in
  let enabled := mkP true false st q c1 c2 0 0 None ar se in
  control running disabled /\ step disabled ended /\ control ended enabled /\
  (rtc any_step enabled s -> sent s = se).
Proof.
  intros Hst running disabled ended enabled.
  split_and!; [apply control_disable|by apply step_leave|apply control_enable|].
  intros Hr. rewrite (stalled_run _ _ Hr); [done|]. unfold stalled. simpl. done.
Qed.

(** One run of [transmit_] of an enabled track, alone: if the reader gives the
    data of a list [l] and then has none, the loop ends, with fuel for the
    iterations, after every data of [l] was written with every writer, also after
    a write that failed, and its payload released, and the counter is back to [no_more_data]; failed attempts to
    take are skipped. *)
Theorem transmit_forwards_all (t : Track) (w : W) l w' :
  should_transmit_ t = true -> gives t w l w' ->
  exists n, forall fuel, n <= fuel -> transmit_ fuel (t, w) = (set_status no_more_data t, w').
Proof. apply transmit_gives. Qed.

End Track.

(** ** Witnesses *)

#[local] Existing Instances Demo.cpp_utils Demo.cpp_utils_laws Demo.fast_dds.

Definition demo_data (n : Z) : DataReceived :=
  mkDataReceived (mkPayload (Some 0) n n 0)
    (mkDataProperties SpecificEndpointQoS_default [] ALIVE 0 (mkGuid [n] [n])
      ParticipantId_invalid (fuzzy_init (mkWriteParams sample_identity_unknown sample_identity_unknown)) 0%Z) 0%Z.

(** A world with one queue to read and the list of what is written. *)
#[local] Instance demo_world : CommWorld (list DataReceived * list DataReceived) := {|
  reader_enable _ w := w;
  reader_disable _ w := w;
  reader_set_callback _ _ w := w;
  reader_unset_callback _ w := w;
  reader_take _ d w :=
    match w.1 with [] => ((RETCODE_NO_DATA, d), w) | x :: q => ((RETCODE_OK, x), (q, w.2)) end;
  writer_enable _ w := w;
  writer_disable _ w := w;
  writer_write _ d w := ((RETCODE_OK, d), (w.1, w.2 ++ [d]));
  pool_release p w := (p, w);
  thread_pool_slot _ w := w;
  thread_pool_emit _ w := w;
  new_data := demo_data 0
|}.

Definition demo_track : Track :=
  mkTrack (mkParticipantId "a") (DdsTopic_of 5000 "t" "T") 0 [(mkParticipantId "b", 1)] true false 2 0.

Lemma transmit_forwards_all_witness :
  exists n, forall fuel, n <= fuel ->
    transmit_ fuel (demo_track, ([demo_data 1; demo_data 2], [])) =
      (set_status no_more_data demo_track, ([], [demo_data 1; demo_data 2])).
Proof.
  eapply (transmit_forwards_all demo_track _ [demo_data 1; demo_data 2]); [reflexivity|].
  eapply gives_forward; [reflexivity|]. eapply gives_forward; [reflexivity|].
  by eapply gives_none.
Defined.





(** The data 7 is in the reader when the track is disabled; 8 arrives after it is
    enabled again: neither is ever sent. *)
Lemma track_stalls_after_disable_witness :
  exists s, rtc any_step (mkP true false 2 [7] 0 0 0 0 None [7] []) s /\
    p_queue s = [7; 8] /\ cb_pending s = 0 /\ forall s', rtc any_step s s' -> sent s' = [].
Proof.
  set (enabled := mkP true false 2 [7] 0 0 0 0 None [7] []).
  assert (rtc any_step enabled (mkP true false 4 [7; 8] 0 0 0 0 None [7; 8] [])) as Hr.
  { eapply rtc_l; [left; apply (step_arrive 8)|]. eapply rtc_l; [left; apply step_check|].
    eapply rtc_l; [left; by apply step_add|]. apply rtc_refl. }
  eexists. split; [exact Hr|]. split_and!; [done|done|]. intros s' Hr'.
  refine (proj2 (proj2 (proj2 (track_stalls_after_disable 2 [7] 0 0 [7] [] s' _))) _); [lia|].
  by etrans.
Defined.
