(* ===== verification/Auxiliar.v ===== *)
(** * Auxiliary readers and writers

    [reader/implementations/auxiliar] and [writer/implementations/auxiliar]: the
    base classes of every reader and writer, the blank ones that do nothing, the
    dummy ones that simulate a network and the writer that echoes what it gets.
    They are the objects of a world that tracks work on, over a
    [FastPayloadPool]. *)
From stdpp Require Import gmap.
From S2P Require Import Prelude StdMap CppString Externals Types Topics PayloadPool Track.

(** ** BaseReader *)
Section BaseReader.
Context {CU : CppUtils}.

Record BaseReader : Type := mkBaseReader {
  br_participant_id_ : ParticipantId;
  br_topic_ : DdsTopic;
  (** the track whose [data_available_] is called; [None] is the default callback *)
  on_data_available_lambda_ : option nat;
  on_data_available_lambda_set_ : bool;
  br_enabled_ : bool
}.

Definition BaseReader_of (id : ParticipantId) (topic : DdsTopic) : BaseReader :=
  mkBaseReader id topic None false false.

Definition br_set_enabled (b : bool) (r : BaseReader) : BaseReader :=
  mkBaseReader (br_participant_id_ r) (br_topic_ r) (on_data_available_lambda_ r)
    (on_data_available_lambda_set_ r) b.
Definition br_set_callback (cb : option nat) (set : bool) (r : BaseReader) : BaseReader :=
  mkBaseReader (br_participant_id_ r) (br_topic_ r) cb set (br_enabled_ r).

(** [BaseReader::enable_] and [BaseReader::disable_] do nothing. *)
Definition br_enable_ (r : BaseReader) : BaseReader := r.
Definition br_disable_ (r : BaseReader) : BaseReader := r.

Definition br_enable (r : BaseReader) : BaseReader :=
  if negb (br_enabled_ r) then br_enable_ (br_set_enabled true r) else r.
Definition br_disable (r : BaseReader) : BaseReader :=
  if br_enabled_ r then br_disable_ (br_set_enabled false r) else r.
Definition br_set_on_data_available_callback (track : nat) (r : BaseReader) : BaseReader :=
  br_set_callback (Some track) true r.
Definition br_unset_on_data_available_callback (r : BaseReader) : BaseReader :=
  br_set_callback None false r.

(** [on_data_available_]: the track to call, if a callback is set *)
Definition br_on_data_available_ (r : BaseReader) : option nat :=
  if on_data_available_lambda_set_ r then on_data_available_lambda_ r else None.

End BaseReader.

(** ** BaseWriter *)
Section BaseWriter.
Context {CU : CppUtils}.

Record BaseWriter : Type := mkBaseWriter {
  bw_participant_id_ : ParticipantId;
  bw_topic_ : DdsTopic;
  bw_enabled_ : bool
}.

Definition BaseWriter_of (id : ParticipantId) (topic : DdsTopic) : BaseWriter :=
  mkBaseWriter id topic false.

Definition bw_set_enabled (b : bool) (w : BaseWriter) : BaseWriter :=
  mkBaseWriter (bw_participant_id_ w) (bw_topic_ w) b.

(** [BaseWriter::enable_] and [BaseWriter::disable_] do nothing. *)
Definition bw_enable_ (w : BaseWriter) : BaseWriter := w.
Definition bw_disable_ (w : BaseWriter) : BaseWriter := w.

Definition bw_enable (w : BaseWriter) : BaseWriter :=
  if negb (bw_enabled_ w) then bw_enable_ (bw_set_enabled true w) else w.
Definition bw_disable (w : BaseWriter) : BaseWriter :=
  if bw_enabled_ w then bw_disable_ (bw_set_enabled false w) else w.

End BaseWriter.

(** ** Dummy and echo endpoints *)

Record DummyDataReceived : Type := mkDummyReceived {
  dr_payload : list Z;
  dr_source_guid : Guid
}.

Record DummyDataStored : Type := mkDummyStored {
  ds_payload : list (option Z);
  ds_source_guid : Guid;
  ds_timestamp : Z
}.

Section Objects.
Context {CU : CppUtils} {FD : FastDDS}.

Record DummyReader : Type := mkDummyReader {
  dr_base : BaseReader;
  data_to_send_ : list DummyDataReceived
}.

Record DummyWriter : Type := mkDummyWriter {
  dw_base : BaseWriter;
  data_stored_ : list DummyDataStored
}.

(** What [EchoWriter] prints: the participant that received the data and the
    topic; the source, the payload and the QoS too if verbose. *)
Inductive echo_line : Type :=
| echo_brief (receiver : ParticipantId) (topic : DdsTopic)
| echo_verbose (source : Guid) (receiver : ParticipantId) (topic : DdsTopic) (p : Payload)
    (qos : SpecificEndpointQoS).

Record EchoWriter : Type := mkEchoWriter {
  ew_topic_ : DdsTopic;
  verbose_ : bool
}.

Definition EchoWriter_line (e : EchoWriter) (d : DataReceived) : echo_line :=
  if negb (verbose_ e)
  then echo_brief (participant_receiver (properties d)) (ew_topic_ e)
  else echo_verbose (source_guid (properties d)) (participant_receiver (properties d)) (ew_topic_ e)
         (payload d) (writer_qos (properties d)).

Inductive reader_obj : Type :=
| BlankReader
| DummyReaderObj (r : DummyReader).

Inductive writer_obj : Type :=
| BlankWriter
| EchoWriterObj (w : EchoWriter)
| DummyWriterObj (w : DummyWriter).

(** The readers and writers by address, the memory and the pool, the log of the
    echo writers, the slots and the tasks emitted to the thread pool, the clock, and
    the exception that left a [noexcept] method, if any: the program ends there. *)
Record aux_world : Type := mkAux {
  aw_heap : heap;
  aw_pool : PayloadPool;
  aw_readers : gmap nat reader_obj;
  aw_writers : gmap nat writer_obj;
  aw_log : list echo_line;
  aw_slots : list nat;
  aw_emitted : list nat;
  aw_now : Z;
  aw_aborted : option exn
}.

Definition aw_set_memory (h : heap) (p : PayloadPool) (w : aux_world) : aux_world :=
  mkAux h p (aw_readers w) (aw_writers w) (aw_log w) (aw_slots w) (aw_emitted w) (aw_now w) (aw_aborted w).
Definition aw_set_readers (m : gmap nat reader_obj) (w : aux_world) : aux_world :=
  mkAux (aw_heap w) (aw_pool w) m (aw_writers w) (aw_log w) (aw_slots w) (aw_emitted w) (aw_now w) (aw_aborted w).
Definition aw_set_writers (m : gmap nat writer_obj) (w : aux_world) : aux_world :=
  mkAux (aw_heap w) (aw_pool w) (aw_readers w) m (aw_log w) (aw_slots w) (aw_emitted w) (aw_now w) (aw_aborted w).
Definition aw_add_log (l : echo_line) (w : aux_world) : aux_world :=
  mkAux (aw_heap w) (aw_pool w) (aw_readers w) (aw_writers w) (aw_log w ++ [l]) (aw_slots w) (aw_emitted w)
    (aw_now w) (aw_aborted w).
Definition aw_set_tasks (slots emitted : list nat) (w : aux_world) : aux_world :=
  mkAux (aw_heap w) (aw_pool w) (aw_readers w) (aw_writers w) (aw_log w) slots emitted (aw_now w) (aw_aborted w).
Definition aw_abort (e : exn) (w : aux_world) : aux_world :=
  mkAux (aw_heap w) (aw_pool w) (aw_readers w) (aw_writers w) (aw_log w) (aw_slots w) (aw_emitted w) (aw_now w)
    (Some e).

(** A [noexcept] method. *)
Definition noexcept {A} (m : prog aux_world A) (dflt : A) (w : aux_world) : A * aux_world :=
  match m w with
  | (Ok a, w') => (a, w')
  | (Throw e, w') => (dflt, aw_abort e w')
  end.

Context {MA : Malloc}.

(** A method of the payload pool on the payload of a data. *)
Definition on_pool {A} (p : Payload) (m : prog PayloadPool.pstate A) : prog aux_world (A * Payload) := fun w =>
  let '(r, s) := m (PayloadPool.mkP (aw_heap w) (aw_pool w) p) in
  let w' := aw_set_memory (p_heap s) (p_pool s) w in
  match r with
  | Ok a => (Ok (a, p_target s), w')
  | Throw e => (Throw e, w')
  end.

(** [data[i] = bs[i]] for every [i] *)
Definition store_bytes (data : option nat) (bs : list Z) : prog aux_world unit := fun w =>
  match bs with
  | [] => (Ok tt, w)
  | _ =>
      match data with
      | Some a =>
          match aw_heap w !! a with
          | Some b =>
              if (length bs <=? length (bytes b))%nat
              then (Ok tt, aw_set_memory (<[a := mkBlock (meta b)
                      ((Some <$> bs) ++ drop (length bs) (bytes b))]> (aw_heap w)) (aw_pool w) w)
              else (Throw UndefinedBehaviour, w)
          | None => (Throw UndefinedBehaviour, w)
          end
      | None => (Throw UndefinedBehaviour, w)
      end
  end.

(** [data[i]] for every [i < n] *)
Definition load_bytes (data : option nat) (n : Z) : prog aux_world (list (option Z)) := fun w =>
  if (n =? 0)%Z then (Ok [], w)
  else match data with
  | Some a =>
      match aw_heap w !! a with
      | Some b =>
          if (n <=? Z.of_nat (length (bytes b)))%Z then (Ok (take (Z.to_nat n) (bytes b)), w)
          else (Throw UndefinedBehaviour, w)
      | None => (Throw UndefinedBehaviour, w)
      end
  | None => (Throw UndefinedBehaviour, w)
  end.

Definition set_source_guid (g : Guid) (d : DataReceived) : DataReceived :=
  let p := properties d in
  set_properties (mkDataProperties (writer_qos p) (instanceHandle p) (kind p) (source_timestamp p) g
    (participant_receiver p) (write_params p) (origin_sequence_number p)) d.

(** [DummyReader::simulate_data_reception]: the data is stored and the callback, if
    any, is the track returned. *)
Definition simulate_data_reception (data : DummyDataReceived) (r : DummyReader) :
    DummyReader * option nat :=
  (mkDummyReader (dr_base r) (data_to_send_ r ++ [data]), br_on_data_available_ (dr_base r)).

(** [DummyReader::take_] of the reader at [ptr] *)
Definition dummy_take_ (ptr : nat) (r : DummyReader) (data : DataReceived) :
    prog aux_world (ReturnCode * DataReceived) :=
  match data_to_send_ r with
  | [] => mret (RETCODE_NO_DATA, data)
  | next :: rest =>
      modify (fun w => aw_set_readers
        (<[ptr := DummyReaderObj (mkDummyReader (dr_base r) rest)]> (aw_readers w)) w) ;;
      let data1 := set_source_guid (dr_source_guid next) data in
      res ← on_pool (payload data1)
              (FastPayloadPool.fast_get_payload (u32 (Z.of_nat (length (dr_payload next)))));
      let p := snd res in
      store_bytes (payload_data p) (dr_payload next) ;;
      mret (RETCODE_OK, set_payload (with_length (payload_max_size p) p) data1)
  end.

(** [BaseReader::take] and [BlankReader::take] *)
Definition aux_take (ptr : nat) (data : DataReceived) : prog aux_world (ReturnCode * DataReceived) :=
  w ← get;
  match aw_readers w !! ptr with
  | Some BlankReader => mret (RETCODE_NO_DATA, data)
  | Some (DummyReaderObj r) =>
      if br_enabled_ (dr_base r) then dummy_take_ ptr r data else mret (RETCODE_NOT_ENABLED, data)
  | None => throw UndefinedBehaviour
  end.

(** [DummyWriter::write_] of the writer at [ptr] *)
Definition dummy_write_ (ptr : nat) (wr : DummyWriter) (data : DataReceived) :
    prog aux_world (ReturnCode * DataReceived) :=
  w ← get;
  bs ← load_bytes (payload_data (payload data)) (payload_length (payload data));
  modify (fun w => aw_set_writers (<[ptr := DummyWriterObj (mkDummyWriter (dw_base wr)
    (data_stored_ wr ++ [mkDummyStored bs (source_guid (properties data)) (aw_now w)]))]> (aw_writers w)) w) ;;
  mret (RETCODE_OK, data).

(** [BaseWriter::write], [EchoWriter::write] and [BlankWriter::write] *)
Definition aux_write (ptr : nat) (data : DataReceived) : prog aux_world (ReturnCode * DataReceived) :=
  w ← get;
  match aw_writers w !! ptr with
  | Some BlankWriter => mret (RETCODE_OK, data)
  | Some (EchoWriterObj e) => modify (aw_add_log (EchoWriter_line e data)) ;; mret (RETCODE_OK, data)
  | Some (DummyWriterObj wr) =>
      if bw_enabled_ (dw_base wr) then dummy_write_ ptr wr data else mret (RETCODE_NOT_ENABLED, data)
  | None => throw UndefinedBehaviour
  end.

Definition on_reader (f : BaseReader -> BaseReader) (ptr : nat) (w : aux_world) : aux_world :=
  match aw_readers w !! ptr with
  | Some BlankReader => w
  | Some (DummyReaderObj r) =>
      aw_set_readers (<[ptr := DummyReaderObj (mkDummyReader (f (dr_base r)) (data_to_send_ r))]>
        (aw_readers w)) w
  | None => aw_abort UndefinedBehaviour w
  end.

Definition on_writer (f : BaseWriter -> BaseWriter) (ptr : nat) (w : aux_world) : aux_world :=
  match aw_writers w !! ptr with
  | Some (DummyWriterObj wr) =>
      aw_set_writers (<[ptr := DummyWriterObj (mkDummyWriter (f (dw_base wr)) (data_stored_ wr))]>
        (aw_writers w)) w
  | Some _ => w
  | None => aw_abort UndefinedBehaviour w
  end.

(** A [DataReceived] made with its default constructor. *)
Context (default_data : DataReceived).

#[export] Instance aux_comm_world : CommWorld aux_world := {|
  reader_enable := on_reader br_enable;
  reader_disable := on_reader br_disable;
  reader_set_callback ptr track := on_reader (br_set_on_data_available_callback track) ptr;
  reader_unset_callback := on_reader br_unset_on_data_available_callback;
  reader_take ptr d := noexcept (aux_take ptr d) (RETCODE_ERROR, d);
  writer_enable := on_writer bw_enable;
  writer_disable := on_writer bw_disable;
  writer_write ptr d := noexcept (aux_write ptr d) (RETCODE_ERROR, d);
  pool_release p w :=
    let '((_, p'), w') := noexcept (on_pool p FastPayloadPool.fast_release_payload) (false, p) w in (p', w');
  thread_pool_slot task w := aw_set_tasks (aw_slots w ++ [task]) (aw_emitted w) w;
  thread_pool_emit task w := aw_set_tasks (aw_slots w) (aw_emitted w ++ [task]) w;
  new_data := default_data
|}.

End Objects.

(** ** A track between dummy endpoints *)
Section EndToEnd.
Context {CU : CppUtils} {CL : CppUtilsLaws} {FD : FastDDS} {MA : Malloc} {ML : MallocLaws}.
Context (default_data : DataReceived) (default_payload : payload default_data = Payload_empty).

#[local] Existing Instance aux_comm_world.
#[local] Notation CW := (aux_comm_world default_data).

Definition stored (w : aux_world) (ptr : nat) : list DummyDataStored :=
  match aw_writers w !! ptr with Some (DummyWriterObj wr) => data_stored_ wr | _ => [] end.

(** A message, without the time it was stored. *)
Definition message (s : DummyDataStored) : list (option Z) * Guid := (ds_payload s, ds_source_guid s).
Definition received_message (d : DummyDataReceived) : list (option Z) * Guid :=
  (Some <$> dr_payload d, dr_source_guid d).

Definition dummy_enabled (w : aux_world) (ptr : nat) : Prop :=
  exists wr, aw_writers w !! ptr = Some (DummyWriterObj wr) /\ bw_enabled_ (dw_base wr) = true.

(** The reader [r] has the messages [q], the writers [ws] are enabled, and the pool
    has given the payloads [L]. *)
Record ready (w : aux_world) (r : nat) (q : list DummyDataReceived) (ws L : list nat) (H0 : gset nat) :
    Prop := {
  rd_reader : exists base, aw_readers w !! r = Some (DummyReaderObj (mkDummyReader base q)) /\
    br_enabled_ base = true;
  rd_writers : Forall (dummy_enabled w) ws;
  rd_acc : accounts (aw_heap w) (aw_pool w) L H0;
  rd_refs : FastPayloadPoolSpec.fast_refs (aw_heap w) (aw_pool w) L;
  rd_aborted : aw_aborted w = None
}.

Lemma dummy_write_run w ptr wr d a b :
  aw_writers w !! ptr = Some (DummyWriterObj wr) -> bw_enabled_ (dw_base wr) = true ->
  payload_data (payload d) = Some a -> aw_heap w !! a = Some b ->
  payload_length (payload d) = Z.of_nat (length (bytes b)) -> bytes b <> [] ->
  writer_write (CommWorld := CW) ptr d w =
    ((RETCODE_OK, d), aw_set_writers (<[ptr := DummyWriterObj (mkDummyWriter (dw_base wr)
      (data_stored_ wr ++ [mkDummyStored (bytes b) (source_guid (properties d)) (aw_now w)]))]>
      (aw_writers w)) w).
Proof.
  intros Hw He Hd Hb Hl Hne. cbn [writer_write aux_comm_world].
  unfold noexcept, aux_write, dummy_write_, load_bytes. run_prog. rewrite Hw, He. run_prog.
  rewrite Hd, Hb, Hl. rewrite (proj2 (Z.eqb_neq _ 0)) by (destruct (bytes b); simpl; [done|lia]).
  rewrite (proj2 (Z.leb_le _ _)) by lia. run_prog. by rewrite Nat2Z.id, firstn_all.
Qed.

(** Writing a message with every writer of a list appends it to each of them. *)
Lemma write_all_run ws d a b w :
  NoDup ws -> Forall (dummy_enabled w) ws ->
  payload_data (payload d) = Some a -> aw_heap w !! a = Some b ->
  payload_length (payload d) = Z.of_nat (length (bytes b)) -> bytes b <> [] ->
  exists m, write_all (CW := CW) ws d w = (d, aw_set_writers m w) /\
    Forall (dummy_enabled (aw_set_writers m w)) ws /\
    (forall p, p ∉ ws -> m !! p = aw_writers w !! p) /\
    (forall p, p ∈ ws -> message <$> stored (aw_set_writers m w) p =
       (message <$> stored w p) ++ [(bytes b, source_guid (properties d))]).
Proof.
  intros Hnd Hen Hd Hb Hl Hne. revert w Hen Hb.
  induction Hnd as [|ptr ws Hnin Hnd IH]; intros w Hen Hb.
  { exists (aw_writers w). simpl. split_and!; [by destruct w|done|done|set_solver]. }
  apply Forall_cons in Hen as [(wr & Hw & He) Hen]. cbn [write_all].
  rewrite (dummy_write_run w ptr wr d a b) by done.
  set (w1 := aw_set_writers _ w).
  assert (forall p, p ∈ ws -> aw_writers w1 !! p = aw_writers w !! p) as Hother.
  { intros p Hp. unfold w1. simpl. apply lookup_insert_ne. set_solver. }
  destruct (IH w1) as (m & Hrun & Hen' & Hout & Hin); [|done|].
  { apply Forall_forall. intros p Hp. rewrite Forall_forall in Hen.
    destruct (Hen p Hp) as (wr' & Hw' & He'). exists wr'. by rewrite Hother. }
  assert (m !! ptr = aw_writers w1 !! ptr) as Hptr by (by apply Hout).
  exists m. split_and!.
  - rewrite Hrun. done.
  - constructor; [|exact Hen']. eexists. simpl. rewrite Hptr. unfold w1. simpl.
    rewrite lookup_insert_eq. done.
  - intros p Hp. rewrite Hout by set_solver. unfold w1. simpl. apply lookup_insert_ne. set_solver.
  - intros p [->|Hp]%elem_of_cons.
    + unfold stored at 1. simpl. rewrite Hptr. unfold w1. simpl. rewrite lookup_insert_eq. simpl.
      rewrite fmap_app. unfold stored. by rewrite Hw.
    + specialize (Hin p Hp). unfold stored in *. cbn [aw_writers aw_set_writers] in *.
      rewrite Hin. by rewrite Hother.
Qed.

(** A message the dummy reader can hold. *)
Definition good_message (d : DummyDataReceived) : Prop :=
  dr_payload d <> [] /\ (Z.of_nat (length (dr_payload d)) < 2 ^ 32)%Z.

(** The state after a message was taken: its bytes are in a new block. *)
Lemma dummy_take_run w r next q ws L H0 :
  ready w r (next :: q) ws L H0 -> good_message next ->
  (reserve_count_ (aw_pool w) + 1 < 2 ^ 64)%Z ->
  exists a d w1, reader_take (CommWorld := CW) r (new_data (CommWorld := CW)) w = ((RETCODE_OK, d), w1) /\
    ready w1 r q ws (a :: L) H0 /\ aw_writers w1 = aw_writers w /\ aw_now w1 = aw_now w /\
    reserve_count_ (aw_pool w1) = (reserve_count_ (aw_pool w) + 1)%Z /\
    payload_data (payload d) = Some a /\
    payload_length (payload d) = Z.of_nat (length (dr_payload next)) /\
    source_guid (properties d) = dr_source_guid next /\
    (exists m, aw_heap w1 !! a = Some (mkBlock m (Some <$> dr_payload next))).
Proof.
  intros [(base & Hr & He) Hw Hacc Hrefs Hab] [Hne Hlen] Hmax.
  set (n := Z.of_nat (length (dr_payload next))).
  assert (0 < n)%Z as Hpos by (unfold n; destruct (dr_payload next); [done|simpl; lia]).
  destruct (FastPayloadPoolSpec.fast_spec_get n (PayloadPool.mkP (aw_heap w) (aw_pool w) Payload_empty) L H0)
    as (a & s' & Hrun & Hacc' & Hrefs' & _ & _ & (b & Hb & Hlb) & Ht); try done.
  assert (reserve_count_ (p_pool s') = reserve_count_ (aw_pool w) + 1)%Z as Hcount.
  { revert Hrun. unfold FastPayloadPool.fast_get_payload, FastPayloadPool.reserve_, set_heap, set_target.
    run_prog. rewrite (proj2 (Z.eqb_neq n 0)) by lia. run_prog. rewrite add_reserved_run.
    intros [= <-]. simpl. rewrite u64_small; [done|].
    pose proof (acc_release _ _ _ _ Hacc). pose proof (acc_count _ _ _ _ Hacc). lia. }
  assert (length (dr_payload next) = length (bytes b)) as Hlb' by lia.
  assert (payload_data (p_target s') = Some a) as Hpd by (by rewrite Ht).
  assert (payload_max_size (p_target s') = n) as Hpm by (by rewrite Ht).
  set (d := set_payload (with_length n (p_target s')) (set_source_guid (dr_source_guid next) default_data)).
  exists a, d. eexists. split_and!.
  - cbn [reader_take aux_comm_world new_data]. unfold noexcept, aux_take, dummy_take_. run_prog.
    rewrite Hr. cbn [dr_base]. rewrite He. cbn [data_to_send_]. run_prog.
    rewrite u32_small by lia. unfold on_pool. cbn [payload set_source_guid set_properties].
    rewrite default_payload.
    change (aw_heap (aw_set_readers _ w)) with (aw_heap w).
    change (aw_pool (aw_set_readers _ w)) with (aw_pool w). fold n. rewrite Hrun. cbn [fst snd].
    unfold store_bytes. rewrite Hpd.
    cbn [aw_heap aw_set_memory]. rewrite Hb.
    rewrite (proj2 (Nat.leb_le _ _)) by lia.
    destruct (dr_payload next) as [|z zs] eqn:Ep; [done|]. rewrite <- Ep. run_prog.
    rewrite Hpm. reflexivity.
  - split; cbn [aw_readers aw_heap aw_pool aw_aborted aw_writers aw_set_memory aw_set_readers]; try done.
    + exists base. by rewrite lookup_insert_eq.
    + by eapply accounts_bytes.
    + destruct (Hrefs' a) as (bs & E); [set_solver|]. rewrite Hb in E. injection E as ->. cbn [meta].
      eapply FastPayloadPoolSpec.fast_refs_update; [exact Hrefs'|by right|done|done].
  - done.
  - done.
  - done.
  - exact Hpd.
  - done.
  - done.
  - exists (meta b). cbn [aw_heap aw_set_memory]. rewrite lookup_insert_eq.
    rewrite Hlb', drop_all, app_nil_r. done.
Qed.

Lemma pool_release_run w p a L H0 :
  accounts (aw_heap w) (aw_pool w) (a :: L) H0 ->
  FastPayloadPoolSpec.fast_refs (aw_heap w) (aw_pool w) (a :: L) ->
  (Z.of_nat (length (a :: L)) < 2 ^ 32)%Z -> payload_data p = Some a ->
  exists h pool, (pool_release (CommWorld := CW) p w).2 = aw_set_memory h pool w /\
    accounts h pool L H0 /\ FastPayloadPoolSpec.fast_refs h pool L /\
    reserve_count_ pool = reserve_count_ (aw_pool w).
Proof.
  intros Hacc Hr HL Hp.
  destruct (FastPayloadPoolSpec.fast_spec_release a (PayloadPool.mkP (aw_heap w) (aw_pool w) p) L H0)
    as (s' & Hrun & Hacc' & Hr' & _ & _); try done.
  exists (p_heap s'), (p_pool s'). split_and!; try done.
  - cbn [pool_release aux_comm_world]. unfold noexcept, on_pool. by rewrite Hrun.
  - by apply FastPayloadPoolSpec.fast_release_reserved in Hrun.
Qed.

(** One message: taken, written with every writer, released. *)
Lemma one_message_run (t : Track) w r next q ws L H0 :
  reader_ t = r -> values (writers_ t) = ws -> NoDup ws ->
  ready w r (next :: q) ws L H0 -> good_message next ->
  (reserve_count_ (aw_pool w) + 1 < 2 ^ 64)%Z -> (Z.of_nat (length L) + 1 < 2 ^ 32)%Z ->
  exists d w1 w2, reader_take (CommWorld := CW) r (new_data (CommWorld := CW)) w = ((RETCODE_OK, d), w1) /\
    forward (CW := CW) t d w1 = w2 /\ ready w2 r q ws L H0 /\
    reserve_count_ (aw_pool w2) = (reserve_count_ (aw_pool w) + 1)%Z /\
    (forall p, p ∈ ws -> message <$> stored w2 p =
       (message <$> stored w p) ++ [received_message next]).
Proof.
  intros Ht Hws Hnd Hready Hgood Hmax HL.
  destruct (dummy_take_run w r next q ws L H0 Hready Hgood Hmax)
    as (a & d & w1 & Htake & Hr1 & Hw1 & Hn1 & Hc1 & Hpd & Hpl & Hsg & (mb & Hb)).
  destruct Hr1 as [Hrd Hen Hacc Hrefs Hab].
  assert (exists z zs, dr_payload next = z :: zs) as (z & zs & Ep).
  { destruct Hgood as [Hne _]. destruct (dr_payload next); [done|eauto]. }
  destruct (write_all_run ws d a (mkBlock mb (Some <$> dr_payload next)) w1)
    as (m & Hwrite & Hen2 & _ & Hst); try done.
  { simpl. by rewrite length_fmap. }
  { simpl. by rewrite Ep. }
  destruct (pool_release_run (aw_set_writers m w1) (payload d) a L H0)
    as (h & pool & Hrel & Hacc3 & Hrefs3 & Hc3); try done.
  { simpl. lia. }
  exists d, w1, (aw_set_memory h pool (aw_set_writers m w1)). split_and!; try done.
  - unfold forward. rewrite Hws, Hwrite. cbn iota beta. rewrite (proj2 (Z.ltb_lt _ _)); [exact Hrel|].
    rewrite Hpl, Ep. simpl. lia.
  - rewrite <- Hc1. exact Hc3.
  - intros p Hp. rewrite (Hst p Hp : message <$> stored (aw_set_memory h pool (aw_set_writers m w1)) p = _).
    unfold stored. rewrite Hw1. unfold received_message. by rewrite <- Hsg.
Qed.

(** All the messages of the reader. *)
Lemma gives_all (t : Track) q w r ws L H0 :
  reader_ t = r -> values (writers_ t) = ws -> NoDup ws ->
  ready w r q ws L H0 -> Forall good_message q ->
  (reserve_count_ (aw_pool w) + Z.of_nat (length q) < 2 ^ 64)%Z -> (Z.of_nat (length L) + 1 < 2 ^ 32)%Z ->
  exists l w', gives (CW := CW) t w l w' /\ ready w' r [] ws L H0 /\
    (forall p, p ∈ ws -> message <$> stored w' p =
       (message <$> stored w p) ++ (received_message <$> q)).
Proof.
  intros Ht Hws Hnd. revert w. induction q as [|next q IH]; intros w Hready Hgood Hmax HL.
  - exists [], w. split_and!; [|done|intros; by rewrite app_nil_r].
    destruct Hready as [(base & Hr & He) _ _ _ _].
    apply (gives_none t w default_data w). rewrite Ht.
    cbn [reader_take aux_comm_world new_data]. unfold noexcept, aux_take, dummy_take_. run_prog.
    rewrite Hr. cbn [dr_base]. by rewrite He.
  - apply Forall_cons in Hgood as [Hg Hgood]. simpl in Hmax.
    destruct (one_message_run t w r next q ws L H0) as (d & w1 & w2 & Htake & Hfwd & Hr2 & Hc2 & Hst2);
      try done; [lia|].
    destruct (IH w2) as (l & w' & Hgives & Hr' & Hst'); try done; [lia|].
    exists (d :: l), w'. split_and!; [|done|].
    + eapply gives_forward; [rewrite Ht; exact Htake|]. by rewrite Hfwd.
    + intros p Hp. rewrite Hst', Hst2 by done. by rewrite <- app_assoc.
Qed.

(** ** Properties *)

(** End to end, over the pool the router uses.  A track that is enabled, with a
    dummy reader that holds the messages [q] and enabled dummy writers: [transmit_]
    ends, every writer has stored the messages of [q], each byte and source of them
    and in their order, after what it had; the reader is empty, the payloads of the
    messages are all released (the memory is what it was) and no exception nor
    undefined behaviour occurred. *)
Theorem dummy_track_end_to_end (t : Track) w q L H0 :
  should_transmit_ t = true -> NoDup (values (writers_ t)) ->
  ready w (reader_ t) q (values (writers_ t)) L H0 -> Forall good_message q ->
  (reserve_count_ (aw_pool w) + Z.of_nat (length q) < 2 ^ 64)%Z -> (Z.of_nat (length L) + 1 < 2 ^ 32)%Z ->
  exists w', (exists n, forall fuel, n <= fuel ->
      transmit_ (CW := CW) fuel (t, w) = (set_status no_more_data t, w')) /\
    ready w' (reader_ t) [] (values (writers_ t)) L H0 /\
    dom (aw_heap w') = (dom (aw_heap w) : gset nat) /\
    (forall p, p ∈ values (writers_ t) -> message <$> stored w' p =
       (message <$> stored w p) ++ (received_message <$> q)).
Proof.
  intros Ht Hnd Hready Hgood Hmax HL.
  destruct (gives_all t q w (reader_ t) (values (writers_ t)) L H0) as (l & w' & Hg & Hr' & Hst); try done.
  exists w'. split_and!; try done.
  - by apply transmit_gives with (l := l).
  - by rewrite (acc_dom _ _ _ _ (rd_acc _ _ _ _ _ _ Hr')), (acc_dom _ _ _ _ (rd_acc _ _ _ _ _ _ Hready)).
Qed.

End EndToEnd.

(** ** Witnesses *)

#[local] Existing Instances Demo.cpp_utils Demo.cpp_utils_laws Demo.fast_dds PoolDemo.malloc
  PoolDemo.malloc_laws.

Definition demo_default : DataReceived :=
  mkDataReceived Payload_empty
    (mkDataProperties SpecificEndpointQoS_default [] ALIVE 0 (mkGuid [] [])
      ParticipantId_invalid (fuzzy_init (mkWriteParams sample_identity_unknown sample_identity_unknown)) 0%Z) 0%Z.

Definition demo_topic_t : DdsTopic := DdsTopic_of 5000 "t" "T".
Definition demo_messages : list DummyDataReceived :=
  [mkDummyReceived [1%Z; 2%Z] (mkGuid [1%Z] [1%Z]); mkDummyReceived [3%Z] (mkGuid [1%Z] [1%Z])].
Definition demo_aux : aux_world :=
  mkAux ∅ PayloadPool_new
    {[ 0 := DummyReaderObj (mkDummyReader (br_enable (BaseReader_of (mkParticipantId "a") demo_topic_t)) demo_messages) ]}
    {[ 1 := DummyWriterObj (mkDummyWriter (bw_enable (BaseWriter_of (mkParticipantId "b") demo_topic_t)) []) ]}
    [] [] [] 42 None.

Lemma dummy_track_end_to_end_witness :
  exists w', message <$> stored w' 1 =
    [([Some 1%Z; Some 2%Z], mkGuid [1%Z] [1%Z]); ([Some 3%Z], mkGuid [1%Z] [1%Z])].
Proof.
  destruct (dummy_track_end_to_end demo_default eq_refl
    (mkTrack (mkParticipantId "a") demo_topic_t 0 [(mkParticipantId "b", 1)] true false 2 0)
    demo_aux demo_messages [] (dom (∅ : heap))) as (w' & _ & _ & _ & Hst).
  - reflexivity.
  - apply NoDup_singleton.
  - split.
    + eexists. split; reflexivity.
    + constructor; [|constructor]. eexists. split; reflexivity.
    + apply accounts_new.
    + intros a Ha. set_solver.
    + reflexivity.
  - repeat constructor; discriminate.
  - simpl. lia.
  - simpl. lia.
  - exists w'. apply (Hst 1). by apply list_elem_of_singleton.
Defined.
