(* ===== verification/Address.v ===== *)
(** * Addresses and TLS

    [types/address] and [types/security/tls]: the addresses a participant listens
    on or connects to, and what is needed to secure them. *)
From S2P Require Import Prelude StdMap CppString Externals Types.

(** ** Network library

    [IPLocator] of Fast DDS: the syntax of IP addresses and the DNS queries (the
    sets of IPv4 and IPv6 addresses found, in order). *)
Class IPLocator := {
  isIPv4 : string -> bool;
  isIPv6 : string -> bool;
  resolveNameDNS : string -> list string * list string
}.

(** ** Address *)

Inductive IpVersion : Type := v4 | v6.
Inductive TransportProtocol : Type := udp | tcp.

#[export] Instance IpVersion_eq_dec : EqDecision IpVersion.
Proof. solve_decision. Defined.
#[export] Instance TransportProtocol_eq_dec : EqDecision TransportProtocol.
Proof. solve_decision. Defined.

(** The values of the enumerations. *)
Definition IpVersion_value (v : IpVersion) : Z := match v with v4 => 4 | v6 => 6 end.
Definition TransportProtocol_value (t : TransportProtocol) : Z := match t with udp => 0 | tcp => 1 end.

Inductive LocatorKind : Type :=
| LOCATOR_KIND_UDPv4 | LOCATOR_KIND_TCPv4 | LOCATOR_KIND_UDPv6 | LOCATOR_KIND_TCPv6.

Record Address : Type := mkAddress {
  ip_ : string;
  domain_ : string;
  has_domain_ : bool;
  has_valid_domain_ : bool;
  port_ : Z;
  external_port_ : Z;
  ip_version_ : IpVersion;
  transport_protocol_ : TransportProtocol
}.

#[export] Instance Address_eq_dec : EqDecision Address.
Proof. solve_decision. Defined.

Definition DEFAULT_PORT_ : Z := 11666.
Definition DEFAULT_IP_v4_ : string := "127.0.0.1".
Definition DEFAULT_IP_v6_ : string := "::1".
Definition DEFAULT_IP_VERSION_ : IpVersion := v4.
Definition DEFAULT_TRANSPORT_PROTOCOL_ : TransportProtocol := udp.

Definition default_ip (v : IpVersion) : string :=
  match v with v4 => DEFAULT_IP_v4_ | v6 => DEFAULT_IP_v6_ end.

(** [Address(ip, port, external_port, ip_version, transport_protocol)] *)
Definition Address_of_ip (ip : string) (port external_port : Z) (v : IpVersion)
    (t : TransportProtocol) : Address :=
  mkAddress ip "" false false port external_port v t.

(** [Address()] *)
Definition Address_default : Address :=
  Address_of_ip DEFAULT_IP_v4_ DEFAULT_PORT_ DEFAULT_PORT_ DEFAULT_IP_VERSION_ DEFAULT_TRANSPORT_PROTOCOL_.

Section Address.
Context {IL : IPLocator}.

(** [resolve_dns(domain, ip_version)]: the first address of that version *)
Definition resolve_dns_version (domain : string) (v : IpVersion) : outcome string :=
  let dns_response := resolveNameDNS domain in
  match v with
  | v4 => match dns_response.1 with [] => Throw DNSException | ip :: _ => Ok ip end
  | v6 => match dns_response.2 with [] => Throw DNSException | ip :: _ => Ok ip end
  end.

(** [resolve_dns(domain)]: the first IPv4 address, or else the first IPv6 one *)
Definition resolve_dns (domain : string) : outcome (string * IpVersion) :=
  let dns_response := resolveNameDNS domain in
  match dns_response.1 with
  | [] => match dns_response.2 with [] => Throw DNSException | ip :: _ => Ok (ip, v6) end
  | ip :: _ => Ok (ip, v4)
  end.

(** [Address(port, external_port, ip_version, domain, transport_protocol)] *)
Definition Address_of_domain_version (port external_port : Z) (v : IpVersion) (domain : string)
    (t : TransportProtocol) : Address :=
  match resolve_dns_version domain v with
  | Ok ip => mkAddress ip domain true true port external_port v t
  | Throw _ => mkAddress "" domain true false port external_port v t
  end.

(** [Address(ip, port, external_port, transport_protocol)] *)
Definition Address_of_ip_guess (ip : string) (port external_port : Z) (t : TransportProtocol) : Address :=
  Address_of_ip ip port external_port (if isIPv6 ip then v6 else v4) t.

(** [Address(port, external_port, domain, transport_protocol)]; [indeterminate] is
    what the member [ip_version_], which has no initializer, holds if the domain is
    not resolved. *)
Definition Address_of_domain (indeterminate : IpVersion) (port external_port : Z) (domain : string)
    (t : TransportProtocol) : Address :=
  match resolve_dns domain with
  | Ok (ip, v) => mkAddress ip domain true true port external_port v t
  | Throw _ => mkAddress "" domain true false port external_port indeterminate t
  end.

Definition is_udp (a : Address) : bool := bool_decide (transport_protocol_ a = udp).
Definition is_tcp (a : Address) : bool := bool_decide (transport_protocol_ a = tcp).

Definition get_locator_kind (a : Address) : LocatorKind :=
  match ip_version_ a, transport_protocol_ a with
  | v4, udp => LOCATOR_KIND_UDPv4
  | v4, tcp => LOCATOR_KIND_TCPv4
  | v6, udp => LOCATOR_KIND_UDPv6
  | v6, tcp => LOCATOR_KIND_TCPv6
  end.

Definition Address_is_valid (a : Address) : bool :=
  if has_domain_ a && negb (has_valid_domain_ a) then false
  else if is_udp a && negb (port_ a =? external_port_ a)%Z then false
  else match ip_version_ a with
  | v4 => isIPv4 (ip_ a)
  | v6 => isIPv6 (ip_ a)
  end.

(** [Address::operator <] *)
#[export] Instance Address_less : Less Address := fun a b =>
  match String.compare (ip_ a) (ip_ b) with
  | Lt => true
  | Gt => false
  | Eq =>
      if (port_ a <? port_ b)%Z then true
      else if (port_ b <? port_ a)%Z then false
      else
        let ta := TransportProtocol_value (transport_protocol_ a) in
        let tb := TransportProtocol_value (transport_protocol_ b) in
        if (ta <? tb)%Z then true
        else if (tb <? ta)%Z then false
        else (IpVersion_value (ip_version_ a) <? IpVersion_value (ip_version_ b))%Z
  end.

(** [Address::operator ==] *)
Definition Address_eqb (a b : Address) : bool :=
  (ip_ a =? ip_ b)%string && (port_ a =? port_ b)%Z &&
  bool_decide (transport_protocol_ a = transport_protocol_ b) &&
  Bool.eqb (Address_is_valid a) (Address_is_valid b).

(** The order as a lexicographic one. *)
Lemma Address_less_lex a b :
  less a b = lex_less (pull_less ip_ string_less)
    (lex_less (pull_less port_ Z_less)
      (lex_less (pull_less (fun a => TransportProtocol_value (transport_protocol_ a)) Z_less)
                (pull_less (fun a => IpVersion_value (ip_version_ a)) Z_less))) a b.
Proof.
  unfold less, Address_less, lex_less, pull_less, string_less, Z_less, String.ltb.
  rewrite (String.compare_antisym (ip_ b) (ip_ a)).
  destruct (String.compare (ip_ a) (ip_ b)); simpl; done.
Qed.

#[export] Instance Address_strict_weak : StrictWeak Address.
Proof.
  assert (@StrictWeak Address (lex_less (pull_less ip_ string_less)
    (lex_less (pull_less port_ Z_less)
      (lex_less (pull_less (fun a => TransportProtocol_value (transport_protocol_ a)) Z_less)
                (pull_less (fun a => IpVersion_value (ip_version_ a)) Z_less))))) as [Hi Ha Hn].
  { repeat apply lex_strict_weak; apply pull_strict_weak; apply _. }
  split; intros *; rewrite !Address_less_lex; eauto.
Qed.

(** Addresses that a [std::set] identifies. *)
Lemma Address_keqv (a b : Address) :
  keqv a b = true <-> ip_ a = ip_ b /\ port_ a = port_ b /\
    transport_protocol_ a = transport_protocol_ b /\ ip_version_ a = ip_version_ b.
Proof.
  unfold keqv at 1. rewrite !Address_less_lex.
  match goal with |- context [lex_less ?p ?q a b] =>
    change (@keqv Address (lex_less p q) a b = true <->
      ip_ a = ip_ b /\ port_ a = port_ b /\
      transport_protocol_ a = transport_protocol_ b /\ ip_version_ a = ip_version_ b) end.
  rewrite !lex_keqv, !pull_keqv, !andb_true_iff, string_keqv, !Z_keqv.
  assert (forall x y, TransportProtocol_value x = TransportProtocol_value y <-> x = y) as Ht
    by (intros [] []; split; congruence || done).
  assert (forall x y, IpVersion_value x = IpVersion_value y <-> x = y) as Hv
    by (intros [] []; split; congruence || done).
  by rewrite Ht, Hv.
Qed.

(** ** DiscoveryServerConnectionAddress *)

Context {FD : FastDDS}.

Record DiscoveryServerConnectionAddress : Type := mkConnectionAddress {
  discovery_server_guid_prefix_ : GuidPrefix;
  addresses_ : std_set Address
}.

Definition ConnectionAddress_is_valid (c : DiscoveryServerConnectionAddress) : bool :=
  if negb (GuidPrefix_is_valid (discovery_server_guid_prefix_ c)) then false
  else existsb Address_is_valid (set_elems (addresses_ c)).

(** [operator <]: the sets are compared lexicographically *)
#[export] Instance ConnectionAddress_less : Less DiscoveryServerConnectionAddress := fun a b =>
  if bool_decide (discovery_server_guid_prefix_ a = discovery_server_guid_prefix_ b)
  then list_less Address_less (set_elems (addresses_ a)) (set_elems (addresses_ b))
  else guid_prefix_lt (discovery_server_guid_prefix_ a) (discovery_server_guid_prefix_ b).

Lemma ConnectionAddress_strict_weak (FL : FastDDSLaws) : StrictWeak DiscoveryServerConnectionAddress.
Proof.
  assert (@StrictWeak DiscoveryServerConnectionAddress
    (lex_less (pull_less discovery_server_guid_prefix_ guid_prefix_less)
              (pull_less (fun c => set_elems (addresses_ c)) (list_less Address_less)))) as HW.
  { apply lex_strict_weak; apply pull_strict_weak; [apply guid_prefix_strict_weak|].
    apply list_strict_weak, _. }
  assert (forall a b : DiscoveryServerConnectionAddress, less a b =
    lex_less (pull_less discovery_server_guid_prefix_ guid_prefix_less)
             (pull_less (fun c => set_elems (addresses_ c)) (list_less Address_less)) a b) as E.
  { intros a b. unfold less, ConnectionAddress_less, lex_less, pull_less, guid_prefix_less.
    pose proof (guid_prefix_keqv (discovery_server_guid_prefix_ a) (discovery_server_guid_prefix_ b)) as Hk.
    revert Hk. unfold keqv, less, guid_prefix_less. case_bool_decide as Heq;
      destruct (guid_prefix_lt (discovery_server_guid_prefix_ a) (discovery_server_guid_prefix_ b)),
        (guid_prefix_lt (discovery_server_guid_prefix_ b) (discovery_server_guid_prefix_ a));
      simpl; naive_solver. }
  destruct HW as [Hi Ha Hn]. split; intros *; rewrite !E; eauto.
Qed.

End Address.

(** ** TlsConfiguration *)

Inductive TlsKind : Type := tls_inactive | tls_client | tls_server | tls_both.

#[export] Instance TlsKind_eq_dec : EqDecision TlsKind.
Proof. solve_decision. Defined.

Record TlsConfiguration : Type := mkTls {
  tls_kind : TlsKind;
  verify_peer : bool;
  certificate_authority_file : string;
  sni_server_name : string;
  private_key_file_password : string;
  private_key_file : string;
  certificate_chain_file : string;
  dh_params_file : string
}.

Definition Tls_default : TlsConfiguration := mkTls tls_inactive true "" "" "" "" "" "".

Definition tls_is_active (t : TlsConfiguration) : bool := bool_decide (tls_kind t <> tls_inactive).

(** [compatible<Kind>()] *)
Definition tls_compatible (k : TlsKind) (t : TlsConfiguration) : bool :=
  bool_decide (tls_kind t <> tls_inactive) &&
  (bool_decide (k = tls_kind t) || (bool_decide (tls_kind t = tls_both) && bool_decide (k <> tls_inactive))).

(** [is_valid_kind<Kind>] *)
Definition tls_is_valid_client (t : TlsConfiguration) : bool :=
  if verify_peer t then negb (str_empty (certificate_authority_file t)) else true.
Definition tls_is_valid_server (t : TlsConfiguration) : bool :=
  if str_empty (private_key_file t) then false
  else if str_empty (dh_params_file t) then false
  else negb (str_empty (certificate_chain_file t)).
Definition tls_is_valid_both (t : TlsConfiguration) : bool :=
  tls_is_valid_client t && tls_is_valid_server t.

Definition tls_is_valid (t : TlsConfiguration) : bool :=
  match tls_kind t with
  | tls_client => tls_is_valid_client t
  | tls_server => tls_is_valid_server t
  | tls_both => tls_is_valid_both t
  | tls_inactive => true
  end.

(** The part of [TCPTransportDescriptor] that [enable_tls] fills. *)
Inductive TLSOption : Type := DEFAULT_WORKAROUNDS | SINGLE_DH_USE | NO_SSLV2.
Inductive TLSVerifyMode : Type := VERIFY_PEER | VERIFY_NONE | VERIFY_FAIL_IF_NO_PEER_CERT.

Record TCPDescriptor : Type := mkTcpDescriptor {
  apply_security : bool;
  tls_options : list TLSOption;
  tls_verify_modes : list TLSVerifyMode;
  verify_file : string;
  server_name : string;
  password : string;
  td_private_key_file : string;
  cert_chain_file : string;
  tmp_dh_file : string
}.

Definition enable_tls_client (t : TlsConfiguration) (only_client : bool) (d : TCPDescriptor) : TCPDescriptor :=
  mkTcpDescriptor (apply_security d) (tls_options d)
    (if only_client && verify_peer t then tls_verify_modes d ++ [VERIFY_FAIL_IF_NO_PEER_CERT]
     else tls_verify_modes d)
    (certificate_authority_file t) (sni_server_name t) (password d) (td_private_key_file d)
    (cert_chain_file d) (tmp_dh_file d).

Definition enable_tls_server (t : TlsConfiguration) (d : TCPDescriptor) : TCPDescriptor :=
  mkTcpDescriptor (apply_security d) (tls_options d) (tls_verify_modes d) (verify_file d) (server_name d)
    (private_key_file_password t) (private_key_file t) (certificate_chain_file t) (dh_params_file t).

Definition enable_tls (t : TlsConfiguration) (client : bool) (d : TCPDescriptor) : outcome TCPDescriptor :=
  let d1 := mkTcpDescriptor true
    (tls_options d ++ [DEFAULT_WORKAROUNDS; SINGLE_DH_USE; NO_SSLV2])
    (tls_verify_modes d ++ [if verify_peer t then VERIFY_PEER else VERIFY_NONE])
    (verify_file d) (server_name d) (password d) (td_private_key_file d) (cert_chain_file d)
    (tmp_dh_file d) in
  if client then
    if negb (tls_compatible tls_client t) then Throw ConfigurationException
    else Ok (enable_tls_client t true d1)
  else
    if negb (tls_compatible tls_server t) then Throw ConfigurationException
    else
      let d2 := enable_tls_server t d1 in
      Ok (if tls_compatible tls_client t then enable_tls_client t false d2 else d2).

(** ** Properties *)

(** Resolving a domain.  An address built from a domain name is valid only if
    the domain was resolved, and then its address is the first one of the answer,
    IPv4 if there is any; an unresolved domain gives an invalid address whatever the
    indeterminate member is. *)
Theorem address_domain_resolution `{IPLocator} indet port external_port domain t :
  let a := Address_of_domain indet port external_port domain t in
  let '(ips4, ips6) := resolveNameDNS domain in
  match ips4, ips6 with
  | ip :: _, _ => ip_ a = ip /\ ip_version_ a = v4
  | [], ip :: _ => ip_ a = ip /\ ip_version_ a = v6
  | [], [] => Address_is_valid a = false
  end.
Proof.
  unfold Address_of_domain, resolve_dns. simpl.
  destruct (resolveNameDNS domain) as [[|ip4 l4] [|ip6 l6]]; done.
Qed.

(** A TLS configuration that is compatible with the role gives a descriptor with
    security applied and exactly the files of that role; one that is not makes
    [enable_tls] throw a [ConfigurationException].  The verification mode is the one
    of the configuration in both roles. *)
Theorem enable_tls_spec t client d :
  match enable_tls t client d with
  | Throw e => e = ConfigurationException /\
      (tls_kind t = tls_inactive \/ tls_kind t = if client then tls_server else tls_client)
  | Ok d' => apply_security d' = true /\
      (VERIFY_PEER ∈ tls_verify_modes d' \/ VERIFY_NONE ∈ tls_verify_modes d') /\
      (client = true -> verify_file d' = certificate_authority_file t /\
         server_name d' = sni_server_name t /\ td_private_key_file d' = td_private_key_file d) /\
      (client = false -> td_private_key_file d' = private_key_file t /\
         cert_chain_file d' = certificate_chain_file t /\ tmp_dh_file d' = dh_params_file t /\
         verify_file d' = if decide (tls_kind t = tls_both) then certificate_authority_file t
                          else verify_file d)
  end.
Proof.
  destruct t as [k vp ca sni pw pk cc dh]. unfold enable_tls, tls_compatible.
  destruct client, k; simpl; try (by split; auto); destruct vp; simpl; split_and!; try done;
    rewrite ?elem_of_app, ?list_elem_of_singleton; set_solver.
Qed.

(** Two listening addresses that differ in the external port are one element of
    a set of addresses: the second one is lost. *)
Theorem address_set_ignores_external_port ip v t port p1 p2 (s : std_set Address) :
  let a1 := Address_of_ip ip port p1 v t in
  let a2 := Address_of_ip ip port p2 v t in
  set_insert a2 (set_insert a1 s) = set_insert a1 s.
Proof.
  intros a1 a2. unfold set_insert at 1. apply (emplace_present _ _ _ tt).
  unfold set_insert. rewrite find_emplace.
  assert (keqv a2 a1 = true) as -> by (by apply Address_keqv).
  by destruct (find a1 s) as [[]|].
Qed.
