(* ===== verification/Configuration.v ===== *)
(** * Configuration

    [ddsrouter_core/src/cpp/configuration] and [core/ParticipantFactory.cpp]: what
    makes a configuration valid, and which participant is made from each one.  The
    text of the error messages is not modelled. *)
From S2P Require Import Prelude StdMap CppString Externals Types Topics AllowedTopicList Address.

(** ** Sets of pointers

    A [std::set<std::shared_ptr<T>>]: whether it has the null pointer, which comes
    first, and the objects pointed to by the others with their addresses. *)
Record ptr_set (A : Type) : Type := mkPtrSet {
  has_null : bool;
  pointees : list (Z * A)
}.
Arguments mkPtrSet {A}.
Arguments has_null {A}.
Arguments pointees {A}.

Definition ptr_set_size {A} (s : ptr_set A) : nat :=
  (if has_null s then 1 else 0) + length (pointees s).

(** ** Participants *)

Record BaseConf : Type := mkBaseConf {
  conf_id : ParticipantId;
  conf_kind : ParticipantKind;
  conf_is_repeater : bool
}.

(** The classes of participant configuration; [Simple...] is the base class of the
    last two. *)
Inductive ParticipantConfiguration : Type :=
| PlainConfiguration (b : BaseConf)
| EchoConfiguration (b : BaseConf) (echo_data echo_discovery verbose : bool)
| SimpleConfiguration (b : BaseConf) (domain : DomainId)
| DiscoveryServerConfiguration (b : BaseConf) (domain : DomainId) (guid_prefix : GuidPrefix)
    (listening : list Address) (connection : list DiscoveryServerConnectionAddress)
    (tls : TlsConfiguration)
| InitialPeersConfiguration (b : BaseConf) (domain : DomainId)
    (listening connection : list Address) (tls : TlsConfiguration).

Definition conf_base (c : ParticipantConfiguration) : BaseConf :=
  match c with
  | PlainConfiguration b | EchoConfiguration b _ _ _ | SimpleConfiguration b _
  | DiscoveryServerConfiguration b _ _ _ _ _ | InitialPeersConfiguration b _ _ _ _ => b
  end.

Section Validity.
Context {CU : CppUtils} {FD : FastDDS} {IL : IPLocator}.

(** [ParticipantConfiguration::is_valid] *)
Definition base_is_valid (b : BaseConf) : bool :=
  if negb (ParticipantId_is_valid (conf_id b)) then false
  else if bool_decide (conf_kind b = kind_invalid) then false
  else true.

(** [SimpleParticipantConfiguration::is_valid] *)
Definition simple_is_valid (b : BaseConf) (domain : DomainId) : bool :=
  if negb (base_is_valid b) then false
  else if negb (DomainId_is_valid domain) then false
  else true.

(** The checks of the TLS configuration against the addresses, in both classes. *)
Definition tls_matches_addresses (tls : TlsConfiguration) (no_listening no_connection : bool) : bool :=
  if tls_is_active tls then
    if negb no_listening && negb (tls_compatible tls_server tls) then false
    else if negb no_connection && negb (tls_compatible tls_client tls) then false
    else true
  else true.

Definition is_nil {A} (l : list A) : bool := match l with [] => true | _ => false end.

(** [DiscoveryServerParticipantConfiguration::is_valid] *)
Definition discovery_server_is_valid (b : BaseConf) (domain : DomainId) (prefix : GuidPrefix)
    (listening : list Address) (connection : list DiscoveryServerConnectionAddress)
    (tls : TlsConfiguration) : bool :=
  if negb (simple_is_valid b domain) then false
  else if negb (GuidPrefix_is_valid prefix) then false
  else if existsb (fun a => negb (Address_is_valid a)) listening then false
  else if existsb (fun a => negb (ConnectionAddress_is_valid a)) connection then false
  else if is_nil listening && is_nil connection then false
  else tls_matches_addresses tls (is_nil listening) (is_nil connection).

(** [InitialPeersParticipantConfiguration::is_valid] *)
Definition initial_peers_is_valid (b : BaseConf) (domain : DomainId)
    (listening connection : list Address) (tls : TlsConfiguration) : bool :=
  if negb (simple_is_valid b domain) then false
  else if existsb (fun a => negb (Address_is_valid a)) listening then false
  else if existsb (fun a => negb (Address_is_valid a)) connection then false
  else if is_nil listening && is_nil connection then false
  else tls_matches_addresses tls (is_nil listening) (is_nil connection).

(** [configuration->is_valid(error_msg)], a virtual call *)
Definition conf_is_valid (c : ParticipantConfiguration) : bool :=
  match c with
  | PlainConfiguration b | EchoConfiguration b _ _ _ => base_is_valid b
  | SimpleConfiguration b d => simple_is_valid b d
  | DiscoveryServerConfiguration b d p l c t => discovery_server_is_valid b d p l c t
  | InitialPeersConfiguration b d l c t => initial_peers_is_valid b d l c t
  end.

(** [dynamic_pointer_cast<T>(configuration) != nullptr] *)
Definition is_simple_conf (c : ParticipantConfiguration) : bool :=
  match c with
  | SimpleConfiguration _ _ | DiscoveryServerConfiguration _ _ _ _ _ _
  | InitialPeersConfiguration _ _ _ _ _ => true
  | _ => false
  end.
Definition is_discovery_server_conf (c : ParticipantConfiguration) : bool :=
  match c with DiscoveryServerConfiguration _ _ _ _ _ _ => true | _ => false end.
Definition is_initial_peers_conf (c : ParticipantConfiguration) : bool :=
  match c with InitialPeersConfiguration _ _ _ _ _ => true | _ => false end.
Definition is_echo_conf (c : ParticipantConfiguration) : bool :=
  match c with EchoConfiguration _ _ _ _ => true | _ => false end.

(** [check_correct_configuration_object_] *)
Definition check_correct_configuration_object_ (c : ParticipantConfiguration) : bool :=
  match conf_kind (conf_base c) with
  | kind_simple_rtps => is_simple_conf c
  | kind_local_discovery_server | kind_wan_discovery_server => is_discovery_server_conf c
  | kind_wan_initial_peers => is_initial_peers_conf c
  | kind_echo => is_echo_conf c
  | _ => true
  end.

(** ** The router *)

Context {F : Type} {FT : DdsFilterTopic F}.

Record ReloadConfiguration : Type := mkReload {
  allowlist : ptr_set F;
  blocklist : ptr_set F;
  builtin_topics : ptr_set DdsTopic
}.

Record SpecsConfiguration : Type := mkSpecs {
  number_of_threads : Z;
  max_history_depth : Z
}.

Definition Specs_default : SpecsConfiguration := mkSpecs 12 5000.

Record DDSRouterConfiguration : Type := mkRouterConf {
  reload_part : ReloadConfiguration;
  participants_configurations : ptr_set ParticipantConfiguration;
  advanced_options : SpecsConfiguration
}.

(** [SpecsConfiguration::is_valid] *)
Definition specs_is_valid (s : SpecsConfiguration) : bool :=
  if (number_of_threads s <? 1)%Z then false else true.

(** [DDSRouterReloadConfiguration::is_valid] *)
Definition reload_is_valid (r : ReloadConfiguration) : bool :=
  if has_null (allowlist r) then false
  else if has_null (blocklist r) then false
  else if has_null (builtin_topics r) then false
  else negb (existsb (fun t => negb (DdsTopic_is_valid t.2)) (pointees (builtin_topics r))).

(** The loop over the participants; [ids] collects their ids, [None] is the return
    of [false] from inside the loop. *)
Fixpoint check_participants (l : list (Z * ParticipantConfiguration)) (ids : std_set ParticipantId) :
    option (std_set ParticipantId) :=
  match l with
  | [] => Some ids
  | (_, c) :: l' =>
      if negb (conf_is_valid c) then None
      else if negb (check_correct_configuration_object_ c) then None
      else check_participants l' (set_insert (conf_id (conf_base c)) ids)
  end.

(** [DDSRouterConfiguration::is_valid] *)
Definition router_is_valid (r : DDSRouterConfiguration) : bool :=
  if negb (reload_is_valid (reload_part r)) then false
  else if (ptr_set_size (participants_configurations r) <? 1)%nat then false
  else if has_null (participants_configurations r) then false
  else
    match check_participants (pointees (participants_configurations r)) [] with
    | None => false
    | Some ids => (length ids =? ptr_set_size (participants_configurations r))%nat
    end.

(** [DDSRouterConfiguration::reload] *)
Definition conf_reload (r : DDSRouterConfiguration) (n : ReloadConfiguration) : DDSRouterConfiguration :=
  mkRouterConf n (participants_configurations r) (advanced_options r).

(** ** ParticipantFactory *)

(** The object [create_participant] makes: the class and its configuration. *)
Inductive participant_class : Type :=
| class_blank
| class_dummy
| class_echo
| class_simple
| class_discovery_server
| class_initial_peers.

Definition create_participant_class (c : ParticipantConfiguration) : outcome participant_class :=
  match conf_kind (conf_base c) with
  | kind_blank => Ok class_blank
  | kind_dummy => Ok class_dummy
  | kind_echo => if is_echo_conf c then Ok class_echo else Throw ConfigurationException
  | kind_simple_rtps => if is_simple_conf c then Ok class_simple else Throw ConfigurationException
  | kind_local_discovery_server | kind_wan_discovery_server =>
      if is_discovery_server_conf c then Ok class_discovery_server else Throw ConfigurationException
  | kind_wan_initial_peers =>
      if is_initial_peers_conf c then Ok class_initial_peers else Throw ConfigurationException
  | kind_invalid => Throw ConfigurationException
  end.

(** ** Lemmas *)

Lemma conf_valid_base c : conf_is_valid c = true -> base_is_valid (conf_base c) = true.
Proof.
  destruct c; simpl; unfold discovery_server_is_valid, initial_peers_is_valid, simple_is_valid; intros Hv;
    try done; by destruct (base_is_valid b).
Qed.

Lemma base_valid_kind b : base_is_valid b = true -> conf_kind b <> kind_invalid.
Proof. unfold base_is_valid. destruct (ParticipantId_is_valid _); [|done]. by case_bool_decide. Qed.

(** The ids collected: the set has as many elements as the list exactly when the
    ids are all different and were not there. *)
Lemma check_participants_spec l ids ids' :
  map_wf ids -> check_participants l ids = Some ids' ->
  map_wf ids' /\ length ids' <= length ids + length l /\
  (length ids' = length ids + length l <->
   NoDup ((fun c => conf_id (conf_base c.2)) <$> l) /\
   Forall (fun c => find (conf_id (conf_base c.2)) ids = None) l).
Proof.
  revert ids. induction l as [|[a c] l IH]; intros ids Hwf.
  { intros [= <-]. split_and!; [done|simpl; lia|]. split; [|simpl; lia]. intros _.
    split; [by apply NoDup_nil_2|by apply Forall_nil]. }
  cbn [check_participants]. destruct (conf_is_valid c); [|done].
  destruct (check_correct_configuration_object_ c); [|done]. simpl negb. cbn iota.
  set (id := conf_id (conf_base c)). intros Hrun.
  assert (map_wf (set_insert id ids)) as Hwf' by (by apply map_wf_emplace).
  destruct (IH _ Hwf' Hrun) as (Hw & Hle & Hiff). rewrite set_insert_length in Hle, Hiff.
  assert (forall k, find k (set_insert id ids) = None <-> k <> id /\ find k ids = None) as Hf.
  { intros k. unfold set_insert. rewrite find_emplace.
    destruct (keqv k id) eqn:E; [apply ParticipantId_keqv in E; naive_solver|].
    assert (k <> id) by (intros ->; by rewrite keqv_refl in E). naive_solver. }
  split; [done|]. unfold set_mem, contains in *. cbn [length fmap list_fmap].
  destruct (find id ids) as [[]|] eqn:Ef.
  - split; [lia|]. split; [lia|]. intros [_ Hall]. apply Forall_cons in Hall as [Hn _].
    simpl in Hn. fold id in Hn. congruence.
  - split; [lia|]. cbn [snd]. fold id. rewrite NoDup_cons, Forall_cons. cbn [snd]. fold id.
    rewrite !Forall_forall in *. split.
    + intros Hl. destruct Hiff as [Hiff _]. destruct Hiff as [Hnd Hall]; [lia|]. split_and!; try done.
      * intros ([a' c'] & E & Hin)%list_elem_of_fmap. simpl in E.
        specialize (Hall _ Hin). simpl in Hall. rewrite <- E in Hall.
        by apply Hf in Hall as [? _].
      * intros x Hx. by apply Hall, Hf in Hx as [_ ?].
    + intros [[Hnin Hnd] [_ Hall]]. destruct Hiff as [_ Hiff]. rewrite Hiff; [lia|].
      split; [done|]. intros x Hx. apply Hf. split; [|by apply Hall].
      intros E. apply Hnin. apply list_elem_of_fmap. exists x. by rewrite E.
Qed.

Lemma check_participants_all l ids ids' :
  check_participants l ids = Some ids' ->
  Forall (fun c => conf_is_valid c.2 = true /\ check_correct_configuration_object_ c.2 = true) l.
Proof.
  revert ids. induction l as [|[a c] l IH]; intros ids; [constructor|]. cbn [check_participants].
  destruct (conf_is_valid c) eqn:E1; [|done].
  destruct (check_correct_configuration_object_ c) eqn:E2; [|done]. intros Hr. constructor; [done|exact (IH _ Hr)].
Qed.

Lemma check_participants_some l ids :
  Forall (fun c => conf_is_valid c.2 = true /\ check_correct_configuration_object_ c.2 = true) l ->
  exists ids', check_participants l ids = Some ids'.
Proof.
  intros Hall. revert ids. induction Hall as [|[a c] l [E1 E2] _ IH]; intros ids; [by eexists|].
  cbn [check_participants]. simpl in E1, E2. rewrite E1, E2. apply IH.
Qed.

Lemma router_is_valid_iff r :
  router_is_valid r = true <->
  reload_is_valid (reload_part r) = true /\ has_null (participants_configurations r) = false /\
  pointees (participants_configurations r) <> [] /\
  Forall (fun c => conf_is_valid c.2 = true /\ check_correct_configuration_object_ c.2 = true)
    (pointees (participants_configurations r)) /\
  NoDup ((fun c => conf_id (conf_base c.2)) <$> pointees (participants_configurations r)).
Proof.
  unfold router_is_valid, ptr_set_size. destruct (reload_is_valid (reload_part r)); simpl; [|naive_solver].
  destruct (participants_configurations r) as [[] l]; simpl; [naive_solver|].
  destruct l as [|c l]; [simpl; naive_solver|]. set (l' := c :: l).
  change (length l' <? 1)%nat with false. cbn iota.
  destruct (check_participants l' []) as [ids|] eqn:Ec.
  - destruct (check_participants_spec l' [] ids map_wf_nil Ec) as (_ & _ & Hiff).
    rewrite Nat.eqb_eq. change (length ids = length l') with (length ids = length ([] : std_set ParticipantId) + length l').
    rewrite Hiff. pose proof (check_participants_all _ _ _ Ec).
    split; [naive_solver|]. intros (_ & _ & _ & _ & ?). split; [done|].
    apply Forall_forall. done.
  - split; [done|]. intros (_ & _ & _ & Hall & _).
    destruct (check_participants_some l' [] Hall) as [ids' E]. congruence.
Qed.

(** ** What a valid configuration is

    The requirements, said without the functions of the program. *)
(** No character of the string is the asterisk (ASCII 42). *)
Definition no_wildcard (s : string) : Prop := forall n, String.get n s <> Some (Ascii.ascii_of_nat 42).

Definition good_topic (t : DdsTopic) : Prop :=
  topic_name t <> "" /\ type_name t <> "" /\ no_wildcard (topic_name t) /\ no_wildcard (type_name t).

Definition good_address (a : Address) : Prop :=
  (has_domain_ a = true -> has_valid_domain_ a = true) /\
  (transport_protocol_ a = udp -> port_ a = external_port_ a) /\
  match ip_version_ a with v4 => isIPv4 (ip_ a) = true | v6 => isIPv6 (ip_ a) = true end.

Definition good_connection (c : DiscoveryServerConnectionAddress) : Prop :=
  discovery_server_guid_prefix_ c <> guid_prefix_unknown /\
  exists a, a ∈ set_elems (addresses_ c) /\ good_address a.

(** The TLS kind, when there is one, lets the participant listen and connect as its
    addresses ask. *)
Definition good_tls {A B} (tls : TlsConfiguration) (listening : list A) (connection : list B) : Prop :=
  tls_kind tls = tls_inactive \/
  (listening <> [] -> tls_kind tls = tls_server \/ tls_kind tls = tls_both) /\
  (connection <> [] -> tls_kind tls = tls_client \/ tls_kind tls = tls_both).

(** What the fields of each class must satisfy. *)
Definition good_fields (c : ParticipantConfiguration) : Prop :=
  match c with
  | PlainConfiguration _ | EchoConfiguration _ _ _ _ => True
  | SimpleConfiguration _ domain => (domain_id_ domain <= 230)%Z
  | DiscoveryServerConfiguration _ domain prefix listening connection tls =>
      (domain_id_ domain <= 230)%Z /\ prefix <> guid_prefix_unknown /\
      (forall a, a ∈ listening -> good_address a) /\ (forall s, s ∈ connection -> good_connection s) /\
      (listening <> [] \/ connection <> []) /\ good_tls tls listening connection
  | InitialPeersConfiguration _ domain listening connection tls =>
      (domain_id_ domain <= 230)%Z /\
      (forall a, a ∈ listening -> good_address a) /\ (forall a, a ∈ connection -> good_address a) /\
      (listening <> [] \/ connection <> []) /\ good_tls tls listening connection
  end.

(** The classes that each kind of participant may be configured with. *)
Definition right_class (c : ParticipantConfiguration) : Prop :=
  match conf_kind (conf_base c), c with
  | kind_invalid, _ => False
  | (kind_blank | kind_dummy), _ => True
  | kind_echo, EchoConfiguration _ _ _ _ => True
  | kind_simple_rtps, (SimpleConfiguration _ _ | DiscoveryServerConfiguration _ _ _ _ _ _ |
      InitialPeersConfiguration _ _ _ _ _) => True
  | (kind_local_discovery_server | kind_wan_discovery_server), DiscoveryServerConfiguration _ _ _ _ _ _ => True
  | kind_wan_initial_peers, InitialPeersConfiguration _ _ _ _ _ => True
  | _, _ => False
  end.

Definition good_participant (c : ParticipantConfiguration) : Prop :=
  id_ (conf_id (conf_base c)) <> "" /\ id_ (conf_id (conf_base c)) <> "__invalid_ddsrouter_participant__" /\
  good_fields c /\ right_class c.

(** The checks of the program decide those requirements. *)
Lemma index_asterisk s n :
  String.index 0 "*" s = Some n -> n < String.length s /\ String.get n s = Some (Ascii.ascii_of_nat 42).
Proof.
  revert n. induction s as [|a s IH]; intros n; [done|]. cbn [String.index String.prefix].
  destruct (Ascii.ascii_dec _ a) as [<-|Hne].
  - assert (String.prefix "" s = true) as -> by (by destruct s). intros [= <-]. split; [simpl; lia|done].
  - destruct (String.index 0 "*" s) as [m|] eqn:E; [|done]. intros [= <-].
    destruct (IH m eq_refl) as [? ?]. split; [simpl; lia|done].
Qed.

Lemma index_no_asterisk s : String.index 0 "*" s = None -> no_wildcard s.
Proof.
  induction s as [|a s IH]; [by intros _ []|]. cbn [String.index String.prefix].
  destruct (Ascii.ascii_dec _ a) as [<-|Hne].
  - assert (String.prefix "" s = true) as -> by (by destruct s). done.
  - destruct (String.index 0 "*" s) as [m|] eqn:E; [done|]. intros _ [|n]; [|by apply IH].
    simpl. intros [= ->]. by apply Hne.
Qed.

(** The strings of C++ are shorter than [npos]. *)
Definition representable (s : string) : Prop := (str_length s < npos)%Z.

Lemma no_wildcard_spec s : representable s -> (str_find "*" s =? npos)%Z = true <-> no_wildcard s.
Proof.
  unfold str_find, representable, str_length. intros Hlen. rewrite Z.eqb_eq.
  destruct (String.index 0 "*" s) as [n|] eqn:E.
  - apply index_asterisk in E as [Hn Hg]. split; [lia|]. intros Hno. by destruct (Hno n).
  - split; [|done]. intros _. by apply index_no_asterisk.
Qed.

Lemma not_empty_spec s : negb (str_empty s) = true <-> s <> "".
Proof. by destruct s. Qed.

Definition representable_topic (t : DdsTopic) : Prop := representable (topic_name t) /\ representable (type_name t).

Lemma good_topic_spec t : representable_topic t -> DdsTopic_is_valid t = true <-> good_topic t.
Proof.
  intros [Hn Ht]. unfold DdsTopic_is_valid, Topic_is_valid, good_topic.
  rewrite <- !not_empty_spec, <- !no_wildcard_spec by done. simpl.
  destruct (str_empty (topic_name t)), (str_empty (type_name t)), (str_find _ (topic_name t) =? npos)%Z,
    (str_find _ (type_name t) =? npos)%Z; simpl; intuition congruence.
Qed.

Lemma good_address_spec a : Address_is_valid a = true <-> good_address a.
Proof.
  unfold Address_is_valid, good_address, is_udp. rewrite <- Z.eqb_eq.
  destruct (has_domain_ a), (has_valid_domain_ a), (port_ a =? external_port_ a)%Z, (transport_protocol_ a),
    (ip_version_ a); simpl; intuition congruence.
Qed.

Lemma existsb_invalid_spec {A} (P : A -> Prop) (f : A -> bool) l :
  (forall x, x ∈ l -> f x = true <-> P x) -> existsb (fun x => negb (f x)) l = false <-> (forall x, x ∈ l -> P x).
Proof.
  intros Hf. induction l as [|x l IH]; simpl; [set_solver|].
  rewrite orb_false_iff, IH, negb_false_iff, Hf by set_solver. set_solver.
Qed.

Lemma good_connection_spec c : ConnectionAddress_is_valid c = true <-> good_connection c.
Proof.
  unfold ConnectionAddress_is_valid, good_connection, GuidPrefix_is_valid.
  case_bool_decide as Hp; simpl; [|naive_solver]. rewrite existsb_exists.
  setoid_rewrite <- list_elem_of_In. setoid_rewrite good_address_spec. naive_solver.
Qed.

Lemma good_tls_spec {A B} tls (l : list A) (c : list B) :
  tls_matches_addresses tls (is_nil l) (is_nil c) = true <-> good_tls tls l c.
Proof.
  unfold tls_matches_addresses, good_tls, tls_is_active, tls_compatible.
  destruct (tls_kind tls), l, c; simpl; intuition congruence.
Qed.

Lemma is_nil_both {A B} (l : list A) (c : list B) : is_nil l && is_nil c = false <-> l <> [] \/ c <> [].
Proof. destruct l, c; simpl; intuition congruence. Qed.

Lemma guarded_spec (b : bool) (k : bool) P Q :
  (b = true <-> P) -> (k = true <-> Q) -> (if negb b then false else k) = true <-> P /\ Q.
Proof. destruct b; simpl; naive_solver. Qed.

Lemma guarded_spec' (b : bool) (k : bool) P Q :
  (b = false <-> P) -> (k = true <-> Q) -> (if b then false else k) = true <-> P /\ Q.
Proof. destruct b; simpl; naive_solver. Qed.

Definition good_base (b : BaseConf) : Prop :=
  (id_ (conf_id b) <> "" /\ id_ (conf_id b) <> "__invalid_ddsrouter_participant__") /\ conf_kind b <> kind_invalid.

Lemma good_base_spec b : base_is_valid b = true <-> good_base b.
Proof.
  unfold base_is_valid, good_base. apply guarded_spec.
  - unfold ParticipantId_is_valid, is_valid_id. rewrite andb_true_iff, not_empty_spec, negb_true_iff.
    by rewrite String.eqb_neq.
  - by case_bool_decide; split.
Qed.

Lemma good_simple_spec b domain : simple_is_valid b domain = true <-> good_base b /\ (domain_id_ domain <= 230)%Z.
Proof.
  apply guarded_spec; [apply good_base_spec|]. unfold DomainId_is_valid. rewrite <- Z.leb_le.
  change MAX_DOMAIN_ID with 230%Z. by destruct (domain_id_ domain <=? 230)%Z.
Qed.

Lemma conf_is_valid_spec c : conf_is_valid c = true <-> good_base (conf_base c) /\ good_fields c.
Proof.
  destruct c as [b|b ? ? ?|b d|b d p l k t|b d l k t]; simpl.
  - rewrite good_base_spec. tauto.
  - rewrite good_base_spec. tauto.
  - apply good_simple_spec.
  - unfold discovery_server_is_valid. rewrite (and_assoc (good_base b)).
    apply guarded_spec; [apply good_simple_spec|]. apply guarded_spec; [apply bool_decide_eq_true|].
    apply guarded_spec'; [apply existsb_invalid_spec; intros ? _; apply good_address_spec|].
    apply guarded_spec'; [apply existsb_invalid_spec; intros ? _; apply good_connection_spec|].
    apply guarded_spec'; [apply is_nil_both|apply good_tls_spec].
  - unfold initial_peers_is_valid. rewrite (and_assoc (good_base b)).
    apply guarded_spec; [apply good_simple_spec|].
    do 2 (apply guarded_spec'; [apply existsb_invalid_spec; intros ? _; apply good_address_spec|]).
    apply guarded_spec'; [apply is_nil_both|apply good_tls_spec].
Qed.

Lemma good_participant_spec c :
  conf_is_valid c = true /\ check_correct_configuration_object_ c = true <-> good_participant c.
Proof.
  rewrite conf_is_valid_spec. unfold good_base, good_participant, right_class, check_correct_configuration_object_.
  destruct c, (conf_kind _); simpl; intuition congruence.
Qed.

Lemma reload_is_valid_spec r :
  (forall t, t ∈ pointees (builtin_topics r) -> representable_topic t.2) ->
  reload_is_valid r = true <->
  has_null (allowlist r) = false /\ has_null (blocklist r) = false /\ has_null (builtin_topics r) = false /\
  (forall t, t ∈ pointees (builtin_topics r) -> good_topic t.2).
Proof.
  intros Hlen. do 3 (apply guarded_spec'; [done|]). rewrite negb_true_iff. apply existsb_invalid_spec.
  intros x Hx. by apply good_topic_spec, Hlen.
Qed.

Lemma conf_has_class c :
  conf_is_valid c = true -> check_correct_configuration_object_ c = true ->
  exists cls, create_participant_class c = Ok cls.
Proof.
  intros H1 H2. pose proof (base_valid_kind _ (conf_valid_base _ H1)) as Hk.
  unfold create_participant_class, check_correct_configuration_object_ in *.
  destruct (conf_kind (conf_base c)); [by destruct Hk|..]; try (by eexists); rewrite H2; by eexists.
Qed.

(** ** Properties *)

(** C28: a router configuration is valid exactly when no list has a null pointer; every
    builtin topic has a name and a type, without wildcards; and there is at least one
    participant, all with different ids, each with a usable id, a kind, the class of
    configuration that its kind needs, and the fields of its class right: a domain of at
    most 230, a known GUID prefix, at least one address, addresses with an IP of their
    version (resolved, when given by name, and without port forwarding over UDP), a
    discovery server to connect to with at least one such address, and a TLS kind that
    can listen and connect as the addresses ask.  The advanced options, the filters and
    the files of TLS do not take part.  (The names are shorter than [npos], as every
    [std::string] is.) *)
Theorem router_is_valid_spec r :
  (forall t, t ∈ pointees (builtin_topics (reload_part r)) -> representable_topic t.2) ->
  router_is_valid r = true <->
  (has_null (allowlist (reload_part r)) = false /\ has_null (blocklist (reload_part r)) = false /\
   has_null (builtin_topics (reload_part r)) = false /\
   (forall t, t ∈ pointees (builtin_topics (reload_part r)) -> good_topic t.2)) /\
  has_null (participants_configurations r) = false /\
  pointees (participants_configurations r) <> [] /\
  Forall (fun c => good_participant c.2) (pointees (participants_configurations r)) /\
  NoDup ((fun c => conf_id (conf_base c.2)) <$> pointees (participants_configurations r)).
Proof.
  intros Hlen. rewrite router_is_valid_iff, reload_is_valid_spec by done.
  enough (forall l : list (Z * ParticipantConfiguration),
    Forall (fun c => conf_is_valid c.2 = true /\ check_correct_configuration_object_ c.2 = true) l <->
    Forall (fun c => good_participant c.2) l) as -> by done.
  intros l. apply Forall_iff. intros c. apply good_participant_spec.
Qed.

(** Every participant of a valid configuration can be made: the factory finds
    the class of the kind and does not throw a [ConfigurationException]. *)
Theorem valid_configuration_has_class r a c :
  router_is_valid r = true -> (a, c) ∈ pointees (participants_configurations r) ->
  exists cls, create_participant_class c = Ok cls.
Proof.
  intros (_ & _ & _ & Hall & _)%router_is_valid_iff Hin. rewrite Forall_forall in Hall.
  destruct (Hall _ Hin). by apply conf_has_class.
Qed.

(** A TLS configuration with no certificate files makes a valid participant
    configuration, although [TlsConfiguration::is_valid] refuses it: only the kind
    is compared with the addresses. *)
Theorem tls_files_not_checked b domain a vp :
  simple_is_valid b domain = true -> Address_is_valid a = true ->
  let tls := mkTls tls_server vp "" "" "" "" "" "" in
  initial_peers_is_valid b domain [a] [] tls = true /\ tls_is_valid tls = false.
Proof.
  intros Hs Ha tls. split; [|done]. unfold initial_peers_is_valid. rewrite Hs. simpl. by rewrite Ha.
Qed.

(** The number of threads is not checked: a configuration without threads is as
    valid as the same one with any other advanced options, although
    [SpecsConfiguration::is_valid] refuses it. *)
Theorem threads_not_checked r specs :
  router_is_valid (mkRouterConf (reload_part r) (participants_configurations r) specs) = router_is_valid r /\
  specs_is_valid (mkSpecs 0 (max_history_depth specs)) = false.
Proof. done. Qed.

End Validity.

Arguments ReloadConfiguration {_} F.
Arguments DDSRouterConfiguration {_} F.

(** ** Witnesses *)

#[local] Existing Instances Demo.cpp_utils Demo.fast_dds.

(** Every string is an IPv4 address, none is an IPv6 one, and no name resolves. *)
#[local] Instance demo_locator : IPLocator := {|
  isIPv4 _ := true;
  isIPv6 _ := false;
  resolveNameDNS _ := ([], [])
|}.

Definition demo_conf (name : string) (k : ParticipantKind) : ParticipantConfiguration :=
  SimpleConfiguration (mkBaseConf (mkParticipantId name) k false) (mkDomainId 0).

Definition demo_router : DDSRouterConfiguration WildcardDdsFilterTopic :=
  mkRouterConf (mkReload (mkPtrSet false []) (mkPtrSet false []) (mkPtrSet false []))
    (mkPtrSet false [(1%Z, demo_conf "a" kind_simple_rtps); (2%Z, demo_conf "b" kind_dummy)]) Specs_default.

Lemma valid_configuration_has_class_witness :
  exists cls, create_participant_class (demo_conf "a" kind_simple_rtps) = Ok cls.
Proof.
  apply (valid_configuration_has_class demo_router 1%Z); [vm_compute; reflexivity|].
  apply list_elem_of_here.
Defined.

(** A builtin topic whose type has a wildcard. *)
Definition demo_bad_router : DDSRouterConfiguration WildcardDdsFilterTopic :=
  mkRouterConf (mkReload (mkPtrSet false []) (mkPtrSet false [])
      (mkPtrSet false [(1%Z, DdsTopic_of 5000 "rt/chatter" "std_msgs*")]))
    (participants_configurations demo_router) Specs_default.

Lemma router_is_valid_spec_witness :
  (router_is_valid demo_router = true /\
   Forall (fun c => good_participant c.2) (pointees (participants_configurations demo_router))) /\
  router_is_valid demo_bad_router = false.
Proof.
  split.
  - assert (router_is_valid demo_router = true) as Hv by (vm_compute; reflexivity).
    split; [exact Hv|]. refine (proj1 (proj2 (proj2 (proj2 (proj1 (router_is_valid_spec demo_router _) Hv))))).
    intros t Ht. by apply elem_of_nil in Ht.
  - apply not_true_is_false. intros Hv. apply router_is_valid_spec in Hv as ((_ & _ & _ & Ht) & _).
    + destruct (Ht _ (list_elem_of_here _ _)) as (_ & _ & _ & Hw). by apply (Hw 8).
    + intros t Ht%list_elem_of_singleton. subst t. by split.
Defined.

Lemma tls_files_not_checked_witness :
  initial_peers_is_valid (mkBaseConf (mkParticipantId "a") kind_wan_initial_peers false) (mkDomainId 0)
    [Address_default] [] (mkTls tls_server true "" "" "" "" "" "") = true.
Proof.
  refine (proj1 (tls_files_not_checked (mkBaseConf (mkParticipantId "a") kind_wan_initial_peers false)
    (mkDomainId 0) Address_default true _ _)); vm_compute; reflexivity.
Defined.
