(* ===== verification/Yaml.v ===== *)
(** * YAML reader

    [ddsrouter_yaml]: how a configuration is read from the tree of a YAML file, in the
    three versions of the format.  The library yaml-cpp, which gives the tree and converts
    the text of its scalars, is a parameter.  The text of the error messages is not
    modelled. *)
From Stdlib Require DecimalString DecimalN DecimalPos.
From S2P Require Import Prelude StdMap CppString Externals Types Topics Address Configuration.

(** ** The tree *)

(** [YAML::Node], without the nodes of an undefined value *)
Inductive Yaml : Type :=
| YNull
| YScalar (s : string)
| YSequence (l : list Yaml)
| YMap (l : list (Yaml * Yaml)).

(** [yml[tag]] on a map: the value of the first key that is that text *)
Fixpoint map_lookup (tag : string) (l : list (Yaml * Yaml)) : option Yaml :=
  match l with
  | [] => None
  | (YScalar k, v) :: l' => if (k =? tag)%string then Some v else map_lookup tag l'
  | _ :: l' => map_lookup tag l'
  end.

Class YamlCpp := {
  (** [as<T>()] of a scalar with that text: [bool] and the unsigned types of [bits] bits *)
  as_bool : string -> option bool;
  as_unsigned : Z -> string -> option Z;
  (** [as<std::string>()] of any node, and of the keys of a map *)
  as_string : Yaml -> option string;
  (** [std::stringstream >> GuidPrefix_t] of Fast DDS, and its
      [DEFAULT_ROS2_SERVER_GUIDPREFIX] *)
  read_guid_prefix : string -> GuidPrefix;
  DEFAULT_ROS2_SERVER_GUIDPREFIX : string
}.

(** The decimal digits of a number. *)
Definition decimal (n : Z) : string := DecimalString.NilZero.string_of_uint (N.to_uint (Z.to_N n)).

Class YamlCppLaws `{YC : YamlCpp} : Prop := {
  as_string_scalar : forall s, as_string (YScalar s) = Some s;
  as_bool_true : as_bool "true" = Some true;
  as_bool_false : as_bool "false" = Some false;
  as_unsigned_decimal : forall bits n, (0 <= n < 2 ^ bits)%Z -> as_unsigned bits (decimal n) = Some n;
  as_unsigned_range : forall bits s n, as_unsigned bits s = Some n -> (0 <= n < 2 ^ bits)%Z
}.

(** [YamlReaderVersion] *)
Inductive YamlReaderVersion : Type := V_1_0 | V_2_0 | V_3_0 | LATEST.

Definition version_value (v : YamlReaderVersion) : Z :=
  match v with V_1_0 => 0 | V_2_0 => 1 | V_3_0 => 2 | LATEST => 3 end.

(** ** Tags *)

Definition VERSION_TAG : string := "version".
Definition VERSION_TAG_V_1_0 : string := "v1.0".
Definition VERSION_TAG_V_2_0 : string := "v2.0".
Definition VERSION_TAG_V_3_0 : string := "v3.0".
Definition ALLOWLIST_TAG : string := "allowlist".
Definition BLOCKLIST_TAG : string := "blocklist".
Definition BUILTIN_TAG : string := "builtin-topics".
Definition TOPIC_NAME_TAG : string := "name".
Definition TOPIC_TYPE_NAME_TAG : string := "type".
Definition TOPIC_KIND_TAG : string := "keyed".
Definition TOPIC_QOS_TAG : string := "qos".
Definition QOS_RELIABLE_TAG : string := "reliability".
Definition QOS_TRANSIENT_TAG : string := "durability".
Definition QOS_HISTORY_DEPTH_TAG : string := "depth".
Definition QOS_PARTITION_TAG : string := "partitions".
Definition QOS_OWNERSHIP_TAG : string := "ownership".
Definition PARTICIPANT_KIND_TAG : string := "kind".
Definition PARTICIPANT_NAME_TAG : string := "name".
Definition COLLECTION_PARTICIPANTS_TAG : string := "participants".
Definition IS_REPEATER_TAG : string := "repeater".
Definition ECHO_DATA_TAG : string := "data".
Definition ECHO_DISCOVERY_TAG : string := "discovery".
Definition ECHO_VERBOSE_TAG : string := "verbose".
Definition DOMAIN_ID_TAG : string := "domain".
Definition DISCOVERY_SERVER_GUID_PREFIX_TAG : string := "discovery-server-guid".
Definition LISTENING_ADDRESSES_TAG : string := "listening-addresses".
Definition CONNECTION_ADDRESSES_TAG : string := "connection-addresses".
Definition COLLECTION_ADDRESSES_TAG : string := "addresses".
Definition TLS_TAG : string := "tls".
Definition TLS_CA_TAG : string := "ca".
Definition TLS_PASSWORD_TAG : string := "password".
Definition TLS_PRIVATE_KEY_TAG : string := "private_key".
Definition TLS_CERT_TAG : string := "cert".
Definition TLS_DHPARAMS_TAG : string := "dh_params".
Definition TLS_PEER_VERIFICATION_TAG : string := "peer_verification".
Definition TLS_SNI_HOST_TAG : string := "sni_host".
Definition ADDRESS_IP_TAG : string := "ip".
Definition ADDRESS_DNS_TAG : string := "domain".
Definition ADDRESS_PORT_TAG : string := "port".
Definition ADDRESS_EXTERNAL_PORT_TAG : string := "external-port".
Definition ADDRESS_IP_VERSION_TAG : string := "ip-version".
Definition ADDRESS_IP_VERSION_V4_TAG : string := "v4".
Definition ADDRESS_IP_VERSION_V6_TAG : string := "v6".
Definition ADDRESS_TRANSPORT_TAG : string := "transport".
Definition ADDRESS_TRANSPORT_UDP_TAG : string := "udp".
Definition ADDRESS_TRANSPORT_TCP_TAG : string := "tcp".
Definition DISCOVERY_SERVER_GUID_TAG : string := "guid".
Definition DISCOVERY_SERVER_ID_TAG : string := "id".
Definition DISCOVERY_SERVER_ID_ROS_TAG : string := "ros-discovery-server".
Definition SPECS_TAG : string := "specs".
Definition NUMBER_THREADS_TAG : string := "threads".
Definition MAX_HISTORY_DEPTH_TAG : string := "max-depth".
Definition PARTICIPANT_KIND_TAG_V1 : string := "type".

Definition ddsrouter_tags : list string :=
  [ALLOWLIST_TAG; BLOCKLIST_TAG; TOPIC_NAME_TAG; TOPIC_TYPE_NAME_TAG; TOPIC_KIND_TAG;
   PARTICIPANT_KIND_TAG; PARTICIPANT_NAME_TAG; COLLECTION_PARTICIPANTS_TAG; DOMAIN_ID_TAG;
   DISCOVERY_SERVER_GUID_PREFIX_TAG; LISTENING_ADDRESSES_TAG; CONNECTION_ADDRESSES_TAG;
   COLLECTION_ADDRESSES_TAG; TLS_TAG; TLS_CA_TAG; TLS_PASSWORD_TAG; TLS_PRIVATE_KEY_TAG;
   TLS_CERT_TAG; TLS_DHPARAMS_TAG; TLS_SNI_HOST_TAG; ADDRESS_IP_TAG; ADDRESS_DNS_TAG;
   ADDRESS_PORT_TAG; ADDRESS_IP_VERSION_TAG; ADDRESS_IP_VERSION_V4_TAG;
   ADDRESS_IP_VERSION_V6_TAG; ADDRESS_TRANSPORT_TAG; ADDRESS_TRANSPORT_UDP_TAG;
   ADDRESS_TRANSPORT_TCP_TAG; DISCOVERY_SERVER_GUID_TAG; DISCOVERY_SERVER_ID_TAG;
   DISCOVERY_SERVER_ID_ROS_TAG; VERSION_TAG; VERSION_TAG_V_1_0; VERSION_TAG_V_2_0;
   VERSION_TAG_V_3_0; PARTICIPANT_KIND_TAG_V1].

Definition is_tag (str : string) : bool := existsb (fun t => (t =? str)%string) ddsrouter_tags.

(** ** Reading *)

(** What reads a tree: it returns a value or throws.  The state counts the objects made
    with [make_shared]. *)
Abbreviation reading := (prog nat).

(** [try { ... } catch (const std::exception&) { throw ConfigurationException }] *)
Definition with_context {A} (m : reading A) : reading A := fun s =>
  match m s with
  | (Throw UndefinedBehaviour, s') => (Throw UndefinedBehaviour, s')
  | (Throw _, s') => (Throw ConfigurationException, s')
  | r => r
  end.

(** What a call of yaml-cpp gives: a value, or one of the exceptions of that library. *)
Definition yaml_cpp_call {A} (o : option A) : reading A :=
  match o with Some a => mret a | None => throw YamlException end.

(** [utils::convert_set_to_shared] of [cpp_utils] *)
Class SharedSets := convert_set_to_shared : forall {A}, std_set A -> reading (ptr_set A).

(** It makes an object for each element. *)
Class SharedSetsLaws `{SS : SharedSets} : Prop :=
  convert_set_spec : forall A (s : std_set A) n,
    exists r n', convert_set_to_shared s n = (Ok r, n') /\ snd <$> pointees r ≡ₚ set_elems s.

Section Generic.
Context {YC : YamlCpp}.

Definition is_tag_present (yml : Yaml) (tag : string) : reading bool :=
  match yml with
  | YMap l => mret (match map_lookup tag l with Some _ => true | None => false end)
  | YNull => mret false
  | _ => throw ConfigurationException
  end.

Definition get_value_in_tag (yml : Yaml) (tag : string) : reading Yaml :=
  present ← is_tag_present yml tag;
  match yml, present with
  | YMap l, true => match map_lookup tag l with Some v => mret v | None => throw ConfigurationException end
  | _, _ => throw ConfigurationException
  end.

(** [get_scalar<T>(yml)]; [as_T] is [yml.as<T>()], a conversion of the text *)
Definition get_scalar {A} (as_T : string -> option A) (yml : Yaml) : reading A :=
  match yml with
  | YScalar s => with_context (yaml_cpp_call (as_T s))
  | _ => throw ConfigurationException
  end.

(** [get<T>(yml, tag, version)] and [get_scalar<T>(yml, tag)] *)
Definition get_in {A} (get_T : Yaml -> reading A) (yml : Yaml) (tag : string) : reading A :=
  with_context (v ← get_value_in_tag yml tag; get_T v).

(** [get_list<T>(yml, version)] *)
Fixpoint read_all {A} (get_T : Yaml -> reading A) (l : list Yaml) : reading (list A) :=
  match l with
  | [] => mret []
  | y :: l' => x ← get_T y; r ← read_all get_T l'; mret (x :: r)
  end.

Definition get_list {A} (get_T : Yaml -> reading A) (yml : Yaml) : reading (list A) :=
  match yml with
  | YSequence l => with_context (read_all get_T l)
  | _ => throw ConfigurationException
  end.

(** [get_set<T>(yml, tag, version)] *)
Definition set_of {A} `{Less A} (l : list A) : std_set A := fold_left (fun s x => set_insert x s) l [].

Definition get_set {A} `{Less A} (get_T : Yaml -> reading A) (yml : Yaml) (tag : string) : reading (std_set A) :=
  elements ← with_context (v ← get_value_in_tag yml tag; get_list get_T v);
  mret (set_of elements).

(** [get_enumeration<T>(yml, enum_values)] *)
Definition get_enumeration {A} (enum_values : list (string * A)) (yml : Yaml) : reading A :=
  value ← get_scalar Some yml;
  match List.find (fun e : string * A => (e.1 =? value)%string) enum_values with
  | Some e => mret e.2
  | None => throw ConfigurationException
  end.

(** [if (is_tag_present(yml, tag)) object.field = get<T>(yml, tag, version);] *)
Definition optional {A} (get_T : Yaml -> reading A) (yml : Yaml) (tag : string) (field : A) : reading A :=
  present ← is_tag_present yml tag;
  if (present : bool) then get_in get_T yml tag else mret field.

(** The optional values whose presence matters. *)
Definition if_present {A} (get_T : Yaml -> reading A) (yml : Yaml) (tag : string) : reading (option A) :=
  present ← is_tag_present yml tag;
  if (present : bool) then (x ← get_in get_T yml tag; mret (Some x)) else mret None.

Definition get_version : Yaml -> reading YamlReaderVersion :=
  get_enumeration [(VERSION_TAG_V_1_0, V_1_0); (VERSION_TAG_V_2_0, V_2_0); (VERSION_TAG_V_3_0, V_3_0)].

(** The standard types *)
Definition get_string : Yaml -> reading string := get_scalar Some.
Definition get_bool : Yaml -> reading bool := get_scalar as_bool.
Definition get_unsigned (bits : Z) : Yaml -> reading Z := get_scalar (as_unsigned bits).

End Generic.

(** ** Entities *)

Section Entities.
Context {CU : CppUtils} {FD : FastDDS} {IL : IPLocator} {YC : YamlCpp}.
(** the indeterminate version of an address whose domain is not resolved, and
    [TopicQoS::default_history_depth] *)
Context (indeterminate : IpVersion) (depth : Z).

Definition get_transport : Yaml -> reading TransportProtocol :=
  get_enumeration [(ADDRESS_TRANSPORT_TCP_TAG, tcp); (ADDRESS_TRANSPORT_UDP_TAG, udp)].
Definition get_ip_version : Yaml -> reading IpVersion :=
  get_enumeration [(ADDRESS_IP_VERSION_V4_TAG, v4); (ADDRESS_IP_VERSION_V6_TAG, v6)].
Definition get_port : Yaml -> reading Z := get_unsigned 16.
Definition get_participant_id (yml : Yaml) : reading ParticipantId :=
  name ← get_string yml; mret (ParticipantId_of name).

(** In versions lower than 3.0 wan means wan_discovery_server *)
Definition get_kind (version : YamlReaderVersion) (yml : Yaml) : reading ParticipantKind :=
  name ← get_string yml;
  let kind := participant_kind_from_name name in
  mret (if (version_value version <=? version_value V_2_0)%Z && bool_decide (kind = kind_wan_initial_peers)
        then kind_wan_discovery_server else kind).

Definition get_domain (yml : Yaml) : reading DomainId :=
  id ← get_unsigned 32 yml; mret (mkDomainId id).

(** [GuidPrefix(ros, id)]: the third octet is the id, truncated *)
Definition SERVER_DEFAULT_GUID_PREFIX_STR_ : string := "01.0f.00.00.00.00.00.00.00.00.ca.fe".
Definition GuidPrefix_of_id (ros : bool) (id : Z) : GuidPrefix :=
  <[2 := (id `mod` 256)%Z]> (read_guid_prefix
    (if ros then DEFAULT_ROS2_SERVER_GUIDPREFIX else SERVER_DEFAULT_GUID_PREFIX_STR_)).

Definition get_guid_prefix (yml : Yaml) : reading GuidPrefix :=
  guid ← if_present get_string yml DISCOVERY_SERVER_GUID_TAG;
  match guid with
  | Some guid => mret (read_guid_prefix guid)
  | None =>
      ros_id ← if_present get_bool yml DISCOVERY_SERVER_ID_ROS_TAG;
      id ← get_in (get_unsigned 32) yml DISCOVERY_SERVER_ID_TAG;
      mret (GuidPrefix_of_id (default false ros_id) id)
  end.

Definition get_address (yml : Yaml) : reading Address :=
  ip_version ← if_present get_ip_version yml ADDRESS_IP_VERSION_TAG;
  ip ← if_present get_string yml ADDRESS_IP_TAG;
  domain_name ← if_present get_string yml ADDRESS_DNS_TAG;
  match ip, domain_name with
  | None, None => throw ConfigurationException
  | _, _ =>
    port ← optional get_port yml ADDRESS_PORT_TAG DEFAULT_PORT_;
    external_port ← optional get_port yml ADDRESS_EXTERNAL_PORT_TAG port;
    tp ← optional get_transport yml ADDRESS_TRANSPORT_TAG DEFAULT_TRANSPORT_PROTOCOL_;
    mret match ip, ip_version with
         | Some ip, Some v => Address_of_ip ip port external_port v tp
         | Some ip, None => Address_of_ip_guess ip port external_port tp
         | None, Some v => Address_of_domain_version port external_port v (default "" domain_name) tp
         | None, None => Address_of_domain indeterminate port external_port (default "" domain_name) tp
         end
  end.

Definition get_connection_address (version : YamlReaderVersion) (yml : Yaml) :
    reading DiscoveryServerConnectionAddress :=
  server_guid ← match version with
                | V_1_0 => get_guid_prefix yml
                | _ => get_in get_guid_prefix yml DISCOVERY_SERVER_GUID_PREFIX_TAG
                end;
  addresses ← get_set get_address yml COLLECTION_ADDRESSES_TAG;
  mret (mkConnectionAddress server_guid addresses).

(** [fill<TopicQoS>] *)
Definition fill_qos (object : TopicQoS) (yml : Yaml) : reading TopicQoS :=
  reliable ← if_present get_bool yml QOS_RELIABLE_TAG;
  transient ← if_present get_bool yml QOS_TRANSIENT_TAG;
  history ← optional (get_unsigned 32) yml QOS_HISTORY_DEPTH_TAG (history_depth object);
  with_partitions ← optional get_bool yml QOS_PARTITION_TAG (use_partitions object);
  ownership ← if_present get_bool yml QOS_OWNERSHIP_TAG;
  mret (mkTopicQoS
    match transient with Some true => TRANSIENT_LOCAL | Some false => VOLATILE | None => durability_qos object end
    match reliable with Some true => RELIABLE | Some false => BEST_EFFORT | None => reliability_qos object end
    match ownership with Some true => EXCLUSIVE_OWNERSHIP | Some false => SHARED_OWNERSHIP
                    | None => ownership_qos object end
    with_partitions history).

(** [get<DdsTopic>], [fill<DdsTopic>] and [fill<Topic>] on a new topic *)
Definition get_dds_topic (yml : Yaml) : reading DdsTopic :=
  let object := DdsTopic_of depth "" "" in
  name ← get_in get_string yml TOPIC_NAME_TAG;
  type ← get_in get_string yml TOPIC_TYPE_NAME_TAG;
  key ← optional get_bool yml TOPIC_KIND_TAG (keyed object);
  has_qos ← is_tag_present yml TOPIC_QOS_TAG;
  qos ← (if (has_qos : bool) then
           v ← get_value_in_tag yml TOPIC_QOS_TAG;
           q ← fill_qos (get_reference (topic_qos object)) v;
           mret (set_level (set_reference q (topic_qos object)))
         else mret (topic_qos object));
  mret (mkDdsTopic name type key qos).

(** [get<WildcardDdsFilterTopic>]; the default values of a new [Fuzzy] *)
Definition Wildcard_new (name : string) : WildcardDdsFilterTopic :=
  mkWildcard name (fuzzy_init "") (fuzzy_init false).

Definition get_wildcard (yml : Yaml) : reading WildcardDdsFilterTopic :=
  let object := Wildcard_new "*" in
  name ← get_in get_string yml TOPIC_NAME_TAG;
  type ← if_present get_string yml TOPIC_TYPE_NAME_TAG;
  key ← if_present get_bool yml TOPIC_KIND_TAG;
  mret (mkWildcard name
    match type with Some t => set_value t (w_type_name object) | None => w_type_name object end
    match key with Some k => set_value k (w_keyed object) | None => w_keyed object end).

(** [DdsFilterTopic::operator <]: the serializations, the other way round *)
#[export] Instance Wildcard_less : Less WildcardDdsFilterTopic := fun a b =>
  less (Wildcard_serialize b) (Wildcard_serialize a).

(** [fill<TlsConfiguration>] *)
Definition tls_set_kind (k : TlsKind) (t : TlsConfiguration) : TlsConfiguration :=
  mkTls k (verify_peer t) (certificate_authority_file t) (sni_server_name t) (private_key_file_password t)
    (private_key_file t) (certificate_chain_file t) (dh_params_file t).

Definition fill_tls (object : TlsConfiguration) (yml : Yaml) : reading TlsConfiguration :=
  key ← optional get_string yml TLS_PRIVATE_KEY_TAG (private_key_file object);
  pass ← optional get_string yml TLS_PASSWORD_TAG (private_key_file_password object);
  ca ← optional get_string yml TLS_CA_TAG (certificate_authority_file object);
  cert ← optional get_string yml TLS_CERT_TAG (certificate_chain_file object);
  sni ← optional get_string yml TLS_SNI_HOST_TAG (sni_server_name object);
  dh ← optional get_string yml TLS_DHPARAMS_TAG (dh_params_file object);
  verify ← optional get_bool yml TLS_PEER_VERIFICATION_TAG (verify_peer object);
  let t := mkTls (tls_kind object) verify ca sni pass key cert dh in
  if tls_is_valid_both t then mret (tls_set_kind tls_both t)
  else if tls_is_valid_client t then mret (tls_set_kind tls_client t)
  else if tls_is_valid_server t then mret (tls_set_kind tls_server t)
  else throw ConfigurationException.

(** ** Participants *)

(** [fill<ParticipantConfiguration>] *)
Definition fill_participant (version : YamlReaderVersion) (yml : Yaml) (repeater : bool) : reading BaseConf :=
  id ← get_in get_participant_id yml PARTICIPANT_NAME_TAG;
  kind ← get_in (get_kind version) yml PARTICIPANT_KIND_TAG;
  mret (mkBaseConf id kind repeater).

(** [get<EchoParticipantConfiguration>] *)
Definition get_echo (version : YamlReaderVersion) (yml : Yaml) : reading ParticipantConfiguration :=
  b ← fill_participant version yml false;
  data ← optional get_bool yml ECHO_DATA_TAG false;
  discovery ← optional get_bool yml ECHO_DISCOVERY_TAG true;
  verbose ← optional get_bool yml ECHO_VERBOSE_TAG false;
  mret (EchoConfiguration b data discovery verbose).

(** [fill<SimpleParticipantConfiguration>]: the participant and its domain *)
Definition fill_simple (version : YamlReaderVersion) (yml : Yaml) : reading (BaseConf * DomainId) :=
  b ← fill_participant version yml false;
  domain ← optional get_domain yml DOMAIN_ID_TAG (mkDomainId 0);
  mret (b, domain).

Definition get_simple (version : YamlReaderVersion) (yml : Yaml) : reading ParticipantConfiguration :=
  x ← fill_simple version yml;
  mret (SimpleConfiguration x.1 x.2).

(** [if (is_tag_present(yml, tag)) addresses = get_set<T>(yml, tag, version)] *)
Definition optional_set {A} `{Less A} (get_T : Yaml -> reading A) (yml : Yaml) (tag : string) : reading (std_set A) :=
  present ← is_tag_present yml tag;
  if (present : bool) then get_set get_T yml tag else mret [].

Definition optional_tls (yml : Yaml) : reading TlsConfiguration :=
  present ← is_tag_present yml TLS_TAG;
  if (present : bool) then (v ← get_value_in_tag yml TLS_TAG; fill_tls Tls_default v) else mret Tls_default.

(** [get<DiscoveryServerParticipantConfiguration>] *)
Definition get_discovery_server (version : YamlReaderVersion) (yml : Yaml) : reading ParticipantConfiguration :=
  x ← fill_simple version yml;
  listening ← optional_set get_address yml LISTENING_ADDRESSES_TAG;
  connection ← optional_set (get_connection_address version) yml CONNECTION_ADDRESSES_TAG;
  tls ← optional_tls yml;
  prefix ← match version with
           | V_1_0 => get_guid_prefix yml
           | _ => get_in get_guid_prefix yml DISCOVERY_SERVER_GUID_PREFIX_TAG
           end;
  mret (DiscoveryServerConfiguration x.1 x.2 prefix (set_elems listening) (set_elems connection) tls).

(** [get<InitialPeersParticipantConfiguration>] *)
Definition get_initial_peers (version : YamlReaderVersion) (yml : Yaml) : reading ParticipantConfiguration :=
  x ← fill_simple version yml;
  listening ← optional_set get_address yml LISTENING_ADDRESSES_TAG;
  connection ← optional_set get_address yml CONNECTION_ADDRESSES_TAG;
  tls ← optional_tls yml;
  repeater ← optional get_bool yml IS_REPEATER_TAG (conf_is_repeater x.1);
  mret (InitialPeersConfiguration (mkBaseConf (conf_id x.1) (conf_kind x.1) repeater) x.2
    (set_elems listening) (set_elems connection) tls).

(** [get<shared_ptr<ParticipantConfiguration>>]: the object read *)
Definition get_participant (version : YamlReaderVersion) (yml : Yaml) : reading ParticipantConfiguration :=
  kind ← get_in (get_kind version) yml PARTICIPANT_KIND_TAG;
  match kind with
  | kind_blank | kind_dummy => b ← fill_participant version yml false; mret (PlainConfiguration b)
  | kind_echo => get_echo version yml
  | kind_simple_rtps => get_simple version yml
  | kind_local_discovery_server | kind_wan_discovery_server => get_discovery_server version yml
  | kind_wan_initial_peers => get_initial_peers version yml
  | kind_invalid => _ ← get_in get_string yml PARTICIPANT_KIND_TAG; throw ConfigurationException
  end.

(** [fill<SpecsConfiguration>] *)
Definition fill_specs (object : SpecsConfiguration) (yml : Yaml) : reading SpecsConfiguration :=
  threads ← optional (get_unsigned 32) yml NUMBER_THREADS_TAG (number_of_threads object);
  history ← optional (get_unsigned 32) yml MAX_HISTORY_DEPTH_TAG (max_history_depth object);
  mret (mkSpecs threads history).

End Entities.

(** ** The router *)

Section Router.
Context {CU : CppUtils} {FD : FastDDS} {IL : IPLocator} {YC : YamlCpp} {SS : SharedSets}.
Context (indeterminate : IpVersion) (depth : Z).
(** the address of each object that [make_shared] makes *)
Context (address : nat -> Z).

Definition make_shared {A} (object : A) : reading (Z * A) :=
  n ← get; modify S ;; mret (address n, object).

(** [std::set<std::shared_ptr<T>>::insert] *)
Definition ptr_insert {A} (p : Z * A) (s : ptr_set A) : ptr_set A :=
  mkPtrSet (has_null s) (emplace p.1 p.2 (pointees s)).

Definition no_objects {A} : ptr_set A := mkPtrSet false [].

(** [allowlist] and [blocklist], if present *)
Definition shared_filters (yml : Yaml) (tag : string) : reading (ptr_set WildcardDdsFilterTopic) :=
  filters ← optional_set get_wildcard yml tag;
  convert_set_to_shared filters.

(** The topic that an entry of the allowlist without wildcards in its names stands for
    in version 1.0 *)
Definition real_topic (f : WildcardDdsFilterTopic) : option DdsTopic :=
  if DdsTopic_is_valid (DdsTopic_of depth (w_topic_name f) (get_reference (w_type_name f))) then
    let t := DdsTopic_of depth (w_topic_name f) (get_reference (w_type_name f)) in
    Some (if is_set (w_keyed f)
          then mkDdsTopic (topic_name t) (type_name t) (get_reference (w_keyed f)) (topic_qos t) else t)
  else None.

Fixpoint builtin_from_allowlist (l : list WildcardDdsFilterTopic) (s : ptr_set DdsTopic) :
    reading (ptr_set DdsTopic) :=
  match l with
  | [] => mret s
  | f :: l' =>
      match real_topic f with
      | Some t => p ← make_shared t; builtin_from_allowlist l' (ptr_insert p s)
      | None => builtin_from_allowlist l' s
      end
  end.

(** [yml[tag] = value] *)
Fixpoint map_set (tag : string) (value : Yaml) (l : list (Yaml * Yaml)) : list (Yaml * Yaml) :=
  match l with
  | [] => [(YScalar tag, value)]
  | (YScalar k, v) :: l' =>
      if (k =? tag)%string then (YScalar k, value) :: l' else (YScalar k, v) :: map_set tag value l'
  | kv :: l' => kv :: map_set tag value l'
  end.

(** The block of a participant in version 1.0, with its name and its kind as in the
    later ones *)
Definition participant_v1 (name_str : string) (participant_yml : Yaml) : reading Yaml :=
  match participant_yml with
  | YMap l =>
      match map_lookup PARTICIPANT_KIND_TAG_V1 l with
      | None => throw ConfigurationException
      | Some kind =>
          mret (YMap (map_set PARTICIPANT_KIND_TAG kind (map_set PARTICIPANT_NAME_TAG (YScalar name_str) l)))
      end
  | _ => throw ConfigurationException
  end.

Fixpoint participants_v1 (l : list (Yaml * Yaml)) (s : ptr_set ParticipantConfiguration) :
    reading (ptr_set ParticipantConfiguration) :=
  match l with
  | [] => mret s
  | (key, block) :: l' =>
      name_str ← yaml_cpp_call (as_string key);
      if is_tag name_str then participants_v1 l' s
      else
        y ← participant_v1 name_str block;
        c ← get_participant indeterminate V_1_0 y;
        p ← make_shared c;
        participants_v1 l' (ptr_insert p s)
  end.

Definition entries (yml : Yaml) : list (Yaml * Yaml) := match yml with YMap l => l | _ => [] end.

(** [_fill_ddsrouter_configuration_v1] *)
Definition fill_configuration_v1 (yml : Yaml) : reading (DDSRouterConfiguration WildcardDdsFilterTopic) :=
  allow ← shared_filters yml ALLOWLIST_TAG;
  block ← shared_filters yml BLOCKLIST_TAG;
  builtin ← builtin_from_allowlist (snd <$> pointees allow) no_objects;
  participants ← participants_v1 (entries yml) no_objects;
  mret (mkRouterConf (mkReload allow block builtin) participants Specs_default).

Fixpoint participants_list (version : YamlReaderVersion) (l : list Yaml) (s : ptr_set ParticipantConfiguration) :
    reading (ptr_set ParticipantConfiguration) :=
  match l with
  | [] => mret s
  | y :: l' =>
      c ← get_participant indeterminate version y;
      p ← make_shared c;
      participants_list version l' (ptr_insert p s)
  end.

(** [_fill_ddsrouter_configuration_latest] *)
Definition fill_configuration_latest (version : YamlReaderVersion) (yml : Yaml) :
    reading (DDSRouterConfiguration WildcardDdsFilterTopic) :=
  allow ← shared_filters yml ALLOWLIST_TAG;
  block ← shared_filters yml BLOCKLIST_TAG;
  topics ← optional_set (get_dds_topic depth) yml BUILTIN_TAG;
  builtin ← convert_set_to_shared topics;
  participants_yml ← get_value_in_tag yml COLLECTION_PARTICIPANTS_TAG;
  participants ← match participants_yml with
                 | YSequence l => participants_list version l no_objects
                 | _ => throw ConfigurationException
                 end;
  has_specs ← is_tag_present yml SPECS_TAG;
  specs ← (if (has_specs : bool)
           then v ← get_value_in_tag yml SPECS_TAG; fill_specs Specs_default v
           else mret Specs_default);
  mret (mkRouterConf (mkReload allow block builtin) participants specs).

Definition get_configuration (version : YamlReaderVersion) (yml : Yaml) :
    reading (DDSRouterConfiguration WildcardDdsFilterTopic) :=
  match version with
  | V_1_0 => fill_configuration_v1 yml
  | _ => fill_configuration_latest version yml
  end.

Definition default_yaml_version : YamlReaderVersion := V_1_0.

(** [load_ddsrouter_configuration] *)
Definition load_ddsrouter_configuration (yml : Yaml) : reading (DDSRouterConfiguration WildcardDdsFilterTopic) :=
  with_context
    (version ← optional get_version yml VERSION_TAG default_yaml_version;
     get_configuration version yml).

(** [YamlManager::load_file]; [LoadFile] is [YAML::LoadFile] *)
Definition YamlManager_load_file (LoadFile : string -> option Yaml) (file_path : string) : reading Yaml :=
  with_context (yaml_cpp_call (LoadFile file_path)).

(** [load_ddsrouter_configuration_from_file] *)
Definition load_ddsrouter_configuration_from_file (LoadFile : string -> option Yaml) (file_path : string) :
    reading (DDSRouterConfiguration WildcardDdsFilterTopic) :=
  yml ← with_context (YamlManager_load_file LoadFile file_path);
  load_ddsrouter_configuration yml.

End Router.

(** ** A concrete instance

    Decimal numbers, [true] and [false], and prefixes read as the codes of their
    characters. *)
Module YamlDemo.

Definition unsigned_of (bits : Z) (s : string) : option Z :=
  d ← DecimalString.NilZero.uint_of_string s;
  let n := Z.of_N (N.of_uint d) in
  if (n <? 2 ^ bits)%Z then Some n else None.

Definition yaml_cpp : YamlCpp := {|
  as_bool s := if (s =? "true")%string then Some true else if (s =? "false")%string then Some false else None;
  as_unsigned := unsigned_of;
  as_string y := match y with YScalar s => Some s | _ => None end;
  read_guid_prefix s := (fun c => Z.of_nat (Ascii.nat_of_ascii c)) <$> String.list_ascii_of_string s;
  DEFAULT_ROS2_SERVER_GUIDPREFIX := "44.53.00.5f.45.50.52.4f.53.49.4d.41"
|}.

Lemma unsigned_of_decimal bits n : (0 <= n < 2 ^ bits)%Z -> unsigned_of bits (decimal n) = Some n.
Proof.
  intros Hn. unfold unsigned_of, decimal.
  rewrite DecimalString.NilZero.usu by (destruct (Z.to_N n); [done|apply DecimalPos.Unsigned.to_uint_nonnil]).
  cbn [mbind option_bind]. rewrite DecimalN.Unsigned.of_to, Z2N.id by lia.
  destruct (Z.ltb_spec n (2 ^ bits)); [done|lia].
Qed.

Lemma yaml_cpp_laws : @YamlCppLaws yaml_cpp.
Proof.
  split; try done; [apply unsigned_of_decimal|]. intros bits s n. cbn. unfold unsigned_of.
  destruct (DecimalString.NilZero.uint_of_string s) as [d|]; [|done]. cbn [mbind option_bind].
  destruct (Z.ltb_spec (Z.of_N (N.of_uint d)) (2 ^ bits)); [|done]. intros [= <-]. lia.
Qed.

(** The objects are made in the order of the set, and their addresses are their numbers. *)
Definition shared_sets : SharedSets := fun A s n =>
  (Ok (mkPtrSet false (zip_with (fun i x => (Z.of_nat i, x)) (seq n (length s)) (set_elems s))), n + length s).

Lemma shared_sets_laws : @SharedSetsLaws shared_sets.
Proof.
  intros A s n. do 2 eexists. split; [reflexivity|]. cbn [pointees]. unfold set_elems, keys.
  revert n. induction s as [|[x []] s IH]; intros n; [done|]. cbn. by rewrite <- IH at 2.
Qed.

End YamlDemo.
