(* ===== verification/YamlProperties.v ===== *)
(** * Properties of the YAML reader

    Every configuration that the format can describe is read back from its document, and
    what is read is consistent. *)
From stdpp Require Import sorting.
From S2P Require Import Prelude StdMap CppString Externals Types Topics Address Configuration Yaml.

(** ** Runs that return

    A reading that does not make objects and returns [a]. *)
Definition yields {A} (m : reading A) (a : A) : Prop := forall s, m s = (Ok a, s).

Create HintDb yaml.

Lemma yields_ret {A} (a : A) : yields (mret a) a.
Proof. done. Qed.

Lemma yields_eq {A} (a b : A) : b = a -> yields (mret a) b.
Proof. by intros ->. Qed.

Lemma yields_bind {A B} (m : reading A) (k : A -> reading B) a b :
  yields m a -> yields (k a) b -> yields (m ≫= k) b.
Proof. intros Hm Hk s. unfold mbind, prog_bind. by rewrite Hm. Qed.

Lemma yields_context {A} (m : reading A) a : yields m a -> yields (with_context m) a.
Proof. intros Hm s. unfold with_context. by rewrite Hm. Qed.

Section Reading.
Context {YC : YamlCpp}.

Lemma yields_present l tag :
  yields (is_tag_present (YMap l) tag) (match map_lookup tag l with Some _ => true | None => false end).
Proof. done. Qed.

Lemma yields_value l tag v : map_lookup tag l = Some v -> yields (get_value_in_tag (YMap l) tag) v.
Proof. intros H s. unfold get_value_in_tag. run_prog. simpl. by rewrite H. Qed.

Lemma yields_in {A} (get_T : Yaml -> reading A) l tag v a :
  map_lookup tag l = Some v -> yields (get_T v) a -> yields (get_in get_T (YMap l) tag) a.
Proof.
  intros Hl Ha. apply yields_context. eapply yields_bind; [by apply yields_value|done].
Qed.

Lemma yields_optional {A} (get_T : Yaml -> reading A) l tag v a field :
  map_lookup tag l = Some v -> yields (get_T v) a -> yields (optional get_T (YMap l) tag field) a.
Proof.
  intros Hl Ha. eapply yields_bind; [apply yields_present|]. rewrite Hl. by eapply yields_in.
Qed.

Lemma yields_optional_absent {A} (get_T : Yaml -> reading A) l tag field :
  map_lookup tag l = None -> yields (optional get_T (YMap l) tag field) field.
Proof. intros Hl. eapply yields_bind; [apply yields_present|]. by rewrite Hl. Qed.

Lemma yields_if_present {A} (get_T : Yaml -> reading A) l tag v a :
  map_lookup tag l = Some v -> yields (get_T v) a -> yields (if_present get_T (YMap l) tag) (Some a).
Proof.
  intros Hl Ha. eapply yields_bind; [apply yields_present|]. rewrite Hl.
  eapply yields_bind; [by eapply yields_in|done].
Qed.

Lemma yields_if_absent {A} (get_T : Yaml -> reading A) l tag :
  map_lookup tag l = None -> yields (if_present get_T (YMap l) tag) None.
Proof. intros Hl. eapply yields_bind; [apply yields_present|]. by rewrite Hl. Qed.

Lemma yields_string s : yields (get_string (YScalar s)) s.
Proof. done. Qed.

Lemma yields_read_all {A} (get_T : Yaml -> reading A) (doc : A -> Yaml) (l : list A) :
  Forall (fun a => yields (get_T (doc a)) a) l -> yields (read_all get_T (doc <$> l)) l.
Proof.
  induction 1 as [|a l Ha _ IH]; [done|]. cbn [fmap list_fmap read_all].
  eapply yields_bind; [done|]. by eapply yields_bind.
Qed.

(** A set is read back from its elements in order. *)
Lemma emplace_last {K V} `{StrictWeak K} (m : std_map K V) k v :
  Forall (fun e => less e.1 k = true) m -> emplace k v m = m ++ [(k, v)].
Proof.
  induction 1 as [|[k' v'] m Hk _ IH]; [done|]. cbn [emplace fst] in *.
  by rewrite (less_asym _ _ Hk), Hk, IH.
Qed.

Lemma set_of_elems {A} `{StrictWeak A} (s : std_set A) : map_wf s -> set_of (set_elems s) = s.
Proof.
  unfold set_of. induction s as [|[k []] s IH] using rev_ind; intros Hwf; [done|].
  unfold set_elems, keys in *. rewrite fmap_app, fold_left_app. cbn [fmap list_fmap fold_left fst].
  unfold map_wf in *. apply StronglySorted_app in Hwf as (Hlt & Hs & _). rewrite IH by exact Hs.
  apply emplace_last. apply Forall_forall. intros e He. by apply (Hlt e (k, tt) He), list_elem_of_here.
Qed.

Lemma yields_set {A} `{StrictWeak A} (get_T : Yaml -> reading A) (doc : A -> Yaml) (s : std_set A) l tag :
  map_wf s -> map_lookup tag l = Some (YSequence (doc <$> set_elems s)) ->
  Forall (fun a => yields (get_T (doc a)) a) (set_elems s) ->
  yields (get_set get_T (YMap l) tag) s.
Proof.
  intros Hwf Hl Hall. eapply yields_bind.
  - apply yields_context. eapply yields_bind; [by apply yields_value|].
    apply yields_context, yields_read_all, Hall.
  - rewrite set_of_elems; done.
Qed.

End Reading.

(** ** Documents *)

Definition ydoc (l : list (string * Yaml)) : Yaml := YMap ((fun kv => (YScalar kv.1, kv.2)) <$> l).
Definition ybool (b : bool) : Yaml := YScalar (if b then "true" else "false").
Definition ynumber (n : Z) : Yaml := YScalar (decimal n).
(** an entry that is there only if it says something *)
Definition entry_if (b : bool) (tag : string) (v : Yaml) : list (string * Yaml) := if b then [(tag, v)] else [].

Definition yversion (v : IpVersion) : Yaml :=
  YScalar (match v with v4 => ADDRESS_IP_VERSION_V4_TAG | v6 => ADDRESS_IP_VERSION_V6_TAG end).
Definition ytransport (t : TransportProtocol) : Yaml :=
  YScalar (match t with tcp => ADDRESS_TRANSPORT_TCP_TAG | udp => ADDRESS_TRANSPORT_UDP_TAG end).

Definition address_doc (a : Address) : Yaml :=
  ydoc [(ADDRESS_IP_VERSION_TAG, yversion (ip_version_ a));
        (if has_domain_ a then (ADDRESS_DNS_TAG, YScalar (domain_ a)) else (ADDRESS_IP_TAG, YScalar (ip_ a)));
        (ADDRESS_PORT_TAG, ynumber (port_ a));
        (ADDRESS_EXTERNAL_PORT_TAG, ynumber (external_port_ a));
        (ADDRESS_TRANSPORT_TAG, ytransport (transport_protocol_ a))].

Definition tls_doc (t : TlsConfiguration) : Yaml :=
  ydoc [(TLS_PRIVATE_KEY_TAG, YScalar (private_key_file t));
        (TLS_PASSWORD_TAG, YScalar (private_key_file_password t));
        (TLS_CA_TAG, YScalar (certificate_authority_file t));
        (TLS_CERT_TAG, YScalar (certificate_chain_file t));
        (TLS_SNI_HOST_TAG, YScalar (sni_server_name t));
        (TLS_DHPARAMS_TAG, YScalar (dh_params_file t));
        (TLS_PEER_VERIFICATION_TAG, ybool (verify_peer t))].

Definition qos_doc (q : TopicQoS) : Yaml :=
  ydoc [(QOS_RELIABLE_TAG, ybool (is_reliable q));
        (QOS_TRANSIENT_TAG, ybool (is_transient_local q));
        (QOS_HISTORY_DEPTH_TAG, ynumber (history_depth q));
        (QOS_PARTITION_TAG, ybool (use_partitions q));
        (QOS_OWNERSHIP_TAG, ybool (has_ownership q))].

Section Entities.
Context {CU : CppUtils} {CL : CppUtilsLaws} {FD : FastDDS} {FL : FastDDSLaws} {IL : IPLocator} {YC : YamlCpp} {YL : YamlCppLaws}.
Context (indeterminate : IpVersion) (depth : Z).

Definition u16_range (n : Z) : Prop := (0 <= n < 2 ^ 16)%Z.
Definition u32_bounds (n : Z) : Prop := (0 <= n < 2 ^ 32)%Z.

Lemma yields_bool b : yields (get_bool (ybool b)) b.
Proof. intros s. unfold get_bool, ybool, get_scalar. destruct b; [by rewrite as_bool_true|by rewrite as_bool_false]. Qed.

Lemma yields_number bits n : (0 <= n < 2 ^ bits)%Z -> yields (get_unsigned bits (ynumber n)) n.
Proof. intros Hn s. unfold get_unsigned, ynumber, get_scalar. by rewrite as_unsigned_decimal. Qed.

Lemma yields_version v : yields (get_ip_version (yversion v)) v.
Proof. by destruct v. Qed.

Lemma yields_transport t : yields (get_transport (ytransport t)) t.
Proof. by destruct t. Qed.

#[local] Hint Resolve yields_bool yields_number yields_version yields_transport yields_string : yaml.

(** Reads the next field of a document. *)
Ltac read_field :=
  first
    [ eapply yields_bind; [eapply yields_in; [reflexivity|eauto with yaml]|]
    | eapply yields_bind; [eapply yields_optional; [reflexivity|eauto with yaml]|]
    | eapply yields_bind; [eapply yields_if_present; [reflexivity|eauto with yaml]|]
    | eapply yields_bind; [eapply yields_optional_absent; reflexivity|]
    | eapply yields_bind; [eapply yields_if_absent; reflexivity|] ].

(** An address that the format can describe: its ports have 16 bits, and it is given by its
    IP or by a domain, which gives it when it is read. *)
Definition address_describable (a : Address) : Prop :=
  u16_range (port_ a) /\ u16_range (external_port_ a) /\
  a = (if has_domain_ a
       then Address_of_domain_version (port_ a) (external_port_ a) (ip_version_ a) (domain_ a) (transport_protocol_ a)
       else Address_of_ip (ip_ a) (port_ a) (external_port_ a) (ip_version_ a) (transport_protocol_ a)).

Lemma yields_address a : address_describable a -> yields (get_address indeterminate (address_doc a)) a.
Proof.
  intros (Hp & He & Ha). unfold get_address, address_doc, ydoc.
  destruct (has_domain_ a) eqn:Hd; cbn [fmap list_fmap fst snd]; repeat read_field; by apply yields_eq.
Qed.

(** A TLS configuration that the format can describe: it is active, of the kind that its
    files allow. *)
Definition tls_describable (t : TlsConfiguration) : Prop :=
  tls_kind t = if tls_is_valid_both t then tls_both else if tls_is_valid_client t then tls_client
               else if tls_is_valid_server t then tls_server else tls_inactive.

Lemma yields_tls t :
  tls_describable t -> tls_kind t <> tls_inactive -> yields (fill_tls Tls_default (tls_doc t)) t.
Proof.
  intros Hd Ha. unfold fill_tls, tls_doc, ydoc. cbn [fmap list_fmap fst snd]. repeat read_field.
  unfold tls_describable in Hd. destruct t as [k v ca sni pw pk cc dh].
  unfold tls_is_valid_both, tls_is_valid_client, tls_is_valid_server, tls_set_kind in *. simpl in *. subst k.
  repeat case_match; done.
Qed.

(** QoS that the format can describe: it has no way to ask for a durability above
    transient local. *)
Definition qos_describable (q : TopicQoS) : Prop :=
  u32_bounds (history_depth q) /\ (durability_qos q = VOLATILE \/ durability_qos q = TRANSIENT_LOCAL).

Lemma yields_qos q0 q : qos_describable q -> yields (fill_qos q0 (qos_doc q)) q.
Proof.
  intros (Hh & Hd). unfold fill_qos, qos_doc, ydoc. cbn [fmap list_fmap fst snd]. repeat read_field.
  destruct q as [d r o p h]. unfold is_transient_local, is_reliable, has_ownership. simpl in *.
  destruct Hd as [-> | ->]; destruct r, o; apply yields_ret.
Qed.

(** *** Topics *)

Definition topic_doc (t : DdsTopic) : Yaml :=
  ydoc ([(TOPIC_NAME_TAG, YScalar (topic_name t)); (TOPIC_TYPE_NAME_TAG, YScalar (type_name t));
         (TOPIC_KIND_TAG, ybool (keyed t))] ++
        entry_if (is_set (topic_qos t)) TOPIC_QOS_TAG (qos_doc (get_reference (topic_qos t)))).

Definition topic_describable (t : DdsTopic) : Prop :=
  let new := topic_qos (DdsTopic_of depth "" "") in
  if is_set (topic_qos t)
  then qos_describable (get_reference (topic_qos t)) /\
       topic_qos t = set_level (set_reference (get_reference (topic_qos t)) new)
  else topic_qos t = new.

Lemma yields_topic t : topic_describable t -> yields (get_dds_topic depth (topic_doc t)) t.
Proof.
  intros Ht. unfold topic_describable in Ht. unfold get_dds_topic, topic_doc, ydoc.
  destruct (is_set (topic_qos t)) eqn:Hset; unfold entry_if; cbn [app fmap list_fmap fst snd]; repeat read_field;
    (eapply yields_bind; [apply yields_present|]); cbn [map_lookup].
  - destruct Ht as [Hq He]. eapply yields_bind.
    + eapply yields_bind; [apply yields_value; reflexivity|].
      eapply yields_bind; [by apply yields_qos|apply yields_ret].
    + simpl in He. simpl. rewrite <- He. destruct t. apply yields_ret.
  - eapply yields_bind; [apply yields_ret|]. rewrite <- Ht. destruct t. apply yields_ret.
Qed.

Definition filter_doc (f : WildcardDdsFilterTopic) : Yaml :=
  ydoc ([(TOPIC_NAME_TAG, YScalar (w_topic_name f))] ++
        entry_if (is_set (w_type_name f)) TOPIC_TYPE_NAME_TAG (YScalar (get_reference (w_type_name f))) ++
        entry_if (is_set (w_keyed f)) TOPIC_KIND_TAG (ybool (get_reference (w_keyed f)))).

Definition filter_describable (f : WildcardDdsFilterTopic) : Prop :=
  w_type_name f = (if is_set (w_type_name f) then set_value (get_reference (w_type_name f)) (fuzzy_init "") else fuzzy_init "") /\
  w_keyed f = (if is_set (w_keyed f) then set_value (get_reference (w_keyed f)) (fuzzy_init false) else fuzzy_init false).

Lemma yields_filter f : filter_describable f -> yields (get_wildcard (filter_doc f)) f.
Proof.
  intros (Ht & Hk). unfold get_wildcard, filter_doc, ydoc.
  destruct (is_set (w_type_name f)), (is_set (w_keyed f)); unfold entry_if; cbn [app fmap list_fmap fst snd];
    repeat read_field; apply yields_eq; destruct f; simpl in *; congruence.
Qed.

(** *** Participants *)

(** The names of the kinds are in lower case, which [to_lowercase] keeps. *)
Context (lowercase_kept : forall s, s ∈ mjoin PARTICIPANT_KIND_ALIASES -> to_lowercase s = s).
(** A text from which a prefix is read. *)
Context (guid_text : GuidPrefix -> string).

Definition kind_text (k : ParticipantKind) : string :=
  match k with
  | kind_invalid => "__invalid_participant_kind__"
  | kind_blank => "blank"
  | kind_echo => "echo"
  | kind_dummy => "dummy"
  | kind_simple_rtps => "local"
  | kind_local_discovery_server => "discovery-server"
  | kind_wan_discovery_server => "wan-ds"
  | kind_wan_initial_peers => "wan"
  end.

Lemma kind_from_text k : participant_kind_from_name (kind_text k) = k.
Proof.
  assert (forall s, bool_decide (s ∈ mjoin PARTICIPANT_KIND_ALIASES) = true -> to_lowercase s = s) as Hl.
  { intros s Hs%bool_decide_eq_true. by apply lowercase_kept. }
  unfold participant_kind_from_name.
  destruct k; cbn [kind_text String.length Nat.eqb kind_from_aliases PARTICIPANT_KIND_ALIASES existsb];
    rewrite !Hl by reflexivity; reflexivity.
Qed.

Definition base_doc (b : BaseConf) : list (string * Yaml) :=
  [(PARTICIPANT_NAME_TAG, YScalar (id_ (conf_id b))); (PARTICIPANT_KIND_TAG, YScalar (kind_text (conf_kind b)))].

Definition guid_doc (p : GuidPrefix) : Yaml := ydoc [(DISCOVERY_SERVER_GUID_TAG, YScalar (guid_text p))].

Definition connection_doc (c : DiscoveryServerConnectionAddress) : Yaml :=
  ydoc [(DISCOVERY_SERVER_GUID_PREFIX_TAG, guid_doc (discovery_server_guid_prefix_ c));
        (COLLECTION_ADDRESSES_TAG, YSequence (address_doc <$> set_elems (addresses_ c)))].

Definition participant_doc (c : ParticipantConfiguration) : Yaml :=
  match c with
  | PlainConfiguration b => ydoc (base_doc b)
  | EchoConfiguration b data discovery verbose =>
      ydoc (base_doc b ++ [(ECHO_DATA_TAG, ybool data); (ECHO_DISCOVERY_TAG, ybool discovery);
                           (ECHO_VERBOSE_TAG, ybool verbose)])
  | SimpleConfiguration b domain => ydoc (base_doc b ++ [(DOMAIN_ID_TAG, ynumber (Types.domain_id_ domain))])
  | DiscoveryServerConfiguration b domain prefix listening connection tls =>
      ydoc (base_doc b ++ [(DOMAIN_ID_TAG, ynumber (Types.domain_id_ domain));
                           (LISTENING_ADDRESSES_TAG, YSequence (address_doc <$> listening));
                           (CONNECTION_ADDRESSES_TAG, YSequence (connection_doc <$> connection));
                           (DISCOVERY_SERVER_GUID_PREFIX_TAG, guid_doc prefix)] ++
            entry_if (tls_is_active tls) TLS_TAG (tls_doc tls))
  | InitialPeersConfiguration b domain listening connection tls =>
      ydoc (base_doc b ++ [(DOMAIN_ID_TAG, ynumber (Types.domain_id_ domain));
                           (LISTENING_ADDRESSES_TAG, YSequence (address_doc <$> listening));
                           (CONNECTION_ADDRESSES_TAG, YSequence (address_doc <$> connection));
                           (IS_REPEATER_TAG, ybool (conf_is_repeater b))] ++
            entry_if (tls_is_active tls) TLS_TAG (tls_doc tls))
  end.

(** The elements of a [std::set], in its order. *)
Definition elements_of_set {A} `{Less A} (l : list A) : Prop := exists s : std_set A, map_wf s /\ l = set_elems s.

Definition guid_describable (p : GuidPrefix) : Prop := read_guid_prefix (guid_text p) = p.

Definition connection_describable (c : DiscoveryServerConnectionAddress) : Prop :=
  guid_describable (discovery_server_guid_prefix_ c) /\ map_wf (addresses_ c) /\
  Forall address_describable (set_elems (addresses_ c)).

(** The TLS configuration is not given, or given and active. *)
Definition tls_choice (t : TlsConfiguration) : Prop :=
  if tls_is_active t then tls_describable t else t = Tls_default.

Definition addresses_describable (l : list Address) : Prop := elements_of_set l /\ Forall address_describable l.

(** A participant that the format can describe: its class is the one of its kind, and only
    one of initial peers can be a repeater. *)
Definition participant_describable (c : ParticipantConfiguration) : Prop :=
  let b := conf_base c in
  ParticipantId_of (id_ (conf_id b)) = conf_id b /\
  match c with
  | PlainConfiguration _ => (conf_kind b = kind_blank \/ conf_kind b = kind_dummy) /\ conf_is_repeater b = false
  | EchoConfiguration _ _ _ _ => conf_kind b = kind_echo /\ conf_is_repeater b = false
  | SimpleConfiguration _ domain =>
      conf_kind b = kind_simple_rtps /\ conf_is_repeater b = false /\ u32_bounds (Types.domain_id_ domain)
  | DiscoveryServerConfiguration _ domain prefix listening connection tls =>
      (conf_kind b = kind_local_discovery_server \/ conf_kind b = kind_wan_discovery_server) /\
      conf_is_repeater b = false /\ u32_bounds (Types.domain_id_ domain) /\ guid_describable prefix /\
      addresses_describable listening /\
      (elements_of_set connection /\ Forall connection_describable connection) /\ tls_choice tls
  | InitialPeersConfiguration _ domain listening connection tls =>
      conf_kind b = kind_wan_initial_peers /\ u32_bounds (Types.domain_id_ domain) /\
      addresses_describable listening /\ addresses_describable connection /\ tls_choice tls
  end.

Lemma yields_optional_set {A} `{StrictWeak A} (get_T : Yaml -> reading A) (doc : A -> Yaml) (s : std_set A) l tag :
  map_wf s -> map_lookup tag l = Some (YSequence (doc <$> set_elems s)) ->
  Forall (fun a => yields (get_T (doc a)) a) (set_elems s) ->
  yields (optional_set get_T (YMap l) tag) s.
Proof.
  intros Hwf Hl Hall. eapply yields_bind; [apply yields_present|]. rewrite Hl. by eapply yields_set.
Qed.

Lemma yields_addresses l tag s :
  map_lookup tag l = Some (YSequence (address_doc <$> set_elems s)) ->
  map_wf s -> Forall address_describable (set_elems s) ->
  yields (optional_set (get_address indeterminate) (YMap l) tag) s.
Proof.
  intros Hl Hwf Hall. eapply yields_optional_set; [done..|]. eapply Forall_impl; [exact Hall|apply yields_address].
Qed.

Lemma yields_guid p : guid_describable p -> yields (get_guid_prefix (guid_doc p)) p.
Proof. intros Hg. unfold get_guid_prefix, guid_doc, ydoc. cbn [fmap list_fmap fst snd]. read_field. by apply yields_eq. Qed.

Lemma yields_connection c :
  connection_describable c -> yields (get_connection_address indeterminate V_3_0 (connection_doc c)) c.
Proof.
  intros (Hg & Hwf & Ha). unfold get_connection_address, connection_doc, ydoc. cbn [fmap list_fmap fst snd].
  eapply yields_bind; [eapply yields_in; [reflexivity|by apply yields_guid]|].
  eapply yields_bind; [eapply (yields_set _ address_doc); [done|reflexivity|]|apply yields_eq; by destruct c].
  eapply Forall_impl; [exact Ha|apply yields_address].
Qed.

Lemma yields_tls_choice l t :
  tls_choice t -> map_lookup TLS_TAG l = (if tls_is_active t then Some (tls_doc t) else None) ->
  yields (optional_tls (YMap l)) t.
Proof.
  unfold tls_choice. intros Ht Hl. eapply yields_bind; [apply yields_present|]. rewrite Hl.
  destruct (tls_is_active t) eqn:Ha.
  - eapply yields_bind; [by apply yields_value|]. apply yields_tls; [done|]. by apply bool_decide_eq_true in Ha.
  - by apply yields_eq.
Qed.

Lemma yields_kind k : yields (get_kind V_3_0 (YScalar (kind_text k))) k.
Proof.
  intros s. unfold get_kind, get_string, get_scalar, with_context, yaml_cpp_call. run_prog. rewrite kind_from_text. by destruct k.
Qed.

Lemma yields_id b : ParticipantId_of (id_ (conf_id b)) = conf_id b ->
  yields (get_participant_id (YScalar (id_ (conf_id b)))) (conf_id b).
Proof. intros H s. unfold get_participant_id, get_string, get_scalar, with_context, yaml_cpp_call. run_prog. by rewrite H. Qed.

Lemma yields_base b l :
  ParticipantId_of (id_ (conf_id b)) = conf_id b ->
  map_lookup PARTICIPANT_NAME_TAG l = Some (YScalar (id_ (conf_id b))) ->
  map_lookup PARTICIPANT_KIND_TAG l = Some (YScalar (kind_text (conf_kind b))) ->
  yields (fill_participant V_3_0 (YMap l) false) (mkBaseConf (conf_id b) (conf_kind b) false).
Proof.
  intros Hid Hn Hk. eapply yields_bind; [eapply yields_in; [done|by apply yields_id]|].
  eapply yields_bind; [eapply yields_in; [done|apply yields_kind]|]. done.
Qed.

Lemma yields_simple b domain l :
  ParticipantId_of (id_ (conf_id b)) = conf_id b -> u32_bounds (Types.domain_id_ domain) ->
  map_lookup PARTICIPANT_NAME_TAG l = Some (YScalar (id_ (conf_id b))) ->
  map_lookup PARTICIPANT_KIND_TAG l = Some (YScalar (kind_text (conf_kind b))) ->
  map_lookup DOMAIN_ID_TAG l = Some (ynumber (Types.domain_id_ domain)) ->
  yields (fill_simple V_3_0 (YMap l)) (mkBaseConf (conf_id b) (conf_kind b) false, domain).
Proof.
  intros Hid Hd Hn Hk Hdom. eapply yields_bind; [by apply yields_base|].
  eapply yields_bind; [eapply yields_optional; [done|]|done].
  eapply yields_bind; [by apply yields_number|]. by destruct domain.
Qed.

(** The first step: the kind decides the class. *)
Lemma yields_dispatch k l c :
  map_lookup PARTICIPANT_KIND_TAG l = Some (YScalar (kind_text k)) ->
  yields (match k with
          | kind_blank | kind_dummy => b ← fill_participant V_3_0 (YMap l) false; mret (PlainConfiguration b)
          | kind_echo => get_echo V_3_0 (YMap l)
          | kind_simple_rtps => get_simple V_3_0 (YMap l)
          | kind_local_discovery_server | kind_wan_discovery_server =>
              get_discovery_server indeterminate V_3_0 (YMap l)
          | kind_wan_initial_peers => get_initial_peers indeterminate V_3_0 (YMap l)
          | kind_invalid => _ ← get_in get_string (YMap l) PARTICIPANT_KIND_TAG; throw ConfigurationException
          end) c ->
  yields (get_participant indeterminate V_3_0 (YMap l)) c.
Proof. intros Hl Hc. eapply yields_bind; [eapply yields_in; [done|apply yields_kind]|]. done. Qed.

Lemma yields_discovery_server b domain prefix listening connection tls :
  participant_describable (DiscoveryServerConfiguration b domain prefix listening connection tls) ->
  yields (get_discovery_server indeterminate V_3_0
    (participant_doc (DiscoveryServerConfiguration b domain prefix listening connection tls)))
    (DiscoveryServerConfiguration b domain prefix listening connection tls).
Proof.
  pose proof (ConnectionAddress_strict_weak FL) as HSW.
  intros (Hid & _ & Hrep & Hdom & Hg & ((sl & Hwl & ->) & Hl) & ((sc & Hwc & ->) & Hc) & Htls).
  unfold participant_doc, ydoc. cbn [conf_base base_doc app fmap list_fmap fst snd] in *.
  eapply yields_bind; [by apply yields_simple|].
  eapply yields_bind; [apply yields_addresses; [reflexivity|done|done]|].
  eapply yields_bind.
  { eapply (yields_optional_set _ connection_doc); [done|reflexivity|].
    eapply Forall_impl; [exact Hc|apply yields_connection]. }
  eapply yields_bind; [apply yields_tls_choice; [done|]|].
  { unfold entry_if. by destruct (tls_is_active tls). }
  eapply yields_bind; [eapply yields_in; [reflexivity|by apply yields_guid]|].
  apply yields_eq. destruct b. simpl in *. by rewrite Hrep.
Qed.

Lemma yields_initial_peers b domain listening connection tls :
  participant_describable (InitialPeersConfiguration b domain listening connection tls) ->
  yields (get_initial_peers indeterminate V_3_0
    (participant_doc (InitialPeersConfiguration b domain listening connection tls)))
    (InitialPeersConfiguration b domain listening connection tls).
Proof.
  intros (Hid & _ & Hdom & ((sl & Hwl & ->) & Hl) & ((sc & Hwc & ->) & Hc) & Htls).
  unfold participant_doc, ydoc. cbn [conf_base base_doc app fmap list_fmap fst snd] in *.
  eapply yields_bind; [by apply yields_simple|].
  eapply yields_bind; [apply yields_addresses; [reflexivity|done|done]|].
  eapply yields_bind; [apply yields_addresses; [reflexivity|done|done]|].
  eapply yields_bind; [apply yields_tls_choice; [done|]|].
  { unfold entry_if. by destruct (tls_is_active tls). }
  read_field. apply yields_eq. by destruct b.
Qed.

Lemma yields_participant c :
  participant_describable c -> yields (get_participant indeterminate V_3_0 (participant_doc c)) c.
Proof.
  intros Hc. pose proof Hc as (Hid & Hd). destruct c as [b|b data discovery verbose|b domain|b domain prefix ls cs tls|b domain ls cs tls];
    cbn [conf_base] in *.
  - destruct Hd as [Hk Hrep]. eapply (yields_dispatch (conf_kind b)); [reflexivity|].
    assert (yields (b0 ← fill_participant V_3_0 (participant_doc (PlainConfiguration b)) false; mret (PlainConfiguration b0))
      (PlainConfiguration b)) as H.
    { eapply yields_bind; [by apply yields_base|]. apply yields_eq. destruct b. simpl in *. by rewrite Hrep. }
    by destruct Hk as [-> | ->].
  - destruct Hd as [Hk Hrep]. eapply (yields_dispatch (conf_kind b)); [reflexivity|]. rewrite Hk at 1.
    eapply yields_bind; [by apply yields_base|]. repeat read_field.
    apply yields_eq. destruct b. simpl in *. by rewrite Hrep.
  - destruct Hd as (Hk & Hrep & Hdom). eapply (yields_dispatch (conf_kind b)); [reflexivity|]. rewrite Hk at 1.
    eapply yields_bind; [by apply yields_simple|]. apply yields_eq. destruct b. simpl in *. by rewrite Hrep.
  - eapply (yields_dispatch (conf_kind b)); [reflexivity|].
    destruct (proj1 Hd) as [Hk|Hk]; rewrite Hk at 1; by apply yields_discovery_server.
  - eapply (yields_dispatch (conf_kind b)); [reflexivity|]. rewrite (proj1 Hd) at 1. by apply yields_initial_peers.
Qed.

(** *** The router *)

(** Objects have different addresses. *)
Context {SS : SharedSets} {SL : SharedSetsLaws}.
Context (address : nat -> Z) (address_inj : forall n m, address n = address m -> n = m).

(** The objects of [s] are among the first [n] made. *)
Definition made_before {A} (s : ptr_set A) (n : nat) : Prop :=
  forall k v, (k, v) ∈ pointees s -> exists m, m < n /\ k = address m.

Definition objects {A} (s : ptr_set A) : list A := snd <$> pointees s.

Lemma emplace_absent_perm {V} k (v : V) (m : std_map Z V) :
  (forall w, (k, w) ∉ m) -> emplace k v m ≡ₚ (k, v) :: m.
Proof.
  induction m as [|[k' v'] m IH]; intros Hk; [done|]. cbn [emplace].
  destruct (less k k') eqn:E1; [done|]. destruct (less k' k) eqn:E2.
  - rewrite IH; [by apply perm_swap|]. intros w Hw. apply (Hk w), elem_of_cons. by right.
  - exfalso. unfold less, Z_less in *. apply (Hk v'), elem_of_cons. left. f_equal. lia.
Qed.

Lemma ptr_insert_fresh {A} (s : ptr_set A) n (x : A) :
  made_before s n ->
  made_before (ptr_insert (address n, x) s) (S n) /\ objects (ptr_insert (address n, x) s) ≡ₚ objects s ++ [x].
Proof.
  intros Hs.
  assert (pointees (ptr_insert (address n, x) s) ≡ₚ (address n, x) :: pointees s) as Hp.
  { apply emplace_absent_perm. intros w Hw. destruct (Hs _ _ Hw) as (m & Hm & He). apply address_inj in He. lia. }
  split.
  - intros k v Hkv. rewrite Hp in Hkv. apply elem_of_cons in Hkv as [[= -> ->]|Hkv]; [by exists n; split; [lia|]|].
    destruct (Hs _ _ Hkv) as (m & ? & ?). exists m. split; [lia|done].
  - unfold objects. rewrite Hp. cbn [fmap list_fmap snd]. by rewrite Permutation_cons_append.
Qed.

Lemma participants_run l : forall s n,
  Forall participant_describable l -> made_before s n ->
  exists s', participants_list indeterminate address V_3_0 (participant_doc <$> l) s n = (Ok s', n + length l) /\
    objects s' ≡ₚ objects s ++ l.
Proof.
  induction l as [|c l IH]; intros s n Hl Hs.
  - exists s. rewrite Nat.add_0_r, app_nil_r. done.
  - apply Forall_cons in Hl as [Hc Hl]. destruct (ptr_insert_fresh s n c Hs) as [Hs' Hp].
    destruct (IH _ _ Hl Hs') as (s' & Hrun & Hperm). exists s'.
    cbn [length]. rewrite Nat.add_succ_r, <- Nat.add_succ_l. split.
    + cbn [fmap list_fmap participants_list]. erewrite bind_ok by apply (yields_participant c Hc). rewrite <- Hrun. done.
    + by rewrite Hperm, Hp, <- app_assoc.
Qed.

#[export] Instance Wildcard_strict_weak : StrictWeak WildcardDdsFilterTopic.
Proof.
  split; unfold less, Wildcard_less.
  - intros a. apply less_irrefl.
  - intros a b. apply less_asym.
  - intros a b c H1 H2. by apply (less_ntrans _ (Wildcard_serialize b)).
Qed.

Lemma filters_run l tag (s : std_set WildcardDdsFilterTopic) n :
  map_wf s -> Forall filter_describable (set_elems s) ->
  map_lookup tag l = Some (YSequence (filter_doc <$> set_elems s)) ->
  exists s' n', shared_filters (YMap l) tag n = (Ok s', n') /\ objects s' ≡ₚ set_elems s.
Proof.
  intros Hwf Hall Hl. destruct (convert_set_spec _ s n) as (s' & n' & Hrun & Hp).
  exists s', n'. split; [|exact Hp]. unfold shared_filters. erewrite bind_ok; [exact Hrun|].
  eapply (yields_optional_set _ filter_doc); [done..|]. eapply Forall_impl; [exact Hall|apply yields_filter].
Qed.

(** A filter that asks for the opposite key. *)
Definition opposite_key (f : WildcardDdsFilterTopic) : WildcardDdsFilterTopic :=
  mkWildcard (w_topic_name f) (w_type_name f) (set_value (negb (get_reference (w_keyed f))) (w_keyed f)).

(** The list of filters is read into a set ordered by their serialization, which prints
    that a key was given and not which one: of two filters that only differ in it the
    second is lost. *)
Theorem opposite_key_lost f l tag :
  filter_describable f -> filter_describable (opposite_key f) -> is_set (w_keyed f) = true ->
  map_lookup tag l = Some (YSequence [filter_doc f; filter_doc (opposite_key f)]) ->
  yields (get_set get_wildcard (YMap l) tag) [(f, tt)].
Proof.
  intros Hf Hg Hk Hl. eapply yields_bind.
  - apply yields_context. eapply yields_bind; [by apply yields_value|].
    apply yields_context, (yields_read_all _ filter_doc [f; opposite_key f]).
    by apply Forall_cons_2, Forall_cons_2; [apply yields_filter..|].
  - apply yields_eq. unfold set_of, set_insert. cbn [fold_left emplace]. unfold less, Wildcard_less.
    assert (Wildcard_serialize (opposite_key f) = Wildcard_serialize f) as ->.
    { unfold Wildcard_serialize, opposite_key. cbn. by rewrite Hk, is_set_value. }
    by rewrite less_irrefl.
Qed.

Definition specs_doc (c : SpecsConfiguration) : Yaml :=
  ydoc [(NUMBER_THREADS_TAG, ynumber (number_of_threads c)); (MAX_HISTORY_DEPTH_TAG, ynumber (max_history_depth c))].

Definition router_doc (allow block : std_set WildcardDdsFilterTopic) (builtin : std_set DdsTopic)
    (participants : list ParticipantConfiguration) (specs : SpecsConfiguration) : Yaml :=
  ydoc [(VERSION_TAG, YScalar VERSION_TAG_V_3_0);
        (ALLOWLIST_TAG, YSequence (filter_doc <$> set_elems allow));
        (BLOCKLIST_TAG, YSequence (filter_doc <$> set_elems block));
        (BUILTIN_TAG, YSequence (topic_doc <$> set_elems builtin));
        (COLLECTION_PARTICIPANTS_TAG, YSequence (participant_doc <$> participants));
        (SPECS_TAG, specs_doc specs)].

(** A configuration that a document of version 3.0 can describe. *)
Record router_describable (allow block : std_set WildcardDdsFilterTopic) (builtin : std_set DdsTopic)
    (participants : list ParticipantConfiguration) (specs : SpecsConfiguration) : Prop := {
  rd_allow : map_wf allow /\ Forall filter_describable (set_elems allow);
  rd_block : map_wf block /\ Forall filter_describable (set_elems block);
  rd_builtin : map_wf builtin /\ Forall topic_describable (set_elems builtin);
  rd_participants : Forall participant_describable participants;
  rd_specs : u32_bounds (number_of_threads specs) /\ u32_bounds (max_history_depth specs)
}.

Lemma yields_specs c : u32_bounds (number_of_threads c) -> u32_bounds (max_history_depth c) ->
  yields (fill_specs Specs_default (specs_doc c)) c.
Proof.
  intros Ht Hd. unfold fill_specs, specs_doc, ydoc. cbn [fmap list_fmap fst snd]. repeat read_field.
  apply yields_eq. by destruct c.
Qed.

(** C23: a configuration is read back from its document. Every configuration that the format
    can describe, written as a document of version 3.0, is loaded as it was: the same
    filters, builtin topics, participants of every kind with their addresses, TLS options
    and flags, and the same options, as new objects. *)
Theorem yaml_roundtrip allow block builtin participants specs n :
  router_describable allow block builtin participants specs ->
  exists conf n',
    load_ddsrouter_configuration indeterminate depth address (router_doc allow block builtin participants specs) n =
      (Ok conf, n') /\
    objects (allowlist (reload_part conf)) ≡ₚ set_elems allow /\
    objects (blocklist (reload_part conf)) ≡ₚ set_elems block /\
    objects (builtin_topics (reload_part conf)) ≡ₚ set_elems builtin /\
    objects (participants_configurations conf) ≡ₚ participants /\
    advanced_options conf = specs.
Proof.
  intros [[Hwa Ha] [Hwb Hb] [Hwt Ht] Hp [Hs1 Hs2]]. unfold router_doc, ydoc. cbn [fmap list_fmap fst snd].
  match goal with |- context [YMap ?l] => set (m := l) end.
  destruct (filters_run m ALLOWLIST_TAG allow n Hwa Ha eq_refl) as (sa & n1 & Hra & Hpa).
  destruct (filters_run m BLOCKLIST_TAG block n1 Hwb Hb eq_refl) as (sb & n2 & Hrb & Hpb).
  destruct (convert_set_spec _ builtin n2) as (st & n3 & Hrt & Hpt).
  destruct (participants_run participants no_objects n3 Hp) as (sp & Hrp & Hpp).
  { intros k v Hk. by apply not_elem_of_nil in Hk. } set (n4 := n3 + _) in Hrp.
  exists (mkRouterConf (mkReload sa sb st) sp specs), n4. split; [|done].
  unfold load_ddsrouter_configuration, with_context.
  erewrite bind_ok by (eapply (yields_optional get_version m _ _ V_3_0); [reflexivity|done]).
  unfold get_configuration, fill_configuration_latest.
  erewrite bind_ok by exact Hra. erewrite bind_ok by exact Hrb.
  erewrite bind_ok.
  2: { eapply (yields_optional_set _ topic_doc); [done|reflexivity|]. eapply Forall_impl; [exact Ht|apply yields_topic]. }
  erewrite bind_ok by exact Hrt. erewrite bind_ok by (apply yields_value; reflexivity).
  erewrite bind_ok by exact Hrp. erewrite bind_ok by apply yields_present.
  erewrite bind_ok; [reflexivity|]. eapply yields_bind; [apply yields_value; reflexivity|]. by apply yields_specs.
Qed.

End Entities.

(** ** What is read is consistent *)

Section Consistency.
Context {CU : CppUtils} {FD : FastDDS} {IL : IPLocator} {YC : YamlCpp} {SS : SharedSets}.
Context (indeterminate : IpVersion) (depth : Z).

(** A reading whose result does not depend on the objects made, and makes none. *)
Definition pure {A} (m : reading A) : Prop := forall s, m s = ((m 0).1, s).

Lemma pure_bind {A B} (m : reading A) (k : A -> reading B) :
  pure m -> (forall a, pure (k a)) -> pure (m ≫= k).
Proof.
  intros Hm Hk s. unfold mbind, prog_bind. rewrite (Hm s), (Hm 0). cbn [fst].
  destruct (m 0).1 as [a|e]; [|done]. rewrite (Hk a s). by rewrite (Hk a 0).
Qed.

Lemma pure_context {A} (m : reading A) : pure m -> pure (with_context m).
Proof.
  intros Hm s. unfold with_context. rewrite (Hm s), (Hm 0). cbn [fst]. by destruct (m 0).1 as [a|[]].
Qed.

Lemma pure_scalar {A} (as_T : string -> option A) y : pure (get_scalar as_T y).
Proof. intros s. destruct y; try done. simpl. by destruct (as_T s0). Qed.

Lemma pure_value y tag : pure (get_value_in_tag y tag).
Proof. intros s. unfold get_value_in_tag. destruct y; try done. run_prog. simpl. by destruct (map_lookup tag l). Qed.

Lemma pure_kind version y : pure (get_in (get_kind version) y PARTICIPANT_KIND_TAG).
Proof.
  apply pure_context, pure_bind; [apply pure_value|]. intros v.
  apply pure_bind; [apply pure_scalar|]. by intros name s.
Qed.

Definition participant_tls (c : ParticipantConfiguration) : TlsConfiguration :=
  match c with
  | DiscoveryServerConfiguration _ _ _ _ _ t | InitialPeersConfiguration _ _ _ _ t => t
  | _ => Tls_default
  end.

(** What the rest of the program relies on: the class is the one of the kind, the kind is
    known, the TLS options are complete for their kind. *)
Definition consistent (version : YamlReaderVersion) (c : ParticipantConfiguration) : Prop :=
  check_correct_configuration_object_ c = true /\ conf_kind (conf_base c) <> kind_invalid /\
  tls_is_valid (participant_tls c) = true /\
  ((version_value version <= version_value V_2_0)%Z -> conf_kind (conf_base c) <> kind_wan_initial_peers).

Lemma fill_tls_valid y s t s' : fill_tls Tls_default y s = (Ok t, s') -> tls_is_valid t = true.
Proof.
  unfold fill_tls. intros H. do 7 (apply bind_inv_ok in H as (? & ? & _ & H)).
  set (t0 := mkTls _ _ _ _ _ _ _ _) in H.
  destruct (tls_is_valid_both t0) eqn:E1; [by injection H as <- <-|].
  destruct (tls_is_valid_client t0) eqn:E2; [by injection H as <- <-|].
  destruct (tls_is_valid_server t0) eqn:E3; [by injection H as <- <-|done].
Qed.

Lemma optional_tls_valid y s t s' : optional_tls y s = (Ok t, s') -> tls_is_valid t = true.
Proof.
  unfold optional_tls. intros H. apply bind_inv_ok in H as ([] & s1 & _ & H).
  - apply bind_inv_ok in H as (v & s2 & _ & H). by eapply fill_tls_valid.
  - by injection H as <- <-.
Qed.

(** The kind of the configuration is the one read first. *)
Lemma fill_participant_kind version y k s b s' :
  (get_in (get_kind version) y PARTICIPANT_KIND_TAG 0).1 = Ok k ->
  fill_participant version y false s = (Ok b, s') -> conf_kind b = k.
Proof.
  intros Hk H. unfold fill_participant in H. apply bind_inv_ok in H as (id & s1 & _ & H).
  apply bind_inv_ok in H as (k' & s2 & Hk' & H). rewrite (pure_kind version y s1), Hk in Hk'.
  injection Hk' as <- <-. by injection H as <- <-.
Qed.

Lemma fill_simple_kind version y k s x s' :
  (get_in (get_kind version) y PARTICIPANT_KIND_TAG 0).1 = Ok k ->
  fill_simple version y s = (Ok x, s') -> conf_kind x.1 = k.
Proof.
  intros Hk H. unfold fill_simple in H. apply bind_inv_ok in H as (b & s1 & Hb & H).
  apply bind_inv_ok in H as (d & s2 & _ & H). injection H as <- <-. by eapply fill_participant_kind.
Qed.

Lemma context_inv_ok {A} (m : reading A) s a s' : with_context m s = (Ok a, s') -> m s = (Ok a, s').
Proof. unfold with_context. by destruct (m s) as [[?|[]] ?]. Qed.

Lemma get_kind_old version y s k s' :
  get_in (get_kind version) y PARTICIPANT_KIND_TAG s = (Ok k, s') ->
  (version_value version <= version_value V_2_0)%Z -> k <> kind_wan_initial_peers.
Proof.
  intros H Hv. apply Z.leb_le in Hv. apply context_inv_ok in H.
  apply bind_inv_ok in H as (v & s2 & _ & H). apply bind_inv_ok in H as (name & s3 & _ & H). cbv zeta in H.
  rewrite Hv in H. cbn [andb] in H. case_bool_decide; injection H as <- <-; done.
Qed.

(** The configuration of a class with the kind [k], which has complete TLS options. *)
Definition of_kind (k : ParticipantKind) (c : ParticipantConfiguration) : Prop :=
  conf_kind (conf_base c) = k /\ tls_is_valid (participant_tls c) = true /\
  match k, c with
  | (kind_blank | kind_dummy), PlainConfiguration _ | kind_echo, EchoConfiguration _ _ _ _
  | kind_simple_rtps, SimpleConfiguration _ _
  | (kind_local_discovery_server | kind_wan_discovery_server), DiscoveryServerConfiguration _ _ _ _ _ _
  | kind_wan_initial_peers, InitialPeersConfiguration _ _ _ _ _ => True
  | _, _ => False
  end.

Lemma get_discovery_server_kind version y k s c s' :
  (get_in (get_kind version) y PARTICIPANT_KIND_TAG 0).1 = Ok k ->
  get_discovery_server indeterminate version y s = (Ok c, s') ->
  conf_kind (conf_base c) = k /\ tls_is_valid (participant_tls c) = true /\ is_discovery_server_conf c = true.
Proof.
  intros Hk H. unfold get_discovery_server in H. apply bind_inv_ok in H as (x & s2 & Hb & H).
  do 2 (apply bind_inv_ok in H as (? & ? & _ & H)). apply bind_inv_ok in H as (t & s3 & Ht & H).
  apply bind_inv_ok in H as (? & ? & _ & H). injection H as <- <-.
  split_and!; [by eapply fill_simple_kind|by eapply optional_tls_valid|done].
Qed.

Lemma get_initial_peers_kind version y k s c s' :
  (get_in (get_kind version) y PARTICIPANT_KIND_TAG 0).1 = Ok k ->
  get_initial_peers indeterminate version y s = (Ok c, s') ->
  conf_kind (conf_base c) = k /\ tls_is_valid (participant_tls c) = true /\ is_initial_peers_conf c = true.
Proof.
  intros Hk H. unfold get_initial_peers in H. apply bind_inv_ok in H as (x & s2 & Hb & H).
  do 2 (apply bind_inv_ok in H as (? & ? & _ & H)). apply bind_inv_ok in H as (t & s3 & Ht & H).
  apply bind_inv_ok in H as (r & ? & _ & H). injection H as <- <-.
  split_and!; [by eapply (fill_simple_kind version y)|by eapply optional_tls_valid|done].
Qed.

Lemma get_participant_kind version y s c s' :
  get_participant indeterminate version y s = (Ok c, s') ->
  exists k, get_in (get_kind version) y PARTICIPANT_KIND_TAG s = (Ok k, s) /\ of_kind k c.
Proof.
  intros H. apply bind_inv_ok in H as (k & s1 & Hkind & H). exists k.
  rewrite (pure_kind version y s) in *. injection Hkind as Hk <-. rewrite Hk. split; [done|]. destruct k.
  - by apply bind_inv_ok in H as (? & ? & _ & H).
  - apply bind_inv_ok in H as (b & s2 & Hb & H). injection H as <- <-. split; [by eapply fill_participant_kind|done].
  - unfold get_echo in H. apply bind_inv_ok in H as (b & s2 & Hb & H).
    do 3 (apply bind_inv_ok in H as (? & ? & _ & H)). injection H as <- <-.
    split; [by eapply fill_participant_kind|done].
  - apply bind_inv_ok in H as (b & s2 & Hb & H). injection H as <- <-. split; [by eapply fill_participant_kind|done].
  - apply bind_inv_ok in H as (x & s2 & Hb & H). injection H as <- <-. split; [by eapply fill_simple_kind|done].
  - destruct (get_discovery_server_kind _ _ _ _ _ _ Hk H) as (? & ? & ?). by destruct c.
  - destruct (get_discovery_server_kind _ _ _ _ _ _ Hk H) as (? & ? & ?). by destruct c.
  - destruct (get_initial_peers_kind _ _ _ _ _ _ Hk H) as (? & ? & ?). by destruct c.
Qed.

Lemma get_participant_consistent version y s c s' :
  get_participant indeterminate version y s = (Ok c, s') -> consistent version c.
Proof.
  intros (k & Hk & Hck & Ht & Hc)%get_participant_kind. pose proof (get_kind_old _ _ _ _ _ Hk) as Hold.
  unfold consistent, check_correct_configuration_object_. rewrite Hck.
  split_and!; try done; destruct k, c; done.
Qed.

Context (address : nat -> Z).

Definition all_consistent (version : YamlReaderVersion) (s : ptr_set ParticipantConfiguration) : Prop :=
  forall c, c ∈ (snd <$> pointees s) -> consistent version c.

Lemma ptr_insert_consistent version p s :
  all_consistent version s -> consistent version p.2 -> all_consistent version (ptr_insert p s).
Proof.
  intros Hs Hp c. unfold ptr_insert. cbn [pointees]. intros Hc.
  apply list_elem_of_fmap in Hc as ([k v] & -> & Hin). cbn [snd].
  destruct (find p.1 (pointees s)) as [w|] eqn:Ef.
  - rewrite (emplace_present _ _ _ _ Ef) in Hin. apply Hs, list_elem_of_fmap. by exists (k, v).
  - rewrite (emplace_absent _ _ _ Ef) in Hin.
    assert (forall e, e ∈ assign p.1 p.2 (pointees s) -> e.2 = p.2 \/ e ∈ pointees s) as Hsub.
    { apply Forall_forall, Forall_assign; [by left|]. apply Forall_forall. intros e He. by right. }
    destruct (Hsub _ Hin) as [E|Hin']; [cbn [snd] in E; by rewrite E|]. apply Hs, list_elem_of_fmap. by exists (k, v).
Qed.

Lemma participants_list_consistent version l : forall s n r n',
  all_consistent version s -> participants_list indeterminate address version l s n = (Ok r, n') ->
  all_consistent version r.
Proof.
  induction l as [|y l IH]; intros s n r n' Hs H; [by injection H as <- <-|].
  apply bind_inv_ok in H as (c & n1 & Hc & H). apply bind_inv_ok in H as (p & n2 & Hp & H).
  injection Hp as <- <-. eapply IH; [|exact H]. apply ptr_insert_consistent; [done|]. by eapply get_participant_consistent.
Qed.

Lemma participants_v1_consistent l : forall s n r n',
  all_consistent V_1_0 s -> participants_v1 indeterminate address l s n = (Ok r, n') -> all_consistent V_1_0 r.
Proof.
  induction l as [|[k b] l IH]; intros s n r n' Hs H; [by injection H as <- <-|].
  cbn [participants_v1] in H. apply bind_inv_ok in H as (name & n0' & _ & H).
  destruct (is_tag name); [by eapply IH|].
  apply bind_inv_ok in H as (y & n0 & _ & H). apply bind_inv_ok in H as (c & n1 & Hc & H).
  apply bind_inv_ok in H as (p & n2 & Hp & H). injection Hp as <- <-.
  eapply IH; [|exact H]. apply ptr_insert_consistent; [done|]. by eapply get_participant_consistent.
Qed.

Lemma no_objects_consistent version : all_consistent version no_objects.
Proof. intros c Hc. by apply not_elem_of_nil in Hc. Qed.

Lemma fill_latest_consistent version yml n conf n' :
  fill_configuration_latest indeterminate depth address version yml n = (Ok conf, n') ->
  all_consistent version (participants_configurations conf).
Proof.
  intros H. unfold fill_configuration_latest in H. do 4 (apply bind_inv_ok in H as (? & ? & _ & H)).
  apply bind_inv_ok in H as (y & ? & _ & H). apply bind_inv_ok in H as (ps & n5 & Hps & H).
  do 2 (apply bind_inv_ok in H as (? & ? & _ & H)). injection H as <- <-.
  destruct y; try done. by eapply participants_list_consistent; [apply no_objects_consistent|].
Qed.

Lemma fill_v1_consistent yml n conf n' :
  fill_configuration_v1 indeterminate depth address yml n = (Ok conf, n') ->
  all_consistent V_1_0 (participants_configurations conf).
Proof.
  intros H. unfold fill_configuration_v1 in H. do 3 (apply bind_inv_ok in H as (? & ? & _ & H)).
  apply bind_inv_ok in H as (ps & n5 & Hps & H). injection H as <- <-.
  by eapply participants_v1_consistent; [apply no_objects_consistent|].
Qed.

Lemma pure_present yml tag : pure (is_tag_present yml tag).
Proof. intros s. by destruct yml. Qed.

Lemma pure_version yml : pure (optional get_version yml VERSION_TAG default_yaml_version).
Proof.
  apply pure_bind; [apply pure_present|]. intros []; [|done].
  apply pure_context, pure_bind; [apply pure_value|]. intros v.
  apply pure_bind; [apply pure_scalar|]. intros x s. by destruct (List.find _ _).
Qed.

(** C26: what is loaded is consistent. Whatever the document, each participant of a
    configuration that is loaded has a known kind and the class of that kind, so that the
    check of the classes cannot fail later; its TLS options are complete for the role they
    were given; and documents of version 2.0 or earlier never ask for initial peers. *)
Theorem loaded_participants_consistent yml n conf n' :
  load_ddsrouter_configuration indeterminate depth address yml n = (Ok conf, n') ->
  exists version, optional get_version yml VERSION_TAG default_yaml_version n = (Ok version, n) /\
    forall c, c ∈ (snd <$> pointees (participants_configurations conf)) -> consistent version c.
Proof.
  intros H%context_inv_ok. apply bind_inv_ok in H as (version & n1 & Hv & H). exists version.
  pose proof Hv as Hv'. rewrite (pure_version yml n) in Hv'. injection Hv' as _ <-. split; [done|].
  destruct version; cbn [get_configuration] in H; [by eapply fill_v1_consistent|by eapply fill_latest_consistent..].
Qed.

End Consistency.

(** ** Witnesses *)

Module YamlPropertiesDemo.
#[local] Existing Instances Demo.cpp_utils Demo.cpp_utils_laws Demo.fast_dds Demo.fast_dds_laws
  YamlDemo.yaml_cpp YamlDemo.yaml_cpp_laws.

(** Every text is an IPv4 address, and no name resolves. *)
#[local] Instance locator : IPLocator := {| isIPv4 _ := true; isIPv6 _ := false; resolveNameDNS _ := ([], []) |}.

(** The characters of a prefix. *)
Definition guid_text (p : GuidPrefix) : string :=
  String.string_of_list_ascii ((fun z => Ascii.ascii_of_nat (Z.to_nat z)) <$> p).

Definition home : Address := Address_of_ip "127.0.0.1" 11666 11666 v4 udp.

Definition filter : WildcardDdsFilterTopic := mkWildcard "rt/*" (set_value "std_msgs" (fuzzy_init "")) (fuzzy_init false).
Definition topic : DdsTopic :=
  let new := DdsTopic_of 5000 "rt/chatter" "std_msgs" in
  mkDdsTopic "rt/chatter" "std_msgs" true
    (set_level (set_reference (mkTopicQoS TRANSIENT_LOCAL RELIABLE SHARED_OWNERSHIP false 10) (topic_qos new))).

Definition simple : ParticipantConfiguration :=
  SimpleConfiguration (mkBaseConf (mkParticipantId "home") kind_simple_rtps false) (mkDomainId 3).
Definition wan : ParticipantConfiguration :=
  InitialPeersConfiguration (mkBaseConf (mkParticipantId "wan") kind_wan_initial_peers true) (mkDomainId 0) [home] []
    (mkTls tls_client true "ca.crt" "" "" "" "" "").
Definition server : ParticipantConfiguration :=
  DiscoveryServerConfiguration (mkBaseConf (mkParticipantId "ds") kind_local_discovery_server false) (mkDomainId 66)
    (repeat 1%Z 12) [home] [mkConnectionAddress (repeat 2%Z 12) (set_insert home [])] Tls_default.

Lemma ports : address_describable home.
Proof. by repeat split. Qed.

Lemma home_set : addresses_describable [home].
Proof. split; [exists (set_insert home []); split; [by repeat constructor|done]|by repeat constructor]. Qed.

Lemma no_address : addresses_describable [].
Proof. split; [by exists []; split; [constructor|]|constructor]. Qed.

Lemma server_describable : participant_describable guid_text server.
Proof.
  split; [reflexivity|]. split; [by left|]. split; [reflexivity|]. split; [done|]. split; [reflexivity|].
  split; [apply home_set|]. split; [|reflexivity]. split.
  - exists (set_insert (mkConnectionAddress (repeat 2%Z 12) (set_insert home [])) []). by split; [repeat constructor|].
  - repeat constructor; try done; apply ports.
Qed.

Lemma wan_describable : participant_describable guid_text wan.
Proof.
  split; [reflexivity|]. split; [reflexivity|]. split; [done|]. split; [apply home_set|]. split; [apply no_address|reflexivity].
Qed.

Lemma simple_describable : participant_describable guid_text simple.
Proof. by repeat split. Qed.

Lemma lowercase_kept s : s ∈ mjoin PARTICIPANT_KIND_ALIASES -> to_lowercase s = s.
Proof. revert s. apply Forall_forall. repeat constructor. Qed.

Lemma demo_describable :
  router_describable 5000 guid_text (set_insert filter []) [] (set_insert topic []) [simple; wan; server] Specs_default.
Proof.
  split.
  - by split; repeat constructor.
  - by split; constructor.
  - split; [by repeat constructor|]. constructor; [|constructor]. split; [|reflexivity]. by split; [|right].
  - by apply Forall_cons_2, Forall_cons_2, Forall_cons_2; [apply simple_describable|apply wan_describable|apply server_describable|].
  - done.
Qed.

End YamlPropertiesDemo.

Section Witnesses.
Import YamlPropertiesDemo.
#[local] Existing Instances Demo.cpp_utils Demo.cpp_utils_laws Demo.fast_dds Demo.fast_dds_laws
  YamlDemo.yaml_cpp YamlDemo.yaml_cpp_laws YamlDemo.shared_sets YamlDemo.shared_sets_laws locator.

Lemma yaml_roundtrip_witness :
  exists conf n',
    load_ddsrouter_configuration v4 5000 Z.of_nat
      (router_doc guid_text (set_insert filter []) [] (set_insert topic []) [simple; wan; server] Specs_default) 0 =
      (Ok conf, n') /\
    objects (allowlist (reload_part conf)) ≡ₚ [filter] /\
    objects (blocklist (reload_part conf)) ≡ₚ [] /\
    objects (builtin_topics (reload_part conf)) ≡ₚ [topic] /\
    objects (participants_configurations conf) ≡ₚ [simple; wan; server] /\
    advanced_options conf = Specs_default.
Proof.
  apply (yaml_roundtrip v4 5000 lowercase_kept guid_text Z.of_nat Nat2Z.inj (set_insert filter []) [] (set_insert topic [])).
  apply demo_describable.
Defined.

Definition demo_yaml : Yaml := router_doc guid_text (set_insert filter []) [] (set_insert topic []) [simple; wan] Specs_default.

Lemma demo_loads :
  match (load_ddsrouter_configuration v4 5000 Z.of_nat demo_yaml 0).1 with Ok _ => true | Throw _ => false end = true.
Proof. vm_compute. reflexivity. Qed.

Lemma loaded_participants_consistent_witness :
  exists conf n', load_ddsrouter_configuration v4 5000 Z.of_nat demo_yaml 0 = (Ok conf, n') /\
    exists version, optional get_version demo_yaml VERSION_TAG default_yaml_version 0 = (Ok version, 0) /\
      forall c, c ∈ (snd <$> pointees (participants_configurations conf)) -> consistent version c.
Proof.
  pose proof demo_loads as Hok.
  destruct (load_ddsrouter_configuration v4 5000 Z.of_nat demo_yaml 0) as [[conf|e] n'] eqn:E; [|discriminate Hok].
  exists conf, n'. split; [reflexivity|]. exact (loaded_participants_consistent v4 5000 Z.of_nat _ _ _ n' E).
Defined.

End Witnesses.
