(* ===== verification/YamlErrors.v ===== *)
(** * Errors of the YAML reader

    What the parts of the reader may throw, yaml-cpp included, and why only
    [ConfigurationException] leaves the whole. *)
From S2P Require Import Prelude StdMap CppString Externals Types Topics Address Configuration Yaml.

Section Errors.
Context {CU : CppUtils} {FD : FastDDS} {IL : IPLocator} {YC : YamlCpp}.
Context (indeterminate : IpVersion).

(** Readings that only throw exceptions of a class [P], to which the exception of
    configurations belongs, and which [catch (const std::exception&)] catches. *)
Context (P : exn -> Prop) (HC : P ConfigurationException) (HU : ~ P UndefinedBehaviour).
Definition std_only {A} (m : reading A) : Prop := throws_only P m.

Lemma std_bind {A B} (m : reading A) (k : A -> reading B) :
  std_only m -> (forall a, std_only (k a)) -> std_only (m ≫= k).
Proof. apply throws_bind. Qed.

(** After the catch, only [ConfigurationException] is left. *)
Lemma context_config {A} (m : reading A) s e s' :
  std_only m -> with_context m s = (Throw e, s') -> e = ConfigurationException.
Proof.
  intros Hm. unfold with_context. destruct (m s) as [[a|x] s1] eqn:E; [done|].
  apply Hm in E. by destruct x; try (intros [= <- _]).
Qed.

Lemma std_context {A} (m : reading A) : std_only m -> std_only (with_context m).
Proof. intros Hm s e s' E. by rewrite (context_config _ _ _ _ Hm E). Qed.

Lemma std_throw {A} : std_only (throw ConfigurationException : reading A).
Proof. by apply throws_throw. Qed.

Lemma std_scalar {A} (f : string -> option A) y : std_only (get_scalar f y).
Proof. intros s e s'. destruct y; simpl; try (by intros [= <-]). destruct (f s0); [done|by intros [= <- _]]. Qed.

Lemma std_value y tag : std_only (get_value_in_tag y tag).
Proof.
  intros s e s'. unfold get_value_in_tag. run_prog. destruct y; simpl; try (by intros [= <-]).
  destruct (map_lookup tag l); [done|by intros [= <-]].
Qed.

Lemma std_present y tag : std_only (is_tag_present y tag).
Proof. intros s e s'. destruct y; simpl; try done; by intros [= <-]. Qed.

Lemma std_ret {A} (a : A) : std_only (mret a).
Proof. by intros s e s'. Qed.

Lemma std_in {A} (f : Yaml -> reading A) y tag :
  (forall y, std_only (f y)) -> std_only (get_in f y tag).
Proof. intros Hf. apply std_context, std_bind; [apply std_value|done]. Qed.

Lemma std_if_present {A} (f : Yaml -> reading A) y tag :
  (forall y, std_only (f y)) -> std_only (if_present f y tag).
Proof.
  intros Hf. apply std_bind; [apply std_present|]. intros []; [|apply std_ret].
  apply std_bind; [by apply std_in|]. intros a. apply std_ret.
Qed.

Lemma std_guid y : std_only (get_guid_prefix y).
Proof.
  apply std_bind; [apply std_if_present; intros; apply std_scalar|]. intros [g|]; [apply std_ret|].
  apply std_bind; [apply std_if_present; intros; apply std_scalar|]. intros r.
  apply std_bind; [apply std_in; intros; apply std_scalar|]. intros i. apply std_ret.
Qed.

Lemma std_list {A} (f : Yaml -> reading A) y : (forall y, std_only (f y)) -> std_only (get_list f y).
Proof.
  intros Hf. destruct y as [| |l|]; try apply std_throw. apply std_context.
  induction l as [|y l IH]; [apply std_ret|]. apply std_bind; [apply Hf|]. intros x.
  apply std_bind; [exact IH|]. intros r. apply std_ret.
Qed.

Lemma std_optional {A} (f : Yaml -> reading A) y tag field :
  (forall y, std_only (f y)) -> std_only (optional f y tag field).
Proof. intros Hf. apply std_bind; [apply std_present|]. intros []; [by apply std_in|apply std_ret]. Qed.

Lemma std_get_set {A} `{Less A} (f : Yaml -> reading A) y tag :
  (forall y, std_only (f y)) -> std_only (get_set f y tag).
Proof.
  intros Hf. apply std_bind; [|intros; apply std_ret].
  apply std_context, std_bind; [apply std_value|]. intros v. by apply std_list.
Qed.

Lemma std_optional_set {A} `{Less A} (f : Yaml -> reading A) y tag :
  (forall y, std_only (f y)) -> std_only (optional_set f y tag).
Proof. intros Hf. apply std_bind; [apply std_present|]. intros []; [by apply std_get_set|apply std_ret]. Qed.

Lemma std_enumeration {A} (l : list (string * A)) y : std_only (get_enumeration l y).
Proof.
  apply std_bind; [apply std_scalar|]. intros v.
  destruct (List.find _ _); [apply std_ret|apply std_throw].
Qed.

(** Goes through a reading. *)
Ltac std_reading :=
  repeat first
    [ apply std_scalar | apply std_enumeration | apply std_value | apply std_present | apply std_ret
    | apply std_throw | apply std_guid | apply std_in; intros | apply std_if_present; intros
    | apply std_optional; intros | apply std_optional_set; intros | apply std_get_set; intros
    | apply std_bind; [|intros]
    | match goal with
      | |- std_only (let _ := _ in _) => cbv zeta
      | |- std_only (if ?b then _ else _) => destruct b
      | |- std_only (match ?x with _ => _ end) => destruct x
      end
    | done ].

Lemma std_address y : std_only (get_address indeterminate y).
Proof. unfold get_address, get_ip_version, get_port, get_unsigned, get_transport, get_string. std_reading. Qed.

Lemma std_connection version y : std_only (get_connection_address indeterminate version y).
Proof. unfold get_connection_address. std_reading; apply std_address. Qed.

Lemma std_tls y : std_only (optional_tls y).
Proof. unfold optional_tls, fill_tls, get_string, get_bool. std_reading. Qed.

Lemma std_kind version y : std_only (get_kind version y).
Proof. unfold get_kind, get_string. std_reading. Qed.

Lemma std_fill_simple version y : std_only (fill_simple version y).
Proof.
  unfold fill_simple, fill_participant, get_participant_id, get_domain, get_string, get_unsigned. std_reading.
Qed.

Lemma std_fill_participant version y r : std_only (fill_participant version y r).
Proof. unfold fill_participant, get_participant_id, get_string. std_reading. Qed.

Lemma std_participant version y : std_only (get_participant indeterminate version y).
Proof.
  unfold get_participant, get_string, get_echo, get_simple, get_discovery_server, get_initial_peers, get_bool. std_reading.
Qed.

Lemma std_qos object y : std_only (fill_qos object y).
Proof. unfold fill_qos, get_bool, get_unsigned. std_reading. Qed.

Lemma std_topic depth y : std_only (get_dds_topic depth y).
Proof. unfold get_dds_topic, get_string, get_bool. std_reading. Qed.

Lemma std_wildcard y : std_only (get_wildcard y).
Proof. unfold get_wildcard, get_string, get_bool. std_reading. Qed.

(** ** The router *)

Context {SS : SharedSets} {SL : SharedSetsLaws} (address : nat -> Z).

Lemma std_convert {A} (s : std_set A) : std_only (convert_set_to_shared s).
Proof. intros n e n' H. destruct (convert_set_spec _ s n) as (r & n1 & Hr & _). congruence. Qed.

Lemma std_make_shared {A} (x : A) : std_only (make_shared address x).
Proof. by intros s e s'. Qed.

Lemma std_filters y tag : std_only (shared_filters y tag).
Proof. unfold shared_filters. std_reading. apply std_convert. Qed.

Lemma std_builtin depth l s : std_only (builtin_from_allowlist depth address l s).
Proof.
  revert s. induction l as [|f l IH]; intros s; cbn [builtin_from_allowlist]; [apply std_ret|].
  destruct (real_topic depth f); [|apply IH]. apply std_bind; [apply std_make_shared|]. intros p. apply IH.
Qed.

Lemma std_participants version l s : std_only (participants_list indeterminate address version l s).
Proof.
  revert s. induction l as [|y l IH]; intros s; cbn [participants_list]; [apply std_ret|].
  apply std_bind; [apply std_participant|]. intros c. apply std_bind; [apply std_make_shared|]. intros p. apply IH.
Qed.

Lemma std_call {A} (o : option A) : P YamlException -> std_only (yaml_cpp_call o).
Proof. destruct o; [by intros _ s e s'|intros ?; by apply throws_throw]. Qed.

Lemma std_participants_v1 l s : P YamlException -> std_only (participants_v1 indeterminate address l s).
Proof.
  intros HY.
  revert s. induction l as [|[k b] l IH]; intros s; cbn [participants_v1]; [apply std_ret|].
  apply std_bind; [by apply std_call|]. intros name. destruct (is_tag _); [apply IH|].
  apply std_bind; [unfold participant_v1; std_reading|]. intros y. apply std_bind; [apply std_participant|]. intros c.
  apply std_bind; [apply std_make_shared|]. intros p. apply IH.
Qed.

Lemma std_configuration depth version yml :
  P YamlException -> std_only (get_configuration indeterminate depth address version yml).
Proof.
  intros HY. assert (std_only (fill_configuration_latest indeterminate depth address version yml)) as Hlatest.
  { unfold fill_configuration_latest, fill_specs, get_unsigned.
    std_reading; first [apply std_filters|apply std_topic|apply std_convert|apply std_participants]. }
  destruct version; try exact Hlatest. unfold get_configuration, fill_configuration_v1.
  std_reading; first [apply std_convert|apply std_builtin|by apply std_participants_v1].
Qed.

End Errors.

(** ** The whole reader *)

Section Load.
Context {CU : CppUtils} {FD : FastDDS} {IL : IPLocator} {YC : YamlCpp} {SS : SharedSets} {SL : SharedSetsLaws}.
Context (indeterminate : IpVersion) (address : nat -> Z).

Lemma load_throws depth LoadFile path n e n' :
  load_ddsrouter_configuration_from_file indeterminate depth address LoadFile path n = (Throw e, n') ->
  e = ConfigurationException.
Proof.
  intros E. unfold load_ddsrouter_configuration_from_file in E.
  set (P := fun x => x <> UndefinedBehaviour).
  assert (P ConfigurationException) as HC by done. assert (P YamlException) as HY by done.
  assert (~ P UndefinedBehaviour) as HU by (intros H; by apply H).
  apply bind_inv_throw in E as [E|(yml & n1 & _ & E)].
  - eapply (context_config P HU), E. apply (std_context P HC HU). by apply (std_call P).
  - eapply (context_config P HU), E. apply (std_bind P); [|intros version; by apply (std_configuration _ P)].
    apply (std_optional P HC HU). intros y. by apply (std_enumeration P HC).
Qed.

(** C24: a file is read or refused.  Whatever is in it, and also if yaml-cpp cannot read or
    parse it, the reading ends with a configuration or with a [ConfigurationException].
    Inside, other exceptions are thrown: those of yaml-cpp where a scalar, the key of a
    participant of version 1.0 or the file cannot be converted or read, and those of the
    addresses; the handlers of [get_scalar], [YamlManager::load_file] and
    [load_ddsrouter_configuration] let none of them out. *)
Theorem load_returns_or_refuses depth LoadFile path n :
  exists n',
    (exists conf, load_ddsrouter_configuration_from_file indeterminate depth address LoadFile path n = (Ok conf, n')) \/
    load_ddsrouter_configuration_from_file indeterminate depth address LoadFile path n =
      (Throw ConfigurationException, n').
Proof.
  destruct (load_ddsrouter_configuration_from_file indeterminate depth address LoadFile path n) as [[conf|e] n'] eqn:E;
    exists n'; [left; by exists conf|right]. by rewrite (load_throws _ _ _ _ _ _ E).
Qed.

End Load.

(** ** Witness *)

Section Witness.
#[local] Existing Instances Demo.cpp_utils Demo.fast_dds YamlDemo.yaml_cpp YamlDemo.shared_sets YamlDemo.shared_sets_laws.
#[local] Instance errors_locator : IPLocator :=
  {| isIPv4 _ := true; isIPv6 _ := false; resolveNameDNS _ := ([], []) |}.

(** A document of version 1.0 with a key that is not a string, and one that names a
    participant. *)
Definition odd_key : Yaml := YMap [(YSequence [], YMap []); (YScalar "p", YMap [])].

(** The exception of yaml-cpp is thrown inside, and does not leave. *)
Lemma load_returns_or_refuses_witness :
  result (get_configuration v4 5000 Z.of_nat V_1_0 odd_key) 0 = Throw YamlException /\
  exists n', load_ddsrouter_configuration_from_file v4 5000 Z.of_nat (fun _ => Some odd_key) "conf.yaml" 0 =
    (Throw ConfigurationException, n').
Proof.
  split; [vm_compute; reflexivity|].
  pose proof (load_returns_or_refuses v4 Z.of_nat 5000 (fun _ => Some odd_key) "conf.yaml" 0) as (n' & H).
  exists n'. destruct H as [(conf & H)|H]; [|exact H]. exfalso.
  assert (is_ok (load_ddsrouter_configuration_from_file v4 5000 Z.of_nat (fun _ => Some odd_key) "conf.yaml" 0).1 = false)
    as Hno by (vm_compute; reflexivity).
  rewrite H in Hno. discriminate Hno.
Defined.

End Witness.
