(* ===== verification/YamlMigration.v ===== *)
(** * Version 1.0 of the YAML format

    The participants of a document of version 1.0 are read as those of its translation to
    version 2.0. *)
From S2P Require Import Prelude StdMap CppString Externals Types Topics Address Configuration Yaml YamlErrors.

Section Migration.
Context {CU : CppUtils} {FD : FastDDS} {IL : IPLocator} {YC : YamlCpp}.
Context (indeterminate : IpVersion).

(** Readings that give the same on every run. *)
Definition same {A} (m m' : reading A) : Prop := forall s, m s = m' s.

Lemma same_refl {A} (m : reading A) : same m m.
Proof. done. Qed.

Lemma same_trans {A} (m1 m2 m3 : reading A) : same m1 m2 -> same m2 m3 -> same m1 m3.
Proof. intros H1 H2 s. by rewrite H1, H2. Qed.

Lemma same_bind {A B} (m m' : reading A) (k k' : A -> reading B) :
  same m m' -> (forall a, same (k a) (k' a)) -> same (m ≫= k) (m' ≫= k').
Proof.
  intros Hm Hk s. unfold mbind, prog_bind. rewrite Hm. destruct (m' s) as [[a|e] s']; [apply Hk|done].
Qed.

Lemma same_context {A} (m m' : reading A) : same m m' -> same (with_context m) (with_context m').
Proof. intros Hm s. unfold with_context. by rewrite Hm. Qed.

(** Two maps that say the same of a tag are read alike there. *)
Definition agree (l1 l2 : list (Yaml * Yaml)) (tag : string) : Prop := map_lookup tag l1 = map_lookup tag l2.

Section Agree.
Context (l1 l2 : list (Yaml * Yaml)) (tag : string) (Hagree : agree l1 l2 tag).

Lemma same_present : same (is_tag_present (YMap l1) tag) (is_tag_present (YMap l2) tag).
Proof. intros s. simpl. by rewrite Hagree. Qed.

Lemma same_value : same (get_value_in_tag (YMap l1) tag) (get_value_in_tag (YMap l2) tag).
Proof. intros s. unfold get_value_in_tag. run_prog. simpl. by rewrite Hagree. Qed.

Lemma same_in {A} (f f' : Yaml -> reading A) :
  (forall y, same (f y) (f' y)) -> same (get_in f (YMap l1) tag) (get_in f' (YMap l2) tag).
Proof. intros Hf. apply same_context, same_bind; [apply same_value|done]. Qed.

Lemma same_optional {A} (f : Yaml -> reading A) field :
  same (optional f (YMap l1) tag field) (optional f (YMap l2) tag field).
Proof. apply same_bind; [apply same_present|]. intros []; [|done]. by apply same_in. Qed.

Lemma same_if_present {A} (f : Yaml -> reading A) :
  same (if_present f (YMap l1) tag) (if_present f (YMap l2) tag).
Proof.
  apply same_bind; [apply same_present|]. intros []; [|done]. by apply same_bind; [apply same_in|].
Qed.

Lemma same_set {A} `{Less A} (f : Yaml -> reading A) :
  same (get_set f (YMap l1) tag) (get_set f (YMap l2) tag).
Proof. apply same_bind; [|done]. apply same_context, same_bind; [apply same_value|done]. Qed.

Lemma same_optional_set {A} `{Less A} (f : Yaml -> reading A) :
  same (optional_set f (YMap l1) tag) (optional_set f (YMap l2) tag).
Proof. apply same_bind; [apply same_present|]. intros []; [|done]. apply same_set. Qed.

End Agree.

Lemma same_tls l1 l2 : agree l1 l2 TLS_TAG -> same (optional_tls (YMap l1)) (optional_tls (YMap l2)).
Proof.
  intros H. apply same_bind; [by apply same_present|]. intros []; [|done].
  apply same_bind; [by apply same_value|done].
Qed.

Lemma same_guid l1 l2 :
  agree l1 l2 DISCOVERY_SERVER_GUID_TAG -> agree l1 l2 DISCOVERY_SERVER_ID_ROS_TAG -> agree l1 l2 DISCOVERY_SERVER_ID_TAG ->
  same (get_guid_prefix (YMap l1)) (get_guid_prefix (YMap l2)).
Proof.
  intros H1 H2 H3. apply same_bind; [by apply same_if_present|]. intros [g|]; [done|].
  apply same_bind; [by apply same_if_present|]. intros r. apply same_bind; [by apply same_in|done].
Qed.

Lemma context_same {A} (m : reading A) :
  throws_only (fun e => e = ConfigurationException) m -> same (with_context m) m.
Proof. intros Hm s. unfold with_context. destruct (m s) as [[a|[]] s'] eqn:E; try done; by apply Hm in E. Qed.

Lemma guid_config y : throws_only (fun e => e = ConfigurationException) (get_guid_prefix y).
Proof. by apply std_guid. Qed.

(** ** Translation *)

(** The server of a connection goes under a tag of its own. *)
Definition migrate_connection (e : Yaml) : Yaml :=
  match e with
  | YMap l => YMap ((YScalar DISCOVERY_SERVER_GUID_PREFIX_TAG, e) :: l)
  | _ => e
  end.

Definition migrate_connections (v : Yaml) : Yaml :=
  match v with YSequence es => YSequence (migrate_connection <$> es) | _ => v end.

(** The block of a participant: its name and its kind are in it, and so is its server. *)
Definition migrate_block (name : string) (kind : Yaml) (block : list (Yaml * Yaml)) : list (Yaml * Yaml) :=
  [(YScalar PARTICIPANT_NAME_TAG, YScalar name); (YScalar PARTICIPANT_KIND_TAG, kind);
   (YScalar DISCOVERY_SERVER_GUID_PREFIX_TAG, YMap block)] ++
  match map_lookup CONNECTION_ADDRESSES_TAG block with
  | Some v => [(YScalar CONNECTION_ADDRESSES_TAG, migrate_connections v)]
  | None => []
  end ++ block.

Definition block_v1 (name : string) (kind : Yaml) (block : list (Yaml * Yaml)) : list (Yaml * Yaml) :=
  map_set PARTICIPANT_KIND_TAG kind (map_set PARTICIPANT_NAME_TAG (YScalar name) block).

Lemma lookup_map_set tag t v l :
  map_lookup tag (map_set t v l) = if (t =? tag)%string then Some v else map_lookup tag l.
Proof.
  induction l as [|[k w] l IH]; cbn [map_set map_lookup]; [done|].
  destruct k as [|k|k|k]; try exact IH. destruct (String.eqb_spec k t) as [->|Hne]; cbn [map_lookup].
  - by destruct (t =? tag)%string.
  - destruct (String.eqb_spec k tag) as [->|]; [|exact IH]. by destruct (String.eqb_spec t tag); congruence.
Qed.

Section Block.
Context (name : string) (kind : Yaml) (block : list (Yaml * Yaml)).
#[local] Abbreviation l1 := (block_v1 name kind block).
#[local] Abbreviation l2 := (migrate_block name kind block).

Lemma agree_block tag :
  (tag =? DISCOVERY_SERVER_GUID_PREFIX_TAG)%string = false -> (tag =? CONNECTION_ADDRESSES_TAG)%string = false ->
  agree l1 l2 tag.
Proof.
  intros H1 H2. unfold agree, block_v1, migrate_block. rewrite !lookup_map_set. cbn [app map_lookup].
  rewrite (String.eqb_sym DISCOVERY_SERVER_GUID_PREFIX_TAG tag), H1.
  destruct (String.eqb_spec PARTICIPANT_NAME_TAG tag) as [<-|]; [done|].
  destruct (String.eqb_spec PARTICIPANT_KIND_TAG tag) as [<-|]; [done|].
  destruct (map_lookup CONNECTION_ADDRESSES_TAG block); [|done]. cbn [app map_lookup].
  by rewrite (String.eqb_sym CONNECTION_ADDRESSES_TAG tag), H2.
Qed.

Lemma agree_guid tag :
  (tag =? PARTICIPANT_NAME_TAG)%string = false -> (tag =? PARTICIPANT_KIND_TAG)%string = false -> agree l1 block tag.
Proof.
  intros H1 H2. unfold agree, block_v1. rewrite !lookup_map_set.
  by rewrite (String.eqb_sym PARTICIPANT_KIND_TAG), H2, (String.eqb_sym PARTICIPANT_NAME_TAG), H1.
Qed.

Lemma connections_lookup :
  map_lookup CONNECTION_ADDRESSES_TAG l2 = migrate_connections <$> map_lookup CONNECTION_ADDRESSES_TAG l1.
Proof.
  rewrite (agree_guid CONNECTION_ADDRESSES_TAG) by done. unfold migrate_block.
  destruct (map_lookup CONNECTION_ADDRESSES_TAG block) eqn:E; [reflexivity|exact E].
Qed.

Lemma same_prefix :
  same (get_guid_prefix (YMap l1)) (get_in get_guid_prefix (YMap l2) DISCOVERY_SERVER_GUID_PREFIX_TAG).
Proof.
  apply (same_trans _ (get_guid_prefix (YMap block))); [by apply same_guid; apply agree_guid|].
  intros s. symmetry. by apply (context_same _ (guid_config (YMap block)) s).
Qed.

End Block.

Lemma same_connection e :
  same (get_connection_address indeterminate V_1_0 e) (get_connection_address indeterminate V_2_0 (migrate_connection e)).
Proof.
  destruct e as [| | |l]; try done. apply same_bind.
  - intros s. symmetry. by apply (context_same _ (guid_config (YMap l)) s).
  - intros g. apply same_bind; [|done]. by apply same_set.
Qed.

Lemma same_read_all es :
  same (read_all (get_connection_address indeterminate V_1_0) es)
    (read_all (get_connection_address indeterminate V_2_0) (migrate_connection <$> es)).
Proof.
  induction es as [|e es IH]; [done|]. apply same_bind; [apply same_connection|].
  intros x. apply same_bind; [exact IH|done].
Qed.

Lemma optional_set_run {A} `{Less A} (f : Yaml -> reading A) l tag s :
  optional_set f (YMap l) tag s =
    match map_lookup tag l with
    | None => (Ok [], s)
    | Some v => (elements ← with_context (get_list f v); mret (set_of elements)) s
    end.
Proof.
  unfold optional_set. run_prog. cbn [is_tag_present]. destruct (map_lookup tag l) as [v|] eqn:E; [|done].
  unfold get_set, with_context. run_prog. unfold get_value_in_tag. run_prog. cbn [is_tag_present].
  unfold mret, prog_ret. by rewrite E.
Qed.

Lemma same_connections l1 l2 :
  map_lookup CONNECTION_ADDRESSES_TAG l2 = migrate_connections <$> map_lookup CONNECTION_ADDRESSES_TAG l1 ->
  same (optional_set (get_connection_address indeterminate V_1_0) (YMap l1) CONNECTION_ADDRESSES_TAG)
    (optional_set (get_connection_address indeterminate V_2_0) (YMap l2) CONNECTION_ADDRESSES_TAG).
Proof.
  intros Hl s. rewrite !optional_set_run, Hl.
  destruct (map_lookup CONNECTION_ADDRESSES_TAG l1) as [v|]; cbn [fmap option_fmap option_map]; [|done].
  apply same_bind; [|done]. apply same_context.
  destruct v as [| |es|]; try done. apply same_context, same_read_all.
Qed.

(** ** Participants *)

Section Participant.
Context (name : string) (kind : Yaml) (block : list (Yaml * Yaml)).
#[local] Abbreviation l1 := (block_v1 name kind block).
#[local] Abbreviation l2 := (migrate_block name kind block).

Lemma same_kind y : same (get_kind V_1_0 y) (get_kind V_2_0 y).
Proof. done. Qed.

Lemma same_fill_participant : same (fill_participant V_1_0 (YMap l1) false) (fill_participant V_2_0 (YMap l2) false).
Proof.
  apply same_bind; [by apply same_in; [apply agree_block|]|]. intros i.
  apply same_bind; [by apply same_in; [apply agree_block|apply same_kind]|done].
Qed.

Lemma same_fill_simple : same (fill_simple V_1_0 (YMap l1)) (fill_simple V_2_0 (YMap l2)).
Proof.
  apply same_bind; [apply same_fill_participant|]. intros b.
  apply same_bind; [by apply same_optional, agree_block|done].
Qed.

Lemma same_discovery_server :
  same (get_discovery_server indeterminate V_1_0 (YMap l1)) (get_discovery_server indeterminate V_2_0 (YMap l2)).
Proof.
  apply same_bind; [apply same_fill_simple|]. intros x.
  apply same_bind; [by apply same_optional_set, agree_block|]. intros listening.
  apply same_bind; [apply same_connections, connections_lookup|]. intros connection.
  apply same_bind; [by apply same_tls, agree_block|]. intros tls.
  apply same_bind; [apply same_prefix|done].
Qed.

Lemma same_echo : same (get_echo V_1_0 (YMap l1)) (get_echo V_2_0 (YMap l2)).
Proof.
  apply same_bind; [apply same_fill_participant|]. intros b.
  do 3 (apply same_bind; [by apply same_optional, agree_block|intros ?]). done.
Qed.

Lemma context_ok_inv {A} (m : reading A) s a s' : with_context m s = (Ok a, s') -> m s = (Ok a, s').
Proof. unfold with_context. by destruct (m s) as [[?|[]] ?]. Qed.

(** No document of these versions is read as initial peers. *)
Lemma same_participant :
  same (get_participant indeterminate V_1_0 (YMap l1)) (get_participant indeterminate V_2_0 (YMap l2)).
Proof.
  intros s. unfold get_participant, mbind, prog_bind.
  rewrite (same_in l1 l2 PARTICIPANT_KIND_TAG ltac:(by apply agree_block) _ _ same_kind s).
  destruct (get_in (get_kind V_2_0) (YMap l2) PARTICIPANT_KIND_TAG s) as [[k|e] s'] eqn:Hk; [|done].
  destruct k.
  - unfold throw. by rewrite (same_in l1 l2 PARTICIPANT_KIND_TAG ltac:(by apply agree_block) get_string get_string (fun y => same_refl _) s').
  - apply same_bind; [apply same_fill_participant|done].
  - apply same_echo.
  - apply same_bind; [apply same_fill_participant|done].
  - apply same_bind; [apply same_fill_simple|done].
  - apply same_discovery_server.
  - apply same_discovery_server.
  - exfalso. apply context_ok_inv, bind_inv_ok in Hk as (v & s2 & _ & Hk).
    apply bind_inv_ok in Hk as (nm & s3 & _ & [= Hk _]). revert Hk. by case_bool_decide.
Qed.

End Participant.

Context (address : nat -> Z).

(** The key of an entry is a text, and if it is not one of the tags the entry is a block
    with a type. *)
Definition entry_v1 (e : Yaml * Yaml) : Prop :=
  exists name, as_string e.1 = Some name /\
    (is_tag name = false -> exists l kind, e.2 = YMap l /\ map_lookup PARTICIPANT_KIND_TAG_V1 l = Some kind).

Definition migrate_entry (e : Yaml * Yaml) : option Yaml :=
  match as_string e.1, e.2 with
  | Some name, YMap l =>
      if is_tag name then None
      else (fun kind => YMap (migrate_block name kind l)) <$> map_lookup PARTICIPANT_KIND_TAG_V1 l
  | _, _ => None
  end.

(** C27: version 1.0 is version 2.0 written otherwise. The participants of a document of
    version 1.0, whose names are the keys of the document that are not one of its tags,
    are read exactly as those of the document of version 2.0 in which each block has its
    name, its kind instead of its type, and the GUID of its server and of the servers it
    connects to under a tag of their own. *)
Theorem v1_participants_migrate l s n :
  Forall entry_v1 l ->
  participants_v1 indeterminate address l s n =
    participants_list indeterminate address V_2_0 (omap migrate_entry l) s n.
Proof.
  intros Hl. revert s n. induction Hl as [|[k b] l (name & Hn & Hb) _ IH]; intros s n; [done|].
  cbn [participants_v1 omap list_omap]. unfold migrate_entry. cbn [fst snd] in *.
  rewrite Hn, (bind_ok (yaml_cpp_call (Some name)) _ n name n eq_refl).
  destruct (is_tag name) eqn:Ht.
  - rewrite IH. by destruct b.
  - destruct (Hb eq_refl) as (bl & kind & -> & Hk). rewrite Hk. cbn [fmap option_fmap option_map participants_list].
    unfold participant_v1. rewrite Hk. unfold mbind, prog_bind, mret, prog_ret. cbn [fst snd].
    fold (block_v1 name kind bl). rewrite (same_participant name kind bl n).
    destruct (get_participant indeterminate V_2_0 (YMap (migrate_block name kind bl)) n) as [[c|e] n1]; [|done].
    apply IH.
Qed.

End Migration.

(** ** Witness *)

Section Witness.
#[local] Existing Instances Demo.cpp_utils Demo.fast_dds YamlDemo.yaml_cpp.
#[local] Instance migration_locator : IPLocator :=
  {| isIPv4 _ := true; isIPv6 _ := false; resolveNameDNS _ := ([], []) |}.

Definition demo_v1 : list (Yaml * Yaml) :=
  let entry k v := (YScalar k, v) in
  [entry VERSION_TAG (YScalar VERSION_TAG_V_1_0);
   entry "home" (YMap [entry PARTICIPANT_KIND_TAG_V1 (YScalar "local"); entry DOMAIN_ID_TAG (YScalar "3")]);
   entry "cloud" (YMap [entry PARTICIPANT_KIND_TAG_V1 (YScalar "wan"); entry DISCOVERY_SERVER_ID_TAG (YScalar "1");
     entry CONNECTION_ADDRESSES_TAG (YSequence
       [YMap [entry DISCOVERY_SERVER_ID_TAG (YScalar "2");
              entry COLLECTION_ADDRESSES_TAG (YSequence [YMap [entry ADDRESS_IP_TAG (YScalar "127.0.0.1")]])]])])].

Lemma demo_entries : Forall entry_v1 demo_v1.
Proof.
  apply Forall_cons_2, Forall_cons_2, Forall_cons_2; [| | |constructor];
    (eexists; split; [reflexivity|]); intros Htag; [discriminate Htag|..]; do 2 eexists; split; reflexivity.
Qed.

Lemma v1_participants_migrate_witness :
  (exists s n, participants_v1 v4 Z.of_nat demo_v1 no_objects 0 = (Ok s, n) /\ length (pointees s) = 2) /\
  participants_v1 v4 Z.of_nat demo_v1 no_objects 0 =
    participants_list v4 Z.of_nat V_2_0 (omap migrate_entry demo_v1) no_objects 0.
Proof.
  split; [|exact (v1_participants_migrate v4 Z.of_nat demo_v1 no_objects 0 demo_entries)].
  vm_compute. do 2 eexists. split; reflexivity.
Defined.

End Witness.
