(* ===== verification/Participants.v ===== *)
(** * Participants

    [core/ParticipantsDatabase.cpp] and [participant/implementations/auxiliar]: the
    participants of the router and the readers and writers they create, one of each
    per topic.  The participants that talk RTPS are built on [BaseParticipant] too;
    what they create is Fast DDS objects, a parameter of the model. *)
From stdpp Require Import gmap.
From S2P Require Import Prelude StdMap CppString Externals Types Topics Address Configuration PayloadPool Track Auxiliar.

(** ** Interface

    What the bridges use: the database of participants, the participants and the
    identifiers of tasks. *)
Section Interface.
Context {CU : CppUtils}.

Class Participants (W : Type) := {
  comm_world :: CommWorld W;
  (** [ParticipantsDatabase::get_participants_ids], [get_rtps_participants_ids] *)
  get_participants_ids : W -> std_set ParticipantId;
  get_rtps_participants_ids : W -> std_set ParticipantId;
  (** [IParticipant], through [get_participant(id)] *)
  is_repeater : ParticipantId -> W -> bool;
  create_writer : ParticipantId -> DdsTopic -> prog W nat;
  create_reader : ParticipantId -> DdsTopic -> prog W nat;
  delete_writer : ParticipantId -> nat -> W -> W;
  delete_reader : ParticipantId -> nat -> W -> W;
  (** the last [shared_ptr] to a writer or a reader goes, and its destructor runs *)
  release_writer : nat -> W -> W;
  release_reader : nat -> W -> W;
  (** [utils::new_unique_task_id] *)
  new_unique_task_id : W -> nat * W
}.

(** The participants that exist and whether they repeat do not change when readers,
    writers and tracks are made and used. *)
Class ParticipantsLaws (W : Type) {PW : Participants W} : Prop := {
  ids_wf : forall w : W, map_wf (get_participants_ids w);
  repeater_create_writer : forall id id' t w,
    is_repeater id (exec (create_writer id' t) w) = is_repeater id w;
  repeater_create_reader : forall id id' t w,
    is_repeater id (exec (create_reader id' t) w) = is_repeater id w;
  repeater_task : forall id w, is_repeater id (new_unique_task_id w).2 = is_repeater id w;
  repeater_slot : forall id n w, is_repeater id (thread_pool_slot n w) = is_repeater id w;
  repeater_callback : forall id r n w, is_repeater id (reader_set_callback r n w) = is_repeater id w
}.

End Interface.

(** ** The objects *)

Section Objects.
Context {CU : CppUtils} {FD : FastDDS} {MA : Malloc}.

(** [BaseParticipant]: the base of dummy and RTPS participants *)
Record BaseParticipant : Type := mkBaseParticipant {
  bp_configuration_ : BaseConf;
  bp_writers_ : std_map DdsTopic nat;
  bp_readers_ : std_map DdsTopic nat
}.

Definition BaseParticipant_of (c : BaseConf) : BaseParticipant := mkBaseParticipant c [] [].

(** [BaseParticipant::create_writer] and [create_reader], given the virtual
    [create_writer_] and [create_reader_] and where the participant is kept *)
Definition bp_create_writer {W : Type} (b : BaseParticipant) (t : DdsTopic) (create_writer_ : prog W nat)
    (update : BaseParticipant -> prog W unit) : prog W nat :=
  match find t (bp_writers_ b) with
  | Some _ => throw InitializationException
  | None =>
      ptr ← create_writer_;
      update (mkBaseParticipant (bp_configuration_ b) (emplace t ptr (bp_writers_ b)) (bp_readers_ b)) ;;
      mret ptr
  end.

Definition bp_create_reader {W : Type} (b : BaseParticipant) (t : DdsTopic) (create_reader_ : prog W nat)
    (update : BaseParticipant -> prog W unit) : prog W nat :=
  match find t (bp_readers_ b) with
  | Some _ => throw InitializationException
  | None =>
      ptr ← create_reader_;
      update (mkBaseParticipant (bp_configuration_ b) (bp_writers_ b) (emplace t ptr (bp_readers_ b))) ;;
      mret ptr
  end.

(** [BaseParticipant::delete_writer] and [delete_reader]: the first topic whose endpoint
    is that one is forgotten. *)
Fixpoint topic_of_ptr (ptr : nat) (l : list (DdsTopic * nat)) : option DdsTopic :=
  match l with
  | [] => None
  | (t, p) :: l' => if (p =? ptr)%nat then Some t else topic_of_ptr ptr l'
  end.

Definition bp_delete_writer (ptr : nat) (b : BaseParticipant) : option BaseParticipant :=
  (fun t => mkBaseParticipant (bp_configuration_ b) (erase t (bp_writers_ b)) (bp_readers_ b)) <$>
    topic_of_ptr ptr (bp_writers_ b).
Definition bp_delete_reader (ptr : nat) (b : BaseParticipant) : option BaseParticipant :=
  (fun t => mkBaseParticipant (bp_configuration_ b) (bp_writers_ b) (erase t (bp_readers_ b))) <$>
    topic_of_ptr ptr (bp_readers_ b).

Definition kind_is_rtps (k : ParticipantKind) : bool :=
  match k with
  | kind_simple_rtps | kind_local_discovery_server | kind_wan_discovery_server
  | kind_wan_initial_peers => true
  | _ => false
  end.

Record EchoParticipant : Type := mkEchoParticipant {
  ep_id_ : ParticipantId;
  ep_echo_data : bool;
  ep_verbose : bool
}.

Inductive IParticipant : Type :=
| BlankParticipant (id : ParticipantId)
| EchoParticipantObj (e : EchoParticipant)
| BaseParticipantObj (p : BaseParticipant).

Definition participant_is_repeater (p : IParticipant) : bool :=
  match p with
  | BlankParticipant _ | EchoParticipantObj _ => false
  | BaseParticipantObj b => conf_is_repeater (bp_configuration_ b)
  end.

Definition participant_is_rtps_kind (p : IParticipant) : bool :=
  match p with
  | BlankParticipant _ | EchoParticipantObj _ => false
  | BaseParticipantObj b => kind_is_rtps (conf_kind (bp_configuration_ b))
  end.

(** ** The world of participants

    The endpoints, the participants by id and the counters that give addresses of
    new objects and identifiers of tasks. *)
Record pworld : Type := mkPWorld {
  pw_aux : aux_world;
  participants_ : std_map ParticipantId IParticipant;
  pw_next_ptr : nat;
  pw_next_task : nat
}.

Definition pw_set_aux (a : aux_world) (w : pworld) : pworld :=
  mkPWorld a (participants_ w) (pw_next_ptr w) (pw_next_task w).
Definition pw_set_participants (m : std_map ParticipantId IParticipant) (w : pworld) : pworld :=
  mkPWorld (pw_aux w) m (pw_next_ptr w) (pw_next_task w).

(** *** ParticipantsDatabase *)

Definition get_participant (id : ParticipantId) (w : pworld) : option IParticipant :=
  find id (participants_ w).

Definition db_participants_ids (w : pworld) : std_set ParticipantId :=
  fold_left (fun result it => set_insert it.1 result) (participants_ w) [].

Definition db_rtps_participants_ids (w : pworld) : std_set ParticipantId :=
  fold_left (fun result it => if participant_is_rtps_kind it.2 then set_insert it.1 result else result)
    (participants_ w) [].

Definition add_participant_ (id : ParticipantId) (p : IParticipant) : prog pworld unit :=
  w ← get;
  match find id (participants_ w) with
  | Some _ => throw InconsistencyException
  | None => modify (pw_set_participants (assign id p (participants_ w)))
  end.

(** [pop_(id)] *)
Definition pop_participant (id : ParticipantId) (w : pworld) : option IParticipant * pworld :=
  match find id (participants_ w) with
  | None => (None, w)
  | Some p => (Some p, pw_set_participants (erase id (participants_ w)) w)
  end.

(** [pop_()] *)
Definition pop_first_participant (w : pworld) : option IParticipant * pworld :=
  match participants_ w with
  | [] => (None, w)
  | (id, _) :: _ => pop_participant id w
  end.

(** *** Readers and writers *)

(** [std::make_shared] of a reader or a writer *)
Definition new_writer (o : writer_obj) : prog pworld nat := fun w =>
  let ptr := pw_next_ptr w in
  (Ok ptr, mkPWorld (aw_set_writers (<[ptr := o]> (aw_writers (pw_aux w))) (pw_aux w))
             (participants_ w) (S ptr) (pw_next_task w)).
Definition new_reader (o : reader_obj) : prog pworld nat := fun w =>
  let ptr := pw_next_ptr w in
  (Ok ptr, mkPWorld (aw_set_readers (<[ptr := o]> (aw_readers (pw_aux w))) (pw_aux w))
             (participants_ w) (S ptr) (pw_next_task w)).

(** [create_writer_] and [create_reader_] of the RTPS participants may throw; the
    Fast DDS endpoint they make is represented by one of the objects above.  They do
    not touch the participants. *)
Variable rtps_writer_ : BaseConf -> DdsTopic -> aux_world -> outcome writer_obj.
Variable rtps_reader_ : BaseConf -> DdsTopic -> aux_world -> outcome reader_obj.

(** [create_writer_] and [create_reader_], virtual calls *)
Definition create_writer_ (b : BaseParticipant) (t : DdsTopic) : prog pworld nat :=
  let c := bp_configuration_ b in
  if kind_is_rtps (conf_kind c) then
    w ← get;
    match rtps_writer_ c t (pw_aux w) with
    | Ok o => new_writer o
    | Throw e => throw e
    end
  else new_writer (DummyWriterObj (mkDummyWriter (BaseWriter_of (conf_id c) t) [])).

Definition create_reader_ (b : BaseParticipant) (t : DdsTopic) : prog pworld nat :=
  let c := bp_configuration_ b in
  if kind_is_rtps (conf_kind c) then
    w ← get;
    match rtps_reader_ c t (pw_aux w) with
    | Ok o => new_reader o
    | Throw e => throw e
    end
  else new_reader (DummyReaderObj (mkDummyReader (BaseReader_of (conf_id c) t) [])).

Definition update_participant (id : ParticipantId) (b : BaseParticipant) : prog pworld unit :=
  modify (fun w => pw_set_participants (assign id (BaseParticipantObj b) (participants_ w)) w).

Definition base_create_writer (id : ParticipantId) (b : BaseParticipant) (t : DdsTopic) : prog pworld nat :=
  bp_create_writer b t (create_writer_ b t) (update_participant id).
Definition base_create_reader (id : ParticipantId) (b : BaseParticipant) (t : DdsTopic) : prog pworld nat :=
  bp_create_reader b t (create_reader_ b t) (update_participant id).

(** [get_participant(id)->create_writer(topic)] *)
Definition pw_create_writer (id : ParticipantId) (t : DdsTopic) : prog pworld nat :=
  w ← get;
  match find id (participants_ w) with
  | None => throw UndefinedBehaviour
  | Some (BlankParticipant _) => new_writer BlankWriter
  | Some (EchoParticipantObj e) =>
      if ep_echo_data e then new_writer (EchoWriterObj (mkEchoWriter t (ep_verbose e)))
      else new_writer BlankWriter
  | Some (BaseParticipantObj b) => base_create_writer id b t
  end.

Definition pw_create_reader (id : ParticipantId) (t : DdsTopic) : prog pworld nat :=
  w ← get;
  match find id (participants_ w) with
  | None => throw UndefinedBehaviour
  | Some (BlankParticipant _) | Some (EchoParticipantObj _) => new_reader BlankReader
  | Some (BaseParticipantObj b) => base_create_reader id b t
  end.

(** [get_participant(id)->delete_writer(writer)] *)
Definition pw_delete_writer (id : ParticipantId) (ptr : nat) (w : pworld) : pworld :=
  match find id (participants_ w) with
  | Some (BaseParticipantObj b) =>
      match bp_delete_writer ptr b with
      | Some b' => exec (update_participant id b') w
      | None => w
      end
  | _ => w
  end.

Definition pw_delete_reader (id : ParticipantId) (ptr : nat) (w : pworld) : pworld :=
  match find id (participants_ w) with
  | Some (BaseParticipantObj b) =>
      match bp_delete_reader ptr b with
      | Some b' => exec (update_participant id b') w
      | None => w
      end
  | _ => w
  end.

(** [DummyParticipant], what its tests see: the data that is simulated to arrive, with the
    callback of the reader that it calls, and the data that were sent.  The readers and
    writers of such a participant are dummy ones; the cast of another one is null. *)
Definition dummy_simulate_data_reception (b : BaseParticipant) (topic : DdsTopic) (data : DummyDataReceived) :
    prog pworld (option nat) :=
  match find topic (bp_readers_ b) with
  | None => mret None
  | Some ptr =>
      w ← get;
      match aw_readers (pw_aux w) !! ptr with
      | Some (DummyReaderObj r) =>
          let '(r', callback) := simulate_data_reception data r in
          modify (pw_set_aux (aw_set_readers (<[ptr := DummyReaderObj r']> (aw_readers (pw_aux w))) (pw_aux w))) ;;
          mret callback
      | _ => throw UndefinedBehaviour
      end
  end.

Definition dummy_get_data_that_should_have_been_sent (b : BaseParticipant) (topic : DdsTopic) :
    prog pworld (list DummyDataStored) :=
  match find topic (bp_writers_ b) with
  | None => mret []
  | Some ptr =>
      w ← get;
      match aw_writers (pw_aux w) !! ptr with
      | Some (DummyWriterObj wr) => mret (data_stored_ wr)
      | _ => throw UndefinedBehaviour
      end
  end.

(** *** The interface *)

Context (default_data : DataReceived).

(** An operation of the endpoints, on the world of the participants. *)
Definition lift (f : aux_world -> aux_world) (w : pworld) : pworld := pw_set_aux (f (pw_aux w)) w.
Definition lift_res {A} (f : aux_world -> A * aux_world) (w : pworld) : A * pworld :=
  let '(a, x) := f (pw_aux w) in (a, pw_set_aux x w).

Definition pw_comm : CommWorld pworld :=
  let CW := aux_comm_world default_data in {|
  reader_enable p := lift (reader_enable p);
  reader_disable p := lift (reader_disable p);
  reader_set_callback p t := lift (reader_set_callback p t);
  reader_unset_callback p := lift (reader_unset_callback p);
  reader_take p d := lift_res (reader_take p d);
  writer_enable p := lift (writer_enable p);
  writer_disable p := lift (writer_disable p);
  writer_write p d := lift_res (writer_write p d);
  pool_release p := lift_res (pool_release p);
  thread_pool_slot t := lift (thread_pool_slot t);
  thread_pool_emit t := lift (thread_pool_emit t);
  new_data := default_data
|}.

#[export] Instance pw_participants : Participants pworld := {|
  comm_world := pw_comm;
  get_participants_ids := db_participants_ids;
  get_rtps_participants_ids := db_rtps_participants_ids;
  is_repeater id w :=
    match find id (participants_ w) with Some p => participant_is_repeater p | None => false end;
  create_writer := pw_create_writer;
  create_reader := pw_create_reader;
  delete_writer := pw_delete_writer;
  delete_reader := pw_delete_reader;
  release_writer ptr w := pw_set_aux (aw_set_writers (delete ptr (aw_writers (pw_aux w))) (pw_aux w)) w;
  release_reader ptr w := pw_set_aux (aw_set_readers (delete ptr (aw_readers (pw_aux w))) (pw_aux w)) w;
  new_unique_task_id w :=
    (pw_next_task w, mkPWorld (pw_aux w) (participants_ w) (pw_next_ptr w) (S (pw_next_task w)))
|}.

(** ** Lemmas *)

Lemma fold_insert_wf {A} (m : std_map ParticipantId A) (f : A -> bool) (acc : std_set ParticipantId) :
  map_wf acc ->
  map_wf (fold_left (fun result it => if f it.2 then set_insert it.1 result else result) m acc).
Proof.
  intros Hacc. apply (fold_left_inv map_wf); [done|]. intros it s _ Hs.
  destruct (f it.2); [|done]. by apply map_wf_emplace.
Qed.

Lemma fold_insert_elems {A} (m : std_map ParticipantId A) (f : A -> bool)
    (acc : std_set ParticipantId) id :
  map_wf m -> map_wf acc -> (forall k, k ∈ keys m -> find k acc = None) ->
  id ∈ set_elems (fold_left (fun result it => if f it.2 then set_insert it.1 result else result) m acc) <->
  id ∈ set_elems acc \/ exists p, (id, p) ∈ m /\ f p = true.
Proof.
  revert acc. induction m as [|[k p] m IH]; intros acc Hm Hacc Hfresh.
  { simpl. split; [by left|]. intros [?|(p & Hp & _)]; [done|]. by apply not_elem_of_nil in Hp. }
  apply map_wf_cons in Hm as [Hall Hm]. rewrite Forall_forall in Hall. cbn [fold_left fst snd].
  assert (find k acc = None) as Hk by (apply Hfresh; unfold keys; set_solver).
  assert (forall j, j ∈ keys m -> keqv j k = false) as Hne.
  { intros j (u & Hj)%elem_of_keys. apply not_true_is_false. intros E.
    pose proof (Hall _ Hj) as Hl. simpl in Hl. less_close. }
  destruct (f p) eqn:Ef.
  - rewrite IH; [|done|by apply map_wf_emplace|].
    + rewrite elem_of_set_insert. split.
      * intros [[?|[-> _]]|(p' & Hp' & ?)]; [by left|right; exists p; set_solver|right; exists p'; set_solver].
      * intros [?|(p' & [[= -> ->]|Hp']%elem_of_cons & ?)]; [auto|auto|]. right. eauto.
    + intros j Hj. unfold set_insert. rewrite find_emplace, Hne by done.
      apply Hfresh. unfold keys in *. set_solver.
  - rewrite IH; [|done|done|].
    + split; [intros [?|(p' & ? & ?)]; [by left|right; exists p'; set_solver]|].
      intros [?|(p' & [[= -> ->]|Hp']%elem_of_cons & ?)]; [by left|congruence|right; eauto].
    + intros j Hj. apply Hfresh. unfold keys in *. set_solver.
Qed.

Lemma db_participants_ids_wf w : map_wf (db_participants_ids w).
Proof. apply (fold_insert_wf _ (fun _ => true)), map_wf_nil. Qed.

(** What the RTPS constructors may do. *)
Lemma new_writer_participants o w : participants_ (exec (new_writer o) w) = participants_ w.
Proof. done. Qed.

Lemma create_writer__participants b t w : participants_ (exec (create_writer_ b t) w) = participants_ w.
Proof.
  unfold create_writer_, exec. destruct (kind_is_rtps _); [|done]. run_prog.
  by destruct (rtps_writer_ _ _ _).
Qed.

Lemma create_reader__participants b t w : participants_ (exec (create_reader_ b t) w) = participants_ w.
Proof.
  unfold create_reader_, exec. destruct (kind_is_rtps _); [|done]. run_prog.
  by destruct (rtps_reader_ _ _ _).
Qed.

(** How creating an endpoint changes the participants: at most the maps of the one
    that creates it, which keeps its configuration. *)
Lemma create_writer_participants id t w :
  participants_ (exec (pw_create_writer id t) w) = participants_ w \/
  exists b ptr, find id (participants_ w) = Some (BaseParticipantObj b) /\ find t (bp_writers_ b) = None /\
    participants_ (exec (pw_create_writer id t) w) =
      assign id (BaseParticipantObj (mkBaseParticipant (bp_configuration_ b)
        (emplace t ptr (bp_writers_ b)) (bp_readers_ b))) (participants_ w).
Proof.
  unfold pw_create_writer, exec. run_prog. destruct (find id (participants_ w)) as [[i|e|b]|] eqn:E; try (by left).
  - left. by destruct (ep_echo_data e).
  - unfold base_create_writer, bp_create_writer. destruct (find t (bp_writers_ b)) eqn:Ef; [by left|]. run_prog.
    pose proof (create_writer__participants b t w) as Hp. unfold exec in Hp.
    destruct (create_writer_ b t w) as [[ptr|e] w1]; simpl in *; [|by left].
    right. exists b, ptr. by rewrite <- Hp.
Qed.

Lemma create_reader_participants id t w :
  participants_ (exec (pw_create_reader id t) w) = participants_ w \/
  exists b ptr, find id (participants_ w) = Some (BaseParticipantObj b) /\ find t (bp_readers_ b) = None /\
    participants_ (exec (pw_create_reader id t) w) =
      assign id (BaseParticipantObj (mkBaseParticipant (bp_configuration_ b)
        (bp_writers_ b) (emplace t ptr (bp_readers_ b)))) (participants_ w).
Proof.
  unfold pw_create_reader, exec. run_prog. destruct (find id (participants_ w)) as [[i|e|b]|] eqn:E; try (by left).
  unfold base_create_reader, bp_create_reader. destruct (find t (bp_readers_ b)) eqn:Ef; [by left|]. run_prog.
  pose proof (create_reader__participants b t w) as Hp. unfold exec in Hp.
  destruct (create_reader_ b t w) as [[ptr|e] w1]; simpl in *; [|by left].
  right. exists b, ptr. by rewrite <- Hp.
Qed.

Lemma pw_participants_laws : @ParticipantsLaws _ pworld pw_participants.
Proof.
  assert (forall id id' b b' (m : std_map ParticipantId IParticipant),
    find id' m = Some (BaseParticipantObj b) -> bp_configuration_ b' = bp_configuration_ b ->
    match find id (assign id' (BaseParticipantObj b') m) with Some p => participant_is_repeater p | None => false end =
    match find id m with Some p => participant_is_repeater p | None => false end) as Hsame.
  { intros id id' b b' m Hf Hc. rewrite find_assign. destruct (keqv id id') eqn:E; [|done].
    rewrite (find_keqv _ _ _ E), Hf. simpl. by rewrite Hc. }
  split.
  - intros w. apply db_participants_ids_wf.
  - intros id id' t w. cbn [is_repeater create_writer pw_participants].
    destruct (create_writer_participants id' t w) as [->|(b & ptr & Hf & _ & ->)]; [done|].
    by eapply Hsame.
  - intros id id' t w. cbn [is_repeater create_reader pw_participants].
    destruct (create_reader_participants id' t w) as [->|(b & ptr & Hf & _ & ->)]; [done|].
    by eapply Hsame.
  - done.
  - done.
  - done.
Qed.

(** ** Properties *)

(** One reader and one writer per topic.  Creating a writer for a topic that the
    participant has already throws an [InitializationException] and changes nothing;
    otherwise, when it succeeds, the writer is registered under the topic, so that
    creating it again throws, and deleting it makes room again. *)
Theorem one_writer_per_topic id t w b :
  find id (participants_ w) = Some (BaseParticipantObj b) -> map_wf (bp_writers_ b) ->
  Forall (fun e => e.2 <> pw_next_ptr w) (bp_writers_ b) ->
  match find t (bp_writers_ b) with
  | Some _ => pw_create_writer id t w = (Throw InitializationException, w)
  | None =>
      forall ptr w', pw_create_writer id t w = (Ok ptr, w') ->
        pw_create_writer id t w' = (Throw InitializationException, w') /\
        exists b', find id (participants_ (pw_delete_writer id ptr w')) = Some (BaseParticipantObj b') /\
          forall t', find t' (bp_writers_ b') = find t' (bp_writers_ b)
  end.
Proof.
  intros Hf Hwf Hptr. destruct (find t (bp_writers_ b)) as [p|] eqn:Et.
  { unfold pw_create_writer. run_prog. rewrite Hf. unfold base_create_writer, bp_create_writer. by rewrite Et. }
  intros ptr w' Hrun.
  assert (ptr = pw_next_ptr w /\ participants_ w' = assign id (BaseParticipantObj
    (mkBaseParticipant (bp_configuration_ b) (emplace t ptr (bp_writers_ b)) (bp_readers_ b)))
    (participants_ w)) as [-> Hw'].
  { revert Hrun. unfold pw_create_writer. run_prog. rewrite Hf. unfold base_create_writer, bp_create_writer. rewrite Et. run_prog.
    unfold create_writer_, new_writer. destruct (kind_is_rtps _); run_prog;
      [destruct (rtps_writer_ _ _ _)|]; try done; by intros [= <- <-]. }
  assert (find id (participants_ w') = Some (BaseParticipantObj (mkBaseParticipant (bp_configuration_ b)
    (emplace t (pw_next_ptr w) (bp_writers_ b)) (bp_readers_ b)))) as Hf'
    by (rewrite Hw', find_assign_eq by apply keqv_refl; done).
  assert (topic_of_ptr (pw_next_ptr w) (emplace t (pw_next_ptr w) (bp_writers_ b)) = Some t) as Ht.
  { clear -Hptr Et. induction (bp_writers_ b) as [|[t' p'] m IH]; simpl; [by rewrite Nat.eqb_refl|].
    rewrite find_cons in Et. apply Forall_cons in Hptr as [Hp Hptr]. simpl in Hp.
    destruct (less t t'); simpl; [by rewrite Nat.eqb_refl|]. destruct (less t' t); [|done]. simpl.
    rewrite (proj2 (Nat.eqb_neq p' _)) by done. auto. }
  split.
  - unfold pw_create_writer. run_prog. rewrite Hf'. unfold base_create_writer, bp_create_writer. cbn [bp_writers_].
    rewrite find_emplace, keqv_refl. done.
  - unfold pw_delete_writer, bp_delete_writer. rewrite Hf'. cbn [bp_writers_]. rewrite Ht. cbn [fmap option_fmap option_map bp_configuration_ bp_readers_].
    eexists. split.
    + cbn [exec update_participant modify snd participants_ pw_set_participants].
      apply find_assign_eq, keqv_refl.
    + intros t'. cbn [bp_writers_]. rewrite find_erase by (by apply map_wf_emplace).
      rewrite find_emplace. destruct (keqv t' t) eqn:E; [|done]. by rewrite (find_keqv _ _ _ E).
Qed.

End Objects.

(** ** Witnesses *)

#[local] Existing Instances Demo.cpp_utils Demo.fast_dds PoolDemo.malloc.

Definition demo_participant (name : string) : IParticipant :=
  BaseParticipantObj (BaseParticipant_of (mkBaseConf (mkParticipantId name) kind_dummy false)).

Definition demo_pworld : pworld :=
  mkPWorld (mkAux ∅ PayloadPool_new ∅ ∅ [] [] [] 0 None)
    [(mkParticipantId "a", demo_participant "a"); (mkParticipantId "b", demo_participant "b")] 10 0.

Definition demo_rtps_writer (c : BaseConf) (t : DdsTopic) (w : aux_world) : outcome writer_obj :=
  Throw InitializationException.
Definition demo_rtps_reader (c : BaseConf) (t : DdsTopic) (w : aux_world) : outcome reader_obj :=
  Throw InitializationException.

Lemma one_writer_per_topic_witness :
  exists w', pw_create_writer demo_rtps_writer (mkParticipantId "a") demo_topic_t demo_pworld = (Ok 10, w') /\
    pw_create_writer demo_rtps_writer (mkParticipantId "a") demo_topic_t w' = (Throw InitializationException, w').
Proof.
  pose proof (one_writer_per_topic demo_rtps_writer (mkParticipantId "a") demo_topic_t demo_pworld
    (BaseParticipant_of (mkBaseConf (mkParticipantId "a") kind_dummy false)) eq_refl map_wf_nil
    (Forall_nil_2 _)) as H. simpl in H.
  eexists. split; [reflexivity|]. refine (proj1 (H _ _ _)). reflexivity.
Defined.
