(* ===== verification/Dummy.v ===== *)
(** * Dummy participants

    [participant/implementations/auxiliar/DummyParticipant.cpp], but for its endpoints, which
    are in [Auxiliar.v] and [Participants.v]: the static list in which the tests find the
    participants of a router by id, the endpoints and the data that they simulate, and the
    wait for the data that is sent.  The destructor of [BaseParticipant] too. *)
From stdpp Require Import gmap.
From S2P Require Import Prelude StdMap CppString Externals Types Topics Endpoint DiscoveryDatabase PayloadPool Track Auxiliar Address Configuration Participants.

(** ** The static list

    [DummyParticipant::participants_]: the objects of the process, by id. *)
Definition dummy_statics : Type := std_map ParticipantId nat.

Definition DummyParticipant_new (id : ParticipantId) (this : nat) (participants : dummy_statics) : dummy_statics :=
  assign id this participants.
Definition DummyParticipant_destroy (id : ParticipantId) (participants : dummy_statics) : dummy_statics :=
  erase id participants.
Definition static_get_participant (id : ParticipantId) (participants : dummy_statics) : option nat :=
  find id participants.

(** The participants that exist, and the list, as participants are made and destroyed. *)
Inductive dummy_life : list (ParticipantId * nat) -> dummy_statics -> Prop :=
| life_none : dummy_life [] []
| life_new alive m id p : dummy_life alive m -> dummy_life ((id, p) :: alive) (DummyParticipant_new id p m)
| life_destroy a1 a2 m id p : dummy_life (a1 ++ (id, p) :: a2) m -> dummy_life (a1 ++ a2) (DummyParticipant_destroy id m).

(** The same, when a participant is made only with an id that no other one has. *)
Inductive distinct_life : list (ParticipantId * nat) -> dummy_statics -> Prop :=
| distinct_none : distinct_life [] []
| distinct_new alive m id p : distinct_life alive m -> id ∉ alive.*1 ->
    distinct_life ((id, p) :: alive) (DummyParticipant_new id p m)
| distinct_destroy a1 a2 m id p : distinct_life (a1 ++ (id, p) :: a2) m ->
    distinct_life (a1 ++ a2) (DummyParticipant_destroy id m).

Lemma distinct_life_inv alive m : distinct_life alive m -> map_wf m /\ NoDup alive.*1 /\
  forall id p, static_get_participant id m = Some p <-> (id, p) ∈ alive.
Proof.
  unfold static_get_participant.
  induction 1 as [|alive m id p _ (Hwf & Hnd & IH) Hnew|a1 a2 m id p _ (Hwf & Hnd & IH)];
    unfold DummyParticipant_new, DummyParticipant_destroy.
  - split_and!; [apply map_wf_nil|constructor|]. intros id p. rewrite elem_of_nil. done.
  - split_and!; [by apply map_wf_assign|by constructor|]. intros id' p'. rewrite elem_of_cons.
    destruct (decide (id' = id)) as [->|Hne].
    + rewrite find_assign_eq by apply keqv_refl. split; [intros [= ->]; by left|].
      intros [[= ->]|Hin]; [done|]. destruct Hnew. apply list_elem_of_fmap. by exists (id, p').
    + rewrite find_assign_ne, IH by (by apply ParticipantId_keqv_ne). naive_solver.
  - rewrite fmap_app in Hnd |- *. cbn [fmap list_fmap fst] in Hnd.
    assert (id ∉ a1.*1 ++ a2.*1 /\ NoDup (a1.*1 ++ a2.*1)) as [Hnin Hnd'].
    { rewrite <- Permutation_middle in Hnd. by apply NoDup_cons in Hnd. }
    split_and!; [by apply map_wf_erase|done|]. intros id' p'. rewrite <- fmap_app in Hnin.
    destruct (decide (id' = id)) as [->|Hne].
    + rewrite find_erase_eq by (try apply keqv_refl; done). split; [done|]. intros Hin. destruct Hnin.
      apply list_elem_of_fmap. by exists (id, p').
    + rewrite find_erase_ne, IH by (try apply ParticipantId_keqv_ne; done). rewrite !elem_of_app, elem_of_cons. naive_solver.
Qed.

(** The tests find each participant by its id as long as no two have the same. *)
Theorem dummy_found_by_id alive m id p :
  distinct_life alive m -> static_get_participant id m = Some p <-> (id, p) ∈ alive.
Proof. intros (_ & _ & H)%distinct_life_inv. apply H. Qed.

(** With two participants of the same id, as two routers of one test may have, the
    destruction of either makes the list lose the other. *)
Theorem dummy_destroyed_hides_other alive m id p q :
  distinct_life alive m -> let m' := DummyParticipant_new id q (DummyParticipant_new id p m) in
  static_get_participant id m' = Some q /\
  dummy_life ((id, q) :: alive) (DummyParticipant_destroy id m') /\
  static_get_participant id (DummyParticipant_destroy id m') = None.
Proof.
  intros Hd m'. pose proof (distinct_life_inv _ _ Hd) as (Hwf & _).
  assert (dummy_life alive m) as Hl by (clear -Hd; induction Hd; [constructor|by constructor|by eapply life_destroy]).
  assert (map_wf m') as Hwf' by (by apply map_wf_assign, map_wf_assign). split_and!.
  - apply find_assign_eq, keqv_refl.
  - apply (life_destroy [(id, q)] alive m' id p). by apply life_new, life_new.
  - apply find_erase_eq; [done|apply keqv_refl].
Qed.

(** ** Simulated discovery *)
Section Discovery.
Context {CU : CppUtils} {CL : CppUtilsLaws} {FD : FastDDS} {DQ : DBQueueOps} {C : Type}.

Definition simulate_discovered_endpoint (new_endpoint : Endpoint) : prog (db_state C) unit :=
  add_endpoint new_endpoint.
Definition get_discovered_endpoint (guid : Guid) (d : DiscoveryDatabase C) : outcome Endpoint := get_endpoint d guid.

End Discovery.

(** ** Waiting for data

    [wait_until_n_data_sent]: whether the wait returns in the state of the world.  A
    participant without a writer for the topic does not wait. *)
Section Wait.
Context {CU : CppUtils} {CL : CppUtilsLaws} {FD : FastDDS} {MA : Malloc}.
Context (default_data : DataReceived).

Definition wait_condition (n : Z) (wr : DummyWriter) : bool := (n <=? Z.of_nat (length (data_stored_ wr)))%Z.

Definition dummy_wait_until_n_data_sent (b : BaseParticipant) (topic : DdsTopic) (n : Z) : prog pworld bool :=
  match find topic (bp_writers_ b) with
  | None => mret true
  | Some ptr =>
      w ← get;
      match aw_writers (pw_aux w) !! ptr with
      | Some (DummyWriterObj wr) => mret (wait_condition n wr)
      | _ => throw UndefinedBehaviour
      end
  end.

(** What a writer has stored stays. *)
Lemma stored_stays ptr d w q wr : aw_writers w !! q = Some (DummyWriterObj wr) ->
  exists wr', aw_writers (writer_write (CommWorld := aux_comm_world default_data) ptr d w).2 !! q = Some (DummyWriterObj wr') /\
    data_stored_ wr `prefix_of` data_stored_ wr'.
Proof.
  intros Hq. cbn [writer_write aux_comm_world]. unfold noexcept, aux_write. run_prog.
  destruct (aw_writers w !! ptr) as [[|e|wp]|] eqn:Hp; try (exists wr; split; [exact Hq|done]).
  destruct (bw_enabled_ (dw_base wp)); [|by exists wr]. unfold dummy_write_, load_bytes. run_prog.
  repeat (case_match; run_prog); simplify_eq; try (exists wr; split; [exact Hq|done]).
  all: destruct (decide (q = ptr)) as [->|Hne]; cbn; [rewrite lookup_insert_eq|rewrite lookup_insert_ne by done; by exists wr].
  all: eexists; split; [done|]; assert (wp = wr) as -> by congruence; cbn; by apply prefix_app_r.
Qed.

(** A wait that would return still does after any other write. *)
Theorem wait_persists b topic n w ptr d :
  result (dummy_wait_until_n_data_sent b topic n) w = Ok true ->
  result (dummy_wait_until_n_data_sent b topic n) (writer_write (CommWorld := pw_comm default_data) ptr d w).2 = Ok true.
Proof.
  unfold dummy_wait_until_n_data_sent, result. destruct (find topic (bp_writers_ b)) as [q|]; [|done]. run_prog.
  destruct (aw_writers (pw_aux w) !! q) as [[| |wr]|] eqn:Hq; try done. cbn. intros [= Hc].
  destruct (stored_stays ptr d (pw_aux w) q wr Hq) as (wr' & Hq' & Hpre%prefix_length).
  unfold lift_res. cbn [writer_write aux_comm_world] in Hq'. destruct (noexcept _ _ (pw_aux w)) as [r x]. cbn in *. rewrite Hq'. cbn.
  unfold wait_condition in *. do 2 f_equal. apply Z.leb_le. apply Z.leb_le in Hc. lia.
Qed.

End Wait.

(** ** [~BaseParticipant]

    The endpoints still in the maps are dropped, with an error in the log for each map. *)
Section Destructor.
Context {CU : CppUtils}.

Definition bp_destroy (b : BaseParticipant) : list string * BaseParticipant :=
  let writers := if (0 <? length (bp_writers_ b))%nat then ["still alive writers"%string] else [] in
  let readers := if (0 <? length (bp_readers_ b))%nat then ["still alive readers"%string] else [] in
  (writers ++ readers, mkBaseParticipant (bp_configuration_ b) [] []).

(** A participant is destroyed without an error exactly when its endpoints were deleted. *)
Theorem destroyed_clean b : (bp_destroy b).1 = [] <-> bp_writers_ b = [] /\ bp_readers_ b = [].
Proof. destruct b as [c [|] [|]]; cbn; naive_solver. Qed.

End Destructor.
