(* ===== verification/DDSBridge.v ===== *)
(** * DDS bridges

    [communication/Bridge.cpp] and [communication/DDSBridge.cpp]: the bridge of a
    topic creates a writer and a reader in every participant and a track per
    participant, which joins its reader to the writers of the others. *)
From stdpp Require Import gmap.
From S2P Require Import Prelude StdMap CppString Externals Types Topics Address Configuration PayloadPool Track Auxiliar Participants.

Section DDSBridge.
Context {CU : CppUtils} {W : Type} {PW : Participants W}.

Record DDSBridge : Type := mkBridge {
  b_topic_ : DdsTopic;
  b_enabled_ : bool;
  b_writers_ : std_map ParticipantId nat;
  b_readers_ : std_map ParticipantId nat;
  b_tracks_ : std_map ParticipantId Track
}.

(** The first loop of the constructor. *)
Fixpoint create_endpoints (topic : DdsTopic) (ids : list ParticipantId)
    (writers readers : std_map ParticipantId nat) :
    prog W (std_map ParticipantId nat * std_map ParticipantId nat) :=
  match ids with
  | [] => mret (writers, readers)
  | id :: ids' =>
      writer ← create_writer id topic;
      reader ← create_reader id topic;
      create_endpoints topic ids' (assign id writer writers) (assign id reader readers)
  end.

(** The writers of the track of a participant: its own one only if it repeats. *)
Definition writers_of_track (id : ParticipantId) (repeater : bool)
    (writers : std_map ParticipantId nat) : std_map ParticipantId nat :=
  if negb repeater then erase id writers else writers.

(** The second loop of the constructor. *)
Fixpoint create_tracks (topic : DdsTopic) (ids : list ParticipantId)
    (writers readers : std_map ParticipantId nat) (tracks : std_map ParticipantId Track) :
    prog W (std_map ParticipantId Track) :=
  match ids with
  | [] => mret tracks
  | id :: ids' =>
      w ← get;
      match find id readers with
      | None => throw UndefinedBehaviour
      | Some reader =>
          task ← always new_unique_task_id;
          track ← always (Track_new topic id reader
                     (writers_of_track id (is_repeater id w) writers) task false);
          create_tracks topic ids' writers readers (assign id track tracks)
      end
  end.

(** [for (auto& track_it : tracks_) track_it.second->f()] *)
Fixpoint for_tracks (f : Track * W -> Track * W) (l : list (ParticipantId * Track)) (w : W) :
    list (ParticipantId * Track) * W :=
  match l with
  | [] => ([], w)
  | (id, t) :: l' =>
      let '(t', w1) := f (t, w) in
      let '(l'', w2) := for_tracks f l' w1 in
      ((id, t') :: l'', w2)
  end.

Definition bridge_enable (s : DDSBridge * W) : DDSBridge * W :=
  let '(b, w) := s in
  if negb (b_enabled_ b) then
    let '(ts, w') := for_tracks track_enable (b_tracks_ b) w in
    (mkBridge (b_topic_ b) true (b_writers_ b) (b_readers_ b) ts, w')
  else s.

Definition bridge_disable (s : DDSBridge * W) : DDSBridge * W :=
  let '(b, w) := s in
  if b_enabled_ b then
    let '(ts, w') := for_tracks track_disable (b_tracks_ b) w in
    (mkBridge (b_topic_ b) false (b_writers_ b) (b_readers_ b) ts, w')
  else s.

(** [DDSBridge(topic, participants_database, payload_pool, thread_pool, enable)] *)
Definition DDSBridge_new (topic : DdsTopic) (enable : bool) : prog W DDSBridge :=
  ids ← gets (fun w => set_elems (get_participants_ids w));
  endpoints ← create_endpoints topic ids [] [];
  tracks ← create_tracks topic ids endpoints.1 endpoints.2 [];
  let b := mkBridge topic false endpoints.1 endpoints.2 tracks in
  if enable then always (fun w => bridge_enable (b, w)) else mret b.

(** [~DDSBridge()]: the bridge has the last pointers to the endpoints once the tracks and
    the participants have dropped theirs *)
Definition bridge_destroy (s : DDSBridge * W) : W :=
  let '(b, w) := bridge_disable s in
  let '(_, w1) := for_tracks track_destroy (b_tracks_ b) w in
  fold_left (fun w id =>
    match find id (b_writers_ b), find id (b_readers_ b) with
    | Some wr, Some rd =>
        release_reader rd (release_writer wr (delete_reader id rd (delete_writer id wr w)))
    | _, _ => w
    end) (set_elems (get_participants_ids w1)) w1.

(** ** Lemmas *)

Context {PL : ParticipantsLaws W}.

Lemma create_endpoints_maps topic ids ws rs w ws' rs' w' :
  create_endpoints topic ids ws rs w = (Ok (ws', rs'), w') -> map_wf ws -> map_wf rs ->
  map_wf ws' /\ map_wf rs' /\
  (forall id, id ∈ ids -> is_Some (find id ws') /\ is_Some (find id rs')) /\
  (forall id, id ∉ ids -> find id ws' = find id ws /\ find id rs' = find id rs).
Proof.
  revert ws rs w. induction ids as [|id ids IH]; intros ws rs w; cbn [create_endpoints].
  { intros [= <- <- <-] ? ?. split_and!; try done. by intros id ?%not_elem_of_nil. }
  intros (wr & w1 & _ & (rd & w2 & _ & Hrun)%bind_inv_ok)%bind_inv_ok Hws Hrs.
  destruct (IH _ _ _ Hrun) as (? & ? & Hin & Hout); [by apply map_wf_assign..|].
  split_and!; try done.
  - intros id' Hid'. destruct (decide (id' ∈ ids)) as [?|Hn]; [by apply Hin|].
    assert (id' = id) as -> by set_solver. destruct (Hout id Hn) as [-> ->].
    rewrite !find_assign_eq by apply keqv_refl. split; by eexists.
  - intros id' Hid'. destruct (Hout id') as [-> ->]; [set_solver|].
    rewrite !find_assign_ne; [done|..]; apply ParticipantId_keqv_ne; set_solver.
Qed.

Lemma create_endpoints_repeater topic ids ws rs id w :
  is_repeater id (exec (create_endpoints topic ids ws rs) w) = is_repeater id w.
Proof.
  revert ws rs w. induction ids as [|i ids IH]; intros ws rs w; [done|].
  cbn [create_endpoints]. unfold exec in *. unfold mbind, prog_bind.
  pose proof (repeater_create_writer id i topic w) as Hw. unfold exec in Hw.
  destruct (create_writer i topic w) as [[wr|e] w1]; [|done].
  pose proof (repeater_create_reader id i topic w1) as Hr. unfold exec in Hr.
  destruct (create_reader i topic w1) as [[rd|e] w2]; simpl in *; [|congruence].
  rewrite IH. congruence.
Qed.

(** The track a participant gets. *)
Definition track_spec (topic : DdsTopic) (writers readers : std_map ParticipantId nat) (id : ParticipantId)
    (repeater : bool) (t : Track) : Prop :=
  reader_participant_id_ t = id /\ topic_ t = topic /\ find id readers = Some (reader_ t) /\
  writers_ t = writers_of_track id repeater writers /\
  enabled_ t = false /\ exit_ t = false /\ data_available_status_ t = no_more_data.

Lemma create_tracks_spec topic ids writers readers tracks w tracks' w' :
  NoDup ids -> create_tracks topic ids writers readers tracks w = (Ok tracks', w') -> map_wf tracks ->
  map_wf tracks' /\
  (forall id, id ∈ ids -> exists t, find id tracks' = Some t /\
     track_spec topic writers readers id (is_repeater id w) t) /\
  (forall id, id ∉ ids -> find id tracks' = find id tracks).
Proof.
  intros Hnd. revert tracks w. induction Hnd as [|id ids Hnin Hnd IH]; intros tracks w; cbn [create_tracks].
  { intros [= <- <-] ?. split_and!; try done. by intros id ?%not_elem_of_nil. }
  unfold mbind, prog_bind, get, always. destruct (find id readers) as [rd|] eqn:Er; [|done].
  destruct (new_unique_task_id w) as [n w1] eqn:En.
  unfold Track_new. cbn iota beta. intros Hrun Hwf.
  destruct (IH _ _ Hrun) as (Hw' & Hin & Hout); [by apply map_wf_assign|].
  assert (forall id', is_repeater id' (thread_pool_slot n (reader_set_callback rd n w1)) = is_repeater id' w) as Hrep.
  { intros id'. rewrite repeater_slot, repeater_callback.
    pose proof (repeater_task id' w) as Ht. by rewrite En in Ht. }
  split_and!; [done| |].
  - intros id' Hid'. destruct (decide (id' ∈ ids)) as [Hi|Hn].
    + destruct (Hin id' Hi) as (t & Ht & Hspec). exists t. by rewrite Hrep in Hspec.
    + assert (id' = id) as -> by set_solver. rewrite (Hout id Hn), find_assign_eq by apply keqv_refl.
      by eexists.
  - intros id' Hid'. rewrite Hout by set_solver. apply find_assign_ne, ParticipantId_keqv_ne.
    set_solver.
Qed.

Lemma track_enable_spec t w :
  (track_enable (t, w)).1 = set_enabled true t \/ (enabled_ t = true /\ (track_enable (t, w)).1 = t).
Proof. unfold track_enable. destruct (enabled_ t) eqn:E; simpl; auto. Qed.

Lemma for_tracks_find (f : Track * W -> Track * W) l w id t :
  find id l = Some t -> exists w0, find id (for_tracks f l w).1 = Some (f (t, w0)).1.
Proof.
  revert w. induction l as [|[k t'] l IH]; intros w; [done|]. rewrite find_cons. simpl.
  destruct (f (t', w)) as [t'' w1] eqn:Ef. specialize (IH w1). destruct (for_tracks f l w1) as [l' w2].
  simpl. rewrite find_cons. destruct (less id k); [done|]. destruct (less k id); [auto|].
  intros [= ->]. exists w. by rewrite Ef.
Qed.

Lemma for_tracks_keys (f : Track * W -> Track * W) l w : keys (for_tracks f l w).1 = keys l.
Proof.
  revert w. induction l as [|[k t] l IH]; intros w; [done|]. simpl.
  destruct (f (t, w)) as [t' w1]. specialize (IH w1). destruct (for_tracks f l w1) as [l' w2].
  simpl in IH. change (k :: keys l' = k :: keys l). by rewrite IH.
Qed.

Lemma for_tracks_wf (f : Track * W -> Track * W) l w : map_wf l -> map_wf (for_tracks f l w).1.
Proof.
  revert w. induction l as [|[k t] l IH]; intros w; [done|]. intros [Hall Hl]%map_wf_cons. simpl.
  destruct (f (t, w)) as [t' w1]. specialize (IH w1 Hl). pose proof (for_tracks_keys f l w1) as Hk.
  destruct (for_tracks f l w1) as [l' w2]. simpl in *. apply map_wf_cons. split; [|done].
  rewrite Forall_forall in Hall |- *. intros [k' x] Hin. simpl.
  assert (k' ∈ keys l) as (y & Hy)%elem_of_keys by (rewrite <- Hk; apply elem_of_keys; by exists x).
  exact (Hall (k', y) Hy).
Qed.

Lemma for_tracks_find_none (f : Track * W -> Track * W) l w id :
  find id l = None -> find id (for_tracks f l w).1 = None.
Proof.
  revert w. induction l as [|[k t'] l IH]; intros w; [done|]. rewrite find_cons. simpl.
  destruct (f (t', w)) as [t'' w1]. specialize (IH w1). destruct (for_tracks f l w1) as [l' w2].
  simpl. rewrite find_cons. destruct (less id k); [done|]. by destruct (less k id); [auto|].
Qed.

Lemma for_tracks_all (f : Track * W -> Track * W) (P : Track -> Prop) l w :
  (forall t w, P (f (t, w)).1) -> Forall (fun e => P e.2) (for_tracks f l w).1.
Proof.
  intros Hf. revert w. induction l as [|[id t] l IH]; intros w; simpl; [constructor|].
  specialize (Hf t w). destruct (f (t, w)) as [t' w1]. specialize (IH w1).
  destruct (for_tracks f l w1) as [l' w2]. by constructor.
Qed.

Lemma track_enable_enabled t w : enabled_ (track_enable (t, w)).1 = true.
Proof. unfold track_enable. by destruct (enabled_ t) eqn:E. Qed.

Lemma track_disable_disabled t w : enabled_ (track_disable (t, w)).1 = false.
Proof. unfold track_disable. by destruct (enabled_ t) eqn:E. Qed.

(** Every track of the bridge has the status of the bridge. *)
Definition bridge_wf (b : DDSBridge) : Prop :=
  Forall (fun e => enabled_ e.2 = b_enabled_ b) (b_tracks_ b).

Lemma bridge_enable_wf b w : bridge_wf b ->
  bridge_wf (bridge_enable (b, w)).1 /\ b_enabled_ (bridge_enable (b, w)).1 = true.
Proof.
  intros Hb. unfold bridge_enable. destruct (b_enabled_ b) eqn:E; [done|]. simpl.
  pose proof (for_tracks_all track_enable (fun t => enabled_ t = true) (b_tracks_ b) w
    track_enable_enabled) as Hall. by destruct (for_tracks track_enable (b_tracks_ b) w).
Qed.

Lemma bridge_disable_wf b w : bridge_wf b ->
  bridge_wf (bridge_disable (b, w)).1 /\ b_enabled_ (bridge_disable (b, w)).1 = false.
Proof.
  intros Hb. unfold bridge_disable. destruct (b_enabled_ b) eqn:E; [|done]. simpl.
  pose proof (for_tracks_all track_disable (fun t => enabled_ t = false) (b_tracks_ b) w
    track_disable_disabled) as Hall. by destruct (for_tracks track_disable (b_tracks_ b) w).
Qed.

Lemma create_tracks_disabled topic ids writers readers tracks w tracks' w' :
  create_tracks topic ids writers readers tracks w = (Ok tracks', w') ->
  Forall (fun e => enabled_ e.2 = false) tracks -> Forall (fun e => enabled_ e.2 = false) tracks'.
Proof.
  revert tracks w. induction ids as [|id ids IH]; intros tracks w; cbn [create_tracks]; [by intros [= <- <-]|].
  unfold mbind, prog_bind, get, always. destruct (find id readers) as [rd|]; [|done].
  destruct (new_unique_task_id w) as [n w1]. unfold Track_new. cbn iota beta. intros Hrun Hall.
  eapply IH; [exact Hrun|]. by apply Forall_assign.
Qed.

Lemma DDSBridge_new_wf topic enable w b w' :
  DDSBridge_new topic enable w = (Ok b, w') -> bridge_wf b /\ b_enabled_ b = enable.
Proof.
  unfold DDSBridge_new.
  intros (ids & w0 & [= <- <-] & ((ws, rs) & w1 & _ & (ts & w2 & Htr & Hlast)%bind_inv_ok)%bind_inv_ok)%bind_inv_ok.
  assert (bridge_wf (mkBridge topic false ws rs ts)) as Hwf by (eapply create_tracks_disabled; [exact Htr|constructor]).
  cbn [fst snd] in Hlast. destruct enable; [|by injection Hlast as <- <-].
  unfold always in Hlast. pose proof (bridge_enable_wf _ w2 Hwf) as [H1 H2].
  destruct (bridge_enable _) as [b' w3]. by injection Hlast as <- <-.
Qed.

(** The routing table of a topic for the participants of [w]: each of them has a
    writer, a reader and a track; the track reads from the reader of its participant
    and writes with the writers of all the others, and with its own one exactly when
    the participant repeats. *)
Definition routing_table (w : W) (b : DDSBridge) : Prop :=
  let ids := set_elems (get_participants_ids w) in
  (forall id, id ∈ ids -> is_Some (find id (b_writers_ b))) /\
  (forall id, id ∉ ids -> find id (b_writers_ b) = None /\ find id (b_tracks_ b) = None) /\
  forall id, id ∈ ids -> exists t, find id (b_tracks_ b) = Some t /\
    enabled_ t = b_enabled_ b /\ reader_participant_id_ t = id /\
    find id (b_readers_ b) = Some (reader_ t) /\
    forall id', find id' (writers_ t) =
      if decide (id' = id) then (if is_repeater id w then find id (b_writers_ b) else None)
      else find id' (b_writers_ b).

Lemma find_writers_of_track id id' repeater writers :
  map_wf writers ->
  find id' (writers_of_track id repeater writers) =
    if decide (id' = id) then (if (repeater : bool) then find id writers else None) else find id' writers.
Proof.
  intros Hwf. unfold writers_of_track. destruct repeater; simpl.
  - by destruct (decide (id' = id)) as [->|].
  - rewrite find_erase by done. destruct (decide (id' = id)) as [->|Hne]; [by rewrite keqv_refl|].
    by rewrite ParticipantId_keqv_ne.
Qed.

Lemma routing_built topic w ws rs w1 ts w2 :
  let ids := set_elems (get_participants_ids w) in
  create_endpoints topic ids [] [] w = (Ok (ws, rs), w1) ->
  create_tracks topic ids ws rs [] w1 = (Ok ts, w2) ->
  routing_table w (mkBridge topic false ws rs ts).
Proof.
  intros ids Hend Htr.
  destruct (create_endpoints_maps _ _ _ _ _ _ _ _ Hend) as (Hws & _ & Hin & Hout); [apply map_wf_nil..|].
  assert (NoDup ids) as Hnd by (unfold ids; apply set_elems_NoDup, ids_wf).
  destruct (create_tracks_spec _ _ _ _ _ _ _ _ Hnd Htr) as (_ & Htin & Htout); [apply map_wf_nil|].
  split_and!; cbn [b_enabled_ b_writers_ b_readers_ b_tracks_].
  - intros id Hid. by apply Hin.
  - intros id Hid. destruct (Hout id Hid) as [-> _]. by rewrite (Htout id Hid).
  - intros id Hid. destruct (Htin id Hid) as (t & Ht & Hid' & _ & Hrd & Hwt & Hen & _).
    exists t. split_and!; try done. intros id'. rewrite Hwt, find_writers_of_track by done.
    pose proof (create_endpoints_repeater topic ids [] [] id w) as E. unfold exec in E.
    rewrite Hend in E. simpl in E. by rewrite E.
Qed.

Lemma routing_enable w w2 b :
  b_enabled_ b = false -> routing_table w b -> routing_table w (bridge_enable (b, w2)).1.
Proof.
  intros Hb (H1 & H2 & H3). unfold bridge_enable. rewrite Hb. cbn [negb].
  destruct (for_tracks track_enable (b_tracks_ b) w2) as [ts' w3] eqn:Ef.
  split_and!; cbn [b_enabled_ b_writers_ b_readers_ b_tracks_ fst]; [done| |].
  - intros id Hid. destruct (H2 id Hid) as [-> Hn]. split; [done|].
    pose proof (for_tracks_find_none track_enable _ w2 id Hn) as E. by rewrite Ef in E.
  - intros id Hid. destruct (H3 id Hid) as (t & Ht & _ & Hspec).
    destruct (for_tracks_find track_enable _ w2 id t Ht) as (w4 & Hf). rewrite Ef in Hf. simpl in Hf.
    exists (track_enable (t, w4)).1. split; [done|]. split; [apply track_enable_enabled|].
    destruct (track_enable_spec t w4) as [->|[_ ->]]; done.
Qed.

(** ** Properties *)

(** When the bridge of a topic is built, it is for that topic, enabled exactly
    when asked, with the routing table of the participants of the database: each
    track reads from the reader of one participant and writes with the writers of
    all the others, and with its own one exactly when the participant repeats. *)
Theorem bridge_routing topic enable w b w' :
  DDSBridge_new topic enable w = (Ok b, w') ->
  b_topic_ b = topic /\ b_enabled_ b = enable /\ routing_table w b.
Proof.
  unfold DDSBridge_new.
  intros (ids' & w0 & [= <- <-] & ((ws, rs) & w1 & Hend & (ts & w2 & Htr & Hlast)%bind_inv_ok)%bind_inv_ok)%bind_inv_ok.
  pose proof (routing_built _ _ _ _ _ _ _ Hend Htr) as Hrt. cbn [fst snd] in Hlast.
  destruct enable.
  - unfold always in Hlast. destruct (bridge_enable _) as [b' w3] eqn:Eb in Hlast. injection Hlast as <- <-.
    pose proof (routing_enable w w2 (mkBridge topic false ws rs ts) eq_refl Hrt) as Hen. rewrite Eb in Hen. split_and!; try done.
    + unfold bridge_enable in Eb. cbn [b_enabled_ negb b_tracks_] in Eb.
      destruct (for_tracks _ _ _). by injection Eb as <- _.
    + unfold bridge_enable in Eb. cbn [b_enabled_ negb b_tracks_] in Eb.
      destruct (for_tracks _ _ _). by injection Eb as <- _.
  - by injection Hlast as <- <-.
Qed.

(** Enabling and disabling.  Every track of a bridge has the status of the
    bridge after any sequence of [enable] and [disable]; each of them is idempotent:
    called again it changes neither the bridge nor the world. *)
Theorem bridge_enable_disable b w :
  bridge_wf b ->
  let s1 := bridge_enable (b, w) in
  let s2 := bridge_disable (b, w) in
  bridge_wf s1.1 /\ b_enabled_ s1.1 = true /\ bridge_enable s1 = s1 /\
  bridge_wf s2.1 /\ b_enabled_ s2.1 = false /\ bridge_disable s2 = s2.
Proof.
  intros Hb s1 s2. destruct (bridge_enable_wf b w Hb) as [H1 H2], (bridge_disable_wf b w Hb) as [H3 H4].
  split_and!; try done.
  - unfold s1. destruct (bridge_enable (b, w)) as [b1 w1]. simpl in *. unfold bridge_enable. by rewrite H2.
  - unfold s2. destruct (bridge_disable (b, w)) as [b2 w2]. simpl in *. unfold bridge_disable. by rewrite H4.
Qed.

End DDSBridge.

(** ** Construction that fails half way *)
Section Retry.
Context {CU : CppUtils} {FD : FastDDS} {MA : Malloc}.
Variable rtps_writer_ : BaseConf -> DdsTopic -> aux_world -> outcome writer_obj.
Variable rtps_reader_ : BaseConf -> DdsTopic -> aux_world -> outcome reader_obj.
Variable default_data : DataReceived.

#[local] Notation PW := (pw_participants rtps_writer_ rtps_reader_ default_data).

(** The participant has a writer for the topic. *)
Definition has_writer (id : ParticipantId) (t : DdsTopic) (w : pworld) : Prop :=
  exists b, find id (participants_ w) = Some (BaseParticipantObj b) /\ is_Some (find t (bp_writers_ b)).

(** Same participants, and what had a writer has it still. *)
Definition grows (t : DdsTopic) (w w' : pworld) : Prop :=
  keys (participants_ w') = keys (participants_ w) /\
  forall id, has_writer id t w -> has_writer id t w'.

Lemma grows_refl t w w' : participants_ w' = participants_ w -> grows t w w'.
Proof. intros E. split; [by rewrite E|]. intros id (b & ? & ?). exists b. by rewrite E. Qed.

Lemma grows_trans t w1 w2 w3 : grows t w1 w2 -> grows t w2 w3 -> grows t w1 w3.
Proof. intros [K1 H1] [K2 H2]. split; [congruence|auto]. Qed.

Lemma grows_assign t w w' id b b' :
  find id (participants_ w) = Some (BaseParticipantObj b) ->
  participants_ w' = assign id (BaseParticipantObj b') (participants_ w) ->
  (is_Some (find t (bp_writers_ b)) -> is_Some (find t (bp_writers_ b'))) -> grows t w w'.
Proof.
  intros Hf E Hmono. split; [rewrite E; by eapply keys_assign_present|].
  intros id' (b0 & Hf0 & Hs0). unfold has_writer. rewrite E, find_assign.
  destruct (keqv id' id) eqn:Ek; [|eauto]. exists b'. split; [done|]. apply Hmono.
  rewrite (find_keqv _ _ _ Ek) in Hf0. by simplify_eq.
Qed.

Lemma create_writer_grows t id w : grows t w (exec (pw_create_writer rtps_writer_ id t) w).
Proof.
  destruct (create_writer_participants rtps_writer_ id t w) as [E|(b & ptr & Hf & Hn & E)];
    [by apply grows_refl|]. eapply grows_assign; [done|done|]. simpl. intros _.
  rewrite find_emplace, keqv_refl. by eexists.
Qed.

Lemma create_reader_grows t id w : grows t w (exec (pw_create_reader rtps_reader_ id t) w).
Proof.
  destruct (create_reader_participants rtps_reader_ id t w) as [E|(b & ptr & Hf & Hn & E)];
    [by apply grows_refl|]. by eapply grows_assign.
Qed.

Lemma create_endpoints_grows t ids ws rs w :
  grows t w (exec (create_endpoints (PW := PW) t ids ws rs) w).
Proof.
  revert ws rs w. induction ids as [|id ids IH]; intros ws rs w; [by apply grows_refl|].
  cbn [create_endpoints]. unfold exec in *. unfold mbind, prog_bind.
  pose proof (create_writer_grows t id w) as Hw. unfold exec in Hw.
  cbn [create_writer create_reader pw_participants] in *.
  destruct (pw_create_writer rtps_writer_ id t w) as [[wr|e] w1]; [|done].
  pose proof (create_reader_grows t id w1) as Hr. unfold exec in Hr.
  destruct (pw_create_reader rtps_reader_ id t w1) as [[rd|e] w2]; simpl in *;
    [|by eapply grows_trans]. eapply grows_trans; [exact Hw|]. eapply grows_trans; [exact Hr|]. apply IH.
Qed.

Lemma create_tracks_participants t ids ws rs ts w :
  participants_ (exec (create_tracks (PW := PW) t ids ws rs ts) w) = participants_ w.
Proof.
  revert ts w. induction ids as [|id ids IH]; intros ts w; [done|].
  cbn [create_tracks]. unfold exec in *. unfold mbind, prog_bind, get, always.
  destruct (find id rs) as [rd|]; [|done]. simpl. rewrite IH. done.
Qed.

Lemma for_tracks_participants (f : Track * pworld -> Track * pworld) l w :
  (forall t w, participants_ (f (t, w)).2 = participants_ w) ->
  participants_ (for_tracks f l w).2 = participants_ w.
Proof.
  intros Hf. revert w. induction l as [|[k t] l IH]; intros w; [done|]. simpl.
  specialize (Hf t w). destruct (f (t, w)) as [t' w1]. specialize (IH w1).
  destruct (for_tracks f l w1) as [l' w2]. simpl in *. congruence.
Qed.

(** The ids depend on the keys only. *)
Lemma participants_ids_keys w w' :
  keys (participants_ w') = keys (participants_ w) -> db_participants_ids w' = db_participants_ids w.
Proof.
  assert (forall (m : std_map ParticipantId IParticipant) acc,
    fold_left (fun result it => set_insert it.1 result) m acc =
    fold_left (fun result id => set_insert id result) (keys m) acc) as Hk.
  { intros m. induction m as [|[k p] m IH]; intros acc; [done|]. apply IH. }
  intros E. unfold db_participants_ids. by rewrite !Hk, E.
Qed.

(** What a failed construction leaves behind. *)
Lemma failed_bridge_grows t enable w e w' :
  DDSBridge_new (PW := PW) t enable w = (Throw e, w') -> grows t w w'.
Proof.
  unfold DDSBridge_new. unfold mbind, prog_bind, gets. cbn [get_participants_ids pw_participants].
  set (ids := set_elems (db_participants_ids w)).
  pose proof (create_endpoints_grows t ids [] [] w) as Hg. unfold exec in Hg.
  destruct (create_endpoints t ids [] [] w) as [[[ws rs]|e1] w1]; [|by intros [= _ <-]].
  pose proof (create_tracks_participants t ids ws rs [] w1) as Ht. unfold exec in Ht. cbn [fst snd].
  destruct (create_tracks t ids ws rs [] w1) as [[ts|e2] w2]; cbn [fst snd] in *.
  - destruct enable; unfold always, mret, prog_ret; [case_match_eqn|]; intros ?; discriminate.
  - intros [= _ <-]. eapply grows_trans; [exact Hg|]. by apply grows_refl.
Qed.

Lemma created_has_writer t id b w ptr w1 :
  find id (participants_ w) = Some (BaseParticipantObj b) ->
  pw_create_writer rtps_writer_ id t w = (Ok ptr, w1) -> has_writer id t w1.
Proof.
  intros Hf. unfold pw_create_writer. run_prog. rewrite Hf. unfold base_create_writer, bp_create_writer.
  destruct (find t (bp_writers_ b)); [done|]. run_prog.
  destruct (create_writer_ rtps_writer_ b t w) as [[p|e] w2]; [|done]. simpl. intros [= <- <-].
  eexists. split; [apply find_assign_eq, keqv_refl|]. simpl. rewrite find_emplace, keqv_refl. by eexists.
Qed.

Lemma create_endpoints_cons_grows t id ids ws rs w ptr w1 :
  pw_create_writer rtps_writer_ id t w = (Ok ptr, w1) ->
  grows t w1 (exec (create_endpoints (PW := PW) t (id :: ids) ws rs) w).
Proof.
  intros Hc. cbn [create_endpoints]. unfold exec. unfold mbind, prog_bind.
  cbn [create_writer create_reader pw_participants]. rewrite Hc.
  pose proof (create_reader_grows t id w1) as Hr. unfold exec in Hr.
  destruct (pw_create_reader rtps_reader_ id t w1) as [[rd|e] w2]; [|done].
  eapply grows_trans; [exact Hr|]. apply create_endpoints_grows.
Qed.

(** A failed construction keeps the writer of its first participant. *)
Lemma failed_bridge_has_writer t enable w e w' id ids ptr w1 b :
  set_elems (db_participants_ids w) = id :: ids ->
  find id (participants_ w) = Some (BaseParticipantObj b) ->
  pw_create_writer rtps_writer_ id t w = (Ok ptr, w1) ->
  DDSBridge_new (PW := PW) t enable w = (Throw e, w') -> has_writer id t w'.
Proof.
  intros Hids Hf Hc. pose proof (created_has_writer _ _ _ _ _ _ Hf Hc) as Hw1.
  unfold DDSBridge_new. unfold mbind, prog_bind, gets. cbn [get_participants_ids pw_participants].
  rewrite Hids. pose proof (create_endpoints_cons_grows t id ids [] [] w ptr w1 Hc) as [_ Hg].
  unfold exec in Hg. destruct (create_endpoints t (id :: ids) [] [] w) as [[[ws rs]|e1] w2];
    [|intros [= _ <-]; by apply Hg].
  pose proof (create_tracks_participants t (id :: ids) ws rs [] w2) as Ht. unfold exec in Ht. cbn [fst snd].
  destruct (create_tracks t (id :: ids) ws rs [] w2) as [[ts|e2] w3]; cbn [fst snd] in *.
  - destruct enable; unfold always, mret, prog_ret; [case_match_eqn|]; intros ?; discriminate.
  - intros [= _ <-]. apply (grows_refl t _ _ Ht). by apply Hg.
Qed.

(** A bridge whose construction failed can never be built.  If the first
    participant, in the order of the ids, got its writer and the construction threw
    afterwards, the writers and readers created remain registered in the
    participants; building the bridge of that topic again throws an
    [InitializationException] at once, every time. *)
Theorem failed_bridge_cannot_be_retried t enable enable' w e w' id ids ptr w1 b :
  set_elems (db_participants_ids w) = id :: ids ->
  find id (participants_ w) = Some (BaseParticipantObj b) ->
  pw_create_writer rtps_writer_ id t w = (Ok ptr, w1) ->
  DDSBridge_new (PW := PW) t enable w = (Throw e, w') ->
  DDSBridge_new (PW := PW) t enable' w' = (Throw InitializationException, w').
Proof.
  intros Hids Hf Hcreate Hfail.
  destruct (failed_bridge_has_writer _ _ _ _ _ _ _ _ _ _ Hids Hf Hcreate Hfail) as (b' & Hf' & [p Hp]).
  pose proof (failed_bridge_grows _ _ _ _ _ Hfail) as [Hk _].
  unfold DDSBridge_new. unfold mbind, prog_bind, gets. cbn [get_participants_ids pw_participants].
  rewrite (participants_ids_keys _ _ Hk), Hids. cbn [create_endpoints]. unfold mbind, prog_bind.
  cbn [create_writer pw_participants]. unfold pw_create_writer. run_prog. rewrite Hf'.
  unfold base_create_writer, bp_create_writer. by rewrite Hp.
Qed.

End Retry.

(** ** Witnesses *)

#[local] Existing Instances Demo.cpp_utils Demo.fast_dds PoolDemo.malloc.

#[local] Notation demo_PW := (pw_participants demo_rtps_writer demo_rtps_reader demo_default).

Lemma bridge_routing_witness :
  exists b w', DDSBridge_new (PW := demo_PW) demo_topic_t true demo_pworld = (Ok b, w') /\
    b_enabled_ b = true.
Proof.
  destruct (is_ok_pair (DDSBridge_new (PW := demo_PW) demo_topic_t true demo_pworld)) as (b & w' & E);
    [vm_compute; reflexivity|].
  exists b, w'. split; [exact E|].
  pose proof (pw_participants_laws demo_rtps_writer demo_rtps_reader demo_default) as PL.
  exact (proj1 (proj2 (bridge_routing demo_topic_t true demo_pworld b w' E))).
Defined.

Lemma bridge_enable_disable_witness :
  b_enabled_ (bridge_enable (PW := demo_PW) (mkBridge demo_topic_t false [] [] [], demo_pworld)).1 = true.
Proof. apply (bridge_enable_disable (PW := demo_PW)). constructor. Defined.

(** Participant [b] is an RTPS one whose endpoints cannot be created. *)
Definition demo_failing : pworld :=
  pw_set_participants
    [(mkParticipantId "a", demo_participant "a");
     (mkParticipantId "b", BaseParticipantObj (BaseParticipant_of
        (mkBaseConf (mkParticipantId "b") kind_simple_rtps false)))] demo_pworld.

Lemma failed_bridge_cannot_be_retried_witness :
  exists e w', DDSBridge_new (PW := demo_PW) demo_topic_t true demo_failing = (Throw e, w') /\
    DDSBridge_new (PW := demo_PW) demo_topic_t true w' = (Throw InitializationException, w').
Proof.
  destruct (is_throw_pair (DDSBridge_new (PW := demo_PW) demo_topic_t true demo_failing)) as (e & w' & E);
    [vm_compute; reflexivity|].
  destruct (is_ok_pair (pw_create_writer demo_rtps_writer (mkParticipantId "a") demo_topic_t demo_failing))
    as (ptr & w1 & E1); [vm_compute; reflexivity|].
  exists e, w'. split; [exact E|].
  eapply (failed_bridge_cannot_be_retried demo_rtps_writer demo_rtps_reader demo_default
    demo_topic_t true true demo_failing e w' (mkParticipantId "a") [mkParticipantId "b"]);
    [vm_compute; reflexivity|reflexivity|exact E1|exact E].
Defined.
