(* ===== verification/RPCBridge.v ===== *)
(** * RPC bridges

    [communication/rpc/RPCBridge.cpp]: the bridge of a service has in every RTPS
    participant a proxy server (which reads requests and writes replies) and a proxy
    client (which writes requests and reads replies).  A request is forwarded to the
    participants where there are servers, and the registry of each of them remembers
    who asked, so that the reply goes back there. *)
From stdpp Require Import gmap.
From S2P Require Import Prelude StdMap CppString Externals Types Topics Address Configuration Track Participants ServiceRegistry.

(** ** Interface

    What the bridge uses of [rtps::CommonReader] besides [IReader]. *)
Section Interface.
Context {CU : CppUtils}.

Class RpcWorld (W : Type) := {
  rpc_participants :: Participants W;
  reader_guid : nat -> W -> Guid;
  reader_participant_id : nat -> W -> ParticipantId;
  reader_topic : nat -> W -> DdsTopic;
  get_unread_count : nat -> W -> Z
}.

(** What [write] and [release_payload] leave as it was: the properties and
    the payload of the data, the identity of the readers and the participants. *)
Class RpcWorldLaws (W : Type) {RW : RpcWorld W} : Prop := {
  write_properties : forall wr d (w : W),
    properties (writer_write wr d w).1.2 = properties d;
  write_payload : forall wr d (w : W), payload (writer_write wr d w).1.2 = payload d;
  write_guid : forall wr d r (w : W), reader_guid r (writer_write wr d w).2 = reader_guid r w;
  write_participant_id : forall wr d r (w : W),
    reader_participant_id r (writer_write wr d w).2 = reader_participant_id r w;
  write_repeater : forall wr d id (w : W), is_repeater id (writer_write wr d w).2 = is_repeater id w
}.

(** The reader is the same one, with as many data waiting. *)
Record same_reader {W} {RW : RpcWorld W} (r : nat) (w w' : W) : Prop := {
  sr_guid : reader_guid r w' = reader_guid r w;
  sr_participant : reader_participant_id r w' = reader_participant_id r w;
  sr_topic : reader_topic r w' = reader_topic r w;
  sr_unread : get_unread_count r w' = get_unread_count r w
}.

(** What a transmission relies on.  [calm ws r n hand w]: nothing arrives, the reader [r]
    and the writers [ws] work, there is room for [n] more takes and writes, and [hand] is
    the payload that was taken and not yet released.  Taking a data leaves fewer of them;
    the rest leaves as many, and the same reader. *)
Class RpcProgress (W : Type) {RW : RpcWorld W} := {
  calm : list nat -> nat -> nat -> option Payload -> W -> Prop;
  calm_le : forall ws r n m hand (w : W), m <= n -> calm ws r n hand w -> calm ws r m hand w;
  take_calm : forall ws r n (w : W), calm ws r (S n) None w -> (0 < get_unread_count r w)%Z ->
    exists ret d w', reader_take r new_data w = ((ret, d), w') /\
      reader_guid r w' = reader_guid r w /\ reader_participant_id r w' = reader_participant_id r w /\
      reader_topic r w' = reader_topic r w /\
      (0 <= get_unread_count r w' < get_unread_count r w)%Z /\
      calm ws r n (if ret_not ret then None else Some (payload d)) w' /\
      (ret_not ret = false -> participant_receiver (properties d) = reader_participant_id r w);
  write_calm : forall ws r n wr d (w : W), calm ws r (S n) (Some (payload d)) w -> wr ∈ ws ->
    calm ws r n (Some (payload d)) (writer_write wr d w).2 /\ same_reader r w (writer_write wr d w).2;
  release_calm : forall ws r n p (w : W), calm ws r n (Some p) w ->
    calm ws r n None (pool_release p w).2 /\ same_reader r w (pool_release p w).2
}.

End Interface.

#[local] Existing Instance guid_prefix_less.

Section RPCBridge.
Context {CU : CppUtils} {FD : FastDDS} {W : Type} {RW : RpcWorld W}.

Record RPCBridge : Type := mkRPC {
  r_topic_ : RPCTopic;
  r_enabled_ : bool;
  init_ : bool;
  request_readers_ : std_map ParticipantId nat;
  reply_writers_ : std_map ParticipantId nat;
  reply_readers_ : std_map ParticipantId nat;
  request_writers_ : std_map ParticipantId nat;
  tasks_map_ : std_map Guid (bool * nat);
  service_registries_ : std_map ParticipantId ServiceRegistry;
  current_servers_ : std_map ParticipantId (std_set GuidPrefix)
}.

Definition r_set_enabled (e : bool) (b : RPCBridge) : RPCBridge :=
  mkRPC (r_topic_ b) e (init_ b) (request_readers_ b) (reply_writers_ b) (reply_readers_ b)
    (request_writers_ b) (tasks_map_ b) (service_registries_ b) (current_servers_ b).
Definition r_set_init (i : bool) (b : RPCBridge) : RPCBridge :=
  mkRPC (r_topic_ b) (r_enabled_ b) i (request_readers_ b) (reply_writers_ b) (reply_readers_ b)
    (request_writers_ b) (tasks_map_ b) (service_registries_ b) (current_servers_ b).
(** the endpoints of the proxy servers, and of the proxy clients *)
Definition r_set_server (readers writers : std_map ParticipantId nat) (b : RPCBridge) : RPCBridge :=
  mkRPC (r_topic_ b) (r_enabled_ b) (init_ b) readers writers (reply_readers_ b)
    (request_writers_ b) (tasks_map_ b) (service_registries_ b) (current_servers_ b).
Definition r_set_client (readers writers : std_map ParticipantId nat) (b : RPCBridge) : RPCBridge :=
  mkRPC (r_topic_ b) (r_enabled_ b) (init_ b) (request_readers_ b) (reply_writers_ b) readers
    writers (tasks_map_ b) (service_registries_ b) (current_servers_ b).
Definition r_set_tasks (m : std_map Guid (bool * nat)) (b : RPCBridge) : RPCBridge :=
  mkRPC (r_topic_ b) (r_enabled_ b) (init_ b) (request_readers_ b) (reply_writers_ b) (reply_readers_ b)
    (request_writers_ b) m (service_registries_ b) (current_servers_ b).
Definition r_set_registries (m : std_map ParticipantId ServiceRegistry) (b : RPCBridge) : RPCBridge :=
  mkRPC (r_topic_ b) (r_enabled_ b) (init_ b) (request_readers_ b) (reply_writers_ b) (reply_readers_ b)
    (request_writers_ b) (tasks_map_ b) m (current_servers_ b).
Definition r_set_servers (m : std_map ParticipantId (std_set GuidPrefix)) (b : RPCBridge) : RPCBridge :=
  mkRPC (r_topic_ b) (r_enabled_ b) (init_ b) (request_readers_ b) (reply_writers_ b) (reply_readers_ b)
    (request_writers_ b) (tasks_map_ b) (service_registries_ b) m.

(** [RPCBridge(topic, participants_database, payload_pool, thread_pool)] *)
Definition RPCBridge_new (topic : RPCTopic) : RPCBridge :=
  mkRPC topic false false [] [] [] [] [] [] [].

(** The state of a method: the bridge and the world.  An exception that leaves a
    [noexcept] method ends the program. *)
Definition rpc_state : Type := (RPCBridge * W)%type.
Definition on_bridge (f : RPCBridge -> RPCBridge) : prog rpc_state unit := modify (fun s => (f s.1, s.2)).
Definition on_world (f : W -> W) : prog rpc_state unit := modify (fun s => (s.1, f s.2)).
Definition in_world {A} (m : prog W A) : prog rpc_state A := zoom snd (fun w s => (s.1, w)) m.

(** [map[key]->...] of a map of pointers: the pointer of an absent key is null. *)
Definition deref {K V} `{Less K} (k : K) (m : RPCBridge -> std_map K V) : prog rpc_state V :=
  s ← get;
  match find k (m s.1) with
  | Some v => mret v
  | None => throw UndefinedBehaviour
  end.

(** ** Endpoints *)

(** [create_slot_]; the callback of the reader is referred to by the task it emits. *)
Definition create_slot_ (reader : nat) : prog rpc_state unit :=
  guid ← gets (fun s => reader_guid reader s.2);
  task ← in_world (always new_unique_task_id);
  on_world (reader_set_callback reader task) ;;
  on_world (thread_pool_slot task) ;;
  on_bridge (fun b => r_set_tasks (assign guid (false, task) (tasks_map_ b)) b).

Definition create_proxy_server_nts_ (id : ParticipantId) : prog rpc_state unit :=
  topic ← gets (fun s => r_topic_ s.1);
  writer ← in_world (create_writer id (reply_topic topic));
  on_bridge (fun b => r_set_server (request_readers_ b) (assign id writer (reply_writers_ b)) b) ;;
  reader ← in_world (create_reader id (request_topic topic));
  on_bridge (fun b => r_set_server (assign id reader (request_readers_ b)) (reply_writers_ b) b) ;;
  create_slot_ reader.

Definition create_proxy_client_nts_ (id : ParticipantId) : prog rpc_state unit :=
  topic ← gets (fun s => r_topic_ s.1);
  writer ← in_world (create_writer id (request_topic topic));
  on_bridge (fun b => r_set_client (reply_readers_ b) (assign id writer (request_writers_ b)) b) ;;
  reader ← in_world (create_reader id (reply_topic topic));
  on_bridge (fun b => r_set_client (assign id reader (reply_readers_ b)) (request_writers_ b) b) ;;
  create_slot_ reader ;;
  on_bridge (fun b => r_set_registries (assign id (ServiceRegistry_of topic id) (service_registries_ b)) b).

(** [service_registries_[id]->f()] *)
Definition on_registry (id : ParticipantId) (f : ServiceRegistry -> ServiceRegistry) : prog rpc_state unit :=
  r ← deref id service_registries_;
  on_bridge (fun b => r_set_registries (assign id (f r) (service_registries_ b)) b).

(** The servers known in a participant; [current_servers_[id]] adds it if absent. *)
Definition servers_of (id : ParticipantId) (b : RPCBridge) : std_set GuidPrefix :=
  default [] (find id (current_servers_ b)).
Definition on_servers (id : ParticipantId) (f : std_set GuidPrefix -> std_set GuidPrefix) : prog rpc_state unit :=
  on_bridge (fun b => r_set_servers (subscript [] f id (current_servers_ b)) b).

(** The body of the loop of [init_nts_] *)
Definition init_body (id : ParticipantId) : prog rpc_state unit :=
  create_proxy_client_nts_ id ;;
  create_proxy_server_nts_ id ;;
  on_servers id (fun servers => servers) ;;
  servers ← gets (fun s => servers_of id s.1);
  if (0 <? length servers)%nat then on_registry id registry_enable else mret tt.

Definition init_nts_ : prog rpc_state unit :=
  ids ← gets (fun s => set_elems (get_rtps_participants_ids s.2));
  for_each ids init_body ;;
  on_bridge (r_set_init true).

(** ** Enabling *)

Definition servers_available_ (b : RPCBridge) : bool :=
  existsb (fun it => (0 <? length it.2)%nat) (current_servers_ b).

(** [for (auto& it : map) it.second->f()] *)
Definition for_endpoints (f : nat -> W -> W) (m : RPCBridge -> std_map ParticipantId nat) : prog rpc_state unit :=
  l ← gets (fun s => values (m s.1));
  for_each l (fun ptr => on_world (f ptr)).

Definition enable_endpoints : prog rpc_state unit :=
  on_bridge (r_set_enabled true) ;;
  for_endpoints writer_enable request_writers_ ;;
  for_endpoints writer_enable reply_writers_ ;;
  for_endpoints reader_enable reply_readers_ ;;
  for_endpoints reader_enable request_readers_.

(** [enable]; the result of the first part says whether it goes on. *)
Definition rpc_enable : prog rpc_state unit :=
  s ← get;
  if negb (r_enabled_ s.1) && servers_available_ s.1 then
    go_on ← (if negb (init_ s.1)
             then try_catch (init_nts_ ;; mret true) InitializationException (mret false)
             else mret true);
    if (go_on : bool) then enable_endpoints else mret tt
  else mret tt.

Definition rpc_disable : prog rpc_state unit :=
  s ← get;
  if r_enabled_ s.1 then
    on_bridge (r_set_enabled false) ;;
    for_endpoints reader_disable request_readers_ ;;
    for_endpoints reader_disable reply_readers_ ;;
    for_endpoints writer_disable reply_writers_ ;;
    for_endpoints writer_disable request_writers_
  else mret tt.

Definition discovered_service (server_participant_id : ParticipantId) (server_guid_prefix : GuidPrefix) :
    prog rpc_state unit :=
  on_servers server_participant_id (set_insert server_guid_prefix) ;;
  s ← get;
  if init_ s.1 then on_registry server_participant_id registry_enable else mret tt.

Definition removed_service (server_participant_id : ParticipantId) (server_guid_prefix : GuidPrefix) :
    prog rpc_state unit :=
  on_servers server_participant_id (set_erase server_guid_prefix) ;;
  s ← get;
  if negb (0 <? length (servers_of server_participant_id s.1))%nat && negb (servers_available_ s.1)
  then rpc_disable else mret tt.

(** [~RPCBridge()]: the endpoints of each participant are deleted in turn.  The bridge had
    the last pointers to its writers; the slots of the thread pool keep its readers. *)
Definition delete_endpoint (f : ParticipantId -> nat -> W -> W) (m : RPCBridge -> std_map ParticipantId nat)
    (upd : std_map ParticipantId nat -> RPCBridge -> RPCBridge) (id : ParticipantId) : prog rpc_state unit :=
  s ← get;
  match find id (m s.1) with
  | Some ptr => on_world (f id ptr) ;; on_bridge (fun b => upd (erase id (m b)) b)
  | None => mret tt
  end.

Definition forget_writer (id : ParticipantId) (ptr : nat) (w : W) : W := release_writer ptr (delete_writer id ptr w).

Definition rpc_destroy : prog rpc_state unit :=
  rpc_disable ;;
  ids ← gets (fun s => set_elems (get_participants_ids s.2));
  for_each ids (fun id =>
    delete_endpoint forget_writer request_writers_ (fun m b => r_set_client (reply_readers_ b) m b) id ;;
    delete_endpoint forget_writer reply_writers_ (fun m b => r_set_server (request_readers_ b) m b) id ;;
    delete_endpoint delete_reader request_readers_ (fun m b => r_set_server m (reply_writers_ b) b) id ;;
    delete_endpoint delete_reader reply_readers_ (fun m b => r_set_client m (request_writers_ b) b) id).

(** ** Transmission *)

(** [data_available_(reader_guid)] *)
Definition rpc_data_available (guid : Guid) : prog rpc_state unit :=
  s ← get;
  if r_enabled_ s.1 then
    let task := default (false, 0) (find guid (tasks_map_ s.1)) in
    if negb task.1 then
      on_bridge (fun b => r_set_tasks (assign guid (true, task.2) (tasks_map_ b)) b) ;;
      on_world (thread_pool_emit task.2)
    else on_bridge (fun b => r_set_tasks (assign guid task (tasks_map_ b)) b)
  else mret tt.

Definition params_of (d : DataReceived) : WriteParams := get_reference (write_params (properties d)).

(** The request a reply has to refer to: who sent it, with the number it was sent. *)
Definition reply_identity (d : DataReceived) : SampleIdentity :=
  mkSampleIdentity (writer_guid (sample_identity (params_of d))) (origin_sequence_number (properties d)).

(** [write_params.set_level()] and the assignment of the related identity *)
Definition set_related (f : SampleIdentity -> SampleIdentity) (d : DataReceived) : DataReceived :=
  let fuzzy := set_level (write_params (properties d)) in
  let p := get_reference fuzzy in
  set_properties (set_write_params
    (set_reference (mkWriteParams (sample_identity p) (f (related_sample_identity p))) fuzzy)
    (properties d)) d.
Definition set_related_guid (g : Guid) : DataReceived -> DataReceived :=
  set_related (fun i => mkSampleIdentity g (sequence_number i)).

(** The test of the loop of a request: [true] when it is not sent there. *)
Definition skips (receiver id : ParticipantId) (repeater registry_enabled : bool) : bool :=
  (bool_decide (receiver = id) && negb repeater) || negb registry_enabled.

(** One turn of the loop, for the proxy client of [id]. *)
Definition forward_to (identity : SampleIdentity) (id : ParticipantId) (data : DataReceived) :
    prog rpc_state DataReceived :=
  r ← deref id service_registries_;
  s ← get;
  if skips (participant_receiver (properties data)) id (is_repeater id s.2) (ServiceRegistry.enabled_ r)
  then mret data
  else
    reply_reader ← deref id reply_readers_;
    let data1 := set_related_guid (reader_guid reply_reader s.2) data in
    request_writer ← deref id request_writers_;
    res ← in_world (always (writer_write request_writer data1));
    let '(ret, data2) := res in
    if ret_not ret then mret data2
    else
      on_registry id (registry_add (sent_sequence_number data2)
        (participant_receiver (properties data2), identity)) ;;
      mret data2.

Fixpoint forward_request (identity : SampleIdentity) (ids : list ParticipantId) (data : DataReceived) :
    prog rpc_state DataReceived :=
  match ids with
  | [] => mret data
  | id :: ids' =>
      data' ← forward_to identity id data;
      forward_request identity ids' data'
  end.

Definition process_request (data : DataReceived) : prog rpc_state DataReceived :=
  let identity := reply_identity data in
  if bool_decide (identity = sample_identity_unknown) then mret data
  else
    ids ← gets (fun s => keys (service_registries_ s.1));
    forward_request identity ids data.

Definition process_reply (reader : nat) (data : DataReceived) : prog rpc_state DataReceived :=
  s ← get;
  if bool_decide (writer_guid (sample_identity (params_of data)) <> reader_guid reader s.2)
  then mret data
  else
    let id := reader_participant_id reader s.2 in
    registry ← deref id service_registries_;
    let entry := registry_get (sequence_number (sample_identity (params_of data))) registry in
    if ParticipantId_is_valid entry.1 then
      let data1 := set_related (fun _ => entry.2) data in
      reply_writer ← deref entry.1 reply_writers_;
      res ← in_world (always (writer_write reply_writer data1));
      let '(ret, data2) := res in
      if ret_not ret then mret data2
      else
        on_registry id (registry_erase (sequence_number (sample_identity (params_of data2)))) ;;
        mret data2
    else mret data.

(** What is done with the data taken; [utils::tsnh] ends the program. *)
Definition process_data (reader : nat) (data : DataReceived) : prog rpc_state DataReceived :=
  s ← get;
  let topic := reader_topic reader s.2 in
  if is_request_topic topic then process_request data
  else if is_reply_topic topic then process_reply reader data
  else throw UndefinedBehaviour.

(** [transmit_], [fuel] turns of the loop at most; [false] when they were not enough. *)
Fixpoint rpc_transmit (fuel : nat) (reader : nat) : prog rpc_state bool :=
  match fuel with
  | 0 => mret false
  | S fuel' =>
      s ← get;
      if negb (r_enabled_ s.1) || negb (0 <? get_unread_count reader s.2)%Z then
        on_bridge (fun b => r_set_tasks
          (subscript (false, 0) (fun t => (false, t.2)) (reader_guid reader s.2) (tasks_map_ b)) b) ;;
        mret true
      else
        res ← in_world (always (reader_take reader new_data));
        let '(ret, data) := res in
        if ret_not ret then rpc_transmit fuel' reader
        else
          data' ← process_data reader data;
          on_world (fun w => (pool_release (payload data') w).2) ;;
          rpc_transmit fuel' reader
  end.

(** ** Lemmas on requests *)

Context {CL : CppUtilsLaws} {RL : RpcWorldLaws W}.

(** A write, as it was done. *)
Record write_event : Type := mkWrite {
  ev_participant : ParticipantId;
  ev_sent : DataReceived;
  ev_ret : ReturnCode;
  ev_after : DataReceived
}.

(** The world goes from one to the other by these writes, in this order, with the
    writers of these participants. *)
Inductive writes (writers : std_map ParticipantId nat) : W -> list write_event -> W -> Prop :=
| writes_nil w : writes writers w [] w
| writes_cons w ptr ev w1 evs w2 :
    find (ev_participant ev) writers = Some ptr ->
    writer_write ptr (ev_sent ev) w = ((ev_ret ev, ev_after ev), w1) ->
    writes writers w1 evs w2 -> writes writers w (ev :: evs) w2.

(** The participants a request is sent to. *)
Definition goes_to (b : RPCBridge) (w : W) (receiver id : ParticipantId) : bool :=
  match find id (service_registries_ b) with
  | Some r => ServiceRegistry.enabled_ r && (negb (bool_decide (receiver = id)) || is_repeater id w)
  | None => false
  end.

(** What is remembered of a write that succeeded. *)
Definition record_event (identity : SampleIdentity) (m : std_map ParticipantId ServiceRegistry)
    (ev : write_event) : std_map ParticipantId ServiceRegistry :=
  if ret_not (ev_ret ev) then m
  else update (registry_add (sent_sequence_number (ev_after ev))
         (participant_receiver (properties (ev_sent ev)), identity)) (ev_participant ev) m.

(** The request, addressed so that the server replies to the proxy client. *)
Definition addressed (b : RPCBridge) (w : W) (data : DataReceived) (ev : write_event) : Prop :=
  exists reply_reader, find (ev_participant ev) (reply_readers_ b) = Some reply_reader /\
    writer_guid (related_sample_identity (params_of (ev_sent ev))) = reader_guid reply_reader w /\
    is_set (write_params (properties (ev_sent ev))) = true /\
    sample_identity (params_of (ev_sent ev)) = sample_identity (params_of data) /\
    participant_receiver (properties (ev_sent ev)) = participant_receiver (properties data) /\
    payload (ev_sent ev) = payload data /\
    properties (ev_sent ev) = set_write_params (write_params (properties (ev_sent ev))) (properties data).

(** Every registry has the endpoints of its proxy client. *)
Definition client_complete (b : RPCBridge) (id : ParticipantId) : Prop :=
  is_Some (find id (service_registries_ b)) ->
  is_Some (find id (reply_readers_ b)) /\ is_Some (find id (request_writers_ b)).

Lemma set_related_spec f d :
  let d' := set_related f d in
  params_of d' = mkWriteParams (sample_identity (params_of d)) (f (related_sample_identity (params_of d))) /\
  is_set (write_params (properties d')) = true /\
  participant_receiver (properties d') = participant_receiver (properties d) /\ payload d' = payload d /\
  properties d' = set_write_params (write_params (properties d')) (properties d).
Proof.
  unfold params_of, set_related. cbn [properties set_properties write_params set_write_params
    participant_receiver payload]. by rewrite get_set_reference, is_set_reference, is_set_level, !get_set_level.
Qed.

Lemma r_set_registries_same b : r_set_registries (service_registries_ b) b = b.
Proof. by destruct b. Qed.

Lemma deref_ok {K V} `{Less K} (k : K) (m : RPCBridge -> std_map K V) v (s : rpc_state) :
  find k (m s.1) = Some v -> deref k m s = (Ok v, s).
Proof. intros E. unfold deref. run_prog. by rewrite E. Qed.

Lemma on_registry_ok id f r b w :
  find id (service_registries_ b) = Some r ->
  on_registry id f (b, w) = (Ok tt, (r_set_registries (update f id (service_registries_ b)) b, w)).
Proof.
  intros E. unfold on_registry, update. rewrite (bind_ok _ _ _ _ _ (deref_ok id service_registries_ _ (b, w) E)). by rewrite E.
Qed.

(** One turn of the loop. *)
Lemma skips_spec receiver id repeater en :
  skips receiver id repeater en = negb (en && (negb (bool_decide (receiver = id)) || repeater)).
Proof. unfold skips. by destruct (bool_decide _), repeater, en. Qed.

Lemma forward_to_spec identity id data b w :
  is_Some (find id (service_registries_ b)) -> client_complete b id ->
  if goes_to b w (participant_receiver (properties data)) id then
    exists ev w', ev_participant ev = id /\ writes (request_writers_ b) w [ev] w' /\
      addressed b w data ev /\ properties (ev_after ev) = properties (ev_sent ev) /\
      payload (ev_after ev) = payload data /\
      forward_to identity id data (b, w) =
        (Ok (ev_after ev), (r_set_registries (record_event identity (service_registries_ b) ev) b, w'))
  else forward_to identity id data (b, w) = (Ok data, (b, w)).
Proof.
  intros [r Hr] Hc. destruct (Hc (ex_intro _ r Hr)) as [[rr Hrr] [rw Hrw]].
  unfold goes_to, forward_to. rewrite Hr, (bind_ok _ _ _ _ _ (deref_ok id service_registries_ _ (b, w) Hr)).
  rewrite (bind_ok get _ _ (b, w) (b, w)) by done. cbn [fst snd].
  rewrite skips_spec. destruct (_ && _); [cbn [negb]|done].
  rewrite (bind_ok _ _ _ _ _ (deref_ok id reply_readers_ _ (b, w) Hrr)). cbv zeta.
  rewrite (bind_ok _ _ _ _ _ (deref_ok id request_writers_ _ (b, w) Hrw)).
  unfold in_world, zoom, always. run_prog.
  set (d1 := set_related_guid (reader_guid rr w) data).
  pose proof (set_related_spec (fun i => mkSampleIdentity (reader_guid rr w) (sequence_number i)) data)
    as (Hp & Hset & Hrec & Hpay & Hall).
  fold (set_related_guid (reader_guid rr w) data) in Hp, Hset, Hrec, Hpay, Hall. fold d1 in Hp, Hset, Hrec, Hpay, Hall.
  pose proof (write_properties rw d1 w) as Hprop. pose proof (write_payload rw d1 w) as Hwp.
  destruct (writer_write rw d1 w) as [[ret d2] w1] eqn:Ew. cbn [fst snd] in *.
  exists (mkWrite id d1 ret d2), w1. cbn [ev_participant ev_sent ev_after ev_ret].
  split_and!; [done| | |done|congruence|].
  { eapply writes_cons; [exact Hrw|exact Ew|constructor]. }
  { exists rr. cbn [ev_sent ev_participant]. rewrite Hp. by split_and!. }
  unfold record_event. cbn [ev_ret ev_sent ev_after ev_participant].
  destruct (ret_not ret); [by rewrite r_set_registries_same|].
  by rewrite (on_registry_ok _ _ _ _ _ Hr), Hprop.
Qed.

Lemma record_enabled identity m ev id :
  ServiceRegistry.enabled_ <$> find id (record_event identity m ev) = ServiceRegistry.enabled_ <$> find id m.
Proof.
  unfold record_event. destruct (ret_not _); [done|]. rewrite find_update.
  destruct (keqv id (ev_participant ev)) eqn:E; [|done]. rewrite (find_keqv _ _ _ E).
  destruct (find (ev_participant ev) m) as [r|]; [|done]. simpl. f_equal.
  unfold registry_add. by destruct (contains _ _).
Qed.

Lemma goes_to_registries b w w' receiver id m :
  is_repeater id w' = is_repeater id w ->
  ServiceRegistry.enabled_ <$> find id m = ServiceRegistry.enabled_ <$> find id (service_registries_ b) ->
  goes_to (r_set_registries m b) w' receiver id = goes_to b w receiver id.
Proof.
  intros Hrep He. unfold goes_to. cbn [service_registries_ r_set_registries].
  destruct (find id m), (find id (service_registries_ b)); simplify_eq/=; [|done]. by rewrite Hrep, He.
Qed.

Lemma write_one_keeps writers w ev w' r id :
  writes writers w [ev] w' ->
  reader_guid r w' = reader_guid r w /\ is_repeater id w' = is_repeater id w.
Proof.
  inversion 1 as [|? ptr ? w1 ? ? _ Hw Hnil]; subst. inversion Hnil; subst.
  pose proof (write_guid ptr (ev_sent ev) r w) as Hg. pose proof (write_repeater ptr (ev_sent ev) id w) as Hr.
  by rewrite Hw in Hg, Hr.
Qed.

Lemma client_complete_record b m id :
  (forall id, is_Some (find id m) -> is_Some (find id (service_registries_ b))) ->
  client_complete b id -> client_complete (r_set_registries m b) id.
Proof. intros Hm Hc Hs. by apply Hc, Hm. Qed.

Lemma record_some identity m ev id :
  is_Some (find id (record_event identity m ev)) <-> is_Some (find id m).
Proof. rewrite <- !(fmap_is_Some ServiceRegistry.enabled_). by rewrite record_enabled. Qed.

(** The whole loop. *)
Lemma forward_request_spec identity ids data b w :
  (forall id, id ∈ ids -> is_Some (find id (service_registries_ b)) /\ client_complete b id) ->
  exists evs data' w',
    forward_request identity ids data (b, w) =
      (Ok data', (r_set_registries (fold_left (record_event identity) evs (service_registries_ b)) b, w')) /\
    writes (request_writers_ b) w evs w' /\
    ev_participant <$> evs = List.filter (goes_to b w (participant_receiver (properties data))) ids /\
    Forall (addressed b w data) evs /\ payload data' = payload data.
Proof.
  revert data b w. induction ids as [|id ids IH]; intros data b w Hids.
  { exists [], data, w. split_and!; [|constructor|done|constructor|done]. cbn. by rewrite r_set_registries_same. }
  destruct (Hids id) as [Hs Hc]; [set_solver|]. cbn [forward_request List.filter].
  pose proof (forward_to_spec identity id data b w Hs Hc) as Hstep.
  destruct (goes_to b w _ id) eqn:Eg.
  - destruct Hstep as (ev & w1 & Hid & Hw & Hadd & Hpr & Hpay & Hrun). rewrite (bind_ok _ _ _ _ _ Hrun).
    set (b1 := r_set_registries (record_event identity (service_registries_ b) ev) b).
    destruct (IH (ev_after ev) b1 w1) as (evs & data' & w' & Hrest & Hws & Hparts & Hall & Hpd).
    { intros id' Hin. destruct (Hids id') as [Hs' Hc']; [set_solver|]. split.
      - by apply record_some.
      - apply client_complete_record; [|done]. intros id''. apply record_some. }
    destruct Hadd as (rr & Hrr & Hguid & Hset & Hsid & Hrec & Hpayl & Hprops).
    exists (ev :: evs), data', w'. split_and!.
    + rewrite Hrest. done.
    + inversion Hw as [|? ptr ? wx ? ? Hptr Hww Hnil]; subst. inversion Hnil; subst. by econstructor.
    + cbn [fmap list_fmap]. f_equal; [done|]. rewrite Hparts, Hpr, Hrec.
      apply List.filter_ext. intros id'. apply goes_to_registries; [|apply record_enabled].
      by apply (write_one_keeps _ _ _ _ 0 id' Hw).
    + constructor; [by exists rr|]. eapply Forall_impl; [exact Hall|].
      intros ev' (rr' & H1 & H2 & H3 & H4 & H5 & H6 & H7). exists rr'. split_and!; try done.
      * rewrite H2. by apply (write_one_keeps _ _ _ _ rr' id Hw).
      * rewrite H4. unfold params_of at 1. rewrite Hpr. exact Hsid.
      * by rewrite H5, Hpr.
      * by rewrite H6.
      * rewrite H7, Hpr, Hprops. done.
    + by rewrite Hpd.
  - rewrite (bind_ok _ _ _ _ _ Hstep). apply IH. intros id' ?. apply Hids. set_solver.
Qed.

(** The registries after the loop: every participant has at most one event. *)
Lemma record_all_find identity evs m ev r :
  NoDup (ev_participant <$> evs) -> ev ∈ evs -> ret_not (ev_ret ev) = false ->
  find (ev_participant ev) m = Some r ->
  find (ev_participant ev) (fold_left (record_event identity) evs m) =
    Some (registry_add (sent_sequence_number (ev_after ev))
      (participant_receiver (properties (ev_sent ev)), identity) r).
Proof.
  revert m. induction evs as [|e evs IH]; intros m Hnd Hin Hret Hf; [by apply not_elem_of_nil in Hin|].
  cbn [fmap list_fmap] in Hnd. apply NoDup_cons in Hnd as [Hn Hnd]. cbn [fold_left].
  assert (forall m', ev_participant ev ∉ ev_participant <$> evs ->
    find (ev_participant ev) (fold_left (record_event identity) evs m') = find (ev_participant ev) m') as Hout.
  { clear. induction evs as [|e evs IH]; intros m' Hn; [done|]. cbn [fold_left fmap list_fmap] in *.
    rewrite IH by set_solver. unfold record_event. destruct (ret_not _); [done|]. rewrite find_update.
    rewrite ParticipantId_keqv_ne by set_solver. done. }
  apply elem_of_cons in Hin as [->|Hin].
  - rewrite Hout by done. unfold record_event. rewrite Hret, find_update, keqv_refl, Hf. done.
  - apply IH; try done. unfold record_event. destruct (ret_not (ev_ret e)); [done|].
    rewrite find_update, ParticipantId_keqv_ne; [done|]. intros E. apply Hn. rewrite <- E.
    by apply list_elem_of_fmap_2.
Qed.

(** ** Lemmas on replies *)

Lemma process_reply_spec reader data b w registry requester request :
  find (reader_participant_id reader w) (service_registries_ b) = Some registry ->
  registry_get (sequence_number (sample_identity (params_of data))) registry = (requester, request) ->
  (ParticipantId_is_valid requester = true -> is_Some (find requester (reply_writers_ b))) ->
  if bool_decide (writer_guid (sample_identity (params_of data)) = reader_guid reader w) &&
     ParticipantId_is_valid requester then
    exists ptr ret d' w', find requester (reply_writers_ b) = Some ptr /\
      writer_write ptr (set_related (fun _ => request) data) w = ((ret, d'), w') /\
      process_reply reader data (b, w) =
        (Ok d', (if ret_not ret then b
                 else r_set_registries
                   (update (registry_erase (sequence_number (sample_identity (params_of data))))
                      (reader_participant_id reader w) (service_registries_ b)) b, w'))
  else process_reply reader data (b, w) = (Ok data, (b, w)).
Proof.
  intros Hr Hget Hwr. unfold process_reply. rewrite (bind_ok get _ _ (b, w) (b, w)) by done. cbn [fst snd].
  destruct (decide (writer_guid (sample_identity (params_of data)) = reader_guid reader w)) as [Hg|Hg];
    [|by rewrite (bool_decide_true (_ <> _)), (bool_decide_false (_ = _)) by done].
  rewrite (bool_decide_false (_ <> _)), (bool_decide_true (_ = _)) by (done || intros H; by apply H). cbv zeta.
  rewrite (bind_ok _ _ _ _ _ (deref_ok _ service_registries_ _ (b, w) Hr)), Hget. cbn [fst snd andb].
  destruct (ParticipantId_is_valid requester); [|done]. destruct (Hwr eq_refl) as [ptr Hptr].
  rewrite (bind_ok _ _ _ _ _ (deref_ok _ reply_writers_ _ (b, w) Hptr)).
  unfold in_world, zoom, always. run_prog.
  pose proof (write_properties ptr (set_related (fun _ => request) data) w) as Hp.
  pose proof (set_related_spec (fun _ => request) data) as (Hpar & _).
  destruct (writer_write _ _ _) as [[ret d2] w1] eqn:Ew. cbn [fst snd] in *.
  exists ptr, ret, d2, w1. split_and!; [done..|]. destruct (ret_not ret); [done|].
  unfold params_of in *. rewrite Hp, Hpar. cbn [sample_identity]. by rewrite (on_registry_ok _ _ _ _ _ Hr).
Qed.

(** A reply to a request of the registry, and the same reply again. *)
Lemma reply_once reader reply b w registry requester request ptr :
  find (reader_participant_id reader w) (service_registries_ b) = Some registry ->
  registry_wf registry ->
  writer_guid (sample_identity (params_of reply)) = reader_guid reader w ->
  registry_get (sequence_number (sample_identity (params_of reply))) registry = (requester, request) ->
  ParticipantId_is_valid requester = true -> find requester (reply_writers_ b) = Some ptr ->
  exists ret d2 b2 w2,
    writer_write ptr (set_related (fun _ => request) reply) w = ((ret, d2), w2) /\
    process_reply reader reply (b, w) = (Ok d2, (b2, w2)) /\
    (ret = RETCODE_OK -> process_reply reader reply (b2, w2) = (Ok reply, (b2, w2))).
Proof.
  intros Hr Hwf Hg Hget Hval Hptr.
  pose proof (process_reply_spec reader reply b w registry requester request Hr Hget) as H.
  rewrite bool_decide_true, Hval in H by done. cbn [andb] in H.
  destruct H as (ptr' & ret & d' & w' & Hptr' & Hw & Hrun); [by rewrite Hptr|]. simplify_eq.
  exists ret, d'. eexists _, w'. split_and!; [done|exact Hrun|].
  intros ->. rewrite ret_not_ok.
  pose proof (write_participant_id ptr (set_related (fun _ => request) reply) reader w) as Hpid.
  rewrite Hw in Hpid. cbn [snd] in Hpid.
  match goal with |- process_reply _ _ (?b2, _) = _ =>
    pose proof (process_reply_spec reader reply b2 w'
      (registry_erase (sequence_number (sample_identity (params_of reply))) registry)
      ParticipantId_invalid sample_identity_unknown) as H2 end.
  rewrite ParticipantId_invalid_not_valid, andb_false_r in H2. apply H2.
  - rewrite Hpid. cbn [service_registries_ r_set_registries]. by rewrite find_update, keqv_refl, Hr.
  - by rewrite registry_erase_lookup, Z.eqb_refl.
  - done.
Qed.

(** ** Invariants of the bridge *)

(** A property of the bridge that a method keeps, also if it throws. *)
Definition keeps {A} (P : RPCBridge -> Prop) (m : prog rpc_state A) : Prop :=
  forall s, P s.1 -> P (exec m s).1.

Lemma keeps_bind {A B} P (m : prog rpc_state A) (k : A -> prog rpc_state B) :
  keeps P m -> (forall a, keeps P (k a)) -> keeps P (m ≫= k).
Proof.
  intros Hm Hk s Hs. specialize (Hm s Hs). unfold exec, mbind, prog_bind in *.
  destruct (m s) as [[a|e] s1]; [by apply Hk|done].
Qed.

Lemma keeps_pure {A} P (f : rpc_state -> outcome A) : keeps P (fun s => (f s, s)).
Proof. by intros s Hs. Qed.

Lemma keeps_ret {A} P (a : A) : keeps P (mret a).
Proof. by intros s Hs. Qed.

Lemma keeps_in_world {A} P (m : prog W A) : keeps P (in_world m).
Proof. intros [b w] Hs. unfold exec, in_world, zoom. simpl. by destruct (m w). Qed.

Lemma keeps_on_world P f : keeps P (on_world f).
Proof. by intros [b w] Hs. Qed.

Lemma keeps_on_bridge (P : RPCBridge -> Prop) f : (forall b, P b -> P (f b)) -> keeps P (on_bridge f).
Proof. intros Hf [b w] Hs. by apply Hf. Qed.

Lemma keeps_deref {K V} `{Less K} P (k : K) (m : RPCBridge -> std_map K V) : keeps P (deref k m).
Proof.
  apply keeps_bind; [apply keeps_pure|]. intros s. destruct (find k (m s.1)); [apply keeps_ret|apply keeps_pure].
Qed.

Lemma keeps_for_each {A} P (l : list A) (body : A -> prog rpc_state unit) :
  (forall x, keeps P (body x)) -> keeps P (for_each l body).
Proof. intros Hb. induction l as [|x l IH]; [apply keeps_ret|]. apply keeps_bind; auto. Qed.

Lemma keeps_try {A} P (m : prog rpc_state A) e h : keeps P m -> keeps P h -> keeps P (try_catch m e h).
Proof.
  intros Hm Hh s Hs. specialize (Hm s Hs). unfold exec, try_catch in *.
  destruct (m s) as [[a|e'] s1]; [done|]. destruct (decide (e' = e)); [by apply Hh|done].
Qed.

Lemma keeps_endpoints P f m : keeps P (for_endpoints f m).
Proof.
  apply keeps_bind; [apply keeps_pure|]. intros l. apply keeps_for_each. intros. apply keeps_on_world.
Qed.

(** Goes through a method; leaves the updates of the bridge. *)
Ltac keeps_step :=
  match goal with
  | |- keeps _ (mbind _ _) => apply keeps_bind; [|intros ?]
  | |- keeps _ (if ?c then _ else _) => destruct c
  | |- keeps _ (match ?x with _ => _ end) => destruct x
  | |- keeps _ (let '(_, _) := ?x in _) => destruct x
  | |- keeps _ (for_each _ _) => apply keeps_for_each; intros ?
  | |- keeps _ (try_catch _ _ _) => apply keeps_try
  | |- keeps _ (on_bridge _) => apply keeps_on_bridge; intros ? ?
  | |- keeps _ (mret _) => apply keeps_ret
  | |- keeps _ (in_world _) => apply keeps_in_world
  | |- keeps _ (on_world _) => apply keeps_on_world
  | |- keeps _ (deref _ _) => apply keeps_deref
  | |- keeps _ (for_endpoints _ _) => apply keeps_endpoints
  | |- keeps _ get => apply keeps_pure
  | |- keeps _ (gets _) => apply keeps_pure
  | |- keeps _ (throw _) => apply keeps_pure
  end.

(** The part of the invariant about the maps. *)
Record rpc_maps (b : RPCBridge) : Prop := {
  rm_registries : map_wf (service_registries_ b);
  rm_servers : map_wf (current_servers_ b);
  rm_clients : forall id, client_complete b id;
  rm_bounded : forall id r, find id (service_registries_ b) = Some r -> registry_wf r
}.

(** Updates that do not touch those maps, or touch them the right way. *)
Lemma rpc_maps_same b b' :
  service_registries_ b' = service_registries_ b -> current_servers_ b' = current_servers_ b ->
  (forall id, is_Some (find id (reply_readers_ b)) -> is_Some (find id (reply_readers_ b'))) ->
  (forall id, is_Some (find id (request_writers_ b)) -> is_Some (find id (request_writers_ b'))) ->
  rpc_maps b -> rpc_maps b'.
Proof.
  intros E1 E2 H1 H2 [Hr Hs Hc Hb]. split; [by rewrite E1|by rewrite E2| |].
  - intros id. unfold client_complete. rewrite E1. intros Hsome. destruct (Hc id Hsome). auto.
  - intros id r. rewrite E1. apply Hb.
Qed.

Lemma rpc_maps_servers f id b :
  rpc_maps b -> rpc_maps (r_set_servers (subscript [] f id (current_servers_ b)) b).
Proof. intros [Hr Hs Hc Hb]. split; try done. by apply map_wf_subscript. Qed.

Lemma rpc_maps_registry f id r b :
  (forall r, registry_wf r -> registry_wf (f r)) -> find id (service_registries_ b) = Some r ->
  rpc_maps b -> rpc_maps (r_set_registries (assign id (f r) (service_registries_ b)) b).
Proof.
  intros Hf Hfind [Hr Hs Hc Hb]. split; cbn [service_registries_ current_servers_ r_set_registries].
  - by apply map_wf_assign.
  - done.
  - intros id'. apply client_complete_record; [|done]. intros id''. rewrite find_assign.
    destruct (keqv id'' id) eqn:E; [|done]. by rewrite (find_keqv _ _ _ E), Hfind.
  - intros id' r'. rewrite find_assign. destruct (keqv id' id) eqn:E; [|by apply Hb].
    intros [= <-]. by eapply Hf, Hb.
Qed.

Lemma is_Some_assign id id' ptr (m : std_map ParticipantId nat) :
  is_Some (find id' m) -> is_Some (find id' (assign id ptr m)).
Proof. rewrite find_assign. by destruct (keqv id' id). Qed.

#[local] Ltac maps_same := eapply rpc_maps_same; [..|eassumption]; try done; intros ?; apply is_Some_assign.

Lemma on_registry_maps id f :
  (forall r, registry_wf r -> registry_wf (f r)) -> keeps rpc_maps (on_registry id f).
Proof.
  intros Hf [b w] Hs. unfold exec, on_registry, deref. run_prog.
  destruct (find id (service_registries_ b)) as [r|] eqn:E; [|done]. run_prog.
  by apply rpc_maps_registry.
Qed.

Lemma create_slot_maps reader : keeps rpc_maps (create_slot_ reader).
Proof. unfold create_slot_. repeat keeps_step. maps_same. Qed.

(** A proxy client: the registry comes after the endpoints. *)
Lemma create_client_maps id : keeps rpc_maps (create_proxy_client_nts_ id).
Proof.
  intros [b w] Hb. unfold exec, create_proxy_client_nts_, create_slot_, in_world, on_world, on_bridge, gets, zoom, always.
  run_prog. cbn [snd fst].
  destruct (create_writer id (request_topic (r_topic_ b)) w) as [[wr|e] w1]; cbn [fst snd]; [|done].
  assert (rpc_maps (r_set_client (reply_readers_ b) (assign id wr (request_writers_ b)) b)) as Hb1.
  { eapply rpc_maps_same; [..|exact Hb]; try done. intros id'. apply is_Some_assign. }
  destruct (create_reader id (reply_topic (r_topic_ b)) w1) as [[rd|e] w2]; cbn [fst snd]; [|done].
  destruct (new_unique_task_id w2) as [task w3]. cbn [fst snd].
  destruct Hb1 as [Hr Hs Hc Hw]. cbn [service_registries_ current_servers_ r_set_client] in Hr, Hs, Hw. split; cbn [service_registries_ current_servers_ r_set_client r_set_registries r_set_tasks].
  - by apply map_wf_assign.
  - done.
  - intros id'. unfold client_complete.
    cbn [service_registries_ reply_readers_ request_writers_ r_set_client r_set_registries r_set_tasks]. rewrite !find_assign. destruct (keqv id' id) eqn:E; [by split; eexists|].
    intros Hsome. destruct (Hc id' Hsome) as [H1 H2]. cbn [reply_readers_ request_writers_ r_set_client] in H1, H2. by rewrite find_assign, E in H2.
  - intros id' r'. rewrite find_assign. destruct (keqv id' id); [|apply Hw]. intros [= <-]. apply registry_wf_new.
Qed.

Lemma create_server_maps id : keeps rpc_maps (create_proxy_server_nts_ id).
Proof.
  unfold create_proxy_server_nts_. repeat keeps_step; [maps_same|maps_same|apply create_slot_maps].
Qed.

Lemma on_servers_maps id f : keeps rpc_maps (on_servers id f).
Proof. unfold on_servers. keeps_step. by apply rpc_maps_servers. Qed.

Lemma init_maps : keeps rpc_maps init_nts_.
Proof.
  unfold init_nts_, init_body. repeat keeps_step; try maps_same.
  - apply create_client_maps.
  - apply create_server_maps.
  - apply on_servers_maps.
  - apply on_registry_maps. by intros ? [? ?].
Qed.

Lemma rpc_enable_maps : keeps rpc_maps rpc_enable.
Proof. unfold rpc_enable, enable_endpoints. repeat keeps_step; try maps_same. apply init_maps. Qed.

Lemma rpc_disable_maps : keeps rpc_maps rpc_disable.
Proof. unfold rpc_disable. repeat keeps_step. maps_same. Qed.

Lemma discovered_service_maps id g : keeps rpc_maps (discovered_service id g).
Proof.
  unfold discovered_service. repeat keeps_step; [apply on_servers_maps|].
  apply on_registry_maps. by intros ? [? ?].
Qed.

Lemma removed_service_maps id g : keeps rpc_maps (removed_service id g).
Proof. unfold removed_service. repeat keeps_step; [apply on_servers_maps|apply rpc_disable_maps]. Qed.

Lemma data_available_maps g : keeps rpc_maps (rpc_data_available g).
Proof. unfold rpc_data_available. repeat keeps_step; maps_same. Qed.

Lemma forward_request_maps identity ids data : keeps rpc_maps (forward_request identity ids data).
Proof.
  revert data. induction ids as [|id ids IH]; intros data; [apply keeps_ret|].
  apply keeps_bind; [|auto]. unfold forward_to. repeat keeps_step.
  apply on_registry_maps. intros ?. apply registry_add_wf.
Qed.

(** The loop changes the registries only. *)
Lemma forward_request_keeps P identity ids data :
  (forall b m, P b -> P (r_set_registries m b)) -> keeps P (forward_request identity ids data).
Proof.
  intros HP. revert data. induction ids as [|id ids IH]; intros data; [apply keeps_ret|].
  apply keeps_bind; [|auto]. unfold forward_to, on_registry. repeat keeps_step. by apply HP.
Qed.

Lemma process_data_maps reader data : keeps rpc_maps (process_data reader data).
Proof.
  unfold process_data, process_request, process_reply. repeat keeps_step.
  - apply forward_request_maps.
  - apply on_registry_maps. intros ?. apply registry_erase_wf.
Qed.

Lemma rpc_transmit_maps fuel reader : keeps rpc_maps (rpc_transmit fuel reader).
Proof.
  induction fuel as [|fuel IH]; [apply keeps_ret|]. cbn [rpc_transmit]. repeat keeps_step; try done.
  - maps_same.
  - apply process_data_maps.
Qed.

(** The methods other threads call. *)
Inductive rpc_call : Type :=
| call_enable
| call_disable
| call_discovered (id : ParticipantId) (g : GuidPrefix)
| call_removed (id : ParticipantId) (g : GuidPrefix)
| call_data_available (g : Guid)
| call_transmit (fuel : nat) (reader : nat).

Definition run_rpc_call (c : rpc_call) (s : rpc_state) : rpc_state :=
  match c with
  | call_enable => exec rpc_enable s
  | call_disable => exec rpc_disable s
  | call_discovered id g => exec (discovered_service id g) s
  | call_removed id g => exec (removed_service id g) s
  | call_data_available g => exec (rpc_data_available g) s
  | call_transmit fuel reader => exec (rpc_transmit fuel reader) s
  end.

(** A bridge after any calls; the world changes in any way between them. *)
Inductive rpc_reachable (topic : RPCTopic) : RPCBridge -> Prop :=
| rpc_created : rpc_reachable topic (RPCBridge_new topic)
| rpc_called b w c : rpc_reachable topic b -> rpc_reachable topic (run_rpc_call c (b, w)).1.

Lemma rpc_maps_new topic : rpc_maps (RPCBridge_new topic).
Proof. split; try apply map_wf_nil; [intros id [r Hr]|intros id r Hr]; done. Qed.

Lemma reachable_maps topic b : rpc_reachable topic b -> rpc_maps b.
Proof.
  induction 1 as [|b w c _ IH]; [apply rpc_maps_new|]. destruct c; cbn [run_rpc_call].
  - by apply rpc_enable_maps.
  - by apply rpc_disable_maps.
  - by apply discovered_service_maps.
  - by apply removed_service_maps.
  - by apply data_available_maps.
  - by apply rpc_transmit_maps.
Qed.

(** An enabled bridge has its endpoints, and servers. *)
Definition rpc_live (b : RPCBridge) : Prop :=
  r_enabled_ b = true -> init_ b = true /\ servers_available_ b = true.

Lemma servers_available_iff b :
  map_wf (current_servers_ b) ->
  servers_available_ b = true <-> exists id, servers_of id b <> [].
Proof.
  intros Hwf. unfold servers_available_, servers_of. rewrite existsb_True. split.
  - intros ([id g] & Hin & Hl). exists id. rewrite (elem_of_find _ _ _ Hwf Hin). by destruct g.
  - intros (id & Hne). destruct (find id (current_servers_ b)) as [g|] eqn:E; [|done].
    destruct (find_elem_of _ _ _ E) as (k & _ & Hin). exists (k, g). split; [done|]. by destruct g.
Qed.

Lemma servers_of_subscript f id b id' :
  servers_of id' (r_set_servers (subscript [] f id (current_servers_ b)) b) =
    if decide (id' = id) then f (servers_of id b) else servers_of id' b.
Proof.
  unfold servers_of. cbn [current_servers_ r_set_servers]. rewrite find_subscript.
  destruct (decide (id' = id)) as [->|Hne]; [by rewrite keqv_refl|]. by rewrite ParticipantId_keqv_ne.
Qed.

Definition available (b : RPCBridge) : Prop := map_wf (current_servers_ b) /\ servers_available_ b = true.

Lemma on_servers_available id f :
  (forall g, g <> [] -> f g <> []) -> keeps available (on_servers id f).
Proof.
  intros Hf. apply keeps_on_bridge. intros b [Hwf Hav]. split; [by apply map_wf_subscript|].
  apply servers_available_iff; [by apply map_wf_subscript|].
  apply servers_available_iff in Hav as (id' & Hne); [|done]. exists id'. rewrite servers_of_subscript.
  destruct (decide (id' = id)) as [->|]; auto.
Qed.

Lemma init_available : keeps available init_nts_.
Proof.
  unfold init_nts_, init_body, create_proxy_client_nts_, create_proxy_server_nts_, create_slot_, on_registry.
  repeat keeps_step; try done. by apply on_servers_available.
Qed.

Lemma init_disabled : keeps (fun b => r_enabled_ b = false) init_nts_.
Proof.
  unfold init_nts_, init_body, create_proxy_client_nts_, create_proxy_server_nts_, create_slot_, on_registry, on_servers.
  by repeat keeps_step.
Qed.

Lemma init_done s u s' : init_nts_ s = (Ok u, s') -> init_ s'.1 = true.
Proof.
  unfold init_nts_. intros (ids & s1 & _ & ([] & s2 & _ & Hlast)%bind_inv_ok)%bind_inv_ok.
  by injection Hlast as <- <-.
Qed.

Lemma rpc_enable_live s : map_wf (current_servers_ s.1) -> rpc_live s.1 -> rpc_live (exec rpc_enable s).1.
Proof.
  intros Hwf Hl. unfold rpc_enable, exec. run_prog.
  destruct (r_enabled_ s.1) eqn:Een; [done|]. destruct (servers_available_ s.1) eqn:Eav; [|done]. cbn [negb andb].
  set (P b := available b /\ init_ b = true).
  assert (keeps P enable_endpoints) as Hend by (unfold enable_endpoints; by repeat keeps_step).
  destruct (init_ s.1) eqn:Ei; cbn [negb].
  { intros _. by destruct (Hend s (conj (conj Hwf Eav) Ei)) as [[_ ?] ?]. }
  unfold try_catch. pose proof (init_available s (conj Hwf Eav)) as Hia.
  pose proof (init_disabled s Een) as Hid. pose proof (init_done s) as Hdone. unfold exec in Hia, Hid.
  destruct (init_nts_ s) as [[[]|e] s1]; cbn [fst snd] in *.
  - intros _. by destruct (Hend s1 (conj Hia (Hdone _ _ eq_refl))) as [[_ ?] ?].
  - unfold rpc_live. destruct (decide (e = InitializationException)); cbn; by rewrite Hid.
Qed.

Lemma rpc_disable_live s : rpc_live s.1 -> rpc_live (exec rpc_disable s).1.
Proof.
  revert s. change (keeps rpc_live rpc_disable). unfold rpc_disable. by repeat keeps_step.
Qed.

Lemma rpc_disable_disables s : r_enabled_ (exec rpc_disable s).1 = false.
Proof.
  unfold rpc_disable. unfold exec at 1. run_prog. destruct (r_enabled_ s.1) eqn:E; [|done].
  assert (keeps (fun b => r_enabled_ b = false) (for_endpoints reader_disable request_readers_ ;;
    for_endpoints reader_disable reply_readers_ ;; for_endpoints writer_disable reply_writers_ ;;
    for_endpoints writer_disable request_writers_)) as Hk by (by repeat keeps_step).
  by apply (Hk (r_set_enabled false s.1, s.2)).
Qed.

Lemma discovered_service_live id g s :
  rpc_maps s.1 -> rpc_live s.1 -> rpc_live (exec (discovered_service id g) s).1.
Proof.
  intros Hm Hl. destruct s as [b w].
  set (b1 := r_set_servers (subscript [] (set_insert g) id (current_servers_ b)) b).
  assert (available b1) as Hav.
  { assert (map_wf (current_servers_ b1)) by (apply map_wf_subscript, Hm). split; [done|].
    apply servers_available_iff; [done|]. exists id. unfold b1. rewrite servers_of_subscript, decide_True by done.
    unfold set_insert. by destruct (servers_of id b) as [|[k u] l]; simpl; [|destruct (less g k), (less k g)]. }
  set (P b' := available b' /\ (r_enabled_ b' = true -> init_ b' = true)).
  assert (keeps P (on_registry id registry_enable)) as Hk by (unfold on_registry; by repeat keeps_step).
  assert (P b1) as HP by (split; [done|]; intros He; by apply Hl).
  unfold discovered_service, exec, on_servers, on_bridge. run_prog. fold b1.
  assert (forall s' : rpc_state, P s'.1 -> rpc_live s'.1) as Hend by (intros s' [[_ ?] Hi] He; auto).
  apply Hend. destruct (init_ b1); [by apply (Hk (b1, w))|done].
Qed.

Lemma removed_service_live id g s :
  rpc_maps s.1 -> rpc_live s.1 -> rpc_live (exec (removed_service id g) s).1.
Proof.
  intros Hm Hl. destruct s as [b w].
  set (b1 := r_set_servers (subscript [] (set_erase g) id (current_servers_ b)) b).
  assert (map_wf (current_servers_ b1)) as Hwf by (apply map_wf_subscript, Hm).
  unfold removed_service, exec, on_servers, on_bridge. run_prog. fold b1.
  destruct (servers_available_ b1) eqn:Ea.
  - rewrite andb_false_r. intros He. split; [by apply Hl|done].
  - assert (servers_of id b1 = []) as ->.
    { destruct (decide (servers_of id b1 = [])) as [|Hne]; [done|].
      by rewrite (proj2 (servers_available_iff b1 Hwf)) in Ea by eauto. }
    cbn [length negb andb Nat.ltb Nat.leb]. intros He.
    pose proof (rpc_disable_disables (b1, w)) as Hd. unfold exec in Hd. congruence.
Qed.

Lemma reachable_live topic b : rpc_reachable topic b -> rpc_live b.
Proof.
  induction 1 as [|b w c Hr IH]; [done|]. pose proof (reachable_maps _ _ Hr) as Hm.
  destruct c as [| |id g|id g|g|fuel reader]; cbn [run_rpc_call].
  - by apply rpc_enable_live; [apply Hm|].
  - by apply rpc_disable_live.
  - by apply discovered_service_live.
  - by apply removed_service_live.
  - assert (keeps rpc_live (rpc_data_available g)) as Hk
      by (unfold rpc_data_available; by repeat keeps_step). by apply (Hk (b, w)).
  - assert (keeps rpc_live (rpc_transmit fuel reader)) as Hk; [|by apply (Hk (b, w))].
    induction fuel as [|fuel IHf]; [apply keeps_ret|]. cbn [rpc_transmit].
    repeat keeps_step; try done. unfold process_data, process_request, process_reply, on_registry.
    repeat keeps_step; try done. apply forward_request_keeps. done.
Qed.

(** ** One run of [transmit_] *)

Lemma same_reader_refl r w : same_reader r w w.
Proof. done. Qed.

Lemma same_reader_trans r w1 w2 w3 : same_reader r w1 w2 -> same_reader r w2 w3 -> same_reader r w1 w3.
Proof. intros [] []. split; congruence. Qed.

(** A turn of the loop that takes a data, and one that does not get it. *)
Lemma transmit_taken fuel r b w ret d w1 d2 b2 w2 :
  r_enabled_ b = true -> (0 < get_unread_count r w)%Z -> reader_take r new_data w = ((ret, d), w1) ->
  ret_not ret = false -> process_data r d (b, w1) = (Ok d2, (b2, w2)) ->
  rpc_transmit (S fuel) r (b, w) = rpc_transmit fuel r (b2, (pool_release (payload d2) w2).2).
Proof.
  intros Hen Hun Htake Hret Hproc. cbn [rpc_transmit]. rewrite (bind_ok get _ _ (b, w) (b, w)) by done. cbn [fst snd].
  rewrite Hen, (proj2 (Z.ltb_lt _ _) Hun). cbn [negb orb]. unfold in_world, zoom, always.
  unfold mbind at 1, prog_bind at 1. cbn [fst snd]. rewrite Htake. cbv iota beta. rewrite Hret, (bind_ok _ _ _ _ _ Hproc).
  by rewrite (bind_ok (on_world _) _ _ tt (b2, (pool_release (payload d2) w2).2)).
Qed.

Lemma transmit_refused fuel r b w ret d w1 :
  r_enabled_ b = true -> (0 < get_unread_count r w)%Z -> reader_take r new_data w = ((ret, d), w1) ->
  ret_not ret = true -> rpc_transmit (S fuel) r (b, w) = rpc_transmit fuel r (b, w1).
Proof.
  intros Hen Hun Htake Hret. cbn [rpc_transmit]. rewrite (bind_ok get _ _ (b, w) (b, w)) by done. cbn [fst snd].
  rewrite Hen, (proj2 (Z.ltb_lt _ _) Hun). cbn [negb orb]. unfold in_world, zoom, always.
  unfold mbind at 1, prog_bind at 1. cbn [fst snd]. rewrite Htake. cbv iota beta. by rewrite Hret.
Qed.

Section Progress.
Context {FL : FastDDSLaws} {RP : RpcProgress W}.

(** The writes of a data, one after the other. *)
Lemma writes_calm writers w evs w' ws r n p :
  writes writers w evs w' -> calm ws r (length evs + n) (Some p) w ->
  (forall id ptr, find id writers = Some ptr -> ptr ∈ ws) -> Forall (fun ev => payload (ev_sent ev) = p) evs ->
  calm ws r n (Some p) w' /\ same_reader r w w'.
Proof.
  intros Hw. revert n. induction Hw as [w|w ptr ev w1 evs w2 Hf Hw _ IH]; intros n Hc Hws Hp; [done|].
  apply Forall_cons in Hp as [<- Hp].
  destruct (write_calm ws r (length evs + n) ptr (ev_sent ev) w Hc) as [Hc1 Hs1]; [by eapply Hws|].
  rewrite Hw in Hc1, Hs1. destruct (IH n Hc1 Hws Hp) as [Hc2 Hs2]. split; [done|by eapply same_reader_trans].
Qed.

(** Every request of the registries can be answered. *)
Definition answerable (writers : std_map ParticipantId nat) (m : std_map ParticipantId ServiceRegistry) : Prop :=
  forall id r sn, find id m = Some r -> ParticipantId_is_valid (registry_get sn r).1 = true ->
    is_Some (find (registry_get sn r).1 writers).

Definition all_registries_wf (m : std_map ParticipantId ServiceRegistry) : Prop :=
  forall id r, find id m = Some r -> registry_wf r.

Lemma record_answerable identity writers m ev :
  is_Some (find (participant_receiver (properties (ev_sent ev))) writers) ->
  all_registries_wf m -> answerable writers m ->
  all_registries_wf (record_event identity m ev) /\ answerable writers (record_event identity m ev).
Proof.
  intros Hrec Hwf Ha. unfold record_event. destruct (ret_not _); [done|]. split.
  - intros id r. rewrite find_update. destruct (keqv id _); [|apply Hwf].
    destruct (find (ev_participant ev) m) as [r0|] eqn:E; [|done]. intros [= <-]. by eapply registry_add_wf, Hwf.
  - intros id r sn. rewrite find_update. destruct (keqv id _); [|apply Ha].
    destruct (find (ev_participant ev) m) as [r0|] eqn:E; [|done]. intros [= <-].
    destruct (registry_add_cases (sent_sequence_number (ev_after ev))
      (participant_receiver (properties (ev_sent ev)), identity) sn r0) as [->|[->| ->]]; [by eapply Hwf|done| |].
    + by eapply Ha.
    + cbn [fst]. by rewrite ParticipantId_invalid_not_valid.
Qed.

Lemma record_all_answerable identity writers evs m :
  Forall (fun ev => is_Some (find (participant_receiver (properties (ev_sent ev))) writers)) evs ->
  all_registries_wf m -> answerable writers m -> answerable writers (fold_left (record_event identity) evs m).
Proof.
  revert m. induction evs as [|ev evs IH]; intros m Hall Hwf Ha; [done|].
  apply Forall_cons in Hall as [Hev Hall]. destruct (record_answerable identity writers m ev); [done..|]. by apply IH.
Qed.

Lemma update_answerable writers m id sn :
  all_registries_wf m -> answerable writers m -> answerable writers (update (registry_erase sn) id m).
Proof.
  intros Hwf Ha id' r' sn'. rewrite find_update. destruct (keqv id' id) eqn:E; [|apply Ha].
  destruct (find id m) as [r0|] eqn:Ef; [|done]. intros [= <-].
  rewrite registry_erase_lookup by (by eapply Hwf). destruct (sn' =? sn)%Z; [|by eapply Ha].
  cbn [fst]. by rewrite ParticipantId_invalid_not_valid.
Qed.

(** The reader is that of a proxy server or of a proxy client of the bridge. *)
Definition serves (b : RPCBridge) (w : W) (r : nat) : Prop :=
  (is_request_topic (reader_topic r w) = true /\ is_Some (find (reader_participant_id r w) (reply_writers_ b))) \/
  (is_request_topic (reader_topic r w) = false /\ is_reply_topic (reader_topic r w) = true /\
   is_Some (find (reader_participant_id r w) (service_registries_ b))).

(** What a turn of the loop keeps. *)
Definition transmitting (r : nat) (b : RPCBridge) (w : W) : Prop :=
  rpc_maps b /\ answerable (reply_writers_ b) (service_registries_ b) /\ serves b w r.

(** The writers of the bridge are among [ws]. *)
Definition has_writers (ws : list nat) (b : RPCBridge) : Prop :=
  forall id ptr, find id (request_writers_ b) = Some ptr \/ find id (reply_writers_ b) = Some ptr -> ptr ∈ ws.

Definition writers_of (b : RPCBridge) : list nat := values (request_writers_ b) ++ values (reply_writers_ b).

Lemma writers_of_bridge b : has_writers (writers_of b) b.
Proof.
  intros id ptr [H|H]; destruct (find_elem_of _ _ _ H) as (k & _ & Hin); unfold writers_of, values;
    apply elem_of_app; [left|right]; apply list_elem_of_fmap; by exists (k, ptr).
Qed.

Lemma serves_same r b w w' :
  reader_participant_id r w' = reader_participant_id r w -> reader_topic r w' = reader_topic r w ->
  serves b w r -> serves b w' r.
Proof. intros Hp Ht. unfold serves. by rewrite Ht, Hp. Qed.

Lemma serves_registries r b w m : keys m = keys (service_registries_ b) -> map_wf (service_registries_ b) ->
  map_wf m -> serves b w r -> serves (r_set_registries m b) w r.
Proof.
  intros Hk Hwf Hwf' [?|(? & ? & [x Hx])]; [by left|right]. split_and!; try done.
  destruct (find_elem_of _ _ _ Hx) as (k & Hkq & Hin).
  assert (k ∈ keys m) as Hin' by (rewrite Hk; apply elem_of_keys; by exists x).
  apply (elem_of_keys_find _ _ Hwf') in Hin'. cbn [service_registries_ r_set_registries].
  by rewrite (find_keqv _ _ _ Hkq).
Qed.

Lemma record_all_keys identity evs m : keys (fold_left (record_event identity) evs m) = keys m.
Proof.
  revert m. induction evs as [|ev evs IH]; intros m; [done|]. cbn [fold_left]. rewrite IH.
  unfold record_event. destruct (ret_not _); [done|]. apply keys_update.
Qed.

(** What a data taken by [r] leaves of the bridge [b]: the registries [m], and the budget [n]. *)
Definition progresses (ws : list nat) (r n : nat) (p : Payload) (b : RPCBridge) (w : W)
    (m : std_map ParticipantId ServiceRegistry) (w' : W) : Prop :=
  keys m = keys (service_registries_ b) /\ same_reader r w w' /\ transmitting r (r_set_registries m b) w' /\
  calm ws r n (Some p) w'.

Lemma progresses_same ws r n p k b w : transmitting r b w -> calm ws r (k + n) (Some p) w ->
  progresses ws r n p b w (service_registries_ b) w.
Proof.
  intros Ht Hc. unfold progresses. rewrite r_set_registries_same. split_and!; try done.
  eapply calm_le; [|exact Hc]. lia.
Qed.

Lemma process_request_progress ws n r data b w :
  transmitting r b w -> has_writers ws b -> is_request_topic (reader_topic r w) = true ->
  is_Some (find (reader_participant_id r w) (reply_writers_ b)) ->
  calm ws r (length (service_registries_ b) + n) (Some (payload data)) w ->
  participant_receiver (properties data) = reader_participant_id r w ->
  exists data' m w', process_request data (b, w) = (Ok data', (r_set_registries m b, w')) /\
    payload data' = payload data /\ progresses ws r n (payload data) b w m w'.
Proof.
  intros Ht Hws Hreq Hwr Hc Hrec. pose proof Ht as (Hm & Ha & Hs). unfold process_request. case_bool_decide as Hid.
  { exists data, (service_registries_ b), w. rewrite r_set_registries_same. split_and!; [done..|].
    by eapply progresses_same. }
  destruct (forward_request_spec (reply_identity data) (keys (service_registries_ b)) data b w)
    as (evs & data' & w' & Hrun & Hw & Hparts & Hall & Hpay).
  { intros id Hin. split; [by apply elem_of_keys_find; [apply Hm|]|apply Hm]. }
  rewrite (bind_ok (gets _) _ _ (keys (service_registries_ b)) (b, w)) by done. rewrite Hrun.
  assert (length evs <= length (service_registries_ b)) as Hlen.
  { rewrite <- (length_fmap ev_participant), Hparts. etransitivity; [apply List.filter_length_le|].
    unfold keys. by rewrite length_fmap. }
  destruct (writes_calm _ _ _ _ ws r n (payload data) Hw) as [Hc' Hsr].
  { eapply calm_le; [|exact Hc]. lia. }
  { intros id ptr Hf. by eapply Hws; left. }
  { eapply Forall_impl; [exact Hall|]. by intros ev (rr & _ & _ & _ & _ & _ & E & _). }
  eexists data', _, w'. split_and!; [done..|]. split_and!; [apply record_all_keys|done| |done].
  assert (rpc_maps (r_set_registries (fold_left (record_event (reply_identity data)) evs (service_registries_ b)) b)) as Hm'.
  { pose proof (process_data_maps r data (b, w) Hm) as Hm'. unfold exec, process_data in Hm'.
    rewrite (bind_ok get _ _ (b, w) (b, w)) in Hm' by done. cbn [fst snd] in Hm'. cbv zeta in Hm'.
    rewrite Hreq in Hm'. unfold process_request in Hm'. rewrite bool_decide_false in Hm' by done.
    rewrite (bind_ok (gets _) _ _ (keys (service_registries_ b)) (b, w)) in Hm' by done. by rewrite Hrun in Hm'. }
  split_and!; [done| |].
  - apply record_all_answerable; [|exact (rm_bounded _ Hm)|done]. eapply Forall_impl; [exact Hall|].
    intros ev (rr & _ & _ & _ & _ & E & _). by rewrite E, Hrec.
  - eapply serves_same; [apply Hsr|apply Hsr|]. by left.
Qed.

Lemma process_reply_progress ws n r data b w reg :
  transmitting r b w -> has_writers ws b -> is_request_topic (reader_topic r w) = false ->
  is_reply_topic (reader_topic r w) = true ->
  find (reader_participant_id r w) (service_registries_ b) = Some reg ->
  calm ws r (S n) (Some (payload data)) w ->
  exists data' m w', process_reply r data (b, w) = (Ok data', (r_set_registries m b, w')) /\
    payload data' = payload data /\ progresses ws r n (payload data) b w m w'.
Proof.
  intros Ht Hws Hreq Hrep Hreg Hc. pose proof Ht as (Hm & Ha & Hs).
  pose proof (process_reply_spec r data b w reg) as Hspec.
  specialize (Hspec _ _ Hreg (surjective_pairing _) (Ha _ _ _ Hreg)).
  destruct (_ && _).
  2:{ exists data, (service_registries_ b), w. rewrite r_set_registries_same. split_and!; [done..|].
      by apply (progresses_same _ _ _ _ 1). }
  destruct Hspec as (ptr & ret & d' & w' & Hptr & Hw & Hrun). rewrite Hrun.
  set (d1 := set_related _ data) in *.
  assert (payload d1 = payload data) as Hpd by apply (set_related_spec _ data).
  rewrite <- Hpd in Hc |- *. destruct (write_calm ws r n ptr d1 w Hc) as [Hc' Hsr]; [by eapply Hws; right|].
  pose proof (write_payload ptr d1 w) as Hpw. rewrite Hw in Hc', Hsr, Hpw. cbn [fst snd] in Hc', Hsr, Hpw.
  destruct (ret_not ret).
  - exists d', (service_registries_ b), w'. rewrite r_set_registries_same. split_and!; [done..|].
    split_and!; [done..| |done]. rewrite r_set_registries_same. split_and!; [done..|].
    eapply serves_same; [apply Hsr|apply Hsr|done].
  - eexists d', _, w'. split_and!; [done..|].
    assert (map_wf (update (registry_erase (sequence_number (sample_identity (params_of data))))
      (reader_participant_id r w) (service_registries_ b))) as Hwf by apply map_wf_update, Hm.
    split_and!; [apply keys_update|done| |done]. split_and!.
    + pose proof (process_data_maps r data (b, w) Hm) as Hm'. unfold exec, process_data in Hm'.
      rewrite (bind_ok get _ _ (b, w) (b, w)) in Hm' by done. cbn [fst snd] in Hm'. cbv zeta in Hm'.
      rewrite Hreq, Hrep, Hrun in Hm'. exact Hm'.
    + apply update_answerable; [exact (rm_bounded _ Hm)|done].
    + eapply serves_same; [apply Hsr|apply Hsr|]. apply serves_registries; [apply keys_update|apply Hm|done..].
Qed.

Lemma process_data_progress ws n r data b w :
  transmitting r b w -> has_writers ws b -> calm ws r (length (service_registries_ b) + n) (Some (payload data)) w ->
  participant_receiver (properties data) = reader_participant_id r w ->
  exists data' m w', process_data r data (b, w) = (Ok data', (r_set_registries m b, w')) /\
    payload data' = payload data /\ progresses ws r n (payload data) b w m w'.
Proof.
  intros Ht Hws Hc Hrec. pose proof Ht as (_ & _ & Hs). unfold process_data.
  rewrite (bind_ok get _ _ (b, w) (b, w)) by done. cbn [fst snd]. cbv zeta.
  destruct Hs as [[Hreq Hwr]|(Hreq & Hrep & [reg Hreg])]; rewrite Hreq; [|rewrite Hrep].
  - by apply process_request_progress.
  - eapply process_reply_progress; try done. eapply calm_le; [|exact Hc].
    destruct (service_registries_ b); [done|]. simpl. lia.
Qed.

Lemma transmit_ends fuel r b w :
  r_enabled_ b = false \/ (get_unread_count r w <= 0)%Z ->
  exists b', rpc_transmit (S fuel) r (b, w) = (Ok true, (b', w)) /\
    fst <$> find (reader_guid r w) (tasks_map_ b') = Some false /\ r_enabled_ b' = r_enabled_ b /\
    service_registries_ b' = service_registries_ b.
Proof.
  intros Hend. cbn [rpc_transmit]. run_prog.
  assert (negb (r_enabled_ b) || negb (0 <? get_unread_count r w)%Z = true) as ->.
  { destruct Hend as [->|Hle]; [done|]. apply orb_true_iff. right. by rewrite (proj2 (Z.ltb_ge _ _)). }
  eexists. split; [done|]. cbn [tasks_map_ r_set_tasks r_enabled_ service_registries_].
  by rewrite find_subscript, keqv_refl.
Qed.

Lemma transmit_turn ws n fuel r b w :
  transmitting r b w -> has_writers ws b -> r_enabled_ b = true -> (0 < get_unread_count r w)%Z ->
  calm ws r (S (length (service_registries_ b)) + n) None w ->
  exists m w', rpc_transmit (S fuel) r (b, w) = rpc_transmit fuel r (r_set_registries m b, w') /\
    transmitting r (r_set_registries m b) w' /\ keys m = keys (service_registries_ b) /\
    reader_guid r w' = reader_guid r w /\
    (0 <= get_unread_count r w' < get_unread_count r w)%Z /\ calm ws r n None w'.
Proof.
  intros Ht Hws Hen Hun Hc.
  destruct (take_calm ws r (length (service_registries_ b) + n) w Hc Hun)
    as (ret & data & w1 & Htake & Hg & Hp & Htp & Hu & Hc1 & Hrec).
  assert (transmitting r b w1) as Ht1 by (destruct Ht as (? & ? & ?); split_and!; [done..|by eapply serves_same]).
  destruct (ret_not ret) eqn:Hret.
  - exists (service_registries_ b), w1. rewrite r_set_registries_same.
    split_and!; try done; [by eapply transmit_refused|lia..|]. eapply calm_le; [|exact Hc1]. lia.
  - destruct (process_data_progress ws n r data b w1 Ht1 Hws Hc1) as (data' & m & w2 & Hrun & Hpay & Hk & Hsr & Ht2 & Hc2);
      [by rewrite Hp, Hrec|].
    destruct (release_calm ws r n (payload data) w2 Hc2) as [Hc3 Hsr2].
    eexists m, _. split; [by eapply transmit_taken|]. rewrite Hpay.
    pose proof (same_reader_trans _ _ _ _ Hsr Hsr2) as [Eg _ _ Eu].
    split_and!; [|done|by rewrite Eg|lia..|done].
    destruct Ht2 as (? & ? & ?). split_and!; [done..|]. eapply serves_same; [apply Hsr2|apply Hsr2|done].
Qed.

End Progress.

(** ** Properties *)

(** A request is sent to the participants that have to get it and to no other.
    The writes done with a well-formed request are exactly one for each participant
    with an enabled registry other than the one that received it, or including it if
    it repeats, in the order of the ids; each carries the payload and the identity of
    the request, and the reply reader of that participant as the address to reply to. *)
Theorem rpc_request_routed data b w :
  (forall id, client_complete b id) -> map_wf (service_registries_ b) ->
  reply_identity data <> sample_identity_unknown ->
  exists evs data' w',
    process_request data (b, w) = (Ok data',
      (r_set_registries (fold_left (record_event (reply_identity data)) evs (service_registries_ b)) b, w')) /\
    writes (request_writers_ b) w evs w' /\ Forall (addressed b w data) evs /\
    ev_participant <$> evs =
      List.filter (goes_to b w (participant_receiver (properties data))) (keys (service_registries_ b)).
Proof.
  intros Hc Hwf Hid. unfold process_request. rewrite bool_decide_false by done.
  destruct (forward_request_spec (reply_identity data) (keys (service_registries_ b)) data b w)
    as (evs & data' & w' & Hrun & Hw & Hparts & Hall & _).
  { intros id Hin. split; [by apply elem_of_keys_find|done]. }
  exists evs, data', w'. by split_and!.
Qed.

(** What is done with a reply.  A reply for another client, or to a request the
    registry of the participant does not have, is dropped: nothing is written and
    nothing changes.  Otherwise it is written once, with the proxy server of the
    participant that received the request, related to the request as its client sent
    it; if the write succeeds the entry of the request is erased, else it is kept. *)
Theorem rpc_reply_routed reader data b w registry :
  find (reader_participant_id reader w) (service_registries_ b) = Some registry ->
  let sid := sample_identity (params_of data) in
  let entry := registry_get (sequence_number sid) registry in
  (ParticipantId_is_valid entry.1 = true -> is_Some (find entry.1 (reply_writers_ b))) ->
  if bool_decide (writer_guid sid = reader_guid reader w) && ParticipantId_is_valid entry.1 then
    exists ptr ret d' w', find entry.1 (reply_writers_ b) = Some ptr /\
      writer_write ptr (set_related (fun _ => entry.2) data) w = ((ret, d'), w') /\
      process_reply reader data (b, w) =
        (Ok d', (if ret_not ret then b
                 else r_set_registries (update (registry_erase (sequence_number sid))
                        (reader_participant_id reader w) (service_registries_ b)) b, w'))
  else process_reply reader data (b, w) = (Ok data, (b, w)).
Proof.
  intros Hr sid entry. pose proof (process_reply_spec reader data b w registry entry.1 entry.2 Hr) as H.
  apply H. apply surjective_pairing.
Qed.

(** Request and reply.  For every participant a request was written to with
    success, under a sequence number its registry did not have and with room left in
    it: the first reply that refers to that number and is addressed to the proxy
    client there is written with the proxy server of the participant that received
    the request, related to the identity the client gave to the request; once that
    write succeeds, a second reply to the same request is dropped. *)
Theorem rpc_roundtrip data b w :
  (forall id, client_complete b id) -> map_wf (service_registries_ b) ->
  reply_identity data <> sample_identity_unknown ->
  exists evs data' b' w',
    process_request data (b, w) = (Ok data', (b', w')) /\ writes (request_writers_ b) w evs w' /\
    forall ev r reader reply w1 ptr,
      ev ∈ evs -> ev_ret ev = RETCODE_OK -> find (ev_participant ev) (service_registries_ b) = Some r ->
      registry_wf r -> find (sent_sequence_number (ev_after ev)) (registry_ r) = None ->
      S (length (registry_ r)) < DEFAULT_MAX_ENTRIES_ ->
      reader_participant_id reader w1 = ev_participant ev ->
      sample_identity (params_of reply) =
        mkSampleIdentity (reader_guid reader w1) (sent_sequence_number (ev_after ev)) ->
      ParticipantId_is_valid (participant_receiver (properties data)) = true ->
      find (participant_receiver (properties data)) (reply_writers_ b) = Some ptr ->
      exists ret d2 b2 w2,
        writer_write ptr (set_related (fun _ => reply_identity data) reply) w1 = ((ret, d2), w2) /\
        process_reply reader reply (b', w1) = (Ok d2, (b2, w2)) /\
        (ret = RETCODE_OK -> process_reply reader reply (b2, w2) = (Ok reply, (b2, w2))).
Proof.
  intros Hc Hwf Hid. unfold process_request. rewrite bool_decide_false by done.
  destruct (forward_request_spec (reply_identity data) (keys (service_registries_ b)) data b w)
    as (evs & data' & w' & Hrun & Hw & Hparts & Hall & _).
  { intros id Hin. split; [by apply elem_of_keys_find|done]. }
  eexists evs, data', _, w'. split_and!; [run_prog; exact Hrun|done|].
  intros ev r reader reply w1 ptr Hev Hok Hr Hrwf Hfresh Hroom Hpid Hsid Hval Hptr.
  rewrite Forall_forall in Hall. destruct (Hall _ Hev) as (rr & _ & _ & _ & _ & Hrec & _).
  set (m' := fold_left _ evs _). set (sn := sent_sequence_number (ev_after ev)) in *.
  assert (find (ev_participant ev) m' = Some (registry_add sn
    (participant_receiver (properties data), reply_identity data) r)) as Hm'.
  { rewrite <- Hrec. apply record_all_find; [|done|by rewrite Hok, ret_not_ok|done].
    rewrite Hparts. apply NoDup_ListNoDup, List.NoDup_filter, NoDup_ListNoDup, keys_NoDup, Hwf. }
  apply (reply_once reader reply _ w1 (registry_add sn (participant_receiver (properties data), reply_identity data) r)
    (participant_receiver (properties data))).
  - by rewrite Hpid.
  - by apply registry_add_wf.
  - by rewrite Hsid.
  - rewrite Hsid. by apply registry_add_fresh.
  - done.
  - done.
Qed.

(** C30: safety of the bridge.  Whatever methods are called, in any order and whatever
    happens in the world between them: an enabled bridge has created its endpoints and
    knows at least one server, every registry has a reply reader and a request writer,
    and no registry outgrows its bound. *)
Theorem rpc_bridge_invariant topic b :
  rpc_reachable topic b ->
  (r_enabled_ b = true -> init_ b = true /\ exists id, servers_of id b <> []) /\
  (forall id r, find id (service_registries_ b) = Some r ->
     is_Some (find id (reply_readers_ b)) /\ is_Some (find id (request_writers_ b)) /\
     length (registry_ r) < 5000).
Proof.
  intros Hr. pose proof (reachable_maps _ _ Hr) as Hm. pose proof (reachable_live _ _ Hr) as Hl. split.
  - intros He. destruct (Hl He) as [? Hav]. split; [done|]. apply servers_available_iff; [apply Hm|done].
  - intros id r Hf. destruct (rm_clients _ Hm id) as [? ?]; [by eexists|]. split_and!; try done.
    apply (rm_bounded _ Hm _ _ Hf).
Qed.

(** A run of [transmit_] ends.  If nothing arrives meanwhile, one turn more than
    the data waiting is enough: no turn fails, the flag of the task of the reader is
    down at the end, so that the next data emits it again, and if the bridge was
    enabled no data is left. *)
Theorem rpc_transmit_returns {FL : @FastDDSLaws FD} {RP : RpcProgress W} ws n r b w :
  transmitting r b w -> has_writers ws b -> (get_unread_count r w <= Z.of_nat n)%Z ->
  calm ws r (n * S (length (service_registries_ b))) None w ->
  exists b' w', rpc_transmit (S n) r (b, w) = (Ok true, (b', w')) /\
    fst <$> find (reader_guid r w) (tasks_map_ b') = Some false /\
    r_enabled_ b' = r_enabled_ b /\ (r_enabled_ b = true -> get_unread_count r w' <= 0)%Z /\
    calm ws r 0 None w'.
Proof.
  revert b w. induction n as [|n IH]; intros b w Ht Hws Hn Hc.
  - destruct (transmit_ends 0 r b w) as (b' & Hrun & Hflag & He & _); [right; lia|].
    exists b', w. by split_and!.
  - destruct (decide (r_enabled_ b = true /\ 0 < get_unread_count r w)%Z) as [[He Hu]|Hend].
    + destruct (transmit_turn ws _ (S n) r b w Ht Hws He Hu Hc) as (m & w' & -> & Ht' & Hk & Hg & Hu' & Hc').
      assert (length m = length (service_registries_ b)) as Hl
        by (rewrite <- (length_fmap fst m), <- (length_fmap fst (service_registries_ b)); by unfold keys in Hk; rewrite Hk).
      destruct (IH _ _ Ht' Hws) as (b' & w2 & Hrun & Hflag & He' & Hun & Hc2); [lia|by cbn; rewrite Hl|].
      rewrite Hg in Hflag. by exists b', w2.
    + assert (r_enabled_ b = true -> get_unread_count r w <= 0)%Z as Hle.
      { intros E. apply Z.nlt_ge. intros ?. by apply Hend. }
      destruct (transmit_ends (S n) r b w) as (b' & Hrun & Hflag & He & _); [destruct (r_enabled_ b); auto|].
      exists b', w. split_and!; try done. eapply calm_le; [|exact Hc]. lia.
Qed.

(** A participant whose servers are gone.  When the last server of a participant
    is removed while another one has servers, the bridge goes on and the registry of
    the participant stays enabled: requests are still sent there, where nobody answers
    them. *)
Theorem rpc_requests_without_server id id2 g r b w receiver :
  map_wf (current_servers_ b) -> servers_of id b = [(g, tt)] -> less g g = false ->
  id2 <> id -> servers_of id2 b <> [] ->
  find id (service_registries_ b) = Some r -> ServiceRegistry.enabled_ r = true -> receiver <> id ->
  let s' := exec (removed_service id g) (b, w) in
  servers_of id s'.1 = [] /\ r_enabled_ s'.1 = r_enabled_ b /\ goes_to s'.1 s'.2 receiver id = true.
Proof.
  intros Hwf Hone Hirr Hne Hother Hr Hen Hrec s'.
  set (b1 := r_set_servers (subscript [] (set_erase g) id (current_servers_ b)) b).
  assert (servers_available_ b1 = true) as Hav.
  { apply servers_available_iff; [by apply map_wf_subscript|]. exists id2. unfold b1.
    by rewrite servers_of_subscript, decide_False. }
  assert (s' = (b1, w)) as ->.
  { unfold s', removed_service, exec, on_servers, on_bridge. run_prog. fold b1.
    by rewrite Hav, andb_false_r. }
  cbn [fst snd]. split_and!; [|done|].
  - unfold b1. rewrite servers_of_subscript, decide_True, Hone by done. unfold set_erase. simpl.
    by rewrite Hirr.
  - unfold goes_to, b1. cbn [service_registries_ r_set_servers]. rewrite Hr, Hen.
    by rewrite bool_decide_false.
Qed.

End RPCBridge.

(** ** Witnesses

    A small world with two RTPS participants [a] and [b], where every write succeeds
    and is numbered. *)
Module RpcDemo.

#[local] Existing Instances Demo.cpp_utils Demo.fast_dds.

Record rreader : Type := mkReader {
  d_participant : ParticipantId;
  d_topic : DdsTopic;
  d_queue : list DataReceived
}.

Record rworld : Type := mkRWorld {
  d_readers : list (nat * rreader);
  d_written : list (nat * DataReceived);
  d_next : nat
}.

Definition pid_a : ParticipantId := mkParticipantId "a".
Definition pid_b : ParticipantId := mkParticipantId "b".

Definition unknown_params : Fuzzy WriteParams :=
  (false, mkWriteParams sample_identity_unknown sample_identity_unknown).

Definition data_from (receiver : ParticipantId) (identity : SampleIdentity) (n : Z) : DataReceived :=
  mkDataReceived Payload_empty
    (mkDataProperties SpecificEndpointQoS_default [] ALIVE 0%Z (writer_guid identity) receiver
       (true, mkWriteParams identity sample_identity_unknown) n) 0%Z.

Definition lookup_reader (r : nat) (w : rworld) : rreader :=
  default (mkReader ParticipantId_invalid (DdsTopic_of 5000 "" "") []) (find r (d_readers w)).

Definition add_reader (id : ParticipantId) (t : DdsTopic) : prog rworld nat := fun w =>
  (Ok (d_next w), mkRWorld (assign (d_next w) (mkReader id t []) (d_readers w)) (d_written w) (S (d_next w))).
Definition add_writer : prog rworld nat := fun w =>
  (Ok (d_next w), mkRWorld (d_readers w) (d_written w) (S (d_next w))).

Definition rtake (r : nat) (d : DataReceived) (w : rworld) : (ReturnCode * DataReceived) * rworld :=
  let rd := lookup_reader r w in
  match d_queue rd with
  | [] => ((RETCODE_NO_DATA, d), w)
  | d' :: q => ((RETCODE_OK, set_properties (mkDataProperties (writer_qos (properties d'))
        (instanceHandle (properties d')) (kind (properties d')) (source_timestamp (properties d'))
        (source_guid (properties d')) (d_participant rd) (write_params (properties d'))
        (origin_sequence_number (properties d'))) d'),
      mkRWorld (assign r (mkReader (d_participant rd) (d_topic rd) q) (d_readers w)) (d_written w) (d_next w))
  end.

Definition rwrite (ptr : nat) (d : DataReceived) (w : rworld) : (ReturnCode * DataReceived) * rworld :=
  let d' := set_sent_sequence_number (Z.of_nat (S (length (d_written w)))) d in
  ((RETCODE_OK, d'), mkRWorld (d_readers w) (d_written w ++ [(ptr, d')]) (d_next w)).

Definition comm : CommWorld rworld := {|
  reader_enable _ w := w; reader_disable _ w := w;
  reader_set_callback _ _ w := w; reader_unset_callback _ w := w;
  reader_take := rtake;
  writer_enable _ w := w; writer_disable _ w := w;
  writer_write := rwrite;
  pool_release p w := (p, w);
  thread_pool_slot _ w := w; thread_pool_emit _ w := w;
  new_data := data_from ParticipantId_invalid sample_identity_unknown 0%Z
|}.

Definition participants : Participants rworld := {|
  comm_world := comm;
  get_participants_ids _ := [(pid_a, tt); (pid_b, tt)];
  get_rtps_participants_ids _ := [(pid_a, tt); (pid_b, tt)];
  is_repeater _ _ := false;
  create_writer _ _ := add_writer;
  create_reader := add_reader;
  delete_writer _ _ w := w;
  delete_reader _ _ w := w;
  release_writer _ w := w;
  release_reader _ w := w;
  new_unique_task_id w := (0, w)
|}.

#[export] Instance world : RpcWorld rworld := {|
  rpc_participants := participants;
  reader_guid r _ := mkGuid [Z.of_nat r] [1%Z];
  reader_participant_id r w := d_participant (lookup_reader r w);
  reader_topic r w := d_topic (lookup_reader r w);
  get_unread_count r w := Z.of_nat (length (d_queue (lookup_reader r w)))
|}.

Lemma laws : RpcWorldLaws rworld.
Proof. by split. Qed.

Lemma lookup_after_take r d w :
  lookup_reader r (rtake r d w).2 =
    mkReader (d_participant (lookup_reader r w)) (d_topic (lookup_reader r w)) (tail (d_queue (lookup_reader r w))).
Proof.
  unfold rtake. destruct (d_queue (lookup_reader r w)) as [|d' q] eqn:E; simpl.
  - rewrite <- E. by destruct (lookup_reader r w).
  - unfold lookup_reader at 1. simpl. by rewrite find_assign, keqv_refl.
Qed.

#[export] Instance progress : RpcProgress rworld.
Proof.
  refine {| calm _ _ _ _ _ := True |}; try done.
  intros _ r _ w _ Hu. destruct (reader_take r new_data w) as [[ret d] w'] eqn:E.
  change (rtake r new_data w = ((ret, d), w')) in E.
  pose proof (lookup_after_take r new_data w) as Hl. rewrite E in Hl. cbn [snd] in Hl.
  exists ret, d, w'. cbn. rewrite Hl. split_and!; try done; cbn in Hu.
  1,2: simpl; destruct (d_queue (lookup_reader r w)); simpl in *; lia.
  unfold rtake in E. destruct (d_queue (lookup_reader r w)); [by injection E as <- _ _|].
  by injection E as _ <- _.
Defined.

Definition service : RPCTopic :=
  mkRPCTopic "service" (DdsTopic_of 5000 "rq/serviceRequest" "Service_Request_")
    (DdsTopic_of 5000 "rr/serviceReply" "Service_Response_").

Definition client : SampleIdentity := mkSampleIdentity (mkGuid [77%Z] [2%Z]) 5%Z.
Definition request : DataReceived := data_from pid_a client 5%Z.

(** A bridge with a server in each participant, enabled. *)
Definition w0 : rworld := mkRWorld [] [] 1.
Definition s1 : rpc_state := run_rpc_call (call_discovered pid_b [9%Z]) (RPCBridge_new service, w0).
Definition s2 : rpc_state := run_rpc_call (call_discovered pid_a [8%Z]) (s1.1, s1.2).
Definition s3 : rpc_state := run_rpc_call call_enable (s2.1, s2.2).

Lemma s3_reachable : rpc_reachable service s3.1.
Proof. refine (rpc_called _ _ _ _ (rpc_called _ _ _ _ (rpc_called _ _ _ _ (rpc_created _)))). Defined.

Definition maps3 : rpc_maps s3.1 := reachable_maps service s3.1 s3_reachable.

End RpcDemo.

#[local] Existing Instances Demo.cpp_utils Demo.fast_dds RpcDemo.world RpcDemo.progress.

Lemma rpc_bridge_invariant_witness :
  r_enabled_ RpcDemo.s3.1 = true /\ init_ RpcDemo.s3.1 = true.
Proof.
  split; [vm_compute; reflexivity|].
  refine (proj1 (proj1 (rpc_bridge_invariant RpcDemo.service _ RpcDemo.s3_reachable) _)).
  vm_compute. reflexivity.
Defined.

Lemma rpc_request_routed_witness :
  exists evs, ev_participant <$> evs = [RpcDemo.pid_b].
Proof.
  pose proof RpcDemo.laws as RL. pose proof Demo.cpp_utils_laws as CL.
  destruct (rpc_request_routed RpcDemo.request RpcDemo.s3.1 RpcDemo.s3.2) as (evs & _ & _ & _ & _ & _ & H).
  - apply (rm_clients _ RpcDemo.maps3).
  - apply (rm_registries _ RpcDemo.maps3).
  - discriminate.
  - exists evs. rewrite H. vm_compute. reflexivity.
Defined.

Lemma rpc_requests_without_server_witness :
  let s' := exec (removed_service RpcDemo.pid_b [9%Z]) (RpcDemo.s3.1, RpcDemo.s3.2) in
  goes_to s'.1 s'.2 RpcDemo.pid_a RpcDemo.pid_b = true.
Proof.
  assert (find RpcDemo.pid_b (service_registries_ RpcDemo.s3.1) =
    Some (registry_enable (ServiceRegistry_of RpcDemo.service RpcDemo.pid_b))) as Hr by (vm_compute; reflexivity).
  assert (servers_of RpcDemo.pid_b RpcDemo.s3.1 = [([9%Z], tt)]) as Hs by (vm_compute; reflexivity).
  assert (servers_of RpcDemo.pid_a RpcDemo.s3.1 <> []) as Ho by (vm_compute; discriminate).
  assert (RpcDemo.pid_a <> RpcDemo.pid_b) as Hne by discriminate.
  exact (proj2 (proj2 (rpc_requests_without_server RpcDemo.pid_b RpcDemo.pid_a [9%Z] _ RpcDemo.s3.1 RpcDemo.s3.2
    RpcDemo.pid_a (rm_servers _ RpcDemo.maps3) Hs eq_refl Hne Ho Hr eq_refl Hne))).
Defined.

(** A reply of the server in [b] to a request that participant [a] received. *)
Definition demo_bridge : RPCBridge :=
  r_set_registries (update (registry_add 1%Z (RpcDemo.pid_a, RpcDemo.client)) RpcDemo.pid_b
    (service_registries_ RpcDemo.s3.1)) RpcDemo.s3.1.
Definition demo_reply_reader : nat := default 0 (find RpcDemo.pid_b (reply_readers_ RpcDemo.s3.1)).
Definition demo_reply : DataReceived :=
  RpcDemo.data_from RpcDemo.pid_b
    (mkSampleIdentity (reader_guid demo_reply_reader RpcDemo.s3.2) 1%Z) 3%Z.

Lemma rpc_reply_routed_witness :
  exists ptr d' b' w', find RpcDemo.pid_a (reply_writers_ demo_bridge) = Some ptr /\
    process_reply demo_reply_reader demo_reply (demo_bridge, RpcDemo.s3.2) = (Ok d', (b', w')).
Proof.
  pose proof RpcDemo.laws as RL. pose proof Demo.cpp_utils_laws as CL.
  set (r := registry_add 1%Z (RpcDemo.pid_a, RpcDemo.client)
    (registry_enable (ServiceRegistry_of RpcDemo.service RpcDemo.pid_b))).
  assert (find (reader_participant_id demo_reply_reader RpcDemo.s3.2) (service_registries_ demo_bridge) = Some r)
    as Hr by (vm_compute; reflexivity).
  assert (is_Some (find RpcDemo.pid_a (reply_writers_ demo_bridge))) as Hw by (vm_compute; eexists; reflexivity).
  pose proof (rpc_reply_routed demo_reply_reader demo_reply demo_bridge RpcDemo.s3.2 r Hr) as H. cbv zeta in H.
  assert (registry_get (sequence_number (sample_identity (params_of demo_reply))) r =
    (RpcDemo.pid_a, RpcDemo.client)) as E by (vm_compute; reflexivity).
  rewrite E in H. specialize (H (fun _ => Hw)). rewrite bool_decide_true in H by reflexivity.
  destruct H as (ptr & ret & d' & w' & Hptr & _ & Hrun).
  eexists ptr, d', _, w'. split; [exact Hptr|exact Hrun].
Defined.

Lemma rpc_roundtrip_witness :
  exists evs data' b' w', process_request RpcDemo.request (RpcDemo.s3.1, RpcDemo.s3.2) = (Ok data', (b', w')) /\
    writes (request_writers_ RpcDemo.s3.1) RpcDemo.s3.2 evs w'.
Proof.
  pose proof RpcDemo.laws as RL. pose proof Demo.cpp_utils_laws as CL.
  destruct (rpc_roundtrip RpcDemo.request RpcDemo.s3.1 RpcDemo.s3.2) as (evs & data' & b' & w' & Hrun & Hw & _).
  - apply (rm_clients _ RpcDemo.maps3).
  - apply (rm_registries _ RpcDemo.maps3).
  - discriminate.
  - exists evs, data', b', w'. split; [exact Hrun|exact Hw].
Defined.

(** The request reader of [a], with two requests waiting. *)
Definition demo_request_reader : nat := default 0 (find RpcDemo.pid_a (request_readers_ RpcDemo.s3.1)).
Definition demo_waiting_world : RpcDemo.rworld :=
  RpcDemo.mkRWorld (assign demo_request_reader
    (RpcDemo.mkReader RpcDemo.pid_a (request_topic RpcDemo.service) [RpcDemo.request; RpcDemo.request])
    (RpcDemo.d_readers RpcDemo.s3.2)) [] 20.

Lemma demo_transmitting : transmitting demo_request_reader RpcDemo.s3.1 demo_waiting_world.
Proof.
  split; [exact RpcDemo.maps3|]. split.
  - intros id r sn Hf.
    assert (existsb (fun e => match registry_ e.2 with [] => false | _ => true end)
      (service_registries_ RpcDemo.s3.1) = false) as Hall by (vm_compute; reflexivity).
    destruct (find_elem_of _ _ _ Hf) as (k & _ & Hin).
    pose proof (proj1 (existsb_False _ _) Hall _ Hin) as Hnil. cbn [snd] in Hnil.
    assert (registry_ r = []) as Hreg by (destruct (registry_ r); [reflexivity|discriminate]).
    assert (registry_get sn r = (ParticipantId_invalid, sample_identity_unknown)) as ->
      by (unfold registry_get; rewrite Hreg; reflexivity).
    cbn [fst]. rewrite ParticipantId_invalid_not_valid. discriminate.
  - left. split; [vm_compute; reflexivity|]. vm_compute. eexists. reflexivity.
Defined.

Lemma rpc_transmit_returns_witness :
  exists b' w', rpc_transmit 3 demo_request_reader (RpcDemo.s3.1, demo_waiting_world) = (Ok true, (b', w')).
Proof.
  pose proof RpcDemo.laws as RL. pose proof Demo.cpp_utils_laws as CL. pose proof Demo.fast_dds_laws as FL.
  pose proof (rpc_transmit_returns (writers_of RpcDemo.s3.1) 2 demo_request_reader RpcDemo.s3.1 demo_waiting_world
    demo_transmitting (writers_of_bridge _)) as H.
  assert (get_unread_count demo_request_reader demo_waiting_world <= Z.of_nat 2)%Z as Hu by (vm_compute; discriminate).
  destruct (H Hu I) as (b' & w' & Hrun & _). exists b', w'. exact Hrun.
Defined.
