(* ===== verification/Router.v ===== *)
(** * The router

    [core/DDSRouterImpl.cpp]: the topics and services discovered, the bridges they
    have, and the allowed topics that say which of them are active; [start], [stop] and
    [reload_configuration]. *)
From stdpp Require Import gmap.
From S2P Require Import Prelude StdMap CppString Externals Types Topics Endpoint AllowedTopicList DiscoveryDatabase Address Configuration PayloadPool Track Auxiliar Participants DDSBridge ServiceRegistry RPCBridge.

(** ** Interface

    What the router uses besides the bridges: the factory and the database of
    participants, the thread pool, the discovery database and the static default of
    the history depth. *)
Section Interface.
Context {CU : CppUtils}.

Class RouterWorld (W : Type) := {
  router_rpc :: RpcWorld W;
  thread_pool_enable : W -> W;
  thread_pool_disable : W -> W;
  set_default_history_depth : Z -> W -> W;
  discovery_start : W -> W;
  discovery_stop : W -> W;
  (** [std::shared_ptr<IParticipant>], [None] being the null one *)
  participant_obj : Type;
  obj_id : participant_obj -> ParticipantId;
  obj_kind : participant_obj -> ParticipantKind;
  (** [ParticipantFactory] *)
  create_participant : ParticipantConfiguration -> prog W (option participant_obj);
  remove_participant : participant_obj -> W -> W;
  (** [ParticipantsDatabase] *)
  db_add_participant_ : ParticipantId -> participant_obj -> prog W unit;
  db_pop_ : W -> option participant_obj * W;
  db_size : W -> nat
}.

End Interface.

Section Router.
Context {CU : CppUtils} {FD : FastDDS} {IL : IPLocator} {F : Type} {FT : DdsFilterTopic F}.
Context {W : Type} {RW : RouterWorld W}.

(** [utils::are_set_of_ptr_equal] *)
Variable are_set_of_ptr_equal : (F -> F -> bool) -> filter_set F -> filter_set F -> bool.

(** In [bridges_[topic] = std::make_unique<DDSBridge>(...)] the language leaves open,
    before C++17, whether the element of the map is made before the bridge. *)
Variable subscript_first : bool.

Record DDSRouterImpl : Type := mkRouter {
  allowed_topics_ : AllowedTopicList F;
  current_topics_ : std_map DdsTopic bool;
  current_services_ : std_map RPCTopic bool;
  (** [std::unique_ptr], [None] being the null one *)
  bridges_ : std_map DdsTopic (option DDSBridge);
  rpc_bridges_ : std_map RPCTopic RPCBridge;
  configuration_ : DDSRouterConfiguration F;
  enabled_ : bool
}.

Definition set_allowed (a : AllowedTopicList F) (r : DDSRouterImpl) : DDSRouterImpl :=
  mkRouter a (current_topics_ r) (current_services_ r) (bridges_ r) (rpc_bridges_ r) (configuration_ r) (enabled_ r).
Definition set_topics (m : std_map DdsTopic bool) (r : DDSRouterImpl) : DDSRouterImpl :=
  mkRouter (allowed_topics_ r) m (current_services_ r) (bridges_ r) (rpc_bridges_ r) (configuration_ r) (enabled_ r).
Definition set_services (m : std_map RPCTopic bool) (r : DDSRouterImpl) : DDSRouterImpl :=
  mkRouter (allowed_topics_ r) (current_topics_ r) m (bridges_ r) (rpc_bridges_ r) (configuration_ r) (enabled_ r).
Definition set_bridges (m : std_map DdsTopic (option DDSBridge)) (r : DDSRouterImpl) : DDSRouterImpl :=
  mkRouter (allowed_topics_ r) (current_topics_ r) (current_services_ r) m (rpc_bridges_ r) (configuration_ r) (enabled_ r).
Definition set_rpc_bridges (m : std_map RPCTopic RPCBridge) (r : DDSRouterImpl) : DDSRouterImpl :=
  mkRouter (allowed_topics_ r) (current_topics_ r) (current_services_ r) (bridges_ r) m (configuration_ r) (enabled_ r).
Definition set_configuration (c : DDSRouterConfiguration F) (r : DDSRouterImpl) : DDSRouterImpl :=
  mkRouter (allowed_topics_ r) (current_topics_ r) (current_services_ r) (bridges_ r) (rpc_bridges_ r) c (enabled_ r).
Definition set_router_enabled (e : bool) (r : DDSRouterImpl) : DDSRouterImpl :=
  mkRouter (allowed_topics_ r) (current_topics_ r) (current_services_ r) (bridges_ r) (rpc_bridges_ r) (configuration_ r) e.

Definition router_state : Type := (DDSRouterImpl * W)%type.
Definition on_router (f : DDSRouterImpl -> DDSRouterImpl) : prog router_state unit :=
  modify (fun s => (f s.1, s.2)).
Definition router_on_world (f : W -> W) : prog router_state unit := modify (fun s => (s.1, f s.2)).
Definition router_in_world {A} (m : prog W A) : prog router_state A := zoom snd (fun w s => (s.1, w)) m.

(** ** Topics *)

(** The topic has no bridge when this is called. *)
Definition create_new_bridge (topic : DdsTopic) (enabled : bool) : prog router_state unit :=
  try_catch
    ((if subscript_first
      then on_router (fun r => set_bridges (emplace topic None (bridges_ r)) r) else mret tt) ;;
     b ← router_in_world (DDSBridge_new topic enabled);
     on_router (fun r => set_bridges (assign topic (Some b) (bridges_ r)) r))
    InitializationException (mret tt).

(** [it_bridge->second->f()] *)
Definition call_bridge (topic : DdsTopic) (b : option DDSBridge) (f : DDSBridge * W -> DDSBridge * W) :
    prog router_state unit :=
  match b with
  | None => throw UndefinedBehaviour
  | Some b => fun s =>
      let '(b', w') := f (b, s.2) in
      (Ok tt, (set_bridges (assign topic (Some b') (bridges_ s.1)) s.1, w'))
  end.

Definition activate_topic_ (topic : DdsTopic) : prog router_state unit :=
  on_router (fun r => set_topics (assign topic true (current_topics_ r)) r) ;;
  s ← get;
  match find topic (bridges_ s.1) with
  | None => create_new_bridge topic true
  | Some b => call_bridge topic b bridge_enable
  end.

Definition deactivate_topic_ (topic : DdsTopic) : prog router_state unit :=
  on_router (fun r => set_topics (assign topic false (current_topics_ r)) r) ;;
  s ← get;
  match find topic (bridges_ s.1) with
  | None => mret tt
  | Some b => call_bridge topic b bridge_disable
  end.

Definition activate_all_topics_ : prog router_state unit :=
  topics ← gets (fun s => keys (current_topics_ s.1));
  for_each topics (fun topic =>
    s ← get;
    if is_topic_allowed (allowed_topics_ s.1) topic then activate_topic_ topic else mret tt).

Definition deactivate_all_topics_ : prog router_state unit :=
  topics ← gets (fun s => keys (current_topics_ s.1));
  for_each topics deactivate_topic_.

Definition discovered_topic_ (topic : DdsTopic) : prog router_state unit :=
  s ← get;
  match find topic (current_topics_ s.1) with
  | Some _ => mret tt
  | None =>
      on_router (fun r => set_topics (emplace topic false (current_topics_ r)) r) ;;
      if enabled_ s.1 && is_topic_allowed (allowed_topics_ s.1) topic
      then activate_topic_ topic else mret tt
  end.

(** ** Services *)

(** [rpc_bridges_[topic]->m()] *)
Definition call_rpc (topic : RPCTopic) (m : prog (RPCBridge * W) unit) : prog router_state unit :=
  fun s =>
    match find topic (rpc_bridges_ s.1) with
    | None => (Throw UndefinedBehaviour, s)
    | Some b =>
        let '(res, (b', w')) := m (b, s.2) in
        (res, (set_rpc_bridges (assign topic b' (rpc_bridges_ s.1)) s.1, w'))
    end.

(** The service has no bridge when this is called. *)
Definition create_new_service (topic : RPCTopic) : prog router_state unit :=
  on_router (fun r => set_rpc_bridges (assign topic (RPCBridge_new topic) (rpc_bridges_ r)) r).

Definition discovered_service_ (topic : RPCTopic) (server_participant_id : ParticipantId)
    (server_guid_prefix : GuidPrefix) : prog router_state unit :=
  s ← get;
  (match find topic (rpc_bridges_ s.1) with
   | Some _ => mret tt
   | None =>
       create_new_service topic ;;
       if is_service_allowed (allowed_topics_ s.1) topic
       then on_router (fun r => set_services (assign topic true (current_services_ r)) r)
       else on_router (fun r => set_services (assign topic false (current_services_ r)) r)
   end) ;;
  call_rpc topic (discovered_service server_participant_id server_guid_prefix) ;;
  s1 ← get;
  if enabled_ s1.1 then
    on_router (fun r => set_services (subscript false (fun v => v) topic (current_services_ r)) r) ;;
    if default false (find topic (current_services_ s1.1)) then call_rpc topic rpc_enable else mret tt
  else mret tt.

Definition removed_service_ (topic : RPCTopic) (server_participant_id : ParticipantId)
    (server_guid_prefix : GuidPrefix) : prog router_state unit :=
  s ← get;
  match find topic (rpc_bridges_ s.1) with
  | Some _ => call_rpc topic (removed_service server_participant_id server_guid_prefix)
  | None => mret tt
  end.

(** ** Endpoints: the callbacks of the discovery database *)

(** [RPCTopic(topic)] of a topic of a service *)
Definition rpc_topic_of (topic : DdsTopic) : prog router_state RPCTopic :=
  match RPCTopic_of topic with Some t => mret t | None => throw UndefinedBehaviour end.

Definition discovered_endpoint_ (endpoint : Endpoint) : prog router_state unit :=
  if is_reader endpoint then
    let topic := Endpoint.topic_ endpoint in
    if negb (is_service_topic topic) then discovered_topic_ topic
    else if is_server_endpoint endpoint then
      rpc ← rpc_topic_of topic;
      discovered_service_ rpc (discoverer_participant_id_ endpoint) (guidPrefix (guid_ endpoint))
    else mret tt
  else mret tt.

Definition removed_endpoint_ (endpoint : Endpoint) : prog router_state unit :=
  let topic := Endpoint.topic_ endpoint in
  if is_service_topic topic then
    if is_server_endpoint endpoint then
      rpc ← rpc_topic_of topic;
      removed_service_ rpc (discoverer_participant_id_ endpoint) (guidPrefix (guid_ endpoint))
    else mret tt
  else mret tt.

(** ** start and stop *)

Definition start_ : prog router_state ReturnCode :=
  s ← get;
  if negb (enabled_ s.1) then
    on_router (set_router_enabled true) ;;
    router_on_world thread_pool_enable ;;
    activate_all_topics_ ;;
    services ← gets (fun s => current_services_ s.1);
    for_each services (fun it : RPCTopic * bool => if it.2 then call_rpc it.1 rpc_enable else mret tt) ;;
    mret RETCODE_OK
  else mret RETCODE_PRECONDITION_NOT_MET.

Definition stop_ : prog router_state ReturnCode :=
  s ← get;
  if enabled_ s.1 then
    on_router (set_router_enabled false) ;;
    router_on_world thread_pool_disable ;;
    deactivate_all_topics_ ;;
    mret RETCODE_OK
  else mret RETCODE_PRECONDITION_NOT_MET.

(** ** reload_configuration *)

(** The sets of pointers to filters of a configuration; there is no null pointer in a
    valid one. *)
Definition filters_of (s : ptr_set F) : filter_set F := (fun p => (p, tt)) <$> pointees s.

Definition allowed_of (c : ReloadConfiguration F) : AllowedTopicList F :=
  AllowedTopicList_of (filters_of (allowlist c)) (filters_of (blocklist c)).

(** The builtin topics that are not among the current ones. *)
Definition new_builtin_topics (c : ReloadConfiguration F) (m : std_map DdsTopic bool) : std_set DdsTopic :=
  fold_left (fun acc p => match find p.2 m with None => set_insert p.2 acc | Some _ => acc end)
    (pointees (builtin_topics c)) [].

(** The body of the loop over the current topics. *)
Definition reload_topic (topic : DdsTopic) : prog router_state unit :=
  s ← get;
  if default false (find topic (current_topics_ s.1)) then
    if negb (is_topic_allowed (allowed_topics_ s.1) topic) then deactivate_topic_ topic else mret tt
  else
    if is_topic_allowed (allowed_topics_ s.1) topic then activate_topic_ topic else mret tt.

(** The body of the loop over the current services. *)
Definition reload_service (topic : RPCTopic) : prog router_state unit :=
  s ← get;
  if is_service_allowed (allowed_topics_ s.1) topic then
    on_router (fun r => set_services (assign topic true (current_services_ r)) r) ;;
    call_rpc topic rpc_enable
  else
    on_router (fun r => set_services (assign topic false (current_services_ r)) r) ;;
    call_rpc topic rpc_disable.

Definition reload_configuration (new_configuration : ReloadConfiguration F) : prog router_state ReturnCode :=
  if negb (reload_is_valid new_configuration) then throw ConfigurationException
  else
    s ← get;
    if enabled_ s.1 then
      let new_allowed := allowed_of new_configuration in
      let new_builtin := new_builtin_topics new_configuration (current_topics_ s.1) in
      if AllowedTopicList_eqb are_set_of_ptr_equal new_allowed (allowed_topics_ s.1) && is_nil new_builtin
      then mret RETCODE_NO_DATA
      else
        on_router (set_allowed new_allowed) ;;
        topics ← gets (fun s => keys (current_topics_ s.1));
        for_each topics reload_topic ;;
        for_each (set_elems new_builtin) discovered_topic_ ;;
        services ← gets (fun s => keys (current_services_ s.1));
        for_each services reload_service ;;
        on_router (fun r => set_configuration (conf_reload (configuration_ r) new_configuration) r) ;;
        mret RETCODE_OK
    else mret RETCODE_NOT_ENABLED.

(** ** Construction and destruction *)

Definition init_allowed_topics_ : prog router_state unit :=
  on_router (fun r => set_allowed (allowed_of (reload_part (configuration_ r))) r).

Definition init_participant (c : ParticipantConfiguration) : prog router_state unit :=
  p ← router_in_world (create_participant c);
  match p with
  | None => throw InitializationException
  | Some p =>
      if negb (ParticipantId_is_valid (obj_id p)) || bool_decide (obj_kind p = kind_invalid)
      then throw InitializationException
      else try_catch (router_in_world (db_add_participant_ (obj_id p) p)) InconsistencyException
             (throw ConfigurationException)
  end.

Definition init_participants_ : prog router_state unit :=
  configs ← gets (fun s => pointees (participants_configurations (configuration_ s.1)));
  for_each configs (fun p => init_participant p.2) ;;
  n ← gets (fun s => db_size s.2);
  if (n <? 1)%nat then throw InitializationException else mret tt.

Definition init_bridges_ : prog router_state unit :=
  topics ← gets (fun s => pointees (builtin_topics (reload_part (configuration_ s.1))));
  for_each topics (fun p => discovered_topic_ p.2).

(** The members before the body of the constructor. *)
Definition router_initial (c : DDSRouterConfiguration F) : DDSRouterImpl :=
  mkRouter (mkAllowed [] []) [] [] [] [] c false.

(** [DDSRouterImpl(configuration)], run from [router_initial configuration]; the
    registration of the callbacks is that of [discovered_endpoint_] and
    [removed_endpoint_] above. *)
Definition router_construct : prog router_state unit :=
  s ← get;
  if negb (router_is_valid (configuration_ s.1)) then throw ConfigurationException
  else
    router_on_world (set_default_history_depth (max_history_depth (advanced_options (configuration_ s.1)))) ;;
    init_allowed_topics_ ;;
    init_participants_ ;;
    init_bridges_ ;;
    router_on_world discovery_start.

(** The loop of the destructor that takes out the participants. *)
Fixpoint pop_participants (fuel : nat) (w : W) : W :=
  match fuel with
  | 0 => w
  | S fuel' =>
      if (db_size w =? 0)%nat then w
      else let '(p, w1) := db_pop_ w in
           pop_participants fuel' (match p with Some p => remove_participant p w1 | None => w1 end)
  end.

(** [bridges_.clear()] and [rpc_bridges_.clear()] *)
Definition clear_bridges : prog router_state unit :=
  l ← gets (fun s => values (bridges_ s.1));
  for_each l (fun b =>
    match b with Some b => router_on_world (fun w => bridge_destroy (b, w)) | None => mret tt end) ;;
  on_router (set_bridges []).
Definition clear_rpc_bridges : prog router_state unit :=
  l ← gets (fun s => values (rpc_bridges_ s.1));
  for_each l (fun b => fun s => let '(res, (_, w')) := rpc_destroy (b, s.2) in (res, (s.1, w'))) ;;
  on_router (set_rpc_bridges []).

(** [~DDSRouterImpl()] *)
Definition router_destroy : prog router_state unit :=
  router_on_world discovery_stop ;;
  _ ← stop_;
  clear_bridges ;;
  clear_rpc_bridges ;;
  router_on_world (fun w => pop_participants (db_size w) w).

(** ** Lemmas on the topics *)

(** What the operations on topics leave as it was. *)
Record same_rest (r r' : DDSRouterImpl) : Prop := {
  sr_allowed : allowed_topics_ r' = allowed_topics_ r;
  sr_services : current_services_ r' = current_services_ r;
  sr_rpc : rpc_bridges_ r' = rpc_bridges_ r;
  sr_configuration : configuration_ r' = configuration_ r;
  sr_enabled : enabled_ r' = enabled_ r
}.

Lemma same_rest_refl r : same_rest r r.
Proof. done. Qed.

Lemma same_rest_trans r1 r2 r3 : same_rest r1 r2 -> same_rest r2 r3 -> same_rest r1 r3.
Proof. intros [] []. split; congruence. Qed.

(** Every bridge has the status of its topic. *)
Definition bridges_sync (r : DDSRouterImpl) : Prop :=
  forall t b, find t (bridges_ r) = Some (Some b) ->
    bridge_wf b /\ find t (current_topics_ r) = Some (b_enabled_ b).

(** The topic gets the status [v], and its bridge too. *)
Record sets_status (topic : DdsTopic) (v : bool) (r r' : DDSRouterImpl) : Prop := {
  ss_rest : same_rest r r';
  ss_topics : current_topics_ r' = assign topic v (current_topics_ r);
  ss_others : forall t, keqv t topic = false -> find t (bridges_ r') = find t (bridges_ r);
  ss_bridge : forall b, bridges_sync r -> find topic (bridges_ r') = Some (Some b) ->
    bridge_wf b /\ b_enabled_ b = v
}.

Lemma sets_status_sync topic v r r' : sets_status topic v r r' -> bridges_sync r -> bridges_sync r'.
Proof.
  intros [_ Ht Ho Hb] Hs t b Hf. rewrite Ht, find_assign. destruct (keqv t topic) eqn:E.
  - rewrite (find_keqv _ _ _ E) in Hf. by destruct (Hb b Hs Hf) as [? <-].
  - rewrite Ho in Hf by done. by apply Hs.
Qed.

(** [call_bridge] with an operation that gives the bridge the status [v]. *)
Lemma call_bridge_status topic v ob f r w r' w' :
  (forall b w, bridge_wf b -> bridge_wf (f (b, w)).1 /\ b_enabled_ (f (b, w)).1 = v) ->
  find topic (bridges_ r) = Some ob ->
  call_bridge topic ob f (set_topics (assign topic v (current_topics_ r)) r, w) = (Ok tt, (r', w')) ->
  sets_status topic v r r'.
Proof.
  intros Hop Hfind. unfold call_bridge. destruct ob as [b|]; [|done]. cbn [snd fst].
  specialize (Hop b w). destruct (f (b, w)) as [b' w1]. intros [= <- <-]. cbn [fst] in Hop. split.
  - done.
  - done.
  - intros t E. cbn [bridges_ set_bridges set_topics]. by rewrite find_assign, E.
  - intros b0 Hsync. cbn [bridges_ set_bridges set_topics]. rewrite find_assign, keqv_refl. intros [= <-].
    by apply Hop, (Hsync topic).
Qed.

Lemma create_new_bridge_status topic v r w r' w' :
  find topic (bridges_ r) = None ->
  create_new_bridge topic v (set_topics (assign topic v (current_topics_ r)) r, w) = (Ok tt, (r', w')) ->
  sets_status topic v r r'.
Proof.
  intros Hnone. unfold create_new_bridge, try_catch.
  set (r1 := set_topics _ r).
  set (r2 := if subscript_first then set_bridges (emplace topic None (bridges_ r1)) r1 else r1).
  assert (same_rest r r2 /\ current_topics_ r2 = assign topic v (current_topics_ r) /\
    (forall t, keqv t topic = false -> find t (bridges_ r2) = find t (bridges_ r)) /\
    (forall b, find topic (bridges_ r2) <> Some (Some b))) as (H1 & H2 & H3 & H4).
  { unfold r2. destruct subscript_first; split_and!; try done; cbn [bridges_ set_bridges r1 set_topics].
    - intros t E. by rewrite find_emplace, E.
    - intros b. by rewrite find_emplace, keqv_refl, Hnone.
    - intros b. by rewrite Hnone. }
  rewrite (bind_ok _ _ (r1, w) tt (r2, w)) by (unfold r2; by destruct subscript_first).
  unfold router_in_world, zoom, on_router. run_prog.
  destruct (DDSBridge_new topic v w) as [[b|e] w2] eqn:Eb; cbn [fst snd].
  - intros [= <- <-]. pose proof (DDSBridge_new_wf _ _ _ _ _ Eb) as Hb. split.
    + destruct H1. by split.
    + done.
    + intros t Et. cbn [bridges_ set_bridges]. by rewrite find_assign, Et, H3.
    + intros b0 _. cbn [bridges_ set_bridges]. rewrite find_assign, keqv_refl. by intros [= <-].
  - destruct (decide (e = InitializationException)); [|done]. intros [= <- <-]. split; try done.
    intros b0 _ Hf. by destruct (H4 b0).
Qed.

Lemma activate_status topic r w r' w' :
  activate_topic_ topic (r, w) = (Ok tt, (r', w')) -> sets_status topic true r r'.
Proof.
  unfold activate_topic_, on_router. run_prog. cbn [bridges_ set_topics].
  destruct (find topic (bridges_ r)) as [ob|] eqn:E.
  - apply call_bridge_status; [|done]. intros b w0. apply bridge_enable_wf.
  - by apply create_new_bridge_status.
Qed.

Lemma deactivate_status topic r w r' w' :
  deactivate_topic_ topic (r, w) = (Ok tt, (r', w')) -> sets_status topic false r r'.
Proof.
  unfold deactivate_topic_, on_router. run_prog. cbn [bridges_ set_topics].
  destruct (find topic (bridges_ r)) as [ob|] eqn:E.
  - apply call_bridge_status; [|done]. intros b w0. apply bridge_disable_wf.
  - intros [= <- <-]. split; try done. intros b _. cbn [bridges_ set_topics]. by rewrite E.
Qed.

(** ** Loops over the topics *)

(** The effect of the body of a loop on a topic that has to get the status [v]. *)
Definition step_effect (topic : DdsTopic) (v : bool) (r r' : DDSRouterImpl) : Prop :=
  sets_status topic v r r' \/ (r' = r /\ find topic (current_topics_ r) = Some v).

Lemma step_effect_spec topic v r r' :
  is_Some (find topic (current_topics_ r)) -> step_effect topic v r r' ->
  same_rest r r' /\ keys (current_topics_ r') = keys (current_topics_ r) /\
  (bridges_sync r -> bridges_sync r') /\ (map_wf (current_topics_ r) -> map_wf (current_topics_ r')) /\
  find topic (current_topics_ r') = Some v /\
  forall t, keqv t topic = false -> find t (current_topics_ r') = find t (current_topics_ r).
Proof.
  intros [x Hx] [Hs|[-> Hf]]; [|by split_and!].
  pose proof (sets_status_sync _ _ _ _ Hs) as Hsync. destruct Hs as [Hr Ht _ _]. rewrite Ht. split_and!; try done.
  - by eapply keys_assign_present.
  - by apply map_wf_assign.
  - by rewrite find_assign, keqv_refl.
  - intros t E. by rewrite find_assign, E.
Qed.

Lemma topics_loop (want : DdsTopic -> bool) (r0 : DDSRouterImpl) (body : DdsTopic -> prog router_state unit) l :
  map_wf (current_topics_ r0) -> NoDup l -> (forall t, t ∈ l -> t ∈ keys (current_topics_ r0)) ->
  (forall t r w r' w', t ∈ l -> same_rest r0 r -> find t (current_topics_ r) = find t (current_topics_ r0) ->
     body t (r, w) = (Ok tt, (r', w')) -> step_effect t (want t) r r') ->
  forall r w r' w',
    same_rest r0 r -> keys (current_topics_ r) = keys (current_topics_ r0) -> map_wf (current_topics_ r) ->
    (forall t, t ∈ l -> find t (current_topics_ r) = find t (current_topics_ r0)) ->
    for_each l body (r, w) = (Ok tt, (r', w')) ->
    same_rest r0 r' /\ keys (current_topics_ r') = keys (current_topics_ r0) /\ map_wf (current_topics_ r') /\
    (bridges_sync r -> bridges_sync r') /\
    (forall t, t ∈ l -> find t (current_topics_ r') = Some (want t)) /\
    (forall t, t ∈ keys (current_topics_ r0) -> t ∉ l -> find t (current_topics_ r') = find t (current_topics_ r)).
Proof.
  intros Hwf0 Hnd. induction Hnd as [|topic l Hnin Hnd IH]; intros Hkeys Hbody r w r' w' Hrest Hk Hwf Hsame Hrun.
  { injection Hrun as <- <-. split_and!; try done. by intros t ?%not_elem_of_nil. }
  cbn [for_each] in Hrun. apply bind_inv_ok in Hrun as ([] & [r1 w1] & Hone & Hrun).
  assert (topic ∈ keys (current_topics_ r0)) as Htk by apply Hkeys, list_elem_of_here.
  assert (forall t, t ∈ keys (current_topics_ r0) -> t <> topic -> keqv t topic = false) as Hne.
  { intros t Ht Hn. apply not_true_is_false. intros E. apply Hn. by apply (keys_keqv_unique (current_topics_ r0)). }
  assert (is_Some (find topic (current_topics_ r))) as Hsome.
  { rewrite Hsame by apply list_elem_of_here. by apply elem_of_keys_find. }
  destruct (step_effect_spec topic (want topic) r r1 Hsome) as (Hr1 & Hk1 & Hs1 & Hw1 & Hf1 & Ho1).
  { eapply Hbody; [apply list_elem_of_here|done|apply Hsame, list_elem_of_here|exact Hone]. }
  destruct (IH (fun t Ht => Hkeys t (list_elem_of_further _ _ _ Ht))
    (fun t r2 w2 r2' w2' Ht => Hbody t r2 w2 r2' w2' (list_elem_of_further _ _ _ Ht)) r1 w1 r' w')
    as (H1 & H2 & H3 & H4 & H5 & H6).
  { by eapply same_rest_trans. }
  { congruence. }
  { by apply Hw1. }
  { intros t Ht. pose proof (list_elem_of_further _ topic _ Ht) as Ht'. rewrite Ho1; [by apply Hsame|].
    apply Hne; [by apply Hkeys|]. intros ->. by apply Hnin. }
  { done. }
  split_and!; try done; [by auto| |].
  - intros t [->|Ht]%elem_of_cons; [|by apply H5]. by rewrite H6.
  - intros t Ht [Hn Hnl]%not_elem_of_cons. rewrite H6 by done. apply Ho1. by apply Hne.
Qed.

(** The loop over all the topics. *)
Lemma all_topics_loop (want : DdsTopic -> bool) r w (body : DdsTopic -> prog router_state unit) r' w' :
  map_wf (current_topics_ r) ->
  (forall t r1 w1 r' w', t ∈ keys (current_topics_ r) -> same_rest r r1 ->
     find t (current_topics_ r1) = find t (current_topics_ r) ->
     body t (r1, w1) = (Ok tt, (r', w')) -> step_effect t (want t) r1 r') ->
  for_each (keys (current_topics_ r)) body (r, w) = (Ok tt, (r', w')) ->
  same_rest r r' /\ keys (current_topics_ r') = keys (current_topics_ r) /\ map_wf (current_topics_ r') /\
  (bridges_sync r -> bridges_sync r') /\
  (forall t, t ∈ keys (current_topics_ r') -> find t (current_topics_ r') = Some (want t)).
Proof.
  intros Hwf Hbody Hrun.
  destruct (topics_loop want r body (keys (current_topics_ r)) Hwf (keys_NoDup _ Hwf) (fun t Ht => Ht) Hbody r w r' w')
    as (H1 & H2 & H3 & H4 & H5 & _); try done. split_and!; try done. rewrite H2. exact H5.
Qed.

(** ** The invariant *)

(** The topics: a topic is active exactly when the router is enabled and the topic is
    allowed, and so is its bridge. *)
Record topics_inv (r : DDSRouterImpl) : Prop := {
  ti_wf : map_wf (current_topics_ r);
  ti_status : forall t, t ∈ keys (current_topics_ r) ->
    find t (current_topics_ r) = Some (enabled_ r && is_topic_allowed (allowed_topics_ r) t);
  ti_bridges : bridges_sync r
}.

(** The services: each has a bridge, and is active exactly when allowed. *)
Record services_inv (r : DDSRouterImpl) : Prop := {
  si_wf : map_wf (current_services_ r);
  si_status : forall s, s ∈ keys (current_services_ r) ->
    find s (current_services_ r) = Some (is_service_allowed (allowed_topics_ r) s);
  si_rpc : forall s, is_Some (find s (rpc_bridges_ r)) <-> is_Some (find s (current_services_ r))
}.

Definition router_inv (r : DDSRouterImpl) : Prop := topics_inv r /\ services_inv r.

Lemma router_inv_initial c : router_inv (router_initial c).
Proof.
  split; split; try apply map_wf_nil; cbn; try done; intros t Ht; by apply not_elem_of_nil in Ht.
Qed.

Lemma services_inv_rest r r' : same_rest r r' -> services_inv r -> services_inv r'.
Proof.
  intros [Ea Es Er _ _] [Hw Hs Hr]. split; [by rewrite Es| |].
  - intros s. rewrite Es, Ea. apply Hs.
  - intros s. by rewrite Er, Es.
Qed.

(** *** Operations on topics *)

Lemma discovered_topic_inv topic r w r' w' :
  topics_inv r -> discovered_topic_ topic (r, w) = (Ok tt, (r', w')) ->
  topics_inv r' /\ same_rest r r' /\ is_Some (find topic (current_topics_ r')).
Proof.
  intros Hinv. pose proof Hinv as [Hw Ht Hb]. unfold discovered_topic_, on_router. run_prog.
  destruct (find topic (current_topics_ r)) as [v|] eqn:E; [by intros [= <- <-]; rewrite E|]. run_prog.
  rewrite emplace_absent by done. set (r1 := set_topics (assign topic false (current_topics_ r)) r).
  assert (bridges_sync r1) as Hb1.
  { intros t b Hf. destruct (Hb t b Hf) as [? Hf']. split; [done|]. cbn [current_topics_ set_topics r1].
    rewrite find_assign. destruct (keqv t topic) eqn:Et; [|done].
    by rewrite (find_keqv _ _ _ Et), E in Hf'. }
  intros Hrun.
  assert (same_rest r r' /\ bridges_sync r' /\ current_topics_ r' =
    assign topic (enabled_ r && is_topic_allowed (allowed_topics_ r) topic) (current_topics_ r)) as (Hr & Hs & Hm).
  { destruct (_ && _); [|by injection Hrun as <- <-]. pose proof (activate_status _ _ _ _ _ Hrun) as Hst.
    split_and!; [|by eapply sets_status_sync|].
    - by destruct (ss_rest _ _ _ _ Hst).
    - rewrite (ss_topics _ _ _ _ Hst). apply assign_twice. }
  split_and!; [|done|rewrite Hm, find_assign, keqv_refl; by eexists]. split; [| |done].
  - rewrite Hm. by apply map_wf_assign.
  - rewrite Hm, (sr_enabled _ _ Hr), (sr_allowed _ _ Hr). intros t [->|Hin]%elem_of_keys_assign; [| |done].
    + by rewrite find_assign, keqv_refl.
    + rewrite find_assign. destruct (keqv t topic) eqn:Et; [|by apply Ht].
      destruct (elem_of_keys_find _ _ Hw Hin) as [v Hv]. by rewrite (find_keqv _ _ _ Et), E in Hv.
Qed.

Lemma discovered_topics_inv l r w r' w' :
  topics_inv r -> for_each l discovered_topic_ (r, w) = (Ok tt, (r', w')) ->
  topics_inv r' /\ same_rest r r' /\
  (forall t, is_Some (find t (current_topics_ r)) -> is_Some (find t (current_topics_ r'))) /\
  forall t, t ∈ l -> is_Some (find t (current_topics_ r')).
Proof.
  revert r w. induction l as [|topic l IH]; intros r w Hinv Hrun.
  { injection Hrun as <- <-. split_and!; try done. by intros t ?%not_elem_of_nil. }
  cbn [for_each] in Hrun. apply bind_inv_ok in Hrun as ([] & [r1 w1] & Hone & Hrun).
  destruct (discovered_topic_inv _ _ _ _ _ Hinv Hone) as (H1 & H2 & H3).
  assert (forall t, is_Some (find t (current_topics_ r)) -> is_Some (find t (current_topics_ r1))) as Hmono.
  { revert Hone. unfold discovered_topic_, on_router. run_prog.
    destruct (find topic (current_topics_ r)) eqn:E; [by intros [= <- <-]|]. run_prog.
    rewrite emplace_absent by done. intros Hone t Ht.
    assert (exists v, current_topics_ r1 = assign topic v (current_topics_ r)) as [v Hm].
    { destruct (_ && _); [|injection Hone as <- <-; by eexists].
      exists true. rewrite (ss_topics _ _ _ _ (activate_status _ _ _ _ _ Hone)). apply assign_twice. }
    rewrite Hm, find_assign. by destruct (keqv t topic). }
  destruct (IH r1 w1 H1 Hrun) as (H4 & H5 & H6 & H7). split_and!; [done|by eapply same_rest_trans|auto|].
  intros t [->|Ht]%elem_of_cons; auto.
Qed.

Lemma activate_all_inv r w r' w' :
  map_wf (current_topics_ r) -> bridges_sync r -> enabled_ r = true ->
  (forall t, t ∈ keys (current_topics_ r) -> find t (current_topics_ r) = Some false) ->
  activate_all_topics_ (r, w) = (Ok tt, (r', w')) ->
  topics_inv r' /\ same_rest r r' /\ keys (current_topics_ r') = keys (current_topics_ r).
Proof.
  intros Hw Hb He Hoff. unfold activate_all_topics_. rewrite (bind_ok (gets _) _ _ (keys (current_topics_ r)) (r, w)) by done.
  intros Hrun. eapply (all_topics_loop (is_topic_allowed (allowed_topics_ r))) in Hrun as (H1 & H2 & H3 & H4 & H5); [|done|].
  - split_and!; try done. split; [done| |by auto]. intros t Ht.
    rewrite (sr_enabled _ _ H1), He, (sr_allowed _ _ H1). by apply H5.
  - intros t r1 w1 r2 w2 Ht Hr Hf. run_prog. rewrite (sr_allowed _ _ Hr).
    destruct (is_topic_allowed (allowed_topics_ r) t); intros Hone; [left; by eapply activate_status|].
    right. injection Hone as <- <-. by rewrite Hf, Hoff.
Qed.

Lemma deactivate_all_inv r w r' w' :
  map_wf (current_topics_ r) -> bridges_sync r -> enabled_ r = false ->
  deactivate_all_topics_ (r, w) = (Ok tt, (r', w')) ->
  topics_inv r' /\ same_rest r r' /\ keys (current_topics_ r') = keys (current_topics_ r).
Proof.
  intros Hw Hb He. unfold deactivate_all_topics_. rewrite (bind_ok (gets _) _ _ (keys (current_topics_ r)) (r, w)) by done.
  intros Hrun. eapply (all_topics_loop (fun _ => false)) in Hrun as (H1 & H2 & H3 & H4 & H5); [|done|].
  - split_and!; try done. split; [done| |by auto]. intros t Ht. rewrite (sr_enabled _ _ H1), He. by apply H5.
  - intros t r1 w1 r2 w2 Ht Hr Hf Hone. left. by eapply deactivate_status.
Qed.

(** The loop of [reload_configuration]. *)
Lemma reload_topics_inv r w r' w' :
  map_wf (current_topics_ r) -> bridges_sync r -> enabled_ r = true ->
  for_each (keys (current_topics_ r)) reload_topic (r, w) = (Ok tt, (r', w')) ->
  topics_inv r' /\ same_rest r r' /\ keys (current_topics_ r') = keys (current_topics_ r).
Proof.
  intros Hw Hb He Hrun.
  eapply (all_topics_loop (is_topic_allowed (allowed_topics_ r))) in Hrun as (H1 & H2 & H3 & H4 & H5); [|done|].
  - split_and!; try done. split; [done| |by auto]. intros t Ht.
    rewrite (sr_enabled _ _ H1), He, (sr_allowed _ _ H1). by apply H5.
  - intros t r1 w1 r2 w2 Ht Hr Hf. unfold reload_topic. run_prog. rewrite (sr_allowed _ _ Hr).
    assert (is_Some (find t (current_topics_ r1))) as [v Hv] by (rewrite Hf; by apply elem_of_keys_find).
    rewrite Hv. cbn [default]. destruct v, (is_topic_allowed (allowed_topics_ r) t); cbn [negb]; intros Hone;
      first [by left; eapply activate_status|by left; eapply deactivate_status|right; by injection Hone as <- <-].
Qed.

(** *** Operations on services *)

(** What the operations on services leave as it was. *)
Record same_topics (r r' : DDSRouterImpl) : Prop := {
  st_allowed : allowed_topics_ r' = allowed_topics_ r;
  st_topics : current_topics_ r' = current_topics_ r;
  st_bridges : bridges_ r' = bridges_ r;
  st_configuration : configuration_ r' = configuration_ r;
  st_enabled : enabled_ r' = enabled_ r
}.

Lemma same_topics_trans r1 r2 r3 : same_topics r1 r2 -> same_topics r2 r3 -> same_topics r1 r3.
Proof. intros [] []. split; congruence. Qed.

Lemma topics_inv_rest r r' : same_topics r r' -> topics_inv r -> topics_inv r'.
Proof.
  intros [Ea Et Eb _ Ee] [Hw Hs Hb]. split; [by rewrite Et| |].
  - intros t. rewrite Et, Ea, Ee. apply Hs.
  - intros t b. rewrite Et, Eb. apply Hb.
Qed.

Lemma call_rpc_spec topic m r w r' w' :
  call_rpc topic m (r, w) = (Ok tt, (r', w')) ->
  exists b b', find topic (rpc_bridges_ r) = Some b /\ m (b, w) = (Ok tt, (b', w')) /\
    r' = set_rpc_bridges (assign topic b' (rpc_bridges_ r)) r.
Proof.
  unfold call_rpc. cbn [fst snd]. destruct (find topic (rpc_bridges_ r)) as [b|] eqn:E; [|done].
  destruct (m (b, w)) as [res [b' w1]] eqn:Em. intros [= -> <- <-]. by exists b, b'.
Qed.

Lemma assign_some {K V} `{StrictWeak K} (k j : K) (v u : V) m :
  find k m = Some u -> is_Some (find j (assign k v m)) <-> is_Some (find j m).
Proof.
  intros E. rewrite find_assign. destruct (keqv j k) eqn:Ej; [|done]. rewrite (find_keqv _ _ _ Ej), E.
  split; by eexists.
Qed.

Lemma call_rpc_inv topic m r w r' w' :
  call_rpc topic m (r, w) = (Ok tt, (r', w')) ->
  same_topics r r' /\ current_services_ r' = current_services_ r /\
  (forall s, is_Some (find s (rpc_bridges_ r')) <-> is_Some (find s (rpc_bridges_ r))).
Proof.
  intros (b & b' & Hf & _ & ->)%call_rpc_spec. split_and!; [done|done|].
  intros s. cbn [rpc_bridges_ set_rpc_bridges]. by eapply assign_some.
Qed.

Lemma services_inv_rpc r r' :
  same_topics r r' -> current_services_ r' = current_services_ r ->
  (forall s, is_Some (find s (rpc_bridges_ r')) <-> is_Some (find s (rpc_bridges_ r))) ->
  services_inv r -> services_inv r'.
Proof.
  intros [Ea _ _ _ _] Es Hr [Hw Hs Hi]. split; [by rewrite Es| |].
  - intros s. rewrite Es, Ea. apply Hs.
  - intros s. by rewrite Hr, Es.
Qed.

Lemma call_rpc_services topic m r w r' w' :
  services_inv r -> call_rpc topic m (r, w) = (Ok tt, (r', w')) -> same_topics r r' /\ services_inv r'.
Proof. intros Hs (H1 & H2 & H3)%call_rpc_inv. split; [done|by eapply services_inv_rpc]. Qed.

(** The first part of [discovered_service_]: a service that is new gets its bridge and
    its status. *)
Lemma new_service_inv topic r :
  services_inv r -> find topic (rpc_bridges_ r) = None ->
  services_inv (set_services (assign topic (is_service_allowed (allowed_topics_ r) topic) (current_services_ r))
    (set_rpc_bridges (assign topic (RPCBridge_new topic) (rpc_bridges_ r)) r)).
Proof.
  intros [Hw Hs Hr] E.
  assert (find topic (current_services_ r) = None) as En.
  { apply eq_None_not_Some. rewrite <- Hr, E. by intros [? ?]. }
  split; cbn [current_services_ rpc_bridges_ allowed_topics_ set_services set_rpc_bridges].
  - by apply map_wf_assign.
  - intros s [->|Hin]%elem_of_keys_assign; [by rewrite find_assign, keqv_refl| |done].
    rewrite find_assign. destruct (keqv s topic) eqn:Et; [|by apply Hs].
    destruct (elem_of_keys_find _ _ Hw Hin) as [v Hv]. by rewrite (find_keqv _ _ _ Et), En in Hv.
  - intros s. rewrite !find_assign. destruct (keqv s topic); [|apply Hr]. split; by eexists.
Qed.

Lemma discovered_service_inv topic id g r w r' w' :
  services_inv r -> discovered_service_ topic id g (r, w) = (Ok tt, (r', w')) ->
  same_topics r r' /\ services_inv r'.
Proof.
  intros Hs. unfold discovered_service_. rewrite (bind_ok get _ _ (r, w) (r, w)) by done. cbn [fst snd].
  intros ([] & [r1 w1] & Hnew & ([] & [r2 w2] & Hdisc & Hen)%bind_inv_ok)%bind_inv_ok.
  assert (same_topics r r1 /\ services_inv r1) as [Ht1 Hs1].
  { destruct (find topic (rpc_bridges_ r)) eqn:E; [by injection Hnew as <- <-|].
    pose proof (new_service_inv topic r Hs E) as Hn. revert Hnew Hn. unfold create_new_service, on_router. run_prog.
    destruct (is_service_allowed _ _); by intros [= <- <-]. }
  destruct (call_rpc_services _ _ _ _ _ _ Hs1 Hdisc) as [Ht2 Hs2].
  pose proof (same_topics_trans _ _ _ Ht1 Ht2) as Ht. revert Hen. unfold on_router. run_prog.
  destruct (enabled_ r2); [|by intros [= <- <-]]. run_prog.
  assert (is_Some (find topic (current_services_ r2))) as [v Hv].
  { apply (si_rpc _ Hs2). revert Hdisc. intros (b & b' & Hf & _ & ->)%call_rpc_spec.
    cbn [rpc_bridges_ set_rpc_bridges]. rewrite find_assign, keqv_refl. by eexists. }
  unfold subscript. rewrite Hv, (assign_same _ _ _ Hv). cbn [default].
  assert (set_services (current_services_ r2) r2 = r2) as -> by (by destruct r2).
  destruct v; [|by intros [= <- <-]]. intros (Ht3 & Hs3)%call_rpc_services; [|done].
  split; [by eapply same_topics_trans|done].
Qed.

Lemma removed_service_inv topic id g r w r' w' :
  services_inv r -> removed_service_ topic id g (r, w) = (Ok tt, (r', w')) ->
  same_topics r r' /\ services_inv r'.
Proof.
  intros Hs. unfold removed_service_. run_prog. destruct (find topic (rpc_bridges_ r)); [|by intros [= <- <-]].
  by apply call_rpc_services.
Qed.

Lemma for_services_inv (l : list (RPCTopic * bool)) r w r' w' :
  services_inv r ->
  for_each l (fun it : RPCTopic * bool => if it.2 then call_rpc it.1 rpc_enable else mret tt) (r, w) = (Ok tt, (r', w')) ->
  same_topics r r' /\ services_inv r'.
Proof.
  revert r w. induction l as [|[s v] l IH]; intros r w Hs Hrun; [by injection Hrun as <- <-|].
  cbn [for_each fst snd] in Hrun. apply bind_inv_ok in Hrun as ([] & [r1 w1] & Hone & Hrun).
  assert (same_topics r r1 /\ services_inv r1) as [Ht1 Hs1].
  { destruct v; [by eapply call_rpc_services|by injection Hone as <- <-]. }
  destruct (IH _ _ Hs1 Hrun) as [Ht2 Hs2]. split; [by eapply same_topics_trans|done].
Qed.

(** The loop of [reload_configuration]: the statuses are those of the new list. *)
Lemma reload_services_loop l r w r' w' :
  for_each l reload_service (r, w) = (Ok tt, (r', w')) ->
  same_topics r r' /\
  current_services_ r' =
    fold_left (fun m s => assign s (is_service_allowed (allowed_topics_ r) s) m) l (current_services_ r) /\
  (forall s, is_Some (find s (rpc_bridges_ r')) <-> is_Some (find s (rpc_bridges_ r))).
Proof.
  revert r w. induction l as [|s l IH]; intros r w Hrun; [by injection Hrun as <- <-|].
  cbn [for_each] in Hrun. apply bind_inv_ok in Hrun as ([] & [r1 w1] & Hone & Hrun).
  assert (same_topics r r1 /\
    current_services_ r1 = assign s (is_service_allowed (allowed_topics_ r) s) (current_services_ r) /\
    forall s', is_Some (find s' (rpc_bridges_ r1)) <-> is_Some (find s' (rpc_bridges_ r))) as (Ht1 & Hs1 & Hr1).
  { revert Hone. unfold reload_service, on_router. run_prog.
    destruct (is_service_allowed _ _); run_prog; intros ([] & Es & Hr)%call_rpc_inv; split_and!; try done;
      by split. }
  destruct (IH _ _ Hrun) as (Ht2 & Hs2 & Hr2). split_and!.
  - by eapply same_topics_trans.
  - rewrite Hs2, Hs1, (st_allowed _ _ Ht1). done.
  - intros s'. by rewrite Hr2, Hr1.
Qed.

Lemma reload_services_inv r w r' w' :
  map_wf (current_services_ r) ->
  (forall s, is_Some (find s (rpc_bridges_ r)) <-> is_Some (find s (current_services_ r))) ->
  for_each (keys (current_services_ r)) reload_service (r, w) = (Ok tt, (r', w')) ->
  same_topics r r' /\ services_inv r'.
Proof.
  intros Hw Hi (Ht & Es & Hr)%reload_services_loop. split; [done|].
  destruct (fold_assign_keys (is_service_allowed (allowed_topics_ r)) (keys (current_services_ r))
    (current_services_ r) Hw (fun k Hk => elem_of_keys_find _ _ Hw Hk)) as [Hk Hwf].
  assert (forall s, s ∈ keys (current_services_ r) ->
    find s (current_services_ r') = Some (is_service_allowed (allowed_topics_ r) s)) as Hst.
  { intros s Hin. rewrite Es. apply fold_assign_find; [done|]. intros k Hin' E. symmetry.
    by apply (keys_keqv_unique (current_services_ r)). }
  split; [by rewrite Es| |].
  - intros s. rewrite Es, Hk, <- Es, (st_allowed _ _ Ht). apply Hst.
  - intros s. rewrite Hr, Hi. split.
    + intros [v Hv]. destruct (find_elem_of _ _ _ Hv) as (k & E & Hin). rewrite (find_keqv _ _ _ E), Hst; [by eexists|].
      apply elem_of_keys. by exists v.
    + intros [v Hv]. destruct (find_elem_of _ _ _ Hv) as (k & E & Hin). rewrite (find_keqv _ _ _ E).
      apply elem_of_keys_find; [done|]. rewrite <- Hk, <- Es. apply elem_of_keys. by exists v.
Qed.

(** *** Endpoints, start, stop and reload *)

Lemma endpoint_callbacks_inv (m : prog router_state unit) r w r' w' e :
  m = discovered_endpoint_ e \/ m = removed_endpoint_ e ->
  router_inv r -> m (r, w) = (Ok tt, (r', w')) ->
  router_inv r' /\ enabled_ r' = enabled_ r /\ allowed_topics_ r' = allowed_topics_ r.
Proof.
  intros Hm [Ht Hs]. destruct Hm as [->| ->].
  - unfold discovered_endpoint_. destruct (is_reader e); [|by intros [= <- <-]]. cbv zeta.
    destruct (is_service_topic _); cbn [negb].
    + destruct (is_server_endpoint e); [|by intros [= <- <-]]. unfold rpc_topic_of.
      destruct (RPCTopic_of _) as [rpc|]; run_prog; [|done].
      intros [Hst Hs']%discovered_service_inv; [|done].
      split; [split; [by eapply topics_inv_rest|done]|by destruct Hst].
    + intros (Ht' & Hr & _)%discovered_topic_inv; [|done].
      split; [split; [done|by eapply services_inv_rest]|by destruct Hr].
  - unfold removed_endpoint_. cbv zeta. destruct (is_service_topic _); [|by intros [= <- <-]].
    destruct (is_server_endpoint e); [|by intros [= <- <-]]. unfold rpc_topic_of.
    destruct (RPCTopic_of _) as [rpc|]; run_prog; [|done].
    intros [Hst Hs']%removed_service_inv; [|done].
    split; [split; [by eapply topics_inv_rest|done]|by destruct Hst].
Qed.

Lemma start_spec r w code r' w' :
  router_inv r -> enabled_ r = false -> start_ (r, w) = (Ok code, (r', w')) ->
  code = RETCODE_OK /\ router_inv r' /\ enabled_ r' = true /\ allowed_topics_ r' = allowed_topics_ r /\
  keys (current_topics_ r') = keys (current_topics_ r).
Proof.
  intros [Ht Hs] He. unfold start_. rewrite (bind_ok get _ _ (r, w) (r, w)) by done. cbn [fst snd].
  rewrite He. cbn [negb].
  intros ([] & s1 & [= <-] & ([] & s2 & [= <-] & ([] & [r3 w3] & Hact & Hrest)%bind_inv_ok)%bind_inv_ok)%bind_inv_ok.
  destruct Ht as [Hw Hst Hb].
  apply activate_all_inv in Hact as (Ht3 & Hr3 & Hk3); [|done|done|done|].
  2: { intros t Hin. change (find t (current_topics_ r) = Some false). by rewrite (Hst t Hin), He. }
  assert (services_inv r3) as Hs3 by (eapply services_inv_rest; [exact Hr3|by destruct Hs]).
  revert Hrest. intros (l & s4 & [= <- <-] & ([] & [r5 w5] & Hloop & [= <- <- <-])%bind_inv_ok)%bind_inv_ok.
  destruct (for_services_inv _ _ _ _ _ Hs3 Hloop) as [Hst5 Hs5]. destruct Hr3 as [Ea _ _ _ Ee].
  split_and!; [done|split; [by eapply topics_inv_rest|done]|..].
  - by rewrite (st_enabled _ _ Hst5), Ee.
  - by rewrite (st_allowed _ _ Hst5), Ea.
  - by rewrite (st_topics _ _ Hst5).
Qed.

Lemma stop_spec r w code r' w' :
  router_inv r -> enabled_ r = true -> stop_ (r, w) = (Ok code, (r', w')) ->
  code = RETCODE_OK /\ router_inv r' /\ enabled_ r' = false /\ allowed_topics_ r' = allowed_topics_ r /\
  keys (current_topics_ r') = keys (current_topics_ r) /\ rpc_bridges_ r' = rpc_bridges_ r.
Proof.
  intros [Ht Hs] He. unfold stop_. rewrite (bind_ok get _ _ (r, w) (r, w)) by done. cbn [fst snd]. rewrite He.
  intros ([] & s1 & [= <-] & ([] & s2 & [= <-] & ([] & [r3 w3] & Hact & [= <- <- <-])%bind_inv_ok)%bind_inv_ok)%bind_inv_ok.
  destruct Ht as [Hw Hst Hb]. apply deactivate_all_inv in Hact as (Ht3 & Hr3 & Hk3); [|done|done|done].
  assert (services_inv r3) as Hs3 by (eapply services_inv_rest; [exact Hr3|by destruct Hs]).
  destruct Hr3 as [Ea Es Er Ec Ee]. by split_and!.
Qed.

(** The part of [reload_configuration] that changes the router. *)
Lemma reload_spec c r w code r' w' :
  router_inv r -> reload_is_valid c = true -> enabled_ r = true ->
  AllowedTopicList_eqb are_set_of_ptr_equal (allowed_of c) (allowed_topics_ r) &&
    is_nil (new_builtin_topics c (current_topics_ r)) = false ->
  reload_configuration c (r, w) = (Ok code, (r', w')) ->
  code = RETCODE_OK /\ router_inv r' /\ enabled_ r' = true /\ allowed_topics_ r' = allowed_of c /\
  configuration_ r' = conf_reload (configuration_ r) c /\
  (forall t, is_Some (find t (current_topics_ r)) -> is_Some (find t (current_topics_ r'))) /\
  (forall t, t ∈ set_elems (new_builtin_topics c (current_topics_ r)) -> is_Some (find t (current_topics_ r'))).
Proof.
  intros [Ht Hs] Hv He Hnew. unfold reload_configuration. rewrite Hv. cbn [negb].
  rewrite (bind_ok get _ _ (r, w) (r, w)) by done. cbn [fst snd]. rewrite He. cbv zeta. rewrite Hnew.
  set (builtin := set_elems (new_builtin_topics c (current_topics_ r))).
  intros ([] & s1 & [= <-] & (l & s2 & [= <- <-] & ([] & [r3 w3] & Hloop & Hrest)%bind_inv_ok)%bind_inv_ok)%bind_inv_ok.
  destruct Ht as [Hw Hst Hb]. cbn [fst snd] in Hloop.
  apply (reload_topics_inv (set_allowed (allowed_of c) r)) in Hloop as (Ht3 & Hr3 & Hk3); [|done|done|done].
  revert Hrest. intros ([] & [r4 w4] & Hdisc & (l & s5 & [= <- <-] & ([] & [r6 w6] & Hsv & Hend)%bind_inv_ok)%bind_inv_ok)%bind_inv_ok.
  destruct (discovered_topics_inv _ _ _ _ _ Ht3 Hdisc) as (Ht4 & Hr4 & Hmono & Hin).
  pose proof (same_rest_trans _ _ _ Hr3 Hr4) as [Ea Es Er Ec Ee].
  destruct Hs as [Hsw Hss Hsr]. cbn [fst snd] in Hsv.
  apply reload_services_inv in Hsv as (Hst6 & Hs6); [|by rewrite Es|by intros s; rewrite Es, Er; apply Hsr].
  destruct (topics_inv_rest _ _ Hst6 Ht4) as [Hw6 Htt6 Hb6]. destruct Hs6 as [Hsw6 Hss6 Hsr6].
  destruct Hst6 as [Ea6 Et6 Eb6 Ec6 Ee6].
  revert Hend. unfold on_router. run_prog. intros [= <- <- <-].
  split_and!; [done|by split|by rewrite <- He; cbn; rewrite Ee6, Ee|by cbn; rewrite Ea6, Ea|by cbn; rewrite Ec6, Ec|..].
  - intros t Hsome. cbn. rewrite Et6. apply Hmono.
    destruct Hsome as [v Hv']. destruct (find_elem_of _ _ _ Hv') as (k & Ek & Hk). rewrite (find_keqv _ _ _ Ek).
    apply elem_of_keys_find; [apply Ht3|]. rewrite Hk3. apply elem_of_keys. by exists v.
  - intros t Hin'. cbn. rewrite Et6. by apply Hin.
Qed.

(** The participants live in the world. *)
Lemma init_participant_loop (l : list (Z * ParticipantConfiguration)) (s s' : router_state) :
  for_each l (fun p => init_participant p.2) s = (Ok tt, s') -> s'.1 = s.1.
Proof.
  revert s. induction l as [|[a p] l IH]; intros s; [by intros [= <-]|]. cbn [for_each snd].
  intros ([] & s1 & Hone & Hrun)%bind_inv_ok. rewrite (IH _ Hrun). revert Hone.
  unfold init_participant, router_in_world, zoom, try_catch. run_prog.
  destruct (create_participant p s.2) as [[[o|]|e] w4]; cbn [fst snd]; [|done..].
  destruct (_ || _); [done|]. cbn [fst snd].
  destruct (db_add_participant_ (obj_id o) o w4) as [[[]|e] w5]; [by intros [= <-]|]. by destruct (decide _).
Qed.

Lemma init_participants_router r w r' w' :
  init_participants_ (r, w) = (Ok tt, (r', w')) -> r' = r.
Proof.
  unfold init_participants_. intros (l & s4 & [= <- <-] & ([] & [r5 w5] & Hl & Hlast)%bind_inv_ok)%bind_inv_ok.
  apply init_participant_loop in Hl. cbn [fst] in Hl. revert Hlast. unfold gets. run_prog.
  destruct (_ <? _)%nat; [done|]. by intros [= <- _].
Qed.

Lemma construct_inv c w r w' :
  router_construct (router_initial c, w) = (Ok tt, (r, w')) ->
  router_inv r /\ enabled_ r = false /\ allowed_topics_ r = allowed_of (reload_part c).
Proof.
  unfold router_construct. rewrite (bind_ok get _ _ (router_initial c, w) (router_initial c, w)) by done. cbn [fst snd].
  destruct (router_is_valid _); [|done]. cbn [negb].
  intros ([] & s1 & [= <-] & ([] & s2 & [= <-] & ([] & [r3 w3] & Hpart & Hrest)%bind_inv_ok)%bind_inv_ok)%bind_inv_ok.
  cbn [fst snd] in Hpart. set (r2 := set_allowed _ _) in Hpart.
  apply init_participants_router in Hpart as ->.
  revert Hrest. intros ([] & [r4 w4] & Hb & [= <- <-])%bind_inv_ok.
  revert Hb. unfold init_bridges_. rewrite (bind_ok (gets _) _ _ (pointees (builtin_topics (reload_part c))) (r2, w3)) by done.
  rewrite (for_each_fmap snd). intros (Ht & Hr & _)%discovered_topics_inv;
    [|by split; [apply map_wf_nil|intros t Hin; by apply not_elem_of_nil in Hin|done]].
  split_and!; [split; [done|]| |].
  - eapply services_inv_rest; [exact Hr|]. split; [apply map_wf_nil| |intros t; split; by intros [? ?]].
    intros t Hin. by apply not_elem_of_nil in Hin.
  - by rewrite (sr_enabled _ _ Hr).
  - by rewrite (sr_allowed _ _ Hr).
Qed.

(** A router after any calls that return; the world changes in any way between them. *)
Inductive router_reachable (c : DDSRouterConfiguration F) : DDSRouterImpl -> Prop :=
| rr_constructed w r w' :
    router_construct (router_initial c, w) = (Ok tt, (r, w')) -> router_reachable c r
| rr_start r w code r' w' :
    router_reachable c r -> start_ (r, w) = (Ok code, (r', w')) -> router_reachable c r'
| rr_stop r w code r' w' :
    router_reachable c r -> stop_ (r, w) = (Ok code, (r', w')) -> router_reachable c r'
| rr_reload n r w code r' w' :
    router_reachable c r -> reload_configuration n (r, w) = (Ok code, (r', w')) -> router_reachable c r'
| rr_discovered e r w r' w' :
    router_reachable c r -> discovered_endpoint_ e (r, w) = (Ok tt, (r', w')) -> router_reachable c r'
| rr_removed e r w r' w' :
    router_reachable c r -> removed_endpoint_ e (r, w) = (Ok tt, (r', w')) -> router_reachable c r'.

Lemma reachable_router_inv c r : router_reachable c r -> router_inv r.
Proof.
  induction 1 as [w r w' H|r w code r' w' _ IH H|r w code r' w' _ IH H|n r w code r' w' _ IH H
    |e r w r' w' _ IH H|e r w r' w' _ IH H].
  - by eapply construct_inv.
  - destruct (enabled_ r) eqn:E; [|by eapply start_spec].
    revert H. unfold start_. run_prog. rewrite E. cbn [negb]. by intros [= _ <- <-].
  - destruct (enabled_ r) eqn:E; [by eapply stop_spec|].
    revert H. unfold stop_. run_prog. rewrite E. by intros [= _ <- <-].
  - destruct (reload_is_valid n) eqn:Ev; [|revert H; unfold reload_configuration; by rewrite Ev].
    destruct (enabled_ r) eqn:E; [|revert H; unfold reload_configuration; rewrite Ev; cbn [negb]; run_prog; rewrite E;
      by intros [= _ <- <-]].
    destruct (AllowedTopicList_eqb are_set_of_ptr_equal (allowed_of n) (allowed_topics_ r) &&
      is_nil (new_builtin_topics n (current_topics_ r))) eqn:En; [|by eapply reload_spec].
    revert H. unfold reload_configuration. rewrite Ev. cbn [negb]. run_prog. rewrite E, En. by intros [= _ <- <-].
  - eapply endpoint_callbacks_inv; [by left|done|exact H].
  - eapply endpoint_callbacks_inv; [by right|done|exact H].
Qed.

(** A builtin topic is among the current ones or among the new ones. *)
Lemma new_builtin_covers c (m : std_map DdsTopic bool) p :
  p ∈ pointees (builtin_topics c) ->
  is_Some (find p.2 m) \/ exists t, t ∈ set_elems (new_builtin_topics c m) /\ keqv p.2 t = true.
Proof.
  intros Hp. destruct (find p.2 m) as [v|] eqn:E; [left; by eexists|right].
  assert (set_mem p.2 (new_builtin_topics c m) = true) as Hmem.
  { unfold new_builtin_topics. generalize ([] : std_set DdsTopic) as acc.
    assert (forall l acc, set_mem p.2 acc = true -> set_mem p.2 (fold_left (fun acc (q : Z * DdsTopic) =>
      match find q.2 m with None => set_insert q.2 acc | Some _ => acc end) l acc) = true) as Hkeep.
    { intros l. induction l as [|[a q] l IH]; intros acc Hacc; [done|]. simpl. apply IH.
      destruct (find q m); [done|]. by rewrite set_mem_insert, Hacc, orb_true_r. }
    induction (pointees (builtin_topics c)) as [|q l IH]; intros acc; [by apply not_elem_of_nil in Hp|].
    apply elem_of_cons in Hp as [->|Hp]; [|by apply IH]. simpl. apply Hkeep. rewrite E.
    by rewrite set_mem_insert, keqv_refl. }
  unfold set_mem, contains in Hmem. destruct (find p.2 (new_builtin_topics c m)) as [u|] eqn:Ef; [|done].
  destruct (find_elem_of _ _ _ Ef) as (t & Et & Hin). exists t. split; [|done]. apply elem_of_keys. by exists u.
Qed.

(** ** Properties *)

(** C2: which topics are forwarded.  After the construction and any sequence of
    starts, stops, reloads and endpoints discovered and removed that return: every
    topic discovered is active exactly when the router is enabled and the topic is
    allowed by the current lists; the bridge of a topic, and each of its tracks, is
    enabled exactly when the topic is active; every service discovered has a bridge and
    is active exactly when it is allowed. *)
Theorem router_forwards_allowed_topics c r :
  router_reachable c r ->
  (forall t, t ∈ keys (current_topics_ r) ->
     find t (current_topics_ r) = Some (enabled_ r && is_topic_allowed (allowed_topics_ r) t)) /\
  (forall t b, t ∈ keys (current_topics_ r) -> find t (bridges_ r) = Some (Some b) ->
     b_enabled_ b = enabled_ r && is_topic_allowed (allowed_topics_ r) t /\
     Forall (fun e => Track.enabled_ e.2 = b_enabled_ b) (b_tracks_ b)) /\
  (forall s, s ∈ keys (current_services_ r) ->
     find s (current_services_ r) = Some (is_service_allowed (allowed_topics_ r) s) /\
     is_Some (find s (rpc_bridges_ r))).
Proof.
  intros [[Hw Ht Hb] [Hsw Hs Hr]]%reachable_router_inv. split_and!; [done| |].
  - intros t b Hin Hf. destruct (Hb t b Hf) as [Hwf Hst]. rewrite Ht in Hst by done. by injection Hst as ->.
  - intros s Hin. split; [by apply Hs|]. apply Hr. by apply elem_of_keys_find.
Qed.

(** C21: [start] and [stop].  Starting an enabled router or stopping a disabled one
    returns [RETCODE_PRECONDITION_NOT_MET] and changes nothing.  When they return
    otherwise it is [RETCODE_OK]: after [start] the topics that are active are those
    allowed, after [stop] none, among the same topics. *)
Theorem router_start_stop r w :
  router_inv r ->
  (enabled_ r = true -> start_ (r, w) = (Ok RETCODE_PRECONDITION_NOT_MET, (r, w))) /\
  (enabled_ r = false -> stop_ (r, w) = (Ok RETCODE_PRECONDITION_NOT_MET, (r, w))) /\
  (enabled_ r = false -> forall code r' w', start_ (r, w) = (Ok code, (r', w')) ->
     code = RETCODE_OK /\ enabled_ r' = true /\ keys (current_topics_ r') = keys (current_topics_ r) /\
     forall t, t ∈ keys (current_topics_ r) ->
       find t (current_topics_ r') = Some (is_topic_allowed (allowed_topics_ r) t)) /\
  (enabled_ r = true -> forall code r' w', stop_ (r, w) = (Ok code, (r', w')) ->
     code = RETCODE_OK /\ enabled_ r' = false /\ keys (current_topics_ r') = keys (current_topics_ r) /\
     forall t, t ∈ keys (current_topics_ r) -> find t (current_topics_ r') = Some false).
Proof.
  intros Hinv. split_and!.
  - intros He. unfold start_. run_prog. by rewrite He.
  - intros He. unfold stop_. run_prog. by rewrite He.
  - intros He code r' w' (Hc & [[_ Hst _] _] & He' & Ha & Hk)%start_spec; [|done..]. split_and!; try done.
    intros t Ht. rewrite <- Hk in Ht. by rewrite (Hst t Ht), He', Ha.
  - intros He code r' w' (Hc & [[_ Hst _] _] & He' & _ & Hk & _)%stop_spec; [|done..]. split_and!; try done.
    intros t Ht. rewrite <- Hk in Ht. by rewrite (Hst t Ht), He'.
Qed.

(** C20: [reload_configuration], on every branch.  An invalid configuration throws
    [ConfigurationException]; a router that is not enabled returns
    [RETCODE_NOT_ENABLED]; the same lists with no new builtin topic return
    [RETCODE_NO_DATA]; none of these changes anything.  Otherwise, when it returns, it
    returns [RETCODE_OK]: the lists and the configuration are the new ones, no topic is
    lost, every builtin topic is known, and every topic is active exactly when the new
    lists allow it. *)
Theorem router_reload c r w :
  router_inv r ->
  (reload_is_valid c = false -> reload_configuration c (r, w) = (Throw ConfigurationException, (r, w))) /\
  (reload_is_valid c = true -> enabled_ r = false ->
     reload_configuration c (r, w) = (Ok RETCODE_NOT_ENABLED, (r, w))) /\
  (reload_is_valid c = true -> enabled_ r = true ->
     let unchanged := AllowedTopicList_eqb are_set_of_ptr_equal (allowed_of c) (allowed_topics_ r) &&
       is_nil (new_builtin_topics c (current_topics_ r)) in
     if unchanged then reload_configuration c (r, w) = (Ok RETCODE_NO_DATA, (r, w))
     else forall code r' w', reload_configuration c (r, w) = (Ok code, (r', w')) ->
       code = RETCODE_OK /\ allowed_topics_ r' = allowed_of c /\ reload_part (configuration_ r') = c /\
       (forall t, is_Some (find t (current_topics_ r)) -> is_Some (find t (current_topics_ r'))) /\
       (forall p, p ∈ pointees (builtin_topics c) -> is_Some (find p.2 (current_topics_ r'))) /\
       (forall t, t ∈ keys (current_topics_ r') ->
          find t (current_topics_ r') = Some (is_topic_allowed (allowed_of c) t))).
Proof.
  intros Hinv. split_and!.
  - intros Hv. unfold reload_configuration. by rewrite Hv.
  - intros Hv He. unfold reload_configuration. rewrite Hv. cbn [negb]. run_prog. by rewrite He.
  - intros Hv He. cbv zeta. destruct (_ && _) eqn:En.
    { unfold reload_configuration. rewrite Hv. cbn [negb]. run_prog. by rewrite He, En. }
    intros code r' w' (Hc & [[_ Hst _] _] & He' & Ha & Hconf & Hmono & Hnew)%reload_spec; [|done..].
    split_and!; try done.
    + by rewrite Hconf.
    + intros p Hp. destruct (new_builtin_covers c (current_topics_ r) p Hp) as [?|(t & Ht & E)]; [by apply Hmono|].
      rewrite (find_keqv _ _ _ E). by apply Hnew.
    + intros t Ht. by rewrite (Hst t Ht), He', Ha.
Qed.

(** Services go on after [stop].  Stopping the router leaves every RPC bridge as it
    was: one that is enabled stays enabled, and goes on taking the requests and replies
    that arrive. *)
Theorem stop_leaves_services_enabled r w code r' w' s b :
  router_inv r -> stop_ (r, w) = (Ok code, (r', w')) ->
  find s (rpc_bridges_ r) = Some b -> r_enabled_ b = true ->
  exists b', find s (rpc_bridges_ r') = Some b' /\ r_enabled_ b' = true.
Proof.
  intros Hinv Hstop Hf He. exists b. destruct (enabled_ r) eqn:E.
  - destruct (stop_spec _ _ _ _ _ Hinv E Hstop) as (_ & _ & _ & _ & _ & ->). done.
  - revert Hstop. unfold stop_. run_prog. rewrite E. by intros [= _ <- <-].
Qed.

(** What an endpoint discovered does.  A writer changes nothing.  A reader of a
    topic that is not of a service makes its topic known, with the status it has to
    have; if the topic was known already nothing changes.  The services are left as
    they were. *)
Theorem discovered_reader_spec e r w r' w' :
  router_inv r -> is_service_topic (Endpoint.topic_ e) = false ->
  discovered_endpoint_ e (r, w) = (Ok tt, (r', w')) ->
  if is_reader e then
    current_services_ r' = current_services_ r /\
    match find (Endpoint.topic_ e) (current_topics_ r) with
    | Some _ => r' = r
    | None => find (Endpoint.topic_ e) (current_topics_ r') =
                Some (enabled_ r && is_topic_allowed (allowed_topics_ r) (Endpoint.topic_ e))
    end
  else r' = r.
Proof.
  intros [Ht _] Hns. unfold discovered_endpoint_. rewrite Hns. destruct (is_reader e); [|by intros [= <- <-]].
  cbn [negb]. intros Hrun. pose proof (discovered_topic_inv _ _ _ _ _ Ht Hrun) as (_ & Hr & _).
  split; [by apply Hr|]. revert Hrun. unfold discovered_topic_, on_router. run_prog.
  destruct (find (Endpoint.topic_ e) (current_topics_ r)) as [v|] eqn:E; [by intros [= <- <-]|]. run_prog.
  rewrite emplace_absent by done. destruct (_ && _).
  - intros Hst%activate_status. by rewrite (ss_topics _ _ _ _ Hst), find_assign, keqv_refl.
  - intros [= <- <-]. cbn [current_topics_ set_topics]. by rewrite find_assign, keqv_refl.
Qed.

(** A topic whose bridge cannot be built.  When the construction of the bridge
    throws an [InitializationException], the activation of the topic returns as if it
    had worked: the topic is active and has no bridge.  If the element of the map was
    made before the bridge, what is left in the map is a null pointer, and the next
    activation or deactivation of the topic dereferences it. *)
Theorem failed_bridge_topic_active topic r w w1 :
  find topic (bridges_ r) = None -> DDSBridge_new topic true w = (Throw InitializationException, w1) ->
  exists r', activate_topic_ topic (r, w) = (Ok tt, (r', w1)) /\
    find topic (current_topics_ r') = Some true /\
    find topic (bridges_ r') = (if subscript_first then Some None else None) /\
    (subscript_first = true ->
       result (activate_topic_ topic) (r', w1) = Throw UndefinedBehaviour /\
       result (deactivate_topic_ topic) (r', w1) = Throw UndefinedBehaviour).
Proof.
  intros Hnone Hfail. set (r1 := set_topics (assign topic true (current_topics_ r)) r).
  set (r2 := if subscript_first then set_bridges (emplace topic None (bridges_ r1)) r1 else r1).
  assert (find topic (bridges_ r2) = if subscript_first then Some None else None) as Hb2.
  { unfold r2. destruct subscript_first; [|done]. cbn [bridges_ set_bridges r1 set_topics].
    by rewrite find_emplace, keqv_refl, Hnone. }
  exists r2. split_and!; [| |done|].
  - unfold activate_topic_, on_router. run_prog. fold r1. change (bridges_ r1) with (bridges_ r). rewrite Hnone.
    unfold create_new_bridge, try_catch.
    rewrite (bind_ok _ _ (r1, w) tt (r2, w)) by (unfold r2; by destruct subscript_first).
    unfold router_in_world, zoom. run_prog. by rewrite Hfail.
  - assert (current_topics_ r2 = assign topic true (current_topics_ r)) as -> by (unfold r2; by destruct subscript_first).
    by rewrite find_assign, keqv_refl.
  - intros Hfirst. rewrite Hfirst in Hb2. unfold result, activate_topic_, deactivate_topic_, on_router. run_prog.
    cbn [bridges_ set_topics]. by rewrite Hb2.
Qed.

End Router.

(** ** The router over the participants of the model *)
Section Concrete.
Context {CU : CppUtils} {FD : FastDDS} {MA : Malloc}.
Variable rtps_writer_ : BaseConf -> DdsTopic -> aux_world -> outcome writer_obj.
Variable rtps_reader_ : BaseConf -> DdsTopic -> aux_world -> outcome reader_obj.
Variable default_data : DataReceived.
(** [init()] of an RTPS participant, and the GUID Fast DDS gives to a reader *)
Variable rtps_init : ParticipantConfiguration -> outcome unit.
Variable rtps_guid : nat -> Guid.

(** The reader represented by an object of the model. *)
Definition base_reader (r : nat) (w : pworld) : option DummyReader :=
  match aw_readers (pw_aux w) !! r with Some (DummyReaderObj d) => Some d | _ => None end.

#[export] Instance pw_rpc : RpcWorld pworld := {|
  rpc_participants := pw_participants rtps_writer_ rtps_reader_ default_data;
  reader_guid r _ := rtps_guid r;
  reader_participant_id r w :=
    match base_reader r w with Some d => br_participant_id_ (dr_base d) | None => ParticipantId_invalid end;
  reader_topic r w :=
    match base_reader r w with Some d => br_topic_ (dr_base d) | None => DdsTopic_of 0 "" "" end;
  get_unread_count r w :=
    match base_reader r w with Some d => Z.of_nat (length (data_to_send_ d)) | None => 0%Z end
|}.

(** [ParticipantFactory::create_participant]: the object of each class *)
Definition pw_create_participant (c : ParticipantConfiguration) : prog pworld (option IParticipant) := fun w =>
  let b := conf_base c in
  match create_participant_class c with
  | Throw e => (Throw e, w)
  | Ok class_blank => (Ok (Some (BlankParticipant (conf_id b))), w)
  | Ok class_dummy => (Ok (Some (BaseParticipantObj (BaseParticipant_of b))), w)
  | Ok class_echo =>
      match c with
      | EchoConfiguration _ echo_data _ verbose =>
          (Ok (Some (EchoParticipantObj (mkEchoParticipant (conf_id b) echo_data verbose))), w)
      | _ => (Throw UndefinedBehaviour, w)
      end
  | Ok class_simple | Ok class_discovery_server | Ok class_initial_peers =>
      match rtps_init c with
      | Ok _ => (Ok (Some (BaseParticipantObj (BaseParticipant_of b))), w)
      | Throw e => (Throw e, w)
      end
  end.

Definition participant_id (p : IParticipant) : ParticipantId :=
  match p with
  | BlankParticipant id => id
  | EchoParticipantObj e => ep_id_ e
  | BaseParticipantObj b => conf_id (bp_configuration_ b)
  end.

Definition participant_kind (p : IParticipant) : ParticipantKind :=
  match p with
  | BlankParticipant _ => kind_blank
  | EchoParticipantObj _ => kind_echo
  | BaseParticipantObj b => conf_kind (bp_configuration_ b)
  end.

(** The thread pool and the discovery database have no state here. *)
#[export] Instance pw_router : RouterWorld pworld := {|
  router_rpc := pw_rpc;
  thread_pool_enable w := w;
  thread_pool_disable w := w;
  set_default_history_depth _ w := w;
  discovery_start w := w;
  discovery_stop w := w;
  participant_obj := IParticipant;
  obj_id := participant_id;
  obj_kind := participant_kind;
  create_participant := pw_create_participant;
  remove_participant _ w := w;
  db_add_participant_ := add_participant_;
  db_pop_ := pop_first_participant;
  db_size w := length (participants_ w)
|}.

(** *** Construction *)
Context {IL : IPLocator} {F : Type} {FT : DdsFilterTopic F}.
Variable are_set_of_ptr_equal : (F -> F -> bool) -> filter_set F -> filter_set F -> bool.
Variable subscript_first : bool.

#[local] Notation conf_ids l := ((fun c : Z * ParticipantConfiguration => conf_id (conf_base c.2)) <$> l).

(** The kinds of participant that use Fast DDS, and that they can be made. *)
Definition uses_fast_dds (cls : participant_class) : bool :=
  match cls with class_simple | class_discovery_server | class_initial_peers => true | _ => false end.

Definition rtps_ready (c : ParticipantConfiguration) : Prop :=
  forall cls, create_participant_class c = Ok cls -> uses_fast_dds cls = true -> rtps_init c = Ok tt.

Lemma pw_create_participant_ok c w :
  conf_is_valid c = true -> check_correct_configuration_object_ c = true -> rtps_ready c ->
  exists p, pw_create_participant c w = (Ok (Some p), w) /\ participant_id p = conf_id (conf_base c) /\
    participant_kind p = conf_kind (conf_base c).
Proof.
  intros Hv Hc Hi. destruct (conf_has_class c Hv Hc) as [cls Hcls]. specialize (Hi cls Hcls).
  unfold pw_create_participant. rewrite Hcls. revert Hi Hcls. unfold create_participant_class.
  destruct (conf_kind (conf_base c)) eqn:Ek; try done;
    repeat match goal with |- context [if ?x then _ else _] => destruct x eqn:? end; intros Hi [= <-];
    try rewrite (Hi eq_refl); try (eexists; split_and!; [done|done|by rewrite ?Ek]).
  destruct c; try done. eexists. by split_and!.
Qed.

Lemma base_valid_facts c :
  conf_is_valid c = true ->
  ParticipantId_is_valid (conf_id (conf_base c)) = true /\ conf_kind (conf_base c) <> kind_invalid.
Proof.
  intros H%conf_valid_base. split; [|by apply base_valid_kind]. unfold base_is_valid in H.
  by destruct (ParticipantId_is_valid _).
Qed.

Lemma init_participant_ok c (r : DDSRouterImpl) w :
  conf_is_valid c = true -> check_correct_configuration_object_ c = true -> rtps_ready c ->
  find (conf_id (conf_base c)) (participants_ w) = None ->
  exists p, init_participant (F := F) c (r, w) =
    (Ok tt, (r, pw_set_participants (assign (conf_id (conf_base c)) p (participants_ w)) w)).
Proof.
  intros Hv Hc Hi Hf. destruct (pw_create_participant_ok c w Hv Hc Hi) as (p & Hrun & Hid & Hk).
  destruct (base_valid_facts c Hv) as [Hidv Hkv]. exists p.
  unfold init_participant, router_in_world, zoom, try_catch. run_prog.
  cbn [create_participant pw_router obj_id obj_kind db_add_participant_]. rewrite Hrun. cbn [fst snd].
  rewrite Hid, Hk, Hidv, bool_decide_false by done. cbn [negb orb]. unfold add_participant_. run_prog.
  by rewrite Hf.
Qed.

Lemma init_loop_ok l (r : DDSRouterImpl) w :
  Forall (fun c => conf_is_valid c.2 = true /\ check_correct_configuration_object_ c.2 = true) l ->
  Forall (fun c => rtps_ready c.2) l -> NoDup (conf_ids l) ->
  (forall id, id ∈ conf_ids l -> find id (participants_ w) = None) ->
  exists w', for_each l (fun p => init_participant (F := F) p.2) (r, w) = (Ok tt, (r, w')) /\
    forall id, is_Some (find id (participants_ w')) <-> id ∈ conf_ids l \/ is_Some (find id (participants_ w)).
Proof.
  revert w. induction l as [|[a c] l IH]; intros w Hall Hinit Hnd Hfresh.
  { exists w. split; [done|]. intros id. split; [by right|]. by intros [?%not_elem_of_nil|?]. }
  apply Forall_cons in Hall as [[Hv Hc] Hall]. apply Forall_cons in Hinit as [Hi Hinit].
  cbn [fmap list_fmap snd] in *. apply NoDup_cons in Hnd as [Hnin Hnd].
  destruct (init_participant_ok c r w Hv Hc Hi) as (p & Hone); [apply Hfresh, list_elem_of_here|].
  set (w1 := pw_set_participants _ w) in Hone.
  assert (forall id, id <> conf_id (conf_base c) -> find id (participants_ w1) = find id (participants_ w)) as Hne.
  { intros id Hid. apply find_assign_ne, ParticipantId_keqv_ne, Hid. }
  destruct (IH w1 Hall Hinit Hnd) as (w' & Hrun & Hids).
  { intros id Hid. rewrite Hne; [by apply Hfresh, list_elem_of_further|]. intros ->. by apply Hnin. }
  exists w'. split; [cbn [for_each snd]; by rewrite (bind_ok _ _ _ _ _ Hone)|]. intros id. rewrite Hids, elem_of_cons.
  destruct (decide (id = conf_id (conf_base c))) as [->|Hid].
  - split; [by left; left|]. intros _. right. unfold w1. cbn [participants_ pw_set_participants].
    rewrite find_assign_eq by apply keqv_refl. by eexists.
  - rewrite Hne by done. naive_solver.
Qed.

(** While the router is disabled a topic discovered is only noted down. *)
Lemma discovered_topics_disabled l (r : DDSRouterImpl) (w : pworld) :
  enabled_ r = false ->
  exists r', for_each l (discovered_topic_ (F := F) subscript_first) (r, w) = (Ok tt, (r', w)) /\ enabled_ r' = false.
Proof.
  revert r. induction l as [|t l IH]; intros r He; [by exists r|]. cbn [for_each].
  assert (exists r1, discovered_topic_ subscript_first t (r, w) = (Ok tt, (r1, w)) /\ enabled_ r1 = false) as (r1 & Hone & He1).
  { unfold discovered_topic_, on_router. run_prog. destruct (find t (current_topics_ r)); [by exists r|]. run_prog.
    rewrite He. by eexists. }
  rewrite (bind_ok _ _ _ _ _ Hone). by apply IH.
Qed.

(** A valid configuration makes a router, if the participants over Fast DDS can be made:
    the construction returns, with one participant for each configured id and no other,
    every builtin topic known and none active, and the router disabled. *)
Lemma valid_configuration_makes_router c w :
  router_is_valid c = true -> Forall (fun p => rtps_ready p.2) (pointees (participants_configurations c)) ->
  participants_ w = [] ->
  exists r w', router_construct (F := F) subscript_first (router_initial c, w) = (Ok tt, (r, w')) /\
    (forall id, is_Some (find id (participants_ w')) <->
       id ∈ conf_ids (pointees (participants_configurations c))) /\
    (forall p, p ∈ pointees (builtin_topics (reload_part c)) -> find p.2 (current_topics_ r) = Some false) /\
    enabled_ r = false.
Proof.
  intros Hvalid Hinit Hempty. pose proof (proj1 (router_is_valid_iff c) Hvalid) as (_ & _ & Hne & Hall & Hnd).
  set (r2 := set_allowed (allowed_of (reload_part c)) (router_initial c)).
  destruct (init_loop_ok _ r2 w Hall Hinit Hnd) as (w' & Hloop & Hids).
  { intros id _. by rewrite Hempty. }
  assert (forall id, is_Some (find id (participants_ w')) <-> id ∈ conf_ids (pointees (participants_configurations c)))
    as Hids'.
  { intros id. rewrite Hids, Hempty. split; [|by left]. by intros [?|[? ?]]. }
  assert (init_participants_ (r2, w) = (Ok tt, (r2, w'))) as Hpart.
  { unfold init_participants_. rewrite (bind_ok (gets _) _ _ (pointees (participants_configurations c)) (r2, w)) by done.
    rewrite (bind_ok _ _ _ _ _ Hloop). unfold gets. run_prog. cbn [db_size pw_router].
    destruct (participants_ w') as [|x l] eqn:Ew; [|done]. exfalso.
    destruct (pointees (participants_configurations c)) as [|p l]; [done|].
    destruct (proj2 (Hids' (conf_id (conf_base p.2)))) as [? Hx]; [apply list_elem_of_here|done]. }
  destruct (discovered_topics_disabled (snd <$> pointees (builtin_topics (reload_part c))) r2 w' eq_refl)
    as (r & Hdisc & He).
  assert (topics_inv r2) as Hinv2 by (split; [apply map_wf_nil|intros t Hin; by apply not_elem_of_nil in Hin|done]).
  destruct (discovered_topics_inv subscript_first _ _ _ _ _ Hinv2 Hdisc) as (Hinv & _ & _ & Hin).
  exists r, w'. split_and!; [|done| |done].
  - unfold router_construct. run_prog. cbn [configuration_ router_initial]. rewrite Hvalid. cbn [negb].
    cbn [set_default_history_depth pw_router]. unfold router_on_world, init_allowed_topics_, on_router. run_prog.
    cbn [configuration_ router_initial fst snd]. fold r2. rewrite Hpart. unfold init_bridges_, gets. run_prog.
    rewrite (for_each_fmap snd). cbn [configuration_ set_allowed r2 router_initial]. by rewrite Hdisc.
  - intros p Hp. destruct (Hin p.2) as [v Hv]; [by apply list_elem_of_fmap_2|].
    destruct (find_elem_of _ _ _ Hv) as (k & Ek & Hk). rewrite (find_keqv _ _ _ Ek).
    rewrite (ti_status _ Hinv k), He by (apply elem_of_keys; by exists v). done.
Qed.

End Concrete.

(** ** Witnesses *)
Module RouterDemo.

#[local] Existing Instances Demo.cpp_utils Demo.fast_dds PoolDemo.malloc.

Definition locator : IPLocator := {| isIPv4 _ := true; isIPv6 _ := false; resolveNameDNS _ := ([], []) |}.

Definition guid_of (n : nat) : Guid := mkGuid [Z.of_nat n] [1%Z].
Definition init_ok (c : ParticipantConfiguration) : outcome unit := Ok tt.

#[export] Instance world : RouterWorld pworld :=
  pw_router demo_rtps_writer demo_rtps_reader demo_default init_ok guid_of.

(** Two sets of filters compared pairwise, in order. *)
Fixpoint sets_equal {A} (eqb : A -> A -> bool) (l1 l2 : filter_set A) : bool :=
  match l1, l2 with
  | [], [] => true
  | ((_, a), _) :: l1', ((_, b), _) :: l2' => eqb a b && sets_equal eqb l1' l2'
  | _, _ => false
  end.

Definition plain (name : string) : ParticipantConfiguration :=
  PlainConfiguration (mkBaseConf (mkParticipantId name) kind_dummy false).

Definition reload_conf (allow : list (Z * WildcardDdsFilterTopic)) : ReloadConfiguration WildcardDdsFilterTopic :=
  mkReload (mkPtrSet false allow) (mkPtrSet false []) (mkPtrSet false [(1%Z, demo_topic_t)]).

Definition conf : DDSRouterConfiguration WildcardDdsFilterTopic :=
  mkRouterConf (reload_conf []) (mkPtrSet false [(1%Z, plain "a"); (2%Z, plain "b")]) Specs_default.

Definition w0 : pworld := pw_set_participants [] demo_pworld.

Definition state : Type := router_state (F := WildcardDdsFilterTopic) (W := pworld).
Definition construct : prog state unit := router_construct (IL := locator) false.
Definition start : prog state ReturnCode := start_ false.
Definition reload (c : ReloadConfiguration WildcardDdsFilterTopic) : prog state ReturnCode :=
  reload_configuration (@sets_equal WildcardDdsFilterTopic) false c.

Definition s1 : state := exec construct (router_initial conf, w0).
Definition s2 : state := exec start (s1.1, s1.2).

Notation reach := (router_reachable (IL := locator) (@sets_equal WildcardDdsFilterTopic) false conf).

Lemma reach_construct w : is_ok (construct (router_initial conf, w)).1 = true ->
  reach (exec construct (router_initial conf, w)).1.
Proof. intros [[] E]%is_ok_state. exact (rr_constructed _ _ _ _ _ _ E). Qed.

Lemma reach_start r w : reach r -> is_ok (start (r, w)).1 = true -> reach (exec start (r, w)).1.
Proof. intros Hr [code E]%is_ok_state. exact (rr_start _ _ _ _ _ _ _ _ Hr E). Qed.

Lemma s1_reachable : reach s1.1.
Proof. apply reach_construct. vm_compute. reflexivity. Qed.

Lemma s2_reachable : reach s2.1.
Proof. apply (reach_start s1.1 s1.2 s1_reachable). vm_compute. reflexivity. Qed.

End RouterDemo.

#[local] Existing Instances Demo.cpp_utils Demo.fast_dds PoolDemo.malloc RouterDemo.world.

Lemma router_forwards_allowed_topics_witness :
  demo_topic_t ∈ keys (current_topics_ RouterDemo.s2.1) /\
  find demo_topic_t (current_topics_ RouterDemo.s2.1) = Some true.
Proof.
  assert (keys (current_topics_ RouterDemo.s2.1) = [demo_topic_t]) as Hk by (vm_compute; reflexivity).
  assert (demo_topic_t ∈ keys (current_topics_ RouterDemo.s2.1)) as Hin by (rewrite Hk; apply list_elem_of_here).
  split; [exact Hin|].
  rewrite (proj1 (router_forwards_allowed_topics _ _ _ _ RouterDemo.s2_reachable) _ Hin).
  vm_compute. reflexivity.
Defined.

Lemma router_start_stop_witness :
  start_ false (RouterDemo.s2.1, RouterDemo.s2.2) =
    (Ok RETCODE_PRECONDITION_NOT_MET, (RouterDemo.s2.1, RouterDemo.s2.2)).
Proof.
  refine (proj1 (router_start_stop false RouterDemo.s2.1 RouterDemo.s2.2
    (reachable_router_inv _ _ _ _ RouterDemo.s2_reachable)) _).
  vm_compute. reflexivity.
Defined.

Lemma router_reload_witness :
  exists code r' w', RouterDemo.reload (RouterDemo.reload_conf [(7%Z, demo_filter "other")])
    (RouterDemo.s2.1, RouterDemo.s2.2) = (Ok code, (r', w')) /\ code = RETCODE_OK.
Proof.
  set (c := RouterDemo.reload_conf [(7%Z, demo_filter "other")]).
  assert (forall r w code r' w', router_inv r -> enabled_ r = true ->
    AllowedTopicList_eqb (@RouterDemo.sets_equal WildcardDdsFilterTopic) (allowed_of c) (allowed_topics_ r) &&
      is_nil (new_builtin_topics c (current_topics_ r)) = false ->
    RouterDemo.reload c (r, w) = (Ok code, (r', w')) -> code = RETCODE_OK) as Hgen.
  { intros r w code r' w' Hinv He Hn E.
    pose proof (proj2 (proj2 (router_reload (@RouterDemo.sets_equal WildcardDdsFilterTopic) false c r w Hinv))
      eq_refl He) as H.
    cbv zeta in H. rewrite Hn in H. exact (proj1 (H _ _ _ E)). }
  destruct (is_ok_pair (RouterDemo.reload c (RouterDemo.s2.1, RouterDemo.s2.2))) as (code & [r' w'] & E);
    [vm_compute; reflexivity|].
  exists code, r', w'. split; [exact E|].
  apply (Hgen RouterDemo.s2.1 RouterDemo.s2.2 code r' w' (reachable_router_inv _ _ _ _ RouterDemo.s2_reachable));
    [vm_compute; reflexivity|vm_compute; reflexivity|exact E].
Defined.

Lemma discovered_reader_spec_witness :
  exists r' w', discovered_endpoint_ false
    (Endpoint_of endpoint_reader (RouterDemo.guid_of 5) (DdsTopic_of 5000 "other" "T") (mkParticipantId "a")
       SpecificEndpointQoS_default) (RouterDemo.s1.1, RouterDemo.s1.2) = (Ok tt, (r', w')) /\
    find (DdsTopic_of 5000 "other" "T") (current_topics_ r') = Some false.
Proof.
  set (e := Endpoint_of endpoint_reader _ _ _ _).
  destruct (is_ok_pair (discovered_endpoint_ false e (RouterDemo.s1.1, RouterDemo.s1.2))) as ([] & [r' w'] & E);
    [vm_compute; reflexivity|].
  exists r', w'. split; [exact E|].
  pose proof (discovered_reader_spec false e RouterDemo.s1.1 RouterDemo.s1.2 r' w'
    (reachable_router_inv _ _ _ _ RouterDemo.s1_reachable) eq_refl E) as H.
  assert (is_reader e = true) as Hr by reflexivity. rewrite Hr in H.
  assert (find (Endpoint.topic_ e) (current_topics_ RouterDemo.s1.1) = None) as Hf by (vm_compute; reflexivity).
  rewrite Hf in H. destruct H as [_ H]. change (Endpoint.topic_ e) with (DdsTopic_of 5000 "other" "T") in H.
  rewrite H. vm_compute. reflexivity.
Defined.

(** A router whose second participant is an RTPS one that cannot make writers. *)
Definition demo_failing_state : RouterDemo.state := (router_initial RouterDemo.conf, demo_failing).

Lemma failed_bridge_topic_active_witness :
  exists r' w1, activate_topic_ true demo_topic_t demo_failing_state = (Ok tt, (r', w1)) /\
    find demo_topic_t (current_topics_ r') = Some true.
Proof.
  destruct (is_throw_pair (DDSBridge_new demo_topic_t true demo_failing)) as (e & w1 & E);
    [vm_compute; reflexivity|].
  assert (e = InitializationException) as He.
  { assert (match (DDSBridge_new demo_topic_t true demo_failing).1 with
      | Throw e => bool_decide (e = InitializationException) | Ok _ => false end = true) as Hb
      by (vm_compute; reflexivity).
    rewrite E in Hb. cbn [fst] in Hb. by apply bool_decide_eq_true in Hb. }
  subst e.
  destruct (failed_bridge_topic_active true demo_topic_t (router_initial RouterDemo.conf) demo_failing w1 eq_refl E)
    as (r' & Hrun & Hf & _).
  exists r', w1. split; [exact Hrun|exact Hf].
Defined.

(** A router, enabled, with the bridge of a service enabled. *)
Definition demo_with_service : DDSRouterImpl :=
  set_services [(RpcDemo.service, true)]
    (set_rpc_bridges [(RpcDemo.service, r_set_enabled true (RPCBridge_new RpcDemo.service))]
       (set_router_enabled true (set_allowed (mkAllowed [] []) (router_initial RouterDemo.conf)))).

Lemma demo_with_service_inv : router_inv demo_with_service.
Proof.
  split; split.
  - apply map_wf_nil.
  - intros t Ht. by apply not_elem_of_nil in Ht.
  - intros t b Hf. discriminate.
  - repeat constructor.
  - intros s [->|Hs%not_elem_of_nil]%elem_of_cons; [vm_compute; reflexivity|done].
  - intros s. cbn [rpc_bridges_ current_services_ set_services set_rpc_bridges demo_with_service].
    rewrite !find_cons. repeat case_match_eqn; split; by intros [? ?].
Defined.

Lemma stop_leaves_services_enabled_witness :
  exists code r' w' b', stop_ (demo_with_service, RouterDemo.w0) = (Ok code, (r', w')) /\
    find RpcDemo.service (rpc_bridges_ r') = Some b' /\ r_enabled_ b' = true.
Proof.
  destruct (is_ok_pair (stop_ (demo_with_service, RouterDemo.w0))) as (code & [r' w'] & E); [vm_compute; reflexivity|].
  destruct (stop_leaves_services_enabled demo_with_service RouterDemo.w0 code r' w' RpcDemo.service
    (r_set_enabled true (RPCBridge_new RpcDemo.service)) demo_with_service_inv E) as (b' & Hf & He);
    [vm_compute; reflexivity|reflexivity|].
  exists code, r', w', b'. split; [exact E|]. split; [exact Hf|exact He].
Defined.
