(* ===== verification/Rtps.v ===== *)
(** * RTPS endpoints: what they use of Fast DDS

    The readers and writers of the RTPS participants are objects of Fast DDS with a
    history of changes each.  What [reader/implementations/rtps] and
    [writer/implementations/rtps] call of them is a parameter, with the laws that the
    documentation of Fast DDS gives; the changes, the attributes the sources fill in
    and the filters of [writer/implementations/rtps/filter] are definitions. *)
From stdpp Require Import gmap.
From S2P Require Import Prelude StdMap CppString Externals Types Topics PayloadPool.

(** ** Changes *)

(** [CacheChange_t]; the last field is the one [RouterCacheChange] adds *)
Record Change : Type := mkChange {
  ch_writerGUID : Guid;
  ch_sequenceNumber : SequenceNumber;
  ch_sourceTimestamp : Z;
  ch_kind : ChangeKind;
  ch_instanceHandle : InstanceHandle;
  ch_write_params : WriteParams;
  ch_payload : CacheChange;
  last_writer_guid_prefix : GuidPrefix
}.

Create HintDb counts.

(** Two changes are the same sample when writer and number coincide. *)
Definition same_sample (c c' : Change) : Prop :=
  ch_writerGUID c = ch_writerGUID c' /\ ch_sequenceNumber c = ch_sequenceNumber c'.

(** The payloads the changes of a history hold. *)
Definition held (c : Change) : list nat :=
  match payload_owner (ch_payload c) with
  | Some _ => match payload_data (serializedPayload (ch_payload c)) with Some a => [a] | None => [] end
  | None => []
  end.
Definition held_by (l : list Change) : list nat := mjoin (held <$> l).

(** A change of a history whose pool is [this]: without payload, or with one of the
    pool. *)
Definition change_ok (h : heap) (this : nat) (c : Change) : Prop :=
  match payload_owner (ch_payload c) with
  | None => payload_length (serializedPayload (ch_payload c)) = 0%Z /\
            payload_max_size (serializedPayload (ch_payload c)) = 0%Z
  | Some o => o = this /\ valid_payload h (serializedPayload (ch_payload c))
  end.

(** ** The filters of the writers *)

(** [SelfDataFilter::is_relevant] *)
Definition self_is_relevant (change : Change) (reader_guid : Guid) : bool :=
  bool_decide (guidPrefix (ch_writerGUID change) <> guidPrefix reader_guid).

(** [RepeaterDataFilter::is_relevant] *)
Definition repeater_is_relevant (change : Change) (reader_guid : Guid) : bool :=
  if negb (self_is_relevant change reader_guid) then false
  else bool_decide (last_writer_guid_prefix change <> guidPrefix reader_guid).

(** ** Attributes

    The fields of the attributes of Fast DDS that the sources set. *)

Inductive TopicKind : Type := NO_KEY | WITH_KEY.
Inductive MemoryPolicy : Type := PREALLOCATED_WITH_REALLOC_MEMORY_MODE | other_memory_mode.
Inductive PublishMode : Type := SYNCHRONOUS_WRITER | ASYNCHRONOUS_WRITER.
Inductive HistoryKind : Type := KEEP_LAST_HISTORY_QOS | KEEP_ALL_HISTORY_QOS.
Inductive DurabilityQosKind : Type :=
| VOLATILE_DURABILITY_QOS | TRANSIENT_LOCAL_DURABILITY_QOS
| TRANSIENT_DURABILITY_QOS | PERSISTENT_DURABILITY_QOS.
Inductive ReliabilityQosKind : Type := BEST_EFFORT_RELIABILITY_QOS | RELIABLE_RELIABILITY_QOS.

Record HistoryAttributes : Type := mkHistoryAtt {
  memoryPolicy : MemoryPolicy;
  maximumReservedCaches : Z
}.

(** The endpoint part of [ReaderAttributes] and [WriterAttributes]. *)
Record EndpointAttributes : Type := mkEndpointAtt {
  durabilityKind : DurabilityKind;
  reliabilityKind : ReliabilityKind;
  topicKind : TopicKind
}.

Record WriterAttributes : Type := mkWriterAtt {
  wa_endpoint : EndpointAttributes;
  wa_mode : PublishMode
}.

Record TopicAttributes : Type := mkTopicAtt {
  ta_topicKind : TopicKind;
  topicName : string;
  topicDataType : string;
  historyQos_kind : HistoryKind;
  historyQos_depth : Z
}.

Record EndpointQos : Type := mkEndpointQos {
  m_durability : DurabilityQosKind;
  m_reliability : ReliabilityQosKind;
  m_deadline_period : Z;
  m_partition : list string;
  m_ownership : OwnershipKind;
  m_ownershipStrength : Z
}.

Section Attributes.
Context {CU : CppUtils}.
(** what the default constructors of Fast DDS give *)
Context (default_topic_attributes : TopicAttributes) (default_qos : EndpointQos).

Definition qos_of (topic : DdsTopic) : TopicQoS := get_reference (topic_qos topic).
Definition kind_of_key (keyed : bool) : TopicKind := if keyed then WITH_KEY else NO_KEY.

(** [CommonReader::get_history_attributes_] *)
Definition get_history_attributes_ (topic : DdsTopic) : HistoryAttributes :=
  mkHistoryAtt PREALLOCATED_WITH_REALLOC_MEMORY_MODE (history_depth (qos_of topic)).

(** [CommonWriter::get_history_attributes_] *)
Definition writer_history_attributes_ (topic : DdsTopic) : HistoryAttributes :=
  mkHistoryAtt PREALLOCATED_WITH_REALLOC_MEMORY_MODE (history_depth (qos_of topic)).

Definition get_reader_attributes_ (topic : DdsTopic) : EndpointAttributes :=
  mkEndpointAtt (durability_qos (qos_of topic)) (reliability_qos (qos_of topic))
    (kind_of_key (keyed topic)).

Definition get_writer_attributes_ (topic : DdsTopic) : WriterAttributes :=
  mkWriterAtt
    (mkEndpointAtt (durability_qos (qos_of topic)) (reliability_qos (qos_of topic))
      (kind_of_key (keyed topic)))
    SYNCHRONOUS_WRITER.

Definition reader_topic_attributes_ (topic : DdsTopic) : TopicAttributes :=
  mkTopicAtt (kind_of_key (keyed topic)) (topic_name topic) (type_name topic)
    KEEP_LAST_HISTORY_QOS (history_depth (qos_of topic)).

(** the writer leaves the history QoS by default *)
Definition writer_topic_attributes_ (topic : DdsTopic) : TopicAttributes :=
  mkTopicAtt (kind_of_key (keyed topic)) (topic_name topic) (type_name topic)
    (historyQos_kind default_topic_attributes) (historyQos_depth default_topic_attributes).

Definition durability_qos_of (topic : DdsTopic) : DurabilityQosKind :=
  if is_transient_local (qos_of topic) then TRANSIENT_LOCAL_DURABILITY_QOS else VOLATILE_DURABILITY_QOS.
Definition reliability_qos_of (topic : DdsTopic) : ReliabilityQosKind :=
  if is_reliable (qos_of topic) then RELIABLE_RELIABILITY_QOS else BEST_EFFORT_RELIABILITY_QOS.

(** [CommonReader::get_reader_qos_] *)
Definition get_reader_qos_ (topic : DdsTopic) : EndpointQos :=
  mkEndpointQos (durability_qos_of topic) (reliability_qos_of topic) (m_deadline_period default_qos)
    (if use_partitions (qos_of topic) then m_partition default_qos ++ ["*"] else m_partition default_qos)
    (ownership_qos (qos_of topic)) (m_ownershipStrength default_qos).

(** [CommonWriter::get_writer_qos_] *)
Definition get_writer_qos_ (topic : DdsTopic) : EndpointQos :=
  mkEndpointQos (durability_qos_of topic) (reliability_qos_of topic) 0
    (m_partition default_qos) (m_ownership default_qos) (m_ownershipStrength default_qos).

(** [QoSSpecificWriter::get_writer_qos_] *)
Definition specific_writer_qos_ (specific_qos : SpecificEndpointQoS) (topic : DdsTopic) : EndpointQos :=
  let qos := get_writer_qos_ topic in
  let qos1 :=
    if has_partitions (qos_of topic)
    then mkEndpointQos (m_durability qos) (m_reliability qos) (m_deadline_period qos)
           (partitions specific_qos) (m_ownership qos) (m_ownershipStrength qos)
    else qos in
  if has_ownership (qos_of topic)
  then mkEndpointQos (m_durability qos1) (m_reliability qos1) (m_deadline_period qos1) (m_partition qos1)
         (ownership_qos (qos_of topic)) (ownership_strength specific_qos)
  else qos1.

End Attributes.

(** [CommonWriter::cache_change_pool_configuration_] *)
Record PoolConfiguration : Type := mkPoolConf {
  maximum_size : Z;
  initial_size : Z;
  batch_size : Z
}.

Definition cache_change_pool_configuration_ `{CU : CppUtils} (topic : DdsTopic) : PoolConfiguration :=
  mkPoolConf (history_depth (qos_of topic)) 20 20.

(** ** Histories and the pool

    A history holds the changes [l]; the rest of the program holds the payloads
    [others] of the same pool. *)
Section History.
Context {PM : PoolMethods} (this : nat) {PS : PoolSpec this}.

Definition distinct_samples (l : list Change) : Prop :=
  NoDup ((fun c => (ch_writerGUID c, ch_sequenceNumber c)) <$> l).

Record history_ok (h : heap) (pool : PayloadPool) (l : list Change) (others : list nat) (H0 : gset nat) :
    Prop := {
  ho_accounts : accounts h pool (held_by l ++ others) H0;
  ho_refs : refs_inv h pool (held_by l ++ others);
  ho_changes : Forall (change_ok h this) l;
  ho_distinct : distinct_samples l
}.

Lemma length_held_one c : length (held_by [c]) <= 1.
Proof. unfold held_by, held. simpl. rewrite app_nil_r. repeat case_match; simpl; lia. Qed.

Lemma held_by_app l1 l2 : held_by (l1 ++ l2) = held_by l1 ++ held_by l2.
Proof. unfold held_by. by rewrite fmap_app, join_app. Qed.

Lemma held_by_middle l1 c l2 others :
  held_by (l1 ++ c :: l2) ++ others ≡ₚ held c ++ (held_by (l1 ++ l2) ++ others).
Proof.
  rewrite !held_by_app. change (held_by (c :: l2)) with (held c ++ held_by l2).
  rewrite !app_assoc. do 2 f_equiv. by rewrite Permutation_app_comm.
Qed.

Lemma held_elem c l a : c ∈ l -> a ∈ held c -> a ∈ held_by l.
Proof.
  intros Hc Ha. unfold held_by. apply list_elem_of_join. exists (held c). split; [done|].
  by apply list_elem_of_fmap_2.
Qed.

(** A valid payload of a block whose bytes stay is still valid, with the same
    contents. *)
Lemma valid_transfer (h h' : heap) p a b b' :
  payload_data p = Some a -> h !! a = Some b -> h' !! a = Some b' -> bytes b' = bytes b ->
  valid_payload h p -> valid_payload h' p /\ contents h' p = contents h p.
Proof.
  intros Hp Hb Hb' Hbytes (a1 & b1 & Hp1 & Hb1 & Hlen & Hle).
  assert (a1 = a) as -> by congruence. assert (b1 = b) as -> by congruence. split.
  - exists a, b'. rewrite Hbytes. done.
  - unfold contents. rewrite Hp. simpl. rewrite Hb, Hb'. simpl. by rewrite Hbytes.
Qed.

(** The blocks of [L] stay, with their bytes. *)
Definition kept_for (L : list nat) (h h' : heap) : Prop :=
  forall a b, a ∈ L -> h !! a = Some b -> exists b', h' !! a = Some b' /\ bytes b' = bytes b.

Lemma kept_for_sub L L' h h' : (forall a, a ∈ L -> a ∈ L') -> kept_for L' h h' -> kept_for L h h'.
Proof. intros Hsub Hk a b Ha. by apply Hk, Hsub. Qed.

Lemma kept_for_trans L h1 h2 h3 : kept_for L h1 h2 -> kept_for L h2 h3 -> kept_for L h1 h3.
Proof.
  intros H12 H23 a b Ha Hb. destruct (H12 a b Ha Hb) as (b' & Hb' & E).
  destruct (H23 a b' Ha Hb') as (b'' & Hb'' & E'). exists b''. split; [done|congruence].
Qed.

Lemma kept_for_refl L h : kept_for L h h.
Proof. intros a b _ Hb. by exists b. Qed.

Lemma kept_for_grow L h h' : bytes_kept h h' -> kept_for L h h'.
Proof. intros Hk a b _ Hb. by apply Hk. Qed.

(** What the pool still has keeps its bytes when the heap shrinks. *)
Lemma kept_for_shrink L L' h h' pool H0 :
  accounts h' pool L' H0 -> (forall a, a ∈ L -> a ∈ L') -> bytes_kept h' h -> kept_for L h h'.
Proof.
  intros Hacc Hsub Hk a b Ha Hb. destruct (acc_owned _ _ _ _ _ Hacc (Hsub a Ha)) as [b' Hb'].
  exists b'. split; [done|]. destruct (Hk _ _ Hb') as (b1 & ? & ?). by simplify_eq.
Qed.

Lemma held_valid_kept L h h' p x :
  kept_for L h h' -> payload_data p = Some x -> x ∈ L -> valid_payload h p ->
  valid_payload h' p /\ contents h' p = contents h p.
Proof.
  intros Hk Hp Hx Hv. pose proof Hv as (x' & b & Hp' & Hb & _). rewrite Hp in Hp'. injection Hp' as <-.
  destruct (Hk x b Hx Hb) as (b' & Hb' & E). by eapply valid_transfer.
Qed.

(** The message of a payload is as long as the payload says. *)
Lemma contents_length h p : valid_payload h p ->
  exists m, contents h p = Some m /\ Z.of_nat (length m) = payload_length p.
Proof.
  intros (a & b & Hp & Hb & Hlen & Hrange). exists (take (Z.to_nat (payload_length p)) (bytes b)). split.
  - unfold contents. rewrite Hp. simpl. by rewrite Hb.
  - rewrite length_take. lia.
Qed.

Lemma same_contents_length h h' p p' :
  valid_payload h p -> valid_payload h' p' -> contents h' p' = contents h p ->
  payload_length p' = payload_length p.
Proof.
  intros (m & Hm & Hl)%contents_length (m' & Hm' & Hl')%contents_length E. rewrite Hm, Hm' in E.
  injection E as ->. congruence.
Qed.

Lemma change_ok_transfer (h h' : heap) c :
  kept_for (held c) h h' -> change_ok h this c -> change_ok h' this c.
Proof.
  unfold change_ok, held. destruct (payload_owner _); [|done]. intros Hk [-> Hv]. split; [done|].
  pose proof Hv as (a & b & Hp & Hb & _ & _). rewrite Hp in Hk.
  destruct (Hk a b) as (b' & Hb' & Hbytes); [set_solver|done|].
  exact (proj1 (valid_transfer _ _ _ _ _ _ Hp Hb Hb' Hbytes Hv)).
Qed.

Lemma changes_transfer (h h' : heap) l :
  kept_for (held_by l) h h' -> Forall (change_ok h this) l -> Forall (change_ok h' this) l.
Proof.
  intros Hk Hl. rewrite Forall_forall in *. intros c Hc. eapply change_ok_transfer; [|eauto].
  eapply kept_for_sub; [|exact Hk]. intros a Ha. by eapply held_elem.
Qed.

Lemma held_owned h c o :
  change_ok h this c -> payload_owner (ch_payload c) = Some o ->
  exists a, payload_data (serializedPayload (ch_payload c)) = Some a /\ held c = [a] /\ o = this.
Proof.
  unfold change_ok, held. intros Hok Ho. rewrite Ho in *. destruct Hok as [-> (a & b & Hp & _)].
  exists a. by rewrite Hp.
Qed.

Lemma held_none c : payload_owner (ch_payload c) = None -> held c = [].
Proof. unfold held. by intros ->. Qed.

Lemma distinct_middle l1 c l2 :
  distinct_samples (l1 ++ c :: l2) ->
  distinct_samples (l1 ++ l2) /\ Forall (fun c' => ~ same_sample c c') l1.
Proof.
  unfold distinct_samples. rewrite !fmap_app, fmap_cons, !NoDup_app, NoDup_cons.
  intros (H1 & Hd & Hn & H2). split; [split_and!; [done| |done]|].
  - intros x Hx. specialize (Hd x Hx). by apply not_elem_of_cons in Hd as [_ ?].
  - rewrite Forall_forall. intros c' Hc' [Hg Hs].
    eapply (Hd (ch_writerGUID c', ch_sequenceNumber c')).
    + apply list_elem_of_fmap. by exists c'.
    + rewrite <- Hg, <- Hs. apply elem_of_cons. by left.
Qed.

(** The pool gets the payload of a change back. *)
Lemma release_change_run h pool (c : CacheChange) a L H0 :
  accounts h pool (a :: L) H0 -> refs_inv h pool (a :: L) ->
  (Z.of_nat (length (a :: L)) < 2 ^ 32)%Z ->
  payload_owner c = Some this -> payload_data (serializedPayload c) = Some a ->
  exists t, release_payload_change this (mkC h pool c) = (Ok true, t) /\
    accounts (c_heap t) (c_pool t) L H0 /\ refs_inv (c_heap t) (c_pool t) L /\
    bytes_kept (c_heap t) h.
Proof.
  intros Hacc Hr Hlen Ho Hp.
  destruct (spec_release a (mkP h pool (serializedPayload c)) L H0) as (t & Hrun & Hacc' & Hr' & Hk & _); try done.
  eexists. split.
  - unfold release_payload_change, on_payload, zoom. run_prog.
    cbn [c_heap c_pool c_change]. rewrite bool_decide_true by done.
    cbn [c_heap c_pool c_change]. rewrite Hrun. unfold set_owner.
    run_prog. reflexivity.
  - by split_and!.
Qed.

(** A change with a payload leaves the history. *)
Lemma history_release h pool l1 c l2 others H0 o :
  history_ok h pool (l1 ++ c :: l2) others H0 ->
  payload_owner (ch_payload c) = Some o ->
  (Z.of_nat (length (held_by (l1 ++ c :: l2) ++ others)) < 2 ^ 32)%Z ->
  exists t, release_payload_change this (mkC h pool (ch_payload c)) = (Ok true, t) /\
    history_ok (c_heap t) (c_pool t) (l1 ++ l2) others H0 /\ bytes_kept (c_heap t) h.
Proof.
  intros [Hacc Hr Hc Hd] Ho Hlen.
  assert (change_ok h this c) as Hok by (rewrite Forall_forall in Hc; apply Hc; set_solver).
  destruct (held_owned _ _ _ Hok Ho) as (a & Hp & Hheld & ->).
  pose proof (held_by_middle l1 c l2 others) as Hperm. rewrite Hheld in Hperm.
  rewrite (Permutation_length Hperm) in Hlen.
  destruct (release_change_run h pool (ch_payload c) a (held_by (l1 ++ l2) ++ others) H0)
    as (t & Hrun & Hacc' & Hr' & Hk); try done.
  { by eapply accounts_perm. } { by eapply refs_inv_perm. }
  exists t. split; [done|]. split; [|done]. split; [done|done| |by apply distinct_middle in Hd as [? _]].
  apply (changes_transfer h).
  - eapply kept_for_shrink; [exact Hacc'|set_solver|done].
  - apply Forall_app in Hc as [? Hc2]. apply Forall_app. split; [done|]. by inversion Hc2.
Qed.

Lemma history_drop h pool l1 c l2 others H0 :
  history_ok h pool (l1 ++ c :: l2) others H0 -> payload_owner (ch_payload c) = None ->
  history_ok h pool (l1 ++ l2) others H0.
Proof.
  intros [Hacc Hr Hc Hd] Ho. pose proof (held_by_middle l1 c l2 others) as Hperm.
  rewrite held_none in Hperm by done. simpl in Hperm.
  split; [by eapply accounts_perm|by eapply refs_inv_perm| |by apply distinct_middle in Hd as [? _]].
  apply Forall_app in Hc as [? Hc2]. apply Forall_app. split; [done|]. by inversion Hc2.
Qed.

(** A data gets the payload of a change of the history. *)
Lemma history_get_from h pool l c p others H0 o :
  history_ok h pool l others H0 -> c ∈ l -> payload_owner (ch_payload c) = Some o ->
  (0 < payload_length (serializedPayload (ch_payload c)))%Z -> not_initialized p ->
  (reserve_count_ pool + 1 < 2 ^ 64)%Z -> (Z.of_nat (length (held_by l ++ others)) + 1 < 2 ^ 32)%Z ->
  exists a t, get_payload_from (serializedPayload (ch_payload c)) (payload_owner (ch_payload c))
      (mkP h pool p) = (Ok true, t) /\
    history_ok (p_heap t) (p_pool t) l (a :: others) H0 /\
    payload_data (p_target t) = Some a /\ valid_payload (p_heap t) (p_target t) /\
    bytes_kept h (p_heap t) /\
    contents (p_heap t) (p_target t) = contents h (serializedPayload (ch_payload c)).
Proof.
  intros [Hacc Hr Hc Hd] Hin Ho Hpos Hni Hres Hlen.
  assert (change_ok h this c) as Hok by (rewrite Forall_forall in Hc; by apply Hc).
  destruct (held_owned _ _ _ Hok Ho) as (a0 & Hp & Hheld & ->).
  assert (valid_payload h (serializedPayload (ch_payload c))) as Hv.
  { unfold change_ok in Hok. rewrite Ho in Hok. apply Hok. }
  destruct (spec_get_from (serializedPayload (ch_payload c)) (Some this) (mkP h pool p)
    (held_by l ++ others) H0) as (a & t & Hrun & Hacc' & Hr' & Hpt & _ & Hvt & Hk & Hct); try done.
  - intros _. exists a0. split; [done|]. apply elem_of_app. left.
    eapply held_elem; [done|]. rewrite Hheld. apply elem_of_cons. by left.
  - destruct Hv as (? & ? & _ & _ & _ & ?). lia.
  - rewrite Ho. exists a, t. split_and!; try done. cbn [p_heap p_pool] in *.
    assert (a :: held_by l ++ others ≡ₚ held_by l ++ a :: others) as Hperm by (by rewrite Permutation_middle).
    split; [by eapply accounts_perm|by eapply refs_inv_perm| |done].
    apply (changes_transfer h); [|done]. by apply kept_for_grow.
Qed.

(** A new change gets the payload of a data, which the pool has given. *)
Lemma history_put h pool l c others H0 src a :
  history_ok h pool l others H0 ->
  payload_data src = Some a -> a ∈ others -> valid_payload h src -> (0 < payload_length src)%Z ->
  not_initialized (serializedPayload c) ->
  (reserve_count_ pool + 1 < 2 ^ 64)%Z -> (Z.of_nat (length (held_by l ++ others)) + 1 < 2 ^ 32)%Z ->
  exists t, get_payload_from_change this src (Some this) (mkC h pool c) = (Ok true, t) /\
    payload_owner (c_change t) = Some this /\ bytes_kept h (c_heap t) /\
    contents (c_heap t) (serializedPayload (c_change t)) = contents h src /\
    forall c' , ch_payload c' = c_change t -> distinct_samples (l ++ [c']) ->
      history_ok (c_heap t) (c_pool t) (l ++ [c']) others H0.
Proof.
  intros [Hacc Hr Hc Hd] Hp Ha Hv Hpos Hni Hres Hlen.
  destruct (spec_get_from src (Some this) (mkP h pool (serializedPayload c)) (held_by l ++ others) H0)
    as (b & t & Hrun & Hacc' & Hr' & Hpt & _ & Hvt & Hk & Hct); try done.
  - intros _. exists a. split; [done|]. apply elem_of_app. by right.
  - destruct Hv as (? & ? & _ & _ & _ & ?). lia.
  - eexists. split_and!.
    + unfold get_payload_from_change, on_payload, zoom. run_prog.
      cbn [c_heap c_pool c_change]. rewrite Hrun. unfold set_owner. run_prog. reflexivity.
    + done.
    + done.
    + done.
    + cbn [c_heap c_pool c_change serializedPayload payload_owner].
      intros c' Hc' Hdist.
      assert (held_by (l ++ [c']) = held_by l ++ [b]) as Hheld.
      { rewrite held_by_app. f_equal. unfold held_by, held. simpl. rewrite Hc'. simpl. by rewrite Hpt. }
      assert (b :: held_by l ++ others ≡ₚ held_by (l ++ [c']) ++ others) as Hperm.
      { rewrite Hheld, <- app_assoc. simpl. by rewrite Permutation_middle. }
      split; [by eapply accounts_perm|by eapply refs_inv_perm| |done].
      apply Forall_app. split.
      * apply (changes_transfer h); [|done]. by apply kept_for_grow.
      * constructor; [|done]. unfold change_ok. rewrite Hc'. done.
Qed.

Lemma history_others h pool l others others' H0 :
  others ≡ₚ others' -> history_ok h pool l others H0 -> history_ok h pool l others' H0.
Proof.
  intros Hp [Hacc Hr Hc Hd]. assert (held_by l ++ others ≡ₚ held_by l ++ others') as Hp' by (by rewrite Hp).
  split; [by eapply accounts_perm|by eapply refs_inv_perm|done|done].
Qed.

(** Several histories [gs] over one pool, which holds the payloads [L] for others. *)
Record shared_ok (h : heap) (pool : PayloadPool) (gs : list (list Change)) (L : list nat) (H0 : gset nat) :
    Prop := {
  so_accounts : accounts h pool (held_by (mjoin gs) ++ L) H0;
  so_refs : refs_inv h pool (held_by (mjoin gs) ++ L);
  so_changes : Forall (change_ok h this) (mjoin gs);
  so_distinct : Forall distinct_samples gs
}.

Lemma held_focus g1 (l : list Change) g2 L :
  held_by (mjoin (g1 ++ l :: g2)) ++ L ≡ₚ held_by l ++ (held_by (mjoin (g1 ++ g2)) ++ L).
Proof.
  rewrite !join_app. simpl. rewrite !held_by_app. rewrite !app_assoc. do 2 f_equiv.
  by rewrite Permutation_app_comm.
Qed.

(** What one of the histories sees. *)
Lemma shared_focus h pool g1 l g2 L H0 :
  shared_ok h pool (g1 ++ l :: g2) L H0 ->
  history_ok h pool l (held_by (mjoin (g1 ++ g2)) ++ L) H0.
Proof.
  intros [Hacc Hr Hc Hd]. pose proof (held_focus g1 l g2 L) as Hp. split.
  - by eapply accounts_perm.
  - by eapply refs_inv_perm.
  - rewrite join_app in Hc. simpl in Hc. apply Forall_app in Hc as [_ Hc]. by apply Forall_app in Hc as [? _].
  - apply Forall_app in Hd as [_ Hd]. by apply Forall_cons in Hd as [? _].
Qed.

(** A step of one of them, with [L'] held by others afterwards. *)
Lemma shared_update h pool h' pool' g1 l l' g2 L L' H0 :
  shared_ok h pool (g1 ++ l :: g2) L H0 ->
  history_ok h' pool' l' (held_by (mjoin (g1 ++ g2)) ++ L') H0 ->
  kept_for (held_by (mjoin (g1 ++ g2))) h h' ->
  shared_ok h' pool' (g1 ++ l' :: g2) L' H0.
Proof.
  intros [_ _ Hc Hd] [Hacc Hr Hl Hdl] Hk.
  assert (held_by l' ++ (held_by (mjoin (g1 ++ g2)) ++ L') ≡ₚ held_by (mjoin (g1 ++ l' :: g2)) ++ L') as Hp
    by (by rewrite held_focus).
  split.
  - by eapply accounts_perm.
  - by eapply refs_inv_perm.
  - assert (Forall (change_ok h this) (mjoin (g1 ++ g2))) as Hc'.
    { rewrite join_app in *. simpl in *. rewrite !Forall_app in *. naive_solver. }
    apply (changes_transfer h h') in Hc'; [|done].
    rewrite join_app in *. simpl in *. rewrite !Forall_app in *. naive_solver.
  - rewrite Forall_app, Forall_cons in *. naive_solver.
Qed.

(** A change whose payload Fast DDS holds comes to the first of them. *)
Lemma shared_arrives h pool q c g L H0 :
  shared_ok h pool (q :: g) (held c ++ L) H0 -> change_ok h this c -> distinct_samples (q ++ [c]) ->
  shared_ok h pool ((q ++ [c]) :: g) L H0.
Proof.
  intros [Hacc Hr Hc Hd] Hok Hnew.
  assert (held_by (mjoin (q :: g)) ++ (held c ++ L) ≡ₚ held_by (mjoin ((q ++ [c]) :: g)) ++ L) as Hp.
  { simpl. rewrite !held_by_app. change (held_by [c]) with (held c ++ []). rewrite app_nil_r, !app_assoc.
    f_equiv. rewrite <- !app_assoc. f_equiv. apply Permutation_app_comm. }
  split; [by eapply accounts_perm|by eapply refs_inv_perm| |].
  - simpl in *. rewrite !Forall_app in *. rewrite Forall_singleton. naive_solver.
  - apply Forall_cons in Hd as [_ ?]. by apply Forall_cons.
Qed.

Lemma held_by_perm l l' : l ≡ₚ l' -> held_by l ≡ₚ held_by l'.
Proof. intros Hp. unfold held_by. by rewrite Hp. Qed.

Lemma mjoin_perm (gs gs' : list (list Change)) : gs ≡ₚ gs' -> mjoin gs ≡ₚ mjoin gs'.
Proof. intros Hp. by rewrite Hp. Qed.

Lemma shared_perm h pool gs gs' L H0 : gs ≡ₚ gs' -> shared_ok h pool gs L H0 -> shared_ok h pool gs' L H0.
Proof.
  intros Hp [Hacc Hr Hc Hd].
  assert (held_by (mjoin gs) ++ L ≡ₚ held_by (mjoin gs') ++ L) as Hp'
    by (by rewrite (held_by_perm _ _ (mjoin_perm _ _ Hp))).
  split; [by eapply accounts_perm|by eapply refs_inv_perm| |]; [|by rewrite <- Hp].
  by rewrite <- (mjoin_perm _ _ Hp).
Qed.

Lemma held_split (gs1 gs2 : list (list Change)) L :
  held_by (mjoin (gs1 ++ gs2)) ++ L = held_by (mjoin gs1) ++ (held_by (mjoin gs2) ++ L).
Proof. by rewrite join_app, held_by_app, app_assoc. Qed.

(** Some of the histories, for which the others hold what they hold. *)
Lemma shared_part h pool gs1 gs2 L H0 :
  shared_ok h pool (gs1 ++ gs2) L H0 -> shared_ok h pool gs1 (held_by (mjoin gs2) ++ L) H0.
Proof.
  intros [Hacc Hr Hc Hd]. rewrite held_split in *. rewrite join_app in Hc.
  apply Forall_app in Hc as [? _], Hd as [? _]. by split.
Qed.

(** A step of some of the histories that leaves what the others hold. *)
Lemma shared_rejoin h pool h' pool' gs1 gs1' gs2 L L' H0 :
  shared_ok h pool (gs1 ++ gs2) L H0 -> shared_ok h' pool' gs1' (held_by (mjoin gs2) ++ L') H0 ->
  kept_for (held_by (mjoin gs2)) h h' -> shared_ok h' pool' (gs1' ++ gs2) L' H0.
Proof.
  intros [_ _ Hc Hd] [Hacc' Hr' Hc' Hd'] Hk. rewrite join_app in Hc.
  apply Forall_app in Hc as [_ Hc], Hd as [_ Hd].
  split; rewrite ?held_split; try done; [|by apply Forall_app].
  rewrite join_app. apply Forall_app. split; [done|]. by eapply changes_transfer.
Qed.

End History.

(** ** What a method takes from the pool

    [m] reserves [k] blocks at most. *)
Section Counting.
Context {S : Type} (pool_of : S -> PayloadPool).

Definition counts {A} (k : Z) (m : prog S A) : Prop :=
  forall s, (0 <= reserve_count_ (pool_of s))%Z ->
    (0 <= reserve_count_ (pool_of (exec m s)) <= reserve_count_ (pool_of s) + k)%Z.

Lemma counts_same {A} k (m : prog S A) : (0 <= k)%Z ->
  (forall s, reserve_count_ (pool_of (exec m s)) = reserve_count_ (pool_of s)) -> counts k m.
Proof. intros Hk H s Hs. rewrite H. lia. Qed.

Lemma counts_weaken {A} k k' (m : prog S A) : (k <= k')%Z -> counts k m -> counts k' m.
Proof. intros Hk H s Hs. specialize (H s Hs). lia. Qed.

Lemma counts_bind {A B} k k' (m : prog S A) (f : A -> prog S B) : (0 <= k')%Z ->
  counts k m -> (forall a, counts k' (f a)) -> counts (k + k') (m ≫= f).
Proof.
  intros Hk' Hm Hf s Hs. specialize (Hm s Hs). unfold exec, mbind, prog_bind in *.
  destruct (m s) as [[a|e] s']; simpl in *; [|lia].
  specialize (Hf a s'). unfold exec in Hf. lia.
Qed.

Lemma counts_bind_l {A B} k (m : prog S A) (f : A -> prog S B) :
  counts k m -> (forall a, counts 0 (f a)) -> counts k (m ≫= f).
Proof. intros Hm Hf. rewrite <- (Z.add_0_r k). by apply counts_bind. Qed.

Lemma counts_bind_r {A B} k (m : prog S A) (f : A -> prog S B) : (0 <= k)%Z ->
  counts 0 m -> (forall a, counts k (f a)) -> counts k (m ≫= f).
Proof. intros Hk Hm Hf. change k with (0 + k)%Z. by apply counts_bind. Qed.

Lemma counts_try {A} k (m : prog S A) e h : (0 <= k)%Z ->
  counts 0 m -> counts k h -> counts k (try_catch m e h).
Proof.
  intros Hk Hm Hh s Hs. specialize (Hm s Hs). unfold exec, try_catch in *.
  destruct (m s) as [[a|e'] s']; simpl in *; [lia|]. case_decide; simpl; [|lia].
  specialize (Hh s'). unfold exec in Hh. lia.
Qed.

End Counting.

(** Goes through the steps of a method of which one at most uses the pool; what is
    left are its calls. *)
Ltac counts :=
  repeat first
    [ progress intros
    | by apply counts_same; [lia|intros ?; reflexivity]
    | solve [eauto with counts]
    | match goal with
      | |- counts _ _ (match ?x with _ => _ end) => destruct x
      | |- counts _ _ (try_catch _ _ _) => apply counts_try; [lia|solve [counts]|]
      | |- counts _ _ (_ ≫= _) =>
          first [apply counts_bind_r; [lia|solve [counts]|] | apply counts_bind_l; [|solve [counts]]]
      end ].

(** ** Witnesses

    A history as a list: the change taken out is the one with the same writer and number. *)
Fixpoint remove_sample (c : Change) (l : list Change) : list Change :=
  match l with
  | [] => []
  | c' :: l' =>
      if decide (ch_writerGUID c = ch_writerGUID c' /\ ch_sequenceNumber c = ch_sequenceNumber c')
      then l' else c' :: remove_sample c l'
  end.

Lemma remove_sample_spec c l1 l2 :
  Forall (fun c' => ~ same_sample c c') l1 -> remove_sample c (l1 ++ c :: l2) = l1 ++ l2.
Proof.
  induction 1 as [|c' l1 Hne _ IH]; simpl; [by rewrite decide_True by done|].
  by rewrite decide_False, IH by exact Hne.
Qed.
