(* ===== verification/RtpsReader.v ===== *)
(** * RTPS readers

    [reader/implementations/rtps]: [CommonReader] reads the history of a reader of
    Fast DDS; [SimpleReader] is the same class with the attributes of the topic, and
    [SpecificQoSReader] adds the QoS of the writer the data comes from, which it looks
    up in the discovery database.

    The methods work on the memory, the payload pool, the readers of Fast DDS by
    address, the database, the object and the calls made to its callback. *)
From stdpp Require Import gmap relations.
From S2P Require Import Prelude StdMap CppString Externals Types Topics Endpoint DiscoveryDatabase PayloadPool Track Auxiliar Rtps.

(** ** Readers of Fast DDS *)

Class RtpsReaders := {
  RTPSReader : Type;
  (** [getGuid] *)
  rr_guid : RTPSReader -> Guid;
  (** [get_unread_count] *)
  rr_unread : RTPSReader -> Z;
  (** [nextUntakenCache] *)
  rr_next_untaken : RTPSReader -> option Change;
  (** the history lets the change go, [getHistory()->remove_change] *)
  rr_remove : Change -> RTPSReader -> RTPSReader;
  (** a change arrives from the network *)
  rr_add : Change -> RTPSReader -> RTPSReader;
  (** the changes of the history, oldest first *)
  rr_untaken : RTPSReader -> list Change;
  (** [RTPSDomain::createRTPSReader] in the participant of that GUID: the address and the
      reader, or [nullptr] *)
  create_rtps_reader : Guid -> HistoryAttributes -> EndpointAttributes -> gmap nat RTPSReader ->
    option (nat * RTPSReader);
  (** [RTPSParticipant::registerReader] *)
  register_reader : RTPSReader -> TopicAttributes -> EndpointQos -> bool
}.

Class RtpsReadersLaws `{RR : RtpsReaders} : Prop := {
  rr_unread_spec : forall r, rr_unread r = Z.of_nat (length (rr_untaken r));
  rr_next_spec : forall r, rr_next_untaken r = head (rr_untaken r);
  rr_remove_untaken : forall r l1 c l2,
    rr_untaken r = l1 ++ c :: l2 -> Forall (fun c' => ~ same_sample c c') l1 ->
    rr_untaken (rr_remove c r) = l1 ++ l2;
  rr_remove_guid : forall c r, rr_guid (rr_remove c r) = rr_guid r;
  rr_add_untaken : forall c r, rr_untaken (rr_add c r) = rr_untaken r ++ [c];
  rr_add_guid : forall c r, rr_guid (rr_add c r) = rr_guid r;
  create_reader_fresh : forall g ha ea (m : gmap nat RTPSReader) a r,
    create_rtps_reader g ha ea m = Some (a, r) -> m !! a = None /\ rr_untaken r = [];
  create_reader_prefix : forall g ha ea (m : gmap nat RTPSReader) a r,
    create_rtps_reader g ha ea m = Some (a, r) -> guidPrefix (rr_guid r) = guidPrefix g
}.

Section CommonReader.
Context {CU : CppUtils} {FD : FastDDS} {DQ : DBQueueOps} {C : Type} {RR : RtpsReaders}.
Context {PM : PoolMethods} (this_pool : nat).

Inductive reader_class : Type := SimpleReader | SpecificQoSReader.

Record CommonReader : Type := mkCommonReader {
  cr_class : reader_class;
  cr_base : BaseReader;
  (** the GUID of the participant of Fast DDS that [rtps_participant_] points to *)
  cr_rtps_participant_ : Guid;
  rtps_reader_ : option nat;
  (** whether [rtps_history_] points to a history *)
  rtps_history_ : bool;
  history_attributes_ : HistoryAttributes;
  reader_attributes_ : EndpointAttributes;
  topic_attributes_ : TopicAttributes;
  reader_qos_ : EndpointQos
}.

Definition cr_set_base (b : BaseReader) (r : CommonReader) : CommonReader :=
  mkCommonReader (cr_class r) b (cr_rtps_participant_ r) (rtps_reader_ r) (rtps_history_ r) (history_attributes_ r)
    (reader_attributes_ r) (topic_attributes_ r) (reader_qos_ r).
Definition cr_set_entities (p : option nat) (h : bool) (r : CommonReader) : CommonReader :=
  mkCommonReader (cr_class r) (cr_base r) (cr_rtps_participant_ r) p h (history_attributes_ r)
    (reader_attributes_ r) (topic_attributes_ r) (reader_qos_ r).

(** The constructor; [init] sets the pointers. *)
Definition CommonReader_of (cls : reader_class) (participant : Guid) (id : ParticipantId) (topic : DdsTopic)
    (ha : HistoryAttributes) (ea : EndpointAttributes) (ta : TopicAttributes) (qos : EndpointQos) :
    CommonReader :=
  mkCommonReader cls (BaseReader_of id topic) participant None false ha ea ta qos.

Definition SimpleReader_of (dq : EndpointQos) (participant : Guid) (id : ParticipantId) (topic : DdsTopic) :
    CommonReader :=
  CommonReader_of SimpleReader participant id topic (get_history_attributes_ topic)
    (get_reader_attributes_ topic) (reader_topic_attributes_ topic) (get_reader_qos_ dq topic).
Definition SpecificQoSReader_of (dq : EndpointQos) (participant : Guid) (id : ParticipantId) (topic : DdsTopic) :
    CommonReader :=
  CommonReader_of SpecificQoSReader participant id topic (get_history_attributes_ topic)
    (get_reader_attributes_ topic) (reader_topic_attributes_ topic) (get_reader_qos_ dq topic).

Record rstate : Type := mkRS {
  rs_heap : heap;
  rs_pool : PayloadPool;
  rs_domain : gmap nat RTPSReader;
  rs_database : DiscoveryDatabase C;
  rs_this : CommonReader;
  rs_calls : list nat
}.

Definition rs_set_memory (h : heap) (p : PayloadPool) (s : rstate) : rstate :=
  mkRS h p (rs_domain s) (rs_database s) (rs_this s) (rs_calls s).
Definition rs_set_domain (m : gmap nat RTPSReader) (s : rstate) : rstate :=
  mkRS (rs_heap s) (rs_pool s) m (rs_database s) (rs_this s) (rs_calls s).
Definition rs_set_this (r : CommonReader) (s : rstate) : rstate :=
  mkRS (rs_heap s) (rs_pool s) (rs_domain s) (rs_database s) r (rs_calls s).
Definition rs_call (t : nat) (s : rstate) : rstate :=
  mkRS (rs_heap s) (rs_pool s) (rs_domain s) (rs_database s) (rs_this s) (rs_calls s ++ [t]).

(** [rtps_reader_->...]: a null pointer, or one to a reader that was removed, may not
    be used. *)
Definition the_reader : prog rstate (nat * RTPSReader) :=
  s ← get;
  match rtps_reader_ (rs_this s) with
  | Some a => match rs_domain s !! a with Some r => mret (a, r) | None => throw UndefinedBehaviour end
  | None => throw UndefinedBehaviour
  end.

Definition topic_of (s : rstate) : DdsTopic := br_topic_ (cr_base (rs_this s)).

(** A method of the pool on a change. *)
Definition on_change {A} (c : CacheChange) (m : prog cstate A) : prog rstate A := fun s =>
  let '(r, t) := m (mkC (rs_heap s) (rs_pool s) c) in (r, rs_set_memory (c_heap t) (c_pool t) s).

(** A method of the pool on the payload of a data. *)
Definition on_data_payload {A} (p : Payload) (m : prog PayloadPool.pstate A) :
    prog rstate (A * Payload) := fun s =>
  let '(r, t) := m (PayloadPool.mkP (rs_heap s) (rs_pool s) p) in
  let s' := rs_set_memory (p_heap t) (p_pool t) s in
  match r with
  | Ok a => (Ok (a, p_target t), s')
  | Throw e => (Throw e, s')
  end.

(** Fast DDS gives the payload of a change it lets go back to its pool. *)
Definition give_back (c : Change) : prog rstate unit :=
  match payload_owner (ch_payload c) with
  | Some _ => _ ← on_change (ch_payload c) (release_payload_change this_pool); mret tt
  | None => mret tt
  end.

(** [rtps_reader_->getHistory()->remove_change(c)] *)
Definition history_remove (c : Change) : prog rstate unit :=
  ar ← the_reader;
  modify (fun s => rs_set_domain (<[ar.1 := rr_remove c ar.2]> (rs_domain s)) s) ;;
  give_back c.

(** ** Reading *)

Definition cr_guid : prog rstate Guid := ar ← the_reader; mret (rr_guid ar.2).
Definition cr_get_unread_count : prog rstate Z := ar ← the_reader; mret (rr_unread ar.2).

Definition come_from_this_participant_ (guid : Guid) : prog rstate bool :=
  ar ← the_reader;
  mret (bool_decide (guidPrefix guid = guidPrefix (rr_guid ar.2))).

(** [GUID_t::unknown()] *)
Definition guid_unknown : Guid := mkGuid guid_prefix_unknown entity_id_unknown.

Definition is_data_correct_ (topic : DdsTopic) (received_change : Change) : ReturnCode :=
  if bool_decide (ch_writerGUID received_change = guid_unknown) then RETCODE_ERROR
  else if negb (0 <? payload_max_size (serializedPayload (ch_payload received_change)))%Z then
    if negb (keyed topic && bool_decide (ch_kind received_change <> ALIVE)) then RETCODE_ERROR
    else RETCODE_OK
  else RETCODE_OK.

(** [CommonReader::fill_received_data_]: the properties, given those of the data *)
Definition received_properties (id : ParticipantId) (topic : DdsTopic) (c : Change)
    (p : DataProperties) : DataProperties :=
  mkDataProperties (writer_qos p)
    (if keyed topic then ch_instanceHandle c else instanceHandle p)
    (ch_kind c) (ch_sourceTimestamp c) (ch_writerGUID c) id
    (set_value (ch_write_params c) (write_params p)) (ch_sequenceNumber c).

Definition common_fill_received_data_ (c : Change) (data : DataReceived) : prog rstate DataReceived :=
  s ← get;
  let b := cr_base (rs_this s) in
  p ← (if (0 <? payload_length (serializedPayload (ch_payload c)))%Z then
         res ← on_data_payload (payload data)
                 (get_payload_from (serializedPayload (ch_payload c)) (payload_owner (ch_payload c)));
         mret res.2
       else mret (payload data));
  mret (set_payload p (set_properties
    (received_properties (br_participant_id_ b) (br_topic_ b) c (properties data)) data)).

(** [SpecificQoSReader::specific_qos_of_writer_] *)
Definition specific_qos_of_writer_ (guid : Guid) : prog rstate SpecificEndpointQoS :=
  s ← get;
  match get_endpoint (rs_database s) guid with
  | Ok e => mret (specific_qos_ e)
  | Throw e => throw e
  end.

Definition set_writer_qos (q : SpecificEndpointQoS) (p : DataProperties) : DataProperties :=
  mkDataProperties q (instanceHandle p) (kind p) (source_timestamp p) (source_guid p)
    (participant_receiver p) (write_params p) (origin_sequence_number p).

(** [SpecificQoSReader::fill_received_data_] *)
Definition specific_fill_received_data_ (c : Change) (data : DataReceived) : prog rstate DataReceived :=
  data1 ← common_fill_received_data_ c data;
  try_catch
    (qos ← specific_qos_of_writer_ (source_guid (properties data1));
     mret (set_properties (set_writer_qos qos (properties data1)) data1))
    InconsistencyException
    (mret data1).

Definition fill_received_data_ (c : Change) (data : DataReceived) : prog rstate DataReceived :=
  s ← get;
  match cr_class (rs_this s) with
  | SimpleReader => common_fill_received_data_ c data
  | SpecificQoSReader => specific_fill_received_data_ c data
  end.

Definition cr_take_ (data : DataReceived) : prog rstate (ReturnCode * DataReceived) :=
  n ← cr_get_unread_count;
  if negb (0 <? n)%Z then mret (RETCODE_NO_DATA, data)
  else
    ar ← the_reader;
    match rr_next_untaken ar.2 with
    | None => mret (RETCODE_ERROR, data)
    | Some received_change =>
        s ← get;
        let ret := is_data_correct_ (topic_of s) received_change in
        if ret_not ret then history_remove received_change ;; mret (ret, data)
        else
          data' ← fill_received_data_ received_change data;
          history_remove received_change ;;
          mret (RETCODE_OK, data')
    end.

(** [BaseReader::take] *)
Definition cr_take (data : DataReceived) : prog rstate (ReturnCode * DataReceived) :=
  s ← get;
  if br_enabled_ (cr_base (rs_this s)) then cr_take_ data else mret (RETCODE_NOT_ENABLED, data).

(** ** Enabling and the listener *)

(** [BaseReader::on_data_available_] *)
Definition cr_on_data_available_ : prog rstate unit :=
  s ← get;
  match br_on_data_available_ (cr_base (rs_this s)) with
  | Some track => modify (rs_call track)
  | None => mret tt
  end.

Definition cr_enable_ : prog rstate unit :=
  s ← get;
  if is_reliable (qos_of (topic_of s)) then _ ← the_reader; cr_on_data_available_ else mret tt.

Definition on_base (f : BaseReader -> BaseReader) : prog rstate unit :=
  modify (fun s => rs_set_this (cr_set_base (f (cr_base (rs_this s))) (rs_this s)) s).

(** [BaseReader::enable] and [BaseReader::disable] *)
Definition cr_enable : prog rstate unit :=
  s ← get;
  if negb (br_enabled_ (cr_base (rs_this s))) then on_base (br_set_enabled true) ;; cr_enable_
  else mret tt.
Definition cr_disable : prog rstate unit := on_base br_disable.

Definition onNewCacheChangeAdded (change : Change) : prog rstate unit :=
  own ← come_from_this_participant_ (ch_writerGUID change);
  if negb own then
    s ← get;
    if br_enabled_ (cr_base (rs_this s)) then cr_on_data_available_
    else if negb (is_reliable (qos_of (topic_of s))) then history_remove change
    else mret tt
  else history_remove change.

(** ** Creation and destruction *)

(** [RTPSDomain::removeRTPSReader(rtps_reader_)]: the reader gives back what is left in
    its history and is freed. *)
Definition remove_rtps_reader : prog rstate unit :=
  ar ← the_reader;
  for_each (rr_untaken ar.2) give_back ;;
  modify (fun s => rs_set_domain (delete ar.1 (rs_domain s)) s).

Definition set_entities_ (p : option nat) (h : bool) : prog rstate unit :=
  modify (fun s => rs_set_this (cr_set_entities p h (rs_this s)) s).

(** [init] and [internal_entities_creation_] *)
Definition cr_init : prog rstate unit :=
  s ← get;
  let r := rs_this s in
  set_entities_ (rtps_reader_ r) true ;;
  match create_rtps_reader (cr_rtps_participant_ r) (history_attributes_ r) (reader_attributes_ r) (rs_domain s) with
  | None => set_entities_ None true ;; throw InitializationException
  | Some (a, e) =>
      modify (fun s => rs_set_domain (<[a := e]> (rs_domain s)) s) ;;
      set_entities_ (Some a) true ;;
      ar ← the_reader;
      if negb (register_reader ar.2 (topic_attributes_ r) (reader_qos_ r))
      then remove_rtps_reader ;; throw InitializationException
      else mret tt
  end.

(** [~CommonReader] *)
Definition cr_destroy : prog rstate unit :=
  s ← get;
  (match rtps_reader_ (rs_this s) with
   | Some _ => _ ← the_reader; remove_rtps_reader
   | None => mret tt
   end) ;;
  set_entities_ (rtps_reader_ (rs_this s)) false.

End CommonReader.

(** ** Properties *)
Section Properties.
Context {CU : CppUtils} {CL : CppUtilsLaws} {FD : FastDDS} {DQ : DBQueueOps} {C : Type}.
Context {RR : RtpsReaders} {RL : RtpsReadersLaws} {PM : PoolMethods} (this_pool : nat) {PS : PoolSpec this_pool}.
Implicit Types (s : rstate (C := C)).

(** The reader of Fast DDS that the object uses. *)
Definition reads s (a : nat) (r : RTPSReader) : Prop :=
  rtps_reader_ (rs_this s) = Some a /\ rs_domain s !! a = Some r.

Definition same_object s s' : Prop :=
  rs_this s' = rs_this s /\ rs_calls s' = rs_calls s /\ rs_database s' = rs_database s.

Definition reader_owns s r others H0 : Prop :=
  history_ok this_pool (rs_heap s) (rs_pool s) (rr_untaken r) others H0.

Lemma the_reader_run s a r : reads s a r -> the_reader s = (Ok (a, r), s).
Proof. intros [Hp Hd]. unfold the_reader. run_prog. rewrite Hp. simpl. by rewrite Hd. Qed.

Lemma the_reader_bind {A} s a r (k : nat * RTPSReader -> prog rstate A) :
  reads s a r -> (the_reader ≫= k) s = k (a, r) s.
Proof. intros Hr. by rewrite (bind_ok _ _ _ _ _ (the_reader_run _ _ _ Hr)). Qed.

Lemma reads_domain s a r r' : reads s a r -> reads (rs_set_domain (<[a := r']> (rs_domain s)) s) a r'.
Proof. intros [Hp _]. split; [done|]. simpl. by rewrite lookup_insert_eq. Qed.

Lemma give_back_run s l1 c l2 others H0 :
  history_ok this_pool (rs_heap s) (rs_pool s) (l1 ++ c :: l2) others H0 ->
  (Z.of_nat (length (held_by (l1 ++ c :: l2) ++ others)) < 2 ^ 32)%Z ->
  exists h pool, give_back this_pool c s = (Ok tt, rs_set_memory h pool s) /\
    history_ok this_pool h pool (l1 ++ l2) others H0 /\ bytes_kept h (rs_heap s).
Proof.
  intros Hok Hlen. unfold give_back. destruct (payload_owner (ch_payload c)) as [o|] eqn:Ho.
  - destruct (history_release this_pool _ _ _ _ _ _ _ _ Hok Ho Hlen) as (t & Hrun & Hok' & Hk).
    exists (c_heap t), (c_pool t). split; [|done]. unfold on_change. run_prog. by rewrite Hrun.
  - exists (rs_heap s), (rs_pool s). split; [by destruct s|]. split; [by eapply history_drop|].
    intros a b Hb. by exists b.
Qed.

Lemma history_remove_run s a r l1 c l2 others H0 :
  reads s a r -> reader_owns s r others H0 -> rr_untaken r = l1 ++ c :: l2 ->
  (Z.of_nat (length (held_by (rr_untaken r) ++ others)) < 2 ^ 32)%Z ->
  exists s', history_remove this_pool c s = (Ok tt, s') /\ reads s' a (rr_remove c r) /\
    rr_untaken (rr_remove c r) = l1 ++ l2 /\ reader_owns s' (rr_remove c r) others H0 /\
    bytes_kept (rs_heap s') (rs_heap s) /\ same_object s s' /\
    rs_domain s' = <[a := rr_remove c r]> (rs_domain s).
Proof.
  intros Hr Hok Hl Hlen. unfold reader_owns in *. rewrite Hl in Hok, Hlen.
  assert (rr_untaken (rr_remove c r) = l1 ++ l2) as Hu.
  { apply rr_remove_untaken; [done|]. by apply (distinct_middle l1 c l2), Hok. }
  set (s1 := rs_set_domain (<[a := rr_remove c r]> (rs_domain s)) s).
  destruct (give_back_run s1 l1 c l2 others H0) as (h & pool & Hrun & Hok' & Hk); [done..|].
  exists (rs_set_memory h pool s1). split_and!.
  - unfold history_remove. rewrite (the_reader_bind _ _ _ _ Hr). run_prog. fold s1. exact Hrun.
  - by apply (reads_domain s a r).
  - done.
  - by rewrite Hu.
  - done.
  - done.
  - done.
Qed.

(** What makes a change acceptable. *)
Definition acceptable (topic : DdsTopic) (c : Change) : Prop :=
  ch_writerGUID c <> guid_unknown /\
  ((0 < payload_max_size (serializedPayload (ch_payload c)))%Z \/
   (keyed topic = true /\ ch_kind c <> ALIVE)).

#[export] Instance acceptable_dec topic c : Decision (acceptable topic c).
Proof. unfold acceptable. apply _. Defined.

Lemma is_data_correct_spec topic c :
  (acceptable topic c /\ is_data_correct_ topic c = RETCODE_OK) \/
  (~ acceptable topic c /\ is_data_correct_ topic c = RETCODE_ERROR).
Proof.
  unfold acceptable, is_data_correct_.
  destruct (bool_decide_reflect (ch_writerGUID c = guid_unknown)); [right; naive_solver|].
  destruct (Z.ltb_spec 0 (payload_max_size (serializedPayload (ch_payload c)))); simpl; [left; naive_solver|].
  destruct (keyed topic), (bool_decide_reflect (ch_kind c <> ALIVE)); simpl;
    (left; split; [split; [done|by right]|done]) || (right; split; [|done]; intros [_ [?|[? ?]]]; done || lia).
Qed.

(** What the data says of the change it was taken from, for a reader of the class
    [cls] and what the database knows of the writer. *)
Record received s (c : Change) (before after : DataProperties) : Prop := {
  rec_source : source_guid after = ch_writerGUID c;
  rec_timestamp : source_timestamp after = ch_sourceTimestamp c;
  rec_receiver : participant_receiver after = br_participant_id_ (cr_base (rs_this s));
  rec_kind : kind after = ch_kind c;
  rec_number : origin_sequence_number after = ch_sequenceNumber c;
  rec_params : is_set (write_params after) = true /\ get_reference (write_params after) = ch_write_params c;
  rec_handle : instanceHandle after =
    if keyed (topic_of s) then ch_instanceHandle c else instanceHandle before;
  rec_qos : writer_qos after =
    match cr_class (rs_this s), find (ch_writerGUID c) (entities_ (rs_database s)) with
    | SpecificQoSReader, Some e => specific_qos_ e
    | _, _ => writer_qos before
    end
}.

Lemma fill_payload_spec s a r c data others H0 :
  reads s a r -> reader_owns s r others H0 -> c ∈ rr_untaken r ->
  not_initialized (payload data) -> (reserve_count_ (rs_pool s) + 1 < 2 ^ 64)%Z ->
  (Z.of_nat (length (held_by (rr_untaken r) ++ others)) + 1 < 2 ^ 32)%Z ->
  exists p s', common_fill_received_data_ c data s =
      (Ok (set_payload p (set_properties (received_properties
         (br_participant_id_ (cr_base (rs_this s))) (topic_of s) c (properties data)) data)), s') /\
    reads s' a r /\ same_object s s' /\ rs_domain s' = rs_domain s /\ bytes_kept (rs_heap s) (rs_heap s') /\
    if decide (0 < payload_length (serializedPayload (ch_payload c)))%Z
    then exists x, payload_data p = Some x /\ reader_owns s' r (x :: others) H0 /\
      valid_payload (rs_heap s') p /\
      contents (rs_heap s') p = contents (rs_heap s) (serializedPayload (ch_payload c))
    else p = payload data /\ s' = s.
Proof.
  intros Hr Hok Hin Hni Hres Hlen. unfold common_fill_received_data_. run_prog.
  destruct (decide _) as [Hpos|Hz].
  - rewrite (proj2 (Z.ltb_lt _ _)) by done.
    destruct (payload_owner (ch_payload c)) as [o|] eqn:Ho.
    + destruct (history_get_from this_pool _ _ _ c (payload data) _ _ o Hok Hin Ho Hpos Hni Hres Hlen)
        as (x & t & Hrun & Hok' & Hp & Hv & Hk & Hc).
      rewrite Ho in Hrun. eexists _, _. split.
      * unfold on_data_payload. run_prog. rewrite Hrun. reflexivity.
      * split_and!; [destruct Hr; by split|done..|]. exists x. by split_and!.
    + exfalso. pose proof (ho_changes _ _ _ _ _ _ Hok) as Hall. rewrite Forall_forall in Hall.
      specialize (Hall c Hin). unfold change_ok in Hall. rewrite Ho in Hall. lia.
  - rewrite (proj2 (Z.ltb_ge _ _)) by lia. exists (payload data), s. split_and!; try done.
    intros x b Hb. by exists b.
Qed.

Lemma received_simple s c data p :
  cr_class (rs_this s) = SimpleReader ->
  received s c (properties data) (properties (set_payload p (set_properties (received_properties
    (br_participant_id_ (cr_base (rs_this s))) (topic_of s) c (properties data)) data))).
Proof.
  intros Hcls. split; try done; simpl.
  - split; [apply is_set_value|apply get_set_value].
  - by rewrite Hcls.
Qed.

(** [fill_received_data_] of the two classes. *)
Lemma fill_spec s a r c data others H0 :
  reads s a r -> reader_owns s r others H0 -> c ∈ rr_untaken r ->
  not_initialized (payload data) -> (reserve_count_ (rs_pool s) + 1 < 2 ^ 64)%Z ->
  (Z.of_nat (length (held_by (rr_untaken r) ++ others)) + 1 < 2 ^ 32)%Z ->
  exists d s', fill_received_data_ c data s = (Ok d, s') /\
    received s c (properties data) (properties d) /\
    reads s' a r /\ same_object s s' /\ rs_domain s' = rs_domain s /\ bytes_kept (rs_heap s) (rs_heap s') /\
    if decide (0 < payload_length (serializedPayload (ch_payload c)))%Z
    then exists x, payload_data (payload d) = Some x /\ reader_owns s' r (x :: others) H0 /\
      valid_payload (rs_heap s') (payload d) /\
      contents (rs_heap s') (payload d) = contents (rs_heap s) (serializedPayload (ch_payload c))
    else payload d = payload data /\ s' = s.
Proof.
  intros Hr Hok Hin Hni Hres Hlen.
  destruct (fill_payload_spec _ _ _ c data _ _ Hr Hok Hin Hni Hres Hlen)
    as (p & s' & Hrun & Hr' & Hs & Hdom & Hk & Hp).
  unfold fill_received_data_. run_prog. destruct (cr_class (rs_this s)) eqn:Hcls.
  - eexists _, s'. split; [exact Hrun|]. split; [by apply received_simple|]. by split_and!.
  - unfold specific_fill_received_data_. rewrite (bind_ok _ _ _ _ _ Hrun).
    unfold try_catch, specific_qos_of_writer_, get_endpoint. run_prog.
    cbn [properties set_payload set_properties source_guid received_properties].
    destruct Hs as (Ht & Hc & Hdb). rewrite Hdb.
    destruct (find (ch_writerGUID c) (entities_ (rs_database s))) as [e|] eqn:Hf.
    + eexists _, s'. split; [reflexivity|]. split.
      * split; try done; simpl; [split; [apply is_set_value|apply get_set_value]|]. by rewrite Hcls, Hf.
      * by split_and!.
    + cbn [decide]. rewrite decide_True by done. eexists _, s'. split; [reflexivity|]. split.
      * split; try done; simpl; [split; [apply is_set_value|apply get_set_value]|]. by rewrite Hcls, Hf.
      * by split_and!.
Qed.

Lemma reader_owns_kept s s' r others L H0 :
  reader_owns s' r others H0 -> (forall a, a ∈ L -> a ∈ held_by (rr_untaken r) ++ others) -> bytes_kept (rs_heap s') (rs_heap s) ->
  kept_for L (rs_heap s) (rs_heap s').
Proof.
  intros Hok Hsub Hk. by eapply kept_for_shrink; [exact (ho_accounts _ _ _ _ _ _ Hok)| |].
Qed.

(** The oldest change of an enabled reader is [c]: how [take] ends. *)
Definition takes data s (a : nat) (c : Change) (rest : list Change) others H0
    (ret : ReturnCode) (d : DataReceived) s' (r' : RTPSReader) : Prop :=
  reads s' a r' /\ rr_untaken r' = rest /\ same_object s s' /\
  rs_domain s' = <[a := r']> (rs_domain s) /\ (forall r, rs_domain s !! a = Some r -> rr_guid r' = rr_guid r) /\
  kept_for (held_by rest ++ others) (rs_heap s) (rs_heap s') /\
  ((~ acceptable (topic_of s) c /\ ret = RETCODE_ERROR /\ d = data /\ reader_owns s' r' others H0) \/
   (acceptable (topic_of s) c /\ ret = RETCODE_OK /\ received s c (properties data) (properties d) /\
    if decide (0 < payload_length (serializedPayload (ch_payload c)))%Z
    then exists x, payload_data (payload d) = Some x /\ reader_owns s' r' (x :: others) H0 /\
      valid_payload (rs_heap s') (payload d) /\
      contents (rs_heap s') (payload d) = contents (rs_heap s) (serializedPayload (ch_payload c))
    else payload d = payload data /\ reader_owns s' r' others H0)).

Lemma cr_take_run data s a r c rest others H0 :
  reads s a r -> reader_owns s r others H0 -> not_initialized (payload data) ->
  (reserve_count_ (rs_pool s) + 1 < 2 ^ 64)%Z ->
  (Z.of_nat (length (held_by (rr_untaken r) ++ others)) + 1 < 2 ^ 32)%Z ->
  br_enabled_ (cr_base (rs_this s)) = true -> rr_untaken r = c :: rest ->
  exists ret d s' r', cr_take this_pool data s = (Ok (ret, d), s') /\ takes data s a c rest others H0 ret d s' r'.
Proof.
  intros Hr Hok Hni Hres Hlen Hen Hu. unfold takes, cr_take. run_prog. rewrite Hen.
  unfold cr_take_, cr_get_unread_count. run_prog. rewrite (the_reader_run _ _ _ Hr).
  run_prog. rewrite rr_unread_spec, Hu.
  rewrite (proj2 (Z.ltb_lt _ _)) by (simpl; lia). cbn [negb].
  rewrite (the_reader_run _ _ _ Hr). run_prog. rewrite rr_next_spec, Hu. cbn [head].
  assert (c ∈ rr_untaken r) as Hin by (rewrite Hu; apply elem_of_cons; by left).
  assert (rr_untaken r = [] ++ c :: rest) as Hu' by done.
  assert (forall r0, rs_domain s !! a = Some r0 -> rr_guid (rr_remove c r) = rr_guid r0) as Hguid.
  { intros r0 Hr0. destruct Hr as [_ Hd]. rewrite Hd in Hr0. injection Hr0 as <-. apply rr_remove_guid. }
  unfold mbind, prog_bind.
  destruct (is_data_correct_spec (topic_of s) c) as [[Hacc ->]|[Hnacc ->]].
  - rewrite ret_not_ok.
    destruct (fill_spec _ _ _ c data _ _ Hr Hok Hin Hni Hres Hlen)
      as (d & s1 & Hrun & Hrec & Hr1 & Hs1 & Hd1 & Hk1 & Hp). rewrite Hrun.
    destruct (decide _) as [Hpos|Hz].
    + destruct Hp as (x & Hpx & Hok1 & Hv1 & Hc1).
      destruct (history_remove_run s1 a r [] c rest (x :: others) H0 Hr1 Hok1 Hu')
        as (s2 & Hrun2 & Hr2 & Hu2 & Hok2 & Hk2 & Hs2 & Hd2).
      { rewrite length_app. rewrite length_app in Hlen. simpl. lia. }
      pose proof (reader_owns_kept s1 s2 _ _ (held_by rest ++ x :: others) _ Hok2) as Hkept.
      rewrite Hu2 in Hkept. specialize (Hkept ltac:(done) Hk2).
      rewrite Hrun2. eexists _, _, s2, _. split; [reflexivity|]. split_and!; [done|done| | |exact Hguid| |].
      { destruct Hs1 as (?&?&?), Hs2 as (?&?&?). split_and!; congruence. }
      { by rewrite Hd2, Hd1. }
      { eapply kept_for_trans; [by apply kept_for_grow|].
        eapply kept_for_sub; [|exact Hkept]. set_solver. }
      right. split_and!; [done..|]. exists x.
      destruct (held_valid_kept _ _ _ (payload d) x Hkept Hpx) as [? Hc2]; [set_solver|done|].
      split_and!; try done. by rewrite Hc2.
    + destruct Hp as [Hpd ->].
      destruct (history_remove_run s a r [] c rest others H0 Hr Hok Hu')
        as (s2 & Hrun2 & Hr2 & Hu2 & Hok2 & Hk2 & Hs2 & Hd2); [lia|].
      rewrite Hrun2. eexists _, _, s2, _. split; [reflexivity|]. split_and!; [done..| |].
      { eapply reader_owns_kept; [exact Hok2|by rewrite Hu2|done]. }
      right. by split_and!.
  - rewrite ret_not_error by done.
    destruct (history_remove_run s a r [] c rest others H0 Hr Hok Hu')
      as (s2 & Hrun2 & Hr2 & Hu2 & Hok2 & Hk2 & Hs2 & Hd2); [lia|].
    rewrite Hrun2. eexists _, _, s2, _. split; [reflexivity|]. split_and!; [done..| |].
    { eapply reader_owns_kept; [exact Hok2|by rewrite Hu2|done]. }
    left. by split_and!.
Qed.

Lemma cr_take_empty data s a r :
  reads s a r -> rr_untaken r = [] -> br_enabled_ (cr_base (rs_this s)) = true ->
  cr_take this_pool data s = (Ok (RETCODE_NO_DATA, data), s).
Proof.
  intros Hr Hu Hen. unfold cr_take. run_prog. rewrite Hen. unfold cr_take_, cr_get_unread_count. run_prog.
  rewrite (the_reader_run _ _ _ Hr). run_prog. by rewrite rr_unread_spec, Hu.
Qed.

Lemma counts_the_reader : counts (S := rstate (C := C)) rs_pool 0 the_reader.
Proof.
  apply counts_same; [done|]. intros s. unfold the_reader, exec. run_prog.
  destruct (rtps_reader_ _); [|done]. by destruct (rs_domain s !! _).
Qed.

Lemma counts_get_from p src owner :
  counts (S := rstate (C := C)) rs_pool 1 (on_data_payload p (get_payload_from src owner)).
Proof.
  intros s Hs. unfold on_data_payload, exec.
  pose proof (spec_get_from_count src owner (PayloadPool.mkP (rs_heap s) (rs_pool s) p) Hs) as H.
  unfold exec in H. by destruct (get_payload_from src owner _) as [[?|?] ?].
Qed.

Lemma counts_give_back c : counts (S := rstate (C := C)) rs_pool 0 (give_back this_pool c).
Proof.
  unfold give_back. destruct (payload_owner _); [|by apply counts_same].
  apply counts_bind_l; [|by intros; apply counts_same]. apply counts_same; [done|]. intros s.
  unfold on_change, exec, release_payload_change, on_payload, zoom. run_prog.
  cbn [c_heap c_pool c_change]. case_bool_decide; [|done].
  pose proof (spec_release_count (PayloadPool.mkP (rs_heap s) (rs_pool s) (serializedPayload (ch_payload c)))) as H'.
  unfold exec in H'. destruct (release_payload _) as [[[]|?] ?]; exact H'.
Qed.

#[local] Hint Resolve counts_the_reader counts_get_from counts_give_back : counts.

(** One [take] reserves one block at most. *)
Lemma counts_take data : counts (S := rstate (C := C)) rs_pool 1 (cr_take this_pool data).
Proof.
  unfold cr_take, cr_take_, cr_get_unread_count, history_remove, fill_received_data_,
    specific_fill_received_data_, common_fill_received_data_, specific_qos_of_writer_, throw. counts.
Qed.

(** C10: what [take] does, on every branch. A disabled reader answers
    [RETCODE_NOT_ENABLED] and one without data [RETCODE_NO_DATA], and nothing changes.
    Otherwise the oldest change leaves the history. If it has no writer, or no payload
    and it is not the disposal of an instance, it is discarded with [RETCODE_ERROR].
    Else the data describes it: its writer, kind, number, time and parameters, the
    participant, the key if the topic has one, the QoS of the writer if the class looks
    them up and they are known; and it holds one payload of the pool with the same
    message, unless the change had none. No payload is lost or kept by the history, those
    held elsewhere keep their bytes, and no other reader is touched. *)
Theorem reader_take_spec data s a r others H0 :
  reads s a r -> reader_owns s r others H0 -> not_initialized (payload data) ->
  (reserve_count_ (rs_pool s) + 1 < 2 ^ 64)%Z ->
  (Z.of_nat (length (held_by (rr_untaken r) ++ others)) + 1 < 2 ^ 32)%Z ->
  if negb (br_enabled_ (cr_base (rs_this s)))
  then cr_take this_pool data s = (Ok (RETCODE_NOT_ENABLED, data), s)
  else match rr_untaken r with
  | [] => cr_take this_pool data s = (Ok (RETCODE_NO_DATA, data), s)
  | c :: rest =>
      exists ret d s' r', cr_take this_pool data s = (Ok (ret, d), s') /\
        takes data s a c rest others H0 ret d s' r'
  end.
Proof.
  intros Hr Hok Hni Hres Hlen. destruct (br_enabled_ (cr_base (rs_this s))) eqn:Hen; cbn [negb].
  - destruct (rr_untaken r) as [|c rest] eqn:Hu; [by eapply cr_take_empty|].
    eapply cr_take_run; try done. by rewrite Hu.
  - unfold cr_take. run_prog. by rewrite Hen.
Qed.

(** ** The listener *)

(** A change arrives: Fast DDS adds it to the history and calls the listener, both
    under the lock of the reader. *)
Definition arrive (c : Change) : prog (rstate (C := C)) unit :=
  ar ← the_reader;
  modify (fun s => rs_set_domain (<[ar.1 := rr_add c ar.2]> (rs_domain s)) s) ;;
  onNewCacheChangeAdded this_pool c.

(** A new sample, with its payload in the pool. *)
Definition arrives s r c others H0 : Prop :=
  history_ok this_pool (rs_heap s) (rs_pool s) (rr_untaken r ++ [c]) others H0.

(** The calls of the callback that an event makes. *)
Definition notified s s' : Prop :=
  rs_calls s' = rs_calls s ++ match br_on_data_available_ (cr_base (rs_this s)) with Some t => [t] | None => [] end.

Definition keeps s r s' a r' c others H0 : Prop :=
  reads s' a r' /\ rr_untaken r' = rr_untaken r ++ [c] /\ reader_owns s' r' others H0.

(** What the listener does with a change that arrives. One written by this same
    participant is removed at once, whatever the state of the reader. Any other is kept
    and announced if the reader is enabled; if it is disabled it is kept without
    announcing it when the topic is reliable, and removed otherwise. What is removed
    gives its payload back. *)
Theorem reader_listener_spec c s a r others H0 :
  reads s a r -> arrives s r c others H0 ->
  (Z.of_nat (length (held_by (rr_untaken r ++ [c]) ++ others)) < 2 ^ 32)%Z ->
  let own := bool_decide (guidPrefix (ch_writerGUID c) = guidPrefix (rr_guid r)) in
  let enabled := br_enabled_ (cr_base (rs_this s)) in
  exists s' r', arrive c s = (Ok tt, s') /\ rs_this s' = rs_this s /\ rr_guid r' = rr_guid r /\
    if negb own && (enabled || is_reliable (qos_of (topic_of s)))
    then keeps s r s' a r' c others H0 /\
      (if enabled then notified s s' else rs_calls s' = rs_calls s)
    else reads s' a r' /\ rr_untaken r' = rr_untaken r /\ reader_owns s' r' others H0 /\
      rs_calls s' = rs_calls s.
Proof.
  intros Hr Harr Hlen own enabled.
  set (r1 := rr_add c r). set (s1 := rs_set_domain (<[a := r1]> (rs_domain s)) s).
  assert (reads s1 a r1) as Hr1 by (by apply (reads_domain s a r)).
  assert (rr_untaken r1 = rr_untaken r ++ [c]) as Hu1 by apply rr_add_untaken.
  assert (reader_owns s1 r1 others H0) as Hok1 by (unfold reader_owns; by rewrite Hu1).
  assert (rr_guid r1 = rr_guid r) as Hg1 by apply rr_add_guid.
  destruct (history_remove_run s1 a r1 (rr_untaken r) c [] others H0 Hr1 Hok1 Hu1)
    as (s2 & Hrun2 & Hr2 & Hu2 & Hok2 & Hk2 & (Ht2 & Hc2 & Hd2) & _); [by rewrite Hu1|].
  rewrite app_nil_r in Hu2.
  assert (rr_guid (rr_remove c r1) = rr_guid r) as Hg2 by (by rewrite rr_remove_guid).
  unfold arrive. rewrite (the_reader_bind _ _ _ _ Hr). run_prog. fold r1 s1.
  unfold onNewCacheChangeAdded, come_from_this_participant_. run_prog.
  rewrite (the_reader_run _ _ _ Hr1). run_prog. rewrite Hg1. fold own.
  destruct own; cbn [negb andb].
  { exists s2, (rr_remove c r1). by split_and!. }
  change (br_enabled_ (cr_base (rs_this s1))) with enabled.
  change (topic_of s1) with (topic_of s).
  destruct enabled; cbn [orb].
  - unfold cr_on_data_available_, notified. run_prog. change (rs_this s1) with (rs_this s).
    destruct (br_on_data_available_ (cr_base (rs_this s))) as [t|].
    + exists (rs_call t s1), r1. by split_and!.
    + exists s1, r1. split_and!; try done. simpl. by rewrite app_nil_r.
  - destruct (is_reliable (qos_of (topic_of s))); cbn [negb].
    + exists s1, r1. by split_and!.
    + exists s2, (rr_remove c r1). by split_and!.
Qed.

(** ** No feedback *)

Inductive reader_step : rstate (C := C) -> option DataReceived -> rstate (C := C) -> Prop :=
| step_arrive c s a r s' :
    reads s a r -> Forall (fun c' => ~ same_sample c c') (rr_untaken r) ->
    arrive c s = (Ok tt, s') -> reader_step s None s'
| step_take data ret d s s' :
    cr_take this_pool data s = (Ok (ret, d), s') ->
    reader_step s (if decide (ret = RETCODE_OK) then Some d else None) s'
| step_enable s s' : cr_enable s = (Ok tt, s') -> reader_step s None s'
| step_disable s s' : cr_disable s = (Ok tt, s') -> reader_step s None s'
| step_callback f s : (f = br_unset_on_data_available_callback \/ exists t, f = br_set_on_data_available_callback t) ->
    reader_step s None (exec (on_base f) s).

Definition any_reader_step s s' : Prop := exists o, reader_step s o s'.

(** The reader at [a] has the GUID [g] and holds nothing of its own participant. *)
Definition no_own (a : nat) (g : Guid) s : Prop :=
  exists r, reads s a r /\ rr_guid r = g /\
    Forall (fun c => guidPrefix (ch_writerGUID c) <> guidPrefix g) (rr_untaken r).

Lemma no_own_same a g s s' :
  rtps_reader_ (rs_this s') = rtps_reader_ (rs_this s) -> rs_domain s' = rs_domain s ->
  no_own a g s -> no_own a g s'.
Proof. intros Hp Hd (r & [Hp' Hr] & Hg & Hall). exists r. split; [|done]. split; congruence. Qed.

Lemma give_back_domain c s s' :
  give_back this_pool c s = (Ok tt, s') -> rs_domain s' = rs_domain s /\ rs_this s' = rs_this s.
Proof.
  unfold give_back. destruct (payload_owner _); [|by intros [= <-]].
  unfold on_change. run_prog. destruct (release_payload_change _ _) as [[?|?] t]; by intros [= <-].
Qed.

Lemma history_remove_domain c s s' a r :
  reads s a r -> history_remove this_pool c s = (Ok tt, s') -> reads s' a (rr_remove c r).
Proof.
  intros Hr. unfold history_remove. rewrite (the_reader_bind _ _ _ _ Hr). run_prog. intros H.
  apply give_back_domain in H as [Hd Ht]. destruct Hr as [Hp _]. split.
  - by rewrite Ht.
  - rewrite Hd. simpl. by rewrite lookup_insert_eq.
Qed.

Lemma arrive_no_own c s s' a g r :
  reads s a r -> Forall (fun c' => ~ same_sample c c') (rr_untaken r) ->
  arrive c s = (Ok tt, s') -> no_own a g s -> no_own a g s'.
Proof.
  intros Hr Hnew Hrun (r0 & Hr0 & Hg & Hall).
  assert (r0 = r) as -> by (destruct Hr, Hr0; congruence).
  set (r1 := rr_add c r). set (s1 := rs_set_domain (<[a := r1]> (rs_domain s)) s).
  assert (reads s1 a r1) as Hr1 by (by apply (reads_domain s a r)).
  assert (rr_untaken r1 = rr_untaken r ++ [c]) as Hu1 by apply rr_add_untaken.
  assert (forall s2, history_remove this_pool c s1 = (Ok tt, s2) -> no_own a g s2) as Hrm.
  { intros s2 H2. exists (rr_remove c r1).
    rewrite (rr_remove_untaken r1 (rr_untaken r) c []), app_nil_r by done.
    split_and!; [by eapply history_remove_domain| |done]. rewrite rr_remove_guid.
    unfold r1. by rewrite rr_add_guid. }
  revert Hrun. unfold arrive. rewrite (the_reader_bind _ _ _ _ Hr). run_prog. fold r1 s1.
  unfold onNewCacheChangeAdded, come_from_this_participant_. run_prog.
  rewrite (the_reader_run _ _ _ Hr1). run_prog.
  assert (rr_guid r1 = g) as Hg1 by (unfold r1; by rewrite rr_add_guid). rewrite Hg1.
  destruct (bool_decide_reflect (guidPrefix (ch_writerGUID c) = guidPrefix g)) as [|Hne]; cbn [negb].
  { by apply Hrm. }
  assert (no_own a g s1) as Hno.
  { exists r1. split; [done|]. split; [done|]. rewrite Hu1. by apply Forall_app; split; [|constructor]. }
  destruct (br_enabled_ _).
  - unfold cr_on_data_available_. run_prog. destruct (br_on_data_available_ _); intros [= <-]; [|done].
    by eapply no_own_same.
  - destruct (negb _); [by apply Hrm|]. by intros [= <-].
Qed.

Lemma common_fill_domain c data d s s' :
  common_fill_received_data_ c data s = (Ok d, s') ->
  rs_domain s' = rs_domain s /\ rs_this s' = rs_this s /\ source_guid (properties d) = ch_writerGUID c.
Proof.
  unfold common_fill_received_data_. run_prog. destruct (0 <? _)%Z.
  - unfold on_data_payload. run_prog. destruct (get_payload_from _ _ _) as [[?|?] t]; [|done].
    by intros [= <- <-].
  - by intros [= <- <-].
Qed.

Lemma fill_domain c data d s s' :
  fill_received_data_ c data s = (Ok d, s') ->
  rs_domain s' = rs_domain s /\ rs_this s' = rs_this s /\ source_guid (properties d) = ch_writerGUID c.
Proof.
  unfold fill_received_data_. run_prog. destruct (cr_class _); [apply common_fill_domain|].
  unfold specific_fill_received_data_. intros (d1 & s1 & H1 & H2)%bind_inv_ok.
  apply common_fill_domain in H1 as (Hd & Ht & Hg). revert H2.
  unfold try_catch, specific_qos_of_writer_. run_prog.
  destruct (get_endpoint _ _) as [e|e].
  - intros [= <- <-]. done.
  - destruct (decide _); [|done]. intros [= <- <-]. done.
Qed.

Lemma take_no_own data ret d s s' a g :
  no_own a g s -> cr_take this_pool data s = (Ok (ret, d), s') ->
  no_own a g s' /\ (ret = RETCODE_OK -> guidPrefix (source_guid (properties d)) <> guidPrefix g).
Proof.
  intros (r & Hr & Hg & Hall). unfold cr_take. run_prog.
  assert (no_own a g s) as Hno by (by exists r).
  destruct (br_enabled_ _); [|by intros [= <- <- <-]].
  unfold cr_take_, cr_get_unread_count. run_prog. rewrite (the_reader_run _ _ _ Hr). run_prog.
  destruct (negb _); [by intros [= <- <- <-]|]. rewrite (the_reader_run _ _ _ Hr). run_prog.
  rewrite rr_next_spec. destruct (rr_untaken r) as [|c rest] eqn:Hu; [by intros [= <- <- <-]|].
  cbn [head]. apply Forall_cons in Hall as [Hc Hrest].
  assert (forall s1 s2, reads s1 a r -> history_remove this_pool c s1 = (Ok tt, s2) -> no_own a g s2) as Hrm.
  { intros s1 s2 Hr1 H2. exists (rr_remove c r). rewrite (rr_remove_untaken r [] c rest) by done.
    split_and!; [by eapply history_remove_domain|by rewrite rr_remove_guid|done]. }
  unfold mbind, prog_bind.
  destruct (is_data_correct_spec (topic_of s) c) as [[_ ->]|[_ ->]].
  - rewrite ret_not_ok. destruct (fill_received_data_ c data s) as [[d1|] s1] eqn:Hf; [|done].
    apply fill_domain in Hf as (Hd & Ht & Hsrc).
    assert (reads s1 a r) as Hr1 by (destruct Hr; split; congruence).
    destruct (history_remove this_pool c s1) as [[[]|] s2] eqn:H2; [|done].
    intros [= <- <- <-]. split; [by eapply Hrm|]. intros _. by rewrite Hsrc.
  - rewrite ret_not_error by done. destruct (history_remove this_pool c s) as [[[]|] s2] eqn:H2; [|done].
    intros [= <- <- <-]. split; [by eapply Hrm|done].
Qed.

Lemma reader_step_no_own a g s o s' :
  reader_step s o s' -> no_own a g s ->
  no_own a g s' /\ forall d, o = Some d -> guidPrefix (source_guid (properties d)) <> guidPrefix g.
Proof.
  destruct 1 as [c s a' r s' Hr Hnew H|data ret d s s' H|s s' H|s s' H|f s Hf]; intros Hno.
  - assert (a' = a) as -> by (destruct Hno as (? & [? _] & _), Hr; congruence).
    split; [by eapply arrive_no_own|done].
  - destruct (take_no_own _ _ _ _ _ _ _ Hno H) as [Hno' Hd]. split; [done|].
    intros d'. case_decide; intros [= <-]. by apply Hd.
  - split; [|done]. revert H. unfold cr_enable. run_prog. destruct (negb _); [|by intros [= <-]].
    unfold on_base, cr_enable_. run_prog. destruct (is_reliable _).
    + intros (? & ? & Hr & Hc)%bind_inv_ok.
      assert (no_own a g (rs_set_this (cr_set_base (br_set_enabled true (cr_base (rs_this s))) (rs_this s)) s)) as Hno'
        by (by eapply no_own_same; [| |exact Hno]).
      destruct Hno' as (r & Hr' & Hrest). rewrite (the_reader_run _ _ _ Hr') in Hr. simplify_eq.
      revert Hc. unfold cr_on_data_available_. run_prog.
      destruct (br_on_data_available_ _); intros [= <-]; by exists r.
    + intros [= <-]. by eapply no_own_same.
  - split; [|done]. injection H as <-. by eapply no_own_same.
  - split; [|done]. by eapply no_own_same.
Qed.

Lemma reader_steps_no_own a g s s' : rtc any_reader_step s s' -> no_own a g s -> no_own a g s'.
Proof.
  induction 1 as [|x y z [o Hxy] _ IH]; [done|]. intros Hx.
  by apply IH, (reader_step_no_own _ _ _ _ _ Hxy).
Qed.

(** C19: no feedback. Whatever arrives at a reader and however it is enabled, disabled,
    read and given callbacks, no data it returns was written by its own participant, so
    that what the router sends does not come back to the router. *)
Theorem reader_no_feedback s0 s o s' d a r0 :
  reads s0 a r0 -> rr_untaken r0 = [] -> rtc any_reader_step s0 s ->
  reader_step s o s' -> o = Some d ->
  guidPrefix (source_guid (properties d)) <> guidPrefix (rr_guid r0).
Proof.
  intros Hr Hu Hrtc Hstep ->.
  assert (no_own a (rr_guid r0) s0) as H0 by (exists r0; by rewrite Hu).
  apply (reader_step_no_own a _ _ _ _ Hstep); [by eapply reader_steps_no_own|done].
Qed.

(** ** Creation and destruction *)

Lemma remove_rtps_reader_run s a r others H0 :
  reads s a r -> reader_owns s r others H0 ->
  (Z.of_nat (length (held_by (rr_untaken r) ++ others)) < 2 ^ 32)%Z ->
  exists h pool, remove_rtps_reader this_pool s =
      (Ok tt, rs_set_domain (delete a (rs_domain s)) (rs_set_memory h pool s)) /\
    history_ok this_pool h pool [] others H0 /\ bytes_kept h (rs_heap s).
Proof.
  intros Hr Hok Hlen. unfold remove_rtps_reader. rewrite (the_reader_bind _ _ _ _ Hr). cbn [fst snd].
  assert (forall l s1, history_ok this_pool (rs_heap s1) (rs_pool s1) l others H0 ->
    (Z.of_nat (length (held_by l ++ others)) < 2 ^ 32)%Z ->
    exists h pool, for_each l (give_back this_pool) s1 = (Ok tt, rs_set_memory h pool s1) /\
      history_ok this_pool h pool [] others H0 /\ bytes_kept h (rs_heap s1)) as Hloop.
  { induction l as [|c l IH]; intros s1 Hok1 Hlen1.
    - exists (rs_heap s1), (rs_pool s1). split_and!; [by destruct s1|done|apply bytes_kept_refl].
    - destruct (give_back_run s1 [] c l others H0 Hok1 Hlen1) as (h & pool & Hrun & Hok2 & Hk2).
      destruct (IH (rs_set_memory h pool s1)) as (h' & pool' & Hrun' & Hok' & Hk'); [done| |].
      { change (held_by (c :: l)) with (held c ++ held_by l) in Hlen1.
        rewrite !length_app in *. lia. }
      exists h', pool'. split_and!; [|done|by eapply bytes_kept_trans]. by rewrite (for_each_step _ _ _ _ _ Hrun), Hrun'. }
  destruct (Hloop _ _ Hok Hlen) as (h & pool & Hrun & Hok' & Hk'). exists h, pool. split_and!; [|done|done].
  unfold mbind, prog_bind at 1. rewrite Hrun. run_prog. done.
Qed.

(** [this] once its reader is at [a] in Fast DDS. *)
Definition made s (a : nat) (e : RTPSReader) : rstate (C := C) :=
  mkRS (rs_heap s) (rs_pool s) (<[a := e]> (rs_domain s)) (rs_database s)
    (cr_set_entities (Some a) true (rs_this s)) (rs_calls s).
(** [this] with a pointer to a reader that was removed. *)
Definition dangling s (a : nat) : rstate (C := C) :=
  rs_set_this (cr_set_entities (Some a) true (rs_this s)) s.

Lemma made_reads s a e : reads (made s a e) a e.
Proof. split; [done|]. apply lookup_insert_eq. Qed.

Lemma cr_init_run s :
  cr_init this_pool s =
    match create_rtps_reader (cr_rtps_participant_ (rs_this s)) (history_attributes_ (rs_this s))
            (reader_attributes_ (rs_this s)) (rs_domain s) with
    | None => (Throw InitializationException, rs_set_this (cr_set_entities None true (rs_this s)) s)
    | Some (a, e) =>
        if register_reader e (topic_attributes_ (rs_this s)) (reader_qos_ (rs_this s))
        then (Ok tt, made s a e) else (Throw InitializationException, dangling s a)
    end.
Proof.
  unfold cr_init, set_entities_. run_prog.
  destruct (create_rtps_reader _ _ _ _) as [[a e]|] eqn:Hcreate; [|done].
  destruct (create_reader_fresh _ _ _ _ _ _ Hcreate) as [Hfresh Hempty].
  match goal with |- context [the_reader ?x] => change x with (made s a e) end.
  rewrite (the_reader_run _ _ _ (made_reads s a e)). run_prog.
  destruct (register_reader _ _ _); cbn [negb]; [done|].
  unfold remove_rtps_reader. run_prog. rewrite (the_reader_run _ _ _ (made_reads s a e)). cbn [fst snd].
  rewrite Hempty. cbn [for_each]. unfold dangling, made, rs_set_domain, rs_set_this. simpl.
  by rewrite delete_insert_id.
Qed.

Lemma cr_destroy_dangling s a :
  rs_domain s !! a = None -> cr_destroy this_pool (dangling s a) = (Throw UndefinedBehaviour, dangling s a).
Proof.
  intros Hfresh. unfold cr_destroy. run_prog. cbn [rtps_reader_ cr_set_entities rs_this rs_set_this dangling].
  unfold the_reader. run_prog. cbn [rtps_reader_ cr_set_entities rs_this rs_set_this dangling rs_domain].
  by rewrite Hfresh.
Qed.

(** C36: the life of a reader. If Fast DDS gives no reader, [init] throws and the
    destructor has nothing to free. If the reader is made and registered, [init] leaves
    it with an empty history; and from any later state the destructor gives every payload
    of the history back to the pool and frees the reader. If the reader is made but
    cannot be registered, [init] removes it and throws without resetting the pointer, so
    that the destructor uses a reader that was freed. *)
Theorem reader_lifecycle s :
  let r := rs_this s in
  match create_rtps_reader (cr_rtps_participant_ r) (history_attributes_ r) (reader_attributes_ r) (rs_domain s) with
  | None => exists s', cr_init this_pool s = (Throw InitializationException, s') /\
      rs_domain s' = rs_domain s /\ rs_heap s' = rs_heap s /\ is_ok (cr_destroy this_pool s').1 = true
  | Some (a, e) =>
      if register_reader e (topic_attributes_ r) (reader_qos_ r)
      then (exists s', cr_init this_pool s = (Ok tt, s') /\ reads s' a e /\ rr_untaken e = [] /\
              rs_heap s' = rs_heap s) /\
           forall s1 r1 others H0, reads s1 a r1 -> reader_owns s1 r1 others H0 ->
             (Z.of_nat (length (held_by (rr_untaken r1) ++ others)) < 2 ^ 32)%Z ->
             exists s2, cr_destroy this_pool s1 = (Ok tt, s2) /\ rs_domain s2 = delete a (rs_domain s1) /\
               history_ok this_pool (rs_heap s2) (rs_pool s2) [] others H0
      else exists s', cr_init this_pool s = (Throw InitializationException, s') /\
             rs_domain s' = rs_domain s /\ result (cr_destroy this_pool) s' = Throw UndefinedBehaviour
  end.
Proof.
  intros r. rewrite cr_init_run. fold r.
  destruct (create_rtps_reader _ _ _ _) as [[a e]|] eqn:Hcreate.
  - destruct (create_reader_fresh _ _ _ _ _ _ Hcreate) as [Hfresh Hempty]. destruct (register_reader _ _ _).
    + split; [exists (made s a e); split; [done|split; [apply made_reads|done]]|]. intros s2 r2 others H0 Hr2 Hok Hlen.
      destruct (remove_rtps_reader_run _ _ _ _ _ Hr2 Hok Hlen) as (h & pool & Hrun & Hok' & _).
      eexists. split_and!.
      * unfold cr_destroy. run_prog. destruct Hr2 as [Hp Hd]. rewrite Hp.
        rewrite (the_reader_run s2 a r2) by done. rewrite Hrun. reflexivity.
      * done.
      * done.
    + exists (dangling s a). split_and!; [done..|]. unfold result. by rewrite cr_destroy_dangling.
  - eexists. split; [reflexivity|]. split_and!; done.
Qed.

End Properties.

(** ** Witnesses *)
Module ReaderDemo.

#[local] Existing Instances Demo.cpp_utils Demo.fast_dds Demo.dbqueue PoolDemo.malloc.

(** A reader of Fast DDS: its GUID and its history. *)
Definition readers : RtpsReaders := {|
  RTPSReader := (Guid * list Change)%type;
  rr_guid r := r.1;
  rr_unread r := Z.of_nat (length r.2);
  rr_next_untaken r := head r.2;
  rr_remove c r := (r.1, remove_sample c r.2);
  rr_add c r := (r.1, r.2 ++ [c]);
  rr_untaken r := r.2;
  create_rtps_reader g _ _ m := Some (fresh (dom m : gset nat), (mkGuid (guidPrefix g) [7%Z], []));
  register_reader _ ta _ := negb (topicName ta =? "refused")%string
|}.

Lemma readers_laws : @RtpsReadersLaws readers.
Proof.
  split; try done.
  - intros [g l] l1 c l2 Hu Hne. simpl in *. subst. by apply remove_sample_spec.
  - intros g ha ea m a r. simpl. intros [= <- <-]. split; [|done].
    apply (not_elem_of_dom (D := gset nat)), (is_fresh (C := gset nat) (dom m)).
  - intros g ha ea m a r. simpl. by intros [= <- <-].
Qed.

(** A message of two bytes from the writer [8] of another participant. *)
Definition unknown_params : WriteParams := mkWriteParams sample_identity_unknown sample_identity_unknown.
Definition c1 : Change :=
  mkChange (mkGuid [2%Z] [8%Z]) 1%Z 100 ALIVE [] unknown_params
    (mkCacheChange (mkPayload (Some 0) 2 2 0) (Some 7)) [].
Definition own : Change :=
  mkChange (mkGuid [1%Z] [9%Z]) 1%Z 100 ALIVE [] unknown_params (mkCacheChange Payload_empty None) [].

Definition topic : DdsTopic := DdsTopic_of 5000 "t" "T".
Definition dq : EndpointQos := mkEndpointQos VOLATILE_DURABILITY_QOS BEST_EFFORT_RELIABILITY_QOS 0 [] SHARED_OWNERSHIP 0.

Definition object (name : string) : CommonReader :=
  SimpleReader_of dq (mkGuid [1%Z] [0%Z]) (mkParticipantId "p") (DdsTopic_of 5000 name "T").
Definition enabled_object : CommonReader :=
  cr_set_entities (Some 3) true (cr_set_base (br_set_enabled true (br_set_on_data_available_callback 5
    (BaseReader_of (mkParticipantId "p") topic))) (object "t")).

(** The reader at the address 3 is enabled and has the changes [l]. *)
Definition state (h : heap) (pool : PayloadPool) (l : list Change) : rstate (RR := readers) (C := unit) :=
  mkRS (RR := readers) h pool {[ 3 := (mkGuid [1%Z] [7%Z], l) ]} DiscoveryDatabase_new enabled_object [].

Definition memory : heap := {[ 0 := mkBlock (Some 1%Z) [Some 5%Z; Some 6%Z] ]}.
Definition pool : PayloadPool := mkPool 1 0 [].

Definition data : DataReceived :=
  mkDataReceived Payload_empty (mkDataProperties SpecificEndpointQoS_default [] ALIVE 0 (mkGuid [] [])
    ParticipantId_invalid (fuzzy_init unknown_params) 0%Z) 0%Z.

Lemma reader_owns_demo : @history_ok (FastPayloadPool.methods 7) 7 (FastPayloadPoolSpec.fast_pool_spec (ML := PoolDemo.malloc_laws) 7)
  memory pool [c1] [] ∅.
Proof.
  split.
  - split; vm_compute; done.
  - intros a Ha. change (held_by [c1] ++ []) with [0] in *. apply list_elem_of_singleton in Ha as ->.
    exists [Some 5%Z; Some 6%Z]. done.
  - constructor; [|done]. split; [done|]. exists 0, (mkBlock (Some 1%Z) [Some 5%Z; Some 6%Z]).
    split_and!; done.
  - unfold distinct_samples. simpl. apply NoDup_singleton.
Qed.

End ReaderDemo.

Section Witnesses.
#[local] Existing Instances Demo.cpp_utils Demo.cpp_utils_laws Demo.fast_dds Demo.dbqueue
  PoolDemo.malloc PoolDemo.malloc_laws ReaderDemo.readers ReaderDemo.readers_laws.
#[local] Instance demo_methods : PoolMethods := FastPayloadPool.methods 7.
#[local] Instance demo_spec : PoolSpec 7 := FastPayloadPoolSpec.fast_pool_spec 7.
Import ReaderDemo.

Lemma reader_take_spec_witness :
  exists d s', cr_take 7 data (state memory pool [c1]) = (Ok (RETCODE_OK, d), s') /\
    contents (rs_heap s') (payload d) = Some [Some 5%Z; Some 6%Z].
Proof.
  pose proof (reader_take_spec 7 data (state memory pool [c1]) 3 (mkGuid [1%Z] [7%Z], [c1]) [] ∅) as H.
  destruct H as (ret & d & s' & r' & Hrun & _ & _ & _ & _ & _ & _ & Hcase);
    [split; reflexivity|exact reader_owns_demo|done|simpl; lia|simpl; lia|].
  exists d, s'. destruct Hcase as [[Hno _]|(_ & -> & _ & x & _ & _ & _ & Hc)].
  - exfalso. apply Hno. split; [done|]. by left.
  - split; [exact Hrun|]. rewrite Hc. reflexivity.
Defined.

Lemma reader_listener_spec_witness :
  exists s', arrive 7 own (state ∅ PayloadPool_new []) = (Ok tt, s') /\ rs_calls s' = [].
Proof.
  destruct (reader_listener_spec 7 own (state ∅ PayloadPool_new []) 3 (mkGuid [1%Z] [7%Z], []) [] ∅)
    as (s' & r' & Hrun & _ & _ & _ & _ & _ & Hc).
  - split; reflexivity.
  - split; [apply accounts_new|intros a Ha; set_solver| |].
    + constructor; [split; reflexivity|done].
    + unfold distinct_samples. apply NoDup_singleton.
  - simpl. lia.
  - exists s'. split; [exact Hrun|exact Hc].
Defined.

Lemma reader_no_feedback_witness :
  exists d s s', rtc (any_reader_step 7) (state memory pool []) s /\ reader_step 7 s (Some d) s' /\
    guidPrefix (source_guid (properties d)) <> [1%Z].
Proof.
  set (s0 := state memory pool []).
  set (s := exec (arrive 7 c1) s0).
  destruct (is_ok_pair (cr_take 7 data s)) as ([ret d] & s' & Htake); [vm_compute; reflexivity|].
  assert (ret = RETCODE_OK) as Hret.
  { assert (match (cr_take 7 data s).1 with Ok p => p.1 | _ => RETCODE_ERROR end = RETCODE_OK) as E
      by (vm_compute; reflexivity).
    rewrite Htake in E. exact E. }
  subst ret. exists d, s, s'.
  assert (rtc (any_reader_step 7) s0 s) as Hrtc.
  { apply rtc_once. exists None. eapply (step_arrive 7 c1 s0 3 (mkGuid [1%Z] [7%Z], [])).
    - split; reflexivity.
    - constructor.
    - destruct (is_ok_pair (arrive 7 c1 s0)) as ([] & s1 & H1); [vm_compute; reflexivity|].
      unfold s, exec. rewrite H1. reflexivity. }
  assert (reader_step 7 s (Some d) s') as Hstep by exact (step_take 7 data RETCODE_OK d s s' Htake).
  split; [exact Hrtc|]. split; [exact Hstep|].
  exact (reader_no_feedback 7 s0 s (Some d) s' d 3 (mkGuid [1%Z] [7%Z], []) (conj eq_refl eq_refl) eq_refl
    Hrtc Hstep eq_refl).
Defined.

Definition refused_state : rstate (C := unit) :=
  mkRS ∅ PayloadPool_new ∅ DiscoveryDatabase_new (object "refused") [].

Lemma reader_lifecycle_witness :
  exists s', cr_init 7 refused_state = (Throw InitializationException, s') /\
    result (cr_destroy 7) s' = Throw UndefinedBehaviour.
Proof.
  destruct (reader_lifecycle 7 refused_state) as (s' & Hrun & _ & Hub).
  exists s'. split; [exact Hrun|exact Hub].
Defined.

End Witnesses.
