(* ===== verification/RtpsWriter.v ===== *)
(** * RTPS writers

    [writer/implementations/rtps]: [CommonWriter] puts data in the history of a writer
    of Fast DDS, which sends it; [SimpleWriter] is the same class with the attributes of
    the topic, [QoSSpecificWriter] with those of an endpoint, and [MultiWriter] has one
    [QoSSpecificWriter] for each QoS of the data it has to write. *)
From stdpp Require Import gmap.
From S2P Require Import Prelude StdMap CppString Externals Types Topics PayloadPool Track Auxiliar Rtps.

(** The filter of a writer: [SelfDataFilter] or [RepeaterDataFilter] *)
Inductive data_filter : Type := self_data_filter | repeater_data_filter.

Definition is_relevant (f : data_filter) : Change -> Guid -> bool :=
  match f with self_data_filter => self_is_relevant | repeater_data_filter => repeater_is_relevant end.

(** [WriteParams] with its source timestamp *)
Record SendParams : Type := mkSendParams {
  sp_params : WriteParams;
  sp_source_timestamp : Z
}.

(** The change once it is in the history: numbered, with the time and the related
    identity of the parameters. *)
Definition added_change (n : SequenceNumber) (p : SendParams) (c : Change) : Change :=
  mkChange (ch_writerGUID c) n (sp_source_timestamp p) (ch_kind c) (ch_instanceHandle c)
    (mkWriteParams (mkSampleIdentity (ch_writerGUID c) n) (related_sample_identity (sp_params p)))
    (ch_payload c) (last_writer_guid_prefix c).

(** What goes out for a change: the change and the bytes of its payload. *)
Definition sample : Type := Change * option (list (option Z)).

(** ** Writers of Fast DDS *)

Class RtpsWriters := {
  RTPSWriter : Type;
  rw_guid : RTPSWriter -> Guid;
  (** [new_change(kind, handle)], [None] is [nullptr] *)
  rw_new_change : ChangeKind -> option InstanceHandle -> RTPSWriter -> option Change * RTPSWriter;
  (** [WriterHistory::add_change(change, params)], with the bytes that the payload of the
      change has at that moment: the parameters and the change as they are afterwards *)
  rw_add : sample -> SendParams -> RTPSWriter -> (SendParams * Change) * RTPSWriter;
  (** [WriterHistory::remove_change] and [remove_min_change], the latter with the change
      removed *)
  rw_remove : Change -> RTPSWriter -> RTPSWriter;
  rw_remove_min : RTPSWriter -> option Change * RTPSWriter;
  (** [WriterHistory::isFull] *)
  rw_is_full : RTPSWriter -> bool;
  (** [reader_data_filter(filter)] *)
  rw_set_filter : data_filter -> RTPSWriter -> RTPSWriter;
  (** the changes of the history, the number of the next one, the bound of the history,
      every change ever sent with its bytes, and the filter *)
  rw_history : RTPSWriter -> list Change;
  rw_next : RTPSWriter -> SequenceNumber;
  rw_max : RTPSWriter -> Z;
  rw_sent : RTPSWriter -> list sample;
  rw_filter : RTPSWriter -> option data_filter;
  (** [RTPSDomain::createRTPSWriter] in the participant of that GUID, with the own pool of
      changes or not *)
  create_rtps_writer : Guid -> option PoolConfiguration -> HistoryAttributes -> WriterAttributes ->
    gmap nat RTPSWriter -> option (nat * RTPSWriter);
  (** [RTPSParticipant::registerWriter] *)
  register_writer : RTPSWriter -> TopicAttributes -> EndpointQos -> bool
}.

Class RtpsWritersLaws `{RW : RtpsWriters} : Prop := {
  rw_new_spec : forall k ih w c w', rw_new_change k ih w = (Some c, w') ->
    ch_kind c = k /\ ch_writerGUID c = rw_guid w /\
    not_initialized (serializedPayload (ch_payload c)) /\
    payload_length (serializedPayload (ch_payload c)) = 0%Z /\ payload_owner (ch_payload c) = None;
  rw_new_same : forall k ih w, let w' := (rw_new_change k ih w).2 in
    rw_guid w' = rw_guid w /\ rw_history w' = rw_history w /\ rw_next w' = rw_next w /\
    rw_max w' = rw_max w /\ rw_sent w' = rw_sent w /\ rw_filter w' = rw_filter w;
  rw_add_spec : forall c m p w, rw_is_full w = false -> ch_writerGUID c = rw_guid w ->
    let c' := added_change (rw_next w) p c in
    exists w', rw_add (c, m) p w =
        ((mkSendParams (mkWriteParams (mkSampleIdentity (rw_guid w) (rw_next w))
            (related_sample_identity (sp_params p))) (sp_source_timestamp p), c'), w') /\
      rw_history w' = rw_history w ++ [c'] /\ rw_sent w' = rw_sent w ++ [(c', m)] /\
      (rw_next w < rw_next w')%Z /\ rw_guid w' = rw_guid w /\ rw_max w' = rw_max w /\ rw_filter w' = rw_filter w;
  rw_remove_spec : forall c w l1 l2, rw_history w = l1 ++ c :: l2 ->
    Forall (fun c' => ~ same_sample c c') l1 ->
    let w' := rw_remove c w in
    rw_history w' = l1 ++ l2 /\ rw_sent w' = rw_sent w /\ rw_next w' = rw_next w /\ rw_guid w' = rw_guid w /\
    rw_max w' = rw_max w /\ rw_filter w' = rw_filter w;
  rw_remove_min_spec : forall c w l, rw_history w = c :: l ->
    exists w', rw_remove_min w = (Some c, w') /\ rw_history w' = l /\
      rw_sent w' = rw_sent w /\ rw_next w' = rw_next w /\ rw_guid w' = rw_guid w /\
      rw_max w' = rw_max w /\ rw_filter w' = rw_filter w;
  rw_is_full_spec : forall w, rw_is_full w = true <->
    (0 < rw_max w)%Z /\ (rw_max w <= Z.of_nat (length (rw_history w)))%Z;
  rw_set_filter_spec : forall f w, let w' := rw_set_filter f w in
    rw_filter w' = Some f /\ rw_history w' = rw_history w /\ rw_sent w' = rw_sent w /\
    rw_next w' = rw_next w /\ rw_guid w' = rw_guid w /\ rw_max w' = rw_max w;
  create_writer_spec : forall g pc ha wa (m : gmap nat RTPSWriter) a w,
    create_rtps_writer g pc ha wa m = Some (a, w) ->
    m !! a = None /\ rw_history w = [] /\ rw_sent w = [] /\ rw_max w = maximumReservedCaches ha;
  create_writer_prefix : forall g pc ha wa (m : gmap nat RTPSWriter) a w,
    create_rtps_writer g pc ha wa m = Some (a, w) -> guidPrefix (rw_guid w) = guidPrefix g
}.

(** ** CommonWriter *)
Section CommonWriter.
Context {CU : CppUtils} {RW : RtpsWriters} {PM : PoolMethods} (this_pool : nat).
(** [WriteParams()] *)
Context (default_params : SendParams).

Record CommonWriter : Type := mkCommonWriter {
  cw_base : BaseWriter;
  repeater_ : bool;
  (** the GUID of the participant of Fast DDS that [rtps_participant_] points to *)
  cw_rtps_participant_ : Guid;
  rtps_writer_ : option nat;
  (** whether [rtps_history_] points to a history *)
  cw_rtps_history_ : bool;
  data_filter_ : option data_filter;
  cw_history_attributes_ : HistoryAttributes;
  writer_attributes_ : WriterAttributes;
  cw_topic_attributes_ : TopicAttributes;
  writer_qos_ : EndpointQos;
  pool_configuration_ : PoolConfiguration
}.

Definition cw_set_base (b : BaseWriter) (w : CommonWriter) : CommonWriter :=
  mkCommonWriter b (repeater_ w) (cw_rtps_participant_ w) (rtps_writer_ w) (cw_rtps_history_ w) (data_filter_ w)
    (cw_history_attributes_ w) (writer_attributes_ w) (cw_topic_attributes_ w) (writer_qos_ w)
    (pool_configuration_ w).
Definition cw_set_entities (p : option nat) (h : bool) (f : option data_filter) (w : CommonWriter) :
    CommonWriter :=
  mkCommonWriter (cw_base w) (repeater_ w) (cw_rtps_participant_ w) p h f
    (cw_history_attributes_ w) (writer_attributes_ w) (cw_topic_attributes_ w) (writer_qos_ w)
    (pool_configuration_ w).

Definition CommonWriter_of (dta : TopicAttributes) (qos : EndpointQos) (participant : Guid) (id : ParticipantId)
    (topic : DdsTopic) (repeater : bool) : CommonWriter :=
  mkCommonWriter (BaseWriter_of id topic) repeater participant None false None (writer_history_attributes_ topic)
    (get_writer_attributes_ topic) (writer_topic_attributes_ dta topic) qos
    (cache_change_pool_configuration_ topic).

(** The constructors of [SimpleWriter] and [QoSSpecificWriter]; [init] sets the
    pointers. *)
Definition SimpleWriter_of (dta : TopicAttributes) (dq : EndpointQos) (participant : Guid) (id : ParticipantId)
    (topic : DdsTopic) (repeater : bool) : CommonWriter :=
  CommonWriter_of dta (get_writer_qos_ dq topic) participant id topic repeater.
Definition QoSSpecificWriter_of (dta : TopicAttributes) (dq : EndpointQos) (participant : Guid) (id : ParticipantId)
    (topic : DdsTopic) (specific_qos : SpecificEndpointQoS) (repeater : bool) : CommonWriter :=
  CommonWriter_of dta (specific_writer_qos_ dq specific_qos topic) participant id topic repeater.

Record wstate : Type := mkWS {
  ws_heap : heap;
  ws_pool : PayloadPool;
  ws_domain : gmap nat RTPSWriter;
  ws_this : CommonWriter
}.

Definition ws_set_memory (h : heap) (p : PayloadPool) (s : wstate) : wstate :=
  mkWS h p (ws_domain s) (ws_this s).
Definition ws_set_writer (a : nat) (w : RTPSWriter) (s : wstate) : wstate :=
  mkWS (ws_heap s) (ws_pool s) (<[a := w]> (ws_domain s)) (ws_this s).
Definition ws_set_this (w : CommonWriter) (s : wstate) : wstate :=
  mkWS (ws_heap s) (ws_pool s) (ws_domain s) w.

(** [rtps_writer_->...] *)
Definition the_writer : prog wstate (nat * RTPSWriter) :=
  s ← get;
  match rtps_writer_ (ws_this s) with
  | Some a => match ws_domain s !! a with Some w => mret (a, w) | None => throw UndefinedBehaviour end
  | None => throw UndefinedBehaviour
  end.

Definition cw_topic (s : wstate) : DdsTopic := bw_topic_ (cw_base (ws_this s)).

(** A method of the pool on a change, which it may modify. *)
Definition on_new_change {A} (c : CacheChange) (m : prog cstate A) : prog wstate (A * CacheChange) := fun s =>
  let '(r, t) := m (mkC (ws_heap s) (ws_pool s) c) in
  let s' := ws_set_memory (c_heap t) (c_pool t) s in
  match r with
  | Ok a => (Ok (a, c_change t), s')
  | Throw e => (Throw e, s')
  end.

(** Fast DDS gives the payload of a change it lets go back to its pool. *)
Definition w_give_back (c : Change) : prog wstate unit :=
  match payload_owner (ch_payload c) with
  | Some _ => _ ← on_new_change (ch_payload c) (release_payload_change this_pool); mret tt
  | None => mret tt
  end.

(** ** Writing *)

Definition set_last_writer (g : GuidPrefix) (c : Change) : Change :=
  mkChange (ch_writerGUID c) (ch_sequenceNumber c) (ch_sourceTimestamp c) (ch_kind c) (ch_instanceHandle c)
    (ch_write_params c) (ch_payload c) g.
Definition set_handle (h : InstanceHandle) (c : Change) : Change :=
  mkChange (ch_writerGUID c) (ch_sequenceNumber c) (ch_sourceTimestamp c) (ch_kind c) h
    (ch_write_params c) (ch_payload c) (last_writer_guid_prefix c).
Definition set_change_payload (p : CacheChange) (c : Change) : Change :=
  mkChange (ch_writerGUID c) (ch_sequenceNumber c) (ch_sourceTimestamp c) (ch_kind c) (ch_instanceHandle c)
    (ch_write_params c) p (last_writer_guid_prefix c).
Definition set_change_kind (k : ChangeKind) (c : Change) : Change :=
  mkChange (ch_writerGUID c) (ch_sequenceNumber c) (ch_sourceTimestamp c) k (ch_instanceHandle c)
    (ch_write_params c) (ch_payload c) (last_writer_guid_prefix c).

Definition fill_to_send_data_ (change : Change) (params : SendParams) (data : DataReceived) :
    prog wstate (ReturnCode * (Change * SendParams)) :=
  s ← get;
  let p := properties data in
  let change1 :=
    if repeater_ (ws_this s) then set_last_writer (guidPrefix (source_guid p)) change else change in
  let change2 := if keyed (cw_topic s) then set_handle (instanceHandle p) change1 else change1 in
  res ← (if (0 <? payload_length (payload data))%Z
         then on_new_change (ch_payload change2)
                (get_payload_from_change this_pool (payload data) (Some this_pool))
         else mret (true, ch_payload change2));
  let change3 := set_change_payload res.2 change2 in
  if negb res.1 then mret (RETCODE_ERROR, (change3, params))
  else
    let related :=
      if is_set (write_params p) then related_sample_identity (get_reference (write_params p))
      else related_sample_identity (sp_params params) in
    mret (RETCODE_OK, (set_change_kind (kind p) change3,
      mkSendParams (mkWriteParams (sample_identity (sp_params params)) related) (source_timestamp p))).

Definition fill_sent_data_ (params : SendParams) (data : DataReceived) : DataReceived :=
  set_sent_sequence_number (sequence_number (sample_identity (sp_params params))) data.

(** [rtps_history_->remove_change(c)] *)
Definition w_history_remove (c : Change) : prog wstate unit :=
  aw ← the_writer;
  modify (ws_set_writer aw.1 (rw_remove c aw.2)) ;;
  w_give_back c.

(** [rtps_history_->remove_min_change()] *)
Definition w_history_remove_min : prog wstate unit :=
  aw ← the_writer;
  let '(oldest, w) := rw_remove_min aw.2 in
  modify (ws_set_writer aw.1 w) ;;
  match oldest with Some c => w_give_back c | None => mret tt end.

Definition cw_write_ (data : DataReceived) : prog wstate (ReturnCode * DataReceived) :=
  s ← get;
  aw ← the_writer;
  let '(new_change, w1) :=
    rw_new_change ALIVE (if keyed (cw_topic s) then Some (instanceHandle (properties data)) else None) aw.2 in
  modify (ws_set_writer aw.1 w1) ;;
  match new_change with
  | None => mret (RETCODE_ERROR, data)
  | Some change =>
      res ← fill_to_send_data_ change default_params data;
      let '(ret, (change1, params)) := res in
      if ret_not ret then mret (ret, data)
      else
        aw1 ← the_writer;
        s1 ← get;
        let message := contents (ws_heap s1) (serializedPayload (ch_payload change1)) in
        let '((params', change2), w2) := rw_add (change1, message) params aw1.2 in
        modify (ws_set_writer aw1.1 w2) ;;
        let data' := fill_sent_data_ params' data in
        (if negb (is_reliable (qos_of (cw_topic s))) then w_history_remove change2
         else if rw_is_full w2 then w_history_remove_min
         else mret tt) ;;
        mret (RETCODE_OK, data')
  end.

(** [BaseWriter::write], [enable] and [disable] *)
Definition cw_write (data : DataReceived) : prog wstate (ReturnCode * DataReceived) :=
  s ← get;
  if bw_enabled_ (cw_base (ws_this s)) then cw_write_ data else mret (RETCODE_NOT_ENABLED, data).
Definition cw_enable (w : CommonWriter) : CommonWriter := cw_set_base (bw_enable (cw_base w)) w.
Definition cw_disable (w : CommonWriter) : CommonWriter := cw_set_base (bw_disable (cw_base w)) w.

(** ** Creation and destruction *)

(** [RTPSDomain::removeRTPSWriter(rtps_writer_)] *)
Definition remove_rtps_writer : prog wstate unit :=
  aw ← the_writer;
  for_each (rw_history aw.2) w_give_back ;;
  modify (fun s => mkWS (ws_heap s) (ws_pool s) (delete aw.1 (ws_domain s)) (ws_this s)).

Definition on_this (f : CommonWriter -> CommonWriter) : prog wstate unit :=
  modify (fun s => ws_set_this (f (ws_this s)) s).

(** [init] and [internal_entities_creation_] *)
Definition cw_init : prog wstate unit :=
  s ← get;
  let w := ws_this s in
  on_this (cw_set_entities (rtps_writer_ w) true (data_filter_ w)) ;;
  match create_rtps_writer (cw_rtps_participant_ w) (if repeater_ w then Some (pool_configuration_ w) else None)
          (cw_history_attributes_ w) (writer_attributes_ w) (ws_domain s) with
  | None => on_this (cw_set_entities None true (data_filter_ w)) ;; throw InitializationException
  | Some (a, e) =>
      modify (ws_set_writer a e) ;;
      on_this (cw_set_entities (Some a) true (data_filter_ w)) ;;
      aw ← the_writer;
      if negb (register_writer aw.2 (cw_topic_attributes_ w) (writer_qos_ w))
      then remove_rtps_writer ;; throw InitializationException
      else
        let f := if repeater_ w then repeater_data_filter else self_data_filter in
        on_this (cw_set_entities (Some a) true (Some f)) ;;
        modify (ws_set_writer aw.1 (rw_set_filter f aw.2))
  end.

(** [~CommonWriter] *)
Definition cw_destroy : prog wstate unit :=
  s ← get;
  (match rtps_writer_ (ws_this s) with
   | Some _ => _ ← the_writer; remove_rtps_writer
   | None => mret tt
   end) ;;
  on_this (cw_set_entities (rtps_writer_ (ws_this s)) false (data_filter_ (ws_this s))).

End CommonWriter.

(** ** Properties of [CommonWriter] *)
Section WriterProperties.
Context {CU : CppUtils} {CL : CppUtilsLaws} {RW : RtpsWriters} {RL : RtpsWritersLaws}.
Context {PM : PoolMethods} (this_pool : nat) {PS : PoolSpec this_pool} (default_params : SendParams).
Implicit Types (s : wstate).

#[local] Arguments contents : simpl never.

Definition writes s (a : nat) (w : RTPSWriter) : Prop :=
  rtps_writer_ (ws_this s) = Some a /\ ws_domain s !! a = Some w.

(** The history is accounted for in the pool, has room, and numbers grow. *)
Record writer_owns s (w : RTPSWriter) (others : list nat) (H0 : gset nat) : Prop := {
  wo_history : history_ok this_pool (ws_heap s) (ws_pool s) (rw_history w) others H0;
  wo_numbers : Forall (fun c => (ch_sequenceNumber c < rw_next w)%Z) (rw_history w);
  wo_room : rw_is_full w = false
}.

Lemma the_writer_run s a w : writes s a w -> the_writer s = (Ok (a, w), s).
Proof. intros [Hp Hd]. unfold the_writer. run_prog. rewrite Hp. simpl. by rewrite Hd. Qed.

Lemma writes_set s a w w' : writes s a w -> writes (ws_set_writer a w' s) a w'.
Proof. intros [Hp _]. split; [done|]. simpl. by rewrite lookup_insert_eq. Qed.

Lemma w_give_back_run s l1 c l2 others H0 :
  history_ok this_pool (ws_heap s) (ws_pool s) (l1 ++ c :: l2) others H0 ->
  (Z.of_nat (length (held_by (l1 ++ c :: l2) ++ others)) < 2 ^ 32)%Z ->
  exists h pool, w_give_back this_pool c s = (Ok tt, ws_set_memory h pool s) /\
    history_ok this_pool h pool (l1 ++ l2) others H0 /\ bytes_kept h (ws_heap s).
Proof.
  intros Hok Hlen. unfold w_give_back. destruct (payload_owner (ch_payload c)) as [o|] eqn:Ho.
  - destruct (history_release this_pool _ _ _ _ _ _ _ _ Hok Ho Hlen) as (t & Hrun & Hok' & Hk).
    exists (c_heap t), (c_pool t). split; [|done]. unfold on_new_change. run_prog. by rewrite Hrun.
  - exists (ws_heap s), (ws_pool s). split; [by destruct s|]. split; [by eapply history_drop|].
    intros a b Hb. by exists b.
Qed.

(** What a data to write needs: a payload of the pool, if it has any. *)
Definition writable s (data : DataReceived) (others : list nat) : Prop :=
  (0 < payload_length (payload data))%Z ->
  exists x, payload_data (payload data) = Some x /\ x ∈ others /\ valid_payload (ws_heap s) (payload data).

(** The change says of the data what its readers will see. *)
Record forwards s (w : RTPSWriter) (data : DataReceived) (sent : Change) : Prop := {
  fw_writer : ch_writerGUID sent = rw_guid w;
  fw_number : ch_sequenceNumber sent = rw_next w;
  fw_kind : ch_kind sent = kind (properties data);
  fw_timestamp : ch_sourceTimestamp sent = source_timestamp (properties data);
  fw_related : related_sample_identity (ch_write_params sent) =
    if is_set (write_params (properties data))
    then related_sample_identity (get_reference (write_params (properties data)))
    else related_sample_identity (sp_params default_params);
  fw_handle : keyed (cw_topic s) = true -> ch_instanceHandle sent = instanceHandle (properties data);
  fw_last : repeater_ (ws_this s) = true ->
    last_writer_guid_prefix sent = guidPrefix (source_guid (properties data))
}.

(** The message of a data. *)
Definition message_of s (data : DataReceived) : option (list (option Z)) :=
  if decide (0 < payload_length (payload data))%Z then contents (ws_heap s) (payload data) else None.

(** [fill_to_send_data_] on a change that Fast DDS has just given. *)
Lemma fill_to_send_run s w c data others H0 :
  history_ok this_pool (ws_heap s) (ws_pool s) (rw_history w) others H0 ->
  Forall (fun c => (ch_sequenceNumber c < rw_next w)%Z) (rw_history w) ->
  writable s data others ->
  ch_writerGUID c = rw_guid w -> not_initialized (serializedPayload (ch_payload c)) ->
  payload_length (serializedPayload (ch_payload c)) = 0%Z -> payload_owner (ch_payload c) = None ->
  (reserve_count_ (ws_pool s) + 1 < 2 ^ 64)%Z ->
  (Z.of_nat (length (held_by (rw_history w) ++ others)) + 1 < 2 ^ 32)%Z ->
  exists c1 p1 h pool,
    fill_to_send_data_ this_pool c default_params data s =
      (Ok (RETCODE_OK, (c1, p1)), ws_set_memory h pool s) /\
    let sent := added_change (rw_next w) p1 c1 in
    forwards s w data sent /\ ch_writerGUID c1 = rw_guid w /\
    history_ok this_pool h pool (rw_history w ++ [sent]) others H0 /\ bytes_kept (ws_heap s) h /\
    contents h (serializedPayload (ch_payload sent)) = message_of s data.
Proof.
  intros Hok Hnum Hw Hg Hni Hl0 Hown Hres Hlen.
  assert (forall sent, ch_sequenceNumber sent = rw_next w -> distinct_samples (rw_history w ++ [sent])) as Hdist.
  { intros sent Hn. unfold distinct_samples. rewrite fmap_app. apply NoDup_app. split_and!.
    - apply Hok.
    - intros x (c' & -> & Hc')%list_elem_of_fmap. rewrite Forall_forall in Hnum. apply Hnum in Hc'.
      intros [= _ E]%list_elem_of_singleton. lia.
    - apply NoDup_singleton. }
  unfold fill_to_send_data_. run_prog.
  set (c2 := if keyed (cw_topic s) then _ else _).
  assert (ch_payload c2 = ch_payload c) as Hpc2
    by (unfold c2; destruct (keyed _), (repeater_ _); done).
  destruct (decide (0 < payload_length (payload data))%Z) as [Hpos|Hz].
  - destruct (Hw Hpos) as (x & Hx & Hin & Hv).
    destruct (history_put this_pool _ _ _ (ch_payload c) _ _ _ _ Hok Hx Hin Hv Hpos Hni Hres Hlen)
      as (t & Hrun & Ho & Hk & Hc & Hput).
    rewrite (proj2 (Z.ltb_lt _ _)) by done. unfold on_new_change. rewrite Hpc2, Hrun. cbn [fst snd negb].
    eexists _, _, (c_heap t), (c_pool t). split; [reflexivity|]. cbv zeta. split_and!.
    + unfold c2. split; simpl; try done; destruct (keyed _), (repeater_ _); done.
    + unfold c2. destruct (keyed _), (repeater_ _); done.
    + apply Hput; [done|]. apply Hdist. done.
    + done.
    + unfold message_of. by rewrite decide_True.
  - rewrite (proj2 (Z.ltb_ge _ _)) by lia. cbn [fst snd negb].
    eexists _, _, (ws_heap s), (ws_pool s). split; [by destruct s|]. cbv zeta. split_and!.
    + unfold c2. split; simpl; try done; destruct (keyed _), (repeater_ _); done.
    + unfold c2. destruct (keyed _), (repeater_ _); done.
    + destruct Hok as [Hacc Hr Hcs Hd].
      assert (forall sent, ch_payload sent = ch_payload c -> held_by (rw_history w ++ [sent]) = held_by (rw_history w)) as Hheld.
      { intros sent Hs. rewrite held_by_app. unfold held_by at 2, held. simpl. rewrite Hs, Hown. by rewrite app_nil_r. }
      split; rewrite ?Hheld; try done.
      * apply Forall_app. split; [done|]. constructor; [|done]. unfold change_ok. simpl. rewrite Hpc2, Hown.
        split; [done|]. apply Hni.
      * by apply Hdist.
    + intros a b Hb. by exists b.
    + unfold message_of. rewrite decide_False by done. simpl. rewrite Hpc2. unfold contents.
      by rewrite (proj1 Hni).
Qed.

(** The history after a write: what it had and the new change; if that is as many as
    the history may have, without the oldest one. *)
Definition kept_changes (max : Z) (l : list Change) : list Change :=
  if decide (0 < max /\ max <= Z.of_nat (length l))%Z then tail l else l.

(** The last step of [write_]: nothing is kept of a best effort topic. *)
Lemma trim_history s a w sent l others H0 :
  writes s a w -> rw_history w = l ++ [sent] ->
  (rw_max w <= 0 \/ Z.of_nat (length l) < rw_max w)%Z ->
  Forall (fun c => (ch_sequenceNumber c < rw_next w)%Z) (rw_history w) ->
  history_ok this_pool (ws_heap s) (ws_pool s) (rw_history w) others H0 ->
  (Z.of_nat (length (held_by (rw_history w) ++ others)) < 2 ^ 32)%Z ->
  let reliable := is_reliable (qos_of (cw_topic s)) in
  exists s' w',
    (if negb reliable then w_history_remove this_pool sent
     else if rw_is_full w then w_history_remove_min this_pool
     else mret tt) s = (Ok tt, s') /\
    writes s' a w' /\ ws_this s' = ws_this s /\
    rw_history w' = (if reliable then kept_changes (rw_max w) (l ++ [sent]) else l) /\
    rw_sent w' = rw_sent w /\ rw_guid w' = rw_guid w /\ rw_max w' = rw_max w /\ rw_filter w' = rw_filter w /\
    ws_domain s' = <[a := w']> (ws_domain s) /\ bytes_kept (ws_heap s') (ws_heap s) /\
    writer_owns s' w' others H0.
Proof.
  intros Hw Hh Hroom Hnum Hok Hlen reliable.
  assert (forall w', rw_max w' = rw_max w -> length (rw_history w') <= length l -> rw_is_full w' = false) as Hfull.
  { intros w' Hm Hle. apply not_true_is_false. rewrite rw_is_full_spec, Hm. intros [? ?]. lia. }
  destruct reliable eqn:Hrel; cbn [negb].
  - unfold kept_changes. destruct (rw_is_full w) eqn:Hf.
    + pose proof (proj1 (rw_is_full_spec w) Hf) as [Hm1 Hm2]. rewrite Hh in Hm2.
      rewrite decide_True by done.
      destruct (rw_history w) as [|c0 rest] eqn:Hh'; [by destruct l|]. rewrite <- Hh. cbn [tail].
      destruct (rw_remove_min_spec c0 w rest Hh') as (w1 & Hrm & Hh1 & Hs1 & Hn1 & Hg1 & Hmax1 & Hfl1).
      destruct (w_give_back_run (ws_set_writer a w1 s) [] c0 rest others H0 Hok Hlen)
        as (h & pool & Hrun & Hok' & Hk').
      exists (ws_set_memory h pool (ws_set_writer a w1 s)), w1. split_and!; try done.
      * unfold w_history_remove_min. run_prog. rewrite (the_writer_run _ _ _ Hw). cbn [fst snd].
        rewrite Hrm. run_prog. exact Hrun.
      * by apply (writes_set s a w).
      * split; [by rewrite Hh1|rewrite Hh1, Hn1; by apply Forall_cons in Hnum as [_ ?]|].
        apply Hfull; [done|]. rewrite Hh1. apply (f_equal length) in Hh. rewrite length_app in Hh.
        simpl in Hh. lia.
    + rewrite decide_False.
      2: { intros [? ?]. apply not_true_iff_false in Hf. apply Hf, rw_is_full_spec. by rewrite Hh. }
      exists s, w. split_and!; try done.
      { destruct Hw as [_ Hd]. by rewrite insert_id. }
      intros x b Hb. by exists b.
  - assert (Forall (fun c' => ~ same_sample sent c') l) as Hd.
    { apply (distinct_middle l sent []). rewrite <- Hh. apply Hok. }
    destruct (rw_remove_spec sent w l [] Hh Hd) as (Hh1 & Hs1 & Hn1 & Hg1 & Hm1 & Hf1).
    rewrite app_nil_r in Hh1. rewrite Hh in Hok, Hlen.
    destruct (w_give_back_run (ws_set_writer a (rw_remove sent w) s) l sent [] others H0 Hok Hlen)
      as (h & pool & Hrun & Hok' & Hk'). rewrite app_nil_r in Hok'.
    exists (ws_set_memory h pool (ws_set_writer a (rw_remove sent w) s)), (rw_remove sent w). split_and!; try done.
    + unfold w_history_remove. run_prog. rewrite (the_writer_run _ _ _ Hw). cbn [fst snd]. exact Hrun.
    + by apply (writes_set s a w).
    + split; [by rewrite Hh1| |].
      * rewrite Hh1, Hn1. rewrite Hh in Hnum. by apply Forall_app in Hnum as [? _].
      * apply Hfull; [done|]. by rewrite Hh1.
Qed.

Definition new_handle s (data : DataReceived) : option InstanceHandle :=
  if keyed (cw_topic s) then Some (instanceHandle (properties data)) else None.

(** What [write] needs of the state and of the data. *)
Record can_write data s (a : nat) (w : RTPSWriter) others H0 : Prop := {
  can_writes : writes s a w;
  can_owns : writer_owns s w others H0;
  can_data : writable s data others;
  can_reserve : (reserve_count_ (ws_pool s) + 1 < 2 ^ 64)%Z;
  can_count : (Z.of_nat (length (held_by (rw_history w) ++ others)) + 1 < 2 ^ 32)%Z
}.

Lemma cw_write_disabled data s :
  bw_enabled_ (cw_base (ws_this s)) = false ->
  cw_write this_pool default_params data s = (Ok (RETCODE_NOT_ENABLED, data), s).
Proof. intros He. unfold cw_write. run_prog. by rewrite He. Qed.

Lemma cw_write_no_change data s a w w1 :
  bw_enabled_ (cw_base (ws_this s)) = true -> writes s a w ->
  rw_new_change ALIVE (new_handle s data) w = (None, w1) ->
  cw_write this_pool default_params data s = (Ok (RETCODE_ERROR, data), ws_set_writer a w1 s).
Proof.
  intros He Hw Hnew. unfold cw_write, cw_write_. run_prog. rewrite He, (the_writer_run _ _ _ Hw). cbn [fst snd].
  fold (new_handle s data). by rewrite Hnew.
Qed.

(** The sample is what Fast DDS gets for the data. *)
Definition sends data s w (sent : sample) : Prop :=
  forwards s w data sent.1 /\ sent.2 = message_of s data.

(** What a write that is sent leaves. *)
Definition written data s (a : nat) w others H0 (sent : sample) s' (w' : RTPSWriter) : Prop :=
  sends data s w sent /\ writes s' a w' /\ ws_this s' = ws_this s /\ writer_owns s' w' others H0 /\
  rw_sent w' = rw_sent w ++ [sent] /\ rw_guid w' = rw_guid w /\ rw_max w' = rw_max w /\
  rw_filter w' = rw_filter w /\
  rw_history w' = (if is_reliable (qos_of (cw_topic s)) then kept_changes (rw_max w) (rw_history w ++ [sent.1])
                   else rw_history w) /\
  ws_domain s' = <[a := w']> (ws_domain s) /\ kept_for others (ws_heap s) (ws_heap s').

Lemma cw_write_sends data s a w others H0 c w1 :
  can_write data s a w others H0 -> bw_enabled_ (cw_base (ws_this s)) = true ->
  rw_new_change ALIVE (new_handle s data) w = (Some c, w1) ->
  exists sent s' w',
    cw_write this_pool default_params data s =
      (Ok (RETCODE_OK, set_sent_sequence_number (rw_next w) data), s') /\
    written data s a w others H0 sent s' w'.
Proof.
  intros [Hw [Hok Hnum Hroom] Hwr Hres Hlen] He Hnew.
  unfold cw_write, cw_write_. run_prog. rewrite He, (the_writer_run _ _ _ Hw). cbn [fst snd].
  fold (new_handle s data). rewrite Hnew.
  pose proof (rw_new_same ALIVE (new_handle s data) w) as (Hg1 & Hh1 & Hn1 & Hm1 & Hs1 & Hf1).
  rewrite Hnew in *. cbn [snd] in *.
  destruct (rw_new_spec _ _ _ _ _ Hnew) as (Hk & Hgc & Hni & Hl0 & Hown).
  rewrite <- Hh1, <- Hn1 in *. rewrite <- Hg1 in Hgc.
  set (s0 := ws_set_writer a w1 s).
  assert (writes s0 a w1) as Hw0 by (by apply (writes_set s a w)).
  destruct (fill_to_send_run s0 w1 c data others H0) as (c1 & p1 & h & pool & Hfill & Hfw & Hc1 & Hok1 & Hkf & Hc); try done.
  set (sent := added_change (rw_next w1) p1 c1) in *.
  set (s1 := ws_set_memory h pool s0).
  assert (writes s1 a w1) as Hw1 by done.
  assert (rw_is_full w1 = false) as Hroom1.
  { apply not_true_is_false. intros Hf%rw_is_full_spec. rewrite Hm1, Hh1 in Hf.
    apply rw_is_full_spec in Hf. congruence. }
  destruct (rw_add_spec c1 (message_of s data) p1 w1 Hroom1 Hc1) as (w2 & Hadd & Hh2 & Hs2 & Hn2 & Hg2 & Hm2 & Hf2). fold sent in Hadd, Hh2, Hs2.
  set (s2 := ws_set_writer a w2 s1).
  assert (writes s2 a w2) as Hw2 by (by apply (writes_set s1 a w1)).
  destruct (trim_history s2 a w2 sent (rw_history w1) others H0 Hw2 Hh2)
    as (s' & w' & Htrim & Hw' & Ht' & Hh' & Hs' & Hg' & Hmax' & Hf' & Hdom' & Hk' & Hown').
  { destruct (decide (rw_max w2 <= 0 \/ Z.of_nat (length (rw_history w1)) < rw_max w2)%Z) as [|Hn]; [done|].
    exfalso. apply not_true_iff_false in Hroom1. apply Hroom1, rw_is_full_spec. rewrite <- Hm2. lia. }
  { rewrite Hh2. apply Forall_app. split; [|constructor; [exact Hn2|done]].
    eapply Forall_impl; [exact Hnum|]. simpl. intros; lia. }
  { by rewrite Hh2. }
  { pose proof (length_held_one sent). rewrite Hh2, held_by_app, !length_app in *. lia. }
  assert (kept_for others (ws_heap s) (ws_heap s')) as Hkept.
  { apply (kept_for_trans _ _ h); [by apply kept_for_grow|].
    eapply kept_for_shrink; [exact (ho_accounts _ _ _ _ _ _ (wo_history _ _ _ _ Hown'))| |exact Hk'].
    intros x Hx. apply elem_of_app. by right. }
  exists (sent, message_of s data), s', w'. split.
  - rewrite Hfill, ret_not_ok. change (ws_set_memory h pool s0) with s1.
    rewrite (the_writer_run _ _ _ Hw1). cbn [fst snd].
    change (contents (ws_heap s1) (serializedPayload (ch_payload c1)))
      with (contents h (serializedPayload (ch_payload sent))). rewrite Hc.
    change (message_of s0 data) with (message_of s data). rewrite Hadd. cbv beta iota zeta. fold s2.
    change (is_reliable (qos_of (cw_topic s))) with (is_reliable (qos_of (cw_topic s2))).
    unfold mret, prog_ret in Htrim. rewrite Htrim. reflexivity.
  - assert (forwards s w data sent) as Hfw'.
    { destruct Hfw as [F1 F2 F3 F4 F5 F6 F7]. split; [congruence..|exact F6|exact F7]. }
    unfold written. split_and!; try done; try congruence.
    + by rewrite Hs', Hs2, Hs1.
    + by rewrite Hh', Hm2, Hm1, Hh1.
    + rewrite Hdom'. simpl. by rewrite !insert_insert_eq.
Qed.

Lemma counts_the_writer : counts ws_pool 0 the_writer.
Proof.
  apply counts_same; [done|]. intros s. unfold the_writer, exec. run_prog.
  destruct (rtps_writer_ _); [|done]. by destruct (ws_domain s !! _).
Qed.

Lemma counts_put c src owner :
  counts ws_pool 1 (on_new_change c (get_payload_from_change this_pool src owner)).
Proof.
  intros s Hs. unfold on_new_change, exec, get_payload_from_change, on_payload, zoom, set_owner. run_prog.
  cbn [c_heap c_pool c_change].
  pose proof (spec_get_from_count src owner (PayloadPool.mkP (ws_heap s) (ws_pool s) (serializedPayload c)) Hs) as H.
  unfold exec in H. by destruct (get_payload_from src owner _) as [[[]|?] ?].
Qed.

Lemma w_counts_give_back c : counts ws_pool 0 (w_give_back this_pool c).
Proof.
  unfold w_give_back. destruct (payload_owner _); [|by apply counts_same].
  apply counts_bind_l; [|by intros; apply counts_same]. apply counts_same; [done|]. intros s.
  unfold on_new_change, exec, release_payload_change, on_payload, zoom. run_prog.
  cbn [c_heap c_pool c_change]. case_bool_decide; [|done].
  pose proof (spec_release_count (PayloadPool.mkP (ws_heap s) (ws_pool s) (serializedPayload (ch_payload c)))) as H'.
  unfold exec in H'. destruct (release_payload _) as [[[]|?] ?]; exact H'.
Qed.

#[local] Hint Resolve counts_the_writer counts_put w_counts_give_back : counts.

(** One [write] reserves one block at most. *)
Lemma counts_write data : counts ws_pool 1 (cw_write this_pool default_params data).
Proof.
  unfold cw_write, cw_write_, fill_to_send_data_, w_history_remove, w_history_remove_min, throw. counts.
Qed.

(** C11: what [write] does, on every branch. A disabled writer answers
    [RETCODE_NOT_ENABLED] and nothing changes; if Fast DDS has no change to give, the
    answer is [RETCODE_ERROR] and nothing is sent. Otherwise exactly one change is sent:
    it has the message of the data, its kind, its source time, its key if the topic has
    one, the identity it replies to if the data has one, and, in a repeater, the
    participant the data comes from; the data gets the number of the change and is
    otherwise as it was. The history of a reliable topic keeps the change, and lets the
    oldest one go when it becomes full; that of a best effort topic is as before. Every
    payload is accounted for, those held elsewhere keep their bytes, the history has room
    again, and no other writer is touched. *)
Theorem writer_write_spec data s a w others H0 :
  can_write data s a w others H0 ->
  if negb (bw_enabled_ (cw_base (ws_this s)))
  then cw_write this_pool default_params data s = (Ok (RETCODE_NOT_ENABLED, data), s)
  else match rw_new_change ALIVE (new_handle s data) w with
  | (None, w1) => cw_write this_pool default_params data s = (Ok (RETCODE_ERROR, data), ws_set_writer a w1 s)
  | (Some c, w1) =>
      exists sent s' w',
        cw_write this_pool default_params data s =
          (Ok (RETCODE_OK, set_sent_sequence_number (rw_next w) data), s') /\
        written data s a w others H0 sent s' w'
  end.
Proof.
  intros Hcan. destruct (bw_enabled_ (cw_base (ws_this s))) eqn:He; cbn [negb]; [|by apply cw_write_disabled].
  destruct (rw_new_change ALIVE (new_handle s data) w) as [[c|] w1] eqn:Hnew.
  - by apply cw_write_sends with (c := c) (w1 := w1).
  - by apply (cw_write_no_change data s a w); [done|apply Hcan|].
Qed.

Lemma not_full_length w :
  rw_is_full w = false -> (0 < rw_max w)%Z -> (Z.of_nat (length (rw_history w)) < rw_max w)%Z.
Proof.
  intros Hf Hm. destruct (Z.lt_ge_cases (Z.of_nat (length (rw_history w))) (rw_max w)) as [|Hge]; [done|].
  exfalso. apply not_true_iff_false in Hf. apply Hf, rw_is_full_spec. lia.
Qed.

(** C34: what the history keeps. After any write the history has fewer changes than the
    depth of the topic, so that there is always room for the next one; but with a depth of
    one it is empty: the writer keeps no sample, none can be sent again nor given to a
    reader that comes later, however reliable or durable the topic is. *)
Theorem written_history_bound data s a w others H0 ret d s' :
  can_write data s a w others H0 -> (0 < rw_max w)%Z ->
  cw_write this_pool default_params data s = (Ok (ret, d), s') ->
  exists w', writes s' a w' /\ (Z.of_nat (length (rw_history w')) < rw_max w)%Z /\
    (rw_max w = 1%Z -> rw_history w' = []).
Proof.
  intros Hcan Hmax Hrun.
  assert (exists w', writes s' a w' /\ (Z.of_nat (length (rw_history w')) < rw_max w)%Z) as (w' & Hw' & Hlt).
  { destruct (bw_enabled_ (cw_base (ws_this s))) eqn:He.
    - pose proof (rw_new_same ALIVE (new_handle s data) w) as Hsame.
      destruct (rw_new_change ALIVE (new_handle s data) w) as [[c|] w1] eqn:Hnew; cbn [snd] in Hsame.
      + destruct (cw_write_sends data s a w others H0 c w1 Hcan He Hnew)
          as (sent & s2 & w2 & Hrun2 & _ & Hw2 & _ & Hown2 & _ & _ & Hm2 & _).
        rewrite Hrun in Hrun2. simplify_eq. exists w2. split; [done|]. rewrite <- Hm2.
        apply not_full_length; [apply Hown2|congruence].
      + rewrite (cw_write_no_change data s a w w1 He (can_writes _ _ _ _ _ _ Hcan) Hnew) in Hrun. simplify_eq.
        exists w1. split; [apply (writes_set s a w), Hcan|].
        destruct Hsame as (_ & -> & _). apply not_full_length; [apply Hcan|done].
    - rewrite (cw_write_disabled data s He) in Hrun. simplify_eq. exists w. split; [apply Hcan|].
      apply not_full_length; [apply Hcan|done]. }
  exists w'. split_and!; [done..|]. intros Hone. destruct (rw_history w') as [|c l]; [done|]. simpl in Hlt. lia.
Qed.

(** The filter that [init] gives to a writer. *)
Definition filter_of (o : CommonWriter) : data_filter :=
  if repeater_ o then repeater_data_filter else self_data_filter.

Lemma forwards_relevant s w data sent g :
  forwards s w data sent ->
  is_relevant (filter_of (ws_this s)) sent g = true <->
    guidPrefix g <> guidPrefix (rw_guid w) /\
    (repeater_ (ws_this s) = true -> guidPrefix g <> guidPrefix (source_guid (properties data))).
Proof.
  intros Hf. pose proof (fw_writer _ _ _ _ Hf) as Hw. pose proof (fw_last _ _ _ _ Hf) as Hl. unfold filter_of.
  destruct (repeater_ (ws_this s)); simpl; unfold repeater_is_relevant, self_is_relevant; rewrite Hw.
  - rewrite Hl by done.
    destruct (bool_decide_reflect (guidPrefix (rw_guid w) <> guidPrefix g)) as [Hne|Hne]; simpl.
    + rewrite bool_decide_eq_true. naive_solver.
    + split; [done|]. intros [? _]. exfalso. naive_solver.
  - rewrite bool_decide_eq_true. naive_solver.
Qed.

(** Who gets what is sent. A write of an enabled writer that answers [RETCODE_OK] sends
    one change, and the filter that the writer has got at [init] lets it go to a reader
    exactly if the reader is not of the writer's own participant and, in a repeater, not of
    the participant that the data comes from either. *)
Theorem sent_to_others data s a w others H0 d s' :
  can_write data s a w others H0 -> rw_filter w = Some (filter_of (ws_this s)) ->
  cw_write this_pool default_params data s = (Ok (RETCODE_OK, d), s') ->
  exists w' sent, writes s' a w' /\ rw_sent w' = rw_sent w ++ [sent] /\
    rw_filter w' = Some (filter_of (ws_this s')) /\
    forall g, is_relevant (filter_of (ws_this s')) sent.1 g = true <->
      guidPrefix g <> guidPrefix (rw_guid w) /\
      (repeater_ (ws_this s) = true -> guidPrefix g <> guidPrefix (source_guid (properties data))).
Proof.
  intros Hcan Hfil Hrun.
  destruct (bw_enabled_ (cw_base (ws_this s))) eqn:He; [|by rewrite (cw_write_disabled data s He) in Hrun].
  destruct (rw_new_change ALIVE (new_handle s data) w) as [[c|] w1] eqn:Hnew.
  - destruct (cw_write_sends data s a w others H0 c w1 Hcan He Hnew)
      as (sent & s2 & w2 & Hrun2 & [Hfw _] & Hw2 & Ht & _ & Hsent & _ & _ & Hf2 & _).
    rewrite Hrun in Hrun2. simplify_eq. exists w2, sent. rewrite Ht. split_and!; [done..|congruence|].
    intros g. by apply forwards_relevant.
  - by rewrite (cw_write_no_change data s a w w1 He (can_writes _ _ _ _ _ _ Hcan) Hnew) in Hrun.
Qed.

(** ** Life of a writer *)

Lemma remove_rtps_writer_run s a w others H0 :
  writes s a w -> history_ok this_pool (ws_heap s) (ws_pool s) (rw_history w) others H0 ->
  (Z.of_nat (length (held_by (rw_history w) ++ others)) < 2 ^ 32)%Z ->
  exists h pool, remove_rtps_writer this_pool s =
      (Ok tt, mkWS h pool (delete a (ws_domain s)) (ws_this s)) /\
    history_ok this_pool h pool [] others H0 /\ bytes_kept h (ws_heap s).
Proof.
  intros Hw Hok Hlen. unfold remove_rtps_writer.
  rewrite (bind_ok _ _ _ _ _ (the_writer_run _ _ _ Hw)). cbn [fst snd].
  assert (forall l s1, history_ok this_pool (ws_heap s1) (ws_pool s1) l others H0 ->
    (Z.of_nat (length (held_by l ++ others)) < 2 ^ 32)%Z ->
    exists h pool, for_each l (w_give_back this_pool) s1 = (Ok tt, ws_set_memory h pool s1) /\
      history_ok this_pool h pool [] others H0 /\ bytes_kept h (ws_heap s1)) as Hloop.
  { induction l as [|c l IH]; intros s1 Hok1 Hlen1.
    - exists (ws_heap s1), (ws_pool s1). split_and!; [by destruct s1|done|apply bytes_kept_refl].
    - destruct (w_give_back_run s1 [] c l others H0 Hok1 Hlen1) as (h & pool & Hrun & Hok2 & Hk2).
      destruct (IH (ws_set_memory h pool s1)) as (h' & pool' & Hrun' & Hok' & Hk'); [done| |].
      { change (held_by (c :: l)) with (held c ++ held_by l) in Hlen1.
        rewrite !length_app in *. lia. }
      exists h', pool'. split_and!; [|done|by eapply bytes_kept_trans]. by rewrite (for_each_step _ _ _ _ _ Hrun), Hrun'. }
  destruct (Hloop _ _ Hok Hlen) as (h & pool & Hrun & Hok' & Hk'). exists h, pool. split_and!; [|done|done].
  by rewrite (bind_ok _ _ _ _ _ Hrun).
Qed.

(** [this] once its writer is at [a] in Fast DDS, with its filter. *)
Definition made_writer s (a : nat) (e : RTPSWriter) : wstate :=
  mkWS (ws_heap s) (ws_pool s) (<[a := rw_set_filter (filter_of (ws_this s)) e]> (ws_domain s))
    (cw_set_entities (Some a) true (Some (filter_of (ws_this s))) (ws_this s)).
(** [this] with a pointer to a writer that was removed. *)
Definition dangling_writer s (a : nat) : wstate :=
  ws_set_this (cw_set_entities (Some a) true (data_filter_ (ws_this s)) (ws_this s)) s.

Lemma made_writes s a e : writes (made_writer s a e) a (rw_set_filter (filter_of (ws_this s)) e).
Proof. split; [done|]. apply lookup_insert_eq. Qed.

Lemma cw_init_run s :
  cw_init this_pool s =
    match create_rtps_writer (cw_rtps_participant_ (ws_this s))
            (if repeater_ (ws_this s) then Some (pool_configuration_ (ws_this s)) else None)
            (cw_history_attributes_ (ws_this s)) (writer_attributes_ (ws_this s)) (ws_domain s) with
    | None => (Throw InitializationException,
               ws_set_this (cw_set_entities None true (data_filter_ (ws_this s)) (ws_this s)) s)
    | Some (a, e) =>
        if register_writer e (cw_topic_attributes_ (ws_this s)) (writer_qos_ (ws_this s))
        then (Ok tt, made_writer s a e) else (Throw InitializationException, dangling_writer s a)
    end.
Proof.
  unfold cw_init, on_this. run_prog.
  destruct (create_rtps_writer _ _ _ _ _) as [[a e]|] eqn:Hcreate; [|done].
  destruct (create_writer_spec _ _ _ _ _ _ _ Hcreate) as (Hfresh & Hempty & _ & Hmax).
  set (s1 := mkWS (ws_heap s) (ws_pool s) (<[a := e]> (ws_domain s))
               (cw_set_entities (Some a) true (data_filter_ (ws_this s)) (ws_this s))).
  assert (writes s1 a e) as Hw1 by (split; [done|]; apply lookup_insert_eq).
  match goal with |- context [the_writer ?x] => change x with s1 end.
  rewrite (the_writer_run _ _ _ Hw1). run_prog.
  destruct (register_writer _ _ _); cbn [negb].
  - unfold made_writer, ws_set_writer, ws_set_this. simpl. by rewrite insert_insert_eq.
  - unfold remove_rtps_writer. run_prog. rewrite (the_writer_run _ _ _ Hw1). cbn [fst snd].
    rewrite Hempty. cbn [for_each]. unfold dangling_writer, ws_set_this. simpl.
    by rewrite delete_insert_id.
Qed.

Lemma cw_destroy_dangling s a :
  ws_domain s !! a = None ->
  cw_destroy this_pool (dangling_writer s a) = (Throw UndefinedBehaviour, dangling_writer s a).
Proof.
  intros Hfresh. unfold cw_destroy. run_prog. cbn [rtps_writer_ cw_set_entities ws_this ws_set_this dangling_writer].
  unfold the_writer. run_prog. cbn [rtps_writer_ cw_set_entities ws_this ws_set_this dangling_writer ws_domain].
  by rewrite Hfresh.
Qed.

(** The life of a writer. A writer that Fast DDS makes and registers starts with an
    empty history of the depth of the topic and the filter of its role, and its
    destructor gives the payloads of the history back; if it cannot be registered, [init]
    frees it and throws with the pointer still set, so that the destructor uses a writer
    that was freed; if Fast DDS makes none, [init] throws and there is nothing to free. *)
Theorem writer_lifecycle s :
  let o := ws_this s in
  match create_rtps_writer (cw_rtps_participant_ o) (if repeater_ o then Some (pool_configuration_ o) else None)
          (cw_history_attributes_ o) (writer_attributes_ o) (ws_domain s) with
  | None => exists s', cw_init this_pool s = (Throw InitializationException, s') /\
      ws_domain s' = ws_domain s /\ is_ok (cw_destroy this_pool s').1 = true
  | Some (a, e) =>
      if register_writer e (cw_topic_attributes_ o) (writer_qos_ o)
      then (exists s' w, cw_init this_pool s = (Ok tt, s') /\ writes s' a w /\ rw_history w = [] /\
              rw_max w = maximumReservedCaches (cw_history_attributes_ o) /\
              rw_filter w = Some (if repeater_ o then repeater_data_filter else self_data_filter)) /\
           forall s1 w1 others H0, writes s1 a w1 ->
             history_ok this_pool (ws_heap s1) (ws_pool s1) (rw_history w1) others H0 ->
             (Z.of_nat (length (held_by (rw_history w1) ++ others)) < 2 ^ 32)%Z ->
             exists s2, cw_destroy this_pool s1 = (Ok tt, s2) /\ ws_domain s2 = delete a (ws_domain s1) /\
               history_ok this_pool (ws_heap s2) (ws_pool s2) [] others H0
      else exists s', cw_init this_pool s = (Throw InitializationException, s') /\
             ws_domain s' = ws_domain s /\ result (cw_destroy this_pool) s' = Throw UndefinedBehaviour
  end.
Proof.
  intros o. rewrite cw_init_run. fold o.
  destruct (create_rtps_writer _ _ _ _ _) as [[a e]|] eqn:Hcreate.
  - destruct (create_writer_spec _ _ _ _ _ _ _ Hcreate) as (Hfresh & Hempty & _ & Hmax).
    destruct (register_writer _ _ _).
    + split.
      * pose proof (rw_set_filter_spec (filter_of o) e) as (Hf & Hh & _ & _ & _ & Hm).
        eexists _, _. split; [reflexivity|]. split; [apply made_writes|]. change (ws_this s) with o. unfold filter_of in *. split_and!; congruence.
      * intros s2 w2 others H0 Hw2 Hok Hlen.
        destruct (remove_rtps_writer_run _ _ _ _ _ Hw2 Hok Hlen) as (h & pool & Hrun & Hok' & _).
        eexists. split_and!.
        -- unfold cw_destroy. run_prog. destruct Hw2 as [Hp Hd]. rewrite Hp.
           rewrite (the_writer_run s2 a w2) by done. rewrite Hrun. reflexivity.
        -- done.
        -- done.
    + exists (dangling_writer s a). split_and!; [done..|]. unfold result. by rewrite cw_destroy_dangling.
  - eexists. split; [reflexivity|]. split; done.
Qed.

End WriterProperties.

(** ** Witnesses *)
Module WriterDemo.

#[local] Existing Instances Demo.cpp_utils Demo.fast_dds PoolDemo.malloc.

Record dwriter : Type := mkDW {
  dw_guid : Guid;
  dw_history : list Change;
  dw_next : Z;
  dw_max : Z;
  dw_sent : list sample;
  dw_filter : option data_filter
}.

Definition unknown_params : WriteParams := mkWriteParams sample_identity_unknown sample_identity_unknown.

Definition writers : RtpsWriters := {|
  RTPSWriter := dwriter;
  rw_guid := dw_guid;
  rw_new_change k h w :=
    (Some (mkChange (dw_guid w) 0%Z 0 k (default [] h) unknown_params (mkCacheChange Payload_empty None) []), w);
  rw_add cm p w :=
    let c' := added_change (dw_next w) p cm.1 in
    ((mkSendParams (mkWriteParams (mkSampleIdentity (dw_guid w) (dw_next w))
        (related_sample_identity (sp_params p))) (sp_source_timestamp p), c'),
     mkDW (dw_guid w) (dw_history w ++ [c']) (dw_next w + 1) (dw_max w) (dw_sent w ++ [(c', cm.2)]) (dw_filter w));
  rw_remove c w := mkDW (dw_guid w) (remove_sample c (dw_history w)) (dw_next w) (dw_max w) (dw_sent w) (dw_filter w);
  rw_remove_min w :=
    (head (dw_history w), mkDW (dw_guid w) (tail (dw_history w)) (dw_next w) (dw_max w) (dw_sent w) (dw_filter w));
  rw_is_full w := bool_decide (0 < dw_max w)%Z && bool_decide (dw_max w <= Z.of_nat (length (dw_history w)))%Z;
  rw_set_filter f w := mkDW (dw_guid w) (dw_history w) (dw_next w) (dw_max w) (dw_sent w) (Some f);
  rw_history := dw_history;
  rw_next := dw_next;
  rw_max := dw_max;
  rw_sent := dw_sent;
  rw_filter := dw_filter;
  create_rtps_writer g _ ha _ m :=
    Some (fresh (dom m : gset nat), mkDW (mkGuid (guidPrefix g) [9%Z]) [] 1 (maximumReservedCaches ha) [] None);
  register_writer _ ta _ := negb (topicName ta =? "refused")%string
|}.

Lemma writers_laws : @RtpsWritersLaws writers.
Proof.
  split; try done.
  - simpl. intros k ih w c w' [= <- <-]. by split_and!.
  - intros c m p w _ Hg. eexists. split; [reflexivity|]. simpl. split_and!; try done. lia.
  - intros c w l1 l2 Hh Hne. simpl in *. split_and!; try done. rewrite Hh. by apply remove_sample_spec.
  - intros c w l Hh. simpl in *. eexists. rewrite Hh. split; [reflexivity|]. by split_and!.
  - intros w. simpl. rewrite andb_true_iff, !bool_decide_eq_true. done.
  - simpl. intros g pc ha wa m a w [= <- <-]. split_and!; try done.
    apply (not_elem_of_dom (D := gset nat)), (is_fresh (C := gset nat) (dom m)).
  - simpl. by intros g pc ha wa m a w [= <- <-].
Qed.

Definition default_params : SendParams := mkSendParams unknown_params 0.
Definition dq : EndpointQos := mkEndpointQos VOLATILE_DURABILITY_QOS BEST_EFFORT_RELIABILITY_QOS 0 [] SHARED_OWNERSHIP 0.
Definition dta : TopicAttributes := mkTopicAtt NO_KEY "" "" KEEP_LAST_HISTORY_QOS 1.

(** A topic that is reliable and transient local, with the depth [n]. *)
Definition latched (n : Z) : DdsTopic :=
  mkDdsTopic "t" "T" false (fuzzy_init (mkTopicQoS TRANSIENT_LOCAL RELIABLE SHARED_OWNERSHIP false n)).

Definition object (name : string) : CommonWriter :=
  SimpleWriter_of dta dq (mkGuid [1%Z] [0%Z]) (mkParticipantId "p") (DdsTopic_of 5000 name "T") true.
Definition writer (n : Z) : CommonWriter :=
  cw_set_entities (Some 3) true (Some repeater_data_filter)
    (cw_enable (SimpleWriter_of dta dq (mkGuid [1%Z] [0%Z]) (mkParticipantId "p") (latched n) true)).

Definition memory : heap := {[ 0 := mkBlock (Some 1%Z) [Some 5%Z; Some 6%Z] ]}.
Definition pool : PayloadPool := mkPool 1 0 [].
Definition entity (n : Z) : dwriter := mkDW (mkGuid [1%Z] [9%Z]) [] 1 n [] (Some repeater_data_filter).
Definition state (n : Z) : wstate (RW := writers) :=
  mkWS (RW := writers) memory pool {[ 3 := entity n ]} (writer n).

(** The two bytes at the address 0, from the participant [2]. *)
Definition data : DataReceived :=
  mkDataReceived (mkPayload (Some 0) 2 2 0) (mkDataProperties SpecificEndpointQoS_default [] ALIVE 77
    (mkGuid [2%Z] [8%Z]) (mkParticipantId "p") (fuzzy_init unknown_params) 4%Z) 0%Z.

Lemma writer_owns_demo n : (0 < n)%Z ->
  writer_owns (RW := writers) (PM := FastPayloadPool.methods 7) 7
    (PS := FastPayloadPoolSpec.fast_pool_spec (ML := PoolDemo.malloc_laws) 7) (state n) (entity n) [0] ∅.
Proof.
  intros Hn. split; [split| |].
  - split; vm_compute; done.
  - intros a Ha. change (held_by [] ++ [0]) with [0] in *. apply list_elem_of_singleton in Ha as ->.
    exists [Some 5%Z; Some 6%Z]. done.
  - constructor.
  - apply NoDup_nil_2.
  - constructor.
  - apply not_true_is_false. intros H. apply andb_true_iff in H as [_ H%bool_decide_eq_true]. simpl in H. lia.
Qed.

Lemma data_writable n : writable (RW := writers) (state n) data [0].
Proof.
  intros _. exists 0. split_and!; [done|by apply elem_of_cons; left|].
  exists 0, (mkBlock (Some 1%Z) [Some 5%Z; Some 6%Z]). by split_and!.
Qed.

Lemma demo_can_write n : (0 < n)%Z ->
  can_write (RW := writers) (PM := FastPayloadPool.methods 7) 7
    (PS := FastPayloadPoolSpec.fast_pool_spec (ML := PoolDemo.malloc_laws) 7) data (state n) 3 (entity n) [0] ∅.
Proof. intros Hn. split; [by split|by apply writer_owns_demo|apply data_writable|done|done]. Qed.

End WriterDemo.

Section Witnesses.
#[local] Existing Instances Demo.cpp_utils Demo.cpp_utils_laws Demo.fast_dds
  PoolDemo.malloc PoolDemo.malloc_laws WriterDemo.writers WriterDemo.writers_laws.
#[local] Instance demo_methods : PoolMethods := FastPayloadPool.methods 7.
#[local] Instance demo_spec : PoolSpec 7 := FastPayloadPoolSpec.fast_pool_spec 7.
Import WriterDemo.

Lemma writer_write_spec_witness :
  exists sent s' w', cw_write 7 default_params data (state 5) =
      (Ok (RETCODE_OK, set_sent_sequence_number 1%Z data), s') /\
    writes s' 3 w' /\ rw_sent w' = [sent] /\ ch_sourceTimestamp sent.1 = 77%Z /\
    last_writer_guid_prefix sent.1 = [2%Z] /\ sent.2 = Some [Some 5%Z; Some 6%Z].
Proof.
  pose proof (writer_write_spec 7 default_params data (state 5) 3 (entity 5) [0] ∅) as H.
  destruct H as (sent & s' & w' & Hrun & [Hf Hm] & Hw & _ & _ & Hs & _);
    [by apply demo_can_write|].
  exists sent, s', w'. split; [exact Hrun|]. split; [exact Hw|]. split; [exact Hs|].
  split; [exact (fw_timestamp _ _ _ _ _ Hf)|].
  split; [exact (fw_last _ _ _ _ _ Hf eq_refl)|exact Hm].
Defined.

Lemma written_history_bound_witness :
  exists ret d s' w', cw_write 7 default_params data (state 1) = (Ok (ret, d), s') /\
    writes s' 3 w' /\ rw_history w' = [].
Proof.
  destruct (is_ok_pair (cw_write 7 default_params data (state 1))) as ([ret d] & s' & Hrun);
    [vm_compute; reflexivity|].
  destruct (written_history_bound 7 default_params data (state 1) 3 (entity 1) [0] ∅ ret d s')
    as (w' & Hw & _ & He); [by apply demo_can_write|simpl; lia|exact Hrun|].
  exists ret, d, s', w'. split; [exact Hrun|]. split; [exact Hw|]. by apply He.
Defined.

Lemma sent_to_others_witness :
  exists d s' w' sent, cw_write 7 default_params data (state 5) = (Ok (RETCODE_OK, d), s') /\
    writes s' 3 w' /\ rw_sent w' = [sent] /\
    is_relevant repeater_data_filter sent.1 (mkGuid [3%Z] [4%Z]) = true /\
    is_relevant repeater_data_filter sent.1 (mkGuid [2%Z] [4%Z]) = false.
Proof.
  destruct (is_ok_pair (cw_write 7 default_params data (state 5))) as ([ret d] & s' & Hrun);
    [vm_compute; reflexivity|].
  assert (ret = RETCODE_OK) as ->.
  { assert (match (cw_write 7 default_params data (state 5)).1 with Ok (r, _) => r = RETCODE_OK | _ => True end) as H
      by (vm_compute; reflexivity). by rewrite Hrun in H. }
  destruct (sent_to_others 7 default_params data (state 5) 3 (entity 5) [0] ∅ d s')
    as (w' & sent & Hw & Hs & Hf & Hr); [by apply demo_can_write|reflexivity|exact Hrun|].
  assert (filter_of (ws_this s') = repeater_data_filter) as Hf'.
  { assert (filter_of (ws_this (cw_write 7 default_params data (state 5)).2) = repeater_data_filter) as H
      by (vm_compute; reflexivity). by rewrite Hrun in H. }
  rewrite Hf' in Hr. exists d, s', w', sent. split_and!; [exact Hrun|exact Hw|exact Hs| |].
  - apply Hr. done.
  - apply not_true_is_false. intros [_ H]%Hr. by apply H.
Defined.

Definition refused_state : wstate := mkWS ∅ PayloadPool_new ∅ (object "refused").

Lemma writer_lifecycle_witness :
  exists s', cw_init 7 refused_state = (Throw InitializationException, s') /\
    result (cw_destroy 7) s' = Throw UndefinedBehaviour.
Proof.
  destruct (writer_lifecycle 7 refused_state) as (s' & Hrun & _ & Hub).
  exists s'. split; [exact Hrun|exact Hub].
Defined.

End Witnesses.
