(* ===== verification/MultiWriter.v ===== *)
(** * MultiWriter

    [writer/implementations/rtps/MultiWriter.cpp]: a writer for the topics with
    partitions or ownership. It keeps one [QoSSpecificWriter] for each QoS that the data
    it writes has, made the first time it is needed. *)
From stdpp Require Import gmap relations.
From S2P Require Import Prelude StdMap CppString Externals Types Topics PayloadPool Track Auxiliar Rtps RtpsWriter.

Section MultiWriter.
Context {CU : CppUtils} {RW : RtpsWriters} {PM : PoolMethods} (this_pool : nat).
Context (default_params : SendParams) (dta : TopicAttributes) (dq : EndpointQos).

Record MultiWriter : Type := mkMultiWriter {
  mw_base : BaseWriter;
  writers_map_ : std_map SpecificEndpointQoS nat;
  (** the GUID of the participant of Fast DDS *)
  mw_rtps_participant_ : Guid;
  mw_repeater_ : bool
}.

Definition mw_set_base (b : BaseWriter) (m : MultiWriter) : MultiWriter :=
  mkMultiWriter b (writers_map_ m) (mw_rtps_participant_ m) (mw_repeater_ m).
Definition mw_set_map (l : std_map SpecificEndpointQoS nat) (m : MultiWriter) : MultiWriter :=
  mkMultiWriter (mw_base m) l (mw_rtps_participant_ m) (mw_repeater_ m).

Definition MultiWriter_of (participant : Guid) (id : ParticipantId) (topic : DdsTopic) (repeater : bool) : MultiWriter :=
  mkMultiWriter (BaseWriter_of id topic) [] participant repeater.

(** The memory, the writers of Fast DDS, the objects of class [QoSSpecificWriter] by
    address, and the object. *)
Record mstate : Type := mkMS {
  ms_heap : heap;
  ms_pool : PayloadPool;
  ms_domain : gmap nat RTPSWriter;
  ms_objects : gmap nat CommonWriter;
  ms_this : MultiWriter
}.

Definition ms_set_objects (o : gmap nat CommonWriter) (s : mstate) : mstate :=
  mkMS (ms_heap s) (ms_pool s) (ms_domain s) o (ms_this s).
Definition ms_set_this (m : MultiWriter) (s : mstate) : mstate :=
  mkMS (ms_heap s) (ms_pool s) (ms_domain s) (ms_objects s) m.

(** A method of the object at [p]. *)
Definition on_object {A} (p : nat) (m : prog wstate A) : prog mstate A := fun s =>
  match ms_objects s !! p with
  | Some o =>
      let '(r, t) := m (mkWS (ms_heap s) (ms_pool s) (ms_domain s) o) in
      (r, mkMS (ws_heap t) (ws_pool t) (ws_domain t) (<[p := ws_this t]> (ms_objects s)) (ms_this s))
  | None => (Throw UndefinedBehaviour, s)
  end.

Definition on_multi (f : MultiWriter -> MultiWriter) : prog mstate unit :=
  modify (fun s => ms_set_this (f (ms_this s)) s).

Definition exist_partition_ (s : mstate) (data_qos : SpecificEndpointQoS) : bool :=
  contains data_qos (writers_map_ (ms_this s)).

(** [new QoSSpecificWriter(...)] and [init] *)
Definition create_writer_nts_ (data_qos : SpecificEndpointQoS) : prog mstate nat :=
  s ← get;
  let b := mw_base (ms_this s) in
  let p := fresh (dom (ms_objects s) : gset nat) in
  modify (ms_set_objects (<[p := QoSSpecificWriter_of dta dq (mw_rtps_participant_ (ms_this s))
    (bw_participant_id_ b) (bw_topic_ b) data_qos
    (mw_repeater_ (ms_this s))]> (ms_objects s))) ;;
  on_object p (cw_init this_pool) ;;
  mret p.

Definition get_writer_or_create_ (data_qos : SpecificEndpointQoS) : prog mstate nat :=
  s ← get;
  match find data_qos (writers_map_ (ms_this s)) with
  | Some p => mret p
  | None =>
      p ← create_writer_nts_ data_qos;
      on_multi (fun m => mw_set_map (assign data_qos p (writers_map_ m)) m) ;;
      (if bw_enabled_ (mw_base (ms_this s)) then on_object p (on_this cw_enable) else mret tt) ;;
      mret p
  end.

Definition mw_write_ (data : DataReceived) : prog mstate (ReturnCode * DataReceived) :=
  p ← get_writer_or_create_ (writer_qos (properties data));
  on_object p (cw_write this_pool default_params data).

(** [enable_] and [disable_] *)
Definition mw_enable_ : prog mstate unit :=
  s ← get;
  for_each (values (writers_map_ (ms_this s))) (fun p => on_object p (on_this cw_enable)).
Definition mw_disable_ : prog mstate unit :=
  s ← get;
  for_each (values (writers_map_ (ms_this s))) (fun p => on_object p (on_this cw_disable)).

(** [BaseWriter::write], [enable] and [disable] *)
Definition mw_write (data : DataReceived) : prog mstate (ReturnCode * DataReceived) :=
  s ← get;
  if bw_enabled_ (mw_base (ms_this s)) then mw_write_ data else mret (RETCODE_NOT_ENABLED, data).
Definition mw_enable : prog mstate unit :=
  s ← get;
  if negb (bw_enabled_ (mw_base (ms_this s)))
  then on_multi (fun m => mw_set_base (bw_set_enabled true (mw_base m)) m) ;; mw_enable_ else mret tt.
Definition mw_disable : prog mstate unit :=
  s ← get;
  if bw_enabled_ (mw_base (ms_this s))
  then on_multi (fun m => mw_set_base (bw_set_enabled false (mw_base m)) m) ;; mw_disable_ else mret tt.

(** [~MultiWriter] *)
Definition mw_destroy : prog mstate unit :=
  s ← get;
  for_each (values (writers_map_ (ms_this s))) (fun p =>
    on_object p (on_this cw_disable) ;;
    on_object p (cw_destroy this_pool) ;;
    modify (fun s => ms_set_objects (delete p (ms_objects s)) s)).

(** ** Properties *)

Implicit Types (s : mstate).

(** The writer of a QoS in the map is one with that QoS, enabled as the whole is. *)
Definition serves s (q : SpecificEndpointQoS) (p : nat) : Prop :=
  exists o, ms_objects s !! p = Some o /\
    writer_qos_ o = specific_writer_qos_ dq q (bw_topic_ (mw_base (ms_this s))) /\
    bw_topic_ (cw_base o) = bw_topic_ (mw_base (ms_this s)) /\
    repeater_ o = mw_repeater_ (ms_this s) /\ cw_rtps_participant_ o = mw_rtps_participant_ (ms_this s) /\
    bw_enabled_ (cw_base o) = bw_enabled_ (mw_base (ms_this s)).

Definition multi_inv s : Prop :=
  forall q p, find q (writers_map_ (ms_this s)) = Some p -> serves s q p.

(** What no method of a writer changes of it: its QoS, its base and its participant. *)
Definition same_writer (o o' : CommonWriter) : Prop :=
  writer_qos_ o' = writer_qos_ o /\ cw_base o' = cw_base o /\ repeater_ o' = repeater_ o /\
  cw_rtps_participant_ o' = cw_rtps_participant_ o.

Definition keeps_this {A} (m : prog wstate A) : Prop :=
  forall t, same_writer (ws_this t) (ws_this (exec m t)).

Lemma keeps_this_ret {A} (a : A) : keeps_this (mret a).
Proof. by intros t. Qed.

Lemma keeps_throw {A} e : keeps_this (throw (A := A) e).
Proof. by intros t. Qed.

Lemma keeps_this_bind {A B} (m : prog wstate A) (k : A -> prog wstate B) :
  keeps_this m -> (forall a, keeps_this (k a)) -> keeps_this (m ≫= k).
Proof.
  intros Hm Hk t. specialize (Hm t). unfold exec, mbind, prog_bind in *.
  destruct (m t) as [[a|e] t'] eqn:E; [|done]. specialize (Hk a t'). unfold exec, same_writer in *.
  simpl in *. destruct Hm as (?&?&?&?), Hk as (?&?&?&?). split_and!; congruence.
Qed.

Lemma keeps_get : keeps_this get.
Proof. by intros t. Qed.

Lemma keeps_modify f : (forall t, same_writer (ws_this t) (ws_this (f t))) -> keeps_this (modify f).
Proof. intros H t. apply H. Qed.

Lemma keeps_the_writer : keeps_this the_writer.
Proof.
  intros t. unfold the_writer, exec. run_prog. destruct (rtps_writer_ _); [|done].
  by destruct (ws_domain t !! _).
Qed.

Lemma keeps_on_new_change {A} c (m : prog cstate A) : keeps_this (on_new_change c m).
Proof. intros t. unfold on_new_change, exec. by destruct (m _) as [[?|?] ?]. Qed.

Lemma keeps_this_for_each {A} (l : list A) body : (forall x, keeps_this (body x)) -> keeps_this (for_each l body).
Proof. intros H. induction l as [|x l IH]; simpl; [apply keeps_this_ret|]. by apply keeps_this_bind. Qed.

Lemma keeps_give_back c : keeps_this (w_give_back this_pool c).
Proof.
  unfold w_give_back. destruct (payload_owner _); [|apply keeps_this_ret].
  apply keeps_this_bind; [apply keeps_on_new_change|]. intros _. apply keeps_this_ret.
Qed.

Create HintDb keeps.
#[local] Hint Resolve keeps_this_ret keeps_throw keeps_get keeps_the_writer keeps_on_new_change keeps_give_back : keeps.

(** Goes through the steps of a method. *)
Ltac keeps :=
  repeat first
    [ progress intros | apply keeps_this_bind | apply keeps_this_for_each
    | solve [eauto with keeps]
    | apply keeps_modify; intros ?; by split_and!
    | match goal with |- keeps_this (match ?x with _ => _ end) => destruct x end
    | match goal with |- keeps_this (if ?x then _ else _) => destruct x end ].

Lemma keeps_write data : keeps_this (cw_write this_pool default_params data).
Proof.
  unfold cw_write, cw_write_, fill_to_send_data_, w_history_remove, w_history_remove_min, fill_sent_data_. keeps.
Qed.

Lemma keeps_init : keeps_this (cw_init this_pool).
Proof. unfold cw_init, on_this, remove_rtps_writer. keeps. Qed.

Lemma on_object_run {A} p (m : prog wstate A) s o r t :
  ms_objects s !! p = Some o -> m (mkWS (ms_heap s) (ms_pool s) (ms_domain s) o) = (r, t) ->
  on_object p m s =
    (r, mkMS (ws_heap t) (ws_pool t) (ws_domain t) (<[p := ws_this t]> (ms_objects s)) (ms_this s)).
Proof. intros Ho Hm. unfold on_object. rewrite Ho. by rewrite Hm. Qed.

(** A method that keeps what a writer is keeps the invariant. *)
Lemma on_object_inv {A} p (m : prog wstate A) s r s' :
  keeps_this m -> multi_inv s -> on_object p m s = (r, s') ->
  multi_inv s' /\ ms_this s' = ms_this s /\ forall p', p' <> p -> ms_objects s' !! p' = ms_objects s !! p'.
Proof.
  intros Hm Hinv. unfold on_object. destruct (ms_objects s !! p) as [o|] eqn:Ho; [|by intros [= <- <-]].
  specialize (Hm (mkWS (ms_heap s) (ms_pool s) (ms_domain s) o)). unfold exec in Hm.
  destruct (m _) as [r1 t]. simpl in Hm. intros [= <- <-]. split_and!; [|done|].
  - intros q p' Hf. destruct (Hinv q p' Hf) as (o' & Ho' & H'). unfold serves. simpl.
    destruct (decide (p' = p)) as [->|Hne].
    + rewrite lookup_insert_eq. exists (ws_this t). assert (o' = o) as -> by congruence.
      destruct Hm as (E1 & E2 & E3 & E4). rewrite E1, E2, E3, E4. done.
    + rewrite lookup_insert_ne by done. by exists o'.
  - intros p' Hne. simpl. by rewrite lookup_insert_ne.
Qed.

(** The invariant with a new writer in the map. *)
Lemma multi_inv_assign s q p :
  multi_inv s -> serves s q p ->
  multi_inv (ms_set_this (mw_set_map (assign q p (writers_map_ (ms_this s))) (ms_this s)) s).
Proof.
  intros Hinv Hs q' p'. simpl. rewrite find_assign. destruct (keqv q' q) eqn:E.
  - intros [= <-]. by apply SpecificEndpointQoS_keqv in E as ->.
  - intros Hf. apply (Hinv q' p' Hf).
Qed.

(** The writer of a QoS, made if there was none. *)
Lemma get_writer_spec q s p s' :
  multi_inv s -> bw_enabled_ (mw_base (ms_this s)) = true ->
  get_writer_or_create_ q s = (Ok p, s') ->
  multi_inv s' /\ serves s' q p /\ mw_base (ms_this s') = mw_base (ms_this s) /\
  mw_repeater_ (ms_this s') = mw_repeater_ (ms_this s) /\
  writers_map_ (ms_this s') = assign q p (writers_map_ (ms_this s)) /\
  (forall p', p' <> p -> ms_objects s' !! p' = ms_objects s !! p') /\
  match find q (writers_map_ (ms_this s)) with Some p0 => p0 = p /\ s' = s | None => ms_objects s !! p = None end.
Proof.
  intros Hinv Hen. unfold get_writer_or_create_. run_prog.
  destruct (find q (writers_map_ (ms_this s))) as [p0|] eqn:Hf.
  { intros [= <- <-]. split_and!; try done; [by apply Hinv|]. by rewrite assign_same. }
  intros (p1 & s1 & Hc & Hrest)%bind_inv_ok. revert Hc. unfold create_writer_nts_. run_prog.
  set (b := mw_base (ms_this s)).
  set (pf := fresh (dom (ms_objects s) : gset nat)).
  assert (ms_objects s !! pf = None) as Hfresh.
  { apply (not_elem_of_dom (D := gset nat)), (is_fresh (C := gset nat) (dom (ms_objects s))). }
  set (o := QoSSpecificWriter_of dta dq _ _ _ q _).
  set (s0 := ms_set_objects (<[pf := o]> (ms_objects s)) s).
  assert (multi_inv s0) as Hinv0.
  { intros q' p' Hf'. destruct (Hinv q' p' Hf') as (o' & Ho' & H'). exists o'. split; [|done].
    simpl. rewrite lookup_insert_ne; [done|]. congruence. }
  destruct (on_object pf (cw_init this_pool) s0) as [[[]|e] s2] eqn:Hi; [|done]. intros [= <- <-].
  assert (exists o', ms_objects s2 !! pf = Some o' /\ same_writer o o') as (o' & Ho' & Hsame).
  { unfold on_object in Hi. unfold s0 in Hi at 1. cbn [ms_objects ms_set_objects] in Hi.
    rewrite lookup_insert_eq in Hi. pose proof (keeps_init (mkWS (ms_heap s0) (ms_pool s0) (ms_domain s0) o)) as Hk.
    unfold exec in Hk. destruct (cw_init this_pool _) as [r t]. injection Hi as _ <-. simpl.
    rewrite lookup_insert_eq. by eexists. }
  destruct (on_object_inv pf (cw_init this_pool) s0 _ s2 keeps_init Hinv0 Hi) as (Hinv2 & Ht2 & Hoth2).
  revert Hrest. unfold on_multi. run_prog. rewrite Ht2. cbn [ms_this ms_set_objects s0] in *. fold b in Hen.
  fold b. rewrite Hen. set (s3 := ms_set_this _ s2).
  unfold on_this. destruct (on_object pf _ s3) as [[[]|e] s4] eqn:He; [|done]. intros [= <- <-].
  unfold on_object in He. cbn [ms_objects s3 ms_set_this] in He. rewrite Ho' in He. injection He as <-.
  destruct Hsame as (E1 & E2 & E3 & E4).
  assert (cw_base o' = BaseWriter_of (bw_participant_id_ b) (bw_topic_ b)) as Eb by (by rewrite E2).
  assert (bw_enabled_ (cw_base (cw_enable o')) = true) as Een by (unfold cw_enable; simpl; by rewrite Eb).
  split_and!.
  - intros q' p'. cbn [ms_this ms_set_this writers_map_ mw_set_map s3]. rewrite find_assign.
    destruct (keqv q' q) eqn:Ek.
    + intros [= <-]. apply SpecificEndpointQoS_keqv in Ek as ->. exists (cw_enable o').
      cbn [ms_objects ws_this ws_set_this ms_this ms_set_this mw_set_map mw_base mw_repeater_ s3].
      rewrite lookup_insert_eq. split; [done|]. fold b. rewrite Hen. split_and!; [exact E1|by simpl; rewrite Eb|exact E3|exact E4|done].
    + intros Hf'. destruct (Hinv2 q' p') as (o2 & Ho2 & H2); [by rewrite Ht2|].
      rewrite Ht2 in H2. exists o2. split; [|exact H2]. cbn [ms_objects s3 ms_set_this].
      rewrite lookup_insert_ne; [done|]. intros <-.
      destruct (Hinv q' pf Hf') as (? & ? & _). congruence.
  - exists (cw_enable o'). cbn [ms_objects ws_this ws_set_this ms_this ms_set_this mw_set_map mw_base mw_repeater_ s3].
    rewrite lookup_insert_eq. split; [done|]. fold b. rewrite Hen. split_and!; [exact E1|by simpl; rewrite Eb|exact E3|exact E4|done].
  - cbn [ms_this ms_set_this mw_set_map mw_base s3]. done.
  - cbn [ms_this ms_set_this mw_set_map mw_repeater_ s3]. done.
  - done.
  - intros p' Hne. cbn [ms_objects s3 ms_set_this]. rewrite lookup_insert_ne by done.
    rewrite Hoth2 by done. simpl. by rewrite lookup_insert_ne.
  - done.
Qed.

(** The loops of [enable_] and [disable_]. *)
Lemma update_loop (f : CommonWriter -> CommonWriter) l s :
  (forall o, f (f o) = f o) -> (forall p, p ∈ l -> is_Some (ms_objects s !! p)) ->
  exists s', for_each l (fun p => on_object p (on_this f)) s = (Ok tt, s') /\ ms_this s' = ms_this s /\
    forall p, ms_objects s' !! p = if decide (p ∈ l) then f <$> ms_objects s !! p else ms_objects s !! p.
Proof.
  intros Hf. revert s. induction l as [|x l IH]; intros s Hl.
  { exists s. by split_and!. }
  destruct (Hl x) as [o Ho]; [apply elem_of_cons; by left|].
  set (s1 := mkMS (ms_heap s) (ms_pool s) (ms_domain s) (<[x := f o]> (ms_objects s)) (ms_this s)).
  assert (forall p, ms_objects s1 !! p = if decide (p = x) then Some (f o) else ms_objects s !! p) as Hs1.
  { intros p. simpl. case_decide as E; [subst; by rewrite lookup_insert_eq|by rewrite lookup_insert_ne]. }
  destruct (IH s1) as (s' & Hrun & Ht & Hobj).
  { intros p Hp. rewrite Hs1. case_decide; [by eexists|]. apply Hl. apply elem_of_cons. by right. }
  exists s'. split_and!; [|done|].
  - rewrite (for_each_step _ _ _ _ s1); [done|]. unfold on_object, on_this. rewrite Ho. done.
  - intros p. rewrite Hobj, Hs1. destruct (decide (p = x)) as [->|Hne].
    + rewrite (decide_True (P := x ∈ x :: l)) by (apply elem_of_cons; by left). rewrite Ho. simpl.
      case_decide; [|done]. by rewrite Hf.
    + destruct (decide (p ∈ l)) as [Hin|Hnin].
      * rewrite decide_True by (apply elem_of_cons; by right). done.
      * rewrite decide_False; [done|]. intros [?|?]%elem_of_cons; done.
Qed.

Lemma elem_of_values q p (m : std_map SpecificEndpointQoS nat) : find q m = Some p -> p ∈ values m.
Proof.
  intros Hf. apply find_elem_of in Hf as (k & _ & Hin). unfold values.
  apply list_elem_of_fmap. by exists (k, p).
Qed.

Lemma switch_inv (v : bool) (f : CommonWriter -> CommonWriter) s :
  (forall o, f (f o) = f o) ->
  (forall o, writer_qos_ (f o) = writer_qos_ o /\ bw_topic_ (cw_base (f o)) = bw_topic_ (cw_base o) /\
     repeater_ (f o) = repeater_ o /\ cw_rtps_participant_ (f o) = cw_rtps_participant_ o /\
     bw_enabled_ (cw_base (f o)) = v) ->
  map_wf (writers_map_ (ms_this s)) -> multi_inv s ->
  let s1 := ms_set_this (mw_set_base (bw_set_enabled v (mw_base (ms_this s))) (ms_this s)) s in
  exists s', for_each (values (writers_map_ (ms_this s1))) (fun p => on_object p (on_this f)) s1 = (Ok tt, s') /\
    multi_inv s' /\ ms_this s' = ms_this s1.
Proof.
  intros Hidem Hf Hwf Hinv s1.
  destruct (update_loop f (values (writers_map_ (ms_this s1))) s1 Hidem) as (s' & Hrun & Ht & Hobj).
  { intros p Hp. unfold values in Hp. apply list_elem_of_fmap in Hp as ([q p'] & -> & Hin).
    apply elem_of_find in Hin; [|done]. destruct (Hinv _ _ Hin) as (o & Ho & _). by exists o. }
  exists s'. split_and!; [done| |done]. intros q p Hq. rewrite Ht in Hq.
  destruct (Hinv q p Hq) as (o & Ho & H1 & H2 & H3 & H4 & _). destruct (Hf o) as (F1 & F2 & F3 & F4 & F5).
  exists (f o). rewrite Hobj, decide_True by (by eapply elem_of_values).
  change (ms_objects s1) with (ms_objects s). rewrite Ho. simpl. split; [done|].
  rewrite Ht, F1, F2, F3, F4, F5. split_and!; done.
Qed.

Lemma enable_facts o :
  cw_enable (cw_enable o) = cw_enable o /\
  (writer_qos_ (cw_enable o) = writer_qos_ o /\ bw_topic_ (cw_base (cw_enable o)) = bw_topic_ (cw_base o) /\
   repeater_ (cw_enable o) = repeater_ o /\ cw_rtps_participant_ (cw_enable o) = cw_rtps_participant_ o /\
   bw_enabled_ (cw_base (cw_enable o)) = true).
Proof. destruct o as [[id t []] r g p h f a1 a2 a3 q c]; by split_and!. Qed.

Lemma disable_facts o :
  cw_disable (cw_disable o) = cw_disable o /\
  (writer_qos_ (cw_disable o) = writer_qos_ o /\ bw_topic_ (cw_base (cw_disable o)) = bw_topic_ (cw_base o) /\
   repeater_ (cw_disable o) = repeater_ o /\ cw_rtps_participant_ (cw_disable o) = cw_rtps_participant_ o /\
   bw_enabled_ (cw_base (cw_disable o)) = false).
Proof. destruct o as [[id t []] r g p h f a1 a2 a3 q c]; by split_and!. Qed.

(** The methods a client calls. *)
Inductive multi_step : mstate -> mstate -> Prop :=
| multi_enable s s' : mw_enable s = (Ok tt, s') -> multi_step s s'
| multi_disable s s' : mw_disable s = (Ok tt, s') -> multi_step s s'
| multi_write data ret d s s' : mw_write data s = (Ok (ret, d), s') -> multi_step s s'.

Definition multi_ok s : Prop := multi_inv s /\ map_wf (writers_map_ (ms_this s)).

Lemma mw_write_inv data ret d s s' :
  multi_ok s -> mw_write data s = (Ok (ret, d), s') -> multi_ok s'.
Proof.
  intros [Hinv Hwf]. unfold mw_write. run_prog.
  destruct (bw_enabled_ (mw_base (ms_this s))) eqn:Hen; [|by intros [= <- <- <-]].
  unfold mw_write_. intros (p & s1 & Hg & Hw)%bind_inv_ok.
  destruct (get_writer_spec _ _ _ _ Hinv Hen Hg) as (Hinv1 & _ & _ & _ & Hmap & _ & _).
  destruct (on_object_inv _ _ _ _ _ (keeps_write data) Hinv1 Hw) as (Hinv2 & Ht2 & _).
  split; [done|]. rewrite Ht2, Hmap. by apply map_wf_assign.
Qed.

Lemma multi_step_ok s s' : multi_step s s' -> multi_ok s -> multi_ok s'.
Proof.
  destruct 1 as [s s' H|s s' H|data ret d s s' H]; intros [Hinv Hwf].
  - revert H. unfold mw_enable, on_multi, mw_enable_. run_prog.
    destruct (negb _); [|intros [= <-]; by split].
    destruct (switch_inv true cw_enable s) as (s2 & Hrun & Hinv2 & Ht2); try done;
      [intros o; apply enable_facts..|]. rewrite Hrun. intros [= <-]. split; [done|]. by rewrite Ht2.
  - revert H. unfold mw_disable, on_multi, mw_disable_. run_prog.
    destruct (bw_enabled_ _); [|intros [= <-]; by split].
    destruct (switch_inv false cw_disable s) as (s2 & Hrun & Hinv2 & Ht2); try done;
      [intros o; apply disable_facts..|]. rewrite Hrun. intros [= <-]. split; [done|]. by rewrite Ht2.
  - by eapply mw_write_inv.
Qed.

(** The states a new [MultiWriter] can get to. *)
Definition multi_reachable (participant : Guid) (id : ParticipantId) (topic : DdsTopic) (repeater : bool) s : Prop :=
  exists s0, ms_this s0 = MultiWriter_of participant id topic repeater /\ rtc multi_step s0 s.

Lemma multi_reachable_ok participant id topic repeater s : multi_reachable participant id topic repeater s -> multi_ok s.
Proof.
  intros (s0 & H0 & Hr).
  assert (multi_ok s0) as Hok by (split; [intros q p|]; rewrite H0; [done|constructor]).
  clear H0. induction Hr as [|x y z Hxy _ IH]; [done|]. by apply IH, (multi_step_ok x).
Qed.

(** C17: a writer for each QoS. However a [MultiWriter] is enabled, disabled and written
    with, each writer it keeps has the QoS it is kept for, and is enabled exactly when
    the whole is. A data that is written while it is enabled goes out through one writer,
    that of the QoS of the data: the one there was, or a new one if there was none; the
    other writers are not touched and none is lost. *)
Theorem multi_write_routes participant id topic repeater s data ret d s' :
  multi_reachable participant id topic repeater s ->
  mw_write data s = (Ok (ret, d), s') ->
  (forall q p, find q (writers_map_ (ms_this s)) = Some p -> serves s q p) /\
  (bw_enabled_ (mw_base (ms_this s)) = true ->
   let q := writer_qos (properties data) in
   exists p s1, serves s1 q p /\ on_object p (cw_write this_pool default_params data) s1 = (Ok (ret, d), s') /\
     match find q (writers_map_ (ms_this s)) with
     | Some p0 => p = p0 /\ s1 = s
     | None => ms_objects s !! p = None
     end /\
     find q (writers_map_ (ms_this s')) = Some p /\
     (forall q', q' <> q -> find q' (writers_map_ (ms_this s')) = find q' (writers_map_ (ms_this s))) /\
     (forall p', p' <> p -> ms_objects s' !! p' = ms_objects s !! p')).
Proof.
  intros Hr Hw. destruct (multi_reachable_ok _ _ _ _ _ Hr) as [Hinv Hwf]. split; [exact Hinv|].
  intros Hen q. revert Hw. unfold mw_write. run_prog. rewrite Hen.
  unfold mw_write_. intros (p & s1 & Hg & Hw)%bind_inv_ok. fold q in Hg.
  destruct (get_writer_spec _ _ _ _ Hinv Hen Hg) as (Hinv1 & Hs1 & _ & _ & Hmap & Hoth & Hcase).
  destruct (on_object_inv _ _ _ _ _ (keeps_write data) Hinv1 Hw) as (Hinv2 & Ht2 & Hoth2).
  exists p, s1. split_and!; try done.
  - destruct (find q _); [|done]. destruct Hcase as [-> ->]. done.
  - rewrite Ht2, Hmap. rewrite find_assign. by rewrite keqv_refl.
  - intros q' Hne. rewrite Ht2, Hmap, find_assign. destruct (keqv q' q) eqn:E; [|done].
    by apply SpecificEndpointQoS_keqv in E.
  - intros p' Hne. by rewrite Hoth2, Hoth.
Qed.

(** When Fast DDS cannot make the writer for a new QoS, the exception of its [init]
    leaves [write], which is declared not to throw: the program is terminated. *)
Theorem multi_write_creation_fails s data :
  bw_enabled_ (mw_base (ms_this s)) = true ->
  find (writer_qos (properties data)) (writers_map_ (ms_this s)) = None ->
  (forall g pc ha wa, create_rtps_writer g pc ha wa (ms_domain s) = None) ->
  result (mw_write data) s = Throw InitializationException.
Proof.
  intros Hen Hf Hc. unfold mw_write, result. run_prog. rewrite Hen.
  unfold mw_write_, get_writer_or_create_, create_writer_nts_. run_prog. rewrite Hf.
  unfold on_object at 1. simpl. rewrite lookup_insert_eq.
  unfold cw_init, on_this. run_prog. simpl. by rewrite Hc.
Qed.

End MultiWriter.

(** ** Witnesses *)
Section Witnesses.
#[local] Existing Instances Demo.cpp_utils Demo.fast_dds PoolDemo.malloc WriterDemo.writers.
#[local] Instance demo_methods : PoolMethods := FastPayloadPool.methods 7.
Import WriterDemo.

Definition demo_multi (m : MultiWriter) : mstate := mkMS memory pool ∅ ∅ m.
Definition demo_multi0 : mstate := demo_multi (MultiWriter_of (mkGuid [1%Z] [0%Z]) (mkParticipantId "p") (latched 5) false).
Definition demo_multi1 : mstate := exec mw_enable demo_multi0.

Lemma demo_multi_reachable : multi_reachable 7 default_params dta dq (mkGuid [1%Z] [0%Z]) (mkParticipantId "p") (latched 5) false demo_multi1.
Proof.
  exists demo_multi0. split; [reflexivity|]. apply rtc_once, multi_enable. vm_compute. reflexivity.
Defined.

Lemma multi_write_routes_witness :
  exists ret d s' p, mw_write 7 default_params dta dq data demo_multi1 = (Ok (ret, d), s') /\
    find SpecificEndpointQoS_default (writers_map_ (ms_this s')) = Some p.
Proof.
  destruct (is_ok_pair (mw_write 7 default_params dta dq data demo_multi1)) as ([ret d] & s' & Hrun);
    [vm_compute; reflexivity|].
  destruct (multi_write_routes 7 default_params dta dq _ _ _ _ _ data ret d s' demo_multi_reachable Hrun) as [_ H].
  destruct H as (p & s1 & _ & _ & _ & Hf & _); [vm_compute; reflexivity|].
  exists ret, d, s', p. split; [exact Hrun|exact Hf].
Defined.

End Witnesses.

Section FailureWitness.
#[local] Existing Instances Demo.cpp_utils Demo.fast_dds PoolDemo.malloc.
#[local] Instance fail_methods : PoolMethods := FastPayloadPool.methods 7.
Import WriterDemo.

(** Fast DDS makes no writer. *)
#[local] Instance no_writers : RtpsWriters :=
  {| RTPSWriter := dwriter; rw_guid := dw_guid; rw_new_change k h w := (None, w);
     rw_add c p w := ((p, c.1), w); rw_remove c w := w; rw_remove_min w := (None, w);
     rw_is_full w := false; rw_set_filter f w := w; rw_history := dw_history; rw_next := dw_next;
     rw_max := dw_max; rw_sent := dw_sent; rw_filter := dw_filter;
     create_rtps_writer _ _ _ _ _ := None; register_writer _ _ _ := false |}.

Definition demo_fail : mstate :=
  mkMS memory pool ∅ ∅ (mkMultiWriter (bw_set_enabled true (BaseWriter_of (mkParticipantId "p") (latched 5))) [] (mkGuid [1%Z] [0%Z]) false).

Lemma multi_write_creation_fails_witness :
  result (mw_write 7 default_params dta dq data) demo_fail = Throw InitializationException.
Proof. apply multi_write_creation_fails; [reflexivity|reflexivity|]. intros. reflexivity. Defined.

End FailureWitness.
