(* ===== verification/ParticipantAttributes.v ===== *)
(** * Attributes of the RTPS participants

    [participant/implementations/rtps]: what [DiscoveryServerParticipant] and
    [InitialPeersParticipant] ask of Fast DDS when they are built from a configuration:
    the transports, the locators to listen on and the servers or peers to connect to.

    The search for a transport with the same public address is a [while] loop; it is
    modelled with fuel, and [None] is a run that has not returned. *)
From S2P Require Import Prelude StdMap CppString Externals Types Topics AllowedTopicList Address Configuration.

(** ** What Fast DDS is given *)

(** [Locator_t], with what the functions of [IPLocator] set in it *)
Record Locator : Type := mkLocator {
  l_kind : LocatorKind;
  l_ip : string;
  l_wan : option string;
  l_physical_port : Z;
  l_logical_port : option Z
}.

(** [RemoteServerAttributes] *)
Record RemoteServer : Type := mkRemoteServer {
  server_prefix : GuidPrefix;
  server_locators : list Locator
}.

(** The transport descriptors: TCP with the ports to listen on, the public address and
    the TLS options *)
Inductive Transport : Type :=
| TCPv4Transport (ports : list Z) (wan : option string) (tls : TCPDescriptor)
| TCPv6Transport (ports : list Z) (tls : TCPDescriptor)
| UDPv4Transport
| UDPv6Transport.

Inductive DiscoveryProtocol : Type := SIMPLE_PROTOCOL | SERVER | SUPER_CLIENT.

Record ParticipantAttributes : Type := mkAttributes {
  pa_name : string;
  useBuiltinTransports : bool;
  userTransports : list Transport;
  metatrafficUnicastLocatorList : list Locator;
  defaultUnicastLocatorList : list Locator;
  initialPeersList : list Locator;
  m_DiscoveryServers : list RemoteServer;
  discoveryProtocol : DiscoveryProtocol;
  pa_prefix : GuidPrefix
}.

Definition set_transports (t : list Transport) (p : ParticipantAttributes) : ParticipantAttributes :=
  mkAttributes (pa_name p) (useBuiltinTransports p) t (metatrafficUnicastLocatorList p)
    (defaultUnicastLocatorList p) (initialPeersList p) (m_DiscoveryServers p) (discoveryProtocol p) (pa_prefix p).
Definition set_locators (m : list Locator) (d : list Locator) (p : ParticipantAttributes) : ParticipantAttributes :=
  mkAttributes (pa_name p) (useBuiltinTransports p) (userTransports p) m d (initialPeersList p)
    (m_DiscoveryServers p) (discoveryProtocol p) (pa_prefix p).
Definition set_peers (l : list Locator) (s : list RemoteServer) (p : ParticipantAttributes) : ParticipantAttributes :=
  mkAttributes (pa_name p) (useBuiltinTransports p) (userTransports p) (metatrafficUnicastLocatorList p)
    (defaultUnicastLocatorList p) l s (discoveryProtocol p) (pa_prefix p).
Definition set_builtin (b : bool) (p : ParticipantAttributes) : ParticipantAttributes :=
  mkAttributes (pa_name p) b (userTransports p) (metatrafficUnicastLocatorList p)
    (defaultUnicastLocatorList p) (initialPeersList p) (m_DiscoveryServers p) (discoveryProtocol p) (pa_prefix p).
Definition set_server (d : DiscoveryProtocol) (g : GuidPrefix) (p : ParticipantAttributes) : ParticipantAttributes :=
  mkAttributes (pa_name p) (useBuiltinTransports p) (userTransports p) (metatrafficUnicastLocatorList p)
    (defaultUnicastLocatorList p) (initialPeersList p) (m_DiscoveryServers p) d g.

Definition push_transport (t : Transport) (p : ParticipantAttributes) : ParticipantAttributes :=
  set_transports (userTransports p ++ [t]) p.

(** The local variables [has_...]. *)
Record Flags : Type := mkFlags {
  has_listening_addresses : bool;
  has_connection_addresses : bool;
  has_listening_tcp_ipv4 : bool;
  has_listening_tcp_ipv6 : bool;
  has_connection_tcp_ipv4 : bool;
  has_connection_tcp_ipv6 : bool;
  has_connection_udp_ipv4 : bool;
  has_connection_udp_ipv6 : bool;
  has_udp_ipv4 : bool;
  has_udp_ipv6 : bool
}.

Definition no_flags : Flags := mkFlags false false false false false false false false false false.

(** A run of code with loops: [None] if it has not returned with the fuel given. *)
Definition partial (A : Type) : Type := option (outcome A).
Definition pret {A} (a : A) : partial A := Some (Ok a).
Definition pbind {A B} (m : partial A) (k : A -> partial B) : partial B :=
  match m with
  | None => None
  | Some (Throw e) => Some (Throw e)
  | Some (Ok a) => k a
  end.
Definition lift {A} (r : outcome A) : partial A := Some r.

Section Attributes.
Context {CU : CppUtils} {FD : FastDDS} {IL : IPLocator}.
(** [RTPSParticipantAttributes()] and the TLS part of a new descriptor *)
Context (default_attributes : ParticipantAttributes) (default_tcp : TCPDescriptor).

(** [CommonParticipant::get_participant_attributes_] *)
Definition common_attributes (b : BaseConf) : ParticipantAttributes :=
  mkAttributes (id_ (conf_id b)) (useBuiltinTransports default_attributes) (userTransports default_attributes)
    (metatrafficUnicastLocatorList default_attributes) (defaultUnicastLocatorList default_attributes)
    (initialPeersList default_attributes) (m_DiscoveryServers default_attributes)
    (discoveryProtocol default_attributes) (pa_prefix default_attributes).

Definition is_ipv4 (a : Address) : bool := bool_decide (ip_version_ a = v4).

(** The loop that looks for a descriptor with the same WAN address.  The iterator is
    not moved in the body: each turn looks at the first descriptor. *)
Fixpoint find_same_wan (fuel : nat) (ip : string) (transports : list Transport) :
    option (option ((list Z * TCPDescriptor) * list Transport)) :=
  match fuel with
  | 0 => None
  | S fuel' =>
      match transports with
      | [] => Some None
      | t :: rest =>
          match t with
          | TCPv4Transport ports (Some wan) tls =>
              if (ip =? wan)%string then Some (Some ((ports, tls), rest))
              else find_same_wan fuel' ip transports
          | _ => find_same_wan fuel' ip transports
          end
      end
  end.

(** [if (tls_config.is_active()) tls_config.enable_tls(descriptor, client)] *)
Definition secure (tls : TlsConfiguration) (client : bool) : outcome TCPDescriptor :=
  if tls_is_active tls then enable_tls tls client default_tcp else Ok default_tcp.

(** The transport of a TCP listening address. *)
Definition listen_tcp (fuel : nat) (tls : TlsConfiguration) (a : Address) (p : ParticipantAttributes) :
    partial ParticipantAttributes :=
  if is_ipv4 a then
    match find_same_wan fuel (ip_ a) (userTransports p) with
    | None => None
    | Some (Some ((ports, d), rest)) =>
        pret (push_transport (TCPv4Transport (ports ++ [port_ a]) (Some (ip_ a)) d) (set_transports rest p))
    | Some None =>
        pbind (lift (secure tls false)) (fun d =>
          pret (push_transport (TCPv4Transport [port_ a] (Some (ip_ a)) d) p))
    end
  else
    pbind (lift (secure tls false)) (fun d => pret (push_transport (TCPv6Transport [port_ a] d) p)).

Definition listening_locator (a : Address) : Locator :=
  mkLocator (get_locator_kind a) (ip_ a) (if is_ipv4 a then Some (ip_ a) else None)
    (if is_tcp a then external_port_ a else port_ a)
    (if is_tcp a then Some (external_port_ a) else None).

(** The flags a listening address sets. *)
Definition listening_flags (a : Address) (f : Flags) : Flags :=
  let tcp4 := is_tcp a && is_ipv4 a in
  let tcp6 := is_tcp a && negb (is_ipv4 a) in
  mkFlags true (has_connection_addresses f)
    (if tcp4 then true else has_listening_tcp_ipv4 f)
    (if tcp6 then true else has_listening_tcp_ipv6 f)
    (has_connection_tcp_ipv4 f) (has_connection_tcp_ipv6 f)
    (has_connection_udp_ipv4 f) (has_connection_udp_ipv6 f)
    (if is_tcp a then has_udp_ipv4 f else is_ipv4 a)
    (if is_tcp a then has_udp_ipv6 f else negb (is_ipv4 a)).

(** One turn of the loop over the listening addresses, the same in both classes *)
Definition add_listening_address (fuel : nat) (tls : TlsConfiguration) (a : Address)
    (s : ParticipantAttributes * Flags) : partial (ParticipantAttributes * Flags) :=
  let '(p, f) := s in
  if negb (Address_is_valid a) then pret (p, f)
  else
    pbind (if is_tcp a then listen_tcp fuel tls a p else pret p) (fun p1 =>
      pret (set_locators (metatrafficUnicastLocatorList p1 ++ [listening_locator a])
              (defaultUnicastLocatorList p1 ++ [listening_locator a]) p1,
            listening_flags a f)).

Fixpoint for_addresses {A S} (step : A -> S -> partial S) (l : list A) (s : S) : partial S :=
  match l with
  | [] => pret s
  | a :: l' => pbind (step a s) (for_addresses step l')
  end.

(** ** Transports that the connections need *)

Definition add_tcp_client (needed : bool) (make : TCPDescriptor -> Transport) (tls : TlsConfiguration)
    (p : ParticipantAttributes) : outcome ParticipantAttributes :=
  if needed then
    match secure tls true with
    | Ok d => Ok (push_transport (make d) p)
    | Throw e => Throw e
    end
  else Ok p.

(** The descriptors made after the loops, the same in both classes *)
Definition add_transports (tls : TlsConfiguration) (f : Flags) (p : ParticipantAttributes) :
    outcome ParticipantAttributes :=
  match add_tcp_client (has_connection_tcp_ipv4 f && negb (has_listening_tcp_ipv4 f))
          (TCPv4Transport [] None) tls p with
  | Throw e => Throw e
  | Ok p1 =>
      match add_tcp_client (has_connection_tcp_ipv6 f && negb (has_listening_tcp_ipv6 f))
              (TCPv6Transport []) tls p1 with
      | Throw e => Throw e
      | Ok p2 =>
          let p3 := if has_udp_ipv4 f then push_transport UDPv4Transport p2 else p2 in
          Ok (if has_udp_ipv6 f then push_transport UDPv6Transport p3 else p3)
      end
  end.

(** ** DiscoveryServerParticipant *)

Definition server_locator (a : Address) : Locator :=
  mkLocator (get_locator_kind a) (ip_ a) None (port_ a) (Some (port_ a)).

Definition server_flags (a : Address) (f : Flags) : Flags :=
  mkFlags (has_listening_addresses f) true (has_listening_tcp_ipv4 f) (has_listening_tcp_ipv6 f)
    (if is_tcp a then is_ipv4 a else has_connection_tcp_ipv4 f)
    (if is_tcp a then negb (is_ipv4 a) else has_connection_tcp_ipv6 f)
    (has_connection_udp_ipv4 f) (has_connection_udp_ipv6 f)
    (if is_tcp a then has_udp_ipv4 f else is_ipv4 a)
    (if is_tcp a then has_udp_ipv6 f else negb (is_ipv4 a)).

(** One address of a remote server *)
Definition add_server_address (prefix : GuidPrefix) (a : Address) (s : ParticipantAttributes * Flags) :
    ParticipantAttributes * Flags :=
  let '(p, f) := s in
  if negb (Address_is_valid a) then (p, f)
  else (set_peers (initialPeersList p) (m_DiscoveryServers p ++ [mkRemoteServer prefix [server_locator a]]) p,
        server_flags a f).

(** One turn of the loop over the connection addresses *)
Definition add_connection_address (c : DiscoveryServerConnectionAddress) (s : ParticipantAttributes * Flags) :
    ParticipantAttributes * Flags :=
  if negb (ConnectionAddress_is_valid c) then s
  else fold_left (fun s a => add_server_address (discovery_server_guid_prefix_ c) a s)
         (set_elems (addresses_ c)) s.

(** [DiscoveryServerParticipant::get_participant_attributes_] *)
Definition discovery_server_attributes (fuel : nat) (b : BaseConf) (prefix : GuidPrefix)
    (listening : list Address) (connection : list DiscoveryServerConnectionAddress) (tls : TlsConfiguration) :
    partial ParticipantAttributes :=
  let params := set_builtin false (common_attributes b) in
  pbind (for_addresses (add_listening_address fuel tls) listening (params, no_flags)) (fun s =>
    let '(p, f) := fold_left (fun s c => add_connection_address c s) connection s in
    let p1 := set_server (if has_listening_addresses f then SERVER else SUPER_CLIENT) prefix p in
    lift (add_transports tls f p1)).

(** ** InitialPeersParticipant *)

Definition peer_locator (a : Address) : Locator :=
  mkLocator (get_locator_kind a) (ip_ a) None (port_ a) (if is_tcp a then Some (port_ a) else None).

Definition peer_flags (a : Address) (f : Flags) : Flags :=
  mkFlags (has_listening_addresses f) (has_connection_addresses f)
    (has_listening_tcp_ipv4 f) (has_listening_tcp_ipv6 f)
    (if is_tcp a then is_ipv4 a else has_connection_tcp_ipv4 f)
    (if is_tcp a then negb (is_ipv4 a) else has_connection_tcp_ipv6 f)
    (if is_tcp a then has_connection_udp_ipv4 f else is_ipv4 a)
    (if is_tcp a then has_connection_udp_ipv6 f else negb (is_ipv4 a))
    (if is_tcp a then has_udp_ipv4 f else is_ipv4 a)
    (if is_tcp a then has_udp_ipv6 f else negb (is_ipv4 a)).

(** One turn of the loop over the connection addresses *)
Definition add_peer (a : Address) (s : ParticipantAttributes * Flags) : ParticipantAttributes * Flags :=
  let '(p, f) := s in
  if negb (Address_is_valid a) then (p, f)
  else (set_peers (initialPeersList p ++ [peer_locator a]) (m_DiscoveryServers p) p, peer_flags a f).

(** A locator with only its kind set. *)
Definition empty_locator (k : LocatorKind) : Locator := mkLocator k "" None 0 None.

(** The empty locator of a UDP family when there is nothing to listen on *)
Definition add_empty_locators (f : Flags) (p : ParticipantAttributes) : ParticipantAttributes :=
  if negb (has_listening_addresses f) then
    let p1 := if has_connection_udp_ipv4 f
              then set_locators (metatrafficUnicastLocatorList p ++ [empty_locator LOCATOR_KIND_UDPv4])
                     (defaultUnicastLocatorList p) p
              else p in
    if has_connection_udp_ipv6 f
    then set_locators (metatrafficUnicastLocatorList p1 ++ [empty_locator LOCATOR_KIND_UDPv6])
           (defaultUnicastLocatorList p1) p1
    else p1
  else p.

(** [InitialPeersParticipant::get_participant_attributes_] *)
Definition initial_peers_attributes (fuel : nat) (b : BaseConf) (listening connection : list Address)
    (tls : TlsConfiguration) : partial ParticipantAttributes :=
  let params := set_builtin false (common_attributes b) in
  pbind (for_addresses (add_listening_address fuel tls) listening (params, no_flags)) (fun s =>
    let '(p, f) := fold_left (fun s a => add_peer a s) connection s in
    pbind (lift (add_transports tls f p)) (fun p1 => pret (add_empty_locators f p1))).

End Attributes.

(** ** Properties *)
Section Properties.
Context {CU : CppUtils} {FD : FastDDS} {IL : IPLocator}.
Context (default_attributes : ParticipantAttributes) (default_tcp : TCPDescriptor).
(** Fast DDS starts without transports of the user *)
Context (no_transports : userTransports default_attributes = []).

(** A valid address to listen on with TCP over IPv4. *)
Definition tcp4 (a : Address) : bool := Address_is_valid a && is_tcp a && is_ipv4 a.

Definition wan_of (t : Transport) : option string :=
  match t with TCPv4Transport _ w _ => w | _ => None end.

Lemma find_same_wan_some fuel ip ports w tls rest :
  ip = w -> find_same_wan (S fuel) ip (TCPv4Transport ports (Some w) tls :: rest) = Some (Some ((ports, tls), rest)).
Proof. intros ->. simpl. by rewrite String.eqb_refl. Qed.

(** The loop never ends if the first transport is not the one looked for. *)
Lemma find_same_wan_hangs fuel ip t rest :
  wan_of t <> Some ip -> find_same_wan fuel ip (t :: rest) = None.
Proof.
  intros Hne. induction fuel as [|fuel IH]; [done|]. simpl.
  destruct t as [ports [w|] tls| | |]; try exact IH.
  destruct (String.eqb_spec ip w) as [->|]; [done|exact IH].
Qed.

(** What the loop over the listening addresses [processed] leaves in the attributes:
    every public address there is one of theirs, and there is some transport if one of
    them is TCP over IPv4. *)
Definition wans_of (processed : list Address) (p : ParticipantAttributes) : Prop :=
  (forall t w, t ∈ userTransports p -> wan_of t = Some w ->
     exists a, a ∈ processed /\ tcp4 a = true /\ ip_ a = w) /\
  (forall a, a ∈ processed -> tcp4 a = true -> userTransports p <> []).

(** Two addresses of [l] are TCP over IPv4 with different public addresses. *)
Definition two_wans (l : list Address) : Prop :=
  exists a b, a ∈ l /\ b ∈ l /\ tcp4 a = true /\ tcp4 b = true /\ ip_ a <> ip_ b.

Lemma wans_other processed p p' x :
  wans_of processed p -> tcp4 x = false ->
  (userTransports p' = userTransports p \/ exists d, userTransports p' = userTransports p ++ [TCPv6Transport [port_ x] d]) ->
  wans_of (processed ++ [x]) p'.
Proof.
  intros [Hw Hn] Hx Ht. split.
  - intros t w Hin Hwan.
    assert (t ∈ userTransports p) as Hin'.
    { destruct Ht as [E|[d E]]; rewrite E in Hin; [done|].
      apply elem_of_app in Hin as [?| ->%list_elem_of_singleton]; done. }
    destruct (Hw t w Hin' Hwan) as (a & Ha & ?). exists a. split; [by apply elem_of_app; left|done].
  - intros a [Ha| ->%list_elem_of_singleton]%elem_of_app Hv; [|congruence].
    specialize (Hn a Ha Hv). destruct Ht as [E|[d E]]; rewrite E; [done|]. by destruct (userTransports p).
Qed.

Lemma wans_tcp4 processed p x ports d rest :
  wans_of processed p -> tcp4 x = true ->
  (forall t, t ∈ rest -> t ∈ userTransports p) ->
  wans_of (processed ++ [x])
    (push_transport (TCPv4Transport ports (Some (ip_ x)) d) (set_transports rest p)).
Proof.
  intros [Hw Hn] Hx Hrest. split.
  - intros t w Hin Hwan. simpl in Hin. apply elem_of_app in Hin as [Hin| ->%list_elem_of_singleton].
    + destruct (Hw t w (Hrest t Hin) Hwan) as (a & Ha & ?). exists a. split; [by apply elem_of_app; left|done].
    + injection Hwan as <-. exists x. split; [|done]. apply elem_of_app. right. by apply list_elem_of_singleton.
  - intros a _ _. simpl. by destruct rest.
Qed.

(** The turn of an address that is not TCP over IPv4 returns. *)
Lemma add_other fuel tls x p f d processed :
  secure default_tcp tls false = Ok d -> tcp4 x = false -> wans_of processed p ->
  exists p' f', add_listening_address default_tcp fuel tls x (p, f) = pret (p', f') /\
    wans_of (processed ++ [x]) p'.
Proof.
  intros Hs Hx Hw. pose proof Hx as Hx'. unfold tcp4 in Hx'. unfold add_listening_address.
  destruct (Address_is_valid x); cbn [negb andb] in *.
  - destruct (is_tcp x); cbn [andb] in *.
    + unfold listen_tcp. rewrite Hx', Hs. eexists _, _. split; [reflexivity|].
      eapply (wans_other processed p); [done..|]. right. by exists d.
    + eexists _, _. split; [reflexivity|]. eapply (wans_other processed p); [done..|by left].
  - eexists _, _. split; [reflexivity|]. eapply (wans_other processed p); [done..|by left].
Qed.

(** The turn of an address that is TCP over IPv4 returns only if the addresses of that
    kind before it have all its IP. *)
Lemma add_tcp4 fuel tls x p f d processed :
  secure default_tcp tls false = Ok d -> tcp4 x = true -> wans_of processed p ->
  add_listening_address default_tcp fuel tls x (p, f) = None \/
  exists p' f', add_listening_address default_tcp fuel tls x (p, f) = pret (p', f') /\
    wans_of (processed ++ [x]) p' /\
    ((exists y, y ∈ processed /\ tcp4 y = true /\ ip_ y = ip_ x) \/ forall y, y ∈ processed -> tcp4 y = false).
Proof.
  intros Hs Hx Hw. pose proof Hx as Hx'. unfold tcp4 in Hx'.
  apply andb_true_iff in Hx' as [[Hv Ht]%andb_true_iff H4].
  unfold add_listening_address. rewrite Hv, Ht. cbn [negb]. unfold listen_tcp. rewrite H4.
  destruct fuel as [|fuel]; [by left|].
  destruct (userTransports p) as [|t rest] eqn:Hts.
  - right. cbn [find_same_wan]. rewrite Hs. eexists _, _. split; [reflexivity|]. split.
    + pose proof (wans_tcp4 processed p x [port_ x] d [] Hw Hx) as Hw'.
      assert (set_transports [] p = p) as E by (destruct p; simpl in *; by rewrite Hts).
      rewrite E in Hw'. apply Hw'. intros ? []%not_elem_of_nil.
    + right. intros y Hy. apply not_true_is_false. intros Hvy. by apply (proj2 Hw y Hy Hvy).
  - destruct (decide (wan_of t = Some (ip_ x))) as [Hwan|Hwan]; [right|left; by rewrite find_same_wan_hangs].
    destruct t as [ports [w|] dt| | |]; try done. simpl in Hwan. injection Hwan as ->.
    rewrite find_same_wan_some by done. eexists _, _. split; [reflexivity|]. split.
    + apply wans_tcp4; [done..|]. intros t Ht'. rewrite Hts. apply elem_of_cons. by right.
    + left. destruct (proj1 Hw (TCPv4Transport ports (Some (ip_ x)) dt) (ip_ x)) as (y & ? & ? & ?); [|done|by exists y].
      rewrite Hts. apply elem_of_cons. by left.
Qed.

(** The TCP over IPv4 addresses of [l] have one IP. *)
Definition one_wan (l : list Address) : Prop :=
  forall a b, a ∈ l -> b ∈ l -> tcp4 a = true -> tcp4 b = true -> ip_ a = ip_ b.

Lemma one_wan_snoc l x :
  one_wan l ->
  (tcp4 x = true -> (exists y, y ∈ l /\ tcp4 y = true /\ ip_ y = ip_ x) \/ forall y, y ∈ l -> tcp4 y = false) ->
  one_wan (l ++ [x]).
Proof.
  intros Hl Hx.
  assert (forall c, c ∈ l -> tcp4 c = true -> tcp4 x = true -> ip_ c = ip_ x) as Hlast.
  { intros c Hc Hvc Hvx. destruct (Hx Hvx) as [(y & Hy & Hvy & <-)|Hno]; [by apply Hl|].
    by rewrite Hno in Hvc. }
  intros c e [Hc| ->%list_elem_of_singleton]%elem_of_app [He| ->%list_elem_of_singleton]%elem_of_app Hvc Hve;
    try done; [by apply Hl|by apply Hlast|symmetry; by apply Hlast].
Qed.

(** The loop over the listening addresses does not return if two public addresses have
    to be listened on. *)
Lemma listening_hangs fuel tls d l : forall processed p f,
  secure default_tcp tls false = Ok d -> wans_of processed p -> one_wan processed ->
  two_wans (processed ++ l) ->
  for_addresses (add_listening_address default_tcp fuel tls) l (p, f) = None.
Proof.
  induction l as [|x l IH]; intros processed p f Hs Hw Hsame (a & b & Ha & Hb & Hva & Hvb & Hne).
  { rewrite app_nil_r in Ha, Hb. by destruct (Hne (Hsame a b Ha Hb Hva Hvb)). }
  assert (two_wans ((processed ++ [x]) ++ l)) as Htwo.
  { exists a, b. rewrite <- app_assoc. done. }
  cbn [for_addresses]. destruct (tcp4 x) eqn:Hx.
  - destruct (add_tcp4 fuel tls x p f d processed Hs Hx Hw) as [->|(p' & f' & Hrun & Hw' & Hold)]; [done|].
    rewrite Hrun. apply (IH (processed ++ [x])); try done. by apply one_wan_snoc.
  - destruct (add_other fuel tls x p f d processed Hs Hx Hw) as (p' & f' & Hrun & Hw').
    rewrite Hrun. apply (IH (processed ++ [x])); try done. apply one_wan_snoc; [done|by rewrite Hx].
Qed.

Lemma wans_start b : wans_of [] (set_builtin false (common_attributes default_attributes b)).
Proof.
  split.
  - intros t w Hin. simpl in Hin. rewrite no_transports in Hin. by apply not_elem_of_nil in Hin.
  - intros a []%not_elem_of_nil.
Qed.

Lemma secure_server tls {A} (listening : list A) connection :
  tls_matches_addresses tls (is_nil listening) connection = true -> listening <> [] ->
  exists d, secure default_tcp tls false = Ok d.
Proof.
  unfold tls_matches_addresses, secure. intros Hm Hne. destruct (tls_is_active tls); [|by eexists].
  destruct listening as [|x l]; [done|]. cbn [is_nil negb andb] in Hm. unfold enable_tls.
  destruct (tls_compatible tls_server tls); cbn [negb andb] in *; [by eexists|done].
Qed.

Lemma secure_client tls listening {A} (connection : list A) :
  tls_matches_addresses tls listening (is_nil connection) = true -> connection <> [] ->
  exists d, secure default_tcp tls true = Ok d.
Proof.
  unfold tls_matches_addresses, secure. intros Hm Hne. destruct (tls_is_active tls); [|by eexists].
  destruct connection as [|x l]; [done|]. cbn [is_nil negb andb] in Hm. unfold enable_tls.
  destruct (tls_compatible tls_client tls); cbn [negb] in *; [by eexists|].
  by destruct (negb listening && negb (tls_compatible tls_server tls)).
Qed.

Lemma discovery_server_valid b domain prefix listening connection tls :
  discovery_server_is_valid b domain prefix listening connection tls = true ->
  Forall (fun a => Address_is_valid a = true) listening /\
  Forall (fun c => ConnectionAddress_is_valid c = true) connection /\
  tls_matches_addresses tls (is_nil listening) (is_nil connection) = true.
Proof.
  unfold discovery_server_is_valid. intros H.
  destruct (negb (simple_is_valid b domain)); [done|]. destruct (negb (GuidPrefix_is_valid prefix)); [done|].
  destruct (existsb _ listening) eqn:E1; [done|]. destruct (existsb _ connection) eqn:E2; [done|].
  destruct (is_nil listening && is_nil connection); [done|].
  split; [|split; [|done]]; apply List.Forall_forall; intros x Hx; apply not_false_is_true; intros Hv.
  - apply not_true_iff_false in E1. apply E1, existsb_exists. exists x. by rewrite Hv.
  - apply not_true_iff_false in E2. apply E2, existsb_exists. exists x. by rewrite Hv.
Qed.

Lemma initial_peers_valid b domain listening connection tls :
  initial_peers_is_valid b domain listening connection tls = true ->
  Forall (fun a => Address_is_valid a = true) listening /\
  Forall (fun a => Address_is_valid a = true) connection /\
  tls_matches_addresses tls (is_nil listening) (is_nil connection) = true.
Proof.
  unfold initial_peers_is_valid. intros H.
  destruct (negb (simple_is_valid b domain)); [done|].
  destruct (existsb _ listening) eqn:E1; [done|]. destruct (existsb _ connection) eqn:E2; [done|].
  destruct (is_nil listening && is_nil connection); [done|].
  split; [|split; [|done]]; apply List.Forall_forall; intros x Hx; apply not_false_is_true; intros Hv.
  - apply not_true_iff_false in E1. apply E1, existsb_exists. exists x. by rewrite Hv.
  - apply not_true_iff_false in E2. apply E2, existsb_exists. exists x. by rewrite Hv.
Qed.

(** C40: a participant with two public addresses hangs the router. When a valid
    configuration of a discovery server or of an initial peers participant has two
    addresses to listen on with TCP over IPv4 and different IPs, the construction of the
    attributes never returns: the search among the transports does not move forward. *)
Theorem two_wan_addresses_hang b domain listening tls :
  two_wans listening ->
  (forall prefix connection fuel,
    discovery_server_is_valid b domain prefix listening connection tls = true ->
    discovery_server_attributes default_attributes default_tcp fuel b prefix listening connection tls = None) /\
  (forall connection fuel,
    initial_peers_is_valid b domain listening connection tls = true ->
    initial_peers_attributes default_attributes default_tcp fuel b listening connection tls = None).
Proof.
  intros Htwo.
  assert (forall fuel connection, tls_matches_addresses tls (is_nil listening) connection = true ->
    for_addresses (add_listening_address default_tcp fuel tls) listening
      (set_builtin false (common_attributes default_attributes b), no_flags) = None) as Hloop.
  { intros fuel connection Hm. destruct (secure_server tls listening connection Hm) as [d Hd].
    { destruct Htwo as (x & _ & Hx & _). intros ->. by apply not_elem_of_nil in Hx. }
    apply (listening_hangs fuel tls d listening []); try done; [apply wans_start|].
    intros ? ? []%not_elem_of_nil. }
  split; intros *; [intros (_ & _ & Hm)%discovery_server_valid|intros (_ & _ & Hm)%initial_peers_valid].
  - unfold discovery_server_attributes. by rewrite (Hloop _ _ Hm).
  - unfold initial_peers_attributes. by rewrite (Hloop _ _ Hm).
Qed.

(** ** One public address *)

(** The listening addresses whose construction returns: the TCP ones are IPv4, with one IP. *)
Definition one_tcp_wan (l : list Address) : Prop :=
  Forall (fun a => Address_is_valid a = true) l /\
  (forall a, a ∈ l -> is_tcp a = true -> is_ipv4 a = true) /\
  (forall a b, a ∈ l -> b ∈ l -> is_tcp a = true -> is_tcp b = true -> ip_ a = ip_ b).

Definition tcp_of (l : list Address) : list Address := List.filter is_tcp l.
Definition udp_of (l : list Address) : list Address := List.filter (fun a => negb (is_tcp a)) l.

(** The transport to listen on: one descriptor with all the ports. *)
Definition listening_transports (d : TCPDescriptor) (l : list Address) : list Transport :=
  match tcp_of l with
  | [] => []
  | a :: _ => [TCPv4Transport (map port_ (tcp_of l)) (Some (ip_ a)) d]
  end.

(** The attributes after the loop over the listening addresses. *)
Definition listened (d : TCPDescriptor) (l : list Address) (p : ParticipantAttributes) : ParticipantAttributes :=
  set_locators (metatrafficUnicastLocatorList p ++ map listening_locator l)
    (defaultUnicastLocatorList p ++ map listening_locator l) (set_transports (listening_transports d l) p).

Definition listened_flags (l : list Address) : Flags := fold_left (fun f a => listening_flags a f) l no_flags.

(** Whether the last address of a list is IPv4. *)
Definition last_is (v : IpVersion) (l : list Address) : bool :=
  match last l with Some a => bool_decide (ip_version_ a = v) | None => false end.

Lemma filter_snoc {A} (f : A -> bool) l x :
  List.filter f (l ++ [x]) = List.filter f l ++ if f x then [x] else [].
Proof. rewrite List.filter_app. simpl. by destruct (f x). Qed.

Lemma listening_transports_snoc d l x :
  listening_transports d (l ++ [x]) =
    if is_tcp x then
      match tcp_of l with
      | [] => [TCPv4Transport [port_ x] (Some (ip_ x)) d]
      | a :: _ => [TCPv4Transport (map port_ (tcp_of l) ++ [port_ x]) (Some (ip_ a)) d]
      end
    else listening_transports d l.
Proof.
  unfold listening_transports, tcp_of. rewrite filter_snoc. destruct (is_tcp x); [|by rewrite app_nil_r].
  destruct (List.filter is_tcp l); [done|]. simpl. by rewrite map_app.
Qed.

Lemma listened_snoc d l x p p1 :
  p1 = set_transports (listening_transports d (l ++ [x])) (listened d l p) ->
  set_locators (metatrafficUnicastLocatorList p1 ++ [listening_locator x])
    (defaultUnicastLocatorList p1 ++ [listening_locator x]) p1 = listened d (l ++ [x]) p.
Proof. intros ->. unfold listened, set_locators, set_transports. simpl. by rewrite !map_app, !app_assoc. Qed.

Lemma one_tcp_wan_first l x a tcps :
  one_tcp_wan (l ++ [x]) -> is_tcp x = true -> tcp_of l = a :: tcps -> ip_ x = ip_ a.
Proof.
  intros (_ & _ & Hone) Ht Htcp.
  assert (a ∈ tcp_of l) as Ha by (rewrite Htcp; apply elem_of_cons; by left).
  apply list_elem_of_In, filter_In in Ha as [Ha Hta]. apply list_elem_of_In in Ha.
  apply Hone; try done; apply elem_of_app; [right; by apply list_elem_of_singleton|by left].
Qed.

Lemma listen_tcp_step fuel tls d l x p :
  secure default_tcp tls false = Ok d -> one_tcp_wan (l ++ [x]) -> is_tcp x = true ->
  listen_tcp default_tcp (S fuel) tls x (listened d l p) =
    pret (set_transports (listening_transports d (l ++ [x])) (listened d l p)).
Proof.
  intros Hs Hone Ht. rewrite listening_transports_snoc, Ht. unfold listen_tcp.
  rewrite (proj1 (proj2 Hone) x); [|apply elem_of_app; right; by apply list_elem_of_singleton|done].
  change (userTransports (listened d l p)) with (listening_transports d l). unfold listening_transports at 1.
  destruct (tcp_of l) as [|a tcps] eqn:Htcp.
  - cbn [find_same_wan]. rewrite Hs. cbn [lift pbind]. f_equal. f_equal.
    unfold push_transport, listened, listening_transports. rewrite Htcp. done.
  - pose proof (one_tcp_wan_first l x a tcps Hone Ht Htcp) as Hip.
    rewrite find_same_wan_some by done. by rewrite Hip.
Qed.

Lemma listened_step fuel tls d l x p :
  secure default_tcp tls false = Ok d -> one_tcp_wan (l ++ [x]) ->
  add_listening_address default_tcp (S fuel) tls x (listened d l p, listened_flags l) =
    pret (listened d (l ++ [x]) p, listened_flags (l ++ [x])).
Proof.
  intros Hs Hone. pose proof (proj1 Hone) as Hv. apply Forall_app in Hv as [_ [Hv _]%Forall_cons].
  unfold add_listening_address. rewrite Hv. cbn [negb].
  unfold listened_flags. rewrite fold_left_app. cbn [fold_left].
  destruct (is_tcp x) eqn:Ht.
  - rewrite (listen_tcp_step fuel tls d) by done. cbn [pbind pret]. by rewrite (listened_snoc d l x p).
  - cbn [pbind pret]. rewrite (listened_snoc d l x p); [done|].
    rewrite listening_transports_snoc, Ht. done.
Qed.

Lemma one_tcp_wan_prefix l l' : one_tcp_wan (l ++ l') -> one_tcp_wan l.
Proof.
  intros (Hv & H4 & Hone). split; [by apply Forall_app in Hv as [? _]|].
  split; intros; [apply H4|apply Hone]; try done; by apply elem_of_app; left.
Qed.

Lemma listened_loop fuel tls d p l : forall l0,
  secure default_tcp tls false = Ok d -> one_tcp_wan (l0 ++ l) ->
  for_addresses (add_listening_address default_tcp (S fuel) tls) l (listened d l0 p, listened_flags l0) =
    pret (listened d (l0 ++ l) p, listened_flags (l0 ++ l)).
Proof.
  induction l as [|x l IH]; intros l0 Hs Hone; cbn [for_addresses]; [by rewrite app_nil_r|].
  replace (l0 ++ x :: l) with ((l0 ++ [x]) ++ l) in * by (by rewrite <- app_assoc).
  rewrite listened_step by (try done; by eapply one_tcp_wan_prefix). cbn [pbind pret]. by apply IH.
Qed.

Lemma listening_loop fuel tls connection p l :
  tls_matches_addresses tls (is_nil l) connection = true -> one_tcp_wan l -> userTransports p = [] ->
  exists d, (l <> [] -> secure default_tcp tls false = Ok d) /\
    for_addresses (add_listening_address default_tcp (S fuel) tls) l (p, no_flags) =
      pret (listened d l p, listened_flags l).
Proof.
  intros Hm Hone Hp.
  assert (forall d, listened d [] p = p) as Hnil.
  { intros d. unfold listened. destruct p. simpl in *. rewrite !app_nil_r, Hp. done. }
  destruct (decide (l = [])) as [->|Hne].
  - exists default_tcp. cbn [for_addresses]. by rewrite Hnil.
  - destruct (secure_server tls l connection Hm Hne) as [d Hd]. exists d. split; [done|].
    pose proof (listened_loop fuel tls d p l [] Hd Hone) as H. by rewrite Hnil in H.
Qed.

(** *** Flags *)

Lemma fold_left_proj {A S B} (step : A -> S -> S) (proj : S -> B) (h : A -> B -> B) l : forall s,
  (forall a s, proj (step a s) = h a (proj s)) ->
  proj (fold_left (fun s a => step a s) l s) = fold_left (fun b a => h a b) l (proj s).
Proof. induction l as [|a l IH]; intros s H; simpl; [done|]. rewrite IH by done. by rewrite H. Qed.

(** A flag that is assigned at each address of a kind keeps the value of the last. *)
Lemma fold_assign {A} (sel : A -> bool) (g : A -> bool) l b :
  fold_left (fun b a => if sel a then g a else b) l b =
    match last (List.filter sel l) with Some a => g a | None => b end.
Proof.
  induction l as [|x l IH] using rev_ind; [done|].
  rewrite fold_left_app, filter_snoc. cbn [fold_left].
  destruct (sel x); [by rewrite last_snoc|by rewrite app_nil_r].
Qed.

Lemma fold_assign_not {A} (sel : A -> bool) (g : A -> bool) l b :
  fold_left (fun b a => if sel a then b else g a) l b =
    match last (List.filter (fun a => negb (sel a)) l) with Some a => g a | None => b end.
Proof.
  rewrite <- (fold_assign (fun a => negb (sel a))). revert b. induction l as [|x l IH]; intros b; simpl; [done|].
  rewrite IH. by destruct (sel x).
Qed.

(** A flag that is only set tells whether an address of the kind was seen. *)
Lemma fold_set {A} (sel : A -> bool) l b :
  fold_left (fun b a => if sel a then true else b) l b = b || negb (is_nil (List.filter sel l)).
Proof.
  rewrite (fold_assign sel (fun _ => true)).
  destruct (List.filter sel l) as [|y r]; simpl; [by rewrite orb_false_r|]. rewrite orb_true_r.
  by destruct (last (y :: r)) eqn:E; [|apply last_None in E].
Qed.

Lemma not_v4 a : negb (is_ipv4 a) = bool_decide (ip_version_ a = v6).
Proof. unfold is_ipv4. by destruct (ip_version_ a). Qed.

Lemma listened_flags_spec l :
  one_tcp_wan l ->
  listened_flags l = mkFlags (negb (is_nil l)) false (negb (is_nil (tcp_of l))) false false false false false
    (last_is v4 (udp_of l)) (last_is v6 (udp_of l)).
Proof.
  intros (_ & H4 & _). unfold listened_flags.
  assert (tcp_of l = List.filter (fun a => is_tcp a && is_ipv4 a) l) as E4.
  { apply filter_ext_in. intros a Ha. apply list_elem_of_In in Ha. specialize (H4 a Ha).
    destruct (is_tcp a); [by rewrite H4|done]. }
  assert ([] = List.filter (fun a => is_tcp a && negb (is_ipv4 a)) l) as E6.
  { clear E4. induction l as [|a l IH]; simpl; [done|].
    rewrite <- IH by (intros b Hb; apply H4, elem_of_cons; by right).
    specialize (H4 a). destruct (is_tcp a); [|done]. rewrite H4; [done|apply elem_of_cons; by left|done]. }
  assert (forall f : Flags, f = mkFlags (has_listening_addresses f) (has_connection_addresses f)
    (has_listening_tcp_ipv4 f) (has_listening_tcp_ipv6 f) (has_connection_tcp_ipv4 f) (has_connection_tcp_ipv6 f)
    (has_connection_udp_ipv4 f) (has_connection_udp_ipv6 f) (has_udp_ipv4 f) (has_udp_ipv6 f)) as Heta by by intros [].
  etransitivity; [apply Heta|]. f_equal.
  - rewrite (fold_left_proj _ _ (fun _ _ => true)) by done. destruct l as [|a l]; [done|]. simpl. clear.
    by induction l.
  - rewrite (fold_left_proj _ _ (fun _ b => b)) by done. clear. by induction l.
  - rewrite (fold_left_proj _ _ (fun a b => if is_tcp a && is_ipv4 a then true else b)) by done.
    by rewrite fold_set, <- E4.
  - rewrite (fold_left_proj _ _ (fun a b => if is_tcp a && negb (is_ipv4 a) then true else b)) by done.
    by rewrite fold_set, <- E6.
  - rewrite (fold_left_proj _ _ (fun _ b => b)) by done. clear. by induction l.
  - rewrite (fold_left_proj _ _ (fun _ b => b)) by done. clear. by induction l.
  - rewrite (fold_left_proj _ _ (fun _ b => b)) by done. clear. by induction l.
  - rewrite (fold_left_proj _ _ (fun _ b => b)) by done. clear. by induction l.
  - rewrite (fold_left_proj _ _ (fun a b => if is_tcp a then b else is_ipv4 a)) by done. apply fold_assign_not.
  - rewrite (fold_left_proj _ _ (fun a b => if is_tcp a then b else negb (is_ipv4 a))) by done.
    rewrite fold_assign_not. unfold last_is, udp_of. destruct (last _); [apply not_v4|done].
Qed.

Lemma last_is_app v l1 l2 :
  last_is v (l1 ++ l2) = match last l2 with Some a => bool_decide (ip_version_ a = v) | None => last_is v l1 end.
Proof. unfold last_is. rewrite last_app. by destruct (last l2). Qed.

(** The flags about the connection addresses, after listening on [l]. *)
Definition connected (step : Address -> Flags -> Flags) (l : list Address) (c : list Address) : Flags :=
  fold_left (fun f a => step a f) c (listened_flags l).

(** A class of participant that sets the flags of a connection address as both do. *)
Definition assigns (step : Address -> Flags -> Flags) : Prop :=
  forall a f,
    has_listening_addresses (step a f) = has_listening_addresses f /\
    has_listening_tcp_ipv4 (step a f) = has_listening_tcp_ipv4 f /\
    has_listening_tcp_ipv6 (step a f) = has_listening_tcp_ipv6 f /\
    has_connection_tcp_ipv4 (step a f) = (if is_tcp a then is_ipv4 a else has_connection_tcp_ipv4 f) /\
    has_connection_tcp_ipv6 (step a f) = (if is_tcp a then negb (is_ipv4 a) else has_connection_tcp_ipv6 f) /\
    has_udp_ipv4 (step a f) = (if is_tcp a then has_udp_ipv4 f else is_ipv4 a) /\
    has_udp_ipv6 (step a f) = (if is_tcp a then has_udp_ipv6 f else negb (is_ipv4 a)).

Lemma connected_spec step l c :
  assigns step -> one_tcp_wan l ->
  let f := connected step l c in
  has_listening_addresses f = negb (is_nil l) /\
  has_listening_tcp_ipv4 f = negb (is_nil (tcp_of l)) /\
  has_listening_tcp_ipv6 f = false /\
  has_connection_tcp_ipv4 f = last_is v4 (tcp_of c) /\
  has_connection_tcp_ipv6 f = last_is v6 (tcp_of c) /\
  has_udp_ipv4 f = last_is v4 (udp_of (l ++ c)) /\
  has_udp_ipv6 f = last_is v6 (udp_of (l ++ c)).
Proof.
  intros Hstep Hone. cbv zeta. unfold connected. rewrite (listened_flags_spec l Hone).
  unfold udp_of. rewrite List.filter_app, !last_is_app. repeat split.
  - rewrite (fold_left_proj _ _ (fun _ b => b)) by apply Hstep. clear. by induction c.
  - rewrite (fold_left_proj _ _ (fun _ b => b)) by apply Hstep. clear. by induction c.
  - rewrite (fold_left_proj _ _ (fun _ b => b)) by apply Hstep. clear. by induction c.
  - rewrite (fold_left_proj _ _ (fun a b => if is_tcp a then is_ipv4 a else b)) by apply Hstep. apply fold_assign.
  - rewrite (fold_left_proj _ _ (fun a b => if is_tcp a then negb (is_ipv4 a) else b)) by apply Hstep.
    rewrite fold_assign. unfold last_is, tcp_of. destruct (last _); [apply not_v4|done].
  - rewrite (fold_left_proj _ _ (fun a b => if is_tcp a then b else is_ipv4 a)) by apply Hstep.
    by rewrite fold_assign_not.
  - rewrite (fold_left_proj _ _ (fun a b => if is_tcp a then b else negb (is_ipv4 a))) by apply Hstep.
    rewrite fold_assign_not. destruct (last _); [apply not_v4|done].
Qed.

(** *** Transports *)

(** The transports of a participant that listens on [l] and connects to [c], with the
    TLS descriptors [d] of the server and [e] of the client *)
Definition transports_for (d e : TCPDescriptor) (l c : list Address) : list Transport :=
  listening_transports d l ++
  (if last_is v4 (tcp_of c) && is_nil (tcp_of l) then [TCPv4Transport [] None e] else []) ++
  (if last_is v6 (tcp_of c) then [TCPv6Transport [] e] else []) ++
  (if last_is v4 (udp_of (l ++ c)) then [UDPv4Transport] else []) ++
  (if last_is v6 (udp_of (l ++ c)) then [UDPv6Transport] else []).

Lemma add_transports_spec tls d e step l c p :
  assigns step -> one_tcp_wan l -> userTransports p = listening_transports d l ->
  (c <> [] -> secure default_tcp tls true = Ok e) ->
  add_transports default_tcp tls (connected step l c) p = Ok (set_transports (transports_for d e l c) p).
Proof.
  intros Hstep Hone Hp He. destruct (connected_spec step l c Hstep Hone) as (_ & H1 & H2 & H3 & H4 & H5 & H6).
  unfold add_transports, add_tcp_client. rewrite H1, H2, H3, H4, H5, H6, negb_involutive, andb_true_r.
  unfold transports_for, push_transport.
  assert (forall v, last_is v (tcp_of c) = true -> secure default_tcp tls true = Ok e) as Hc.
  { intros v Hv. apply He. intros ->. done. }
  pose proof (Hc v4) as Hc4. pose proof (Hc v6) as Hc6.
  destruct (last_is v4 (tcp_of c)), (is_nil (tcp_of l)); cbn [andb];
    try rewrite Hc4 by done; destruct (last_is v6 (tcp_of c)); try rewrite Hc6 by done;
    destruct (last_is v4 (udp_of (l ++ c))), (last_is v6 (udp_of (l ++ c)));
    destruct p; simpl in *; rewrite Hp, <- ?app_assoc, ?app_nil_r; done.
Qed.

(** *** Connection addresses *)

(** The servers that a connection address names. *)
Definition valid_addresses (c : DiscoveryServerConnectionAddress) : list Address :=
  List.filter Address_is_valid (set_elems (addresses_ c)).
Definition remote_servers (c : DiscoveryServerConnectionAddress) : list RemoteServer :=
  map (fun a => mkRemoteServer (discovery_server_guid_prefix_ c) [server_locator a]) (valid_addresses c).

Definition with_servers (l : list RemoteServer) (p : ParticipantAttributes) : ParticipantAttributes :=
  set_peers (initialPeersList p) (m_DiscoveryServers p ++ l) p.

Lemma with_servers_app l1 l2 p : with_servers l2 (with_servers l1 p) = with_servers (l1 ++ l2) p.
Proof. unfold with_servers, set_peers. simpl. by rewrite <- app_assoc. Qed.

Lemma with_servers_nil p : with_servers [] p = p.
Proof. unfold with_servers, set_peers. destruct p. simpl. by rewrite app_nil_r. Qed.

Lemma server_addresses prefix l : forall p f,
  fold_left (fun s a => add_server_address prefix a s) l (p, f) =
    (with_servers (map (fun a => mkRemoteServer prefix [server_locator a]) (List.filter Address_is_valid l)) p,
     fold_left (fun f a => server_flags a f) (List.filter Address_is_valid l) f).
Proof.
  induction l as [|a l IH]; intros p f; cbn [fold_left List.filter map]; [by rewrite with_servers_nil|].
  unfold add_server_address at 2. destruct (Address_is_valid a); cbn [negb]; rewrite IH; [|done].
  cbn [map fold_left]. change (set_peers _ _ p) with (with_servers [mkRemoteServer prefix [server_locator a]] p).
  by rewrite with_servers_app.
Qed.

Lemma connection_addresses c : forall p f,
  Forall (fun c => ConnectionAddress_is_valid c = true) c ->
  fold_left (fun s c => add_connection_address c s) c (p, f) =
    (with_servers (concat (map remote_servers c)) p,
     fold_left (fun f a => server_flags a f) (concat (map valid_addresses c)) f).
Proof.
  induction c as [|x c IH]; intros p f Hv; cbn [fold_left map concat]; [by rewrite with_servers_nil|].
  apply Forall_cons in Hv as [Hx Hv]. unfold add_connection_address at 2. rewrite Hx. cbn [negb].
  by rewrite server_addresses, IH, with_servers_app, fold_left_app.
Qed.

Lemma peer_addresses l : forall p f,
  Forall (fun a => Address_is_valid a = true) l ->
  fold_left (fun s a => add_peer a s) l (p, f) =
    (set_peers (initialPeersList p ++ map peer_locator l) (m_DiscoveryServers p) p,
     fold_left (fun f a => peer_flags a f) l f).
Proof.
  induction l as [|a l IH]; intros p f Hv; cbn [fold_left map].
  { destruct p. unfold set_peers. simpl. by rewrite app_nil_r. }
  apply Forall_cons in Hv as [Ha Hv]. unfold add_peer at 2. rewrite Ha. cbn [negb]. rewrite IH by done.
  unfold set_peers. simpl. by rewrite <- app_assoc.
Qed.

Lemma discovery_server_attributes_run fuel b domain prefix listening connection tls :
  discovery_server_is_valid b domain prefix listening connection tls = true ->
  one_tcp_wan listening ->
  exists d e,
    (listening <> [] -> secure default_tcp tls false = Ok d) /\
    (connection <> [] -> secure default_tcp tls true = Ok e) /\
    discovery_server_attributes default_attributes default_tcp (S fuel) b prefix listening connection tls =
      pret (mkAttributes (id_ (conf_id b)) false
        (transports_for d e listening (concat (map valid_addresses connection)))
        (metatrafficUnicastLocatorList default_attributes ++ map listening_locator listening)
        (defaultUnicastLocatorList default_attributes ++ map listening_locator listening)
        (initialPeersList default_attributes)
        (m_DiscoveryServers default_attributes ++ concat (map remote_servers connection))
        (if is_nil listening then SUPER_CLIENT else SERVER) prefix).
Proof.
  intros (_ & Hconn & Hm)%discovery_server_valid Hone.
  destruct (listening_loop fuel tls _ (set_builtin false (common_attributes default_attributes b)) listening Hm Hone)
    as (d & Hd & Hloop); [done|].
  assert (exists e, connection <> [] -> secure default_tcp tls true = Ok e) as [e He].
  { destruct connection as [|x c]; [by exists default_tcp|].
    destruct (secure_client tls _ (x :: c) Hm) as [e He]; [done|]. by exists e. }
  exists d, e. split; [done|]. split; [done|].
  unfold discovery_server_attributes. rewrite Hloop. cbn [pbind pret].
  rewrite connection_addresses by done.
  change (fold_left (fun f a => server_flags a f) ?c (listened_flags listening)) with (connected server_flags listening c).
  assert (assigns server_flags) as Hsteps by done.
  rewrite (add_transports_spec tls d e) ; [|done|done|done|].
  - rewrite (proj1 (connected_spec server_flags listening _ Hsteps Hone)). by destruct listening.
  - intros Hne. apply He. intros ->. done.
Qed.

(** C35: the attributes of a discovery server. When the configuration is valid and the TCP
    addresses to listen on are IPv4 with one IP, the construction returns. The
    participant listens on one locator per listening address, in order, for discovery
    and for data; it knows one server per valid address of each connection, with the
    prefix of that connection; it is a server exactly if it listens on something, and
    has the configured prefix. There is one TCPv4 transport with every listening port,
    TCP client transports and a UDP transport of the family of the last address only. *)
Theorem discovery_server_attributes_spec fuel b domain prefix listening connection tls :
  discovery_server_is_valid b domain prefix listening connection tls = true ->
  one_tcp_wan listening ->
  exists d e,
    (listening <> [] -> secure default_tcp tls false = Ok d) /\
    (connection <> [] -> secure default_tcp tls true = Ok e) /\
    discovery_server_attributes default_attributes default_tcp (S fuel) b prefix listening connection tls =
      pret (mkAttributes (id_ (conf_id b)) false
        (transports_for d e listening (concat (map valid_addresses connection)))
        (metatrafficUnicastLocatorList default_attributes ++ map listening_locator listening)
        (defaultUnicastLocatorList default_attributes ++ map listening_locator listening)
        (initialPeersList default_attributes)
        (m_DiscoveryServers default_attributes ++ concat (map remote_servers connection))
        (if is_nil listening then SUPER_CLIENT else SERVER) prefix).
Proof. apply discovery_server_attributes_run. Qed.

(** The locators that Fast DDS needs when there is nothing to listen on. *)
Definition udp_locators (listening connection : list Address) : list Locator :=
  if is_nil listening then
    (if last_is v4 (udp_of connection) then [empty_locator LOCATOR_KIND_UDPv4] else []) ++
    (if last_is v6 (udp_of connection) then [empty_locator LOCATOR_KIND_UDPv6] else [])
  else [].

Lemma connected_udp l c :
  one_tcp_wan l ->
  has_connection_udp_ipv4 (connected peer_flags l c) = last_is v4 (udp_of c) /\
  has_connection_udp_ipv6 (connected peer_flags l c) = last_is v6 (udp_of c).
Proof.
  intros Hone. unfold connected. rewrite (listened_flags_spec l Hone). split.
  - rewrite (fold_left_proj _ _ (fun a b => if is_tcp a then b else is_ipv4 a)) by done. by rewrite fold_assign_not.
  - rewrite (fold_left_proj _ _ (fun a b => if is_tcp a then b else negb (is_ipv4 a))) by done.
    rewrite fold_assign_not. unfold last_is, udp_of. destruct (last _); [apply not_v4|done].
Qed.

(** The attributes of an initial peers participant. Under the same conditions the
    construction returns; the participant listens on one locator per listening address,
    its initial peers are the connection addresses, in order, and an empty UDP locator
    is added when it listens on nothing. *)
Theorem initial_peers_attributes_spec fuel b domain listening connection tls :
  initial_peers_is_valid b domain listening connection tls = true ->
  one_tcp_wan listening ->
  exists d e,
    (listening <> [] -> secure default_tcp tls false = Ok d) /\
    (connection <> [] -> secure default_tcp tls true = Ok e) /\
    initial_peers_attributes default_attributes default_tcp (S fuel) b listening connection tls =
      pret (mkAttributes (id_ (conf_id b)) false (transports_for d e listening connection)
        (metatrafficUnicastLocatorList default_attributes ++ map listening_locator listening ++
           udp_locators listening connection)
        (defaultUnicastLocatorList default_attributes ++ map listening_locator listening)
        (initialPeersList default_attributes ++ map peer_locator connection)
        (m_DiscoveryServers default_attributes) (discoveryProtocol default_attributes)
        (pa_prefix default_attributes)).
Proof.
  intros (_ & Hconn & Hm)%initial_peers_valid Hone.
  destruct (listening_loop fuel tls _ (set_builtin false (common_attributes default_attributes b)) listening Hm Hone)
    as (d & Hd & Hloop); [done|].
  assert (exists e, connection <> [] -> secure default_tcp tls true = Ok e) as [e He].
  { destruct connection as [|x c]; [by exists default_tcp|].
    destruct (secure_client tls _ (x :: c) Hm) as [e He]; [done|]. by exists e. }
  exists d, e. split; [done|]. split; [done|].
  unfold initial_peers_attributes. rewrite Hloop. cbn [pbind pret].
  rewrite peer_addresses by done.
  change (fold_left (fun f a => peer_flags a f) ?c (listened_flags listening)) with (connected peer_flags listening c).
  assert (assigns peer_flags) as Hsteps by done.
  rewrite (add_transports_spec tls d e) by done. cbn [lift pbind]. unfold add_empty_locators, udp_locators.
  rewrite (proj1 (connected_spec peer_flags listening _ Hsteps Hone)), negb_involutive.
  destruct (connected_udp listening connection Hone) as [-> ->].
  destruct (is_nil listening); [|by rewrite app_nil_r].
  destruct (last_is v4 (udp_of connection)), (last_is v6 (udp_of connection));
    simpl; unfold set_locators; simpl; rewrite ?app_nil_r, <- ?app_assoc; done.
Qed.

End Properties.

(** ** Witnesses *)

#[local] Existing Instances Demo.cpp_utils Demo.fast_dds.
#[local] Instance demo_ip_locator : IPLocator := {|
  isIPv4 _ := true;
  isIPv6 _ := false;
  resolveNameDNS _ := ([], [])
|}.

Definition fresh_attributes : ParticipantAttributes :=
  mkAttributes "" true [] [] [] [] [] SIMPLE_PROTOCOL guid_prefix_unknown.
Definition fresh_tcp : TCPDescriptor := mkTcpDescriptor false [] [] "" "" "" "" "" "".
Definition demo_base : BaseConf := mkBaseConf (mkParticipantId "peers") kind_wan_initial_peers false.
Definition listen_at (ip : string) (p : Z) : Address := Address_of_ip ip p p v4 tcp.
Definition demo_peer : Address := Address_of_ip "192.168.1.1" 11600 11600 v4 udp.

Lemma two_wan_addresses_hang_witness :
  initial_peers_attributes fresh_attributes fresh_tcp 1000 demo_base
    [listen_at "1.1.1.1" 5100; listen_at "2.2.2.2" 5100] [] Tls_default = None.
Proof.
  apply (two_wan_addresses_hang fresh_attributes fresh_tcp eq_refl demo_base (mkDomainId 0)
    [listen_at "1.1.1.1" 5100; listen_at "2.2.2.2" 5100] Tls_default).
  - exists (listen_at "1.1.1.1" 5100), (listen_at "2.2.2.2" 5100).
    split; [apply list_elem_of_here|]. split; [apply list_elem_of_further, list_elem_of_here|].
    split; [reflexivity|]. split; [reflexivity|]. discriminate.
  - vm_compute. reflexivity.
Defined.

Definition demo_listening : list Address := [listen_at "1.1.1.1" 5100; listen_at "1.1.1.1" 5200].

Lemma demo_one_wan : one_tcp_wan demo_listening.
Proof.
  split; [by repeat constructor|].
  assert (forall a, a ∈ demo_listening -> is_ipv4 a = true /\ ip_ a = "1.1.1.1") as H.
  { intros a. unfold demo_listening. rewrite !elem_of_cons. intros [->|[->|[]%not_elem_of_nil]]; done. }
  split; [by intros a [Ha _]%H|]. intros a b [_ ->]%H [_ ->]%H. done.
Qed.

Lemma initial_peers_attributes_spec_witness :
  initial_peers_attributes fresh_attributes fresh_tcp 1 demo_base demo_listening [demo_peer] Tls_default =
    pret (mkAttributes "peers" false [TCPv4Transport [5100%Z; 5200%Z] (Some "1.1.1.1") fresh_tcp; UDPv4Transport]
      (map listening_locator demo_listening) (map listening_locator demo_listening) [peer_locator demo_peer] []
      SIMPLE_PROTOCOL guid_prefix_unknown).
Proof.
  destruct (initial_peers_attributes_spec fresh_attributes fresh_tcp eq_refl 0 demo_base (mkDomainId 0)
    demo_listening [demo_peer] Tls_default) as (d & e & Hd & _ & ->);
    [vm_compute; reflexivity|apply demo_one_wan|].
  assert (d = fresh_tcp) as ->.
  { assert (demo_listening <> []) as Hne by discriminate. specialize (Hd Hne). by injection Hd. }
  reflexivity.
Defined.

Definition demo_server_prefix : GuidPrefix := [1; 15; 0; 0; 0; 0; 0; 0; 0; 0; 0; 1]%Z.
Definition demo_connection : DiscoveryServerConnectionAddress :=
  mkConnectionAddress demo_server_prefix (set_insert demo_peer []).

Lemma discovery_server_attributes_spec_witness :
  discovery_server_attributes fresh_attributes fresh_tcp 1 demo_base demo_server_prefix [] [demo_connection] Tls_default =
    pret (mkAttributes "peers" false [UDPv4Transport] [] [] []
      [mkRemoteServer demo_server_prefix [server_locator demo_peer]] SUPER_CLIENT demo_server_prefix).
Proof.
  destruct (discovery_server_attributes_spec fresh_attributes fresh_tcp eq_refl 0 demo_base (mkDomainId 0)
    demo_server_prefix [] [demo_connection] Tls_default) as (d & e & _ & _ & ->); [vm_compute; reflexivity| |].
  - split; [constructor|]. split; intros * []%not_elem_of_nil.
  - vm_compute. reflexivity.
Defined.
