(* ===== verification/RtpsParticipant.v ===== *)
(** * RTPS participants

    [participant/implementations/rtps/CommonParticipant.cpp]: the participant that talks
    RTPS.  Fast DDS calls it when it finds a reader or a writer of another participant,
    and what it finds goes to the discovery database; the bridges ask it for readers and
    writers, whose class depends on the QoS of the topic. *)
From stdpp Require Import gmap.
From S2P Require Import Prelude StdMap CppString Externals Types Topics Endpoint DiscoveryDatabase PayloadPool Track Auxiliar Address Configuration Rtps RtpsReader RtpsWriter MultiWriter ParticipantAttributes.

(** ** Discovery *)

(** [ReaderDiscoveryInfo::DISCOVERY_STATUS] and the same of writers; the last is any
    other value *)
Inductive DiscoveryStatus : Type := DISCOVERED | CHANGED_QOS | REMOVED | DROPPED.

(** [ReliabilityQosPolicyKind], as read from the network *)
Inductive AnnouncedReliability : Type :=
| announced (k : ReliabilityQosKind)
| invalid_reliability.

(** [ReaderDiscoveryInfo] and [WriterDiscoveryInfo] *)
Record DiscoveryInfo : Type := mkInfo {
  i_status : DiscoveryStatus;
  i_guid : Guid;
  i_topicName : string;
  i_typeName : string;
  i_topicKind : TopicKind;
  (** [m_durability.durabilityKind()] *)
  i_durability : DurabilityKind;
  i_reliability : AnnouncedReliability;
  i_partition : list string;
  i_ownership : OwnershipKind;
  i_ownershipStrength : Z
}.

Section Discovery.
Context {CU : CppUtils} {FD : FastDDS} {DQ : DBQueueOps} {C : Type}.
(** [TopicQoS::default_history_depth] and the name of the participant *)
Context (depth : Z) (id : ParticipantId).

Definition is_with_key (k : TopicKind) : bool := match k with WITH_KEY => true | NO_KEY => false end.

(** The reliability of the topic; [None] is the call of [utils::tsnh]. *)
Definition discovered_reliability (r : AnnouncedReliability) : option ReliabilityKind :=
  match r with
  | announced BEST_EFFORT_RELIABILITY_QOS => Some BEST_EFFORT
  | announced RELIABLE_RELIABILITY_QOS => Some RELIABLE
  | invalid_reliability => None
  end.

(** [create_common_endpoint_from_info_] *)
Definition create_common_endpoint_from_info_ (info : DiscoveryInfo) : option Endpoint :=
  match discovered_reliability (i_reliability info) with
  | None => None
  | Some rel =>
      let discovered_topic_qos :=
        mkTopicQoS (i_durability info) rel (i_ownership info)
          (match i_partition info with [] => false | _ => true end)
          (history_depth (TopicQoS_default depth)) in
      let t := DdsTopic_of depth (i_topicName info) (i_typeName info) in
      let info_topic :=
        mkDdsTopic (topic_name t) (type_name t) (is_with_key (i_topicKind info))
          (set_level (set_value discovered_topic_qos (topic_qos t))) in
      let endpoint := Endpoint_of endpoint_invalid (i_guid info) info_topic id SpecificEndpointQoS_default in
      let specific_qos :=
        if has_partitions discovered_topic_qos
        then mkSpecificQoS (i_partition info) (ownership_strength SpecificEndpointQoS_default)
        else SpecificEndpointQoS_default in
      Some (set_specific_qos specific_qos endpoint)
  end.

(** [create_endpoint_from_info_], the instances for writers and readers *)
Definition create_writer_from_info_ (info : DiscoveryInfo) : option Endpoint :=
  match create_common_endpoint_from_info_ info with
  | None => None
  | Some endpoint =>
      let endpoint1 :=
        if has_ownership (get_reference (topic_qos (Endpoint.topic_ endpoint)))
        then set_specific_qos (mkSpecificQoS (partitions (specific_qos_ endpoint)) (i_ownershipStrength info)) endpoint
        else endpoint in
      Some (set_kind endpoint_writer endpoint1)
  end.

Definition create_reader_from_info_ (info : DiscoveryInfo) : option Endpoint :=
  set_kind endpoint_reader <$> create_common_endpoint_from_info_ info.

(** What is done with the endpoint, the same for readers and writers; [utils::tsnh]
    ends the program *)
Definition on_discovery (create : DiscoveryInfo -> option Endpoint) (own : GuidPrefix) (info : DiscoveryInfo) :
    prog (db_state C) unit :=
  if bool_decide (guidPrefix (i_guid info) = own) then mret tt
  else
    match create info with
    | None => throw UndefinedBehaviour
    | Some e =>
        match i_status info with
        | DISCOVERED => add_endpoint e
        | CHANGED_QOS => update_endpoint e
        | REMOVED => erase_endpoint (set_active false e)
        | DROPPED => erase_endpoint (set_active false e)
        end
    end.

(** [onReaderDiscovery] and [onWriterDiscovery]; [own] is the prefix of the participant *)
Definition onReaderDiscovery : GuidPrefix -> DiscoveryInfo -> prog (db_state C) unit :=
  on_discovery create_reader_from_info_.
Definition onWriterDiscovery : GuidPrefix -> DiscoveryInfo -> prog (db_state C) unit :=
  on_discovery create_writer_from_info_.

(** A call of Fast DDS. *)
Inductive DiscoveryEvent : Type :=
| reader_event (info : DiscoveryInfo)
| writer_event (info : DiscoveryInfo).

Definition event_info (v : DiscoveryEvent) : DiscoveryInfo :=
  match v with reader_event i | writer_event i => i end.

Definition on_event (own : GuidPrefix) (v : DiscoveryEvent) : prog (db_state C) unit :=
  match v with
  | reader_event info => onReaderDiscovery own info
  | writer_event info => onWriterDiscovery own info
  end.

(** *** Specification *)

(** The endpoint that an event announces: its topic has the name, the type, the key and
    the QoS announced and the default depth; a writer's specific QoS are the partitions
    and, with exclusive ownership, the strength. *)
Definition announced_topic (info : DiscoveryInfo) (rel : ReliabilityKind) : DdsTopic :=
  mkDdsTopic (i_topicName info) (i_typeName info) (is_with_key (i_topicKind info))
    (set_level (set_value
      (mkTopicQoS (i_durability info) rel (i_ownership info)
        (bool_decide (i_partition info <> [])) depth)
      (fuzzy_init (TopicQoS_default depth)))).

Definition announced_qos (v : DiscoveryEvent) : SpecificEndpointQoS :=
  match v with
  | reader_event i => mkSpecificQoS (i_partition i) 0
  | writer_event i =>
      mkSpecificQoS (i_partition i)
        (if bool_decide (i_ownership i = EXCLUSIVE_OWNERSHIP) then i_ownershipStrength i else 0)
  end.

Definition announced_kind (v : DiscoveryEvent) : EndpointKind :=
  match v with reader_event _ => endpoint_reader | writer_event _ => endpoint_writer end.

Definition announced_endpoint (v : DiscoveryEvent) (rel : ReliabilityKind) : Endpoint :=
  Endpoint_of (announced_kind v) (i_guid (event_info v)) (announced_topic (event_info v) rel) id (announced_qos v).

(** What is known of one remote endpoint: nothing, or what its discovery said, with the topic
    of the last change of QoS since.  Discovering an endpoint that is known changes nothing,
    and a change of QoS leaves the specific QoS of the discovery. *)
Definition known_after (own : GuidPrefix) (g : Guid) (k : option Endpoint) (v : DiscoveryEvent) : option Endpoint :=
  let info := event_info v in
  if bool_decide (i_guid info = g) && negb (bool_decide (guidPrefix g = own)) then
    match discovered_reliability (i_reliability info) with
    | None => k
    | Some rel =>
        match i_status info, k with
        | DISCOVERED, None => Some (announced_endpoint v rel)
        | DISCOVERED, Some e => Some e
        | CHANGED_QOS, None => None
        | CHANGED_QOS, Some e => Some (set_specific_qos (specific_qos_ e) (announced_endpoint v rel))
        | REMOVED, _ | DROPPED, _ => None
        end
    end
  else k.

Definition known (own : GuidPrefix) (g : Guid) (k : option Endpoint) (l : list DiscoveryEvent) : option Endpoint :=
  fold_left (known_after own g) l k.


(** *** From the events to the database *)
Context {CL : CppUtilsLaws} {FL : FastDDSLaws} {DL : DBQueueLaws}.

(** The reliability announced is one that exists. *)
Definition valid_event (v : DiscoveryEvent) : bool :=
  match discovered_reliability (i_reliability (event_info v)) with Some _ => true | None => false end.

Lemma create_announced v rel :
  discovered_reliability (i_reliability (event_info v)) = Some rel ->
  match v with
  | reader_event i => create_reader_from_info_ i
  | writer_event i => create_writer_from_info_ i
  end = Some (announced_endpoint v rel).
Proof.
  assert (forall i : DiscoveryInfo, match i_partition i with [] => false | _ => true end = bool_decide (i_partition i <> []))
    as Hp by (intros i; by destruct (i_partition i)).
  intros Hr. destruct v as [i|i]; simpl in Hr;
    unfold create_reader_from_info_, create_writer_from_info_, create_common_endpoint_from_info_; rewrite Hr, Hp;
    unfold announced_endpoint, announced_topic, announced_qos; simpl.
  - by destruct (i_partition i).
  - rewrite get_set_level, get_set_value. unfold has_ownership. simpl.
    by case_bool_decide; destruct (i_partition i).
Qed.

(** The operation on the database that an event asks for. *)
Definition event_item (own : GuidPrefix) (v : DiscoveryEvent) : option queue_item :=
  if bool_decide (guidPrefix (i_guid (event_info v)) = own) then None
  else
    match discovered_reliability (i_reliability (event_info v)) with
    | None => None
    | Some rel =>
        let e := announced_endpoint v rel in
        Some match i_status (event_info v) with
             | DISCOVERED => (op_add, e)
             | CHANGED_QOS => (op_update, e)
             | REMOVED | DROPPED => (op_erase, set_active false e)
             end
    end.

Definition push_event (own : GuidPrefix) (v : DiscoveryEvent) (s : db_state C) : db_state C :=
  match event_item own v with Some i => exec (push_item_to_queue_ i) s | None => s end.

Lemma on_event_run own v s :
  valid_event v = true -> on_event own v s = (Ok tt, push_event own v s).
Proof.
  unfold valid_event, push_event, event_item. intros Hv.
  destruct (discovered_reliability (i_reliability (event_info v))) as [rel|] eqn:Hr; [|done].
  pose proof (create_announced v rel Hr) as Hc.
  destruct v as [i|i]; unfold on_event, onReaderDiscovery, onWriterDiscovery, on_discovery;
    simpl in *; case_bool_decide; try done; rewrite Hc; destruct (i_status i); done.
Qed.

Lemma on_events_run own l : forall d c,
  Forall (fun v => valid_event v = true) l ->
  exists d1, for_each l (on_event own) (d, c) = (Ok tt, (d1, c)) /\
    bg d1 = bg d ++ omap (event_item own) l /\ fg d1 = fg d /\ entities_ d1 = entities_ d.
Proof.
  induction l as [|v l IH]; intros d c Hv.
  { exists d. rewrite app_nil_r. done. }
  apply Forall_cons in Hv as [Hv Hl].
  pose proof (on_event_run own v (d, c) Hv) as Hrun. unfold push_event in Hrun. cbn [omap list_omap].
  destruct (event_item own v) as [i|].
  - destruct (IH (exec (push_item_to_queue_ i) (d, c)).1 c Hl) as (d1 & Hd & Hb & Hf & He).
    exists d1. rewrite (for_each_step _ _ _ _ _ Hrun). split_and!; [exact Hd| |..].
    + rewrite Hb. unfold bg. simpl. by rewrite bg_push, <- app_assoc.
    + rewrite Hf. unfold fg. simpl. by rewrite fg_push.
    + by rewrite He.
  - destruct (IH d c Hl) as (d1 & Hd & ?). exists d1. by rewrite (for_each_step _ _ _ _ _ Hrun).
Qed.

(** The endpoints that participants announce are active. *)
Definition all_active (m : std_map Guid Endpoint) : Prop := forall g e, find g m = Some e -> active_ e = true.

Lemma keqv_guid (g g' : Guid) : keqv g' g = bool_decide (g = g').
Proof.
  case_bool_decide as Hg; [by apply guid_keqv|]. apply not_true_is_false. by intros ->%guid_keqv.
Qed.

Lemma find_assign_guid (m : std_map Guid Endpoint) (g : Guid) (e : Endpoint) g' :
  find g' (assign g e m) = if bool_decide (g = g') then Some e else find g' m.
Proof. rewrite find_assign. by rewrite keqv_guid. Qed.

Lemma find_erase_guid (m : std_map Guid Endpoint) g g' :
  map_wf m -> find g' (erase g m) = if bool_decide (g = g') then None else find g' m.
Proof. intros Hm. rewrite find_erase by done. by rewrite keqv_guid. Qed.

Lemma all_active_assign m g e : all_active m -> active_ e = true -> all_active (assign g e m).
Proof. intros Ha He g' e0. rewrite find_assign_guid. case_bool_decide; [by intros [= <-]|apply Ha]. Qed.

Lemma all_active_erase m g : map_wf m -> all_active m -> all_active (erase g m).
Proof. intros Hm Ha g' e0. rewrite find_erase_guid by done. case_bool_decide; [done|apply Ha]. Qed.

Lemma apply_event own v i m g :
  map_wf m -> all_active m -> event_item own v = Some i ->
  find g (apply_item m i) = known_after own g (find g m) v /\ all_active (apply_item m i).
Proof.
  intros Hwf Ha Hi. unfold event_item in Hi. case_bool_decide as Hown; [done|].
  destruct (discovered_reliability (i_reliability (event_info v))) as [rel|] eqn:Hr; [|done].
  set (e := announced_endpoint v rel) in *. unfold known_after. rewrite Hr. fold e.
  assert (forall (A : Type) (x y : A),
    (if bool_decide (i_guid (event_info v) = g) && negb (bool_decide (guidPrefix g = own)) then x else y) =
    if bool_decide (i_guid (event_info v) = g) then x else y) as ->.
  { intros A x y. case_bool_decide as Hg; [|done]. subst g. by rewrite bool_decide_eq_false_2. }
  injection Hi as <-. change (i_guid (event_info v)) with (guid_ e). destruct (i_status (event_info v)); unfold apply_item;
    cbn [guid_ set_active].
  - destruct (find (guid_ e) m) as [e'|] eqn:Ef; [rewrite (Ha _ _ Ef)|rewrite find_assign_guid];
      (split; [case_bool_decide; [subst g; by rewrite Ef|done]|auto using all_active_assign]).
  - destruct (find (guid_ e) m) as [e'|] eqn:Ef; [rewrite find_assign_guid|];
      (split; [case_bool_decide; [subst g; by rewrite Ef|done]|auto using all_active_assign]).
  - change (guid_ (set_active false e)) with (guid_ e). rewrite find_erase_guid; auto using all_active_erase.
  - change (guid_ (set_active false e)) with (guid_ e). rewrite find_erase_guid; auto using all_active_erase.
Qed.

Lemma ignored_event own v k g : event_item own v = None -> known_after own g k v = k.
Proof.
  unfold event_item, known_after. case_bool_decide as Hown.
  - intros _. case_bool_decide as Hg; [|done]. subst g. by rewrite bool_decide_eq_true_2.
  - destruct (discovered_reliability (i_reliability (event_info v))); [done|]. by destruct (_ && _).
Qed.

Lemma apply_events own g l : forall m,
  map_wf m -> all_active m ->
  find g (fold_left apply_item (omap (event_item own) l) m) = known own g (find g m) l /\
  all_active (fold_left apply_item (omap (event_item own) l) m).
Proof.
  induction l as [|v l IH]; intros m Hwf Ha; [done|]. cbn [omap list_omap].
  change (known own g (find g m) (v :: l)) with (known own g (known_after own g (find g m) v) l).
  destruct (event_item own v) as [i|] eqn:Hi.
  - destruct (apply_event own v i m g Hwf Ha Hi) as [<- Ha']. cbn [fold_left]. by apply IH; [apply map_wf_apply_item|].
  - rewrite (ignored_event own v) by done. by apply IH.
Qed.

Lemma length_omap_le {A B} (f : A -> option B) l : length (omap f l) <= length l.
Proof.
  induction l as [|x l IH]; [done|]. cbn [omap list_omap length].
  destruct (f x); cbn [length]; [by apply le_n_S|by apply le_S].
Qed.

Lemma events_processed own l d c fuel :
  Forall (fun v => valid_event v = true) l ->
  map_wf (entities_ d) -> all_active (entities_ d) -> bg d = [] -> length l <= fuel ->
  exists d1 d2 c2,
    for_each l (on_event own) (d, c) = (Ok tt, (d1, c)) /\
    process_queue_ fuel (d1, c) = (Ok tt, (d2, c2)) /\
    forall g, find g (entities_ d2) = known own g (find g (entities_ d)) l.
Proof.
  intros Hv Hwf Ha Hb Hlen. destruct (on_events_run own l d c Hv) as (d1 & Hrun & Hb1 & _ & He1).
  rewrite Hb in Hb1. simpl in Hb1.
  destruct (process_queue_drains fuel d1 c) as (d2 & Hq & _ & _ & He2).
  { rewrite Hb1. etrans; [apply length_omap_le|exact Hlen]. }
  exists d1, d2. eexists. split; [done|]. split; [exact Hq|]. intros g.
  by rewrite He2, Hb1, He1, (proj1 (apply_events own g l _ Hwf Ha)).
Qed.

(** C9: from discovery to the database. For every sequence of announcements of Fast DDS
    to a participant with one of the two kinds of reliability that exist (any other ends
    in [utils::tsnh]), and a database of active endpoints without pending work, the calls
    return, the processing of the queue returns, and then the database knows of each GUID
    what the announcements say ([known]): announcements of the participant itself are
    ignored; an endpoint is known from its discovery until it is removed or dropped; its
    topic is that of the last change of QoS since then, or that of the discovery if there
    was none; its specific QoS are those of the discovery; discovering again an endpoint
    that is known changes nothing, and a change of QoS of an unknown endpoint is dropped. *)
Theorem discovery_reaches_database own l d c fuel :
  Forall (fun v => valid_event v = true) l ->
  map_wf (entities_ d) -> all_active (entities_ d) -> bg d = [] -> length l <= fuel ->
  exists d1 d2 c2,
    for_each l (on_event own) (d, c) = (Ok tt, (d1, c)) /\
    process_queue_ fuel (d1, c) = (Ok tt, (d2, c2)) /\
    forall g, get_endpoint d2 g =
      match known own g (find g (entities_ d)) l with
      | Some e => Ok e
      | None => Throw InconsistencyException
      end.
Proof.
  intros Hv Hwf Ha Hb Hlen. destruct (events_processed own l d c fuel) as (d1 & d2 & c2 & Hd & Hq & Hf); [done..|].
  exists d1, d2, c2. split_and!; [done..|]. intros g. unfold get_endpoint. by rewrite Hf.
Qed.

(** *** The QoS of the data *)

Definition removes (g : Guid) (v : DiscoveryEvent) : Prop :=
  i_guid (event_info v) = g /\ (i_status (event_info v) = REMOVED \/ i_status (event_info v) = DROPPED).

Lemma known_keeps_qos own g l : forall e,
  Forall (fun v => ~ removes g v) l ->
  exists e', known own g (Some e) l = Some e' /\ specific_qos_ e' = specific_qos_ e.
Proof.
  induction l as [|v l IH]; intros e Hl; [by exists e|]. apply Forall_cons in Hl as [Hv Hl].
  change (known own g (Some e) (v :: l)) with (known own g (known_after own g (Some e) v) l).
  assert (exists e1, known_after own g (Some e) v = Some e1 /\ specific_qos_ e1 = specific_qos_ e) as (e1 & -> & <-).
  { unfold known_after. case_bool_decide as Hg; [|by exists e]. destruct (negb _); [|by exists e].
    destruct (discovered_reliability _) as [rel|]; [|by exists e].
    unfold removes in Hv. destruct (i_status (event_info v)); try (by eexists); destruct Hv; auto. }
  by apply IH.
Qed.

Lemma announced_known own g v :
  valid_event v = true -> i_guid (event_info v) = g -> guidPrefix g <> own ->
  i_status (event_info v) = DISCOVERED ->
  exists e, known_after own g None v = Some e /\ specific_qos_ e = announced_qos v.
Proof.
  unfold valid_event, known_after. intros Hv Hg Hown Hs.
  rewrite bool_decide_eq_true_2, bool_decide_eq_false_2 by done. cbn [negb andb]. rewrite Hs.
  destruct (discovered_reliability _) as [rel|]; [|done]. by eexists.
Qed.

Context {RR : RtpsReaders} {PM : PoolMethods}.

(** The QoS that data carry. Once a writer is discovered, a reader of its topic stamps
    its data with the partitions and the ownership strength of that first announcement,
    whatever other announcements follow, until the writer is removed: a later change of
    its QoS is not seen. *)
Theorem first_announced_qos_used own v l d c fuel g (s : rstate) :
  valid_event v = true -> i_guid (event_info v) = g -> guidPrefix g <> own ->
  i_status (event_info v) = DISCOVERED -> find g (entities_ d) = None ->
  Forall (fun v => valid_event v = true) l -> Forall (fun v => ~ removes g v) l ->
  map_wf (entities_ d) -> all_active (entities_ d) -> bg d = [] -> S (length l) <= fuel ->
  exists d1 d2 c2,
    for_each (v :: l) (on_event own) (d, c) = (Ok tt, (d1, c)) /\
    process_queue_ fuel (d1, c) = (Ok tt, (d2, c2)) /\
    (rs_database s = d2 -> specific_qos_of_writer_ g s = (Ok (announced_qos v), s)).
Proof.
  intros Hv Hg Hown Hst Hnew Hl Hkeep Hwf Ha Hb Hlen.
  destruct (events_processed own (v :: l) d c fuel) as (d1 & d2 & c2 & Hd & Hq & Hf); [by constructor|done..|].
  exists d1, d2, c2. split_and!; [done..|]. intros Hdb.
  destruct (announced_known own g v Hv Hg Hown Hst) as (e & He & Hqos).
  destruct (known_keeps_qos own g l e Hkeep) as (e' & He' & Hqos').
  specialize (Hf g). rewrite Hnew in Hf.
  change (known own g None (v :: l)) with (known own g (known_after own g None v) l) in Hf.
  rewrite He, He' in Hf. unfold specific_qos_of_writer_. run_prog. unfold get_endpoint.
  rewrite Hdb, Hf. by rewrite Hqos', Hqos.
Qed.

End Discovery.

(** ** The participant *)

Section Participant.
Context {CU : CppUtils} {FD : FastDDS} {DQ : DBQueueOps} {C : Type} {RR : RtpsReaders} {RW : RtpsWriters}.
Context {PM : PoolMethods} (this_pool : nat).
(** what the default constructors of Fast DDS give *)
Context (dta : TopicAttributes) (dq : EndpointQos).
(** [RTPSDomain::createParticipant]: the GUID of the participant made, or none *)
Context (createParticipant : DomainId -> ParticipantAttributes -> option Guid).

Record CommonParticipant : Type := mkCommonParticipant {
  cp_base : BaseConf;
  domain_id_ : DomainId;
  participant_attributes_ : ParticipantAttributes;
  rtps_participant_ : option Guid
}.

Definition CommonParticipant_of (b : BaseConf) (domain : DomainId) (attributes : ParticipantAttributes) :
    CommonParticipant :=
  mkCommonParticipant b domain attributes None.

(** [init] and [create_participant_] *)
Definition cp_init : prog CommonParticipant unit :=
  p ← get;
  let made := createParticipant (domain_id_ p) (participant_attributes_ p) in
  modify (fun p => mkCommonParticipant (cp_base p) (domain_id_ p) (participant_attributes_ p) made) ;;
  match made with
  | None => throw InitializationException
  | Some _ => mret tt
  end.

(** *** Readers and writers *)

(** The memory, the readers and writers of Fast DDS and the database *)
Record cpworld : Type := mkCPWorld {
  cp_heap : heap;
  cp_pool : PayloadPool;
  cp_readers : gmap nat RTPSReader;
  cp_writers : gmap nat RTPSWriter;
  cp_database : DiscoveryDatabase C
}.

Definition needs_specific_qos (topic : DdsTopic) : bool :=
  has_partitions (qos_of topic) || has_ownership (qos_of topic).

(** An exception of [init] destroys the object that was made. *)
Definition make_reader (o : CommonReader) : prog cpworld CommonReader := fun w =>
  let back (s : rstate) := mkCPWorld (rs_heap s) (rs_pool s) (rs_domain s) (cp_writers w) (rs_database s) in
  match cr_init this_pool (mkRS (cp_heap w) (cp_pool w) (cp_readers w) (cp_database w) o []) with
  | (Ok _, s) => (Ok (rs_this s), back s)
  | (Throw e, s) =>
      match cr_destroy this_pool s with
      | (Ok _, s') => (Throw e, back s')
      | (Throw e', s') => (Throw e', back s')
      end
  end.

Definition make_writer (o : CommonWriter) : prog cpworld CommonWriter := fun w =>
  let back (s : wstate) := mkCPWorld (ws_heap s) (ws_pool s) (cp_readers w) (ws_domain s) (cp_database w) in
  match cw_init this_pool (mkWS (cp_heap w) (cp_pool w) (cp_writers w) o) with
  | (Ok _, s) => (Ok (ws_this s), back s)
  | (Throw e, s) =>
      match cw_destroy this_pool s with
      | (Ok _, s') => (Throw e, back s')
      | (Throw e', s') => (Throw e', back s')
      end
  end.

(** [create_reader_]; [participant] is the one of Fast DDS that [init] made. *)
Definition cp_create_reader_ (b : BaseConf) (participant : Guid) (topic : DdsTopic) : prog cpworld CommonReader :=
  if needs_specific_qos topic then make_reader (SpecificQoSReader_of dq participant (conf_id b) topic)
  else make_reader (SimpleReader_of dq participant (conf_id b) topic).

(** [create_writer_]: a [MultiWriter] makes its writers when data come *)
Inductive IWriter : Type :=
| MultiWriterObj (m : MultiWriter)
| SimpleWriterObj (w : CommonWriter).

Definition cp_create_writer_ (b : BaseConf) (participant : Guid) (topic : DdsTopic) : prog cpworld IWriter :=
  if needs_specific_qos topic
  then mret (MultiWriterObj (MultiWriter_of participant (conf_id b) topic (conf_is_repeater b)))
  else
    writer ← make_writer (SimpleWriter_of dta dq participant (conf_id b) topic (conf_is_repeater b));
    mret (SimpleWriterObj writer).

(** *** Properties *)
Context {RL : RtpsReadersLaws} {WL : RtpsWritersLaws}.

Lemma cw_destroy_none s :
  rtps_writer_ (ws_this s) = None -> exists s', cw_destroy this_pool s = (Ok tt, s') /\
    ws_heap s' = ws_heap s /\ ws_pool s' = ws_pool s /\ ws_domain s' = ws_domain s.
Proof. intros H. unfold cw_destroy. run_prog. rewrite H. by eexists. Qed.

Lemma cr_destroy_none (s : rstate (C := C)) :
  rtps_reader_ (rs_this s) = None -> exists s', cr_destroy this_pool s = (Ok tt, s') /\
    rs_heap s' = rs_heap s /\ rs_pool s' = rs_pool s /\ rs_domain s' = rs_domain s /\ rs_database s' = rs_database s.
Proof. intros H. unfold cr_destroy. run_prog. rewrite H. by eexists. Qed.

(** The reader of an RTPS participant for a topic. When Fast DDS makes and registers
    it, the object is a reader that looks up the QoS of the writers exactly when the topic
    has partitions or exclusive ownership, it is disabled, with the QoS of the topic, and
    nothing else changes; when Fast DDS makes none, the call throws and changes nothing;
    when it cannot be registered, the program uses a freed reader: the exception of [init]
    destroys the object, whose pointer was not reset. *)
Theorem participant_creates_reader b participant topic w :
  match create_rtps_reader participant (get_history_attributes_ topic) (get_reader_attributes_ topic) (cp_readers w) with
  | None => cp_create_reader_ b participant topic w = (Throw InitializationException, w)
  | Some (a, e) =>
      if register_reader e (reader_topic_attributes_ topic) (get_reader_qos_ dq topic)
      then exists o, cp_create_reader_ b participant topic w =
             (Ok o, mkCPWorld (cp_heap w) (cp_pool w) (<[a := e]> (cp_readers w)) (cp_writers w) (cp_database w)) /\
           cr_class o = (if has_partitions (qos_of topic) || has_ownership (qos_of topic)
                         then SpecificQoSReader else SimpleReader) /\
           rtps_reader_ o = Some a /\ cr_base o = BaseReader_of (conf_id b) topic /\ reader_qos_ o = get_reader_qos_ dq topic
      else result (cp_create_reader_ b participant topic) w = Throw UndefinedBehaviour
  end.
Proof.
  assert (exists cls, cls = (if needs_specific_qos topic then SpecificQoSReader else SimpleReader) /\
    cp_create_reader_ b participant topic = make_reader (CommonReader_of cls participant (conf_id b) topic (get_history_attributes_ topic)
      (get_reader_attributes_ topic) (reader_topic_attributes_ topic) (get_reader_qos_ dq topic))) as (cls & Hcls & ->).
  { unfold cp_create_reader_. by destruct (needs_specific_qos topic); eexists. }
  fold (needs_specific_qos topic). rewrite <- Hcls. unfold make_reader, result. rewrite cr_init_run.
  cbn [rs_this rs_domain cr_rtps_participant_ history_attributes_ reader_attributes_ topic_attributes_ reader_qos_ CommonReader_of].
  destruct (create_rtps_reader _ _ _ _) as [[a e]|] eqn:Hcreate.
  - destruct (create_reader_fresh _ _ _ _ _ _ Hcreate) as [Hfresh _]. destruct (register_reader _ _ _).
    + eexists. split; [reflexivity|]. done.
    + by rewrite cr_destroy_dangling.
  - edestruct cr_destroy_none as (s' & -> & -> & -> & -> & ->); [done|]. by destruct w.
Qed.

(** The writer of an RTPS participant for a topic. A topic with partitions or
    exclusive ownership gets a [MultiWriter], without any writer of Fast DDS yet; another
    gets one writer of Fast DDS with the filter of the participant's role, and the call
    throws, without changing anything, if Fast DDS makes none; if it cannot be registered
    the program uses a freed writer. *)
Theorem participant_creates_writer b participant topic w :
  if has_partitions (qos_of topic) || has_ownership (qos_of topic)
  then exists m, cp_create_writer_ b participant topic w = (Ok (MultiWriterObj m), w) /\ writers_map_ m = [] /\
         mw_repeater_ m = conf_is_repeater b /\ mw_base m = BaseWriter_of (conf_id b) topic
  else
    let f := if conf_is_repeater b then repeater_data_filter else self_data_filter in
    match create_rtps_writer participant (if conf_is_repeater b then Some (cache_change_pool_configuration_ topic) else None)
            (writer_history_attributes_ topic) (get_writer_attributes_ topic) (cp_writers w) with
    | None => cp_create_writer_ b participant topic w = (Throw InitializationException, w)
    | Some (a, e) =>
        if register_writer e (writer_topic_attributes_ dta topic) (get_writer_qos_ dq topic)
        then exists o, cp_create_writer_ b participant topic w =
               (Ok (SimpleWriterObj o),
                mkCPWorld (cp_heap w) (cp_pool w) (cp_readers w) (<[a := rw_set_filter f e]> (cp_writers w)) (cp_database w)) /\
             rtps_writer_ o = Some a /\ data_filter_ o = Some f /\ cw_base o = BaseWriter_of (conf_id b) topic /\
             repeater_ o = conf_is_repeater b
        else result (cp_create_writer_ b participant topic) w = Throw UndefinedBehaviour
    end.
Proof.
  unfold cp_create_writer_, result. fold (needs_specific_qos topic). destruct (needs_specific_qos topic).
  { eexists. split; [reflexivity|]. done. }
  unfold make_writer. run_prog. rewrite cw_init_run.
  cbn [ws_this ws_domain cw_rtps_participant_ repeater_ pool_configuration_ cw_history_attributes_ writer_attributes_
    cw_topic_attributes_ writer_qos_ SimpleWriter_of CommonWriter_of].
  destruct (create_rtps_writer _ _ _ _ _) as [[a e]|] eqn:Hcreate.
  - destruct (create_writer_spec _ _ _ _ _ _ _ Hcreate) as (Hfresh & _). destruct (register_writer _ _ _).
    + eexists. split; [reflexivity|]. done.
    + by rewrite cw_destroy_dangling.
  - edestruct cw_destroy_none as (s' & -> & -> & -> & ->); [done|]. by destruct w.
Qed.

End Participant.

(** ** Witnesses *)
Section Witnesses.
#[local] Existing Instances Demo.cpp_utils Demo.cpp_utils_laws Demo.fast_dds Demo.fast_dds_laws
  Demo.dbqueue Demo.dbqueue_laws PoolDemo.malloc PoolDemo.malloc_laws
  ReaderDemo.readers ReaderDemo.readers_laws WriterDemo.writers WriterDemo.writers_laws.
#[local] Instance demo_methods : PoolMethods := FastPayloadPool.methods 7.

(** A writer of another participant in the partitions [l]. *)
Definition demo_writer_guid : Guid := mkGuid [2%Z] [8%Z].
Definition demo_event (s : DiscoveryStatus) (l : list string) : DiscoveryEvent :=
  writer_event (mkInfo s demo_writer_guid "t" "T" NO_KEY VOLATILE (announced RELIABLE_RELIABILITY_QOS)
    l SHARED_OWNERSHIP 0).

Lemma discovery_reaches_database_witness :
  exists d1 d2 c2,
    for_each [demo_event DISCOVERED ["a"]; demo_event REMOVED ["a"]] (on_event 5000 (mkParticipantId "p") [1%Z])
      (DiscoveryDatabase_new, tt) = (Ok tt, (d1, tt)) /\
    process_queue_ 2 (d1, tt) = (Ok tt, (d2, c2)) /\
    get_endpoint d2 demo_writer_guid = Throw InconsistencyException.
Proof.
  destruct (discovery_reaches_database 5000 (mkParticipantId "p") [1%Z]
    [demo_event DISCOVERED ["a"]; demo_event REMOVED ["a"]] DiscoveryDatabase_new tt 2) as (d1 & d2 & c2 & H1 & H2 & Hg);
    [by repeat constructor|apply map_wf_nil|by intros ? ?|done|done|].
  exists d1, d2, c2. split; [exact H1|]. split; [exact H2|]. rewrite Hg. reflexivity.
Defined.

Definition demo_reader_state (d : DiscoveryDatabase unit) : rstate (RR := ReaderDemo.readers) (C := unit) :=
  mkRS (RR := ReaderDemo.readers) ∅ PayloadPool_new ∅ d (ReaderDemo.object "t") [].

Lemma first_announced_qos_used_witness :
  exists d, specific_qos_of_writer_ demo_writer_guid (demo_reader_state d) =
    (Ok (mkSpecificQoS ["a"] 0), demo_reader_state d) /\
    process_queue_ 2 (exec (for_each [demo_event DISCOVERED ["a"]; demo_event CHANGED_QOS ["b"]]
      (on_event 5000 (mkParticipantId "p") [1%Z])) (DiscoveryDatabase_new, tt)) = (Ok tt, (d, tt)).
Proof.
  set (d := (exec (process_queue_ 2) (exec (for_each [demo_event DISCOVERED ["a"]; demo_event CHANGED_QOS ["b"]]
      (on_event 5000 (mkParticipantId "p") [1%Z])) (DiscoveryDatabase_new, tt))).1).
  exists d.
  destruct (first_announced_qos_used 5000 (mkParticipantId "p") [1%Z] (demo_event DISCOVERED ["a"])
    [demo_event CHANGED_QOS ["b"]] DiscoveryDatabase_new tt 2 demo_writer_guid (demo_reader_state d))
    as (d1 & d2 & [] & H1 & H2 & Hq);
    [done|done|done|done|done|by repeat constructor| |apply map_wf_nil|by intros ? ?|done|done|].
  - constructor; [|done]. intros [_ [H|H]]; discriminate H.
  - assert (d = d2) as Hd by (unfold d, exec; rewrite H1; cbn [fst snd]; by rewrite H2).
    split; [by apply Hq|]. unfold exec. rewrite H1. cbn [fst snd]. by rewrite H2, Hd.
Defined.

Definition demo_world : cpworld (C := unit) := mkCPWorld ∅ PayloadPool_new ∅ ∅ DiscoveryDatabase_new.
Definition rtps_base : BaseConf := mkBaseConf (mkParticipantId "p") kind_simple_rtps true.
Definition rtps_guid : Guid := mkGuid [1%Z] [0%Z].

Lemma participant_creates_reader_witness :
  exists o w, cp_create_reader_ 7 ReaderDemo.dq rtps_base rtps_guid (DdsTopic_of 5000 "t" "T") demo_world = (Ok o, w) /\
    cr_class o = SimpleReader.
Proof.
  pose proof (participant_creates_reader 7 ReaderDemo.dq rtps_base rtps_guid (DdsTopic_of 5000 "t" "T") demo_world) as H.
  cbn [create_rtps_reader ReaderDemo.readers] in H. destruct H as (o & Hrun & Hc & _).
  exists o. eexists. split; [exact Hrun|exact Hc].
Defined.

Lemma participant_creates_writer_witness :
  result (cp_create_writer_ 7 WriterDemo.dta WriterDemo.dq rtps_base rtps_guid (DdsTopic_of 5000 "refused" "T")) demo_world =
    Throw UndefinedBehaviour.
Proof.
  exact (participant_creates_writer 7 WriterDemo.dta WriterDemo.dq rtps_base rtps_guid (DdsTopic_of 5000 "refused" "T") demo_world).
Defined.

End Witnesses.
