(* ===== verification/RtpsWorld.v ===== *)
(** * Tracks over RTPS endpoints

    The readers and writers that the RTPS participants make, with the memory, the
    payload pool and the entities of Fast DDS that they share: the world that the tracks
    of a bridge between RTPS participants work on.  What a reader of one participant
    receives is followed through the track to what the writers of the others send. *)
From stdpp Require Import gmap.
From S2P Require Import Prelude StdMap CppString Externals Types Topics Endpoint DiscoveryDatabase PayloadPool Track Auxiliar Rtps RtpsReader RtpsWriter MultiWriter RtpsParticipant.

(** ** The world *)
Section World.
Context {CU : CppUtils} {FD : FastDDS} {DQ : DBQueueOps} {C : Type} {RR : RtpsReaders} {RW : RtpsWriters}.
Context {PM : PoolMethods} (this_pool : nat).
Context (default_params : SendParams) (dta : TopicAttributes) (dq : EndpointQos) (default_data : DataReceived).

(** The memory, the entities of Fast DDS, the database, the objects by address (the
    writers of the class [QoSSpecificWriter] that the objects of class [MultiWriter] own
    apart), the tracks called back, the slots and the tasks of the thread pool, and the
    exception that left a [noexcept] method, if any: the program ends there. *)
Record rtps_world : Type := mkRtpsWorld {
  wd_heap : heap;
  wd_pool : PayloadPool;
  wd_rtps_readers : gmap nat RTPSReader;
  wd_rtps_writers : gmap nat RTPSWriter;
  wd_database : DiscoveryDatabase C;
  wd_readers : gmap nat CommonReader;
  wd_writers : gmap nat IWriter;
  wd_specific : gmap nat CommonWriter;
  wd_calls : list nat;
  wd_slots : list nat;
  wd_emitted : list nat;
  wd_aborted : option exn
}.

Definition wd_set_memory (h : heap) (p : PayloadPool) (w : rtps_world) : rtps_world :=
  mkRtpsWorld h p (wd_rtps_readers w) (wd_rtps_writers w) (wd_database w) (wd_readers w) (wd_writers w)
    (wd_specific w) (wd_calls w) (wd_slots w) (wd_emitted w) (wd_aborted w).
Definition wd_set_reader (ptr : nat) (s : rstate) (w : rtps_world) : rtps_world :=
  mkRtpsWorld (rs_heap s) (rs_pool s) (rs_domain s) (wd_rtps_writers w) (rs_database s)
    (<[ptr := rs_this s]> (wd_readers w)) (wd_writers w) (wd_specific w) (rs_calls s) (wd_slots w)
    (wd_emitted w) (wd_aborted w).
Definition wd_set_simple (ptr : nat) (s : wstate) (w : rtps_world) : rtps_world :=
  mkRtpsWorld (ws_heap s) (ws_pool s) (wd_rtps_readers w) (ws_domain s) (wd_database w) (wd_readers w)
    (<[ptr := SimpleWriterObj (ws_this s)]> (wd_writers w)) (wd_specific w) (wd_calls w) (wd_slots w)
    (wd_emitted w) (wd_aborted w).
Definition wd_set_multi (ptr : nat) (s : mstate) (w : rtps_world) : rtps_world :=
  mkRtpsWorld (ms_heap s) (ms_pool s) (wd_rtps_readers w) (ms_domain s) (wd_database w) (wd_readers w)
    (<[ptr := MultiWriterObj (ms_this s)]> (wd_writers w)) (ms_objects s) (wd_calls w) (wd_slots w)
    (wd_emitted w) (wd_aborted w).
Definition wd_set_tasks (slots emitted : list nat) (w : rtps_world) : rtps_world :=
  mkRtpsWorld (wd_heap w) (wd_pool w) (wd_rtps_readers w) (wd_rtps_writers w) (wd_database w) (wd_readers w)
    (wd_writers w) (wd_specific w) (wd_calls w) slots emitted (wd_aborted w).
Definition wd_abort (e : exn) (w : rtps_world) : rtps_world :=
  mkRtpsWorld (wd_heap w) (wd_pool w) (wd_rtps_readers w) (wd_rtps_writers w) (wd_database w) (wd_readers w)
    (wd_writers w) (wd_specific w) (wd_calls w) (wd_slots w) (wd_emitted w) (Some e).

(** A [noexcept] method. *)
Definition wd_noexcept {A} (m : prog rtps_world A) (dflt : A) (w : rtps_world) : A * rtps_world :=
  match m w with
  | (Ok a, w') => (a, w')
  | (Throw e, w') => (dflt, wd_abort e w')
  end.

(** What the methods of the objects see of the world. *)
Definition reader_view (o : CommonReader) (w : rtps_world) : rstate :=
  mkRS (wd_heap w) (wd_pool w) (wd_rtps_readers w) (wd_database w) o (wd_calls w).
Definition writer_view (o : CommonWriter) (w : rtps_world) : wstate :=
  mkWS (wd_heap w) (wd_pool w) (wd_rtps_writers w) o.
Definition multi_view (m : MultiWriter) (w : rtps_world) : mstate :=
  mkMS (wd_heap w) (wd_pool w) (wd_rtps_writers w) (wd_specific w) m.

Definition on_rtps_reader {A} (ptr : nat) (m : prog rstate A) : prog rtps_world A := fun w =>
  match wd_readers w !! ptr with
  | Some o => let '(r, s) := m (reader_view o w) in (r, wd_set_reader ptr s w)
  | None => (Throw UndefinedBehaviour, w)
  end.

(** A virtual method of the writer at [ptr]. *)
Definition on_rtps_writer {A} (ptr : nat) (simple : prog wstate A) (multi : prog mstate A) :
    prog rtps_world A := fun w =>
  match wd_writers w !! ptr with
  | Some (SimpleWriterObj o) => let '(r, s) := simple (writer_view o w) in (r, wd_set_simple ptr s w)
  | Some (MultiWriterObj o) => let '(r, s) := multi (multi_view o w) in (r, wd_set_multi ptr s w)
  | None => (Throw UndefinedBehaviour, w)
  end.

(** A method of the payload pool on the payload of a data. *)
Definition on_world_pool {A} (p : Payload) (m : prog PayloadPool.pstate A) : prog rtps_world (A * Payload) :=
  fun w =>
  let '(r, s) := m (PayloadPool.mkP (wd_heap w) (wd_pool w) p) in
  let w' := wd_set_memory (p_heap s) (p_pool s) w in
  match r with
  | Ok a => (Ok (a, p_target s), w')
  | Throw e => (Throw e, w')
  end.

Definition quiet (m : prog rtps_world unit) (w : rtps_world) : rtps_world := (wd_noexcept m tt w).2.

#[export] Instance rtps_comm_world : CommWorld rtps_world := {|
  reader_enable ptr := quiet (on_rtps_reader ptr cr_enable);
  reader_disable ptr := quiet (on_rtps_reader ptr cr_disable);
  reader_set_callback ptr track :=
    quiet (on_rtps_reader ptr (on_base (br_set_on_data_available_callback track)));
  reader_unset_callback ptr := quiet (on_rtps_reader ptr (on_base br_unset_on_data_available_callback));
  reader_take ptr d := wd_noexcept (on_rtps_reader ptr (cr_take this_pool d)) (RETCODE_ERROR, d);
  writer_enable ptr := quiet (on_rtps_writer ptr (on_this cw_enable) mw_enable);
  writer_disable ptr := quiet (on_rtps_writer ptr (on_this cw_disable) mw_disable);
  writer_write ptr d := wd_noexcept (on_rtps_writer ptr (cw_write this_pool default_params d)
    (mw_write this_pool default_params dta dq d)) (RETCODE_ERROR, d);
  pool_release p w :=
    let '((_, p'), w') := wd_noexcept (on_world_pool p release_payload) (false, p) w in (p', w');
  thread_pool_slot task w := wd_set_tasks (wd_slots w ++ [task]) (wd_emitted w) w;
  thread_pool_emit task w := wd_set_tasks (wd_slots w) (wd_emitted w ++ [task]) w;
  new_data := default_data
|}.

End World.

Lemma Forall2_impl_in {A B} (P Q : A -> B -> Prop) l k :
  Forall2 P l k -> (forall x y, x ∈ l -> P x y -> Q x y) -> Forall2 Q l k.
Proof.
  induction 1 as [|x y l k Hxy _ IH]; intros H; constructor; [apply H; [by left|done]|].
  apply IH. intros x' y' Hin. apply H. by right.
Qed.

(** ** From the reader to the writers *)
Section Relay.
Context {CU : CppUtils} {CL : CppUtilsLaws} {FD : FastDDS} {DQ : DBQueueOps} {C : Type}.
Context {RR : RtpsReaders} {RL : RtpsReadersLaws} {RW : RtpsWriters} {WL : RtpsWritersLaws}.
Context {PM : PoolMethods} (this_pool : nat) {PS : PoolSpec this_pool}.
Context (default_params : SendParams) (dta : TopicAttributes) (dq : EndpointQos) (default_data : DataReceived).
Context (default_payload : payload default_data = Payload_empty).
(** The pool of changes is as large as the history: a writer whose history has room
    has a change to give. *)
Context (changes_available : forall k ih (e : RTPSWriter), rw_is_full e = false -> is_Some (rw_new_change k ih e).1).

#[local] Notation world := (rtps_world (C := C)).
#[local] Notation CW := (rtps_comm_world this_pool default_params dta dq default_data (C := C)).
Implicit Types (w : world) (ws : list nat).

(** The writer at [p], its entity and the address of that. *)
Definition simple_at w (p : nat) : option (CommonWriter * nat * RTPSWriter) :=
  match wd_writers w !! p with
  | Some (SimpleWriterObj o) => a ← rtps_writer_ o; e ← wd_rtps_writers w !! a; Some (o, a, e)
  | _ => None
  end.

Definition history_of w (p : nat) : list Change :=
  match simple_at w p with Some (_, _, e) => rw_history e | None => [] end.
Definition sent_by w (p : nat) : list sample :=
  match simple_at w p with Some (_, _, e) => rw_sent e | None => [] end.

Definition writer_ready w (p : nat) : Prop :=
  exists o a e, simple_at w p = Some (o, a, e) /\ bw_enabled_ (cw_base o) = true /\
    Forall (fun c => (ch_sequenceNumber c < rw_next e)%Z) (rw_history e) /\ rw_is_full e = false.

Definition histories w (q : list Change) ws : list (list Change) := q :: (history_of w <$> ws).

(** The enabled reader [r] has the changes [q], the enabled writers [ws] have entities
    of their own, and the pool has given what their histories hold and [L]. *)
Record connected w (r : nat) (q : list Change) ws (L : list nat) (H0 : gset nat) : Prop := {
  cn_reader : exists o a e, wd_readers w !! r = Some o /\ br_enabled_ (cr_base o) = true /\
    rtps_reader_ o = Some a /\ wd_rtps_readers w !! a = Some e /\ rr_untaken e = q;
  cn_writers : Forall (writer_ready w) ws;
  cn_entities : forall p p' o o' a e e', p ∈ ws -> p' ∈ ws ->
    simple_at w p = Some (o, a, e) -> simple_at w p' = Some (o', a, e') -> p = p';
  cn_memory : shared_ok this_pool (wd_heap w) (wd_pool w) (histories w q ws) L H0;
  cn_aborted : wd_aborted w = None
}.

(** How many payloads of the pool are in use, and what a step of [n] messages and
    writes needs of the counters. *)
Definition load w (q : list Change) ws (L : list nat) : nat :=
  length (held_by (mjoin (histories w q ws)) ++ L).
Definition fits w (q : list Change) ws (L : list nat) (n : nat) : Prop :=
  (0 <= reserve_count_ (wd_pool w))%Z /\ (reserve_count_ (wd_pool w) + Z.of_nat n < 2 ^ 64)%Z /\
  (Z.of_nat (load w q ws L) + Z.of_nat n < 2 ^ 32)%Z.

(** The objects are the same. *)
Definition same_objects w w' : Prop := wd_writers w' = wd_writers w /\ wd_readers w' = wd_readers w.

(** The entities of other writers than [ws] and of other readers than [r] are as they
    were, and the reader of [r] is still itself. *)
Record untouched w w' (r : nat) ws : Prop := {
  un_writers : forall a,
    (forall p o, p ∈ ws -> wd_writers w !! p = Some (SimpleWriterObj o) -> rtps_writer_ o <> Some a) ->
    wd_rtps_writers w' !! a = wd_rtps_writers w !! a;
  un_readers : forall a, (forall o, wd_readers w !! r = Some o -> rtps_reader_ o <> Some a) ->
    wd_rtps_readers w' !! a = wd_rtps_readers w !! a;
  un_guid : forall a e, wd_rtps_readers w !! a = Some e ->
    exists e', wd_rtps_readers w' !! a = Some e' /\ rr_guid e' = rr_guid e
}.

Lemma untouched_same w w' r ws :
  wd_rtps_writers w' = wd_rtps_writers w -> wd_rtps_readers w' = wd_rtps_readers w -> untouched w w' r ws.
Proof. intros Hw Hr. split; rewrite ?Hw, ?Hr; eauto. Qed.

Lemma untouched_trans w1 w2 w3 r ws :
  untouched w1 w2 r ws -> same_objects w1 w2 -> untouched w2 w3 r ws -> untouched w1 w3 r ws.
Proof.
  intros [W12 R12 G12] [Hw Hr] [W23 R23 G23]. split.
  - intros a Ha. rewrite W23; [by apply W12|]. by rewrite Hw.
  - intros a Ha. rewrite R23; [by apply R12|]. by rewrite Hr.
  - intros a e He. destruct (G12 a e He) as (e2 & He2 & Hg2). destruct (G23 a e2 He2) as (e3 & He3 & Hg3).
    exists e3. split; [done|congruence].
Qed.

(** A write through the entity at [a] leaves this world. *)
Definition wrote (h : heap) (pool : PayloadPool) (a : nat) (e : RTPSWriter) w : world :=
  mkRtpsWorld h pool (wd_rtps_readers w) (<[a := e]> (wd_rtps_writers w)) (wd_database w) (wd_readers w)
    (wd_writers w) (wd_specific w) (wd_calls w) (wd_slots w) (wd_emitted w) (wd_aborted w).

Lemma simple_at_writes w p o a e :
  simple_at w p = Some (o, a, e) ->
  wd_writers w !! p = Some (SimpleWriterObj o) /\ writes (writer_view o w) a e.
Proof.
  unfold simple_at. destruct (wd_writers w !! p) as [[m|o']|] eqn:Hw; [done| |done].
  destruct (rtps_writer_ o') as [a'|] eqn:Ha; [|done]. simpl.
  destruct (wd_rtps_writers w !! a') as [e'|] eqn:He; [|done]. simpl. intros [= <- <- <-]. by split.
Qed.

Lemma untouched_wrote h pool w r ws p o a e e' :
  p ∈ ws -> simple_at w p = Some (o, a, e) -> untouched w (wrote h pool a e' w) r ws.
Proof.
  intros Hp (Hw & Ha & _)%simple_at_writes. split; [|done|eauto]. intros a' Hf. simpl.
  rewrite lookup_insert_ne; [done|]. intros ->. exact (Hf p o Hp Hw Ha).
Qed.

Lemma simple_at_wrote_same h pool w p o a e e' :
  simple_at w p = Some (o, a, e) -> simple_at (wrote h pool a e' w) p = Some (o, a, e').
Proof.
  intros (Hw & Ha & He)%simple_at_writes. unfold simple_at. simpl. rewrite Hw. simpl in Ha. rewrite Ha. simpl.
  by rewrite lookup_insert_eq.
Qed.

Lemma simple_at_wrote_other h pool w p o a e a' e' :
  simple_at w p = Some (o, a, e) -> a <> a' -> simple_at (wrote h pool a' e' w) p = Some (o, a, e).
Proof.
  intros (Hw & Ha & He)%simple_at_writes Hne. unfold simple_at. simpl in *. rewrite Hw, Ha. simpl.
  by rewrite lookup_insert_ne, He by done.
Qed.

Lemma ready_at w ws p : Forall (writer_ready w) ws -> p ∈ ws -> exists o a e, simple_at w p = Some (o, a, e).
Proof. intros Hf Hp. rewrite Forall_forall in Hf. destruct (Hf p Hp) as (o & a & e & ? & _). eauto. Qed.

(** The entities after the write of [p], for the writers of a connected world. *)
Lemma wrote_others w r q ws L H0 p o a e h pool e' p' :
  connected w r q ws L H0 -> p ∈ ws -> simple_at w p = Some (o, a, e) -> p' ∈ ws -> p' <> p ->
  simple_at (wrote h pool a e' w) p' = simple_at w p'.
Proof.
  intros Hc Hp Hs Hp' Hne. destruct (ready_at w ws p' (cn_writers _ _ _ _ _ _ Hc) Hp') as (o1 & a1 & e1 & Hs1).
  rewrite Hs1. apply simple_at_wrote_other; [done|]. intros ->.
  by apply Hne, (cn_entities _ _ _ _ _ _ Hc p' p o1 o a e1 e).
Qed.

Lemma histories_split w q ws1 p ws2 :
  histories w q (ws1 ++ p :: ws2) = (q :: (history_of w <$> ws1)) ++ history_of w p :: (history_of w <$> ws2).
Proof. unfold histories. rewrite fmap_app. done. Qed.

Lemma histories_wrote w r q ws1 p ws2 L H0 o a e h pool e' :
  connected w r q (ws1 ++ p :: ws2) L H0 -> NoDup (ws1 ++ p :: ws2) -> simple_at w p = Some (o, a, e) ->
  histories (wrote h pool a e' w) q (ws1 ++ p :: ws2) =
    (q :: (history_of w <$> ws1)) ++ rw_history e' :: (history_of w <$> ws2).
Proof.
  intros Hc Hnd Hs. rewrite histories_split.
  assert (p ∈ ws1 ++ p :: ws2) as Hp by set_solver.
  assert (p ∉ ws1 /\ p ∉ ws2) as [Hn1 Hn2].
  { apply NoDup_app in Hnd as (_ & Hd & [? _]%NoDup_cons). split; [|done]. intros Hin. apply (Hd p Hin). set_solver. }
  assert (forall l : list nat, (forall x, x ∈ l -> x ∈ ws1 ++ p :: ws2) -> p ∉ l ->
    history_of (wrote h pool a e' w) <$> l = history_of w <$> l) as Hmap.
  { intros l Hsub Hnin. apply list_fmap_ext. intros i x Hx. apply list_elem_of_lookup_2 in Hx.
    unfold history_of. erewrite wrote_others; try done; [by apply Hsub|]. by intros ->. }
  rewrite !Hmap by set_solver. unfold history_of at 2. by rewrite (simple_at_wrote_same _ _ _ _ _ _ _ _ Hs).
Qed.

Lemma connected_wrote w r q ws L H0 p o a e h pool e' :
  connected w r q ws L H0 -> p ∈ ws -> simple_at w p = Some (o, a, e) ->
  Forall (fun c => (ch_sequenceNumber c < rw_next e')%Z) (rw_history e') -> rw_is_full e' = false ->
  shared_ok this_pool h pool (histories (wrote h pool a e' w) q ws) L H0 ->
  connected (wrote h pool a e' w) r q ws L H0.
Proof.
  intros Hc Hp Hs Hnum Hroom Hmem. pose proof Hc as [Hrd Hen Hent _ Hab].
  pose proof (fun p' Hp' Hne => wrote_others w r q ws L H0 p o a e h pool e' p' Hc Hp Hs Hp' Hne) as Hoth.
  pose proof (simple_at_wrote_same h pool w p o a e e' Hs) as Hsame. rewrite Forall_forall in Hen.
  split; [done| | |done|done].
  - rewrite Forall_forall. intros p' Hp'. destruct (Hen p' Hp') as (o1 & a1 & e2 & Hs1 & Henb & Hrest).
    destruct (decide (p' = p)) as [->|Hne].
    + exists o, a, e'. assert (o1 = o) as -> by congruence. done.
    + exists o1, a1, e2. by rewrite Hoth.
  - assert (forall x o1 a1 e2, x ∈ ws -> simple_at (wrote h pool a e' w) x = Some (o1, a1, e2) ->
      exists e3, simple_at w x = Some (o1, a1, e3)) as Hback.
    { intros x o1 a1 e2 Hx. destruct (decide (x = p)) as [->|Hne].
      - rewrite Hsame. intros [= <- <- <-]. by exists e.
      - rewrite Hoth by done. intros ->. by exists e2. }
    intros p1 p2 o1 o2 a1 e2 e3 H1 H2 S1 S2. destruct (Hback _ _ _ _ H1 S1), (Hback _ _ _ _ H2 S2). by eapply Hent.
Qed.

Lemma held_of_kept max l smp : length (held_by (kept_changes max (l ++ [smp]))) <= S (length (held_by l)).
Proof.
  pose proof (length_held_one smp). unfold kept_changes. case_decide.
  - destruct l as [|c l]; simpl; [lia|].
    change (held_by (c :: l)) with (held c ++ held_by l). rewrite held_by_app, !length_app. lia.
  - rewrite held_by_app, length_app. lia.
Qed.

(** What a data needs to be written: a payload of [L], if it has any. *)
Definition deliverable w (d : DataReceived) (L : list nat) : Prop :=
  (0 < payload_length (payload d))%Z ->
  exists x, payload_data (payload d) = Some x /\ x ∈ L /\ valid_payload (wd_heap w) (payload d).

(** One write. *)
Lemma world_write w r q ws L H0 p o a e d :
  connected w r q ws L H0 -> NoDup ws -> p ∈ ws -> simple_at w p = Some (o, a, e) ->
  deliverable w d L -> fits w q ws L 1 ->
  exists smp h pool e',
    let w' := wrote h pool a e' w in
    writer_write (CommWorld := CW) p d w = ((RETCODE_OK, set_sent_sequence_number (rw_next e) d), w') /\
    sends default_params d (writer_view o w) e smp /\
    rw_sent e' = rw_sent e ++ [smp] /\ rw_guid e' = rw_guid e /\ rw_filter e' = rw_filter e /\
    connected w' r q ws L H0 /\
    kept_for (held_by q ++ L) (wd_heap w) (wd_heap w') /\
    (0 <= reserve_count_ (wd_pool w') <= reserve_count_ (wd_pool w) + 1)%Z /\
    load w' q ws L <= S (load w q ws L).
Proof.
  intros Hc Hnd Hp Hs Hdel (Hres0 & Hres & Hload).
  destruct (list_elem_of_split _ _ Hp) as (ws1 & ws2 & ->).
  destruct (simple_at_writes _ _ _ _ _ Hs) as [Hw Hwr].
  pose proof Hc as [Hrd Hen Hent Hmem Hab].
  assert (writer_ready w p) as (o' & a' & e0 & Hs' & Henb & Hnum & Hroom) by (rewrite Forall_forall in Hen; by apply Hen).
  rewrite Hs in Hs'. injection Hs' as <- <- <-.
  set (g1 := q :: (history_of w <$> ws1)). set (g2 := history_of w <$> ws2).
  assert (history_of w p = rw_history e) as Hhist by (unfold history_of; by rewrite Hs).
  assert (histories w q (ws1 ++ p :: ws2) = g1 ++ rw_history e :: g2) as Hgs
    by (rewrite histories_split, Hhist; done).
  rewrite Hgs in Hmem. unfold load in Hload. rewrite Hgs, (Permutation_length (held_focus g1 (rw_history e) g2 L)) in Hload.
  set (others := held_by (mjoin (g1 ++ g2)) ++ L) in *.
  pose proof (shared_focus this_pool _ _ _ _ _ _ _ Hmem) as Hok. fold others in Hok.
  destruct (changes_available ALIVE (new_handle (writer_view o w) d) e Hroom) as [c Hnew].
  destruct (rw_new_change ALIVE (new_handle (writer_view o w) d) e) as [oc e1] eqn:Enew. simpl in Hnew. subst oc.
  destruct (cw_write_sends this_pool default_params d (writer_view o w) a e others H0 c e1)
    as (smp & s' & e' & Hrun & Hsend & Hwr' & Hthis & Hown & Hsent & Hg & Hm & Hf & Hh & Hdom & Hk).
  { split; [done|by split| |simpl; lia|simpl; lia].
    intros Hpos. destruct (Hdel Hpos) as (x & Hx & Hin & Hv). exists x. split_and!; [done| |done].
    apply elem_of_app. by right. }
  { done. }
  { exact Enew. }
  assert (exists h pool, wd_set_simple p s' w = wrote h pool a e' w /\ h = ws_heap s' /\ pool = ws_pool s')
    as (h & pool & Hw' & Hh' & Hpool').
  { exists (ws_heap s'), (ws_pool s'). split; [|done]. unfold wd_set_simple, wrote.
    rewrite Hthis, Hdom. cbn [ws_this writer_view ws_domain]. by rewrite (insert_id (wd_writers w) p). }
  pose proof (counts_write this_pool default_params d (writer_view o w) Hres0) as Hcnt.
  unfold exec in Hcnt. rewrite Hrun in Hcnt. cbn [snd] in Hcnt.
  exists smp, h, pool, e'. cbv zeta.
  assert (histories (wrote h pool a e' w) q (ws1 ++ p :: ws2) = g1 ++ rw_history e' :: g2) as Hgs'
    by (by eapply histories_wrote).
  split_and!; try done.
  - cbn [writer_write rtps_comm_world]. unfold wd_noexcept, on_rtps_writer. rewrite Hw, Hrun. by rewrite Hw'.
  - eapply connected_wrote; [done..|apply Hown|apply Hown|].
    rewrite Hgs'. subst h pool. eapply shared_update; [exact Hmem|apply Hown|].
    eapply kept_for_sub; [|exact Hk]. intros x Hx. apply elem_of_app. by left.
  - cbn [wrote wd_heap]. subst h. eapply kept_for_sub; [|exact Hk]. intros x [Hx|Hx]%elem_of_app.
    + apply elem_of_app. left. unfold g1. simpl. rewrite held_by_app. apply elem_of_app. by left.
    + apply elem_of_app. by right.
  - subst pool. apply Hcnt.
  - subst pool. apply Hcnt.
  - unfold load. rewrite Hgs', Hgs.
    rewrite !(Permutation_length (held_focus g1 _ g2 L)), !length_app.
    assert (length (held_by (rw_history e')) <= S (length (held_by (rw_history e)))); [|lia].
    rewrite Hh. destruct (is_reliable _); [apply held_of_kept|lia].
Qed.

(** [n] writes later: everything is still connected, the payloads in use elsewhere have
    their bytes, and the counters have grown by [n] at most. *)
Record advanced w w' (r : nat) (q : list Change) ws (L : list nat) (H0 : gset nat) (n : nat) : Prop := {
  ad_connected : connected w' r q ws L H0;
  ad_objects : same_objects w w';
  ad_kept : kept_for (held_by q ++ L) (wd_heap w) (wd_heap w');
  ad_reserved : (0 <= reserve_count_ (wd_pool w') <= reserve_count_ (wd_pool w) + Z.of_nat n)%Z;
  ad_load : load w' q ws L <= load w q ws L + n;
  ad_untouched : untouched w w' r ws
}.

Lemma advanced_trans w1 w2 w3 r q ws L H0 n m :
  advanced w1 w2 r q ws L H0 n -> advanced w2 w3 r q ws L H0 m -> advanced w1 w3 r q ws L H0 (n + m).
Proof.
  intros [C1 [O1 O1'] K1 R1 D1 U1] [C2 [O2 O2'] K2 R2 D2 U2]. split; [done|split; congruence| |lia|lia|].
  - by eapply kept_for_trans.
  - by eapply untouched_trans.
Qed.

Lemma fits_advanced w w' r q ws L H0 n m :
  advanced w w' r q ws L H0 n -> fits w q ws L (n + m) -> fits w' q ws L m.
Proof. intros [_ _ _ HR HD _] (F0 & F1 & F2). unfold fits. lia. Qed.

Lemma deliverable_kept w w' r q ws L H0 n d :
  advanced w w' r q ws L H0 n -> deliverable w d L -> deliverable w' d L.
Proof.
  intros Had Hd Hpos. destruct (Hd Hpos) as (x & Hx & Hin & Hv). exists x. split_and!; [done..|].
  apply (held_valid_kept _ _ _ _ x (ad_kept _ _ _ _ _ _ _ _ Had)); [done| |done]. apply elem_of_app. by right.
Qed.

(** The same data, for the changes and the bytes that go out of it. *)
Definition same_data (d d' : DataReceived) : Prop := payload d' = payload d /\ properties d' = properties d.

Lemma deliverable_same w d d' L : same_data d d' -> deliverable w d L -> deliverable w d' L.
Proof. intros [Hp _]. unfold deliverable. by rewrite Hp. Qed.

Lemma sends_kept w w' r q ws L H0 n d d' o e smp :
  advanced w w' r q ws L H0 n -> deliverable w d L -> same_data d d' ->
  sends default_params d' (writer_view o w') e smp -> sends default_params d (writer_view o w) e smp.
Proof.
  intros Had Hd [Hp Hpr] [[F1 F2 F3 F4 F5 F6 F7] Hm]. rewrite Hpr in *. split; [by split|].
  rewrite Hm. unfold message_of. rewrite Hp. case_decide as Hpos; [|done].
  destruct (Hd Hpos) as (x & Hx & Hin & Hv). cbn [ws_heap writer_view].
  apply (held_valid_kept _ _ _ _ x (ad_kept _ _ _ _ _ _ _ _ Had)); [done| |done]. apply elem_of_app. by right.
Qed.

(** What the writer [p] has sent of the data [d] when those of [l] have written it. *)
Definition has_sent w w' (l : list nat) (d : DataReceived) (p : nat) : Prop :=
  forall o a e, simple_at w p = Some (o, a, e) ->
    exists e', simple_at w' p = Some (o, a, e') /\ rw_guid e' = rw_guid e /\ rw_filter e' = rw_filter e /\
      if decide (p ∈ l)
      then exists smp, rw_sent e' = rw_sent e ++ [smp] /\ sends default_params d (writer_view o w) e smp
      else e' = e.

(** The loop over the writers. *)
Lemma world_write_all ws l w r q L H0 d :
  connected w r q ws L H0 -> NoDup ws -> NoDup l -> (forall p, p ∈ l -> p ∈ ws) ->
  deliverable w d L -> fits w q ws L (length l) ->
  exists d' w', write_all (CW := CW) l d w = (d', w') /\ same_data d d' /\
    advanced w w' r q ws L H0 (length l) /\ forall p, p ∈ ws -> has_sent w w' l d p.
Proof.
  intros Hc Hnd Hndl. revert w d Hc. induction Hndl as [|p l Hnin Hndl IH]; intros w d Hc Hsub Hdel Hfit.
  { exists d, w. split_and!; [done|done| |].
    - destruct Hfit as (? & ? & ?). split; [done|done|apply kept_for_refl|lia|lia|by apply untouched_same].
    - intros p _ o a e Hs. exists e. by split_and!. }
  assert (p ∈ ws) as Hp by (apply Hsub; set_solver).
  destruct (ready_at _ _ _ (cn_writers _ _ _ _ _ _ Hc) Hp) as (o & a & e & Hs).
  destruct (world_write w r q ws L H0 p o a e d Hc Hnd Hp Hs Hdel) as (smp & h & pool & e1 & Hrun & Hsend & Hsent & Hg & Hf & Hc1 & Hk1 & Hr1 & Hl1).
  { destruct Hfit as (? & ? & ?). simpl in *. unfold fits. lia. }
  set (w1 := wrote h pool a e1 w) in *. set (d1 := set_sent_sequence_number (rw_next e) d) in *.
  assert (advanced w w1 r q ws L H0 1) as Had1 by (split; [done|done|done|lia|lia|by eapply untouched_wrote]).
  assert (same_data d d1) as Hsame by done.
  destruct (IH w1 d1 Hc1) as (d' & w' & Hrun' & [Hp' Hpr'] & Had' & Hsent').
  { intros x Hx. apply Hsub. set_solver. }
  { by eapply deliverable_kept. }
  { eapply fits_advanced; [exact Had1|exact Hfit]. }
  exists d', w'. split_and!.
  - cbn [write_all]. rewrite Hrun. exact Hrun'.
  - by split.
  - exact (advanced_trans _ _ _ _ _ _ _ _ _ _ Had1 Had').
  - intros x Hx ox ax ex Hsx. destruct (decide (x = p)) as [->|Hne].
    + assert (ox = o /\ ax = a /\ ex = e) as (-> & -> & ->) by (rewrite Hs in Hsx; by injection Hsx as <- <- <-).
      destruct (Hsent' p Hx o a e1) as (e2 & Hs2 & Hg2 & Hf2 & Hcase); [by eapply simple_at_wrote_same|].
      rewrite decide_False in Hcase by done. subst e2. exists e1. split_and!; try done.
      rewrite decide_True by set_solver. by exists smp.
    + assert (simple_at w1 x = Some (ox, ax, ex)) as Hs1
        by (unfold w1; by rewrite (wrote_others w r q ws L H0 p o a e _ _ _ _ Hc Hp Hs Hx Hne)).
      destruct (Hsent' x Hx ox ax ex Hs1) as (e2 & Hs2 & Hg2 & Hf2 & Hcase).
      exists e2. split_and!; try done. destruct (decide (x ∈ l)) as [Hin|Hnin'].
      * rewrite decide_True by set_solver. destruct Hcase as (smp' & ? & Hsd). exists smp'. split; [done|].
        eapply sends_kept; [exact Had1|done|exact Hsame|exact Hsd].
      * rewrite decide_False by set_solver. done.
Qed.

Lemma simple_at_reader w r s p : simple_at (wd_set_reader r s w) p = simple_at w p.
Proof. done. Qed.

Lemma histories_reader w r s q ws : histories (wd_set_reader r s w) q ws = histories w q ws.
Proof. done. Qed.

(** The world after the reader [r] took its oldest change. *)
Lemma connected_taken w r c q ws L L' H0 ro a e' s' :
  connected w r (c :: q) ws L H0 ->
  wd_readers w !! r = Some ro -> br_enabled_ (cr_base ro) = true ->
  rs_this s' = ro -> reads s' a e' -> rr_untaken e' = q ->
  shared_ok this_pool (rs_heap s') (rs_pool s') (histories w q ws) L' H0 ->
  connected (wd_set_reader r s' w) r q ws L' H0.
Proof.
  intros [_ Hen Hent _ Hab] Hr Henb Ht [Ha Hd] Hu Hmem. split; try done.
  exists ro, a, e'. cbn [wd_set_reader wd_readers wd_rtps_readers]. rewrite lookup_insert_eq. rewrite <- Ht at 1.
  split_and!; try done. by rewrite <- Ht.
Qed.

(** What a take gives. *)
Definition taken w w1 (r : nat) (ro : CommonReader) c q ws L H0 (ret : ReturnCode) (d : DataReceived) : Prop :=
  (~ acceptable (br_topic_ (cr_base ro)) c /\ ret = RETCODE_ERROR /\
     connected w1 r q ws L H0 /\ load w1 q ws L <= load w (c :: q) ws L) \/
  (acceptable (br_topic_ (cr_base ro)) c /\ ret = RETCODE_OK /\
     received (reader_view ro w) c (properties default_data) (properties d) /\
     exists L', connected w1 r q ws L' H0 /\ load w1 q ws L' <= S (load w (c :: q) ws L) /\
       if decide (0 < payload_length (serializedPayload (ch_payload c)))%Z
       then exists x, payload_data (payload d) = Some x /\ L' = x :: L /\
         valid_payload (wd_heap w1) (payload d) /\
         contents (wd_heap w1) (payload d) = contents (wd_heap w) (serializedPayload (ch_payload c))
       else payload d = Payload_empty /\ L' = L).

Lemma load_cons w q ws x L : load w q ws (x :: L) = S (load w q ws L).
Proof. unfold load. rewrite !length_app. cbn [length]. lia. Qed.

Lemma load_take w r s c q ws L : load (wd_set_reader r s w) q ws L <= load w (c :: q) ws L.
Proof.
  unfold load. rewrite histories_reader. unfold histories. simpl.
  change (held_by (c :: q ++ mjoin (history_of w <$> ws))) with (held c ++ held_by (q ++ mjoin (history_of w <$> ws))).
  rewrite !length_app. lia.
Qed.

Lemma world_take w r c q ws L H0 ro :
  connected w r (c :: q) ws L H0 -> fits w (c :: q) ws L 1 -> wd_readers w !! r = Some ro ->
  exists ret d w1, reader_take (CommWorld := CW) r (new_data (CommWorld := CW)) w = ((ret, d), w1) /\
    same_objects w w1 /\ wd_rtps_writers w1 = wd_rtps_writers w /\ untouched w w1 r ws /\
    kept_for (held_by q ++ L) (wd_heap w) (wd_heap w1) /\
    (0 <= reserve_count_ (wd_pool w1) <= reserve_count_ (wd_pool w) + 1)%Z /\
    taken w w1 r ro c q ws L H0 ret d.
Proof.
  intros Hc (Hres0 & Hres & Hload) Hro. pose proof Hc as [(o & a & e & Ho & Hen & Ha & He & Hu) _ _ Hmem _].
  rewrite Hro in Ho. injection Ho as <-.
  set (g2 := history_of w <$> ws). set (others := held_by (mjoin g2) ++ L).
  assert (shared_ok this_pool (wd_heap w) (wd_pool w) ([] ++ (c :: q) :: g2) L H0) as Hmem' by exact Hmem.
  pose proof (shared_focus this_pool _ _ _ _ _ _ _ Hmem') as Hok. cbn [app] in Hok. fold others in Hok.
  assert (held_by (mjoin (histories w (c :: q) ws)) ++ L ≡ₚ held_by (c :: q) ++ others) as Hperm
    by exact (held_focus [] (c :: q) g2 L).
  unfold load in Hload. rewrite (Permutation_length Hperm) in Hload.
  destruct (cr_take_run this_pool default_data (reader_view ro w) a e c q others H0)
    as (ret & d & s' & e' & Hrun & Hr' & Hu' & (Ht & Hcalls & Hdb) & Hdom & Hguid & Hk & Hcase); try done.
  { unfold reader_owns. by rewrite Hu. }
  { by rewrite default_payload. }
  { by rewrite Hu. }
  assert (kept_for (held_by (mjoin ([] ++ g2))) (wd_heap w) (rs_heap s')) as Hk2.
  { eapply kept_for_sub; [|exact Hk]. intros x Hx. apply elem_of_app. right. apply elem_of_app. by left. }
  assert (forall L', history_ok this_pool (rs_heap s') (rs_pool s') q (held_by (mjoin g2) ++ L') H0 ->
    connected (wd_set_reader r s' w) r q ws L' H0) as Hconn.
  { intros L' Hok'. eapply connected_taken; try done.
    exact (shared_update this_pool _ _ _ _ [] (c :: q) q g2 L L' H0 Hmem' Hok' Hk2). }
  exists ret, d, (wd_set_reader r s' w). split_and!.
  - cbn [reader_take rtps_comm_world new_data]. unfold wd_noexcept, on_rtps_reader. by rewrite Hro, Hrun.
  - split; [done|]. cbn [wd_set_reader wd_readers]. rewrite Ht. by apply insert_id.
  - done.
  - assert (wd_rtps_readers (wd_set_reader r s' w) = <[a := e']> (wd_rtps_readers w)) as Hdom' by exact Hdom.
    split; [done|..]; rewrite Hdom'.
    + intros a' Ha'. apply lookup_insert_ne. intros ->. exact (Ha' ro Hro Ha).
    + intros a' e0 He0. destruct (decide (a' = a)) as [->|Hne]; [|rewrite lookup_insert_ne; eauto].
      rewrite lookup_insert_eq. eauto.
  - eapply kept_for_sub; [|exact Hk]. intros x [Hx|Hx]%elem_of_app; apply elem_of_app; [by left|right].
    apply elem_of_app. by right.
  - pose proof (counts_take this_pool default_data (reader_view ro w) Hres0) as Hcnt.
    unfold exec in Hcnt. rewrite Hrun in Hcnt. apply Hcnt.
  - pose proof (counts_take this_pool default_data (reader_view ro w) Hres0) as Hcnt.
    unfold exec in Hcnt. rewrite Hrun in Hcnt. apply Hcnt.
  - destruct Hcase as [(Hn & -> & -> & Hown)|(Hacc & -> & Hrec & Hp)]; [left|right].
    + unfold reader_owns in Hown. rewrite Hu' in Hown. split_and!; try done; [by apply Hconn|apply load_take].
    + split_and!; try done. case_decide as Hpos.
      * destruct Hp as (x & Hx & Hown & Hv & Hcont). unfold reader_owns in Hown. rewrite Hu' in Hown.
        exists (x :: L). split_and!; [apply Hconn| |by exists x].
        { assert (x :: held_by (mjoin g2) ++ L ≡ₚ held_by (mjoin g2) ++ x :: L) as Hpx by (by rewrite Permutation_middle).
          by eapply history_others. }
        { pose proof (load_take w r s' c q ws L). rewrite load_cons. lia. }
      * destruct Hp as [Hpd Hown]. unfold reader_owns in Hown. rewrite Hu' in Hown. exists L.
        split_and!; [by apply Hconn| |by rewrite Hpd|done].
        pose proof (load_take w r s' c q ws L). lia.
Qed.

(** The payload [x] goes back to the pool. *)
Lemma world_release w r q ws x L H0 p :
  connected w r q ws (x :: L) H0 -> payload_data p = Some x -> (Z.of_nat (load w q ws (x :: L)) < 2 ^ 32)%Z ->
  exists h pool, (pool_release (CommWorld := CW) p w).2 = wd_set_memory h pool w /\
    connected (wd_set_memory h pool w) r q ws L H0 /\
    kept_for (held_by q ++ L) (wd_heap w) h /\ reserve_count_ pool = reserve_count_ (wd_pool w).
Proof.
  intros [Hrd Hen Hent [Hacc Hrf Hch Hd] Hab] Hp Hload.
  set (held := held_by (mjoin (histories w q ws))) in *.
  assert (held ++ x :: L ≡ₚ x :: (held ++ L)) as Hperm by (by rewrite Permutation_middle).
  unfold load in Hload. fold held in Hload. rewrite (Permutation_length Hperm) in Hload.
  destruct (spec_release x (PayloadPool.mkP (wd_heap w) (wd_pool w) p) (held ++ L) H0)
    as (s' & Hrun & Hacc' & Hrf' & Hk & _); try done.
  { by eapply accounts_perm. } { by eapply refs_inv_perm. }
  exists (p_heap s'), (p_pool s'). split_and!.
  - cbn [pool_release rtps_comm_world]. unfold wd_noexcept, on_world_pool. by rewrite Hrun.
  - split; try done. split; try done. apply (changes_transfer this_pool (wd_heap w)); [|done].
    eapply kept_for_shrink; [exact Hacc'| |exact Hk]. intros y Hy. apply elem_of_app. by left.
  - eapply kept_for_shrink; [exact Hacc'| |exact Hk]. intros y [Hy|Hy]%elem_of_app; apply elem_of_app; [left|by right].
    unfold held, histories. simpl. rewrite held_by_app. apply elem_of_app. by left.
  - pose proof (spec_release_count (PayloadPool.mkP (wd_heap w) (wd_pool w) p)) as Hcnt.
    unfold exec in Hcnt. rewrite Hrun in Hcnt. exact Hcnt.
Qed.

(** What a writer sends of a change: the same message, kind, time and reply identity,
    and the key of the instance where both topics have one; and its filter lets it reach
    the readers of the other participants, but in a repeater those the change comes
    from. *)
Record relayed (ro : CommonReader) (o : CommonWriter) (g : Guid) (h : heap) (c : Change) (smp : sample) :
    Prop := {
  rl_writer : ch_writerGUID smp.1 = g;
  rl_kind : ch_kind smp.1 = ch_kind c;
  rl_timestamp : ch_sourceTimestamp smp.1 = ch_sourceTimestamp c;
  rl_related : related_sample_identity (ch_write_params smp.1) = related_sample_identity (ch_write_params c);
  rl_handle : keyed (br_topic_ (cr_base ro)) = true -> keyed (bw_topic_ (cw_base o)) = true ->
    ch_instanceHandle smp.1 = ch_instanceHandle c;
  rl_message : smp.2 =
    if decide (0 < payload_length (serializedPayload (ch_payload c)))%Z
    then contents h (serializedPayload (ch_payload c)) else None;
  rl_reaches : forall reader, is_relevant (filter_of o) smp.1 reader = true <->
    guidPrefix reader <> guidPrefix g /\
    (repeater_ o = true -> guidPrefix reader <> guidPrefix (ch_writerGUID c))
}.

Lemma relayed_sends w w1 ro o e c before d smp :
  received (reader_view ro w) c before (properties d) ->
  sends default_params d (writer_view o w1) e smp ->
  message_of (writer_view o w1) d =
    (if decide (0 < payload_length (serializedPayload (ch_payload c)))%Z
     then contents (wd_heap w) (serializedPayload (ch_payload c)) else None) ->
  relayed ro o (rw_guid e) (wd_heap w) c smp.
Proof.
  intros [Rs Rt Rr Rk Rn [Rp1 Rp2] Rh Rq] [Hf Hm] Hmsg.
  pose proof (fun g => forwards_relevant default_params _ e d smp.1 g Hf) as Hrel.
  destruct Hf as [F1 F2 F3 F4 F5 F6 F7]. rewrite Rp1, Rp2 in F5.
  split; try congruence.
  - intros Hk1 Hk2. rewrite F6 by done. rewrite Rh.
    change (topic_of (reader_view ro w)) with (br_topic_ (cr_base ro)). by rewrite Hk1.
  - intros reader. rewrite <- Rs. exact (Hrel reader).
Qed.

(** The data is as long as the change it was taken from. *)
Lemma taken_length w w1 c d :
  change_ok (wd_heap w) this_pool c -> (0 < payload_length (serializedPayload (ch_payload c)))%Z ->
  valid_payload (wd_heap w1) (payload d) ->
  contents (wd_heap w1) (payload d) = contents (wd_heap w) (serializedPayload (ch_payload c)) ->
  (0 < payload_length (payload d))%Z.
Proof.
  intros Hok Hpos Hv Hcont.
  assert (valid_payload (wd_heap w) (serializedPayload (ch_payload c))) as Hvc.
  { unfold change_ok in Hok. destruct (payload_owner _); [by destruct Hok|lia]. }
  by rewrite (same_contents_length _ _ _ _ Hvc Hv Hcont).
Qed.

(** The reader has one change less, and at most [n] blocks were reserved. *)
Record moved w w' (r : nat) c (q : list Change) ws (L : list nat) (H0 : gset nat) (n : nat) : Prop := {
  mv_connected : connected w' r q ws L H0;
  mv_objects : same_objects w w';
  mv_kept : kept_for (held_by q ++ L) (wd_heap w) (wd_heap w');
  mv_reserved : (0 <= reserve_count_ (wd_pool w') <= reserve_count_ (wd_pool w) + Z.of_nat n)%Z;
  mv_load : load w' q ws L <= load w (c :: q) ws L + n;
  mv_untouched : untouched w w' r ws
}.

(** The entity of [p] has sent [smp] more. *)
Definition sent_more w w' (p : nat) (P : CommonWriter -> RTPSWriter -> list sample -> Prop) : Prop :=
  forall o a e, simple_at w p = Some (o, a, e) ->
    exists e' l, simple_at w' p = Some (o, a, e') /\ rw_guid e' = rw_guid e /\ rw_filter e' = rw_filter e /\
      rw_sent e' = rw_sent e ++ l /\ P o e l.

Lemma change_of_reader w r c q ws L H0 : connected w r (c :: q) ws L H0 -> change_ok (wd_heap w) this_pool c.
Proof.
  intros [_ _ _ [_ _ Hch _] _]. unfold histories in Hch. simpl in Hch. by apply Forall_cons in Hch as [? _].
Qed.

(** The data is written by every writer and its payload, if any, released. *)
Lemma world_forward (t : Track) w r q ws L L' H0 d :
  values (writers_ t) = ws -> NoDup ws -> connected w r q ws L' H0 ->
  (if decide (0 < payload_length (payload d))%Z
   then exists x, payload_data (payload d) = Some x /\ L' = x :: L /\ valid_payload (wd_heap w) (payload d)
   else L' = L) ->
  fits w q ws L' (length ws) ->
  exists w', forward (CW := CW) t d w = w' /\ connected w' r q ws L H0 /\ same_objects w w' /\
    kept_for (held_by q ++ L) (wd_heap w) (wd_heap w') /\
    (0 <= reserve_count_ (wd_pool w') <= reserve_count_ (wd_pool w) + Z.of_nat (length ws))%Z /\
    load w' q ws L <= load w q ws L' + length ws /\ untouched w w' r ws /\
    forall p, p ∈ ws -> sent_more w w' p (fun o e l =>
      exists smp, l = [smp] /\ sends default_params d (writer_view o w) e smp).
Proof.
  intros Hws Hnd Hc Hpay Hfit.
  assert (deliverable w d L') as Hdel.
  { intros Hpos. rewrite decide_True in Hpay by done. destruct Hpay as (x & Hx & -> & Hv).
    exists x. split_and!; [done|set_solver|done]. }
  assert (forall y, y ∈ L -> y ∈ L') as Hsub.
  { case_decide; [destruct Hpay as (x & _ & -> & _); set_solver|by subst]. }
  destruct (world_write_all ws ws w r q L' H0 d Hc Hnd Hnd (fun _ H => H) Hdel Hfit)
    as (d' & w1 & Hrun & [Hp Hpr] & Had & Hsent).
  assert (kept_for (held_by q ++ L) (wd_heap w) (wd_heap w1)) as Hk1.
  { eapply kept_for_sub; [|exact (ad_kept _ _ _ _ _ _ _ _ Had)]. intros y. rewrite !elem_of_app. naive_solver. }
  assert (forall p, p ∈ ws -> sent_more w w1 p (fun o e l =>
      exists smp, l = [smp] /\ sends default_params d (writer_view o w) e smp)) as Hmore.
  { intros p Hin o a e Hs. destruct (Hsent p Hin o a e Hs) as (e' & Hs' & Hg & Hf & Hcase).
    rewrite decide_True in Hcase by done. destruct Hcase as (smp & Hse & Hsd). exists e', [smp]. split_and!; try done.
    by exists smp. }
  pose proof Had as [Hc1 Hobj1 _ Hr1 Hl1 Hu1]. unfold forward. rewrite Hws, Hrun. rewrite Hp. case_decide as Hpos.
  - destruct Hpay as (x & Hx & -> & Hv). rewrite (proj2 (Z.ltb_lt _ _)) by done.
    destruct (world_release w1 r q ws x L H0 (payload d) Hc1 Hx) as (h & pool & Hrel & Hc2 & Hk2 & Hcnt).
    { destruct Hfit as (_ & _ & ?). lia. }
    exists (wd_set_memory h pool w1). split_and!; try done.
    + by eapply kept_for_trans.
    + simpl. rewrite Hcnt. lia.
    + simpl. rewrite Hcnt. lia.
    + rewrite (load_cons w1), (load_cons w) in Hl1. rewrite load_cons. change (load (wd_set_memory h pool w1) q ws L) with (load w1 q ws L). lia.
    + destruct Hu1. by split.
  - subst L'. rewrite (proj2 (Z.ltb_ge _ _)) by lia. exists w1. split_and!; try done; apply Hobj1 || lia.
Qed.

(** One change that the reader accepts: taken, written by every writer, released. *)
Lemma one_change (t : Track) w c q ws L H0 ro :
  values (writers_ t) = ws -> NoDup ws -> connected w (reader_ t) (c :: q) ws L H0 ->
  fits w (c :: q) ws L (S (length ws)) ->
  wd_readers w !! reader_ t = Some ro -> acceptable (br_topic_ (cr_base ro)) c ->
  exists d w1 w2, reader_take (CommWorld := CW) (reader_ t) (new_data (CommWorld := CW)) w = ((RETCODE_OK, d), w1) /\
    forward (CW := CW) t d w1 = w2 /\ moved w w2 (reader_ t) c q ws L H0 (S (length ws)) /\
    forall p, p ∈ ws -> sent_more w w2 p (fun o e l =>
      exists smp, l = [smp] /\ relayed ro o (rw_guid e) (wd_heap w) c smp).
Proof.
  intros Hws Hnd Hc Hfit Hro Hacc. destruct Hfit as (F0 & F1 & F2).
  destruct (world_take w (reader_ t) c q ws L H0 ro Hc) as (ret & d & w1 & Htake & Hobj & Hent & Hun & Hk & Hr & Htk); [|done|].
  { unfold fits. lia. }
  destruct Htk as [(? & _)|(_ & -> & Hrec & L' & Hc1 & Hl1 & Hpay)]; [done|].
  assert (if decide (0 < payload_length (payload d))%Z
    then exists x, payload_data (payload d) = Some x /\ L' = x :: L /\ valid_payload (wd_heap w1) (payload d)
    else L' = L) as Hpay'.
  { destruct (decide (0 < payload_length (serializedPayload (ch_payload c)))%Z) as [Hpos|Hz].
    - destruct Hpay as (x & Hx & -> & Hv & Hcont).
      rewrite decide_True; [by exists x|].
      by eapply (taken_length w w1); [eapply change_of_reader|..].
    - destruct Hpay as [-> ->]. by rewrite decide_False. }
  destruct (world_forward t w1 (reader_ t) q ws L L' H0 d Hws Hnd Hc1 Hpay')
    as (w2 & Hfwd & Hc2 & Hobj2 & Hk2 & Hr2 & Hl2 & Hu2 & Hsent).
  { unfold fits. lia. }
  exists d, w1, w2. split_and!; try done.
  - split; [done| | |lia|lia|].
    + destruct Hobj, Hobj2. split; congruence.
    + by eapply kept_for_trans.
    + by eapply untouched_trans.
  - intros p Hin o a e Hs.
    assert (simple_at w1 p = Some (o, a, e)) as Hs1.
    { unfold simple_at in *. destruct Hobj as [-> _]. by rewrite Hent. }
    destruct (Hsent p Hin o a e Hs1) as (e' & l & Hs2 & Hg & Hf & Hse & smp & -> & Hsd).
    exists e', [smp]. split_and!; try done. exists smp. split; [done|].
    eapply relayed_sends; [exact Hrec|exact Hsd|].
    destruct (decide (0 < payload_length (serializedPayload (ch_payload c)))%Z) as [Hpos|Hz].
    + destruct Hpay as (x & Hx & -> & Hv & Hcont).
      unfold message_of. rewrite decide_True; [exact Hcont|].
      by eapply (taken_length w w1); [eapply change_of_reader|..].
    + destruct Hpay as [Hpe _]. unfold message_of. by rewrite Hpe.
Qed.

Lemma relayed_kept ro o g h h' c smp :
  change_ok h this_pool c -> kept_for (held c) h h' -> relayed ro o g h' c smp -> relayed ro o g h c smp.
Proof.
  intros Hok Hk [R1 R2 R3 R4 R5 R6 R7]. split; try done. rewrite R6. case_decide as Hpos; [|done].
  unfold change_ok in Hok. destruct (payload_owner (ch_payload c)) as [n|] eqn:Ho; [|lia].
  destruct Hok as [_ Hv]. pose proof Hv as (x & b & Hx & _).
  apply (held_valid_kept _ _ _ _ x Hk); [done| |done]. unfold held. rewrite Ho, Hx. set_solver.
Qed.

Lemma sent_more_trans w1 w2 w3 p (P Q R : CommonWriter -> RTPSWriter -> list sample -> Prop) :
  sent_more w1 w2 p P -> sent_more w2 w3 p Q ->
  (forall o e e' l l', rw_guid e' = rw_guid e -> P o e l -> Q o e' l' -> R o e (l ++ l')) ->
  sent_more w1 w3 p R.
Proof.
  intros H12 H23 HR o a e Hs. destruct (H12 o a e Hs) as (e2 & l & Hs2 & Hg2 & Hf2 & Hse2 & HP).
  destruct (H23 o a e2 Hs2) as (e3 & l' & Hs3 & Hg3 & Hf3 & Hse3 & HQ). exists e3, (l ++ l').
  split_and!; [done|congruence|congruence|by rewrite Hse3, Hse2, app_assoc|by eapply HR].
Qed.

(** What every writer sends when the reader had the changes [q]. *)
Definition relays_all (ro : CommonReader) (h : heap) (q : list Change) (o : CommonWriter) (e : RTPSWriter)
    (l : list sample) : Prop :=
  Forall2 (relayed ro o (rw_guid e) h) (filter (acceptable (br_topic_ (cr_base ro))) q) l.

Lemma changes_of_reader w r q ws L H0 : connected w r q ws L H0 -> Forall (change_ok (wd_heap w) this_pool) q.
Proof. intros [_ _ _ [_ _ Hch _] _]. unfold histories in Hch. simpl in Hch. by apply Forall_app in Hch as [? _]. Qed.

Lemma relays_kept ro h h' q o e l :
  Forall (change_ok h this_pool) q -> kept_for (held_by q) h h' -> relays_all ro h' q o e l -> relays_all ro h q o e l.
Proof.
  unfold relays_all. intros Hq Hk HF. rewrite Forall_forall in Hq. eapply Forall2_impl_in; [exact HF|].
  intros c smp [_ Hc]%list_elem_of_filter Hr. eapply relayed_kept; [by apply Hq| |exact Hr].
  eapply kept_for_sub; [|exact Hk]. intros x Hx. by eapply held_elem.
Qed.

(** What [n] messages and writes have spent of the counters at most. *)
Definition spent w (q : list Change) w' (q' : list Change) ws L (n : nat) : Prop :=
  (0 <= reserve_count_ (wd_pool w') <= reserve_count_ (wd_pool w) + Z.of_nat n)%Z /\
  load w' q' ws L <= load w q ws L + n.

(** All the changes of the reader. *)
Lemma gives_changes (t : Track) ws q : forall w L H0 ro,
  values (writers_ t) = ws -> NoDup ws -> connected w (reader_ t) q ws L H0 ->
  fits w q ws L (length q * S (length ws)) -> wd_readers w !! reader_ t = Some ro ->
  exists l w', gives (CW := CW) t w l w' /\ connected w' (reader_ t) [] ws L H0 /\ same_objects w w' /\ untouched w w' (reader_ t) ws /\
    kept_for L (wd_heap w) (wd_heap w') /\ spent w q w' [] ws L (length q * S (length ws)) /\
    forall p, p ∈ ws -> sent_more w w' p (relays_all ro (wd_heap w) q).
Proof.
  induction q as [|c q IH]; intros w L H0 ro Hws Hnd Hc Hfit Hro.
  { exists [], w. split_and!; try done.
    - destruct Hc as [(o & a & e & Ho & Hen & Ha & He & Hu) _ _ _ _].
      apply (gives_none t w default_data w). cbn [reader_take rtps_comm_world new_data].
      unfold wd_noexcept, on_rtps_reader. rewrite Ho.
      rewrite (cr_take_empty this_pool default_data (reader_view o w) a e) by done.
      unfold wd_set_reader. simpl. rewrite insert_id by done. by destruct w.
    - by apply untouched_same.
    - apply kept_for_refl.
    - destruct Hfit as (? & _ & _). unfold spent. lia.
    - intros p Hp o a e Hs. exists e, []. split_and!; try done; [by rewrite app_nil_r|]. constructor. }
  cbn [length] in Hfit.
  assert (forall w2 n, moved w w2 (reader_ t) c q ws L H0 n -> n <= S (length ws) ->
    fits w2 q ws L (length q * S (length ws))) as Hfit2.
  { intros w2 n [_ _ _ HR HD _] Hn. destruct Hfit as (F0 & F1 & F2). unfold fits. lia. }
  assert (forall w2 n, moved w w2 (reader_ t) c q ws L H0 n -> forall p, p ∈ ws ->
    forall o e l, relays_all ro (wd_heap w2) q o e l -> relays_all ro (wd_heap w) q o e l) as Hback.
  { intros w2 n Hm p Hp o e l. apply relays_kept.
    - by apply changes_of_reader, Forall_cons in Hc as [_ ?].
    - eapply kept_for_sub; [|exact (mv_kept _ _ _ _ _ _ _ _ _ Hm)]. intros x Hx. apply elem_of_app. by left. }
  assert (forall w2 n h, moved w w2 (reader_ t) c q ws L H0 n -> kept_for L (wd_heap w2) h -> kept_for L (wd_heap w) h) as Hkept.
  { intros w2 n h Hm. apply kept_for_trans. eapply kept_for_sub; [|exact (mv_kept _ _ _ _ _ _ _ _ _ Hm)].
    intros x Hx. apply elem_of_app. by right. }
  assert (forall w2 w' n, moved w w2 (reader_ t) c q ws L H0 n -> n <= S (length ws) ->
    spent w2 q w' [] ws L (length q * S (length ws)) -> spent w (c :: q) w' [] ws L (S (length q) * S (length ws))) as Hspent.
  { intros w2 w' n [_ _ _ HR HD _] Hn [S1 S2]. unfold spent. lia. }
  destruct (decide (acceptable (br_topic_ (cr_base ro)) c)) as [Hacc|Hnacc].
  - destruct (one_change t w c q ws L H0 ro) as (d & w1 & w2 & Htake & Hfwd & Hm & Hsent); try done.
    { destruct Hfit as (F0 & F1 & F2). unfold fits. lia. }
    pose proof (mv_objects _ _ _ _ _ _ _ _ _ Hm) as [Ow Or].
    destruct (IH w2 L H0 ro) as (l & w' & Hg & Hc' & [Ow' Or'] & Hu' & Hk' & Hsp' & Hsent'); try done.
    { by eapply mv_connected. } { by eapply Hfit2. } { by rewrite Or. }
    exists (d :: l), w'.
    split_and!; [|done|split; congruence|eapply untouched_trans; [apply Hm|apply Hm|done]|by eapply Hkept|by eapply Hspent|].
    + eapply gives_forward; [exact Htake|]. by rewrite Hfwd.
    + intros p Hp. eapply sent_more_trans; [by apply Hsent|by apply Hsent'|].
      intros o e e' l1 l2 Hg' (smp & -> & Hr) HF. unfold relays_all. rewrite filter_cons_True by done.
      constructor; [done|]. rewrite <- Hg'. by eapply Hback.
  - destruct (world_take w (reader_ t) c q ws L H0 ro Hc) as (ret & d & w1 & Htake & Hobj & Hent & Hun & Hk & Hr & Htk); [|done|].
    { destruct Hfit as (F0 & F1 & F2). unfold fits. lia. }
    destruct Htk as [(_ & -> & Hc1 & Hl1)|(? & _)]; [|done].
    assert (moved w w1 (reader_ t) c q ws L H0 1) as Hm by (split; [done|done|done|lia|lia|done]).
    destruct Hobj as [Ow Or].
    destruct (IH w1 L H0 ro) as (l & w' & Hg & Hc' & [Ow' Or'] & Hu' & Hk' & Hsp' & Hsent'); try done.
    { eapply Hfit2; [exact Hm|lia]. } { by rewrite Or. }
    exists l, w'.
    split_and!; [|done|split; congruence|eapply untouched_trans; [apply Hm|apply Hm|done]|by eapply Hkept|eapply Hspent; [exact Hm|lia|done]|].
    + by eapply gives_error.
    + intros p Hp o a e Hs. destruct (Hsent' p Hp o a e) as (e' & l' & ? & ? & ? & ? & HF).
      { unfold simple_at in *. rewrite Ow. by rewrite Hent. }
      exists e', l'. split_and!; try done. unfold relays_all. rewrite filter_cons_False by done. by eapply Hback.
Qed.

(** ** Properties *)

(** End to end over RTPS.  An enabled track whose reader has the changes [q] of its
    network and whose writers are enabled: [transmit_] ends, with the reader empty and no
    exception nor undefined behaviour; every writer has sent, after what it had sent
    before, one sample for each change that the reader accepts, in their order, with the
    same bytes, kind, source time, instance and reply identity, that reaches every
    participant but the writer's own and, in a repeater, the one it comes from; no other
    writer sends anything; and the pool holds afterwards exactly what the histories of the
    writers keep and what others had. *)
Theorem rtps_track_end_to_end (t : Track) w q L H0 ro :
  let ws := values (writers_ t) in
  should_transmit_ t = true -> NoDup ws ->
  connected w (reader_ t) q ws L H0 -> wd_readers w !! reader_ t = Some ro ->
  fits w q ws L (length q * S (length ws)) ->
  exists w', (exists n, forall fuel, n <= fuel ->
      transmit_ (CW := CW) fuel (t, w) = (set_status no_more_data t, w')) /\
    connected w' (reader_ t) [] ws L H0 /\ untouched w w' (reader_ t) ws /\
    forall p, p ∈ ws -> sent_more w w' p (relays_all ro (wd_heap w) q).
Proof.
  intros ws Ht Hnd Hc Hro Hfit.
  destruct (gives_changes t ws q w L H0 ro eq_refl Hnd Hc Hfit Hro) as (l & w' & Hg & Hc' & _ & Hu & _ & _ & Hsent).
  exists w'. split_and!; [|done..]. by apply transmit_gives with (l := l).
Qed.

(** A change [c] arrives at an enabled reader from another participant. *)
Lemma arrive_run s a e c task :
  reads (C := C) s a e -> br_enabled_ (cr_base (rs_this s)) = true ->
  br_on_data_available_ (cr_base (rs_this s)) = Some task ->
  guidPrefix (ch_writerGUID c) <> guidPrefix (rr_guid e) ->
  arrive this_pool c s = (Ok tt, rs_call task (rs_set_domain (<[a := rr_add c e]> (rs_domain s)) s)).
Proof.
  intros Hr Hen Hcb Hg. set (s1 := rs_set_domain (<[a := rr_add c e]> (rs_domain s)) s).
  assert (reads s1 a (rr_add c e)) as Hr1 by (by apply (reads_domain s a e)).
  unfold arrive. rewrite (the_reader_bind _ _ _ _ Hr). run_prog. fold s1.
  unfold onNewCacheChangeAdded, come_from_this_participant_. run_prog.
  rewrite (the_reader_run _ _ _ Hr1). run_prog. rewrite rr_add_guid, bool_decide_eq_false_2 by done. cbn [negb].
  change (rs_this s1) with (rs_this s). rewrite Hen. unfold cr_on_data_available_. run_prog.
  change (rs_this s1) with (rs_this s). by rewrite Hcb.
Qed.

(** The world in which the change [c] comes to the reader of the track [t]: Fast DDS has
    put its payload in the pool, it is a new sample, it is not from the reader's own
    participant, and the reader calls the track. *)
Record incoming (t : Track) w (q : list Change) c ws L H0 (ro : CommonReader) : Prop := {
  in_connected : connected w (reader_ t) q ws (held c ++ L) H0;
  in_reader : wd_readers w !! reader_ t = Some ro;
  in_callback : br_on_data_available_ (cr_base ro) = Some (transmit_task_id_ t);
  in_foreign : forall a e, rtps_reader_ ro = Some a -> wd_rtps_readers w !! a = Some e ->
    guidPrefix (ch_writerGUID c) <> guidPrefix (rr_guid e);
  in_change : change_ok (wd_heap w) this_pool c;
  in_new : distinct_samples (q ++ [c])
}.

Lemma world_arrive (t : Track) w q c ws L H0 ro :
  incoming t w q c ws L H0 ro ->
  exists w1, on_rtps_reader (reader_ t) (arrive this_pool c) w = (Ok tt, w1) /\
    wd_calls w1 = wd_calls w ++ [transmit_task_id_ t] /\ wd_emitted w1 = wd_emitted w /\
    wd_heap w1 = wd_heap w /\ wd_pool w1 = wd_pool w /\ wd_rtps_writers w1 = wd_rtps_writers w /\
    same_objects w w1 /\ untouched w w1 (reader_ t) ws /\ connected w1 (reader_ t) (q ++ [c]) ws L H0.
Proof.
  intros [Hc Hro Hcb Hf Hch Hnew]. pose proof Hc as [(o & a & e & Ho & Hen & Ha & He & Hu) Hws Hent Hmem Hab].
  apply shared_arrives in Hmem; [|done..].
  rewrite Hro in Ho. injection Ho as <-.
  assert (reads (reader_view ro w) a e) as Hr by done.
  pose proof (arrive_run (reader_view ro w) a e c _ Hr Hen Hcb (Hf a e Ha He)) as Hrun.
  eexists. split; [unfold on_rtps_reader; rewrite Hro, Hrun; reflexivity|]. split_and!; try done.
  - split; [done|]. cbn. by apply insert_id.
  - split; [done|..]; cbn.
    + intros a' Ha'. apply lookup_insert_ne. intros ->. exact (Ha' ro Hro Ha).
    + intros a' e0 He0. destruct (decide (a' = a)) as [->|Hne]; [|rewrite lookup_insert_ne; eauto].
      rewrite lookup_insert_eq. eexists. split; [done|]. rewrite rr_add_guid. congruence.
  - split; try done. exists ro, a, (rr_add c e). cbn. rewrite !lookup_insert_eq. split_and!; try done.
    by rewrite rr_add_untaken, Hu.
Qed.

(** From the network to the network.  A change from another participant arrives at
    the reader of an enabled track that has nothing to do: the listener calls the track,
    the track emits its task, and the task ends having sent that change, and whatever the
    reader still had, through every writer of the track and no other. *)
Theorem arrival_relayed (t : Track) w q c L H0 ro :
  let ws := values (writers_ t) in
  should_transmit_ t = true -> data_available_status_ t = no_more_data -> NoDup ws ->
  incoming t w q c ws L H0 ro -> fits w (q ++ [c]) ws L (S (length q) * S (length ws)) ->
  exists w1 t2 w2 w3,
    on_rtps_reader (reader_ t) (arrive this_pool c) w = (Ok tt, w1) /\
    wd_calls w1 = wd_calls w ++ [transmit_task_id_ t] /\
    data_available_ (CW := CW) (t, w1) = (t2, w2) /\ wd_emitted w2 = wd_emitted w ++ [transmit_task_id_ t] /\
    (exists n, forall fuel, n <= fuel -> transmit_ (CW := CW) fuel (t2, w2) = (t, w3)) /\
    connected w3 (reader_ t) [] ws L H0 /\ same_objects w w3 /\ untouched w w3 (reader_ t) ws /\
    kept_for L (wd_heap w) (wd_heap w3) /\
    forall p, p ∈ ws -> sent_more w w3 p (relays_all ro (wd_heap w) (q ++ [c])).
Proof.
  intros ws Ht Hst Hnd Hin Hfit.
  destruct (world_arrive t w q c ws L H0 ro Hin) as (w1 & Hrun & Hcalls & Hem & Hh & Hp & Hent & [Ow Or] & Hu1 & Hc1).
  set (t2 := set_status (u32 (no_more_data + new_data_arrived)) t).
  set (w2 := thread_pool_emit (CommWorld := CW) (transmit_task_id_ t) w1).
  assert (data_available_ (CW := CW) (t, w1) = (t2, w2)) as Hda.
  { unfold data_available_, notify_status. rewrite Hst. unfold should_transmit_ in Ht.
    apply andb_true_iff in Ht as [_ ->]. done. }
  assert (connected w2 (reader_ t2) (q ++ [c]) ws L H0) as Hc2 by (destruct Hc1; by split).
  destruct (gives_changes t2 ws (q ++ [c]) w2 L H0 ro eq_refl Hnd Hc2) as (l & w3 & Hg & Hc3 & Hobj3 & Hu3 & Hk3 & _ & Hsent).
  { rewrite length_app, Nat.add_comm. destruct Hfit as (F0 & F1 & F2).
    assert (load w2 (q ++ [c]) ws L = load w (q ++ [c]) ws L) as Hload.
    { unfold load, histories, history_of, simple_at. cbn. by rewrite Ow, Hent. }
    unfold fits. rewrite Hload. cbn [wd_pool w2 thread_pool_emit rtps_comm_world wd_set_tasks]. rewrite Hp. done. }
  { cbn. rewrite Or. apply Hin. }
  destruct (transmit_gives (CW := CW) t2 w2 l w3) as (n & Hn); [done|done|].
  exists w1, t2, w2, w3. split_and!; try done.
  - cbn. by rewrite Hem.
  - exists n. intros fuel Hf. rewrite Hn by done. unfold t2. rewrite set_status_twice. f_equal.
    destruct t. simpl in *. by subst.
  - destruct Hobj3 as [O1 O2]. split; [by rewrite O1|by rewrite O2].
  - eapply (untouched_trans w w2); [|by split|done]. destruct Hu1. by split.
  - by rewrite <- Hh.
  - intros p Hp' o a e Hs. rewrite <- Hh. apply Hsent; [done|]. unfold simple_at in *. cbn. by rewrite Ow, Hent.
Qed.

End Relay.

(** ** Witnesses *)
Section Witnesses.
#[local] Existing Instances Demo.cpp_utils Demo.cpp_utils_laws Demo.fast_dds Demo.dbqueue
  PoolDemo.malloc PoolDemo.malloc_laws ReaderDemo.readers ReaderDemo.readers_laws
  WriterDemo.writers WriterDemo.writers_laws.
#[local] Instance demo_methods : PoolMethods := FastPayloadPool.methods 7.
#[local] Instance demo_spec : PoolSpec 7 := FastPayloadPoolSpec.fast_pool_spec 7.

(** The reader of the participant [1] at the address 0, and two writers of the
    participants [3] and [4], of which the second is a repeater and reliable. *)
Definition demo_simple : CommonWriter :=
  cw_set_entities (Some 8) true (Some self_data_filter)
    (cw_enable (SimpleWriter_of WriterDemo.dta WriterDemo.dq (mkGuid [3%Z] [0%Z]) (mkParticipantId "q") ReaderDemo.topic false)).
Definition demo_repeater : CommonWriter :=
  cw_set_entities (Some 9) true (Some repeater_data_filter)
    (cw_enable (SimpleWriter_of WriterDemo.dta WriterDemo.dq (mkGuid [4%Z] [0%Z]) (mkParticipantId "r") (WriterDemo.latched 5) true)).

Definition demo_world (q : list Change) : rtps_world (C := unit) :=
  mkRtpsWorld ReaderDemo.memory ReaderDemo.pool
    {[ 3 := (mkGuid [1%Z] [7%Z], q) ]}
    {[ 8 := WriterDemo.mkDW (mkGuid [3%Z] [9%Z]) [] 1 5 [] (Some self_data_filter);
       9 := WriterDemo.mkDW (mkGuid [4%Z] [9%Z]) [] 1 5 [] (Some repeater_data_filter) ]}
    DiscoveryDatabase_new {[ 0 := ReaderDemo.enabled_object ]}
    {[ 1 := SimpleWriterObj demo_simple; 2 := SimpleWriterObj demo_repeater ]} ∅ [] [5] [] None.

Definition demo_track : Track :=
  mkTrack (mkParticipantId "p") ReaderDemo.topic 0 [(mkParticipantId "q", 1); (mkParticipantId "r", 2)] true false 0 5.

Lemma demo_available k ih (e : RTPSWriter) : rw_is_full e = false -> is_Some (rw_new_change k ih e).1.
Proof. intros _. simpl. eauto. Qed.

(** The payload of [c1] is in the history of the reader, or Fast DDS still has it. *)
Lemma demo_memory q L : (q = [ReaderDemo.c1] /\ L = []) \/ (q = [] /\ L = [0]) ->
  shared_ok 7 (wd_heap (demo_world q)) (wd_pool (demo_world q)) (histories (demo_world q) q [1; 2]) L ∅.
Proof.
  destruct (ReaderDemo.reader_owns_demo) as [Hacc Hr Hc Hd]. intros [[-> ->]|[-> ->]]; split.
  - exact Hacc.
  - exact Hr.
  - exact Hc.
  - apply Forall_cons. split; [exact Hd|]. do 2 (apply Forall_cons; split; [apply NoDup_nil_2|]). done.
  - exact Hacc.
  - exact Hr.
  - constructor.
  - do 3 (apply Forall_cons; split; [apply NoDup_nil_2|]). done.
Qed.

Lemma demo_connected q L : (q = [ReaderDemo.c1] /\ L = []) \/ (q = [] /\ L = [0]) ->
  connected 7 (demo_world q) 0 q [1; 2] L ∅.
Proof.
  intros Hmem%demo_memory. split; [|repeat (apply Forall_cons; split); [..|done]| |done|done].
  - exists ReaderDemo.enabled_object, 3, (mkGuid [1%Z] [7%Z], q). by split_and!.
  - exists demo_simple, 8. eexists. split_and!; [reflexivity..|constructor|reflexivity].
  - exists demo_repeater, 9. eexists. split_and!; [reflexivity..|constructor|reflexivity].
  - intros p p' o o' a e e' Hp Hp'. apply list_elem_of_In in Hp as [<-|[<-|[]]];
      apply list_elem_of_In in Hp' as [<-|[<-|[]]]; try done; intros [= <- <- <-] [=].
Qed.

(** The writer [p] has sent the two bytes of [c1]. *)
Definition demo_forwarded (w' : rtps_world (C := unit)) (p : nat) : Prop :=
  exists smp, sent_by w' p = [smp] /\ smp.2 = Some [Some 5%Z; Some 6%Z].

Lemma demo_relayed q w' p o a e :
  simple_at (demo_world q) p = Some (o, a, e) -> rw_sent e = [] ->
  sent_more (demo_world q) w' p (relays_all ReaderDemo.enabled_object ReaderDemo.memory [ReaderDemo.c1]) ->
  demo_forwarded w' p.
Proof.
  intros Hs He Hmore. destruct (Hmore o a e Hs) as (e' & l & Hs' & _ & _ & Hse & HF).
  unfold relays_all in HF. rewrite filter_cons_True in HF by (split; [done|by left]).
  apply Forall2_cons_inv_l in HF as (smp & l' & Hr & Hnil & ->). apply Forall2_nil_inv_l in Hnil as ->.
  exists smp. unfold sent_by. rewrite Hs', Hse, He. split; [done|]. rewrite (rl_message _ _ _ _ _ _ Hr). reflexivity.
Qed.

Lemma demo_nodup : NoDup (values (writers_ demo_track)).
Proof. apply (bool_decide_unpack _). vm_compute. exact I. Qed.

Lemma rtps_track_end_to_end_witness : exists w', demo_forwarded w' 1 /\ demo_forwarded w' 2.
Proof.
  destruct (rtps_track_end_to_end 7 WriterDemo.default_params WriterDemo.dta WriterDemo.dq demo_default eq_refl
    demo_available demo_track (demo_world [ReaderDemo.c1]) [ReaderDemo.c1] [] ∅ ReaderDemo.enabled_object)
    as (w' & _ & _ & _ & Hsent).
  - reflexivity.
  - exact demo_nodup.
  - apply demo_connected. by left.
  - reflexivity.
  - unfold fits. split_and!; vm_compute; done.
  - exists w'. split; (eapply demo_relayed; [reflexivity|reflexivity|]; apply Hsent; vm_compute; set_solver).
Defined.

Lemma arrival_relayed_witness : exists w', demo_forwarded w' 1 /\ demo_forwarded w' 2.
Proof.
  destruct (arrival_relayed 7 WriterDemo.default_params WriterDemo.dta WriterDemo.dq demo_default eq_refl
    demo_available demo_track (demo_world []) [] ReaderDemo.c1 [] ∅ ReaderDemo.enabled_object)
    as (w1 & t2 & w2 & w3 & _ & _ & _ & _ & _ & _ & _ & _ & _ & Hsent).
  - reflexivity.
  - reflexivity.
  - exact demo_nodup.
  - split.
    + apply demo_connected. by right.
    + reflexivity.
    + reflexivity.
    + intros a e Ha He. injection Ha as <-. injection He as <-. done.
    + split; [reflexivity|]. exists 0, (mkBlock (Some 1%Z) [Some 5%Z; Some 6%Z]). by split_and!.
    + unfold distinct_samples. simpl. apply NoDup_singleton.
  - unfold fits. split_and!; vm_compute; done.
  - exists w3. split; (eapply demo_relayed; [reflexivity|reflexivity|]; apply Hsent; vm_compute; set_solver).
Defined.

End Witnesses.
