(* ===== verification/RtpsBridge.v ===== *)
(** * Bridges over RTPS participants

    The participants of a router that talk RTPS, as the bridges see them: the interface
    of [Participants] implemented by [BaseParticipant] and [CommonParticipant] on the
    endpoints of Fast DDS.  The bridge of a topic is followed from its construction to
    what a change that comes from one network makes the other participants send. *)
From stdpp Require Import gmap.
From S2P Require Import Prelude StdMap CppString Externals Types Topics Endpoint DiscoveryDatabase PayloadPool Track Auxiliar Address Configuration Participants DDSBridge Rtps RtpsReader RtpsWriter MultiWriter ParticipantAttributes RtpsParticipant RtpsWorld.

(** ** Part of a world

    The operations on the endpoints work on one part of the world. *)
Section Lift.
Context {CU : CppUtils} {V W : Type} {CV : CommWorld V} (view : W -> V) (put : V -> W -> W).

Definition on_view (f : V -> V) (w : W) : W := put (f (view w)) w.
Definition on_view_res {A} (f : V -> A * V) (w : W) : A * W :=
  let '(a, v) := f (view w) in (a, put v w).

Definition comm_lift : CommWorld W := {|
  reader_enable p := on_view (reader_enable p);
  reader_disable p := on_view (reader_disable p);
  reader_set_callback p t := on_view (reader_set_callback p t);
  reader_unset_callback p := on_view (reader_unset_callback p);
  reader_take p d := on_view_res (reader_take p d);
  writer_enable p := on_view (writer_enable p);
  writer_disable p := on_view (writer_disable p);
  writer_write p d := on_view_res (writer_write p d);
  pool_release p := on_view_res (pool_release p);
  thread_pool_slot t := on_view (thread_pool_slot t);
  thread_pool_emit t := on_view (thread_pool_emit t);
  new_data := new_data
|}.

Class lens_laws : Prop := {
  view_put : forall v w, view (put v w) = v;
  put_put : forall v v' w, put v' (put v w) = put v' w;
  put_view : forall w, put (view w) w = w
}.
Context {LL : lens_laws}.

(** What a track does to the part, it does to the world. *)
Definition lifted {A} (f : A * V -> A * V) (s : A * W) : A * W :=
  let '(a, v) := f (s.1, view s.2) in (a, put v s.2).

Lemma fold_lift (f : nat -> V -> V) l : forall w,
  fold_left (fun w x => on_view (f x) w) l w = put (fold_left (fun v x => f x v) l (view w)) w.
Proof.
  induction l as [|x l IH]; intros w; simpl; [by rewrite put_view|].
  rewrite IH. unfold on_view. by rewrite view_put, put_put.
Qed.

Lemma write_all_lift ws : forall d w,
  write_all (CW := comm_lift) ws d w =
    let '(d', v) := write_all (CW := CV) ws d (view w) in (d', put v w).
Proof.
  induction ws as [|p ws IH]; intros d w; cbn [write_all]; [by rewrite put_view|].
  cbn [writer_write comm_lift]. unfold on_view_res. destruct (writer_write p d (view w)) as [[ret d1] v1].
  rewrite IH, view_put. destruct (write_all ws d1 v1) as [d2 v2]. by rewrite put_put.
Qed.

Lemma forward_lift t d w : forward (CW := comm_lift) t d w = put (forward (CW := CV) t d (view w)) w.
Proof.
  unfold forward. rewrite write_all_lift. destruct (write_all _ d (view w)) as [d1 v1].
  destruct (0 <? _)%Z; [|done]. cbn [pool_release comm_lift]. unfold on_view_res. rewrite view_put.
  destruct (pool_release _ v1) as [p v2]. simpl. by rewrite put_put.
Qed.

Lemma transmit_lift fuel : forall s, transmit_ (CW := comm_lift) fuel s = lifted (transmit_ (CW := CV) fuel) s.
Proof.
  unfold lifted. induction fuel as [|fuel IH]; intros [t w]; cbn [transmit_ fst snd]; [by rewrite put_view|].
  destruct (negb _); [by rewrite put_view|]. cbn [reader_take new_data comm_lift]. unfold on_view_res.
  destruct (reader_take (reader_ t) new_data (view w)) as [[ret d] v1].
  case_bool_decide.
  - destruct (finish_status _) as [st []]; [done|]. rewrite IH. cbn [fst snd]. rewrite view_put.
    destruct (transmit_ _ _) as [t' v']. by rewrite put_put.
  - destruct (ret_not ret).
    + rewrite IH. cbn [fst snd]. rewrite view_put. destruct (transmit_ _ _) as [t' v']. by rewrite put_put.
    + rewrite IH. cbn [fst snd]. rewrite forward_lift, !view_put, put_put. destruct (transmit_ _ _) as [t' v'].
      by rewrite put_put.
Qed.

Lemma data_available_lift s : data_available_ (CW := comm_lift) s = lifted (data_available_ (CW := CV)) s.
Proof.
  destruct s as [t w]. unfold lifted, data_available_. cbn [fst snd]. destruct (enabled_ t); [|by rewrite put_view].
  destruct (notify_status _) as [st []]; [done|by rewrite put_view].
Qed.

Lemma track_enable_lift s : track_enable (CW := comm_lift) s = lifted (track_enable (CW := CV)) s.
Proof.
  destruct s as [t w]. unfold lifted, track_enable. cbn [fst snd]. destruct (negb _); [|by rewrite put_view].
  cbn [writer_enable reader_enable comm_lift]. rewrite (fold_lift writer_enable). unfold on_view.
  by rewrite view_put, put_put.
Qed.

Lemma track_disable_lift s : track_disable (CW := comm_lift) s = lifted (track_disable (CW := CV)) s.
Proof.
  destruct s as [t w]. unfold lifted, track_disable. cbn [fst snd]. destruct (enabled_ t); [|by rewrite put_view].
  cbn [writer_disable reader_disable comm_lift]. rewrite (fold_lift writer_disable). unfold on_view.
  by rewrite view_put, put_put.
Qed.

Lemma track_destroy_lift s : track_destroy (CW := comm_lift) s = lifted (track_destroy (CW := CV)) s.
Proof.
  unfold track_destroy. rewrite track_disable_lift. destruct s as [t w]. unfold lifted. cbn [fst snd].
  destruct (track_disable (t, view w)) as [t' v']. cbn [reader_unset_callback comm_lift]. unfold on_view.
  by rewrite view_put, put_put.
Qed.

End Lift.

(** ** RTPS participants *)
Section RtpsParticipants.
Context {CU : CppUtils} {FD : FastDDS} {DQ : DBQueueOps} {C : Type} {RR : RtpsReaders} {RW : RtpsWriters}.
Context {PM : PoolMethods} (this_pool : nat).
Context (default_params : SendParams) (dta : TopicAttributes) (dq : EndpointQos) (default_data : DataReceived).

#[local] Notation world := (rtps_world (C := C)).
#[local] Notation cpworld := (RtpsParticipant.cpworld (C := C)).

(** A participant of the database: the object and the GUID of the participant of Fast DDS
    that [init] made for it. *)
Record rtps_participant : Type := mkRtpsParticipant {
  rp_base : BaseParticipant;
  rp_guid : Guid
}.

(** The endpoints, the participants by id and the counter of tasks. *)
Record rpworld : Type := mkRPWorld {
  rp_world : world;
  rp_participants : std_map ParticipantId rtps_participant;
  rp_next_task : nat
}.

Definition rp_put (v : world) (w : rpworld) : rpworld := mkRPWorld v (rp_participants w) (rp_next_task w).
Definition rp_update (id : ParticipantId) (g : Guid) (b : BaseParticipant) : prog rpworld unit :=
  modify (fun w => mkRPWorld (rp_world w) (assign id (mkRtpsParticipant b g) (rp_participants w)) (rp_next_task w)).

(** What a method of [CommonParticipant] sees of the world. *)
Definition cp_view (w : world) : cpworld :=
  mkCPWorld (wd_heap w) (wd_pool w) (wd_rtps_readers w) (wd_rtps_writers w) (wd_database w).
Definition wd_set_participant (c : cpworld) (w : world) : world :=
  mkRtpsWorld (cp_heap c) (cp_pool c) (cp_readers c) (cp_writers c) (cp_database c) (wd_readers w) (wd_writers w)
    (wd_specific w) (wd_calls w) (wd_slots w) (wd_emitted w) (wd_aborted w).
Definition on_participant {A} (m : prog cpworld A) : prog rpworld A := fun w =>
  let '(r, c) := m (cp_view (rp_world w)) in (r, rp_put (wd_set_participant c (rp_world w)) w).

(** [std::make_shared]: the object has an address of its own. *)
Definition wd_add_writer (p : nat) (o : IWriter) (w : world) : world :=
  mkRtpsWorld (wd_heap w) (wd_pool w) (wd_rtps_readers w) (wd_rtps_writers w) (wd_database w) (wd_readers w)
    (<[p := o]> (wd_writers w)) (wd_specific w) (wd_calls w) (wd_slots w) (wd_emitted w) (wd_aborted w).
Definition wd_add_reader (p : nat) (o : CommonReader) (w : world) : world :=
  mkRtpsWorld (wd_heap w) (wd_pool w) (wd_rtps_readers w) (wd_rtps_writers w) (wd_database w)
    (<[p := o]> (wd_readers w)) (wd_writers w) (wd_specific w) (wd_calls w) (wd_slots w) (wd_emitted w) (wd_aborted w).
Definition wd_remove_writer (p : nat) (w : world) : world :=
  mkRtpsWorld (wd_heap w) (wd_pool w) (wd_rtps_readers w) (wd_rtps_writers w) (wd_database w) (wd_readers w)
    (delete p (wd_writers w)) (wd_specific w) (wd_calls w) (wd_slots w) (wd_emitted w) (wd_aborted w).
Definition wd_remove_reader (p : nat) (w : world) : world :=
  mkRtpsWorld (wd_heap w) (wd_pool w) (wd_rtps_readers w) (wd_rtps_writers w) (wd_database w)
    (delete p (wd_readers w)) (wd_writers w) (wd_specific w) (wd_calls w) (wd_slots w) (wd_emitted w) (wd_aborted w).
Definition new_writer_address (w : rpworld) : nat := fresh (dom (wd_writers (rp_world w)) : gset nat).
Definition new_reader_address (w : rpworld) : nat := fresh (dom (wd_readers (rp_world w)) : gset nat).

(** [CommonParticipant::create_writer_] and [create_reader_] *)
Definition rp_create_writer_ (p : rtps_participant) (t : DdsTopic) : prog rpworld nat :=
  o ← on_participant (cp_create_writer_ this_pool dta dq (bp_configuration_ (rp_base p)) (rp_guid p) t);
  ptr ← gets new_writer_address;
  modify (fun w => rp_put (wd_add_writer ptr o (rp_world w)) w) ;;
  mret ptr.
Definition rp_create_reader_ (p : rtps_participant) (t : DdsTopic) : prog rpworld nat :=
  o ← on_participant (cp_create_reader_ this_pool dq (bp_configuration_ (rp_base p)) (rp_guid p) t);
  ptr ← gets new_reader_address;
  modify (fun w => rp_put (wd_add_reader ptr o (rp_world w)) w) ;;
  mret ptr.

(** [get_participant(id)->create_writer(topic)], and the same with readers *)
Definition rp_create_writer (id : ParticipantId) (t : DdsTopic) : prog rpworld nat :=
  w ← get;
  match find id (rp_participants w) with
  | None => throw UndefinedBehaviour
  | Some p => bp_create_writer (rp_base p) t (rp_create_writer_ p t) (rp_update id (rp_guid p))
  end.
Definition rp_create_reader (id : ParticipantId) (t : DdsTopic) : prog rpworld nat :=
  w ← get;
  match find id (rp_participants w) with
  | None => throw UndefinedBehaviour
  | Some p => bp_create_reader (rp_base p) t (rp_create_reader_ p t) (rp_update id (rp_guid p))
  end.

(** [get_participant(id)->delete_writer(writer)], and the same with readers *)
Definition rp_delete (f : BaseParticipant -> option BaseParticipant) (id : ParticipantId) (w : rpworld) : rpworld :=
  match find id (rp_participants w) with
  | Some p => match f (rp_base p) with Some b => exec (rp_update id (rp_guid p) b) w | None => w end
  | None => w
  end.

(** The last [shared_ptr] to an endpoint goes: [~CommonWriter] or [~MultiWriter], and
    [~CommonReader] *)
Definition rp_release_writer (ptr : nat) (w : rpworld) : rpworld :=
  let v := quiet (on_rtps_writer ptr (cw_destroy this_pool) (mw_destroy this_pool)) (rp_world w) in
  rp_put (wd_remove_writer ptr v) w.
Definition rp_release_reader (ptr : nat) (w : rpworld) : rpworld :=
  let v := quiet (on_rtps_reader ptr (cr_destroy this_pool)) (rp_world w) in
  rp_put (wd_remove_reader ptr v) w.

(** The RTPS participants of a router as the bridges use them. *)
#[export] Instance rtps_participants : Participants rpworld := {|
  comm_world := comm_lift (CV := rtps_comm_world this_pool default_params dta dq default_data) rp_world rp_put;
  get_participants_ids w := fold_left (fun result it => set_insert it.1 result) (rp_participants w) [];
  get_rtps_participants_ids w :=
    fold_left (fun result it =>
      if kind_is_rtps (conf_kind (bp_configuration_ (rp_base it.2))) then set_insert it.1 result else result)
      (rp_participants w) [];
  is_repeater id w :=
    match find id (rp_participants w) with
    | Some p => conf_is_repeater (bp_configuration_ (rp_base p))
    | None => false
    end;
  create_writer := rp_create_writer;
  create_reader := rp_create_reader;
  delete_writer id ptr := rp_delete (bp_delete_writer ptr) id;
  delete_reader id ptr := rp_delete (bp_delete_reader ptr) id;
  release_writer := rp_release_writer;
  release_reader := rp_release_reader;
  new_unique_task_id w := (rp_next_task w, mkRPWorld (rp_world w) (rp_participants w) (S (rp_next_task w)))
|}.

#[export] Instance rp_lens : lens_laws rp_world rp_put.
Proof. split; [done|done|]. by intros []. Qed.

End RtpsParticipants.

(** ** The bridge of a topic *)
Section RtpsBridge.
Context {CU : CppUtils} {CL : CppUtilsLaws} {FD : FastDDS} {DQ : DBQueueOps} {C : Type}.
Context {RR : RtpsReaders} {RL : RtpsReadersLaws} {RW : RtpsWriters} {WL : RtpsWritersLaws}.
Context {PM : PoolMethods} (this_pool : nat) {PS : PoolSpec this_pool}.
Context (default_params : SendParams) (dta : TopicAttributes) (dq : EndpointQos) (default_data : DataReceived).

#[local] Notation world := (rtps_world (C := C)).
#[local] Notation rpworld := (rpworld (C := C)).
Let PW : Participants rpworld := rtps_participants this_pool default_params dta dq default_data.
#[local] Existing Instance PW.
Implicit Types (w : rpworld) (v : world).

(** *** The laws of the interface *)

(** The configuration of a participant and the GUID it has in Fast DDS; only the maps of
    endpoints of the participants change. *)
Definition participant_of w (id : ParticipantId) : option (BaseConf * Guid) :=
  (fun p => (bp_configuration_ (rp_base p), rp_guid p)) <$> find id (rp_participants w).
Definition same_participants w w' : Prop := forall id, participant_of w' id = participant_of w id.

Lemma same_participants_refl w w' : rp_participants w' = rp_participants w -> same_participants w w'.
Proof. intros Hw id. unfold participant_of. by rewrite Hw. Qed.

Lemma same_participants_update id p b w w' :
  find id (rp_participants w) = Some p -> bp_configuration_ b = bp_configuration_ (rp_base p) ->
  rp_participants w' = assign id (mkRtpsParticipant b (rp_guid p)) (rp_participants w) ->
  same_participants w w'.
Proof.
  intros Hf Hc Hw id'. unfold participant_of. rewrite Hw, find_assign. destruct (keqv id' id) eqn:E; [|done].
  rewrite (find_keqv _ _ _ E), Hf. simpl. by rewrite Hc.
Qed.

Lemma rp_create_writer_participants id t w :
  same_participants w (exec (rp_create_writer this_pool dta dq id t) w).
Proof.
  unfold rp_create_writer, exec. run_prog. destruct (find id (rp_participants w)) as [p|] eqn:Hf; [|by apply same_participants_refl].
  unfold bp_create_writer. destruct (find t _); [by apply same_participants_refl|].
  unfold rp_create_writer_, on_participant. run_prog.
  destruct (cp_create_writer_ _ _ _ _ _ _ _) as [[o|e] c]; [|by apply same_participants_refl]. cbn [fst snd].
  by eapply (same_participants_update id p); [exact Hf| |reflexivity].
Qed.

Lemma rp_create_reader_participants id t w :
  same_participants w (exec (rp_create_reader this_pool dq id t) w).
Proof.
  unfold rp_create_reader, exec. run_prog. destruct (find id (rp_participants w)) as [p|] eqn:Hf; [|by apply same_participants_refl].
  unfold bp_create_reader. destruct (find t _); [by apply same_participants_refl|].
  unfold rp_create_reader_, on_participant. run_prog.
  destruct (cp_create_reader_ _ _ _ _ _ _) as [[o|e] c]; [|by apply same_participants_refl]. cbn [fst snd].
  by eapply (same_participants_update id p); [exact Hf| |reflexivity].
Qed.

Lemma rp_create_writer_wf id t w :
  map_wf (rp_participants w) -> map_wf (rp_participants (exec (rp_create_writer this_pool dta dq id t) w)).
Proof.
  intros Hwf. unfold rp_create_writer, exec. run_prog. destruct (find id (rp_participants w)) as [p|]; [|done].
  unfold bp_create_writer. destruct (find t _); [done|]. unfold rp_create_writer_, on_participant. run_prog.
  destruct (cp_create_writer_ _ _ _ _ _ _ _) as [[o|e] c]; [|done]. by apply map_wf_assign.
Qed.

Lemma rp_create_reader_wf id t w :
  map_wf (rp_participants w) -> map_wf (rp_participants (exec (rp_create_reader this_pool dq id t) w)).
Proof.
  intros Hwf. unfold rp_create_reader, exec. run_prog. destruct (find id (rp_participants w)) as [p|]; [|done].
  unfold bp_create_reader. destruct (find t _); [done|]. unfold rp_create_reader_, on_participant. run_prog.
  destruct (cp_create_reader_ _ _ _ _ _ _) as [[o|e] c]; [|done]. by apply map_wf_assign.
Qed.

Lemma create_endpoints_wf t ids : forall ws rs w ws' rs' w',
  create_endpoints t ids ws rs w = (Ok (ws', rs'), w') -> map_wf (rp_participants w) -> map_wf (rp_participants w').
Proof.
  induction ids as [|id ids IH]; intros ws rs w ws' rs' w'; cbn [create_endpoints]; [by intros [= <- <- <-]|].
  intros (p & w1 & Hp & (r & w2 & Hr & Hrest)%bind_inv_ok)%bind_inv_ok Hwf. apply (IH _ _ _ _ _ _ Hrest).
  apply (rp_create_writer_wf id t) in Hwf. unfold exec in Hwf.
  cbn [create_writer PW rtps_participants] in Hp. rewrite Hp in Hwf. cbn [snd] in Hwf.
  apply (rp_create_reader_wf id t) in Hwf. unfold exec in Hwf.
  cbn [create_reader PW rtps_participants] in Hr. by rewrite Hr in Hwf.
Qed.

Lemma repeater_of id w :
  is_repeater id w = match participant_of w id with Some (c, _) => conf_is_repeater c | None => false end.
Proof. cbn [is_repeater PW rtps_participants]. unfold participant_of. by destruct (find id (rp_participants w)). Qed.

Lemma same_repeater w w' id : same_participants w w' -> is_repeater id w' = is_repeater id w.
Proof. intros Hs. by rewrite !repeater_of, Hs. Qed.

#[export] Instance rtps_participants_laws : ParticipantsLaws rpworld.
Proof.
  split; try done.
  - intros w. apply (fold_insert_wf _ (fun _ => true)), map_wf_nil.
  - intros id id' t w. apply same_repeater, rp_create_writer_participants.
  - intros id id' t w. apply same_repeater, rp_create_reader_participants.
Qed.

(** *** Creating the endpoints *)

(** A writer just made for a participant, and its entity. *)
Record new_writer (c : BaseConf) (g : Guid) (t : DdsTopic) (o : CommonWriter) (e : RTPSWriter) : Prop := {
  nw_topic : bw_topic_ (cw_base o) = t;
  nw_repeater : repeater_ o = conf_is_repeater c;
  nw_history : rw_history e = [];
  nw_sent : rw_sent e = [];
  nw_prefix : guidPrefix (rw_guid e) = guidPrefix g;
  nw_filter : rw_filter e = Some (filter_of o)
}.

(** A reader just made for a participant, and its entity. *)
Record new_reader (g : Guid) (t : DdsTopic) (o : CommonReader) (e : RTPSReader) : Prop := {
  nr_topic : br_topic_ (cr_base o) = t;
  nr_untaken : rr_untaken e = [];
  nr_prefix : guidPrefix (rr_guid e) = guidPrefix g
}.

(** The world with a writer or a reader more, and its entity. *)
Definition with_writer (p : nat) (o : CommonWriter) (a : nat) (e : RTPSWriter) v : world :=
  wd_add_writer p (SimpleWriterObj o)
    (wd_set_participant (mkCPWorld (wd_heap v) (wd_pool v) (wd_rtps_readers v) (<[a := e]> (wd_rtps_writers v))
      (wd_database v)) v).
Definition with_reader (r : nat) (o : CommonReader) (a : nat) (e : RTPSReader) v : world :=
  wd_add_reader r o
    (wd_set_participant (mkCPWorld (wd_heap v) (wd_pool v) (<[a := e]> (wd_rtps_readers v)) (wd_rtps_writers v)
      (wd_database v)) v).

Lemma rp_create_writer_run id t w p w' :
  needs_specific_qos t = false -> rp_create_writer this_pool dta dq id t w = (Ok p, w') ->
  exists c g o a e, participant_of w id = Some (c, g) /\ new_writer c g t o e /\ rtps_writer_ o = Some a /\
    wd_writers (rp_world w) !! p = None /\ wd_rtps_writers (rp_world w) !! a = None /\
    rp_world w' = with_writer p o a e (rp_world w) /\ bw_participant_id_ (cw_base o) = conf_id c.
Proof.
  intros Hq. unfold rp_create_writer, participant_of. run_prog.
  destruct (find id (rp_participants w)) as [pt|] eqn:Hf; [|done].
  unfold bp_create_writer. destruct (find t _); [done|]. unfold rp_create_writer_, on_participant. run_prog.
  set (c := bp_configuration_ (rp_base pt)).
  pose proof (participant_creates_writer this_pool dta dq c (rp_guid pt) t (cp_view (rp_world w))) as Hmake.
  fold (needs_specific_qos t) in Hmake. rewrite Hq in Hmake. cbv zeta in Hmake.
  destruct (create_rtps_writer _ _ _ _ _) as [[a e]|] eqn:Hcreate; [|by rewrite Hmake].
  destruct (create_writer_spec _ _ _ _ _ _ _ Hcreate) as (Hfresh & Hh & Hs & _).
  pose proof (create_writer_prefix _ _ _ _ _ _ _ Hcreate) as Hpre.
  destruct (register_writer _ _ _).
  - destruct Hmake as (o & -> & Ha & Hdf & Hbase & Hrep). intros [= <- <-].
    pose proof (rw_set_filter_spec (if conf_is_repeater c then repeater_data_filter else self_data_filter) e)
      as (F1 & F2 & F3 & _ & F4 & _).
    exists c, (rp_guid pt), o, a. eexists. split; [done|].
    split; [split|split; [exact Ha|split_and!; [|exact Hfresh|reflexivity|]]]; try congruence.
    + by rewrite Hbase.
    + rewrite F1. unfold filter_of. by rewrite Hrep.
    + apply (not_elem_of_dom (D := gset nat)), (is_fresh (C := gset nat)).
    + by rewrite Hbase.
  - unfold result in Hmake. destruct (cp_create_writer_ _ _ _ _ _ _ _) as [r s]. simpl in Hmake. by subst r.
Qed.

Lemma rp_create_reader_run id t w r w' :
  rp_create_reader this_pool dq id t w = (Ok r, w') ->
  exists c g o a e, participant_of w id = Some (c, g) /\ new_reader g t o e /\ rtps_reader_ o = Some a /\
    wd_readers (rp_world w) !! r = None /\ wd_rtps_readers (rp_world w) !! a = None /\
    rp_world w' = with_reader r o a e (rp_world w) /\ br_participant_id_ (cr_base o) = conf_id c.
Proof.
  unfold rp_create_reader, participant_of. run_prog.
  destruct (find id (rp_participants w)) as [pt|] eqn:Hf; [|done].
  unfold bp_create_reader. destruct (find t _); [done|]. unfold rp_create_reader_, on_participant. run_prog.
  set (c := bp_configuration_ (rp_base pt)).
  pose proof (participant_creates_reader this_pool dq c (rp_guid pt) t (cp_view (rp_world w))) as Hmake.
  destruct (create_rtps_reader _ _ _ _) as [[a e]|] eqn:Hcreate; [|by rewrite Hmake].
  destruct (create_reader_fresh _ _ _ _ _ _ Hcreate) as (Hfresh & Hu).
  pose proof (create_reader_prefix _ _ _ _ _ _ Hcreate) as Hpre.
  destruct (register_reader _ _ _).
  - destruct Hmake as (o & -> & _ & Ha & Hbase & _). intros [= <- <-].
    exists c, (rp_guid pt), o, a, e. split_and!; try done.
    + split; [by rewrite Hbase|done|done].
    + apply (not_elem_of_dom (D := gset nat)), (is_fresh (C := gset nat)).
    + by rewrite Hbase.
  - unfold result in Hmake. destruct (cp_create_reader_ _ _ _ _ _ _) as [r' s]. simpl in Hmake. by subst r'.
Qed.

(** The maps of the bridge lead to endpoints of the participants, each with its entity. *)
Record endpoints_made (conf : ParticipantId -> option (BaseConf * Guid)) (t : DdsTopic)
    (ws rs : std_map ParticipantId nat) v : Prop := {
  em_writer : forall id p, find id ws = Some p -> exists c g o a e,
    conf id = Some (c, g) /\ simple_at v p = Some (o, a, e) /\ new_writer c g t o e;
  em_writers_inj : forall id id' p p' o o' a e e', find id ws = Some p -> find id' ws = Some p' ->
    simple_at v p = Some (o, a, e) -> simple_at v p' = Some (o', a, e') -> id = id';
  em_reader : forall id r, find id rs = Some r -> exists c g o a e,
    conf id = Some (c, g) /\ wd_readers v !! r = Some o /\ rtps_reader_ o = Some a /\
    wd_rtps_readers v !! a = Some e /\ new_reader g t o e;
  em_readers_inj : forall id id' r r' o o' a, find id rs = Some r -> find id' rs = Some r' ->
    wd_readers v !! r = Some o -> wd_readers v !! r' = Some o' ->
    rtps_reader_ o = Some a -> rtps_reader_ o' = Some a -> id = id'
}.

(** The memory is the same and the program has not ended. *)
Definition same_memory v v' : Prop :=
  wd_heap v' = wd_heap v /\ wd_pool v' = wd_pool v /\ wd_aborted v' = wd_aborted v.

Lemma find_assign_id {A} (m : std_map ParticipantId A) id x id' :
  find id' (assign id x m) = if decide (id' = id) then Some x else find id' m.
Proof.
  rewrite find_assign. case_decide as E; [subst; by rewrite keqv_refl|]. by rewrite ParticipantId_keqv_ne.
Qed.

Lemma simple_at_with_writer v p o a e p' o' a' e' :
  wd_writers v !! p = None -> wd_rtps_writers v !! a = None -> simple_at v p' = Some (o', a', e') ->
  simple_at (with_writer p o a e v) p' = Some (o', a', e') /\ p' <> p /\ a' <> a.
Proof.
  intros Hp Ha (Hw & Ha' & He')%simple_at_writes. simpl in Ha', He'.
  assert (p' <> p) by (intros ->; congruence). assert (a' <> a) by (intros ->; congruence).
  split_and!; try done. unfold simple_at. simpl. rewrite lookup_insert_ne, Hw by done. simpl. rewrite Ha'. simpl.
  by rewrite lookup_insert_ne, He'.
Qed.

Lemma simple_at_new v p o a e : rtps_writer_ o = Some a -> simple_at (with_writer p o a e v) p = Some (o, a, e).
Proof. intros Ha. unfold simple_at. simpl. rewrite lookup_insert_eq. simpl. rewrite Ha. simpl. by rewrite lookup_insert_eq. Qed.

Lemma made_writer conf t ws rs v id p o a e c g :
  endpoints_made conf t ws rs v -> conf id = Some (c, g) -> new_writer c g t o e -> rtps_writer_ o = Some a ->
  wd_writers v !! p = None -> wd_rtps_writers v !! a = None ->
  endpoints_made conf t (assign id p ws) rs (with_writer p o a e v).
Proof.
  intros [Hw Hwi Hr Hri] Hid Hnew Hoa Hp Ha.
  assert (forall id' p', find id' ws = Some p' -> exists c g o' a' e', conf id' = Some (c, g) /\
    simple_at v p' = Some (o', a', e') /\ simple_at (with_writer p o a e v) p' = Some (o', a', e') /\
    new_writer c g t o' e' /\ a' <> a) as Hold.
  { intros id' p' Hf. destruct (Hw id' p' Hf) as (c' & g' & o' & a' & e' & ? & Hs & ?).
    destruct (simple_at_with_writer v p o a e p' o' a' e') as (? & _ & ?); [done..|].
    exists c', g', o', a', e'. by split_and!. }
  split; [| |exact Hr|exact Hri].
  - intros id' p'. rewrite find_assign_id. case_decide as E.
    + intros [= <-]. subst. exists c, g, o, a, e. split_and!; [done|by apply simple_at_new|done].
    + intros Hf. destruct (Hold id' p' Hf) as (c' & g' & o' & a' & e' & ? & _ & ? & ? & _). by exists c', g', o', a', e'.
  - intros id1 id2 p1 p2 o1 o2 a0 e1 e2. rewrite !find_assign_id.
    destruct (decide (id1 = id)) as [->|H1], (decide (id2 = id)) as [->|H2]; [done|..].
    + intros [= <-] Hf2 [= _ <- _]%(eq_trans (eq_sym (simple_at_new v p o a e Hoa))).
      destruct (Hold id2 p2 Hf2) as (? & ? & ? & ? & ? & _ & _ & Hs & _ & Hne). rewrite Hs. intros [= <- <- <-]. done.
    + intros Hf1 [= <-] Hs1 [= _ <- _]%(eq_trans (eq_sym (simple_at_new v p o a e Hoa))). revert Hs1.
      destruct (Hold id1 p1 Hf1) as (? & ? & ? & ? & ? & _ & _ & Hs & _ & Hne). rewrite Hs. intros [= <- <- <-]. done.
    + intros Hf1 Hf2. destruct (Hold id1 p1 Hf1) as (? & ? & ? & ? & ? & _ & Hv1 & -> & _).
      destruct (Hold id2 p2 Hf2) as (? & ? & ? & ? & ? & _ & Hv2 & -> & _). intros [= <- <- <-] [= <- -> <-]. by eapply Hwi.
Qed.

Lemma made_reader conf t ws rs v id r o a e c g :
  endpoints_made conf t ws rs v -> conf id = Some (c, g) -> new_reader g t o e -> rtps_reader_ o = Some a ->
  wd_readers v !! r = None -> wd_rtps_readers v !! a = None ->
  endpoints_made conf t ws (assign id r rs) (with_reader r o a e v).
Proof.
  intros [Hw Hwi Hr Hri] Hid Hnew Hoa Hp Ha.
  assert (forall id' r', find id' rs = Some r' -> exists c g o' a' e', conf id' = Some (c, g) /\
    wd_readers v !! r' = Some o' /\ wd_readers (with_reader r o a e v) !! r' = Some o' /\ rtps_reader_ o' = Some a' /\
    wd_rtps_readers (with_reader r o a e v) !! a' = Some e' /\ new_reader g t o' e' /\ a' <> a) as Hold.
  { intros id' r' Hf. destruct (Hr id' r' Hf) as (c' & g' & o' & a' & e' & ? & Ho' & ? & He' & ?).
    assert (r' <> r) by (intros ->; congruence). assert (a' <> a) by (intros ->; congruence).
    exists c', g', o', a', e'. simpl. rewrite !lookup_insert_ne by done. by split_and!. }
  assert (wd_readers (with_reader r o a e v) !! r = Some o) as Hro by apply lookup_insert_eq.
  split; [exact Hw|exact Hwi|..].
  - intros id' r'. rewrite find_assign_id. case_decide as E.
    + intros [= <-]. subst. exists c, g, o, a, e. simpl. rewrite !lookup_insert_eq. by split_and!.
    + intros Hf. destruct (Hold id' r' Hf) as (c' & g' & o' & a' & e' & ? & _ & ? & ? & ? & ? & _). by exists c', g', o', a', e'.
  - intros id1 id2 r1 r2 o1 o2 a0. rewrite !find_assign_id.
    destruct (decide (id1 = id)) as [->|H1], (decide (id2 = id)) as [->|H2]; [done|..].
    + intros [= <-] Hf. rewrite Hro. destruct (Hold _ _ Hf) as (? & ? & ? & ? & ? & _ & _ & -> & ? & _ & _ & ?).
      intros [= <-] [= <-]. congruence.
    + intros Hf [= <-]. rewrite Hro. destruct (Hold _ _ Hf) as (? & ? & ? & ? & ? & _ & _ & -> & ? & _ & _ & ?).
      intros [= <-] [= <-]. congruence.
    + intros Hf1 Hf2. destruct (Hold _ _ Hf1) as (? & ? & ? & ? & ? & _ & Hv1 & -> & _).
      destruct (Hold _ _ Hf2) as (? & ? & ? & ? & ? & _ & Hv2 & -> & _). intros [= <-] [= <-]. by eapply Hri.
Qed.

Lemma readers_distinct conf t ws rs v id id' r :
  endpoints_made conf t ws rs v -> find id rs = Some r -> find id' rs = Some r -> id = id'.
Proof.
  intros Hm Hf Hf'. destruct (em_reader _ _ _ _ _ Hm id r Hf) as (_ & _ & o & a & _ & _ & Ho & Ha & _).
  by eapply (em_readers_inj _ _ _ _ _ Hm).
Qed.



(** The address of the entity of an object. *)
Definition entity_of v (p : nat) : option nat :=
  match wd_writers v !! p with Some (SimpleWriterObj o) => rtps_writer_ o | _ => None end.
Definition reader_entity v (p : nat) : option nat := wd_readers v !! p ≫= rtps_reader_.

(** The entities of [v0], and new ones of the endpoints of the maps. *)
Record adds_only v0 (ws rs : std_map ParticipantId nat) v : Prop := {
  ad_new_writer : forall id p a, find id ws = Some p -> entity_of v p = Some a -> wd_rtps_writers v0 !! a = None;
  ad_old_writer : forall a, (forall id p, find id ws = Some p -> entity_of v p <> Some a) ->
    wd_rtps_writers v !! a = wd_rtps_writers v0 !! a;
  ad_new_reader : forall id p a, find id rs = Some p -> reader_entity v p = Some a -> wd_rtps_readers v0 !! a = None;
  ad_old_reader : forall a, (forall id p, find id rs = Some p -> reader_entity v p <> Some a) ->
    wd_rtps_readers v !! a = wd_rtps_readers v0 !! a
}.

Lemma adds_writer conf t v0 ws rs v id p o a e :
  endpoints_made conf t ws rs v -> adds_only v0 ws rs v -> find id ws = None -> rtps_writer_ o = Some a ->
  wd_writers v !! p = None -> wd_rtps_writers v !! a = None ->
  adds_only v0 (assign id p ws) rs (with_writer p o a e v).
Proof.
  intros Hm [A1 A2 A3 A4] Hid Hoa Hp Ha.
  assert (forall id' p', find id' ws = Some p' -> exists a', entity_of v p' = Some a' /\ a' <> a /\
    entity_of (with_writer p o a e v) p' = Some a') as Hold.
  { intros id' p' Hf. destruct (em_writer _ _ _ _ _ Hm id' p' Hf) as (_ & _ & o' & a' & e' & _ & Hs & _).
    destruct (simple_at_writes _ _ _ _ _ Hs) as (Hw & Ha' & He'). simpl in Ha', He'.
    assert (p' <> p) by (intros ->; congruence). exists a'. unfold entity_of. simpl.
    rewrite lookup_insert_ne, Hw by done. split_and!; [done|intros ->; congruence|done]. }
  assert (entity_of (with_writer p o a e v) p = Some a) as Hnew by (unfold entity_of; simpl; by rewrite lookup_insert_eq).
  split; [| |exact A3|exact A4].
  - intros id' p' a'. rewrite find_assign_id. case_decide as E.
    + intros [= <-]. rewrite Hnew. intros [= <-]. rewrite <- A2; [done|]. intros id2 p2 F2.
      destruct (Hold id2 p2 F2) as (a2 & -> & Hne & _). congruence.
    + intros Hf. destruct (Hold id' p' Hf) as (a2 & H2 & _ & ->). intros [= <-]. by eapply A1.
  - intros a' Hno. simpl. rewrite lookup_insert_ne.
    + apply A2. intros id' p' Hf. destruct (Hold id' p' Hf) as (a2 & -> & _ & H2). rewrite <- H2. apply (Hno id').
      rewrite find_assign_id, decide_False; [done|]. intros ->. congruence.
    + intros ->. apply (Hno id p); [|done]. by rewrite find_assign_id, decide_True.
Qed.

Lemma adds_reader conf t v0 ws rs v id p o a e :
  endpoints_made conf t ws rs v -> adds_only v0 ws rs v -> find id rs = None -> rtps_reader_ o = Some a ->
  wd_readers v !! p = None -> wd_rtps_readers v !! a = None ->
  adds_only v0 ws (assign id p rs) (with_reader p o a e v).
Proof.
  intros Hm [A1 A2 A3 A4] Hid Hoa Hp Ha.
  assert (forall id' p', find id' rs = Some p' -> exists a', reader_entity v p' = Some a' /\ a' <> a /\
    reader_entity (with_reader p o a e v) p' = Some a') as Hold.
  { intros id' p' Hf. destruct (em_reader _ _ _ _ _ Hm id' p' Hf) as (_ & _ & o' & a' & e' & _ & Hw & Ha' & He' & _).
    assert (p' <> p) by (intros ->; congruence). exists a'. unfold reader_entity. simpl.
    rewrite lookup_insert_ne, Hw by done. split_and!; [done|intros ->; congruence|done]. }
  assert (reader_entity (with_reader p o a e v) p = Some a) as Hnew by (unfold reader_entity; simpl; by rewrite lookup_insert_eq).
  split; [exact A1|exact A2| |].
  - intros id' p' a'. rewrite find_assign_id. case_decide as E.
    + intros [= <-]. rewrite Hnew. intros [= <-]. rewrite <- A4; [done|]. intros id2 p2 F2.
      destruct (Hold id2 p2 F2) as (a2 & -> & Hne & _). congruence.
    + intros Hf. destruct (Hold id' p' Hf) as (a2 & H2 & _ & ->). intros [= <-]. by eapply A3.
  - intros a' Hno. simpl. rewrite lookup_insert_ne.
    + apply A4. intros id' p' Hf. destruct (Hold id' p' Hf) as (a2 & -> & _ & H2). rewrite <- H2. apply (Hno id').
      rewrite find_assign_id, decide_False; [done|]. intros ->. congruence.
    + intros ->. apply (Hno id p); [|done]. by rewrite find_assign_id, decide_True.
Qed.

Lemma create_endpoints_made w0 t ids : forall ws rs w ws' rs' w',
  needs_specific_qos t = false -> create_endpoints t ids ws rs w = (Ok (ws', rs'), w') ->
  NoDup ids -> (forall id, id ∈ ids -> find id ws = None /\ find id rs = None) ->
  endpoints_made (participant_of w0) t ws rs (rp_world w) -> adds_only (rp_world w0) ws rs (rp_world w) ->
  same_participants w0 w ->
  endpoints_made (participant_of w0) t ws' rs' (rp_world w') /\ adds_only (rp_world w0) ws' rs' (rp_world w') /\
  same_participants w0 w' /\ same_memory (rp_world w) (rp_world w').
Proof.
  induction ids as [|id ids IH]; intros ws rs w ws' rs' w' Hq; cbn [create_endpoints].
  { by intros [= <- <- <-]. }
  intros (p & w1 & Hp & (r & w2 & Hr & Hrest)%bind_inv_ok)%bind_inv_ok [Hnin Hnd]%NoDup_cons Hnew Hm Ha Hsame.
  pose proof (rp_create_writer_participants id t w) as S1. unfold exec in S1.
  cbn [create_writer PW rtps_participants] in Hp. rewrite Hp in S1. cbn [snd] in S1.
  pose proof (rp_create_reader_participants id t w1) as S2. unfold exec in S2.
  cbn [create_reader PW rtps_participants] in Hr. rewrite Hr in S2. cbn [snd] in S2.
  destruct (rp_create_writer_run id t w p w1 Hq Hp) as (c & g & o & a & e & Hc & Hnw & Hoa & Hfp & Hfa & Hw1 & _).
  destruct (rp_create_reader_run id t w1 r w2 Hr) as (c' & g' & o' & a' & e' & Hc' & Hnr & Hoa' & Hfr & Hfa' & Hw2 & _).
  destruct (Hnew id) as [Hn1 Hn2]; [by left|].
  assert (endpoints_made (participant_of w0) t (assign id p ws) rs (rp_world w1)) as Hm1.
  { rewrite Hw1. eapply made_writer; try done. by rewrite <- Hsame. }
  destruct (IH _ _ _ _ _ _ Hq Hrest) as (He & Hadd & Hs & Hmem); [done|..].
  - intros id' Hid'. rewrite !find_assign_id, !decide_False by (by intros ->). apply Hnew. by right.
  - rewrite Hw2. eapply made_reader; try done. by rewrite <- Hc', S1, Hsame.
  - rewrite Hw2. eapply adds_reader; try done. rewrite Hw1. by eapply adds_writer.
  - intros id'. by rewrite S2, S1, Hsame.
  - split_and!; try done. rewrite Hw2, Hw1 in Hmem. exact Hmem.
Qed.

(** *** Enabling the tracks *)

#[local] Notation CW := (rtps_comm_world this_pool default_params dta dq default_data (C := C)).

Definition cr_enabled (o : CommonReader) : CommonReader :=
  if negb (br_enabled_ (cr_base o)) then cr_set_base (br_set_enabled true (cr_base o)) o else o.

(** Some endpoints were enabled, and nothing else changed but the calls to the tracks. *)
Record enabling v v' : Prop := {
  en_memory : same_memory v v';
  en_entities : wd_rtps_readers v' = wd_rtps_readers v /\ wd_rtps_writers v' = wd_rtps_writers v;
  en_writers : forall p o, wd_writers v !! p = Some (SimpleWriterObj o) ->
    exists o', wd_writers v' !! p = Some (SimpleWriterObj o') /\ (o' = o \/ o' = cw_enable o);
  en_readers : forall r o, wd_readers v !! r = Some o ->
    exists o', wd_readers v' !! r = Some o' /\ (o' = o \/ o' = cr_enabled o)
}.

Lemma cw_enable_idem o : cw_enable (cw_enable o) = cw_enable o.
Proof. apply enable_facts. Qed.

Lemma cr_enabled_idem o : cr_enabled (cr_enabled o) = cr_enabled o.
Proof.
  unfold cr_enabled at 2. destruct (br_enabled_ (cr_base o)) eqn:E; simpl; [done|]. unfold cr_enabled. by rewrite E.
Qed.

Lemma enabling_refl v : enabling v v.
Proof. split; [done|done|eauto..]. Qed.

Lemma enabling_trans v1 v2 v3 : enabling v1 v2 -> enabling v2 v3 -> enabling v1 v3.
Proof.
  intros [(M1 & M2 & M3) (E1 & E2) W1 R1] [(N1 & N2 & N3) (F1 & F2) W2 R2].
  split; [unfold same_memory; split_and!; congruence|split; congruence|..].
  - intros p o Ho. destruct (W1 p o Ho) as (o1 & Ho1 & H1). destruct (W2 p o1 Ho1) as (o2 & Ho2 & H2).
    exists o2. split; [done|]. destruct H1 as [-> | ->], H2 as [-> | ->]; auto. rewrite cw_enable_idem. auto.
  - intros r o Ho. destruct (R1 r o Ho) as (o1 & Ho1 & H1). destruct (R2 r o1 Ho1) as (o2 & Ho2 & H2).
    exists o2. split; [done|]. destruct H1 as [-> | ->], H2 as [-> | ->]; auto. rewrite cr_enabled_idem. auto.
Qed.

Definition writer_enabled v (p : nat) : Prop :=
  exists o, wd_writers v !! p = Some (SimpleWriterObj o) /\ bw_enabled_ (cw_base o) = true.
Definition reader_enabled v (r : nat) : Prop :=
  exists o, wd_readers v !! r = Some o /\ br_enabled_ (cr_base o) = true.
Definition is_simple v (p : nat) : Prop := exists o, wd_writers v !! p = Some (SimpleWriterObj o).
Definition live_reader v (r : nat) : Prop :=
  exists o a e, wd_readers v !! r = Some o /\ rtps_reader_ o = Some a /\ wd_rtps_readers v !! a = Some e.

Lemma enabling_keeps v v' : enabling v v' ->
  (forall p, writer_enabled v p -> writer_enabled v' p) /\ (forall r, reader_enabled v r -> reader_enabled v' r) /\
  (forall p, is_simple v p -> is_simple v' p) /\ (forall r, live_reader v r -> live_reader v' r).
Proof.
  intros [_ [E1 E2] W R]. split_and!.
  - intros p (o & Ho & Hen). destruct (W p o Ho) as (o' & Ho' & H'). exists o'. split; [done|].
    destruct H' as [-> | ->]; [done|apply enable_facts].
  - intros r (o & Ho & Hen). destruct (R r o Ho) as (o' & Ho' & H'). exists o'. split; [done|].
    unfold cr_enabled in H'. rewrite Hen in H'. by destruct H' as [-> | ->].
  - intros p (o & Ho). destruct (W p o Ho) as (o' & Ho' & _). by exists o'.
  - intros r (o & a & e & Ho & Ha & He). destruct (R r o Ho) as (o' & Ho' & H'). exists o', a, e. rewrite E1.
    split_and!; try done. destruct H' as [-> | ->]; [done|]. unfold cr_enabled. by destruct (negb _).
Qed.

Lemma writer_enable_run v p : is_simple v p ->
  let v' := writer_enable (CommWorld := CW) p v in enabling v v' /\ writer_enabled v' p.
Proof.
  intros (o & Ho). cbn [writer_enable rtps_comm_world]. unfold quiet, wd_noexcept, on_rtps_writer. rewrite Ho.
  unfold on_this. run_prog. split.
  - split; [done|done| |eauto]. intros p' o' Ho'. cbn. destruct (decide (p' = p)) as [->|Hne].
    + rewrite lookup_insert_eq. assert (o' = o) as -> by congruence. eauto.
    + rewrite lookup_insert_ne by done. eauto.
  - exists (cw_enable o). cbn. rewrite lookup_insert_eq. split; [done|apply enable_facts].
Qed.

Lemma cr_enable_run (s : rstate (C := C)) a e :
  reads s a e -> exists s', cr_enable s = (Ok tt, s') /\ rs_this s' = cr_enabled (rs_this s) /\
    rs_heap s' = rs_heap s /\ rs_pool s' = rs_pool s /\ rs_domain s' = rs_domain s /\ rs_database s' = rs_database s.
Proof.
  intros [Ha He]. unfold cr_enable, cr_enabled, on_base. run_prog. destruct (br_enabled_ (cr_base (rs_this s))); simpl; [by exists s|].
  set (s1 := rs_set_this _ s). unfold cr_enable_. run_prog.
  destruct (is_reliable _); [|by exists s1].
  rewrite (the_reader_run s1 a e) by done. unfold cr_on_data_available_. run_prog.
  destruct (br_on_data_available_ _) as [n|]; [by exists (rs_call n s1)|by exists s1].
Qed.

Lemma reader_enable_run v r : live_reader v r ->
  let v' := reader_enable (CommWorld := CW) r v in enabling v v' /\ reader_enabled v' r.
Proof.
  intros (o & a & e & Ho & Ha & He). cbn [reader_enable rtps_comm_world]. unfold quiet, wd_noexcept, on_rtps_reader.
  rewrite Ho. destruct (cr_enable_run (reader_view o v) a e) as (s' & -> & Ht & Hh & Hp & Hd & Hdb); [done|].
  cbn [snd]. split.
  - split; [done|done|eauto|]. intros r' o' Ho'. cbn. rewrite Ht. destruct (decide (r' = r)) as [->|Hne].
    + rewrite lookup_insert_eq. assert (o' = o) as -> by congruence. eauto.
    + rewrite lookup_insert_ne by done. eauto.
  - exists (cr_enabled o). cbn. rewrite Ht, lookup_insert_eq. split; [done|]. unfold cr_enabled.
    by destruct (br_enabled_ (cr_base o)) eqn:E.
Qed.

Lemma enable_writers_run l : forall v, (forall p, p ∈ l -> is_simple v p) ->
  let v' := fold_left (fun v p => writer_enable (CommWorld := CW) p v) l v in
  enabling v v' /\ forall p, p ∈ l -> writer_enabled v' p.
Proof.
  induction l as [|p l IH]; intros v Hl; cbn [fold_left].
  { split; [apply enabling_refl|]. by intros p ?%not_elem_of_nil. }
  destruct (writer_enable_run v p) as [H1 Hp]; [apply Hl; set_solver|].
  destruct (IH (writer_enable (CommWorld := CW) p v)) as [H2 Hrest].
  { intros p' Hp'. apply (enabling_keeps _ _ H1), Hl. set_solver. }
  split; [by eapply enabling_trans|]. intros p' [->|Hin]%elem_of_cons; [|by apply Hrest].
  by apply (enabling_keeps _ _ H2).
Qed.

(** The endpoints of a track exist, and are enabled. *)
Definition track_live v (t : Track) : Prop :=
  (forall p, p ∈ values (writers_ t) -> is_simple v p) /\ live_reader v (reader_ t).
Definition track_enabled v (t : Track) : Prop :=
  (forall p, p ∈ values (writers_ t) -> writer_enabled v p) /\ reader_enabled v (reader_ t).

Lemma enabling_track v v' t : enabling v v' -> (track_live v t -> track_live v' t) /\ (track_enabled v t -> track_enabled v' t).
Proof. intros He. destruct (enabling_keeps v v' He) as (H1 & H2 & H3 & H4). unfold track_live, track_enabled. naive_solver. Qed.

Lemma track_enable_run t v : enabled_ t = false -> track_live v t ->
  exists v', track_enable (CW := CW) (t, v) = (set_enabled true t, v') /\ enabling v v' /\ track_enabled v' t.
Proof.
  intros Hen [Hw Hr]. unfold track_enable. rewrite Hen. cbn [negb].
  destruct (enable_writers_run (values (writers_ t)) v Hw) as [H1 Hws].
  destruct (reader_enable_run (fold_left (fun v p => writer_enable (CommWorld := CW) p v) (values (writers_ t)) v) (reader_ t))
    as [H2 Hrd]; [by apply (enabling_keeps _ _ H1)|].
  eexists. split; [reflexivity|]. split; [by eapply enabling_trans|]. split; [|done].
  intros p Hp. by apply (enabling_keeps _ _ H2), Hws.
Qed.

Lemma for_tracks_enable l : forall w,
  (forall id t, (id, t) ∈ l -> enabled_ t = false /\ track_live (rp_world w) t) ->
  let w' := (for_tracks track_enable l w).2 in
  enabling (rp_world w) (rp_world w') /\ rp_participants w' = rp_participants w /\
  forall id t, (id, t) ∈ l -> track_enabled (rp_world w') t.
Proof.
  induction l as [|[id t] l IH]; intros w Hl; cbn [for_tracks].
  { split_and!; [apply enabling_refl|done|]. by intros id t ?%not_elem_of_nil. }
  destruct (Hl id t) as [Hen Hlive]; [by left|].
  cbn [comm_world PW rtps_participants]. rewrite (track_enable_lift rp_world rp_put). unfold lifted. cbn [fst snd].
  destruct (track_enable_run t (rp_world w) Hen Hlive) as (v1 & -> & He1 & Ht1).
  specialize (IH (rp_put v1 w)). destruct (for_tracks track_enable l (rp_put v1 w)) as [l' w2] eqn:Ef.
  destruct IH as (He2 & Hp2 & Hrest).
  { intros id' t' Hin. destruct (Hl id' t') as [? ?]; [set_solver|]. split; [done|].
    by apply (enabling_track _ _ _ He1). }
  cbn [snd] in *. split_and!; [by eapply enabling_trans|done|].
  intros id' t' [[= -> ->]|Hin]%elem_of_cons; [by apply (enabling_track _ _ _ He2)|by eapply Hrest].
Qed.

(** *** The callbacks of the tracks *)

Definition with_callback (n : nat) (o : CommonReader) : CommonReader :=
  cr_set_base (br_set_on_data_available_callback n (cr_base o)) o.

(** Only readers changed. *)
Definition same_but_readers v v' : Prop :=
  same_memory v v' /\ wd_rtps_readers v' = wd_rtps_readers v /\ wd_rtps_writers v' = wd_rtps_writers v /\
  wd_writers v' = wd_writers v.

Lemma set_callback_run v r n o : wd_readers v !! r = Some o ->
  reader_set_callback (CommWorld := CW) r n v =
    mkRtpsWorld (wd_heap v) (wd_pool v) (wd_rtps_readers v) (wd_rtps_writers v) (wd_database v)
      (<[r := with_callback n o]> (wd_readers v)) (wd_writers v) (wd_specific v) (wd_calls v) (wd_slots v)
      (wd_emitted v) (wd_aborted v).
Proof. intros Ho. cbn [reader_set_callback rtps_comm_world]. unfold quiet, wd_noexcept, on_rtps_reader. by rewrite Ho. Qed.

Lemma create_tracks_callbacks topic ids writers readers : forall tracks w tracks' w',
  NoDup ids -> (forall id id' r, find id readers = Some r -> find id' readers = Some r -> id = id') ->
  create_tracks topic ids writers readers tracks w = (Ok tracks', w') -> map_wf tracks ->
  (forall id r, find id readers = Some r -> is_Some (wd_readers (rp_world w) !! r)) ->
  same_but_readers (rp_world w) (rp_world w') /\ rp_participants w' = rp_participants w /\
  (forall id t, id ∈ ids -> find id tracks' = Some t ->
     wd_readers (rp_world w') !! reader_ t =
       with_callback (transmit_task_id_ t) <$> wd_readers (rp_world w) !! reader_ t) /\
  (forall r, (forall id, id ∈ ids -> find id readers <> Some r) ->
     wd_readers (rp_world w') !! r = wd_readers (rp_world w) !! r).
Proof.
  induction ids as [|id ids IH]; intros tracks w tracks' w' Hnd Hinj; cbn [create_tracks].
  { intros [= <- <-] _ _. split_and!; try done. by intros id t ?%not_elem_of_nil. }
  apply NoDup_cons in Hnd as [Hnin Hnd]. run_prog. destruct (find id readers) as [rd|] eqn:Er; [|done].
  unfold always. run_prog. unfold Track_new. cbn [new_unique_task_id PW rtps_participants comm_world].
  set (n := rp_next_task w). set (tr := mkTrack _ _ rd _ _ _ _ n).
  cbn [thread_pool_slot reader_set_callback comm_lift]. unfold on_view. intros Hrun Hwf Hlive.
  destruct (Hlive id rd Er) as [o Ho]. rewrite (set_callback_run _ _ _ o) in Hrun by done.
  match type of Hrun with create_tracks _ _ _ _ _ ?x = _ => set (w1 := x) in * end.
  destruct (IH (assign id tr tracks) w1 tracks' w' Hnd Hinj Hrun) as ((Hm & R1 & R2 & R3) & Hp & Hin & Hout);
    [by apply map_wf_assign| |].
  { intros id' r' Hf. cbn. destruct (decide (r' = rd)) as [->|Hne]; [rewrite lookup_insert_eq; by eexists|].
    rewrite lookup_insert_ne by done. by eapply Hlive. }
  destruct (create_tracks_spec _ _ _ _ _ _ _ _ Hnd Hrun) as (_ & Hspec & Hrest); [by apply map_wf_assign|].
  assert (wd_readers (rp_world w1) !! rd = Some (with_callback n o)) as Hrd by (cbn; apply lookup_insert_eq).
  assert (forall r, r <> rd -> wd_readers (rp_world w1) !! r = wd_readers (rp_world w) !! r) as Hoth
    by (intros r Hne; cbn; by rewrite lookup_insert_ne).
  split_and!; try done.
  - intros id' t' [->|Hid]%elem_of_cons Hf.
    + rewrite (Hrest id Hnin), find_assign_eq in Hf by apply keqv_refl. injection Hf as <-. cbn [reader_ transmit_task_id_ tr].
      rewrite Ho, Hout, Hrd; [done|]. intros id' Hid' Hf'. apply Hnin. by rewrite (Hinj id id' rd).
    + rewrite (Hin id' t' Hid Hf). f_equal. apply Hoth. intros E.
      destruct (Hspec id' Hid) as (t2 & Ht2 & _ & _ & Hr2 & _). rewrite Hf in Ht2. injection Ht2 as <-.
      rewrite E in Hr2. apply Hnin. by rewrite (Hinj id id' rd).
  - intros r Hr. rewrite Hout by (intros id' Hid'; apply Hr; by right). apply Hoth. intros ->. apply (Hr id); [by left|done].
Qed.

(** *** The bridge *)

Lemma simple_enabling v v' p o a e : enabling v v' -> simple_at v p = Some (o, a, e) ->
  exists o', simple_at v' p = Some (o', a, e) /\ (o' = o \/ o' = cw_enable o).
Proof.
  intros [_ [_ Ew] W _] (Hw & Ha & He)%simple_at_writes. simpl in Ha, He.
  destruct (W p o Hw) as (o' & Ho' & H'). exists o'. split; [|done]. unfold simple_at. rewrite Ho', Ew.
  assert (rtps_writer_ o' = Some a) as -> by (by destruct H' as [-> | ->]). simpl. by rewrite He.
Qed.

Lemma new_writer_enabled c g t o o' e : new_writer c g t o e -> o' = o \/ o' = cw_enable o -> new_writer c g t o' e.
Proof.
  intros Hn [-> | ->]; [done|]. destruct Hn as [H1 H2 H3 H4 H5 H6]. destruct (enable_facts o) as (_ & _ & Ht & _).
  split; try done. congruence.
Qed.

Lemma values_NoDup {A} (m : std_map ParticipantId A) :
  map_wf m -> (forall id id' x, find id m = Some x -> find id' m = Some x -> id = id') -> NoDup (values m).
Proof.
  intros Hwf Hinj. unfold values. apply NoDup_fmap_2_strong.
  - intros [k x] [k' x'] Hk Hk' E. simpl in E. subst x'. f_equal.
    apply (Hinj k k' x); by apply elem_of_find.
  - apply (NoDup_fmap_1 fst). by apply keys_NoDup.
Qed.

Lemma values_find {A} (m : std_map ParticipantId A) x : map_wf m -> x ∈ values m -> exists id, find id m = Some x.
Proof.
  intros Hwf Hx. unfold values in Hx. apply list_elem_of_fmap in Hx as ([k y] & -> & Hin). exists k. by apply elem_of_find.
Qed.

(** The writers of the track of [id]: those of the others, and its own if it repeats. *)
Lemma writers_of_track_wf id repeater (ws : std_map ParticipantId nat) : map_wf ws -> map_wf (writers_of_track id repeater ws).
Proof. intros Hwf. unfold writers_of_track. destruct (negb _); [by apply map_wf_erase|done]. Qed.

Lemma writers_of_track_elem id repeater (ws : std_map ParticipantId nat) p : map_wf ws ->
  p ∈ values (writers_of_track id repeater ws) <-> exists id', find id' ws = Some p /\ (id' = id -> repeater = true).
Proof.
  intros Hwf. pose proof (writers_of_track_wf id repeater ws Hwf) as Hwf'. split.
  - intros (id' & Hp)%values_find; [|done]. rewrite find_writers_of_track in Hp by done. exists id'.
    case_decide; [subst; by destruct repeater|done].
  - intros (id' & Hf & Hrep). assert (find id' (writers_of_track id repeater ws) = Some p) as Hf'.
    { rewrite find_writers_of_track by done. case_decide; [|done]. subst. by rewrite Hrep. }
    apply find_elem_of in Hf' as (k & _ & Hin). unfold values. apply list_elem_of_fmap. by exists (k, p).
Qed.

(** A memory in which [L] is all the pool has given, with histories that are empty. *)
Lemma shared_ok_empty h pool gs L H0 :
  shared_ok this_pool h pool [] L H0 -> Forall (fun g => g = []) gs -> shared_ok this_pool h pool gs L H0.
Proof.
  intros [Ha Hr _ _] Hgs. assert (mjoin gs = []) as Hj.
  { induction Hgs as [|g gs -> _ IH]; [done|]. simpl. done. }
  split; rewrite ?Hj; [exact Ha|exact Hr|constructor|].
  eapply Forall_impl; [exact Hgs|]. intros g ->. apply NoDup_nil_2.
Qed.

Lemma empty_not_full (e : RTPSWriter) : rw_history e = [] -> rw_is_full e = false.
Proof.
  intros Hh. apply not_true_is_false. intros [H1 H2]%rw_is_full_spec. rewrite Hh in H2. simpl in H2. lia.
Qed.

(** The track of the participant [id] of a bridge just made. *)
Record track_ready w0 v (t : DdsTopic) (id : ParticipantId) (ws : std_map ParticipantId nat) (g : Guid) (tr : Track)
    (L : list nat) (H0 : gset nat) (ro : CommonReader) : Prop := {
  tk_transmits : should_transmit_ tr = true;
  tk_idle : data_available_status_ tr = no_more_data;
  tk_writers : writers_ tr = writers_of_track id (is_repeater id w0) ws;
  tk_distinct : NoDup (values (writers_ tr));
  tk_connected : connected this_pool v (reader_ tr) [] (values (writers_ tr)) L H0;
  tk_reader : wd_readers v !! reader_ tr = Some ro;
  tk_topic : br_topic_ (cr_base ro) = t;
  tk_callback : br_on_data_available_ (cr_base ro) = Some (transmit_task_id_ tr);
  tk_prefix : forall a e, rtps_reader_ ro = Some a -> wd_rtps_readers v !! a = Some e ->
    guidPrefix (rr_guid e) = guidPrefix g
}.

(** Each participant has its writer, new, and its entity. *)
Definition writers_ready w0 v (t : DdsTopic) (ws : std_map ParticipantId nat) : Prop :=
  forall id p, find id ws = Some p -> exists c g o a e,
    participant_of w0 id = Some (c, g) /\ simple_at v p = Some (o, a, e) /\ new_writer c g t o e.

Lemma participant_ids w id c g :
  map_wf (rp_participants w) -> participant_of w id = Some (c, g) -> id ∈ set_elems (get_participants_ids w).
Proof.
  intros Hwf Hid. unfold participant_of in Hid. destruct (find id (rp_participants w)) as [p|] eqn:Hf; [|done].
  apply (fold_insert_elems _ (fun _ => true)); [done|apply map_wf_nil|done|]. right. exists p. split; [|done].
  apply find_elem_of in Hf as (k & Hk & Hin). apply ParticipantId_keqv in Hk. by subst k.
Qed.

Lemma writers_after w0 t ws rs v1 v2 v3 :
  endpoints_made (participant_of w0) t ws rs v1 -> same_but_readers v1 v2 -> enabling v2 v3 ->
  writers_ready w0 v3 t ws /\
  forall id id' p p' o o' a e e', find id ws = Some p -> find id' ws = Some p' ->
    simple_at v3 p = Some (o, a, e) -> simple_at v3 p' = Some (o', a, e') -> id = id'.
Proof.
  intros Hm (_ & _ & Ew & Eo) He.
  assert (forall p o a e, simple_at v1 p = Some (o, a, e) ->
    exists o', simple_at v3 p = Some (o', a, e) /\ (o' = o \/ o' = cw_enable o)) as Hkeep.
  { intros p o a e Hs. apply (simple_enabling v2); [done|]. unfold simple_at in *. by rewrite Eo, Ew. }
  split.
  - intros id p Hf. destruct (em_writer _ _ _ _ _ Hm id p Hf) as (c & g & o & a & e & Hc & Hs & Hn).
    destruct (Hkeep p o a e Hs) as (o' & Hs' & Ho'). exists c, g, o', a, e. split_and!; try done.
    by eapply new_writer_enabled.
  - intros id id' p p' o o' a e e' Hf Hf' Hs Hs'.
    destruct (em_writer _ _ _ _ _ Hm id p Hf) as (? & ? & o1 & a1 & e1 & _ & Hs1 & _).
    destruct (em_writer _ _ _ _ _ Hm id' p' Hf') as (? & ? & o2 & a2 & e2 & _ & Hs2 & _).
    destruct (Hkeep _ _ _ _ Hs1) as (? & Hk1 & _), (Hkeep _ _ _ _ Hs2) as (? & Hk2 & _).
    rewrite Hs in Hk1. rewrite Hs' in Hk2. injection Hk1 as _ <- _. injection Hk2 as _ <- _.
    exact (em_writers_inj _ _ _ _ _ Hm id id' p p' o1 o2 a e1 e2 Hf Hf' Hs1 Hs2).
Qed.

Lemma adds_after w0 t ws rs v1 v2 v3 :
  endpoints_made (participant_of w0) t ws rs v1 -> adds_only (rp_world w0) ws rs v1 ->
  same_but_readers v1 v2 -> enabling v2 v3 ->
  (forall id r, find id rs = Some r -> exists n, wd_readers v2 !! r = with_callback n <$> wd_readers v1 !! r) ->
  adds_only (rp_world w0) ws rs v3.
Proof.
  intros Hm [A1 A2 A3 A4] (_ & Er & Ew & Eo) [_ [Er3 Ew3] W R] Hcb.
  assert (forall id p, find id ws = Some p -> entity_of v3 p = entity_of v1 p) as Hw.
  { intros id p Hf. destruct (em_writer _ _ _ _ _ Hm id p Hf) as (_ & _ & o & a & e & _ & (Ho & _)%simple_at_writes & _).
    rewrite <- Eo in Ho. destruct (W p o Ho) as (o' & Ho' & H'). unfold entity_of. rewrite Ho', <- Eo, Ho.
    by destruct H' as [-> | ->]. }
  assert (forall id p, find id rs = Some p -> reader_entity v3 p = reader_entity v1 p) as Hr.
  { intros id p Hf. destruct (em_reader _ _ _ _ _ Hm id p Hf) as (_ & _ & o & _ & _ & _ & Ho & _).
    destruct (Hcb id p Hf) as (n & Hn). rewrite Ho in Hn. destruct (R _ _ Hn) as (o3 & Ho3 & H3).
    unfold reader_entity. rewrite Ho3, Ho. simpl. destruct H3 as [-> | ->]; [done|]. unfold cr_enabled. by destruct (negb _). }
  split.
  - intros id p a Hf. rewrite (Hw id p Hf). by apply (A1 id).
  - intros a Hno. rewrite Ew3, Ew. apply A2. intros id p Hf. rewrite <- (Hw id p Hf). by apply (Hno id).
  - intros id p a Hf. rewrite (Hr id p Hf). by apply (A3 id).
  - intros a Hno. rewrite Er3, Er. apply A4. intros id p Hf. rewrite <- (Hr id p Hf). by apply (Hno id).
Qed.

Lemma readers_after w0 t ws rs v1 v2 v3 :
  endpoints_made (participant_of w0) t ws rs v1 -> enabling v2 v3 ->
  (forall id r, find id rs = Some r -> exists n, wd_readers v2 !! r = with_callback n <$> wd_readers v1 !! r) ->
  forall id id' r r' o o' a, find id rs = Some r -> find id' rs = Some r' ->
    wd_readers v3 !! r = Some o -> wd_readers v3 !! r' = Some o' ->
    rtps_reader_ o = Some a -> rtps_reader_ o' = Some a -> id = id'.
Proof.
  intros Hm [_ _ _ R] Hcb.
  assert (forall id r o, find id rs = Some r -> wd_readers v3 !! r = Some o ->
    exists o1, wd_readers v1 !! r = Some o1 /\ rtps_reader_ o = rtps_reader_ o1) as Hback.
  { intros id r o Hf Ho. destruct (em_reader _ _ _ _ _ Hm id r Hf) as (_ & _ & o1 & _ & _ & _ & Ho1 & _).
    destruct (Hcb id r Hf) as (n & Hn). rewrite Ho1 in Hn. destruct (R _ _ Hn) as (o3 & Ho3 & H3).
    rewrite Ho in Ho3. injection Ho3 as <-. exists o1. split; [done|].
    destruct H3 as [-> | ->]; [done|]. unfold cr_enabled. by destruct (negb _). }
  intros id id' r r' o o' a Hf Hf' Ho Ho' Ha Ha'.
  destruct (Hback id r o Hf Ho) as (o1 & Ho1 & E1), (Hback id' r' o' Hf' Ho') as (o2 & Ho2 & E2).
  apply (em_readers_inj _ _ _ _ _ Hm id id' r r' o1 o2 a); congruence.
Qed.

Lemma reader_after w0 t ws rs v1 v2 v3 id tr c g :
  endpoints_made (participant_of w0) t ws rs v1 -> same_but_readers v1 v2 -> enabling v2 v3 ->
  wd_readers v2 !! reader_ tr = with_callback (transmit_task_id_ tr) <$> wd_readers v1 !! reader_ tr ->
  find id rs = Some (reader_ tr) -> participant_of w0 id = Some (c, g) ->
  exists o a e, wd_readers v3 !! reader_ tr = Some o /\ rtps_reader_ o = Some a /\ wd_rtps_readers v3 !! a = Some e /\
    new_reader g t o e /\ br_on_data_available_ (cr_base o) = Some (transmit_task_id_ tr).
Proof.
  intros Hm (_ & Er & _) [_ [Er3 _] _ R] Hcb Hf Hid.
  destruct (em_reader _ _ _ _ _ Hm id _ Hf) as (c' & g' & o & a & e & Hc & Ho & Ha & He & Hn).
  rewrite Hid in Hc. injection Hc as <- <-. rewrite Ho in Hcb. simpl in Hcb.
  destruct (R _ _ Hcb) as (o' & Ho' & H'). destruct Hn as [N1 N2 N3].
  assert (rtps_reader_ o' = Some a /\ br_topic_ (cr_base o') = t /\
    br_on_data_available_ (cr_base o') = Some (transmit_task_id_ tr)) as (F1 & F2 & F3).
  { destruct H' as [-> | ->]; [done|]. unfold cr_enabled. by destruct (negb _). }
  exists o', a, e. rewrite Er3, Er. by split_and!.
Qed.

Lemma track_made w0 t ws rs v1 v2 v3 id tr L H0 c g :
  endpoints_made (participant_of w0) t ws rs v1 -> map_wf ws -> same_but_readers v1 v2 -> enabling v2 v3 ->
  wd_readers v2 !! reader_ tr = with_callback (transmit_task_id_ tr) <$> wd_readers v1 !! reader_ tr ->
  track_spec t ws rs id (is_repeater id w0) tr -> track_enabled v3 tr -> participant_of w0 id = Some (c, g) ->
  wd_aborted v1 = None -> shared_ok this_pool (wd_heap v1) (wd_pool v1) [] L H0 ->
  exists ro, track_ready w0 v3 t id ws g (set_enabled true tr) L H0 ro.
Proof.
  intros Hm Hwf Hsb He Hcb (_ & _ & Hrd & Hws & _ & Hex & Hst) [Hwen Hren] Hid Hab Hmem.
  destruct (writers_after w0 t ws rs v1 v2 v3 Hm Hsb He) as [Hready Hinj].
  destruct (reader_after w0 t ws rs v1 v2 v3 id tr c g Hm Hsb He Hcb Hrd Hid) as (ro & a & e & Hro & Ha & Hent & [N1 N2 N3] & Hcall).
  assert (map_wf (writers_ tr)) as Hwf' by (rewrite Hws; by apply writers_of_track_wf).
  assert (forall id' p, find id' (writers_ tr) = Some p -> find id' ws = Some p) as Hsub.
  { intros id' p. rewrite Hws, find_writers_of_track by done. case_decide; [subst; by destruct (is_repeater id w0)|done]. }
  assert (forall id1 id2 p, find id1 (writers_ tr) = Some p -> find id2 (writers_ tr) = Some p -> id1 = id2) as Hone.
  { intros id1 id2 p H1%Hsub H2%Hsub. destruct (Hready id1 p H1) as (? & ? & o1 & a1 & e1 & _ & Hs1 & _). by eapply Hinj. }
  destruct Hsb as ((M1 & M2 & M3) & _). pose proof He as [(M4 & M5 & M6) _ _ _].
  exists ro. split; try done.
  - unfold should_transmit_. simpl. by rewrite Hex.
  - by apply values_NoDup.
  - cbn [set_enabled writers_ reader_]. split.
    + destruct Hren as (o' & Ho' & Hen). rewrite Hro in Ho'. injection Ho' as <-. exists ro, a, e. by split_and!.
    + rewrite Forall_forall. intros p Hp. destruct (values_find _ p Hwf' Hp) as (id' & Hf%Hsub).
      destruct (Hready id' p Hf) as (c' & g' & o1 & a1 & e1 & _ & Hs & [W1 W2 W3 W4 W5 W6]).
      exists o1, a1, e1. destruct (Hwen p Hp) as (o2 & Ho2 & Hen2).
      destruct (simple_at_writes _ _ _ _ _ Hs) as [Ho1 _]. rewrite Ho1 in Ho2. injection Ho2 as <-.
      rewrite W3. split_and!; [done..|constructor|by apply empty_not_full].
    + intros p p' o o' a' e1 e2 (id1 & H1)%values_find (id2 & H2)%values_find Hs1 Hs2; [|done..].
      pose proof (Hinj id1 id2 p p' o o' a' e1 e2 (Hsub _ _ H1) (Hsub _ _ H2) Hs1 Hs2) as ->. congruence.
    + rewrite M4, M5, M1, M2. apply shared_ok_empty; [done|]. constructor; [done|].
      rewrite Forall_fmap, Forall_forall. intros p Hp. destruct (values_find _ p Hwf' Hp) as (id' & Hf%Hsub).
      destruct (Hready id' p Hf) as (? & ? & o1 & a1 & e1 & _ & Hs & [_ _ W3 _ _ _]). simpl. unfold history_of. by rewrite Hs.
    + by rewrite M6, M3.
  - intros a' e' Ha' He'. assert (a' = a) as -> by congruence. assert (e' = e) as -> by congruence. done.
Qed.

(** The track of a participant and its endpoints, before it is enabled. *)
Lemma track_made_live conf t ws rs v1 v2 id repeater tr :
  endpoints_made conf t ws rs v1 -> map_wf ws -> same_but_readers v1 v2 ->
  wd_readers v2 !! reader_ tr = with_callback (transmit_task_id_ tr) <$> wd_readers v1 !! reader_ tr ->
  track_spec t ws rs id repeater tr -> track_live v2 tr.
Proof.
  intros Hm Hwf (_ & Er & _ & Eo) Hcb (_ & _ & Hrd & Hws & _). split.
  - intros p Hp. rewrite Hws in Hp.
    apply writers_of_track_elem in Hp as (id' & Hf' & _); [|done].
    destruct (em_writer _ _ _ _ _ Hm id' p Hf') as (? & ? & o & a & e & _ & (Ho & _)%simple_at_writes & _).
    exists o. by rewrite Eo.
  - destruct (em_reader _ _ _ _ _ Hm id _ Hrd) as (? & ? & o & a & e & _ & Ho & Ha & Hent & _).
    exists (with_callback (transmit_task_id_ tr) o), a, e. rewrite Hcb, Ho, Er. by split_and!.
Qed.

(** A bridge that was made enabled: every participant has its writer, its reader and its
    track, and the memory is as it was. *)
Record bridge_fresh w v (t : DdsTopic) (b : DDSBridge) (L : list nat) (H0 : gset nat) : Prop := {
  bf_writers : writers_ready w v t (b_writers_ b);
  bf_writers_inj : forall id id' p p' o o' a e e', find id (b_writers_ b) = Some p -> find id' (b_writers_ b) = Some p' ->
    simple_at v p = Some (o, a, e) -> simple_at v p' = Some (o', a, e') -> id = id';
  bf_readers_inj : forall id id' r r' o o' a, find id (b_readers_ b) = Some r -> find id' (b_readers_ b) = Some r' ->
    wd_readers v !! r = Some o -> wd_readers v !! r' = Some o' ->
    rtps_reader_ o = Some a -> rtps_reader_ o' = Some a -> id = id';
  bf_wf : map_wf (b_writers_ b) /\ map_wf (b_readers_ b);
  bf_domain : forall id r, find id (b_readers_ b) = Some r -> is_Some (participant_of w id);
  bf_tracked : forall id tr, find id (b_tracks_ b) = Some tr -> is_Some (find id (b_readers_ b));
  bf_memory : same_memory (rp_world w) v;
  bf_tracks_wf : map_wf (b_tracks_ b);
  bf_adds : adds_only (rp_world w) (b_writers_ b) (b_readers_ b) v;
  bf_tracks : forall id c g, participant_of w id = Some (c, g) -> is_Some (find id (b_writers_ b)) /\
    exists tr ro, find id (b_tracks_ b) = Some tr /\ find id (b_readers_ b) = Some (reader_ tr) /\
      track_ready w v t id (b_writers_ b) g tr L H0 ro
}.

Lemma bridge_made t w b w' L H0 :
  needs_specific_qos t = false -> DDSBridge_new t true w = (Ok b, w') ->
  map_wf (rp_participants w) -> wd_aborted (rp_world w) = None ->
  shared_ok this_pool (wd_heap (rp_world w)) (wd_pool (rp_world w)) [] L H0 ->
  bridge_fresh w (rp_world w') t b L H0 /\ same_participants w w' /\ map_wf (rp_participants w').
Proof.
  intros Hq. unfold DDSBridge_new.
  intros (ids & w0 & [= <- <-] & ((ws, rs) & w1 & Hend & (ts & w2 & Htr & Hlast)%bind_inv_ok)%bind_inv_ok)%bind_inv_ok Hwf Hab Hmem.
  cbn [fst snd] in *. set (ids := set_elems (get_participants_ids w)) in *.
  assert (NoDup ids) as Hnd by (unfold ids; apply set_elems_NoDup, ids_wf).
  destruct (create_endpoints_made w t ids [] [] w ws rs w1 Hq Hend Hnd) as (Hm & Hadd & Hsame & Hmem1);
    [done|by split|by split|done|].
  destruct (create_endpoints_maps _ _ _ _ _ _ _ _ Hend) as (Hws & Hrs & Hall & Hout); [apply map_wf_nil..|].
  destruct (create_tracks_callbacks t ids ws rs [] w1 ts w2 Hnd (fun id id' r => readers_distinct _ _ _ _ _ id id' r Hm) Htr)
    as (Hsb & Hpar2 & Hcb & _); [apply map_wf_nil| |].
  { intros id r Hf. destruct (em_reader _ _ _ _ _ Hm id r Hf) as (? & ? & o & ? & ? & _ & Ho & _). by exists o. }
  destruct (create_tracks_spec _ _ _ _ _ _ _ _ Hnd Htr) as (Hwt & Hspec & Hnone); [apply map_wf_nil|].
  unfold always, bridge_enable in Hlast. cbn [b_enabled_ negb b_tracks_] in Hlast.
  pose proof (for_tracks_enable ts w2) as Hen. pose proof (for_tracks_find track_enable ts w2) as Hfind.
  pose proof (for_tracks_find_none track_enable ts w2) as Habsent.
  destruct (for_tracks track_enable ts w2) as [ts' w3] eqn:Hts'. injection Hlast as <- <-. cbn [snd fst] in Hen, Hfind, Habsent.
  destruct Hen as (He & Hpar3 & Hten).
  { intros id tr Hin. apply elem_of_find in Hin; [|done].
    destruct (decide (id ∈ ids)) as [Hid|Hid]; [|by rewrite Hnone in Hin].
    destruct (Hspec id Hid) as (tr' & Htr' & Hts). rewrite Hin in Htr'. injection Htr' as <-.
    split; [apply Hts|]. eapply track_made_live; try done. by apply (Hcb id). }
  destruct (writers_after w t ws rs _ _ _ Hm Hsb He) as [Hready Hinj].
  destruct Hmem1 as (M1 & M2 & M3).
  split; [|split; [intros id; rewrite <- Hsame; unfold participant_of; by rewrite Hpar3, Hpar2|]];
    [|rewrite Hpar3, Hpar2; by eapply create_endpoints_wf].
  assert (forall id r, find id rs = Some r ->
    exists n, wd_readers (rp_world w2) !! r = with_callback n <$> wd_readers (rp_world w1) !! r) as Hcalls.
  { intros id r Hf. destruct (decide (id ∈ ids)) as [Hid|Hid]; [|by rewrite (proj2 (Hout id Hid)) in Hf].
    destruct (Hspec id Hid) as (tr & Htr' & _ & _ & Hrd & _). rewrite Hf in Hrd. injection Hrd as ->.
    exists (transmit_task_id_ tr). by apply (Hcb id). }
  split; cbn [b_tracks_ b_writers_ b_readers_]; try done.
  { by eapply readers_after. }
  { intros id r Hf. destruct (em_reader _ _ _ _ _ Hm id r Hf) as (c & g & _ & _ & _ & Hc & _). by exists (c, g). }
  { intros id tr Hin. destruct (decide (id ∈ ids)) as [Hid|Hid]; [by apply Hall|].
    rewrite Habsent in Hin; [done|]. by apply Hnone. }
  { destruct Hsb as ((N1 & N2 & N3) & _), He as [(K1 & K2 & K3) _ _ _]. unfold same_memory. split_and!; congruence. }
  { pose proof (for_tracks_wf track_enable ts w2 Hwt) as Hwt'. by rewrite Hts' in Hwt'. }
  { by eapply adds_after. }
  intros id c g Hid.
  pose proof (participant_ids w id c g Hwf Hid) as Hin. fold ids in Hin. split; [by apply Hall|].
  destruct (Hspec id Hin) as (tr & Htr' & Hts). pose proof Hts as (_ & _ & Hrd & _ & Hdis & _).
  destruct (Hfind id tr Htr') as (w4 & Hf4). unfold track_enable in Hf4. rewrite Hdis in Hf4. cbn [negb fst] in Hf4.
  rewrite (same_repeater w w1) in Hts by done.
  destruct (track_made w t ws rs (rp_world w1) (rp_world w2) (rp_world w3) id tr L H0 c g) as (ro & Hready'); try done.
  - by apply (Hcb id).
  - apply (Hten id). apply find_elem_of in Htr' as (k & Hk & Hk'). apply ParticipantId_keqv in Hk. by subst k.
  - by rewrite M3.
  - by rewrite M1, M2.
  - exists (set_enabled true tr), ro. done.
Qed.

(** *** A change through the bridge *)
Context (default_payload : payload default_data = Payload_empty).
Context (changes_available : forall k ih (e : RTPSWriter), rw_is_full e = false -> is_Some (rw_new_change k ih e).1).

(** The message of a change, if it has any. *)
Definition message_in (h : heap) (ch : Change) : option (list (option Z)) :=
  if decide (0 < payload_length (serializedPayload (ch_payload ch)))%Z
  then contents h (serializedPayload (ch_payload ch)) else None.

(** What the participant of the configuration [c] and the GUID [g] sends of the change
    and the message [s]: the same message, with the same kind, time, reply identity and
    instance, under a GUID of the participant; and it reaches every other participant
    but, if it repeats, those the change comes from. *)
Record repeated (c : BaseConf) (g : Guid) (t : DdsTopic) (s smp : sample) : Prop := {
  rep_writer : guidPrefix (ch_writerGUID smp.1) = guidPrefix g;
  rep_kind : ch_kind smp.1 = ch_kind s.1;
  rep_timestamp : ch_sourceTimestamp smp.1 = ch_sourceTimestamp s.1;
  rep_related : related_sample_identity (ch_write_params smp.1) = related_sample_identity (ch_write_params s.1);
  rep_handle : keyed t = true -> ch_instanceHandle smp.1 = ch_instanceHandle s.1;
  rep_message : smp.2 = s.2;
  rep_reaches : forall reader,
    is_relevant (if conf_is_repeater c then repeater_data_filter else self_data_filter) smp.1 reader = true <->
    guidPrefix reader <> guidPrefix g /\
    (conf_is_repeater c = true -> guidPrefix reader <> guidPrefix (ch_writerGUID s.1))
}.

Lemma repeated_relayed (c : BaseConf) (g : Guid) t ro o (e : RTPSWriter) h ch smp :
  bw_topic_ (cw_base o) = t -> repeater_ o = conf_is_repeater c -> guidPrefix (rw_guid e) = guidPrefix g ->
  br_topic_ (cr_base ro) = t -> relayed ro o (rw_guid e) h ch smp -> repeated c g t (ch, message_in h ch) smp.
Proof.
  intros N1 N2 N5 Ht [R1 R2 R3 R4 R5 R6 R7]. split; try done.
  - congruence.
  - intros Hk. apply R5; congruence.
  - intros reader. specialize (R7 reader). unfold filter_of in R7. rewrite N2, N5 in R7. exact R7.
Qed.

(** A change comes to the participant with the GUID [g]: Fast DDS has put it in the
    memory, where the pool has given what it holds and [L], and there is room for what a
    bridge with [n] writers does with it. *)
Record coming (g : Guid) (t : DdsTopic) (ch : Change) (h : heap) (pool : PayloadPool) (L : list nat) (H0 : gset nat)
    (n : nat) : Prop := {
  co_memory : shared_ok this_pool h pool [] (held ch ++ L) H0;
  co_change : change_ok h this_pool ch;
  co_foreign : guidPrefix (ch_writerGUID ch) <> guidPrefix g;
  co_acceptable : acceptable t ch;
  co_reserved : (0 <= reserve_count_ pool)%Z /\ (reserve_count_ pool + Z.of_nat (S n) < 2 ^ 64)%Z;
  co_load : (Z.of_nat (length (held ch ++ L)) + Z.of_nat (S n) < 2 ^ 32)%Z
}.

Lemma incoming_coming w0 v t id ws g tr L H0 ro ch h pool L' H0' n :
  track_ready w0 v t id ws g tr L H0 ro -> writers_ready w0 v t ws -> map_wf ws ->
  coming g t ch h pool L' H0' n ->
  incoming this_pool tr (wd_set_memory h pool v) [] ch (values (writers_ tr)) L' H0' ro.
Proof.
  intros [_ _ Hws _ [Hrd Hwr Hent _ Hab] Hro Ht Hcb Hpre] Hready Hwf [Hmem Hch Hf Hacc _ _].
  split; try done.
  - split; try done. apply shared_ok_empty; [done|]. constructor; [done|].
    rewrite Forall_fmap, Forall_forall. intros p Hp. rewrite Hws in Hp.
    apply writers_of_track_elem in Hp as (id' & Hf' & _); [|done].
    destruct (Hready id' p Hf') as (? & ? & o & a & e & _ & Hs & [_ _ W3 _ _ _]). simpl. unfold history_of.
    change (simple_at (wd_set_memory h pool v) p) with (simple_at v p). by rewrite Hs.
  - intros a e Ha He. by rewrite (Hpre a e Ha He).
  - apply NoDup_singleton.
Qed.

Lemma room_for g t ch h pool L H0 n v ws l :
  coming g t ch h pool L H0 n -> (forall p, p ∈ ws -> history_of v p = []) -> l <= n ->
  fits (wd_set_memory h pool v) ([] ++ [ch]) ws L (1 * S l).
Proof.
  intros [_ _ _ _ [R0 R1] R2] Hh Hl. unfold fits, load. cbn [wd_pool wd_set_memory].
  assert (mjoin (history_of (wd_set_memory h pool v) <$> ws) = []) as He.
  { clear -Hh. induction ws as [|p ws IH]; [done|].
    transitivity (history_of v p ++ mjoin (history_of (wd_set_memory h pool v) <$> ws)); [done|].
    rewrite IH by set_solver. rewrite Hh by set_solver. done. }
  assert (held_by (mjoin (histories (wd_set_memory h pool v) [ch] ws)) = held ch) as Hj.
  { transitivity (held_by ([ch] ++ mjoin (history_of (wd_set_memory h pool v) <$> ws))); [done|].
    rewrite He. unfold held_by. simpl. by rewrite app_nil_r. }
  cbn [app]. rewrite Hj. lia.
Qed.

(** What each participant has sent when the track of [id] has relayed the change. *)
Lemma bridge_sent w v v3 t ws id (repeater : bool) r ro ch h id' c' g' p l :
  writers_ready w v t ws -> map_wf ws ->
  (forall id id' p p' o o' a e e', find id ws = Some p -> find id' ws = Some p' ->
     simple_at v p = Some (o, a, e) -> simple_at v p' = Some (o', a, e') -> id = id') ->
  l = values (writers_of_track id repeater ws) -> wd_heap v = h ->
  wd_writers v3 = wd_writers v -> untouched v v3 r l ->
  (forall p, p ∈ l -> sent_more v v3 p (relays_all ro (wd_heap v) [ch])) ->
  br_topic_ (cr_base ro) = t -> acceptable t ch -> participant_of w id' = Some (c', g') -> find id' ws = Some p ->
  if decide (id' = id /\ repeater = false) then sent_by v3 p = []
  else exists smp, sent_by v3 p = [smp] /\ repeated c' g' t (ch, message_in h ch) smp.
Proof.
  intros Hready Hwf Hinj -> <- Hobj Hun Hsent Htop Hacc Hid' Hp.
  destruct (Hready id' p Hp) as (c1 & g1 & o & a & e & Hid1 & Hs & Hn). rewrite Hid' in Hid1. injection Hid1 as <- <-.
  destruct (simple_at_writes _ _ _ _ _ Hs) as (Hw & Ha & He). simpl in Ha, He. case_decide as Hcase.
  - destruct Hcase as [-> ->]. unfold sent_by, simple_at. rewrite Hobj, Hw, Ha. simpl. rewrite (un_writers _ _ _ _ Hun), He.
    + simpl. apply Hn.
    + intros p0 o0 (id0 & Hf0 & Hrep)%writers_of_track_elem Ho0 Ha0; [|done].
      destruct (Hready id0 p0 Hf0) as (? & ? & o2 & a2 & e2 & _ & Hs2 & _).
      destruct (simple_at_writes _ _ _ _ _ Hs2) as (Hw2 & Ha2 & _). simpl in Ha2.
      assert (a2 = a) as -> by congruence. discriminate (Hrep (Hinj id0 id p0 p o2 o a e2 e Hf0 Hp Hs2 Hs)).
  - assert (p ∈ values (writers_of_track id repeater ws)) as Hin.
    { apply writers_of_track_elem; [done|]. exists id'. split; [done|]. intros ->. destruct repeater; [done|]. by destruct Hcase. }
    destruct (Hsent p Hin o a e Hs) as (e' & l & Hs' & Hg & _ & Hse & HF). unfold relays_all in HF.
    rewrite filter_cons_True in HF by (by rewrite Htop). apply Forall2_cons_inv_l in HF as (smp & l' & Hr & Hnil & ->).
    apply Forall2_nil_inv_l in Hnil as ->. exists smp. unfold sent_by. rewrite Hs', Hse, (nw_sent _ _ _ _ _ Hn).
    split; [done|]. by eapply repeated_relayed; [apply Hn..| |].
Qed.

(** ** Properties *)

(** A bridge between RTPS participants relays.  The bridge of a topic without
    partitions nor ownership is made, enabled, on the participants of the router.  Then a
    change that Fast DDS brings to the reader of a participant from another one makes the
    listener call the track of that participant, the track emit its task, and the task
    end with the track idle again; and every other participant, and that one too if it
    repeats, has sent exactly one sample, with the message, the kind, the time, the
    instance and the reply identity of the change, under a GUID of its own, that reaches
    all but itself and, if it repeats, the participants that the change comes from.  A
    participant that does not repeat sends nothing of what it receives. *)
Theorem rtps_bridge_end_to_end t w b w' L H0 id c g ch h pool L' H0' :
  needs_specific_qos t = false -> DDSBridge_new t true w = (Ok b, w') ->
  map_wf (rp_participants w) -> wd_aborted (rp_world w) = None ->
  shared_ok this_pool (wd_heap (rp_world w)) (wd_pool (rp_world w)) [] L H0 ->
  participant_of w id = Some (c, g) -> coming g t ch h pool L' H0' (length (b_writers_ b)) ->
  exists tr v1 tr2 v2 v3, find id (b_tracks_ b) = Some tr /\
    on_rtps_reader (reader_ tr) (arrive this_pool ch) (wd_set_memory h pool (rp_world w')) = (Ok tt, v1) /\
    wd_calls v1 = wd_calls (rp_world w') ++ [transmit_task_id_ tr] /\
    data_available_ (tr, rp_put v1 w') = (tr2, rp_put v2 w') /\
    wd_emitted v2 = wd_emitted (rp_world w') ++ [transmit_task_id_ tr] /\
    (exists n, forall fuel, n <= fuel -> transmit_ fuel (tr2, rp_put v2 w') = (tr, rp_put v3 w')) /\
    forall id' c' g', participant_of w id' = Some (c', g') -> exists p, find id' (b_writers_ b) = Some p /\
      if decide (id' = id /\ conf_is_repeater c = false) then sent_by v3 p = []
      else exists smp, sent_by v3 p = [smp] /\ repeated c' g' t (ch, message_in h ch) smp.
Proof.
  intros Hq Hnew Hwf Hab Hmem Hid Hco.
  destruct (bridge_made t w b w' L H0 Hq Hnew Hwf Hab Hmem) as [[Hready Hinj _ [Hwfb _] _ _ _ _ _ Htracks] _].
  destruct (Htracks id c g Hid) as (_ & tr & ro & Htr & _ & Htk).
  pose proof (incoming_coming w _ t id _ g tr L H0 ro ch h pool L' H0' _ Htk Hready Hwfb Hco) as Hin.
  destruct Htk as [Htran Hidle Hws Hnd _ _ Htop _ _].
  set (v := wd_set_memory h pool (rp_world w')) in *.
  destruct (arrival_relayed this_pool default_params dta dq default_data default_payload changes_available
    tr v [] ch L' H0' ro) as (v1 & tr2 & v2 & v3 & Harr & Hcalls & Hda & Hem & (n & Hn) & _ & [Hobj _] & Hun & _ & Hsent); try done.
  { eapply room_for; [exact Hco| |].
    - intros p Hp. rewrite Hws in Hp. apply writers_of_track_elem in Hp as (id' & Hf' & _); [|done].
      destruct (Hready id' p Hf') as (? & ? & o & a & e & _ & Hs & [_ _ W3 _ _ _]). unfold history_of. by rewrite Hs.
    - unfold values. rewrite length_fmap, Hws. unfold writers_of_track. destruct (negb _); [apply length_erase_le|done]. }
  exists tr, v1, tr2, v2, v3. split_and!; try done.
  - cbn [comm_world PW rtps_participants]. rewrite (data_available_lift rp_world rp_put). unfold lifted. cbn [fst snd rp_put rp_world].
    by rewrite Hda.
  - exists n. intros fuel Hf. cbn [comm_world PW rtps_participants]. rewrite (transmit_lift rp_world rp_put). unfold lifted.
    cbn [fst snd rp_put rp_world]. by rewrite Hn.
  - intros id' c' g' Hid'. destruct (Htracks id' c' g' Hid') as [[p Hp] _]. exists p. split; [done|].
    apply (bridge_sent w v v3 t (b_writers_ b) id (conf_is_repeater c) (reader_ tr) ro ch h id' c' g' p (values (writers_ tr))); try done.
    + by rewrite Hws, repeater_of, Hid.
    + apply Hco.
Qed.

End RtpsBridge.

(** ** Witnesses *)
Section Witnesses.
#[local] Existing Instances Demo.cpp_utils Demo.cpp_utils_laws Demo.fast_dds Demo.dbqueue
  PoolDemo.malloc PoolDemo.malloc_laws ReaderDemo.readers ReaderDemo.readers_laws
  WriterDemo.writers WriterDemo.writers_laws.
#[local] Instance demo_methods : PoolMethods := FastPayloadPool.methods 7.
#[local] Instance demo_spec : PoolSpec 7 := FastPayloadPoolSpec.fast_pool_spec 7.

(** Two participants, of which the second repeats. *)
Definition demo_a : ParticipantId := mkParticipantId "a".
Definition demo_b : ParticipantId := mkParticipantId "b".
Definition demo_conf (id : ParticipantId) (repeater : bool) : BaseConf := mkBaseConf id kind_simple_rtps repeater.
Definition demo_world0 : rtps_world (C := unit) :=
  mkRtpsWorld ReaderDemo.memory ReaderDemo.pool ∅ ∅ DiscoveryDatabase_new ∅ ∅ ∅ [] [] [] None.
Definition demo_rpworld : rpworld (C := unit) :=
  mkRPWorld demo_world0
    [(demo_a, mkRtpsParticipant (BaseParticipant_of (demo_conf demo_a false)) (mkGuid [1%Z] [0%Z]));
     (demo_b, mkRtpsParticipant (BaseParticipant_of (demo_conf demo_b true)) (mkGuid [3%Z] [0%Z]))] 0.

#[local] Instance demo_participants : Participants (rpworld (C := unit)) :=
  rtps_participants 7 WriterDemo.default_params WriterDemo.dta WriterDemo.dq demo_default.

Definition demo_made : outcome DDSBridge * rpworld (C := unit) := DDSBridge_new ReaderDemo.topic true demo_rpworld.
Definition demo_bridge : DDSBridge :=
  match demo_made.1 with Ok b => b | Throw _ => mkBridge ReaderDemo.topic false [] [] [] end.

Lemma demo_made_ok : DDSBridge_new ReaderDemo.topic true demo_rpworld = (Ok demo_bridge, demo_made.2).
Proof.
  assert (is_ok demo_made.1 = true) as Hok by (vm_compute; reflexivity). change (demo_made = (Ok demo_bridge, demo_made.2)).
  unfold demo_bridge. destruct demo_made as [[b|e] w]; [reflexivity|discriminate Hok].
Qed.

Lemma demo_memory0 : shared_ok 7 ReaderDemo.memory ReaderDemo.pool [] [0] ∅.
Proof. destruct (ReaderDemo.reader_owns_demo) as [Hacc Hr _ _]. split; [exact Hacc|exact Hr|constructor|constructor]. Qed.

Lemma demo_coming : coming 7 (mkGuid [1%Z] [0%Z]) ReaderDemo.topic ReaderDemo.c1 ReaderDemo.memory ReaderDemo.pool [] ∅
  (length (b_writers_ demo_bridge)).
Proof.
  split; [exact demo_memory0| |done|split; [done|by left]|by vm_compute|by vm_compute].
  split; [reflexivity|]. exists 0, (mkBlock (Some 1%Z) [Some 5%Z; Some 6%Z]). by split_and!.
Qed.

Lemma rtps_bridge_end_to_end_witness : exists v p q smp,
  find demo_a (b_writers_ demo_bridge) = Some p /\ find demo_b (b_writers_ demo_bridge) = Some q /\
  sent_by (C := unit) v p = [] /\ sent_by v q = [smp] /\ smp.2 = Some [Some 5%Z; Some 6%Z].
Proof.
  destruct (rtps_bridge_end_to_end 7 WriterDemo.default_params WriterDemo.dta WriterDemo.dq demo_default eq_refl
    demo_available ReaderDemo.topic demo_rpworld demo_bridge demo_made.2 [0] ∅ demo_a (demo_conf demo_a false)
    (mkGuid [1%Z] [0%Z]) ReaderDemo.c1 ReaderDemo.memory ReaderDemo.pool [] ∅)
    as (tr & v1 & tr2 & v2 & v3 & _ & _ & _ & _ & _ & _ & Hsent).
  - reflexivity.
  - exact demo_made_ok.
  - repeat constructor.
  - reflexivity.
  - exact demo_memory0.
  - reflexivity.
  - exact demo_coming.
  - destruct (Hsent demo_a (demo_conf demo_a false) (mkGuid [1%Z] [0%Z]) eq_refl) as (p & Hp & Ha).
    destruct (Hsent demo_b (demo_conf demo_b true) (mkGuid [3%Z] [0%Z]) eq_refl) as (q & Hq & Hb).
    destruct (decide (demo_a = demo_a /\ _)) as [_|Hn] in Ha; [|destruct Hn; split; reflexivity].
    destruct (decide (demo_b = demo_a /\ _)) as [[E _]|_] in Hb; [discriminate E|].
    destruct Hb as (smp & Hsm & [_ _ _ _ _ Hmsg _]). exists v3, p, q, smp.
    split; [exact Hp|]. split; [exact Hq|]. split; [exact Ha|]. split; [exact Hsm|]. rewrite Hmsg. reflexivity.
Defined.

End Witnesses.
