(* ===== verification/RtpsSession.v ===== *)
(** * Sessions of a bridge over RTPS participants

    A bridge over its life: changes come from the networks to the readers of the
    participants, in any order, and the thread pool runs the tasks of the tracks between
    them, in any order.  The bridge refines an abstract relay, which only knows what
    waits at each participant and what has been forwarded. *)
From stdpp Require Import gmap.
From S2P Require Import Prelude StdMap CppString Externals Types Topics Endpoint DiscoveryDatabase PayloadPool Track Auxiliar Address Configuration Participants DDSBridge Rtps RtpsReader RtpsWriter MultiWriter ParticipantAttributes RtpsParticipant RtpsWorld RtpsBridge.

(** ** The relay

    The specification: a queue of samples per participant, and all that was forwarded,
    with the participant it came to. *)
Section Relay.
Context {CU : CppUtils} {FD : FastDDS}.

Record relay : Type := mkRelay {
  waiting : ParticipantId -> list sample;
  forwarded : list (ParticipantId * sample)
}.

(** A sample comes to a participant; the task of the track of a participant runs. *)
Inductive event : Type :=
| Arrives (id : ParticipantId) (s : sample)
| Runs (id : ParticipantId).

Definition set_waiting (id : ParticipantId) (l : list sample) (f : ParticipantId -> list sample) :
    ParticipantId -> list sample :=
  fun id' => if decide (id' = id) then l else f id'.

Definition relay_step (r : relay) (e : event) : relay :=
  match e with
  | Arrives id s => mkRelay (set_waiting id (waiting r id ++ [s]) (waiting r)) (forwarded r)
  | Runs id => mkRelay (set_waiting id [] (waiting r)) (forwarded r ++ (pair id <$> waiting r id))
  end.

Definition relay_init : relay := mkRelay (fun _ => []) [].
Definition relay_run (l : list event) : relay := fold_left relay_step l relay_init.

(** What the participant [id] must have sent on the topic [t]: all that was forwarded and
    can be, but what came to itself if it does not repeat. *)
Definition to_send (t : DdsTopic) (id : ParticipantId) (repeater : bool) (l : list (ParticipantId * sample)) :
    list sample :=
  snd <$> filter (fun x : ParticipantId * sample => acceptable t x.2.1 /\ (x.1 = id -> repeater = true)) l.

(** What came to [id], in its order. *)
Fixpoint arrived (id : ParticipantId) (l : list event) : list sample :=
  match l with
  | [] => []
  | Arrives id' s :: l' => if decide (id' = id) then s :: arrived id l' else arrived id l'
  | Runs _ :: l' => arrived id l'
  end.
Definition forwarded_from (id : ParticipantId) (r : relay) : list sample :=
  snd <$> filter (fun x : ParticipantId * sample => x.1 = id) (forwarded r).

Lemma to_send_app t id repeater l l' : to_send t id repeater (l ++ l') = to_send t id repeater l ++ to_send t id repeater l'.
Proof. unfold to_send. by rewrite filter_app, fmap_app. Qed.

Lemma to_send_from t id repeater id' l :
  to_send t id repeater (pair id' <$> l) =
    if decide (id' = id /\ repeater = false) then [] else filter (fun s : sample => acceptable t s.1) l.
Proof.
  unfold to_send. case_decide as Hcase.
  - destruct Hcase as [-> ->]. induction l as [|s l IH]; [done|]. cbn [fmap list_fmap].
    rewrite filter_cons_False; [done|]. simpl. intros [_ H]. by discriminate H.
  - assert (id' = id -> repeater = true) as Hrep by (intros ->; destruct repeater; [done|by destruct Hcase]).
    induction l as [|s l IH]; [done|]. cbn [fmap list_fmap]. rewrite !filter_cons. cbn [fst snd].
    destruct (decide (acceptable t s.1)).
    + rewrite decide_True by done. cbn [fmap list_fmap snd]. by f_equal.
    + rewrite decide_False by naive_solver. done.
Qed.

(** Nothing is lost nor reordered: what came to a participant is what was forwarded from
    it and what still waits. *)
Lemma relay_conserves id l r :
  let r' := fold_left relay_step l r in
  forwarded_from id r' ++ waiting r' id = (forwarded_from id r ++ waiting r id) ++ arrived id l.
Proof.
  revert r. induction l as [|e l IH]; intros r; cbn [fold_left]; [by rewrite app_nil_r|].
  rewrite IH. unfold forwarded_from, relay_step. destruct e as [id' s|id']; cbn [arrived waiting forwarded].
  - unfold set_waiting. destruct (decide (id = id')) as [->|Hne].
    + rewrite decide_True by done. by rewrite <- !app_assoc.
    + by rewrite decide_False by done.
  - unfold set_waiting. rewrite filter_app, fmap_app. destruct (decide (id = id')) as [->|Hne].
    + rewrite app_nil_r. do 2 f_equal. induction (waiting r id') as [|s q IHq]; [done|].
      cbn [fmap list_fmap]. rewrite filter_cons_True by done. cbn [fmap list_fmap snd]. by f_equal.
    + do 2 f_equal. rewrite <- (app_nil_r (snd <$> filter _ (forwarded r))) at 2. f_equal.
      induction (waiting r id') as [|s q IHq]; [done|]. cbn [fmap list_fmap]. by rewrite filter_cons_False.
Qed.

End Relay.

(** ** Sessions *)
Section Session.
Context {CU : CppUtils} {CL : CppUtilsLaws} {FD : FastDDS} {DQ : DBQueueOps} {C : Type}.
Context {RR : RtpsReaders} {RL : RtpsReadersLaws} {RW : RtpsWriters} {WL : RtpsWritersLaws}.
Context {PM : PoolMethods} (this_pool : nat) {PS : PoolSpec this_pool}.
Context (default_params : SendParams) (dta : TopicAttributes) (dq : EndpointQos) (default_data : DataReceived).

#[local] Notation world := (rtps_world (C := C)).
#[local] Notation rpworld := (rpworld (C := C)).
Let PW : Participants rpworld := rtps_participants this_pool default_params dta dq default_data.
#[local] Existing Instance PW.
Implicit Types (w : rpworld) (v : world) (r : relay).

(** What the pool has given to others than the bridge, and the blocks of others. *)
Context (L : list nat) (H0 : gset nat).

Definition queue_of v (p : nat) : list Change :=
  match wd_readers v !! p with
  | Some o =>
      match rtps_reader_ o with
      | Some a => match wd_rtps_readers v !! a with Some e => rr_untaken e | None => [] end
      | None => []
      end
  | None => []
  end.

(** All the changes that Fast DDS keeps for a bridge. *)
Definition bridge_histories (b : DDSBridge) v : list (list Change) :=
  (queue_of v <$> values (b_readers_ b)) ++ (history_of v <$> values (b_writers_ b)).

(** The counters of the pool do not overflow with [n] payloads more. *)
Definition room (b : DDSBridge) v (n : nat) : Prop :=
  (0 <= reserve_count_ (wd_pool v))%Z /\ (reserve_count_ (wd_pool v) + Z.of_nat n < 2 ^ 64)%Z /\
  (Z.of_nat (length (held_by (mjoin (bridge_histories b v)) ++ L)) + Z.of_nat n < 2 ^ 32)%Z.

(** Fast DDS brings the change [ch] to the participant [id]: it has put it in the memory,
    that is now [h] with the pool [pool], and touched nothing that the bridge has; the
    change comes from another participant, and is not one that the reader has. *)
Record brings (b : DDSBridge) w (id : ParticipantId) (ch : Change) (h : heap) (pool : PayloadPool) : Prop := {
  bg_memory : shared_ok this_pool h pool (bridge_histories b (rp_world w)) (held ch ++ L) H0;
  bg_kept : kept_for (held_by (mjoin (bridge_histories b (rp_world w)))) (wd_heap (rp_world w)) h;
  bg_change : change_ok h this_pool ch;
  bg_foreign : forall c g, participant_of w id = Some (c, g) -> guidPrefix (ch_writerGUID ch) <> guidPrefix g;
  bg_reader : forall p, find id (b_readers_ b) = Some p ->
    distinct_samples (queue_of (rp_world w) p ++ [ch]) /\ (Z.of_nat (S (length (queue_of (rp_world w) p))) < 2 ^ 31)%Z
}.

Definition set_track (id : ParticipantId) (tr : Track) (b : DDSBridge) : DDSBridge :=
  mkBridge (b_topic_ b) (b_enabled_ b) (b_writers_ b) (b_readers_ b) (assign id tr (b_tracks_ b)).

(** A step of the router on the bridge.  A change arrives: the listener of the reader
    calls [data_available_] of the track.  Or the thread pool runs the task that the track
    has emitted. *)
Inductive bridge_step : DDSBridge * rpworld -> event -> DDSBridge * rpworld -> Prop :=
| step_arrives b w id tr ch h pool v1 tr' w' :
    find id (b_tracks_ b) = Some tr -> brings b w id ch h pool ->
    on_rtps_reader (reader_ tr) (arrive this_pool ch) (wd_set_memory h pool (rp_world w)) = (Ok tt, v1) ->
    data_available_ (tr, rp_put v1 w) = (tr', w') ->
    bridge_step (b, w) (Arrives id (ch, message_in h ch)) (set_track id tr' b, w')
| step_runs b w id tr n tr' w' :
    find id (b_tracks_ b) = Some tr -> data_available_status_ tr <> no_more_data ->
    room b (rp_world w) (length (queue_of (rp_world w) (reader_ tr)) * S (length (b_writers_ b))) ->
    (forall fuel, n <= fuel -> transmit_ fuel (tr, w) = (tr', w')) ->
    bridge_step (b, w) (Runs id) (set_track id tr' b, w').

Inductive session : DDSBridge * rpworld -> list event -> DDSBridge * rpworld -> Prop :=
| session_nil s : session s [] s
| session_cons s e s' l s'' : bridge_step s e s' -> session s' l s'' -> session s (e :: l) s''.

(** *** The simulation *)
Context (w0 : rpworld) (t : DdsTopic).

(** The writer of a participant with its entity, ready to write. *)
Record writer_works (c : BaseConf) (g : Guid) (o : CommonWriter) (e : RTPSWriter) : Prop := {
  ww_topic : bw_topic_ (cw_base o) = t;
  ww_repeater : repeater_ o = conf_is_repeater c;
  ww_prefix : guidPrefix (rw_guid e) = guidPrefix g;
  ww_filter : rw_filter e = Some (filter_of o);
  ww_numbered : Forall (fun c => (ch_sequenceNumber c < rw_next e)%Z) (rw_history e);
  ww_room : rw_is_full e = false
}.

(** The reader of a participant with its entity, which calls the track [tr]. *)
Record reader_works (g : Guid) (tr : Track) (o : CommonReader) (e : RTPSReader) : Prop := {
  rk_enabled : br_enabled_ (cr_base o) = true;
  rk_topic : br_topic_ (cr_base o) = t;
  rk_callback : br_on_data_available_ (cr_base o) = Some (transmit_task_id_ tr);
  rk_prefix : guidPrefix (rr_guid e) = guidPrefix g
}.

Definition messages_in (h : heap) (l : list sample) : Prop := Forall (fun s => s.2 = message_in h s.1) l.

Record track_works (b : DDSBridge) v (id : ParticipantId) (c : BaseConf) (g : Guid) (q : list sample) (tr : Track) :
    Prop := {
  tw_reader : find id (b_readers_ b) = Some (reader_ tr);
  tw_writers : writers_ tr = writers_of_track id (conf_is_repeater c) (b_writers_ b);
  tw_enabled : forall p, p ∈ values (writers_ tr) -> writer_enabled v p;
  tw_transmits : should_transmit_ tr = true;
  tw_status : data_available_status_ tr = u32 (2 * Z.of_nat (length q));
  tw_few : (Z.of_nat (length q) < 2 ^ 31)%Z;
  tw_entity : exists o a e, wd_readers v !! reader_ tr = Some o /\ rtps_reader_ o = Some a /\
    wd_rtps_readers v !! a = Some e /\ reader_works g tr o e /\ rr_untaken e = q.*1;
  tw_messages : messages_in (wd_heap v) q
}.

(** The bridge does what the relay does. *)
Record simulates (b : DDSBridge) w r : Prop := {
  si_participants : same_participants w0 w /\ map_wf (rp_participants w);
  si_wf : map_wf (b_writers_ b) /\ map_wf (b_readers_ b);
  si_writer : forall id p, find id (b_writers_ b) = Some p -> exists c g o a e,
    participant_of w0 id = Some (c, g) /\ simple_at (rp_world w) p = Some (o, a, e) /\ writer_works c g o e /\
    Forall2 (repeated c g t) (to_send t id (conf_is_repeater c) (forwarded r)) (rw_sent e);
  si_writers_inj : forall id id' p p' o o' a e e', find id (b_writers_ b) = Some p -> find id' (b_writers_ b) = Some p' ->
    simple_at (rp_world w) p = Some (o, a, e) -> simple_at (rp_world w) p' = Some (o', a, e') -> id = id';
  si_readers_inj : forall id id' p p' o o' a, find id (b_readers_ b) = Some p -> find id' (b_readers_ b) = Some p' ->
    wd_readers (rp_world w) !! p = Some o -> wd_readers (rp_world w) !! p' = Some o' ->
    rtps_reader_ o = Some a -> rtps_reader_ o' = Some a -> id = id';
  si_domain : forall id p, find id (b_readers_ b) = Some p -> is_Some (participant_of w0 id);
  si_tracked : forall id tr, find id (b_tracks_ b) = Some tr -> is_Some (find id (b_readers_ b));
  si_tracks_wf : map_wf (b_tracks_ b);
  si_adds : adds_only (rp_world w0) (b_writers_ b) (b_readers_ b) (rp_world w);
  si_track : forall id c g, participant_of w0 id = Some (c, g) -> is_Some (find id (b_writers_ b)) /\
    exists tr, find id (b_tracks_ b) = Some tr /\ track_works b (rp_world w) id c g (waiting r id) tr;
  si_memory : shared_ok this_pool (wd_heap (rp_world w)) (wd_pool (rp_world w)) (bridge_histories b (rp_world w)) L H0;
  si_aborted : wd_aborted (rp_world w) = None
}.

(** *** One track of the bridge *)

(** The changes of the bridge that the track of [id] does not touch. *)
Definition others (b : DDSBridge) (id : ParticipantId) (repeater : bool) v : list (list Change) :=
  (queue_of v <$> values (erase id (b_readers_ b))) ++
  (history_of v <$> (if repeater then [] else match find id (b_writers_ b) with Some p => [p] | None => [] end)).

Lemma histories_of_track b id repeater v p :
  find id (b_readers_ b) = Some p -> is_Some (find id (b_writers_ b)) ->
  bridge_histories b v ≡ₚ
    histories v (queue_of v p) (values (writers_of_track id repeater (b_writers_ b))) ++ others b id repeater v.
Proof.
  intros Hp [pw Hpw]. unfold bridge_histories, histories, others. rewrite Hpw.
  rewrite (values_erase id (b_readers_ b) p Hp). cbn [fmap list_fmap app]. f_equiv.
  assert (values (b_writers_ b) ≡ₚ values (writers_of_track id repeater (b_writers_ b)) ++ (if repeater then [] else [pw])) as Hw.
  { unfold writers_of_track. destruct repeater; cbn [negb]; [by rewrite app_nil_r|].
    rewrite (values_erase id (b_writers_ b) pw Hpw). by rewrite Permutation_app_comm. }
  rewrite Hw, fmap_app. rewrite !app_assoc. f_equiv. by rewrite Permutation_app_comm.
Qed.

Lemma shared_others h pool gs K K' :
  K ≡ₚ K' -> shared_ok this_pool h pool gs K H0 -> shared_ok this_pool h pool gs K' H0.
Proof.
  intros Hp [Ha Hr Hc Hd]. assert (held_by (mjoin gs) ++ K ≡ₚ held_by (mjoin gs) ++ K') as Hp' by (by rewrite Hp).
  split; [by eapply accounts_perm|by eapply refs_inv_perm|done|done].
Qed.

(** What the simulation gives at a participant. *)
Lemma track_of b w r id c g : simulates b w r -> participant_of w0 id = Some (c, g) ->
  exists tr o a e, find id (b_tracks_ b) = Some tr /\ track_works b (rp_world w) id c g (waiting r id) tr /\
    wd_readers (rp_world w) !! reader_ tr = Some o /\ rtps_reader_ o = Some a /\
    wd_rtps_readers (rp_world w) !! a = Some e /\ reader_works g tr o e /\
    rr_untaken e = (waiting r id).*1 /\ queue_of (rp_world w) (reader_ tr) = (waiting r id).*1.
Proof.
  intros Hs Hid. destruct (si_track _ _ _ Hs id c g Hid) as (_ & tr & Htr & Htw).
  pose proof (tw_entity _ _ _ _ _ _ _ Htw) as (o & a & e & Ho & Ha & He & Hk & Hu).
  exists tr, o, a, e. split_and!; try done. unfold queue_of. by rewrite Ho, Ha, He.
Qed.

Lemma writer_of_track b w r id c g tr p :
  simulates b w r -> track_works b (rp_world w) id c g (waiting r id) tr -> p ∈ values (writers_ tr) <->
  exists id', find id' (b_writers_ b) = Some p /\ (id' = id -> conf_is_repeater c = true).
Proof. intros Hs Htw. rewrite (tw_writers _ _ _ _ _ _ _ Htw). apply writers_of_track_elem, Hs. Qed.

Lemma track_distinct b w r id c g tr :
  simulates b w r -> track_works b (rp_world w) id c g (waiting r id) tr -> NoDup (values (writers_ tr)).
Proof.
  intros Hs Htw. rewrite (tw_writers _ _ _ _ _ _ _ Htw). destruct (si_wf _ _ _ Hs) as [Hwf _].
  apply values_NoDup; [by apply writers_of_track_wf|]. intros id1 id2 p.
  rewrite !find_writers_of_track by done. intros H1 H2.
  assert (find id1 (b_writers_ b) = Some p /\ find id2 (b_writers_ b) = Some p) as [F1 F2].
  { split; [destruct (decide (id1 = id))|destruct (decide (id2 = id))]; subst; try done; by destruct (conf_is_repeater c). }
  destruct (si_writer _ _ _ Hs id1 p F1) as (_ & _ & o & a & e & _ & Hat & _). by eapply (si_writers_inj _ _ _ Hs).
Qed.

(** The track of [id] is connected, whatever the memory, if the memory is right. *)
Lemma track_connected b w r id c g tr h pool K :
  simulates b w r -> participant_of w0 id = Some (c, g) -> find id (b_tracks_ b) = Some tr ->
  track_works b (rp_world w) id c g (waiting r id) tr ->
  shared_ok this_pool h pool (bridge_histories b (rp_world w)) (K ++ L) H0 ->
  connected this_pool (wd_set_memory h pool (rp_world w)) (reader_ tr) (waiting r id).*1 (values (writers_ tr))
    (K ++ (held_by (mjoin (others b id (conf_is_repeater c) (rp_world w))) ++ L)) H0.
Proof.
  intros Hs Hid Htr Htw Hmem. destruct (track_of b w r id c g Hs Hid) as (tr' & o & a & e & Htr' & _ & Ho & Ha & He & Hk & Hu & Hq).
  rewrite Htr in Htr'. injection Htr' as <-.
  pose proof (histories_of_track b id (conf_is_repeater c) (rp_world w) _ (tw_reader _ _ _ _ _ _ _ Htw)
    (proj1 (si_track _ _ _ Hs id c g Hid))) as Hp.
  rewrite Hq, <- (tw_writers _ _ _ _ _ _ _ Htw) in Hp.
  split; [| | | |exact (si_aborted _ _ _ Hs)].
  - exists o, a, e. split_and!; try done. apply Hk.
  - rewrite Forall_forall. intros p Hin. destruct (tw_enabled _ _ _ _ _ _ _ Htw p Hin) as (o2 & Ho2 & Hen).
    apply (writer_of_track _ _ _ _ _ _ _ _ Hs Htw) in Hin as (id' & Hf & _).
    destruct (si_writer _ _ _ Hs id' p Hf) as (c1 & g1 & o1 & a1 & e1 & _ & Hat & Hww & _). exists o1, a1, e1.
    destruct (simple_at_writes _ _ _ _ _ Hat) as [Ho1 _]. rewrite Ho1 in Ho2. injection Ho2 as <-.
    split_and!; [done|done|apply Hww..].
  - intros p p' o1 o2 a1 e1 e2 (id1 & F1 & _)%(writer_of_track _ _ _ _ _ _ _ _ Hs Htw)
      (id2 & F2 & _)%(writer_of_track _ _ _ _ _ _ _ _ Hs Htw) S1 S2.
    assert (id1 = id2) as -> by (by eapply (si_writers_inj _ _ _ Hs)). congruence.
  - eapply shared_others; [apply Permutation_app_swap_app|].
    apply (shared_part this_pool _ _ _ (others b id (conf_is_repeater c) (rp_world w))).
    by eapply shared_perm.
Qed.

Lemma relays_repeated (c : BaseConf) (g : Guid) ro o (e : RTPSWriter) h qs l :
  writer_works c g o e -> br_topic_ (cr_base ro) = t -> messages_in h qs -> relays_all ro h qs.*1 o e l ->
  Forall2 (repeated c g t) (filter (fun s : sample => acceptable t s.1) qs) l.
Proof.
  intros Hww Htop Hm. unfold relays_all. rewrite Htop. revert l.
  induction Hm as [|s qs Hsm _ IH]; intros l; cbn [fmap list_fmap]; [by intros ->%Forall2_nil_inv_l|].
  rewrite !filter_cons. destruct (decide (acceptable t s.1)); [|apply IH].
  intros (smp & l' & Hr & Hrest & ->)%Forall2_cons_inv_l. constructor; [|by apply IH].
  destruct s as [ch m]. simpl in *. subst m. by eapply repeated_relayed; [apply Hww..| |].
Qed.

Lemma message_kept h h' ch :
  change_ok h this_pool ch -> kept_for (held ch) h h' -> message_in h' ch = message_in h ch.
Proof.
  intros Hok Hk. unfold message_in. case_decide as Hpos; [|done].
  unfold change_ok in Hok. destruct (payload_owner (ch_payload ch)) as [n|] eqn:Ho; [|lia].
  destruct Hok as [_ Hv]. pose proof Hv as (x & bl & Hx & _).
  apply (held_valid_kept _ _ _ _ x Hk); [done| |done]. unfold held. rewrite Ho, Hx. set_solver.
Qed.

Lemma messages_kept h h' q :
  Forall (change_ok h this_pool) q.*1 -> kept_for (held_by q.*1) h h' -> messages_in h q -> messages_in h' q.
Proof.
  intros Hok Hk Hm. unfold messages_in in *. rewrite Forall_forall in Hm |- *. rewrite Forall_forall in Hok. intros s Hin. rewrite (Hm s Hin). symmetry.
  assert (s.1 ∈ q.*1) as Hin1 by (by apply list_elem_of_fmap_2).
  apply message_kept; [by apply Hok|]. eapply kept_for_sub; [|exact Hk]. intros x Hx. by eapply held_elem.
Qed.

(** *** What a step of one track leaves *)
Section Step.
Context (b : DDSBridge) w r (id : ParticipantId) (c : BaseConf) (g : Guid) (tr : Track) v3.
#[local] Notation v := (rp_world w).
#[local] Notation own := (values (writers_ tr)).
#[local] Notation rest := (others b id (conf_is_repeater c)).
Context (Hs : simulates b w r) (Hid : participant_of w0 id = Some (c, g)) (Htr : find id (b_tracks_ b) = Some tr).
Context (Htw : track_works b v id c g (waiting r id) tr).
Context (Hobj : same_objects v v3) (Hun : untouched v v3 (reader_ tr) own).

Lemma other_writer_kept id' p : find id' (b_writers_ b) = Some p -> p ∉ own -> simple_at v3 p = simple_at v p.
Proof.
  intros Hf Hp. destruct (si_writer _ _ _ Hs id' p Hf) as (_ & _ & o & a & e & _ & Hat & _).
  destruct (simple_at_writes _ _ _ _ _ Hat) as (Ho & Ha & He). simpl in Ha, He.
  unfold simple_at. destruct Hobj as [-> _]. rewrite Ho, Ha. simpl. rewrite (un_writers _ _ _ _ Hun); [done|].
  intros p2 o2 Hin Ho2 Ha2. pose proof Hin as (id2 & F2 & _)%(writer_of_track _ _ _ _ _ _ _ _ Hs Htw).
  destruct (si_writer _ _ _ Hs id2 p2 F2) as (_ & _ & o3 & a3 & e3 & _ & Hat3 & _).
  destruct (simple_at_writes _ _ _ _ _ Hat3) as (Ho3 & Ha3 & _). simpl in Ha3.
  assert (a3 = a) as -> by congruence. rewrite (si_writers_inj _ _ _ Hs id2 id' p2 p o3 o a e3 e F2 Hf Hat3 Hat) in F2.
  congruence.
Qed.

Lemma other_reader_kept id' p o a : find id' (b_readers_ b) = Some p -> id' <> id ->
  wd_readers v !! p = Some o -> rtps_reader_ o = Some a ->
  wd_readers v3 !! p = Some o /\ wd_rtps_readers v3 !! a = wd_rtps_readers v !! a.
Proof.
  intros Hf Hne Ho Ha. destruct Hobj as [_ ->]. split; [done|]. apply (un_readers _ _ _ _ Hun).
  intros o2 Ho2 Ha2. apply Hne. eapply (si_readers_inj _ _ _ Hs); try done. apply Htw.
Qed.

Lemma others_kept : rest v3 = rest v.
Proof.
  unfold others. destruct (si_wf _ _ _ Hs) as [Hwf Hwfr]. f_equal.
  - apply list_fmap_ext. intros i p Hp%list_elem_of_lookup_2.
    destruct (values_find _ p (map_wf_erase id _ Hwfr) Hp) as (id' & Hf). rewrite find_erase in Hf by done.
    destruct (keqv id' id) eqn:E; [done|]. assert (id' <> id) as Hne by (intros ->; by rewrite keqv_refl in E).
    destruct (si_domain _ _ _ Hs id' p Hf) as ((c' & g') & Hid').
    destruct (track_of b w r id' c' g' Hs Hid') as (tr' & o & a & e & _ & Htw' & Ho & Ha & _).
    rewrite (tw_reader _ _ _ _ _ _ _ Htw') in Hf. injection Hf as <-.
    destruct (other_reader_kept id' _ o a (tw_reader _ _ _ _ _ _ _ Htw') Hne Ho Ha) as [Ho3 He3].
    unfold queue_of. by rewrite Ho3, Ho, Ha, He3.
  - apply list_fmap_ext. intros i p Hp%list_elem_of_lookup_2. destruct (conf_is_repeater c) eqn:Hrep; [by apply not_elem_of_nil in Hp|].
    destruct (find id (b_writers_ b)) as [p'|] eqn:Hf; [|by apply not_elem_of_nil in Hp].
    apply list_elem_of_singleton in Hp as ->. unfold history_of. rewrite (other_writer_kept id p' Hf); [done|].
    intros (id2 & F2 & H2)%(writer_of_track _ _ _ _ _ _ _ _ Hs Htw).
    destruct (si_writer _ _ _ Hs id p' Hf) as (_ & _ & o & a & e & _ & Hat & _).
    rewrite (si_writers_inj _ _ _ Hs id2 id p' p' o o a e e F2 Hf Hat Hat) in H2. rewrite Hrep in H2. by discriminate H2.
Qed.


(** The track has relayed [qs], and [q'] waits at its reader. *)
Context (q' qs : list sample) (ro : CommonReader).
Context (Hro : wd_readers v !! reader_ tr = Some ro).
Context (Hconn : connected this_pool v3 (reader_ tr) q'.*1 own (held_by (mjoin (rest v)) ++ L) H0).
Context (Hkept : kept_for (held_by (mjoin (rest v))) (wd_heap v) (wd_heap v3)).
Context (Hsent : forall p, p ∈ own -> sent_more v v3 p (relays_all ro (wd_heap v) qs.*1)).
Context (Hmsgs : messages_in (wd_heap v) qs) (Hmsgs' : messages_in (wd_heap v3) q').
Context (Hfew : (Z.of_nat (length q') < 2 ^ 31)%Z).

#[local] Notation tr' := (set_status (u32 (2 * Z.of_nat (length q'))) tr).
#[local] Notation b' := (set_track id tr' b).
#[local] Notation r' := (mkRelay (set_waiting id q' (waiting r)) (forwarded r ++ (pair id <$> qs))).

Lemma step_reader_topic : br_topic_ (cr_base ro) = t.
Proof.
  pose proof (tw_entity _ _ _ _ _ _ _ Htw) as (o & a & e & Ho & _ & _ & Hk & _).
  rewrite Hro in Ho. injection Ho as <-. apply Hk.
Qed.

Lemma step_writer id' p : find id' (b_writers_ b) = Some p -> exists c' g' o a e,
  participant_of w0 id' = Some (c', g') /\ simple_at v3 p = Some (o, a, e) /\ writer_works c' g' o e /\
  Forall2 (repeated c' g' t) (to_send t id' (conf_is_repeater c') (forwarded r')) (rw_sent e).
Proof.
  intros Hf. destruct (si_writer _ _ _ Hs id' p Hf) as (c' & g' & o & a & e & Hid' & Hat & Hww & HF).
  cbn [forwarded]. exists c', g', o, a. rewrite to_send_app, to_send_from.
  destruct (decide (p ∈ own)) as [Hp|Hp].
  - destruct (Hsent p Hp o a e Hat) as (e' & l & Hat' & Hg & Hfil & Hse & Hrel). exists e'.
    pose proof (cn_writers _ _ _ _ _ _ _ Hconn) as Hready. rewrite Forall_forall in Hready.
    destruct (Hready p Hp) as (o2 & a2 & e2 & Hat2 & Hen & Hnum & Hroom).
    rewrite Hat' in Hat2. injection Hat2 as <- <- <-.
    split_and!; [done|done| |].
    + destruct Hww as [W1 W2 W4 W5 W6 W7]. split; congruence || done.
    + rewrite Hse. apply Forall2_app; [done|]. rewrite decide_False.
      * by eapply relays_repeated; [exact Hww|exact step_reader_topic|..].
      * intros [<- Hn]. apply (writer_of_track _ _ _ _ _ _ _ _ Hs Htw) in Hp as (id2 & F2 & H2).
        rewrite (si_writers_inj _ _ _ Hs id2 id p p o o a e e F2 Hf Hat Hat) in H2.
        rewrite Hid in Hid'. injection Hid' as <- <-. rewrite H2 in Hn; done.
  - exists e. rewrite (other_writer_kept id' p Hf Hp). split_and!; try done. rewrite decide_True; [by rewrite app_nil_r|].
    assert (id = id' /\ conf_is_repeater c = false) as [-> Hrep].
    { destruct (decide (id' = id)) as [->|Hne].
      - split; [done|]. apply not_true_is_false. intros Hrep. apply Hp.
        apply (writer_of_track _ _ _ _ _ _ _ _ Hs Htw). by exists id.
      - destruct Hp. apply (writer_of_track _ _ _ _ _ _ _ _ Hs Htw). by exists id'. }
    rewrite Hid in Hid'. by injection Hid' as <- <-.
Qed.

Lemma step_simple_back id' p o a e : find id' (b_writers_ b) = Some p -> simple_at v3 p = Some (o, a, e) ->
  exists e1, simple_at v p = Some (o, a, e1).
Proof.
  intros Hf (Ho & Ha & _)%simple_at_writes. simpl in Ha.
  destruct (si_writer _ _ _ Hs id' p Hf) as (_ & _ & o1 & a1 & e1 & _ & Hat & _).
  destruct (simple_at_writes _ _ _ _ _ Hat) as (Ho1 & Ha1 & _). simpl in Ha1. destruct Hobj as [E _].
  assert (o1 = o) as -> by congruence. assert (a1 = a) as -> by congruence. by exists e1.
Qed.

Lemma queue_in_rest id' p : find id' (b_readers_ b) = Some p -> id' <> id ->
  forall ch, ch ∈ queue_of v p -> ch ∈ mjoin (rest v).
Proof.
  intros Hf Hne ch Hin. apply list_elem_of_join. exists (queue_of v p). split; [done|]. apply elem_of_app. left.
  apply list_elem_of_fmap_2. assert (find id' (erase id (b_readers_ b)) = Some p) as Hf'.
  { destruct (si_wf _ _ _ Hs). rewrite find_erase by done. by rewrite ParticipantId_keqv_ne. }
  apply find_elem_of in Hf' as (k & _ & Hk). unfold values. apply list_elem_of_fmap. by exists (k, p).
Qed.

(** The track of another participant. *)
Lemma step_other_track id' c' g' tr2 : id' <> id ->
  track_works b v id' c' g' (waiting r id') tr2 -> track_works b' v3 id' c' g' (waiting r id') tr2.
Proof.
  intros Hne [T1 T2 Te T3 T4 T5 (o & a & e & Ho & Ha & He & Hk & Hu) T7].
  destruct (other_reader_kept id' _ o a T1 Hne Ho Ha) as [Ho3 He3]. split; try done.
  - unfold writer_enabled. by rewrite (proj1 Hobj).
  - exists o, a, e. rewrite He3. by split_and!.
  - assert (queue_of v (reader_ tr2) = (waiting r id').*1) as Hq by (unfold queue_of; by rewrite Ho, Ha, He).
    pose proof (queue_in_rest id' _ T1 Hne) as Hin. rewrite Hq in Hin.
    apply (messages_kept (wd_heap v)); [| |done].
    + destruct (si_memory _ _ _ Hs) as [_ _ Hch _]. rewrite Forall_forall in Hch |- *. intros ch Hc. apply Hch.
      rewrite (mjoin_perm _ _ (histories_of_track b id (conf_is_repeater c) v _ (tw_reader _ _ _ _ _ _ _ Htw)
        (proj1 (si_track _ _ _ Hs id c g Hid)))), join_app. apply elem_of_app. right. by apply Hin.
    + eapply kept_for_sub; [|exact Hkept]. intros x Hx. unfold held_by in Hx.
      apply list_elem_of_join in Hx as (l & Hx & (ch & -> & Hc)%list_elem_of_fmap). eapply held_elem; [by apply Hin|done].
Qed.

(** Its own. *)
Lemma step_own_track : track_works b' v3 id c g q' tr'.
Proof.
  pose proof Htw as [T1 T2 Te T3 T4 T5 (o & a & e & Ho & Ha & He & [K1 K2 K3 K4] & Hu) T7].
  destruct (cn_reader _ _ _ _ _ _ _ Hconn) as (o3 & a3 & e3 & Ho3 & _ & Ha3 & He3 & Hu3).
  pose proof Hobj as [_ Hor]. assert (o3 = o) as -> by congruence. assert (a3 = a) as -> by congruence.
  destruct (un_guid _ _ _ _ Hun a e He) as (e3' & He3' & Hg). assert (e3' = e3) as -> by congruence.
  split; try done; [unfold writer_enabled; by rewrite (proj1 Hobj)|].
  exists o, a, e3. split_and!; try done. split; try done. congruence.
Qed.

Lemma step_memory : shared_ok this_pool (wd_heap v3) (wd_pool v3) (bridge_histories b' v3) L H0.
Proof.
  pose proof (tw_reader _ _ _ _ _ _ _ Htw) as Hr. pose proof (proj1 (si_track _ _ _ Hs id c g Hid)) as Hw.
  pose proof (histories_of_track b id (conf_is_repeater c) v _ Hr Hw) as Hp.
  pose proof (histories_of_track b id (conf_is_repeater c) v3 _ Hr Hw) as Hp3.
  assert (queue_of v3 (reader_ tr) = q'.*1) as Hq.
  { destruct (cn_reader _ _ _ _ _ _ _ Hconn) as (o3 & a3 & e3 & Ho3 & _ & Ha3 & He3 & Hu3). unfold queue_of.
    by rewrite Ho3, Ha3, He3. }
  rewrite Hq, <- (tw_writers _ _ _ _ _ _ _ Htw), others_kept in Hp3.
  eapply shared_perm; [symmetry; exact Hp3|].
  eapply shared_rejoin; [eapply shared_perm; [exact Hp|apply Hs]|apply Hconn|exact Hkept].
Qed.

Lemma step_adds : adds_only (rp_world w0) (b_writers_ b') (b_readers_ b') v3.
Proof.
  destruct (si_adds _ _ _ Hs) as [A1 A2 A3 A4]. destruct Hobj as [Ow Or].
  assert (forall p, entity_of v3 p = entity_of v p) as Ew by (intros p; unfold entity_of; by rewrite Ow).
  assert (forall p, reader_entity v3 p = reader_entity v p) as Er by (intros p; unfold reader_entity; by rewrite Or).
  split; cbn [set_track b_writers_ b_readers_].
  - intros id' p a. rewrite Ew. apply A1.
  - intros a Hno. rewrite (un_writers _ _ _ _ Hun).
    + apply A2. intros id' p Hf. rewrite <- Ew. by apply (Hno id').
    + intros p o (id' & Hf & _)%(writer_of_track _ _ _ _ _ _ _ _ Hs Htw) Ho Ha. apply (Hno id' p Hf).
      rewrite Ew. unfold entity_of. by rewrite Ho.
  - intros id' p a. rewrite Er. apply A3.
  - intros a Hno. rewrite (un_readers _ _ _ _ Hun).
    + apply A4. intros id' p Hf. rewrite <- Er. by apply (Hno id').
    + intros o Ho Ha. apply (Hno id _ (tw_reader _ _ _ _ _ _ _ Htw)). rewrite Er. unfold reader_entity. by rewrite Ho.
Qed.

Lemma step_simulates : simulates b' (rp_put v3 w) r'.
Proof.
  pose proof Hobj as [Ow Or]. split; cbn [rp_put rp_world waiting].
  - apply (si_participants _ _ _ Hs).
  - apply Hs.
  - exact step_writer.
  - intros id1 id2 p p' o o' a e e' F1 F2 (e1 & S1)%(step_simple_back id1 p o a e F1) (e2 & S2)%(step_simple_back id2 p' o' a e' F2).
    by eapply (si_writers_inj _ _ _ Hs).
  - intros id1 id2 p p' o o' a. cbn [set_track b_readers_]. rewrite Or. apply (si_readers_inj _ _ _ Hs).
  - apply Hs.
  - intros id' tr2. cbn [set_track b_tracks_ b_readers_]. rewrite find_assign_id.
    case_decide as E; [|by apply Hs]. subst id'. intros _. eexists. apply Htw.
  - cbn [set_track b_tracks_]. apply map_wf_assign, Hs.
  - exact step_adds.
  - intros id' c' g' Hid'. destruct (si_track _ _ _ Hs id' c' g' Hid') as (Hw & tr2 & Htr2 & Htw2). split; [done|].
    cbn [set_track b_tracks_]. unfold set_waiting. rewrite find_assign_id. case_decide as E.
    + subst id'. rewrite Hid in Hid'. injection Hid' as <- <-. eexists. split; [done|]. exact step_own_track.
    + exists tr2. split; [done|]. by apply step_other_track.
  - exact step_memory.
  - apply Hconn.
Qed.

End Step.

(** *** The steps *)
Context (default_payload : payload default_data = Payload_empty).
Context (changes_available : forall k ih (e : RTPSWriter), rw_is_full e = false -> is_Some (rw_new_change k ih e).1).

#[local] Notation CW := (rtps_comm_world this_pool default_params dta dq default_data (C := C)).

Lemma held_by_sub (l l' : list Change) : (forall ch, ch ∈ l -> ch ∈ l') -> forall x, x ∈ held_by l -> x ∈ held_by l'.
Proof.
  intros Hsub x Hx. unfold held_by in Hx. apply list_elem_of_join in Hx as (k & Hx & (ch & -> & Hc)%list_elem_of_fmap).
  by eapply held_elem; [apply Hsub|].
Qed.

(** The histories of the bridge from those of a track. *)
Lemma in_histories b w r id c g tr : simulates b w r -> participant_of w0 id = Some (c, g) ->
  track_works b (rp_world w) id c g (waiting r id) tr ->
  (forall ch, ch ∈ (waiting r id).*1 -> ch ∈ mjoin (bridge_histories b (rp_world w))) /\
  (forall ch, ch ∈ mjoin (others b id (conf_is_repeater c) (rp_world w)) -> ch ∈ mjoin (bridge_histories b (rp_world w))) /\
  length (held_by (mjoin (bridge_histories b (rp_world w))) ++ L) =
    load (rp_world w) (waiting r id).*1 (values (writers_ tr))
      (held_by (mjoin (others b id (conf_is_repeater c) (rp_world w))) ++ L).
Proof.
  intros Hs Hid Htw. destruct (si_track _ _ _ Hs id c g Hid) as (Hw & _).
  pose proof (histories_of_track b id (conf_is_repeater c) (rp_world w) _ (tw_reader _ _ _ _ _ _ _ Htw) Hw) as Hp.
  destruct (tw_entity _ _ _ _ _ _ _ Htw) as (o & a & e & Ho & Ha & He & _ & Hu).
  assert (queue_of (rp_world w) (reader_ tr) = (waiting r id).*1) as Hq by (unfold queue_of; by rewrite Ho, Ha, He).
  rewrite Hq, <- (tw_writers _ _ _ _ _ _ _ Htw) in Hp. split_and!.
  - intros ch Hc. rewrite (mjoin_perm _ _ Hp), join_app. apply elem_of_app. left. unfold histories. simpl.
    apply elem_of_app. by left.
  - intros ch Hc. rewrite (mjoin_perm _ _ Hp), join_app. apply elem_of_app. by right.
  - unfold load. rewrite <- held_split. by rewrite (held_by_perm _ _ (mjoin_perm _ _ Hp)).
Qed.

Lemma notify_next n : (Z.of_nat (S n) < 2 ^ 31)%Z ->
  notify_status (u32 (2 * Z.of_nat n)) = (u32 (2 * Z.of_nat (S n)), bool_decide (n = 0)).
Proof.
  intros Hn. unfold notify_status, new_data_arrived, no_more_data. rewrite (u32_small (2 * Z.of_nat n)) by lia.
  f_equal; [f_equal; lia|]. case_bool_decide; [subst; done|]. apply Z.eqb_neq. lia.
Qed.

(** The call of [data_available_]. *)
Lemma data_available_next (tr : Track) v n :
  should_transmit_ tr = true -> data_available_status_ tr = u32 (2 * Z.of_nat n) -> (Z.of_nat (S n) < 2 ^ 31)%Z ->
  exists v', data_available_ (CW := CW) (tr, v) = (set_status (u32 (2 * Z.of_nat (S n))) tr, v') /\
    v' = wd_set_tasks (wd_slots v) (wd_emitted v ++ if decide (n = 0) then [transmit_task_id_ tr] else []) v.
Proof.
  intros Ht Hst Hn. unfold data_available_. rewrite Hst, notify_next by done.
  unfold should_transmit_ in Ht. apply andb_true_iff in Ht as [_ ->]. eexists. split; [done|].
  destruct (decide (n = 0)); [by rewrite bool_decide_true|]. rewrite bool_decide_false by done. rewrite app_nil_r. by destruct v.
Qed.

(** A change arrives. *)
Lemma arrives_simulates b w r id c g ch h pool : simulates b w r -> participant_of w0 id = Some (c, g) ->
  brings b w id ch h pool ->
  exists tr v1 tr' w', find id (b_tracks_ b) = Some tr /\
    on_rtps_reader (reader_ tr) (arrive this_pool ch) (wd_set_memory h pool (rp_world w)) = (Ok tt, v1) /\
    data_available_ (tr, rp_put v1 w) = (tr', w') /\
    simulates (set_track id tr' b) w' (relay_step r (Arrives id (ch, message_in h ch))).
Proof.
  intros Hs Hid [Bm Bk Bc Bf Br].
  destruct (track_of b w r id c g Hs Hid) as (tr & o & a & e & Htr & Htw & Ho & Ha & He & [K1 K2 K3 K4] & Hu & Hq).
  destruct (Br _ (tw_reader _ _ _ _ _ _ _ Htw)) as [Bd Bn]. rewrite Hq in Bd, Bn. rewrite length_fmap in Bn.
  destruct (in_histories b w r id c g tr Hs Hid Htw) as (Hinq & Hino & _).
  pose proof (track_connected b w r id c g tr h pool (held ch) Hs Hid Htr Htw Bm) as Hconn.
  assert (incoming this_pool tr (wd_set_memory h pool (rp_world w)) (waiting r id).*1 ch (values (writers_ tr))
    (held_by (mjoin (others b id (conf_is_repeater c) (rp_world w))) ++ L) H0 o) as Hin.
  { split; try done. intros a' e' Ha' He'. rewrite Ha in Ha'. injection Ha' as <-. simpl in He'. rewrite He in He'.
    injection He' as <-. rewrite K4. eapply (Bf c g). by rewrite (proj1 (si_participants _ _ _ Hs) id). }
  destruct (world_arrive this_pool tr _ _ ch _ _ H0 o Hin) as (v1 & Hrun & _ & _ & Hh & _ & Hent & Hobj & [U1 U2 U3] & Hc1).
  destruct (data_available_next tr v1 (length (waiting r id)) (tw_transmits _ _ _ _ _ _ _ Htw) (tw_status _ _ _ _ _ _ _ Htw) Bn)
    as (v2 & Hda & Hv2).
  set (q' := waiting r id ++ [(ch, message_in h ch)]).
  assert (length q' = S (length (waiting r id))) as Hlen by (unfold q'; rewrite length_app; simpl; lia).
  eexists tr, v1, _, (rp_put v2 w). split_and!; [done|done| |].
  { cbn [comm_world PW rtps_participants]. rewrite (data_available_lift rp_world rp_put). unfold lifted.
    cbn [fst snd rp_put rp_world]. by rewrite Hda. }
  assert (relay_step r (Arrives id (ch, message_in h ch)) =
    mkRelay (set_waiting id q' (waiting r)) (forwarded r ++ (pair id <$> []))) as -> by (cbn; by rewrite app_nil_r).
  rewrite <- Hlen. subst v2. apply (step_simulates b w r id c g tr) with (ro := o); try done.
  - unfold q'. rewrite fmap_app. destruct Hc1 as [C1 C2 C3 C4 C5]. by split.
  - cbn. rewrite Hh. eapply kept_for_sub; [|exact Bk]. by apply held_by_sub.
  - intros p Hp o1 a1 e1 Hat. exists e1, []. rewrite app_nil_r. split_and!; try done; [|constructor].
    unfold simple_at in *. destruct Hobj as [Hw _]. cbn in *. by rewrite Hw, Hent.
  - constructor.
  - cbn. rewrite Hh. apply Forall_app. split; [|by apply Forall_singleton].
    eapply messages_kept; [| |apply Htw].
    + destruct (si_memory _ _ _ Hs) as [_ _ Hch _]. rewrite Forall_forall in Hch |- *. auto.
    + eapply kept_for_sub; [|exact Bk]. by apply held_by_sub.
  - by rewrite Hlen.
Qed.

(** The task of a track runs. *)
Lemma runs_simulates b w r id c g : simulates b w r -> participant_of w0 id = Some (c, g) ->
  room b (rp_world w) (length (waiting r id) * S (length (b_writers_ b))) ->
  exists tr n tr' w', find id (b_tracks_ b) = Some tr /\
    (forall fuel, n <= fuel -> transmit_ fuel (tr, w) = (tr', w')) /\
    simulates (set_track id tr' b) w' (relay_step r (Runs id)) /\
    forall m, room b (rp_world w) (length (waiting r id) * S (length (b_writers_ b)) + m) ->
      room (set_track id tr' b) (rp_world w') m.
Proof.
  intros Hs Hid (R0 & R1 & R2).
  destruct (track_of b w r id c g Hs Hid) as (tr & o & a & e & Htr & Htw & Ho & Ha & He & Hk & Hu & Hq).
  destruct (in_histories b w r id c g tr Hs Hid Htw) as (Hinq & Hino & Hload).
  set (K := held_by (mjoin (others b id (conf_is_repeater c) (rp_world w)))) in *.
  assert (connected this_pool (rp_world w) (reader_ tr) (waiting r id).*1 (values (writers_ tr)) (K ++ L) H0) as Hconn.
  { pose proof (track_connected b w r id c g tr _ _ [] Hs Hid Htr Htw (si_memory _ _ _ Hs)) as Hc.
    by destruct (rp_world w). }
  assert (length (values (writers_ tr)) <= length (b_writers_ b)) as Hlen.
  { unfold values. rewrite length_fmap, (tw_writers _ _ _ _ _ _ _ Htw). unfold writers_of_track.
    destruct (negb _); [apply length_erase_le|done]. }
  destruct (gives_changes this_pool default_params dta dq default_data default_payload changes_available tr
    (values (writers_ tr)) (waiting r id).*1 (rp_world w) (K ++ L) H0 o) as (l & v3 & Hg & Hc3 & Hobj & Hun & Hk3 & Hsp & Hsent); try done.
  { by eapply track_distinct. }
  { rewrite length_fmap. unfold fits. rewrite <- Hload.
    pose proof (Nat.mul_le_mono_l _ _ (length (waiting r id)) (le_n_S _ _ Hlen)) as Hle.
    split_and!; [done|eapply Z.le_lt_trans; [|exact R1]|eapply Z.le_lt_trans; [|exact R2]];
      apply Z.add_le_mono_l, Nat2Z.inj_le; exact Hle. }
  destruct (transmit_gives (CW := CW) tr (rp_world w) l v3) as (n & Hn); [apply Htw|done|].
  assert (simulates (set_track id (set_status no_more_data tr) b) (rp_put v3 w) (relay_step r (Runs id))) as Hs'.
  { change no_more_data with (u32 (2 * Z.of_nat (length (@nil sample)))).
    apply (step_simulates b w r id c g tr) with (ro := o); try done; [|apply Htw|constructor].
    eapply kept_for_sub; [|exact Hk3]. intros x Hx. apply elem_of_app. by left. }
  exists tr, n, (set_status no_more_data tr), (rp_put v3 w). split_and!; [done| |done|].
  { intros fuel Hf. cbn [comm_world PW rtps_participants]. rewrite (transmit_lift rp_world rp_put). unfold lifted.
    cbn [fst snd]. by rewrite Hn. }
  intros m (M0 & M1 & M2). destruct Hsp as [[S1 S2] S3]. rewrite length_fmap in S2, S3.
  destruct (si_track _ _ _ Hs' id c g Hid) as (_ & tr2 & Htr2 & Htw2).
  cbn [set_track b_tracks_] in Htr2. rewrite find_assign_id, decide_True in Htr2 by done. injection Htr2 as <-.
  destruct (in_histories _ _ _ id c g _ Hs' Hid Htw2) as (_ & _ & Hload').
  cbn [rp_put rp_world relay_step waiting set_status writers_] in Hload'.
  unfold set_waiting in Hload'. rewrite decide_True in Hload' by done. cbn [fmap list_fmap] in Hload'.
  change (others (set_track id ?x b) id ?y v3) with (others b id y v3) in Hload'.
  rewrite (others_kept b w r id c g tr v3 Hs Htw Hobj Hun) in Hload'. fold K in Hload'.
  unfold room. cbn [rp_put rp_world]. rewrite Hload'.
  pose proof (Nat.mul_le_mono_l _ _ (length (waiting r id)) (le_n_S _ _ Hlen)) as Hle. rewrite Hload in M2.
  unfold sample in *. nia.
Qed.

Lemma tracked_participant b w r id tr : simulates b w r -> find id (b_tracks_ b) = Some tr ->
  exists c g, participant_of w0 id = Some (c, g).
Proof.
  intros Hs [p Hp]%(si_tracked _ _ _ Hs). destruct (si_domain _ _ _ Hs id p Hp) as ((c & g) & Hid). by exists c, g.
Qed.

Lemma step_refines b w r ev s' : simulates b w r -> bridge_step (b, w) ev s' -> simulates s'.1 s'.2 (relay_step r ev).
Proof.
  intros Hs Hstep. inversion Hstep as [b1 w1 id tr ch h pool v1 tr' w' Htr Hb Hrun Hda|b1 w1 id tr n tr' w' Htr Hst Hr Hrun]; subst.
  - destruct (tracked_participant b w r id tr Hs Htr) as (c & g & Hid).
    destruct (arrives_simulates b w r id c g ch h pool Hs Hid Hb) as (tr2 & v2 & tr3 & w3 & Htr2 & Hrun2 & Hda2 & Hs').
    rewrite Htr in Htr2. injection Htr2 as <-. rewrite Hrun in Hrun2. injection Hrun2 as <-.
    rewrite Hda in Hda2. by injection Hda2 as <- <-.
  - destruct (tracked_participant b w r id tr Hs Htr) as (c & g & Hid).
    destruct (track_of b w r id c g Hs Hid) as (tr2 & _ & _ & _ & Htr2 & _ & _ & _ & _ & _ & _ & Hq).
    rewrite Htr in Htr2. injection Htr2 as <-. rewrite Hq, length_fmap in Hr.
    destruct (runs_simulates b w r id c g Hs Hid Hr) as (tr2 & n2 & tr3 & w3 & Htr2 & Hrun2 & Hs' & _).
    rewrite Htr in Htr2. injection Htr2 as <-. specialize (Hrun2 (n + n2) (Nat.le_add_l _ _)).
    rewrite (Hrun (n + n2)) in Hrun2 by lia. by injection Hrun2 as <- <-.
Qed.

Lemma session_simulates l s s' : session s l s' -> forall r, simulates s.1 s.2 r ->
  simulates s'.1 s'.2 (fold_left relay_step l r).
Proof.
  induction 1 as [s|[b w] e s' l s'' Hstep _ IH]; intros r Hs; [done|]. by apply IH, (step_refines b w).
Qed.

Lemma session_app s l s' l' s'' : session s l s' -> session s' l' s'' -> session s (l ++ l') s''.
Proof. induction 1; [done|]. intros. eapply session_cons; eauto. Qed.

(** The bridge just made simulates the relay without samples. *)
Lemma fresh_simulates b w' :
  bridge_fresh this_pool default_params dta dq default_data w0 (rp_world w') t b L H0 ->
  same_participants w0 w' -> map_wf (rp_participants w') -> wd_aborted (rp_world w0) = None ->
  shared_ok this_pool (wd_heap (rp_world w0)) (wd_pool (rp_world w0)) [] L H0 -> simulates b w' relay_init.
Proof.
  intros [Bw Bi Bri Bwf Bd Bt (M1 & M2 & M3) Bwt Ba Btr] Hsame Hpwf Hab Hmem.
  assert (forall id p, find id (b_readers_ b) = Some p -> queue_of (rp_world w') p = []) as Hq.
  { intros id p Hp. destruct (Bd id p Hp) as [[c g] Hid]. destruct (Btr id c g Hid) as (_ & tr & ro & _ & Hrd & Htk).
    rewrite Hp in Hrd. injection Hrd as ->.
    destruct (cn_reader _ _ _ _ _ _ _ (tk_connected _ _ _ _ _ _ _ _ _ _ _ _ _ _ _ Htk)) as (o & a & e & Ho & _ & Ha & He & Hu).
    unfold queue_of. by rewrite Ho, Ha, He. }
  split; try done.
  - intros id p Hp. destruct (Bw id p Hp) as (c & g & o & a & e & Hid & Hat & [N1 N2 N3 N4 N5 N6]).
    exists c, g, o, a, e. rewrite N4. split_and!; [done|done| |constructor].
    split; try done; [by rewrite N3|by apply empty_not_full].
  - intros id c g Hid. destruct (Btr id c g Hid) as (Hw & tr & ro & Htr & Hrd & [T1 T2 T3 T4 T5 T6 T7 T8 T9]).
    split; [done|]. exists tr. split; [done|].
    rewrite (repeater_of this_pool default_params dta dq default_data), Hid in T3.
    split; try done.
    + intros p Hp. destruct T5 as [_ Hready _ _ _]. rewrite Forall_forall in Hready.
      destruct (Hready p Hp) as (o & a & e & Hat & Hen & _). exists o. split; [|done]. by apply simple_at_writes in Hat as [? _].
    + destruct T5 as [(o & a & e & Ho & Hen & Ha & He & Hu) _ _ _ _]. rewrite T6 in Ho. injection Ho as <-.
      exists ro, a, e. split_and!; try done. split; try done. by apply (T9 a).
    + constructor.
  - rewrite M1, M2. apply shared_ok_empty; [done|]. unfold bridge_histories. apply Forall_app.
    rewrite !Forall_fmap, !Forall_forall. destruct Bwf as [Hwf Hwfr]. split; intros p Hp.
    + destruct (values_find _ p Hwfr Hp) as (id & Hf). by apply (Hq id).
    + destruct (values_find _ p Hwf Hp) as (id & Hf). destruct (Bw id p Hf) as (? & ? & o & a & e & _ & Hat & Hn).
      simpl. unfold history_of. rewrite Hat. apply Hn.
  - congruence.
Qed.

Definition is_run (e : event) : Prop := match e with Runs _ => True | Arrives _ _ => False end.

Lemma arrived_runs id l l' : Forall is_run l' -> arrived id (l ++ l') = arrived id l.
Proof.
  intros Hl'. induction l as [|[id' s|id'] l IH]; cbn [app arrived].
  - induction Hl' as [|[|] l' Hr _ IH]; done.
  - by rewrite IH.
  - done.
Qed.

Lemma sum_list_zero {A} (f : A -> nat) l : (forall x, x ∈ l -> f x = 0) -> sum_list (f <$> l) = 0.
Proof. induction l as [|x l IH]; intros H; cbn; [done|]. rewrite H, IH by set_solver. done. Qed.

Lemma keys_found {A} (m : std_map ParticipantId A) id x : find id m = Some x -> id ∈ keys m.
Proof.
  intros (k & Hk & Hin)%find_elem_of. apply ParticipantId_keqv in Hk as ->. unfold keys. apply list_elem_of_fmap.
  by exists (k, x).
Qed.

Lemma room_le b v n m : room b v n -> m <= n -> room b v m.
Proof. unfold room. intros (R0 & R1 & R2) Hle. lia. Qed.

(** What waits at the readers of a bridge. *)
Definition pending (b : DDSBridge) v : nat := sum_list ((fun p => length (queue_of v p)) <$> values (b_readers_ b)).

Lemma run_step b w r id c g : simulates b w r -> participant_of w0 id = Some (c, g) -> waiting r id <> [] ->
  room b (rp_world w) (length (waiting r id) * S (length (b_writers_ b))) ->
  exists s', bridge_step (b, w) (Runs id) s' /\ simulates s'.1 s'.2 (relay_step r (Runs id)) /\
    b_writers_ s'.1 = b_writers_ b /\
    forall m, room b (rp_world w) (length (waiting r id) * S (length (b_writers_ b)) + m) -> room s'.1 (rp_world s'.2) m.
Proof.
  intros Hs Hid Hne Hroom. destruct (runs_simulates b w r id c g Hs Hid Hroom) as (tr & n & tr' & w' & Htr & Hrun & Hs' & Hm).
  destruct (track_of b w r id c g Hs Hid) as (tr2 & _ & _ & _ & Htr2 & Htw & _ & _ & _ & _ & _ & Hq).
  rewrite Htr in Htr2. injection Htr2 as <-. exists (set_track id tr' b, w'). split_and!; try done.
  eapply step_runs; [done| | |done].
  - rewrite (tw_status _ _ _ _ _ _ _ Htw). pose proof (tw_few _ _ _ _ _ _ _ Htw) as Hfew.
    rewrite u32_small by lia. unfold no_more_data. destruct (waiting r id); [done|]. simpl. lia.
  - by rewrite Hq, length_fmap.
Qed.

(** The tasks of all the tracks that have something to do run. *)
Lemma drains ids : forall b w r, simulates b w r -> NoDup ids ->
  (forall id, id ∈ ids -> exists c g, participant_of w0 id = Some (c, g)) ->
  room b (rp_world w) (sum_list ((fun id => length (waiting r id)) <$> ids) * S (length (b_writers_ b))) ->
  exists l s', session (b, w) l s' /\ Forall is_run l /\ b_writers_ s'.1 = b_writers_ b /\
    simulates s'.1 s'.2 (fold_left relay_step l r) /\
    forall id, waiting (fold_left relay_step l r) id = if decide (id ∈ ids) then [] else waiting r id.
Proof.
  induction ids as [|id ids IH]; intros b w r Hs Hnd Hids Hroom.
  { exists [], (b, w). split_and!; try done. apply session_nil. }
  apply NoDup_cons in Hnd as [Hnin Hnd]. cbn [fmap list_fmap sum_list] in Hroom.
  destruct (Hids id) as (c & g & Hid); [by left|].
  assert (forall id', id' ∈ ids -> exists c g, participant_of w0 id' = Some (c, g)) as Hids' by (intros; apply Hids; by right).
  destruct (decide (waiting r id = [])) as [He|Hne].
  - rewrite He in Hroom. destruct (IH b w r Hs Hnd Hids' Hroom) as (l & s' & Hrun & Hl & Hw & Hs' & Hwait).
    exists l, s'. split_and!; try done. intros id'. rewrite Hwait. destruct (decide (id' = id)) as [->|Hne'].
    + rewrite decide_False, decide_True by set_solver. done.
    + apply decide_ext. set_solver.
  - rewrite Nat.mul_add_distr_r in Hroom.
    destruct (run_step b w r id c g Hs Hid Hne) as ([b1 w1] & Hstep & Hs1 & Hw1 & Hm).
    { eapply room_le; [exact Hroom|apply Nat.le_add_r]. }
    cbn [fst snd] in *. apply Hm in Hroom. rewrite <- Hw1 in Hroom.
    destruct (IH b1 w1 _ Hs1 Hnd Hids') as (l & s' & Hrun & Hl & Hw & Hs' & Hwait).
    { erewrite list_fmap_ext; [exact Hroom|]. intros i id' Hi%list_elem_of_lookup_2. simpl. unfold set_waiting.
      by rewrite decide_False by (by intros ->). }
    exists (Runs id :: l), s'. split_and!; [by eapply session_cons|by constructor|congruence|done|].
    intros id'. cbn [fold_left]. rewrite Hwait. cbn [relay_step waiting]. unfold set_waiting.
    destruct (decide (id' ∈ ids)), (decide (id' = id)), (decide (id' ∈ id :: ids)); set_solver || done.
Qed.

Lemma pending_waiting b w r : simulates b w r ->
  pending b (rp_world w) = sum_list ((fun id => length (waiting r id)) <$> keys (b_readers_ b)).
Proof.
  intros Hs. unfold pending, values, keys. rewrite <- !list_fmap_compose. f_equal. apply list_fmap_ext.
  intros i [id p] Hin%list_elem_of_lookup_2. simpl. destruct (si_wf _ _ _ Hs) as [_ Hwf].
  apply elem_of_find in Hin; [|done]. destruct (si_domain _ _ _ Hs id p Hin) as [[c g] Hid].
  destruct (track_of b w r id c g Hs Hid) as (tr & _ & _ & _ & _ & Htw & _ & _ & _ & _ & _ & Hq).
  rewrite (tw_reader _ _ _ _ _ _ _ Htw) in Hin. injection Hin as <-. by rewrite Hq, length_fmap.
Qed.

(** A bridge made on the participants of [w0] and a session of it.  The topic has neither
    partitions nor ownership, so that the writers are [SimpleWriter]s. *)
Record in_session (b0 : DDSBridge) (w1 : rpworld) (l : list event) (b : DDSBridge) w : Prop := {
  is_qos : needs_specific_qos t = false;
  is_made : DDSBridge_new t true w0 = (Ok b0, w1);
  is_wf : map_wf (rp_participants w0);
  is_running : wd_aborted (rp_world w0) = None;
  is_memory : shared_ok this_pool (wd_heap (rp_world w0)) (wd_pool (rp_world w0)) [] L H0;
  is_session : session (b0, w1) l (b, w)
}.

Lemma in_session_simulates b0 w1 l b w : in_session b0 w1 l b w -> simulates b w (relay_run l).
Proof.
  intros [Hq Hnew Hwf Hab Hmem Hrun].
  destruct (bridge_made this_pool default_params dta dq default_data t w0 b0 w1 L H0 Hq Hnew Hwf Hab Hmem) as (Hf & Hsame & Hpwf).
  apply (session_simulates l (b0, w1) (b, w) Hrun). by apply fresh_simulates.
Qed.

(** ** Properties *)

(** C1: The bridge refines the relay.  Take a bridge between RTPS participants, of a topic
    with neither partitions nor ownership (with them the writers are made while writing,
    and that may fail: [multi_write_creation_fails]), over a Fast DDS that has a change for
    every writer whose history is not full, and tasks that run while the counters of the
    payload pool have room.  At any time of a session of it, whatever changes came and
    whatever tasks ran in between: each
    participant has sent exactly one sample for each change forwarded, in the order in
    which they were, with its message as it arrived, and nothing else, but what came to
    itself if it does not repeat; what came to each participant is, in its order, what was
    forwarded from it and what its reader still has; the payload pool holds exactly what
    the histories of the readers and of the writers of the bridge do, and what others had;
    and no exception has left a [noexcept] method. *)
Theorem rtps_session_refines b0 w1 l b w :
  in_session b0 w1 l b w ->
  (forall id c g, participant_of w0 id = Some (c, g) -> exists p q,
    find id (b_writers_ b) = Some p /\ find id (b_readers_ b) = Some q /\
    Forall2 (repeated c g t) (to_send t id (conf_is_repeater c) (forwarded (relay_run l))) (sent_by (rp_world w) p) /\
    queue_of (rp_world w) q = (waiting (relay_run l) id).*1 /\
    arrived id l = forwarded_from id (relay_run l) ++ waiting (relay_run l) id) /\
  shared_ok this_pool (wd_heap (rp_world w)) (wd_pool (rp_world w)) (bridge_histories b (rp_world w)) L H0 /\
  wd_aborted (rp_world w) = None.
Proof.
  intros Hs%in_session_simulates. split_and!; [|apply Hs..]. intros id c g Hid.
  destruct (si_track _ _ _ Hs id c g Hid) as [[p Hp] _].
  destruct (track_of b w _ id c g Hs Hid) as (tr & _ & _ & _ & _ & Htw & _ & _ & _ & _ & _ & Hq).
  destruct (si_writer _ _ _ Hs id p Hp) as (c' & g' & o & a & e & Hid' & Hat & _ & HF).
  rewrite Hid in Hid'. injection Hid' as <- <-. exists p, (reader_ tr).
  split_and!; [done|apply Htw|unfold sent_by; by rewrite Hat|done|]. unfold relay_run. by rewrite (relay_conserves id l relay_init).
Qed.

(** A session never blocks.  At any time of a session, a change that Fast DDS brings to
    a participant is received, and a track whose reader has changes has a task whose run
    ends, as long as the counters of the pool have room. *)
Theorem rtps_session_progress b0 w1 l b w id c g :
  in_session b0 w1 l b w -> participant_of w0 id = Some (c, g) ->
  (forall ch h pool, brings b w id ch h pool ->
    exists s', bridge_step (b, w) (Arrives id (ch, message_in h ch)) s') /\
  (waiting (relay_run l) id <> [] ->
    room b (rp_world w) (length (waiting (relay_run l) id) * S (length (b_writers_ b))) ->
    exists s', bridge_step (b, w) (Runs id) s').
Proof.
  intros Hs%in_session_simulates Hid. split.
  - intros ch h pool Hb. destruct (arrives_simulates b w _ id c g ch h pool Hs Hid Hb) as (tr & v1 & tr' & w' & Htr & Hrun & Hda & _).
    eexists. by eapply step_arrives.
  - intros Hne Hroom. destruct (run_step b w _ id c g Hs Hid Hne Hroom) as (s' & Hstep & _). by exists s'.
Qed.

(** C13: Everything is delivered.  Take a bridge between RTPS participants, of a topic with
    neither partitions nor ownership, over a Fast DDS that has a change for every writer
    whose history is not full.  From any time of a session of it, with room in the counters
    of the pool for what is pending, there are runs of tasks after which every participant has sent, of every
    other one, and of itself if it repeats, all that came to it and can be forwarded, and
    nothing waits. *)
Theorem rtps_session_drains b0 w1 l b w :
  in_session b0 w1 l b w -> room b (rp_world w) (pending b (rp_world w) * S (length (b_writers_ b))) ->
  exists l' s, Forall is_run l' /\ session (b, w) l' s /\ pending s.1 (rp_world s.2) = 0 /\
    (forall id, is_Some (participant_of w0 id) -> forwarded_from id (relay_run (l ++ l')) = arrived id l) /\
    forall id c g, participant_of w0 id = Some (c, g) -> exists p, find id (b_writers_ s.1) = Some p /\
      Forall2 (repeated c g t) (to_send t id (conf_is_repeater c) (forwarded (relay_run (l ++ l'))))
        (sent_by (rp_world s.2) p).
Proof.
  intros Hs%in_session_simulates Hroom. rewrite (pending_waiting _ _ _ Hs) in Hroom.
  destruct (si_wf _ _ _ Hs) as [_ Hwfr].
  destruct (drains (keys (b_readers_ b)) b w (relay_run l) Hs) as (l' & s & Hrun & Hl' & Hw & Hs' & Hwait); [by apply keys_NoDup| |done|].
  { intros id ([id' p] & -> & Hin)%list_elem_of_fmap. apply elem_of_find in Hin; [|done].
    destruct (si_domain _ _ _ Hs _ p Hin) as [[c g] Hid]. by exists c, g. }
  assert (relay_run (l ++ l') = fold_left relay_step l' (relay_run l)) as Er by (unfold relay_run; by rewrite fold_left_app).
  rewrite <- Er in Hs', Hwait.
  assert (forall id, is_Some (participant_of w0 id) -> waiting (relay_run (l ++ l')) id = []) as Hnone.
  { intros id [[c g] Hid]. rewrite Hwait, decide_True; [done|].
    destruct (track_of b w _ id c g Hs Hid) as (tr & _ & _ & _ & _ & Htw & _). by eapply keys_found, Htw. }
  exists l', s. split_and!; [done|done| | |].
  - rewrite (pending_waiting _ _ _ Hs'). apply sum_list_zero. intros id ([id' p] & -> & Hin)%list_elem_of_fmap.
    destruct (si_wf _ _ _ Hs') as [_ Hwf']. apply elem_of_find in Hin; [|done]. simpl.
    by rewrite (Hnone _ (si_domain _ _ _ Hs' _ p Hin)).
  - intros id Hid. pose proof (relay_conserves id (l ++ l') relay_init) as Hc. cbv zeta in Hc.
    fold (relay_run (l ++ l')) in Hc. by rewrite (Hnone id Hid), app_nil_r, arrived_runs in Hc.
  - intros id c g Hid. destruct (si_track _ _ _ Hs' id c g Hid) as [[p Hp] _]. exists p. split; [done|].
    destruct (si_writer _ _ _ Hs' id p Hp) as (c' & g' & o & a & e & Hid' & Hat & _ & HF).
    rewrite Hid in Hid'. injection Hid' as <- <-. unfold sent_by. by rewrite Hat.
Qed.

End Session.

(** ** Witnesses *)
Section Witnesses.
#[local] Existing Instances Demo.cpp_utils Demo.cpp_utils_laws Demo.fast_dds Demo.dbqueue
  PoolDemo.malloc PoolDemo.malloc_laws ReaderDemo.readers ReaderDemo.readers_laws
  WriterDemo.writers WriterDemo.writers_laws demo_methods demo_spec demo_participants.

#[local] Notation rpw := (rpworld (C := unit)).

(** The two participants of the bridge, with nothing in the pool. *)
Definition session_world : rpw :=
  mkRPWorld (mkRtpsWorld ∅ PayloadPool_new ∅ ∅ DiscoveryDatabase_new ∅ ∅ ∅ [] [] [] None)
    (rp_participants demo_rpworld) 0.

Definition session_made : outcome DDSBridge * rpw := DDSBridge_new ReaderDemo.topic true session_world.
Definition session_bridge : DDSBridge :=
  match session_made.1 with Ok b => b | Throw _ => mkBridge ReaderDemo.topic false [] [] [] end.

#[local] Notation in_demo := (in_session 7 WriterDemo.default_params WriterDemo.dta WriterDemo.dq demo_default [] ∅
  session_world ReaderDemo.topic session_bridge session_made.2).
#[local] Notation brings_demo := (brings 7 [] ∅).
#[local] Notation step_demo := (bridge_step 7 WriterDemo.default_params WriterDemo.dta WriterDemo.dq demo_default [] ∅).

Lemma session_made_ok : DDSBridge_new ReaderDemo.topic true session_world = (Ok session_bridge, session_made.2).
Proof.
  assert (is_ok session_made.1 = true) as Hok by (vm_compute; reflexivity).
  change (session_made = (Ok session_bridge, session_made.2)).
  unfold session_bridge. destruct session_made as [[b|e] w]; [reflexivity|discriminate Hok].
Qed.

Lemma session_empty : shared_ok 7 ∅ PayloadPool_new [] [] ∅.
Proof.
  split; [|apply refs_inv_nil|constructor|constructor].
  assert (dom (∅ : heap) = (∅ : gset nat)) as E by apply dom_empty_L. pose proof (accounts_new ∅) as Ha.
  rewrite E in Ha. exact Ha.
Qed.

Lemma demo_opens : in_demo [] session_bridge session_made.2.
Proof.
  split; [reflexivity|exact session_made_ok|repeat constructor|reflexivity|exact session_empty|apply session_nil].
Qed.

(** The change [c1] comes to the first participant. *)
Lemma demo_brings : brings_demo session_bridge session_made.2 demo_a ReaderDemo.c1 ReaderDemo.memory ReaderDemo.pool.
Proof.
  assert (bridge_histories session_bridge (rp_world session_made.2) = [[]; []; []; []]) as E by (vm_compute; reflexivity).
  split; rewrite ?E.
  - apply (shared_ok_empty 7 _ _ _ (held ReaderDemo.c1 ++ []) ∅); [exact demo_memory0|]. repeat constructor.
  - assert (held_by (mjoin [[]; []; []; []]) = []) as -> by reflexivity. intros a b Ha%not_elem_of_nil. destruct Ha.
  - split; [reflexivity|]. exists 0, (mkBlock (Some 1%Z) [Some 5%Z; Some 6%Z]). by split_and!.
  - intros c g Hid. assert (participant_of session_made.2 demo_a = Some (demo_conf demo_a false, mkGuid [1%Z] [0%Z])) as E'
      by (vm_compute; reflexivity). rewrite E' in Hid. injection Hid as <- <-. done.
  - intros p Hp. assert (find demo_a (b_readers_ session_bridge) = Some 0) as E' by (vm_compute; reflexivity).
    rewrite E' in Hp. injection Hp as <-. split; [apply NoDup_singleton|vm_compute; reflexivity].
Qed.

Definition demo_sample : sample := (ReaderDemo.c1, message_in ReaderDemo.memory ReaderDemo.c1).
Definition demo_first : Track :=
  default demo_track (find demo_a (b_tracks_ session_bridge)).
Definition demo_received : outcome unit * rtps_world (C := unit) :=
  on_rtps_reader (reader_ demo_first) (arrive 7 ReaderDemo.c1)
    (wd_set_memory ReaderDemo.memory ReaderDemo.pool (rp_world session_made.2)).
Definition demo_notified : Track * rpw := data_available_ (demo_first, rp_put demo_received.2 session_made.2).
Definition demo_arrived : DDSBridge * rpw := (set_track demo_a demo_notified.1 session_bridge, demo_notified.2).

Lemma demo_first_found : find demo_a (b_tracks_ session_bridge) = Some demo_first.
Proof.
  assert (contains demo_a (b_tracks_ session_bridge) = true) as Hc by (vm_compute; reflexivity).
  unfold demo_first, contains in *. destruct (find demo_a (b_tracks_ session_bridge)); [reflexivity|discriminate Hc].
Qed.

Lemma demo_received_ok : demo_received = (Ok tt, demo_received.2).
Proof.
  assert (is_ok demo_received.1 = true) as Hok by (vm_compute; reflexivity).
  destruct demo_received as [[[]|e] w]; [reflexivity|discriminate Hok].
Qed.

Lemma demo_arrives : in_demo [Arrives demo_a demo_sample] demo_arrived.1 demo_arrived.2.
Proof.
  destruct demo_opens as [Hq Hm Hwf Hab Hmem _]. split; try assumption.
  eapply session_cons; [|apply session_nil].
  exact (step_arrives 7 WriterDemo.default_params WriterDemo.dta WriterDemo.dq demo_default [] ∅ session_bridge session_made.2
    demo_a demo_first ReaderDemo.c1 ReaderDemo.memory ReaderDemo.pool demo_received.2 demo_notified.1 demo_notified.2
    demo_first_found demo_brings demo_received_ok (surjective_pairing demo_notified)).
Qed.

Lemma demo_room n : (Z.of_nat n < 100)%Z -> room [] demo_arrived.1 (rp_world demo_arrived.2) n.
Proof.
  intros Hn. assert (reserve_count_ (wd_pool (rp_world demo_arrived.2)) = 1%Z) as E1 by (vm_compute; reflexivity).
  assert (length (held_by (mjoin (bridge_histories demo_arrived.1 (rp_world demo_arrived.2))) ++ []) = 1) as E2
    by (vm_compute; reflexivity).
  unfold room. rewrite E1, E2. lia.
Qed.

Lemma demo_acceptable : acceptable ReaderDemo.topic ReaderDemo.c1.
Proof. split; [done|by left]. Qed.

Lemma demo_participants_of :
  participant_of session_world demo_a = Some (demo_conf demo_a false, mkGuid [1%Z] [0%Z]) /\
  participant_of session_world demo_b = Some (demo_conf demo_b true, mkGuid [3%Z] [0%Z]).
Proof. split; reflexivity. Qed.

(** The second participant has sent the two bytes of [c1], and the first one nothing. *)
Definition demo_relayed_to (w : rpw) (p q : nat) : Prop :=
  sent_by (rp_world w) p = [] /\ exists smp, sent_by (rp_world w) q = [smp] /\ smp.2 = Some [Some 5%Z; Some 6%Z].

Lemma demo_sent (l : list event) w p q :
  forwarded (relay_run l) = [(demo_a, demo_sample)] ->
  Forall2 (repeated (demo_conf demo_a false) (mkGuid [1%Z] [0%Z]) ReaderDemo.topic)
    (to_send ReaderDemo.topic demo_a false (forwarded (relay_run l))) (sent_by (rp_world w) p) ->
  Forall2 (repeated (demo_conf demo_b true) (mkGuid [3%Z] [0%Z]) ReaderDemo.topic)
    (to_send ReaderDemo.topic demo_b true (forwarded (relay_run l))) (sent_by (rp_world w) q) ->
  demo_relayed_to w p q.
Proof.
  intros -> Hp Hq. change [(demo_a, demo_sample)] with (pair demo_a <$> [demo_sample]) in Hp, Hq.
  rewrite to_send_from, decide_True in Hp by done. rewrite to_send_from, decide_False in Hq by (by intros [? _]).
  rewrite filter_cons_True in Hq by exact demo_acceptable. split; [by apply Forall2_nil_inv_l in Hp|].
  apply Forall2_cons_inv_l in Hq as (smp & l' & Hr & Hnil & ->). apply Forall2_nil_inv_l in Hnil as ->.
  exists smp. split; [done|]. rewrite (rep_message _ _ _ _ _ Hr). reflexivity.
Qed.

Lemma demo_runs : exists s, in_demo [Arrives demo_a demo_sample; Runs demo_a] s.1 s.2.
Proof.
  pose proof demo_arrives as [Hq Hm Hwf Hab Hmem Hrun]. destruct demo_participants_of as [Ha _].
  destruct (run_step 7 WriterDemo.default_params WriterDemo.dta WriterDemo.dq demo_default [] ∅ session_world ReaderDemo.topic
    eq_refl demo_available demo_arrived.1 demo_arrived.2 (relay_run [Arrives demo_a demo_sample]) demo_a _ _
    (in_session_simulates 7 WriterDemo.default_params WriterDemo.dta WriterDemo.dq demo_default [] ∅ session_world
      ReaderDemo.topic eq_refl demo_available _ _ _ _ _ demo_arrives) Ha) as (s & Hstep & _).
  - done.
  - apply demo_room. vm_compute. reflexivity.
  - exists s. split; try assumption. destruct s as [b w].
    eapply (session_app _ _ _ _ _ _ _ _ [Arrives demo_a demo_sample] _ [Runs demo_a]); [exact Hrun|].
    eapply session_cons; [exact Hstep|]. apply session_nil.
Qed.

Lemma rtps_session_refines_witness : exists w p q, demo_relayed_to w p q.
Proof.
  destruct demo_runs as [[b w] Hs]. destruct demo_participants_of as [Ha Hb].
  destruct (rtps_session_refines 7 WriterDemo.default_params WriterDemo.dta WriterDemo.dq demo_default [] ∅ session_world
    ReaderDemo.topic eq_refl demo_available _ _ _ _ _ Hs) as (Hall & _).
  destruct (Hall _ _ _ Ha) as (p & _ & _ & _ & Hp & _). destruct (Hall _ _ _ Hb) as (q & _ & _ & _ & Hq & _).
  exists w, p, q. eapply demo_sent; [|exact Hp|exact Hq]. reflexivity.
Defined.

Lemma rtps_session_progress_witness : exists s s',
  step_demo (session_bridge, session_made.2) (Arrives demo_a demo_sample) s /\ step_demo demo_arrived (Runs demo_a) s'.
Proof.
  destruct demo_participants_of as [Ha _].
  destruct (rtps_session_progress 7 WriterDemo.default_params WriterDemo.dta WriterDemo.dq demo_default [] ∅ session_world
    ReaderDemo.topic eq_refl demo_available _ _ _ _ _ demo_a _ _ demo_opens Ha) as [Harr _].
  destruct (rtps_session_progress 7 WriterDemo.default_params WriterDemo.dta WriterDemo.dq demo_default [] ∅ session_world
    ReaderDemo.topic eq_refl demo_available _ _ _ _ _ demo_a _ _ demo_arrives Ha) as [_ Hrun].
  destruct (Harr _ _ _ demo_brings) as [s Hs]. destruct Hrun as [s' Hs'].
  - done.
  - apply demo_room. vm_compute. reflexivity.
  - exists s, s'. split; [exact Hs|]. exact Hs'.
Defined.

Lemma rtps_session_drains_witness : exists l' s, pending (C := unit) s.1 (rp_world s.2) = 0 /\
  forwarded_from demo_a (relay_run (Arrives demo_a demo_sample :: l')) = [demo_sample].
Proof.
  destruct demo_participants_of as [Ha _].
  destruct (rtps_session_drains 7 WriterDemo.default_params WriterDemo.dta WriterDemo.dq demo_default [] ∅ session_world
    ReaderDemo.topic eq_refl demo_available _ _ _ _ _ demo_arrives) as (l' & s & _ & _ & Hp & Hfw & _).
  - apply demo_room. vm_compute. reflexivity.
  - exists l', s. split; [exact Hp|]. exact (Hfw demo_a (ex_intro _ _ Ha)).
Defined.

End Witnesses.
