(* ===== verification/RtpsDestroy.v ===== *)
(** * The end of a bridge over RTPS participants

    [~DDSBridge] with the destructors of the endpoints: the tracks are disabled and
    destroyed, the participants forget the endpoints, and each of these removes its
    entity of Fast DDS, which gives its payloads back.  Whatever the bridge did, Fast DDS
    and the payload pool are then as they were before the bridge was made. *)
From stdpp Require Import gmap.
From S2P Require Import Prelude StdMap CppString Externals Types Topics Endpoint DiscoveryDatabase PayloadPool Track Auxiliar Address Configuration Participants DDSBridge Rtps RtpsReader RtpsWriter MultiWriter ParticipantAttributes RtpsParticipant RtpsWorld RtpsBridge RtpsSession.

Section Destroy.
Context {CU : CppUtils} {CL : CppUtilsLaws} {FD : FastDDS} {DQ : DBQueueOps} {C : Type}.
Context {RR : RtpsReaders} {RL : RtpsReadersLaws} {RW : RtpsWriters} {WL : RtpsWritersLaws}.
Context {PM : PoolMethods} (this_pool : nat) {PS : PoolSpec this_pool}.
Context (default_params : SendParams) (dta : TopicAttributes) (dq : EndpointQos) (default_data : DataReceived).

#[local] Notation world := (rtps_world (C := C)).
#[local] Notation rpworld := (rpworld (C := C)).
Let PW : Participants rpworld := rtps_participants this_pool default_params dta dq default_data.
#[local] Existing Instance PW.
#[local] Notation CW := (rtps_comm_world this_pool default_params dta dq default_data (C := C)).
Implicit Types (w : rpworld) (v : world).

(** ** Disabling the tracks

    The objects have the entities they had, and nothing else changed. *)
Record same_endpoints v v' : Prop := {
  se_memory : same_memory v v';
  se_entities : wd_rtps_readers v' = wd_rtps_readers v /\ wd_rtps_writers v' = wd_rtps_writers v;
  se_writers : forall p o, wd_writers v !! p = Some (SimpleWriterObj o) ->
    exists o', wd_writers v' !! p = Some (SimpleWriterObj o') /\ rtps_writer_ o' = rtps_writer_ o;
  se_readers : forall p o, wd_readers v !! p = Some o ->
    exists o', wd_readers v' !! p = Some o' /\ rtps_reader_ o' = rtps_reader_ o
}.

Lemma same_endpoints_refl v : same_endpoints v v.
Proof. split; [done|done|eauto..]. Qed.

Lemma same_endpoints_trans v1 v2 v3 : same_endpoints v1 v2 -> same_endpoints v2 v3 -> same_endpoints v1 v3.
Proof.
  intros [(M1 & M2 & M3) (E1 & E2) W1 R1] [(N1 & N2 & N3) (F1 & F2) W2 R2].
  split; [unfold same_memory; split_and!; congruence|split; congruence|..].
  - intros p o (o1 & Ho1 & H1)%W1. apply W2 in Ho1 as (o2 & Ho2 & H2). exists o2. split; [done|congruence].
  - intros p o (o1 & Ho1 & H1)%R1. apply R2 in Ho1 as (o2 & Ho2 & H2). exists o2. split; [done|congruence].
Qed.

(** The endpoints of a track are there. *)
Definition has_endpoints v (t : Track) : Prop :=
  (forall p, p ∈ values (writers_ t) -> is_simple v p) /\ is_Some (wd_readers v !! reader_ t).

Lemma same_endpoints_has v v' t : same_endpoints v v' -> has_endpoints v t -> has_endpoints v' t.
Proof.
  intros [_ _ W R] [Hw [o Ho]]. split.
  - intros p (o1 & Ho1)%Hw. destruct (W p o1 Ho1) as (o2 & Ho2 & _). by exists o2.
  - destruct (R _ _ Ho) as (o2 & Ho2 & _). by exists o2.
Qed.

Lemma on_base_same v p (f : BaseReader -> BaseReader) : is_Some (wd_readers v !! p) ->
  same_endpoints v (quiet (on_rtps_reader p (on_base f)) v).
Proof.
  intros [o Ho]. unfold quiet, wd_noexcept, on_rtps_reader. rewrite Ho. unfold on_base. run_prog.
  split; [done|done|eauto|]. intros p' o' Ho'. cbn. destruct (decide (p' = p)) as [->|Hne].
  - rewrite lookup_insert_eq. assert (o' = o) as -> by congruence. by eexists.
  - rewrite lookup_insert_ne by done. eauto.
Qed.

Lemma writer_disable_same v p : is_simple v p -> same_endpoints v (writer_disable (CommWorld := CW) p v).
Proof.
  intros (o & Ho). cbn [writer_disable rtps_comm_world]. unfold quiet, wd_noexcept, on_rtps_writer. rewrite Ho.
  unfold on_this. run_prog. split; [done|done| |eauto]. intros p' o' Ho'. cbn. destruct (decide (p' = p)) as [->|Hne].
  - rewrite lookup_insert_eq. assert (o' = o) as -> by congruence. by eexists.
  - rewrite lookup_insert_ne by done. eauto.
Qed.

Lemma disable_writers_same l : forall v, (forall p, p ∈ l -> is_simple v p) ->
  same_endpoints v (fold_left (fun v p => writer_disable (CommWorld := CW) p v) l v).
Proof.
  induction l as [|p l IH]; intros v Hl; cbn [fold_left]; [apply same_endpoints_refl|].
  pose proof (writer_disable_same v p (Hl p ltac:(by left))) as H1. eapply same_endpoints_trans; [exact H1|]. apply IH.
  intros p' Hp'. destruct (Hl p') as [o Ho]; [by right|]. destruct (se_writers _ _ H1 p' o Ho) as (o' & Ho' & _). by exists o'.
Qed.

Lemma track_disable_same t v : has_endpoints v t ->
  same_endpoints v (track_disable (CW := CW) (t, v)).2 /\ reader_ (track_disable (CW := CW) (t, v)).1 = reader_ t /\
  writers_ (track_disable (CW := CW) (t, v)).1 = writers_ t.
Proof.
  intros [Hw Hr]. unfold track_disable. destruct (enabled_ t); [|split; [apply same_endpoints_refl|done]].
  split; [|done]. cbn [snd]. pose proof (on_base_same v (reader_ t) br_disable Hr) as H1.
  eapply same_endpoints_trans; [exact H1|]. apply disable_writers_same.
  intros p Hp. destruct (Hw p Hp) as [o Ho]. destruct (se_writers _ _ H1 p o Ho) as (o' & Ho' & _). by exists o'.
Qed.

Lemma track_destroy_same t v : has_endpoints v t -> same_endpoints v (track_destroy (CW := CW) (t, v)).2.
Proof.
  intros He. destruct (track_disable_same t v He) as (H1 & Hr & Hws). unfold track_destroy.
  destruct (track_disable (t, v)) as [t' v'] eqn:E. cbn [fst snd] in *. eapply same_endpoints_trans; [exact H1|].
  rewrite Hr. apply on_base_same. by destruct (same_endpoints_has _ _ _ H1 He).
Qed.

(** The loop over the tracks. *)
Lemma for_tracks_same (f : Track * rpworld -> Track * rpworld) (g : Track * world -> Track * world) l :
  (forall t w, f (t, w) = lifted rp_world rp_put g (t, w)) ->
  (forall t v, has_endpoints v t -> same_endpoints v (g (t, v)).2 /\
    reader_ (g (t, v)).1 = reader_ t /\ writers_ (g (t, v)).1 = writers_ t) ->
  forall w, (forall id t, (id, t) ∈ l -> has_endpoints (rp_world w) t) ->
  let '(l', w') := for_tracks f l w in
  same_endpoints (rp_world w) (rp_world w') /\ rp_participants w' = rp_participants w /\
  forall id t', (id, t') ∈ l' -> exists t, (id, t) ∈ l /\ reader_ t' = reader_ t /\ writers_ t' = writers_ t.
Proof.
  intros Hf Hg. induction l as [|[id t] l IH]; intros w Hl; cbn [for_tracks].
  { split_and!; [apply same_endpoints_refl|done|]. by intros id t ?%not_elem_of_nil. }
  rewrite Hf. unfold lifted. cbn [fst snd].
  destruct (Hg t (rp_world w)) as (H1 & Hr & Hws); [apply (Hl id); by left|].
  destruct (g (t, rp_world w)) as [t1 v1]. cbn [fst snd] in *. specialize (IH (rp_put v1 w)).
  destruct (for_tracks f l (rp_put v1 w)) as [l' w']. destruct IH as (H2 & Hp & Hin).
  { intros id' t' Hin. eapply same_endpoints_has; [exact H1|]. apply (Hl id'). by right. }
  split_and!; [by eapply same_endpoints_trans|done|].
  intros id' t' [[= -> ->]|Hin']%elem_of_cons.
  - exists t. split_and!; [by left|done|done].
  - destruct (Hin id' t' Hin') as (t0 & Ht0 & ? & ?). exists t0. split_and!; [by right|done|done].
Qed.

(** ** The destructors of the endpoints *)

Definition without_writer (h : heap) (pool : PayloadPool) (p a : nat) v : world :=
  mkRtpsWorld h pool (wd_rtps_readers v) (delete a (wd_rtps_writers v)) (wd_database v) (wd_readers v)
    (delete p (wd_writers v)) (wd_specific v) (wd_calls v) (wd_slots v) (wd_emitted v) (wd_aborted v).
Definition without_reader (h : heap) (pool : PayloadPool) (p a : nat) v : world :=
  mkRtpsWorld h pool (delete a (wd_rtps_readers v)) (wd_rtps_writers v) (wd_database v) (delete p (wd_readers v))
    (wd_writers v) (wd_specific v) (wd_calls v) (wd_slots v) (wd_emitted v) (wd_aborted v).

(** A history less. *)
Lemma shared_removed h pool h' pool' (l : list Change) gs L H0 :
  shared_ok this_pool h pool (l :: gs) L H0 -> history_ok this_pool h' pool' [] (held_by (mjoin gs) ++ L) H0 ->
  bytes_kept h' h -> shared_ok this_pool h' pool' gs L H0.
Proof.
  intros Hs Hok Hk. pose proof (shared_update this_pool h pool h' pool' [] l [] gs L L H0 Hs Hok) as Hu.
  destruct Hu as [U1 U2 U3 U4].
  - eapply kept_for_shrink; [apply Hok| |exact Hk]. intros x Hx. apply elem_of_app. right. apply elem_of_app. by left.
  - apply Forall_cons in U4 as [_ U4]. by split.
Qed.

Lemma release_writer_run w p o a e gs L H0 :
  simple_at (rp_world w) p = Some (o, a, e) ->
  shared_ok this_pool (wd_heap (rp_world w)) (wd_pool (rp_world w)) (rw_history e :: gs) L H0 ->
  (Z.of_nat (length (held_by (mjoin (rw_history e :: gs)) ++ L)) < 2 ^ 32)%Z ->
  exists h pool, release_writer p w = rp_put (without_writer h pool p a (rp_world w)) w /\
    shared_ok this_pool h pool gs L H0.
Proof.
  intros (Ho & Hwr)%simple_at_writes Hs Hlen.
  pose proof (shared_focus this_pool _ _ [] _ _ _ _ Hs) as Hok. cbn [app] in Hok.
  cbn [mjoin list_join] in Hlen. rewrite held_by_app, <- app_assoc in Hlen.
  destruct (remove_rtps_writer_run this_pool (writer_view o (rp_world w)) a e _ H0 Hwr Hok Hlen) as (h & pool & Hrun & Hok' & Hk).
  exists h, pool. split; [|by eapply shared_removed].
  cbn [release_writer PW rtps_participants]. unfold rp_release_writer, quiet, wd_noexcept, on_rtps_writer. rewrite Ho.
  unfold cw_destroy. run_prog. destruct Hwr as [Ha He]. rewrite Ha.
  rewrite (the_writer_run _ a e) by done. rewrite Hrun. cbn. unfold wd_remove_writer, without_writer. cbn. by rewrite delete_insert_eq.
Qed.

Lemma release_reader_run w p o a e gs L H0 :
  wd_readers (rp_world w) !! p = Some o -> rtps_reader_ o = Some a -> wd_rtps_readers (rp_world w) !! a = Some e ->
  shared_ok this_pool (wd_heap (rp_world w)) (wd_pool (rp_world w)) (rr_untaken e :: gs) L H0 ->
  (Z.of_nat (length (held_by (mjoin (rr_untaken e :: gs)) ++ L)) < 2 ^ 32)%Z ->
  exists h pool, release_reader p w = rp_put (without_reader h pool p a (rp_world w)) w /\
    shared_ok this_pool h pool gs L H0.
Proof.
  intros Ho Ha He Hs Hlen.
  pose proof (shared_focus this_pool _ _ [] _ _ _ _ Hs) as Hok. cbn [app] in Hok.
  cbn [mjoin list_join] in Hlen. rewrite held_by_app, <- app_assoc in Hlen.
  assert (reads (reader_view o (rp_world w)) a e) as Hr by done.
  destruct (remove_rtps_reader_run this_pool (reader_view o (rp_world w)) a e _ H0 Hr Hok Hlen) as (h & pool & Hrun & Hok' & Hk).
  exists h, pool. split; [|by eapply shared_removed].
  cbn [release_reader PW rtps_participants]. unfold rp_release_reader, quiet, wd_noexcept, on_rtps_reader. rewrite Ho.
  unfold cr_destroy. run_prog. cbn [rs_this reader_view]. rewrite Ha.
  rewrite (the_reader_run _ a e Hr). rewrite Hrun. cbn. unfold wd_remove_reader, without_reader. cbn. by rewrite delete_insert_eq.
Qed.

(** ** The loop over the participants *)
Section Loop.
Context (b : DDSBridge) (L : list nat) (H0 : gset nat).

Definition writer_ptr (id : ParticipantId) : nat := default 0 (find id (b_writers_ b)).
Definition reader_ptr (id : ParticipantId) : nat := default 0 (find id (b_readers_ b)).

Definition ends v (ids : list ParticipantId) : list (list Change) :=
  mjoin ((fun id => [history_of v (writer_ptr id); queue_of v (reader_ptr id)]) <$> ids).

(** The endpoints of the participants [ids] still exist, each with its entity, and the pool
    has given what those hold and [L]. *)
Record alive v (ids : list ParticipantId) : Prop := {
  al_found : forall id, id ∈ ids -> is_Some (find id (b_writers_ b)) /\ is_Some (find id (b_readers_ b));
  al_writer : forall id, id ∈ ids -> exists o a e, simple_at v (writer_ptr id) = Some (o, a, e);
  al_reader : forall id, id ∈ ids -> exists o a e, wd_readers v !! reader_ptr id = Some o /\
    rtps_reader_ o = Some a /\ wd_rtps_readers v !! a = Some e;
  al_writers_inj : forall id id' a, id ∈ ids -> id' ∈ ids ->
    entity_of v (writer_ptr id) = Some a -> entity_of v (writer_ptr id') = Some a -> id = id';
  al_readers_inj : forall id id' a, id ∈ ids -> id' ∈ ids ->
    reader_entity v (reader_ptr id) = Some a -> reader_entity v (reader_ptr id') = Some a -> id = id';
  al_memory : shared_ok this_pool (wd_heap v) (wd_pool v) (ends v ids) L H0;
  al_few : (Z.of_nat (length (held_by (mjoin (ends v ids)) ++ L)) < 2 ^ 32)%Z;
  al_aborted : wd_aborted v = None
}.

(** What the loop does for one participant. *)
Definition destroy_endpoints (id : ParticipantId) w : rpworld :=
  release_reader (reader_ptr id) (release_writer (writer_ptr id)
    (delete_reader id (reader_ptr id) (delete_writer id (writer_ptr id) w))).

Lemma delete_world (f : BaseParticipant -> option BaseParticipant) id w : rp_world (rp_delete f id w) = rp_world w.
Proof. unfold rp_delete. destruct (find id _) as [p|]; [|done]. by destruct (f (rp_base p)). Qed.

Lemma entity_simple v p o a e : simple_at v p = Some (o, a, e) -> entity_of v p = Some a.
Proof. intros (Ho & Ha & _)%simple_at_writes. unfold entity_of. by rewrite Ho. Qed.

Lemma held_fewer (g : list Change) gs : length (held_by (mjoin gs) ++ L) <= length (held_by (mjoin (g :: gs)) ++ L).
Proof. change (mjoin (g :: gs)) with (g ++ mjoin gs). rewrite held_by_app, !length_app. lia. Qed.

(** The other endpoints when those of a participant are gone. *)
Lemma simple_without v h1 pool1 h2 pool2 pw aw pr ar p o a e :
  simple_at v p = Some (o, a, e) -> p <> pw -> a <> aw ->
  simple_at (without_reader h2 pool2 pr ar (without_writer h1 pool1 pw aw v)) p = Some (o, a, e).
Proof.
  intros (Ho & Ha & He)%simple_at_writes Hp Hne. simpl in Ha, He. unfold simple_at. cbn.
  rewrite lookup_delete_ne, Ho by done. rewrite Ha. cbn. by rewrite lookup_delete_ne, He.
Qed.

Lemma reader_without v h1 pool1 h2 pool2 pw aw pr ar p o a e :
  wd_readers v !! p = Some o -> rtps_reader_ o = Some a -> wd_rtps_readers v !! a = Some e -> p <> pr -> a <> ar ->
  let v' := without_reader h2 pool2 pr ar (without_writer h1 pool1 pw aw v) in
  wd_readers v' !! p = Some o /\ wd_rtps_readers v' !! a = Some e.
Proof. intros Ho Ha He Hp Hne. cbn. by rewrite !lookup_delete_ne. Qed.

Lemma ends_ext v v' ids :
  (forall id, id ∈ ids -> history_of v' (writer_ptr id) = history_of v (writer_ptr id) /\
    queue_of v' (reader_ptr id) = queue_of v (reader_ptr id)) -> ends v' ids = ends v ids.
Proof.
  intros H. unfold ends. f_equal. apply list_fmap_ext. intros i id Hi%list_elem_of_lookup_2.
  destruct (H id Hi) as [-> ->]. done.
Qed.

(** The participants but one, when its endpoints are gone. *)
Lemma alive_without v h1 pool1 h2 pool2 id ids aw ar :
  let v2 := without_reader h2 pool2 (reader_ptr id) ar (without_writer h1 pool1 (writer_ptr id) aw v) in
  alive v (id :: ids) -> id ∉ ids -> entity_of v (writer_ptr id) = Some aw -> reader_entity v (reader_ptr id) = Some ar ->
  shared_ok this_pool h2 pool2 (ends v ids) L H0 ->
  alive v2 ids /\ forall id', id' ∈ ids -> entity_of v2 (writer_ptr id') = entity_of v (writer_ptr id') /\
    reader_entity v2 (reader_ptr id') = reader_entity v (reader_ptr id').
Proof.
  intros v2 [Af Aw Ar Awi Ari Am An Ab] Hnin Hent Hrent Hmem.
  assert (forall id', id' ∈ ids -> exists o a e, simple_at v (writer_ptr id') = Some (o, a, e) /\
    simple_at v2 (writer_ptr id') = Some (o, a, e)) as Hw2.
  { intros id' Hin. destruct (Aw id') as (o & a & e & Hat); [by right|].
    pose proof (entity_simple v _ o a e Hat) as Hent'. exists o, a, e. split; [done|].
    assert (a <> aw) as Hne by (intros ->; apply Hnin; rewrite (Awi id id' aw); [done|by left|by right|done|done]).
    apply simple_without; [done|intros E; apply Hne; rewrite E in Hent'; congruence|done]. }
  assert (forall id', id' ∈ ids -> exists o a e, wd_readers v !! reader_ptr id' = Some o /\
    wd_readers v2 !! reader_ptr id' = Some o /\ rtps_reader_ o = Some a /\
    wd_rtps_readers v !! a = Some e /\ wd_rtps_readers v2 !! a = Some e) as Hr2.
  { intros id' Hin. destruct (Ar id') as (o & a & e & Ho & Ha & He); [by right|]. exists o, a, e.
    assert (reader_entity v (reader_ptr id') = Some a) as Hent' by (unfold reader_entity; by rewrite Ho).
    assert (a <> ar) as Hne by (intros ->; apply Hnin; rewrite (Ari id id' ar); [done|by left|by right|done|done]).
    destruct (reader_without v h1 pool1 h2 pool2 (writer_ptr id) aw (reader_ptr id) ar (reader_ptr id') o a e); try done.
    intros E. apply Hne. rewrite E in Hent'. congruence. }
  assert (forall id', id' ∈ ids -> entity_of v2 (writer_ptr id') = entity_of v (writer_ptr id') /\
    reader_entity v2 (reader_ptr id') = reader_entity v (reader_ptr id')) as Hsame.
  { intros id' Hin. destruct (Hw2 id' Hin) as (o & a & e & H1 & H2). destruct (Hr2 id' Hin) as (o2 & _ & _ & E1 & E2 & _).
    rewrite (entity_simple _ _ _ _ _ H1), (entity_simple _ _ _ _ _ H2). unfold reader_entity. by rewrite E1, E2. }
  assert (ends v2 ids = ends v ids) as Hends.
  { apply ends_ext. intros id' Hin. destruct (Hw2 id' Hin) as (o & a & e & H1 & H2).
    destruct (Hr2 id' Hin) as (o2 & a2 & e2 & E1 & E2 & E3 & E4 & E5). unfold history_of, queue_of.
    by rewrite H1, H2, E1, E2, E3, E4, E5. }
  split; [split|done]; rewrite ?Hends; try done.
  - intros id' Hin. apply Af. by right.
  - intros id' Hin. destruct (Hw2 id' Hin) as (o & a & e & _ & ?). by exists o, a, e.
  - intros id' Hin. destruct (Hr2 id' Hin) as (o & a & e & ? & ? & ? & ? & ?). by exists o, a, e.
  - intros id1 id2 a H1 H2. destruct (Hsame id1 H1) as [-> _], (Hsame id2 H2) as [-> _]. apply Awi; by right.
  - intros id1 id2 a H1 H2. destruct (Hsame id1 H1) as [_ ->], (Hsame id2 H2) as [_ ->]. apply Ari; by right.
  - assert (length (held_by (mjoin (ends v ids)) ++ L) <= length (held_by (mjoin (ends v (id :: ids))) ++ L)); [|lia].
    etransitivity; [apply held_fewer|]. apply held_fewer.
Qed.

Lemma destroy_one id ids w : alive (rp_world w) (id :: ids) -> id ∉ ids ->
  let v' := rp_world (destroy_endpoints id w) in
  alive v' ids /\ exists aw ar,
    entity_of (rp_world w) (writer_ptr id) = Some aw /\ reader_entity (rp_world w) (reader_ptr id) = Some ar /\
    wd_rtps_writers v' = delete aw (wd_rtps_writers (rp_world w)) /\
    wd_rtps_readers v' = delete ar (wd_rtps_readers (rp_world w)) /\
    forall id', id' ∈ ids -> entity_of v' (writer_ptr id') = entity_of (rp_world w) (writer_ptr id') /\
      reader_entity v' (reader_ptr id') = reader_entity (rp_world w) (reader_ptr id').
Proof.
  intros Hal Hnin. pose proof Hal as [_ Aw Ar _ _ Am An _]. set (v := rp_world w) in *.
  destruct (Aw id) as (o & aw & e & Hat); [by left|]. destruct (Ar id) as (ro & ar & re & Hro & Har & Hre); [by left|].
  pose proof (entity_simple v _ o aw e Hat) as Hent.
  assert (reader_entity v (reader_ptr id) = Some ar) as Hrent by (unfold reader_entity; by rewrite Hro).
  set (w1 := delete_reader id (reader_ptr id) (delete_writer id (writer_ptr id) w)).
  assert (rp_world w1 = v) as Hv1 by (unfold w1; cbn [delete_reader delete_writer PW rtps_participants]; by rewrite !delete_world).
  assert (ends v (id :: ids) = rw_history e :: rr_untaken re :: ends v ids) as Hends.
  { unfold ends. cbn [fmap list_fmap mjoin list_join app]. unfold history_of at 1, queue_of at 1. by rewrite Hat, Hro, Har, Hre. }
  rewrite Hends in Am, An.
  destruct (release_writer_run w1 (writer_ptr id) o aw e (rr_untaken re :: ends v ids) L H0) as (h1 & pool1 & Hr1 & Hs1);
    [by rewrite Hv1|by rewrite Hv1|done|].
  rewrite Hv1 in Hr1. set (w2 := rp_put (without_writer h1 pool1 (writer_ptr id) aw v) w1) in *.
  destruct (release_reader_run w2 (reader_ptr id) ro ar re (ends v ids) L H0) as (h2 & pool2 & Hr2 & Hs2); try done.
  { pose proof (held_fewer (rw_history e) (rr_untaken re :: ends v ids)). lia. }
  destruct (alive_without v h1 pool1 h2 pool2 id ids aw ar Hal Hnin Hent Hrent Hs2) as [Hal2 Hsame].
  unfold destroy_endpoints. fold w1. rewrite Hr1, Hr2. split; [done|]. by exists aw, ar.
Qed.

(** All of them. *)
Lemma lookup_removed {A} (m : gmap nat A) x a (l : list (option nat)) :
  (if decide (Some a ∈ l) then None else delete x m !! a) = if decide (Some a ∈ Some x :: l) then None else m !! a.
Proof.
  destruct (decide (a = x)) as [->|Hne].
  - rewrite (decide_True (P := Some x ∈ Some x :: l)) by (by left). rewrite lookup_delete_eq. by case_decide.
  - rewrite lookup_delete_ne by done. apply decide_ext. rewrite elem_of_cons. naive_solver.
Qed.

Lemma destroy_all ids : forall w, alive (rp_world w) ids -> NoDup ids ->
  let v := rp_world w in let v' := rp_world (fold_left (fun w id => destroy_endpoints id w) ids w) in
  alive v' [] /\
  (forall a, wd_rtps_writers v' !! a =
     if decide (Some a ∈ (fun id => entity_of v (writer_ptr id)) <$> ids) then None else wd_rtps_writers v !! a) /\
  (forall a, wd_rtps_readers v' !! a =
     if decide (Some a ∈ (fun id => reader_entity v (reader_ptr id)) <$> ids) then None else wd_rtps_readers v !! a).
Proof.
  induction ids as [|id ids IH]; intros w Hal Hnd; cbn [fold_left].
  { split_and!; [done|done|done]. }
  apply NoDup_cons in Hnd as [Hnin Hnd].
  destruct (destroy_one id ids w Hal Hnin) as (Hal1 & aw & ar & Haw & Har & Hw & Hr & Hsame).
  destruct (IH (destroy_endpoints id w) Hal1 Hnd) as (Hal' & IHw & IHr). cbv zeta in *.
  assert ((fun id' => entity_of (rp_world (destroy_endpoints id w)) (writer_ptr id')) <$> ids =
    (fun id' => entity_of (rp_world w) (writer_ptr id')) <$> ids) as Ew
    by (apply list_fmap_ext; intros i id' Hi%list_elem_of_lookup_2; by apply Hsame).
  assert ((fun id' => reader_entity (rp_world (destroy_endpoints id w)) (reader_ptr id')) <$> ids =
    (fun id' => reader_entity (rp_world w) (reader_ptr id')) <$> ids) as Er
    by (apply list_fmap_ext; intros i id' Hi%list_elem_of_lookup_2; by apply Hsame).
  split_and!; [done|..]; intros a; cbn [fmap list_fmap].
  - rewrite IHw, Hw, Haw, Ew. apply lookup_removed.
  - rewrite IHr, Hr, Har, Er. apply lookup_removed.
Qed.



End Loop.

(** ** From a session *)
Section FromSession.
Context (L : list nat) (H0 : gset nat) (w0 : rpworld) (t : DdsTopic).
#[local] Notation sim := (simulates this_pool L H0 w0 t).

Lemma values_ids (m : std_map ParticipantId nat) ids :
  map_wf m -> NoDup ids -> (forall id, id ∈ ids <-> is_Some (find id m)) ->
  values m ≡ₚ (fun id => default 0 (find id m)) <$> ids.
Proof.
  intros Hwf Hnd Hids. assert (keys m ≡ₚ ids) as <-.
  { apply NoDup_Permutation; [by apply keys_NoDup|done|]. intros id. rewrite Hids. split.
    - intros (x & Hin)%elem_of_keys. exists x. by apply elem_of_find.
    - intros [x Hx]. by eapply keys_found. }
  unfold values, keys. rewrite <- list_fmap_compose. erewrite list_fmap_ext; [done|].
  intros i [id x] Hin%list_elem_of_lookup_2. simpl. apply elem_of_find in Hin; [|done]. by rewrite Hin.
Qed.

Lemma pairs_perm {A B} (f g : A -> list B) (l : list A) :
  mjoin ((fun x => [f x; g x]) <$> l) ≡ₚ (g <$> l) ++ (f <$> l).
Proof.
  induction l as [|x l IH]; [done|]. cbn [fmap list_fmap mjoin list_join app]. rewrite perm_swap. f_equiv.
  change (f x :: mjoin ((fun x => [f x; g x]) <$> l) ≡ₚ (g <$> l) ++ f x :: (f <$> l)).
  by rewrite IH, Permutation_middle.
Qed.

Lemma endpoints_of b w r id : sim b w r -> is_Some (participant_of w0 id) ->
  exists p o a e q ro ar re, find id (b_writers_ b) = Some p /\ simple_at (rp_world w) p = Some (o, a, e) /\
    find id (b_readers_ b) = Some q /\ wd_readers (rp_world w) !! q = Some ro /\ rtps_reader_ ro = Some ar /\
    wd_rtps_readers (rp_world w) !! ar = Some re.
Proof.
  intros Hs [[c g] Hid]. destruct (si_track _ _ _ _ _ _ _ _ Hs id c g Hid) as [[p Hp] _].
  destruct (si_writer _ _ _ _ _ _ _ _ Hs id p Hp) as (_ & _ & o & a & e & _ & Hat & _).
  destruct (track_of this_pool L H0 w0 t b w r id c g Hs Hid) as (tr & ro & ar & re & _ & Htw & Ho & Ha & He & _).
  exists p, o, a, e, (reader_ tr), ro, ar, re. split_and!; try done. apply Htw.
Qed.

Lemma ends_histories b w r ids : sim b w r -> NoDup ids -> (forall id, id ∈ ids <-> is_Some (participant_of w0 id)) ->
  ends b (rp_world w) ids ≡ₚ bridge_histories b (rp_world w).
Proof.
  intros Hs Hnd Hids. destruct (si_wf _ _ _ _ _ _ _ _ Hs) as [Hwf Hwfr]. unfold ends, bridge_histories.
  rewrite (pairs_perm (fun id => history_of (rp_world w) (writer_ptr b id)) (fun id => queue_of (rp_world w) (reader_ptr b id))).
  rewrite (values_ids (b_readers_ b) ids), (values_ids (b_writers_ b) ids); [by rewrite <- !list_fmap_compose|done|done| |done|done|];
    intros id; rewrite Hids; split; intros Hid.
  - destruct (endpoints_of b w r id Hs Hid) as (p & o & a & e & q & ro & ar & re & Hp & _). by exists p.
  - destruct Hid as [p Hp]. destruct (si_writer _ _ _ _ _ _ _ _ Hs id p Hp) as (c & g & _ & _ & _ & Hid & _). by exists (c, g).
  - destruct (endpoints_of b w r id Hs Hid) as (p & o & a & e & q & ro & ar & re & _ & _ & Hq & _). by exists q.
  - destruct Hid as [q Hq]. by eapply (si_domain _ _ _ _ _ _ _ _ Hs).
Qed.

(** The endpoints of a bridge at any time of a session. *)
Lemma session_alive b w r ids : sim b w r -> room L b (rp_world w) 0 ->
  NoDup ids -> (forall id, id ∈ ids <-> is_Some (participant_of w0 id)) -> alive b L H0 (rp_world w) ids.
Proof.
  intros Hs (_ & _ & Hfew) Hnd Hids. pose proof (ends_histories b w r ids Hs Hnd Hids) as Hp.
  assert (forall id, id ∈ ids -> exists o a e ro ar re, find id (b_writers_ b) = Some (writer_ptr b id) /\
    simple_at (rp_world w) (writer_ptr b id) = Some (o, a, e) /\ find id (b_readers_ b) = Some (reader_ptr b id) /\
    wd_readers (rp_world w) !! reader_ptr b id = Some ro /\ rtps_reader_ ro = Some ar /\
    wd_rtps_readers (rp_world w) !! ar = Some re) as Hall.
  { intros id Hin%Hids. destruct (endpoints_of b w r id Hs Hin) as (p & o & a & e & q & ro & ar & re & Hpp & Hat & Hq & Ho & Ha & He).
    unfold writer_ptr, reader_ptr. rewrite Hpp, Hq. simpl. by exists o, a, e, ro, ar, re. }
  split.
  - intros id Hin. destruct (Hall id Hin) as (? & ? & ? & ? & ? & ? & -> & _ & -> & _). split; by eexists.
  - intros id Hin. destruct (Hall id Hin) as (o & a & e & _ & _ & _ & _ & Hat & _). by exists o, a, e.
  - intros id Hin. destruct (Hall id Hin) as (_ & _ & _ & ro & ar & re & _ & _ & _ & Ho & Ha & He). by exists ro, ar, re.
  - intros id id' a Hin Hin'. destruct (Hall id Hin) as (o & a1 & e & _ & _ & _ & F1 & Hat & _).
    destruct (Hall id' Hin') as (o' & a2 & e' & _ & _ & _ & F2 & Hat' & _).
    rewrite (entity_simple _ _ _ _ _ Hat), (entity_simple _ _ _ _ _ Hat'). intros [= ->] [= ->].
    by eapply (si_writers_inj _ _ _ _ _ _ _ _ Hs).
  - intros id id' a Hin Hin'. destruct (Hall id Hin) as (_ & _ & _ & ro & ar & re & _ & _ & F1 & Ho & Ha & _).
    destruct (Hall id' Hin') as (_ & _ & _ & ro' & ar' & re' & _ & _ & F2 & Ho' & Ha' & _).
    unfold reader_entity. rewrite Ho, Ho'. simpl. rewrite Ha, Ha'. intros [= ->] [= ->].
    by eapply (si_readers_inj _ _ _ _ _ _ _ _ Hs).
  - eapply shared_perm; [symmetry; exact Hp|apply Hs].
  - rewrite (held_by_perm _ _ (mjoin_perm _ _ Hp)). lia.
  - apply Hs.
Qed.

(** The same once the tracks are disabled. *)
Lemma alive_same b v v1 ids : alive b L H0 v ids -> same_endpoints v v1 -> alive b L H0 v1 ids /\
  forall id, id ∈ ids -> entity_of v1 (writer_ptr b id) = entity_of v (writer_ptr b id) /\
    reader_entity v1 (reader_ptr b id) = reader_entity v (reader_ptr b id).
Proof.
  intros [Af Aw Ar Awi Ari Am An Ab] [(M1 & M2 & M3) [Er Ew] W R].
  assert (forall id, id ∈ ids -> exists o o1 a e, simple_at v (writer_ptr b id) = Some (o, a, e) /\
    simple_at v1 (writer_ptr b id) = Some (o1, a, e)) as Hw.
  { intros id Hin. destruct (Aw id Hin) as (o & a & e & Hat). destruct (simple_at_writes _ _ _ _ _ Hat) as (Ho & Ha & He).
    simpl in Ha, He. destruct (W _ o Ho) as (o1 & Ho1 & E1). exists o, o1, a, e. split; [done|].
    unfold simple_at. rewrite Ho1, E1, Ha. cbn. by rewrite Ew, He. }
  assert (forall id, id ∈ ids -> exists o o1 a e, wd_readers v !! reader_ptr b id = Some o /\
    wd_readers v1 !! reader_ptr b id = Some o1 /\ rtps_reader_ o = Some a /\ rtps_reader_ o1 = Some a /\
    wd_rtps_readers v !! a = Some e) as Hr.
  { intros id Hin. destruct (Ar id Hin) as (o & a & e & Ho & Ha & He). destruct (R _ o Ho) as (o1 & Ho1 & E1).
    exists o, o1, a, e. split_and!; congruence. }
  assert (forall id, id ∈ ids -> entity_of v1 (writer_ptr b id) = entity_of v (writer_ptr b id) /\
    reader_entity v1 (reader_ptr b id) = reader_entity v (reader_ptr b id)) as Hsame.
  { intros id Hin. destruct (Hw id Hin) as (o & o1 & a & e & H1 & H2). destruct (Hr id Hin) as (r & r1 & ar & re & E1 & E2 & E3 & E4 & _).
    rewrite (entity_simple _ _ _ _ _ H1), (entity_simple _ _ _ _ _ H2). unfold reader_entity. rewrite E1, E2. simpl.
    split; congruence. }
  assert (ends b v1 ids = ends b v ids) as Hends.
  { apply ends_ext. intros id Hin. destruct (Hw id Hin) as (o & o1 & a & e & H1 & H2).
    destruct (Hr id Hin) as (r & r1 & ar & re & E1 & E2 & E3 & E4 & E5). unfold history_of, queue_of.
    by rewrite H1, H2, E1, E2, E3, E4, Er, E5. }
  split; [split|done]; rewrite ?Hends, ?M1, ?M2, ?M3; try done.
  - intros id Hin. destruct (Hw id Hin) as (_ & o1 & a & e & _ & ?). by exists o1, a, e.
  - intros id Hin. destruct (Hr id Hin) as (_ & o1 & a & e & _ & ? & _ & ? & ?). exists o1, a, e. by rewrite Er.
  - intros id1 id2 a H1 H2. destruct (Hsame id1 H1) as [-> _], (Hsame id2 H2) as [-> _]. by apply Awi.
  - intros id1 id2 a H1 H2. destruct (Hsame id1 H1) as [_ ->], (Hsame id2 H2) as [_ ->]. by apply Ari.
Qed.

Lemma tracks_have_endpoints b w r id tr : sim b w r -> (id, tr) ∈ b_tracks_ b -> has_endpoints (rp_world w) tr.
Proof.
  intros Hs Hin. apply elem_of_find in Hin; [|apply Hs].
  destruct (si_tracked _ _ _ _ _ _ _ _ Hs id tr Hin) as [q Hq]. destruct (si_domain _ _ _ _ _ _ _ _ Hs id q Hq) as [[c g] Hid].
  destruct (track_of this_pool L H0 w0 t b w r id c g Hs Hid) as (tr' & ro & ar & re & Htr & Htw & Ho & _).
  rewrite Hin in Htr. injection Htr as <-. split; [|by exists ro].
  intros p Hp. destruct (tw_enabled _ _ _ _ _ _ _ _ Htw p Hp) as (o & Ho' & _). by exists o.
Qed.

(** The first part of [~DDSBridge]. *)
Lemma destroy_tracks b w r : sim b w r ->
  let '(b1, w1) := bridge_disable (b, w) in
  let w2 := (for_tracks track_destroy (b_tracks_ b1) w1).2 in
  b_writers_ b1 = b_writers_ b /\ b_readers_ b1 = b_readers_ b /\
  same_endpoints (rp_world w) (rp_world w2) /\ rp_participants w2 = rp_participants w.
Proof.
  intros Hs.
  assert (forall l w', (forall id tr, (id, tr) ∈ l -> has_endpoints (rp_world w') tr) ->
    same_endpoints (rp_world w') (rp_world (for_tracks track_destroy l w').2) /\
    rp_participants (for_tracks track_destroy l w').2 = rp_participants w') as Hdestroy.
  { intros l w' Hl. pose proof (for_tracks_same track_destroy (track_destroy (CW := CW)) l) as Hf.
    specialize (Hf (fun tr w => track_destroy_lift rp_world rp_put (tr, w))). 
    assert (forall tr v, has_endpoints v tr -> same_endpoints v (track_destroy (CW := CW) (tr, v)).2 /\
      reader_ (track_destroy (CW := CW) (tr, v)).1 = reader_ tr /\ writers_ (track_destroy (CW := CW) (tr, v)).1 = writers_ tr) as Hg.
    { intros tr v Hv. split; [by apply track_destroy_same|]. unfold track_destroy.
      destruct (track_disable_same tr v Hv) as (_ & H2). by destruct (track_disable (tr, v)). }
    specialize (Hf Hg w' Hl). cbn [comm_world PW rtps_participants] in *.
    destruct (for_tracks track_destroy l w') as [l' w2]. by destruct Hf as (? & ? & _). }
  pose proof (fun id tr => tracks_have_endpoints b w r id tr Hs) as Hhas. unfold bridge_disable.
  destruct (b_enabled_ b).
  - pose proof (for_tracks_same track_disable (track_disable (CW := CW)) (b_tracks_ b)
      (fun tr w => track_disable_lift rp_world rp_put (tr, w)) (fun tr v => track_disable_same tr v) w Hhas) as Hf.
    cbn [comm_world PW rtps_participants] in *.
    destruct (for_tracks track_disable (b_tracks_ b) w) as [ts w1]. destruct Hf as (H1 & Hp1 & Hin).
    cbn [b_writers_ b_readers_ b_tracks_]. destruct (Hdestroy ts w1) as [H2 Hp2].
    { intros id tr' (tr & Htr & Hr & Hws)%Hin. destruct (same_endpoints_has _ _ _ H1 (Hhas id tr Htr)) as [E1 E2].
      split; [by rewrite Hws|by rewrite Hr]. }
    split_and!; [done|done|by eapply same_endpoints_trans|congruence].
  - destruct (Hdestroy (b_tracks_ b) w Hhas) as [H2 Hp2]. done.
Qed.

Lemma destroy_fold b ids : (forall id, id ∈ ids -> is_Some (find id (b_writers_ b)) /\ is_Some (find id (b_readers_ b))) ->
  forall w, fold_left (fun w id =>
    match find id (b_writers_ b), find id (b_readers_ b) with
    | Some wr, Some rd => release_reader rd (release_writer wr (delete_reader id rd (delete_writer id wr w)))
    | _, _ => w
    end) ids w = fold_left (fun w id => destroy_endpoints b id w) ids w.
Proof.
  induction ids as [|id ids IH]; intros Hall w; [done|]. cbn [fold_left].
  destruct (Hall id) as [[p Hp] [q Hq]]; [by left|]. rewrite IH by (intros id' Hin; apply Hall; by right).
  f_equal. unfold destroy_endpoints, writer_ptr, reader_ptr. by rewrite Hp, Hq.
Qed.

Lemma ids_participants w w' : same_participants w0 w -> map_wf (rp_participants w) -> rp_participants w' = rp_participants w ->
  forall id, id ∈ set_elems (get_participants_ids w') <-> is_Some (participant_of w0 id).
Proof.
  intros Hsame Hwf Hp id. rewrite <- Hsame. cbn [get_participants_ids PW rtps_participants]. rewrite Hp.
  rewrite (fold_insert_elems _ (fun _ => true)) by (try apply map_wf_nil; done). unfold participant_of.
  rewrite fmap_is_Some. split.
  - intros [?%not_elem_of_nil|(p & Hin & _)]; [done|]. exists p. by apply elem_of_find.
  - intros [p Hf]. right. exists p. split; [|done]. apply find_elem_of in Hf as (k & Hk & Hin).
    apply ParticipantId_keqv in Hk. by subst k.
Qed.

(** The entities of a map of endpoints are gone and the others are those of [m0]. *)
Lemma restored {A} (m m0 : gmap nat A) (eps : std_map ParticipantId nat) (now before : nat -> option nat)
    (ids : list ParticipantId) a :
  (forall id p a, find id eps = Some p -> before p = Some a -> m0 !! a = None) ->
  (forall a, (forall id p, find id eps = Some p -> before p <> Some a) -> m !! a = m0 !! a) ->
  (forall id, id ∈ ids -> is_Some (find id eps) /\ now (default 0 (find id eps)) = before (default 0 (find id eps))) ->
  (forall id, is_Some (find id eps) -> id ∈ ids) ->
  (if decide (Some a ∈ (fun id => now (default 0 (find id eps))) <$> ids) then None else m !! a) = m0 !! a.
Proof.
  intros Hnew Hold Hin Hids. case_decide as Hc.
  - apply list_elem_of_fmap in Hc as (id & Ha & Hid). destruct (Hin id Hid) as [[p Hp] E]. rewrite E, Hp in Ha.
    symmetry. by apply (Hnew id p).
  - apply Hold. intros id p Hp Ha. apply Hc, list_elem_of_fmap. exists id.
    assert (id ∈ ids) as Hid by (apply Hids; by exists p). split; [|done].
    destruct (Hin id Hid) as [_ ->]. by rewrite Hp.
Qed.

(** ** Properties *)
Context (default_payload : payload default_data = Payload_empty).
Context (changes_available : forall k ih (e : RTPSWriter), rw_is_full e = false -> is_Some (rw_new_change k ih e).1).

(** C12: A bridge leaves nothing behind.  A bridge between RTPS participants is made, of a
    topic with neither partitions nor ownership (so with [SimpleWriter]s and
    [SimpleReader]s), any changes come to it and any tasks run, over a Fast DDS that has a
    change for every writer whose history is not full, and it is destroyed, with changes
    waiting or not and the counters of the payload pool in their range:
    Fast DDS has then exactly the readers and writers it had before the bridge was made,
    as they were; the payload pool holds exactly what it held for others; and no exception
    has left a destructor. *)
Theorem rtps_bridge_destroyed b0 w1 l b w :
  in_session this_pool default_params dta dq default_data L H0 w0 t b0 w1 l b w -> room L b (rp_world w) 0 ->
  let v' := rp_world (bridge_destroy (b, w)) in
  wd_rtps_writers v' = wd_rtps_writers (rp_world w0) /\ wd_rtps_readers v' = wd_rtps_readers (rp_world w0) /\
  shared_ok this_pool (wd_heap v') (wd_pool v') [] L H0 /\ wd_aborted v' = None.
Proof.
  intros Hs%in_session_simulates Hroom; [|done..]. set (r := relay_run l) in *. unfold bridge_destroy.
  pose proof (destroy_tracks b w r Hs) as Ht. destruct (bridge_disable (b, w)) as [b1 w2].
  destruct Ht as (Hw & Hr & Hsame & Hp). destruct (for_tracks track_destroy (b_tracks_ b1) w2) as [l' w3]. cbn [snd] in *.
  set (ids := set_elems (get_participants_ids w3)). destruct (si_participants _ _ _ _ _ _ _ _ Hs) as [Hpar Hpwf].
  pose proof (ids_participants w w3 Hpar Hpwf Hp) as Hids. fold ids in Hids.
  assert (NoDup ids) as Hnd by (unfold ids; apply set_elems_NoDup, ids_wf).
  destruct (alive_same b _ (rp_world w3) ids (session_alive b w r ids Hs Hroom Hnd Hids) Hsame) as [Hal Hent].
  rewrite Hw, Hr, (destroy_fold b ids (al_found _ _ _ _ _ Hal)).
  destruct (destroy_all b L H0 ids w3 Hal Hnd) as (Hend & Hww & Hrr). cbv zeta in *.
  set (w4 := fold_left _ ids w3) in *. destruct (si_adds _ _ _ _ _ _ _ _ Hs) as [A1 A2 A3 A4].
  destruct (se_entities _ _ Hsame) as [Er Ew].
  split_and!; [apply map_eq; intros a; rewrite Hww, Ew|apply map_eq; intros a; rewrite Hrr, Er|apply Hend|apply Hend].
  - apply (restored _ _ (b_writers_ b) (entity_of (rp_world w3)) (entity_of (rp_world w)) ids a A1 A2).
    + intros id Hin. split; [by apply (al_found _ _ _ _ _ Hal)|by apply Hent].
    + intros id [p Hf]. apply Hids. destruct (si_writer _ _ _ _ _ _ _ _ Hs id p Hf) as (c & g & _ & _ & _ & Hid & _).
      by exists (c, g).
  - apply (restored _ _ (b_readers_ b) (reader_entity (rp_world w3)) (reader_entity (rp_world w)) ids a A3 A4).
    + intros id Hin. split; [by apply (al_found _ _ _ _ _ Hal)|by apply Hent].
    + intros id [q Hf]. apply Hids. by eapply (si_domain _ _ _ _ _ _ _ _ Hs).
Qed.

End FromSession.

End Destroy.

(** ** Witnesses *)
Section Witnesses.
#[local] Existing Instances Demo.cpp_utils Demo.cpp_utils_laws Demo.fast_dds Demo.dbqueue
  PoolDemo.malloc PoolDemo.malloc_laws ReaderDemo.readers ReaderDemo.readers_laws
  WriterDemo.writers WriterDemo.writers_laws demo_methods demo_spec demo_participants.

(** The bridge is destroyed when a change waits at the reader of the first participant. *)
Definition demo_left : rtps_world (C := unit) := rp_world (bridge_destroy (demo_arrived.1, demo_arrived.2)).

Lemma rtps_bridge_destroyed_witness :
  pending demo_arrived.1 (rp_world demo_arrived.2) = 1 /\ wd_rtps_writers demo_left = ∅ /\
  wd_rtps_readers demo_left = ∅ /\ is_clean (wd_pool demo_left) = true.
Proof.
  destruct (rtps_bridge_destroyed 7 WriterDemo.default_params WriterDemo.dta WriterDemo.dq demo_default [] ∅ session_world
    ReaderDemo.topic eq_refl demo_available _ _ _ _ _ demo_arrives) as (Hw & Hr & [Hacc _ _ _] & _).
  - apply demo_room. vm_compute. reflexivity.
  - split; [vm_compute; reflexivity|]. split; [exact Hw|]. split; [exact Hr|].
    apply (acc_clean _ _ _ _ Hacc). reflexivity.
Defined.

End Witnesses.
