(* ===== verification/RtpsRpc.v ===== *)
(** * RPC bridges over RTPS participants

    [communication/rpc/RPCBridge.cpp] on the readers and writers of Fast DDS: the
    interface the bridge of a service uses of [rtps::CommonReader], its laws, and what a
    request and its reply are on the wire. *)
From stdpp Require Import gmap.
From S2P Require Import Prelude StdMap CppString Externals Types Topics Endpoint DiscoveryDatabase PayloadPool ServiceRegistry Track Auxiliar Address Configuration Participants DDSBridge RPCBridge Rtps RtpsReader RtpsWriter MultiWriter ParticipantAttributes RtpsParticipant RtpsWorld RtpsBridge.

(** ** The interface *)
Section RtpsRpc.
Context {CU : CppUtils} {FD : FastDDS} {DQ : DBQueueOps} {C : Type} {RR : RtpsReaders} {RW : RtpsWriters}.
Context {PM : PoolMethods} (this_pool : nat).
Context (default_params : SendParams) (dta : TopicAttributes) (dq : EndpointQos) (default_data : DataReceived).

#[local] Notation rpworld := (rpworld (C := C)).

(** A method of the reader at [ptr] that changes nothing; [dflt] if the pointer is null. *)
Definition observe {A} (dflt : A) (m : prog (rstate (C := C)) A) (ptr : nat) (w : rpworld) : A :=
  match on_rtps_reader ptr m (rp_world w) with
  | (Ok a, _) => a
  | (Throw _, _) => dflt
  end.

(** [BaseReader::participant_id] and [topic] *)
Definition cr_participant_id : prog (rstate (C := C)) ParticipantId :=
  gets (fun s => br_participant_id_ (cr_base (rs_this s))).
Definition cr_topic : prog (rstate (C := C)) DdsTopic := gets (fun s => br_topic_ (cr_base (rs_this s))).

#[export] Instance rtps_rpc_world : RpcWorld rpworld := {|
  rpc_participants := rtps_participants this_pool default_params dta dq default_data;
  reader_guid := observe guid_unknown cr_guid;
  reader_participant_id := observe ParticipantId_invalid cr_participant_id;
  reader_topic := observe (DdsTopic_of 0 "" "") cr_topic;
  get_unread_count := observe 0%Z cr_get_unread_count
|}.

(** The reader at [ptr] and its entity. *)
Definition reader_at (v : rtps_world (C := C)) (ptr : nat) : option (CommonReader * RTPSReader) :=
  o ← wd_readers v !! ptr; a ← rtps_reader_ o; e ← wd_rtps_readers v !! a; Some (o, e).

Lemma observe_entity {A} (f : RTPSReader -> A) dflt ptr w :
  observe dflt (ar ← the_reader; mret (f ar.2)) ptr w =
    match reader_at (rp_world w) ptr with Some (_, e) => f e | None => dflt end.
Proof.
  unfold observe, on_rtps_reader, reader_at. destruct (wd_readers _ !! ptr) as [o|]; [|done]. simpl.
  unfold the_reader. run_prog. cbn [rs_this rs_domain reader_view]. destruct (rtps_reader_ o) as [a|]; [|done]. simpl.
  by destruct (wd_rtps_readers _ !! a).
Qed.

Lemma observe_object {A} (f : CommonReader -> A) dflt ptr w :
  observe dflt (gets (fun s => f (rs_this s))) ptr w =
    match wd_readers (rp_world w) !! ptr with Some o => f o | None => dflt end.
Proof. unfold observe, on_rtps_reader. by destruct (wd_readers _ !! ptr). Qed.

Lemma reader_guid_at ptr w :
  reader_guid ptr w = match reader_at (rp_world w) ptr with Some (_, e) => rr_guid e | None => guid_unknown end.
Proof. apply observe_entity. Qed.

Lemma unread_at ptr w :
  get_unread_count ptr w = match reader_at (rp_world w) ptr with Some (_, e) => rr_unread e | None => 0%Z end.
Proof. apply observe_entity. Qed.

Lemma participant_at ptr w : reader_participant_id ptr w =
  match wd_readers (rp_world w) !! ptr with Some o => br_participant_id_ (cr_base o) | None => ParticipantId_invalid end.
Proof. apply (observe_object (fun o => br_participant_id_ (cr_base o))). Qed.

Lemma topic_at ptr w : reader_topic ptr w =
  match wd_readers (rp_world w) !! ptr with Some o => br_topic_ (cr_base o) | None => DdsTopic_of 0 "" "" end.
Proof. apply (observe_object (fun o => br_topic_ (cr_base o))). Qed.

(** The readers of two worlds are the same. *)
Definition same_readers (w w' : rpworld) : Prop :=
  wd_readers (rp_world w') = wd_readers (rp_world w) /\ wd_rtps_readers (rp_world w') = wd_rtps_readers (rp_world w).

Lemma same_readers_reader w w' r : same_readers w w' -> same_reader r w w'.
Proof.
  intros [Ho He]. assert (reader_at (rp_world w') r = reader_at (rp_world w) r) as Hr
    by (unfold reader_at; by rewrite Ho, He).
  split; rewrite ?reader_guid_at, ?unread_at, ?participant_at, ?topic_at, ?Hr, ?Ho; done.
Qed.

(** A write gives the data back as it was, but for the number it was sent with. *)
Lemma cw_write_data d s ret d' s' :
  cw_write this_pool default_params d s = (Ok (ret, d'), s') -> same_data d d'.
Proof.
  unfold cw_write. intros (s0 & s1 & _ & H)%bind_inv_ok. destruct (bw_enabled_ _); [|by injection H as _ <- _].
  unfold cw_write_ in H. apply bind_inv_ok in H as (s2 & s3 & _ & H). apply bind_inv_ok in H as (aw & s4 & _ & H).
  destruct (rw_new_change _ _ _) as [oc w1]. apply bind_inv_ok in H as ([] & s5 & _ & H).
  destruct oc as [c|]; [|by injection H as _ <- _].
  apply bind_inv_ok in H as ([ret' [c1 ps]] & s6 & _ & H). destruct (ret_not ret'); [by injection H as _ <- _|].
  apply bind_inv_ok in H as (aw1 & s7 & _ & H). apply bind_inv_ok in H as (s8 & s9 & _ & H).
  destruct (rw_add _ _ _) as [[ps' c2] w2]. apply bind_inv_ok in H as ([] & s10 & _ & H). cbv zeta in H.
  apply bind_inv_ok in H as ([] & s11 & _ & H). by injection H as _ <- _.
Qed.

Lemma mw_write_data d s ret d' s' :
  mw_write this_pool default_params dta dq d s = (Ok (ret, d'), s') -> same_data d d'.
Proof.
  unfold mw_write. intros (s0 & s1 & _ & H)%bind_inv_ok. destruct (bw_enabled_ _); [|by injection H as _ <- _].
  unfold mw_write_ in H. apply bind_inv_ok in H as (p & s2 & _ & H). unfold on_object in H.
  destruct (ms_objects s2 !! p) as [o|]; [|done].
  destruct (cw_write _ _ _ _) as [r s5] eqn:E. destruct r as [[ret1 d1]|e]; [|done].
  apply cw_write_data in E. by simplify_eq.
Qed.

Lemma rtps_write_same wr d w :
  same_data d (writer_write wr d w).1.2 /\ same_readers w (writer_write wr d w).2 /\
  rp_participants (writer_write wr d w).2 = rp_participants w.
Proof.
  cbn [writer_write comm_world rpc_participants rtps_rpc_world rtps_participants comm_lift rtps_comm_world].
  unfold on_view_res, wd_noexcept, on_rtps_writer. destruct (wd_writers (rp_world w) !! wr) as [[m|o]|]; [| |done].
  - destruct (mw_write _ _ _ _ _ _) as [[[ret d']|e] s'] eqn:E; [|done]. apply mw_write_data in E. done.
  - destruct (cw_write _ _ _ _) as [[[ret d']|e] s'] eqn:E; [|done]. apply cw_write_data in E. done.
Qed.

Lemma same_participants_repeater id w w' :
  rp_participants w' = rp_participants w -> is_repeater id w' = is_repeater id w.
Proof. intros Hp. cbn [is_repeater rpc_participants rtps_rpc_world rtps_participants]. by rewrite Hp. Qed.

#[export] Instance rtps_rpc_laws : RpcWorldLaws rpworld.
Proof.
  split; intros wr d; [intros w; apply rtps_write_same..| | |].
  - intros r w. eapply sr_guid, same_readers_reader, rtps_write_same.
  - intros r w. eapply sr_participant, same_readers_reader, rtps_write_same.
  - intros id w. apply same_participants_repeater, rtps_write_same.
Qed.

(** ** Progress *)
Context {CL : CppUtilsLaws} {RL : RtpsReadersLaws} {WL : RtpsWritersLaws} {PS : PoolSpec this_pool}.
Context (default_payload : payload default_data = Payload_empty).
Context (changes_available : forall k ih (e : RTPSWriter), rw_is_full e = false -> is_Some (rw_new_change k ih e).1).

#[local] Notation world := (rtps_world (C := C)).
Implicit Types (w : rpworld) (v : world).

(** The payload that was taken, and what the pool has given besides the histories. *)
Definition in_hand v (hand : option Payload) (L0 L : list nat) : Prop :=
  match hand with
  | None => L = L0
  | Some p => exists x, payload_data p = Some x /\ L = x :: L0 /\ valid_payload (wd_heap v) p /\ (0 < payload_length p)%Z
  end.

(** The changes that wait have a payload, or the reader refuses them. *)
Definition all_filled (ro : CommonReader) (q : list Change) : Prop :=
  Forall (fun c => acceptable (br_topic_ (cr_base ro)) c ->
    (0 < payload_length (serializedPayload (ch_payload c)))%Z) q.

Definition rtps_calm (L0 : list nat) (H0 : gset nat) (ws : list nat) (r n : nat) (hand : option Payload) w : Prop :=
  NoDup ws /\ exists q L ro, connected this_pool (rp_world w) r q ws L H0 /\ fits (rp_world w) q ws L n /\
    wd_readers (rp_world w) !! r = Some ro /\ all_filled ro q /\ in_hand (rp_world w) hand L0 L.

Lemma connected_unread w r q ws L H0 :
  connected this_pool (rp_world w) r q ws L H0 -> get_unread_count r w = Z.of_nat (length q).
Proof.
  intros [(o & a & e & Ho & _ & Ha & He & Hu) _ _ _ _]. rewrite unread_at. unfold reader_at. rewrite Ho. simpl.
  rewrite Ha. simpl. rewrite He. simpl. by rewrite rr_unread_spec, Hu.
Qed.

(** The same reader for the bridge, whatever it has read. *)
Lemma untouched_reader w w' r ws :
  same_objects (rp_world w) (rp_world w') -> untouched (rp_world w) (rp_world w') r ws ->
  (forall a o, wd_readers (rp_world w) !! r = Some o -> rtps_reader_ o = Some a ->
     is_Some (wd_rtps_readers (rp_world w) !! a)) ->
  reader_guid r w' = reader_guid r w /\ reader_participant_id r w' = reader_participant_id r w /\
  reader_topic r w' = reader_topic r w.
Proof.
  intros [_ Ho] [_ _ Hg] Hsome. rewrite !participant_at, !topic_at, Ho. split_and!; [|done..].
  rewrite !reader_guid_at. unfold reader_at. rewrite Ho.
  destruct (wd_readers (rp_world w) !! r) as [o|]; [|done]. simpl. destruct (rtps_reader_ o) as [a|] eqn:Ha; [|done]. simpl.
  destruct (Hsome a o eq_refl Ha) as [e He]. rewrite He. simpl.
  destruct (Hg a e He) as (e' & -> & E). done.
Qed.

Lemma fits_le v q ws L n m : m <= n -> fits v q ws L n -> fits v q ws L m.
Proof. intros Hm (? & ? & ?). unfold fits. lia. Qed.

Lemma fits_step v v' q q' ws L L' n :
  (0 <= reserve_count_ (wd_pool v') <= reserve_count_ (wd_pool v) + 1)%Z -> load v' q' ws L' <= S (load v q ws L) ->
  fits v q ws L (S n) -> fits v' q' ws L' n.
Proof. intros Hr Hl (? & ? & ?). unfold fits. lia. Qed.

Lemma rtps_take_calm L0 H0 ws r n w :
  rtps_calm L0 H0 ws r (S n) None w -> (0 < get_unread_count r w)%Z ->
  exists ret d w', reader_take r new_data w = ((ret, d), w') /\
    reader_guid r w' = reader_guid r w /\ reader_participant_id r w' = reader_participant_id r w /\
    reader_topic r w' = reader_topic r w /\
    (0 <= get_unread_count r w' < get_unread_count r w)%Z /\
    rtps_calm L0 H0 ws r n (if ret_not ret then None else Some (payload d)) w' /\
    (ret_not ret = false -> participant_receiver (properties d) = reader_participant_id r w).
Proof.
  intros (Hnd & q & L & ro & Hc & Hfit & Hro & Hfill & Hh) Hun. simpl in Hh. subst L.
  rewrite (connected_unread _ _ _ _ _ _ Hc) in Hun. destruct q as [|c q]; [done|].
  apply Forall_cons in Hfill as [Hc0 Hfill].
  destruct (world_take this_pool default_params dta dq default_data default_payload (rp_world w) r c q ws L0 H0 ro Hc)
    as (ret & d & v1 & Htake & Hobj & Hent & Hun' & Hk & Hr & Htk); [by eapply fits_le; [|exact Hfit]; lia|done|].
  set (w1 := rp_put v1 w).
  assert (connected this_pool v1 r q ws L0 H0 \/ exists x, connected this_pool v1 r q ws (x :: L0) H0) as Hq.
  { destruct Htk as [(_ & _ & ? & _)|(Hacc & _ & _ & L' & Hc1 & _ & Hp)]; [by left|right].
    rewrite decide_True in Hp by auto. destruct Hp as (x & _ & -> & _). by exists x. }
  assert (get_unread_count r w1 = Z.of_nat (length q)) as Hu1
    by (destruct Hq as [Hq|[x Hq]]; by eapply (connected_unread w1)).
  destruct (untouched_reader w w1 r ws Hobj Hun') as (Hg & Hpid & Ht).
  { intros a o Ho Ha. destruct Hc as [(o' & a' & e' & Ho' & _ & Ha' & He' & _) _ _ _ _]. simplify_eq. by rewrite He'. }
  assert (wd_readers v1 !! r = Some ro) as Hro1 by (by rewrite (proj2 Hobj)).
  exists ret, d, w1. rewrite Hu1, (connected_unread _ _ _ _ _ _ Hc). cbn [length].
  split_and!; try done; try lia.
  - cbn [reader_take new_data comm_world rpc_participants rtps_rpc_world rtps_participants comm_lift].
    unfold on_view_res. by rewrite Htake.
  - split; [done|]. destruct Htk as [(_ & -> & Hc1 & Hl)|(Hacc & -> & Hrec & L' & Hc1 & Hl & Hp)].
    + rewrite ret_not_error by done. exists q, L0, ro. split; [done|]. split; [|done].
      by eapply fits_step; [| |exact Hfit]; [|etransitivity; [exact Hl|lia]].
    + rewrite ret_not_ok. pose proof (Hc0 Hacc) as Hpos. rewrite decide_True in Hp by done.
      destruct Hp as (x & Hx & -> & Hv & Hcont). exists q, (x :: L0), ro. split; [done|].
      split; [by eapply fits_step; [| |exact Hfit]|]. split; [done|]. split; [done|].
      exists x. split_and!; try done. by eapply (taken_length this_pool (rp_world w) v1); [eapply change_of_reader|..].
  - intros Hret. destruct Htk as [(_ & -> & _)|(_ & -> & Hrec & _)]; [by rewrite ret_not_error in Hret|].
    rewrite participant_at, Hro. apply (rec_receiver _ _ _ _ Hrec).
Qed.

Lemma rtps_write_calm L0 H0 ws r n wr d w :
  rtps_calm L0 H0 ws r (S n) (Some (payload d)) w -> wr ∈ ws ->
  rtps_calm L0 H0 ws r n (Some (payload d)) (writer_write wr d w).2 /\ same_reader r w (writer_write wr d w).2.
Proof.
  intros (Hnd & q & L & ro & Hc & Hfit & Hro & Hfill & x & Hx & -> & Hv & Hpos) Hwr.
  split; [|apply same_readers_reader, rtps_write_same]. split; [done|].
  destruct (ready_at _ _ _ (cn_writers _ _ _ _ _ _ _ Hc) Hwr) as (o & a & e & Hs).
  destruct (world_write this_pool default_params dta dq default_data default_payload changes_available (rp_world w) r q ws (x :: L0) H0
    wr o a e d Hc Hnd Hwr Hs) as (smp & h & pool & e' & Hrun & Hsend & Hsent & Hg & Hf & Hc1 & Hk & Hr & Hl).
  { intros _. exists x. split_and!; [done|by left|done]. }
  { eapply fits_le; [|exact Hfit]. lia. }
  assert ((writer_write wr d w).2 = rp_put (wrote h pool a e' (rp_world w)) w) as ->.
  { cbn [writer_write comm_world rpc_participants rtps_rpc_world rtps_participants comm_lift].
    unfold on_view_res. by rewrite Hrun. }
  exists q, (x :: L0), ro. split; [done|].
  split; [by eapply fits_step; [| |exact Hfit]|]. split; [done|]. split; [done|]. exists x. split_and!; try done. apply (held_valid_kept _ _ _ _ x Hk); [done| |done].
  apply elem_of_app. right. by left.
Qed.

Lemma rtps_release_calm L0 H0 ws r n p w :
  rtps_calm L0 H0 ws r n (Some p) w ->
  rtps_calm L0 H0 ws r n None (pool_release p w).2 /\ same_reader r w (pool_release p w).2.
Proof.
  intros (Hnd & q & L & ro & Hc & Hfit & Hro & Hfill & x & Hx & -> & Hv & Hpos).
  pose proof Hfit as (F0 & F1 & F2).
  destruct (world_release this_pool default_params dta dq default_data (rp_world w) r q ws x L0 H0 p Hc Hx)
    as (h & pool & Hrun & Hc1 & Hk & Hcnt); [lia|].
  assert ((pool_release p w).2 = rp_put (wd_set_memory h pool (rp_world w)) w) as ->.
  { cbn [pool_release comm_world rpc_participants rtps_rpc_world rtps_participants comm_lift].
    unfold on_view_res. rewrite <- Hrun. by destruct (pool_release p (rp_world w)). }
  split; [|by apply same_readers_reader]. split; [done|]. exists q, L0, ro.
  split; [done|]. split; [|done]. rewrite load_cons in F2.
  change (fits (wd_set_memory h pool (rp_world w)) q ws L0 n). unfold fits. cbn [wd_pool wd_set_memory]. rewrite Hcnt.
  change (load (wd_set_memory h pool (rp_world w)) q ws L0) with (load (rp_world w) q ws L0). lia.
Qed.

(** The bridge makes progress on the readers and writers of Fast DDS. *)
#[export] Instance rtps_rpc_progress (L0 : list nat) (H0 : gset nat) : RpcProgress rpworld := {|
  calm := rtps_calm L0 H0;
  calm_le ws r n m hand w Hm Hc :=
    let '(conj Hnd (ex_intro _ q (ex_intro _ L (ex_intro _ ro (conj Hcn (conj Hf Hrest)))))) := Hc in
    conj Hnd (ex_intro _ q (ex_intro _ L (ex_intro _ ro (conj Hcn (conj (fits_le _ _ _ _ _ _ Hm Hf) Hrest)))));
  take_calm := rtps_take_calm L0 H0;
  write_calm := rtps_write_calm L0 H0;
  release_calm := rtps_release_calm L0 H0
|}.

(** ** On the wire *)

(** What the requests and replies of a service are known by: the identity a reply to the
    request [c] has to refer to, and the one a server that gets the sample [smp] answers
    to. *)
Definition request_identity (c : Change) : SampleIdentity :=
  mkSampleIdentity (writer_guid (sample_identity (ch_write_params c))) (ch_sequenceNumber c).
Definition answer_identity (smp : sample) : SampleIdentity :=
  mkSampleIdentity (writer_guid (related_sample_identity (ch_write_params smp.1))) (ch_sequenceNumber smp.1).

(** The sample [smp] of the writer with entity [e] carries the message of [c], whose bytes
    are those of the memory [h]. *)
Record carries (h : heap) (c : Change) (e : RTPSWriter) (smp : sample) : Prop := {
  cy_writer : ch_writerGUID smp.1 = rw_guid e;
  cy_number : ch_sequenceNumber smp.1 = rw_next e;
  cy_kind : ch_kind smp.1 = ch_kind c;
  cy_timestamp : ch_sourceTimestamp smp.1 = ch_sourceTimestamp c;
  cy_message : smp.2 = contents h (serializedPayload (ch_payload c))
}.

(** The writer at [p] has sent one sample more, [smp]. *)
Definition sent_one v' (p : nat) (o : CommonWriter) (a : nat) (e : RTPSWriter) (smp : sample) : Prop :=
  exists e', simple_at v' p = Some (o, a, e') /\ rw_guid e' = rw_guid e /\ rw_sent e' = rw_sent e ++ [smp].

Lemma find_values_inj {K V} `{StrictWeak K} (m : std_map K V) k1 k2 x :
  NoDup (values m) -> find k1 m = Some x -> find k2 m = Some x -> keqv k1 k2 = true.
Proof.
  intros Hnd (k1' & E1 & [i1 H1]%list_elem_of_lookup_1)%find_elem_of (k2' & E2 & [i2 H2]%list_elem_of_lookup_1)%find_elem_of.
  assert (values m !! i1 = Some x /\ values m !! i2 = Some x) as [Hv1 Hv2]
    by (unfold values; by rewrite !list_lookup_fmap, H1, H2).
  assert (i1 = i2) as -> by (by eapply NoDup_lookup). rewrite H1 in H2. injection H2 as ->.
  eapply keqv_trans; [exact E1|]. by rewrite keqv_sym.
Qed.

(** One write, in the world of the bridge. *)
Lemma write_run w r q ws L H0 p o a e d :
  connected this_pool (rp_world w) r q ws L H0 -> NoDup ws -> p ∈ ws -> simple_at (rp_world w) p = Some (o, a, e) ->
  deliverable (rp_world w) d L -> fits (rp_world w) q ws L 1 ->
  exists smp w', writer_write p d w = ((RETCODE_OK, set_sent_sequence_number (rw_next e) d), w') /\
    same_readers w w' /\ advanced this_pool (rp_world w) (rp_world w') r q ws L H0 1 /\
    sends default_params d (writer_view o (rp_world w)) e smp /\ sent_one (rp_world w') p o a e smp /\
    forall p', p' ∈ ws -> p' <> p -> simple_at (rp_world w') p' = simple_at (rp_world w) p'.
Proof.
  intros Hc Hnd Hp Hs Hdel Hfit.
  destruct (world_write this_pool default_params dta dq default_data default_payload changes_available (rp_world w)
    r q ws L H0 p o a e d Hc Hnd Hp Hs Hdel Hfit)
    as (smp & h & pool & e' & Hrun & Hsend & Hsent & Hg & Hf & Hc1 & Hk & Hr & Hl).
  exists smp, (rp_put (wrote h pool a e' (rp_world w)) w). split_and!; try done.
  - cbn [writer_write comm_world rpc_participants rtps_rpc_world rtps_participants comm_lift].
    unfold on_view_res. by rewrite Hrun.
  - cbn [rp_world rp_put]. split; [done|done|done|lia|lia|by eapply untouched_wrote].
  - exists e'. split_and!; try done. by eapply simple_at_wrote_same.
  - intros p' Hp' Hne. cbn [rp_world rp_put]. eapply wrote_others; [exact Hc|exact Hp|exact Hs|done|done].
Qed.

(** What the writer at [p] has sent after the writes [evs], with the writers [m]. *)
Definition wrote_once (m : std_map ParticipantId nat) (evs : list write_event) v v' (p : nat)
    (o : CommonWriter) (a : nat) (e : RTPSWriter) : Prop :=
  (exists ev smp, ev ∈ evs /\ find (ev_participant ev) m = Some p /\ sent_one v' p o a e smp /\
     sends default_params (ev_sent ev) (writer_view o v) e smp /\ sent_sequence_number (ev_after ev) = rw_next e) \/
  ((forall ev, ev ∈ evs -> find (ev_participant ev) m <> Some p) /\ simple_at v' p = Some (o, a, e)).

Lemma writes_sent m w evs w' r q ws L H0 :
  RPCBridge.writes m w evs w' -> NoDup ws -> (forall id p, find id m = Some p -> p ∈ ws) ->
  NoDup ((fun ev => find (ev_participant ev) m) <$> evs) ->
  connected this_pool (rp_world w) r q ws L H0 -> fits (rp_world w) q ws L (length evs) ->
  Forall (fun ev => deliverable (rp_world w) (ev_sent ev) L) evs ->
  advanced this_pool (rp_world w) (rp_world w') r q ws L H0 (length evs) /\ same_readers w w' /\
  Forall (fun ev => ev_ret ev = RETCODE_OK) evs /\
  forall p o a e, p ∈ ws -> simple_at (rp_world w) p = Some (o, a, e) ->
    wrote_once m evs (rp_world w) (rp_world w') p o a e.
Proof.
  intros Hw Hnd Hin. induction Hw as [w|w ptr ev w1 evs w2 Hf Hw _ IH]; intros Hnde Hc Hfit Hdel.
  { split_and!; try done.
    - destruct Hfit as (? & ? & ?). split; [done|done|apply kept_for_refl|lia|lia|by apply untouched_same].
    - intros p o a e Hp Hs. right. split; [|done]. by intros ev ?%not_elem_of_nil. }
  assert (ptr ∈ ws) as Hptr by (by eapply Hin). apply Forall_cons in Hdel as [Hd Hdel].
  cbn [fmap list_fmap] in Hnde. apply NoDup_cons in Hnde as [Hnew Hnde]. rewrite Hf in Hnew.
  destruct (ready_at _ _ _ (cn_writers _ _ _ _ _ _ _ Hc) Hptr) as (o0 & a0 & e0 & Hs0).
  destruct (write_run w r q ws L H0 ptr o0 a0 e0 (ev_sent ev) Hc Hnd Hptr Hs0 Hd)
    as (smp & w1' & Hrun & Hsr & Had & Hsend & (e1 & Hs1 & Hg1 & Hsent1) & Hoth).
  { eapply fits_le; [|exact Hfit]. simpl. lia. }
  rewrite Hw in Hrun. injection Hrun as Hret Hafter <-.
  assert (Forall (fun ev => deliverable (rp_world w1) (ev_sent ev) L) evs) as Hdel1
    by (eapply Forall_impl; [exact Hdel|]; intros; by eapply deliverable_kept).
  destruct IH as (Had2 & Hsr2 & Hrets & Hall); try done; [apply Had|by eapply fits_advanced|].
  split_and!.
  - apply (advanced_trans _ _ _ _ _ _ _ _ _ 1 (length evs) Had Had2).
  - destruct Hsr, Hsr2. split; congruence.
  - by constructor.
  - intros p o a e Hp Hs. destruct (decide (p = ptr)) as [->|Hne].
    + rewrite Hs in Hs0. injection Hs0 as <- <- <-. left. exists ev, smp.
      destruct (Hall ptr o a e1 Hp Hs1) as [(ev' & smp' & Hev' & Hf' & _)|[_ Hs2]].
      { exfalso. apply Hnew. apply list_elem_of_fmap. by exists ev'. }
      split_and!; [by left|done|by exists e1|done|by rewrite Hafter].
    + rewrite <- (Hoth p Hp Hne) in Hs.
      destruct (Hall p o a e Hp Hs) as [(ev' & smp' & Hev' & Hf' & Hone & Hsd & Hn)|[Hnone Hs2]].
      * left. exists ev', smp'. split_and!; [by right|done|done| |done].
        rewrite Forall_forall in Hdel. eapply sends_kept; [exact Had|by apply Hdel|done|exact Hsd].
      * right. split; [|done]. intros ev' [->|Hev']%elem_of_cons; [congruence|by apply Hnone].
Qed.

(** The change [c] is the next one of the reader [r] of the bridge [b]: the reader accepts it,
    it has a message, and there is room for what the bridge does with it. *)
Record next_change (b : RPCBridge) w (r : nat) (c : Change) (q : list Change) (L : list nat) (H0 : gset nat)
    (ro : CommonReader) : Prop := {
  nx_maps : rpc_maps b;
  nx_enabled : r_enabled_ b = true;
  nx_writers : NoDup (writers_of b);
  nx_connected : connected this_pool (rp_world w) r (c :: q) (writers_of b) L H0;
  nx_room : fits (rp_world w) (c :: q) (writers_of b) L (S (length (service_registries_ b)));
  nx_reader : wd_readers (rp_world w) !! r = Some ro;
  nx_acceptable : acceptable (br_topic_ (cr_base ro)) c;
  nx_message : (0 < payload_length (serializedPayload (ch_payload c)))%Z
}.

(** The guids of all the readers stay. *)
Lemma untouched_guid w w' r q ws L H0 rr :
  connected this_pool (rp_world w) r q ws L H0 ->
  same_objects (rp_world w) (rp_world w') -> untouched (rp_world w) (rp_world w') r ws ->
  reader_guid rr w' = reader_guid rr w.
Proof.
  intros [(o & a & e & Ho & _ & Ha & He & _) _ _ _ _] [_ Hobj] [_ Hr Hg].
  rewrite !reader_guid_at. unfold reader_at. rewrite Hobj.
  destruct (wd_readers (rp_world w) !! rr) as [o'|]; [|done]. simpl. destruct (rtps_reader_ o') as [a'|]; [|done]. simpl.
  destruct (wd_rtps_readers (rp_world w) !! a') as [e'|] eqn:He'; simpl.
  - by destruct (Hg a' e' He') as (e2 & -> & E).
  - rewrite Hr; [by rewrite He'|]. intros o2 Ho2 Ha2. congruence.
Qed.

(** What the bridge has in hand once the change is taken. *)
Record took w w1 (r : nat) (c : Change) (q : list Change) (ws L : list nat) (H0 : gset nat) (ro : CommonReader)
    (d : DataReceived) (x : nat) : Prop := {
  tk_connected : connected this_pool (rp_world w1) r q ws (x :: L) H0;
  tk_objects : same_objects (rp_world w) (rp_world w1);
  tk_entities : wd_rtps_writers (rp_world w1) = wd_rtps_writers (rp_world w);
  tk_participants : rp_participants w1 = rp_participants w;
  tk_guids : forall rr, reader_guid rr w1 = reader_guid rr w;
  tk_received : received (reader_view ro (rp_world w)) c (properties default_data) (properties d);
  tk_hand : in_hand (rp_world w1) (Some (payload d)) L (x :: L);
  tk_contents : contents (wd_heap (rp_world w1)) (payload d) =
    contents (wd_heap (rp_world w)) (serializedPayload (ch_payload c))
}.

Lemma take_run b w r c q L H0 ro :
  next_change b w r c q L H0 ro ->
  exists d w1 x, reader_take r new_data w = ((RETCODE_OK, d), w1) /\
    took w w1 r c q (writers_of b) L H0 ro d x /\
    fits (rp_world w1) q (writers_of b) (x :: L) (length (service_registries_ b)).
Proof.
  intros [Hm Hen Hnd Hc Hfit Hro Hacc Hpos].
  destruct (world_take this_pool default_params dta dq default_data default_payload (rp_world w) r c q _ L H0 ro Hc)
    as (ret & d & v1 & Htake & Hobj & Hent & Hun & Hk & Hr & Htk); [by eapply fits_le; [|exact Hfit]; lia|done|].
  destruct Htk as [(? & _)|(_ & -> & Hrec & L' & Hc1 & Hl & Hp)]; [done|].
  rewrite decide_True in Hp by done. destruct Hp as (x & Hx & -> & Hv & Hcont).
  exists d, (rp_put v1 w), x. split; [|split].
  - cbn [reader_take new_data comm_world rpc_participants rtps_rpc_world rtps_participants comm_lift].
    unfold on_view_res. by rewrite Htake.
  - split; try done.
    + intros rr. by eapply untouched_guid.
    + exists x. split_and!; try done. by eapply (taken_length this_pool (rp_world w) v1); [eapply change_of_reader|..].
  - by eapply fits_step; [| |exact Hfit].
Qed.

Lemma took_simple w w1 r c q ws L H0 ro d x p :
  took w w1 r c q ws L H0 ro d x -> simple_at (rp_world w1) p = simple_at (rp_world w) p.
Proof. intros [_ [Ho _] He _ _ _ _ _]. unfold simple_at. by rewrite Ho, He. Qed.

(** The writers after the payload went back to the pool. *)
Lemma payload_release_run w r q ws x L H0 p :
  connected this_pool (rp_world w) r q ws (x :: L) H0 -> payload_data p = Some x ->
  (Z.of_nat (load (rp_world w) q ws (x :: L)) < 2 ^ 32)%Z ->
  connected this_pool (rp_world (pool_release p w).2) r q ws L H0 /\
  same_objects (rp_world w) (rp_world (pool_release p w).2) /\
  forall p', simple_at (rp_world (pool_release p w).2) p' = simple_at (rp_world w) p'.
Proof.
  intros Hc Hx Hl.
  destruct (world_release this_pool default_params dta dq default_data (rp_world w) r q ws x L H0 p Hc Hx Hl)
    as (h & pool & Hrun & Hc1 & _).
  assert ((pool_release p w).2 = rp_put (wd_set_memory h pool (rp_world w)) w) as ->; [|done].
  cbn [pool_release comm_world rpc_participants rtps_rpc_world rtps_participants comm_lift].
  unfold on_view_res. rewrite <- Hrun. by destruct (pool_release p (rp_world w)).
Qed.

(** A sample that goes out of the data taken carries the change it was taken from. *)
Lemma sends_carries w w1 r c q ws L H0 ro d x d1 o e smp :
  took w w1 r c q ws L H0 ro d x -> payload d1 = payload d ->
  properties d1 = set_write_params (write_params (properties d1)) (properties d) ->
  sends default_params d1 (writer_view o (rp_world w1)) e smp ->
  carries (wd_heap (rp_world w)) c e smp.
Proof.
  intros [_ _ _ _ _ [Rs Rt Rr Rk Rn _ _ _] (x' & _ & _ & _ & Hpos) Hcont] Hp Hprop [[F1 F2 F3 F4 _ _ _] Hmsg].
  rewrite Hprop in F3, F4. cbn in F3, F4. split; try done; [congruence..|].
  rewrite Hmsg. unfold message_of. by rewrite Hp, decide_True.
Qed.

(** One turn of the loop, up to what is done with the data. *)
Lemma turn_run b w r c q L H0 ro :
  next_change b w r c q L H0 ro ->
  exists d w1 x, took w w1 r c q (writers_of b) L H0 ro d x /\
    fits (rp_world w1) q (writers_of b) (x :: L) (length (service_registries_ b)) /\
    forall fuel d2 b2 w2, process_data r d (b, w1) = (Ok d2, (b2, w2)) ->
      rpc_transmit (S fuel) r (b, w) = rpc_transmit fuel r (b2, (pool_release (payload d2) w2).2).
Proof.
  intros Hn. destruct (take_run _ _ _ _ _ _ _ _ Hn) as (d & w1 & x & Htake & Htk & Hfit). exists d, w1, x.
  split_and!; [done..|]. intros fuel d2 b2 w2 Hrun. destruct Hn as [_ Hen _ Hc _ _ _ _].
  eapply transmit_taken; [done| |exact Htake|by rewrite ret_not_ok|exact Hrun].
  rewrite (connected_unread _ _ _ _ _ _ Hc). simpl. lia.
Qed.

(** The loop ends, with the flag of the task of the reader down. *)
Definition task_done (g : Guid) (b : RPCBridge) : RPCBridge :=
  r_set_tasks (subscript (false, 0) (fun t => (false, t.2)) g (tasks_map_ b)) b.

Lemma transmit_done fuel b w r ws L H0 :
  connected this_pool (rp_world w) r [] ws L H0 ->
  rpc_transmit (S fuel) r (b, w) = (Ok true, (task_done (reader_guid r w) b, w)).
Proof.
  intros Hc. cbn [rpc_transmit]. run_prog. rewrite (connected_unread _ _ _ _ _ _ Hc). cbn [length Z.of_nat].
  by rewrite orb_true_r.
Qed.

Lemma took_params w w1 r c q ws L H0 ro d x :
  took w w1 r c q ws L H0 ro d x -> params_of d = ch_write_params c /\ reply_identity d = request_identity c.
Proof.
  intros [_ _ _ _ _ [_ _ _ _ Rn [_ Rp] _ _] _ _]. unfold reply_identity, request_identity, params_of. by rewrite Rp, Rn.
Qed.

Lemma took_goes_to b w w1 r c q ws L H0 ro d x rcv id :
  took w w1 r c q ws L H0 ro d x -> goes_to b w1 rcv id = goes_to b w rcv id.
Proof.
  intros Htk. unfold goes_to. by rewrite (same_participants_repeater id w w1) by apply (tk_participants _ _ _ _ _ _ _ _ _ _ _ Htk).
Qed.

Lemma writers_split b :
  NoDup (writers_of b) -> NoDup (values (request_writers_ b)) /\
  forall id id' p, find id (request_writers_ b) = Some p -> find id' (reply_writers_ b) <> Some p.
Proof.
  intros (Hnd & Hdis & _)%NoDup_app. split; [done|]. intros id id' p H1 H2.
  apply find_elem_of in H1 as (k1 & _ & H1), H2 as (k2 & _ & H2).
  apply (Hdis p); unfold values; apply list_elem_of_fmap; by eexists (_, _).
Qed.

(** What became of the request [c] in the participant [id]: sent once, with the address of
    the proxy client there, and remembered in its registry; or nothing. *)
Definition request_outcome (b : RPCBridge) w (c : Change) (rcv : ParticipantId) v'
    (m : std_map ParticipantId ServiceRegistry) (id : ParticipantId) : Prop :=
  forall reg p o a e, find id (service_registries_ b) = Some reg -> find id (request_writers_ b) = Some p ->
    simple_at (rp_world w) p = Some (o, a, e) ->
    if goes_to b w rcv id then
      exists smp rr, find id (reply_readers_ b) = Some rr /\ sent_one v' p o a e smp /\
        carries (wd_heap (rp_world w)) c e smp /\
        writer_guid (related_sample_identity (ch_write_params smp.1)) = reader_guid rr w /\
        find id m = Some (registry_add (rw_next e) (rcv, request_identity c) reg)
    else simple_at v' p = Some (o, a, e) /\ find id m = Some reg.

Lemma record_all_out identity evs m id :
  id ∉ ev_participant <$> evs -> find id (fold_left (record_event identity) evs m) = find id m.
Proof.
  revert m. induction evs as [|ev evs IH]; intros m Hn; [done|]. cbn [fold_left fmap list_fmap] in *.
  rewrite IH by set_solver. unfold record_event. destruct (ret_not _); [done|]. rewrite find_update.
  by rewrite ParticipantId_keqv_ne by set_solver.
Qed.

Lemma pointers_distinct (m : std_map ParticipantId nat) evs :
  NoDup (values m) -> NoDup (ev_participant <$> evs) ->
  Forall (fun ev => is_Some (find (ev_participant ev) m)) evs ->
  NoDup ((fun ev => find (ev_participant ev) m) <$> evs).
Proof.
  intros Hv Hnd Hall. assert ((fun ev => find (ev_participant ev) m) <$> evs = (fun id => find id m) <$> (ev_participant <$> evs)) as ->
    by (by rewrite <- list_fmap_compose).
  assert (Forall (fun id => is_Some (find id m)) (ev_participant <$> evs)) as Hall' by (by apply Forall_fmap).
  clear Hall. revert Hnd Hall'.
  generalize (ev_participant <$> evs). intros l Hnd. induction Hnd as [|id l Hn Hnd IH]; intros Hall; [constructor|].
  apply Forall_cons in Hall as [[p Hp] Hall]. cbn [fmap list_fmap]. constructor; [|by apply IH].
  intros (id' & E & Hin)%list_elem_of_fmap. rewrite Hp in E. symmetry in E.
  pose proof (find_values_inj m id id' p Hv Hp E) as Hk%ParticipantId_keqv. by subst.
Qed.

Lemma outcome_of b w w1 v2 r c q L H0 ro d x evs id :
  let rcv := br_participant_id_ (cr_base ro) in
  rpc_maps b -> NoDup (writers_of b) -> took w w1 r c q (writers_of b) L H0 ro d x ->
  ev_participant <$> evs = List.filter (goes_to b w1 rcv) (keys (service_registries_ b)) ->
  (forall ev, ev ∈ evs -> addressed b w1 d ev) -> Forall (fun ev => ev_ret ev = RETCODE_OK) evs ->
  (forall p o a e, p ∈ writers_of b -> simple_at (rp_world w1) p = Some (o, a, e) ->
     wrote_once (request_writers_ b) evs (rp_world w1) v2 p o a e) ->
  request_outcome b w c rcv v2 (fold_left (record_event (request_identity c)) evs (service_registries_ b)) id.
Proof.
  intros rcv Hm Hnd Htk Hparts Hall Hrets Honce reg p o a e Hreg Hp Hs.
  rewrite <- (took_simple _ _ _ _ _ _ _ _ _ _ _ p Htk) in Hs.
  rewrite <- (took_goes_to b _ _ _ _ _ _ _ _ _ _ _ rcv id Htk).
  assert (forall ev, find (ev_participant ev) (request_writers_ b) = Some p -> ev_participant ev = id) as Hinj.
  { intros ev Hf. apply ParticipantId_keqv. eapply find_values_inj; [|done..]. by apply writers_split. }
  assert (goes_to b w1 rcv id = true <-> id ∈ ev_participant <$> evs) as Hgo.
  { rewrite Hparts, list_elem_of_In, List.filter_In. split; [|by intros [_ ?]]. intros Hg. split; [|done].
    apply list_elem_of_In. apply find_elem_of in Hreg as (k & Hk%ParticipantId_keqv & Hin).
    apply elem_of_keys. subst. by exists reg. }
  destruct (Honce p o a e) as [(ev & smp & Hev & Hf & Hone & Hsd & Hsn)|[Hnone Hs2]]; [by eapply writers_of_bridge; left|done|..].
  - specialize (Hinj ev Hf). subst id. rewrite (proj2 Hgo) by (by apply list_elem_of_fmap_2).
    destruct (Hall ev Hev) as (rr & Hrr & Hguid & Hset & _ & Hrec & Hpay & Hprop). exists smp, rr. split_and!; try done.
    + by eapply sends_carries.
    + destruct Hsd as [[_ _ _ _ F5 _ _] _]. rewrite F5, Hset. unfold params_of in Hguid. rewrite Hguid.
      apply (tk_guids _ _ _ _ _ _ _ _ _ _ _ Htk).
    + rewrite <- Hsn. assert (rcv = participant_receiver (properties (ev_sent ev))) as ->.
      { rewrite Hrec. symmetry. apply (rec_receiver _ _ _ _ (tk_received _ _ _ _ _ _ _ _ _ _ _ Htk)). }
      rewrite Forall_forall in Hrets. apply record_all_find; [|done| |done].
      * rewrite Hparts. apply NoDup_ListNoDup, List.NoDup_filter, NoDup_ListNoDup, keys_NoDup, Hm.
      * by rewrite (Hrets ev Hev), ret_not_ok.
  - assert (id ∉ ev_participant <$> evs) as Hout.
    { intros (ev & -> & Hev)%list_elem_of_fmap. by apply (Hnone ev Hev). }
    rewrite (not_true_is_false (goes_to b w1 rcv id)) by (by rewrite Hgo). split; [done|]. by rewrite record_all_out.
Qed.

(** The writes a request leads to. *)
Lemma request_run b w w1 r c q L H0 ro d x :
  let rcv := br_participant_id_ (cr_base ro) in
  rpc_maps b -> NoDup (writers_of b) -> wd_readers (rp_world w) !! r = Some ro ->
  took w w1 r c q (writers_of b) L H0 ro d x ->
  fits (rp_world w1) q (writers_of b) (x :: L) (length (service_registries_ b)) ->
  is_request_topic (br_topic_ (cr_base ro)) = true -> request_identity c <> sample_identity_unknown ->
  exists evs d2 w2,
    process_data r d (b, w1) = (Ok d2,
      (r_set_registries (fold_left (record_event (request_identity c)) evs (service_registries_ b)) b, w2)) /\
    payload d2 = payload d /\ length evs <= length (service_registries_ b) /\
    ev_participant <$> evs = List.filter (goes_to b w1 rcv) (keys (service_registries_ b)) /\
    (forall ev, ev ∈ evs -> addressed b w1 d ev) /\ Forall (fun ev => ev_ret ev = RETCODE_OK) evs /\
    advanced this_pool (rp_world w1) (rp_world w2) r q (writers_of b) (x :: L) H0 (length evs) /\
    forall p o a e, p ∈ writers_of b -> simple_at (rp_world w1) p = Some (o, a, e) ->
      wrote_once (request_writers_ b) evs (rp_world w1) (rp_world w2) p o a e.
Proof.
  intros rcv Hm Hnd Hro Htk Hfit Hreq Hid. pose proof (took_params _ _ _ _ _ _ _ _ _ _ _ Htk) as [_ Hrid].
  destruct (tk_hand _ _ _ _ _ _ _ _ _ _ _ Htk) as (x' & Hx & [= <-] & Hv & _).
  destruct (forward_request_spec (reply_identity d) (keys (service_registries_ b)) d b w1)
    as (evs & d2 & w2 & Hrun & Hw & Hparts & Hall & Hpay).
  { intros id Hin. split; [by apply elem_of_keys_find; [apply Hm|]|apply Hm]. }
  rewrite Hrid in Hrun. rewrite (rec_receiver _ _ _ _ (tk_received _ _ _ _ _ _ _ _ _ _ _ Htk)) in Hparts.
  rewrite Forall_forall in Hall.
  assert (Forall (fun ev => is_Some (find (ev_participant ev) (request_writers_ b))) evs) as Hptrs.
  { apply Forall_forall. intros ev Hev.
    assert (ev_participant ev ∈ ev_participant <$> evs) as Hp by (by apply list_elem_of_fmap_2).
    rewrite Hparts in Hp. apply list_elem_of_In, List.filter_In in Hp as [Hp%list_elem_of_In _].
    apply (rm_clients _ Hm). by apply elem_of_keys_find; [apply Hm|]. }
  assert (length evs <= length (service_registries_ b)) as Hlen.
  { rewrite <- (length_fmap ev_participant), Hparts. etransitivity; [apply List.filter_length_le|].
    unfold keys. by rewrite length_fmap. }
  destruct (writes_sent _ _ _ _ r q (writers_of b) (x :: L) H0 Hw Hnd) as (Had & _ & Hrets & Honce).
  { intros id p Hf. by eapply writers_of_bridge; left. }
  { apply pointers_distinct; [by apply writers_split| |done].
    rewrite Hparts. apply NoDup_ListNoDup, List.NoDup_filter, NoDup_ListNoDup, keys_NoDup, Hm. }
  { apply Htk. }
  { by eapply fits_le. }
  { apply Forall_forall. intros ev Hev. destruct (Hall ev Hev) as (rr & _ & _ & _ & _ & _ & E & _). intros _.
    rewrite E. exists x. split_and!; [done|by left|done]. }
  exists evs, d2, w2. split; [|by split_and!].
  unfold process_data. rewrite (bind_ok get _ _ (b, w1) (b, w1)) by done. cbn [fst snd]. cbv zeta.
  rewrite topic_at, (proj2 (tk_objects _ _ _ _ _ _ _ _ _ _ _ Htk)), Hro, Hreq.
  unfold process_request. rewrite Hrid, bool_decide_false by done. exact Hrun.
Qed.

Lemma same_objects_trans v1 v2 v3 : same_objects v1 v2 -> same_objects v2 v3 -> same_objects v1 v3.
Proof. intros [] []. split; congruence. Qed.

Lemma request_turn b w r c q L H0 ro :
  next_change b w r c q L H0 ro -> is_request_topic (br_topic_ (cr_base ro)) = true ->
  request_identity c <> sample_identity_unknown ->
  let rcv := br_participant_id_ (cr_base ro) in
  exists m w', (forall fuel, rpc_transmit (S fuel) r (b, w) = rpc_transmit fuel r (r_set_registries m b, w')) /\
    connected this_pool (rp_world w') r q (writers_of b) L H0 /\ same_objects (rp_world w) (rp_world w') /\
    keys m = keys (service_registries_ b) /\ (forall id, request_outcome b w c rcv (rp_world w') m id) /\
    forall id p o a e, find id (reply_writers_ b) = Some p -> simple_at (rp_world w) p = Some (o, a, e) ->
      simple_at (rp_world w') p = Some (o, a, e).
Proof.
  intros Hn Hreq Hid rcv. destruct (turn_run _ _ _ _ _ _ _ _ Hn) as (d & w1 & x & Htk & Hfit & Hturn).
  pose proof Hn as [Hm _ Hnd _ _ Hro _ _].
  destruct (request_run b w w1 r c q L H0 ro d x Hm Hnd Hro Htk Hfit Hreq Hid)
    as (evs & d2 & w2 & Hproc & Hpay & Hlen & Hparts & Hall & Hrets & Had & Honce).
  destruct (tk_hand _ _ _ _ _ _ _ _ _ _ _ Htk) as (x' & Hx & [= <-] & _).
  destruct (payload_release_run w2 r q (writers_of b) x L H0 (payload d2)) as (Hc3 & Hobj3 & Hs3).
  { apply Had. } { by rewrite Hpay. }
  { destruct Had as [_ _ _ _ Hl _]. destruct Hfit as (_ & _ & F2). lia. }
  eexists _, (pool_release (payload d2) w2).2. split; [intros fuel; by apply Hturn|]. split; [done|].
  split; [eapply same_objects_trans; [apply Htk|]; eapply same_objects_trans; [apply Had|done]|].
  split; [apply record_all_keys|]. split.
  - intros id reg p o a e Hreg Hp Hs.
    pose proof (outcome_of b w w1 (rp_world w2) r c q L H0 ro d x evs id Hm Hnd Htk Hparts Hall Hrets Honce reg p o a e Hreg Hp Hs) as Ho.
    fold rcv in Ho. destruct (goes_to b w rcv id); [|by rewrite Hs3].
    destruct Ho as (smp & rr & Hrr & (e' & He' & Hsent) & Hrest). exists smp, rr. split; [done|]. split; [|done].
    exists e'. by rewrite Hs3.
  - intros id p o a e Hf Hs. rewrite Hs3. rewrite <- (took_simple _ _ _ _ _ _ _ _ _ _ _ p Htk) in Hs.
    destruct (Honce p o a e) as [(ev & smp & _ & Hf' & _)|[_ ?]]; [by eapply writers_of_bridge; right|done| |done].
    destruct (proj2 (writers_split b Hnd) _ _ _ Hf' Hf).
Qed.

(** A reply to the proxy client: sent once, to the requester, and nowhere else. *)
Lemma reply_turn b w r c q L H0 ro reg requester request p o a e :
  next_change b w r c q L H0 ro ->
  is_request_topic (br_topic_ (cr_base ro)) = false -> is_reply_topic (br_topic_ (cr_base ro)) = true ->
  writer_guid (sample_identity (ch_write_params c)) = reader_guid r w ->
  find (br_participant_id_ (cr_base ro)) (service_registries_ b) = Some reg ->
  registry_get (sequence_number (sample_identity (ch_write_params c))) reg = (requester, request) ->
  ParticipantId_is_valid requester = true -> find requester (reply_writers_ b) = Some p ->
  simple_at (rp_world w) p = Some (o, a, e) ->
  let sn := sequence_number (sample_identity (ch_write_params c)) in
  exists w' smp, (forall fuel, rpc_transmit (S fuel) r (b, w) = rpc_transmit fuel r
      (r_set_registries (update (registry_erase sn) (br_participant_id_ (cr_base ro)) (service_registries_ b)) b, w')) /\
    connected this_pool (rp_world w') r q (writers_of b) L H0 /\ same_objects (rp_world w) (rp_world w') /\
    sent_one (rp_world w') p o a e smp /\ carries (wd_heap (rp_world w)) c e smp /\
    related_sample_identity (ch_write_params smp.1) = request /\
    forall p', p' ∈ writers_of b -> p' <> p -> simple_at (rp_world w') p' = simple_at (rp_world w) p'.
Proof.
  intros Hn Hreq Hrep Hg Hreg Hget Hval Hp Hs sn.
  destruct (turn_run _ _ _ _ _ _ _ _ Hn) as (d & w1 & x & Htk & Hfit & Hturn).
  pose proof Hn as [Hm _ Hnd _ _ Hro _ _]. pose proof (took_params _ _ _ _ _ _ _ _ _ _ _ Htk) as [Hpar _].
  pose proof (tk_objects _ _ _ _ _ _ _ _ _ _ _ Htk) as [_ Hro1].
  destruct (tk_hand _ _ _ _ _ _ _ _ _ _ _ Htk) as (x' & Hx & [= <-] & Hv & Hpos).
  rewrite <- (took_simple _ _ _ _ _ _ _ _ _ _ _ p Htk) in Hs.
  assert (reader_participant_id r w1 = br_participant_id_ (cr_base ro)) as Hpid by (by rewrite participant_at, Hro1, Hro).
  pose proof (process_reply_spec r d b w1 reg requester request) as Hspec. rewrite Hpid, Hpar in Hspec.
  specialize (Hspec Hreg Hget (fun _ => ex_intro _ p Hp)). rewrite Hval, bool_decide_true in Hspec
    by (rewrite Hg; symmetry; apply (tk_guids _ _ _ _ _ _ _ _ _ _ _ Htk)).
  destruct Hspec as (ptr & ret & d2 & w2 & Hptr & Hw & Hrun). rewrite Hp in Hptr. injection Hptr as <-.
  pose proof (set_related_spec (fun _ => request) d) as (Hrel & Hset & _ & Hpd & Hprop). set (d1 := set_related _ d) in *.
  assert (p ∈ writers_of b) as Hin by (by eapply writers_of_bridge; right).
  assert (1 <= length (service_registries_ b)) as Hone by (destruct (service_registries_ b); [done|simpl; lia]).
  destruct (write_run w1 r q (writers_of b) (x :: L) H0 p o a e d1 (tk_connected _ _ _ _ _ _ _ _ _ _ _ Htk) Hnd Hin Hs)
    as (smp & w2' & Hrunw & _ & Had & Hsd & Hsent & Hoth).
  { intros _. rewrite Hpd. exists x. split_and!; [done|by left|done]. } { by eapply fits_le. }
  rewrite Hw in Hrunw. injection Hrunw as -> -> <-. rewrite ret_not_ok in Hrun.
  destruct (payload_release_run w2 r q (writers_of b) x L H0 (payload d1)) as (Hc3 & Hobj3 & Hs3); [apply Had|by rewrite Hpd| |].
  { destruct Had as [_ _ _ _ Hl _]. destruct Hfit as (_ & _ & F2). lia. }
  exists (pool_release (payload d1) w2).2, smp. split_and!.
  - intros fuel. eapply (Hturn fuel (set_sent_sequence_number (rw_next e) d1)). unfold process_data. rewrite (bind_ok get _ _ (b, w1) (b, w1)) by done. cbn [fst snd]. cbv zeta.
    rewrite topic_at, Hro1, Hro, Hreq, Hrep. exact Hrun.
  - done.
  - eapply same_objects_trans; [apply Htk|]. eapply same_objects_trans; [apply Had|done].
  - destruct Hsent as (e' & He' & ?). exists e'. by rewrite Hs3.
  - by eapply sends_carries.
  - destruct Hsd as [[_ _ _ _ F5 _ _] _]. rewrite F5, Hset. unfold params_of in Hrel. by rewrite Hrel.
  - intros p' Hp' Hne. rewrite Hs3, Hoth by done. by eapply took_simple.
Qed.

(** ** Properties *)

(** C31: the loop of a service ends over RTPS.  A reader of the bridge has the changes [q],
    each of them refused by the reader or with a message, and the writers of the bridge
    work: [transmit_] returns within one turn more than there are changes, with no
    exception nor undefined behaviour; the flag of the task of the reader is down, so
    that the next change emits it again; and if the bridge was enabled no change is left
    and the pool holds exactly what the histories of the writers keep and what others had. *)
Theorem rpc_rtps_returns {FL : @FastDDSLaws FD} r b w q L H0 ro :
  transmitting r b w -> NoDup (writers_of b) ->
  connected this_pool (rp_world w) r q (writers_of b) L H0 -> wd_readers (rp_world w) !! r = Some ro ->
  all_filled ro q -> fits (rp_world w) q (writers_of b) L (length q * S (length (service_registries_ b))) ->
  exists b' w', rpc_transmit (S (length q)) r (b, w) = (Ok true, (b', w')) /\
    fst <$> find (reader_guid r w) (tasks_map_ b') = Some false /\ r_enabled_ b' = r_enabled_ b /\
    wd_aborted (rp_world w') = None /\
    (r_enabled_ b = true -> connected this_pool (rp_world w') r [] (writers_of b) L H0).
Proof.
  intros Ht Hnd Hc Hro Hf Hfit.
  destruct (rpc_transmit_returns (RP := rtps_rpc_progress L H0) (writers_of b) (length q) r b w Ht (writers_of_bridge b))
    as (b' & w' & Hrun & Hflag & Hen & Hun & Hcalm).
  { by rewrite (connected_unread _ _ _ _ _ _ Hc). }
  { split; [done|]. by exists q, L, ro. }
  destruct Hcalm as (_ & q' & L' & ro' & Hc' & _ & _ & _ & HL). simpl in HL. subst L'.
  exists b', w'. split_and!; try done; [apply Hc'|]. intros He. specialize (Hun He).
  rewrite (connected_unread _ _ _ _ _ _ Hc') in Hun. destruct q'; [done|]. simpl in Hun. lia.
Qed.

(** The same bridge, but for what its registries remember and the flags of its tasks. *)
Definition same_bridge (b b' : RPCBridge) : Prop :=
  exists m t, keys m = keys (service_registries_ b) /\ b' = r_set_tasks t (r_set_registries m b).

Lemma same_bridge_spec b b' : same_bridge b b' ->
  r_enabled_ b' = r_enabled_ b /\ writers_of b' = writers_of b /\
  length (service_registries_ b') = length (service_registries_ b).
Proof.
  intros (m & t & Hk & ->). split_and!; try done. cbn. rewrite <- (length_fmap fst m). change (length (keys m) = length (service_registries_ b)).
  rewrite Hk. unfold keys. apply length_fmap.
Qed.

(** C5: a call over the network.  The bridge is enabled and its writers are [SimpleWriter]s
    (the topics of the service have neither partitions nor ownership).  The request [c] of
    a client waits in the reader of the participant [rcv].  [transmit_] ends having sent it in every participant whose registry
    is enabled and that has to get it, once, with the client's message and the address of
    the proxy client there, and nothing in the others.  And for every sample [smp] so sent
    under a number that the registry, with room left, did not have: whatever happens
    meanwhile in the rest of the world, when the change [c1], an answer to [smp], waits in
    the reader of that proxy client, [transmit_] ends having sent it in [rcv] and nowhere
    else, once, with the server's message, as the answer to the request as the client sent
    it.  Each time the payload goes back to the pool. *)
Theorem rpc_rtps_roundtrip r b w c L H0 ro :
  let rcv := br_participant_id_ (cr_base ro) in
  next_change b w r c [] L H0 ro -> is_request_topic (br_topic_ (cr_base ro)) = true ->
  request_identity c <> sample_identity_unknown ->
  exists b' w', (forall fuel, 2 <= fuel -> rpc_transmit fuel r (b, w) = (Ok true, (b', w'))) /\
    connected this_pool (rp_world w') r [] (writers_of b) L H0 /\ rpc_maps b' /\ same_bridge b b' /\
    forall id reg p o a e, find id (service_registries_ b) = Some reg -> find id (request_writers_ b) = Some p ->
      simple_at (rp_world w) p = Some (o, a, e) ->
      if goes_to b w rcv id then
        exists smp rr, find id (reply_readers_ b) = Some rr /\ sent_one (rp_world w') p o a e smp /\
          carries (wd_heap (rp_world w)) c e smp /\
          writer_guid (related_sample_identity (ch_write_params smp.1)) = reader_guid rr w /\
          (find (rw_next e) (registry_ reg) = None -> S (length (registry_ reg)) < DEFAULT_MAX_ENTRIES_ ->
           ParticipantId_is_valid rcv = true ->
           forall w1 c1 L1 H1 ro1 p1 o1 a1 e1,
             next_change b' w1 rr c1 [] L1 H1 ro1 -> br_participant_id_ (cr_base ro1) = id ->
             reader_guid rr w1 = reader_guid rr w ->
             is_request_topic (br_topic_ (cr_base ro1)) = false -> is_reply_topic (br_topic_ (cr_base ro1)) = true ->
             sample_identity (ch_write_params c1) = answer_identity smp ->
             find rcv (reply_writers_ b) = Some p1 -> simple_at (rp_world w1) p1 = Some (o1, a1, e1) ->
             exists b2 w2 smp1,
               (forall fuel, 2 <= fuel -> rpc_transmit fuel rr (b', w1) = (Ok true, (b2, w2))) /\
               connected this_pool (rp_world w2) rr [] (writers_of b) L1 H1 /\
               sent_one (rp_world w2) p1 o1 a1 e1 smp1 /\ carries (wd_heap (rp_world w1)) c1 e1 smp1 /\
               related_sample_identity (ch_write_params smp1.1) = request_identity c /\
               forall p', p' ∈ writers_of b -> p' <> p1 -> simple_at (rp_world w2) p' = simple_at (rp_world w1) p')
      else simple_at (rp_world w') p = Some (o, a, e).
Proof.
  intros rcv Hn Hreq Hid. destruct (request_turn b w r c [] L H0 ro Hn Hreq Hid) as (m & w' & Hrun & Hc & _ & Hk & Hout & _).
  set (b' := task_done (reader_guid r w') (r_set_registries m b)). exists b', w'.
  assert (forall fuel, 2 <= fuel -> rpc_transmit fuel r (b, w) = (Ok true, (b', w'))) as Hrun2.
  { intros [|[|fuel]] Hf; [lia|lia|]. rewrite Hrun. by eapply transmit_done. }
  split; [done|]. split; [done|]. split; [|split; [by exists m; eexists|]].
  { pose proof (rpc_transmit_maps 2 r (b, w) (nx_maps _ _ _ _ _ _ _ _ Hn)) as Hm. unfold exec in Hm.
    by rewrite Hrun2 in Hm. }
  intros id reg p o a e Hreg Hp Hs. specialize (Hout id reg p o a e Hreg Hp Hs). fold rcv in Hout.
  destruct (goes_to b w rcv id); [|by destruct Hout].
  destruct Hout as (smp & rr & Hrr & Hsent & Hcy & Hg & Hm'). exists smp, rr. split_and!; try done.
  intros Hfresh Hroom Hval w1 c1 L1 H1 ro1 p1 o1 a1 e1 Hn1 Hpid Hg1 Hnreq Hrep Hans Hp1 Hs1.
  assert (registry_wf reg) as Hwf by (by eapply (rm_bounded b); [apply Hn|]).
  destruct (reply_turn b' w1 rr c1 [] L1 H1 ro1 (registry_add (rw_next e) (rcv, request_identity c) reg)
    rcv (request_identity c) p1 o1 a1 e1) as (w2 & smp1 & Hrun1 & Hc1 & _ & Hsent1 & Hcy1 & Hrel1 & Hoth1); try done.
  - by rewrite Hans, Hg1.
  - by rewrite Hpid.
  - rewrite Hans. unfold answer_identity. cbn [sequence_number]. rewrite (cy_number _ _ _ _ Hcy).
    by apply registry_add_fresh.
  - eexists _, w2, smp1. split; [|by split_and!].
    intros [|[|fuel]] Hf; [lia|lia|]. rewrite Hrun1. by eapply transmit_done.
Qed.

End RtpsRpc.

(** ** Changes without a message *)
Section Empty.
Context {CU : CppUtils} {CL : CppUtilsLaws} {FD : FastDDS} {DQ : DBQueueOps} {C : Type}.
Context {RR : RtpsReaders} {RL : RtpsReadersLaws} {RW : RtpsWriters} {WL : RtpsWritersLaws}.
Context {MA : Malloc} {ML : MallocLaws} (this_pool : nat).
Context (default_params : SendParams) (dta : TopicAttributes) (dq : EndpointQos) (default_data : DataReceived).
Context (default_payload : payload default_data = Payload_empty).
Let PM : PoolMethods := FastPayloadPool.methods this_pool.
Let PS : PoolSpec this_pool := FastPayloadPoolSpec.fast_pool_spec this_pool.
#[local] Existing Instances PM PS.
Let RPW : RpcWorld (rpworld (C := C)) := rtps_rpc_world this_pool default_params dta dq default_data.
#[local] Existing Instance RPW.

(** What [transmit_] does with a change without a message that its reader accepts, such as
    the disposal of an instance: it gives the payload that the data does not have to
    [FastPayloadPool::release_payload], which dereferences the null pointer.  Here, an
    answer to another client, which is dropped. *)
Theorem rpc_empty_reply_aborts b (w : rpworld (C := C)) r c q L H0 ro :
  r_enabled_ b = true -> connected this_pool (rp_world w) r (c :: q) (writers_of b) L H0 ->
  fits (rp_world w) (c :: q) (writers_of b) L 1 -> wd_readers (rp_world w) !! r = Some ro ->
  acceptable (br_topic_ (cr_base ro)) c -> payload_length (serializedPayload (ch_payload c)) = 0%Z ->
  is_request_topic (br_topic_ (cr_base ro)) = false -> is_reply_topic (br_topic_ (cr_base ro)) = true ->
  writer_guid (sample_identity (ch_write_params c)) <> reader_guid r w ->
  exists w', (forall fuel, rpc_transmit (S fuel) r (b, w) = rpc_transmit fuel r (b, w')) /\
    wd_aborted (rp_world w') = Some UndefinedBehaviour.
Proof.
  intros Hen Hc Hfit Hro Hacc Hlen Hreq Hrep Hg.
  destruct (world_take this_pool default_params dta dq default_data default_payload (rp_world w) r c q _ L H0 ro Hc Hfit Hro)
    as (ret & d & v1 & Htake & Hobj & _ & Hun & _ & _ & Htk).
  destruct Htk as [(? & _)|(_ & -> & Hrec & L' & _ & _ & Hp)]; [done|]. rewrite decide_False in Hp by lia.
  destruct Hp as [Hp _]. set (w1 := rp_put v1 w).
  assert (process_data r d (b, w1) = (Ok d, (b, w1))) as Hproc.
  { unfold process_data. rewrite (bind_ok get _ _ (b, w1) (b, w1)) by done. cbn [fst snd]. cbv zeta.
    assert (reader_topic r w1 = br_topic_ (cr_base ro)) as ->.
    { etransitivity; [apply topic_at|]. cbn. by rewrite (proj2 Hobj), Hro. }
    rewrite Hreq, Hrep. unfold process_reply. rewrite (bind_ok get _ _ (b, w1) (b, w1)) by done. cbn [fst snd].
    rewrite bool_decide_true; [done|]. unfold params_of. rewrite (proj2 (rec_params _ _ _ _ Hrec)).
    assert (reader_guid r w1 = reader_guid r w) as ->; [|done].
    by eapply (untouched_guid this_pool default_params dta dq default_data). }
  exists (pool_release (payload d) w1).2. split.
  - intros fuel. eapply transmit_taken; [done| | |by rewrite ret_not_ok|exact Hproc].
    + assert (get_unread_count r w = Z.of_nat (length (c :: q))) as ->; [|simpl; lia].
      by eapply (connected_unread this_pool default_params dta dq default_data).
    + cbn [reader_take new_data comm_world rpc_participants RPW rtps_rpc_world rtps_participants comm_lift].
      unfold on_view_res. by rewrite Htake.
  - by rewrite Hp.
Qed.

End Empty.

(** ** Witnesses

    The bridge with the participants [a] and [b] of the other witnesses, over RTPS. *)
Section Witnesses.
#[local] Existing Instances Demo.cpp_utils Demo.cpp_utils_laws Demo.fast_dds Demo.fast_dds_laws Demo.dbqueue
  PoolDemo.malloc PoolDemo.malloc_laws ReaderDemo.readers ReaderDemo.readers_laws
  WriterDemo.writers WriterDemo.writers_laws.
#[local] Instance demo_methods : PoolMethods := FastPayloadPool.methods 7.
#[local] Instance demo_spec : PoolSpec 7 := FastPayloadPoolSpec.fast_pool_spec 7.
#[local] Instance demo_rpc : RpcWorld (rpworld (C := unit)) :=
  rtps_rpc_world 7 WriterDemo.default_params WriterDemo.dta WriterDemo.dq demo_default.
#[local] Notation request_topic := (request_topic RpcDemo.service).
#[local] Notation reply_topic := (reply_topic RpcDemo.service).
#[local] Notation pid_a := RpcDemo.pid_a.
#[local] Notation pid_b := RpcDemo.pid_b.

Definition demo_rpc_bridge : RPCBridge := RpcDemo.s3.1.
Definition demo_guid (id : ParticipantId) : Guid := mkGuid [if decide (id = pid_a) then 1%Z else 3%Z] [0%Z].
Definition demo_reader (id : ParticipantId) (t : DdsTopic) (a : nat) : CommonReader :=
  cr_set_entities (Some a) true (cr_set_base (br_set_enabled true (BaseReader_of id t))
    (SimpleReader_of ReaderDemo.dq (demo_guid id) id t)).
Definition demo_writer (id : ParticipantId) (t : DdsTopic) (a : nat) : CommonWriter :=
  cw_set_entities (Some a) true (Some self_data_filter)
    (cw_enable (SimpleWriter_of WriterDemo.dta WriterDemo.dq (demo_guid id) id t false)).
Definition demo_entity (id : ParticipantId) (n : Z) : WriterDemo.dwriter :=
  WriterDemo.mkDW (mkGuid (guidPrefix (demo_guid id)) [n]) [] 1 5 [] (Some self_data_filter).

(** The request reader of [a], at 4, and the reply reader of [b], at 6, with the changes
    [q] and [q'], and the writers of the bridge. *)
Definition demo_rpc_world (t : DdsTopic) (q q' : list Change) : rtps_world (C := unit) :=
  mkRtpsWorld ReaderDemo.memory ReaderDemo.pool
    {[ 30 := (mkGuid [1%Z] [7%Z], q); 31 := (mkGuid [3%Z] [7%Z], q') ]}
    {[ 11 := demo_entity pid_a 11; 13 := demo_entity pid_a 13; 15 := demo_entity pid_b 15; 17 := demo_entity pid_b 17 ]}
    DiscoveryDatabase_new
    {[ 4 := demo_reader pid_a request_topic 30; 6 := demo_reader pid_b t 31 ]}
    {[ 1 := SimpleWriterObj (demo_writer pid_a request_topic 11); 3 := SimpleWriterObj (demo_writer pid_a reply_topic 13);
       5 := SimpleWriterObj (demo_writer pid_b request_topic 15); 7 := SimpleWriterObj (demo_writer pid_b reply_topic 17) ]}
    ∅ [] [] [] None.
Definition demo_rpc_rpworld (t : DdsTopic) (q q' : list Change) : rpworld (C := unit) :=
  mkRPWorld (demo_rpc_world t q q')
    [(pid_a, mkRtpsParticipant (BaseParticipant_of (demo_conf pid_a false)) (demo_guid pid_a));
     (pid_b, mkRtpsParticipant (BaseParticipant_of (demo_conf pid_b false)) (demo_guid pid_b))] 0.

Lemma demo_writers_of : writers_of demo_rpc_bridge = [1; 5; 3; 7].
Proof. vm_compute. reflexivity. Qed.

(** A request of the client 77, and the answer of the server 8 of the other network. *)
Definition demo_change (g : Guid) (i : SampleIdentity) : Change :=
  mkChange g 1%Z 100 ALIVE [] (mkWriteParams i sample_identity_unknown)
    (mkCacheChange (mkPayload (Some 0) 2 2 0) (Some 7)) [].
Definition demo_request : Change :=
  demo_change (mkGuid [77%Z] [3%Z]) (mkSampleIdentity (mkGuid [77%Z] [2%Z]) 5%Z).
Definition demo_answer : Change :=
  demo_change (mkGuid [8%Z] [3%Z]) (mkSampleIdentity (mkGuid [3%Z] [7%Z]) 1%Z).
Definition demo_disposal : Change :=
  mkChange (mkGuid [8%Z] [3%Z]) 2%Z 100 NOT_ALIVE_DISPOSED [] ReaderDemo.unknown_params
    (mkCacheChange Payload_empty None) [].
Definition keyed_reply : DdsTopic := mkDdsTopic "rr/serviceReply" "Service_Response_" true (topic_qos reply_topic).

Lemma demo_rpc_memory t q q' qr L :
  (exists g i, qr = [demo_change g i] /\ L = []) \/ (qr = [demo_disposal] /\ L = [0]) ->
  shared_ok 7 ReaderDemo.memory ReaderDemo.pool (histories (demo_rpc_world t q q') qr [1; 5; 3; 7]) L ∅.
Proof.
  destruct (ReaderDemo.reader_owns_demo) as [Hacc Hr Hc Hd].
  intros [(g & i & -> & ->)|[-> ->]]; split; try exact Hacc; try exact Hr.
  - apply Forall_cons in Hc as [Hc _]. constructor; [exact Hc|constructor].
  - apply Forall_cons. split; [apply NoDup_singleton|]. do 4 (apply Forall_cons; split; [apply NoDup_nil_2|]). done.
  - constructor; [by split|constructor].
  - apply Forall_cons. split; [apply NoDup_singleton|]. do 4 (apply Forall_cons; split; [apply NoDup_nil_2|]). done.
Qed.

Lemma demo_rpc_connected t q q' r qr L :
  (r = 4 /\ qr = q) \/ (r = 6 /\ qr = q') ->
  (exists g i, qr = [demo_change g i] /\ L = []) \/ (qr = [demo_disposal] /\ L = [0]) ->
  connected 7 (demo_rpc_world t q q') r qr [1; 5; 3; 7] L ∅.
Proof.
  intros Hq Hmem. apply (demo_rpc_memory t q q') in Hmem.
  split; [|repeat (apply Forall_cons; split); [..|done]| |done|done].
  - destruct Hq as [[-> ->]|[-> ->]]; do 3 eexists; split_and!; reflexivity.
  - do 3 eexists. split_and!; [reflexivity..|constructor|reflexivity].
  - do 3 eexists. split_and!; [reflexivity..|constructor|reflexivity].
  - do 3 eexists. split_and!; [reflexivity..|constructor|reflexivity].
  - do 3 eexists. split_and!; [reflexivity..|constructor|reflexivity].
  - intros p p' o o' a e e' Hp Hp'. apply list_elem_of_In in Hp as [<-|[<-|[<-|[<-|[]]]]];
      apply list_elem_of_In in Hp' as [<-|[<-|[<-|[<-|[]]]]]; try done; intros [= <- <- <-] [=].
Qed.

Lemma demo_nodup_writers : NoDup (writers_of demo_rpc_bridge).
Proof. rewrite demo_writers_of. apply (bool_decide_unpack _). vm_compute. exact I. Qed.

Lemma demo_next b q q' r g i ro :
  rpc_maps b -> r_enabled_ b = true -> writers_of b = writers_of demo_rpc_bridge -> length (service_registries_ b) = 2 ->
  (r = 4 /\ q = [demo_change g i] /\ ro = demo_reader pid_a request_topic 30) \/
  (r = 6 /\ q' = [demo_change g i] /\ ro = demo_reader pid_b reply_topic 31) -> g <> guid_unknown ->
  next_change 7 b (demo_rpc_rpworld reply_topic q q') r (demo_change g i) [] [] ∅ ro.
Proof.
  intros Hm Hen Hws Hlen Hr Hg. rewrite demo_writers_of in Hws.
  split; [done|done| | | | | |by vm_compute]; rewrite ?Hws, ?Hlen.
  - rewrite <- demo_writers_of. exact demo_nodup_writers.
  - apply demo_rpc_connected; [naive_solver|left; by exists g, i].
  - unfold fits. split_and!; vm_compute; done.
  - destruct Hr as [(-> & _ & ->)|(-> & _ & ->)]; reflexivity.
  - split; [done|]. by left.
Qed.

Lemma demo_bridge_maps : rpc_maps demo_rpc_bridge.
Proof. exact RpcDemo.maps3. Qed.

Lemma rpc_rtps_roundtrip_witness : exists b' w' b2 w2,
  rpc_transmit 2 4 (demo_rpc_bridge, demo_rpc_rpworld reply_topic [demo_request] []) = (Ok true, (b', w')) /\
  (exists smp, sent_by (rp_world w') 5 = [smp] /\ smp.2 = Some [Some 5%Z; Some 6%Z]) /\
  rpc_transmit 2 6 (b', demo_rpc_rpworld reply_topic [] [demo_answer]) = (Ok true, (b2, w2)) /\
  exists smp, sent_by (rp_world w2) 3 = [smp] /\ smp.2 = Some [Some 5%Z; Some 6%Z] /\
    related_sample_identity (ch_write_params smp.1) = mkSampleIdentity (mkGuid [77%Z] [2%Z]) 1%Z.
Proof.
  destruct (rpc_rtps_roundtrip 7 WriterDemo.default_params WriterDemo.dta WriterDemo.dq demo_default eq_refl demo_available
    4 demo_rpc_bridge (demo_rpc_rpworld reply_topic [demo_request] []) demo_request [] ∅ (demo_reader pid_a request_topic 30))
    as (b' & w' & Hrun & _ & Hm' & (Hen' & Hws' & Hlen')%same_bridge_spec & Hall).
  - apply demo_next; [exact demo_bridge_maps|vm_compute; reflexivity|reflexivity|vm_compute; reflexivity|by left|discriminate].
  - vm_compute. reflexivity.
  - discriminate.
  - specialize (Hall pid_b (registry_enable (ServiceRegistry_of RpcDemo.service pid_b)) 5
      (demo_writer pid_b request_topic 15) 15 (demo_entity pid_b 15)).
    assert (goes_to (RW := rtps_rpc_world 7 WriterDemo.default_params WriterDemo.dta WriterDemo.dq demo_default)
      demo_rpc_bridge (demo_rpc_rpworld reply_topic [demo_request] [])
      (br_participant_id_ (cr_base (demo_reader pid_a request_topic 30))) pid_b = true) as Hgo by (vm_compute; reflexivity).
    rewrite Hgo in Hall.
    destruct Hall as (smp & rr & Hrr & (e' & He' & _ & Hse') & Hcy & Hg & Hback); [vm_compute; reflexivity..|].
    assert (find pid_b (reply_readers_ demo_rpc_bridge) = Some 6) as Hrr' by (vm_compute; reflexivity).
    rewrite Hrr' in Hrr. injection Hrr as <-.
    assert (answer_identity smp = mkSampleIdentity (mkGuid [3%Z] [7%Z]) 1%Z) as Hans.
    { unfold answer_identity. rewrite Hg, (cy_number _ _ _ _ Hcy). reflexivity. }
    destruct (Hback eq_refl) with (w1 := demo_rpc_rpworld reply_topic [] [demo_answer]) (c1 := demo_answer) (L1 := @nil nat)
      (H1 := (∅ : gset nat)) (ro1 := demo_reader pid_b reply_topic 31) (p1 := 3) (o1 := demo_writer pid_a reply_topic 13)
      (a1 := 13) (e1 := demo_entity pid_a 13) as (b2 & w2 & smp1 & Hrun1 & _ & (e2 & He2 & _ & Hse2) & Hcy1 & Hrel & _).
    + vm_compute. lia.
    + reflexivity.
    + refine (demo_next b' [] [demo_answer] 6 (mkGuid [8%Z] [3%Z]) (mkSampleIdentity (mkGuid [3%Z] [7%Z]) 1%Z) _ Hm' _ Hws' _ _ _).
      * rewrite Hen'. vm_compute. reflexivity.
      * rewrite Hlen'. vm_compute. reflexivity.
      * right. split; [reflexivity|]. split; reflexivity.
      * discriminate.
    + reflexivity.
    + reflexivity.
    + vm_compute. reflexivity.
    + vm_compute. reflexivity.
    + rewrite Hans. reflexivity.
    + vm_compute. reflexivity.
    + reflexivity.
    + exists b', w', b2, w2. split; [apply Hrun; apply le_n|]. split.
      { exists smp. unfold sent_by. rewrite He', Hse'. split; [reflexivity|]. rewrite (cy_message _ _ _ _ Hcy). reflexivity. }
      split; [apply Hrun1; apply le_n|]. exists smp1. unfold sent_by. rewrite He2, Hse2. split; [reflexivity|].
      split; [rewrite (cy_message _ _ _ _ Hcy1); reflexivity|exact Hrel].
Defined.

Lemma demo_rpc_transmitting q : transmitting 4 demo_rpc_bridge (demo_rpc_rpworld reply_topic q []).
Proof.
  split; [exact demo_bridge_maps|]. split; [exact (proj1 (proj2 demo_transmitting))|].
  left. split; [vm_compute; reflexivity|]. vm_compute. eexists. reflexivity.
Qed.

Lemma rpc_rtps_returns_witness : exists b' w',
  rpc_transmit 2 4 (demo_rpc_bridge, demo_rpc_rpworld reply_topic [demo_request] []) = (Ok true, (b', w')) /\
  wd_aborted (rp_world w') = None.
Proof.
  destruct (rpc_rtps_returns 7 WriterDemo.default_params WriterDemo.dta WriterDemo.dq demo_default eq_refl demo_available
    4 demo_rpc_bridge (demo_rpc_rpworld reply_topic [demo_request] []) [demo_request] [] ∅ (demo_reader pid_a request_topic 30))
    as (b' & w' & Hrun & _ & _ & Hab & _).
  - exact (demo_rpc_transmitting [demo_request]).
  - exact demo_nodup_writers.
  - rewrite demo_writers_of. apply demo_rpc_connected; [left; split; reflexivity|].
    left. eexists _, _. split; reflexivity.
  - reflexivity.
  - constructor; [|constructor]. intros _. vm_compute. reflexivity.
  - rewrite demo_writers_of. unfold fits. split_and!; vm_compute; done.
  - exists b', w'. split; [exact Hrun|exact Hab].
Defined.

Lemma rpc_empty_reply_aborts_witness : exists w',
  rpc_transmit 1 6 (demo_rpc_bridge, demo_rpc_rpworld keyed_reply [] [demo_disposal]) = (Ok false, (demo_rpc_bridge, w')) /\
  wd_aborted (rp_world w') = Some UndefinedBehaviour.
Proof.
  destruct (rpc_empty_reply_aborts 7 WriterDemo.default_params WriterDemo.dta WriterDemo.dq demo_default eq_refl
    demo_rpc_bridge (demo_rpc_rpworld keyed_reply [] [demo_disposal]) 6 demo_disposal [] [0] ∅ (demo_reader pid_b keyed_reply 31))
    as (w' & Hrun & Hab).
  - vm_compute. reflexivity.
  - rewrite demo_writers_of. apply demo_rpc_connected; [by right|by right].
  - rewrite demo_writers_of. unfold fits. split_and!; vm_compute; done.
  - reflexivity.
  - split; [discriminate|]. right. split; [reflexivity|discriminate].
  - reflexivity.
  - vm_compute. reflexivity.
  - vm_compute. reflexivity.
  - vm_compute. discriminate.
  - exists w'. split; [exact (Hrun 0)|exact Hab].
Defined.

End Witnesses.
