(* ===== verification/RtpsRpcOpen.v ===== *)
(** * Opening an RPC bridge over RTPS participants

    [RPCBridge::enable] the first time: [init_nts_] makes in every RTPS participant the
    endpoints of a proxy client and of a proxy server, and [enable] enables them.  What the
    transmissions of [RtpsRpc.v] start from. *)
From stdpp Require Import gmap.
From S2P Require Import Prelude StdMap CppString Externals Types Topics Endpoint DiscoveryDatabase PayloadPool ServiceRegistry Track Auxiliar Address Configuration Participants DDSBridge RPCBridge Rtps RtpsReader RtpsWriter MultiWriter ParticipantAttributes RtpsParticipant RtpsWorld RtpsBridge RtpsRpc.

Section Opening.
Context {CU : CppUtils} {CL : CppUtilsLaws} {FD : FastDDS} {DQ : DBQueueOps} {C : Type}.
Context {RR : RtpsReaders} {RL : RtpsReadersLaws} {RW : RtpsWriters} {WL : RtpsWritersLaws}.
Context {PM : PoolMethods} (this_pool : nat) {PS : PoolSpec this_pool}.
Context (default_params : SendParams) (dta : TopicAttributes) (dq : EndpointQos) (default_data : DataReceived).

#[local] Notation world := (rtps_world (C := C)).
#[local] Notation rpworld := (rpworld (C := C)).
#[local] Notation CW := (rtps_comm_world this_pool default_params dta dq default_data (C := C)).
Let RPW : RpcWorld rpworld := rtps_rpc_world this_pool default_params dta dq default_data.
#[local] Existing Instance RPW.
Implicit Types (w : rpworld) (v : world).

(** ** Endpoints by what they are for

    A writer of the bridge is that of a proxy client ([true]) or of a proxy server
    ([false]) of a participant; and so is a reader. *)
Definition role : Type := (bool * ParticipantId)%type.
Implicit Types (k : role) (slot : role -> option nat).

Definition writer_slot (b : RPCBridge) : role -> option nat := fun k =>
  find k.2 (if k.1 then request_writers_ b else reply_writers_ b).
Definition reader_slot (b : RPCBridge) : role -> option nat := fun k =>
  find k.2 (if k.1 then reply_readers_ b else request_readers_ b).
Definition topic_of_reader (t : RPCTopic) : role -> DdsTopic := fun k =>
  if k.1 then reply_topic t else request_topic t.

Definition topic_of_writer (t : RPCTopic) : role -> DdsTopic := fun k =>
  if k.1 then request_topic t else reply_topic t.

Definition set_slot (k : role) (p : nat) slot : role -> option nat :=
  fun k' => if decide (k' = k) then Some p else slot k'.

(** The writer object is of the participant [id] and the topic [t]. *)
Definition writes_for (o : CommonWriter) (t : DdsTopic) (id : ParticipantId) : Prop :=
  bw_topic_ (cw_base o) = t /\ bw_participant_id_ (cw_base o) = id.

(** The writers exist, each of its topic and its participant, and with an entity of its own
    that has sent nothing. *)
Record writers_made (topic : RPCTopic) slot v : Prop := {
  wm_made : forall k p, slot k = Some p -> exists o a e,
    simple_at v p = Some (o, a, e) /\ (rw_history e = [] /\ rw_sent e = []) /\ writes_for o (topic_of_writer topic k) k.2;
  wm_entities : forall k k' p p' o o' a e e', slot k = Some p -> slot k' = Some p' ->
    simple_at v p = Some (o, a, e) -> simple_at v p' = Some (o', a, e') -> k = k'
}.

(** The reader [r] is of the participant [id] and the topic [t], and has nothing. *)
Definition reader_made v (r : nat) (t : DdsTopic) (id : ParticipantId) : Prop :=
  exists o a e, wd_readers v !! r = Some o /\ rtps_reader_ o = Some a /\ wd_rtps_readers v !! a = Some e /\
    rr_untaken e = [] /\ br_topic_ (cr_base o) = t /\ br_participant_id_ (cr_base o) = id.
Definition readers_made (topic : RPCTopic) slot v : Prop :=
  forall k r, slot k = Some r -> reader_made v r (topic_of_reader topic k) k.2.

Lemma writers_made_ext topic slot slot' v :
  (forall k, slot' k = slot k) -> writers_made topic slot v -> writers_made topic slot' v.
Proof.
  intros E [H1 H2]. split; [intros k p; rewrite E; apply H1|]. intros k k' p p' o o' a e e'. rewrite !E. apply H2.
Qed.

Lemma writers_made_add topic slot k v p o a e :
  writers_made topic slot v -> rtps_writer_ o = Some a -> wd_writers v !! p = None -> wd_rtps_writers v !! a = None ->
  rw_history e = [] /\ rw_sent e = [] -> writes_for o (topic_of_writer topic k) k.2 ->
  writers_made topic (set_slot k p slot) (with_writer p o a e v).
Proof.
  intros [Hm Hi] Hoa Hp Ha Hh Hfor.
  assert (forall k' p', slot k' = Some p' -> exists o' a' e', simple_at v p' = Some (o', a', e') /\
    simple_at (with_writer p o a e v) p' = Some (o', a', e') /\ ((rw_history e' = [] /\ rw_sent e' = []) /\
    writes_for o' (topic_of_writer topic k') k'.2) /\ a' <> a) as Hold.
  { intros k' p' Hk. destruct (Hm k' p' Hk) as (o' & a' & e' & Hs' & Hrest).
    destruct (simple_at_with_writer v p o a e p' o' a' e') as (? & _ & ?); [done..|]. by exists o', a', e'. }
  pose proof (simple_at_new v p o a e Hoa) as Hnew. split; unfold set_slot.
  - intros k' p'. case_decide as Ek; [intros [= <-]; subst k'; by exists o, a, e|].
    intros (o' & a' & e' & _ & ? & ? & _)%Hold. by exists o', a', e'.
  - intros k1 k2 p1 p2 o1 o2 a0 e1 e2. destruct (decide (k1 = k)) as [->|N1], (decide (k2 = k)) as [->|N2]; [done|..].
    + intros [= <-] (o' & a' & e' & _ & -> & _ & Hne)%Hold. rewrite Hnew. intros [= <- <- <-] [= <- <- <-]. done.
    + intros (o' & a' & e' & _ & -> & _ & Hne)%Hold [= <-]. rewrite Hnew. intros [= <- <- <-] [= <- Hx <-]. congruence.
    + intros H1 H2. destruct (Hold _ _ H1) as (? & ? & ? & Hv1 & -> & _), (Hold _ _ H2) as (? & ? & ? & Hv2 & -> & _).
      intros E1 E2. by eapply Hi; [exact H1|exact H2|rewrite Hv1; exact E1|rewrite Hv2; exact E2].
Qed.

Lemma writers_made_same topic slot v v' :
  wd_writers v' = wd_writers v -> wd_rtps_writers v' = wd_rtps_writers v ->
  writers_made topic slot v -> writers_made topic slot v'.
Proof.
  intros Hw He [H1 H2]. assert (forall p, simple_at v' p = simple_at v p) as E by (intros p; unfold simple_at; by rewrite Hw, He).
  split; [intros k p Hk; rewrite E; by apply H1 in Hk|]. intros k k' p p' o o' a e e' ? ?. rewrite !E. by apply H2.
Qed.

Lemma reader_made_add v r o a e r' t id :
  wd_readers v !! r = None -> wd_rtps_readers v !! a = None ->
  reader_made v r' t id -> reader_made (with_reader r o a e v) r' t id.
Proof.
  intros Hr Ha (o' & a' & e' & Ho & Hoa & He & Hrest). exists o', a', e'. cbn.
  rewrite !lookup_insert_ne; [done|intros ->; congruence..].
Qed.

Lemma readers_made_add topic slot k v r o a e :
  readers_made topic slot v -> rtps_reader_ o = Some a -> wd_readers v !! r = None -> wd_rtps_readers v !! a = None ->
  rr_untaken e = [] -> br_topic_ (cr_base o) = topic_of_reader topic k -> br_participant_id_ (cr_base o) = k.2 ->
  readers_made topic (set_slot k r slot) (with_reader r o a e v).
Proof.
  intros Hm Hoa Hr Ha Hu Ht Hid k' r'. unfold set_slot. case_decide as E.
  - intros [= <-]. subst. exists o, a, e. cbn. rewrite !lookup_insert_eq. by split_and!.
  - intros Hk. by apply reader_made_add, Hm.
Qed.

(** What does not touch the entities nor who a reader is. *)
Lemma reader_made_same v v' r t id :
  wd_rtps_readers v' = wd_rtps_readers v ->
  (forall o, wd_readers v !! r = Some o -> exists o', wd_readers v' !! r = Some o' /\ rtps_reader_ o' = rtps_reader_ o /\
     br_topic_ (cr_base o') = br_topic_ (cr_base o) /\ br_participant_id_ (cr_base o') = br_participant_id_ (cr_base o)) ->
  reader_made v r t id -> reader_made v' r t id.
Proof.
  intros He Ho (o & a & e & H1 & H2 & H3 & H4 & H5 & H6). destruct (Ho o H1) as (o' & Ho' & E1 & E2 & E3).
  exists o', a, e. rewrite He, E1, E2, E3. by split_and!.
Qed.

(** ** Making the endpoints *)

Context (topic : RPCTopic) (plain : needs_specific_qos (request_topic topic) = false /\ needs_specific_qos (reply_topic topic) = false).
Context (w0 : rpworld) (ids_right : forall id c g, participant_of w0 id = Some (c, g) -> conf_id c = id).

(** The bridge while its endpoints are made, from the world [w0]. *)
Record opening (s : rpc_state (W := rpworld)) : Prop := {
  og_memory : same_memory (rp_world w0) (rp_world s.2);
  og_participants : same_participants w0 s.2;
  og_topic : r_topic_ s.1 = topic;
  og_writers : writers_made topic (writer_slot s.1) (rp_world s.2);
  og_readers : readers_made topic (reader_slot s.1) (rp_world s.2);
  og_maps : map_wf (request_writers_ s.1) /\ map_wf (reply_writers_ s.1);
  og_reader_maps : map_wf (request_readers_ s.1) /\ map_wf (reply_readers_ s.1)
}.

(** A map with an entry more, as a slot. *)
Lemma slot_assign (m : std_map ParticipantId nat) (c : bool) id x id' :
  find id' (assign id x m) = set_slot (c, id) x (fun k => find k.2 m) (c, id').
Proof.
  rewrite find_assign_id. unfold set_slot. destruct (decide (id' = id)) as [->|Hne]; [by rewrite decide_True|].
  by rewrite decide_False by congruence.
Qed.

Lemma slot_other (c c' : bool) id x slot id' : c <> c' -> set_slot (c, id) x slot (c', id') = slot (c', id').
Proof. intros Hne. unfold set_slot. by rewrite decide_False by congruence. Qed.

(** A writer more, kept in its map. *)
Definition put_writer k (p : nat) (b : RPCBridge) : RPCBridge :=
  if k.1 then r_set_client (reply_readers_ b) (assign k.2 p (request_writers_ b)) b
  else r_set_server (request_readers_ b) (assign k.2 p (reply_writers_ b)) b.
Definition put_reader k (r : nat) (b : RPCBridge) : RPCBridge :=
  if k.1 then r_set_client (assign k.2 r (reply_readers_ b)) (request_writers_ b) b
  else r_set_server (assign k.2 r (request_readers_ b)) (reply_writers_ b) b.

Lemma put_writer_slots k p b :
  (forall k', writer_slot (put_writer k p b) k' = set_slot k p (writer_slot b) k') /\
  (forall k', reader_slot (put_writer k p b) k' = reader_slot b k').
Proof.
  destruct k as [c id]; split; intros [c' id']; destruct c, c'; try done; rewrite ?slot_other by done; try done;
    unfold writer_slot, reader_slot; cbn; [apply (slot_assign _ true)|apply (slot_assign _ false)].
Qed.

Lemma put_reader_slots k r b :
  (forall k', reader_slot (put_reader k r b) k' = set_slot k r (reader_slot b) k') /\
  (forall k', writer_slot (put_reader k r b) k' = writer_slot b k').
Proof.
  destruct k as [c id]; split; intros [c' id']; destruct c, c'; try done; rewrite ?slot_other by done; try done;
    unfold writer_slot, reader_slot; cbn; [apply (slot_assign _ true)|apply (slot_assign _ false)].
Qed.

Lemma opened_writer k p b w w' :
  opening (b, w) -> rp_create_writer this_pool dta dq k.2 (topic_of_writer topic k) w = (Ok p, w') ->
  opening (put_writer k p b, w').
Proof.
  intros [Hm Hp Ht Hw Hr [M1 M2] [N1 N2]] Hrun. cbn [fst snd] in *.
  pose proof (rp_create_writer_participants this_pool dta dq k.2 (topic_of_writer topic k) w) as Hsame.
  unfold exec in Hsame. rewrite Hrun in Hsame. cbn [snd] in Hsame.
  destruct (rp_create_writer_run this_pool dta dq k.2 (topic_of_writer topic k) w p w')
    as (c & g & o & a & e & Hc & Hnw & Hoa & Hfp & Hfa & Hw' & Hid);
    [unfold topic_of_writer; destruct (k.1); apply plain|done|].
  pose proof (put_writer_slots k p b) as [Hs1 Hs2]. split; cbn [fst snd]; rewrite ?Hw'.
  - done.
  - intros id. by rewrite Hsame, Hp.
  - unfold put_writer. by destruct (k.1).
  - eapply writers_made_ext; [exact Hs1|]. apply writers_made_add; try done; split; try apply Hnw.
    rewrite Hid. eapply ids_right. rewrite <- Hp. exact Hc.
  - intros k' r'. rewrite Hs2. apply Hr.
  - unfold put_writer. destruct (k.1); split; cbn; try done; by apply map_wf_assign.
  - unfold put_writer. by destruct (k.1).
Qed.

Lemma opened_reader k r b w w' :
  opening (b, w) -> rp_create_reader this_pool dq k.2 (topic_of_reader topic k) w = (Ok r, w') ->
  opening (put_reader k r b, w').
Proof.
  intros [Hm Hp Ht Hw Hr [M1 M2] [N1 N2]] Hrun. cbn [fst snd] in *.
  pose proof (rp_create_reader_participants this_pool dq k.2 (topic_of_reader topic k) w) as Hsame.
  unfold exec in Hsame. rewrite Hrun in Hsame. cbn [snd] in Hsame.
  destruct (rp_create_reader_run this_pool dq k.2 (topic_of_reader topic k) w r w' Hrun)
    as (c & g & o & a & e & Hc & Hnr & Hoa & Hfr & Hfa & Hw' & Hid).
  pose proof (put_reader_slots k r b) as [Hs1 Hs2]. split; cbn [fst snd]; rewrite ?Hw'.
  - done.
  - intros id. by rewrite Hsame, Hp.
  - unfold put_reader. by destruct (k.1).
  - eapply writers_made_ext; [exact Hs2|]. by apply (writers_made_same _ _ (rp_world w)).
  - intros k' r' Hk'. rewrite Hs1 in Hk'. revert k' r' Hk'. apply readers_made_add; try done; try apply Hnr.
    rewrite Hid. eapply ids_right. rewrite <- Hp. exact Hc.
  - unfold put_reader. by destruct (k.1).
  - unfold put_reader. destruct (k.1); split; cbn; try done; by apply map_wf_assign.
Qed.

(** The slot of a reader of the bridge. *)
Lemma opened_slot k r b w s' :
  opening (b, w) -> reader_slot b k = Some r -> create_slot_ r (b, w) = (Ok tt, s') ->
  opening s' /\ exists t, s'.1 = r_set_tasks t b.
Proof.
  intros [Hm Hp Ht Hw Hr Hmaps Hrmaps] Hk. cbn [fst snd] in *. destruct (Hr k r Hk) as (o & a & e & Ho & _).
  unfold create_slot_, in_world, zoom, always, on_world, on_bridge, gets. run_prog.
  cbn [new_unique_task_id reader_set_callback thread_pool_slot comm_world rpc_participants RPW rtps_rpc_world
    rtps_participants comm_lift]. unfold on_view. cbn [rp_world]. rewrite (set_callback_run this_pool _ _ _ _ _ _ _ o Ho).
  intros [= <-]. split; [|by eexists].
  split; cbn; [done..|by apply (writers_made_same _ _ (rp_world w))| |done|done].
  intros k' r' Hk'. eapply reader_made_same; [| |by apply Hr]; [done|]. cbn. intros o' Ho'.
  destruct (decide (r' = r)) as [->|Hne].
  - rewrite lookup_insert_eq. assert (o' = o) as -> by congruence. eexists. by split_and!.
  - rewrite lookup_insert_ne by done. eauto.
Qed.

(** The endpoints of a role are there; and what was there stays. *)
Definition has_role (b : RPCBridge) k : Prop := is_Some (writer_slot b k) /\ is_Some (reader_slot b k).

Lemma in_world_inv {A} (m : prog rpworld A) s a s' :
  in_world m s = (Ok a, s') -> m s.2 = (Ok a, s'.2) /\ s'.1 = s.1.
Proof. unfold in_world, zoom. destruct (m s.2) as [r w']. by intros [= -> <-]. Qed.

Lemma on_bridge_inv f (s : rpc_state (W := rpworld)) x s' : on_bridge f s = (Ok x, s') -> s' = (f s.1, s.2).
Proof. unfold on_bridge, modify. by intros [= _ <-]. Qed.

Lemma set_slot_some k p slot k' : is_Some (slot k') \/ k' = k -> is_Some (set_slot k p slot k').
Proof. unfold set_slot. case_decide; [by eexists|]. by intros [?|?]. Qed.

(** The writer, the reader and the slot of the reader of the role [k]. *)
Lemma opened_role k p r b w w1 w2 s' :
  opening (b, w) -> rp_create_writer this_pool dta dq k.2 (topic_of_writer topic k) w = (Ok p, w1) ->
  rp_create_reader this_pool dq k.2 (topic_of_reader topic k) w1 = (Ok r, w2) ->
  create_slot_ r (put_reader k r (put_writer k p b), w2) = (Ok tt, s') ->
  opening s' /\ (exists t, s'.1 = r_set_tasks t (put_reader k r (put_writer k p b))) /\
  has_role s'.1 k /\ forall k', has_role b k' -> has_role s'.1 k'.
Proof.
  intros Ho Hw Hr Hs. pose proof (opened_writer k p b w w1 Ho Hw) as Ho1. pose proof (opened_reader k r _ w1 w2 Ho1 Hr) as Ho2.
  pose proof (put_writer_slots k p b) as [W1 W2]. pose proof (put_reader_slots k r (put_writer k p b)) as [R1 R2].
  destruct (opened_slot k r _ _ s' Ho2) as [Ho' [t Ht]]; [rewrite R1; unfold set_slot; by rewrite decide_True|done|].
  assert (forall k', writer_slot s'.1 k' = set_slot k p (writer_slot b) k') as Hws by (intros k'; rewrite Ht, <- W1, <- R2; done).
  assert (forall k', reader_slot s'.1 k' = set_slot k r (reader_slot b) k') as Hrs.
  { intros k'. rewrite Ht. etransitivity; [apply R1|]. unfold set_slot. by rewrite W2. }
  split; [done|]. split; [by exists t|]. unfold has_role.
  split; [|intros k' [H1 H2]]; rewrite Hws, Hrs; split; apply set_slot_some; auto.
Qed.

(** [create_proxy_client_nts_] *)
Lemma opened_client id s s' :
  create_proxy_client_nts_ id s = (Ok tt, s') -> opening s ->
  opening s' /\ has_role s'.1 (true, id) /\ (forall k, has_role s.1 k -> has_role s'.1 k) /\
  service_registries_ s'.1 = assign id (ServiceRegistry_of topic id) (service_registries_ s.1) /\
  current_servers_ s'.1 = current_servers_ s.1.
Proof.
  destruct s as [b w]. intros H Ho. unfold create_proxy_client_nts_ in H.
  apply bind_inv_ok in H as (t & s0 & [= <- <-] & H). pose proof (og_topic _ Ho) as Etop. cbn [fst snd] in *. rewrite Etop in H.
  apply bind_inv_ok in H as (p & s1 & (Hw & Hb1)%in_world_inv & H). apply bind_inv_ok in H as (x2 & s2 & ->%on_bridge_inv & H).
  apply bind_inv_ok in H as (r & s3 & (Hr & Hb3)%in_world_inv & H). apply bind_inv_ok in H as (x4 & s4 & ->%on_bridge_inv & H).
  apply bind_inv_ok in H as ([] & s5 & Hslot & ->%on_bridge_inv). cbn [fst snd] in *.
  destruct (opened_role (true, id) p r b w s1.2 s3.2 s5) as (Ho5 & [t Ht] & Hk & Hall); [done..| |].
  { rewrite Hb3 in Hslot. cbn in Hslot. rewrite Hb1 in Hslot. exact Hslot. }
  split_and!; try done; [by destruct Ho5|..]; cbn; by rewrite Ht.
Qed.

(** [create_proxy_server_nts_] *)
Lemma opened_server id s s' :
  create_proxy_server_nts_ id s = (Ok tt, s') -> opening s ->
  opening s' /\ has_role s'.1 (false, id) /\ (forall k, has_role s.1 k -> has_role s'.1 k) /\
  service_registries_ s'.1 = service_registries_ s.1 /\ current_servers_ s'.1 = current_servers_ s.1.
Proof.
  destruct s as [b w]. intros H Ho. unfold create_proxy_server_nts_ in H.
  apply bind_inv_ok in H as (t & s0 & [= <- <-] & H). pose proof (og_topic _ Ho) as Etop. cbn [fst snd] in *. rewrite Etop in H.
  apply bind_inv_ok in H as (p & s1 & (Hw & Hb1)%in_world_inv & H). apply bind_inv_ok in H as (x2 & s2 & ->%on_bridge_inv & H).
  apply bind_inv_ok in H as (r & s3 & (Hr & Hb3)%in_world_inv & H). apply bind_inv_ok in H as (x4 & s4 & ->%on_bridge_inv & Hslot).
  cbn [fst snd] in *.
  destruct (opened_role (false, id) p r b w s1.2 s3.2 s') as (Ho5 & [t Ht] & Hk & Hall); [done..| |].
  { rewrite Hb3 in Hslot. cbn in Hslot. rewrite Hb1 in Hslot. exact Hslot. }
  split_and!; try done; by rewrite Ht.
Qed.

(** *** The loop of [init_nts_] *)

(** The registry of a participant with these servers, as it is made. *)
Definition opened_registry (id : ParticipantId) (servers : std_set GuidPrefix) : ServiceRegistry :=
  if (0 <? length servers)%nat then registry_enable (ServiceRegistry_of topic id) else ServiceRegistry_of topic id.

(** What is made in the participant [id]. *)
Definition has_proxies (b : RPCBridge) (id : ParticipantId) : Prop :=
  has_role b (true, id) /\ has_role b (false, id) /\
  find id (service_registries_ b) = Some (opened_registry id (servers_of id b)).

Lemma opening_registries b w m : opening (b, w) -> opening (r_set_registries m b, w).
Proof. intros []. by split. Qed.

Lemma opened_body id s s' :
  init_body id s = (Ok tt, s') -> opening s ->
  opening s' /\ has_proxies s'.1 id /\ (forall id', servers_of id' s'.1 = servers_of id' s.1) /\
  forall id', id' <> id -> has_proxies s.1 id' -> has_proxies s'.1 id'.
Proof.
  intros H Ho. unfold init_body in H.
  apply bind_inv_ok in H as ([] & s1 & H1 & H). destruct (opened_client id s s1 H1 Ho) as (Ho1 & Hk1 & Hm1 & Hr1 & Hs1).
  apply bind_inv_ok in H as ([] & s2 & H2 & H). destruct (opened_server id s1 s2 H2 Ho1) as (Ho2 & Hk2 & Hm2 & Hr2 & Hs2).
  apply bind_inv_ok in H as (x & s3 & ->%on_bridge_inv & H). destruct s2 as [b2 w2]. cbn [fst snd] in *.
  set (b3 := r_set_servers (subscript [] (fun servers => servers) id (current_servers_ b2)) b2) in *.
  assert (forall id', servers_of id' b3 = servers_of id' s.1) as Hserv.
  { intros id'. unfold b3. rewrite servers_of_subscript. unfold servers_of. rewrite Hs2, Hs1. by case_decide; subst. }
  assert (opening (b3, w2)) as Ho3 by (destruct Ho2; by split).
  assert (service_registries_ b3 = assign id (ServiceRegistry_of topic id) (service_registries_ s.1)) as Hr3.
  { change (service_registries_ b3) with (service_registries_ b2). by rewrite Hr2, Hr1. }
  apply bind_inv_ok in H as (servers & s4 & Hg & H). injection Hg as Hservers <-. cbn [fst] in Hservers.
  assert (s' = (r_set_registries (assign id (opened_registry id servers) (service_registries_ s.1)) b3, w2)) as ->.
  { unfold opened_registry. destruct (0 <? length servers)%nat.
    - assert (find id (service_registries_ b3) = Some (ServiceRegistry_of topic id)) as Hf
        by (by rewrite Hr3, find_assign_eq by apply keqv_refl).
      assert (update registry_enable id (service_registries_ b3) =
        assign id (registry_enable (ServiceRegistry_of topic id)) (service_registries_ s.1)) as Hu
        by (unfold update; rewrite Hf, Hr3; apply assign_twice).
      rewrite (on_registry_ok _ _ _ _ _ Hf), Hu in H. by injection H as <-.
    - injection H as <-. by rewrite <- Hr3, r_set_registries_same. }
  cbn [fst snd]. split_and!.
  - by apply opening_registries.
  - split; [by apply (Hm2 (true, id))|]. split; [exact Hk2|]. cbn [service_registries_ r_set_registries]. rewrite find_assign_eq by apply keqv_refl.
    f_equal. by subst servers.
  - exact Hserv.
  - intros id' Hne (R1 & R2 & R3). split; [by apply (Hm2 (true, id')), Hm1|]. split; [by apply (Hm2 (false, id')), Hm1|].
    cbn [service_registries_ r_set_registries]. rewrite find_assign_id, decide_False, R3 by done. do 2 f_equal.
    symmetry. exact (Hserv id').
Qed.

Lemma opened_loop ids : forall s s', NoDup ids ->
  for_each ids init_body s = (Ok tt, s') -> opening s ->
  opening s' /\ (forall id, id ∈ ids -> has_proxies s'.1 id) /\ (forall id, servers_of id s'.1 = servers_of id s.1) /\
  forall id, id ∉ ids -> has_proxies s.1 id -> has_proxies s'.1 id.
Proof.
  induction ids as [|id ids IH]; intros s s' Hnd Hrun Ho.
  { injection Hrun as <-. split_and!; try done. by intros id ?%not_elem_of_nil. }
  apply NoDup_cons in Hnd as [Hnin Hnd]. cbn [for_each] in Hrun. apply bind_inv_ok in Hrun as ([] & s1 & H1 & H2).
  destruct (opened_body id s s1 H1 Ho) as (Ho1 & Hp1 & Hs1 & Hk1).
  destruct (IH s1 s' Hnd H2 Ho1) as (Ho2 & Hp2 & Hs2 & Hk2). split_and!; try done.
  - intros id' [->|Hin]%elem_of_cons; [by apply Hk2|by apply Hp2].
  - intros id'. by rewrite Hs2, Hs1.
  - intros id' Hn Hp. apply Hk2; [set_solver|]. apply Hk1; [set_solver|done].
Qed.

(** ** Enabling the endpoints *)

Lemma for_endpoints_run (f : nat -> rpworld -> rpworld) m b w :
  for_endpoints f m (b, w) = (Ok tt, (b, fold_left (fun w p => f p w) (values (m b)) w)).
Proof.
  unfold for_endpoints. rewrite (bind_ok (gets _) _ _ (values (m b)) (b, w)) by done.
  etransitivity; [apply (for_each_total _ _ (fun p s => (s.1, f p s.2))); done|]. f_equal.
  generalize w. induction (values (m b)) as [|p l IH]; intros w1; [done|]. cbn [fold_left fst snd]. apply IH.
Qed.

Lemma enable_readers_run l : forall v, (forall r, r ∈ l -> live_reader v r) ->
  let v' := fold_left (fun v r => reader_enable (CommWorld := CW) r v) l v in
  enabling v v' /\ forall r, r ∈ l -> reader_enabled v' r.
Proof.
  induction l as [|r l IH]; intros v Hl; cbn [fold_left].
  { split; [apply enabling_refl|]. by intros r ?%not_elem_of_nil. }
  destruct (reader_enable_run this_pool default_params dta dq default_data v r) as [H1 Hr]; [apply Hl; set_solver|].
  destruct (IH (reader_enable (CommWorld := CW) r v)) as [H2 Hrest].
  { intros r' Hr'. apply (enabling_keeps _ _ H1), Hl. set_solver. }
  split; [by eapply enabling_trans|]. intros r' [->|Hin]%elem_of_cons; [|by apply Hrest].
  by apply (enabling_keeps _ _ H2).
Qed.

(** All the endpoints of the bridge, enabled in the order of [enable]. *)
Definition readers_of (b : RPCBridge) : list nat := values (reply_readers_ b) ++ values (request_readers_ b).

Lemma enable_endpoints_run b w :
  (forall p, p ∈ writers_of b -> is_simple (rp_world w) p) -> (forall r, r ∈ readers_of b -> live_reader (rp_world w) r) ->
  exists w', enable_endpoints (b, w) = (Ok tt, (r_set_enabled true b, w')) /\ enabling (rp_world w) (rp_world w') /\
    (forall p, p ∈ writers_of b -> writer_enabled (rp_world w') p) /\
    forall r, r ∈ readers_of b -> reader_enabled (rp_world w') r.
Proof.
  intros Hw Hr. unfold enable_endpoints.
  rewrite (bind_ok (on_bridge _) _ _ tt (r_set_enabled true b, w)) by done.
  do 3 rewrite (bind_ok _ _ _ _ _ (for_endpoints_run _ _ _ _)). rewrite for_endpoints_run.
  cbn [request_writers_ reply_writers_ reply_readers_ request_readers_ r_set_enabled].
  rewrite <- !fold_left_app. fold (writers_of b) (readers_of b).
  set (w1 := fold_left _ (writers_of b) w).
  assert (rp_world w1 = fold_left (fun v p => writer_enable (CommWorld := CW) p v) (writers_of b) (rp_world w)) as E1.
  { unfold w1. pose proof (fold_lift rp_world rp_put (writer_enable (CommWorld := CW)) (writers_of b) w) as E.
    exact (f_equal rp_world E). }
  eexists. split; [reflexivity|]. set (w2 := fold_left _ (readers_of b) w1).
  assert (rp_world w2 = fold_left (fun v p => reader_enable (CommWorld := CW) p v) (readers_of b) (rp_world w1)) as E2.
  { unfold w2. pose proof (fold_lift rp_world rp_put (reader_enable (CommWorld := CW)) (readers_of b) w1) as E.
    exact (f_equal rp_world E). }
  destruct (enable_writers_run this_pool default_params dta dq default_data (writers_of b) (rp_world w) Hw) as [H1 Hen1].
  rewrite <- E1 in H1, Hen1.
  destruct (enable_readers_run (readers_of b) (rp_world w1)) as [H2 Hen2].
  { intros r Hin. by apply (enabling_keeps _ _ H1), Hr. }
  rewrite <- E2 in H2, Hen2. split_and!; [by eapply enabling_trans| |done].
  intros p Hp. by apply (enabling_keeps _ _ H2), Hen1.
Qed.

(** ** The bridge *)

(** A bridge that was not enabled yet. *)
Record not_opened (b : RPCBridge) : Prop := {
  no_topic : r_topic_ b = topic;
  no_enabled : r_enabled_ b = false;
  no_init : init_ b = false;
  no_writers : request_writers_ b = [] /\ reply_writers_ b = [];
  no_readers : request_readers_ b = [] /\ reply_readers_ b = []
}.

Lemma not_opened_opening b : not_opened b -> opening (b, w0).
Proof.
  intros [Ht _ _ [W1 W2] [R1 R2]].
  assert (forall k, writer_slot b k = None) as Hw by (intros [[] id]; unfold writer_slot; cbn; by rewrite ?W1, ?W2).
  assert (forall k, reader_slot b k = None) as Hr by (intros [[] id]; unfold reader_slot; cbn; by rewrite ?R1, ?R2).
  split; cbn [fst snd]; try done.
  - split; [intros k p; by rewrite Hw|]. intros k k' p p' o o' a e e'. by rewrite Hw.
  - intros k r. by rewrite Hr.
  - rewrite W1, W2. split; apply map_wf_nil.
  - rewrite R1, R2. split; apply map_wf_nil.
Qed.

(** The first [enable] that enables the bridge makes the endpoints and enables them. *)
Lemma rpc_enable_inv b0 b w :
  not_opened b0 -> rpc_enable (b0, w0) = (Ok tt, (b, w)) -> r_enabled_ b = true ->
  exists b1 w1, init_nts_ (b0, w0) = (Ok tt, (b1, w1)) /\ enable_endpoints (b1, w1) = (Ok tt, (b, w)).
Proof.
  intros [_ Hen Hin _ _] H Hb. unfold rpc_enable in H. apply bind_inv_ok in H as (s0 & s1 & [= <- <-] & H).
  cbn [fst snd] in H. rewrite Hen, Hin in H. cbn [negb andb] in H. destruct (servers_available_ b0); [|injection H as <- <-; congruence].
  unfold try_catch in H. pose proof (init_disabled (b0, w0) Hen) as Hd. unfold exec in Hd.
  apply bind_inv_ok in H as (go & s2 & Htry & H). revert Htry. unfold mbind at 1, prog_bind at 1.
  destruct (init_nts_ (b0, w0)) as [[[]|e] [b1 w1]]; cbn [fst snd] in *.
  - intros [= <- <-]. by exists b1, w1.
  - case_decide; [|done]. intros [= <- <-]. injection H as <- <-. congruence.
Qed.

Lemma init_run b0 b1 w1 :
  not_opened b0 -> init_nts_ (b0, w0) = (Ok tt, (b1, w1)) ->
  opening (b1, w1) /\ (forall id, id ∈ set_elems (get_rtps_participants_ids w0) -> has_proxies b1 id) /\
  forall id, servers_of id b1 = servers_of id b0.
Proof.
  intros Hno H. unfold init_nts_ in H. apply bind_inv_ok in H as (ids & s1 & [= <- <-] & H). cbn [fst snd] in H.
  apply bind_inv_ok in H as ([] & s2 & Hloop & Hend%on_bridge_inv).
  destruct (opened_loop _ (b0, w0) s2 (set_elems_NoDup _ (fold_insert_wf (rp_participants w0)
    (fun p => kind_is_rtps (conf_kind (bp_configuration_ (rp_base p)))) [] map_wf_nil)) Hloop (not_opened_opening b0 Hno))
    as (Ho & Hp & Hs & _).
  injection Hend as -> ->. split_and!; try done. by destruct Ho.
Qed.

(** The reader [r] of the bridge [b], of the participant [id] and the topic [t], is ready for
    the changes that come. *)
Definition reader_open (b : RPCBridge) v (r : nat) (t : DdsTopic) (id : ParticipantId) L H0 : Prop :=
  connected this_pool v r [] (writers_of b) L H0 /\
  exists ro, wd_readers v !! r = Some ro /\ br_topic_ (cr_base ro) = t /\ br_participant_id_ (cr_base ro) = id.

(** The writer [p] of the participant [id] and the topic [t] is enabled, with an entity
    that has sent nothing. *)
Definition writer_open v (p : nat) (t : DdsTopic) (id : ParticipantId) : Prop :=
  exists o a e, simple_at v p = Some (o, a, e) /\ bw_enabled_ (cw_base o) = true /\ writes_for o t id /\
    rw_history e = [] /\ rw_sent e = [].

Lemma opening_writers b w : opening (b, w) ->
  NoDup (writers_of b) /\ (forall p, p ∈ writers_of b -> exists k, writer_slot b k = Some p) /\
  (forall r, r ∈ readers_of b -> exists k, reader_slot b k = Some r).
Proof.
  intros [_ _ _ Hw Hr [M1 M2] [N1 N2]]. cbn [fst snd] in *.
  assert (forall k k' p, writer_slot b k = Some p -> writer_slot b k' = Some p -> k = k') as Hinj.
  { intros k k' p H1 H2. destruct (wm_made _ _ _ Hw k p H1) as (o & a & e & Hs & _). by eapply (wm_entities _ _ _ Hw). }
  assert (forall p, p ∈ values (request_writers_ b) -> exists id, writer_slot b (true, id) = Some p) as F1
    by (intros p (id & Hf)%values_find; [by exists id|done]).
  assert (forall p, p ∈ values (reply_writers_ b) -> exists id, writer_slot b (false, id) = Some p) as F2
    by (intros p (id & Hf)%values_find; [by exists id|done]).
  split_and!.
  - apply NoDup_app. split_and!.
    + apply values_NoDup; [done|]. intros id id' p H1 H2. by assert ((true, id) = (true, id')) as [= ->] by (by eapply Hinj).
    + intros p (id & H1)%F1 (id' & H2)%F2. by assert ((true, id) = (false, id')) as [=] by (by eapply Hinj).
    + apply values_NoDup; [done|]. intros id id' p H1 H2. by assert ((false, id) = (false, id')) as [= ->] by (by eapply Hinj).
  - intros p [(id & Hp)%F1|(id & Hp)%F2]%elem_of_app; eauto.
  - intros r [(id & Hf)%values_find|(id & Hf)%values_find]%elem_of_app; try done; [by exists (true, id)|by exists (false, id)].
Qed.

(** Everything made and enabled: the readers are connected to the writers. *)
Lemma opened_connected b1 w1 v b k r L H0 :
  opening (b1, w1) -> enabling (rp_world w1) v -> writers_of b = writers_of b1 ->
  (forall p, p ∈ writers_of b1 -> writer_enabled v p) -> reader_enabled v r ->
  shared_ok this_pool (wd_heap (rp_world w0)) (wd_pool (rp_world w0)) [] L H0 -> wd_aborted (rp_world w0) = None ->
  reader_slot b1 k = Some r -> reader_open b v r (topic_of_reader topic k) k.2 L H0.
Proof.
  intros Ho Hen Hwb Hws Hrd Hmem Hab Hk. pose proof (opening_writers b1 w1 Ho) as (Hnd & Hslot & _).
  destruct Ho as [(Mh & Mp & Ma) _ _ [Wm Wi] Hr _ _]. cbn [fst snd] in *.
  pose proof Hen as [(Eh & Ep & Ea) [Er _] _ Ero]. destruct (Hr k r Hk) as (o & a & e & Hor & Hoa & He & Hu & Ht & Hid).
  assert (forall p, p ∈ writers_of b1 -> exists k o a e, writer_slot b1 k = Some p /\ simple_at v p = Some (o, a, e) /\
    rw_history e = [] /\ (exists o1, simple_at (rp_world w1) p = Some (o1, a, e)) /\ bw_enabled_ (cw_base o) = true) as Hmade.
  { intros p Hp. destruct (Hslot p Hp) as (kp & Hkp). destruct (Wm kp p Hkp) as (op & ap & ep & Hs & [Hh _] & _).
    destruct (simple_enabling _ _ _ _ _ _ Hen Hs) as (o' & Hs' & _). exists kp, o', ap, ep. split_and!; try done; [by exists op|].
    destruct (Hws p Hp) as (o2 & Ho2 & He2). destruct (simple_at_writes _ _ _ _ _ Hs') as [Ho3 _]. congruence. }
  destruct (Ero r o Hor) as (o' & Hor' & Ho'). destruct Hrd as (o2 & Ho2 & He2). assert (o2 = o') as -> by congruence.
  assert (rtps_reader_ o' = Some a /\ br_topic_ (cr_base o') = topic_of_reader topic k /\ br_participant_id_ (cr_base o') = k.2)
    as (Hoa' & Ht' & Hid').
  { destruct Ho' as [-> | ->]; [done|]. unfold cr_enabled. by destruct (negb _). }
  unfold reader_open. rewrite Hwb. split; [|by exists o']. split.
  - exists o', a, e. rewrite Er. by split_and!.
  - apply Forall_forall. intros p Hp. destruct (Hmade p Hp) as (_ & op & ap & ep & _ & Hs & Hh & _ & Henp).
    exists op, ap, ep. split_and!; try done; [by rewrite Hh|by apply empty_not_full].
  - intros p p' op op' ap ep ep' Hp Hp' Hs Hs'.
    destruct (Hmade p Hp) as (kp & ? & ? & ? & Hkp & E1 & _ & (q1 & Q1) & _), (Hmade p' Hp') as (kp' & ? & ? & ? & Hkp' & E2 & _ & (q2 & Q2) & _).
    rewrite Hs in E1. rewrite Hs' in E2. injection E1 as <- <- <-. injection E2 as <- <- <-.
    assert (kp = kp') as -> by (by eapply Wi). congruence.
  - rewrite Eh, Ep, Mh, Mp. apply shared_ok_empty; [done|]. apply Forall_cons. split; [done|]. apply Forall_fmap, Forall_forall.
    intros p Hp. destruct (Hmade p Hp) as (_ & op & ap & ep & _ & Hs & Hh & _). unfold compose, history_of. by rewrite Hs.
  - by rewrite Ea, Ma.
Qed.

Lemma opened_writes b1 w1 v k p :
  opening (b1, w1) -> enabling (rp_world w1) v -> writer_enabled v p -> writer_slot b1 k = Some p ->
  writer_open v p (topic_of_writer topic k) k.2.
Proof.
  intros Ho Hen (o2 & Ho2 & He2) Hk. destruct (wm_made _ _ _ (og_writers _ Ho) k p Hk) as (o & a & e & Hs & [Hh Hst] & Hfor).
  destruct (simple_enabling _ _ _ _ _ _ Hen Hs) as (o' & Hs' & Ho').
  destruct (simple_at_writes _ _ _ _ _ Hs') as [Ho3 _]. assert (o2 = o') as -> by congruence.
  exists o', a, e. split_and!; try done; destruct Hfor; destruct Ho' as [-> | ->]; try done;
    unfold cw_enable, bw_enable; by destruct (negb _).
Qed.

(** ** Properties *)

(** C18: opening the bridge of a service whose topics have neither partitions nor ownership,
    in a router where every participant is stored under the id it is configured with.  The
    first [enable] that succeeds makes in every RTPS participant a proxy client, with a
    writer of the request topic and a reader of the reply topic, and a proxy server, with a
    writer of the reply topic and a reader of the request topic, all of that participant
    and enabled.  Each writer has an entity of Fast DDS of its own, which has sent nothing;
    every reader is empty and connected to all the writers, the pool has given nothing
    more, and no exception nor undefined behaviour happened.  The registry of a
    participant is enabled if and only if a server is known there. *)
Theorem rpc_rtps_opens b0 b w L H0 :
  not_opened b0 -> shared_ok this_pool (wd_heap (rp_world w0)) (wd_pool (rp_world w0)) [] L H0 ->
  wd_aborted (rp_world w0) = None ->
  rpc_enable (b0, w0) = (Ok tt, (b, w)) -> r_enabled_ b = true ->
  NoDup (writers_of b) /\
  forall id, id ∈ set_elems (get_rtps_participants_ids w0) ->
    (exists p, find id (request_writers_ b) = Some p /\ writer_open (rp_world w) p (request_topic topic) id) /\
    (exists p, find id (reply_writers_ b) = Some p /\ writer_open (rp_world w) p (reply_topic topic) id) /\
    (exists r, find id (request_readers_ b) = Some r /\ reader_open b (rp_world w) r (request_topic topic) id L H0) /\
    (exists r, find id (reply_readers_ b) = Some r /\ reader_open b (rp_world w) r (reply_topic topic) id L H0) /\
    exists reg, find id (service_registries_ b) = Some reg /\ registry_ reg = [] /\
      (ServiceRegistry.enabled_ reg = true <-> servers_of id b0 <> []).
Proof.
  intros Hno Hmem Hab Hrun Hb. destruct (rpc_enable_inv b0 b w Hno Hrun Hb) as (b1 & w1 & Hinit & Hen).
  destruct (init_run b0 b1 w1 Hno Hinit) as (Ho & Hp & Hserv).
  pose proof (opening_writers b1 w1 Ho) as (Hnd & Hws & Hrs).
  destruct (enable_endpoints_run b1 w1) as (w2 & Hrun2 & Henb & Hwen & Hren).
  { intros p (k & Hk)%Hws. destruct (wm_made _ _ _ (og_writers _ Ho) k p Hk) as (o & a & e & [Hw _]%simple_at_writes & _). by exists o. }
  { intros r (k & Hk)%Hrs. destruct (og_readers _ Ho k r Hk) as (o & a & e & H1 & H2 & H3 & _). by exists o, a, e. }
  rewrite Hen in Hrun2. injection Hrun2 as -> ->. split; [exact Hnd|]. intros id Hid.
  destruct (Hp id Hid) as ([[p1 Hw1] [r1 Hr1]] & [[p2 Hw2] [r2 Hr2]] & Hreg).
  assert (forall k r, reader_slot b1 k = Some r -> r ∈ readers_of b1) as Hin.
  { intros [[] id'] r Hk; unfold reader_slot in Hk; cbn in Hk; apply find_elem_of in Hk as (k' & _ & Hk);
      unfold readers_of, values; apply elem_of_app; [left|right]; apply list_elem_of_fmap; by exists (k', r). }
  assert (forall k r, reader_slot b1 k = Some r ->
    reader_open (r_set_enabled true b1) (rp_world w2) r (topic_of_reader topic k) k.2 L H0) as Hopen.
  { intros k r Hk. eapply opened_connected; try done. by apply Hren, (Hin k). }
  assert (forall k p, writer_slot b1 k = Some p -> writer_open (rp_world w2) p (topic_of_writer topic k) k.2) as Hwopen.
  { intros k p Hk. eapply opened_writes; try done. apply Hwen.
    destruct k as [[] id']; unfold writer_slot in Hk; cbn in Hk; apply find_elem_of in Hk as (k' & _ & Hk);
      unfold writers_of, values; apply elem_of_app; [left|right]; apply list_elem_of_fmap; by exists (k', p). }
  split; [exists p1; split; [exact Hw1|exact (Hwopen (true, id) p1 Hw1)]|].
  split; [exists p2; split; [exact Hw2|exact (Hwopen (false, id) p2 Hw2)]|]. split; [exists r2; split; [exact Hr2|exact (Hopen (false, id) r2 Hr2)]|].
  split; [exists r1; split; [exact Hr1|exact (Hopen (true, id) r1 Hr1)]|]. eexists. split; [exact Hreg|].
  rewrite Hserv. unfold opened_registry. by destruct (servers_of id b0).
Qed.

End Opening.

(** ** Witnesses *)
Section Witnesses.
#[local] Existing Instances Demo.cpp_utils Demo.cpp_utils_laws Demo.fast_dds Demo.fast_dds_laws Demo.dbqueue
  PoolDemo.malloc PoolDemo.malloc_laws ReaderDemo.readers ReaderDemo.readers_laws
  WriterDemo.writers WriterDemo.writers_laws.
#[local] Instance demo_methods : PoolMethods := FastPayloadPool.methods 7.
#[local] Instance demo_spec : PoolSpec 7 := FastPayloadPoolSpec.fast_pool_spec 7.
#[local] Instance demo_rpc : RpcWorld (rpworld (C := unit)) :=
  rtps_rpc_world 7 WriterDemo.default_params WriterDemo.dta WriterDemo.dq demo_default.

(** The bridge of a service with a server in the participant [b] of [RtpsBridge.v]. *)
Definition demo_found : RPCBridge :=
  (exec (discovered_service demo_b [9%Z]) (RPCBridge_new RpcDemo.service, demo_rpworld)).1.
Definition demo_opened : outcome unit * rpc_state := rpc_enable (demo_found, demo_rpworld).

Lemma demo_opened_ok : rpc_enable (demo_found, demo_rpworld) = (Ok tt, (demo_opened.2.1, demo_opened.2.2)).
Proof.
  assert (is_ok demo_opened.1 = true) as Hok by (vm_compute; reflexivity).
  change (demo_opened = (Ok tt, (demo_opened.2.1, demo_opened.2.2))).
  destruct demo_opened as [[[]|e] [b w]]; [reflexivity|discriminate Hok].
Qed.

Lemma demo_ids_right id c g : participant_of demo_rpworld id = Some (c, g) -> conf_id c = id.
Proof.
  unfold participant_of. destruct (find id (rp_participants demo_rpworld)) as [p|] eqn:Hf; [|done].
  apply find_elem_of in Hf as (k & Hk & Hin). apply ParticipantId_keqv in Hk. subst k. intros [= <- _].
  apply list_elem_of_In in Hin as [[= <- <-]|[[= <- <-]|[]]]; reflexivity.
Qed.

Lemma rpc_rtps_opens_witness :
  NoDup (writers_of demo_opened.2.1) /\
  (exists p, find demo_b (request_writers_ demo_opened.2.1) = Some p /\
     writer_open (rp_world demo_opened.2.2) p (request_topic RpcDemo.service) demo_b) /\
  exists reg, find demo_b (service_registries_ demo_opened.2.1) = Some reg /\ ServiceRegistry.enabled_ reg = true.
Proof.
  destruct (rpc_rtps_opens 7 WriterDemo.default_params WriterDemo.dta WriterDemo.dq demo_default RpcDemo.service
    (conj eq_refl eq_refl) demo_rpworld demo_ids_right demo_found demo_opened.2.1 demo_opened.2.2 [0] ∅) as [Hnd Hall].
  - split; vm_compute; try reflexivity; split; reflexivity.
  - exact demo_memory0.
  - reflexivity.
  - exact demo_opened_ok.
  - vm_compute. reflexivity.
  - split; [exact Hnd|]. destruct (Hall demo_b) as (Hw & _ & _ & _ & reg & Hreg & _ & Hiff).
    + apply (bool_decide_unpack _). vm_compute. exact I.
    + split; [exact Hw|]. exists reg. split; [exact Hreg|]. apply Hiff. vm_compute. discriminate.
Defined.

End Witnesses.
