(* ===== verification/Texts.v ===== *)
(** * What the router prints

    The [operator <<] of the types of [types/], of the endpoints and of the
    communications, as the text they write; the lines that an echo participant shows to
    the user; and what can be read back from them.

    The operators of Fast DDS and cpp_utils that they call are a parameter. *)
From stdpp Require Import pretty.
From Stdlib Require Import Ascii.
From S2P Require Import Prelude StdMap CppString Externals Types Topics Endpoint AllowedTopicList DiscoveryDatabase PayloadPool Track Auxiliar Address Configuration Participants DDSBridge RPCBridge Yaml.

Class Printers {CU : CppUtils} := {
  (** [operator <<] of [GUID_t], [GuidPrefix_t] and [InstanceHandle_t] *)
  guid_text : Guid -> string;
  guid_prefix_text : GuidPrefix -> string;
  handle_text : InstanceHandle -> string;
  (** [operator <<] of [utils::Fuzzy<T>], given that of [T] *)
  fuzzy_text : forall {A}, (A -> string) -> Fuzzy A -> string;
  (** [utils::container_to_stream<T, true>], given the texts of the elements *)
  container_text : list string -> string;
  (** [operator <<] of an enumeration made by [ENUMERATION_BUILDER] *)
  endpoint_kind_text : EndpointKind -> string
}.

(** ** The texts *)
Section Texts.
Context {CU : CppUtils} {FD : FastDDS} {PR : Printers}.

Definition ParticipantId_text (id : ParticipantId) : string := "ParticipantId{" +:+ id_ id +:+ "}".

Definition PARTICIPANT_KIND_STRINGS : list string :=
  ["invalid"; "blank"; "echo"; "dummy"; "simple-rtps"; "local-discovery-server"; "wan-ds"; "wan-initial-peers"].

(** [static_cast<ParticipantKindType>(kind)] *)
Definition kind_index (k : ParticipantKind) : nat :=
  match k with
  | kind_invalid => 0 | kind_blank => 1 | kind_echo => 2 | kind_dummy => 3 | kind_simple_rtps => 4
  | kind_local_discovery_server => 5 | kind_wan_discovery_server => 6 | kind_wan_initial_peers => 7
  end.

(** [None] is the call of [utils::tsnh]. *)
Definition ParticipantKind_text (k : ParticipantKind) : option string :=
  PARTICIPANT_KIND_STRINGS !! kind_index k.

Definition DomainId_text (d : DomainId) : string := "DomainId{" +:+ pretty (domain_id_ d) +:+ "}".

Definition DurabilityKind_text (k : DurabilityKind) : string :=
  match k with
  | VOLATILE => "VOLATILE"
  | TRANSIENT_LOCAL => "TRANSIENT_LOCAL"
  | TRANSIENT => "TRANSIENT"
  | PERSISTENT => "PERSISTENT"
  end.

Definition ReliabilityKind_text (k : ReliabilityKind) : string :=
  match k with RELIABLE => "RELIABLE" | BEST_EFFORT => "BEST_EFFORT" end.

Definition OwnershipKind_text (k : OwnershipKind) : string :=
  match k with SHARED_OWNERSHIP => "SHARED" | EXCLUSIVE_OWNERSHIP => "EXCLUSIVE" end.

Definition TopicQoS_text (qos : TopicQoS) : string :=
  "TopicQoS{" +:+ DurabilityKind_text (durability_qos qos) +:+
  ";" +:+ ReliabilityKind_text (reliability_qos qos) +:+
  ";" +:+ OwnershipKind_text (ownership_qos qos) +:+
  (if has_partitions qos then ";partitions" else "") +:+
  ";depth(" +:+ pretty (history_depth qos) +:+ ")" +:+
  "}".

(** [TopicQoS::operator ==] *)
Definition TopicQoS_eqb (a b : TopicQoS) : bool :=
  bool_decide (reliability_qos a = reliability_qos b) &&
  bool_decide (durability_qos a = durability_qos b) &&
  (history_depth a =? history_depth b)%Z &&
  bool_decide (ownership_qos a = ownership_qos b) &&
  Bool.eqb (use_partitions a) (use_partitions b).

Definition Partitions_text (qos : list string) : string :=
  "Partitions{" +:+ fold_right (fun p acc => p +:+ ";" +:+ acc) "" qos +:+ "}".
Definition OwnershipStrength_text (strength : Z) : string := "OwnershipStrength{" +:+ pretty strength +:+ "}".
Definition SpecificEndpointQoS_text (qos : SpecificEndpointQoS) : string :=
  "SpecificEndpointQoS{" +:+ Partitions_text (partitions qos) +:+
  ";" +:+ OwnershipStrength_text (ownership_strength qos) +:+ "}".

Definition DataProperties_text (qos : DataProperties) : string :=
  "DataProperties{" +:+ SpecificEndpointQoS_text (writer_qos qos) +:+ ";" +:+ handle_text (instanceHandle qos) +:+ "}".

(** [DataProperties::operator <] and [DataProperties::operator ==] *)
Definition DataProperties_lt (a b : DataProperties) : bool :=
  if less (writer_qos a) (writer_qos b) then true
  else if SpecificEndpointQoS_eqb (writer_qos a) (writer_qos b)
  then instance_handle_lt (instanceHandle a) (instanceHandle b)
  else false.
Definition DataProperties_eqb (a b : DataProperties) : bool :=
  SpecificEndpointQoS_eqb (writer_qos a) (writer_qos b) && bool_decide (instanceHandle a = instanceHandle b).

(** *** Payloads *)

(** [std::hex << std::setfill('0') << std::setw(2)] of an octet *)
Definition hex_digit (n : Z) : ascii :=
  ascii_of_nat (Z.to_nat (if (n <? 10)%Z then 48 + n else 87 + n)).
Definition octet_text (octet : Z) : string :=
  String (hex_digit (octet / 16)) (String (hex_digit (octet `mod` 16)) "").

(** The loop, and the last octet without a space after it. *)
Fixpoint octets_text (data : list Z) : string :=
  match data with
  | [] => ""
  | [octet] => octet_text octet
  | octet :: data' => octet_text octet +:+ " " +:+ octets_text data'
  end.
Definition Payload_text (data : list Z) : string := "Payload{" +:+ octets_text data +:+ "}".

(** *** Topics and endpoints *)

Definition Topic_text (topic_name : string) : string := "Topic{" +:+ topic_name +:+ "}".
Definition DdsTopic_text (t : DdsTopic) : string :=
  let keyed_str := if keyed t then ";keyed;" else ";" in
  "DdsTopic{" +:+ topic_name t +:+ ";" +:+ type_name t +:+ keyed_str +:+
  fuzzy_text TopicQoS_text (topic_qos t) +:+ "}".
Definition RPCTopic_text (a : RPCTopic) : string := "RPCTopic{" +:+ service_name a +:+ "}".

Definition Endpoint_text (e : Endpoint) : string :=
  let active_str := if active_ e then "Active" else "Inactive" in
  "Endpoint{" +:+ guid_text (guid_ e) +:+
  ";" +:+ endpoint_kind_text (kind_ e) +:+
  ";" +:+ DdsTopic_text (Endpoint.topic_ e) +:+
  ";" +:+ SpecificEndpointQoS_text (specific_qos_ e) +:+
  ";" +:+ active_str +:+
  ";" +:+ ParticipantId_text (discoverer_participant_id_ e) +:+
  "}".

(** The elements are pointers, and what they point to is printed. *)
Definition AllowedTopicList_text {F : Type} {FT : DdsFilterTopic F} (atl : AllowedTopicList F) : string :=
  "AllowedTopicList{" +:+ "allowed" +:+
  container_text ((fun p => filter_serialize p.2) <$> set_elems (allowlist_ atl)) +:+
  "blocked" +:+
  container_text ((fun p => filter_serialize p.2) <$> set_elems (blocklist_ atl)) +:+ "}".

Definition Address_text (a : Address) : string :=
  "{" +:+ (if has_domain_ a then domain_ a +:+ "(" +:+ ip_ a +:+ ");" else ip_ a +:+ ";") +:+
  pretty (port_ a) +:+ ";" +:+ (if is_udp a then "udp}" else "tcp}").

Definition ConnectionAddress_text (c : DiscoveryServerConnectionAddress) : string :=
  "{{" +:+ guid_prefix_text (discovery_server_guid_prefix_ c) +:+ "}[" +:+
  fold_right (fun a acc => Address_text a +:+ "," +:+ acc) "" (set_elems (addresses_ c)) +:+ "]}".

(** *** Objects *)

Definition BaseReader_text (r : BaseReader) : string :=
  "Reader{" +:+ ParticipantId_text (br_participant_id_ r) +:+ ";" +:+ DdsTopic_text (br_topic_ r) +:+ "}".
Definition BaseWriter_text (w : BaseWriter) : string :=
  "Writer{" +:+ ParticipantId_text (bw_participant_id_ w) +:+ ";" +:+ DdsTopic_text (bw_topic_ w) +:+ "}".
Definition Track_text (t : Track) : string :=
  "Track{" +:+ DdsTopic_text (Track.topic_ t) +:+ ";" +:+ ParticipantId_text (reader_participant_id_ t) +:+ "}".
Definition DDSBridge_text (b : DDSBridge) : string := "DDSBridge{" +:+ DdsTopic_text (b_topic_ b) +:+ "}".
Definition RPCBridge_text (b : RPCBridge) : string := "RPCBridge{" +:+ RPCTopic_text (r_topic_ b) +:+ "}".
Definition BaseParticipant_text (c : BaseConf) : option string :=
  k ← ParticipantKind_text (conf_kind c);
  Some ("{" +:+ ParticipantId_text (conf_id c) +:+ ";" +:+ k +:+ "}").

(** [operator <<] of [YamlReaderVersion] *)
Definition YamlReaderVersion_text (v : YamlReaderVersion) : string :=
  match v with
  | V_1_0 => VERSION_TAG_V_1_0
  | V_2_0 => VERSION_TAG_V_2_0
  | V_3_0 | LATEST => VERSION_TAG_V_3_0
  end.

(** *** The echo participant *)

(** The line that [EchoWriter::write] shows; [data] are the bytes of the payload. *)
Definition echo_text (l : echo_line) (data : list Z) : string :=
  match l with
  | echo_brief receiver topic =>
      "Received data in Participant: " +:+ ParticipantId_text receiver +:+
      " in topic: " +:+ DdsTopic_text topic +:+ "."
  | echo_verbose source receiver topic _ qos =>
      "In Endpoint: " +:+ guid_text source +:+
      " from Participant: " +:+ ParticipantId_text receiver +:+
      " in topic: " +:+ DdsTopic_text topic +:+
      " payload received: " +:+ Payload_text data +:+
      " with specific qos: " +:+ SpecificEndpointQoS_text qos +:+ "."
  end.

(** [EchoParticipant::echo_discovery] *)
Definition echo_discovery_text (endpoint_discovered : Endpoint) : string :=
  "New endpoint discovered: " +:+ Endpoint_text endpoint_discovered +:+ ".".

End Texts.

(** ** Properties *)

(** [c] does not occur in [s]. *)
Fixpoint lacks (c : ascii) (s : string) : bool :=
  match s with
  | "" => true
  | String c' s' => negb (Ascii.eqb c c') && lacks c s'
  end.

(** What is before the first separator, and what is after it. *)
Lemma separator_inj c s1 s2 r1 r2 :
  lacks c s1 = true -> lacks c s2 = true -> s1 +:+ String c r1 = s2 +:+ String c r2 -> s1 = s2 /\ r1 = r2.
Proof.
  revert s2. induction s1 as [|a s1 IH]; intros [|b s2]; simpl; rewrite ?andb_true_iff, ?negb_true_iff.
  - intros _ _ [= ->]. done.
  - intros _ [Hb _] [= -> _]. by rewrite Ascii.eqb_refl in Hb.
  - intros [Ha _] _ [= -> _]. by rewrite Ascii.eqb_refl in Ha.
  - intros [_ H1] [_ H2] [= -> E]. destruct (IH s2 H1 H2 E) as [-> ->]. done.
Qed.

Lemma app_inj_r s t u : s +:+ u = t +:+ u -> s = t.
Proof.
  revert t. induction s as [|a s IH]; intros [|b t] E; [done|..].
  - apply (f_equal String.length) in E. rewrite !string_length_app in E. simpl in E. lia.
  - apply (f_equal String.length) in E. rewrite !string_length_app in E. simpl in E. lia.
  - injection E as -> E. by rewrite (IH t E).
Qed.

Lemma lacks_durability k : lacks ";" (DurabilityKind_text k) = true.
Proof. by destruct k. Qed.
Lemma lacks_reliability k : lacks ";" (ReliabilityKind_text k) = true.
Proof. by destruct k. Qed.
Lemma lacks_ownership k : lacks ";" (OwnershipKind_text k) = true.
Proof. by destruct k. Qed.

(** The text of the QoS of a topic says all of it: two that print the same are the
    same, for [operator ==] too. *)
Theorem TopicQoS_text_inj a b :
  TopicQoS_text a = TopicQoS_text b -> a = b /\ TopicQoS_eqb a b = true.
Proof.
  intros E. assert (a = b) as ->.
  { unfold TopicQoS_text in E. apply string_app_inj_l in E.
    apply separator_inj in E as [Ed E]; [|apply lacks_durability..].
    apply separator_inj in E as [Er E]; [|apply lacks_reliability..].
    destruct a as [d1 r1 o1 p1 h1], b as [d2 r2 o2 p2 h2]. unfold has_partitions in E. simpl in *.
    assert (o1 = o2 /\ p1 = p2 /\ pretty h1 +:+ ")}" = pretty h2 +:+ ")}") as (-> & -> & Eh).
    { destruct o1, o2, p1, p2; try discriminate E; (split; [done|split; [done|]]); by injection E. }
    apply app_inj_r, (inj pretty) in Eh as ->.
    assert (d1 = d2) as -> by (by destruct d1, d2). assert (r1 = r2) as -> by (by destruct r1, r2). done. }
  split; [done|]. unfold TopicQoS_eqb. rewrite !bool_decide_eq_true_2, Z.eqb_refl, Bool.eqb_reflx by done. done.
Qed.

(** *** Payloads *)

Definition hex_value (c : ascii) : option Z :=
  let n := Z.of_nat (nat_of_ascii c) in
  if (48 <=? n)%Z && (n <=? 57)%Z then Some (n - 48)%Z
  else if (97 <=? n)%Z && (n <=? 102)%Z then Some (n - 87)%Z
  else None.

(** Reads the octets back. *)
Fixpoint parse_octets (s : string) : option (list Z) :=
  match s with
  | "" => Some []
  | String a (String b s') =>
      x ← hex_value a; y ← hex_value b;
      match s' with
      | "" => Some [16 * x + y]%Z
      | String " " s'' => l ← parse_octets s''; Some (16 * x + y :: l)%Z
      | _ => None
      end
  | _ => None
  end.

Definition is_octet (z : Z) : Prop := (0 <= z < 256)%Z.

Lemma hex_value_digit n : (0 <= n < 16)%Z -> hex_value (hex_digit n) = Some n.
Proof.
  intros Hn. assert (n ∈ seqZ 0 16) as Hin by (apply elem_of_seqZ; lia). clear Hn. revert n Hin.
  apply Forall_forall. repeat constructor.
Qed.

Lemma octets_text_cons z z' l : octets_text (z :: z' :: l) =
  String (hex_digit (z / 16)) (String (hex_digit (z `mod` 16)) (String " " (octets_text (z' :: l)))).
Proof. done. Qed.

Lemma parse_octets_cons a b s : parse_octets (String a (String b (String " " s))) =
  (x ← hex_value a; y ← hex_value b; l ← parse_octets s; Some (16 * x + y :: l)%Z).
Proof. done. Qed.

Lemma parse_octets_text data : Forall is_octet data -> parse_octets (octets_text data) = Some data.
Proof.
  assert (forall z, is_octet z -> hex_value (hex_digit (z / 16)) = Some (z / 16)%Z /\
    hex_value (hex_digit (z `mod` 16)) = Some (z `mod` 16)%Z /\ (16 * (z / 16) + z `mod` 16 = z)%Z) as Hz.
  { intros z [H0 H1]. split_and!; [apply hex_value_digit..|].
    - split; [by apply Z.div_pos|]. apply Z.div_lt_upper_bound; lia.
    - by apply Z.mod_pos_bound.
    - symmetry. apply Z.div_mod. done. }
  induction 1 as [|z data Hzd Hd IH]; [done|]. destruct (Hz z Hzd) as (H1 & H2 & H3).
  destruct data as [|z' data].
  - unfold octets_text, octet_text. cbn [parse_octets]. rewrite H1, H2. simpl. by rewrite H3.
  - rewrite octets_text_cons, parse_octets_cons, H1, H2, IH. simpl. by rewrite H3.
Qed.

(** What an echo participant shows of a message is the message: the octets between the
    braces are read back as those of the payload, so that two lines for different
    messages differ. *)
Theorem echo_shows_message data data' :
  Forall is_octet data -> Forall is_octet data' ->
  parse_octets (octets_text data) = Some data /\ (Payload_text data = Payload_text data' -> data = data').
Proof.
  intros Hd Hd'. split; [by apply parse_octets_text|]. unfold Payload_text.
  intros E%string_app_inj_l%app_inj_r. apply (f_equal parse_octets) in E.
  rewrite !parse_octets_text in E by done. by injection E.
Qed.

(** *** The discoveries that an echo participant shows *)
Section EchoDiscovery.
Context {CU : CppUtils} {FD : FastDDS} {FL : FastDDSLaws} {DQ : DBQueueOps} {DL : DBQueueLaws} {PR : Printers}.

(** The lines shown to the user are the state of the callback. *)
Definition echo_discovery (endpoint_discovered : Endpoint) (log : list string) : list string :=
  log ++ [echo_discovery_text endpoint_discovered].

(** The constructor of [EchoParticipant] with the option [echo_discovery]. *)
Definition EchoParticipant_construct (conf_echo_discovery : bool) (d : DiscoveryDatabase (list string)) :
    DiscoveryDatabase (list string) :=
  if conf_echo_discovery then add_endpoint_discovered_callback echo_discovery d else d.

(** The endpoints of a queue of operations that were not known when they were added. *)
Fixpoint discoveries (m : std_map Guid Endpoint) (items : list queue_item) : list Endpoint :=
  match items with
  | [] => []
  | (op, e) :: items' =>
      match op, find (guid_ e) m with
      | op_add, None => e :: discoveries (apply_item m (op, e)) items'
      | _, _ => discoveries (apply_item m (op, e)) items'
      end
  end.

Lemma process_items_cons {C} i items (d : DiscoveryDatabase C) c :
  process_items (i :: items) (d, c) =
    process_items items (set_entities (apply_item (entities_ d) i) d, notify_item d c i).
Proof. done. Qed.

(** The lines, when the only callback is that of the participant, if any. *)
Lemma process_items_log (echoes : bool) items : forall (d : DiscoveryDatabase (list string)) log,
  added_endpoint_callbacks_ d = (if echoes then [echo_discovery] else []) ->
  updated_endpoint_callbacks_ d = [] -> erased_endpoint_callbacks_ d = [] ->
  (process_items items (d, log)).2 =
    log ++ (if echoes then echo_discovery_text <$> discoveries (entities_ d) items else []).
Proof.
  induction items as [|[op e] items IH]; intros d log Ha Hu He; [destruct echoes; by rewrite app_nil_r|].
  rewrite process_items_cons, IH by done.
  cbn [entities_ set_entities discoveries]. unfold notify_item. rewrite Ha, Hu, He.
  destruct op, (find (guid_ e) (entities_ d)), echoes; try done.
  cbn [fold_left]. unfold echo_discovery at 1. by rewrite <- app_assoc.
Qed.

(** A participant that echoes the discovery shows one line for each endpoint, when it
    is added and was not known, in the order of the operations; one without that option
    shows none. *)
Theorem echo_discovery_lines conf_echo_discovery (d : DiscoveryDatabase (list string)) log fuel :
  added_endpoint_callbacks_ d = [] -> updated_endpoint_callbacks_ d = [] -> erased_endpoint_callbacks_ d = [] ->
  length (bg d) <= fuel ->
  exists d', process_queue_ fuel (EchoParticipant_construct conf_echo_discovery d, log) =
    (Ok tt, (d', if conf_echo_discovery
                 then log ++ (echo_discovery_text <$> discoveries (entities_ d) (bg d)) else log)).
Proof.
  intros Ha Hu He Hlen. set (d0 := EchoParticipant_construct conf_echo_discovery d).
  assert (bg d0 = bg d /\ entities_ d0 = entities_ d) as [Hb Hm] by (by destruct conf_echo_discovery).
  destruct (process_queue_drains fuel d0 log) as (d' & Hrun & _); [by rewrite Hb|].
  exists d'. rewrite Hrun. do 2 f_equal. rewrite (process_items_log conf_echo_discovery), Hb.
  - cbn [entities_ set_queue]. rewrite Hm. destruct conf_echo_discovery; [done|]. by rewrite app_nil_r.
  - unfold d0. destruct conf_echo_discovery; simpl; by rewrite Ha.
  - by destruct conf_echo_discovery.
  - by destruct conf_echo_discovery.
Qed.

End EchoDiscovery.

(** *** Names that are read back *)

(** The version written by a document is the one read. *)
Theorem version_text_roundtrip {CU : CppUtils} v n :
  get_version (YScalar (YamlReaderVersion_text v)) n =
    (Ok (match v with LATEST => V_3_0 | _ => v end), n).
Proof. by destruct v. Qed.

Section KindNames.
Context {CU : CppUtils}.
(** The names of the kinds are in lower case, which [to_lowercase] keeps. *)
Context (lowercase_kept : forall s, s ∈ PARTICIPANT_KIND_STRINGS ++ mjoin PARTICIPANT_KIND_ALIASES -> to_lowercase s = s).

(** The names that the router prints for the kinds of participants are names it reads
    as the same kind, but for two: [simple-rtps] and [wan-initial-peers] are printed and not
    accepted. *)
Theorem kind_names_readable k :
  exists s, ParticipantKind_text k = Some s /\
    participant_kind_from_name s =
      match k with
      | kind_simple_rtps | kind_wan_initial_peers => kind_invalid
      | _ => k
      end.
Proof.
  assert (forall s, bool_decide (s ∈ PARTICIPANT_KIND_STRINGS ++ mjoin PARTICIPANT_KIND_ALIASES) = true ->
    to_lowercase s = s) as Hl.
  { intros s Hs%bool_decide_eq_true. by apply lowercase_kept. }
  unfold participant_kind_from_name.
  destruct k; (eexists; split; [reflexivity|]);
    cbn [String.length Nat.eqb kind_from_aliases PARTICIPANT_KIND_ALIASES existsb];
    rewrite !Hl by reflexivity; reflexivity.
Qed.

End KindNames.

(** *** The order of the data properties *)
Section DataOrder.
Context {CU : CppUtils} {FD : FastDDS}.
Context {HW : @StrictWeak InstanceHandle instance_handle_lt}.
Context (handle_keqv : forall a b : InstanceHandle, @keqv InstanceHandle instance_handle_lt a b = true <-> a = b).

Lemma SpecificEndpointQoS_eqb_eq a b : SpecificEndpointQoS_eqb a b = true <-> a = b.
Proof.
  unfold SpecificEndpointQoS_eqb. rewrite andb_true_iff, bool_decide_eq_true, Z.eqb_eq.
  destruct a, b; simpl. naive_solver.
Qed.

Lemma DataProperties_lt_lex a b :
  DataProperties_lt a b =
    lex_less (pull_less writer_qos SpecificEndpointQoS_less) (pull_less instanceHandle instance_handle_lt) a b.
Proof.
  unfold DataProperties_lt, lex_less, pull_less. unfold less at 1.
  destruct (SpecificEndpointQoS_less (writer_qos a) (writer_qos b)) eqn:E1; [done|].
  destruct (SpecificEndpointQoS_eqb (writer_qos a) (writer_qos b)) eqn:E.
  - apply SpecificEndpointQoS_eqb_eq in E. rewrite <- E in *. by rewrite E1.
  - destruct (SpecificEndpointQoS_less (writer_qos b) (writer_qos a)) eqn:E2; [done|].
    assert (writer_qos a = writer_qos b) as Hab
      by (apply SpecificEndpointQoS_keqv; unfold keqv, less; by rewrite E1, E2).
    apply SpecificEndpointQoS_eqb_eq in Hab. congruence.
Qed.

(** [operator <] of the properties of the data is a strict weak order, as the standard
    containers need, and two of them are equivalent for it exactly when [operator ==] says
    that they are equal. *)
Theorem DataProperties_order :
  @StrictWeak DataProperties DataProperties_lt /\
  forall a b, @keqv DataProperties DataProperties_lt a b = DataProperties_eqb a b.
Proof.
  assert (@StrictWeak DataProperties
    (lex_less (pull_less writer_qos SpecificEndpointQoS_less) (pull_less instanceHandle instance_handle_lt))) as [Hi Ha Hn].
  { apply lex_strict_weak; apply pull_strict_weak; apply _. }
  split.
  - split; intros *; unfold less; rewrite !DataProperties_lt_lex; eauto.
  - intros a b. apply eq_true_iff_eq. unfold keqv, less. rewrite !DataProperties_lt_lex.
    match goal with |- context [lex_less ?p ?q a b] =>
      change (@keqv DataProperties (lex_less p q) a b = true <-> DataProperties_eqb a b = true) end.
    rewrite !lex_keqv, !pull_keqv, andb_true_iff, SpecificEndpointQoS_keqv, handle_keqv.
    unfold DataProperties_eqb. by rewrite andb_true_iff, SpecificEndpointQoS_eqb_eq, bool_decide_eq_true.
Qed.

End DataOrder.

(** ** Witnesses *)
Section Witnesses.
#[local] Existing Instances Demo.cpp_utils Demo.fast_dds.

Lemma names_lowercase s :
  s ∈ PARTICIPANT_KIND_STRINGS ++ mjoin PARTICIPANT_KIND_ALIASES -> to_lowercase s = s.
Proof.
  revert s. apply Forall_forall. apply (bool_decide_unpack _). vm_compute. exact I.
Qed.

Lemma kind_names_readable_witness :
  ParticipantKind_text kind_simple_rtps = Some "simple-rtps" /\
  participant_kind_from_name "simple-rtps" = kind_invalid.
Proof.
  destruct (kind_names_readable names_lowercase kind_simple_rtps) as (s & Hs & Hk).
  injection Hs as <-. split; [reflexivity|exact Hk].
Defined.

Lemma echo_shows_message_witness : parse_octets (octets_text [10%Z; 255%Z]) = Some [10%Z; 255%Z].
Proof.
  assert (Forall is_octet [10%Z; 255%Z]) as H by (repeat constructor; vm_compute; done).
  exact (proj1 (echo_shows_message _ _ H H)).
Defined.

Lemma TopicQoS_text_inj_witness : TopicQoS_eqb (TopicQoS_default 5) (TopicQoS_default 5) = true.
Proof. exact (proj2 (TopicQoS_text_inj (TopicQoS_default 5) (TopicQoS_default 5) eq_refl)). Defined.

End Witnesses.
