(* ===== verification/OptionParser.v ===== *)
(** * Parser of the command line

    [thirdparty/optionparser/optionparser.h]: [Parser::workhorse] as [Parser::parse] runs
    it for the tool, that is in POSIX mode ([gnu] is false), without long options after a
    single minus ([single_minus_longopt] is false) and without abbreviations
    ([min_abbr_len] is 0).  The options are stored in the order they come; their names,
    which are kept for the error messages, are not modelled. *)
From Stdlib Require Import Ascii.
From S2P Require Import Prelude.

(** [ArgStatus] *)
Inductive ArgStatus : Type := ARG_NONE | ARG_OK | ARG_IGNORE | ARG_ILLEGAL.

Section Parser.
(** the type of [Descriptor::index] *)
Context {I : Type}.

(** [check_arg] is a function of the argument, that may be null. *)
Record Descriptor : Type := mkDescriptor {
  d_index : I;
  shortopt : string;
  longopt : string;
  check_arg : option string -> ArgStatus
}.

Record Option : Type := mkOption {
  desc : Descriptor;
  arg : option string
}.

Definition index (o : Option) : I := d_index (desc o).

(** [st1] is [st2], or what [st2] has before an equal sign *)
Fixpoint streq (st1 st2 : string) : bool :=
  match st1, st2 with
  | EmptyString, EmptyString => true
  | EmptyString, String c _ => Ascii.eqb c "="
  | String _ _, EmptyString => false
  | String a st1', String b st2' => Ascii.eqb a b && streq st1' st2'
  end.

Fixpoint instr (ch : ascii) (st : string) : bool :=
  match st with
  | EmptyString => false
  | String c st' => Ascii.eqb c ch || instr ch st'
  end.

(** The argument that an option may take: none, the rest of the same word, or the next
    word. *)
Inductive argument : Type :=
| no_argument
| attached (s : string)
| detached (s : string).

Definition argument_text (a : argument) : option string :=
  match a with no_argument => None | attached s | detached s => Some s end.

Definition is_detached (a : argument) : bool := match a with detached _ => true | _ => false end.

Definition next_word (rest : list string) : argument :=
  match rest with [] => no_argument | w :: _ => detached w end.

(** What follows the equal sign *)
Fixpoint after_equal (s : string) : option string :=
  match s with
  | EmptyString => None
  | String c s' => if Ascii.eqb c "=" then Some s' else after_equal s'
  end.

(** The descriptors, up to the null one that ends the array. *)
Context (usage : list Descriptor).

(** The dummy descriptor, which unknown options get. *)
Definition find_unknown : option Descriptor :=
  List.find (fun d => (shortopt d =? "")%string && (longopt d =? "")%string) usage.

Definition find_long (name : string) : option Descriptor :=
  match List.find (fun d => streq (longopt d) name) usage with
  | Some d => Some d
  | None => find_unknown
  end.

Definition find_short (c : ascii) : option Descriptor :=
  match List.find (fun d => instr c (shortopt d)) usage with
  | Some d => Some d
  | None => find_unknown
  end.

(** What an option gives: the option that is stored and whether it took the argument;
    nothing when the argument is illegal. *)
Definition take_option (d : Descriptor) (a : argument) : option (Option * bool) :=
  match check_arg d (argument_text a) with
  | ARG_ILLEGAL => None
  | ARG_OK => Some (mkOption d (argument_text a), true)
  | ARG_IGNORE | ARG_NONE => Some (mkOption d None, false)
  end.

(** The letters of a group of short options.  The result is the options and whether the
    next word was taken. *)
Fixpoint short_options (rest : list string) (param : string) : option (list Option * bool) :=
  match param with
  | EmptyString => Some ([], false)
  | String c param' =>
      let a := match param' with EmptyString => next_word rest | _ => attached param' end in
      match find_short c with
      | None => short_options rest param'
      | Some d =>
          '(o, taken) ← take_option d a;
          if (taken : bool) then Some ([o], is_detached a)
          else '(os, skip) ← short_options rest param'; Some (o :: os, skip)
      end
  end.

Definition long_option (rest : list string) (name : string) : option (list Option * bool) :=
  let a := match after_equal name with Some v => attached v | None => next_word rest end in
  match find_long name with
  | None => Some ([], false)
  | Some d =>
      '(o, taken) ← take_option d a;
      Some ([o], taken && is_detached a)
  end.

(** What a word is; a lone minus is not an option. *)
Inductive word : Type :=
| plain_word
| end_of_options
| long_word (name : string)
| short_word (letters : string).

Definition word_of (param : string) : word :=
  match param with
  | String m (String c s) =>
      if Ascii.eqb m "-" then
        if Ascii.eqb c "-" then match s with EmptyString => end_of_options | _ => long_word s end
        else short_word (String c s)
      else plain_word
  | _ => plain_word
  end.

(** The options and the arguments that are not options; nothing is an error. *)
Fixpoint workhorse (args : list string) : option (list Option * list string) :=
  match args with
  | [] => Some ([], [])
  | param :: rest =>
      let go_on (r : list Option * bool) :=
        match r.2, rest with
        | true, _ :: rest' => '(os, words) ← workhorse rest'; Some (r.1 ++ os, words)
        | _, _ => '(os, words) ← workhorse rest; Some (r.1 ++ os, words)
        end in
      match word_of param with
      | plain_word => Some ([], args)
      | end_of_options => Some ([], rest)
      | long_word name => r ← long_option rest name; go_on r
      | short_word letters => r ← short_options rest letters; go_on r
      end
  end.

(** ** What is parsed is correct *)

(** An option that a descriptor of the usage accepts. *)
Definition accepted (o : Option) : Prop :=
  desc o ∈ usage /\
  match arg o with
  | Some s => check_arg (desc o) (Some s) = ARG_OK
  | None => exists a, check_arg (desc o) a = ARG_NONE \/ check_arg (desc o) a = ARG_IGNORE \/
              (a = None /\ check_arg (desc o) a = ARG_OK)
  end.

Lemma find_in (f : Descriptor -> bool) l d : List.find f l = Some d -> d ∈ l.
Proof. intros H. apply List.find_some in H as [H _]. by apply list_elem_of_In. Qed.

Lemma find_unknown_in d : find_unknown = Some d -> d ∈ usage.
Proof. apply find_in. Qed.

Lemma find_long_in name d : find_long name = Some d -> d ∈ usage.
Proof. unfold find_long. destruct (List.find _ _) eqn:E; [|apply find_unknown_in]. intros [= <-]. by eapply find_in. Qed.

Lemma find_short_in c d : find_short c = Some d -> d ∈ usage.
Proof. unfold find_short. destruct (List.find _ _) eqn:E; [|apply find_unknown_in]. intros [= <-]. by eapply find_in. Qed.

Lemma take_accepted d a o taken : d ∈ usage -> take_option d a = Some (o, taken) -> accepted o.
Proof.
  intros Hd. unfold take_option, accepted.
  destruct (check_arg d (argument_text a)) eqn:E; intros [= <- <-]; (split; [exact Hd|]); cbn [arg desc]; [eauto| |eauto].
  destruct (argument_text a) as [t|] eqn:Et; [done|]. exists None. by right; right.
Qed.

Lemma short_accepted rest param os skip :
  short_options rest param = Some (os, skip) -> Forall accepted os.
Proof.
  revert os skip. induction param as [|c param IH]; intros os skip; cbn [short_options]; [by intros [= <- <-]|].
  destruct (find_short c) as [d|] eqn:Ed; [|apply IH].
  destruct (take_option d _) as [[o taken]|] eqn:Et; [|done]. cbn [mbind option_bind].
  apply find_short_in in Ed. apply (take_accepted _ _ _ _ Ed) in Et.
  destruct taken; [intros [= <- <-]; by constructor|].
  destruct (short_options rest param) as [[os' skip']|] eqn:Es; [|done]. cbn [mbind option_bind].
  intros [= <- <-]. constructor; [exact Et|]. by eapply IH.
Qed.

Lemma long_accepted rest name os skip : long_option rest name = Some (os, skip) -> Forall accepted os.
Proof.
  unfold long_option. destruct (find_long name) as [d|] eqn:Ed; [|by intros [= <- <-]].
  destruct (take_option d _) as [[o taken]|] eqn:Et; [|done]. cbn [mbind option_bind]. intros [= <- <-].
  constructor; [|constructor]. eapply take_accepted; [by eapply find_long_in|exact Et].
Qed.

(** The words left after a first option. *)
Definition left_after (skip : bool) (rest : list string) : list string :=
  if skip then tail rest else rest.

Lemma long_skip rest name os : long_option rest name = Some (os, true) -> rest <> [].
Proof.
  unfold long_option. destruct (find_long name) as [d|]; [|done]. destruct (take_option d _) as [[o taken]|]; [|done].
  cbn [mbind option_bind]. destruct (after_equal name); cbn [is_detached].
  - by rewrite andb_false_r.
  - destruct rest; [|done]. cbn [next_word is_detached]. by rewrite andb_false_r.
Qed.

Lemma short_skip rest param os : short_options rest param = Some (os, true) -> rest <> [].
Proof.
  revert os. induction param as [|c param IH]; intros os; cbn [short_options]; [done|].
  destruct (find_short c) as [d|]; [|apply IH]. destruct (take_option d _) as [[o taken]|]; [|done].
  cbn [mbind option_bind]. destruct taken.
  - destruct param; [|done]. by destruct rest.
  - destruct (short_options rest param) as [[os' skip']|]; [|done]. cbn [mbind option_bind]. intros [= <- ->]. by eapply IH.
Qed.

Lemma workhorse_eq param rest :
  workhorse (param :: rest) =
    match word_of param with
    | plain_word => Some ([], param :: rest)
    | end_of_options => Some ([], rest)
    | long_word name =>
        r ← long_option rest name; '(os, words) ← workhorse (left_after r.2 rest); Some (r.1 ++ os, words)
    | short_word letters =>
        r ← short_options rest letters; '(os, words) ← workhorse (left_after r.2 rest); Some (r.1 ++ os, words)
    end.
Proof.
  cbn [workhorse]. destruct (word_of param) as [| |name|letters]; try done.
  - destruct (long_option rest name) as [[os []]|] eqn:E; try done. apply long_skip in E. by destruct rest.
  - destruct (short_options rest letters) as [[os []]|] eqn:E; try done. apply short_skip in E. by destruct rest.
Qed.

Lemma workhorse_accepted_len n args os words :
  length args <= n -> workhorse args = Some (os, words) -> Forall accepted os.
Proof.
  revert args os words. induction n as [|n IH]; intros [|param rest] os words Hn; try (cbn in Hn; lia);
    try (by intros [= <- <-]).
  rewrite workhorse_eq. cbn [length] in Hn.
  assert (forall skip, length (left_after skip rest) <= n) as Hl.
  { intros []; cbn [left_after]; [|lia]. destruct rest; cbn [tail length] in *; lia. }
  destruct (word_of param) as [| |name|letters]; [by intros [= <- <-]..| |].
  - destruct (long_option rest name) as [[os1 skip]|] eqn:E; [|done]. cbn [mbind option_bind fst snd].
    destruct (workhorse (left_after skip rest)) as [[os2 words2]|] eqn:E2; [|done]. cbn [mbind option_bind].
    intros [= <- <-]. apply Forall_app. split; [by eapply long_accepted|by eapply IH].
  - destruct (short_options rest letters) as [[os1 skip]|] eqn:E; [|done]. cbn [mbind option_bind fst snd].
    destruct (workhorse (left_after skip rest)) as [[os2 words2]|] eqn:E2; [|done]. cbn [mbind option_bind].
    intros [= <- <-]. apply Forall_app. split; [by eapply short_accepted|by eapply IH].
Qed.

(** Every option parsed is one of the usage, with an argument that its check accepts. *)
Lemma workhorse_accepted args os words : workhorse args = Some (os, words) -> Forall accepted os.
Proof. by eapply workhorse_accepted_len. Qed.

(** ** Spellings

    The ways to write an option. *)
Inductive spells (d : Descriptor) : option string -> list string -> Prop :=
| spell_long_flag name :
    word_of ("--" +:+ name) = long_word name -> find_long name = Some d -> after_equal name = None ->
    (forall a, check_arg d a = ARG_NONE) ->
    spells d None ["--" +:+ name]
| spell_long name v :
    word_of ("--" +:+ name) = long_word name -> find_long name = Some d -> after_equal name = None ->
    check_arg d (Some v) = ARG_OK ->
    spells d (Some v) ["--" +:+ name; v]
| spell_long_equal name v :
    word_of ("--" +:+ name) = long_word name -> find_long name = Some d -> after_equal name = Some v ->
    check_arg d (Some v) = ARG_OK ->
    spells d (Some v) ["--" +:+ name]
| spell_short_flag c :
    c <> "-"%char -> find_short c = Some d -> (forall a, check_arg d a = ARG_NONE) ->
    spells d None [String "-" (String c "")]
| spell_short c v :
    c <> "-"%char -> find_short c = Some d -> check_arg d (Some v) = ARG_OK ->
    spells d (Some v) [String "-" (String c ""); v]
| spell_short_attached c v :
    c <> "-"%char -> v <> "" -> find_short c = Some d -> check_arg d (Some v) = ARG_OK ->
    spells d (Some v) [String "-" (String c v)].

Lemma word_of_short c s : c <> "-"%char -> word_of (String "-" (String c s)) = short_word (String c s).
Proof. intros Hc. unfold word_of. rewrite Ascii.eqb_refl. by destruct (Ascii.eqb_spec c "-"). Qed.

(** An option that is spelled first is parsed first, and the rest after it. *)
Lemma workhorse_spelled d v ws rest :
  spells d v ws -> workhorse (ws ++ rest) = '(os, words) ← workhorse rest; Some (mkOption d v :: os, words).
Proof.
  destruct 1 as [name Hw Hf He Hc|name v Hw Hf He Hc|name v Hw Hf He Hc|c Hne Hf Hc|c v Hne Hf Hc|c v Hne Hv Hf Hc];
    cbn [app]; rewrite workhorse_eq, ?Hw, ?word_of_short by done; unfold long_option; cbn [short_options];
    rewrite Hf, ?He; unfold take_option; cbn [argument_text next_word].
  - by rewrite Hc.
  - by rewrite Hc.
  - by rewrite Hc.
  - by rewrite Hc.
  - by rewrite Hc.
  - destruct v; [done|]. cbn [argument_text]. by rewrite Hc.
Qed.

(** Options that are spelled, whichever way, are parsed as they are. *)
Lemma workhorse_spells (l : list (Option * list string)) :
  Forall (fun e => spells (desc e.1) (arg e.1) e.2) l -> workhorse (concat (snd <$> l)) = Some (fst <$> l, []).
Proof.
  induction 1 as [|[[d v] ws] l Hs _ IH]; [done|]. cbn [fmap list_fmap concat fst snd] in *.
  rewrite (workhorse_spelled _ _ _ _ Hs). by rewrite IH.
Qed.

End Parser.

Arguments Descriptor I : clear implicits.
Arguments Option I : clear implicits.
