(* ===== verification/CommandLine.v ===== *)
(** * Arguments of the tool

    [tools/ddsrouter_tool/src/cpp/user_interface]: the options of the command line, the
    checks of their arguments and [parse_arguments].  What is printed is not modelled, nor
    the columns of the help. *)
From Stdlib Require Import Ascii.
From S2P Require Import Prelude OptionParser.

(** ** Libraries

    What is used of [cpp_utils]: [is_file_accessible], the functions that the macro
    [ENUMERATION_BUILDER] makes from the names of an enumeration, and the conversion of a
    [long] to [Duration_ms]; and of Fast DDS the values of [Log::Kind]. *)
Class ToolLibraries := {
  is_file_accessible : string -> bool;
  string_vector : list string -> list string;
  from_string : list string -> string -> option Z;
  Duration_ms : Z -> Z;
  Log_Warning : Z;
  Log_Info : Z
}.

Class ToolLibrariesLaws `{TL : ToolLibraries} : Prop := {
  string_vector_names : forall names, string_vector names = names;
  from_string_names : forall names n, n ∈ names -> is_Some (from_string names n)
}.

(** ** Numbers of the C library *)

(** [isspace]: the space and the characters from tab to carriage return *)
Definition isspace (c : ascii) : bool :=
  let n := nat_of_ascii c in (n =? 32) || ((9 <=? n) && (n <=? 13)).

Definition digit (c : ascii) : option Z :=
  let n := nat_of_ascii c in if (48 <=? n) && (n <=? 57) then Some (Z.of_nat n - 48)%Z else None.

Fixpoint read_digits (acc : Z) (s : string) : Z * string :=
  match s with
  | EmptyString => (acc, s)
  | String c s' => match digit c with Some d => read_digits (10 * acc + d) s' | None => (acc, s) end
  end.

(** The digits there are: none is no conversion. *)
Definition read_number (s : string) : option (Z * string) :=
  match s with
  | String c _ => match digit c with Some _ => Some (read_digits 0 s) | None => None end
  | EmptyString => None
  end.

Fixpoint skip_spaces (s : string) : string :=
  match s with
  | String c s' => if isspace c then skip_spaces s' else s
  | EmptyString => s
  end.

(** [strtol(s, &endptr, 10)]: the number written, before it is limited to the range of
    [long], and what is at [endptr]; nothing when there is no conversion *)
Definition strtol (s : string) : option (Z * string) :=
  match skip_spaces s with
  | String "-" s' => '(n, rest) ← read_number s'; Some ((- n)%Z, rest)
  | String "+" s' => read_number s'
  | s' => read_number s'
  end.

(** [long] has 64 bits *)
Definition long_range (n : Z) : bool := (- 2 ^ 63 <=? n)%Z && (n <? 2 ^ 63)%Z.

(** ** The options *)

Inductive optionIndex : Type :=
| UNKNOWN_OPT | HELP | CONFIGURATION_FILE | RELOAD_TIME | ACTIVATE_DEBUG | VERSION | TIMEOUT | LOG_FILTER
| LOG_VERBOSITY.

#[export] Instance optionIndex_eq_dec : EqDecision optionIndex.
Proof. solve_decision. Defined.

(** [ProcessReturnCode] *)
Inductive ProcessReturnCode : Type :=
| success | help_argument | version_argument | incorrect_argument | required_argument_failed | execution_failed.

#[export] Instance ProcessReturnCode_eq_dec : EqDecision ProcessReturnCode.
Proof. solve_decision. Defined.

Definition return_code_value (c : ProcessReturnCode) : Z :=
  match c with
  | success => 0
  | help_argument => 1
  | version_argument => 2
  | incorrect_argument => 10
  | required_argument_failed => 11
  | execution_failed => 20
  end.

(** [ENUMERATION_BUILDER(LogKind, error, warning, info)] *)
Definition LogKind : list string := ["error"; "warning"; "info"].

(** The variables that [main] gives to [parse_arguments]. *)
Record Arguments : Type := mkArguments {
  file_path : string;
  reload_time : Z;
  timeout : Z;
  log_filter : string;
  log_verbosity : Z
}.

Definition set_file_path (v : string) (a : Arguments) : Arguments :=
  mkArguments v (reload_time a) (timeout a) (log_filter a) (log_verbosity a).
Definition set_reload_time (v : Z) (a : Arguments) : Arguments :=
  mkArguments (file_path a) v (timeout a) (log_filter a) (log_verbosity a).
Definition set_timeout (v : Z) (a : Arguments) : Arguments :=
  mkArguments (file_path a) (reload_time a) v (log_filter a) (log_verbosity a).
Definition set_log_filter (v : string) (a : Arguments) : Arguments :=
  mkArguments (file_path a) (reload_time a) (timeout a) v (log_verbosity a).
Definition set_log_verbosity (v : Z) (a : Arguments) : Arguments :=
  mkArguments (file_path a) (reload_time a) (timeout a) (log_filter a) v.

Section CommandLine.
Context {TL : ToolLibraries}.

(** ** The checks of the arguments *)

Definition arg_None (a : option string) : ArgStatus := ARG_NONE.

Definition arg_Numeric (a : option string) : ArgStatus :=
  match a with
  | None => ARG_ILLEGAL
  | Some s => match strtol s with Some (_, EmptyString) => ARG_OK | _ => ARG_ILLEGAL end
  end.

Definition arg_String (a : option string) : ArgStatus :=
  match a with Some _ => ARG_OK | None => ARG_ILLEGAL end.

Definition arg_Readable_File (a : option string) : ArgStatus :=
  match a with
  | Some s => if is_file_accessible s then ARG_OK else ARG_ILLEGAL
  | None => ARG_ILLEGAL
  end.

Definition arg_Valid_Options (valid_options : list string) (a : option string) : ArgStatus :=
  match a with
  | None => ARG_ILLEGAL
  | Some s => if existsb (fun o => (o =? s)%string) valid_options then ARG_OK else ARG_ILLEGAL
  end.

Definition arg_Log_Kind_Correct_Argument : option string -> ArgStatus := arg_Valid_Options (string_vector LogKind).

(** The descriptors that only print a title are those of an unknown option. *)
Definition usage : list (Descriptor optionIndex) :=
  [mkDescriptor UNKNOWN_OPT "" "" arg_None;
   mkDescriptor UNKNOWN_OPT "" "" arg_None;
   mkDescriptor HELP "h" "help" arg_None;
   mkDescriptor VERSION "v" "version" arg_None;
   mkDescriptor UNKNOWN_OPT "" "" arg_None;
   mkDescriptor CONFIGURATION_FILE "c" "config-path" arg_Readable_File;
   mkDescriptor RELOAD_TIME "r" "reload-time" arg_Numeric;
   mkDescriptor TIMEOUT "t" "timeout" arg_Numeric;
   mkDescriptor UNKNOWN_OPT "" "" arg_None;
   mkDescriptor ACTIVATE_DEBUG "d" "debug" arg_None;
   mkDescriptor LOG_FILTER "" "log-filter" arg_String;
   mkDescriptor LOG_VERBOSITY "" "log-verbosity" arg_Log_Kind_Correct_Argument;
   mkDescriptor UNKNOWN_OPT "" "" arg_None].

(** ** parse_arguments *)

(** [std::stol(s)]: it throws if there is no number or it does not fit a [long] *)
Definition stol (s : string) : prog Arguments Z :=
  match strtol s with
  | None => throw StdException
  | Some (n, _) => if long_range n then mret n else throw StdException
  end.

(** [std::stol(s) * 1000]; the product of two [long] must fit one *)
Definition milliseconds (s : string) : prog Arguments Z :=
  n ← stol s;
  if long_range (n * 1000) then mret (Duration_ms (n * 1000)) else throw UndefinedBehaviour.

(** [opt.arg], which the cases read *)
Definition text_of (o : Option optionIndex) : prog Arguments string :=
  match arg o with Some s => mret s | None => throw UndefinedBehaviour end.

(** The loop over the options; the result says how it is left. *)
Fixpoint process_options (l : list (Option optionIndex)) : prog Arguments ProcessReturnCode :=
  match l with
  | [] => mret success
  | opt :: l' =>
      match index opt with
      | CONFIGURATION_FILE => s ← text_of opt; modify (set_file_path s) ;; process_options l'
      | RELOAD_TIME => s ← text_of opt; t ← milliseconds s; modify (set_reload_time t) ;; process_options l'
      | ACTIVATE_DEBUG =>
          modify (set_log_filter "DDSROUTER") ;; modify (set_log_verbosity Log_Info) ;; process_options l'
      | TIMEOUT => s ← text_of opt; t ← milliseconds s; modify (set_timeout t) ;; process_options l'
      | LOG_FILTER => s ← text_of opt; modify (set_log_filter s) ;; process_options l'
      | LOG_VERBOSITY =>
          s ← text_of opt;
          match from_string LogKind s with
          | Some k => modify (set_log_verbosity k) ;; process_options l'
          | None => throw InitializationException
          end
      | UNKNOWN_OPT => mret incorrect_argument
      | HELP | VERSION => process_options l'
      end
  end.

(** [options[index]] is not null *)
Definition option_given (i : optionIndex) (l : list (Option optionIndex)) : bool :=
  existsb (fun o => bool_decide (index o = i)) l.

Definition parse_arguments (argv : list string) : prog Arguments ProcessReturnCode :=
  match argv with
  | [] => mret incorrect_argument
  | _ :: args =>
      match workhorse usage args with
      | None => mret incorrect_argument
      | Some (options, non_options) =>
          if negb (length non_options =? 0) then mret incorrect_argument
          else if option_given HELP options then mret help_argument
          else if option_given VERSION options then mret version_argument
          else process_options options
      end
  end.

(** ** Properties *)

Context {LL : ToolLibrariesLaws}.

(** An option with the argument that its case reads. *)
Definition well_given (o : Option optionIndex) : Prop :=
  match index o with
  | CONFIGURATION_FILE => exists s, arg o = Some s /\ is_file_accessible s = true
  | RELOAD_TIME | TIMEOUT => exists s n, arg o = Some s /\ strtol s = Some (n, "")
  | LOG_FILTER => exists s, arg o = Some s
  | LOG_VERBOSITY => exists s k, arg o = Some s /\ from_string LogKind s = Some k
  | UNKNOWN_OPT | HELP | VERSION | ACTIVATE_DEBUG => True
  end.

Lemma numeric_ok a : arg_Numeric a = ARG_OK -> exists s n, a = Some s /\ strtol s = Some (n, "").
Proof. destruct a as [s|]; [|done]. cbn. destruct (strtol s) as [[n []]|] eqn:E; [|done..]. intros _. by exists s, n. Qed.

Lemma numeric_status a : arg_Numeric a = ARG_OK \/ arg_Numeric a = ARG_ILLEGAL.
Proof. destruct a as [s|]; [|by right]. cbn. destruct (strtol s) as [[n []]|]; auto. Qed.

Lemma readable_ok a : arg_Readable_File a = ARG_OK -> exists s, a = Some s /\ is_file_accessible s = true.
Proof. destruct a as [s|]; [|done]. cbn. destruct (is_file_accessible s) eqn:E; [|done]. intros _. by exists s. Qed.

Lemma log_kind_ok a :
  arg_Log_Kind_Correct_Argument a = ARG_OK -> exists s k, a = Some s /\ from_string LogKind s = Some k.
Proof.
  destruct a as [s|]; [|done]. cbn. destruct (existsb _ _) eqn:E; [|done]. intros _.
  apply existsb_exists in E as (n & Hn & ->%String.eqb_eq). rewrite string_vector_names in Hn.
  apply list_elem_of_In in Hn. destruct (from_string_names LogKind s Hn) as [k Hk]. by exists s, k.
Qed.

(** A check that takes an argument never accepts an option without one. *)
Definition requires_argument (check : option string -> ArgStatus) : Prop :=
  check None = ARG_ILLEGAL /\ forall a, check a = ARG_OK \/ check a = ARG_ILLEGAL.

Lemma numeric_requires : requires_argument arg_Numeric.
Proof. split; [done|apply numeric_status]. Qed.

Lemma string_requires : requires_argument arg_String.
Proof. split; [done|]. intros [s|]; [by left|by right]. Qed.

Lemma readable_requires : requires_argument arg_Readable_File.
Proof. split; [done|]. intros [s|]; cbn; [destruct (is_file_accessible s); auto|auto]. Qed.

Lemma log_kind_requires : requires_argument arg_Log_Kind_Correct_Argument.
Proof. split; [done|]. intros [s|]; cbn; [destruct (existsb _ _); auto|auto]. Qed.

Lemma accepted_check (o : Option optionIndex) :
  accepted usage o -> requires_argument (check_arg (desc o)) -> check_arg (desc o) (arg o) = ARG_OK.
Proof.
  intros [_ H] [Hn Hs]. destruct (arg o); [done|]. destruct H as (a & [H|[H|[-> H]]]); [| |congruence];
    destruct (Hs a); congruence.
Qed.

Lemma accepted_given o : accepted usage o -> well_given o.
Proof.
  intros H. pose proof (accepted_check o H) as Hc. destruct H as [Hd _]. destruct o as [d a]. unfold well_given, index.
  cbn [desc arg] in *. unfold usage in Hd. repeat (apply elem_of_cons in Hd as [->|Hd]; [cbn [d_index check_arg] in *|]);
    [done..| | | |done|done| | |done|by apply not_elem_of_nil in Hd].
  - apply readable_ok, Hc, readable_requires.
  - apply numeric_ok, Hc, numeric_requires.
  - apply numeric_ok, Hc, numeric_requires.
  - specialize (Hc string_requires). destruct a as [s|]; [by exists s|done].
  - apply log_kind_ok, Hc, log_kind_requires.
Qed.

(** The number written in a text, and whether it can be a time: in milliseconds it fits a
    [long]. *)
Definition number (s : string) : Z := match strtol s with Some (n, _) => n | None => 0 end.

Definition number_fits (o : Option optionIndex) : Prop :=
  match index o, arg o with
  | (RELOAD_TIME | TIMEOUT), Some s => long_range (number s * 1000) = true
  | _, _ => True
  end.

(** What an option asks for. *)
Definition effect (a : Arguments) (o : Option optionIndex) : Arguments :=
  match index o, arg o with
  | CONFIGURATION_FILE, Some s => set_file_path s a
  | RELOAD_TIME, Some s => set_reload_time (Duration_ms (number s * 1000)) a
  | TIMEOUT, Some s => set_timeout (Duration_ms (number s * 1000)) a
  | ACTIVATE_DEBUG, _ => set_log_verbosity Log_Info (set_log_filter "DDSROUTER" a)
  | LOG_FILTER, Some s => set_log_filter s a
  | LOG_VERBOSITY, Some s => set_log_verbosity (default (log_verbosity a) (from_string LogKind s)) a
  | _, _ => a
  end.

(** The options up to the first unknown one. *)
Fixpoint known (l : list (Option optionIndex)) : list (Option optionIndex) :=
  match l with
  | [] => []
  | o :: l' => if bool_decide (index o = UNKNOWN_OPT) then [] else o :: known l'
  end.

Lemma milliseconds_run s n a :
  strtol s = Some (n, "") -> long_range (number s * 1000) = true ->
  milliseconds s a = (Ok (Duration_ms (number s * 1000)), a).
Proof.
  unfold number. intros Hs. rewrite Hs. intros Hf. unfold milliseconds, stol. rewrite Hs.
  assert (long_range n = true) as ->.
  { revert Hf. unfold long_range. rewrite !andb_true_iff, !Z.leb_le, !Z.ltb_lt. lia. }
  unfold mbind, prog_bind, mret, prog_ret. by rewrite Hf.
Qed.

Lemma process_step o l a :
  well_given o -> number_fits o -> index o <> UNKNOWN_OPT -> process_options (o :: l) a = process_options l (effect a o).
Proof.
  unfold well_given, number_fits, effect. cbn [process_options]. unfold text_of.
  destruct (index o); intros Hw Hf Hu; try done.
  - by destruct Hw as (s & -> & _).
  - destruct Hw as (s & n & Hs & Hn). rewrite Hs in *. unfold mbind at 1, prog_bind at 1. cbn.
    by erewrite bind_ok by by eapply milliseconds_run.
  - destruct Hw as (s & n & Hs & Hn). rewrite Hs in *. unfold mbind at 1, prog_bind at 1. cbn.
    by erewrite bind_ok by by eapply milliseconds_run.
  - by destruct Hw as (s & ->).
  - destruct Hw as (s & k & -> & Hk). unfold mbind at 1, prog_bind at 1. cbn. by rewrite Hk.
Qed.

Lemma process_run l a :
  Forall well_given l -> Forall number_fits l ->
  process_options l a =
    (Ok (if option_given UNKNOWN_OPT l then incorrect_argument else success), fold_left effect (known l) a).
Proof.
  intros Hw. revert a. induction Hw as [|o l Ho _ IH]; intros a Hf; [done|].
  apply Forall_cons in Hf as [Hfo Hf]. cbn [option_given existsb known].
  case_bool_decide as Hu; [cbn [process_options]; by rewrite Hu|].
  rewrite process_step by done. apply (IH _ Hf).
Qed.

(** The numbers of a command line fit a [long] in milliseconds. *)
Definition numbers_fit (argv : list string) : Prop :=
  forall options words, workhorse usage (tail argv) = Some (options, words) -> Forall number_fits options.

Lemma effect_file_path a o :
  well_given o -> file_path (effect a o) = file_path a \/ is_file_accessible (file_path (effect a o)) = true.
Proof.
  unfold well_given, effect. destruct (index o), (arg o); auto.
  intros (s' & [= ->] & Hs). by right.
Qed.

Lemma effects_file_path l a :
  Forall well_given l ->
  file_path (fold_left effect l a) = file_path a \/ is_file_accessible (file_path (fold_left effect l a)) = true.
Proof.
  intros H. revert a. induction H as [|o l Ho _ IH]; intros a; [by left|]. cbn [fold_left].
  destruct (IH (effect a o)) as [->|]; [|by right]. by apply effect_file_path.
Qed.

Lemma known_given l : Forall well_given l -> Forall well_given (known l).
Proof. induction 1; cbn [known]; [done|]. case_bool_decide; [constructor|by constructor]. Qed.

Lemma parse_run argv a :
  numbers_fit argv ->
  exists code a', parse_arguments argv a = (Ok code, a') /\
    code ∈ [success; help_argument; version_argument; incorrect_argument] /\
    (code = success -> file_path a' = file_path a \/ is_file_accessible (file_path a') = true).
Proof.
  intros Hfit. unfold parse_arguments, numbers_fit in *.
  destruct argv as [|program args]; [by exists incorrect_argument, a; set_solver|]. cbn [tail] in Hfit.
  destruct (workhorse usage args) as [[options words]|] eqn:E; [|by exists incorrect_argument, a; set_solver].
  destruct (negb _); [by exists incorrect_argument, a; set_solver|].
  destruct (option_given HELP options); [by exists help_argument, a; set_solver|].
  destruct (option_given VERSION options); [by exists version_argument, a; set_solver|].
  assert (Forall well_given options) as Hw.
  { eapply Forall_impl; [by eapply workhorse_accepted|apply accepted_given]. }
  rewrite (process_run _ _ Hw (Hfit _ _ eq_refl)). eexists _, _. split; [reflexivity|]. split.
  - destruct (option_given UNKNOWN_OPT options); set_solver.
  - intros _. by apply effects_file_path, known_given.
Qed.

(** [parse_arguments] always returns.  Whatever the words of the command line, if the
    times fit a [long] in milliseconds, none of the conversions throws and no argument that
    is missing is read; the code is one of those documented, and when it is [success] the
    path of the configuration was left as it was or is that of a file that can be read. *)
Theorem parse_arguments_returns argv a :
  numbers_fit argv ->
  exists code a', parse_arguments argv a = (Ok code, a') /\
    code ∈ [success; help_argument; version_argument; incorrect_argument] /\
    (code = success -> file_path a' = file_path a \/ is_file_accessible (file_path a') = true).
Proof. apply parse_run. Qed.

Lemma known_all l : option_given UNKNOWN_OPT l = false -> known l = l.
Proof.
  induction l as [|o l IH]; [done|]. cbn [option_given existsb known]. intros [-> Hl]%orb_false_iff. by rewrite (IH Hl).
Qed.

(** ** What a user writes

    The options as the help describes them, and what each asks for; said without the
    table of the options and without the parser. *)
Inductive request : Type :=
| ask_config (path : string)
| ask_reload_time (seconds : Z)
| ask_timeout (seconds : Z)
| ask_debug
| ask_log_filter (filter : string)
| ask_log_verbosity (level : string).

Definition asked (a : Arguments) (r : request) : Arguments :=
  match r with
  | ask_config path => set_file_path path a
  | ask_reload_time n => set_reload_time (Duration_ms (n * 1000)) a
  | ask_timeout n => set_timeout (Duration_ms (n * 1000)) a
  | ask_debug => set_log_verbosity Log_Info (set_log_filter "DDSROUTER" a)
  | ask_log_filter f => set_log_filter f a
  | ask_log_verbosity level => set_log_verbosity (default (log_verbosity a) (from_string LogKind level)) a
  end.

(** A file that can be read, a time whose milliseconds are a [long] of 64 bits, a level of
    the log. *)
Definition reasonable (r : request) : Prop :=
  match r with
  | ask_config path => is_file_accessible path = true
  | ask_reload_time n | ask_timeout n => (- 2 ^ 63 <= n * 1000 < 2 ^ 63)%Z
  | ask_log_verbosity level => level = "error" \/ level = "warning" \/ level = "info"
  | ask_debug | ask_log_filter _ => True
  end.

(** The text is a number for the C library, with nothing after it. *)
Definition numeral (v : string) (n : Z) : Prop := strtol v = Some (n, "").

(** The letter and the name of the options with an argument, and the argument. *)
Inductive letter_of : request -> ascii -> string -> Prop :=
| letter_config path : letter_of (ask_config path) "c" path
| letter_reload n v : numeral v n -> letter_of (ask_reload_time n) "r" v
| letter_timeout n v : numeral v n -> letter_of (ask_timeout n) "t" v.

Inductive name_of : request -> string -> string -> Prop :=
| name_config path : name_of (ask_config path) "config-path" path
| name_reload n v : numeral v n -> name_of (ask_reload_time n) "reload-time" v
| name_timeout n v : numeral v n -> name_of (ask_timeout n) "timeout" v
| name_filter f : name_of (ask_log_filter f) "log-filter" f
| name_verbosity level : name_of (ask_log_verbosity level) "log-verbosity" level.

(** The end of a word of short options: [d], or a letter with its argument in the same
    word or in the next; and the words after it. *)
Inductive short_written : request -> string -> list string -> Prop :=
| short_debug : short_written ask_debug "d" []
| short_attached r c v : letter_of r c v -> v <> "" -> short_written r (String c v) []
| short_detached r c v : letter_of r c v -> short_written r (String c "") [v].

Inductive long_written : request -> list string -> Prop :=
| long_debug : long_written ask_debug ["--debug"]
| long_equal r name v : name_of r name v -> long_written r ["--" +:+ name +:+ "=" +:+ v]
| long_detached r name v : name_of r name v -> long_written r ["--" +:+ name; v].

Fixpoint debugs (n : nat) (s : string) : string := match n with 0 => s | S n' => String "d" (debugs n' s) end.

(** A command line: long options, and words of short ones where any number of [d] comes
    before the last. *)
Inductive line : list request -> list string -> Prop :=
| line_end : line [] []
| line_long r ws rs words : long_written r ws -> line rs words -> line (r :: rs) (ws ++ words)
| line_short n r s ws rs words :
    short_written r s ws -> line rs words ->
    line (replicate n ask_debug ++ r :: rs) (String "-" (debugs n s) :: ws ++ words).

(** *** What the parser makes of it *)
Definition descriptor_of (r : request) : Descriptor optionIndex :=
  match r with
  | ask_config _ => mkDescriptor CONFIGURATION_FILE "c" "config-path" arg_Readable_File
  | ask_reload_time _ => mkDescriptor RELOAD_TIME "r" "reload-time" arg_Numeric
  | ask_timeout _ => mkDescriptor TIMEOUT "t" "timeout" arg_Numeric
  | ask_debug => mkDescriptor ACTIVATE_DEBUG "d" "debug" arg_None
  | ask_log_filter _ => mkDescriptor LOG_FILTER "" "log-filter" arg_String
  | ask_log_verbosity _ => mkDescriptor LOG_VERBOSITY "" "log-verbosity" arg_Log_Kind_Correct_Argument
  end.

(** The option stands for the request. *)
Definition stands_for (o : Option optionIndex) (r : request) : Prop :=
  desc o = descriptor_of r /\
  match r, arg o with
  | ask_debug, None => True
  | (ask_config v | ask_log_filter v | ask_log_verbosity v), Some s => s = v
  | (ask_reload_time n | ask_timeout n), Some s => numeral s n
  | _, _ => False
  end.

Lemma log_level_ok level :
  level = "error" \/ level = "warning" \/ level = "info" -> arg_Log_Kind_Correct_Argument (Some level) = ARG_OK.
Proof.
  intros H. unfold arg_Log_Kind_Correct_Argument, arg_Valid_Options. rewrite string_vector_names.
  by destruct H as [-> | [-> | ->]].
Qed.

Lemma name_accepted r name v :
  name_of r name v -> reasonable r ->
  check_arg (descriptor_of r) (Some v) = ARG_OK /\ stands_for (mkOption (descriptor_of r) (Some v)) r.
Proof.
  intros Hn Hr. destruct Hn as [p|n v Hv|n v Hv|f|level]; cbn in *; unfold stands_for; cbn.
  - by rewrite Hr.
  - unfold numeral in Hv. by rewrite Hv.
  - unfold numeral in Hv. by rewrite Hv.
  - done.
  - by split; [apply log_level_ok|].
Qed.

Lemma letter_accepted r c v :
  letter_of r c v -> reasonable r ->
  find_short usage c = Some (descriptor_of r) /\ check_arg (descriptor_of r) (Some v) = ARG_OK /\
  stands_for (mkOption (descriptor_of r) (Some v)) r.
Proof.
  intros Hl Hr. destruct Hl as [p|n v Hv|n v Hv]; (split; [done|]); eapply name_accepted; try done;
    by constructor.
Qed.

Lemma long_spelled r ws :
  long_written r ws -> reasonable r -> exists o, stands_for o r /\ spells usage (desc o) (arg o) ws.
Proof.
  intros Hw Hr. destruct Hw as [|r name v Hn|r name v Hn].
  - exists (mkOption (descriptor_of ask_debug) None). split; [done|]. by apply (spell_long_flag _ _ "debug").
  - destruct (name_accepted _ _ _ Hn Hr) as [Hc Hs]. exists (mkOption (descriptor_of r) (Some v)). split; [done|].
    cbn [desc arg]. apply (spell_long_equal _ _ (name +:+ "=" +:+ v)); try done; by destruct Hn.
  - destruct (name_accepted _ _ _ Hn Hr) as [Hc Hs]. exists (mkOption (descriptor_of r) (Some v)). split; [done|].
    cbn [desc arg]. apply (spell_long _ _ name); try done; by destruct Hn.
Qed.

Lemma short_last r s ws rest :
  short_written r s ws -> reasonable r ->
  exists o, stands_for o r /\ short_options usage (ws ++ rest) s = Some ([o], negb (length ws =? 0)).
Proof.
  intros Hw Hr. destruct Hw as [|r c v Hl Hv|r c v Hl].
  - by exists (mkOption (descriptor_of ask_debug) None).
  - destruct (letter_accepted _ _ _ Hl Hr) as (Hf & Hc & Hs). exists (mkOption (descriptor_of r) (Some v)).
    split; [done|]. cbn [short_options]. rewrite Hf. destruct v; [done|]. unfold take_option. cbn [argument_text].
    by rewrite Hc.
  - destruct (letter_accepted _ _ _ Hl Hr) as (Hf & Hc & Hs). exists (mkOption (descriptor_of r) (Some v)).
    split; [done|]. cbn [short_options app next_word]. rewrite Hf. unfold take_option. cbn [argument_text].
    by rewrite Hc.
Qed.

Lemma short_debugs n s rest os skip :
  short_options usage rest s = Some (os, skip) ->
  short_options usage rest (debugs n s) = Some (replicate n (mkOption (descriptor_of ask_debug) None) ++ os, skip).
Proof.
  intros Hs. induction n as [|n IH]; [done|]. cbn [debugs short_options].
  replace (find_short usage "d") with (Some (descriptor_of ask_debug)) by done.
  unfold take_option. cbn [check_arg descriptor_of]. unfold arg_None. cbn [mbind option_bind]. by rewrite IH.
Qed.

Lemma debugs_word n s : (forall c s', s = String c s' -> c <> "-"%char) -> s <> "" ->
  word_of (String "-" (debugs n s)) = short_word (debugs n s).
Proof.
  intros Hc Hs. destruct n as [|n]; [|by apply word_of_short]. destruct s as [|c s]; [done|]. by eapply word_of_short, Hc.
Qed.

Lemma short_written_letter r s ws :
  short_written r s ws -> (forall c s', s = String c s' -> c <> "-"%char) /\ s <> "".
Proof. by destruct 1 as [|? ? ? []|? ? ? []]; split; try done; intros ? ? [= <- _]. Qed.

Lemma line_parsed rs words :
  line rs words -> Forall reasonable rs ->
  exists os, workhorse usage words = Some (os, []) /\ Forall2 stands_for os rs.
Proof.
  induction 1 as [|r ws rs words Hw _ IH|n r s ws rs words Hw _ IH]; intros Hr.
  - by exists [].
  - apply Forall_cons in Hr as [Hr Hrs]. destruct (IH Hrs) as (os & Hos & Hall).
    destruct (long_spelled r ws Hw Hr) as ([d v] & Ho & Hs). exists (mkOption d v :: os).
    rewrite (workhorse_spelled usage _ _ _ words Hs), Hos. split; [done|by constructor].
  - apply Forall_app in Hr as [_ [Hr Hrs]%Forall_cons]. destruct (IH Hrs) as (os & Hos & Hall).
    destruct (short_last r s ws words Hw Hr) as (o & Ho & Hs). destruct (short_written_letter _ _ _ Hw) as [Hl Hne].
    eexists. rewrite workhorse_eq, debugs_word by done. rewrite (short_debugs n s _ _ _ Hs). cbn [mbind option_bind fst snd].
    assert (left_after (negb (length ws =? 0)) (ws ++ words) = words) as -> by (by destruct Hw).
    rewrite Hos. cbn [mbind option_bind]. split; [reflexivity|]. rewrite <- app_assoc. apply Forall2_app; [|by constructor].
    apply Forall2_replicate. done.
Qed.

(** What an option that stands for a request does. *)
Lemma stands_for_effect o r a : stands_for o r -> effect a o = asked a r.
Proof.
  destruct o as [d v]. intros [Hd Hv]. cbn in Hd, Hv. subst d. unfold effect, index, number. cbn.
  destruct r, v; cbn in *; try done; try (by subst); unfold numeral in Hv; by rewrite Hv.
Qed.

Lemma stands_for_fits o r : stands_for o r -> reasonable r -> number_fits o.
Proof.
  destruct o as [d v]. intros [Hd Hv] Hr. cbn in Hd, Hv. subst d. unfold number_fits, index, number. cbn.
  destruct r, v; try done; unfold numeral in Hv; rewrite Hv; unfold long_range; unfold reasonable in Hr;
    apply andb_true_iff; rewrite Z.leb_le, Z.ltb_lt; lia.
Qed.

Lemma stands_for_known os rs i :
  Forall2 stands_for os rs -> i ∈ [UNKNOWN_OPT; HELP; VERSION] -> option_given i os = false.
Proof.
  intros H Hi. induction H as [|o r os rs Ho _ IH]; [done|]. unfold option_given in *. cbn [existsb]. rewrite IH, orb_false_r.
  apply bool_decide_eq_false_2. intros <-. unfold index in Hi. rewrite (proj1 Ho) in Hi. destruct r; cbn in Hi; set_solver.
Qed.

(** C16: the command line is understood.  Take any command line made of the options of the
    help other than help and version, in any order and number: [-c], [-r], [-t] with the
    argument in the same word or in the next, also after any number of [d] in the same
    word, [-d], [--config-path], [--reload-time], [--timeout], [--log-filter],
    [--log-verbosity] with the argument after an equal sign or in the next word, and
    [--debug].  If the configuration file can be read, the texts of the times are numbers
    whose thousandfold fits a [long] (others are not caught: [huge_time_not_caught]) and
    the level of the log is one of the three, the parsing succeeds and every option has
    its effect, in the order they are given. *)
Theorem command_line_understood program rs words a :
  line rs words -> Forall reasonable rs ->
  parse_arguments (program :: words) a = (Ok success, fold_left asked rs a).
Proof.
  intros Hl Hr. destruct (line_parsed rs words Hl Hr) as (os & Hw & Hall). unfold parse_arguments. rewrite Hw.
  cbn [length negb Nat.eqb]. rewrite !(stands_for_known os rs) by (done || set_solver). rewrite process_run.
  - rewrite (stands_for_known os rs), known_all by (done || set_solver || (eapply stands_for_known; [done|set_solver])).
    f_equal. clear Hw Hl. revert a. induction Hall as [|o r os rs Ho Hall IH]; intros a; [done|]. cbn [fold_left].
    apply Forall_cons in Hr as [_ Hr]. by rewrite (stands_for_effect o r a Ho), IH.
  - eapply Forall_impl; [by eapply workhorse_accepted|apply accepted_given].
  - clear Hw Hl. induction Hall as [|o r os rs Ho Hall IH]; [done|]. apply Forall_cons in Hr as [Hr Hrs].
    constructor; [by eapply stands_for_fits|by apply IH].
Qed.

(** A time that does not fit a [long] is accepted by its check, and the exception of
    [std::stol] leaves [parse_arguments]; one that fits only in seconds overflows. *)
Theorem huge_time_not_caught program s n a :
  strtol s = Some (n, "") -> long_range (n * 1000) = false ->
  parse_arguments [program; "--timeout"; s] a =
    (Throw (if long_range n then UndefinedBehaviour else StdException), a).
Proof.
  intros Hs Hn. unfold parse_arguments.
  assert (workhorse usage ["--timeout"; s] = Some ([mkOption (mkDescriptor TIMEOUT "t" "timeout" arg_Numeric) (Some s)], [])) as ->.
  { change ["--timeout"; s] with (["--timeout"; s] ++ []). erewrite workhorse_spelled; [done|].
    eapply (spell_long _ _ "timeout"); [done..|]. cbn. by rewrite Hs. }
  cbn -[milliseconds]. unfold milliseconds, stol. unfold mbind, prog_bind, mret, prog_ret. cbn. rewrite Hs.
  destruct (long_range n); [|done]. by rewrite Hn.
Qed.

(** The levels of the log are compared as they are written, although the help says that
    their case does not matter. *)
Theorem log_verbosity_case program s a :
  s ∉ LogKind -> parse_arguments [program; "--log-verbosity"; s] a = (Ok incorrect_argument, a).
Proof.
  intros Hs. assert (arg_Log_Kind_Correct_Argument (Some s) = ARG_ILLEGAL) as Hc.
  { unfold arg_Log_Kind_Correct_Argument. rewrite string_vector_names. unfold arg_Valid_Options.
    destruct (existsb _ _) eqn:E; [|done].
    apply existsb_exists in E as (n & Hn%list_elem_of_In & ->%String.eqb_eq). done. }
  unfold parse_arguments. rewrite workhorse_eq.
  replace (word_of "--log-verbosity") with (long_word "log-verbosity") by done. unfold long_option, take_option.
  replace (find_long usage "log-verbosity")
    with (Some (mkDescriptor LOG_VERBOSITY "" "log-verbosity" arg_Log_Kind_Correct_Argument)) by done.
  replace (after_equal "log-verbosity") with (@None string) by done. cbn [check_arg argument_text next_word]. by rewrite Hc.
Qed.

End CommandLine.

(** ** Witnesses *)

Module ToolLibrariesDemo.

Fixpoint position (names : list string) (s : string) : option Z :=
  match names with
  | [] => None
  | n :: names' => if (n =? s)%string then Some 0%Z else Z.succ <$> position names' s
  end.

(** The only file is [conf.yaml]; times have 32 bits. *)
#[export] Instance tool_libraries : ToolLibraries := {|
  is_file_accessible s := (s =? "conf.yaml")%string;
  string_vector names := names;
  from_string := position;
  Duration_ms n := u32 n;
  Log_Warning := 1;
  Log_Info := 2
|}.

#[export] Instance tool_libraries_laws : ToolLibrariesLaws.
Proof.
  split; [done|]. intros names n. induction names as [|m names IH]; [by intros ?%not_elem_of_nil|].
  intros [->|H]%elem_of_cons; cbn; [rewrite String.eqb_refl; by eexists|].
  destruct (m =? n)%string; [by eexists|]. destruct (IH H) as [k Hk]. cbn in Hk. rewrite Hk. by eexists.
Qed.

Definition command_line : list string := ["ddsrouter"; "-c"; "conf.yaml"; "--timeout=20"; "-d"; "-r7"].

(** [-c conf.yaml --timeout=20 -d -r7] *)
Definition options : list (Option optionIndex * list string) :=
  [(mkOption (mkDescriptor CONFIGURATION_FILE "c" "config-path" arg_Readable_File) (Some "conf.yaml"), ["-c"; "conf.yaml"]);
   (mkOption (mkDescriptor TIMEOUT "t" "timeout" arg_Numeric) (Some "20"), ["--timeout=20"]);
   (mkOption (mkDescriptor ACTIVATE_DEBUG "d" "debug" arg_None) None, ["-d"]);
   (mkOption (mkDescriptor RELOAD_TIME "r" "reload-time" arg_Numeric) (Some "7"), ["-r7"])].

Lemma options_spelled : Forall (fun e => spells usage (desc e.1) (arg e.1) e.2) options.
Proof.
  apply Forall_cons_2, Forall_cons_2, Forall_cons_2, Forall_cons_2, Forall_nil_2.
  - by apply (spell_short _ _ "c"%char).
  - by apply (spell_long_equal _ _ "timeout=20").
  - by apply (spell_short_flag _ _ "d"%char).
  - by apply (spell_short_attached _ _ "r"%char).
Qed.

Lemma command_line_fits : numbers_fit command_line.
Proof.
  intros os ws H. pose proof (workhorse_spells usage options options_spelled) as Hs.
  change (concat (snd <$> options)) with (tail command_line) in Hs. rewrite Hs in H. simplify_eq.
  by repeat constructor.
Qed.

End ToolLibrariesDemo.

Section Witnesses.
Import ToolLibrariesDemo.

Definition no_arguments : Arguments := mkArguments "" 0 0 "DDSROUTER" 1.

Lemma parse_arguments_returns_witness :
  exists code a', parse_arguments command_line no_arguments = (Ok code, a') /\
    code ∈ [success; help_argument; version_argument; incorrect_argument] /\
    (code = success -> file_path a' = "" \/ is_file_accessible (file_path a') = true).
Proof. exact (parse_arguments_returns command_line no_arguments command_line_fits). Defined.

(** [-c conf.yaml --timeout=20 -dr7 --log-verbosity warning] *)
Definition demo_requests : list request :=
  [ask_config "conf.yaml"; ask_timeout 20; ask_debug; ask_reload_time 7; ask_log_verbosity "warning"].
Definition demo_words : list string := ["-c"; "conf.yaml"; "--timeout=20"; "-dr7"; "--log-verbosity"; "warning"].

Lemma demo_line : line demo_requests demo_words.
Proof.
  apply (line_short 0 _ "c" ["conf.yaml"] _ ["--timeout=20"; "-dr7"; "--log-verbosity"; "warning"]);
    [apply short_detached, letter_config|].
  apply (line_long _ ["--timeout=20"] _ ["-dr7"; "--log-verbosity"; "warning"]);
    [apply (long_equal _ "timeout" "20"), name_timeout; reflexivity|].
  apply (line_short 1 _ "r7" [] _ ["--log-verbosity"; "warning"]);
    [apply (short_attached _ "r"%char "7"); [apply letter_reload; reflexivity|done]|].
  apply (line_long _ ["--log-verbosity"; "warning"] _ []); [apply (long_detached _ "log-verbosity"), name_verbosity|].
  apply line_end.
Qed.

Lemma command_line_understood_witness :
  parse_arguments ("ddsrouter" :: demo_words) no_arguments =
    (Ok success, mkArguments "conf.yaml" 7000 20000 "DDSROUTER" 1).
Proof.
  refine (command_line_understood "ddsrouter" demo_requests demo_words no_arguments demo_line _).
  apply Forall_cons_2, Forall_cons_2, Forall_cons_2, Forall_cons_2, Forall_cons_2, Forall_nil_2; cbn;
    first [reflexivity|lia|exact I|by right; left].
Defined.

Lemma huge_time_not_caught_witness :
  parse_arguments ["ddsrouter"; "--timeout"; "99999999999999999999"] no_arguments = (Throw StdException, no_arguments).
Proof. exact (huge_time_not_caught "ddsrouter" "99999999999999999999" 99999999999999999999%Z no_arguments eq_refl eq_refl). Defined.

End Witnesses.
