(* ===== verification/RouterExceptions.v ===== *)
(** * Exceptions of the router

    Which exceptions leave the methods of the bridges and of the router, given those of
    the participants. *)
From S2P Require Import Prelude StdMap CppString Externals Types Topics Endpoint AllowedTopicList DiscoveryDatabase Address Configuration PayloadPool Track Auxiliar Participants DDSBridge ServiceRegistry RPCBridge Router.

(** The program is over: nothing catches it. *)
Definition only_ub (e : exn) : Prop := e = UndefinedBehaviour.
Definition init_or_ub (e : exn) : Prop := e = InitializationException \/ only_ub e.

(** What the headers of the participants, their factory and their database document. *)
Class DocumentedExceptions `{CU : CppUtils} (W : Type) {RW : RouterWorld W} : Prop := {
  create_writer_throws : forall id t, throws_only init_or_ub (create_writer (W := W) id t);
  create_reader_throws : forall id t, throws_only init_or_ub (create_reader (W := W) id t);
  create_participant_throws : forall c,
    throws_only (fun e => e = ConfigurationException \/ init_or_ub e) (create_participant (W := W) c);
  add_participant_throws : forall id p,
    throws_only (fun e => e = InconsistencyException \/ only_ub e) (db_add_participant_ (W := W) id p)
}.

#[local] Hint Unfold only_ub init_or_ub : core.

Section Bridges.
Context {CU : CppUtils} {FD : FastDDS} {W : Type} {RW : RouterWorld W} {DE : DocumentedExceptions W}.

#[local] Hint Resolve create_writer_throws create_reader_throws : throws.

Lemma create_endpoints_throws topic ids ws rs : throws_only init_or_ub (create_endpoints (W := W) topic ids ws rs).
Proof. revert ws rs. induction ids as [|id ids IH]; intros ws rs; cbn [create_endpoints]; throws. Qed.

Lemma create_tracks_throws topic ids ws rs ts : throws_only init_or_ub (create_tracks (W := W) topic ids ws rs ts).
Proof. revert ts. induction ids as [|id ids IH]; intros ts; cbn [create_tracks]; throws. Qed.

Lemma DDSBridge_new_throws topic enable : throws_only init_or_ub (DDSBridge_new (W := W) topic enable).
Proof. unfold DDSBridge_new. throws; [apply create_endpoints_throws|apply create_tracks_throws]. Qed.

Lemma create_slot_throws reader : throws_only init_or_ub (create_slot_ (W := W) reader).
Proof. unfold create_slot_, in_world, on_world, on_bridge. throws. Qed.

Lemma deref_throws {K V} `{Less K} P (k : K) (m : RPCBridge -> std_map K V) :
  P UndefinedBehaviour -> throws_only P (deref (W := W) k m).
Proof. intros HP. unfold deref. throws. Qed.

Lemma on_registry_throws P id f : P UndefinedBehaviour -> throws_only P (on_registry (W := W) id f).
Proof. intros HP. unfold on_registry, on_bridge. throws. by apply deref_throws. Qed.

Lemma init_nts_throws : throws_only init_or_ub (init_nts_ (W := W)).
Proof.
  unfold init_nts_, init_body, create_proxy_client_nts_, create_proxy_server_nts_, on_servers, on_bridge, in_world.
  throws; first [apply create_slot_throws|apply on_registry_throws; by right].
Qed.

Lemma for_endpoints_throws P f m : throws_only P (for_endpoints (W := W) f m).
Proof. unfold for_endpoints, on_world. throws. Qed.
#[local] Hint Resolve for_endpoints_throws : throws.

Lemma rpc_enable_throws : throws_only only_ub (rpc_enable (W := W)).
Proof.
  unfold rpc_enable, enable_endpoints, on_bridge. throws.
  apply throws_try; [|throws]. apply throws_bind; [apply init_nts_throws|intros []; throws].
Qed.

Lemma rpc_disable_throws : throws_only only_ub (rpc_disable (W := W)).
Proof. unfold rpc_disable, on_bridge. throws. Qed.
#[local] Hint Resolve rpc_enable_throws rpc_disable_throws : throws.

Lemma discovered_service_throws id p : throws_only only_ub (discovered_service (W := W) id p).
Proof. unfold discovered_service, on_servers, on_bridge. throws. by apply on_registry_throws. Qed.

Lemma removed_service_throws id p : throws_only only_ub (removed_service (W := W) id p).
Proof. unfold removed_service, on_servers, on_bridge. throws. Qed.

Lemma rpc_destroy_throws : throws_only only_ub (rpc_destroy (W := W)).
Proof. unfold rpc_destroy, delete_endpoint, on_world, on_bridge. throws. Qed.

(** ** The router *)

Context {IL : IPLocator} {F : Type} {FT : DdsFilterTopic F}.
Context (are_set_of_ptr_equal : (F -> F -> bool) -> filter_set F -> filter_set F -> bool).
Context (subscript_first : bool).

Lemma create_new_bridge_throws topic enabled : throws_only only_ub (create_new_bridge (F := F) (W := W) subscript_first topic enabled).
Proof.
  apply throws_try; [|throws]. unfold on_router, router_in_world. throws. apply DDSBridge_new_throws.
Qed.

Lemma call_bridge_throws topic b f : throws_only only_ub (call_bridge (F := F) (W := W) topic b f).
Proof.
  destruct b as [b|]; [|by apply throws_throw]. intros s e s'. unfold call_bridge. by destruct (f (b, s.2)).
Qed.
#[local] Hint Resolve create_new_bridge_throws call_bridge_throws : throws.

Lemma activate_topic_throws topic : throws_only only_ub (activate_topic_ (F := F) (W := W) subscript_first topic).
Proof. unfold activate_topic_, on_router. throws. Qed.

Lemma deactivate_topic_throws topic : throws_only only_ub (deactivate_topic_ (F := F) (W := W) topic).
Proof. unfold deactivate_topic_, on_router. throws. Qed.
#[local] Hint Resolve activate_topic_throws deactivate_topic_throws : throws.

Lemma discovered_topic_throws topic : throws_only only_ub (discovered_topic_ (F := F) (W := W) subscript_first topic).
Proof. unfold discovered_topic_, on_router. throws. Qed.
#[local] Hint Resolve discovered_topic_throws : throws.

Lemma call_rpc_throws topic m :
  throws_only only_ub m -> throws_only only_ub (call_rpc (F := F) (W := W) topic m).
Proof.
  intros Hm s e s'. unfold call_rpc. destruct (find topic (rpc_bridges_ s.1)); [|by intros [= <- <-]].
  destruct (m _) as [res [b' w']] eqn:E. intros [= -> <-]. by eapply Hm.
Qed.

Lemma discovered_endpoint_throws e : throws_only only_ub (discovered_endpoint_ (F := F) (W := W) subscript_first e).
Proof.
  unfold discovered_endpoint_, rpc_topic_of, discovered_service_, create_new_service, on_router. throws;
    apply call_rpc_throws; [apply discovered_service_throws|throws].
Qed.

Lemma removed_endpoint_throws e : throws_only only_ub (removed_endpoint_ (F := F) (W := W) e).
Proof.
  unfold removed_endpoint_, rpc_topic_of, removed_service_, on_router. throws;
    apply call_rpc_throws, removed_service_throws.
Qed.

Lemma start_throws : throws_only only_ub (start_ (F := F) (W := W) subscript_first).
Proof.
  unfold start_, activate_all_topics_, on_router, router_on_world. throws. apply call_rpc_throws. throws.
Qed.

Lemma stop_throws : throws_only only_ub (stop_ (F := F) (W := W)).
Proof. unfold stop_, deactivate_all_topics_, on_router, router_on_world. throws. Qed.


Lemma reload_body_throws c :
  reload_is_valid c = true ->
  throws_only only_ub (reload_configuration (F := F) (W := W) are_set_of_ptr_equal subscript_first c).
Proof.
  intros Hv. unfold reload_configuration. rewrite Hv. cbn [negb].
  unfold reload_topic, reload_service, on_router. throws; apply call_rpc_throws; throws.
Qed.

(** A reload that throws an exception that can be caught changed nothing. *)
Lemma reload_throws c s e s' :
  reload_configuration (F := F) (W := W) are_set_of_ptr_equal subscript_first c s = (Throw e, s') ->
  only_ub e \/ (e = ConfigurationException /\ s' = s /\ reload_is_valid c = false).
Proof.
  destruct (reload_is_valid c) eqn:Hv; [left; by eapply reload_body_throws|].
  unfold reload_configuration. rewrite Hv. intros [= <- <-]. by right.
Qed.

(** What the program catches. *)
Definition config_init_or_ub (e : exn) : Prop := e = ConfigurationException \/ init_or_ub e.

Lemma init_participant_throws c : throws_only config_init_or_ub (init_participant (F := F) (W := W) c).
Proof.
  unfold init_participant, router_in_world. apply throws_bind.
  { apply throws_zoom, create_participant_throws. }
  intros [p|]; [|apply throws_throw; right; by left]. apply throws_if; [apply throws_throw; right; by left|].
  apply throws_try; [|apply throws_throw; by left].
  eapply throws_weaken; [|apply throws_zoom, add_participant_throws]. intros e [->|He]; [by left|right; right; by right].
Qed.

Lemma construct_throws : throws_only config_init_or_ub (router_construct (F := F) (W := W) subscript_first).
Proof.
  unfold router_construct. apply throws_bind; [throws|]. intros s.
  apply throws_if; [apply throws_throw; by left|].
  unfold init_allowed_topics_, on_router, router_on_world.
  apply throws_bind; [throws|]. intros _. apply throws_bind; [throws|]. intros _.
  apply throws_bind.
  { unfold init_participants_. throws; [apply init_participant_throws|apply throws_throw; right; by left]. }
  intros _. apply throws_bind; [|intros _; throws]. unfold init_bridges_. throws.
  eapply throws_weaken; [|apply discovered_topic_throws]. intros e He. by right; right.
Qed.

Lemma destroy_throws : throws_only only_ub (router_destroy (F := F) (W := W)).
Proof.
  unfold router_destroy, clear_bridges, clear_rpc_bridges, on_router, router_on_world. throws; [apply stop_throws|].
  intros s e s' H. destruct (rpc_destroy (_, s.2)) as [res [b' w']] eqn:E in H. injection H as -> _.
  by eapply rpc_destroy_throws.
Qed.

End Bridges.

(** ** The participants of the model *)

Section Concrete.
Context {CU : CppUtils} {FD : FastDDS} {MA : Malloc}.
Context (rtps_writer_ : BaseConf -> DdsTopic -> aux_world -> outcome writer_obj).
Context (rtps_reader_ : BaseConf -> DdsTopic -> aux_world -> outcome reader_obj).
Context (default_data : DataReceived) (rtps_init : ParticipantConfiguration -> outcome unit) (rtps_guid : nat -> Guid).
(** The endpoints of the participants over Fast DDS throw only [InitializationException]. *)
Context (rtps_writer_throws : forall c t w e, rtps_writer_ c t w = Throw e -> e = InitializationException).
Context (rtps_reader_throws : forall c t w e, rtps_reader_ c t w = Throw e -> e = InitializationException).
Context (rtps_init_throws : forall c e, rtps_init c = Throw e -> config_init_or_ub e).

Lemma new_writer_throws P o : throws_only P (new_writer o).
Proof. by intros s e s'. Qed.

Lemma new_reader_throws P o : throws_only P (new_reader o).
Proof. by intros s e s'. Qed.

Lemma rtps_throws {A B} (P : exn -> Prop) (r : outcome A) (k : A -> prog pworld B) :
  (forall e, r = Throw e -> P e) -> (forall a, throws_only P (k a)) ->
  throws_only P (match r with Ok o => k o | Throw e => throw e end).
Proof. intros Hr Hk. destruct r as [o|e]; [apply Hk|apply throws_throw; by apply Hr]. Qed.

Lemma pw_create_writer_throws id t : throws_only init_or_ub (pw_create_writer rtps_writer_ id t).
Proof.
  unfold pw_create_writer, base_create_writer, bp_create_writer, create_writer_, update_participant.
  apply throws_bind; [throws|]. intros w.
  destruct (find id (participants_ w)) as [[|e|b]|]; [apply new_writer_throws| | |by apply throws_throw; right].
  { apply throws_if; apply new_writer_throws. }
  destruct (find t (bp_writers_ b)); [apply throws_throw; by left|].
  apply throws_bind; [|intros ptr; throws]. apply throws_if; [|apply new_writer_throws].
  apply throws_bind; [throws|]. intros w1. apply rtps_throws; [|intros; apply new_writer_throws].
  intros e He. left. by eapply rtps_writer_throws.
Qed.

Lemma pw_create_reader_throws id t : throws_only init_or_ub (pw_create_reader rtps_reader_ id t).
Proof.
  unfold pw_create_reader, base_create_reader, bp_create_reader, create_reader_, update_participant.
  apply throws_bind; [throws|]. intros w.
  destruct (find id (participants_ w)) as [[|e|b]|]; [apply new_reader_throws..| |by apply throws_throw; right].
  destruct (find t (bp_readers_ b)); [apply throws_throw; by left|].
  apply throws_bind; [|intros ptr; throws]. apply throws_if; [|apply new_reader_throws].
  apply throws_bind; [throws|]. intros w1. apply rtps_throws; [|intros; apply new_reader_throws].
  intros e He. left. by eapply rtps_reader_throws.
Qed.

Lemma create_class_throws c e : create_participant_class c = Throw e -> config_init_or_ub e.
Proof.
  unfold create_participant_class. intros H. left. destruct (conf_kind (conf_base c)); try congruence;
    repeat match goal with H : context [if ?x then _ else _] |- _ => destruct x end; congruence.
Qed.

Lemma pw_documented :
  DocumentedExceptions pworld (RW := pw_router rtps_writer_ rtps_reader_ default_data rtps_init rtps_guid).
Proof.
  split.
  - apply pw_create_writer_throws.
  - apply pw_create_reader_throws.
  - intros c w e w'. change (pw_create_participant rtps_init c w = (Throw e, w') -> config_init_or_ub e).
    unfold pw_create_participant. destruct (create_participant_class c) as [cls|e'] eqn:Ec.
    + destruct cls; try done; [by destruct c; try done; intros [= <- _]; right; right|..];
        (destruct (rtps_init c) as [|e'] eqn:Ei; [done|]; intros [= -> _]; by eapply rtps_init_throws).
    + intros [= -> _]. by eapply create_class_throws.
  - intros id p. change (throws_only (fun e => e = InconsistencyException \/ only_ub e) (add_participant_ id p)).
    unfold add_participant_. throws.
Qed.

End Concrete.
