(* ===== verification/RtpsConstruct.v ===== *)
(** * Construction of a router with RTPS participants

    [ParticipantFactory::create_participant] for the kinds that use Fast DDS: the
    constructor of the class, which works out the attributes, then [init].  Put in the
    place of the parameter [rtps_init] of the router, so that the construction of
    [DDSRouterImpl] runs on the code of the participants. *)
From S2P Require Import Prelude StdMap CppString Externals Types Topics Endpoint AllowedTopicList PayloadPool Auxiliar Address Configuration Participants DDSBridge RPCBridge Router Rtps RtpsReader RtpsWriter ParticipantAttributes RtpsParticipant RouterExceptions.

Section Construct.
Context {CU : CppUtils} {FD : FastDDS} {IL : IPLocator}.
(** what the default constructors of Fast DDS give, and [RTPSDomain::createParticipant] *)
Context (default_attributes : ParticipantAttributes) (default_tcp : TCPDescriptor).
Context (createParticipant : DomainId -> ParticipantAttributes -> option Guid).

(** The constructors of [SimpleParticipant], [DiscoveryServerParticipant] and
    [InitialPeersParticipant], of the object that the cast of the configuration gives. *)
Definition participant_constructor (fuel : nat) (cls : participant_class) (c : ParticipantConfiguration) :
    partial CommonParticipant :=
  match cls, c with
  | class_simple, (SimpleConfiguration b domain | DiscoveryServerConfiguration b domain _ _ _ _ |
      InitialPeersConfiguration b domain _ _ _) =>
      pret (CommonParticipant_of b domain (common_attributes default_attributes b))
  | class_discovery_server, DiscoveryServerConfiguration b domain prefix listening connection tls =>
      pbind (discovery_server_attributes default_attributes default_tcp fuel b prefix listening connection tls)
        (fun params => pret (CommonParticipant_of b domain params))
  | class_initial_peers, InitialPeersConfiguration b domain listening connection tls =>
      pbind (initial_peers_attributes default_attributes default_tcp fuel b listening connection tls)
        (fun params => pret (CommonParticipant_of b domain params))
  | _, _ => lift (Throw ConfigurationException)
  end.

(** The object made and [participant->init()] *)
Definition construct_rtps (fuel : nat) (c : ParticipantConfiguration) : partial unit :=
  pbind (lift (create_participant_class c)) (fun cls =>
  pbind (participant_constructor fuel cls c) (fun p => lift (result (cp_init createParticipant) p))).

(** The same as a step of the router.  [None], a construction that has not returned within
    the fuel, is a run of which nothing is said. *)
Definition rtps_init (fuel : nat) (c : ParticipantConfiguration) : outcome unit :=
  match construct_rtps fuel c with Some r => r | None => Throw UndefinedBehaviour end.

(** What the participants that listen need for their construction to return. *)
Definition listens_on_one_wan (c : ParticipantConfiguration) : Prop :=
  match create_participant_class c, c with
  | Ok class_discovery_server, DiscoveryServerConfiguration _ _ _ listening _ _
  | Ok class_initial_peers, InitialPeersConfiguration _ _ listening _ _ => one_tcp_wan listening
  | _, _ => True
  end.

(** Fast DDS makes the participant that the configuration asks for. *)
Definition fast_dds_makes (fuel : nat) (c : ParticipantConfiguration) : Prop :=
  forall cls p, create_participant_class c = Ok cls -> participant_constructor fuel cls c = pret p ->
    is_Some (createParticipant (RtpsParticipant.domain_id_ p) (participant_attributes_ p)).

Context (no_transports : userTransports default_attributes = []).

Lemma constructor_returns fuel cls c :
  conf_is_valid c = true -> create_participant_class c = Ok cls -> uses_fast_dds cls = true -> listens_on_one_wan c ->
  exists p, participant_constructor (S fuel) cls c = pret p.
Proof.
  intros Hv Hcls Huses Hone. unfold listens_on_one_wan in Hone. rewrite Hcls in Hone.
  unfold create_participant_class in Hcls.
  destruct cls; try done; destruct (conf_kind (conf_base c)); try done; destruct c; simpl in Hcls; try done;
    simpl in Hv, Hone; unfold participant_constructor.
  all: try (by eexists).
  1,2: destruct (discovery_server_attributes_run default_attributes default_tcp no_transports fuel _ _ _ _ _ _ Hv Hone)
    as (d & e & _ & _ & ->); by eexists.
  destruct (initial_peers_attributes_spec default_attributes default_tcp no_transports fuel _ _ _ _ _ Hv Hone)
    as (d & e & _ & _ & ->); by eexists.
Qed.

Lemma rtps_init_ready fuel c :
  conf_is_valid c = true -> listens_on_one_wan c -> fast_dds_makes (S fuel) c -> rtps_ready (rtps_init (S fuel)) c.
Proof.
  intros Hv Hone Hmakes cls Hcls Huses. destruct (constructor_returns fuel cls c Hv Hcls Huses Hone) as [p Hp].
  destruct (Hmakes cls p Hcls Hp) as [g Hg]. unfold rtps_init, construct_rtps. rewrite Hcls. cbn [lift pbind].
  rewrite Hp. cbn [pret pbind lift]. unfold result, cp_init. run_prog. by rewrite Hg.
Qed.

(** *** Exceptions

    What the construction throws: [ConfigurationException] when the TLS configuration does
    not fit, [InitializationException] when Fast DDS does not make the participant. *)
Definition pthrows {A} (P : exn -> Prop) (m : partial A) : Prop := forall e, m = Some (Throw e) -> P e.

Lemma pthrows_ret {A} P (a : A) : pthrows P (pret a).
Proof. by intros e. Qed.

Lemma pthrows_bind {A B} P (m : partial A) (k : A -> partial B) :
  pthrows P m -> (forall a, pthrows P (k a)) -> pthrows P (pbind m k).
Proof. intros Hm Hk e. destruct m as [[a|e']|]; [apply Hk|intros [= <-]; by apply Hm|done]. Qed.

Lemma pthrows_for_addresses {A S} P (step : A -> S -> partial S) l s :
  (forall a s, pthrows P (step a s)) -> pthrows P (for_addresses step l s).
Proof.
  intros Hs. revert s. induction l as [|a l IH]; intros s; [apply pthrows_ret|]. by apply pthrows_bind.
Qed.

#[local] Abbreviation configuration_only := (fun e => e = ConfigurationException).

Lemma pthrows_secure tls client : pthrows configuration_only (lift (secure default_tcp tls client)).
Proof.
  intros e [= He]. revert He. unfold secure, enable_tls. destruct (tls_is_active tls); [|done].
  destruct client; repeat match goal with |- context [if ?x then _ else _] => destruct x end; by intros [= <-].
Qed.

Lemma pthrows_listening fuel tls a s : pthrows configuration_only (add_listening_address default_tcp fuel tls a s).
Proof.
  unfold add_listening_address, listen_tcp. destruct s as [p f]. destruct (negb _); [apply pthrows_ret|].
  apply pthrows_bind; [|intros; apply pthrows_ret]. destruct (is_tcp a); [|apply pthrows_ret].
  destruct (is_ipv4 a).
  - destruct (find_same_wan _ _ _) as [[[[ports d] rest]|]|]; [apply pthrows_ret| |done].
    apply pthrows_bind; [apply pthrows_secure|intros; apply pthrows_ret].
  - apply pthrows_bind; [apply pthrows_secure|intros; apply pthrows_ret].
Qed.

Lemma pthrows_transports tls f p : pthrows configuration_only (lift (add_transports default_tcp tls f p)).
Proof.
  assert (forall needed make q e, add_tcp_client default_tcp needed make tls q = Throw e -> e = ConfigurationException)
    as Hclient.
  { intros needed make q e. unfold add_tcp_client. destruct needed; [|done].
    pose proof (pthrows_secure tls true) as Hs. destruct (secure default_tcp tls true); [done|].
    intros [= <-]. by apply Hs. }
  intros e [= He]. unfold add_transports in He. destruct (add_tcp_client _ _ _ _ _) as [p1|e1] eqn:E1; [|].
  - destruct (add_tcp_client _ _ _ _ p1) as [p2|e2] eqn:E2; [done|]. injection He as <-. by eapply Hclient.
  - injection He as <-. by eapply Hclient.
Qed.

Lemma constructor_throws fuel cls c : pthrows configuration_only (participant_constructor fuel cls c).
Proof.
  unfold participant_constructor, discovery_server_attributes, initial_peers_attributes.
  destruct cls, c; try apply pthrows_ret; try (by intros e [= <-]).
  - apply pthrows_bind; [|intros; apply pthrows_ret].
    apply pthrows_bind; [apply pthrows_for_addresses, pthrows_listening|]. intros s.
    destruct (fold_left _ _ s). apply pthrows_transports.
  - apply pthrows_bind; [|intros; apply pthrows_ret].
    apply pthrows_bind; [apply pthrows_for_addresses, pthrows_listening|]. intros s.
    destruct (fold_left _ _ s). apply pthrows_bind; [apply pthrows_transports|intros; apply pthrows_ret].
Qed.

Lemma rtps_init_throws fuel c e : rtps_init fuel c = Throw e -> config_init_or_ub e.
Proof.
  unfold rtps_init, construct_rtps. destruct (create_participant_class c) as [cls|e'] eqn:Ec.
  2:{ intros [= <-]. by eapply create_class_throws. }
  cbn [lift pbind]. pose proof (constructor_throws fuel cls c) as Hc.
  destruct (participant_constructor fuel cls c) as [[p|e']|]; cbn [pbind lift].
  - unfold result, cp_init. run_prog. destruct (createParticipant _ _); [done|]. intros [= <-]. right. by left.
  - intros [= <-]. left. by apply Hc.
  - intros [= <-]. right. by right.
Qed.

(** ** The router *)

Context {MA : Malloc} {F : Type} {FT : DdsFilterTopic F}.
Context (rtps_writer_ : BaseConf -> DdsTopic -> aux_world -> outcome writer_obj).
Context (rtps_reader_ : BaseConf -> DdsTopic -> aux_world -> outcome reader_obj).
Context (default_data : DataReceived) (rtps_guid : nat -> Guid) (subscript_first : bool).

(** The router whose participants over Fast DDS are made by that code. *)
Definition rtps_router (fuel : nat) : RouterWorld pworld :=
  pw_router rtps_writer_ rtps_reader_ default_data (rtps_init fuel) rtps_guid.

(** Its methods throw what the headers say, if the endpoints do. *)
Lemma rtps_router_documented fuel :
  (forall c t w e, rtps_writer_ c t w = Throw e -> e = InitializationException) ->
  (forall c t w e, rtps_reader_ c t w = Throw e -> e = InitializationException) ->
  DocumentedExceptions pworld (RW := rtps_router fuel).
Proof. intros Hw Hr. apply pw_documented; try done. apply rtps_init_throws. Qed.

(** C22: a valid configuration makes a router.  Let the configuration be valid, let the TCP
    addresses that each discovery server or initial peers participant listens on be IPv4
    with one IP (with two the code does not return, [two_wan_addresses_hang]), and let
    Fast DDS make the participant of the domain and the attributes that the constructor of
    each class works out.  Then the construction of the router, with the constructors and
    [init] of its participants run as they are, returns: there is one participant for each
    configured id and no other, every builtin topic is known and none is active, and the
    router is disabled. *)
Theorem valid_configuration_constructs fuel c w :
  router_is_valid c = true ->
  Forall (fun p => listens_on_one_wan p.2 /\ fast_dds_makes (S fuel) p.2) (pointees (participants_configurations c)) ->
  participants_ w = [] ->
  exists r w', router_construct (F := F) (RW := rtps_router (S fuel)) subscript_first (router_initial c, w) = (Ok tt, (r, w')) /\
    (forall id, is_Some (find id (participants_ w')) <->
       id ∈ (fun p => conf_id (conf_base p.2)) <$> pointees (participants_configurations c)) /\
    (forall p, p ∈ pointees (builtin_topics (reload_part c)) -> find p.2 (current_topics_ r) = Some false) /\
    enabled_ r = false.
Proof.
  intros Hvalid Hall Hempty. apply valid_configuration_makes_router; [done| |done].
  pose proof (proj1 (router_is_valid_iff c) Hvalid) as (_ & _ & _ & Hconf & _).
  rewrite Forall_forall in *. intros p Hp. destruct (Hconf p Hp) as [Hv _]. destruct (Hall p Hp) as [Hone Hmakes].
  by apply rtps_init_ready.
Qed.

End Construct.

(** ** Witness *)

#[local] Existing Instances Demo.cpp_utils Demo.fast_dds PoolDemo.malloc RouterDemo.locator.

Module ConstructDemo.

(** A simple participant on domain 0 and a discovery server that listens on two ports of
    one public address; Fast DDS makes every participant. *)
Definition simple : ParticipantConfiguration :=
  SimpleConfiguration (mkBaseConf (mkParticipantId "simple") kind_simple_rtps false) (mkDomainId 0).
Definition server : ParticipantConfiguration :=
  DiscoveryServerConfiguration (mkBaseConf (mkParticipantId "server") kind_wan_discovery_server false) (mkDomainId 1)
    demo_server_prefix demo_listening [] Tls_default.

Definition conf : DDSRouterConfiguration WildcardDdsFilterTopic :=
  mkRouterConf (mkReload (mkPtrSet false []) (mkPtrSet false []) (mkPtrSet false [(9%Z, demo_topic_t)]))
    (mkPtrSet false [(1%Z, simple); (2%Z, server)]) Specs_default.

Definition made (d : DomainId) (a : ParticipantAttributes) : option Guid := Some (mkGuid [1%Z] [0%Z]).

End ConstructDemo.

Lemma valid_configuration_constructs_witness :
  exists r w', router_construct (RW := rtps_router fresh_attributes fresh_tcp ConstructDemo.made demo_rtps_writer
      demo_rtps_reader demo_default RouterDemo.guid_of 1) false (router_initial ConstructDemo.conf, RouterDemo.w0) =
    (Ok tt, (r, w')) /\ is_Some (find (mkParticipantId "server") (participants_ w')) /\
    find demo_topic_t (current_topics_ r) = Some false.
Proof.
  destruct (valid_configuration_constructs fresh_attributes fresh_tcp ConstructDemo.made eq_refl demo_rtps_writer
    demo_rtps_reader demo_default RouterDemo.guid_of false 0 ConstructDemo.conf RouterDemo.w0)
    as (r & w' & Hrun & Hids & Htopics & _).
  - vm_compute. reflexivity.
  - repeat constructor; try (intros ? ? _ _; by eexists).
    + intros a Ha Ht. by repeat (apply elem_of_cons in Ha as [->|Ha]; [reflexivity|]); apply elem_of_nil in Ha.
    + intros a b Ha Hb _ _.
      repeat (apply elem_of_cons in Ha as [->|Ha]); try (by apply elem_of_nil in Ha);
        repeat (apply elem_of_cons in Hb as [->|Hb]); try (by apply elem_of_nil in Hb); reflexivity.
  - reflexivity.
  - exists r, w'. split; [exact Hrun|]. split.
    + apply Hids. right. left.
    + apply (Htopics (9%Z, demo_topic_t)). left.
Defined.
