(* ===== verification/Tool.v ===== *)
(** * The tool

    [tools/ddsrouter_tool/src/cpp/main.cpp] and [core/DDSRouter.cpp]: the program that reads
    the arguments and the configuration file, makes a router, starts it, reloads its
    configuration when the file changes or a timer says so, and stops it when a signal or
    the timeout comes.  What is logged is not modelled. *)
From S2P Require Import Prelude StdMap CppString Externals Types Topics Endpoint AllowedTopicList DiscoveryDatabase Address Configuration PayloadPool Track Auxiliar Participants DDSBridge ServiceRegistry RPCBridge Router RouterExceptions Yaml YamlErrors OptionParser CommandLine.

(** [catch (const std::exception&)] *)
Definition catch_all {S A} (m : prog S A) (h : prog S A) : prog S A := fun s =>
  match m s with
  | (Throw UndefinedBehaviour, s') => (Throw UndefinedBehaviour, s')
  | (Throw _, s') => h s'
  | r => r
  end.

(** A call of a [noexcept] method: an exception that leaves it ends the program. *)
Definition noexcept {S A} (m : prog S A) : prog S A := fun s =>
  match m s with
  | (Throw _, s') => (Throw UndefinedBehaviour, s')
  | r => r
  end.

Section Tool.
Context {CU : CppUtils} {FD : FastDDS} {IL : IPLocator} {YC : YamlCpp} {SS : SharedSets} {TL : ToolLibraries}.
Context {W : Type} {RW : RouterWorld W}.
Context (are_set_of_ptr_equal : (WildcardDdsFilterTopic -> WildcardDdsFilterTopic -> bool) ->
  filter_set WildcardDdsFilterTopic -> filter_set WildcardDdsFilterTopic -> bool).
Context (subscript_first : bool) (indeterminate : IpVersion) (address : nat -> Z).
(** [TopicQoS::default_history_depth], a static variable that the router sets *)
Context (default_history_depth : W -> Z).

(** The files there are: what [YAML::LoadFile] gives of each. *)
Definition files : Type := string -> option Yaml.

(** The router, the world and the number of objects made. *)
Definition tool_state : Type := (router_state (F := WildcardDdsFilterTopic) (W := W) * nat)%type.

Definition in_router {A} (m : prog (router_state (F := WildcardDdsFilterTopic) (W := W)) A) : prog tool_state A :=
  zoom fst (fun r s => (r, s.2)) m.

(** [YamlReaderConfiguration::load_ddsrouter_configuration_from_file(file_path)] *)
Definition load_file (fs : files) (path : string) : prog tool_state (DDSRouterConfiguration WildcardDdsFilterTopic) :=
  fun s =>
    let '(r, n) :=
      load_ddsrouter_configuration_from_file indeterminate (default_history_depth s.1.2) address fs path s.2 in
    (r, (s.1, n)).

(** The callbacks of the file watcher and of the timer *)
Definition reload_callback (fs : files) (path : string) : prog tool_state unit :=
  catch_all
    (conf ← load_file fs path;
     in_router (reload_configuration are_set_of_ptr_equal subscript_first (reload_part conf)) ;; mret tt)
    (mret tt).

(** What happens to the router from outside: endpoints discovered and removed, and
    anything else that changes the world only. *)
Inductive router_event : Type :=
| endpoint_discovered (e : Endpoint)
| endpoint_removed (e : Endpoint)
| world_changed (w : W).

(** What happens while the handlers are there; a reload reads the files there are then. *)
Inductive event : Type :=
| from_router (e : router_event)
| file_changed (fs : files)
| timer_raised (fs : files).

(** The callbacks of the discovery database run in [process_queue_], which catches the
    inconsistencies and lets nothing else leave. *)
Definition in_discovery (m : prog (router_state (F := WildcardDdsFilterTopic) (W := W)) unit) : prog tool_state unit :=
  noexcept (try_catch (in_router m) InconsistencyException (mret tt)).

Definition on_router_event (e : router_event) : prog tool_state unit :=
  match e with
  | endpoint_discovered e => in_discovery (discovered_endpoint_ subscript_first e)
  | endpoint_removed e => in_discovery (removed_endpoint_ e)
  | world_changed w => modify (fun s => ((s.1.1, w), s.2))
  end.

(** The timer exists only if there is a reload time. *)
Definition on_event (args : Arguments) (path : string) (e : event) : prog tool_state unit :=
  match e with
  | from_router e => on_router_event e
  | file_changed fs => reload_callback fs path
  | timer_raised fs => if (0 <? reload_time args)%Z then reload_callback fs path else mret tt
  end.

(** What happens before the router is started, until the program is asked to end, and after
    the router is stopped, when there are no handlers. *)
Record session : Type := mkSession {
  before_start : list event;
  while_running : list event;
  after_stop : list router_event
}.

(** From the router made to the end of its block *)
Definition run_session (args : Arguments) (path : string) (ev : session) : prog tool_state unit :=
  for_each (before_start ev) (on_event args path) ;;
  in_router (noexcept (start_ subscript_first)) ;;
  for_each (while_running ev) (on_event args path) ;;
  in_router (noexcept stop_) ;;
  for_each (after_stop ev) on_router_event ;;
  in_router router_destroy.

(** The block of [main]: the state is the world and the number of objects *)
Definition run_router (args : Arguments) (path : string) (fs : files) (ev : session) : prog (W * nat) unit := fun s =>
  match load_ddsrouter_configuration_from_file indeterminate (default_history_depth s.1) address fs path s.2 with
  | (Throw e, n) => (Throw e, (s.1, n))
  | (Ok conf, n) =>
      match router_construct subscript_first (router_initial conf, s.1) with
      | (Throw e, (_, w)) => (Throw e, (w, n))
      | (Ok tt, (r, w)) => let '(res, ((_, w'), n')) := run_session args path ev ((r, w), n) in (res, (w', n'))
      end
  end.

Definition DEFAULT_CONFIGURATION_FILE_NAME : string := "DDS_ROUTER_CONFIGURATION.yaml".

Definition default_arguments : Arguments := mkArguments "" 0 0 "DDSROUTER" Log_Warning.

Definition configuration_path (args : Arguments) : string :=
  if (file_path args =? "")%string then DEFAULT_CONFIGURATION_FILE_NAME else file_path args.

(** [main]; its result is the one of the process, and an exception is one that leaves it. *)
Definition main (argv : list string) (fs : files) (ev : session) : prog (W * nat) Z := fun s =>
  match parse_arguments argv default_arguments with
  | (Throw e, _) => (Throw e, s)
  | (Ok help_argument, _) | (Ok version_argument, _) => (Ok (return_code_value success), s)
  | (Ok success, args) =>
      let path := configuration_path args in
      if negb (is_file_accessible path) then (Ok (return_code_value required_argument_failed), s)
      else
        try_catch
          (try_catch (run_router args path fs ev ;; mret (return_code_value success))
             ConfigurationException (mret (return_code_value execution_failed)))
          InitializationException (mret (return_code_value execution_failed)) s
  | (Ok code, _) => (Ok (return_code_value code), s)
  end.

(** ** Properties *)

Context {SL : SharedSetsLaws}.

Lemma catch_all_throws {S A} (m h : prog S A) : throws_only only_ub h -> throws_only only_ub (catch_all m h).
Proof.
  intros Hh s e s'. unfold catch_all. destruct (m s) as [[a|[]] s1]; try done; try apply Hh. by intros [= <- <-].
Qed.

Lemma noexcept_throws {S A} (m : prog S A) : throws_only only_ub (noexcept m).
Proof. intros s e s'. unfold noexcept. destruct (m s) as [[a|x] s1]; [done|]. by intros [= <- <-]. Qed.

(** C25: a bad file does not touch the router.  When the configuration file changes, or the
    timer is raised, and the file cannot be read, is not well formed, or describes lists
    that are not valid, the callback returns and the router and the world are as they
    were. *)
Theorem bad_file_keeps_router fs path s :
  (forall conf n, load_ddsrouter_configuration_from_file indeterminate (default_history_depth s.1.2) address fs path s.2 =
     (Ok conf, n) -> reload_is_valid (reload_part conf) = false) ->
  exists n, reload_callback fs path s = (Ok tt, (s.1, n)).
Proof.
  intros Hbad. unfold reload_callback, catch_all, load_file, mbind, prog_bind.
  destruct (load_ddsrouter_configuration_from_file _ _ _ _ _ _) as [[conf|e] n] eqn:E; exists n.
  - unfold in_router, zoom. cbn [fst]. unfold reload_configuration. rewrite (Hbad _ _ eq_refl). cbn [negb throw].
    by destruct s.
  - by rewrite (load_throws _ _ _ _ _ _ _ _ E).
Qed.

Context {DE : DocumentedExceptions W}.




Section Session.
Context (args : Arguments) (path : string).
#[local] Notation configuration := (DDSRouterConfiguration WildcardDdsFilterTopic).













End Session.

(** ** main *)

Lemma reload_callback_throws fs path : throws_only only_ub (reload_callback fs path).
Proof. apply catch_all_throws, throws_ret. Qed.

Lemma router_event_throws e : throws_only only_ub (on_router_event e).
Proof. destruct e; [apply noexcept_throws..|apply throws_modify]. Qed.
#[local] Hint Resolve reload_callback_throws router_event_throws noexcept_throws destroy_throws : throws.

Lemma on_event_throws args path e : throws_only only_ub (on_event args path e).
Proof. unfold on_event. throws. Qed.
#[local] Hint Resolve on_event_throws : throws.

Lemma run_session_throws args path ev : throws_only only_ub (run_session args path ev).
Proof. unfold run_session, in_router. throws. Qed.

Lemma run_router_throws args path fs ev : throws_only config_init_or_ub (run_router args path fs ev).
Proof.
  intros [w n] e s'. unfold run_router. cbn [fst snd].
  destruct (load_ddsrouter_configuration_from_file _ _ _ _ _ _) as [[conf|x] n1] eqn:E.
  - destruct (router_construct _ _) as [[[]|x] [r w1]] eqn:Ec.
    + destruct (run_session _ _ _ _) as [res [[r' w'] n']] eqn:Es. intros [= -> _]. right. right.
      by eapply run_session_throws.
    + intros [= -> _]. by eapply construct_throws.
  - intros [= -> _]. left. by eapply load_throws.
Qed.

Context {LL : ToolLibrariesLaws}.

(** How the process ends after its block: with 0 if the block ends, with 20 if it throws
    what [main] catches. *)
Definition exits_as (block : outcome unit * (W * nat)) (process : outcome Z * (W * nat)) : Prop :=
  match block with
  | (Ok tt, s) => process = (Ok 0%Z, s)
  | (Throw UndefinedBehaviour, s) => process = (Throw UndefinedBehaviour, s)
  | (Throw e, s) => (e = ConfigurationException \/ e = InitializationException) /\ process = (Ok 20%Z, s)
  end.

Lemma exits_as_ok block process : exits_as block process -> is_ok block.1 = true -> exists s, process = (Ok 0%Z, s).
Proof. destruct block as [[[]|e] s]; [by exists s|done]. Qed.

(** C15: how the process ends.  With times that fit, [parse_arguments] returns and:
    asking for help or the version ends with 0, a command line that is not understood with
    10 (also when the file of [-c] cannot be read), a default configuration file that
    cannot be read with 11, without touching anything; then, if the configuration is
    refused or the router cannot be made, it ends with 20, and otherwise, when it is asked
    to end, with 0.  No exception of the block leaves [main], unless the run is undefined
    or an exception has left a [noexcept] method.  The constructors of the handlers of
    signals, files and timers, code of [cpp_utils], are not part of the block. *)
Theorem main_exit_codes argv fs ev s :
  numbers_fit argv ->
  exists code args, parse_arguments argv default_arguments = (Ok code, args) /\
    match code with
    | help_argument | version_argument => main argv fs ev s = (Ok 0%Z, s)
    | success =>
        let path := configuration_path args in
        if is_file_accessible path then exits_as (run_router args path fs ev s) (main argv fs ev s)
        else main argv fs ev s = (Ok 11%Z, s)
    | _ => code = incorrect_argument /\ main argv fs ev s = (Ok 10%Z, s)
    end.
Proof.
  intros Hfit. destruct (parse_run argv default_arguments Hfit) as (code & args & Hp & Hcode & _).
  exists code, args. split; [exact Hp|]. unfold main. rewrite Hp.
  destruct code; try done; [|exfalso; clear -Hcode; set_solver..]. cbv zeta.
  destruct (is_file_accessible (configuration_path args)); cbn [negb]; [|done].
  unfold exits_as, try_catch, mbind, prog_bind.
  destruct (run_router args (configuration_path args) fs ev s) as [[[]|e] s'] eqn:E; [done|].
  destruct (run_router_throws _ _ _ _ _ _ _ E) as [->|[->| ->]]; [by split; [left|]|by split; [right|]|done].
Qed.

End Tool.

(** ** Witnesses *)

Module ToolDemo.
#[local] Existing Instances Demo.cpp_utils Demo.fast_dds PoolDemo.malloc YamlDemo.yaml_cpp YamlDemo.shared_sets
  YamlDemo.shared_sets_laws RouterDemo.locator RouterDemo.world.
Export ToolLibrariesDemo.

#[export] Instance world_exceptions : DocumentedExceptions pworld.
Proof. apply pw_documented; [by intros c t w e [= <-]..|done]. Qed.

(** A participant of each of two kinds, and one topic allowed *)
Definition document (pattern : string) : Yaml :=
  let entry k v := (YScalar k, v) in
  YMap [entry VERSION_TAG (YScalar VERSION_TAG_V_3_0);
        entry ALLOWLIST_TAG (YSequence [YMap [entry TOPIC_NAME_TAG (YScalar pattern)]]);
        entry BUILTIN_TAG (YSequence
          [YMap [entry TOPIC_NAME_TAG (YScalar "rt/chatter"); entry TOPIC_TYPE_NAME_TAG (YScalar "std_msgs")]]);
        entry COLLECTION_PARTICIPANTS_TAG (YSequence
          [YMap [entry PARTICIPANT_NAME_TAG (YScalar "a"); entry PARTICIPANT_KIND_TAG (YScalar "dummy")];
           YMap [entry PARTICIPANT_NAME_TAG (YScalar "b"); entry PARTICIPANT_KIND_TAG (YScalar "echo")]])].

Definition disk (y : Yaml) : files := fun path => if (path =? "conf.yaml")%string then Some y else None.
Definition good : files := disk (document "rt/*").
Definition other : files := disk (document "other").
(** a sequence is not a configuration *)
Definition bad : files := disk (YSequence []).

Definition args : Arguments := mkArguments "conf.yaml" 7000 20000 "DDSROUTER" 2.

#[local] Notation eqs := (@RouterDemo.sets_equal WildcardDdsFilterTopic).
Definition state : Type := tool_state (W := pworld).
Definition event_of : event -> prog state unit := on_event eqs false v4 Z.of_nat (fun _ => 5000%Z) args "conf.yaml".

Definition loaded := load_ddsrouter_configuration_from_file v4 5000 Z.of_nat good "conf.yaml" 0.
Definition conf : DDSRouterConfiguration WildcardDdsFilterTopic :=
  match loaded.1 with Ok c => c | Throw _ => RouterDemo.conf end.

Definition made : RouterDemo.state := exec (router_construct false) (router_initial conf, RouterDemo.w0).
Definition before : list (event (W := pworld)) := [file_changed bad].
Definition running : list (event (W := pworld)) := [timer_raised good; file_changed other; timer_raised bad].
Definition s1 : state := exec (for_each before event_of) ((made.1, made.2), 0).
Definition s2 : state := exec (in_router (noexcept (start_ false))) s1.
Definition s3 : state := exec (for_each running event_of) s2.





End ToolDemo.

Section Witnesses.
Import ToolDemo.
#[local] Existing Instances Demo.cpp_utils Demo.fast_dds PoolDemo.malloc YamlDemo.yaml_cpp YamlDemo.shared_sets
  YamlDemo.shared_sets_laws RouterDemo.locator RouterDemo.world.
#[local] Notation eqs := (@RouterDemo.sets_equal WildcardDdsFilterTopic).

Lemma bad_refused :
  is_ok (load_ddsrouter_configuration_from_file v4 5000 Z.of_nat bad "conf.yaml" ToolDemo.s3.2).1 <> true.
Proof. vm_compute. discriminate. Qed.

Lemma bad_file_keeps_router_witness :
  exists n, reload_callback eqs false v4 Z.of_nat (fun _ => 5000%Z) bad "conf.yaml" ToolDemo.s3 = (Ok tt, (ToolDemo.s3.1, n)).
Proof.
  apply (bad_file_keeps_router eqs false v4 Z.of_nat (fun _ => 5000%Z) bad "conf.yaml" ToolDemo.s3).
  intros c n H. exfalso. exact (bad_refused (f_equal (fun r => is_ok r.1) H)).
Defined.



Lemma demo_run_ok :
  is_ok (run_router eqs false v4 Z.of_nat (fun _ => 5000%Z) args (configuration_path args) good (mkSession before running [])
    (RouterDemo.w0, 0)).1 = true.
Proof. vm_compute. reflexivity. Qed.

Lemma demo_accessible : is_file_accessible (configuration_path args) = true.
Proof. reflexivity. Qed.

Lemma demo_parse : parse_arguments command_line default_arguments = (Ok success, args).
Proof. vm_compute. reflexivity. Qed.

Lemma main_exit_codes_witness :
  exists s', main eqs false v4 Z.of_nat (fun _ => 5000%Z) command_line good (mkSession before running []) (RouterDemo.w0, 0) =
    (Ok 0%Z, s').
Proof.
  destruct (main_exit_codes eqs false v4 Z.of_nat (fun _ => 5000%Z) command_line good (mkSession before running [])
    (RouterDemo.w0, 0) command_line_fits) as (code & a & Hp & H).
  rewrite demo_parse in Hp. injection Hp as <- <-. cbv zeta in H. rewrite demo_accessible in H.
  exact (exits_as_ok _ _ H demo_run_ok).
Defined.

End Witnesses.
